(* ===== verification/_CoqProject ===== *)
-Q . S2P
Prelude.v
IoBytes.v
Flash.v
ConfigStore.v
Regmap.v
MbServer.v
MbTcp.v
Rtu.v
FwUpg.v
FwUdp.v
FwCan.v
UdpCfg.v
Calendar.v
Clock.v
IntFlash.v
BootCan.v
W25q.v
FlashMap.v
Lfs.v
HistoryFile.v
History.v
Io.v
Device.v
Log.v
WebJson.v
WebCmds.v
WsCrypto.v
Ws.v
Httpd.v
FtpText.v
Ftpd.v
ShellEdit.v
Shell.v
Macraw.v
