(* ===== verification/Prelude.v ===== *)
(** * io-edge-hub firmware: verification library

    The firmware of an Ethernet I/O module (STM32F407, FreeRTOS, lwIP): sixteen
    inputs, eight outputs and four analog channels offered as Modbus registers
    over TCP and RS485, configured over UDP and a web page, recording to a file
    system, upgraded over UDP, CAN and WebSocket, and started by a boot loader
    with a CAN rescue path.  This library models the C code under [src/src/] as
    Rocq functions and proves what makes it correct.  It is read bottom up: this
    file, then the files in the order of [_CoqProject].

    ** The parts, and where they are

    The base:
    - [Prelude]: machine integers ([is_u], [u8], [u16], [u32]; tactic [ulia]),
      byte buffers ([rd] reads, 0 outside; [splice], [slice]), decimal text, and
      the state monad [M] whose outcome is a value or [Reset], with its triples
      ([preserves], [triple], [runs]).
    - [IoBytes]: byte order helpers and both checksums ([util/io_bytes.c],
      [util/io_crc.c]).
    - [Flash]: the flash interface ([include/io_flash.h]) as a class, the
      partition table, the RAM device of the tests, a device that loses power.

    Settings and registers:
    - [ConfigStore]: the two-slot configuration ([storage/config_store.c]).
    - [Regmap]: the register model ([modbus/regmap.c]), against the class
      [IoHooks] of everything it calls ([include/io_hooks.h]).
    - [Io]: inputs, outputs, analog channels ([io/dio.c], [io/adc.c]).
    - [Calendar], [Clock]: the calendar of the C library, [sys/time.c].
    - [Device]: [IoHooks] discharged by the real modules, the start-up order of
      [main.c], the link monitor of [net/w5500.c], and all entry points together.

    Modbus:
    - [MbServer]: the PDU decoder ([modbus/mb_server.c]).
    - [MbTcp]: ADU layer and connections ([modbus/mbtcp_adu.c], [modbus/tcp.c]).
    - [Rtu]: frame machine and transport ([modbus/rtu_frame.c], [modbus/rtu.c]).

    Firmware upgrade:
    - [FwUpg]: the session ([fw/fw_upg.c]).
    - [FwUdp], [FwCan]: its channels ([fw/fw_udp.c]; [net/can.c], [fw/fw_can.c]).
    - [BootCan]: the boot loader's CAN rescue ([boot/boot_can.c]).
    - [IntFlash], [W25q], [FlashMap]: the flash drivers ([storage/intflash.c],
      [storage/w25qxx.c]), MCUboot's areas ([boot/mcuboot/]) and the block device
      of littlefs ([storage/lfs_port.c]).

    Recording and logging:
    - [Lfs]: littlefs as its callers see it, a class with its documented laws.
    - [HistoryFile], [History]: [history/history_file.c], [history/history.c].
    - [Log]: the asynchronous log ([sys/log.c]).

    Network services:
    - [UdpCfg]: the UDP configuration service ([net/udp_cfg.c], [net/udp_task.c]).
    - [WebJson], [WebCmds]: JSON and query helpers ([web/web_json.h]), pages and
      commands ([web/web_cmds.c]).
    - [WsCrypto]: SHA-1, Base64 and the WebSocket handshake ([web/ws.c]).

    ** How state and operations correspond

    A struct or the statics of a file are a [Record]; one C function is one
    definition of the same name, with its guards and early returns in the
    source's order; loops are structural or carry fuel.  Code that can reset the
    processor runs in [M].  A buffer is the list of its bytes; an integer is a
    [Z] whose width is written out where it is stored.  What several tasks or
    interrupts do concurrently is a step relation with one constructor per
    atomic step ([Rtu.rtu_step], [FwUdp.fu_step], [History.hist_step],
    [Log.log_step]).

    ** What is a parameter

    Code that is not under [src/src/] is a class with one operation per call, and
    its documented behaviour is a class of laws: the flash ([FlashLaws]), the
    vendor HAL ([HalFlashLaws], [RtcLaws]), the SPI flash chip ([SpiNorLaws]),
    littlefs ([LfsLaws]).  lwIP and bxCAN have no laws: the theorems hold for every answer
    they give.  The key hash, the version numbers and [boot_set_pending] (MCUboot)
    are arguments.  Each class has an executable instance, and each property
    with hypotheses a witness at a concrete input.

    ** What the theorems show

    - Settings: a save survives power loss at any point; damage is noticed; what
      Modbus saves is there after a restart ([ConfigStore], [Regmap], [Device]).
    - Modbus: the reply to every request, branch by branch; registers and
      replies keep their types; reassembly equals handling bytes one at a time;
      frames with damage are dropped; the transports stay in bounds.
    - Outputs and inputs: pins, register and coils agree at all times; what was
      sampled is what is reported.
    - Upgrade: every channel stores exactly the image, in spite of loss,
      repetition and reordering; only an image with the device's key hash is
      accepted; the boot loader's wait ends.
    - Recording and logging: samples are appended in order and byte for byte;
      the log is a queue of whole lines, and it drains.
    - Flash: the drivers implement the interface the clients were proved against.
    - Web: fields come through the parser as sent; commands return and write
      what they say; the handshake is the one of the standards.

    ** Bounds and fuel

    Fuel is always a number the loop provably does not exceed: the length of the
    data ([FwUpg.write_loop], [WsCrypto.update_loop]), the words of a sector, the
    digits of a 32-bit number.  The loops of the boot loader run on the list of
    polls they make, and their end is a theorem ([BootCan.boot_can_wait_ends]).

    ** Not modelled

    - Pin, clock, interrupt and DMA set-up, task and queue creation, and
      [watchdog_feed]: single HAL or RTOS calls without state of the program.
    - [net/w5500_macraw.c], [net/sys_arch.c], the rest of [net/w5500.c]: glue
      between lwIP, ioLibrary and FreeRTOS, whose behaviour is theirs.
    - [web/httpd.c], the session part of [web/ws.c], [net/ftpd.c],
      [sys/shell.c], [boot/boot_uart.c]: next in the plan, in this order.
    - Timing inside an entry point of [Device]: each runs as a whole there; where
      the source leaves a gap between two steps the manifest's findings say so. *)

From Stdlib Require Export ZArith Lia ZifyBool.
From stdpp Require Export base list numbers option.

#[global] Open Scope Z_scope.

(** ** Machine integers: a [w]-bit unsigned integer is a [Z] in range *)

Definition u8 (z : Z) : Z := z mod 256.
Definition u16 (z : Z) : Z := z mod 65536.
Definition u32 (z : Z) : Z := z mod 4294967296.

Definition is_u (w z : Z) : Prop := 0 ≤ z < 2 ^ w.
Abbreviation is_byte := (is_u 8).
Abbreviation is_u16 := (is_u 16).
Abbreviation is_u32 := (is_u 32).
Abbreviation bytes_ok := (Forall (is_u 8)).

#[export] Instance is_u_dec w z : Decision (is_u w z).
Proof. unfold is_u. apply _. Defined.

Lemma is_u_eq w n z : 2 ^ w = n → is_u w z ↔ 0 ≤ z < n.
Proof. intros <-. reflexivity. Qed.

Lemma is_byte_iff z : is_byte z ↔ 0 ≤ z < 256.
Proof. by apply is_u_eq. Qed.
Lemma is_u16_iff z : is_u16 z ↔ 0 ≤ z < 65536.
Proof. by apply is_u_eq. Qed.
Lemma is_u32_iff z : is_u32 z ↔ 0 ≤ z < 4294967296.
Proof. by apply is_u_eq. Qed.

(** Turn every range fact into linear arithmetic and finish with [lia]. *)
Ltac unfold_u :=
  rewrite ?is_byte_iff, ?is_u16_iff, ?is_u32_iff in *;
  unfold u8, u16, u32 in *.
Ltac ulia := unfold_u; first [lia | Z.div_mod_to_equations; lia].

Create HintDb uint.
Create Rewrite HintDb widths.

Lemma u8_range z : is_byte (u8 z). Proof. ulia. Qed.
Lemma u16_range z : is_u16 (u16 z). Proof. ulia. Qed.
Lemma u32_range z : is_u32 (u32 z). Proof. ulia. Qed.
Lemma u8_id z : is_byte z → u8 z = z. Proof. intros; unfold_u; by apply Z.mod_small. Qed.
Lemma u16_id z : is_u16 z → u16 z = z. Proof. intros; unfold_u; by apply Z.mod_small. Qed.
Lemma u32_id z : is_u32 z → u32 z = z. Proof. intros; unfold_u; by apply Z.mod_small. Qed.
Lemma byte_u16 z : is_byte z → is_u16 z. Proof. ulia. Qed.
Lemma u16_u32 z : is_u16 z → is_u32 z. Proof. ulia. Qed.
Lemma u16_u8 z : u8 (u16 z) = u8 z.
Proof. unfold u8, u16. apply Z.mod_mod_divide. by exists 256. Qed.

#[export] Hint Resolve u8_range u16_range u32_range byte_u16 u16_u32 : uint.
#[export] Hint Rewrite u8_id u16_id u32_id using (first [assumption | ulia]) : widths.

(** ** Bit operations as arithmetic *)

Lemma shiftr_div a n : 0 ≤ n → Z.shiftr a n = a / 2 ^ n.
Proof. apply Z.shiftr_div_pow2. Qed.

Lemma land_low_zero n a b : 0 ≤ n → 0 ≤ b < 2 ^ n → Z.land (Z.shiftl a n) b = 0.
Proof.
  intros Hn Hb. apply Z.bits_inj'. intros i Hi.
  rewrite Z.land_spec, Z.shiftl_spec, Z.bits_0 by lia.
  destruct (decide (i < n)) as [Hin|Hin].
  - rewrite (Z.testbit_neg_r a (i - n)) by lia. reflexivity.
  - rewrite <- (Z.mod_small b (2 ^ n)) by lia.
    rewrite Z.mod_pow2_bits_high by lia. apply andb_false_r.
Qed.

Lemma lor_shiftl_add n a b :
  0 ≤ n → 0 ≤ b < 2 ^ n → Z.lor (Z.shiftl a n) b = a * 2 ^ n + b.
Proof.
  intros Hn Hb.
  rewrite <- Z.lxor_lor by (by apply land_low_zero).
  rewrite <- Z.add_nocarry_lxor by (by apply land_low_zero).
  by rewrite Z.shiftl_mul_pow2.
Qed.

Lemma lxor_lt w a b : 0 ≤ w → is_u w a → is_u w b → is_u w (Z.lxor a b).
Proof.
  intros Hw [Ha Ha'] [Hb Hb'].
  assert (0 ≤ Z.lxor a b) as Hnn by (apply Z.lxor_nonneg; split; lia).
  split; [done|].
  destruct (decide (Z.lxor a b = 0)) as [->|Hne]; [apply Z.pow_pos_nonneg; lia|].
  apply Z.log2_lt_pow2; [lia|].
  eapply Z.le_lt_trans; [by apply Z.log2_lxor|].
  destruct (decide (w = 0)) as [->|Hw0].
  { replace a with 0 in * by lia. replace b with 0 in * by lia. done. }
  apply Z.max_lub_lt.
  - destruct (decide (a = 0)) as [->|]; [simpl; lia|]. apply Z.log2_lt_pow2; lia.
  - destruct (decide (b = 0)) as [->|]; [simpl; lia|]. apply Z.log2_lt_pow2; lia.
Qed.

Lemma is_u_bits w z : 0 ≤ w → 0 ≤ z → (∀ i, w ≤ i → Z.testbit z i = false) → is_u w z.
Proof.
  intros Hw Hz Hb. split; [done|].
  rewrite <- (Z.mod_small z (2 ^ w)) at 1; [apply Z.mod_pos_bound; lia|].
  split; [done|]. destruct (decide (z = 0)) as [->|]; [lia|].
  apply Z.log2_lt_pow2; [lia|].
  destruct (decide (w ≤ Z.log2 z)) as [Hl|]; [|lia].
  specialize (Hb _ Hl). rewrite Z.bit_log2 in Hb by lia. done.
Qed.

Lemma testbit_high w z i : is_u w z → 0 ≤ w ≤ i → Z.testbit z i = false.
Proof.
  intros [Hz Hz'] Hi. rewrite <- (Z.mod_small z (2 ^ w)) by lia.
  apply Z.mod_pow2_bits_high; lia.
Qed.

Lemma lor_range w a b : 0 ≤ w → is_u w a → is_u w b → is_u w (Z.lor a b).
Proof.
  intros Hw Ha Hb. apply is_u_bits; [done|apply Z.lor_nonneg; split; apply Ha || apply Hb|].
  intros i Hi. rewrite Z.lor_spec, (testbit_high w a), (testbit_high w b) by (done || lia). done.
Qed.

Lemma land_range w a b : 0 ≤ w → 0 ≤ a → is_u w b → is_u w (Z.land a b).
Proof.
  intros Hw Ha Hb. apply is_u_bits; [done|apply Z.land_nonneg; by left|].
  intros i Hi. rewrite Z.land_spec, (testbit_high w b) by (done || lia). apply andb_false_r.
Qed.

(** ** Decimal text: [%d] of a non-negative [int] *)

Fixpoint dec_digits (fuel : nat) (n : Z) (acc : list Z) : list Z :=
  match fuel with
  | O => acc
  | S fuel => if n <? 10 then 48 + n :: acc else dec_digits fuel (n / 10) (48 + n mod 10 :: acc)
  end.

(** twenty digits hold any machine integer *)
Definition dec (n : Z) : list Z := dec_digits 20 n [].

(** ** Byte buffers *)

(** [buf[i]]; a read past the end of the modelled contents yields 0 *)
Definition rd (buf : list Z) (i : nat) : Z := default 0 (buf !! i).

(** [memcpy(dst, &buf[off], n)] *)
Definition slice (off n : nat) (buf : list Z) : list Z := take n (drop off buf).

(** [memcpy(&buf[off], src, |src|)] *)
Definition splice (off : nat) (src buf : list Z) : list Z :=
  take off buf ++ src ++ drop (off + length src) buf.

Definition zlen {A} (l : list A) : Z := Z.of_nat (length l).

Lemma zlen_app {A} (l k : list A) : zlen (l ++ k) = zlen l + zlen k.
Proof. unfold zlen. rewrite length_app. lia. Qed.
Lemma zlen_nonneg {A} (l : list A) : 0 ≤ zlen l.
Proof. unfold zlen. lia. Qed.

(** bit [i] of a buffer, bits numbered from the low end of each byte *)
Definition dbit (data : list Z) (i : Z) : bool := Z.testbit (rd data (Z.to_nat (i / 8))) (i mod 8).

Lemma rd_byte buf i : bytes_ok buf → is_byte (rd buf i).
Proof.
  intros H. unfold rd. destruct (buf !! i) as [b|] eqn:E; simpl; [|ulia].
  by eapply Forall_lookup_1.
Qed.
#[export] Hint Resolve rd_byte : uint.

Lemma rd_insert_eq l i v : (i < length l)%nat → rd (<[i:=v]> l) i = v.
Proof. intros. unfold rd. by rewrite list_lookup_insert_eq. Qed.
Lemma rd_insert_ne l i j v : i ≠ j → rd (<[i:=v]> l) j = rd l j.
Proof. intros. unfold rd. by rewrite list_lookup_insert_ne. Qed.
Lemma rd_replicate_0 n i : rd (replicate n 0) i = 0.
Proof.
  unfold rd. destruct (replicate n 0 !! i) eqn:El; [|done].
  by apply lookup_replicate in El as [-> _].
Qed.
Lemma rd_cons_0 b l : rd (b :: l) 0 = b.
Proof. reflexivity. Qed.
Lemma rd_cons_S b l i : rd (b :: l) (S i) = rd l i.
Proof. reflexivity. Qed.
Lemma rd_app_l l1 l2 i : (i < length l1)%nat → rd (l1 ++ l2) i = rd l1 i.
Proof. intros. unfold rd. by rewrite lookup_app_l. Qed.
Lemma rd_app_r l1 l2 i : (length l1 ≤ i)%nat → rd (l1 ++ l2) i = rd l2 (i - length l1).
Proof. intros. unfold rd. by rewrite lookup_app_r. Qed.
Lemma rd_drop l n i : rd (drop n l) i = rd l (n + i).
Proof. unfold rd. by rewrite lookup_drop. Qed.
Lemma rd_drop_sub l n i : (n ≤ i)%nat → rd (drop n l) (i - n) = rd l i.
Proof. intros. rewrite rd_drop. f_equal. lia. Qed.
Lemma rd_take l n i : (i < n)%nat → rd (take n l) i = rd l i.
Proof. intros. unfold rd. by rewrite lookup_take_lt. Qed.

Lemma dbit_zeros n i : dbit (replicate n 0) i = false.
Proof. unfold dbit. rewrite rd_replicate_0. apply Z.bits_0. Qed.

Lemma dbit_set data k i :
  0 ≤ k → k / 8 < zlen data → 0 ≤ i →
  dbit (<[Z.to_nat (k / 8) := Z.lor (rd data (Z.to_nat (k / 8))) (2 ^ (k mod 8))]> data) i
  = (i =? k) || dbit data i.
Proof.
  intros Hk Hl Hi. unfold dbit, zlen in *.
  destruct (decide (i / 8 = k / 8)) as [E|E].
  - rewrite E, rd_insert_eq by (pose proof (Z.div_pos k 8); lia).
    rewrite Z.lor_spec, Z.pow2_bits_eqb by (apply Z.mod_pos_bound; lia).
    rewrite orb_comm. f_equal.
    destruct (Z.eqb_spec i k); destruct (Z.eqb_spec (k mod 8) (i mod 8)); try done; exfalso.
    + by subst.
    + pose proof (Z.div_mod i 8). pose proof (Z.div_mod k 8). lia.
  - rewrite rd_insert_ne by (pose proof (Z.div_pos i 8); pose proof (Z.div_pos k 8); lia).
    destruct (Z.eqb_spec i k); [by subst|done].
Qed.

Lemma length_splice off src buf :
  (off + length src ≤ length buf)%nat → length (splice off src buf) = length buf.
Proof. intros. unfold splice. rewrite !length_app, length_take, length_drop. lia. Qed.

Lemma length_slice off n buf :
  (off + n ≤ length buf)%nat → length (slice off n buf) = n.
Proof. intros. unfold slice. rewrite length_take, length_drop. lia. Qed.

Lemma take_splice off src buf :
  (off ≤ length buf)%nat →
  take (off + length src) (splice off src buf) = take off buf ++ src.
Proof.
  intros. unfold splice. rewrite app_assoc.
  rewrite take_app_le by (rewrite length_app, length_take; lia).
  apply take_ge. rewrite length_app, length_take. lia.
Qed.

Lemma rd_splice off src buf i :
  (off + length src ≤ length buf)%nat →
  rd (splice off src buf) i = if decide (off ≤ i < off + length src)%nat then rd src (i - off) else rd buf i.
Proof.
  intros Hl. unfold splice. assert (length (take off buf) = off) as Ho by (rewrite length_take; lia).
  destruct (decide (i < off)%nat) as [H1|H1].
  { rewrite decide_False by lia. rewrite rd_app_l by lia. by rewrite rd_take by lia. }
  rewrite rd_app_r, Ho by lia. destruct (decide _) as [H2|H2].
  - by rewrite rd_app_l by lia.
  - rewrite rd_app_r, rd_drop by lia. f_equal. lia.
Qed.

Lemma rd_slice off n buf i : (i < n)%nat → rd (slice off n buf) i = rd buf (off + i).
Proof. intros. unfold slice. by rewrite rd_take, rd_drop by done. Qed.

Lemma bytes_ok_slice off n buf : bytes_ok buf → bytes_ok (slice off n buf).
Proof. intros. by apply Forall_take, Forall_drop. Qed.
Lemma bytes_ok_splice off src buf :
  bytes_ok src → bytes_ok buf → bytes_ok (splice off src buf).
Proof. intros. unfold splice. rewrite !Forall_app. auto using Forall_take, Forall_drop. Qed.
#[export] Hint Resolve bytes_ok_slice bytes_ok_splice : uint.

(** ** Effects: state passing with a system reset

    [io_reboot_cold] ends in [NVIC_SystemReset] and does not return: a
    computation either returns ([Done]) or the processor was reset while it
    ran ([Reset]), after which no further statement executes. *)

Inductive outcome (A : Type) : Type := Done (a : A) | Reset.
Arguments Done {A} a.
Arguments Reset {A}.

Definition M (S A : Type) : Type := S → outcome A * S.

#[export] Instance M_ret {S} : MRet (M S) := λ A a s, (Done a, s).
#[export] Instance M_bind {S} : MBind (M S) := λ A B f m s,
  match m s with
  | (Done a, s') => f a s'
  | (Reset, s') => (Reset, s')
  end.

Section Effects.
Context {S : Type}.

Definition gets {A} (f : S → A) : M S A := λ s, (Done (f s), s).
Definition modify (f : S → S) : M S unit := λ s, (Done tt, f s).
Definition sys_reset {A} : M S A := λ s, (Reset, s).

(** run a computation of a part of the state *)
Definition zoom {T A} (get : S → T) (put : T → S → S) (m : M T A) : M S A :=
  λ s, let '(r, t) := m (get s) in (r, put t s).

Lemma bind_done {A B} (m : M S A) (f : A → M S B) s a s' :
  m s = (Done a, s') → (m ≫= f) s = f a s'.
Proof. intros H. unfold mbind, M_bind. by rewrite H. Qed.

Lemma bind_assoc {A B C} (m : M S A) (f : A → M S B) (g : B → M S C) s :
  ((m ≫= f) ≫= g) s = (m ≫= λ a, f a ≫= g) s.
Proof. unfold mbind, M_bind. destruct (m s) as [[a|] s']; done. Qed.

Lemma bind_reset {A B} (m : M S A) (f : A → M S B) s s' :
  m s = (Reset, s') → (m ≫= f) s = (Reset, s').
Proof. intros H. unfold mbind, M_bind. by rewrite H. Qed.

Lemma bind_inv {A B} (m : M S A) (f : A → M S B) s b s2 :
  (m ≫= f) s = (Done b, s2) →
  ∃ a s1, m s = (Done a, s1) ∧ f a s1 = (Done b, s2).
Proof.
  unfold mbind, M_bind. destruct (m s) as [[a|] s1]; intros H; [|done]. eauto.
Qed.

(** [m] preserves [P], whether it returns or resets *)
Definition preserves {A} (P : S → Prop) (m : M S A) : Prop :=
  ∀ s, P s → P (m s).2.

Lemma preserves_ret {A} P (a : A) : preserves P (mret a).
Proof. intros s Hs. exact Hs. Qed.
Lemma preserves_bind {A B} P (m : M S A) (f : A → M S B) :
  preserves P m → (∀ a, preserves P (f a)) → preserves P (m ≫= f).
Proof.
  intros Hm Hf s Hs. specialize (Hm s Hs). unfold mbind, M_bind.
  destruct (m s) as [[a|] s']; [by apply Hf|done].
Qed.
Lemma preserves_gets {A} P (f : S → A) : preserves P (gets f).
Proof. intros s Hs. exact Hs. Qed.
Lemma preserves_modify P f : (∀ s, P s → P (f s)) → preserves P (modify f).
Proof. intros H s Hs. by apply H. Qed.
Lemma preserves_reset {A} P : preserves P (@sys_reset A).
Proof. intros s Hs. exact Hs. Qed.
End Effects.

Create HintDb effects.
#[export] Hint Resolve preserves_ret preserves_gets preserves_reset : effects.

(** Walk through a monadic body: binds, conditionals, then the leaves. *)
Ltac solve_preserves :=
  repeat first
    [ progress intros
    | apply preserves_bind
    | solve [auto with effects]
    | case_match ].

Lemma preserves_result {S A} (P : S → Prop) (m : M S A) s r s' :
  preserves P m → P s → m s = (r, s') → P s'.
Proof. intros Hm Hs E. specialize (Hm s Hs). by rewrite E in Hm. Qed.

(** ** Hoare triples over [M]

    [triple P m Q]: from a state in [P], if [m] returns [a] then the result and
    the new state are in [Q].  Nothing is said of the state left by a reset. *)

Definition triple {S A} (P : S → Prop) (m : M S A) (Q : A → S → Prop) : Prop :=
  ∀ s, P s → match m s with (Done a, s') => Q a s' | (Reset, _) => True end.

Section Triples.
Context {S : Type}.
Implicit Types (P : S → Prop).

Lemma triple_ret {A} P (a : A) (Q : A → S → Prop) :
  (∀ s, P s → Q a s) → triple P (mret a) Q.
Proof. intros HQ s Hs. by apply HQ. Qed.

Lemma triple_bind {A B} P (m : M S A) (f : A → M S B) (R : A → S → Prop) (Q : B → S → Prop) :
  triple P m R → (∀ a, triple (R a) (f a) Q) → triple P (m ≫= f) Q.
Proof.
  intros Hm Hf s Hs. specialize (Hm s Hs). unfold mbind, M_bind.
  destruct (m s) as [[a|] s']; [by apply Hf|done].
Qed.

Lemma triple_modify P (f : S → S) (Q : unit → S → Prop) :
  (∀ s, P s → Q tt (f s)) → triple P (modify f) Q.
Proof. intros HQ s Hs. by apply HQ. Qed.

Lemma triple_conseq {A} P P' (m : M S A) (Q Q' : A → S → Prop) :
  triple P' m Q' → (∀ s, P s → P' s) → (∀ a s, Q' a s → Q a s) → triple P m Q.
Proof.
  intros Hm HP HQ s Hs. specialize (Hm s (HP s Hs)).
  destruct (m s) as [[a|] s']; [by apply HQ|done].
Qed.

Lemma triple_run {A} P (m : M S A) (Q : A → S → Prop) s a s' :
  triple P m Q → P s → m s = (Done a, s') → Q a s'.
Proof. intros Hm Hs E. specialize (Hm s Hs). by rewrite E in Hm. Qed.

Lemma triple_reset {A} P (Q : A → S → Prop) : triple P sys_reset Q.
Proof. by intros s _. Qed.

Lemma triple_preserves {A} P (m : M S A) : preserves P m → triple P m (λ _, P).
Proof. intros Hm s Hs. specialize (Hm s Hs). by destruct (m s) as [[a|] s']. Qed.
End Triples.

(** ** Total triples

    [runs P m Q]: from a state in [P], [m] returns, and the result and the new
    state are in [Q]. *)

Definition runs {S A} (P : S → Prop) (m : M S A) (Q : A → S → Prop) : Prop :=
  ∀ s, P s → ∃ a s', m s = (Done a, s') ∧ Q a s'.

Section Runs.
Context {S : Type}.
Implicit Types (P : S → Prop).

Lemma runs_ret {A} P (a : A) (Q : A → S → Prop) : (∀ s, P s → Q a s) → runs P (mret a) Q.
Proof. intros HQ s Hs. eexists _, _. split; [reflexivity|by apply HQ]. Qed.

Lemma runs_bind {A B} P (m : M S A) (f : A → M S B) (R : A → S → Prop) (Q : B → S → Prop) :
  runs P m R → (∀ a, runs (R a) (f a) Q) → runs P (m ≫= f) Q.
Proof.
  intros Hm Hf s Hs. destruct (Hm s Hs) as (a & s1 & E & Hr). destruct (Hf a s1 Hr) as (b & s2 & E2 & Hq).
  exists b, s2. by rewrite (bind_done _ _ _ _ _ E).
Qed.

Lemma runs_modify P (f : S → S) (Q : unit → S → Prop) : (∀ s, P s → Q tt (f s)) → runs P (modify f) Q.
Proof. intros HQ s Hs. eexists _, _. split; [reflexivity|by apply HQ]. Qed.

Lemma runs_gets {A} P (f : S → A) (Q : A → S → Prop) : (∀ s, P s → Q (f s) s) → runs P (gets f) Q.
Proof. intros HQ s Hs. eexists _, _. split; [reflexivity|by apply HQ]. Qed.

Lemma runs_pre {A} P P' (m : M S A) (Q : A → S → Prop) : runs P' m Q → (∀ s, P s → P' s) → runs P m Q.
Proof. intros Hm HP s Hs. by apply Hm, HP. Qed.

Lemma runs_post {A} P (m : M S A) (Q Q' : A → S → Prop) :
  runs P m Q → (∀ a s, Q a s → Q' a s) → runs P m Q'.
Proof. intros Hm HQ s Hs. destruct (Hm s Hs) as (a & s' & E & H). eauto. Qed.
End Runs.

(** ** Memories as functions: [n] consecutive cells from [a] *)

Definition bytes_at (g : Z → Z) (a : Z) (n : nat) : list Z := (λ i, g (a + Z.of_nat i)) <$> seq 0 n.

Lemma length_bytes_at g a n : length (bytes_at g a n) = n.
Proof. unfold bytes_at. by rewrite length_fmap, length_seq. Qed.

Lemma bytes_at_app g a n m : bytes_at g a (n + m) = bytes_at g a n ++ bytes_at g (a + Z.of_nat n) m.
Proof.
  unfold bytes_at. rewrite seq_app, fmap_app. f_equal.
  replace (0 + n)%nat with (n + 0)%nat by lia. rewrite <- fmap_add_seq, <- list_fmap_compose.
  apply list_fmap_ext. intros i x _. simpl. f_equal. lia.
Qed.

Lemma bytes_at_ext g g' a n :
  (∀ x, a ≤ x < a + Z.of_nat n → g x = g' x) → bytes_at g a n = bytes_at g' a n.
Proof.
  intros Hx. apply list_fmap_ext. intros i x Hi. apply lookup_seq in Hi as [-> Hi]. apply Hx. lia.
Qed.

Lemma lookup_bytes_at g a n i : (i < n)%nat → bytes_at g a n !! i = Some (g (a + Z.of_nat i)).
Proof. intros. unfold bytes_at. by rewrite list_lookup_fmap, lookup_seq_lt. Qed.

Lemma bytes_at_eq g a bs :
  (∀ i, (i < length bs)%nat → g (a + Z.of_nat i) = rd bs i) → bytes_at g a (length bs) = bs.
Proof.
  intros Hg. apply list_eq_same_length with (length bs); rewrite ?length_bytes_at; [done..|].
  intros i x y Hi. rewrite lookup_bytes_at by done. intros [= <-] Hy. rewrite Hg by done. unfold rd. by rewrite Hy.
Qed.
