(* ===== verification/IoBytes.v ===== *)
(** Byte order helpers and checksums: [src/util/io_bytes.c],
    [src/util/io_crc.c], and the static little-endian helpers of
    [config_store.c], [fw_udp.c].  A pointer argument is the byte list it
    points to; a [put] function returns the bytes it stores, in address
    order, and its caller splices them into the destination buffer.
    The checksum theory (the register is linear and injective, so a burst no
    longer than the register is always seen) serves the RTU frame check and
    the configuration records. *)

From S2P Require Import Prelude.

(** ** Byte order ([io_bytes.c]) *)

Definition io_get_be16 (p : list Z) : Z :=
  u16 (Z.lor (Z.shiftl (rd p 0) 8) (rd p 1)).

Definition io_get_be32 (p : list Z) : Z :=
  u32 (Z.lor (Z.lor (Z.lor (Z.shiftl (rd p 0) 24) (Z.shiftl (rd p 1) 16))
                    (Z.shiftl (rd p 2) 8)) (rd p 3)).

Definition io_get_le32 (p : list Z) : Z :=
  u32 (Z.lor (Z.lor (Z.lor (Z.shiftl (rd p 3) 24) (Z.shiftl (rd p 2) 16))
                    (Z.shiftl (rd p 1) 8)) (rd p 0)).

Definition io_put_be16 (v : Z) : list Z := [u8 (Z.shiftr v 8); u8 v].

Definition io_put_be32 (v : Z) : list Z :=
  [u8 (Z.shiftr v 24); u8 (Z.shiftr v 16); u8 (Z.shiftr v 8); u8 v].

Definition io_put_le32 (v : Z) : list Z :=
  [u8 v; u8 (Z.shiftr v 8); u8 (Z.shiftr v 16); u8 (Z.shiftr v 24)].

(** ** 16-bit little-endian helpers ([config_store.c]) *)

Definition put_le16 (v : Z) : list Z := [u8 (Z.land v 0xFF); u8 (Z.shiftr v 8)].

Definition get_le16 (p : list Z) : Z :=
  u16 (Z.lor (rd p 0) (Z.shiftl (rd p 1) 8)).

(** ** Checksums ([io_crc.c]) *)

(** one turn of the inner loop: shift right, feed back on the low bit *)
Definition crc_bit (poly crc : Z) : Z :=
  if Z.land crc 1 =? 0 then Z.shiftr crc 1 else Z.lxor (Z.shiftr crc 1) poly.

(** one turn of the outer loop: fold one byte in, eight inner turns *)
Definition crc_byte (poly crc d : Z) : Z :=
  Nat.iter 8 (crc_bit poly) (Z.lxor crc d).

Definition crc16_modbus (data : list Z) : Z :=
  fold_left (crc_byte 0xA001) data 0xFFFF.

Definition crc32_ieee (data : list Z) : Z :=
  Z.lxor (fold_left (crc_byte 0xEDB88320) data 0xFFFFFFFF) 0xFFFFFFFF.

(** ** Byte order: arithmetic readings and round trips *)

Section ByteOrder.
Lemma be16_arith a b :
  is_byte a → is_byte b → io_get_be16 [a; b] = a * 256 + b.
Proof.
  intros. unfold io_get_be16. simpl. unfold rd; simpl.
  rewrite lor_shiftl_add by ulia. rewrite u16_id; ulia.
Qed.

Lemma le16_arith a b :
  is_byte a → is_byte b → get_le16 [a; b] = a + 256 * b.
Proof.
  intros. unfold get_le16, rd; simpl. rewrite Z.lor_comm.
  rewrite lor_shiftl_add by ulia. rewrite u16_id; ulia.
Qed.

Lemma lor4_arith a b c d :
  is_byte a → is_byte b → is_byte c → is_byte d →
  Z.lor (Z.lor (Z.lor (Z.shiftl a 24) (Z.shiftl b 16)) (Z.shiftl c 8)) d
  = a * 16777216 + b * 65536 + c * 256 + d.
Proof.
  intros Ha Hb Hc Hd. rewrite <- !Z.lor_assoc.
  rewrite (lor_shiftl_add 8 c d) by ulia.
  rewrite (lor_shiftl_add 16 b) by ulia.
  rewrite (lor_shiftl_add 24 a) by ulia. lia.
Qed.

Lemma be32_arith a b c d :
  is_byte a → is_byte b → is_byte c → is_byte d →
  io_get_be32 [a; b; c; d] = a * 16777216 + b * 65536 + c * 256 + d.
Proof.
  intros. unfold io_get_be32, rd; simpl. rewrite lor4_arith by done.
  apply u32_id. ulia.
Qed.

Lemma le32_arith a b c d :
  is_byte a → is_byte b → is_byte c → is_byte d →
  io_get_le32 [a; b; c; d] = d * 16777216 + c * 65536 + b * 256 + a.
Proof.
  intros. unfold io_get_le32, rd; simpl. rewrite lor4_arith by done.
  apply u32_id. ulia.
Qed.

Lemma put_be16_bytes v : bytes_ok (io_put_be16 v).
Proof. repeat constructor; apply u8_range. Qed.
Lemma put_be32_bytes v : bytes_ok (io_put_be32 v).
Proof. repeat constructor; apply u8_range. Qed.
Lemma put_le32_bytes v : bytes_ok (io_put_le32 v).
Proof. repeat constructor; apply u8_range. Qed.
Lemma put_le16_bytes v : bytes_ok (put_le16 v).
Proof. repeat constructor; apply u8_range. Qed.

Lemma get_be16_u16 p : is_u16 (io_get_be16 p). Proof. apply u16_range. Qed.
Lemma get_le16_u16 p : is_u16 (get_le16 p). Proof. apply u16_range. Qed.
Lemma get_be32_u32 p : is_u32 (io_get_be32 p). Proof. apply u32_range. Qed.
Lemma get_le32_u32 p : is_u32 (io_get_le32 p). Proof. apply u32_range. Qed.

Lemma be16_roundtrip v : is_u16 v → io_get_be16 (io_put_be16 v) = v.
Proof.
  intros. unfold io_put_be16. rewrite be16_arith by apply u8_range.
  rewrite shiftr_div by lia. ulia.
Qed.

Lemma le16_roundtrip v : is_u16 v → get_le16 (put_le16 v) = v.
Proof.
  intros. unfold put_le16. rewrite le16_arith by apply u8_range.
  change 0xFF with (Z.ones 8). rewrite Z.land_ones, shiftr_div by lia.
  change (2 ^ 8) with 256. ulia.
Qed.

Lemma be32_roundtrip v : is_u32 v → io_get_be32 (io_put_be32 v) = v.
Proof.
  intros. unfold io_put_be32. rewrite be32_arith by apply u8_range.
  rewrite !shiftr_div by lia. ulia.
Qed.

Lemma le32_roundtrip v : is_u32 v → io_get_le32 (io_put_le32 v) = v.
Proof.
  intros. unfold io_put_le32. rewrite le32_arith by apply u8_range.
  rewrite !shiftr_div by lia. ulia.
Qed.

Lemma le32_bytes a b c d :
  is_byte a → is_byte b → is_byte c → is_byte d → io_put_le32 (io_get_le32 [a; b; c; d]) = [a; b; c; d].
Proof.
  intros. rewrite le32_arith by done. unfold io_put_le32. rewrite !shiftr_div by lia.
  f_equal; [|f_equal; [|f_equal; [|f_equal]]]; ulia.
Qed.

(** only the first two (four) bytes are read *)
Lemma get_be16_app a b l : io_get_be16 (a :: b :: l) = io_get_be16 [a; b].
Proof. reflexivity. Qed.
Lemma get_le16_app a b l : get_le16 (a :: b :: l) = get_le16 [a; b].
Proof. reflexivity. Qed.
Lemma get_le32_app a b c d l : io_get_le32 (a :: b :: c :: d :: l) = io_get_le32 [a; b; c; d].
Proof. reflexivity. Qed.
Lemma get_be32_app a b c d l : io_get_be32 (a :: b :: c :: d :: l) = io_get_be32 [a; b; c; d].
Proof. reflexivity. Qed.

Lemma get_be16_put v l : is_u16 v → io_get_be16 (io_put_be16 v ++ l) = v.
Proof. intros. unfold io_put_be16. simpl. rewrite get_be16_app. by apply be16_roundtrip. Qed.
Lemma length_put_be16 v : length (io_put_be16 v) = 2%nat.
Proof. reflexivity. Qed.
End ByteOrder.

#[export] Hint Resolve put_be16_bytes put_be32_bytes put_le32_bytes put_le16_bytes
  get_be16_u16 get_le16_u16 get_be32_u32 get_le32_u32 : uint.

(** ** Checksum theory *)

(** The little-endian value of a byte string, the form in which the reflected
    register absorbs it. *)
Fixpoint le_val (l : list Z) : Z :=
  match l with
  | [] => 0
  | b :: l' => Z.lxor b (Z.shiftl (le_val l') 8)
  end.

Section Crc.
Context (poly w : Z).
Hypothesis Hw : 8 ≤ w.
Hypothesis Hpoly : is_u w poly.
Hypothesis Htop : Z.testbit poly (w - 1) = true.

Lemma land1 x : Z.land x 1 = x mod 2.
Proof. change 1 with (Z.ones 1). by rewrite Z.land_ones. Qed.

Lemma crc_bit_range x : is_u w x → is_u w (crc_bit poly x).
Proof.
  intros Hx.
  assert (is_u w (Z.shiftr x 1)) as Hs.
  { rewrite shiftr_div by lia. destruct Hx. split; [apply Z.div_pos; lia|].
    apply Z.div_lt_upper_bound; lia. }
  unfold crc_bit. case_match; [done|]. apply lxor_lt; [lia|done|done].
Qed.

Lemma crc_iter_range n x : is_u w x → is_u w (Nat.iter n (crc_bit poly) x).
Proof. intros. induction n; simpl; [done|]. by apply crc_bit_range. Qed.

Lemma shiftr1_eq x y :
  Z.shiftr x 1 = Z.shiftr y 1 → Z.land x 1 = Z.land y 1 → x = y.
Proof.
  rewrite !shiftr_div, !land1 by lia. change (2 ^ 1) with 2. intros.
  rewrite (Z.div_mod x 2), (Z.div_mod y 2) by lia. congruence.
Qed.

(** the top bit of the result tells which way the low bit went *)
Lemma crc_bit_branch x y :
  is_u w x → is_u w y → Z.lxor (Z.shiftr x 1) poly ≠ Z.shiftr y 1.
Proof.
  intros Hx Hy E.
  assert (Z.testbit (Z.lxor (Z.shiftr x 1) poly) (w - 1)
          = Z.testbit (Z.shiftr y 1) (w - 1)) as Hb by by rewrite E.
  rewrite Z.lxor_spec, !Z.shiftr_spec, Htop in Hb by lia.
  rewrite (testbit_high w x), (testbit_high w y) in Hb by (done || lia).
  done.
Qed.

Lemma crc_bit_inj x y :
  is_u w x → is_u w y → crc_bit poly x = crc_bit poly y → x = y.
Proof.
  intros Hx Hy. unfold crc_bit.
  destruct (Z.land x 1 =? 0) eqn:Ex, (Z.land y 1 =? 0) eqn:Ey; intros E.
  - apply shiftr1_eq; [done|]. lia.
  - symmetry in E. by apply crc_bit_branch in E.
  - by apply crc_bit_branch in E.
  - apply shiftr1_eq.
    + apply (f_equal (λ z, Z.lxor z poly)) in E.
      by rewrite !Z.lxor_assoc, Z.lxor_nilpotent, !Z.lxor_0_r in E.
    + rewrite !land1 in *. pose proof (Z.mod_pos_bound x 2).
      pose proof (Z.mod_pos_bound y 2). lia.
Qed.

Lemma crc_iter_inj n x y :
  is_u w x → is_u w y →
  Nat.iter n (crc_bit poly) x = Nat.iter n (crc_bit poly) y → x = y.
Proof.
  intros Hx Hy. induction n as [|n IH]; simpl; [done|].
  intros E%crc_bit_inj; auto using crc_iter_range.
Qed.

(** bits above the low one pass through a turn unchanged *)
Lemma crc_bit_linear x y :
  crc_bit poly (Z.lxor x (Z.shiftl y 1)) = Z.lxor (crc_bit poly x) y.
Proof.
  assert (Z.land (Z.lxor x (Z.shiftl y 1)) 1 = Z.land x 1) as Hl.
  { apply Z.bits_inj'. intros i Hi. rewrite !Z.land_spec, Z.lxor_spec.
    destruct (decide (i = 0)) as [->|].
    - rewrite Z.shiftl_spec, (Z.testbit_neg_r y) by lia. by rewrite xorb_false_r.
    - rewrite (testbit_high 1 1 i) by (unfold is_u; lia). by rewrite !andb_false_r. }
  assert (Z.shiftr (Z.lxor x (Z.shiftl y 1)) 1 = Z.lxor (Z.shiftr x 1) y) as Hs.
  { rewrite Z.shiftr_lxor, Z.shiftr_shiftl_l by lia. by rewrite Z.shiftl_0_r. }
  unfold crc_bit. rewrite Hl, Hs. case_match; [done|].
  rewrite !Z.lxor_assoc. f_equal. apply Z.lxor_comm.
Qed.

Lemma crc_iter_linear n x y :
  Nat.iter n (crc_bit poly) (Z.lxor x (Z.shiftl y (Z.of_nat n)))
  = Z.lxor (Nat.iter n (crc_bit poly) x) y.
Proof.
  revert y. induction n as [|n IH]; intros y; simpl Nat.iter.
  - by rewrite Z.shiftl_0_r.
  - replace (Z.shiftl y (Z.of_nat (S n))) with (Z.shiftl (Z.shiftl y 1) (Z.of_nat n))
      by (rewrite Z.shiftl_shiftl by lia; f_equal; lia).
    by rewrite IH, crc_bit_linear.
Qed.

Lemma crc_fold_iter l c :
  fold_left (crc_byte poly) l c
  = Nat.iter (8 * length l) (crc_bit poly) (Z.lxor c (le_val l)).
Proof.
  revert c. induction l as [|b l IH]; intros c.
  - simpl. by rewrite Z.lxor_0_r.
  - change (fold_left (crc_byte poly) (b :: l) c)
      with (fold_left (crc_byte poly) l (crc_byte poly c b)).
    rewrite IH. unfold crc_byte.
    rewrite <- crc_iter_linear. rewrite <- Nat.iter_add.
    simpl length. replace (8 * S (length l))%nat with (8 * length l + 8)%nat by lia.
    f_equal. simpl le_val. by rewrite Z.lxor_assoc.
Qed.

Lemma crc_fold_range l c :
  is_u w c → bytes_ok l → is_u w (fold_left (crc_byte poly) l c).
Proof.
  intros Hc Hl. revert c Hc. induction Hl as [|b l Hb Hl IH]; intros c Hc; [done|].
  simpl. apply IH. unfold crc_byte. apply crc_iter_range.
  apply lxor_lt; [lia|done|]. destruct Hb. split; [done|].
  eapply Z.lt_le_trans; [done|]. apply Z.pow_le_mono_r; lia.
Qed.

Lemma crc_byte_inj c1 c2 b :
  is_u w c1 → is_u w c2 → is_byte b →
  crc_byte poly c1 b = crc_byte poly c2 b → c1 = c2.
Proof.
  intros H1 H2 Hb. assert (is_u w b) as Hb'.
  { destruct Hb. split; [done|]. eapply Z.lt_le_trans; [done|].
    apply Z.pow_le_mono_r; lia. }
  intros E%crc_iter_inj; [|apply lxor_lt; (lia || done)..].
  apply (f_equal (λ z, Z.lxor z b)) in E.
  by rewrite !Z.lxor_assoc, Z.lxor_nilpotent, !Z.lxor_0_r in E.
Qed.

Lemma crc_fold_inj l c1 c2 :
  is_u w c1 → is_u w c2 → bytes_ok l →
  fold_left (crc_byte poly) l c1 = fold_left (crc_byte poly) l c2 → c1 = c2.
Proof.
  intros H1 H2 Hl. revert c1 c2 H1 H2.
  induction Hl as [|b l Hb Hl IH]; intros c1 c2 H1 H2; [done|]. simpl. intros E.
  apply (crc_byte_inj _ _ b); try done. apply IH; [..|done].
  - by apply (crc_fold_range [b] c1 H1); constructor.
  - by apply (crc_fold_range [b] c2 H2); constructor.
Qed.
End Crc.

Lemma le_val_range l : bytes_ok l → is_u (8 * zlen l) (le_val l).
Proof.
  induction 1 as [|b l Hb Hl IH]; simpl; [done|].
  assert (8 * zlen (b :: l) = 8 * zlen l + 8) as -> by (unfold zlen; simpl; lia).
  assert (0 ≤ zlen l) by (unfold zlen; lia).
  apply lxor_lt; [lia|..].
  - destruct Hb. split; [done|]. eapply Z.lt_le_trans; [done|].
    apply Z.pow_le_mono_r; lia.
  - unfold is_u in *. rewrite Z.shiftl_mul_pow2, Z.pow_add_r by lia. nia.
Qed.

Lemma le_val_inj l1 l2 :
  bytes_ok l1 → bytes_ok l2 → length l1 = length l2 → le_val l1 = le_val l2 → l1 = l2.
Proof.
  intros H1. revert l2. induction H1 as [|a l1 Ha H1 IH]; intros [|b l2]; try done.
  intros H2. apply Forall_cons_1 in H2 as [Hb H2]. simpl. intros Hlen E.
  assert (∀ x l, is_byte x → Z.lxor x (Z.shiftl (le_val l) 8) = le_val l * 256 + x) as Harith.
  { intros x l Hx. rewrite Z.lxor_comm, <- Z.add_nocarry_lxor.
    - rewrite Z.shiftl_mul_pow2 by lia. reflexivity.
    - apply land_low_zero; [lia|done]. }
  rewrite !Harith in E by done. f_equal; [ulia|]. apply IH; [done|lia|ulia].
Qed.

(** A corruption confined to a window of at most [w/8] adjacent bytes changes
    the register. *)
Lemma crc_fold_burst poly w pre a b suf c :
  8 ≤ w → is_u w poly → Z.testbit poly (w - 1) = true → is_u w c →
  bytes_ok pre → bytes_ok a → bytes_ok b → bytes_ok suf →
  length a = length b → 8 * zlen a ≤ w →
  fold_left (crc_byte poly) (pre ++ a ++ suf) c
  = fold_left (crc_byte poly) (pre ++ b ++ suf) c → a = b.
Proof.
  intros Hw Hp Ht Hc Hpre Ha Hb Hsuf Hlen Hbnd.
  rewrite !fold_left_app. set (c' := fold_left (crc_byte poly) pre c).
  assert (is_u w c') as Hc' by (by apply crc_fold_range).
  assert (∀ l, bytes_ok l → 8 * zlen l ≤ w → is_u w (le_val l)) as Hle.
  { intros l Hl Hlw. destruct (le_val_range l Hl). split; [done|].
    eapply Z.lt_le_trans; [done|]. apply Z.pow_le_mono_r; lia. }
  intros E%(crc_fold_inj poly w); auto using crc_fold_range.
  rewrite !(crc_fold_iter poly w) in E by done. rewrite Hlen in E.
  assert (8 * zlen b ≤ w) as Hbnd' by (unfold zlen in *; lia).
  apply (crc_iter_inj poly w) in E; auto;
    [|apply lxor_lt; auto; lia..].
  apply le_val_inj; [done..|].
  rewrite <- (Z.lxor_0_l (le_val a)), <- (Z.lxor_0_l (le_val b)).
  rewrite <- (Z.lxor_nilpotent c'), !Z.lxor_assoc. by f_equal.
Qed.

Lemma crc16_range data : bytes_ok data → is_u16 (crc16_modbus data).
Proof. intros. apply crc_fold_range; first [done|ulia]. Qed.

Lemma crc32_range data : bytes_ok data → is_u32 (crc32_ieee data).
Proof. intros. apply lxor_lt; [lia| |ulia].
  apply crc_fold_range; first [done|ulia]. Qed.
#[export] Hint Resolve crc16_range crc32_range : uint.

Lemma crc16_byte_burst pre a b suf :
  bytes_ok pre → bytes_ok a → bytes_ok b → bytes_ok suf →
  length a = length b → (length a ≤ 2)%nat →
  crc16_modbus (pre ++ a ++ suf) = crc16_modbus (pre ++ b ++ suf) → a = b.
Proof.
  intros ?????? E.
  apply (crc_fold_burst 0xA001 16 pre a b suf 0xFFFF); first [done|ulia|unfold zlen; lia|exact E].
Qed.

Lemma crc32_byte_burst pre a b suf :
  bytes_ok pre → bytes_ok a → bytes_ok b → bytes_ok suf →
  length a = length b → (length a ≤ 4)%nat →
  crc32_ieee (pre ++ a ++ suf) = crc32_ieee (pre ++ b ++ suf) → a = b.
Proof.
  intros ?????? E. unfold crc32_ieee in E.
  apply (f_equal (λ z, Z.lxor z 0xFFFFFFFF)) in E.
  rewrite !Z.lxor_assoc, Z.lxor_nilpotent, !Z.lxor_0_r in E.
  apply (crc_fold_burst 0xEDB88320 32 pre a b suf 0xFFFFFFFF); first [done|ulia|unfold zlen; lia|exact E].
Qed.

Lemma le_val_put_le16 v : is_u16 v → le_val (put_le16 v) = v.
Proof.
  intros. unfold put_le16. simpl. rewrite Z.lxor_0_r.
  rewrite Z.lxor_comm, <- Z.add_nocarry_lxor by (apply land_low_zero; [lia|apply u8_range]).
  rewrite Z.shiftl_mul_pow2 by lia. change 0xFF with (Z.ones 8).
  rewrite Z.land_ones, shiftr_div by lia. change (2 ^ 8) with 256. ulia.
Qed.

(** A frame followed by its own checksum, low byte first, has checksum 0. *)
Lemma crc16_residue data :
  bytes_ok data → crc16_modbus (data ++ put_le16 (crc16_modbus data)) = 0.
Proof.
  intros Hd. unfold crc16_modbus at 1. rewrite fold_left_app.
  fold (crc16_modbus data). rewrite (crc_fold_iter _ 16) by (first [done|ulia]).
  rewrite le_val_put_le16 by auto with uint.
  by rewrite Z.lxor_nilpotent.
Qed.

Example crc16_check : crc16_modbus [0x31;0x32;0x33;0x34;0x35;0x36;0x37;0x38;0x39] = 0x4B37.
Proof. vm_compute. reflexivity. Qed.
Example crc32_check : crc32_ieee [0x31;0x32;0x33;0x34;0x35;0x36;0x37;0x38;0x39] = 0xCBF43926.
Proof. vm_compute. reflexivity. Qed.
