(* ===== verification/Flash.v ===== *)
(** The NOR flash interface [src/include/io_flash.h] and the partition table
    [src/include/flash_layout.h].

    [struct io_flash] is a table of three functions over one device: here a
    class [IoFlash] over the device state.  [FlashFrame] is what every device
    guarantees, also one that fails or loses power in the middle of an
    operation: only the addressed range changes.  [FlashLaws] is what a healthy
    device guarantees.  The clients ([config_store.c], [fw_upg.c]) are verified
    against the classes; [Nor] is the RAM device of [tests/fake_flash.c], the
    executable instance. *)

From S2P Require Import Prelude.

(** ** Partition table ([flash_layout.h]) *)

Definition SLOT0_OFFSET : Z := 0x00010000.
Definition SLOT0_SIZE : Z := 0x00070000.
Definition INT_FLASH_BASE : Z := 0x08000000.
Definition SLOT0_ADDR : Z := INT_FLASH_BASE + SLOT0_OFFSET.
Definition IMG_HDR_SIZE : Z := 0x00000200.
Definition SLOT1_OFFSET : Z := 0x00000000.
Definition SLOT1_SIZE : Z := 0x00070000.
Definition SCRATCH_OFFSET : Z := 0x00070000.
Definition SCRATCH_SIZE : Z := 0x00070000.
Definition STORAGE_OFFSET : Z := 0x000E0000.
Definition STORAGE_SIZE : Z := 0x00010000.
Definition LFS_OFFSET : Z := 0x000F0000.
Definition LFS_SIZE : Z := 0x01000000 - LFS_OFFSET.

(** capacity of the device (16 MiB W25Q128) *)
Definition NOR_SIZE : Z := 0x1000000.

(** ** The operations: [true] stands for return value 0, [false] for -1 *)

Class IoFlash (F : Type) : Type := {
  iof_read : Z → Z → F → option (list Z);
  iof_erase : Z → Z → F → bool * F;
  iof_write : Z → list Z → F → bool * F;
}.

(** What an operation may touch, whatever it returns. [cell] observes the
    byte stored at an absolute offset. *)
Class FlashFrame (F : Type) `{IoFlash F} : Type := {
  cell : F → Z → Z;
  erase_frame a n f x :
    ¬ (a ≤ x < a + n) → cell (iof_erase a n f).2 x = cell f x;
  write_frame a bs f x :
    ¬ (a ≤ x < a + zlen bs) → cell (iof_write a bs f).2 x = cell f x;
}.

(** [n] consecutive cells *)
Definition cells {F} `{FlashFrame F} (f : F) (a : Z) (n : nat) : list Z := bytes_at (cell f) a n.

(** ** A healthy device

    [iof_erase] takes sector-aligned ranges, [iof_write] at most one page of
    erased cells: the contract stated next to the fields of the struct. *)
Class FlashLaws (F : Type) `{FlashFrame F} : Type := {
  cell_byte f x : is_byte (cell f x);
  read_law a n f :
    0 ≤ a → 0 ≤ n → a + n ≤ NOR_SIZE →
    iof_read a n f = Some (cells f a (Z.to_nat n));
  erase_law a n f :
    0 ≤ a → 0 < n → a + n ≤ NOR_SIZE → a mod 4096 = 0 → n mod 4096 = 0 →
    (iof_erase a n f).1 = true ∧
    ∀ x, a ≤ x < a + n → cell (iof_erase a n f).2 x = 255;
  write_law a bs f :
    0 ≤ a → 0 < zlen bs ≤ 256 → a + zlen bs ≤ NOR_SIZE →
    a mod 256 + zlen bs ≤ 256 → bytes_ok bs →
    (∀ x, a ≤ x < a + zlen bs → cell f x = 255) →
    (iof_write a bs f).1 = true ∧
    cells (iof_write a bs f).2 a (length bs) = bs;
}.

Section Cells.
Context {F} `{FlashFrame F}.

Lemma length_cells f a n : length (cells f a n) = n.
Proof. apply length_bytes_at. Qed.

Lemma lookup_cells f a n i :
  (i < n)%nat → cells f a n !! i = Some (cell f (a + Z.of_nat i)).
Proof. apply lookup_bytes_at. Qed.

Lemma rd_cells f a n i : (i < n)%nat → rd (cells f a n) i = cell f (a + Z.of_nat i).
Proof. intros. unfold rd. by rewrite lookup_cells. Qed.

Lemma cells_ext f g a n :
  (∀ x, a ≤ x < a + Z.of_nat n → cell f x = cell g x) → cells f a n = cells g a n.
Proof. apply bytes_at_ext. Qed.

Lemma cells_app f a n m : cells f a (n + m) = cells f a n ++ cells f (a + Z.of_nat n) m.
Proof. apply bytes_at_app. Qed.

Lemma cells_erase_other f a n b m :
  (b + Z.of_nat m ≤ a ∨ a + n ≤ b) →
  cells (iof_erase a n f).2 b m = cells f b m.
Proof. intros. apply cells_ext. intros x Hx. apply erase_frame. lia. Qed.

Lemma cells_write_other f a bs b m :
  (b + Z.of_nat m ≤ a ∨ a + zlen bs ≤ b) →
  cells (iof_write a bs f).2 b m = cells f b m.
Proof. intros. apply cells_ext. intros x Hx. apply write_frame. lia. Qed.

Lemma cell_of_cells f a bs x :
  cells f a (length bs) = bs → a ≤ x < a + zlen bs →
  cell f x = rd bs (Z.to_nat (x - a)).
Proof.
  intros Hc Hx. unfold zlen in Hx. rewrite <- Hc.
  rewrite rd_cells by lia. f_equal. lia.
Qed.

Lemma cells_bytes `{!FlashLaws F} f a n : bytes_ok (cells f a n).
Proof. apply Forall_fmap, Forall_true. intros i. apply cell_byte. Qed.

Lemma cells_slice f a n off m :
  (off + m ≤ n)%nat → slice off m (cells f a n) = cells f (a + Z.of_nat off) m.
Proof.
  intros. unfold slice.
  replace n with (off + (m + (n - off - m)))%nat by lia.
  rewrite (cells_app f a off), drop_app_length' by (by rewrite length_cells).
  rewrite cells_app, take_app_length' by (by rewrite length_cells). done.
Qed.
End Cells.

(** ** The RAM device of [tests/fake_flash.c] *)

Module Nor.
(** [uint8_t mem[]]: the array element type keeps every cell a byte *)
Record nor := mk_nor { mem : Z → Z }.

Definition get (f : nor) (x : Z) : Z := u8 (mem f x).

Definition in_range (addr len : Z) : bool :=
  (0 <=? addr) && (addr <=? NOR_SIZE - len) && (len <=? NOR_SIZE).

Definition fake_read (addr len : Z) (f : nor) : option (list Z) :=
  if in_range addr len
  then Some ((λ i, get f (addr + Z.of_nat i)) <$> seq 0 (Z.to_nat len))
  else None.

Definition fake_erase (addr len : Z) (f : nor) : bool * nor :=
  if (len =? 0) || negb (len mod 4096 =? 0) || negb (addr mod 4096 =? 0) then (false, f)
  else if negb (in_range addr len) then (false, f)
  else (true, mk_nor (λ x, if (addr <=? x) && (x <? addr + len) then 255 else mem f x)).

(** every bit to be stored is still 1 in the cell *)
Fixpoint programmable (f : nor) (addr : Z) (buf : list Z) : bool :=
  match buf with
  | [] => true
  | b :: buf' => (Z.land (get f addr) b =? b) && programmable f (addr + 1) buf'
  end.

Definition fake_write (addr : Z) (buf : list Z) (f : nor) : bool * nor :=
  let len := zlen buf in
  if (len =? 0) || (256 <? len) then (false, f)
  else if 256 <? addr mod 256 + len then (false, f)
  else if negb (in_range addr len) then (false, f)
  else if negb (programmable f addr buf) then (false, f)
  else (true, mk_nor (λ x, if (addr <=? x) && (x <? addr + len)
                           then rd buf (Z.to_nat (x - addr)) else mem f x)).

Definition fake_flash_reset : nor := mk_nor (λ _, 255).

Definition fake_flash_corrupt (addr : Z) (f : nor) : nor :=
  if in_range addr 1
  then mk_nor (λ x, if x =? addr then Z.lxor (get f addr) 0xFF else mem f x) else f.

#[global] Instance nor_flash : IoFlash nor := {
  iof_read := fake_read; iof_erase := fake_erase; iof_write := fake_write }.

#[global] Instance nor_frame : FlashFrame nor.
Proof.
  refine {| cell := get |}.
  - intros a n f x Hx. simpl. unfold fake_erase.
    repeat case_match; try done. unfold get; simpl.
    by replace ((a <=? x) && (x <? a + n)) with false by lia.
  - intros a bs f x Hx. simpl. unfold fake_write.
    repeat case_match; try done. unfold get; simpl.
    by replace ((a <=? x) && (x <? a + zlen bs)) with false by lia.
Defined.

Lemma corrupt_other a f x : x ≠ a → get (fake_flash_corrupt a f) x = get f x.
Proof.
  intros. unfold fake_flash_corrupt. case_match; [|done]. unfold get; simpl.
  by replace (x =? a) with false by lia.
Qed.

Lemma programmable_erased f a bs :
  bytes_ok bs → (∀ x, a ≤ x < a + zlen bs → get f x = 255) →
  programmable f a bs = true.
Proof.
  intros Hb. revert a. induction Hb as [|b bs Hb Hbs IH]; intros a Hx; [done|].
  unfold zlen in *; simpl in *. apply andb_true_intro. split.
  - rewrite Hx by lia. change 255 with (Z.ones 8). rewrite Z.land_comm, Z.land_ones by lia.
    apply Z.eqb_eq. apply Z.mod_small. done.
  - apply IH. intros. apply Hx. lia.
Qed.

#[global] Instance nor_laws : FlashLaws nor.
Proof.
  split.
  - intros f x. apply u8_range.
  - intros a n f Ha Hn Hr. simpl. unfold fake_read, in_range.
    by replace ((0 <=? a) && (a <=? NOR_SIZE - n) && (n <=? NOR_SIZE)) with true by lia.
  - intros a n f Ha Hn Hr Hal Hnl. simpl. unfold fake_erase, in_range.
    rewrite Hal, Hnl. replace (n =? 0) with false by lia. simpl.
    replace ((0 <=? a) && (a <=? NOR_SIZE - n) && (n <=? NOR_SIZE)) with true by lia.
    split; [done|]. intros x Hx. simpl. unfold get; simpl.
    by replace ((a <=? x) && (x <? a + n)) with true by lia.
  - intros a bs f Ha Hl Hr Hpg Hb Hx. simpl. unfold fake_write, in_range.
    replace (zlen bs =? 0) with false by lia. replace (256 <? zlen bs) with false by lia.
    simpl. replace (256 <? a mod 256 + zlen bs) with false by lia.
    replace ((0 <=? a) && (a <=? NOR_SIZE - zlen bs) && (zlen bs <=? NOR_SIZE)) with true by lia.
    simpl. rewrite programmable_erased by done. simpl. split; [done|].
    apply list_eq_same_length with (length bs); rewrite ?length_cells; [done..|].
    intros i x y Hi Hl1 Hl2. rewrite lookup_cells in Hl1 by done.
    injection Hl1 as <-. simpl. unfold get; simpl. unfold zlen.
    replace ((a <=? a + Z.of_nat i) && (a + Z.of_nat i <? a + Z.of_nat (length bs)))
      with true by lia.
    replace (Z.to_nat (a + Z.of_nat i - a)) with i by lia.
    unfold rd. rewrite Hl2. simpl. apply u8_id. by eapply Forall_lookup_1.
Qed.
End Nor.

(** ** A device that loses power

    Not in the repository: the fault model for the torn-write claims of
    [config_store.c].  [budget] program/erase steps remain before the supply
    fails; an erase costs one step, a page program one step per byte; the
    operation in progress stops where the budget ends and reports an error,
    and so does every later one. *)
Module Brownout.
Record dev := mk_dev { nor_of : Nor.nor; budget : nat }.

Definition b_read (a n : Z) (d : dev) : option (list Z) := Nor.fake_read a n (nor_of d).

Definition b_erase (a n : Z) (d : dev) : bool * dev :=
  match budget d with
  | O => (false, d)
  | S k => let '(ok, f) := Nor.fake_erase a n (nor_of d) in (ok, mk_dev f k)
  end.

Definition b_write (a : Z) (bs : list Z) (d : dev) : bool * dev :=
  let k := (budget d `min` length bs)%nat in
  let '(ok, f) := Nor.fake_write a (take k bs) (nor_of d) in
  (ok && (length bs <=? budget d)%nat, mk_dev f (budget d - k)).

#[global] Instance brown_flash : IoFlash dev := {
  iof_read := b_read; iof_erase := b_erase; iof_write := b_write }.

#[global] Instance brown_frame : FlashFrame dev.
Proof.
  refine {| cell := λ d x, Nor.get (nor_of d) x |}.
  - intros a n d x Hx. simpl. unfold b_erase. destruct (budget d); [done|].
    pose proof (erase_frame a n (nor_of d) x Hx) as Hf. simpl in Hf.
    destruct (Nor.fake_erase a n (nor_of d)) as [ok f]. exact Hf.
  - intros a bs d x Hx. simpl. unfold b_write.
    pose proof (write_frame a (take (budget d `min` length bs) bs) (nor_of d) x) as Hf.
    simpl in Hf.
    destruct (Nor.fake_write a _ (nor_of d)) as [ok f]. apply Hf.
    unfold zlen in *. rewrite length_take. lia.
Defined.
End Brownout.
