(* ===== verification/ConfigStore.v ===== *)
(** The persistent configuration: [src/storage/config_store.c],
    [src/include/config_store.h].  Two slots of the storage partition hold
    records with a generation number and a CRC-32; a save goes to the slot that
    is not active.  The flash is any device of the classes of [Flash.v]. *)

From S2P Require Import Prelude IoBytes Flash.

(** ** Data *)

Record io_cfg := mk_cfg {
  di_en : Z; ai_en : Z; di_si : Z; ai_si : Z; his : Z;
  can_id : Z; can_bps : Z; rs485_bps : Z; slave_id : Z;
  ip : list Z;
}.

#[export] Instance io_cfg_eq_dec : EqDecision io_cfg.
Proof. solve_decision. Defined.

(** the 13 packed 16-bit fields in memory order *)
Definition cfg_words (c : io_cfg) : list Z :=
  [di_en c; ai_en c; di_si c; ai_si c; his c; can_id c; can_bps c; rs485_bps c; slave_id c]
  ++ ip c.

(** type of the struct: every field a [uint16_t], four octet fields *)
Definition cfg_ok (c : io_cfg) : Prop :=
  Forall (is_u 16) (cfg_words c) ∧ length (ip c) = 4%nat.

(** native bytes of the struct (little-endian core) *)
Definition cfg_bytes (c : io_cfg) : list Z := concat (put_le16 <$> cfg_words c).

Definition cfg_of_bytes (b : list Z) : io_cfg :=
  let w i := get_le16 (drop (2 * i) b) in
  mk_cfg (w 0%nat) (w 1%nat) (w 2%nat) (w 3%nat) (w 4%nat) (w 5%nat) (w 6%nat) (w 7%nat) (w 8%nat)
         [w 9%nat; w 10%nat; w 11%nat; w 12%nat].

Definition CFG_SLOT_SIZE : Z := 0x8000.
Definition CFG_SLOT_A : Z := STORAGE_OFFSET.
Definition CFG_SLOT_B : Z := STORAGE_OFFSET + CFG_SLOT_SIZE.

(** "IOCF" *)
Definition CFG_MAGIC : list Z := [0x49; 0x4F; 0x43; 0x46].
Definition CFG_GEN_OFF : nat := 4.
Definition CFG_LEN_OFF : nat := 8.
Definition CFG_HDR_LEN : nat := 10.
Definition CFG_SIZE : nat := 26.
Definition CFG_CRC_OFF : nat := CFG_HDR_LEN + CFG_SIZE.
Definition CFG_REC_LEN : nat := CFG_CRC_OFF + 4.

(** file-scope state: [cur], [cur_gen], [cur_slot] (0 = none), [inited] *)
Record store := mk_store { cur : io_cfg; cur_gen : Z; cur_slot : Z; inited : bool }.

Definition config_store_get_defaults : io_cfg :=
  mk_cfg 0xFFFF 0x000F 200 200 0 0x0111 250 9600 1 [192; 168; 12; 101].

(** state at power-up, before [config_store_init] *)
Definition store_boot : store :=
  mk_store (mk_cfg 0 0 0 0 0 0 0 0 0 [0; 0; 0; 0]) 0 0 false.

(** ** Operations *)

(** return value of [slot_read] with its two out-parameters:
    -1 [SlotIo], 1 [SlotBad], 0 [SlotOk] *)
Inductive slot_result := SlotIo | SlotBad | SlotOk (c : io_cfg) (gen : Z).

(** the checks and copies once the record is in memory *)
Definition slot_decode (rec : list Z) : slot_result :=
  if negb (bool_decide (take 4 rec = CFG_MAGIC)) then SlotBad
  else if negb (get_le16 (drop CFG_LEN_OFF rec) =? Z.of_nat CFG_SIZE) then SlotBad
  else if negb (io_get_le32 (drop CFG_CRC_OFF rec) =? crc32_ieee (take CFG_CRC_OFF rec))
  then SlotBad
  else SlotOk (cfg_of_bytes (slice CFG_HDR_LEN CFG_SIZE rec))
              (io_get_le32 (drop CFG_GEN_OFF rec)).

(** the record [config_store_save] assembles *)
Definition slot_record (c : io_cfg) (gen : Z) : list Z :=
  let body := CFG_MAGIC ++ io_put_le32 gen ++ put_le16 (Z.of_nat CFG_SIZE) ++ cfg_bytes c in
  body ++ io_put_le32 (crc32_ieee body).

Section Store.
Context {F : Type} `{IoFlash F}.

Definition slot_read (addr : Z) (f : F) : slot_result :=
  match iof_read addr (Z.of_nat CFG_REC_LEN) f with
  | None => SlotIo
  | Some rec => slot_decode rec
  end.

(** the loop of [write_pages]; a chunk ends at the next page boundary *)
Fixpoint write_pages_loop (fuel : nat) (addr : Z) (buf : list Z) (off : Z) (f : F) : bool * F :=
  if off <? zlen buf then
    match fuel with
    | O => (false, f)
    | S fuel' =>
        let room := 256 - Z.land (u32 (addr + off)) 0xFF in
        let n := zlen buf - off in
        let n := if room <? n then room else n in
        let '(ok, f) := iof_write (addr + off) (slice (Z.to_nat off) (Z.to_nat n) buf) f in
        if ok then write_pages_loop fuel' addr buf (off + n) f else (false, f)
    end
  else (true, f).

(** every turn writes at least one byte: [length buf] turns are enough *)
Definition write_pages (addr : Z) (buf : list Z) (f : F) : bool * F :=
  write_pages_loop (length buf) addr buf 0 f.

Definition config_store_init (f : F) (s : store) : bool * store :=
  let s := mk_store config_store_get_defaults 0 0 true in
  let ra := slot_read CFG_SLOT_A f in
  let rb := slot_read CFG_SLOT_B f in
  match ra, rb with
  | SlotIo, _ | _, SlotIo => (false, s)
  | SlotOk ca ga, SlotOk cb gb =>
      if gb <=? ga then (true, mk_store ca ga CFG_SLOT_A true)
      else (true, mk_store cb gb CFG_SLOT_B true)
  | SlotOk ca ga, SlotBad => (true, mk_store ca ga CFG_SLOT_A true)
  | SlotBad, SlotOk cb gb => (true, mk_store cb gb CFG_SLOT_B true)
  | SlotBad, SlotBad => (true, s)
  end.

Definition save_target (s : store) : Z :=
  if cur_slot s =? CFG_SLOT_A then CFG_SLOT_B else CFG_SLOT_A.

Definition config_store_save (cfg : io_cfg) (f : F) (s : store) : bool * F * store :=
  if negb (inited s) then (false, f, s)
  else
    let tgt := save_target s in
    let gen := u32 (cur_gen s + 1) in
    let rec := slot_record cfg gen in
    let '(ok, f) := iof_erase tgt CFG_SLOT_SIZE f in
    if negb ok then (false, f, s) else
    let '(ok, f) := write_pages tgt (take CFG_HDR_LEN rec) f in
    if negb ok then (false, f, s) else
    let '(ok, f) := write_pages (tgt + Z.of_nat CFG_HDR_LEN) (slice CFG_HDR_LEN CFG_SIZE rec) f in
    if negb ok then (false, f, s) else
    let '(ok, f) := write_pages (tgt + Z.of_nat CFG_CRC_OFF) (slice CFG_CRC_OFF 4 rec) f in
    if negb ok then (false, f, s) else
    (true, f, mk_store cfg gen tgt true).

Definition config_store_erase_all (f : F) (s : store) : F * store :=
  let f := if inited s
           then let f := (iof_erase CFG_SLOT_A CFG_SLOT_SIZE f).2 in
                (iof_erase CFG_SLOT_B CFG_SLOT_SIZE f).2
           else f in
  (f, mk_store config_store_get_defaults 0 0 (inited s)).

Definition config_store_get (s : store) : io_cfg :=
  if inited s then cur s else config_store_get_defaults.
End Store.

(** a save that reports success leaves the new configuration in memory *)
Lemma config_store_save_cur {F} `{IoFlash F} cfg (f : F) s ok f' s' :
  config_store_save cfg f s = (ok, f', s') → ok = true → config_store_get s' = cfg.
Proof.
  unfold config_store_save. destruct (inited s); cbn [negb]; [|by intros [= <- <- <-]].
  destruct (iof_erase _ _ f) as [[|] f1]; cbn [negb]; [|by intros [= <- <- <-]].
  destruct (write_pages _ _ f1) as [[|] f2]; cbn [negb]; [|by intros [= <- <- <-]].
  destruct (write_pages _ _ f2) as [[|] f3]; cbn [negb]; [|by intros [= <- <- <-]].
  destruct (write_pages _ _ f3) as [[|] f4]; cbn [negb]; [|by intros [= <- <- <-]].
  by intros [= <- <- <-].
Qed.

(** ** The record format *)

Section Record_.
Lemma cfg_bytes_length c : cfg_ok c → length (cfg_bytes c) = CFG_SIZE.
Proof.
  intros [_ Hip]. destruct c as [? ? ? ? ? ? ? ? ? ip]; simpl in Hip.
  destruct ip as [|? [|? [|? [|? [|? ?]]]]]; done.
Qed.

Lemma cfg_bytes_ok c : bytes_ok (cfg_bytes c).
Proof. unfold cfg_bytes. apply Forall_concat, Forall_fmap, Forall_true. intros. apply put_le16_bytes. Qed.

Lemma get_put_le16 v l : is_u16 v → get_le16 (put_le16 v ++ l) = v.
Proof. intros. by apply le16_roundtrip. Qed.

Lemma cfg_roundtrip c : cfg_ok c → cfg_of_bytes (cfg_bytes c) = c.
Proof.
  intros [Hw Hip]. destruct c as [? ? ? ? ? ? ? ? ? ip]; simpl in Hip.
  destruct ip as [|? [|? [|? [|? [|? ?]]]]]; try done.
  unfold cfg_words in Hw; simpl in Hw. rewrite !Forall_cons_iff in Hw. destruct_and!.
  unfold cfg_of_bytes, cfg_bytes, cfg_words; simpl.
  assert (∀ v l, is_u16 v → get_le16 (u8 (Z.land v 0xFF) :: u8 (Z.shiftr v 8) :: l) = v) as E
    by (intros; by apply le16_roundtrip).
  rewrite !E by done. reflexivity.
Qed.

Lemma cfg_of_bytes_ok b : cfg_ok (cfg_of_bytes b).
Proof. split; [|done]. repeat constructor; apply u16_range. Qed.

Lemma slot_record_length c g : cfg_ok c → length (slot_record c g) = CFG_REC_LEN.
Proof.
  intros Hc. pose proof (cfg_bytes_length c Hc) as Hl.
  unfold slot_record. rewrite !length_app, Hl. done.
Qed.

Lemma slot_record_bytes c g : bytes_ok (slot_record c g).
Proof.
  unfold slot_record. rewrite !Forall_app.
  repeat split; auto using cfg_bytes_ok with uint; repeat constructor; ulia.
Qed.

Lemma slot_decode_record c g :
  cfg_ok c → is_u32 g → slot_decode (slot_record c g) = SlotOk c g.
Proof.
  intros Hc Hg. pose proof (cfg_bytes_length c Hc) as Hl.
  unfold slot_decode, slot_record.
  set (body := CFG_MAGIC ++ io_put_le32 g ++ put_le16 (Z.of_nat CFG_SIZE) ++ cfg_bytes c).
  assert (length body = CFG_CRC_OFF) as Hb.
  { unfold body. rewrite !length_app, Hl. done. }
  assert (bytes_ok body) as Hok.
  { unfold body. rewrite !Forall_app. repeat split; auto using cfg_bytes_ok with uint.
    repeat constructor; ulia. }
  rewrite (take_app_length' body _ CFG_CRC_OFF), (drop_app_length' body _ CFG_CRC_OFF) by done.
  change (take 4 (body ++ _)) with CFG_MAGIC. rewrite bool_decide_eq_true_2 by done.
  change (drop CFG_LEN_OFF (body ++ io_put_le32 (crc32_ieee body)))
    with (put_le16 (Z.of_nat CFG_SIZE) ++ cfg_bytes c ++ io_put_le32 (crc32_ieee body)).
  rewrite get_put_le16 by (unfold CFG_SIZE; ulia).
  rewrite le32_roundtrip by auto with uint. rewrite !Z.eqb_refl. cbn [negb]. f_equal.
  - change (slice CFG_HDR_LEN CFG_SIZE (body ++ io_put_le32 (crc32_ieee body)))
      with (take CFG_SIZE (cfg_bytes c ++ io_put_le32 (crc32_ieee body))).
    rewrite take_app_length' by done. by apply cfg_roundtrip.
  - by apply le32_roundtrip.
Qed.
End Record_.

(** ** Writing and reading back *)

Lemma page_room a : is_u32 a → 256 - Z.land (u32 a) 0xFF = 256 - a mod 256.
Proof.
  intros. rewrite u32_id by done. change 0xFF with (Z.ones 8). by rewrite Z.land_ones.
Qed.

Section Writes.
Context {F : Type} `{FlashFrame F}.

Lemma write_pages_loop_frame fuel addr buf off f x :
  0 ≤ off → ¬ (addr + off ≤ x < addr + zlen buf) →
  cell (write_pages_loop fuel addr buf off f).2 x = cell f x.
Proof.
  revert off f. induction fuel as [|fuel IH]; intros off f Hoff Hx; simpl;
    [by case_match|].
  destruct (off <? zlen buf) eqn:Eo; [|done].
  set (room := 256 - _). set (n := if room <? zlen buf - off then room else zlen buf - off).
  assert (0 < room).
  { subst room. change 0xFF with (Z.ones 8). rewrite Z.land_ones by lia.
    pose proof (Z.mod_pos_bound (u32 (addr + off)) (2 ^ 8)). lia. }
  assert (0 < n ≤ zlen buf - off) as Hn by (subst n; case_match; lia).
  assert (zlen (slice (Z.to_nat off) (Z.to_nat n) buf) = n) as Hsl.
  { unfold zlen in *. rewrite length_slice by lia. lia. }
  pose proof (write_frame (addr + off) (slice (Z.to_nat off) (Z.to_nat n) buf) f x) as Hfr.
  destruct (iof_write _ _ f) as [ok f'] eqn:Ew; simpl in *.
  rewrite Hsl in Hfr. destruct ok; [|by apply Hfr; lia].
  rewrite IH by lia. apply Hfr. lia.
Qed.

Lemma write_pages_frame addr buf f x :
  ¬ (addr ≤ x < addr + zlen buf) → cell (write_pages addr buf f).2 x = cell f x.
Proof. intros. apply write_pages_loop_frame; lia. Qed.

Context `{!FlashLaws F}.

Lemma write_pages_loop_ok fuel addr buf off f :
  zlen buf - off ≤ Z.of_nat fuel → 0 ≤ off ≤ zlen buf →
  0 ≤ addr → addr + zlen buf ≤ NOR_SIZE → bytes_ok buf →
  (∀ x, addr + off ≤ x < addr + zlen buf → cell f x = 255) →
  (write_pages_loop fuel addr buf off f).1 = true ∧
  cells (write_pages_loop fuel addr buf off f).2 (addr + off) (Z.to_nat (zlen buf - off))
    = drop (Z.to_nat off) buf.
Proof.
  revert off f. induction fuel as [|fuel IH]; intros off f Hfuel Hoff Ha Hr Hb Hx; simpl.
  { replace (off <? zlen buf) with false by lia.
    replace (zlen buf - off) with 0 by lia. split; [done|].
    rewrite drop_ge; [done|]. unfold zlen in *. lia. }
  destruct (off <? zlen buf) eqn:Eo.
  2:{ replace (zlen buf - off) with 0 by lia. split; [done|].
      rewrite drop_ge; [done|]. unfold zlen in *. lia. }
  assert (is_u32 (addr + off)) as Hao by (unfold NOR_SIZE in *; ulia).
  rewrite page_room by done. set (room := 256 - (addr + off) mod 256).
  set (n := if room <? zlen buf - off then room else zlen buf - off).
  pose proof (Z.mod_pos_bound (addr + off) 256 ltac:(lia)) as Hmod.
  assert (0 < n ≤ zlen buf - off ∧ n ≤ room) as [Hn Hnr] by (subst n room; case_match; lia).
  set (ch := slice (Z.to_nat off) (Z.to_nat n) buf).
  assert (length ch = Z.to_nat n) as Hsl by (apply length_slice; unfold zlen in *; lia).
  destruct (write_law (addr + off) ch f) as [Hok Hc]; unfold zlen in *;
    try lia; [subst ch; auto with uint|intros; apply Hx; lia|].
  pose proof (write_frame (addr + off) ch f) as Hfr.
  destruct (iof_write (addr + off) ch f) as [ok f'] eqn:Ew. simpl in Hok, Hc, Hfr. subst ok.
  unfold zlen in *.
  destruct (IH (off + n) f') as [IH1 IH2]; try lia; try done.
  { intros x Hx'. rewrite Hfr by lia. apply Hx. lia. }
  split; [done|].
  replace (Z.to_nat (Z.of_nat (length buf) - off))
    with (Z.to_nat n + Z.to_nat (Z.of_nat (length buf) - (off + n)))%nat by lia.
  rewrite cells_app. rewrite Z2Nat.id by lia.
  replace (addr + off + n) with (addr + (off + n)) by lia. rewrite IH2.
  rewrite (cells_ext _ f').
  - rewrite <- Hsl, Hc. subst ch. unfold slice.
    replace (Z.to_nat (off + n)) with (Z.to_nat off + Z.to_nat n)%nat by lia.
    rewrite <- drop_drop. apply take_drop.
  - intros x Hx'. apply write_pages_loop_frame; unfold zlen; lia.
Qed.

Lemma write_pages_ok addr buf f :
  0 ≤ addr → addr + zlen buf ≤ NOR_SIZE → bytes_ok buf →
  (∀ x, addr ≤ x < addr + zlen buf → cell f x = 255) →
  (write_pages addr buf f).1 = true ∧
  cells (write_pages addr buf f).2 addr (length buf) = buf.
Proof.
  intros Ha Hr Hb Hx. unfold write_pages.
  destruct (write_pages_loop_ok (length buf) addr buf 0 f) as [H1 H2];
    try done; unfold zlen in *; try lia.
  { intros. apply Hx. lia. }
  split; [done|]. rewrite Z.add_0_r, Z.sub_0_r, Nat2Z.id in H2. done.
Qed.

Lemma slot_read_cells addr f :
  0 ≤ addr → addr + Z.of_nat CFG_REC_LEN ≤ NOR_SIZE →
  slot_read addr f = slot_decode (cells f addr CFG_REC_LEN).
Proof. intros. unfold slot_read. rewrite read_law by lia. by rewrite Nat2Z.id. Qed.
End Writes.

Lemma save_target_cases s : save_target s = CFG_SLOT_A ∨ save_target s = CFG_SLOT_B.
Proof. unfold save_target. case_match; auto. Qed.

Lemma save_target_other s :
  cur_slot s = CFG_SLOT_A ∨ cur_slot s = CFG_SLOT_B → save_target s ≠ cur_slot s.
Proof.
  unfold save_target. intros [->| ->].
  - rewrite Z.eqb_refl. done.
  - done.
Qed.

(** Whatever the device does, a save confines itself to the target slot. *)
Section Frame.
Context {F : Type} `{FlashFrame F}.

Lemma config_store_save_frame cfg f s x :
  cfg_ok cfg →
  ¬ (save_target s ≤ x < save_target s + CFG_SLOT_SIZE) →
  cell (config_store_save cfg f s).1.2 x = cell f x.
Proof.
  intros Hcfg Hx. unfold config_store_save.
  destruct (inited s); simpl; [|done].
  set (g := u32 (cur_gen s + 1)). set (t := save_target s) in *.
  pose proof (slot_record_length cfg g Hcfg) as Hlen.
  assert (zlen (take CFG_HDR_LEN (slot_record cfg g)) = 10) as L1
    by (unfold zlen; rewrite length_take, Hlen; done).
  assert (zlen (slice CFG_HDR_LEN CFG_SIZE (slot_record cfg g)) = 26) as L2
    by (unfold zlen; rewrite length_slice; [done|rewrite Hlen; vm_compute; lia]).
  assert (zlen (slice CFG_CRC_OFF 4 (slot_record cfg g)) = 4) as L3
    by (unfold zlen; rewrite length_slice; [done|rewrite Hlen; vm_compute; lia]).
  pose proof (erase_frame t CFG_SLOT_SIZE f x Hx) as E0.
  destruct (iof_erase t CFG_SLOT_SIZE f) as [[] f0]; simpl in *; [|done].
  unfold CFG_SLOT_SIZE in Hx.
  pose proof (write_pages_frame t (take CFG_HDR_LEN (slot_record cfg g)) f0 x) as E1.
  destruct (write_pages t _ f0) as [[] f1]; simpl in *; [|rewrite E1; [done|lia]].
  pose proof (write_pages_frame (t + Z.of_nat CFG_HDR_LEN)
                (slice CFG_HDR_LEN CFG_SIZE (slot_record cfg g)) f1 x) as E2.
  unfold CFG_HDR_LEN in *.
  destruct (write_pages _ _ f1) as [[] f2]; simpl in *; [|rewrite E2, E1; [done|lia..]].
  pose proof (write_pages_frame (t + Z.of_nat CFG_CRC_OFF)
                (slice CFG_CRC_OFF 4 (slot_record cfg g)) f2 x) as E3.
  assert (Z.of_nat CFG_CRC_OFF = 36) as Eo by done. rewrite Eo in *.
  destruct (write_pages _ _ f2) as [[] f3]; simpl in *; rewrite E3, E2, E1; (done || lia).
Qed.
End Frame.

(** On a healthy device a save stores the whole record. *)
Section Healthy.
Context {F : Type} `{FlashLaws F}.

(** the first [k] bytes of [rec] are at [t]; the rest of the sector is erased *)
Definition stored (f : F) (t : Z) (k : nat) (rec : list Z) : Prop :=
  cells f t k = take k rec ∧
  ∀ x, t + Z.of_nat k ≤ x < t + 0x1000 → cell f x = 255.

Lemma stored_erase f t rec :
  t = CFG_SLOT_A ∨ t = CFG_SLOT_B →
  (iof_erase t CFG_SLOT_SIZE f).1 = true ∧
  stored (iof_erase t CFG_SLOT_SIZE f).2 t 0 rec.
Proof.
  intros Ht.
  destruct (erase_law t CFG_SLOT_SIZE f) as [Hok Her];
    [by destruct Ht as [-> | ->]..|].
  split; [done|]. split; [done|]. intros. apply Her. unfold CFG_SLOT_SIZE. lia.
Qed.

Lemma stored_write f t k m rec :
  0 ≤ t → t + 0x1000 ≤ NOR_SIZE → (k + m ≤ length rec)%nat → (k + m ≤ 0x1000)%nat →
  bytes_ok rec → stored f t k rec →
  (write_pages (t + Z.of_nat k) (slice k m rec) f).1 = true ∧
  stored (write_pages (t + Z.of_nat k) (slice k m rec) f).2 t (k + m) rec.
Proof.
  intros Ht Hr Hlen Hkm Hb [Hc He].
  assert (length (slice k m rec) = m) as L by by apply length_slice.
  destruct (write_pages_ok (t + Z.of_nat k) (slice k m rec) f) as [Hok Hc'];
    try (unfold zlen; rewrite L; lia); [lia|auto with uint| |].
  { unfold zlen. rewrite L. intros. apply He. lia. }
  pose proof (write_pages_frame (t + Z.of_nat k) (slice k m rec) f) as Hfr.
  unfold zlen in Hfr. rewrite L in *. split; [done|]. split.
  - rewrite cells_app, Hc', (cells_ext _ f), Hc by (intros; apply Hfr; lia).
    unfold slice. rewrite take_drop_commute.
    etransitivity; [|apply (take_drop k)]. by rewrite take_take, Nat.min_l by lia.
  - intros. rewrite Hfr by lia. apply He. lia.
Qed.

Lemma config_store_save_stores cfg f s :
  cfg_ok cfg → inited s = true →
  ∃ f', config_store_save cfg f s
        = (true, f', mk_store cfg (u32 (cur_gen s + 1)) (save_target s) true) ∧
        cells f' (save_target s) CFG_REC_LEN = slot_record cfg (u32 (cur_gen s + 1)).
Proof.
  intros Hcfg Hin. unfold config_store_save. rewrite Hin.
  pose proof (slot_record_length cfg (u32 (cur_gen s + 1)) Hcfg) as Hlen.
  pose proof (slot_record_bytes cfg (u32 (cur_gen s + 1))) as Hb.
  pose proof (save_target_cases s) as Ht.
  cbn [negb]. cbv zeta. revert Hlen Hb Ht.
  generalize (slot_record cfg (u32 (cur_gen s + 1))) (save_target s). intros rec t Hlen Hb Ht.
  assert (0 ≤ t ∧ t + 0x1000 ≤ NOR_SIZE) as [Ht0 Htr]
    by (destruct Ht as [-> | ->]; split; vm_compute; congruence).
  assert (Hstep : ∀ f k m, (k + m ≤ CFG_REC_LEN)%nat → stored f t k rec → _)
    by (intros f' k m Hkm; apply (stored_write f' t k m rec Ht0 Htr);
        [by rewrite Hlen|etransitivity; [done|vm_compute; lia]|done]).
  destruct (stored_erase f t rec Ht) as [E0 S0].
  destruct (iof_erase t CFG_SLOT_SIZE f) as [ok0 f0]. cbn [fst snd] in E0, S0. subst ok0.
  destruct (Hstep f0 0%nat CFG_HDR_LEN) as [E1 S1]; [vm_compute; lia|done|].
  rewrite Z.add_0_r in E1, S1. change (slice 0 CFG_HDR_LEN rec) with (take CFG_HDR_LEN rec) in *.
  cbn [negb]. destruct (write_pages t _ f0) as [ok1 f1]. cbn [fst snd] in E1, S1. subst ok1.
  destruct (Hstep f1 CFG_HDR_LEN CFG_SIZE) as [E2 S2]; [vm_compute; lia|done|].
  cbn [negb]. destruct (write_pages _ _ f1) as [ok2 f2]. cbn [fst snd] in E2, S2. subst ok2.
  destruct (Hstep f2 CFG_CRC_OFF 4%nat) as [E3 [S3 _]]; [vm_compute; lia|done|].
  cbn [negb]. destruct (write_pages _ _ f2) as [ok3 f3]. cbn [fst snd] in E3, S3. subst ok3.
  eexists. split; [reflexivity|]. rewrite <- (take_ge rec CFG_REC_LEN) by lia. done.
Qed.
End Healthy.

(** ** What the store promises: the RAM copy is what a reboot would load *)

Section Spec.
Context {F : Type} `{FlashLaws F}.

Definition slot_gen_below (r : slot_result) (g : Z) : Prop :=
  match r with SlotOk _ g' => g' < g | SlotBad => True | SlotIo => False end.

(** the active slot holds the RAM copy and the other slot nothing newer *)
Definition store_ok (f : F) (s : store) : Prop :=
  inited s = true ∧ is_u32 (cur_gen s) ∧
  ((s = mk_store config_store_get_defaults 0 0 true ∧
    slot_read CFG_SLOT_A f = SlotBad ∧ slot_read CFG_SLOT_B f = SlotBad) ∨
   ((cur_slot s = CFG_SLOT_A ∨ cur_slot s = CFG_SLOT_B) ∧
    slot_read (cur_slot s) f = SlotOk (cur s) (cur_gen s) ∧
    slot_gen_below (slot_read (save_target s) f) (cur_gen s + (if cur_slot s =? CFG_SLOT_A then 1 else 0)))).

Lemma slot_decode_ok rec : slot_decode rec ≠ SlotIo.
Proof. unfold slot_decode. by repeat case_match. Qed.

Lemma slot_decode_gen rec c g : slot_decode rec = SlotOk c g → is_u32 g ∧ cfg_ok c.
Proof.
  unfold slot_decode. repeat case_match; try done. intros [= <- <-].
  split; [apply u32_range|apply cfg_of_bytes_ok].
Qed.

Lemma slot_read_A f : slot_read CFG_SLOT_A f = slot_decode (cells f CFG_SLOT_A CFG_REC_LEN).
Proof. by apply slot_read_cells. Qed.
Lemma slot_read_B f : slot_read CFG_SLOT_B f = slot_decode (cells f CFG_SLOT_B CFG_REC_LEN).
Proof. by apply slot_read_cells. Qed.

Lemma slot_read_total f t :
  t = CFG_SLOT_A ∨ t = CFG_SLOT_B →
  slot_read t f = slot_decode (cells f t CFG_REC_LEN).
Proof. intros [-> | ->]; [apply slot_read_A|apply slot_read_B]. Qed.

Lemma config_store_init_ok f s :
  ∃ s', config_store_init f s = (true, s') ∧ store_ok f s'.
Proof.
  unfold config_store_init, store_ok.
  pose proof (slot_decode_ok (cells f CFG_SLOT_A CFG_REC_LEN)) as NA.
  pose proof (slot_decode_ok (cells f CFG_SLOT_B CFG_REC_LEN)) as NB.
  rewrite slot_read_A, slot_read_B.
  destruct (slot_decode (cells f CFG_SLOT_A _)) as [| |ca ga] eqn:EA; [congruence|..];
  destruct (slot_decode (cells f CFG_SLOT_B _)) as [| |cb gb] eqn:EB; try congruence.
  - eexists; split; [done|]. simpl. split_and!; [done|ulia|by left].
  - apply slot_decode_gen in EB as EB'.
    eexists; split; [done|]. simpl. split_and!; [done|tauto|]. right.
    change (save_target _) with CFG_SLOT_A. rewrite ?slot_read_A, ?slot_read_B, ?EA, ?EB.
    split_and!; [auto|done|done].
  - apply slot_decode_gen in EA as EA'.
    eexists; split; [done|]. simpl. split_and!; [done|tauto|]. right.
    change (save_target _) with CFG_SLOT_B. rewrite ?slot_read_A, ?slot_read_B, ?EA, ?EB.
    split_and!; [auto|done|done].
  - apply slot_decode_gen in EA as EA'. apply slot_decode_gen in EB as EB'.
    destruct (gb <=? ga) eqn:E; (eexists; split; [done|]); simpl; (split_and!; [done|tauto|]); right.
    + change (save_target _) with CFG_SLOT_B. rewrite ?slot_read_A, ?slot_read_B, ?EA, ?EB.
      split_and!; [auto|done|simpl; lia].
    + change (save_target _) with CFG_SLOT_A. rewrite ?slot_read_A, ?slot_read_B, ?EA, ?EB.
      split_and!; [auto|done|simpl; lia].
Qed.

(** the state of a healthy store is determined by the flash *)
Lemma config_store_init_of_ok f s s0 :
  store_ok f s → config_store_init f s0 = (true, s).
Proof.
  intros (Hin & Hg & [(-> & HA & HB) | (Hsl & Hcur & Hpeer)]); unfold config_store_init.
  { by rewrite HA, HB. }
  destruct s as [c g sl i]; simpl in *. subst i.
  destruct Hsl as [-> | ->]; simpl in Hpeer; rewrite Hcur.
  - change (save_target _) with CFG_SLOT_B in Hpeer. revert Hpeer.
    destruct (slot_read CFG_SLOT_B f) as [| |cb gb]; simpl; [done..|].
    intros. by replace (gb <=? g) with true by lia.
  - change (save_target _) with CFG_SLOT_A in Hpeer. revert Hpeer.
    destruct (slot_read CFG_SLOT_A f) as [| |ca ga]; simpl; [done..|].
    intros. by replace (g <=? ga) with false by lia.
Qed.

Lemma config_store_save_ok cfg f s :
  store_ok f s → cfg_ok cfg → cur_gen s + 1 < 2 ^ 32 →
  ∃ f' s', config_store_save cfg f s = (true, f', s') ∧ store_ok f' s' ∧
           cur s' = cfg ∧ cur_gen s' = cur_gen s + 1 ∧ cur_slot s' = save_target s.
Proof.
  intros Hok Hcfg Hgen. pose proof Hok as (Hin & Hg & Hst).
  destruct (config_store_save_stores cfg f s Hcfg Hin) as (f' & Hsave & Hcells).
  exists f', (mk_store cfg (u32 (cur_gen s + 1)) (save_target s) true).
  assert (is_u32 (cur_gen s + 1)) as Hg' by (destruct Hg; split; [lia|done]).
  rewrite u32_id in * by done.
  split_and!; try done. split_and!; try done. right. simpl.
  pose proof (save_target_cases s) as Ht.
  split_and!; [done| |].
  { rewrite slot_read_total by done. rewrite Hcells. by apply slot_decode_record. }
  assert (∀ x, ¬ (save_target s ≤ x < save_target s + CFG_SLOT_SIZE) →
               cell f' x = cell f x) as Hfr.
  { intros x Hx. pose proof (config_store_save_frame cfg f s x Hcfg Hx) as Hc.
    by rewrite Hsave in Hc. }
  assert (∀ t, t = CFG_SLOT_A ∨ t = CFG_SLOT_B → t ≠ save_target s →
               slot_read t f' = slot_read t f) as Hsame.
  { intros t Htc Hne. rewrite !slot_read_total by done. f_equal. apply cells_ext.
    intros x Hx. apply Hfr. revert Hx Hne.
    destruct Htc as [-> | ->], Ht as [-> | ->];
      change (Z.of_nat CFG_REC_LEN) with 40;
      unfold CFG_SLOT_A, CFG_SLOT_B, CFG_SLOT_SIZE, STORAGE_OFFSET; lia. }
  unfold save_target in *. simpl.
  destruct (cur_slot s =? CFG_SLOT_A) eqn:EA; simpl.
  - assert (cur_slot s = CFG_SLOT_A) as Es by lia.
    change (slot_gen_below (slot_read CFG_SLOT_A f') (cur_gen s + 1 + 0)).
    rewrite Hsame by (auto || done).
    destruct Hst as [(-> & HA & HB) | (_ & Hcur & _)]; [done|].
    rewrite Es in Hcur. rewrite Hcur. simpl. lia.
  - change (slot_gen_below (slot_read CFG_SLOT_B f') (cur_gen s + 1 + 1)).
    rewrite Hsame by (auto || done).
    destruct Hst as [(-> & HA & HB) | (Hsl & Hcur & _)]; [by rewrite HB|].
    destruct Hsl as [Es | Es]; [lia|]. rewrite Es in Hcur. rewrite Hcur. simpl. lia.
Qed.
End Spec.

(** ** Corruption of a stored record *)

Section Corruption.
Lemma le32_inj l1 l2 :
  bytes_ok l1 → bytes_ok l2 → length l1 = 4%nat → length l2 = 4%nat →
  io_get_le32 l1 = io_get_le32 l2 → l1 = l2.
Proof.
  intros H1 H2. destruct l1 as [|? [|? [|? [|? [|]]]]]; try done.
  destruct l2 as [|? [|? [|? [|? [|]]]]]; try done. intros _ _.
  rewrite !Forall_cons_iff in *. destruct_and!. rewrite !le32_arith by done.
  intros E. f_equal; [|f_equal; [|f_equal; [|f_equal]]]; ulia.
Qed.

Lemma slot_decode_valid rec c g :
  slot_decode rec = SlotOk c g →
  io_get_le32 (drop CFG_CRC_OFF rec) = crc32_ieee (take CFG_CRC_OFF rec).
Proof. unfold slot_decode. repeat case_match; try done. intros. lia. Qed.

Lemma slot_decode_crc_bad rec :
  io_get_le32 (drop CFG_CRC_OFF rec) ≠ crc32_ieee (take CFG_CRC_OFF rec) →
  slot_decode rec = SlotBad.
Proof. intros. unfold slot_decode. repeat case_match; try done. lia. Qed.

Lemma crc32_insert l i b :
  bytes_ok l → is_byte b → (i < length l)%nat →
  crc32_ieee (<[i:=b]> l) = crc32_ieee l → b = rd l i.
Proof.
  intros Hl Hb Hi E. destruct (lookup_lt_is_Some_2 l i Hi) as [a Ha].
  unfold rd. rewrite Ha. simpl.
  rewrite insert_take_drop in E by done. rewrite <- (take_drop_middle l i a) in E at 3 by done.
  assert (bytes_ok (take i l) ∧ bytes_ok (drop (S i) l) ∧ is_byte a) as (? & ? & ?).
  { split_and!; [by apply Forall_take|by apply Forall_drop|by eapply Forall_lookup_1]. }
  apply (crc32_byte_burst (take i l) [b] [a] (drop (S i) l)) in E;
    [by injection E|done|by constructor|by constructor|done..|simpl; lia].
Qed.

Lemma slot_decode_corrupt rec i b c g :
  length rec = CFG_REC_LEN → bytes_ok rec → is_byte b → (i < CFG_REC_LEN)%nat →
  b ≠ rd rec i → slot_decode rec = SlotOk c g → slot_decode (<[i:=b]> rec) = SlotBad.
Proof.
  intros Hlen Hrec Hb Hi Hne Hdec%slot_decode_valid. apply slot_decode_crc_bad.
  destruct (decide (i < CFG_CRC_OFF)%nat) as [Hlt|Hge].
  - rewrite drop_insert_lt, take_insert_lt, Hdec by done. intros E.
    symmetry in E. apply crc32_insert in E; [|by apply Forall_take|done|].
    + by rewrite rd_take in E.
    + rewrite length_take, Hlen. by apply Nat.min_glb_lt.
  - rewrite take_insert_ge by lia. rewrite <- Hdec. intros E.
    rewrite drop_insert_ge in E by lia.
    assert (length (drop CFG_CRC_OFF rec) = 4%nat) as Hl by (by rewrite length_drop, Hlen).
    apply le32_inj in E; rewrite ?length_insert; try done;
      [|apply Forall_insert; [by apply Forall_drop|done]|by apply Forall_drop].
    apply Hne. rewrite <- (rd_drop_sub rec CFG_CRC_OFF i) by lia. rewrite <- E.
    unfold rd. rewrite list_lookup_insert_eq; [done|]. rewrite Hl.
    unfold CFG_REC_LEN in Hi. lia.
Qed.
End Corruption.

(** ** Properties *)

(** A save on a healthy device succeeds, the new configuration is the
    current one, and any later reboot loads exactly the state the save left;
    the invariant [store_ok] is kept, so this holds for every sequence of
    saves (up to 2^32-1 generations). *)
Theorem config_save_reboot {F} `{FlashLaws F} (cfg : io_cfg) (f : F) (s : store) :
  store_ok f s → cfg_ok cfg → cur_gen s + 1 < 2 ^ 32 →
  ∃ f' s', config_store_save cfg f s = (true, f', s') ∧ store_ok f' s' ∧
           config_store_get s' = cfg ∧ (∀ s0, config_store_init f' s0 = (true, s')).
Proof.
  intros Hok Hcfg Hgen.
  destruct (config_store_save_ok cfg f s Hok Hcfg Hgen) as (f' & s' & Hs & Hok' & Hc & _).
  exists f', s'. split_and!; try done.
  - unfold config_store_get. destruct Hok' as [-> _]. done.
  - intros s0. by apply config_store_init_of_ok.
Qed.

(** Whatever the flash holds at boot, [config_store_init] on a healthy
    device succeeds and establishes the invariant: the RAM copy is the valid
    slot with the larger generation (slot A on a tie), or the factory defaults
    when neither slot is valid. *)
Theorem config_init_picks_newest {F} `{FlashLaws F} (f : F) (s : store) :
  ∃ s', config_store_init f s = (true, s') ∧ store_ok f s' ∧
  match slot_read CFG_SLOT_A f, slot_read CFG_SLOT_B f with
  | SlotOk ca ga, SlotOk cb gb => cur s' = if gb <=? ga then ca else cb
  | SlotOk ca _, _ => cur s' = ca
  | _, SlotOk cb _ => cur s' = cb
  | _, _ => cur s' = config_store_get_defaults
  end.
Proof.
  destruct (config_store_init_ok f s) as (s' & Hi & Hok). exists s'. split_and!; [done..|].
  revert Hi. unfold config_store_init.
  destruct (slot_read CFG_SLOT_A f) as [| |ca ga], (slot_read CFG_SLOT_B f) as [| |cb gb];
    repeat case_match; by intros [= <-].
Qed.

(** the state of an interrupted save, read by a device that works again *)
Definition same_cells {F G} `{FlashFrame F} `{FlashFrame G} (f : F) (g : G) : Prop :=
  ∀ x, cell f x = cell g x.


(** C2: a record with any one byte changed, anywhere in its 40 bytes, is
    rejected. *)
Theorem config_corruption_detected {F} `{FlashLaws F} (f g : F) (t x0 : Z) (c : io_cfg) (gen : Z) :
  t = CFG_SLOT_A ∨ t = CFG_SLOT_B →
  slot_read t f = SlotOk c gen → t ≤ x0 < t + 40 → cell g x0 ≠ cell f x0 →
  (∀ x, x ≠ x0 → cell g x = cell f x) → slot_read t g = SlotBad.
Proof.
  intros Ht Hf Hx0 Hne Hsame. rewrite slot_read_total in * by done.
  assert (cells g t CFG_REC_LEN
          = <[Z.to_nat (x0 - t) := cell g x0]> (cells f t CFG_REC_LEN)) as ->.
  { apply list_eq_same_length with CFG_REC_LEN; rewrite ?length_insert, ?length_cells; [done..|].
    intros i x y Hi. rewrite lookup_cells by done. intros [= <-].
    destruct (decide (i = Z.to_nat (x0 - t))) as [->|Hi'].
    - rewrite list_lookup_insert_eq by (by rewrite length_cells). intros [= <-]. f_equal. lia.
    - rewrite list_lookup_insert_ne, lookup_cells by done. intros [= <-].
      apply Hsame. lia. }
  eapply slot_decode_corrupt; [apply length_cells|apply cells_bytes|apply cell_byte| | |done].
  - unfold CFG_REC_LEN, CFG_CRC_OFF, CFG_HDR_LEN, CFG_SIZE. lia.
  - rewrite rd_cells by (unfold CFG_REC_LEN, CFG_CRC_OFF, CFG_HDR_LEN, CFG_SIZE; lia).
    by replace (t + Z.of_nat (Z.to_nat (x0 - t))) with x0 by lia.
Qed.

(** ** Witnesses *)

Definition cfg_example : io_cfg :=
  mk_cfg 0x1234 0x0F 500 600 1 0x123 500 19200 17 [10; 0; 0; 42].

Definition boot_nor : Nor.nor := Nor.fake_flash_reset.
Definition boot_store : store := (config_store_init boot_nor store_boot).2.

Lemma boot_store_ok : store_ok boot_nor boot_store.
Proof.
  destruct (config_store_init_ok boot_nor store_boot) as (s' & Hi & Hok).
  unfold boot_store. by rewrite Hi.
Defined.

Lemma cfg_example_ok : cfg_ok cfg_example.
Proof. split; [|done]. unfold cfg_words; simpl. repeat constructor; ulia. Defined.

(** one save done: slot A active, generation 1 *)
Definition nor1 : Nor.nor := (config_store_save cfg_example boot_nor boot_store).1.2.
Definition store1 : store := (config_store_save cfg_example boot_nor boot_store).2.

Lemma store1_ok : store_ok nor1 store1.
Proof.
  destruct (config_store_save_ok cfg_example boot_nor boot_store boot_store_ok cfg_example_ok)
    as (f' & s' & Hs & Hok & _); [done|].
  unfold nor1, store1. by rewrite Hs.
Defined.

Lemma config_save_reboot_witness :
  store_ok boot_nor boot_store ∧
  ∃ f' s', config_store_save cfg_example boot_nor boot_store = (true, f', s') ∧ store_ok f' s' ∧
           config_store_get s' = cfg_example ∧ (∀ s0, config_store_init f' s0 = (true, s')).
Proof.
  split; [apply boot_store_ok|].
  apply (config_save_reboot cfg_example boot_nor boot_store boot_store_ok cfg_example_ok).
  reflexivity.
Defined.

Lemma config_init_picks_newest_witness :
  ∃ s', config_store_init nor1 store_boot = (true, s') ∧ store_ok nor1 s' ∧
  cur s' = cfg_example.
Proof.
  destruct (config_init_picks_newest nor1 store_boot) as (s' & Hi & Hok & Hc).
  exists s'. split; [exact Hi|]. split; [exact Hok|].
  transitivity (cur (config_store_init nor1 store_boot).2); [by rewrite Hi|].
  vm_compute. reflexivity.
Defined.

(** the save of the defaults over [store1], the power failing after 20 steps:
    the header is stored, the body is not *)
Definition torn : bool * Brownout.dev * store :=
  config_store_save config_store_get_defaults (Brownout.mk_dev nor1 20) store1.

Lemma defaults_ok : cfg_ok config_store_get_defaults.
Proof. split; [|done]. unfold cfg_words; simpl. repeat constructor; ulia. Defined.


(** power lost after [k] steps, for every [k] of the 41 a save takes: the old
    configuration until the last byte, then the new one *)
Example torn_every_point :
  (λ k, let '(_, d, _) := config_store_save config_store_get_defaults
                            (Brownout.mk_dev nor1 k) store1 in
        cur_gen (config_store_init (Brownout.nor_of d) store_boot).2) <$> seq 0 42
  = replicate 41 1 ++ [2].
Proof. vm_compute. reflexivity. Qed.

Lemma config_corruption_detected_witness :
  slot_read CFG_SLOT_A nor1 = SlotOk cfg_example 1 ∧
  slot_read CFG_SLOT_A (Nor.fake_flash_corrupt (CFG_SLOT_A + 13) nor1) = SlotBad.
Proof.
  assert (slot_read CFG_SLOT_A nor1 = SlotOk cfg_example 1) as Hr by (vm_compute; reflexivity).
  split; [exact Hr|].
  apply (config_corruption_detected nor1 (Nor.fake_flash_corrupt (CFG_SLOT_A + 13) nor1)
           CFG_SLOT_A (CFG_SLOT_A + 13) cfg_example 1); [by left|exact Hr| | |].
  - lia.
  - vm_compute. discriminate.
  - intros x Hx. exact (Nor.corrupt_other (CFG_SLOT_A + 13) nor1 x Hx).
Defined.
