(* ===== verification/Regmap.v ===== *)
(** The register model: [src/modbus/regmap.c], with the enums and counts of
    [src/include/init.h].

    [IoHooks] is the interface [src/include/io_hooks.h] plus the two
    [config_store.h] calls of this file: everything the register model calls in
    the rest of the firmware.  The tests of the repository link fakes against
    it, the firmware the real modules; so do we ([Trace] below, and the device
    of [Device.v]).  [IoHooksLaws] states what the register model relies on:
    the configuration read back is the one last saved, and no other hook
    changes it.  [LOG_*] calls have no state and are left out. *)

From S2P Require Import Prelude IoBytes Flash ConfigStore.

(** ** Counts and register indices ([init.h]) *)

Definition DI_NUM : Z := 16.
Definition DO_NUM : Z := 8.
Definition AI_NUM : Z := 4.

Definition MODBUS_HOLDING_REGISTER_NUMBERS : Z := 18.
Definition MODBUS_INPUT_REGISTER_NUMBERS : Z := 6.

Definition INPUT_VER_IDX : Z := 0.
Definition INPUT_AI0_IDX : Z := 1.
Definition INPUT_DI_IDX : Z := 5.

Definition HOLDING_DO_IDX : Z := 0x00.
Definition HOLDING_DI_ENABLE_IDX : Z := 0x01.
Definition HOLDING_AI_ENABLE_IDX : Z := 0x02.
Definition HOLDING_DI_SAMPLE_MS_IDX : Z := 0x03.
Definition HOLDING_AI_SAMPLE_MS_IDX : Z := 0x04.
Definition HOLDING_HISTORY_ENABLE_IDX : Z := 0x05.
Definition HOLDING_CAN_ID_IDX : Z := 0x06.
Definition HOLDING_CAN_BAUDRATE_IDX : Z := 0x07.
Definition HOLDING_RS485_BAUDRATE_IDX : Z := 0x08.
Definition HOLDING_SLAVE_ID_IDX : Z := 0x09.
Definition HOLDING_IP_OCTET1_IDX : Z := 0x0A.
Definition HOLDING_IP_OCTET2_IDX : Z := 0x0B.
Definition HOLDING_IP_OCTET3_IDX : Z := 0x0C.
Definition HOLDING_IP_OCTET4_IDX : Z := 0x0D.
Definition HOLDING_TIMESTAMP_HI_IDX : Z := 0x0E.
Definition HOLDING_TIMESTAMP_LO_IDX : Z := 0x0F.
Definition HOLDING_CONFIG_SAVE_IDX : Z := 0x10.
Definition HOLDING_REBOOT_IDX : Z := 0x11.

(** ** The rest of the firmware *)

Class IoHooks (E : Type) : Type := {
  hook_set_do : Z → E → E;                (* mb_set_do *)
  hook_history_enable : bool → E → E;     (* history_enable_write *)
  hook_history_sync : E → E;              (* history_sync *)
  hook_set_timestamp : Z → E → bool * E;  (* set_timestamp *)
  hook_now_epoch : E → Z * E;             (* io_now_epoch: a volatile read *)
  hook_reboot_cold : E → E;               (* io_reboot_cold, up to the reset *)
  hook_lock : E → E;                      (* io_lock *)
  hook_unlock : E → E;                    (* io_unlock *)
  hook_config_get : E → io_cfg;           (* config_store_get *)
  hook_config_save : io_cfg → E → bool * E; (* config_store_save *)
}.

Class IoHooksLaws (E : Type) `{IoHooks E} : Type := {
  config_get_ok e : cfg_ok (hook_config_get e);
  config_get_save c e :
    cfg_ok c → (hook_config_save c e).1 = true → hook_config_get (hook_config_save c e).2 = c;
  config_get_lock e : hook_config_get (hook_lock e) = hook_config_get e;
  config_get_unlock e : hook_config_get (hook_unlock e) = hook_config_get e;
  now_epoch_u32 e : is_u32 (hook_now_epoch e).1;
}.

(** ** State: the two register arrays, and the environment behind the hooks *)

Record regs (E : Type) := mk_regs { holding_reg : list Z; input_reg : list Z; env : E }.
Arguments mk_regs {E} _ _ _.
Arguments holding_reg {E} _.
Arguments input_reg {E} _.
Arguments env {E} _.

Definition holding_reg_init : list Z :=
  [0; 0xFFFF; 0x000F; 200; 200; 0; 0x0111; 250; 9600; 1; 192; 168; 12; 101; 0; 0; 0; 0].

(** the version word; the numbers come from the generated [fw_version.h] *)
Definition input_reg_init (major minor patch : Z) : list Z :=
  [u16 (Z.lor (Z.lor (Z.shiftl major 12) (Z.shiftl minor 8)) patch); 0; 0; 0; 0; 0].

(** type of the state: the two [uint16_t] arrays *)
Definition regs_ok {E} (s : regs E) : Prop :=
  length (holding_reg s) = 18%nat ∧ length (input_reg s) = 6%nat ∧
  Forall (is_u 16) (holding_reg s) ∧ Forall (is_u 16) (input_reg s).

Section Regmap.
Context {E : Type} `{IoHooks E}.

Abbreviation MR := (M (regs E)).

Definition hread (s : regs E) (i : Z) : Z := rd (holding_reg s) (Z.to_nat i).
Definition iread (s : regs E) (i : Z) : Z := rd (input_reg s) (Z.to_nat i).

Definition set_holding (i v : Z) : MR unit :=
  modify (λ s, mk_regs (<[Z.to_nat i := v]> (holding_reg s)) (input_reg s) (env s)).
Definition set_input (i v : Z) : MR unit :=
  modify (λ s, mk_regs (holding_reg s) (<[Z.to_nat i := v]> (input_reg s)) (env s)).

(** a call through the interface *)
Definition call (f : E → E) : MR unit :=
  modify (λ s, mk_regs (holding_reg s) (input_reg s) (f (env s))).
Definition call_ret {A} (f : E → A * E) : MR A :=
  λ s, let '(a, e) := f (env s) in (Done a, mk_regs (holding_reg s) (input_reg s) e).

(** *** Register access *)

Definition get_holding_reg (addr : Z) : MR Z :=
  gets (λ s, if MODBUS_HOLDING_REGISTER_NUMBERS <=? addr then 0 else hread s addr).

Definition io_read_holding (addr : Z) : MR Z :=
  if addr =? HOLDING_TIMESTAMP_HI_IDX
  then now ← call_ret hook_now_epoch; mret (u16 (Z.shiftr (u32 now) 16))
  else if addr =? HOLDING_TIMESTAMP_LO_IDX
  then now ← call_ret hook_now_epoch; mret (u16 (u32 now))
  else get_holding_reg addr.

(** [true] is return value 0, [false] is -1 *)
Definition update_holding_reg (addr reg : Z) : MR bool :=
  if MODBUS_HOLDING_REGISTER_NUMBERS <=? addr then mret false
  else set_holding addr reg;; mret true.

Definition get_input_reg (addr : Z) : MR Z :=
  gets (λ s, if MODBUS_INPUT_REGISTER_NUMBERS <=? addr then 0 else iread s addr).

Definition update_input_reg (addr reg : Z) : MR bool :=
  if MODBUS_INPUT_REGISTER_NUMBERS <=? addr then mret false
  else set_input addr reg;; mret true.

(** *** Persistence *)

Definition ip_addr_valid (a b c d : Z) : bool :=
  if (d =? 0) || (d =? 0xFF) then false
  else if (a =? 0) || (a =? 127) || (224 <=? a) then false
  else true.

Definition ip_is_valid_for_export (s : regs E) : bool :=
  ip_addr_valid (u8 (hread s HOLDING_IP_OCTET1_IDX)) (u8 (hread s HOLDING_IP_OCTET2_IDX))
                (u8 (hread s HOLDING_IP_OCTET3_IDX)) (u8 (hread s HOLDING_IP_OCTET4_IDX)).

(** the record exported by [holding_reg_save], [old] as the fallback *)
Definition cfg_export (old : io_cfg) (s : regs E) : io_cfg :=
  mk_cfg (hread s HOLDING_DI_ENABLE_IDX) (hread s HOLDING_AI_ENABLE_IDX)
         (hread s HOLDING_DI_SAMPLE_MS_IDX) (hread s HOLDING_AI_SAMPLE_MS_IDX)
         (hread s HOLDING_HISTORY_ENABLE_IDX) (hread s HOLDING_CAN_ID_IDX)
         (hread s HOLDING_CAN_BAUDRATE_IDX) (hread s HOLDING_RS485_BAUDRATE_IDX)
         (hread s HOLDING_SLAVE_ID_IDX)
         (if ip_is_valid_for_export s
          then [hread s HOLDING_IP_OCTET1_IDX; hread s HOLDING_IP_OCTET2_IDX;
                hread s HOLDING_IP_OCTET3_IDX; hread s HOLDING_IP_OCTET4_IDX]
          else ip old).

Definition holding_reg_save : MR unit :=
  call hook_lock;;
  cfg ← gets (λ s, hook_config_get (env s));
  cfg ← gets (cfg_export cfg);
  _ ← call_ret (hook_config_save cfg);
  call hook_unlock.

Definition holding_reg_load : MR unit :=
  cfg ← gets (λ s, hook_config_get (env s));
  set_holding HOLDING_DI_ENABLE_IDX (di_en cfg);;
  set_holding HOLDING_AI_ENABLE_IDX (ai_en cfg);;
  set_holding HOLDING_DI_SAMPLE_MS_IDX (di_si cfg);;
  set_holding HOLDING_AI_SAMPLE_MS_IDX (ai_si cfg);;
  set_holding HOLDING_HISTORY_ENABLE_IDX (his cfg);;
  set_holding HOLDING_CAN_ID_IDX (can_id cfg);;
  set_holding HOLDING_CAN_BAUDRATE_IDX (can_bps cfg);;
  set_holding HOLDING_RS485_BAUDRATE_IDX (rs485_bps cfg);;
  set_holding HOLDING_SLAVE_ID_IDX (slave_id cfg);;
  if ip_addr_valid (u8 (rd (ip cfg) 0)) (u8 (rd (ip cfg) 1))
                   (u8 (rd (ip cfg) 2)) (u8 (rd (ip cfg) 3))
  then set_holding HOLDING_IP_OCTET1_IDX (rd (ip cfg) 0);;
       set_holding HOLDING_IP_OCTET2_IDX (rd (ip cfg) 1);;
       set_holding HOLDING_IP_OCTET3_IDX (rd (ip cfg) 2);;
       set_holding HOLDING_IP_OCTET4_IDX (rd (ip cfg) 3)
  else mret tt.

(** *** Writes with side effects *)

(** the [switch] of [io_write_holding], after the register is stored *)
Definition write_effect (addr reg : Z) : MR unit :=
  if addr =? HOLDING_DO_IDX then call (hook_set_do (Z.land reg 0xFF))
  else if addr =? HOLDING_HISTORY_ENABLE_IDX then call (hook_history_enable (negb (reg =? 0)))
  else if addr =? HOLDING_TIMESTAMP_LO_IDX then
    hi ← gets (λ s, hread s HOLDING_TIMESTAMP_HI_IDX);
    _ ← call_ret (hook_set_timestamp (u32 (Z.lor (Z.shiftl hi 16) reg)));
    mret tt
  else if addr =? HOLDING_CONFIG_SAVE_IDX then
    set_holding addr 0;; holding_reg_save
  else if addr =? HOLDING_REBOOT_IDX then
    set_holding addr 0;;
    if negb (reg =? 0)
    then call hook_history_sync;; call hook_reboot_cold;; sys_reset
    else mret tt
  else mret tt.

Definition io_write_holding (addr reg : Z) : MR bool :=
  if MODBUS_HOLDING_REGISTER_NUMBERS <=? addr then mret false
  else
    cur ← gets (λ s, hread s addr);
    if cur =? reg then mret true
    else set_holding addr reg;; write_effect addr reg;; mret true.

Definition WRITE_BIT (var bit : Z) (set : bool) : Z :=
  if set then Z.lor var (Z.shiftl 1 bit) else Z.land var (Z.lnot (Z.shiftl 1 bit)).

Definition io_write_do_bit (bit : Z) (state : bool) : MR bool :=
  if DO_NUM <=? bit then mret false
  else
    call hook_lock;;
    val ← gets (λ s, hread s HOLDING_DO_IDX);
    let val := u16 (WRITE_BIT val bit state) in
    call (hook_set_do (Z.land val 0xFF));;
    set_holding HOLDING_DO_IDX (Z.land val 0xFF);;
    call hook_unlock;;
    mret true.

(** [None] is return value -1; [Some st] is 0 with [*state = st] *)
Definition io_coil_rd (s : regs E) (addr : Z) : option bool :=
  if DO_NUM <=? addr then None
  else Some (negb (Z.land (hread s HOLDING_DO_IDX) (Z.shiftl 1 addr) =? 0)).

Definition io_discrete_rd (s : regs E) (addr : Z) : option bool :=
  if DI_NUM <=? addr then None
  else Some (negb (Z.land (iread s INPUT_DI_IDX) (Z.shiftl 1 addr) =? 0)).
End Regmap.

(** ** The type invariant *)

Section Invariant.
Context {E : Type} `{IoHooks E}.

Lemma set_holding_ok i v : is_u16 v → preserves regs_ok (@set_holding E i v).
Proof.
  intros Hv s (Hh & Hi & Fh & Fi). unfold regs_ok; simpl.
  rewrite length_insert. auto using Forall_insert.
Qed.
Lemma set_input_ok i v : is_u16 v → preserves regs_ok (@set_input E i v).
Proof.
  intros Hv s (Hh & Hi & Fh & Fi). unfold regs_ok; simpl.
  rewrite length_insert. auto using Forall_insert.
Qed.
Lemma call_ok f : preserves regs_ok (@call E f).
Proof. intros s Hs. exact Hs. Qed.
Lemma call_ret_ok {A} (f : E → A * E) : preserves regs_ok (call_ret f).
Proof. intros s Hs. unfold call_ret. by destruct (f (env s)). Qed.

Lemma hread_u16 (s : regs E) i : regs_ok s → is_u16 (hread s i).
Proof.
  intros (_ & _ & Fh & _). unfold hread, rd.
  destruct (holding_reg s !! _) eqn:El; simpl; [|ulia]. by eapply Forall_lookup_1.
Qed.
Lemma iread_u16 (s : regs E) i : regs_ok s → is_u16 (iread s i).
Proof.
  intros (_ & _ & _ & Fi). unfold iread, rd.
  destruct (input_reg s !! _) eqn:El; simpl; [|ulia]. by eapply Forall_lookup_1.
Qed.
End Invariant.
#[export] Hint Resolve set_holding_ok set_input_ok call_ok call_ret_ok : effects.
#[export] Hint Resolve hread_u16 iread_u16 : uint.
#[export] Hint Extern 2 (is_u 16 0) => by (split; vm_compute) : effects.
#[export] Hint Extern 2 (is_u 16 (u16 _)) => apply u16_range : effects.

Section Invariant2.
Context {E : Type} `{IoHooksLaws E}.

Lemma cfg_export_ok (old : io_cfg) (s : regs E) :
  cfg_ok old → regs_ok s → cfg_ok (cfg_export old s).
Proof.
  intros [Ho Hl] Hs. split.
  - unfold cfg_words in *. simpl in *.
    rewrite !Forall_cons_iff in Ho. destruct_and!.
    repeat (constructor; [by apply hread_u16|]). case_match; [|done].
    repeat (constructor; [by apply hread_u16|]). done.
  - simpl. by case_match.
Qed.

Lemma holding_reg_save_ok : preserves regs_ok (@holding_reg_save E _).
Proof. unfold holding_reg_save. solve_preserves. Qed.

Lemma cfg_word_u16 c i : cfg_ok c → is_u16 (rd (ip c) i).
Proof.
  intros [Hw _]. unfold rd. destruct (ip c !! i) as [z|] eqn:El; simpl; [|ulia].
  unfold cfg_words in Hw. apply Forall_app in Hw as [_ Hw]. by eapply Forall_lookup_1.
Qed.

Lemma holding_reg_load_ok : preserves regs_ok (@holding_reg_load E _).
Proof.
  intros s Hs. unfold holding_reg_load.
  pose proof (config_get_ok (env s)) as Hc.
  pose proof (cfg_word_u16 _ 0 Hc). pose proof (cfg_word_u16 _ 1 Hc).
  pose proof (cfg_word_u16 _ 2 Hc). pose proof (cfg_word_u16 _ 3 Hc).
  destruct Hc as [Hw _]. unfold cfg_words in Hw. simpl in Hw.
  rewrite !Forall_cons_iff in Hw. destruct_and!.
  rewrite (bind_done _ _ s (hook_config_get (env s)) s) by done.
  match goal with |- regs_ok (?m s).2 => change (regs_ok (m s).2); assert (preserves regs_ok m) as Hp end.
  { solve_preserves. }
  by apply Hp.
Qed.

Lemma write_effect_ok addr reg : is_u16 reg → preserves regs_ok (@write_effect E _ addr reg).
Proof. intros. unfold write_effect, holding_reg_save. solve_preserves. Qed.

Lemma io_write_holding_ok addr reg :
  is_u16 reg → preserves regs_ok (@io_write_holding E _ addr reg).
Proof.
  intros Hr. unfold io_write_holding.
  pose proof (write_effect_ok addr reg Hr) as Hw. solve_preserves.
Qed.

Lemma land255_u16 z : is_u16 (Z.land z 0xFF).
Proof. change 0xFF with (Z.ones 8). rewrite Z.land_ones by lia. change (2 ^ 8) with 256. ulia. Qed.

Lemma io_write_do_bit_ok bit st : preserves regs_ok (@io_write_do_bit E _ bit st).
Proof. unfold io_write_do_bit. pose proof land255_u16. solve_preserves. Qed.

Lemma io_read_holding_ok addr : preserves regs_ok (@io_read_holding E _ addr).
Proof. unfold io_read_holding, get_holding_reg. solve_preserves. Qed.

Lemma update_holding_reg_ok addr reg : is_u16 reg → preserves regs_ok (@update_holding_reg E addr reg).
Proof. intros. unfold update_holding_reg. solve_preserves. Qed.
Lemma update_input_reg_ok addr reg : is_u16 reg → preserves regs_ok (@update_input_reg E addr reg).
Proof. intros. unfold update_input_reg. solve_preserves. Qed.
End Invariant2.
#[export] Hint Resolve holding_reg_save_ok holding_reg_load_ok write_effect_ok io_write_holding_ok
  io_write_do_bit_ok io_read_holding_ok update_holding_reg_ok update_input_reg_ok : effects.

(** ** What a write leaves behind *)

Section Reads.
Context {E : Type} `{IoHooks E}.

Lemma hread_insert_eq (s : regs E) i v inp (e : E) :
  regs_ok s → 0 ≤ i < 18 →
  hread (mk_regs (<[Z.to_nat i := v]> (holding_reg s)) inp e) i = v.
Proof.
  intros (Hl & _) Hi. unfold hread, rd; simpl.
  rewrite list_lookup_insert_eq; [done|lia].
Qed.

Lemma hread_insert_ne (s : regs E) i j v inp (e : E) :
  0 ≤ i → 0 ≤ j → i ≠ j →
  hread (mk_regs (<[Z.to_nat i := v]> (holding_reg s)) inp e) j = hread s j.
Proof.
  intros. unfold hread, rd; simpl. rewrite list_lookup_insert_ne; [done|lia].
Qed.

(** [s] with register [i] set to [v] and environment [e] *)
Definition stored_reg (s : regs E) (i v : Z) (e : E) : regs E :=
  mk_regs (<[Z.to_nat i := v]> (holding_reg s)) (input_reg s) e.

Lemma stored_reg_eq s i v e : regs_ok s → 0 ≤ i < 18 → hread (stored_reg s i v e) i = v.
Proof. apply hread_insert_eq. Qed.
Lemma stored_reg_ne s i j v e :
  0 ≤ i → 0 ≤ j → i ≠ j → hread (stored_reg s i v e) j = hread s j.
Proof. apply hread_insert_ne. Qed.

(** the environment after an ordinary write of [v] to [addr] *)
Definition write_env (s : regs E) (addr v : Z) : E :=
  if addr =? HOLDING_DO_IDX then hook_set_do (Z.land v 0xFF) (env s)
  else if addr =? HOLDING_HISTORY_ENABLE_IDX then hook_history_enable (negb (v =? 0)) (env s)
  else if addr =? HOLDING_TIMESTAMP_LO_IDX
  then (hook_set_timestamp (u32 (Z.lor (Z.shiftl (hread s HOLDING_TIMESTAMP_HI_IDX) 16) v)) (env s)).2
  else env s.

Lemma io_write_holding_plain s addr v :
  regs_ok s → 0 ≤ addr < 16 → hread s addr ≠ v →
  io_write_holding addr v s = (Done true, stored_reg s addr v (write_env s addr v)).
Proof.
  intros Hs Ha Hne. unfold io_write_holding.
  replace (MODBUS_HOLDING_REGISTER_NUMBERS <=? addr) with false
    by (unfold MODBUS_HOLDING_REGISTER_NUMBERS; lia).
  unfold mbind, M_bind, gets. replace (hread s addr =? v) with false by lia.
  unfold write_effect, write_env, set_holding, modify, call, call_ret, gets, modify, mret, M_ret,
    mbind, M_bind.
  unfold HOLDING_DO_IDX, HOLDING_HISTORY_ENABLE_IDX, HOLDING_TIMESTAMP_LO_IDX,
    HOLDING_CONFIG_SAVE_IDX, HOLDING_REBOOT_IDX.
  destruct (addr =? 0) eqn:E0; [done|]. destruct (addr =? 5) eqn:E5; [done|].
  destruct (addr =? 15) eqn:E15.
  - simpl. rewrite hread_insert_ne by (unfold HOLDING_TIMESTAMP_HI_IDX; lia).
    by destruct (hook_set_timestamp _ _).
  - replace (addr =? 16) with false by lia. replace (addr =? 17) with false by lia. done.
Qed.

Lemma io_write_holding_same s addr v :
  addr < 18 → hread s addr = v → io_write_holding addr v s = (Done true, s).
Proof.
  intros Ha Hv. unfold io_write_holding.
  replace (MODBUS_HOLDING_REGISTER_NUMBERS <=? addr) with false
    by (unfold MODBUS_HOLDING_REGISTER_NUMBERS; lia).
  unfold mbind, M_bind, gets. by rewrite Hv, Z.eqb_refl.
Qed.

Lemma io_write_holding_oob s addr v :
  18 ≤ addr → io_write_holding addr v s = (Done false, s).
Proof.
  intros Ha. unfold io_write_holding.
  by replace (MODBUS_HOLDING_REGISTER_NUMBERS <=? addr) with true
    by (unfold MODBUS_HOLDING_REGISTER_NUMBERS; lia).
Qed.

Lemma io_write_holding_reboot s v :
  regs_ok s → hread s HOLDING_REBOOT_IDX = 0 → v ≠ 0 →
  ∃ s', io_write_holding HOLDING_REBOOT_IDX v s = (Reset, s') ∧
        env s' = hook_reboot_cold (hook_history_sync (env s)) ∧
        hread s' HOLDING_REBOOT_IDX = 0.
Proof.
  intros Hs H0 Hv. unfold io_write_holding, mbind, M_bind, gets.
  change (MODBUS_HOLDING_REGISTER_NUMBERS <=? HOLDING_REBOOT_IDX) with false. cbv iota beta.
  rewrite H0. replace (0 =? v) with false by lia.
  unfold write_effect, set_holding, modify, call, sys_reset. cbn -[hread hook_reboot_cold hook_history_sync].
  replace (v =? 0) with false by lia. cbn -[hread].
  eexists. split; [reflexivity|]. split; [done|].
  unfold hread, rd; simpl. rewrite list_lookup_insert_eq; [done|].
  rewrite length_insert. destruct Hs as [-> _]. unfold HOLDING_REBOOT_IDX. lia.
Qed.
End Reads.

(** ** Coils *)

Section Coils.
Lemma land_bit v i : 0 ≤ i → negb (Z.land v (Z.shiftl 1 i) =? 0) = Z.testbit v i.
Proof.
  intros Hi. rewrite Z.shiftl_1_l. destruct (Z.testbit v i) eqn:Eb.
  - destruct (Z.land v (2 ^ i) =? 0) eqn:El; [|done]. exfalso.
    assert (Z.testbit (Z.land v (2 ^ i)) i = false) as Hf by (replace (Z.land v (2 ^ i)) with 0 by lia; apply Z.bits_0).
    rewrite Z.land_spec, Eb, Z.pow2_bits_true in Hf by lia. done.
  - destruct (Z.land v (2 ^ i) =? 0) eqn:El; [done|]. exfalso.
    assert (Z.land v (2 ^ i) = 0); [|lia].
    apply Z.bits_inj'. intros j Hj. rewrite Z.land_spec, Z.bits_0.
    destruct (decide (i = j)) as [<-|].
    + by rewrite Eb.
    + rewrite Z.pow2_bits_false by lia. apply andb_false_r.
Qed.

Lemma testbit_write_bit v b st i :
  0 ≤ b → 0 ≤ i → Z.testbit (WRITE_BIT v b st) i = if i =? b then st else Z.testbit v i.
Proof.
  intros Hb Hi. unfold WRITE_BIT. rewrite Z.shiftl_1_l. destruct st.
  - rewrite Z.lor_spec. destruct (Z.eqb_spec i b) as [->|].
    + rewrite Z.pow2_bits_true by lia. apply orb_true_r.
    + rewrite Z.pow2_bits_false by lia. apply orb_false_r.
  - rewrite Z.land_spec, Z.lnot_spec by lia. destruct (Z.eqb_spec i b) as [->|].
    + rewrite Z.pow2_bits_true by lia. apply andb_false_r.
    + rewrite Z.pow2_bits_false by lia. apply andb_true_r.
Qed.

Lemma testbit_low w v i : 0 ≤ i < w → Z.testbit (v mod 2 ^ w) i = Z.testbit v i.
Proof. intros. rewrite Z.mod_pow2_bits_low; [done|lia]. Qed.

Lemma land255_testbit v i : 0 ≤ i < 8 → Z.testbit (Z.land v 0xFF) i = Z.testbit v i.
Proof. intros. change 0xFF with (Z.ones 8). rewrite Z.land_ones by lia. by apply testbit_low. Qed.

Lemma u16_testbit v i : 0 ≤ i < 16 → Z.testbit (u16 v) i = Z.testbit v i.
Proof. intros. unfold u16. change 65536 with (2 ^ 16). by apply testbit_low. Qed.

Context {E : Type} `{IoHooks E}.

(** the outputs as [io_coil_rd] reports them: bit [i] of the DO register *)
Lemma io_coil_rd_bit (s : regs E) i :
  0 ≤ i < DO_NUM → io_coil_rd s i = Some (Z.testbit (hread s HOLDING_DO_IDX) i).
Proof.
  intros Hi. unfold io_coil_rd. replace (DO_NUM <=? i) with false by lia.
  by rewrite land_bit by lia.
Qed.
Lemma io_discrete_rd_bit (s : regs E) i :
  0 ≤ i < DI_NUM → io_discrete_rd s i = Some (Z.testbit (iread s INPUT_DI_IDX) i).
Proof.
  intros Hi. unfold io_discrete_rd. replace (DI_NUM <=? i) with false by lia.
  by rewrite land_bit by lia.
Qed.

(** the DO register after [io_write_do_bit] *)
Definition do_after (s : regs E) (bit : Z) (st : bool) : Z :=
  Z.land (u16 (WRITE_BIT (hread s HOLDING_DO_IDX) bit st)) 0xFF.

Lemma do_after_testbit s bit st i :
  0 ≤ bit → 0 ≤ i < 8 →
  Z.testbit (do_after s bit st) i
  = if i =? bit then st else Z.testbit (hread s HOLDING_DO_IDX) i.
Proof.
  intros. unfold do_after. rewrite land255_testbit, u16_testbit by lia.
  apply testbit_write_bit; lia.
Qed.

Lemma io_write_do_bit_eq s bit st :
  bit < DO_NUM →
  io_write_do_bit bit st s
  = (Done true, stored_reg s HOLDING_DO_IDX (do_after s bit st)
       (hook_unlock (hook_set_do (do_after s bit st) (hook_lock (env s))))).
Proof.
  intros Hb. unfold io_write_do_bit. by replace (DO_NUM <=? bit) with false by lia.
Qed.
End Coils.

(** ** Save, then load after a restart *)

Section SaveLoad.
Context {E : Type} `{IoHooksLaws E}.

Lemma holding_reg_save_run (s : regs E) :
  holding_reg_save s
  = (Done tt, mk_regs (holding_reg s) (input_reg s)
       (hook_unlock (hook_config_save (cfg_export (hook_config_get (hook_lock (env s))) s)
                       (hook_lock (env s))).2)).
Proof.
  unfold holding_reg_save, mbind, M_bind, call, call_ret, gets, modify. simpl.
  change (cfg_export _ (mk_regs (holding_reg s) (input_reg s) (hook_lock (env s))))
    with (cfg_export (hook_config_get (hook_lock (env s))) s).
  by destruct (hook_config_save _ _).
Qed.

Lemma config_after_save (s : regs E) :
  regs_ok s → (hook_config_save (cfg_export (hook_config_get (env s)) s) (hook_lock (env s))).1 = true →
  hook_config_get (env (holding_reg_save s).2) = cfg_export (hook_config_get (env s)) s.
Proof.
  intros Hok Hs. rewrite holding_reg_save_run. simpl.
  rewrite config_get_unlock, config_get_lock. apply config_get_save; [|done].
  apply cfg_export_ok; [apply config_get_ok|done].
Qed.

Lemma list18 (l : list Z) : length l = 18%nat →
  ∃ a b c d e f g h i j k m n o p q r t, l = [a;b;c;d;e;f;g;h;i;j;k;m;n;o;p;q;r;t].
Proof.
  intros Hl. do 18 (destruct l as [|? l]; [done|]). destruct l; [|done]. by eauto 20.
Qed.

(** the registers after [holding_reg_load] *)
Definition loaded (c : io_cfg) (h : list Z) : list Z :=
  take 1 h ++ [di_en c; ai_en c; di_si c; ai_si c; his c; can_id c; can_bps c; rs485_bps c; slave_id c]
  ++ (if ip_addr_valid (u8 (rd (ip c) 0)) (u8 (rd (ip c) 1)) (u8 (rd (ip c) 2)) (u8 (rd (ip c) 3))
      then [rd (ip c) 0; rd (ip c) 1; rd (ip c) 2; rd (ip c) 3] else slice 10 4 h)
  ++ drop 14 h.

Lemma holding_reg_load_run (s : regs E) :
  regs_ok s →
  holding_reg_load s
  = (Done tt, mk_regs (loaded (hook_config_get (env s)) (holding_reg s)) (input_reg s) (env s)).
Proof.
  intros (Hl & _). unfold holding_reg_load.
  rewrite (bind_done _ _ s (hook_config_get (env s)) s) by done.
  generalize (hook_config_get (env s)). intros c.
  destruct s as [h i e]; simpl in *.
  destruct (list18 h Hl) as (?&?&?&?&?&?&?&?&?&?&?&?&?&?&?&?&?&?&->).
  unfold loaded. case_match; reflexivity.
Qed.
(** the export looks at the parameters only *)
Lemma cfg_export_ext old (s s' : regs E) :
  (∀ i, 1 ≤ i ≤ 13 → hread s i = hread s' i) → cfg_export old s = cfg_export old s'.
Proof.
  intros Hr. unfold cfg_export, ip_is_valid_for_export.
  unfold HOLDING_DI_ENABLE_IDX, HOLDING_AI_ENABLE_IDX, HOLDING_DI_SAMPLE_MS_IDX, HOLDING_AI_SAMPLE_MS_IDX,
    HOLDING_HISTORY_ENABLE_IDX, HOLDING_CAN_ID_IDX, HOLDING_CAN_BAUDRATE_IDX, HOLDING_RS485_BAUDRATE_IDX,
    HOLDING_SLAVE_ID_IDX, HOLDING_IP_OCTET1_IDX, HOLDING_IP_OCTET2_IDX, HOLDING_IP_OCTET3_IDX, HOLDING_IP_OCTET4_IDX.
  by rewrite !(Hr _) by lia.
Qed.

(** writing the save register: it reads 0 again and the configuration is saved *)
Lemma io_write_holding_save s v :
  regs_ok s → hread s HOLDING_CONFIG_SAVE_IDX = 0 → v ≠ 0 →
  ∃ s', io_write_holding HOLDING_CONFIG_SAVE_IDX v s = (Done true, s') ∧
    (∀ i, 0 ≤ i → hread s' i = hread s i) ∧ input_reg s' = input_reg s ∧
    env s' = hook_unlock (hook_config_save (cfg_export (hook_config_get (hook_lock (env s))) s) (hook_lock (env s))).2.
Proof.
  intros Hs Hz Hv. unfold io_write_holding.
  change (MODBUS_HOLDING_REGISTER_NUMBERS <=? HOLDING_CONFIG_SAVE_IDX) with false. cbv iota.
  rewrite (bind_done _ _ s 0 s) by (unfold gets; by rewrite Hz). replace (0 =? v) with false by lia.
  erewrite bind_done by reflexivity. unfold write_effect.
  change (HOLDING_CONFIG_SAVE_IDX =? HOLDING_DO_IDX) with false. change (HOLDING_CONFIG_SAVE_IDX =? HOLDING_HISTORY_ENABLE_IDX) with false.
  change (HOLDING_CONFIG_SAVE_IDX =? HOLDING_TIMESTAMP_LO_IDX) with false. rewrite Z.eqb_refl. cbv iota.
  set (s1 := mk_regs (<[Z.to_nat HOLDING_CONFIG_SAVE_IDX:=0]> (<[Z.to_nat HOLDING_CONFIG_SAVE_IDX:=v]> (holding_reg s)))
               (input_reg s) (env s)).
  assert (∀ i, 0 ≤ i → hread s1 i = hread s i) as Hr.
  { intros i Hi. unfold s1, hread. cbn [holding_reg]. destruct (decide (i = HOLDING_CONFIG_SAVE_IDX)) as [->|Hne].
    - rewrite rd_insert_eq; [by rewrite <- Hz|]. rewrite length_insert. destruct Hs as [-> _]. unfold HOLDING_CONFIG_SAVE_IDX. lia.
    - by rewrite !rd_insert_ne by (unfold HOLDING_CONFIG_SAVE_IDX in *; lia). }
  erewrite bind_done by (erewrite bind_done by reflexivity; apply (holding_reg_save_run s1)).
  eexists. split; [reflexivity|]. cbn [env input_reg s1].
  rewrite (cfg_export_ext _ s1 s) by (intros; apply Hr; lia). split_and!; [|done..]. intros i Hi. by apply Hr.
Qed.

(** loading what was exported from [s] over [h2] restores the parameters of [s]
    and touches nothing else *)
Lemma loaded_export (old : io_cfg) (s : regs E) (h2 : list Z) :
  length (holding_reg s) = 18%nat → length h2 = 18%nat →
  let h3 := loaded (cfg_export old s) h2 in
  (∀ i, HOLDING_DI_ENABLE_IDX ≤ i ≤ HOLDING_SLAVE_ID_IDX → rd h3 (Z.to_nat i) = hread s i) ∧
  (ip_is_valid_for_export s = true →
   ∀ i, HOLDING_IP_OCTET1_IDX ≤ i ≤ HOLDING_IP_OCTET4_IDX → rd h3 (Z.to_nat i) = hread s i) ∧
  (∀ i, i = HOLDING_DO_IDX ∨ HOLDING_TIMESTAMP_HI_IDX ≤ i < MODBUS_HOLDING_REGISTER_NUMBERS →
   rd h3 (Z.to_nat i) = rd h2 (Z.to_nat i)).
Proof.
  intros Hl Hl2 h3. unfold h3. clear h3. destruct s as [h i e]; simpl in *.
  destruct (list18 h Hl) as (?&?&?&?&?&?&?&?&?&?&?&?&?&?&?&?&?&?&->).
  destruct (list18 h2 Hl2) as (?&?&?&?&?&?&?&?&?&?&?&?&?&?&?&?&?&?&->).
  unfold HOLDING_DI_ENABLE_IDX, HOLDING_SLAVE_ID_IDX, HOLDING_IP_OCTET1_IDX, HOLDING_IP_OCTET4_IDX, HOLDING_DO_IDX,
    HOLDING_TIMESTAMP_HI_IDX, MODBUS_HOLDING_REGISTER_NUMBERS.
  split; [|split].
  - intros k Hk. assert (k ∈ [1;2;3;4;5;6;7;8;9]) as Hin by (rewrite !elem_of_cons; lia).
    repeat (apply elem_of_cons in Hin as [->|Hin]; [reflexivity|]). by apply elem_of_nil in Hin.
  - intros Hip k Hk. assert (k ∈ [10;11;12;13]) as Hin by (rewrite !elem_of_cons; lia).
    unfold loaded, cfg_export. rewrite Hip. simpl.
    unfold ip_is_valid_for_export, hread in Hip. simpl in Hip.
    unfold hread. simpl. unfold rd in *. simpl in *. rewrite Hip. simpl.
    repeat (apply elem_of_cons in Hin as [->|Hin]; [reflexivity|]). by apply elem_of_nil in Hin.
  - intros k Hk. assert (k ∈ [0;14;15;16;17]) as Hin by (rewrite !elem_of_cons; lia).
    unfold loaded. cbn [take drop app slice].
    repeat (apply elem_of_cons in Hin as [->|Hin]; [case_match; reflexivity|]). by apply elem_of_nil in Hin.
Qed.

(** what was saved is what is loaded *)
Lemma holding_reg_save_load (s s2 : regs E) :
  regs_ok s → regs_ok s2 →
  (hook_config_save (cfg_export (hook_config_get (env s)) s) (hook_lock (env s))).1 = true →
  env s2 = env (holding_reg_save s).2 →
  ∃ s3, holding_reg_load s2 = (Done tt, s3) ∧
    (∀ i, HOLDING_DI_ENABLE_IDX ≤ i ≤ HOLDING_SLAVE_ID_IDX → hread s3 i = hread s i) ∧
    (ip_is_valid_for_export s = true →
     ∀ i, HOLDING_IP_OCTET1_IDX ≤ i ≤ HOLDING_IP_OCTET4_IDX → hread s3 i = hread s i).
Proof.
  intros Hs Hs2 Hsave Henv.
  eexists. rewrite holding_reg_load_run, Henv, config_after_save by done. split; [done|].
  destruct (loaded_export (hook_config_get (env s)) s (holding_reg s2)) as (Hp & Hip & _); [apply Hs|apply Hs2|]. by split.
Qed.
End SaveLoad.

(** ** The test double: hooks that record their calls *)

Module Trace.
Inductive event :=
  | EvDo (v : Z) | EvHistory (en : bool) | EvSync | EvSetTime (t : Z) | EvReboot
  | EvLock | EvUnlock | EvSave (c : io_cfg).

Record trace := mk_trace { log : list event; now : Z; stored_cfg : io_cfg }.

Definition emit (e : event) (t : trace) : trace :=
  mk_trace (log t ++ [e]) (now t) (stored_cfg t).

#[global] Instance trace_hooks : IoHooks trace := {
  hook_set_do v := emit (EvDo v);
  hook_history_enable b := emit (EvHistory b);
  hook_history_sync := emit EvSync;
  hook_set_timestamp v t := (true, mk_trace (log t ++ [EvSetTime v]) v (stored_cfg t));
  hook_now_epoch t := (u32 (now t), t);
  hook_reboot_cold := emit EvReboot;
  hook_lock := emit EvLock;
  hook_unlock := emit EvUnlock;
  hook_config_get t := cfg_of_bytes (cfg_bytes (stored_cfg t));
  hook_config_save c t := (bool_decide (cfg_of_bytes (cfg_bytes c) = c),
                           mk_trace (log t ++ [EvSave c]) (now t) c);
}.

#[global] Instance trace_laws : IoHooksLaws trace.
Proof.
  split; try done.
  - intros. apply cfg_of_bytes_ok.
  - intros c e. simpl. by intros _ ?%bool_decide_eq_true_1.
  - intros. apply u32_range.
Qed.

Definition boot (now : Z) : trace := mk_trace [] now config_store_get_defaults.
End Trace.

Definition regs_boot (now : Z) : regs Trace.trace :=
  mk_regs holding_reg_init (input_reg_init 0 3 0) (Trace.boot now).

Lemma regs_boot_ok now : regs_ok (regs_boot now).
Proof. split_and!; [done..| |]; simpl; unfold holding_reg_init, input_reg_init; repeat constructor; ulia. Defined.

(** ** Properties *)

(** C3: a write of an ordinary register (everything below 0x10) returns
    success, the register reads back as written, no other register changes, and
    the rest of the device sees exactly the documented effect: the outputs are
    driven with the low byte (0x00), history is switched (0x05), the clock is set
    from both halves (0x0F), nothing otherwise. *)
Theorem write_holding_effect {E} `{IoHooks E} (s : regs E) (addr v : Z) :
  regs_ok s → is_u16 v → 0 ≤ addr < HOLDING_CONFIG_SAVE_IDX → hread s addr ≠ v →
  ∃ s', io_write_holding addr v s = (Done true, s') ∧ regs_ok s' ∧
    hread s' addr = v ∧ (∀ j, 0 ≤ j → j ≠ addr → hread s' j = hread s j) ∧
    input_reg s' = input_reg s ∧ env s' = write_env s addr v.
Proof.
  unfold HOLDING_CONFIG_SAVE_IDX. intros Hs Hv Ha Hne.
  exists (stored_reg s addr v (write_env s addr v)).
  rewrite io_write_holding_plain by done. split_and!; try done.
  - pose proof (set_holding_ok addr v Hv s Hs) as Hok. exact Hok.
  - apply stored_reg_eq; [done|lia].
  - intros j Hj Hja. apply stored_reg_ne; lia.
Qed.

(** writing a non-zero value to the reboot register flushes the history,
    then resets the processor: nothing after the call runs, and the trigger
    register reads 0 in the state that is left. *)
Theorem write_reboot_resets {E} `{IoHooks E} (s : regs E) (v : Z) :
  regs_ok s → hread s HOLDING_REBOOT_IDX = 0 → v ≠ 0 →
  ∃ s', io_write_holding HOLDING_REBOOT_IDX v s = (Reset, s') ∧
        env s' = hook_reboot_cold (hook_history_sync (env s)) ∧
        hread s' HOLDING_REBOOT_IDX = 0.
Proof. apply io_write_holding_reboot. Qed.

(** writing one output bit under the lock: the coil reads back as written,
    every other coil keeps its value, and the outputs are driven, once, with
    exactly the byte the register then holds, between [io_lock] and [io_unlock]. *)
Theorem write_do_bit_coil {E} `{IoHooks E} (s : regs E) (bit : Z) (st : bool) :
  regs_ok s → 0 ≤ bit < DO_NUM →
  ∃ s', io_write_do_bit bit st s = (Done true, s') ∧
    (∀ i, 0 ≤ i < DO_NUM → io_coil_rd s' i = if i =? bit then Some st else io_coil_rd s i) ∧
    (∀ j, 0 < j → hread s' j = hread s j) ∧
    env s' = hook_unlock (hook_set_do (hread s' HOLDING_DO_IDX) (hook_lock (env s))).
Proof.
  intros Hs Hb. unfold DO_NUM in Hb.
  exists (stored_reg s HOLDING_DO_IDX (do_after s bit st)
       (hook_unlock (hook_set_do (do_after s bit st) (hook_lock (env s))))).
  rewrite io_write_do_bit_eq by (unfold DO_NUM; lia). split_and!; [done| | |].
  - intros i Hi. rewrite !io_coil_rd_bit by done. unfold DO_NUM in Hi.
    rewrite stored_reg_eq, do_after_testbit by (done || lia). by case_match.
  - intros j Hj. apply stored_reg_ne; unfold HOLDING_DO_IDX; lia.
  - by rewrite stored_reg_eq.
Qed.

(** The configuration survives a save and a restart: after a successful
    [holding_reg_save], [holding_reg_load] on any later register state with that
    environment restores the nine parameter registers, and the four address
    octets when the saved address was valid. *)
Theorem save_load_roundtrip {E} `{IoHooksLaws E} (s s2 : regs E) :
  regs_ok s → regs_ok s2 →
  (hook_config_save (cfg_export (hook_config_get (env s)) s) (hook_lock (env s))).1 = true →
  env s2 = env (holding_reg_save s).2 →
  ∃ s3, holding_reg_load s2 = (Done tt, s3) ∧
    (∀ i, HOLDING_DI_ENABLE_IDX ≤ i ≤ HOLDING_SLAVE_ID_IDX → hread s3 i = hread s i) ∧
    (ip_is_valid_for_export s = true →
     ∀ i, HOLDING_IP_OCTET1_IDX ≤ i ≤ HOLDING_IP_OCTET4_IDX → hread s3 i = hread s i).
Proof. apply holding_reg_save_load. Qed.

(** the clock registers are a trigger pair, but the same-value shortcut
    comes first: when the low half equals the shadow register, writing the high
    half and then the low half leaves the clock alone, whatever the high half. *)
Theorem timestamp_same_low_ignored {E} `{IoHooks E} (s : regs E) (hi lo : Z) :
  regs_ok s → is_u16 hi → hread s HOLDING_TIMESTAMP_HI_IDX ≠ hi →
  hread s HOLDING_TIMESTAMP_LO_IDX = lo →
  ∃ s', (io_write_holding HOLDING_TIMESTAMP_HI_IDX hi ≫=
           λ _, io_write_holding HOLDING_TIMESTAMP_LO_IDX lo) s = (Done true, s') ∧
        env s' = env s.
Proof.
  intros Hs Hhi Hne Hlo. eexists. erewrite bind_done by (by apply io_write_holding_plain).
  rewrite io_write_holding_same; [done..|].
  by rewrite stored_reg_ne.
Qed.

(** ** Witnesses *)

Lemma write_holding_effect_witness :
  hread (regs_boot 0) HOLDING_DO_IDX ≠ 0x1A5 ∧
  ∃ s', io_write_holding HOLDING_DO_IDX 0x1A5 (regs_boot 0) = (Done true, s') ∧ regs_ok s' ∧
    hread s' HOLDING_DO_IDX = 0x1A5 ∧
    (∀ j, 0 ≤ j → j ≠ HOLDING_DO_IDX → hread s' j = hread (regs_boot 0) j) ∧
    input_reg s' = input_reg (regs_boot 0) ∧
    env s' = Trace.mk_trace [Trace.EvDo 0xA5] 0 config_store_get_defaults.
Proof.
  split; [done|].
  destruct (write_holding_effect (regs_boot 0) HOLDING_DO_IDX 0x1A5 (regs_boot_ok 0))
    as (s' & Hr & Hok & Hv & Ho & Hi & He); [ulia|by vm_compute|by vm_compute|].
  exists s'. by split_and!.
Defined.

Lemma write_reboot_resets_witness :
  ∃ s', io_write_holding HOLDING_REBOOT_IDX 1 (regs_boot 0) = (Reset, s') ∧
        env s' = Trace.mk_trace [Trace.EvSync; Trace.EvReboot] 0 config_store_get_defaults ∧
        hread s' HOLDING_REBOOT_IDX = 0.
Proof.
  destruct (write_reboot_resets (regs_boot 0) 1 (regs_boot_ok 0)) as (s' & Hr & He & Hz); [reflexivity|lia|].
  exists s'. by split_and!.
Defined.

Lemma write_do_bit_coil_witness :
  ∃ s', io_write_do_bit 3 true (regs_boot 0) = (Done true, s') ∧
    (∀ i, 0 ≤ i < DO_NUM → io_coil_rd s' i = if i =? 3 then Some true else io_coil_rd (regs_boot 0) i) ∧
    (∀ j, 0 < j → hread s' j = hread (regs_boot 0) j) ∧
    env s' = hook_unlock (hook_set_do (hread s' HOLDING_DO_IDX) (hook_lock (Trace.boot 0))).
Proof. apply (write_do_bit_coil (regs_boot 0) 3 true (regs_boot_ok 0)). by vm_compute. Defined.

Definition regs_after_save : regs Trace.trace :=
  mk_regs holding_reg_init (input_reg_init 0 3 0) (env (holding_reg_save (regs_boot 0)).2).

Lemma save_load_roundtrip_witness :
  ∃ s3, holding_reg_load regs_after_save = (Done tt, s3) ∧
    (∀ i, HOLDING_DI_ENABLE_IDX ≤ i ≤ HOLDING_SLAVE_ID_IDX → hread s3 i = hread (regs_boot 0) i) ∧
    (ip_is_valid_for_export (regs_boot 0) = true →
     ∀ i, HOLDING_IP_OCTET1_IDX ≤ i ≤ HOLDING_IP_OCTET4_IDX → hread s3 i = hread (regs_boot 0) i).
Proof.
  apply (save_load_roundtrip (regs_boot 0) regs_after_save (regs_boot_ok 0)).
  - destruct (regs_boot_ok 0) as (? & ? & ? & ?). by split_and!.
  - vm_compute. reflexivity.
  - reflexivity.
Defined.

Lemma timestamp_same_low_ignored_witness :
  ∃ s', (io_write_holding HOLDING_TIMESTAMP_HI_IDX 0x65A0 ≫=
           λ _, io_write_holding HOLDING_TIMESTAMP_LO_IDX 0) (regs_boot 0) = (Done true, s') ∧
        env s' = Trace.boot 0.
Proof.
  apply (timestamp_same_low_ignored (regs_boot 0) 0x65A0 0 (regs_boot_ok 0)); [ulia|done|done].
Defined.
