(* ===== verification/MbServer.v ===== *)
(** The Modbus PDU decoder: [src/modbus/mb_server.c].

    A request is the byte list of the PDU (function code and data); the result
    of [mb_server_process] is [Some rsp] for a response PDU and [None] for the
    silent drop ([return false]).  A write to the reboot register resets the
    processor in the middle of a request, so handlers run in the monad [M].
    Response bytes are collected in the order the C code stores them into
    [out]; [*out_len] is the length of the list. *)

From S2P Require Import Prelude IoBytes Flash ConfigStore Regmap.

(** ** Constants *)

Definition MB_FC01_COIL_RD : Z := 0x01.
Definition MB_FC02_DI_RD : Z := 0x02.
Definition MB_FC03_HOLDING_REG_RD : Z := 0x03.
Definition MB_FC04_IN_REG_RD : Z := 0x04.
Definition MB_FC05_COIL_WR : Z := 0x05.
Definition MB_FC06_HOLDING_REG_WR : Z := 0x06.
Definition MB_FC08_DIAGNOSTICS : Z := 0x08.
Definition MB_FC15_COILS_WR : Z := 0x0F.
Definition MB_FC16_HOLDING_REGS_WR : Z := 0x10.

Definition MB_EXC_ILLEGAL_FC : Z := 0x01.
Definition MB_EXC_ILLEGAL_DATA_ADDR : Z := 0x02.
Definition MB_EXC_ILLEGAL_DATA_VAL : Z := 0x03.

Definition MB_COIL_OFF_CODE : Z := 0x0000.
Definition MB_FP_EXTENSIONS_ADDR : Z := 5000.
Definition MB_SERVER_PDU_MAX : Z := 256.

(** [enum mb_diag_counter] *)
Inductive mb_diag_counter :=
  MB_DIAG_BUS_MSG | MB_DIAG_CRC_ERR | MB_DIAG_EXC | MB_DIAG_SRV_MSG | MB_DIAG_NO_RESP.

#[export] Instance mb_diag_counter_eq_dec : EqDecision mb_diag_counter.
Proof. solve_decision. Defined.

Definition diag_ix (c : mb_diag_counter) : nat :=
  match c with
  | MB_DIAG_BUS_MSG => 0 | MB_DIAG_CRC_ERR => 1 | MB_DIAG_EXC => 2
  | MB_DIAG_SRV_MSG => 3 | MB_DIAG_NO_RESP => 4
  end.

(** ** State: the register model and the diagnostic counters *)

Record mb (E : Type) := mk_mb { mb_regs : regs E; diag_ctr : list Z }.
Arguments mk_mb {E} _ _.
Arguments mb_regs {E} _.
Arguments diag_ctr {E} _.

Definition diag_init : list Z := [0; 0; 0; 0; 0].

Definition mb_ok {E} (s : mb E) : Prop :=
  regs_ok (mb_regs s) ∧ length (diag_ctr s) = 5%nat ∧ Forall (is_u 16) (diag_ctr s).

(** [addr + cntr] truncated to the [uint16_t] parameter of a callback *)
Definition next_addr (addr : Z) : Z := u16 (addr + 1).

Section Handlers.
Context {E : Type} `{IoHooks E}.

Abbreviation MR := (M (regs E)).
Abbreviation MB := (M (mb E)).

Definition diag_set (l : list Z) : MB unit := modify (λ s, mk_mb (mb_regs s) l).
Definition diag_get (c : mb_diag_counter) (s : mb E) : Z := rd (diag_ctr s) (diag_ix c).

Definition mb_server_diag_count (c : mb_diag_counter) : MB unit :=
  modify (λ s, mk_mb (mb_regs s) (<[diag_ix c := u16 (diag_get c s + 1)]> (diag_ctr s))).

(** run a register operation *)
Definition on_regs {A} (m : MR A) : MB A :=
  zoom mb_regs (λ r s, mk_mb r (diag_ctr s)) m.

(** *** Register callbacks *)

Definition holding_reg_rd_cb (addr : Z) : MR (option Z) :=
  if MODBUS_HOLDING_REGISTER_NUMBERS <=? addr then mret None
  else reg ← io_read_holding addr; mret (Some reg).

Definition input_reg_rd_cb (addr : Z) : MR (option Z) :=
  if MODBUS_INPUT_REGISTER_NUMBERS <=? addr then mret None
  else reg ← get_input_reg addr; mret (Some reg).

Definition coil_rd_cb (addr : Z) : MR (option bool) := gets (λ s, io_coil_rd s addr).
Definition discrete_input_rd_cb (addr : Z) : MR (option bool) := gets (λ s, io_discrete_rd s addr).
Definition coil_wr_cb (addr : Z) (state : bool) : MR bool := io_write_do_bit addr state.
Definition holding_reg_wr_cb (addr reg : Z) : MR bool := io_write_holding addr reg.

(** *** Responses *)

Definition exc_rsp (fc code : Z) : MB (option (list Z)) :=
  mb_server_diag_count MB_DIAG_EXC;;
  mret (Some [Z.lor fc 0x80; code]).

(** the [while (cntr < qty)] loop of FC01/FC02, [n = qty - cntr] rounds left;
    [p] is the index of [*presp] in [data] *)
Fixpoint read_bits_loop (cb : Z → MR (option bool)) (n : nat) (addr cntr bit_mask : Z)
    (p : nat) (data : list Z) : MR (option (list Z)) :=
  match n with
  | O => mret (Some data)
  | S n' =>
    st ← cb addr;
    match st with
    | None => mret None
    | Some state =>
      let data := if (state : bool) then <[p := Z.lor (rd data p) bit_mask]> data else data in
      let cntr := u16 (cntr + 1) in
      if cntr mod 8 =? 0
      then read_bits_loop cb n' (next_addr addr) cntr 1 (S p) data
      else read_bits_loop cb n' (next_addr addr) cntr (u8 (Z.shiftl bit_mask 1)) p data
    end
  end.

(** FC01 and FC02 have the same body, with their own callback and code *)
Definition read_bits (fc : Z) (cb : Z → MR (option bool)) (d : list Z) : MB (option (list Z)) :=
  if negb (zlen d =? 4) then mret None
  else
    let addr := io_get_be16 d in
    let qty := io_get_be16 (drop 2 d) in
    if (qty =? 0) || (2000 <? qty) then exc_rsp fc MB_EXC_ILLEGAL_DATA_VAL
    else
      let num_bytes := (qty - 1) / 8 + 1 in
      r ← on_regs (read_bits_loop cb (Z.to_nat qty) addr 0 1 0 (replicate (Z.to_nat num_bytes) 0));
      match r with
      | None => exc_rsp fc MB_EXC_ILLEGAL_DATA_ADDR
      | Some data => mret (Some (fc :: u8 num_bytes :: data))
      end.

Definition fc01_coil_read (d : list Z) : MB (option (list Z)) :=
  read_bits MB_FC01_COIL_RD coil_rd_cb d.
Definition fc02_di_read (d : list Z) : MB (option (list Z)) :=
  read_bits MB_FC02_DI_RD discrete_input_rd_cb d.

(** the [while (reg_qty > 0)] loop of FC03/FC04 *)
Fixpoint read_regs_loop (cb : Z → MR (option Z)) (reg_qty : nat) (reg_addr : Z)
    (out : list Z) : MR (option (list Z)) :=
  match reg_qty with
  | O => mret (Some out)
  | S n =>
    r ← cb reg_addr;
    match r with
    | None => mret None
    | Some reg => read_regs_loop cb n (next_addr reg_addr) (out ++ io_put_be16 reg)
    end
  end.

Definition read_regs (fc : Z) (cb : Z → MR (option Z)) (d : list Z) : MB (option (list Z)) :=
  if negb (zlen d =? 4) then mret None
  else
    let reg_addr := io_get_be16 d in
    let reg_qty := io_get_be16 (drop 2 d) in
    if (reg_qty =? 0) || (125 <? reg_qty) then exc_rsp fc MB_EXC_ILLEGAL_DATA_VAL
    else if MB_FP_EXTENSIONS_ADDR <=? reg_addr then exc_rsp fc MB_EXC_ILLEGAL_FC
    else
      let num_bytes := reg_qty * 2 in
      r ← on_regs (read_regs_loop cb (Z.to_nat reg_qty) reg_addr []);
      match r with
      | None => exc_rsp fc MB_EXC_ILLEGAL_DATA_ADDR
      | Some data => mret (Some (fc :: u8 num_bytes :: data))
      end.

Definition fc03_hreg_read (d : list Z) : MB (option (list Z)) :=
  read_regs MB_FC03_HOLDING_REG_RD holding_reg_rd_cb d.
Definition fc04_inreg_read (d : list Z) : MB (option (list Z)) :=
  read_regs MB_FC04_IN_REG_RD input_reg_rd_cb d.

(** the five-byte echo [fc | be16 a | be16 b] of the write functions *)
Definition echo (fc a b : Z) : MB (option (list Z)) :=
  mret (Some (fc :: io_put_be16 a ++ io_put_be16 b)).

Definition fc05_coil_write (d : list Z) : MB (option (list Z)) :=
  if negb (zlen d =? 4) then mret None
  else
    let coil_addr := io_get_be16 d in
    let coil_val := io_get_be16 (drop 2 d) in
    let coil_state := negb (coil_val =? MB_COIL_OFF_CODE) in
    ok ← on_regs (coil_wr_cb coil_addr coil_state);
    if negb ok then exc_rsp MB_FC05_COIL_WR MB_EXC_ILLEGAL_DATA_ADDR
    else echo MB_FC05_COIL_WR coil_addr coil_val.

Definition fc06_hreg_write (d : list Z) : MB (option (list Z)) :=
  if negb (zlen d =? 4) then mret None
  else
    let reg_addr := io_get_be16 d in
    let reg_val := io_get_be16 (drop 2 d) in
    ok ← on_regs (holding_reg_wr_cb reg_addr reg_val);
    if negb ok then exc_rsp MB_FC06_HOLDING_REG_WR MB_EXC_ILLEGAL_DATA_ADDR
    else echo MB_FC06_HOLDING_REG_WR reg_addr reg_val.

Definition fc08_diagnostics (d : list Z) : MB (option (list Z)) :=
  if negb (zlen d =? 4) then mret None
  else
    let sfunc := io_get_be16 d in
    let data := io_get_be16 (drop 2 d) in
    if sfunc =? 0x0000 then echo MB_FC08_DIAGNOSTICS sfunc data
    else if sfunc =? 0x000A then diag_set diag_init;; echo MB_FC08_DIAGNOSTICS sfunc data
    else if sfunc =? 0x000B then c ← gets (diag_get MB_DIAG_BUS_MSG); echo MB_FC08_DIAGNOSTICS sfunc c
    else if sfunc =? 0x000C then c ← gets (diag_get MB_DIAG_CRC_ERR); echo MB_FC08_DIAGNOSTICS sfunc c
    else if sfunc =? 0x000D then c ← gets (diag_get MB_DIAG_EXC); echo MB_FC08_DIAGNOSTICS sfunc c
    else if sfunc =? 0x000E then c ← gets (diag_get MB_DIAG_SRV_MSG); echo MB_FC08_DIAGNOSTICS sfunc c
    else if sfunc =? 0x000F then c ← gets (diag_get MB_DIAG_NO_RESP); echo MB_FC08_DIAGNOSTICS sfunc c
    else exc_rsp MB_FC08_DIAGNOSTICS MB_EXC_ILLEGAL_FC.

(** the FC15 loop, [n = coil_qty - coil_cntr] rounds left *)
Fixpoint coils_write_loop (d : list Z) (n : nat) (coil_addr coil_cntr temp data_ix : Z) : MR bool :=
  match n with
  | O => mret true
  | S n' =>
    let '(temp, data_ix) := if coil_cntr mod 8 =? 0
                            then (rd d (Z.to_nat data_ix), u8 (data_ix + 1))
                            else (temp, data_ix) in
    let coil_state := negb (Z.land temp 0x01 =? 0) in
    ok ← coil_wr_cb (u16 (coil_addr + coil_cntr)) coil_state;
    if negb ok then mret false
    else coils_write_loop d n' coil_addr (u16 (coil_cntr + 1)) (Z.shiftr temp 1) data_ix
  end.

Definition fc15_coils_write (d : list Z) : MB (option (list Z)) :=
  if zlen d <? 6 then mret None
  else
    let coil_addr := io_get_be16 d in
    let coil_qty := io_get_be16 (drop 2 d) in
    let num_bytes := rd d 4 in
    if (coil_qty =? 0) || (2000 <? coil_qty) then exc_rsp MB_FC15_COILS_WR MB_EXC_ILLEGAL_DATA_VAL
    else if negb ((coil_qty - 1) / 8 + 1 =? num_bytes) || negb (zlen d =? u16 (num_bytes + 5))
    then exc_rsp MB_FC15_COILS_WR MB_EXC_ILLEGAL_DATA_VAL
    else
      ok ← on_regs (coils_write_loop d (Z.to_nat coil_qty) coil_addr 0 0 5);
      if negb ok then exc_rsp MB_FC15_COILS_WR MB_EXC_ILLEGAL_DATA_ADDR
      else echo MB_FC15_COILS_WR coil_addr coil_qty.

(** the FC16 loop; [prx] is the rest of the data from [*prx] on *)
Fixpoint hregs_write_loop (prx : list Z) (n : nat) (reg_addr reg_cntr : Z) : MR bool :=
  match n with
  | O => mret true
  | S n' =>
    let reg_val := io_get_be16 prx in
    ok ← holding_reg_wr_cb (u16 (reg_addr + reg_cntr)) reg_val;
    if negb ok then mret false
    else hregs_write_loop (drop 2 prx) n' reg_addr (u16 (reg_cntr + 1))
  end.

Definition fc16_hregs_write (d : list Z) : MB (option (list Z)) :=
  if zlen d <? 6 then mret None
  else
    let reg_addr := io_get_be16 d in
    let reg_qty := io_get_be16 (drop 2 d) in
    let num_bytes := rd d 4 in
    if (reg_qty =? 0) || (125 <? reg_qty)
    then exc_rsp MB_FC16_HOLDING_REGS_WR MB_EXC_ILLEGAL_DATA_VAL
    else if MB_FP_EXTENSIONS_ADDR <=? reg_addr
    then exc_rsp MB_FC16_HOLDING_REGS_WR MB_EXC_ILLEGAL_FC
    else if negb (zlen d - 5 =? num_bytes)
    then exc_rsp MB_FC16_HOLDING_REGS_WR MB_EXC_ILLEGAL_DATA_VAL
    else if negb (num_bytes / reg_qty =? 2)
    then exc_rsp MB_FC16_HOLDING_REGS_WR MB_EXC_ILLEGAL_DATA_VAL
    else
      ok ← on_regs (hregs_write_loop (drop 5 d) (Z.to_nat reg_qty) reg_addr 0);
      if negb ok then exc_rsp MB_FC16_HOLDING_REGS_WR MB_EXC_ILLEGAL_DATA_ADDR
      else echo MB_FC16_HOLDING_REGS_WR reg_addr reg_qty.

Definition mb_dispatch (fc : Z) (d : list Z) : MB (option (list Z)) :=
  if fc =? MB_FC01_COIL_RD then fc01_coil_read d
  else if fc =? MB_FC02_DI_RD then fc02_di_read d
  else if fc =? MB_FC03_HOLDING_REG_RD then fc03_hreg_read d
  else if fc =? MB_FC04_IN_REG_RD then fc04_inreg_read d
  else if fc =? MB_FC05_COIL_WR then fc05_coil_write d
  else if fc =? MB_FC06_HOLDING_REG_WR then fc06_hreg_write d
  else if fc =? MB_FC08_DIAGNOSTICS then fc08_diagnostics d
  else if fc =? MB_FC15_COILS_WR then fc15_coils_write d
  else if fc =? MB_FC16_HOLDING_REGS_WR then fc16_hregs_write d
  else exc_rsp fc MB_EXC_ILLEGAL_FC.

Definition mb_server_process (pdu : list Z) : MB (option (list Z)) :=
  match pdu with
  | [] => mret None
  | fc :: d =>
    mb_server_diag_count MB_DIAG_BUS_MSG;;
    mb_server_diag_count MB_DIAG_SRV_MSG;;
    mb_dispatch fc d
  end.
End Handlers.

(** ** The boot state of the test double *)

Definition mb_boot (now : Z) : mb Trace.trace := mk_mb (regs_boot now) diag_init.

Example process_fc03 :
  (mb_server_process [3; 0; 8; 0; 2] (mb_boot 0)).1 = Done (Some [3; 4; 0x25; 0x80; 0; 1]).
Proof. reflexivity. Qed.
Example process_fc16_partial :
  let '(r, s) := mb_server_process [16; 0; 15; 0; 4; 8; 0; 7; 0; 0; 0; 0; 0; 9] (mb_boot 0) in
  r = Done (Some [0x90; 2]) ∧ diag_ctr s = [1; 0; 1; 1; 0] ∧ hread (mb_regs s) 15 = 7.
Proof. by vm_compute. Qed.
Example process_fc15 :
  let '(r, s) := mb_server_process [15; 0; 2; 0; 3; 1; 5] (mb_boot 0) in
  r = Done (Some [15; 0; 2; 0; 3]) ∧ hread (mb_regs s) 0 = 0x14.
Proof. by vm_compute. Qed.

(** ** Invariants

    The server touches the registers only through the callbacks: what they
    preserve, a request preserves. *)

Definition mb_inv {E} (P : regs E → Prop) (s : mb E) : Prop :=
  P (mb_regs s) ∧ length (diag_ctr s) = 5%nat ∧ Forall (is_u 16) (diag_ctr s).

Section Invariant.
Context {E : Type} `{IoHooks E} (P : regs E → Prop).

Lemma on_regs_inv {A} (m : M (regs E) A) : preserves P m → preserves (mb_inv P) (on_regs m).
Proof.
  intros Hm s (Hr & Hd). unfold on_regs, zoom.
  specialize (Hm _ Hr). by destruct (m (mb_regs s)).
Qed.

Lemma diag_count_inv c : preserves (mb_inv P) (mb_server_diag_count c).
Proof.
  intros s (Hr & Hl & Hd). unfold mb_inv; simpl. rewrite length_insert.
  split_and!; [done..|]. apply Forall_insert; [done|apply u16_range].
Qed.

Lemma diag_set_inv l : length l = 5%nat → Forall (is_u 16) l → preserves (mb_inv P) (diag_set l).
Proof. intros Hl Hf s (Hr & _). done. Qed.

Lemma diag_init_inv : preserves (mb_inv P) (diag_set diag_init).
Proof. apply diag_set_inv; [done|]. repeat constructor; ulia. Qed.

Lemma exc_rsp_inv fc code : preserves (mb_inv P) (exc_rsp fc code).
Proof. pose proof diag_count_inv. unfold exc_rsp. solve_preserves. Qed.
End Invariant.
#[export] Hint Resolve on_regs_inv diag_count_inv diag_init_inv exc_rsp_inv : effects.

Section Invariant2.
Context {E : Type} `{IoHooks E} (P : regs E → Prop).
Context (write_holding_P : ∀ addr v, is_u16 addr → is_u16 v → preserves P (io_write_holding addr v))
        (write_bit_P : ∀ bit st, preserves P (io_write_do_bit bit st))
        (read_holding_P : ∀ addr, preserves P (io_read_holding addr)).
#[local] Hint Resolve write_bit_P read_holding_P : effects.

Lemma holding_reg_rd_cb_inv a : preserves P (holding_reg_rd_cb a).
Proof. unfold holding_reg_rd_cb. solve_preserves. Qed.
Lemma input_reg_rd_cb_inv a : preserves P (input_reg_rd_cb a).
Proof. unfold input_reg_rd_cb, get_input_reg. solve_preserves. Qed.
#[local] Hint Resolve holding_reg_rd_cb_inv input_reg_rd_cb_inv : effects.

Lemma read_bits_loop_inv cb n addr cntr mask p data :
  (∀ a, preserves P (cb a)) → preserves P (read_bits_loop cb n addr cntr mask p data).
Proof.
  intros Hcb. revert addr cntr mask p data. induction n as [|n IH]; intros; simpl; solve_preserves.
Qed.
Lemma read_regs_loop_inv cb n addr out :
  (∀ a, preserves P (cb a)) → preserves P (read_regs_loop cb n addr out).
Proof. intros Hcb. revert addr out. induction n as [|n IH]; intros; simpl; solve_preserves. Qed.
Lemma coils_write_loop_inv d n a c t ix : preserves P (coils_write_loop d n a c t ix).
Proof.
  revert a c t ix. induction n as [|n IH]; intros; simpl; unfold coil_wr_cb; solve_preserves.
Qed.
Lemma hregs_write_loop_inv prx n a c : preserves P (hregs_write_loop prx n a c).
Proof.
  revert prx c. induction n as [|n IH]; intros; simpl; unfold holding_reg_wr_cb; [apply preserves_ret|].
  apply preserves_bind; [apply write_holding_P; auto with uint|]. solve_preserves.
Qed.
#[local] Hint Resolve read_bits_loop_inv read_regs_loop_inv coils_write_loop_inv hregs_write_loop_inv : effects.

Lemma mb_dispatch_inv fc d : preserves (mb_inv P) (mb_dispatch fc d).
Proof.
  assert (∀ a, preserves P (coil_rd_cb a)) as Hc by (intros; apply preserves_gets).
  assert (∀ a, preserves P (discrete_input_rd_cb a)) as Hd by (intros; apply preserves_gets).
  unfold mb_dispatch. repeat case_match;
    unfold fc01_coil_read, fc02_di_read, fc03_hreg_read, fc04_inreg_read, read_bits, read_regs,
      fc05_coil_write, fc06_hreg_write, fc08_diagnostics, fc15_coils_write, fc16_hregs_write,
      coil_wr_cb, holding_reg_wr_cb, echo; solve_preserves;
    apply on_regs_inv, write_holding_P; auto with uint.
Qed.

Lemma mb_server_process_inv pdu : preserves (mb_inv P) (mb_server_process pdu).
Proof.
  destruct pdu as [|fc d]; [apply preserves_ret|]. pose proof mb_dispatch_inv.
  unfold mb_server_process. solve_preserves.
Qed.
End Invariant2.

(** *** The type invariant *)

Section TypeInvariant.
Context {E : Type} `{IoHooksLaws E}.

Lemma on_regs_ok {A} (m : M (regs E) A) : preserves regs_ok m → preserves mb_ok (on_regs m).
Proof. apply (on_regs_inv regs_ok). Qed.
Lemma diag_count_ok c : preserves mb_ok (@mb_server_diag_count E c).
Proof. exact (diag_count_inv regs_ok c). Qed.
Lemma mb_server_process_ok pdu : preserves (@mb_ok E) (mb_server_process pdu).
Proof. apply (mb_server_process_inv regs_ok); auto with effects. Qed.
End TypeInvariant.
#[export] Hint Resolve on_regs_ok diag_count_ok mb_server_process_ok : effects.

(** ** Runs of the small operations *)

Section Runs.
Context {E : Type} `{IoHooks E}.

Definition counted (c : mb_diag_counter) (s : mb E) : mb E :=
  mk_mb (mb_regs s) (<[diag_ix c := u16 (diag_get c s + 1)]> (diag_ctr s)).

(** the two counters every request bumps *)
Definition mb_tick (s : mb E) : mb E := counted MB_DIAG_SRV_MSG (counted MB_DIAG_BUS_MSG s).

Lemma process_cons fc d s : mb_server_process (fc :: d) s = mb_dispatch fc d (mb_tick s).
Proof. reflexivity. Qed.

Lemma exc_rsp_run fc code (s : mb E) :
  exc_rsp fc code s = (Done (Some [Z.lor fc 0x80; code]), counted MB_DIAG_EXC s).
Proof. reflexivity. Qed.

Lemma on_regs_done {A} (m : M (regs E) A) s a r :
  m (mb_regs s) = (Done a, r) → on_regs m s = (Done a, mk_mb r (diag_ctr s)).
Proof. intros Hm. unfold on_regs, zoom. by rewrite Hm. Qed.

Lemma on_regs_pure {A} (m : M (regs E) A) s a :
  m (mb_regs s) = (Done a, mb_regs s) → on_regs m s = (Done a, s).
Proof. intros Hm. rewrite (on_regs_done _ _ _ _ Hm). by destruct s. Qed.

Lemma on_regs_diag {A} (m : M (regs E) A) s : diag_ctr (on_regs m s).2 = diag_ctr s.
Proof. unfold on_regs, zoom. by destruct (m (mb_regs s)). Qed.

Lemma be16_pair_len a b : zlen (io_put_be16 a ++ io_put_be16 b) = 4.
Proof. reflexivity. Qed.
Lemma be16_pair_snd a b : is_u16 b → io_get_be16 (drop 2 (io_put_be16 a ++ io_put_be16 b)) = b.
Proof. apply be16_roundtrip. Qed.

(** *** The bit-reading loop over a pure callback *)

Context (f : regs E → Z → option bool).
Let cb : Z → M (regs E) (option bool) := λ a, gets (λ s, f s a).

Lemma next_mask c :
  0 ≤ c → (c + 1) mod 8 ≠ 0 → u8 (Z.shiftl (2 ^ (c mod 8)) 1) = 2 ^ ((c + 1) mod 8).
Proof.
  intros Hc Hm. rewrite Z.shiftl_mul_pow2 by lia.
  assert ((c + 1) mod 8 = c mod 8 + 1) as -> by (Z.div_mod_to_equations; lia).
  assert (0 ≤ c mod 8 < 7) as Hr by (Z.div_mod_to_equations; lia).
  rewrite Z.pow_add_r by lia. apply u8_id.
  change (2 ^ 1) with 2. change (is_u 8) with (λ z, 0 ≤ z < 2 ^ 8). cbv beta.
  assert (2 ^ (c mod 8) ≤ 2 ^ 6) by (apply Z.pow_le_mono_r; lia).
  pose proof (Z.pow_pos_nonneg 2 (c mod 8)). lia.
Qed.

Lemma read_bits_loop_hit s b n addr cntr data :
  0 ≤ addr → addr + Z.of_nat n ≤ 65535 → 0 ≤ cntr → cntr + Z.of_nat n ≤ 65535 →
  cntr + Z.of_nat n ≤ 8 * zlen data → bytes_ok data →
  (∀ i, 0 ≤ i < Z.of_nat n → f s (addr + i) = Some (b (cntr + i))) →
  ∃ data', read_bits_loop cb n addr cntr (2 ^ (cntr mod 8)) (Z.to_nat (cntr / 8)) data s
           = (Done (Some data'), s) ∧ zlen data' = zlen data ∧ bytes_ok data' ∧
    ∀ i, 0 ≤ i → dbit data' i
                 = dbit data i || ((cntr <=? i) && (i <? cntr + Z.of_nat n) && b i).
Proof.
  revert addr cntr data. induction n as [|n IH]; intros addr cntr data Ha Ha' Hc Hc' Hd Hb Hf.
  - exists data. split_and!; try done. intros i Hi.
    change (Z.of_nat 0) with 0. replace ((cntr <=? i) && (i <? cntr + 0)) with false by lia. by rewrite orb_false_r.
  - pose proof (Hf 0 ltac:(lia)) as H0. rewrite !Z.add_0_r in H0.
    set (data1 := if b cntr then <[Z.to_nat (cntr / 8) := Z.lor (rd data (Z.to_nat (cntr / 8))) (2 ^ (cntr mod 8))]> data
                  else data).
    assert (zlen data1 = zlen data) as Hl1
      by (unfold data1, zlen; case_match; [by rewrite length_insert|done]).
    destruct (IH (addr + 1) (cntr + 1) data1) as (data' & Hr & Hl & Hok & Hbit); [lia..| | |].
    { unfold data1. case_match; [|done]. apply Forall_insert; [done|].
      apply lor_range; [lia|auto with uint|].
      split; [apply Z.pow_nonneg; lia|]. apply Z.pow_lt_mono_r; [lia..|apply Z.mod_pos_bound; lia]. }
    { intros i Hi. rewrite <- !Z.add_assoc. apply Hf. lia. }
    exists data'. split_and!; [|by rewrite Hl|done|].
    + cbn [read_bits_loop]. erewrite bind_done by reflexivity. rewrite H0.
      fold data1. unfold next_addr. rewrite !u16_id by ulia.
      rewrite <- Hr. destruct (Z.eqb_spec ((cntr + 1) mod 8) 0) as [E0|E0].
      * rewrite E0, Z.pow_0_r. do 2 f_equal. Z.div_mod_to_equations; lia.
      * rewrite next_mask by done. do 2 f_equal. Z.div_mod_to_equations; lia.
    + intros i Hi. rewrite Hbit by done.
      assert (dbit data1 i = (i =? cntr) && b cntr || dbit data i) as ->.
      { unfold data1. destruct (b cntr); [|by rewrite andb_false_r].
        rewrite dbit_set by (try done; Z.div_mod_to_equations; lia). by rewrite andb_true_r. }
      destruct (Z.eqb_spec i cntr) as [->|Hne].
      * replace (cntr + 1 <=? cntr) with false by lia.
        replace ((cntr <=? cntr) && (cntr <? cntr + Z.of_nat (S n))) with true by lia.
        simpl. rewrite orb_false_r. apply orb_comm.
      * replace ((cntr + 1 <=? i) && (i <? cntr + 1 + Z.of_nat n))
          with ((cntr <=? i) && (i <? cntr + Z.of_nat (S n))) by lia. done.
Qed.

Lemma read_bits_loop_miss s n k addr cntr mask p data :
  0 ≤ addr → 0 ≤ k < Z.of_nat n → addr + k ≤ 65535 → f s (addr + k) = None →
  read_bits_loop cb n addr cntr mask p data s = (Done None, s).
Proof.
  revert k addr cntr mask p data. induction n as [|n IH]; intros k addr cntr mask p data Ha Hk Hw Hf; [lia|].
  cbn [read_bits_loop]. erewrite bind_done by reflexivity.
  destruct (f s addr) as [st|] eqn:E0; [|done].
  assert (0 < k) by (destruct (decide (k = 0)) as [->|]; [rewrite Z.add_0_r in Hf; congruence|lia]).
  unfold next_addr. rewrite (u16_id (addr + 1)) by ulia.
  case_match; apply (IH (k - 1)); try lia; by replace (addr + 1 + (k - 1)) with (addr + k) by lia.
Qed.

(** *** The reading handler *)

Lemma read_bits_bad_qty fc a q s :
  is_u16 q → q = 0 ∨ 2000 < q →
  read_bits fc cb (io_put_be16 a ++ io_put_be16 q) s
  = (Done (Some [Z.lor fc 0x80; MB_EXC_ILLEGAL_DATA_VAL]), counted MB_DIAG_EXC s).
Proof.
  intros Hq Hb. unfold read_bits. rewrite be16_pair_len, be16_pair_snd by done.
  change (negb (4 =? 4)) with false. cbv iota.
  by replace ((q =? 0) || (2000 <? q)) with true by lia.
Qed.

Lemma read_bits_miss fc a q k s :
  is_u16 a → is_u16 q → 0 < q ≤ 2000 → 0 ≤ k < q → a + k ≤ 65535 → f (mb_regs s) (a + k) = None →
  read_bits fc cb (io_put_be16 a ++ io_put_be16 q) s
  = (Done (Some [Z.lor fc 0x80; MB_EXC_ILLEGAL_DATA_ADDR]), counted MB_DIAG_EXC s).
Proof.
  intros Ha Hq Hb Hk Hw Hf. unfold read_bits. rewrite be16_pair_len, be16_pair_snd, get_be16_put by done.
  change (negb (4 =? 4)) with false. cbv iota.
  replace ((q =? 0) || (2000 <? q)) with false by lia.
  erewrite bind_done by (apply on_regs_pure; apply (read_bits_loop_miss _ _ k); (done || ulia)). done.
Qed.

Lemma read_bits_hit fc a q b s :
  is_u16 a → is_u16 q → 0 < q ≤ 2000 → a + q ≤ 65535 →
  (∀ i, 0 ≤ i < q → f (mb_regs s) (a + i) = Some (b i)) →
  ∃ data, read_bits fc cb (io_put_be16 a ++ io_put_be16 q) s
          = (Done (Some (fc :: ((q - 1) / 8 + 1) :: data)), s) ∧
    zlen data = (q - 1) / 8 + 1 ∧ bytes_ok data ∧
    ∀ i, 0 ≤ i → dbit data i = (i <? q) && b i.
Proof.
  intros Ha Hq Hb Hw Hf.
  set (nb := (q - 1) / 8 + 1).
  assert (0 < nb ≤ 250 ∧ q ≤ 8 * nb) as Hnb by (unfold nb; Z.div_mod_to_equations; lia).
  destruct (read_bits_loop_hit (mb_regs s) b (Z.to_nat q) a 0 (replicate (Z.to_nat nb) 0))
    as (data & Hr & Hl & Hok & Hbit).
  1-4: ulia.
  { unfold zlen. rewrite length_replicate. lia. }
  { apply Forall_replicate. ulia. }
  { intros i Hi. apply Hf. lia. }
  exists data. split_and!; [|rewrite Hl; unfold zlen; rewrite length_replicate; lia|done|].
  - unfold read_bits. rewrite be16_pair_len, be16_pair_snd, get_be16_put by done.
    change (negb (4 =? 4)) with false. cbv iota.
    replace ((q =? 0) || (2000 <? q)) with false by lia. fold nb.
    erewrite bind_done by (apply on_regs_pure; exact Hr).
    by rewrite u8_id by ulia.
  - intros i Hi. rewrite Hbit, dbit_zeros by done. rewrite Z.add_0_l, Z2Nat.id by lia.
    by replace ((0 <=? i) && (i <? q)) with (i <? q) by lia.
Qed.
End Runs.

(** ** Register reads *)

Section RegReads.
Context {E : Type} `{IoHooks E}.

Lemma read_regs_loop_hit cb (v : Z → Z) (s : regs E) n addr out :
  0 ≤ addr → addr + Z.of_nat n ≤ 65535 →
  (∀ a, addr ≤ a < addr + Z.of_nat n → cb a s = (Done (Some (v a)), s)) →
  read_regs_loop cb n addr out s
  = (Done (Some (out ++ concat ((λ i, io_put_be16 (v i)) <$> seqZ addr (Z.of_nat n)))), s).
Proof.
  revert addr out. induction n as [|n IH]; intros addr out Ha Hw Hcb.
  - simpl. by rewrite app_nil_r.
  - cbn [read_regs_loop]. erewrite bind_done by (apply Hcb; lia).
    unfold next_addr. rewrite u16_id by ulia. rewrite IH by (lia || (intros; apply Hcb; lia)).
    rewrite (seqZ_cons addr) by lia. cbn [fmap list_fmap concat].
    rewrite <- app_assoc.
    replace (Z.succ addr) with (addr + 1) by lia.
    by replace (Z.pred (Z.of_nat (S n))) with (Z.of_nat n) by lia.
Qed.

(** a callback that never resets and only touches the environment *)
Definition env_only {A} (m : M (regs E) A) : Prop :=
  ∀ s, ∃ a e, m s = (Done a, mk_regs (holding_reg s) (input_reg s) e).

Lemma read_regs_loop_miss cb k n addr out (s : regs E) :
  (∀ a, env_only (cb a)) → 0 ≤ addr → 0 ≤ k < Z.of_nat n → addr + k ≤ 65535 →
  (∀ s, cb (addr + k) s = (Done None, s)) →
  ∃ e, read_regs_loop cb n addr out s = (Done None, mk_regs (holding_reg s) (input_reg s) e).
Proof.
  intros Hcb. revert k addr out s. induction n as [|n IH]; intros k addr out s Ha Hk Hw Hf; [lia|].
  cbn [read_regs_loop]. destruct (Hcb addr s) as (r & e & Hr). rewrite (bind_done _ _ _ _ _ Hr).
  destruct r as [v|]; [|by eexists].
  destruct (decide (k = 0)) as [->|Hk0].
  { rewrite Z.add_0_r in Hf. rewrite Hf in Hr. done. }
  unfold next_addr. rewrite u16_id by ulia.
  destruct (IH (k - 1) (addr + 1) (out ++ io_put_be16 v) (mk_regs (holding_reg s) (input_reg s) e))
    as (e' & He'); try lia.
  { replace (addr + 1 + (k - 1)) with (addr + k) by lia. done. }
  exists e'. done.
Qed.

Lemma env_only_ret {A} (a : A) : env_only (mret a).
Proof. intros s. exists a, (env s). by destruct s. Qed.
Lemma env_only_gets {A} (f : regs E → A) : env_only (gets f).
Proof. intros s. exists (f s), (env s). by destruct s. Qed.
Lemma env_only_call_ret {A} (f : E → A * E) : env_only (call_ret f).
Proof. intros s. unfold call_ret. destruct (f (env s)) as [a e]. by eexists _, _. Qed.
Lemma env_only_bind {A B} (m : M (regs E) A) (k : A → M (regs E) B) :
  env_only m → (∀ a, env_only (k a)) → env_only (m ≫= k).
Proof.
  intros Hm Hk s. destruct (Hm s) as (a & e & Hr). rewrite (bind_done _ _ _ _ _ Hr).
  destruct (Hk a (mk_regs (holding_reg s) (input_reg s) e)) as (b & e' & Hb). eauto.
Qed.

Lemma holding_rd_env_only a : env_only (holding_reg_rd_cb a).
Proof.
  unfold holding_reg_rd_cb, io_read_holding, get_holding_reg.
  repeat first [case_match | apply env_only_bind; intros
               | apply env_only_ret | apply env_only_gets | apply env_only_call_ret].
Qed.
Lemma input_rd_env_only a : env_only (input_reg_rd_cb a).
Proof.
  unfold input_reg_rd_cb, get_input_reg.
  repeat first [case_match | apply env_only_bind; intros | apply env_only_ret | apply env_only_gets].
Qed.

Lemma holding_rd_plain a (s : regs E) :
  a < 18 → a ≠ 14 → a ≠ 15 → holding_reg_rd_cb a s = (Done (Some (hread s a)), s).
Proof.
  intros Ha H14 H15. unfold holding_reg_rd_cb, io_read_holding, get_holding_reg,
    MODBUS_HOLDING_REGISTER_NUMBERS, HOLDING_TIMESTAMP_HI_IDX, HOLDING_TIMESTAMP_LO_IDX.
  replace (18 <=? a) with false by lia. replace (a =? 14) with false by lia.
  by replace (a =? 15) with false by lia.
Qed.
Lemma holding_rd_oob a (s : regs E) : 18 ≤ a → holding_reg_rd_cb a s = (Done None, s).
Proof.
  intros. unfold holding_reg_rd_cb, MODBUS_HOLDING_REGISTER_NUMBERS.
  by replace (18 <=? a) with true by lia.
Qed.
Lemma input_rd_plain a (s : regs E) : a < 6 → input_reg_rd_cb a s = (Done (Some (iread s a)), s).
Proof.
  intros. unfold input_reg_rd_cb, get_input_reg, MODBUS_INPUT_REGISTER_NUMBERS.
  by replace (6 <=? a) with false by lia.
Qed.
Lemma input_rd_oob a (s : regs E) : 6 ≤ a → input_reg_rd_cb a s = (Done None, s).
Proof.
  intros. unfold input_reg_rd_cb, MODBUS_INPUT_REGISTER_NUMBERS.
  by replace (6 <=? a) with true by lia.
Qed.

(** *** The reading handler *)

Lemma read_regs_bad_qty fc cb a q (s : mb E) :
  is_u16 q → q = 0 ∨ 125 < q →
  read_regs fc cb (io_put_be16 a ++ io_put_be16 q) s
  = (Done (Some [Z.lor fc 0x80; MB_EXC_ILLEGAL_DATA_VAL]), counted MB_DIAG_EXC s).
Proof.
  intros Hq Hb. unfold read_regs. rewrite be16_pair_len, be16_pair_snd by done.
  change (negb (4 =? 4)) with false. cbv iota.
  by replace ((q =? 0) || (125 <? q)) with true by lia.
Qed.

Lemma read_regs_fp fc cb a q (s : mb E) :
  is_u16 a → is_u16 q → 0 < q ≤ 125 → 5000 ≤ a →
  read_regs fc cb (io_put_be16 a ++ io_put_be16 q) s
  = (Done (Some [Z.lor fc 0x80; MB_EXC_ILLEGAL_FC]), counted MB_DIAG_EXC s).
Proof.
  intros Ha Hq Hb Hf. unfold read_regs. rewrite be16_pair_len, be16_pair_snd, get_be16_put by done.
  change (negb (4 =? 4)) with false. unfold MB_FP_EXTENSIONS_ADDR. cbv iota.
  replace ((q =? 0) || (125 <? q)) with false by lia.
  by replace (5000 <=? a) with true by lia.
Qed.

Lemma read_regs_run fc cb a q (s : mb E) o :
  is_u16 a → is_u16 q → 0 < q ≤ 125 → a < 5000 →
  read_regs_loop cb (Z.to_nat q) a [] (mb_regs s) = o →
  read_regs fc cb (io_put_be16 a ++ io_put_be16 q) s
  = match o with
    | (Done (Some data), r) => (Done (Some (fc :: 2 * q :: data)), mk_mb r (diag_ctr s))
    | (Done None, r) => (Done (Some [Z.lor fc 0x80; MB_EXC_ILLEGAL_DATA_ADDR]),
                         counted MB_DIAG_EXC (mk_mb r (diag_ctr s)))
    | (Reset, r) => (Reset, mk_mb r (diag_ctr s))
    end.
Proof.
  intros Ha Hq Hb Hf Ho. unfold read_regs. rewrite be16_pair_len, be16_pair_snd, get_be16_put by done.
  change (negb (4 =? 4)) with false. unfold MB_FP_EXTENSIONS_ADDR. cbv iota.
  replace ((q =? 0) || (125 <? q)) with false by lia.
  replace (5000 <=? a) with false by lia.
  unfold mbind, M_bind, on_regs, zoom. rewrite Ho. destruct o as [[[data|]|] r]; [|done..].
  rewrite u8_id by ulia. by rewrite Z.mul_comm.
Qed.
End RegReads.

(** ** Register writes *)

Section RegWrites.
Context {E : Type} `{IoHooksLaws E}.

(** reference semantics of a multiple-register write below 0x10: each value
    in turn, skipping the ones the register already holds *)
Definition write_one (s : regs E) (addr v : Z) : regs E :=
  if hread s addr =? v then s else stored_reg s addr v (write_env s addr v).
Fixpoint write_all (s : regs E) (addr : Z) (vs : list Z) : regs E :=
  match vs with
  | [] => s
  | v :: vs => write_all (write_one s addr v) (addr + 1) vs
  end.

Lemma write_one_run s addr v :
  regs_ok s → is_u16 v → 0 ≤ addr < 16 →
  io_write_holding addr v s = (Done true, write_one s addr v).
Proof.
  intros Hs Hv Ha. unfold write_one. destruct (Z.eqb_spec (hread s addr) v) as [He|He].
  - apply io_write_holding_same; [lia|done].
  - by apply io_write_holding_plain.
Qed.

Lemma write_one_ok s addr v :
  regs_ok s → is_u16 v → 0 ≤ addr < 16 → regs_ok (write_one s addr v).
Proof.
  intros Hs Hv Ha. pose proof (io_write_holding_ok addr v Hv s Hs) as Hok.
  by rewrite write_one_run in Hok.
Qed.
Lemma write_one_eq s addr v :
  regs_ok s → 0 ≤ addr < 16 → hread (write_one s addr v) addr = v.
Proof.
  intros. unfold write_one. case_match; [lia|]. apply stored_reg_eq; [done|lia].
Qed.
Lemma write_one_ne s addr v j : 0 ≤ addr → 0 ≤ j → addr ≠ j → hread (write_one s addr v) j = hread s j.
Proof. intros. unfold write_one. case_match; [done|]. by apply stored_reg_ne. Qed.
Lemma write_one_input s addr v : input_reg (write_one s addr v) = input_reg s.
Proof. unfold write_one. by case_match. Qed.

Lemma write_all_facts vs s addr :
  regs_ok s → Forall (is_u 16) vs → 0 ≤ addr → addr + zlen vs ≤ 16 →
  regs_ok (write_all s addr vs) ∧ input_reg (write_all s addr vs) = input_reg s ∧
  ∀ j, 0 ≤ j → hread (write_all s addr vs) j
               = if (addr <=? j) && (j <? addr + zlen vs) then rd vs (Z.to_nat (j - addr)) else hread s j.
Proof.
  revert s addr. induction vs as [|v vs IH]; intros s addr Hs Hv Ha Hw.
  - split_and!; [done..|]. intros j Hj. unfold zlen; simpl.
    by replace ((addr <=? j) && (j <? addr + Z.of_nat 0)) with false by lia.
  - apply Forall_cons_iff in Hv as [Hv Hvs]. unfold zlen in *; simpl length in *.
    cbn [write_all]. destruct (IH (write_one s addr v) (addr + 1)) as (Hok & Hin & Hrd); [|done|lia..|].
    { apply write_one_ok; [done..|lia]. }
    split_and!; [done|by rewrite Hin, write_one_input|].
    intros j Hj. rewrite Hrd by done.
    destruct (decide (j = addr)) as [->|Hne].
    + replace ((addr + 1 <=? addr) && (addr <? addr + 1 + Z.of_nat (length vs))) with false by lia.
      replace ((addr <=? addr) && (addr <? addr + Z.of_nat (S (length vs)))) with true by lia.
      rewrite write_one_eq by (done || lia). by rewrite Z.sub_diag.
    + rewrite write_one_ne by lia.
      replace ((addr + 1 <=? j) && (j <? addr + 1 + Z.of_nat (length vs)))
        with ((addr <=? j) && (j <? addr + Z.of_nat (S (length vs)))) by lia.
      destruct ((addr <=? j) && (j <? addr + Z.of_nat (S (length vs)))) eqn:Eb; [|done].
      replace (Z.to_nat (j - addr)) with (S (Z.to_nat (j - (addr + 1)))) by lia.
      by rewrite rd_cons_S.
Qed.

(** the payload of a multiple-register request *)
Definition be16s (vs : list Z) : list Z := concat (io_put_be16 <$> vs).

Lemma be16s_cons v vs : be16s (v :: vs) = io_put_be16 v ++ be16s vs.
Proof. reflexivity. Qed.
Lemma length_be16s vs : length (be16s vs) = (2 * length vs)%nat.
Proof. induction vs as [|v vs IH]; [done|]. rewrite be16s_cons, length_app, IH. simpl. lia. Qed.

Lemma hregs_write_loop_plain vs rest (s : regs E) a c :
  regs_ok s → Forall (is_u 16) vs → 0 ≤ a → 0 ≤ c → a + c + zlen vs ≤ 16 →
  hregs_write_loop (be16s vs ++ rest) (length vs) a c s = (Done true, write_all s (a + c) vs).
Proof.
  revert s c. induction vs as [|v vs IH]; intros s c Hs Hv Ha Hc Hw; [done|].
  apply Forall_cons_iff in Hv as [Hv Hvs]. unfold zlen in *; simpl length in *.
  cbn [hregs_write_loop]. rewrite be16s_cons, <- app_assoc, get_be16_put by done.
  change (drop 2 (io_put_be16 v ++ be16s vs ++ rest)) with (be16s vs ++ rest).
  unfold holding_reg_wr_cb. rewrite !u16_id by ulia.
  erewrite bind_done by (apply write_one_run; (done || lia)). cbn [negb write_all].
  rewrite IH; [|apply write_one_ok; (done || lia)|done|lia..]. by rewrite Z.add_assoc.
Qed.

Lemma hregs_write_loop_oob prx n (s : regs E) a :
  is_u16 a → 18 ≤ a → hregs_write_loop prx (S n) a 0 s = (Done false, s).
Proof.
  intros Ha Hb. cbn [hregs_write_loop]. unfold holding_reg_wr_cb. rewrite Z.add_0_r, (u16_id a) by done.
  by erewrite bind_done by (apply io_write_holding_oob; lia).
Qed.
End RegWrites.

(** ** Coil writes *)

Section CoilWrites.
Context {E : Type} `{IoHooksLaws E}.

Lemma coil_wr_run (s : regs E) a st :
  regs_ok s → 0 ≤ a < 8 →
  ∃ s', coil_wr_cb a st s = (Done true, s') ∧ regs_ok s' ∧ input_reg s' = input_reg s ∧
    (∀ j, 0 < j → hread s' j = hread s j) ∧
    ∀ i, 0 ≤ i < 8 → Z.testbit (hread s' 0) i = if i =? a then st else Z.testbit (hread s 0) i.
Proof.
  intros Hs Ha. unfold coil_wr_cb. eexists. rewrite io_write_do_bit_eq by (unfold DO_NUM; lia).
  split; [done|]. split; [|split_and!].
  - pose proof (io_write_do_bit_ok a st s Hs) as Hok.
    by rewrite io_write_do_bit_eq in Hok by (unfold DO_NUM; lia).
  - done.
  - intros j Hj. apply stored_reg_ne; unfold HOLDING_DO_IDX; lia.
  - intros i Hi. change 0 with HOLDING_DO_IDX at 1. rewrite stored_reg_eq by (done || unfold HOLDING_DO_IDX; lia).
    apply do_after_testbit; lia.
Qed.

Lemma coil_wr_oob (s : regs E) a st : 8 ≤ a → coil_wr_cb a st s = (Done false, s).
Proof. intros. unfold coil_wr_cb, io_write_do_bit, DO_NUM. by replace (8 <=? a) with true by lia. Qed.

Lemma land1_testbit t : negb (Z.land t 0x01 =? 0) = Z.testbit t 0.
Proof. apply (land_bit t 0). lia. Qed.

(** the loop writes the coils it can reach, in order, and stops at the first
    coil that does not exist *)
Lemma coils_write_loop_run d n a c temp ix (s : regs E) :
  regs_ok s → is_u16 a → 0 ≤ c → c + Z.of_nat n ≤ 2000 →
  (c = 0 ∨ a + c ≤ 8) →
  ix = 5 + (c + 7) / 8 →
  (c mod 8 ≠ 0 → temp = Z.shiftr (rd d (Z.to_nat (5 + c / 8))) (c mod 8)) →
  ∃ s', coils_write_loop d n a c temp ix s
        = (Done (bool_decide (n = O ∨ a + c + Z.of_nat n ≤ 8)), s') ∧
    regs_ok s' ∧ input_reg s' = input_reg s ∧
    (∀ j, 0 < j → hread s' j = hread s j) ∧
    ∀ i, 0 ≤ i < 8 → Z.testbit (hread s' 0) i
      = if (a + c <=? i) && (i <? a + c + Z.of_nat n) then dbit (drop 5 d) (i - a)
        else Z.testbit (hread s 0) i.
Proof.
  revert c temp ix s. induction n as [|n IH]; intros c temp ix s Hs Ha Hc Hn Hac Hix Ht.
  { exists s. rewrite bool_decide_true by auto. split_and!; try done.
    intros i Hi. change (Z.of_nat 0) with 0.
    by replace ((a + c <=? i) && (i <? a + c + 0)) with false by lia. }
  cbn [coils_write_loop].
  assert (a + c ≤ 65535) as Hu by ulia. rewrite (u16_id (a + c)) by ulia.
  set (tx := if c mod 8 =? 0 then (rd d (Z.to_nat ix), u8 (ix + 1)) else (temp, ix)).
  assert (tx = (Z.shiftr (rd d (Z.to_nat (5 + c / 8))) (c mod 8), 5 + (c + 1 + 7) / 8)) as ->.
  { unfold tx. destruct (Z.eqb_spec (c mod 8) 0) as [E0|E0].
    - rewrite E0, Z.shiftr_0_r. f_equal.
      + do 2 f_equal. subst ix. Z.div_mod_to_equations; lia.
      + rewrite u8_id; subst ix; [Z.div_mod_to_equations; lia|].
        apply is_byte_iff. Z.div_mod_to_equations; lia.
    - f_equal; [by apply Ht|]. subst ix. Z.div_mod_to_equations; lia. }
  rewrite land1_testbit, Z.shiftr_spec, Z.add_0_l by lia.
  destruct (decide (8 ≤ a + c)) as [Hoob|Hin].
  { rewrite (bind_done _ _ _ _ _ (coil_wr_oob s _ _ Hoob)). exists s.
    rewrite bool_decide_false by lia. split_and!; try done.
    intros i Hi. by replace ((a + c <=? i) && (i <? a + c + Z.of_nat (S n))) with false by lia. }
  destruct (coil_wr_run s (a + c) (Z.testbit (rd d (Z.to_nat (5 + c / 8))) (c mod 8)))
    as (s1 & Hr & Hs1 & Hi1 & Hj1 & Hb1); [done|ulia|].
  rewrite (bind_done _ _ _ _ _ Hr). cbn [negb]. rewrite (u16_id (c + 1)) by ulia.
  destruct (IH (c + 1) (Z.shiftr (Z.shiftr (rd d (Z.to_nat (5 + c / 8))) (c mod 8)) 1)
               (5 + (c + 1 + 7) / 8) s1) as (s2 & Hr2 & Hs2 & Hi2 & Hj2 & Hb2);
    [exact Hs1|done|lia|lia|lia|reflexivity| |].
  { intros Hm. rewrite Z.shiftr_shiftr by lia.
    assert (c / 8 = (c + 1) / 8) as -> by (Z.div_mod_to_equations; lia).
    f_equal. Z.div_mod_to_equations; lia. }
  exists s2. split_and!; [|done|by rewrite Hi2| |].
  - rewrite Hr2. do 2 f_equal. apply bool_decide_ext. lia.
  - intros j Hj. by rewrite Hj2, Hj1.
  - intros i Hi. rewrite Hb2, Hb1 by done.
    destruct (Z.eqb_spec i (a + c)) as [->|Hne].
    + replace ((a + (c + 1) <=? a + c) && (a + c <? a + (c + 1) + Z.of_nat n)) with false by lia.
      replace ((a + c <=? a + c) && (a + c <? a + c + Z.of_nat (S n))) with true by lia.
      unfold dbit. rewrite rd_drop. replace (a + c - a) with c by lia.
      do 2 f_equal. Z.div_mod_to_equations; lia.
    + by replace ((a + (c + 1) <=? i) && (i <? a + (c + 1) + Z.of_nat n))
        with ((a + c <=? i) && (i <? a + c + Z.of_nat (S n))) by lia.
Qed.
End CoilWrites.

(** ** The shape of every reply *)

Section Shape.
Context {E : Type} `{IoHooks E}.

(** requests that are dropped without an answer: wrong length for their code *)
Definition silent (fc : Z) (d : list Z) : bool :=
  if bool_decide (fc ∈ [1; 2; 3; 4; 5; 6; 8]) then negb (zlen d =? 4)
  else if bool_decide (fc ∈ [15; 16]) then zlen d <? 6
  else false.

(** an exception with its counter, or a normal reply of at most 252 bytes
    that leaves the counters alone (FC08/0x0A clears them) *)
Definition replied (fc : Z) (ctr : list Z) (o : outcome (option (list Z)) * mb E) : Prop :=
  match o with
  | (Reset, s') => diag_ctr s' = ctr
  | (Done None, _) => False
  | (Done (Some r), s') =>
      (∃ code, r = [Z.lor fc 0x80; code] ∧ 1 ≤ code ≤ 3 ∧
               diag_ctr s' = <[2%nat := u16 (rd ctr 2 + 1)]> ctr) ∨
      (∃ body, r = fc :: body ∧ (1 ≤ length body ≤ 251)%nat ∧ bytes_ok body ∧
               (diag_ctr s' = ctr ∨ fc = 8 ∧ diag_ctr s' = diag_init))
  end.

Lemma replied_exc fc code s ctr :
  1 ≤ code ≤ 3 → diag_ctr s = ctr → replied fc ctr (exc_rsp fc code s).
Proof. intros Hc <-. left. by exists code. Qed.

Lemma replied_echo fc a b s ctr :
  diag_ctr s = ctr ∨ fc = 8 ∧ diag_ctr s = diag_init → replied fc ctr (echo fc a b s).
Proof.
  intros Hc. right. eexists. split_and!; [done|simpl; lia|simpl; lia| |done].
  apply Forall_app. auto with uint.
Qed.

Lemma replied_on_regs {A} fc s (m : M (regs E) A) k :
  (∀ a r, m (mb_regs s) = (Done a, r) → replied fc (diag_ctr s) (k a (mk_mb r (diag_ctr s)))) →
  replied fc (diag_ctr s) ((on_regs m ≫= k) s).
Proof.
  intros Hk. unfold mbind, M_bind, on_regs, zoom.
  destruct (m (mb_regs s)) as [[a|] r] eqn:Em; [by apply Hk|done].
Qed.

Lemma replied_write fc code a b s (m : M (regs E) bool) :
  1 ≤ code ≤ 3 →
  replied fc (diag_ctr s) ((on_regs m ≫= λ ok, if negb ok then exc_rsp fc code else echo fc a b) s).
Proof.
  intros Hc. apply replied_on_regs. intros ok r _.
  destruct ok; [by apply replied_echo; left|by apply replied_exc].
Qed.

Lemma read_bits_loop_len cb n addr cntr mask p data (s s' : regs E) data' :
  read_bits_loop cb n addr cntr mask p data s = (Done (Some data'), s') → length data' = length data.
Proof.
  revert addr cntr mask p data s. induction n as [|n IH]; intros addr cntr mask p data s Hr.
  - by injection Hr as <- <-.
  - cbn [read_bits_loop] in Hr. apply bind_inv in Hr as (st & s1 & _ & Hr).
    destruct st as [st|]; [|done].
    assert (length (if st then <[p := Z.lor (rd data p) mask]> data else data) = length data) as <-
      by (destruct st; [apply length_insert|done]).
    case_match; by eapply IH.
Qed.

Lemma read_bits_loop_bytes cb n addr cntr mask p data (s s' : regs E) data' :
  is_byte mask → bytes_ok data →
  read_bits_loop cb n addr cntr mask p data s = (Done (Some data'), s') → bytes_ok data'.
Proof.
  revert addr cntr mask p data s. induction n as [|n IH]; intros addr cntr mask p data s Hm Hd Hr.
  - by injection Hr as <- <-.
  - cbn [read_bits_loop] in Hr. apply bind_inv in Hr as (st & s1 & _ & Hr).
    destruct st as [st|]; [|done].
    assert (bytes_ok (if st then <[p := Z.lor (rd data p) mask]> data else data)) as Hd'.
    { destruct st; [|done]. apply Forall_insert; [done|]. apply lor_range; [lia|auto with uint|done]. }
    destruct (u16 (cntr + 1) mod 8 =? 0).
    + eapply IH; [|exact Hd'|exact Hr]. ulia.
    + eapply IH; [|exact Hd'|exact Hr]. auto with uint.
Qed.

Lemma read_regs_loop_bytes cb n addr out (s s' : regs E) out' :
  bytes_ok out → read_regs_loop cb n addr out s = (Done (Some out'), s') → bytes_ok out'.
Proof.
  revert addr out s. induction n as [|n IH]; intros addr out s Ho Hr.
  - by injection Hr as <- <-.
  - cbn [read_regs_loop] in Hr. apply bind_inv in Hr as (st & s1 & _ & Hr).
    destruct st as [v|]; [|done]. eapply IH; [|exact Hr]. apply Forall_app. auto with uint.
Qed.

Lemma read_regs_loop_len cb n addr out (s s' : regs E) out' :
  read_regs_loop cb n addr out s = (Done (Some out'), s') → length out' = (length out + 2 * n)%nat.
Proof.
  revert addr out s. induction n as [|n IH]; intros addr out s Hr.
  - injection Hr as <- <-. lia.
  - cbn [read_regs_loop] in Hr. apply bind_inv in Hr as (st & s1 & _ & Hr).
    destruct st as [v|]; [|done]. apply IH in Hr. rewrite Hr, length_app, length_put_be16. lia.
Qed.

Lemma replied_read_bits fc cb d s :
  zlen d = 4 → replied fc (diag_ctr s) (read_bits fc cb d s).
Proof.
  intros Hd. unfold read_bits. rewrite Hd. change (negb (4 =? 4)) with false. cbv iota.
  set (q := io_get_be16 (drop 2 d)).
  destruct ((q =? 0) || (2000 <? q)) eqn:Eq; [by apply replied_exc|].
  apply replied_on_regs. intros [data|] r Hr; [|by apply replied_exc].
  pose proof (read_bits_loop_len _ _ _ _ _ _ _ _ _ _ Hr) as Hlen. rewrite length_replicate in Hlen.
  assert (0 ≤ q) by apply u16_range.
  right. eexists. split; [done|]. split; [|split; [|by left]].
  - simpl length. rewrite Hlen. Z.div_mod_to_equations; lia.
  - constructor; [apply u8_range|]. eapply read_bits_loop_bytes; [..|exact Hr]; [ulia|].
    apply Forall_replicate. ulia.
Qed.

Lemma replied_read_regs fc cb d s :
  zlen d = 4 → replied fc (diag_ctr s) (read_regs fc cb d s).
Proof.
  intros Hd. unfold read_regs. rewrite Hd. change (negb (4 =? 4)) with false. cbv iota.
  set (q := io_get_be16 (drop 2 d)).
  destruct ((q =? 0) || (125 <? q)) eqn:Eq; [by apply replied_exc|].
  case_match; [by apply replied_exc|].
  apply replied_on_regs. intros [data|] r Hr; [|by apply replied_exc].
  pose proof (read_regs_loop_len _ _ _ _ _ _ _ Hr) as Hlen.
  right. eexists. split; [done|]. split; [|split; [|by left]].
  - simpl length. rewrite Hlen. simpl. lia.
  - constructor; [apply u8_range|]. eapply read_regs_loop_bytes; [|exact Hr]. constructor.
Qed.

Lemma replied_diag d s : zlen d = 4 → replied 8 (diag_ctr s) (fc08_diagnostics d s).
Proof.
  intros Hd. unfold fc08_diagnostics. rewrite Hd. change (negb (4 =? 4)) with false. cbv iota.
  repeat (case_match; [apply replied_echo; auto|]). by apply replied_exc.
Qed.

Lemma dispatch_shape fc d s :
  if silent fc d then mb_dispatch fc d s = (Done None, s)
  else replied fc (diag_ctr s) (mb_dispatch fc d s).
Proof.
  unfold mb_dispatch, MB_FC01_COIL_RD, MB_FC02_DI_RD, MB_FC03_HOLDING_REG_RD, MB_FC04_IN_REG_RD,
    MB_FC05_COIL_WR, MB_FC06_HOLDING_REG_WR, MB_FC08_DIAGNOSTICS, MB_FC15_COILS_WR,
    MB_FC16_HOLDING_REGS_WR.
  assert (∀ c, fc = c → bool_decide (c ∈ [1; 2; 3; 4; 5; 6; 8]) = true →
               silent fc d = negb (zlen d =? 4)) as Hs1.
  { intros c -> Hc. unfold silent. by rewrite Hc. }
  assert (∀ c, fc = c → c = 15 ∨ c = 16 → silent fc d = (zlen d <? 6)) as Hs2.
  { intros c -> [->| ->]; done. }
  destruct (Z.eqb_spec fc 1) as [->|N1]; [|destruct (Z.eqb_spec fc 2) as [->|N2];
    [|destruct (Z.eqb_spec fc 3) as [->|N3]; [|destruct (Z.eqb_spec fc 4) as [->|N4];
    [|destruct (Z.eqb_spec fc 5) as [->|N5]; [|destruct (Z.eqb_spec fc 6) as [->|N6];
    [|destruct (Z.eqb_spec fc 8) as [->|N8]; [|destruct (Z.eqb_spec fc 15) as [->|N15];
    [|destruct (Z.eqb_spec fc 16) as [->|N16]]]]]]]]].
  8-9: rewrite (Hs2 _ eq_refl) by auto; destruct (zlen d <? 6) eqn:Ed.
  1-7: rewrite (Hs1 _ eq_refl eq_refl); destruct (negb (zlen d =? 4)) eqn:Ed; [|assert (zlen d = 4) as Hl by lia].
  all: try (by unfold fc01_coil_read, fc02_di_read, fc03_hreg_read, fc04_inreg_read, read_bits, read_regs,
         fc05_coil_write, fc06_hreg_write, fc08_diagnostics, fc15_coils_write, fc16_hregs_write; rewrite Ed).
  - by apply replied_read_bits.
  - by apply replied_read_bits.
  - by apply replied_read_regs.
  - by apply replied_read_regs.
  - unfold fc05_coil_write. rewrite Ed. by apply replied_write.
  - unfold fc06_hreg_write. rewrite Ed. by apply replied_write.
  - by apply replied_diag.
  - unfold fc15_coils_write. rewrite Ed.
    repeat (case_match; [by apply replied_exc|]). by apply replied_write.
  - unfold fc16_hregs_write. rewrite Ed.
    repeat (case_match; [by apply replied_exc|]). by apply replied_write.
  - assert (silent fc d = false) as ->; [|by apply replied_exc].
    unfold silent. rewrite !bool_decide_eq_false_2; [done|..]; rewrite !elem_of_cons, elem_of_nil; lia.
Qed.

Lemma process_len pdu (s s' : mb E) r :
  mb_server_process pdu s = (Done (Some r), s') → 2 ≤ zlen r ≤ 252.
Proof.
  destruct pdu as [|fc d]; [done|]. rewrite process_cons. intros Hr.
  pose proof (dispatch_shape fc d (mb_tick s)) as Hd. rewrite Hr in Hd.
  case_match; [done|]. unfold zlen.
  destruct Hd as [(code & -> & _)|(body & -> & Hb & _)]; simpl; lia.
Qed.

Lemma process_bytes pdu (s s' : mb E) r :
  bytes_ok pdu → mb_server_process pdu s = (Done (Some r), s') → bytes_ok r.
Proof.
  destruct pdu as [|fc d]; [done|]. rewrite process_cons. intros Hp Hr.
  apply Forall_cons_iff in Hp as [Hfc _].
  pose proof (dispatch_shape fc d (mb_tick s)) as Hd. rewrite Hr in Hd.
  destruct (silent fc d); [done|].
  destruct Hd as [(code & -> & Hc & _)|(body & -> & _ & Hb & _)]; [|by constructor].
  rewrite !Forall_cons_iff. split_and!; [apply lor_range; [lia|done|ulia]|ulia|constructor].
Qed.
End Shape.

(** ** Requests, as a client builds them *)

Definition req_read (fc addr qty : Z) : list Z := fc :: io_put_be16 addr ++ io_put_be16 qty.
Definition req_write_regs (addr : Z) (vs : list Z) : list Z :=
  MB_FC16_HOLDING_REGS_WR :: io_put_be16 addr ++ io_put_be16 (zlen vs) ++ [2 * zlen vs] ++ be16s vs.
Definition req_write_coils (addr qty : Z) (payload : list Z) : list Z :=
  MB_FC15_COILS_WR :: io_put_be16 addr ++ io_put_be16 qty ++ [zlen payload] ++ payload.

(** the bits and registers behind the four read functions *)
Definition bit_count (fc : Z) : Z := if fc =? MB_FC01_COIL_RD then DO_NUM else DI_NUM.
Definition bit_image {E} (fc : Z) (s : mb E) : Z :=
  if fc =? MB_FC01_COIL_RD then hread (mb_regs s) HOLDING_DO_IDX else iread (mb_regs s) INPUT_DI_IDX.
Definition reg_count (fc : Z) : Z :=
  if fc =? MB_FC03_HOLDING_REG_RD then MODBUS_HOLDING_REGISTER_NUMBERS else MODBUS_INPUT_REGISTER_NUMBERS.
Definition reg_image {E} (fc : Z) (s : mb E) (a : Z) : Z :=
  if fc =? MB_FC03_HOLDING_REG_RD then hread (mb_regs s) a else iread (mb_regs s) a.

(** ** Whole requests *)

Lemma be32_bytes_of_halves t :
  is_u32 t → u8 (u16 (t / 65536) / 256) = u8 (t / 16777216) ∧ u8 (u16 t / 256) = u8 (t / 256).
Proof. intros. split; ulia. Qed.

(** A multiple-register write below 0x10 is the reference [write_all]. *)
Lemma process_write_regs {E} `{IoHooksLaws E} (s : mb E) (addr : Z) (vs : list Z) :
  mb_ok s → Forall (is_u 16) vs → 0 < zlen vs → 0 ≤ addr → addr + zlen vs ≤ 16 →
  mb_server_process (req_write_regs addr vs) s
  = (Done (Some (MB_FC16_HOLDING_REGS_WR :: io_put_be16 addr ++ io_put_be16 (zlen vs))),
     mk_mb (write_all (mb_regs s) addr vs) (diag_ctr (mb_tick s))).
Proof.
  intros Hs Hv Hl Ha Hw.
  unfold req_write_regs. rewrite process_cons. unfold mb_dispatch. simpl (MB_FC16_HOLDING_REGS_WR =? _).
  cbv iota. unfold fc16_hregs_write.
  rewrite get_be16_put by ulia.
  change (drop 2 (io_put_be16 addr ++ ?l)) with l. rewrite get_be16_put by ulia.
  change (rd (io_put_be16 addr ++ io_put_be16 (zlen vs) ++ [2 * zlen vs] ++ be16s vs) 4) with (2 * zlen vs).
  change (drop 5 (io_put_be16 addr ++ io_put_be16 (zlen vs) ++ [2 * zlen vs] ++ be16s vs)) with (be16s vs).
  assert (zlen (io_put_be16 addr ++ io_put_be16 (zlen vs) ++ [2 * zlen vs] ++ be16s vs) = 5 + 2 * zlen vs) as ->.
  { unfold zlen. rewrite !length_app, length_be16s, !length_put_be16. simpl. lia. }
  unfold MB_FP_EXTENSIONS_ADDR.
  replace (5 + 2 * zlen vs <? 6) with false by lia.
  replace ((zlen vs =? 0) || (125 <? zlen vs)) with false by lia.
  replace (5000 <=? addr) with false by lia.
  replace (5 + 2 * zlen vs - 5 =? 2 * zlen vs) with true by lia.
  rewrite Z.div_mul by lia. change (negb (2 =? 2)) with false. cbn [negb].
  erewrite bind_done; cycle 1.
  { apply on_regs_done. unfold zlen at 1. rewrite Nat2Z.id, <- (app_nil_r (be16s vs)).
    apply hregs_write_loop_plain; [apply Hs|done|lia..]. }
  by rewrite Z.add_0_r.
Qed.

(** ** Properties *)

(** C6: reading coils (FC01) and discrete inputs (FC02), on every branch: a
    quantity of 0 or above 2000 is exception 3; a range that leaves the existing
    bits is exception 2; otherwise the reply carries exactly
    [ceil(qty/8)] bytes whose bit [i] is input bit [addr+i], the unused bits of
    the last byte are 0, and only the message counters change. *)
Theorem read_bits_response {E} `{IoHooks E} (s : mb E) (fc addr qty : Z) :
  fc = MB_FC01_COIL_RD ∨ fc = MB_FC02_DI_RD → is_u16 addr → is_u16 qty →
  let res := mb_server_process (req_read fc addr qty) s in
  if (qty =? 0) || (2000 <? qty)
  then res = (Done (Some [Z.lor fc 0x80; MB_EXC_ILLEGAL_DATA_VAL]), counted MB_DIAG_EXC (mb_tick s))
  else if bit_count fc <? addr + qty
  then res = (Done (Some [Z.lor fc 0x80; MB_EXC_ILLEGAL_DATA_ADDR]), counted MB_DIAG_EXC (mb_tick s))
  else ∃ data,
    res = (Done (Some (fc :: ((qty - 1) / 8 + 1) :: data)), mb_tick s) ∧
    zlen data = (qty - 1) / 8 + 1 ∧ bytes_ok data ∧
    ∀ i, 0 ≤ i → dbit data i = (i <? qty) && Z.testbit (bit_image fc s) (addr + i).
Proof.
  intros Hfc Ha Hq res.
  set (f := if fc =? 1 then @io_coil_rd E else @io_discrete_rd E).
  assert (res = read_bits fc (λ a, gets (λ r, f r a)) (io_put_be16 addr ++ io_put_be16 qty) (mb_tick s)) as ->.
  { unfold res, f. by destruct Hfc as [->| ->]. }
  assert (∀ a, bit_count fc ≤ a → f (mb_regs (mb_tick s)) a = None) as Hmiss.
  { intros a Hc. unfold f, bit_count in *. destruct Hfc as [->| ->]; simpl in *.
    - unfold io_coil_rd. by replace (DO_NUM <=? a) with true by lia.
    - unfold io_discrete_rd. by replace (DI_NUM <=? a) with true by lia. }
  assert (0 < bit_count fc ≤ 16) as Hbc by (unfold bit_count, DO_NUM, DI_NUM; case_match; lia).
  destruct ((qty =? 0) || (2000 <? qty)) eqn:Eq; [apply read_bits_bad_qty; [done|lia]|].
  case_match.
  - apply (read_bits_miss f fc addr qty (Z.max 0 (bit_count fc - addr))); try done; try (ulia || lia).
    apply Hmiss. lia.
  - apply (read_bits_hit f fc addr qty (λ i, Z.testbit (bit_image fc s) (addr + i))); try done; try (ulia).
    intros i Hi. unfold f, bit_image, bit_count in *. destruct Hfc as [->| ->]; simpl in *.
    + apply io_coil_rd_bit. ulia.
    + apply io_discrete_rd_bit. ulia.
Qed.

(** Reading holding (FC03) and input (FC04) registers, on every branch: a
    quantity of 0 or above 125 is exception 3; an address in the floating point
    area is exception 1; a range that leaves the existing registers is
    exception 2; otherwise the reply carries the registers in order, high byte
    first (the two live clock registers have a property of their own). *)
Theorem read_regs_response {E} `{IoHooks E} (s : mb E) (fc addr qty : Z) :
  fc = MB_FC03_HOLDING_REG_RD ∨ fc = MB_FC04_IN_REG_RD → is_u16 addr → is_u16 qty →
  let res := mb_server_process (req_read fc addr qty) s in
  let exc code := [Z.lor fc 0x80; code] in
  if (qty =? 0) || (125 <? qty)
  then res = (Done (Some (exc MB_EXC_ILLEGAL_DATA_VAL)), counted MB_DIAG_EXC (mb_tick s))
  else if MB_FP_EXTENSIONS_ADDR <=? addr
  then res = (Done (Some (exc MB_EXC_ILLEGAL_FC)), counted MB_DIAG_EXC (mb_tick s))
  else if reg_count fc <? addr + qty
  then ∃ e, res = (Done (Some (exc MB_EXC_ILLEGAL_DATA_ADDR)),
                   counted MB_DIAG_EXC (mk_mb (mk_regs (holding_reg (mb_regs s)) (input_reg (mb_regs s)) e)
                                              (diag_ctr (mb_tick s))))
  else (∀ a, addr ≤ a < addr + qty → a ≠ HOLDING_TIMESTAMP_HI_IDX ∧ a ≠ HOLDING_TIMESTAMP_LO_IDX) →
    res = (Done (Some (fc :: 2 * qty :: concat ((λ a, io_put_be16 (reg_image fc s a)) <$> seqZ addr qty))),
           mb_tick s).
Proof.
  intros Hfc Ha Hq res exc.
  set (cb := if fc =? 3 then @holding_reg_rd_cb E _ else @input_reg_rd_cb E).
  assert (res = read_regs fc cb (io_put_be16 addr ++ io_put_be16 qty) (mb_tick s)) as ->.
  { unfold res, cb. by destruct Hfc as [->| ->]. }
  assert (0 < reg_count fc ≤ 18) as Hrc
    by (unfold reg_count, MODBUS_HOLDING_REGISTER_NUMBERS, MODBUS_INPUT_REGISTER_NUMBERS; case_match; lia).
  destruct ((qty =? 0) || (125 <? qty)) eqn:Eq; [apply read_regs_bad_qty; [done|lia]|].
  unfold MB_FP_EXTENSIONS_ADDR. destruct (5000 <=? addr) eqn:Ef; [apply read_regs_fp; (done || ulia)|].
  assert (0 < qty ≤ 125) as Hq1 by ulia. assert (addr < 5000) as Ha1 by lia.
  case_match.
  - destruct (read_regs_loop_miss cb (Z.max 0 (reg_count fc - addr)) (Z.to_nat qty) addr []
                (mb_regs (mb_tick s))) as (e & He); try (ulia || lia).
    { intros a. unfold cb. case_match; [apply holding_rd_env_only|apply input_rd_env_only]. }
    { intros r. unfold cb, reg_count in *. destruct Hfc as [->| ->]; simpl.
      - apply holding_rd_oob. unfold MODBUS_HOLDING_REGISTER_NUMBERS in *. simpl. lia.
      - apply input_rd_oob. unfold MODBUS_INPUT_REGISTER_NUMBERS in *. simpl. lia. }
    exists e. by rewrite (read_regs_run _ _ _ _ _ _ Ha Hq Hq1 Ha1 He).
  - intros Hts. erewrite (read_regs_run _ _ _ _ _ _ Ha Hq ltac:(lia) ltac:(lia)); cycle 1.
    { apply (read_regs_loop_hit cb (reg_image fc s)); [ulia|ulia|]. intros a Har.
      specialize (Hts a ltac:(lia)). unfold HOLDING_TIMESTAMP_HI_IDX, HOLDING_TIMESTAMP_LO_IDX in Hts.
      unfold cb, reg_image, reg_count, MODBUS_HOLDING_REGISTER_NUMBERS, MODBUS_INPUT_REGISTER_NUMBERS in *.
      destruct Hfc as [->| ->]; simpl in *.
      - apply holding_rd_plain; lia.
      - apply input_rd_plain; lia. }
    rewrite Z2Nat.id by ulia. by destruct s.
Qed.

(** C7: registers written with FC16 are what FC03 then reads back, and no other
    register changes: the whole round trip through both PDU codecs. *)
Theorem write_regs_read_back {E} `{IoHooksLaws E} (s : mb E) (addr : Z) (vs : list Z) :
  mb_ok s → Forall (is_u 16) vs → vs ≠ [] → 0 ≤ addr → addr + zlen vs ≤ HOLDING_TIMESTAMP_HI_IDX →
  ∃ s1 s2,
    mb_server_process (req_write_regs addr vs) s
    = (Done (Some (MB_FC16_HOLDING_REGS_WR :: io_put_be16 addr ++ io_put_be16 (zlen vs))), s1) ∧
    mb_server_process (req_read MB_FC03_HOLDING_REG_RD addr (zlen vs)) s1
    = (Done (Some (MB_FC03_HOLDING_REG_RD :: 2 * zlen vs :: be16s vs)), s2) ∧
    mb_ok s2 ∧ input_reg (mb_regs s2) = input_reg (mb_regs s) ∧
    ∀ j, 0 ≤ j → j < addr ∨ addr + zlen vs ≤ j → hread (mb_regs s2) j = hread (mb_regs s) j.
Proof.
  intros Hs Hv Hne Ha Hw. unfold HOLDING_TIMESTAMP_HI_IDX in Hw.
  assert (0 < zlen vs) as Hl by (destruct vs; [done|unfold zlen; simpl; lia]).
  pose proof (mb_server_process_ok (req_write_regs addr vs) s Hs) as Hok1.
  assert (addr + zlen vs ≤ 16) as Hw' by lia.
  pose proof (process_write_regs s addr vs Hs Hv Hl Ha Hw') as Hrun.
  rewrite Hrun in Hok1.
  destruct (write_all_facts vs (mb_regs s) addr) as (Hok & Hin & Hrd); [apply Hs|done|lia..|].
  set (s1 := mk_mb (write_all (mb_regs s) addr vs) (diag_ctr (mb_tick s))) in *.
  eexists s1, (mb_tick s1). split; [done|].
  split; [|split; [|split; [done|]]].
  - unfold req_read. rewrite process_cons.
    change (mb_dispatch MB_FC03_HOLDING_REG_RD ?d) with (read_regs 3 (@holding_reg_rd_cb E _) d).
    erewrite read_regs_run; [|ulia|ulia|lia|lia|apply (read_regs_loop_hit _ (hread (mb_regs s1))); [lia|lia|]].
    + rewrite Z2Nat.id by lia. cbn [app]. do 5 f_equal. unfold be16s. f_equal.
      apply list_eq. intros i. rewrite !list_lookup_fmap.
      destruct (vs !! i) as [v|] eqn:Ei.
      * assert (i < length vs)%nat by (by eapply lookup_lt_Some).
        rewrite lookup_seqZ_lt by (unfold zlen; lia). simpl. do 2 f_equal.
        rewrite Hrd by lia. unfold zlen.
        replace ((addr <=? addr + Z.of_nat i) && (addr + Z.of_nat i <? addr + Z.of_nat (length vs)))
          with true by lia.
        replace (Z.to_nat (addr + Z.of_nat i - addr)) with i by lia. unfold rd. by rewrite Ei.
      * apply lookup_ge_None in Ei. rewrite lookup_seqZ_ge by (unfold zlen; lia). done.
    + intros a Har. rewrite Z2Nat.id in Har by lia. apply holding_rd_plain; lia.
  - exact (diag_count_ok MB_DIAG_SRV_MSG _ (diag_count_ok MB_DIAG_BUS_MSG s1 Hok1)).
  - intros j Hj Hout. rewrite Hrd by done.
    by replace ((addr <=? j) && (j <? addr + zlen vs)) with false by lia.
Qed.

(** Writing coils with FC15 sets exactly the coils it can reach, in order:
    coil [i] of the range takes bit [i - addr] of the payload, the other coils
    and registers keep their value; the reply is the echo when the whole range
    exists and exception 2 otherwise (the coils before the missing one stay
    written). *)
Theorem write_coils_effect {E} `{IoHooksLaws E} (s : mb E) (addr qty : Z) (payload : list Z) :
  mb_ok s → is_u16 addr → 0 < qty ≤ 2000 → bytes_ok payload → zlen payload = (qty - 1) / 8 + 1 →
  ∃ s', mb_server_process (req_write_coils addr qty payload) s
        = (Done (Some (if addr + qty <=? DO_NUM
                       then MB_FC15_COILS_WR :: io_put_be16 addr ++ io_put_be16 qty
                       else [Z.lor MB_FC15_COILS_WR 0x80; MB_EXC_ILLEGAL_DATA_ADDR])), s') ∧
    regs_ok (mb_regs s') ∧ input_reg (mb_regs s') = input_reg (mb_regs s) ∧
    (∀ j, 0 < j → hread (mb_regs s') j = hread (mb_regs s) j) ∧
    ∀ i, 0 ≤ i < DO_NUM → Z.testbit (hread (mb_regs s') HOLDING_DO_IDX) i
      = if (addr <=? i) && (i <? addr + qty) then dbit payload (i - addr)
        else Z.testbit (hread (mb_regs s) HOLDING_DO_IDX) i.
Proof.
  intros Hs Ha Hq Hp Hl. unfold DO_NUM, HOLDING_DO_IDX.
  set (d := io_put_be16 addr ++ io_put_be16 qty ++ [zlen payload] ++ payload).
  destruct (coils_write_loop_run d (Z.to_nat qty) addr 0 0 5 (mb_regs s))
    as (r & Hr & Hok & Hin & Hrest & Hbit); [apply Hs|done|lia|lia|by left|done|done|].
  rewrite Z.add_0_r, Z2Nat.id in * by lia.
  assert (zlen d = 5 + zlen payload) as Hd
    by (unfold d, zlen; rewrite !length_app, !length_put_be16; simpl; lia).
  assert (0 < zlen payload ≤ 250) as Hpl by (rewrite Hl; Z.div_mod_to_equations; lia).
  assert (mb_server_process (req_write_coils addr qty payload) s
          = (on_regs (coils_write_loop d (Z.to_nat qty) addr 0 0 5) ≫= λ ok,
               if negb ok then exc_rsp MB_FC15_COILS_WR MB_EXC_ILLEGAL_DATA_ADDR
               else echo MB_FC15_COILS_WR addr qty) (mb_tick s)) as ->.
  { unfold req_write_coils. rewrite process_cons. unfold mb_dispatch. simpl (MB_FC15_COILS_WR =? _).
    cbv iota. unfold fc15_coils_write. fold d. rewrite Hd.
    replace (5 + zlen payload <? 6) with false by lia.
    assert (io_get_be16 d = addr) as -> by (by apply get_be16_put).
    assert (io_get_be16 (drop 2 d) = qty) as -> by (apply (get_be16_put qty); ulia).
    change (rd d 4) with (zlen payload).
    replace ((qty =? 0) || (2000 <? qty)) with false by lia. rewrite u16_id by ulia.
    replace (negb ((qty - 1) / 8 + 1 =? zlen payload) || negb (5 + zlen payload =? zlen payload + 5))
      with false by lia. done. }
  erewrite bind_done by (apply on_regs_done, Hr).
  destruct (addr + qty <=? 8) eqn:Eb.
  - rewrite bool_decide_true by lia. eexists. split; [done|]. by split_and!.
  - rewrite bool_decide_false by lia. eexists. split; [done|]. by split_and!.
Qed.

(** the live clock registers: FC03 of the pair 0x0E/0x0F answers the
    big-endian epoch when the clock does not tick between the two reads, and
    writing an epoch to the pair with FC16 sets the clock to it when the low half
    differs from the low half written last. *)
Theorem clock_registers {E} `{IoHooksLaws E} (s : mb E) (t : Z) (e' e'' : E) :
  mb_ok s → is_u32 t →
  hook_now_epoch (env (mb_regs s)) = (t, e') → hook_now_epoch e' = (t, e'') →
  hread (mb_regs s) HOLDING_TIMESTAMP_LO_IDX ≠ u16 t →
  (mb_server_process (req_read MB_FC03_HOLDING_REG_RD HOLDING_TIMESTAMP_HI_IDX 2) s).1
  = Done (Some (MB_FC03_HOLDING_REG_RD :: 4 :: io_put_be32 t)) ∧
  ∃ s', mb_server_process (req_write_regs HOLDING_TIMESTAMP_HI_IDX [u16 (Z.shiftr t 16); u16 t]) s
        = (Done (Some (MB_FC16_HOLDING_REGS_WR :: [0; 0x0E; 0; 2])), s') ∧
        env (mb_regs s') = (hook_set_timestamp t (env (mb_regs s))).2.
Proof.
  intros Hs Ht He1 He2 Hlo. split.
  - unfold req_read. rewrite process_cons.
    change (mb_dispatch MB_FC03_HOLDING_REG_RD ?d) with (read_regs 3 (@holding_reg_rd_cb E _) d).
    unfold HOLDING_TIMESTAMP_HI_IDX.
    erewrite read_regs_run; [|ulia|ulia|lia|lia|reflexivity].
    change (Z.to_nat 2) with 2%nat. cbn [read_regs_loop].
    unfold holding_reg_rd_cb, io_read_holding, call_ret, mbind, M_bind, next_addr.
    simpl. rewrite He1. simpl. rewrite He2. simpl. unfold io_put_be32, io_put_be16. simpl.
    rewrite (u32_id t) by done. rewrite !shiftr_div, !u16_u8 by lia.
    change (2 ^ 8) with 256; change (2 ^ 16) with 65536; change (2 ^ 24) with 16777216.
    by destruct (be32_bytes_of_halves t Ht) as [-> ->].
  - eexists. split.
    { apply process_write_regs; [done|repeat constructor; apply u16_range|done..]. }
    simpl. unfold HOLDING_TIMESTAMP_HI_IDX, HOLDING_TIMESTAMP_LO_IDX in *.
    destruct Hs as (Hr & _).
    assert (hread (write_one (mb_regs s) 14 (u16 (Z.shiftr t 16))) 15 = hread (mb_regs s) 15) as H15
      by (apply write_one_ne; lia).
    assert (hread (write_one (mb_regs s) 14 (u16 (Z.shiftr t 16))) 14 = u16 (Z.shiftr t 16)) as H14
      by (apply write_one_eq; [done|lia]).
    assert (env (write_one (mb_regs s) 14 (u16 (Z.shiftr t 16))) = env (mb_regs s)) as Henv
      by (unfold write_one; by case_match).
    set (r := write_one (mb_regs s) 14 (u16 (Z.shiftr t 16))) in *. clearbody r.
    change (14 + 1) with 15. unfold write_one. rewrite H15. replace (hread (mb_regs s) 15 =? u16 t) with false by lia.
    change (env (stored_reg r 15 (u16 t) (write_env r 15 (u16 t))))
      with (hook_set_timestamp (u32 (Z.lor (Z.shiftl (hread r 14) 16) (u16 t))) (env r)).2.
    rewrite H14, Henv. do 2 f_equal.
    rewrite lor_shiftl_add by (pose proof (u16_range t); ulia). rewrite shiftr_div by lia. ulia.
Qed.

(** C8: every request gets the reply its length and function code call for: a
    wrong length is dropped in silence with only the message counters counted;
    anything else is either an exception with its code and the exception counter
    advanced, or a normal reply that repeats the function code and has at most
    252 bytes, inside the 256-byte buffer. *)
Theorem process_reply_shape {E} `{IoHooks E} (s : mb E) (fc : Z) (d : list Z) :
  let o := mb_server_process (fc :: d) s in
  if silent fc d then o = (Done None, mb_tick s)
  else replied fc (diag_ctr (mb_tick s)) o ∧
       ∀ r s', o = (Done (Some r), s') → 2 ≤ zlen r ≤ 252 ∧ zlen r < MB_SERVER_PDU_MAX.
Proof.
  intros o. pose proof (dispatch_shape fc d (mb_tick s)) as Hd.
  rewrite <- process_cons in Hd. fold o in Hd.
  destruct (silent fc d); [done|]. split; [done|].
  intros r s' Hr. pose proof (process_len (fc :: d) s s' r Hr). unfold MB_SERVER_PDU_MAX. lia.
Qed.

(** ** Every client of the register model *)

(** the operations the transports, the I/O tasks, the shell and the UDP commands
    perform on the shared registers *)
Inductive reg_op :=
  | OpRequest (pdu : list Z)
  | OpWriteHolding (addr reg : Z)
  | OpReadHolding (addr : Z)
  | OpWriteDo (bit : Z) (state : bool)
  | OpUpdateHolding (addr reg : Z)
  | OpUpdateInput (addr reg : Z)
  | OpSave
  | OpLoad
  | OpCount (c : mb_diag_counter).

Definition op_typed (o : reg_op) : bool :=
  match o with
  | OpRequest pdu => bool_decide (bytes_ok pdu)
  | OpWriteHolding _ v | OpUpdateHolding _ v | OpUpdateInput _ v => bool_decide (is_u16 v)
  | _ => true
  end.

Definition run_reg_op {E} `{IoHooks E} (o : reg_op) : M (mb E) unit :=
  match o with
  | OpRequest pdu => _ ← mb_server_process pdu; mret tt
  | OpWriteHolding addr reg => _ ← on_regs (io_write_holding addr reg); mret tt
  | OpReadHolding addr => _ ← on_regs (io_read_holding addr); mret tt
  | OpWriteDo bit state => _ ← on_regs (io_write_do_bit bit state); mret tt
  | OpUpdateHolding addr reg => _ ← on_regs (update_holding_reg addr reg); mret tt
  | OpUpdateInput addr reg => _ ← on_regs (update_input_reg addr reg); mret tt
  | OpSave => on_regs holding_reg_save
  | OpLoad => on_regs holding_reg_load
  | OpCount c => mb_server_diag_count c
  end.

(** one after the other, up to a reset *)
Fixpoint run_reg_ops {E} `{IoHooks E} (ops : list reg_op) : M (mb E) unit :=
  match ops with
  | [] => mret tt
  | o :: ops => run_reg_op o;; run_reg_ops ops
  end.


(** ** Witnesses *)

Lemma mb_boot_ok now : mb_ok (mb_boot now).
Proof. split; [apply regs_boot_ok|]. split; [done|]. repeat constructor; ulia. Defined.

Lemma read_bits_response_witness :
  let res := mb_server_process (req_read MB_FC01_COIL_RD 1 7) (mb_boot 0) in
  ∃ data,
    res = (Done (Some (1 :: 1 :: data)), mb_tick (mb_boot 0)) ∧
    zlen data = 1 ∧ bytes_ok data ∧
    ∀ i, 0 ≤ i → dbit data i = (i <? 7) && Z.testbit (bit_image 1 (mb_boot 0)) (1 + i).
Proof. apply (read_bits_response (mb_boot 0) MB_FC01_COIL_RD 1 7); [by left|ulia|ulia]. Defined.

Lemma read_regs_response_witness :
  mb_server_process (req_read MB_FC03_HOLDING_REG_RD 8 2) (mb_boot 0)
  = (Done (Some [3; 4; 0x25; 0x80; 0; 1]), mb_tick (mb_boot 0)).
Proof.
  apply (read_regs_response (mb_boot 0) MB_FC03_HOLDING_REG_RD 8 2); [by left|ulia|ulia|].
  intros a Ha. unfold HOLDING_TIMESTAMP_HI_IDX, HOLDING_TIMESTAMP_LO_IDX. lia.
Defined.

Lemma write_regs_read_back_witness :
  ∃ s1 s2,
    mb_server_process (req_write_regs 6 [0x123; 500]) (mb_boot 0)
    = (Done (Some [16; 0; 6; 0; 2]), s1) ∧
    mb_server_process (req_read MB_FC03_HOLDING_REG_RD 6 2) s1
    = (Done (Some [3; 4; 1; 0x23; 1; 0xF4]), s2) ∧
    mb_ok s2 ∧ input_reg (mb_regs s2) = input_reg (mb_regs (mb_boot 0)) ∧
    ∀ j, 0 ≤ j → j < 6 ∨ 6 + 2 ≤ j → hread (mb_regs s2) j = hread (mb_regs (mb_boot 0)) j.
Proof.
  apply (write_regs_read_back (mb_boot 0) 6 [0x123; 500] (mb_boot_ok 0)).
  - repeat constructor; ulia.
  - done.
  - lia.
  - by vm_compute.
Defined.

Lemma write_coils_effect_witness :
  ∃ s', mb_server_process (req_write_coils 6 4 [5]) (mb_boot 0)
        = (Done (Some [0x8F; 2]), s') ∧
    regs_ok (mb_regs s') ∧ input_reg (mb_regs s') = input_reg (mb_regs (mb_boot 0)) ∧
    (∀ j, 0 < j → hread (mb_regs s') j = hread (mb_regs (mb_boot 0)) j) ∧
    ∀ i, 0 ≤ i < DO_NUM → Z.testbit (hread (mb_regs s') HOLDING_DO_IDX) i
      = if (6 <=? i) && (i <? 6 + 4) then dbit [5] (i - 6)
        else Z.testbit (hread (mb_regs (mb_boot 0)) HOLDING_DO_IDX) i.
Proof.
  apply (write_coils_effect (mb_boot 0) 6 4 [5] (mb_boot_ok 0)); [ulia|lia|repeat constructor; ulia|done].
Defined.

Lemma clock_registers_witness :
  (mb_server_process (req_read MB_FC03_HOLDING_REG_RD HOLDING_TIMESTAMP_HI_IDX 2) (mb_boot 0x65A0BC01)).1
  = Done (Some [3; 4; 0x65; 0xA0; 0xBC; 0x01]) ∧
  ∃ s', mb_server_process (req_write_regs HOLDING_TIMESTAMP_HI_IDX [0x65A0; 0xBC01]) (mb_boot 0x65A0BC01)
        = (Done (Some [16; 0; 0x0E; 0; 2]), s') ∧
        env (mb_regs s') = (hook_set_timestamp 0x65A0BC01 (Trace.boot 0x65A0BC01)).2.
Proof.
  apply (clock_registers (mb_boot 0x65A0BC01) 0x65A0BC01 (Trace.boot 0x65A0BC01) (Trace.boot 0x65A0BC01));
    [apply mb_boot_ok|ulia|reflexivity|reflexivity|].
  by vm_compute.
Defined.

