(* ===== verification/MbTcp.v ===== *)
(** Modbus over TCP: the ADU layer [src/modbus/mbtcp_adu.c] and the connection
    management of [src/modbus/tcp.c].

    A connection slot holds the bytes received so far of one ADU
    ([rx], the first [rx_len] bytes of the array), the reply waiting for
    buffer space ([pending]) and the time of the last progress.  lwIP is a
    parameter: the class [TcpStack] has one operation per call the source makes
    that changes or reads the stack.  Callbacks all run in the tcpip thread, one
    after the other; [now] is the tick the callback reads. *)

From S2P Require Import Prelude IoBytes Flash ConfigStore Regmap MbServer.

(** ** The ADU layer ([mbtcp_adu.c]) *)

Definition MB_EXC_SERVER_DEVICE_FAILURE : Z := 0x04.
Definition MBTCP_MBAP_LEN_CLAMP : Z := 256.
Definition MBTCP_OFF_FC : nat := 7.
Definition MBTCP_ADU_TX_MAX : Z := 7 + MB_SERVER_PDU_MAX.
Definition MBTCP_ADU_RX_MAX : Z := 6 + 256.

(** length of the PDU inside an ADU of [in_len] received bytes that declares
    [mbap_len] *)
Definition mbtcp_pdu_len (mbap_len in_len : Z) : Z :=
  let mbap_len := if MBTCP_MBAP_LEN_CLAMP <? mbap_len then MBTCP_MBAP_LEN_CLAMP else mbap_len in
  let pdu_len := if 2 <=? mbap_len then u16 (mbap_len - 2 + 1) else 1 in
  if in_len - Z.of_nat MBTCP_OFF_FC <? pdu_len then u16 (in_len - Z.of_nat MBTCP_OFF_FC) else pdu_len.

(** [None]: nothing to send (0); [Some out]: send [out] (1).  [out_cap] is
    always [MBTCP_ADU_TX_MAX], so its guard is not taken. *)
Definition mbtcp_adu_process {E} `{IoHooks E} (adu : list Z) : M (mb E) (option (list Z)) :=
  if zlen adu <? 8 then mret None
  else
    let trans_id := io_get_be16 adu in
    let proto_id := io_get_be16 (drop 2 adu) in
    let mbap_len := io_get_be16 (drop 4 adu) in
    let unit_id := rd adu 6 in
    let fc := rd adu 7 in
    if negb (proto_id =? 0)
    then mret (Some (io_put_be16 trans_id ++ io_put_be16 proto_id ++ io_put_be16 3 ++
                     [unit_id; Z.lor fc 0x80; MB_EXC_SERVER_DEVICE_FAILURE]))
    else
      let pdu_len := mbtcp_pdu_len mbap_len (zlen adu) in
      rsp ← mb_server_process (take (Z.to_nat pdu_len) (drop MBTCP_OFF_FC adu));
      if unit_id =? 0 then mb_server_diag_count MB_DIAG_NO_RESP;; mret None
      else
        match rsp with
        | None => mb_server_diag_count MB_DIAG_NO_RESP;; mret None
        | Some pdu =>
          mret (Some (io_put_be16 trans_id ++ io_put_be16 0 ++ io_put_be16 (u16 (zlen pdu + 1)) ++
                      unit_id :: pdu))
        end.

(** ** Connections ([tcp.c]) *)

Definition MB_TCP_MAX_EST : nat := 2.
Definition MB_TCP_FRAME_TMO_MS : Z := 500.

(** the lwIP error codes the source distinguishes *)
Inductive err_t := ERR_OK | ERR_MEM | ERR_ABRT | ERR_OTHER.

#[export] Instance err_t_eq_dec : EqDecision err_t.
Proof. solve_decision. Defined.

(** lwIP, as far as this file uses it; a [pcb] is a handle *)
Class TcpStack (W : Type) : Type := {
  tcp_write : Z → list Z → W → err_t * W;
  tcp_output : Z → W → W;
  tcp_close : Z → W → W;      (* unregister the callbacks and close *)
  tcp_abort : Z → W → W;
}.

Record mb_conn := mk_conn {
  pcb : option Z;        (* NULL = free slot *)
  rx : list Z;
  pending : list Z;
  t_last_ms : Z;
}.

Definition conn_free : mb_conn := mk_conn None [] [] 0.

(** the decoder, the stack and the two connection slots *)
Record tcp_srv (E W : Type) := mk_tcp { srv : mb E; net : W; mb_conns : list mb_conn }.
Arguments mk_tcp {E W} _ _ _.
Arguments srv {E W} _.
Arguments net {E W} _.
Arguments mb_conns {E W} _.

Definition frame_need (rx : list Z) : Z :=
  let mbap_len := io_get_be16 (drop 4 rx) in
  6 + (if 256 <? mbap_len then 256 else mbap_len).

(** a complete ADU is in the buffer *)
Definition frame_ready (rx : list Z) : bool := (8 <=? zlen rx) && (frame_need rx <=? zlen rx).

Section Connections.
Context {E W : Type} `{IoHooks E} `{TcpStack W}.

Abbreviation MT := (M (tcp_srv E W)).

Definition get_conn (i : nat) : MT mb_conn := gets (λ s, default conn_free (mb_conns s !! i)).
Definition put_conn (i : nat) (c : mb_conn) : MT unit :=
  modify (λ s, mk_tcp (srv s) (net s) (<[i := c]> (mb_conns s))).
Definition on_srv {A} (m : M (mb E) A) : MT A :=
  zoom srv (λ b s, mk_tcp b (net s) (mb_conns s)) m.
Definition on_net (f : W → W) : MT unit := modify (λ s, mk_tcp (srv s) (f (net s)) (mb_conns s)).
Definition call_net {A} (f : W → A * W) : MT A :=
  λ s, let '(a, w) := f (net s) in (Done a, mk_tcp (srv s) w (mb_conns s)).

Definition mb_conn_close (i : nat) : MT unit :=
  c ← get_conn i;
  match pcb c with
  | Some p => on_net (tcp_close p)
  | None => mret tt
  end;;
  put_conn i (mk_conn None [] [] (t_last_ms c)).

(** [false]: the connection is gone *)
Definition process_frame (i : nat) : MT bool :=
  c ← get_conn i;
  rsp ← on_srv (mbtcp_adu_process (rx c));
  put_conn i (mk_conn (pcb c) [] (pending c) (t_last_ms c));;
  match rsp with
  | None => mret true
  | Some tx =>
    let p := default 0 (pcb c) in
    e ← call_net (tcp_write p tx);
    if decide (e = ERR_OK) then on_net (tcp_output p);; mret true
    else if decide (e = ERR_MEM)
    then put_conn i (mk_conn (pcb c) [] tx (t_last_ms c));; mret true
    else mb_conn_close i;; mret false
  end.

(** the [while (rem > 0)] loop over one pbuf; [src] is what is left of it *)
Fixpoint recv_loop (fuel : nat) (now : Z) (i : nat) (src : list Z) : MT bool :=
  match fuel, src with
  | _, [] => mret true
  | O, _ => mret true
  | S fuel, _ =>
    c ← get_conn i;
    let want := if zlen (rx c) <? 8 then 8 else frame_need (rx c) in
    let room := u16 (want - zlen (rx c)) in
    let n := Z.to_nat (Z.min (zlen src) room) in
    let c := mk_conn (pcb c) (rx c ++ take n src) (pending c) now in
    put_conn i c;;
    if frame_ready (rx c)
    then ok ← process_frame i;
         if (ok : bool) then recv_loop fuel now i (drop n src) else mret false
    else recv_loop fuel now i (drop n src)
  end.

(** the [for] loop over the pbuf chain *)
Fixpoint recv_chain (now : Z) (i : nat) (p : list (list Z)) : MT bool :=
  match p with
  | [] => mret true
  | q :: p =>
    ok ← recv_loop (length q) now i q;
    if (ok : bool) then recv_chain now i p else mret false
  end.

(** [p = None] is the peer's FIN *)
Definition mb_recv_cb (now : Z) (i : nat) (p : option (list (list Z))) (err : err_t) : MT err_t :=
  match p with
  | None => mb_conn_close i;; mret ERR_OK
  | Some p =>
    if decide (err = ERR_OK) then recv_chain now i p;; mret ERR_OK
    else mret err
  end.

Definition poll_timeout (now : Z) (i : nat) : MT err_t :=
  c ← get_conn i;
  if (0 <? zlen (rx c)) && (MB_TCP_FRAME_TMO_MS <? u32 (now - t_last_ms c))
  then mb_conn_close i;; mret ERR_OK
  else mret ERR_OK.

Definition mb_poll_cb (now : Z) (i : nat) : MT err_t :=
  c ← get_conn i;
  match pcb c with
  | None => mret ERR_OK
  | Some p =>
    if negb (zlen (pending c) =? 0)
    then
      e ← call_net (tcp_write p (pending c));
      if decide (e = ERR_OK)
      then on_net (tcp_output p);; put_conn i (mk_conn (pcb c) (rx c) [] (t_last_ms c));;
           poll_timeout now i
      else if decide (e = ERR_MEM) then poll_timeout now i
      else mb_conn_close i;; mret ERR_OK
    else poll_timeout now i
  end.

Definition mb_err_cb (i : nat) : MT unit :=
  c ← get_conn i;
  put_conn i (mk_conn None [] [] (t_last_ms c)).

(** the first free slot *)
Fixpoint free_slot (l : list mb_conn) : option nat :=
  match l with
  | [] => None
  | c :: l => if decide (pcb c = None) then Some 0%nat else S <$> free_slot l
  end.

(** [newpcb = None] is a null pcb *)
Definition mb_accept_cb (now : Z) (newpcb : option Z) (err : err_t) : MT err_t :=
  match newpcb with
  | Some p =>
    if decide (err = ERR_OK) then
      cs ← gets mb_conns;
      match free_slot cs with
      | None => on_net (tcp_abort p);; mret ERR_ABRT
      | Some i => put_conn i (mk_conn (Some p) [] [] now);; mret ERR_OK
      end
    else mret ERR_OK
  | None => mret ERR_OK
  end.
End Connections.

(** ** The ADU layer *)

(** an ADU as a conforming peer builds it: the length field counts the unit byte
    and the PDU *)
Definition mbap (trans proto unit : Z) (pdu : list Z) : list Z :=
  io_put_be16 trans ++ io_put_be16 proto ++ io_put_be16 (zlen pdu + 1) ++ unit :: pdu.

Section Adu.
Context {E : Type} `{IoHooks E}.

Lemma length_mbap t q u pdu : zlen (mbap t q u pdu) = 7 + zlen pdu.
Proof. unfold mbap, zlen. rewrite !length_app, !length_put_be16. simpl. lia. Qed.

Lemma mbap_fields t q u pdu :
  is_u16 t → is_u16 q → zlen pdu < 65535 →
  io_get_be16 (mbap t q u pdu) = t ∧ io_get_be16 (drop 2 (mbap t q u pdu)) = q ∧
  io_get_be16 (drop 4 (mbap t q u pdu)) = zlen pdu + 1 ∧ rd (mbap t q u pdu) 6 = u ∧
  drop MBTCP_OFF_FC (mbap t q u pdu) = pdu.
Proof.
  intros Ht Hq Hl. split_and!; try done.
  - by apply get_be16_put.
  - change (drop 2 (mbap t q u pdu)) with (io_put_be16 q ++ io_put_be16 (zlen pdu + 1) ++ u :: pdu).
    by apply get_be16_put.
  - change (drop 4 (mbap t q u pdu)) with (io_put_be16 (zlen pdu + 1) ++ u :: pdu).
    apply get_be16_put. unfold zlen in *. ulia.
Qed.

Lemma mbtcp_pdu_len_exact n : 1 ≤ n ≤ 255 → mbtcp_pdu_len (n + 1) (7 + n) = n.
Proof.
  intros Hn. unfold mbtcp_pdu_len, MBTCP_MBAP_LEN_CLAMP, MBTCP_OFF_FC.
  replace (256 <? n + 1) with false by lia. replace (2 <=? n + 1) with true by lia.
  rewrite u16_id by ulia. replace (7 + n - Z.of_nat 7 <? n + 1 - 2 + 1) with false by lia. lia.
Qed.

Lemma adu_run t u pdu (s : mb E) :
  is_u16 t → 1 ≤ zlen pdu ≤ 255 →
  mbtcp_adu_process (mbap t 0 u pdu) s
  = (rsp ← mb_server_process pdu;
     if u =? 0 then mb_server_diag_count MB_DIAG_NO_RESP;; mret None
     else match rsp with
          | None => mb_server_diag_count MB_DIAG_NO_RESP;; mret None
          | Some r => mret (Some (mbap t 0 u r))
          end) s.
Proof.
  intros Ht Hl. unfold mbtcp_adu_process. rewrite length_mbap.
  replace (7 + zlen pdu <? 8) with false by lia.
  destruct (mbap_fields t 0 u pdu) as (-> & -> & -> & -> & ->); [done|ulia|lia|].
  change (negb (0 =? 0)) with false. cbv iota.
  rewrite mbtcp_pdu_len_exact by done.
  rewrite take_ge by (unfold zlen; lia).
  unfold mbind, M_bind. destruct (mb_server_process pdu s) as [[[r|]|] s'] eqn:Er; try done.
  destruct (u =? 0); [done|]. apply process_len in Er. unfold mbap.
  by rewrite u16_id by ulia.
Qed.

Lemma mbtcp_reply_len adu (s s' : mb E) out :
  mbtcp_adu_process adu s = (Done (Some out), s') → zlen out ≤ 259.
Proof.
  unfold mbtcp_adu_process. destruct (zlen adu <? 8); [done|].
  destruct (negb _).
  { intros Hr. injection Hr as <- <-. done. }
  intros Hr. apply bind_inv in Hr as (rsp & s1 & Hp & Hr).
  destruct (rd adu 6 =? 0); [done|]. destruct rsp as [pdu|]; [|done].
  apply process_len in Hp. injection Hr as <- <-.
  unfold zlen in *. simpl in *. lia.
Qed.
End Adu.

Section AduOk.
Context {E : Type} `{IoHooksLaws E}.

Lemma mbtcp_adu_ok adu : preserves (@mb_ok E) (mbtcp_adu_process adu).
Proof. unfold mbtcp_adu_process. solve_preserves. Qed.
End AduOk.
#[export] Hint Resolve mbtcp_adu_ok : effects.

(** ** Reassembly *)

Lemma frame_ready_false rx :
  frame_ready rx = false → zlen rx < 8 ∨ (8 ≤ zlen rx ∧ zlen rx < frame_need rx).
Proof. unfold frame_ready. lia. Qed.

Lemma frame_need_bound rx : 6 ≤ frame_need rx ≤ MBTCP_ADU_RX_MAX.
Proof.
  unfold frame_need, MBTCP_ADU_RX_MAX. pose proof (get_be16_u16 (drop 4 rx)) as Hb.
  case_match; ulia.
Qed.

Lemma frame_need_app rx x : 6 ≤ zlen rx → frame_need (rx ++ x) = frame_need rx.
Proof.
  unfold zlen. intros Hl. unfold frame_need. f_equal.
  assert (io_get_be16 (drop 4 (rx ++ x)) = io_get_be16 (drop 4 rx)) as ->; [|done].
  destruct rx as [|? [|? [|? [|? [|a [|b rx]]]]]]; simpl in *; try lia. done.
Qed.

(** how many bytes the loop still wants before it looks again *)
Definition want (rx : list Z) : Z := if zlen rx <? 8 then 8 else frame_need rx.

Lemma want_room rx :
  frame_ready rx = false → 0 < want rx - zlen rx ∧ want rx ≤ MBTCP_ADU_RX_MAX.
Proof.
  intros Hr%frame_ready_false. pose proof (frame_need_bound rx). unfold want, MBTCP_ADU_RX_MAX in *.
  destruct (zlen rx <? 8) eqn:Eb; lia.
Qed.

(** no frame completes before the wanted byte count is reached *)
Lemma frame_not_ready_app rx x :
  frame_ready rx = false → zlen rx + zlen x < want rx → frame_ready (rx ++ x) = false.
Proof.
  intros Hr Hx. pose proof (frame_ready_false rx Hr) as Hc.
  assert (zlen (rx ++ x) = zlen rx + zlen x) as Hl by (unfold zlen; rewrite length_app; lia).
  unfold want in Hx. unfold frame_ready. rewrite Hl. destruct (zlen rx <? 8) eqn:Eb; [lia|].
  rewrite frame_need_app by lia. lia.
Qed.

Section Reassembly.
Context {E W : Type} `{IoHooks E} `{TcpStack W}.

Abbreviation MT := (M (tcp_srv E W)).

Definition conn_at (s : tcp_srv E W) (i : nat) : mb_conn := default conn_free (mb_conns s !! i).
Definition with_conn (s : tcp_srv E W) (i : nat) (c : mb_conn) : tcp_srv E W :=
  mk_tcp (srv s) (net s) (<[i := c]> (mb_conns s)).

Lemma conn_at_with s i c : (i < length (mb_conns s))%nat → conn_at (with_conn s i c) i = c.
Proof. intros. unfold conn_at; simpl. by rewrite list_lookup_insert_eq. Qed.
Lemma with_conn_twice s i c c' : with_conn (with_conn s i c) i c' = with_conn s i c'.
Proof. unfold with_conn; simpl. by rewrite list_insert_insert_eq. Qed.
Lemma with_conn_len s i c : length (mb_conns (with_conn s i c)) = length (mb_conns s).
Proof. simpl. apply length_insert. Qed.

(** reference semantics: one byte at a time *)
Definition recv_byte (now : Z) (i : nat) (b : Z) : MT bool :=
  c ← get_conn i;
  let c := mk_conn (pcb c) (rx c ++ [b]) (pending c) now in
  put_conn i c;;
  if frame_ready (rx c) then process_frame i else mret true.

Fixpoint recv_bytes (now : Z) (i : nat) (bs : list Z) : MT bool :=
  match bs with
  | [] => mret true
  | b :: bs => ok ← recv_byte now i b; if (ok : bool) then recv_bytes now i bs else mret false
  end.

Lemma recv_bytes_app now i a b s :
  recv_bytes now i (a ++ b) s
  = (ok ← recv_bytes now i a; if (ok : bool) then recv_bytes now i b else mret false) s.
Proof.
  revert s. induction a as [|x a IH]; intros s; [done|].
  simpl. unfold mbind, M_bind. destruct (recv_byte now i x s) as [[[]|] s']; [apply IH|done..].
Qed.

(** the connection after [x] arrived without completing a frame *)
Definition received (s : tcp_srv E W) (i : nat) (x : list Z) (now : Z) : mb_conn :=
  mk_conn (pcb (conn_at s i)) (rx (conn_at s i) ++ x) (pending (conn_at s i)) now.

Lemma recv_byte_run now i b s :
  recv_byte now i b s
  = (if frame_ready (rx (conn_at s i) ++ [b]) then process_frame i else mret true)
      (with_conn s i (received s i [b] now)).
Proof. done. Qed.

Lemma recv_bytes_single now i b s : recv_bytes now i [b] s = recv_byte now i b s.
Proof. simpl. unfold mbind, M_bind. by destruct (recv_byte now i b s) as [[[]|] ?]. Qed.

Lemma received_step s i x b now t :
  (i < length (mb_conns s))%nat →
  with_conn (with_conn s i (received s i x t)) i (received (with_conn s i (received s i x t)) i [b] now)
  = with_conn s i (received s i (x ++ [b]) now).
Proof.
  intros Hi. rewrite with_conn_twice. unfold received. rewrite conn_at_with by done. simpl.
  by rewrite <- app_assoc.
Qed.

Lemma recv_bytes_quiet now i x s :
  (i < length (mb_conns s))%nat → frame_ready (rx (conn_at s i)) = false →
  zlen (rx (conn_at s i)) + zlen x < want (rx (conn_at s i)) → x ≠ [] →
  recv_bytes now i x s = (Done true, with_conn s i (received s i x now)).
Proof.
  intros Hi Hr. induction x as [|b x IH] using rev_ind; intros Hx Hne; [done|].
  assert (frame_ready (rx (conn_at s i) ++ x ++ [b]) = false) as Hnr by by apply frame_not_ready_app.
  rewrite recv_bytes_app. destruct (decide (x = [])) as [->|Hxne].
  - change ([] ++ [b]) with [b] in *. rewrite <- recv_bytes_app. change ([] ++ [b]) with [b].
    by rewrite recv_bytes_single, recv_byte_run, Hnr.
  - rewrite (bind_done _ _ _ true _ (IH ltac:(unfold zlen in *; rewrite length_app in Hx; lia) Hxne)).
    rewrite recv_bytes_single, recv_byte_run, received_step by done.
    rewrite conn_at_with by done. simpl. by rewrite <- app_assoc, Hnr.
Qed.

(** a run of bytes that completes at most one frame, with its last byte *)
Lemma recv_bytes_piece now i x s :
  (i < length (mb_conns s))%nat → frame_ready (rx (conn_at s i)) = false →
  x ≠ [] → zlen (rx (conn_at s i)) + zlen x ≤ want (rx (conn_at s i)) →
  recv_bytes now i x s
  = (if frame_ready (rx (conn_at s i) ++ x) then process_frame i else mret true)
      (with_conn s i (received s i x now)).
Proof.
  intros Hi Hr Hne Hw. destruct (exists_last Hne) as (y & b & ->).
  destruct (decide (y = [])) as [->|Hy].
  - change ([] ++ [b]) with [b]. rewrite recv_bytes_single. apply recv_byte_run.
  - rewrite recv_bytes_app, (bind_done _ _ _ true _
      (recv_bytes_quiet now i y s Hi Hr ltac:(unfold zlen in *; rewrite length_app in Hw; simpl in *; lia) Hy)).
    rewrite recv_bytes_single, recv_byte_run, received_step by done.
    rewrite conn_at_with by done. simpl. by rewrite <- app_assoc.
Qed.

(** a processed frame leaves an empty buffer *)
Lemma process_frame_rx i s s' :
  (i < length (mb_conns s))%nat →
  process_frame i s = (Done true, s') →
  rx (conn_at s' i) = [] ∧ length (mb_conns s') = length (mb_conns s).
Proof.
  intros Hi Hr. unfold process_frame in Hr.
  rewrite (bind_done _ _ s (conn_at s i) s) in Hr by done.
  apply bind_inv in Hr as (rsp & s1 & Hsrv & Hr).
  assert (mb_conns s1 = mb_conns s) as Hc1.
  { unfold on_srv, zoom in Hsrv. destruct (mbtcp_adu_process _ _); by injection Hsrv as _ <-. }
  rewrite (bind_done _ _ s1 tt (with_conn s1 i (mk_conn (pcb (conn_at s i)) [] (pending (conn_at s i)) (t_last_ms (conn_at s i))))) in Hr by done.
  destruct rsp as [tx|].
  2:{ injection Hr as <-. rewrite conn_at_with, with_conn_len by (by rewrite Hc1). by rewrite Hc1. }
  apply bind_inv in Hr as (e & s2 & Hw & Hr).
  assert (mb_conns s2 = <[i:=mk_conn (pcb (conn_at s i)) [] (pending (conn_at s i)) (t_last_ms (conn_at s i))]> (mb_conns s)) as Hc2.
  { unfold call_net in Hw. destruct (tcp_write _ _ _). injection Hw as _ <-. simpl. by rewrite Hc1. }
  case_decide; [|case_decide].
  - injection Hr as <-. unfold conn_at; simpl. rewrite Hc2, length_insert, list_lookup_insert_eq by done. done.
  - injection Hr as <-. unfold conn_at; simpl.
    rewrite Hc2, !length_insert, list_lookup_insert_eq by (by rewrite length_insert). done.
  - apply bind_inv in Hr as (? & ? & _ & Hr). by injection Hr.
Qed.

(** the chunked loop is the byte-at-a-time reference *)
Lemma recv_loop_bytes fuel now i src s :
  (length src ≤ fuel)%nat → (i < length (mb_conns s))%nat → frame_ready (rx (conn_at s i)) = false →
  recv_loop fuel now i src s = recv_bytes now i src s.
Proof.
  revert src s. induction fuel as [|fuel IH]; intros src s Hf Hi Hr; [destruct src; [done|simpl in Hf; lia]|].
  destruct src as [|b src]; [done|].
  cbn [recv_loop]. rewrite (bind_done _ _ s (conn_at s i) s) by done.
  fold (want (rx (conn_at s i))). destruct (want_room _ Hr) as [Hw1 Hw2].
  unfold MBTCP_ADU_RX_MAX in Hw2. rewrite u16_id by (unfold zlen in *; ulia).
  set (n := Z.to_nat (Z.min (zlen (b :: src)) (want (rx (conn_at s i)) - zlen (rx (conn_at s i))))).
  assert (0 < n)%nat as Hn by (unfold n, zlen in *; simpl in *; lia).
  assert (n ≤ length (b :: src))%nat as Hnl by (unfold n, zlen; lia).
  assert (recv_bytes now i (b :: src) s
          = (ok ← recv_bytes now i (take n (b :: src));
             if (ok : bool) then recv_bytes now i (drop n (b :: src)) else mret false) s) as ->
    by by rewrite <- recv_bytes_app, take_drop.
  unfold mbind at 3, M_bind at 3. rewrite recv_bytes_piece; [|done|done| |].
  2:{ intros Hnil%(f_equal length). rewrite length_take in Hnil. simpl length in *. lia. }
  2:{ unfold n, zlen in *. rewrite length_take. lia. }
  rewrite (bind_done _ _ s tt (with_conn s i (received s i (take n (b :: src)) now))) by done.
  simpl (rx (mk_conn _ _ _ _)).
  assert (length (drop n (b :: src)) ≤ fuel)%nat as Hf' by (rewrite length_drop; simpl in *; lia).
  destruct (frame_ready (rx (conn_at s i) ++ take n (b :: src))) eqn:Er.
  - unfold mbind, M_bind. destruct (process_frame i _) as [[[]|] s'] eqn:Ep; [|done..].
    apply process_frame_rx in Ep as [Hrx Hlen]; [|by rewrite with_conn_len].
    apply IH; [done|by rewrite Hlen, with_conn_len|by rewrite Hrx].
  - apply IH; [done|by rewrite with_conn_len|by rewrite conn_at_with].
Qed.

Lemma recv_chain_bytes now i p s :
  (i < length (mb_conns s))%nat → frame_ready (rx (conn_at s i)) = false →
  recv_chain now i p s = recv_bytes now i (concat p) s.
Proof.
  revert s. induction p as [|q p IH]; intros s Hi Hr; [done|].
  simpl. rewrite recv_bytes_app. unfold mbind, M_bind. rewrite recv_loop_bytes by done.
  destruct (recv_bytes now i q s) as [[[]|] s'] eqn:Eq; [|done..].
  assert ((i < length (mb_conns s'))%nat ∧ frame_ready (rx (conn_at s' i)) = false) as [Hi' Hr'];
    [|by apply IH].
  clear IH. revert s Hi Hr Eq. induction q as [|b q IHq]; intros s Hi Hr Eq.
  - by injection Eq as <-.
  - simpl in Eq. apply bind_inv in Eq as (ok & s1 & Hb & Eq). destruct ok; [|done].
    apply (IHq s1); [..|done]; rewrite recv_byte_run in Hb;
      destruct (frame_ready (rx (conn_at s i) ++ [b])) eqn:Er.
    + apply process_frame_rx in Hb as [_ ->]; by rewrite with_conn_len.
    + injection Hb as <-. by rewrite with_conn_len.
    + apply process_frame_rx in Hb as [-> _]; [done|by rewrite with_conn_len].
    + injection Hb as <-. by rewrite conn_at_with.
Qed.
End Reassembly.

(** ** Whole frames *)

Section Frames.
Context {E W : Type} `{IoHooks E} `{TcpStack W}.

Lemma recv_bytes_frame now i f (s : tcp_srv E W) :
  (i < length (mb_conns s))%nat → rx (conn_at s i) = [] → 8 ≤ zlen f → zlen f = frame_need f →
  recv_bytes now i f s
  = process_frame i (with_conn s i (mk_conn (pcb (conn_at s i)) f (pending (conn_at s i)) now)).
Proof.
  intros Hi Hrx H8 Hneed.
  assert (zlen (take 8 f) = 8) as Hl8 by (unfold zlen in *; rewrite length_take; lia).
  assert (frame_need (take 8 f) = frame_need f) as Hn8.
  { rewrite <- (take_drop 8 f) at 2. by rewrite frame_need_app by lia. }
  assert (take 8 f ≠ []) as Hne8 by (intros Hnil; by rewrite Hnil in Hl8).
  rewrite <- (take_drop 8 f) at 1. rewrite recv_bytes_app. unfold mbind, M_bind.
  rewrite (recv_bytes_piece now i (take 8 f)) by (rewrite ?Hrx; done || (simpl; unfold want, zlen in *; simpl; lia)).
  rewrite Hrx. simpl ([] ++ _). unfold received. rewrite Hrx. simpl ([] ++ _).
  destruct (frame_ready (take 8 f)) eqn:Er.
  - assert (drop 8 f = []) as Hd.
    { apply drop_ge. unfold frame_ready in Er. unfold zlen in *. lia. }
    rewrite <- (take_drop 8 f) at 2. rewrite Hd, app_nil_r.
    by destruct (process_frame i _) as [[[]|] s'].
  - cbn. set (c := mk_conn (pcb (conn_at s i)) (take 8 f) (pending (conn_at s i)) now).
    assert (conn_at (with_conn s i c) i = c) as Hc by by apply conn_at_with.
    assert (8 < zlen f) as Hlt by (unfold frame_ready in Er; lia).
    rewrite recv_bytes_piece; rewrite ?Hc, ?with_conn_len; [|done|done| |].
    + simpl (rx c). rewrite take_drop. unfold received. rewrite Hc, with_conn_twice. simpl.
      rewrite take_drop. assert (frame_ready f = true) as ->; [|done]. unfold frame_ready. lia.
    + intros Hnil%(f_equal length). rewrite length_drop in Hnil. simpl in Hnil. unfold zlen in *. lia.
    + simpl (rx c). unfold want. rewrite Hl8, Hn8. change (8 <? 8) with false. cbv iota.
      unfold zlen in *. rewrite length_drop. lia.
Qed.

Lemma frame_need_mbap t u pdu :
  is_u16 t → 1 ≤ zlen pdu ≤ 255 → frame_need (mbap t 0 u pdu) = zlen (mbap t 0 u pdu).
Proof.
  intros Ht Hl. destruct (mbap_fields t 0 u pdu) as (_ & _ & H4 & _); [done|ulia|lia|].
  unfold frame_need. rewrite H4, length_mbap. replace (256 <? zlen pdu + 1) with false by lia. lia.
Qed.

(** one processed frame whose reply lwIP accepts *)
Lemma process_frame_reply i p t u pdu r (b' : mb E) (w' : W) pend now (s : tcp_srv E W) :
  is_u16 t → 1 ≤ zlen pdu ≤ 255 → u ≠ 0 →
  (i < length (mb_conns s))%nat →
  conn_at s i = mk_conn (Some p) (mbap t 0 u pdu) pend now →
  mb_server_process pdu (srv s) = (Done (Some r), b') →
  tcp_write p (mbap t 0 u r) (net s) = (ERR_OK, w') →
  process_frame i s
  = (Done true, mk_tcp b' (tcp_output p w') (<[i := mk_conn (Some p) [] pend now]> (mb_conns s))).
Proof.
  intros Ht Hl Hu Hi Hc Hp Hw. unfold process_frame.
  rewrite (bind_done _ _ s (conn_at s i) s) by done. rewrite Hc. simpl rx.
  unfold mbind, M_bind, on_srv, zoom. rewrite adu_run by done.
  unfold mbind, M_bind. rewrite Hp. replace (u =? 0) with false by lia.
  simpl. unfold put_conn, modify, call_net; simpl. by rewrite Hw.
Qed.
End Frames.

(** ** The invariant of the connection table *)

(** the stored prefix is an incomplete frame and the stored reply fits [tx_pending] *)
Definition conn_ok (c : mb_conn) : Prop :=
  frame_ready (rx c) = false ∧ zlen (pending c) ≤ 259.

Definition tcp_ok {E W} (s : tcp_srv E W) : Prop :=
  mb_ok (srv s) ∧ length (mb_conns s) = MB_TCP_MAX_EST ∧ Forall conn_ok (mb_conns s).

Lemma conn_ok_rx c : conn_ok c → zlen (rx c) < MBTCP_ADU_RX_MAX.
Proof.
  intros [Hr%frame_ready_false _]. pose proof (frame_need_bound (rx c)). unfold MBTCP_ADU_RX_MAX in *. lia.
Qed.

Lemma conn_ok_empty p pend t : zlen pend ≤ 259 → conn_ok (mk_conn p [] pend t).
Proof. done. Qed.

Section Invariant.
Context {E W : Type} `{IoHooksLaws E} `{TcpStack W}.

Lemma conn_at_ok (s : tcp_srv E W) i : Forall conn_ok (mb_conns s) → conn_ok (conn_at s i).
Proof.
  intros Hf. unfold conn_at. destruct (mb_conns s !! i) as [c|] eqn:Ec; [|done].
  by eapply Forall_lookup_1.
Qed.

Lemma with_conn_ok (s : tcp_srv E W) i c : tcp_ok s → conn_ok c → tcp_ok (with_conn s i c).
Proof.
  intros (Hs & Hl & Hf) Hc. split_and!; [done| |].
  - by rewrite with_conn_len.
  - by apply Forall_insert.
Qed.

(** a frame may be complete in slot [i] *)
Definition tcp_ok_frame (i : nat) (s : tcp_srv E W) : Prop :=
  zlen (pending (conn_at s i)) ≤ 259 ∧ tcp_ok (with_conn s i conn_free).

Lemma mb_conn_close_ok i : triple (tcp_ok_frame i) (mb_conn_close i) (λ _, tcp_ok).
Proof.
  intros s (_ & Hs & Hl & Hf). unfold mb_conn_close.
  rewrite (bind_done _ _ s (conn_at s i) s) by done.
  assert (∀ c, conn_ok c → Forall conn_ok (<[i:=c]> (mb_conns s))) as Hins.
  { intros c Hc. rewrite <- (list_insert_insert_eq _ i c conn_free). by apply Forall_insert. }
  rewrite with_conn_len in Hl.
  destruct (pcb (conn_at s i)) as [p|]; simpl; split_and!; simpl;
    rewrite ?length_insert; try done; by apply Hins.
Qed.

Lemma process_frame_ok i : triple (tcp_ok_frame i) (process_frame i) (λ _, tcp_ok).
Proof.
  intros s (Hp & Hs & Hl & Hf). unfold process_frame.
  rewrite (bind_done _ _ s (conn_at s i) s) by done.
  set (c := conn_at s i) in *. simpl in Hs. rewrite with_conn_len in Hl.
  assert (∀ c, conn_ok c → Forall conn_ok (<[i:=c]> (mb_conns s))) as Hins.
  { intros c' Hc'. rewrite <- (list_insert_insert_eq _ i c' conn_free). by apply Forall_insert. }
  unfold mbind at 1, M_bind at 1, on_srv, zoom.
  pose proof (mbtcp_adu_ok (rx c) (srv s) Hs) as Hadu.
  destruct (mbtcp_adu_process (rx c) (srv s)) as [[rsp|] b] eqn:Ea; [|done]. simpl in Hadu.
  rewrite (bind_done _ _ _ tt (mk_tcp b (net s) (<[i := mk_conn (pcb c) [] (pending c) (t_last_ms c)]> (mb_conns s)))) by done.
  set (s1 := mk_tcp b (net s) _).
  assert (tcp_ok s1) as Hok1.
  { split_and!; [done|by simpl; rewrite length_insert|]. by apply Hins. }
  destruct rsp as [tx|]; [|exact Hok1].
  apply mbtcp_reply_len in Ea.
  unfold mbind at 1, M_bind at 1, call_net. destruct (tcp_write _ _ _) as [e w].
  assert (tcp_ok (mk_tcp (srv s1) w (mb_conns s1))) as Hok2 by exact Hok1.
  case_decide; [exact Hok1|]. case_decide.
  - by apply (with_conn_ok (mk_tcp (srv s1) w (mb_conns s1)) i).
  - apply (triple_bind (tcp_ok_frame i) (mb_conn_close i) (λ _, mret false) (λ _, tcp_ok) (λ _, tcp_ok)).
    + apply mb_conn_close_ok.
    + intros []. by apply triple_ret.
    + split; [|by apply with_conn_ok]. apply conn_at_ok. apply Hok2.
Qed.

Lemma recv_bytes_ok now i bs :
  (i < MB_TCP_MAX_EST)%nat → triple (@tcp_ok E W) (recv_bytes now i bs) (λ _, tcp_ok).
Proof.
  intros Hi. induction bs as [|b bs IH]; [by apply triple_ret|].
  cbn [recv_bytes]. apply triple_bind with (R := λ _, tcp_ok).
  2:{ intros []; [done|by apply triple_ret]. }
  intros s Hs. rewrite recv_byte_run.
  destruct (conn_at_ok s i) as [Hr Hp]; [apply Hs|].
  destruct (frame_ready (rx (conn_at s i) ++ [b])) eqn:Er.
  - apply process_frame_ok. split.
    + rewrite conn_at_with; [done|]. destruct Hs as (_ & -> & _). done.
    + rewrite with_conn_twice. by apply with_conn_ok.
  - simpl. by apply with_conn_ok.
Qed.

(** *** Events *)

Inductive tcp_event :=
  | EvAccept (now : Z) (newpcb : option Z) (err : err_t)
  | EvRecv (now : Z) (i : nat) (p : option (list (list Z))) (err : err_t)
  | EvPoll (now : Z) (i : nat)
  | EvConnErr (i : nat).

(** a callback's argument points into the table *)
Definition event_ok (ev : tcp_event) : Prop :=
  match ev with
  | EvAccept _ _ _ => True
  | EvRecv _ i _ _ | EvPoll _ i | EvConnErr i => (i < MB_TCP_MAX_EST)%nat
  end.

Definition tcp_step (ev : tcp_event) : M (tcp_srv E W) unit :=
  match ev with
  | EvAccept now p err => mb_accept_cb now p err;; mret tt
  | EvRecv now i p err => mb_recv_cb now i p err;; mret tt
  | EvPoll now i => mb_poll_cb now i;; mret tt
  | EvConnErr i => mb_err_cb i
  end.

Fixpoint tcp_run (evs : list tcp_event) : M (tcp_srv E W) unit :=
  match evs with
  | [] => mret tt
  | ev :: evs => tcp_step ev;; tcp_run evs
  end.

Lemma tcp_ok_is_frame i s : tcp_ok s → tcp_ok_frame i s.
Proof. intros Hs. split; [apply conn_at_ok, Hs|by apply with_conn_ok]. Qed.

Lemma close_ret_ok i (e : err_t) : triple (@tcp_ok E W) (mb_conn_close i;; mret e) (λ _, tcp_ok).
Proof.
  apply triple_bind with (R := λ _, tcp_ok); [|intros []; by apply triple_ret].
  eapply triple_conseq; [apply mb_conn_close_ok|apply tcp_ok_is_frame|done].
Qed.

Lemma poll_timeout_ok now i : triple (@tcp_ok E W) (poll_timeout now i) (λ _, tcp_ok).
Proof.
  intros s Hs. unfold poll_timeout. rewrite (bind_done _ _ s (conn_at s i) s) by done.
  destruct (_ && _); [by apply close_ret_ok|done].
Qed.

Lemma mb_poll_cb_ok now i : triple (@tcp_ok E W) (mb_poll_cb now i) (λ _, tcp_ok).
Proof.
  intros s Hs. unfold mb_poll_cb. rewrite (bind_done _ _ s (conn_at s i) s) by done.
  destruct (conn_at_ok s i) as [Hr Hp]; [apply Hs|].
  destruct (pcb (conn_at s i)) as [p|]; [|done].
  destruct (negb _); [|by apply poll_timeout_ok].
  unfold mbind at 1, M_bind at 1, call_net. destruct (tcp_write _ _ _) as [e w].
  case_decide; [|case_decide].
  - rewrite (bind_done _ _ _ tt (mk_tcp (srv s) (tcp_output p w) (mb_conns s))) by done.
    rewrite (bind_done _ _ _ tt (with_conn (mk_tcp (srv s) (tcp_output p w) (mb_conns s)) i
              (mk_conn (Some p) (rx (conn_at s i)) [] (t_last_ms (conn_at s i))))) by done.
    apply poll_timeout_ok. by apply with_conn_ok.
  - by apply poll_timeout_ok.
  - by apply close_ret_ok.
Qed.

Lemma mb_recv_cb_ok now i p err :
  (i < MB_TCP_MAX_EST)%nat → triple (@tcp_ok E W) (mb_recv_cb now i p err) (λ _, tcp_ok).
Proof.
  intros Hi. unfold mb_recv_cb. destruct p as [p|]; [|apply close_ret_ok].
  case_decide; [|by apply triple_ret].
  apply triple_bind with (R := λ _, tcp_ok); [|intros ok; by apply triple_ret].
  intros s Hs. rewrite recv_chain_bytes.
  - by apply recv_bytes_ok.
  - by destruct Hs as (_ & -> & _).
  - apply conn_at_ok, Hs.
Qed.

Lemma mb_accept_cb_ok now p err : triple (@tcp_ok E W) (mb_accept_cb now p err) (λ _, tcp_ok).
Proof.
  unfold mb_accept_cb. destruct p as [p|]; [|by apply triple_ret].
  case_decide; [|by apply triple_ret].
  intros s Hs. rewrite (bind_done _ _ s (mb_conns s) s) by done.
  destruct (free_slot (mb_conns s)) as [i|]; [|done].
  by apply (with_conn_ok s i).
Qed.

Lemma tcp_step_ok ev : event_ok ev → triple (@tcp_ok E W) (tcp_step ev) (λ _, tcp_ok).
Proof.
  intros Hev. destruct ev as [now p err|now i p err|now i|i]; simpl in *.
  - eapply triple_bind; [apply mb_accept_cb_ok|]. intros. by apply triple_ret.
  - eapply triple_bind; [by apply mb_recv_cb_ok|]. intros. by apply triple_ret.
  - eapply triple_bind; [apply mb_poll_cb_ok|]. intros. by apply triple_ret.
  - intros s Hs. by apply (with_conn_ok s i).
Qed.
End Invariant.

(** ** A stack that accepts everything and records what is sent *)

Module Wire.
Inductive sent := Sent (p : Z) (bytes : list Z) | Closed (p : Z) | Aborted (p : Z).

#[global] Instance wire_stack : TcpStack (list sent) := {
  tcp_write p bs w := (ERR_OK, w ++ [Sent p bs]);
  tcp_output _ w := w;
  tcp_close p w := w ++ [Closed p];
  tcp_abort p w := w ++ [Aborted p];
}.
End Wire.

(** state after start-up and one accepted client with handle 7 *)
Definition tcp_boot : tcp_srv Trace.trace (list Wire.sent) :=
  mk_tcp (mb_boot 0) [] [conn_free; conn_free].
Definition tcp_one : tcp_srv Trace.trace (list Wire.sent) :=
  mk_tcp (mb_boot 0) [] [mk_conn (Some 7) [] [] 0; conn_free].

Lemma tcp_one_ok : tcp_ok tcp_one.
Proof. split; [apply mb_boot_ok|]. split; [done|]. by repeat constructor. Defined.

Lemma tcp_boot_ok : tcp_ok tcp_boot.
Proof. split; [apply mb_boot_ok|]. split; [done|]. by repeat constructor. Defined.

(** ** Properties *)

(** C10: reassembly does not depend on how the stream is cut: a receive callback
    on any chain of buffers does exactly what handling the bytes one at a time
    does, frame after frame, a reset or a lost connection included. *)
Theorem recv_is_bytewise {E W} `{IoHooks E} `{TcpStack W} (s : tcp_srv E W) now i p :
  tcp_ok s → (i < MB_TCP_MAX_EST)%nat →
  mb_recv_cb now i (Some p) ERR_OK s = (recv_bytes now i (concat p);; mret ERR_OK) s.
Proof.
  intros (Hs & Hl & Hf) Hi. unfold mb_recv_cb. rewrite decide_True by done.
  unfold mbind, M_bind. rewrite recv_chain_bytes; [done|by rewrite Hl|].
  destruct (conn_at_ok s i Hf) as [Hr _]. exact Hr.
Qed.

(** One request, one reply: on an idle connection, a request ADU for this
    unit, cut into buffers in any way, runs the PDU server once and sends one ADU
    with the same transaction and unit whose length field and PDU are the
    server's answer; the slot is idle again. *)
Theorem tcp_request_reply {E W} `{IoHooks E} `{TcpStack W} (s : tcp_srv E W)
    now i p segs t u pdu r pend t0 (b' : mb E) (w' : W) :
  tcp_ok s → (i < MB_TCP_MAX_EST)%nat → is_u16 t → u ≠ 0 → 1 ≤ zlen pdu ≤ 255 →
  mb_conns s !! i = Some (mk_conn (Some p) [] pend t0) →
  concat segs = mbap t 0 u pdu →
  mb_server_process pdu (srv s) = (Done (Some r), b') →
  tcp_write p (mbap t 0 u r) (net s) = (ERR_OK, w') →
  mb_recv_cb now i (Some segs) ERR_OK s
  = (Done ERR_OK, mk_tcp b' (tcp_output p w') (<[i := mk_conn (Some p) [] pend now]> (mb_conns s))).
Proof.
  intros (Hs & Hl & Hf) Hi Ht Hu Hlen Hc Hcat Hp Hw.
  assert (conn_at s i = mk_conn (Some p) [] pend t0) as Hat by (unfold conn_at; by rewrite Hc).
  unfold mb_recv_cb. rewrite decide_True by done. unfold mbind, M_bind.
  rewrite recv_chain_bytes, Hcat by (by rewrite ?Hl, ?Hat).
  rewrite recv_bytes_frame; rewrite ?Hl, ?Hat; [|done|done| |].
  2:{ rewrite length_mbap. lia. }
  2:{ by rewrite frame_need_mbap. }
  erewrite (process_frame_reply i p t u pdu r b' w' pend now); try done.
  - simpl. by rewrite list_insert_insert_eq.
  - by rewrite with_conn_len, Hl.
  - apply conn_at_with. by rewrite Hl.
Qed.

(** the special ADUs: a non-zero protocol identifier is answered with a
    nine-byte server failure that echoes it and touches nothing; a broadcast runs
    the request, is never answered and counts as unanswered; a request the PDU
    server drops counts as unanswered too. *)
Theorem adu_special_cases {E} `{IoHooks E} (s b' : mb E) (t q u : Z) (pdu : list Z) rsp :
  is_u16 t → is_u16 q → 1 ≤ zlen pdu ≤ 255 →
  mb_server_process pdu s = (Done rsp, b') →
  (q ≠ 0 → mbtcp_adu_process (mbap t q u pdu) s
           = (Done (Some (mbap t q u [Z.lor (rd pdu 0) 0x80; MB_EXC_SERVER_DEVICE_FAILURE])), s)) ∧
  mbtcp_adu_process (mbap t 0 0 pdu) s = (Done None, counted MB_DIAG_NO_RESP b') ∧
  (rsp = None → mbtcp_adu_process (mbap t 0 u pdu) s = (Done None, counted MB_DIAG_NO_RESP b')).
Proof.
  intros Ht Hq Hl Hp. split_and!.
  - intros Hq0. unfold mbtcp_adu_process. rewrite length_mbap.
    replace (7 + zlen pdu <? 8) with false by lia.
    destruct (mbap_fields t q u pdu) as (-> & -> & -> & -> & Hpdu); [done|done|lia|].
    replace (q =? 0) with false by lia.
    assert (rd (mbap t q u pdu) 7 = rd pdu 0) as ->; [|done].
    rewrite <- Hpdu at 2. unfold MBTCP_OFF_FC. by rewrite rd_drop.
  - rewrite adu_run by done. by rewrite (bind_done _ _ _ _ _ Hp).
  - intros ->. rewrite adu_run by done. rewrite (bind_done _ _ _ _ _ Hp). by case_match.
Qed.

(** Whatever the network does (connections, data in any cut, timeouts,
    errors, full send buffers), the two receive buffers stay inside their 262
    bytes, a parked reply inside its 263, and a stored prefix never hides a
    complete frame. *)
Theorem tcp_buffers_bounded {E W} `{IoHooksLaws E} `{TcpStack W} (s s' : tcp_srv E W) evs :
  tcp_ok s → Forall event_ok evs → tcp_run evs s = (Done tt, s') →
  tcp_ok s' ∧ ∀ c, c ∈ mb_conns s' →
    zlen (rx c) < MBTCP_ADU_RX_MAX ∧ zlen (pending c) < MBTCP_ADU_TX_MAX ∧ frame_ready (rx c) = false.
Proof.
  intros Hs Hev Hr. assert (tcp_ok s') as Hok.
  { revert s Hs Hr. induction Hev as [|ev evs He Hevs IH]; intros s Hs Hr.
    - by injection Hr as <-.
    - cbn [tcp_run] in Hr. apply bind_inv in Hr as ([] & s1 & Hst & Hr).
      apply (IH s1); [|done]. exact (triple_run _ _ _ _ _ _ (tcp_step_ok ev He) Hs Hst). }
  split; [done|]. destruct Hok as (_ & _ & Hf). intros c Hc.
  apply list_elem_of_lookup_1 in Hc as [j Hj]. destruct (Forall_lookup_1 _ _ _ _ Hf Hj) as [Hr1 Hp].
  split_and!; [by apply conn_ok_rx|unfold MBTCP_ADU_TX_MAX, MB_SERVER_PDU_MAX; lia|done].
Qed.

(** connection slots: a client takes the first free slot; when both are
    taken the new client is aborted and nothing else changes; a connection that
    stays in the middle of a frame for more than 500 ms is closed and its slot is
    free again. *)
Theorem tcp_slots {E W} `{IoHooks E} `{TcpStack W} (s : tcp_srv E W) c0 c1 p now :
  mb_conns s = [c0; c1] →
  (pcb c0 = None → mb_accept_cb now (Some p) ERR_OK s
     = (Done ERR_OK, mk_tcp (srv s) (net s) [mk_conn (Some p) [] [] now; c1])) ∧
  (pcb c0 ≠ None → pcb c1 = None → mb_accept_cb now (Some p) ERR_OK s
     = (Done ERR_OK, mk_tcp (srv s) (net s) [c0; mk_conn (Some p) [] [] now])) ∧
  (pcb c0 ≠ None → pcb c1 ≠ None → mb_accept_cb now (Some p) ERR_OK s
     = (Done ERR_ABRT, mk_tcp (srv s) (tcp_abort p (net s)) [c0; c1])) ∧
  (pcb c0 = Some p → rx c0 ≠ [] → pending c0 = [] → MB_TCP_FRAME_TMO_MS < u32 (now - t_last_ms c0) →
   mb_poll_cb now 0 s
     = (Done ERR_OK, mk_tcp (srv s) (tcp_close p (net s)) [mk_conn None [] [] (t_last_ms c0); c1])).
Proof.
  intros Hc. destruct s as [b w cs]; simpl in Hc; subst cs.
  unfold mb_accept_cb. rewrite !decide_True by done. split_and!.
  - intros H0'. unfold mbind, M_bind, gets; simpl. by rewrite decide_True.
  - intros H0' H1'. unfold mbind, M_bind, gets; simpl. by rewrite decide_False, decide_True.
  - intros H0' H1'. unfold mbind, M_bind, gets; simpl. by rewrite !decide_False.
  - intros Hp Hr Hpe Ht. unfold mb_poll_cb, mbind, M_bind, get_conn, gets; simpl. rewrite Hp, Hpe; simpl.
    unfold poll_timeout, mbind, M_bind, get_conn, gets; simpl.
    assert (0 < zlen (rx c0)) as Hz by (destruct (rx c0); [done|unfold zlen; simpl; lia]).
    replace ((0 <? zlen (rx c0)) && (MB_TCP_FRAME_TMO_MS <? u32 (now - t_last_ms c0))) with true by lia.
    unfold mb_conn_close, mbind, M_bind, get_conn, gets; simpl. by rewrite Hp.
Qed.

(** ** Witnesses *)

Lemma recv_is_bytewise_witness :
  mb_recv_cb 5 0 (Some [[0; 9; 0]; [0; 0; 6; 1]; [3; 0; 8; 0; 2; 0]]) ERR_OK tcp_one
  = (recv_bytes 5 0 (concat [[0; 9; 0]; [0; 0; 6; 1]; [3; 0; 8; 0; 2; 0]]);; mret ERR_OK) tcp_one.
Proof.
  apply (recv_is_bytewise tcp_one 5 0 [[0; 9; 0]; [0; 0; 6; 1]; [3; 0; 8; 0; 2; 0]] tcp_one_ok).
  unfold MB_TCP_MAX_EST. lia.
Defined.

Lemma tcp_request_reply_witness :
  mb_recv_cb 5 0 (Some [[0; 9; 0]; [0; 0; 6; 1]; [3; 0; 8; 0; 2]]) ERR_OK tcp_one
  = (Done ERR_OK, mk_tcp (mb_server_process [3; 0; 8; 0; 2] (mb_boot 0)).2
       [Wire.Sent 7 [0; 9; 0; 0; 0; 7; 1; 3; 4; 0x25; 0x80; 0; 1]]
       [mk_conn (Some 7) [] [] 5; conn_free]).
Proof.
  etransitivity; [apply (tcp_request_reply tcp_one 5 0 7 [[0; 9; 0]; [0; 0; 6; 1]; [3; 0; 8; 0; 2]] 9 1
           [3; 0; 8; 0; 2] [3; 4; 0x25; 0x80; 0; 1] [] 0 (mb_server_process [3; 0; 8; 0; 2] (mb_boot 0)).2
           [Wire.Sent 7 [0; 9; 0; 0; 0; 7; 1; 3; 4; 0x25; 0x80; 0; 1]] tcp_one_ok)|reflexivity].
  - unfold MB_TCP_MAX_EST. lia.
  - ulia.
  - lia.
  - unfold zlen; simpl; lia.
  - reflexivity.
  - reflexivity.
  - vm_compute. reflexivity.
  - reflexivity.
Defined.

Lemma adu_special_cases_witness :
  (mbtcp_adu_process (mbap 9 5 1 [3; 0; 8; 0; 2]) (mb_boot 0)
   = (Done (Some [0; 9; 0; 5; 0; 3; 1; 0x83; 4]), mb_boot 0)) ∧
  mbtcp_adu_process (mbap 9 0 0 [3; 0]) (mb_boot 0)
  = (Done None, counted MB_DIAG_NO_RESP (mb_tick (mb_boot 0))).
Proof.
  destruct (adu_special_cases (mb_boot 0) (mb_server_process [3; 0; 8; 0; 2] (mb_boot 0)).2 9 5 1
              [3; 0; 8; 0; 2] (Some [3; 4; 0x25; 0x80; 0; 1])) as (Hproto & _);
    [ulia|ulia|unfold zlen; simpl; lia|vm_compute; reflexivity|].
  destruct (adu_special_cases (mb_boot 0) (mb_tick (mb_boot 0)) 9 5 1 [3; 0] None)
    as (_ & Hbroadcast & _); [ulia|ulia|unfold zlen; simpl; lia|reflexivity|].
  split; [by apply Hproto|exact Hbroadcast].
Defined.

Definition tcp_trace : list tcp_event :=
  [EvAccept 0 (Some 3) ERR_OK; EvRecv 1 0 (Some [[0; 9; 0; 0; 0; 6; 1; 3]]) ERR_OK; EvPoll 400 0; EvPoll 600 0].

Lemma tcp_buffers_bounded_witness :
  let s' := mk_tcp (mb_boot 0) [Wire.Closed 3] [mk_conn None [] [] 1; conn_free] in
  tcp_run tcp_trace tcp_boot = (Done tt, s') ∧
  tcp_ok s' ∧ ∀ c, c ∈ mb_conns s' →
    zlen (rx c) < MBTCP_ADU_RX_MAX ∧ zlen (pending c) < MBTCP_ADU_TX_MAX ∧ frame_ready (rx c) = false.
Proof.
  intros s'. assert (tcp_run tcp_trace tcp_boot = (Done tt, s')) as Hr by (vm_compute; reflexivity).
  split; [exact Hr|]. apply (tcp_buffers_bounded tcp_boot s' tcp_trace tcp_boot_ok); [|exact Hr].
  unfold tcp_trace. repeat constructor.
Defined.

Lemma tcp_slots_witness :
  mb_accept_cb 9 (Some 8) ERR_OK tcp_one
  = (Done ERR_OK, mk_tcp (mb_boot 0) [] [mk_conn (Some 7) [] [] 0; mk_conn (Some 8) [] [] 9]).
Proof. by apply (tcp_slots tcp_one (mk_conn (Some 7) [] [] 0) conn_free 8 9). Defined.
