(* ===== verification/Rtu.v ===== *)
(** Modbus RTU: the frame machine [src/modbus/rtu_frame.c] and the transport
    [src/modbus/rtu.c].

    The frame machine is sequential code over the PDU server.  The transport is
    a set of interrupt handlers, a timer callback and a task that share flags; it
    is a step relation whose steps are the handlers, the task being split where
    an interrupt can come between its two accesses to [frame_pending].  The HAL is
    seen through what was last asked of it: the level of the DE pin, whether a
    reception is in progress, and the frames handed to the transmitter. *)

From S2P Require Import Prelude IoBytes Flash ConfigStore Regmap MbServer.

Definition RTU_FRAME_MAX : Z := 256.
Definition RTU_FRAME_MIN : Z := 4.

(** ** The frame machine ([rtu_frame.c]) *)

(** [rx_buf] up to [rx_len], the overflow flag, the bound unit, baud rate and
    whether a transmit callback is bound; and the PDU server *)
Record rtu_frame (E : Type) := mk_rtu {
  rx_buf : list Z;
  rx_overflow : bool;
  srv_unit : Z;
  bound_baud : Z;
  tx_bound : bool;
  rtu_srv : mb E;
}.
Arguments mk_rtu {E} _ _ _ _ _ _.
Arguments rx_buf {E} _.
Arguments rx_overflow {E} _.
Arguments srv_unit {E} _.
Arguments bound_baud {E} _.
Arguments tx_bound {E} _.
Arguments rtu_srv {E} _.

(** [crc16] of a frame, appended low byte first *)
Definition with_crc (body : list Z) : list Z :=
  body ++ [u8 (Z.land (crc16_modbus body) 0xFF); u8 (Z.shiftr (crc16_modbus body) 8)].

Definition rtu_t35_ms (baud : Z) : Z :=
  if (baud =? 0) || (19200 <? baud) then 2
  else
    let us := u32 (38500000 + baud - 1) / baud in
    u32 (us + 999) / 1000.

Section FrameMachine.
Context {E : Type} `{IoHooks E}.

Abbreviation MF := (M (rtu_frame E)).

Definition set_rx (l : list Z) (ov : bool) (s : rtu_frame E) : rtu_frame E :=
  mk_rtu l ov (srv_unit s) (bound_baud s) (tx_bound s) (rtu_srv s).

Definition rtu_reset (s : rtu_frame E) : rtu_frame E := set_rx [] false s.

(** the second component says whether [rtu_t35_kick] is called *)
Definition rtu_rx_feed (bytes : list Z) (s : rtu_frame E) : rtu_frame E * bool :=
  if zlen bytes =? 0 then (s, false)
  else if rx_overflow s then (s, true)
  else
    let space := u16 (RTU_FRAME_MAX - zlen (rx_buf s)) in
    let take_n := if zlen bytes <=? space then zlen bytes else space in
    (set_rx (rx_buf s ++ take (Z.to_nat take_n) bytes) (take_n <? zlen bytes) s, true).

Definition on_mb {A} (m : M (mb E) A) : MF A :=
  zoom rtu_srv (λ b s, mk_rtu (rx_buf s) (rx_overflow s) (srv_unit s) (bound_baud s) (tx_bound s) b) m.

Definition rtu_count (c : mb_diag_counter) : MF unit := on_mb (mb_server_diag_count c).

(** [Some frame] is the call [tx_cb(frame, len)], the last thing the function does *)
Definition rtu_t35_expired : MF (option (list Z)) :=
  buf ← gets rx_buf;
  overflow ← gets rx_overflow;
  modify rtu_reset;;
  let len := zlen buf in
  if len =? 0 then mret None
  else if overflow || (len <? RTU_FRAME_MIN)
  then rtu_count MB_DIAG_BUS_MSG;; rtu_count MB_DIAG_NO_RESP;; mret None
  else
    let unit := rd buf 0 in
    let crc_rx := u16 (Z.lor (rd buf (Z.to_nat (len - 2))) (Z.shiftl (rd buf (Z.to_nat (len - 1))) 8)) in
    let crc_calc := crc16_modbus (take (Z.to_nat (len - 2)) buf) in
    if negb (crc_rx =? crc_calc)
    then rtu_count MB_DIAG_BUS_MSG;; rtu_count MB_DIAG_CRC_ERR;; rtu_count MB_DIAG_NO_RESP;; mret None
    else
      my_unit ← gets srv_unit;
      if negb (unit =? 0) && negb (unit =? my_unit)
      then rtu_count MB_DIAG_BUS_MSG;; rtu_count MB_DIAG_NO_RESP;; mret None
      else
        rsp ← on_mb (mb_server_process (slice 1 (Z.to_nat (len - 3)) buf));
        match rsp with
        | None => rtu_count MB_DIAG_NO_RESP;; mret None
        | Some rsp_pdu =>
          if unit =? 0 then rtu_count MB_DIAG_NO_RESP;; mret None
          else
            bound ← gets tx_bound;
            if (bound : bool) then mret (Some (with_crc (unit :: rsp_pdu))) else mret None
        end.

Definition rtu_frame_bind (unit baud : Z) (s : rtu_frame E) : rtu_frame E :=
  rtu_reset (mk_rtu (rx_buf s) (rx_overflow s) unit baud true (rtu_srv s)).
End FrameMachine.

(** ** The transport ([rtu.c]) *)

Record rtu_port (E : Type) := mk_port {
  fm : rtu_frame E;
  tx_busy : bool;
  frame_pending : bool;
  timer_armed : bool;       (* the t3.5 software timer is running *)
  notified : bool;          (* the task has a notification to take *)
  in_task : bool;           (* rtu_task is between rtu_t35_expired and the flag *)
  de : bool;                (* level last written to the DE pin *)
  rx_on : bool;             (* a reception was started and not ended since *)
  sent : list (list Z);     (* frames handed to the transmitter *)
}.
Arguments mk_port {E} _ _ _ _ _ _ _ _ _.
Arguments fm {E} _.
Arguments tx_busy {E} _.
Arguments frame_pending {E} _.
Arguments timer_armed {E} _.
Arguments notified {E} _.
Arguments in_task {E} _.
Arguments de {E} _.
Arguments rx_on {E} _.
Arguments sent {E} _.

Section Port.
Context {E : Type} `{IoHooks E}.

Implicit Types (s : rtu_port E).

Definition rtu_tx_restart_rx s : rtu_port E :=
  mk_port (fm s) (tx_busy s) (frame_pending s) (timer_armed s) (notified s) (in_task s) (de s) true (sent s).

Definition rtu_tx_finish s : rtu_port E :=
  let s1 := mk_port (fm s) false (frame_pending s) (timer_armed s) (notified s) (in_task s) false (rx_on s) (sent s) in
  let s2 := rtu_tx_restart_rx s1 in
  mk_port (fm s2) (tx_busy s2) false (timer_armed s2) (notified s2) (in_task s2) (de s2) (rx_on s2) (sent s2).

(** [hal_ok]: [HAL_UART_Transmit_IT] accepted the frame *)
Definition rtu_tx_frame (hal_ok : bool) (frame : list Z) s : rtu_port E :=
  let s1 := mk_port (fm s) true (frame_pending s) (timer_armed s) (notified s) (in_task s) true false
                    (if hal_ok then sent s ++ [frame] else sent s) in
  if hal_ok then s1 else rtu_tx_finish s1.

(** first half of the task's loop body: take the notification, handle the frame *)
Definition rtu_task_frame (hal_ok : bool) s : outcome (rtu_port E) :=
  match rtu_t35_expired (fm s) with
  | (Reset, _) => Reset
  | (Done f, fm') =>
    let s1 := mk_port fm' (tx_busy s) (frame_pending s) (timer_armed s) false true (de s) (rx_on s) (sent s) in
    Done (match f with
          | Some frame => rtu_tx_frame hal_ok frame s1
          | None => s1
          end)
  end.

(** second half: no reply in flight, resume reception *)
Definition rtu_task_resume s : rtu_port E :=
  mk_port (fm s) (tx_busy s) (if tx_busy s then frame_pending s else false) (timer_armed s)
          (notified s) false (de s) (rx_on s) (sent s).

Definition rtu_t35_timer_cb s : rtu_port E :=
  mk_port (fm s) (tx_busy s) true false true (in_task s) (de s) (rx_on s) (sent s).

Definition HAL_UART_TxCpltCallback s : rtu_port E := rtu_tx_finish s.

(** the reception ended with [bs]; [rtu_t35_kick] restarts the timer *)
Definition HAL_UARTEx_RxEventCallback (bs : list Z) s : rtu_port E :=
  let s1 := if negb (frame_pending s) && (0 <? zlen bs)
            then let '(fm', kick) := rtu_rx_feed bs (fm s) in
                 mk_port fm' (tx_busy s) (frame_pending s) (timer_armed s || kick) (notified s) (in_task s)
                         (de s) false (sent s)
            else mk_port (fm s) (tx_busy s) (frame_pending s) (timer_armed s) (notified s) (in_task s)
                         (de s) false (sent s) in
  rtu_tx_restart_rx s1.

Definition HAL_UART_ErrorCallback s : rtu_port E :=
  if tx_busy s then rtu_tx_finish s else rtu_tx_restart_rx s.

(** [mb_rtu_start]: the configuration it derives from the registers *)
Definition rtu_start_baud (reg : Z) : Z :=
  if (reg <? 1200) || (115200 <? reg) then 9600 else reg.

Definition mb_rtu_start (holding : Z → Z) (b : mb E) : rtu_port E :=
  let baud := rtu_start_baud (holding HOLDING_RS485_BAUDRATE_IDX) in
  let unit := u8 (holding HOLDING_SLAVE_ID_IDX) in
  rtu_tx_restart_rx
    (mk_port (rtu_frame_bind unit baud (mk_rtu [] false 0 0 false b))
       false false false false false false false []).

(** one handler runs *)
Inductive rtu_step : rtu_port E → rtu_port E → Prop :=
  | step_rx s bs : rx_on s = true → bytes_ok bs → (length bs ≤ 256)%nat → rtu_step s (HAL_UARTEx_RxEventCallback bs s)
  | step_timer s : timer_armed s = true → rtu_step s (rtu_t35_timer_cb s)
  | step_task s hal_ok s' :
      notified s = true → in_task s = false → rtu_task_frame hal_ok s = Done s' → rtu_step s s'
  | step_resume s : in_task s = true → rtu_step s (rtu_task_resume s)
  | step_tx_done s : tx_busy s = true → rtu_step s (HAL_UART_TxCpltCallback s)
  | step_error s : rtu_step s (HAL_UART_ErrorCallback s).

Inductive rtu_reach (s0 : rtu_port E) : rtu_port E → Prop :=
  | reach_start : rtu_reach s0 s0
  | reach_step s s' : rtu_reach s0 s → rtu_step s s' → rtu_reach s0 s'.
End Port.

(** ** Frames and their checksum *)

Lemma with_crc_put body : bytes_ok body → with_crc body = body ++ put_le16 (crc16_modbus body).
Proof. reflexivity. Qed.

Lemma length_with_crc body : zlen (with_crc body) = zlen body + 2.
Proof. unfold with_crc, zlen. rewrite length_app. simpl. lia. Qed.

Lemma with_crc_valid body : bytes_ok body → crc16_modbus (with_crc body) = 0.
Proof. intros Hb. rewrite with_crc_put by done. by apply crc16_residue. Qed.

Lemma with_crc_bytes body : bytes_ok body → bytes_ok (with_crc body).
Proof. intros Hb. rewrite with_crc_put by done. apply Forall_app. auto with uint. Qed.

(** the receiver's comparison of the last two bytes is the residue test *)
Definition crc_match (buf : list Z) : bool :=
  let len := zlen buf in
  u16 (Z.lor (rd buf (Z.to_nat (len - 2))) (Z.shiftl (rd buf (Z.to_nat (len - 1))) 8))
  =? crc16_modbus (take (Z.to_nat (len - 2)) buf).

Lemma split_last2 (buf : list Z) :
  2 ≤ zlen buf →
  ∃ body a b, buf = body ++ [a; b] ∧ Z.to_nat (zlen buf - 2) = length body ∧
              Z.to_nat (zlen buf - 1) = S (length body).
Proof.
  intros Hl. destruct (exists_last (l := buf)) as (l1 & b & ->).
  { intros ->. done. }
  destruct (exists_last (l := l1)) as (body & a & ->).
  { intros ->. done. }
  exists body, a, b. rewrite <- app_assoc. split; [done|].
  unfold zlen. rewrite !length_app. simpl. lia.
Qed.

Lemma crc_match_split body a b :
  is_byte a → is_byte b → crc_match (body ++ [a; b]) = (a + 256 * b =? crc16_modbus body).
Proof.
  intros Ha Hb. unfold crc_match.
  assert (Z.to_nat (zlen (body ++ [a; b]) - 2) = length body ∧
          Z.to_nat (zlen (body ++ [a; b]) - 1) = S (length body)) as [-> ->]
    by (unfold zlen; rewrite length_app; simpl; lia).
  rewrite take_app_length, !rd_app_r by lia.
  rewrite Nat.sub_diag. replace (S (length body) - length body)%nat with 1%nat by lia.
  f_equal. exact (le16_arith a b Ha Hb).
Qed.

Lemma crc_match_with_crc body : bytes_ok body → crc_match (with_crc body) = true.
Proof.
  intros Hb. pose proof (crc16_range body Hb) as Hr. rewrite with_crc_put by done.
  pose proof (put_le16_bytes (crc16_modbus body)) as Hp. unfold put_le16 in *.
  rewrite !Forall_cons_iff in Hp. destruct Hp as (H1 & H2 & _).
  rewrite crc_match_split by done. rewrite <- le16_arith by done.
  change [u8 (Z.land (crc16_modbus body) 0xFF); u8 (Z.shiftr (crc16_modbus body) 8)]
    with (put_le16 (crc16_modbus body)).
  rewrite le16_roundtrip by done. lia.
Qed.

Lemma crc_match_residue buf :
  bytes_ok buf → 2 ≤ zlen buf → crc_match buf = true → crc16_modbus buf = 0.
Proof.
  intros Hb Hl Hm. destruct (split_last2 buf Hl) as (body & a & b & -> & _ & _).
  apply Forall_app in Hb as [Hbody Hab]. rewrite !Forall_cons_iff in Hab. destruct Hab as (Ha & Hb' & _).
  rewrite crc_match_split in Hm by done.
  rewrite <- (crc16_residue body Hbody). f_equal. f_equal.
  pose proof (crc16_range body Hbody). unfold put_le16.
  assert (crc16_modbus body = a + 256 * b) as -> by lia.
  change 0xFF with (Z.ones 8). rewrite Z.land_ones, shiftr_div by lia.
  change (2 ^ 8) with 256. f_equal; [|f_equal]; ulia.
Qed.

(** ** Feeding *)

Section Feeding.
Context {E : Type} `{IoHooks E}.

Implicit Types (s : rtu_frame E).

Fixpoint feed_all (chunks : list (list Z)) (s : rtu_frame E) : rtu_frame E :=
  match chunks with
  | [] => s
  | c :: chunks => feed_all chunks (rtu_rx_feed c s).1
  end.

(** what the buffer and the flag are after [bytes], however they were cut *)
Definition rx_after (bytes : list Z) (s : rtu_frame E) : rtu_frame E :=
  set_rx (take 256 (rx_buf s ++ bytes)) (rx_overflow s || (256 <? zlen (rx_buf s ++ bytes))) s.

Lemma set_rx_id s : set_rx (rx_buf s) (rx_overflow s) s = s.
Proof. by destruct s. Qed.

Lemma rtu_rx_feed_after bytes s :
  (length (rx_buf s) ≤ 256)%nat → (rx_overflow s = true → length (rx_buf s) = 256%nat) →
  (rtu_rx_feed bytes s).1 = rx_after bytes s ∧
  (rtu_rx_feed bytes s).2 = negb (zlen bytes =? 0).
Proof.
  intros Hl Hov. unfold rtu_rx_feed, rx_after, RTU_FRAME_MAX.
  destruct (Z.eqb_spec (zlen bytes) 0) as [E0|E0].
  { split; [|done]. assert (bytes = []) as -> by (destruct bytes; [done|unfold zlen in *; simpl in *; lia]).
    rewrite app_nil_r, take_ge by done.
    replace (256 <? zlen (rx_buf s)) with false by (unfold zlen; lia).
    by rewrite orb_false_r, set_rx_id. }
  destruct (rx_overflow s) eqn:Eov.
  { split; [|done]. simpl. rewrite take_app_le, take_ge by (rewrite Hov by done; lia).
    rewrite <- Eov. by rewrite set_rx_id. }
  split; [|done]. simpl. rewrite u16_id by (unfold zlen; ulia).
  assert (zlen (rx_buf s ++ bytes) = zlen (rx_buf s) + zlen bytes) as ->
    by (unfold zlen; rewrite length_app; lia).
  destruct (zlen bytes <=? 256 - zlen (rx_buf s)) eqn:Et.
  - f_equal; [|lia]. rewrite take_app_ge by (unfold zlen in *; lia).
    rewrite !take_ge by (unfold zlen in *; lia). done.
  - f_equal; [|lia]. rewrite take_app_ge by done. f_equal. f_equal. unfold zlen. lia.
Qed.

Lemma rx_after_inv bytes s :
  (length (rx_buf s) ≤ 256)%nat → (rx_overflow s = true → length (rx_buf s) = 256%nat) →
  (length (rx_buf (rx_after bytes s)) ≤ 256)%nat ∧
  (rx_overflow (rx_after bytes s) = true → length (rx_buf (rx_after bytes s)) = 256%nat).
Proof.
  intros Hl Hov. simpl. rewrite length_take. split; [lia|].
  rewrite length_app. unfold zlen. rewrite length_app.
  intros [Ho|Ho]%orb_true_iff; [rewrite (Hov Ho)|]; lia.
Qed.

Lemma rx_after_app a b s :
  (length (rx_buf s) ≤ 256)%nat → (rx_overflow s = true → length (rx_buf s) = 256%nat) →
  rx_after b (rx_after a s) = rx_after (a ++ b) s.
Proof.
  intros Hl Hov. unfold rx_after at 1 3. simpl. unfold set_rx; simpl.
  rewrite (app_assoc (rx_buf s) a b). set (x := rx_buf s ++ a).
  destruct (decide (length x ≤ 256)%nat) as [Hx|Hx].
  - rewrite (take_ge x) by done. f_equal.
    replace (256 <? zlen x) with false by (unfold zlen; lia). by rewrite orb_false_r.
  - rewrite !take_app_le by (rewrite ?length_take; lia).
    rewrite take_take. f_equal.
    replace (256 <? zlen x) with true by (unfold zlen; lia).
    replace (256 <? zlen (x ++ b)) with true by (unfold zlen; rewrite length_app; lia).
    by rewrite !orb_true_r.
Qed.

Lemma feed_all_after chunks s :
  (length (rx_buf s) ≤ 256)%nat → (rx_overflow s = true → length (rx_buf s) = 256%nat) →
  feed_all chunks s = rx_after (concat chunks) s.
Proof.
  revert s. induction chunks as [|c chunks IH]; intros s Hl Hov.
  - simpl. unfold rx_after. rewrite app_nil_r, take_ge by done.
    replace (256 <? zlen (rx_buf s)) with false by (unfold zlen; lia). by rewrite orb_false_r, set_rx_id.
  - simpl. destruct (rtu_rx_feed_after c s Hl Hov) as [-> _].
    destruct (rx_after_inv c s Hl Hov). rewrite IH by done. by apply rx_after_app.
Qed.

(** ** A complete frame *)

(** the frame machine with [buf] received and nothing lost *)
Definition with_frame (s : rtu_frame E) (buf : list Z) : rtu_frame E := set_rx buf false s.

Definition idle (s : rtu_frame E) : Prop := rx_buf s = [] ∧ rx_overflow s = false.

Lemma feed_all_frame chunks s :
  idle s → zlen (concat chunks) ≤ 256 → feed_all chunks s = with_frame s (concat chunks).
Proof.
  intros [Hb Ho] Hl. rewrite feed_all_after by (rewrite ?Hb, ?Ho; done || (simpl; lia)).
  unfold rx_after, with_frame. rewrite Hb, Ho. simpl. rewrite take_ge by (unfold zlen in *; lia).
  by replace (256 <? zlen (concat chunks)) with false by lia.
Qed.

(** the state with the PDU server replaced, buffers reset *)
Definition served (s : rtu_frame E) (b : mb E) : rtu_frame E :=
  mk_rtu [] false (srv_unit s) (bound_baud s) (tx_bound s) b.

Lemma expired_bad_crc s buf :
  4 ≤ zlen buf → crc_match buf = false →
  rtu_t35_expired (with_frame s buf)
  = (Done None, served s (counted MB_DIAG_NO_RESP (counted MB_DIAG_CRC_ERR (counted MB_DIAG_BUS_MSG (rtu_srv s))))).
Proof.
  intros Hl Hm. unfold rtu_t35_expired, mbind, M_bind, gets, modify. simpl.
  unfold RTU_FRAME_MIN. replace (zlen buf =? 0) with false by lia.
  replace (zlen buf <? 4) with false by lia. cbn [orb].
  unfold crc_match in Hm. rewrite Hm. done.
Qed.

Lemma expired_short s buf ov :
  0 < zlen buf → ov = true ∨ zlen buf < 4 →
  rtu_t35_expired (set_rx buf ov s)
  = (Done None, served s (counted MB_DIAG_NO_RESP (counted MB_DIAG_BUS_MSG (rtu_srv s)))).
Proof.
  intros Hl Hm. unfold rtu_t35_expired, mbind, M_bind, gets, modify. simpl.
  unfold RTU_FRAME_MIN. replace (zlen buf =? 0) with false by lia.
  by replace (ov || (zlen buf <? 4)) with true by (destruct Hm as [->|]; lia).
Qed.

Lemma frame_parts unit pdu :
  let buf := with_crc (unit :: pdu) in
  zlen buf = zlen pdu + 3 ∧ rd buf 0 = unit ∧ slice 1 (Z.to_nat (zlen buf - 3)) buf = pdu.
Proof.
  intros buf. assert (zlen buf = zlen pdu + 3) as Hl
    by (unfold buf; rewrite length_with_crc; unfold zlen; simpl; lia).
  split_and!; [done|done|]. rewrite Hl. unfold slice, buf, with_crc. simpl.
  replace (Z.to_nat (zlen pdu + 3 - 3)) with (length pdu) by (unfold zlen; lia).
  rewrite drop_0. by rewrite take_app_length.
Qed.

(** a frame with a good checksum, once received *)
Lemma expired_good s unit pdu :
  bytes_ok (unit :: pdu) → 1 ≤ zlen pdu →
  rtu_t35_expired (with_frame s (with_crc (unit :: pdu)))
  = (if negb (unit =? 0) && negb (unit =? srv_unit s)
     then (Done None, served s (counted MB_DIAG_NO_RESP (counted MB_DIAG_BUS_MSG (rtu_srv s))))
     else match mb_server_process pdu (rtu_srv s) with
          | (Reset, b) => (Reset, served s b)
          | (Done None, b) => (Done None, served s (counted MB_DIAG_NO_RESP b))
          | (Done (Some r), b) =>
            if unit =? 0 then (Done None, served s (counted MB_DIAG_NO_RESP b))
            else (Done (if tx_bound s then Some (with_crc (unit :: r)) else None), served s b)
          end).
Proof.
  intros Hb Hl. destruct (frame_parts unit pdu) as (Hlen & Hu & Hs).
  pose proof (crc_match_with_crc (unit :: pdu) Hb) as Hm. unfold crc_match in Hm.
  unfold rtu_t35_expired, mbind, M_bind, gets, modify. cbn [with_frame set_rx rx_buf rx_overflow].
  unfold RTU_FRAME_MIN. set (buf := with_crc (unit :: pdu)) in *. cbv zeta.
  replace (zlen buf =? 0) with false by lia. replace (zlen buf <? 4) with false by lia. cbn [orb].
  rewrite Hm, Hu, Hs. cbn [negb]. clearbody buf. clear Hm.
  destruct (negb (unit =? 0) && negb (unit =? srv_unit s)) eqn:Eu.
  - cbn. by rewrite Eu.
  - cbn. rewrite Eu. cbn. unfold on_mb, zoom. cbn.
    destruct (mb_server_process pdu (rtu_srv s)) as [[[r|]|] b]; cbn -[with_crc]; [|done..].
    destruct (unit =? 0); cbn -[with_crc]; [done|]. unfold served. destruct (tx_bound s); reflexivity.
Qed.
End Feeding.

(** ** What leaves the transmitter *)

Section Transmit.
Context {E : Type} `{IoHooks E}.

(** a frame of station [unit] with a good checksum *)
Definition station_frame (unit : Z) (f : list Z) : Prop :=
  crc16_modbus f = 0 ∧ rd f 0 = unit ∧ unit ≠ 0 ∧ zlen f ≤ 255.

Lemma on_mb_keeps {A} (m : M (mb E) A) s :
  let s' := (on_mb m s).2 in
  rx_buf s' = rx_buf s ∧ srv_unit s' = srv_unit s ∧ rx_overflow s' = rx_overflow s ∧ tx_bound s' = tx_bound s.
Proof. unfold on_mb, zoom. by destruct (m (rtu_srv s)). Qed.

Lemma expired_shape (s : rtu_frame E) :
  bytes_ok (rx_buf s) →
  match rtu_t35_expired s with
  | (Done f, s') =>
    rx_buf s' = [] ∧ rx_overflow s' = false ∧ srv_unit s' = srv_unit s ∧ tx_bound s' = tx_bound s ∧
    ∀ frame, f = Some frame → station_frame (srv_unit s) frame
  | (Reset, _) => True
  end.
Proof.
  intros Hb. unfold rtu_t35_expired, mbind, M_bind, gets, modify, rtu_count. simpl.
  destruct (zlen (rx_buf s) =? 0); [done|].
  destruct (rx_overflow s || (zlen (rx_buf s) <? RTU_FRAME_MIN)); [done|].
  destruct (negb _); [done|]. simpl.
  destruct (negb (rd (rx_buf s) 0 =? 0) && negb (rd (rx_buf s) 0 =? srv_unit s)) eqn:Eu; [done|].
  unfold on_mb, zoom; simpl.
  set (pdu := slice 1 (Z.to_nat (zlen (rx_buf s) - 3)) (rx_buf s)).
  destruct (mb_server_process pdu (rtu_srv s)) as [[[r|]|] b] eqn:Ep; simpl; [|done..].
  destruct (rd (rx_buf s) 0 =? 0) eqn:E0; [done|]. simpl. destruct (tx_bound s) eqn:Et; simpl.
  2:{ by split_and!. }
  split_and!; try done. intros frame Hf. injection Hf as <-.
  assert (bytes_ok (rd (rx_buf s) 0 :: r)) as Hbr.
  { constructor; [by apply rd_byte|]. eapply process_bytes; [|exact Ep]. by apply bytes_ok_slice. }
  apply process_len in Ep. split_and!.
  - by apply with_crc_valid.
  - change (rd (with_crc (rd (rx_buf s) 0 :: r)) 0) with (rd (rx_buf s) 0). simpl in Eu. lia.
  - simpl in Eu. lia.
  - rewrite length_with_crc. unfold zlen in *. simpl. lia.
Qed.

(** the state of the line, the reception, and every frame sent so far *)
Definition port_ok (unit : Z) (s : rtu_port E) : Prop :=
  bytes_ok (rx_buf (fm s)) ∧ (length (rx_buf (fm s)) ≤ 256)%nat ∧ srv_unit (fm s) = unit ∧
  de s = tx_busy s ∧ (rx_on s = true ∨ tx_busy s = true) ∧ Forall (station_frame unit) (sent s).

Lemma finish_ok unit s : port_ok unit s → port_ok unit (rtu_tx_finish s).
Proof. intros (Hb & Hl & Hu & _ & _ & Hs). split_and!; try done. by left. Qed.

Lemma rx_event_ok unit bs s :
  bytes_ok bs → port_ok unit s → port_ok unit (HAL_UARTEx_RxEventCallback bs s).
Proof.
  intros Hbs (Hb & Hl & Hu & Hd & Ho & Hs). unfold HAL_UARTEx_RxEventCallback.
  destruct (negb (frame_pending s) && (0 <? zlen bs)).
  2:{ split_and!; try done. by left. }
  assert (bytes_ok (rx_buf (rtu_rx_feed bs (fm s)).1) ∧ (length (rx_buf (rtu_rx_feed bs (fm s)).1) ≤ 256)%nat ∧
          srv_unit (rtu_rx_feed bs (fm s)).1 = unit) as (Hb1 & Hl1 & Hu1).
  { unfold rtu_rx_feed. destruct (zlen bs =? 0); [done|]. destruct (rx_overflow (fm s)); [done|]. simpl.
    split_and!; [|  |done].
    - apply Forall_app. split; [done|by apply Forall_take].
    - unfold RTU_FRAME_MAX. rewrite u16_id by (unfold zlen; ulia). rewrite length_app, length_take.
      unfold zlen. case_match; lia. }
  destruct (rtu_rx_feed bs (fm s)) as [fm' kick]; simpl in *. split_and!; try done. by left.
Qed.

Lemma task_frame_ok unit hal_ok s s' :
  port_ok unit s → rtu_task_frame hal_ok s = Done s' → port_ok unit s'.
Proof.
  intros (Hb & Hl & Hu & Hd & Ho & Hs) Hr. unfold rtu_task_frame in Hr.
  pose proof (expired_shape (fm s) Hb) as He. destruct (rtu_t35_expired (fm s)) as [[f|] fm']; [|done].
  destruct He as (H1 & H2 & H3 & H4 & Hf). injection Hr as <-.
  destruct f as [frame|].
  - specialize (Hf _ eq_refl). rewrite Hu in Hf. destruct hal_ok; simpl.
    + split_and!; simpl; rewrite ?H1, ?H3; try done; [simpl; lia|by right|].
      apply Forall_app. split; [done|]. by constructor.
    + apply finish_ok. split_and!; simpl; rewrite ?H1, ?H3; try done; [simpl; lia|by right].
  - split_and!; simpl; rewrite ?H1, ?H3; try done; simpl; lia.
Qed.

Lemma rtu_step_ok unit s s' : port_ok unit s → rtu_step s s' → port_ok unit s'.
Proof.
  intros Hok Hst. destruct Hst as [s bs _ Hbs _|s _|s hal_ok s' _ _ Ht|s _|s _|s].
  - by apply rx_event_ok.
  - exact Hok.
  - by eapply task_frame_ok.
  - exact Hok.
  - by apply finish_ok.
  - unfold HAL_UART_ErrorCallback. destruct (tx_busy s); [by apply finish_ok|].
    destruct Hok as (Hb & Hl & Hu & Hd & Ho & Hs). split_and!; try done. by left.
Qed.
End Transmit.

(** ** Counters of the discarded frames *)

Definition dropped {E} (s : rtu_frame E) : mb E :=
  counted MB_DIAG_NO_RESP (counted MB_DIAG_BUS_MSG (rtu_srv s)).
Definition dropped_crc {E} (s : rtu_frame E) : mb E :=
  counted MB_DIAG_NO_RESP (counted MB_DIAG_CRC_ERR (counted MB_DIAG_BUS_MSG (rtu_srv s))).

(** ** Properties *)

(** C11: a request frame for this station, received in any pieces, is answered
    when the line has been silent for t3.5 by one frame: the station address, the
    PDU server's answer, and a checksum that verifies; the machine is idle again.
    A broadcast runs the request but is not answered. *)
Theorem rtu_request_reply {E} `{IoHooks E} (s : rtu_frame E) chunks unit pdu r (b' : mb E) :
  idle s → tx_bound s = true → srv_unit s = unit → unit ≠ 0 →
  bytes_ok (unit :: pdu) → 1 ≤ zlen pdu ≤ 253 →
  mb_server_process pdu (rtu_srv s) = (Done (Some r), b') →
  (concat chunks = with_crc (unit :: pdu) →
   rtu_t35_expired (feed_all chunks s) = (Done (Some (with_crc (unit :: r))), served s b') ∧
   crc16_modbus (with_crc (unit :: r)) = 0) ∧
  (concat chunks = with_crc (0 :: pdu) →
   rtu_t35_expired (feed_all chunks s) = (Done None, served s (counted MB_DIAG_NO_RESP b'))).
Proof.
  intros Hi Ht Hu Hu0 Hb Hl Hp. apply Forall_cons_iff in Hb as [Hub Hb].
  assert (∀ u, zlen (with_crc (u :: pdu)) ≤ 256) as Hlen.
  { intros u. rewrite length_with_crc. unfold zlen in *. simpl. lia. }
  split; intros Hcat.
  - rewrite feed_all_frame by (rewrite ?Hcat; done). rewrite Hcat, expired_good by (try (by constructor); lia).
    rewrite Hu. replace (unit =? unit) with true by lia. replace (unit =? 0) with false by lia. simpl.
    rewrite Hp, Ht. split; [done|]. apply with_crc_valid. constructor; [done|]. by eapply process_bytes.
  - rewrite feed_all_frame by (rewrite ?Hcat; done).
    rewrite Hcat, expired_good by (try (constructor; [ulia|done]); lia). simpl. by rewrite Hp.
Qed.

(** C12: line errors are not executed: a valid frame in which one byte, or two
    adjacent bytes, arrive changed is dropped with the CRC error counted; no
    register changes and nothing is sent. *)
Theorem rtu_corruption_dropped {E} `{IoHooks E} (s : rtu_frame E) chunks unit pdu pre a b suf :
  idle s → bytes_ok (unit :: pdu) → bytes_ok b →
  with_crc (unit :: pdu) = pre ++ a ++ suf → length a = length b → (length a ≤ 2)%nat → a ≠ b →
  1 ≤ zlen pdu ≤ 253 → concat chunks = pre ++ b ++ suf →
  rtu_t35_expired (feed_all chunks s) = (Done None, served s (dropped_crc s)) ∧
  mb_regs (dropped_crc s) = mb_regs (rtu_srv s).
Proof.
  intros Hi Hb Hbb Hsplit Hab Ha2 Hne Hl Hcat. split; [|done].
  assert (zlen (pre ++ b ++ suf) = zlen pdu + 3) as Hlen.
  { assert (zlen (pre ++ b ++ suf) = zlen (with_crc (unit :: pdu))) as ->.
    { rewrite Hsplit. unfold zlen. rewrite !length_app, Hab. done. }
    rewrite length_with_crc. unfold zlen. simpl. lia. }
  pose proof (with_crc_bytes _ Hb) as Hfb. rewrite Hsplit, !Forall_app in Hfb. destruct Hfb as (Hpre & Ha & Hsuf).
  assert (bytes_ok (pre ++ b ++ suf)) as Hbok by (by rewrite !Forall_app).
  rewrite feed_all_frame by (rewrite ?Hcat; (done || lia)). rewrite Hcat.
  apply expired_bad_crc; [lia|].
  destruct (crc_match (pre ++ b ++ suf)) eqn:Em; [|done]. exfalso. apply Hne.
  apply crc_match_residue in Em; [|done|lia].
  apply (crc16_byte_burst pre a b suf); try done.
  rewrite Em, <- Hsplit. by apply with_crc_valid.
Qed.

(** Feeding does not depend on how the bytes are cut: the buffer holds the
    first 256 bytes of the stream since the last frame end and the overflow flag
    says whether there were more; an overlong or too short frame is dropped and
    counted at t3.5, and an empty one is ignored. *)
Theorem rtu_feed_and_length_errors {E} `{IoHooks E} (s : rtu_frame E) chunks :
  idle s →
  let bytes := concat chunks in
  feed_all chunks s = set_rx (take 256 bytes) (256 <? zlen bytes) s ∧
  (bytes = [] → rtu_t35_expired (feed_all chunks s) = (Done None, s)) ∧
  (bytes ≠ [] → zlen bytes < RTU_FRAME_MIN ∨ RTU_FRAME_MAX < zlen bytes →
   rtu_t35_expired (feed_all chunks s) = (Done None, served s (dropped s))).
Proof.
  intros [Hb Ho] bytes.
  assert (feed_all chunks s = set_rx (take 256 bytes) (256 <? zlen bytes) s) as Hf.
  { rewrite feed_all_after by (rewrite ?Hb, ?Ho; done || (simpl; lia)). unfold rx_after. by rewrite Hb, Ho. }
  split; [done|]. rewrite Hf. split.
  - intros ->. destruct s as [? ? ? ? ? b]; simpl in *; subst. reflexivity.
  - intros Hne Hl. apply expired_short.
    + destruct bytes; [done|]. unfold zlen. simpl. lia.
    + unfold RTU_FRAME_MIN, RTU_FRAME_MAX in Hl. unfold zlen in *. rewrite length_take. lia.
Qed.


(** an answered or failed transmission always ends with the bus released and
    reception resumed: from any state that is sending, the transmit-complete and
    the error interrupt each leave DE low, the receiver started and new frames
    accepted. *)
Theorem rtu_tx_releases {E} `{IoHooks E} (s : rtu_port E) (bs : list Z) :
  tx_busy s = true → bs ≠ [] →
  HAL_UART_ErrorCallback s = HAL_UART_TxCpltCallback s ∧
  let s' := HAL_UART_TxCpltCallback s in
  de s' = false ∧ tx_busy s' = false ∧ rx_on s' = true ∧ fm s' = fm s ∧
  fm (HAL_UARTEx_RxEventCallback bs s') = (rtu_rx_feed bs (fm s)).1.
Proof.
  intros Hb Hne. unfold HAL_UART_ErrorCallback. rewrite Hb. split; [done|].
  split_and!; try done. unfold HAL_UARTEx_RxEventCallback. simpl.
  assert ((0 <? zlen bs) = true) as -> by (destruct bs; [done|unfold zlen; simpl; lia]).
  simpl. by destruct (rtu_rx_feed bs (fm s)).
Qed.

(** the inter-frame timer is long enough and not much longer: for every
    accepted rate up to 19200 baud it is the first whole number of milliseconds
    not shorter than 3.5 eleven-bit characters (rounded to the microsecond), and
    above it is the fixed 2 ms of the specification. *)
Theorem rtu_t35_bounds (reg : Z) :
  is_u16 reg →
  let baud := rtu_start_baud reg in
  1200 ≤ baud ≤ 115200 ∧
  (baud ≤ 19200 → 38500000 ≤ rtu_t35_ms baud * 1000 * baud < 38500000 + 1000 * baud + baud) ∧
  (19200 < baud → rtu_t35_ms baud = 2).
Proof.
  intros Hr baud. assert (1200 ≤ baud ≤ 115200) as Hb by (unfold baud, rtu_start_baud; case_match; ulia).
  split; [done|]. unfold rtu_t35_ms. clearbody baud. split.
  - intros Hl. replace ((baud =? 0) || (19200 <? baud)) with false by lia.
    rewrite (u32_id (38500000 + baud - 1)) by ulia.
    set (us := (38500000 + baud - 1) / baud).
    assert (38500000 ≤ us * baud < 38500000 + baud) as Hus.
    { pose proof (Z.div_mod (38500000 + baud - 1) baud ltac:(lia)).
      pose proof (Z.mod_pos_bound (38500000 + baud - 1) baud ltac:(lia)). fold us in H. nia. }
    assert (0 ≤ us < 100000) as Hs by nia.
    rewrite u32_id by ulia. set (ms := (us + 999) / 1000).
    assert (us ≤ ms * 1000 < us + 1000) as Hms by (unfold ms; Z.div_mod_to_equations; lia).
    nia.
  - intros Hl. by replace ((baud =? 0) || (19200 <? baud)) with true by lia.
Qed.

(** ** Witnesses *)

Definition rtu_boot : rtu_frame Trace.trace := mk_rtu [] false 1 9600 true (mb_boot 0).

Definition rtu_request : list Z := with_crc [1; 3; 0; 8; 0; 2].

Example rtu_request_bytes : rtu_request = [1; 3; 0; 8; 0; 2; 0x45; 0xC9].
Proof. vm_compute. reflexivity. Qed.

Lemma rtu_request_reply_witness :
  rtu_t35_expired (feed_all [[1; 3; 0]; [8; 0; 2; 0x45]; [0xC9]] rtu_boot)
  = (Done (Some (with_crc [1; 3; 4; 0x25; 0x80; 0; 1])), served rtu_boot (mb_server_process [3; 0; 8; 0; 2] (mb_boot 0)).2).
Proof.
  apply (rtu_request_reply rtu_boot [[1; 3; 0]; [8; 0; 2; 0x45]; [0xC9]] 1 [3; 0; 8; 0; 2]
           [3; 4; 0x25; 0x80; 0; 1] (mb_server_process [3; 0; 8; 0; 2] (mb_boot 0)).2);
    first [done | solve [repeat constructor; ulia] | unfold zlen; simpl; lia].
Defined.

Lemma rtu_corruption_dropped_witness :
  rtu_t35_expired (feed_all [[1; 3; 0; 9; 0; 2; 0x45; 0xC9]] rtu_boot)
  = (Done None, served rtu_boot (dropped_crc rtu_boot)) ∧
  mb_regs (dropped_crc rtu_boot) = mb_regs (rtu_srv rtu_boot).
Proof.
  apply (rtu_corruption_dropped rtu_boot [[1; 3; 0; 9; 0; 2; 0x45; 0xC9]] 1 [3; 0; 8; 0; 2]
           [1; 3; 0] [8] [9] [0; 2; 0x45; 0xC9]);
    first [done | solve [repeat constructor; ulia] | unfold zlen; simpl; lia].
Defined.

Lemma rtu_feed_and_length_errors_witness :
  let bytes := concat [[1; 3]; [5]] in
  feed_all [[1; 3]; [5]] rtu_boot = set_rx (take 256 bytes) (256 <? zlen bytes) rtu_boot ∧
  (bytes = [] → rtu_t35_expired (feed_all [[1; 3]; [5]] rtu_boot) = (Done None, rtu_boot)) ∧
  (bytes ≠ [] → zlen bytes < RTU_FRAME_MIN ∨ RTU_FRAME_MAX < zlen bytes →
   rtu_t35_expired (feed_all [[1; 3]; [5]] rtu_boot) = (Done None, served rtu_boot (dropped rtu_boot))).
Proof. apply (rtu_feed_and_length_errors rtu_boot [[1; 3]; [5]]). by split. Defined.

Definition port_boot : rtu_port Trace.trace :=
  mb_rtu_start (λ i, rd holding_reg_init (Z.to_nat i)) (mb_boot 0).

(** a request arrives, the timer fires, the task answers *)
Definition port_sending : rtu_port Trace.trace :=
  let s := rtu_t35_timer_cb (HAL_UARTEx_RxEventCallback rtu_request port_boot) in
  match rtu_task_frame true s with Done s' => s' | Reset => s end.


Lemma rtu_tx_releases_witness :
  HAL_UART_ErrorCallback port_sending = HAL_UART_TxCpltCallback port_sending ∧
  let s' := HAL_UART_TxCpltCallback port_sending in
  de s' = false ∧ tx_busy s' = false ∧ rx_on s' = true ∧ fm s' = fm port_sending ∧
  fm (HAL_UARTEx_RxEventCallback [1] s') = (rtu_rx_feed [1] (fm port_sending)).1.
Proof. apply (rtu_tx_releases port_sending [1]); [vm_compute; reflexivity|done]. Defined.

Lemma rtu_t35_bounds_witness :
  1200 ≤ rtu_start_baud 9600 ≤ 115200 ∧
  (rtu_start_baud 9600 ≤ 19200 →
   38500000 ≤ rtu_t35_ms (rtu_start_baud 9600) * 1000 * rtu_start_baud 9600
   < 38500000 + 1000 * rtu_start_baud 9600 + rtu_start_baud 9600) ∧
  (19200 < rtu_start_baud 9600 → rtu_t35_ms (rtu_start_baud 9600) = 2).
Proof. apply (rtu_t35_bounds 9600). ulia. Defined.
