(* ===== verification/FwUpg.v ===== *)
(** The firmware upgrade session: [src/fw/fw_upg.c].

    One session at a time collects an image in 256-byte pages in flash slot 1,
    checks it by reading it back, and looks the public key hash up in its TLV
    area.  The mutex of the file only serialises callers and has no state here.
    [fw_keyhash] is generated by the build from the signing key: a parameter. *)

From S2P Require Import Prelude IoBytes Flash.

Definition PAGE_SZ : Z := 256.
Definition READ_CHUNK : Z := 64.
Definition FW_KEYHASH_LEN : Z := 32.

(** ** CRC16-CCITT *)

Definition crc16_ccitt_step (seed d : Z) : Z :=
  let e := u8 (Z.lxor seed d) in
  let f := u8 (Z.lxor e (Z.shiftl e 4)) in
  u16 (Z.lxor (Z.lxor (Z.lxor (Z.shiftr seed 8) (u16 (Z.shiftl f 8))) (Z.shiftl f 3)) (Z.shiftr f 4)).

Definition crc16_ccitt (seed : Z) (src : list Z) : Z := fold_left crc16_ccitt_step src seed.

(** ** The session *)

(** [page] is [page[0 .. page_len)] *)
Record upg := mk_upg {
  active : bool; failed : bool; total : Z; written : Z; page : list Z }.

Definition upg_boot : upg := mk_upg false false 0 0 [].

Section FwUpg.
Context {F : Type} `{IoFlash F}.
Context (fw_keyhash : list Z).

(** *** The key hash in the image's TLV area *)

(** the [for] loop; the fuel bounds the number of entries *)
Fixpoint tlv_loop (fuel : nat) (off tlv_end : Z) (f : F) : option (list Z) :=
  match fuel with
  | O => None
  | S fuel =>
    if off + 4 <=? tlv_end then
      match iof_read (SLOT1_OFFSET + off) 4 f with
      | None => None
      | Some ent =>
        let tag := get_le16 ent in
        let len := get_le16 (drop 2 ent) in
        if (tag =? 0x0001) && (len =? FW_KEYHASH_LEN)
        then iof_read (SLOT1_OFFSET + off + 4) FW_KEYHASH_LEN f
        else tlv_loop fuel (off + (4 + Z.land (len + 3) (Z.lnot 3))) tlv_end f
      end
    else None
  end.

Definition tlv_keyhash_get (f : F) : option (list Z) :=
  match iof_read SLOT1_OFFSET 32 f with
  | None => None
  | Some hdr =>
    if negb (io_get_le32 hdr =? 0x96F3B83D) then None
    else
      let hdr_size := get_le16 (drop 8 hdr) in
      let img_size := io_get_le32 (drop 12 hdr) in
      if negb (hdr_size =? IMG_HDR_SIZE) then None
      else
        let tlv_off := u32 (hdr_size + img_size) in
        if (SLOT1_SIZE <? u32 (tlv_off + 4)) || negb (Z.land tlv_off 3 =? 0) then None
        else
          match iof_read (SLOT1_OFFSET + tlv_off) 4 f with
          | None => None
          | Some info =>
            let tlv_magic := get_le16 info in
            let tlv_size := get_le16 (drop 2 info) in
            if negb (tlv_magic =? 0x6907) || (tlv_size =? 0) || (SLOT1_SIZE <? u32 (tlv_off + tlv_size))
            then None
            else
              let tlv_end := u32 (tlv_off + tlv_size) in
              tlv_loop (S (Z.to_nat tlv_size)) (u32 (tlv_off + 4)) tlv_end f
          end
  end.

(** *** Page buffer *)

Definition page_flush (f : F) (s : upg) : bool * F * upg :=
  if 0 <? zlen (page s)
  then let '(ok, f) := iof_write (SLOT1_OFFSET + written s) (page s) f in
       (ok, f, mk_upg (active s) (failed s) (total s) (written s) [])
  else (true, f, s).

(** *** Operations: the return codes are the source's *)

Definition fw_upg_start (tot : Z) (keyhash : option (list Z)) (f : F) (s : upg) : Z * F * upg :=
  if active s then (-3, f, s)
  else if (tot <? 64) || (SLOT1_SIZE <? tot) then (-1, f, s)
  else if match keyhash with
          | Some kh => negb (bool_decide (take 32 kh = fw_keyhash))
          | None => false
          end
  then (-2, f, s)
  else
    let '(ok, f) := iof_erase SLOT1_OFFSET SLOT1_SIZE f in
    if negb ok then (-1, f, s) else (0, f, mk_upg true false tot 0 []).

(** the [while (len > 0 && rc == 0)] loop *)
Fixpoint write_loop (fuel : nat) (data : list Z) (f : F) (s : upg) : bool * F * upg :=
  match fuel, data with
  | _, [] => (true, f, s)
  | O, _ => (true, f, s)
  | S fuel, _ =>
    let chunk := Z.min (PAGE_SZ - zlen (page s)) (zlen data) in
    let s := mk_upg (active s) (failed s) (total s) (written s)
                    (page s ++ take (Z.to_nat chunk) data) in
    let data := drop (Z.to_nat chunk) data in
    if zlen (page s) =? PAGE_SZ
    then let '(ok, f, s) := page_flush f s in
         let s := mk_upg (active s) (failed s) (total s) (u32 (written s + PAGE_SZ)) (page s) in
         if ok then write_loop fuel data f s else (false, f, s)
    else write_loop fuel data f s
  end.

Definition fw_upg_write (data : list Z) (f : F) (s : upg) : Z * F * upg :=
  if negb (active s) then (-1, f, s)
  else if failed s then (-1, f, s)
  else if total s <? u32 (written s + zlen (page s) + zlen data)
  then (-1, f, mk_upg (active s) true (total s) (written s) (page s))
  else
    let '(ok, f, s) := write_loop (length data) data f s in
    if ok then (0, f, s)
    else (-1, f, mk_upg (active s) true (total s) (written s) (page s)).

Definition fw_upg_abort (s : upg) : upg := mk_upg false false (total s) 0 [].

(** the read-back loop; [None] is a read error *)
Fixpoint crc_readback (fuel : nat) (off tot crc : Z) (f : F) : option Z :=
  match fuel with
  | O => Some crc
  | S fuel =>
    if off <? tot then
      let n := Z.min (tot - off) READ_CHUNK in
      match iof_read (SLOT1_OFFSET + off) n f with
      | None => None
      | Some buf => crc_readback fuel (off + READ_CHUNK) tot (crc16_ccitt crc buf) f
      end
    else Some crc
  end.

(** the checks after the last page is stored *)
Definition finish_checks (crc_expect : Z) (check_crc : bool) (tot : Z) (f : F) : Z :=
  if check_crc && negb (bool_decide (crc_readback (S (Z.to_nat tot)) 0 tot 0 f = Some crc_expect)) then -1
  else if bool_decide (tlv_keyhash_get f = Some fw_keyhash) then 0 else -1.

Definition fw_upg_finish_ex (crc_expect : Z) (check_crc : bool) (f : F) (s : upg) : Z * F * upg :=
  if negb (active s) then (-1, f, s)
  else
    let s := mk_upg false (failed s) (total s) (written s) (page s) in
    let tail := zlen (page s) in
    let out (rc : Z) (f : F) (s : upg) := (rc, f, mk_upg (active s) false (total s) 0 (page s)) in
    if failed s then out (-1) f s
    else
      let '(ok, f, s) := page_flush f s in
      if negb ok then out (-1) f s
      else
        let s := mk_upg (active s) (failed s) (total s) (u32 (written s + tail)) (page s) in
        if negb (written s =? total s) then out (-1) f s
        else out (finish_checks crc_expect check_crc (total s) f) f s.

Definition fw_upg_finish (crc_expect : Z) (f : F) (s : upg) : Z * F * upg :=
  fw_upg_finish_ex crc_expect true f s.

Definition fw_upg_received (s : upg) : Z := u32 (written s + zlen (page s)).
Definition fw_upg_total (s : upg) : Z := if active s then total s else 0.
Definition fw_upg_active (s : upg) : bool := active s.
Definition fw_upg_failed (s : upg) : bool := failed s.
End FwUpg.

(** ** CRC16-CCITT is the reflected 0x1021 polynomial, byte by byte *)

Lemma ccitt_table :
  forallb (λ n, let e := Z.of_nat n in
                let f := u8 (Z.lxor e (Z.shiftl e 4)) in
                Nat.iter 8 (crc_bit 0x8408) e
                =? Z.lxor (Z.lxor (u16 (Z.shiftl f 8)) (Z.shiftl f 3)) (Z.shiftr f 4)) (seq 0 256) = true.
Proof. vm_compute. reflexivity. Qed.

Lemma ccitt_byte e :
  is_byte e →
  let f := u8 (Z.lxor e (Z.shiftl e 4)) in
  Nat.iter 8 (crc_bit 0x8408) e = Z.lxor (Z.lxor (u16 (Z.shiftl f 8)) (Z.shiftl f 3)) (Z.shiftr f 4).
Proof.
  intros He f. pose proof ccitt_table as Ht. rewrite forallb_forall in Ht.
  specialize (Ht (Z.to_nat e)). rewrite Z2Nat.id in Ht by ulia.
  apply Z.eqb_eq, Ht, in_seq. ulia.
Qed.

Lemma ccitt_step_crc seed d :
  is_u16 seed → is_byte d → crc16_ccitt_step seed d = crc_byte 0x8408 seed d.
Proof.
  intros Hs Hd. assert (is_u 16 (crc_byte 0x8408 seed d)) as Hr.
  { apply (crc_fold_range 0x8408 16) with (l := [d]); first [done|ulia|by constructor]. }
  assert (is_u16 (Z.lxor seed d)) as Hx by (apply lxor_lt; [lia|done|ulia]).
  set (x := Z.lxor seed d) in *.
  assert (x = Z.lxor (u8 x) (Z.shiftl (Z.shiftr seed 8) 8)) as Hsplit.
  { assert (Z.shiftr seed 8 = Z.shiftr x 8) as ->.
    { unfold x. rewrite Z.shiftr_lxor. rewrite (shiftr_div d) by lia.
      rewrite (Z.div_small d) by ulia. by rewrite Z.lxor_0_r. }
    rewrite Z.lxor_comm, <- Z.add_nocarry_lxor by (apply land_low_zero; [lia|apply u8_range]).
    rewrite Z.shiftl_mul_pow2, shiftr_div by lia. unfold u8. change (2 ^ 8) with 256.
    rewrite (Z.div_mod x 256) at 1 by lia. lia. }
  assert (crc_byte 0x8408 seed d = Z.lxor (Nat.iter 8 (crc_bit 0x8408) (u8 x)) (Z.shiftr seed 8)) as Hc.
  { change (crc_byte 0x8408 seed d) with (Nat.iter 8 (crc_bit 0x8408) x). rewrite Hsplit at 1.
    apply (crc_iter_linear 0x8408 16); first [done|ulia]. }
  unfold crc16_ccitt_step. fold x. rewrite ccitt_byte in Hc by apply u8_range. cbv zeta in Hc.
  assert (∀ a b c d, Z.lxor (Z.lxor (Z.lxor a b) c) d = Z.lxor (Z.lxor (Z.lxor b c) d) a) as Hperm.
  { intros a b c e. rewrite !Z.lxor_assoc, Z.lxor_comm, !Z.lxor_assoc. done. }
  rewrite Hperm, <- Hc. by apply u16_id.
Qed.

Lemma crc16_ccitt_crc seed data :
  is_u16 seed → bytes_ok data → crc16_ccitt seed data = fold_left (crc_byte 0x8408) data seed.
Proof.
  intros Hs Hd. revert seed Hs. induction Hd as [|d data Hd Hdata IH]; intros seed Hs; [done|].
  unfold crc16_ccitt in *. simpl. rewrite ccitt_step_crc by done. apply IH.
  apply (crc_fold_range 0x8408 16) with (l := [d]); first [done|ulia|by constructor].
Qed.

(** ** The session appends to an image *)

Section Session.
Context {F : Type} `{FlashLaws F}.
Context (fw_keyhash : list Z).

(** [img] has been received: whole pages are in slot 1, the rest in the page
    buffer, and the slot is erased behind them *)
Definition session_ok (f : F) (s : upg) (img : list Z) : Prop :=
  active s = true ∧ failed s = false ∧ 64 ≤ total s ≤ SLOT1_SIZE ∧ zlen img ≤ total s ∧
  bytes_ok img ∧ written s mod 256 = 0 ∧ 0 ≤ written s ∧ zlen (page s) < 256 ∧
  img = cells f SLOT1_OFFSET (Z.to_nat (written s)) ++ page s ∧
  ∀ x, SLOT1_OFFSET + written s ≤ x < SLOT1_OFFSET + SLOT1_SIZE → cell f x = 255.

Lemma session_len f s img : session_ok f s img → zlen img = written s + zlen (page s).
Proof.
  intros (_ & _ & _ & _ & _ & _ & Hw & _ & Himg & _).
  rewrite Himg. unfold zlen. rewrite length_app, length_cells. lia.
Qed.

(** storing [p] at the write position of a slot erased from there on *)
Lemma slot_store f w p :
  0 ≤ w → w mod 256 = 0 → 0 < zlen p ≤ 256 → w + zlen p ≤ SLOT1_SIZE → bytes_ok p →
  (∀ x, SLOT1_OFFSET + w ≤ x < SLOT1_OFFSET + SLOT1_SIZE → cell f x = 255) →
  ∃ f', iof_write (SLOT1_OFFSET + w) p f = (true, f') ∧
    cells f' SLOT1_OFFSET (Z.to_nat (w + zlen p)) = cells f SLOT1_OFFSET (Z.to_nat w) ++ p ∧
    ∀ x, SLOT1_OFFSET + w + zlen p ≤ x < SLOT1_OFFSET + SLOT1_SIZE → cell f' x = 255.
Proof.
  unfold SLOT1_OFFSET, SLOT1_SIZE. rewrite !Z.add_0_l. intros Hw Hm Hp Hfit Hb He.
  destruct (write_law w p f) as [Hok Hc]; try done; [unfold NOR_SIZE; lia|lia|intros; apply He; lia|].
  pose proof (write_frame w p f) as Hfr.
  destruct (iof_write w p f) as [ok f'] eqn:Ew; simpl in *. subst ok. exists f'. split; [done|]. split.
  - replace (Z.to_nat (w + zlen p)) with (Z.to_nat w + length p)%nat by (unfold zlen; lia).
    rewrite cells_app. replace (0 + Z.of_nat (Z.to_nat w)) with w by lia. rewrite Hc. f_equal.
    apply cells_ext. intros x Hx. apply Hfr. lia.
  - intros x Hx. rewrite Hfr by lia. apply He. lia.
Qed.

Lemma fw_upg_start_ok tot kh f s :
  active s = false → 64 ≤ tot ≤ SLOT1_SIZE → (∀ k, kh = Some k → take 32 k = fw_keyhash) →
  ∃ f' s', fw_upg_start fw_keyhash tot kh f s = (0, f', s') ∧ session_ok f' s' [] ∧ total s' = tot.
Proof.
  intros Ha Ht Hk. unfold fw_upg_start. rewrite Ha.
  replace ((tot <? 64) || (SLOT1_SIZE <? tot)) with false by lia.
  assert (match kh with Some k => negb (bool_decide (take 32 k = fw_keyhash)) | None => false end = false) as ->.
  { destruct kh as [k|]; [|done]. rewrite bool_decide_true; [done|by apply Hk]. }
  destruct (erase_law SLOT1_OFFSET SLOT1_SIZE f) as [Hok He]; try done.
  destruct (iof_erase SLOT1_OFFSET SLOT1_SIZE f) as [ok f']; simpl in *. subst ok.
  eexists _, _. split; [done|]. split; [|done].
  split_and!; simpl; try done; try lia. unfold zlen; simpl; lia.
Qed.

(** one full page moves to flash *)
Lemma write_loop_ok fuel data f s img :
  (length data ≤ fuel)%nat → session_ok f s img → bytes_ok data → zlen img + zlen data ≤ total s →
  ∃ f' s', write_loop fuel data f s = (true, f', s') ∧ session_ok f' s' (img ++ data) ∧ total s' = total s.
Proof.
  revert data f s img. induction fuel as [|fuel IH]; intros data f s img Hf Hs Hd Hfit.
  { destruct data; [|simpl in Hf; lia]. exists f, s. rewrite app_nil_r. by destruct Hs. }
  destruct data as [|b data].
  { exists f, s. rewrite app_nil_r. by destruct Hs. }
  pose proof (session_len f s img Hs) as Hlen.
  destruct Hs as (Ha & Hfa & Htot & Hl & Hb & Hm & Hw & Hp & Himg & He).
  cbn [write_loop]. unfold PAGE_SZ.
  set (n := Z.to_nat (Z.min (256 - zlen (page s)) (zlen (b :: data)))).
  assert (0 < n ≤ length (b :: data))%nat as Hn by (unfold n, zlen in *; simpl in *; lia).
  set (pg := page s ++ take n (b :: data)). cbv zeta.
  assert (zlen pg = zlen (page s) + Z.of_nat n) as Hpg
    by (unfold pg, zlen; rewrite length_app, length_take; lia).
  assert (zlen (b :: data) = Z.of_nat n + zlen (drop n (b :: data))) as Hdrop
    by (unfold zlen; rewrite length_drop; lia).
  assert (img ++ b :: data = (img ++ take n (b :: data)) ++ drop n (b :: data)) as ->
    by (by rewrite <- app_assoc, take_drop).
  assert (img ++ take n (b :: data) = cells f SLOT1_OFFSET (Z.to_nat (written s)) ++ pg) as Himg'
    by (unfold pg; by rewrite Himg, <- app_assoc).
  assert (bytes_ok (img ++ take n (b :: data))) as Hbok by (apply Forall_app; split; [done|by apply Forall_take]).
  assert (length (drop n (b :: data)) ≤ fuel)%nat as Hf' by (rewrite length_drop; simpl in *; lia).
  assert (bytes_ok (drop n (b :: data))) as Hd' by by apply Forall_drop.
  assert (zlen (img ++ take n (b :: data)) = zlen img + Z.of_nat n) as Hli
    by (unfold zlen; rewrite length_app, length_take; lia).
  cbn [page written active failed total]. unfold page_flush. cbn [page written active failed total].
  destruct (Z.eqb_spec (zlen pg) 256) as [E256|Ene].
  - replace (0 <? zlen pg) with true by lia.
    destruct (slot_store f (written s) pg) as (f1 & Hwr & Hc1 & He1);
      [done|done|lia|lia| |done|].
    { rewrite Himg' in Hbok. by apply Forall_app in Hbok as [_ ?]. }
    rewrite Hwr. cbn [page written active failed total].
    unfold SLOT1_SIZE in *. rewrite u32_id by ulia.
    apply (IH _ f1 (mk_upg (active s) (failed s) (total s) (written s + 256) [])); [done| |done|cbn; lia].
    split_and!; cbn; unfold SLOT1_SIZE; try done; try lia.
    + Z.div_mod_to_equations. lia.
    + by rewrite app_nil_r, Himg', <- Hc1, E256.
    + intros x Hx. apply He1. lia.
  - apply (IH _ f (mk_upg (active s) (failed s) (total s) (written s) pg)); [done| |done|cbn; lia].
    split_and!; cbn; try done; lia.
Qed.

Lemma fw_upg_write_ok data f s img :
  session_ok f s img → bytes_ok data → zlen img + zlen data ≤ total s →
  ∃ f' s', fw_upg_write data f s = (0, f', s') ∧ session_ok f' s' (img ++ data) ∧ total s' = total s.
Proof.
  intros Hs Hd Hfit. pose proof (session_len f s img Hs) as Hlen.
  destruct (write_loop_ok (length data) data f s img) as (f' & s' & Hr & Hok & Ht); [done..|].
  exists f', s'. split; [|done]. unfold fw_upg_write.
  destruct Hs as (-> & -> & Htot & _ & _ & _ & Hw & _). cbn [negb].
  assert (0 ≤ zlen (page s) ∧ 0 ≤ zlen data) by (unfold zlen; lia).
  unfold SLOT1_SIZE in Htot. rewrite u32_id by ulia.
  replace (total s <? written s + zlen (page s) + zlen data) with false by lia. by rewrite Hr.
Qed.

(** the read-back loop computes the checksum of the cells *)
Lemma crc_readback_cells fuel off tot crc f :
  0 ≤ off → tot ≤ SLOT1_SIZE → off mod 64 = 0 → tot - off ≤ 64 * Z.of_nat fuel →
  crc_readback fuel off tot crc f
  = Some (crc16_ccitt crc (cells f (SLOT1_OFFSET + off) (Z.to_nat (tot - off)))).
Proof.
  unfold SLOT1_SIZE. revert off crc. induction fuel as [|fuel IH]; intros off crc Ho Ht Hm Hf.
  - cbn. by replace (Z.to_nat (tot - off)) with 0%nat by lia.
  - cbn [crc_readback]. destruct (off <? tot) eqn:Eo.
    2:{ by replace (Z.to_nat (tot - off)) with 0%nat by lia. }
    unfold READ_CHUNK in *. rewrite read_law by (unfold SLOT1_OFFSET, NOR_SIZE; lia).
    rewrite IH; [|lia..|rewrite Z.add_mod, Hm by lia; done|lia].
    f_equal. unfold crc16_ccitt. rewrite <- fold_left_app. f_equal.
    destruct (decide (tot - off ≤ 64)) as [Hle|Hgt].
    + rewrite Z.min_l by lia. replace (Z.to_nat (tot - (off + 64))) with 0%nat by lia.
      apply app_nil_r.
    + rewrite Z.min_r by lia.
      replace (Z.to_nat (tot - off)) with (Z.to_nat 64 + Z.to_nat (tot - (off + 64)))%nat by lia.
      rewrite cells_app. do 2 f_equal.
Qed.

(** the last page is stored: the slot holds the image, then the checks decide *)
Lemma fw_upg_finish_run crc check f s img :
  session_ok f s img → zlen img = total s →
  ∃ f' s', fw_upg_finish_ex fw_keyhash crc check f s
           = (if (negb check || (crc16_ccitt 0 img =? crc)) && bool_decide (tlv_keyhash_get f' = Some fw_keyhash)
              then 0 else -1, f', s') ∧
    active s' = false ∧ cells f' SLOT1_OFFSET (length img) = img ∧
    ∀ x, SLOT1_OFFSET + zlen img ≤ x < SLOT1_OFFSET + SLOT1_SIZE → cell f' x = 255.
Proof.
  intros Hs Hfull. pose proof (session_len f s img Hs) as Hlen.
  destruct Hs as (Ha & Hfa & Htot & Hl & Hb & Hm & Hw & Hp & Himg & He).
  assert (∃ f', page_flush f (mk_upg false false (total s) (written s) (page s))
                = (true, f', mk_upg false false (total s) (written s) []) ∧
                cells f' SLOT1_OFFSET (length img) = img ∧
                ∀ x, SLOT1_OFFSET + zlen img ≤ x < SLOT1_OFFSET + SLOT1_SIZE → cell f' x = 255)
    as (f' & Hfl & Hc & He').
  { unfold page_flush. cbn [page written active failed total].
    assert (Z.to_nat (written s + zlen (page s)) = length img) as Hnl by (unfold zlen in *; lia).
    destruct (0 <? zlen (page s)) eqn:E0.
    - destruct (slot_store f (written s) (page s)) as (f' & Hwr & Hc & He1); try done; [lia|lia| |].
      { rewrite Himg in Hb. by apply Forall_app in Hb as [_ ?]. }
      exists f'. rewrite Hwr. split; [done|]. rewrite <- Hnl, Hc. split; [done|].
      intros x Hx. apply He1. lia.
    - assert (page s = []) as Hnil by (destruct (page s); [done|unfold zlen in *; simpl in *; lia]).
      exists f. rewrite Hnil in *. split; [done|].
      rewrite app_nil_r in Himg. split; [|intros x Hx; apply He; unfold zlen in *; simpl in *; lia].
      rewrite <- Hnl. unfold zlen; simpl. by rewrite Z.add_0_r. }
  exists f', (mk_upg false false (total s) 0 []). split_and!; [|done|done|done].
  unfold fw_upg_finish_ex. rewrite Ha, Hfa. cbn [negb active failed page written total]. rewrite Hfl.
  cbn [negb active failed page written total]. unfold SLOT1_SIZE in *.
  assert (0 ≤ zlen (page s)) by (unfold zlen; lia).
  rewrite u32_id by ulia. replace (written s + zlen (page s) =? total s) with true by lia. cbn [negb].
  unfold finish_checks.
  assert (crc_readback (S (Z.to_nat (total s))) 0 (total s) 0 f' = Some (crc16_ccitt 0 img)) as ->.
  { rewrite crc_readback_cells; [|lia|unfold SLOT1_SIZE; lia|done|lia].
    rewrite Z.add_0_r, Z.sub_0_r, <- Hfull. do 2 f_equal. rewrite <- Hc at 2.
    f_equal. unfold zlen. lia. }
  assert (bool_decide (Some (crc16_ccitt 0 img) = Some crc) = (crc16_ccitt 0 img =? crc)) as ->.
  { destruct (Z.eqb_spec (crc16_ccitt 0 img) crc) as [->|Hne];
      [by apply bool_decide_eq_true_2|apply bool_decide_eq_false_2; congruence]. }
  destruct check, (crc16_ccitt 0 img =? crc); cbn [negb andb orb]; try done; by case_bool_decide.
Qed.

Fixpoint write_all_data (chunks : list (list Z)) (f : F) (s : upg) : list Z * F * upg :=
  match chunks with
  | [] => ([], f, s)
  | d :: chunks =>
    let '(rc, f, s) := fw_upg_write d f s in
    let '(rcs, f, s) := write_all_data chunks f s in (rc :: rcs, f, s)
  end.

Lemma write_all_data_ok chunks f s img :
  session_ok f s img → bytes_ok (concat chunks) → zlen img + zlen (concat chunks) ≤ total s →
  ∃ f' s', write_all_data chunks f s = (replicate (length chunks) 0, f', s') ∧
           session_ok f' s' (img ++ concat chunks) ∧ total s' = total s.
Proof.
  revert f s img. induction chunks as [|d chunks IH]; intros f s img Hs Hb Hl.
  - exists f, s. simpl. by rewrite app_nil_r.
  - simpl in *. apply Forall_app in Hb as [Hbd Hb].
    assert (zlen (d ++ concat chunks) = zlen d + zlen (concat chunks)) as Hc
      by (unfold zlen; rewrite length_app; lia).
    assert (0 ≤ zlen (concat chunks)) by (unfold zlen; lia).
    destruct (fw_upg_write_ok d f s img) as (f1 & s1 & -> & Hs1 & Ht1); [done|done|lia|].
    destruct (IH f1 s1 (img ++ d)) as (f2 & s2 & -> & Hs2 & Ht2); [done|done| |].
    { rewrite Ht1. unfold zlen in *. rewrite length_app. lia. }
    exists f2, s2. rewrite app_assoc. split; [done|]. split; [done|congruence].
Qed.
End Session.

(** ** The TLV area of a signed image *)

(** an entry padded to four bytes, as the parser steps over it *)
Definition tlv_entry (e : Z * list Z) : list Z :=
  put_le16 e.1 ++ put_le16 (zlen e.2) ++ e.2 ++
  replicate (Z.to_nat (4 * ((zlen e.2 + 3) / 4) - zlen e.2)) 0.

Definition tlv_entries (es : list (Z * list Z)) : list Z := concat (tlv_entry <$> es).

Definition tlv_ok (e : Z * list Z) : Prop := is_u16 e.1 ∧ is_u16 (zlen e.2).

Definition tlv_area (es : list (Z * list Z)) : list Z :=
  put_le16 0x6907 ++ put_le16 (4 + zlen (tlv_entries es)) ++ tlv_entries es.

(** magic, load address, header size, protected TLV size, image size, the rest of
    the 0x200-byte header, the code, the TLV area *)
Definition mk_image (addr4 prot2 rest payload : list Z) (es : list (Z * list Z)) : list Z :=
  io_put_le32 0x96F3B83D ++ addr4 ++ put_le16 IMG_HDR_SIZE ++ prot2 ++ io_put_le32 (zlen payload) ++
  rest ++ payload ++ tlv_area es.

Lemma land_not3 n : 0 ≤ n → Z.land n (Z.lnot 3) = 4 * (n / 4).
Proof.
  intros Hn. change (Z.land n (Z.lnot 3)) with (Z.land n (Z.lnot (Z.ones 2))).
  rewrite <- Z.ldiff_land, Z.ldiff_ones_r by lia.
  rewrite Z.shiftr_div_pow2, Z.shiftl_mul_pow2 by lia. change (2 ^ 2) with 4. lia.
Qed.

Lemma tlv_entries_cons e es : tlv_entries (e :: es) = tlv_entry e ++ tlv_entries es.
Proof. reflexivity. Qed.

Lemma length_tlv_entry e : zlen (tlv_entry e) = 4 + 4 * ((zlen e.2 + 3) / 4).
Proof.
  unfold tlv_entry, zlen. rewrite !length_app, length_replicate. simpl.
  Z.div_mod_to_equations. lia.
Qed.


Section Tlv.
Context {F : Type} `{FlashLaws F}.

(** reading a window of known cells *)
Lemma read_known f a l1 l2 l3 :
  0 ≤ a → a + zlen (l1 ++ l2 ++ l3) ≤ NOR_SIZE →
  cells f a (length (l1 ++ l2 ++ l3)) = l1 ++ l2 ++ l3 →
  iof_read (a + zlen l1) (zlen l2) f = Some l2.
Proof.
  intros Ha Hr Hc. rewrite !zlen_app in Hr.
  pose proof (zlen_nonneg l1). pose proof (zlen_nonneg l2). pose proof (zlen_nonneg l3).
  rewrite read_law by lia. f_equal. unfold zlen at 2. rewrite Nat2Z.id.
  pose proof (cells_slice f a (length (l1 ++ l2 ++ l3)) (length l1) (length l2)) as Hsl.
  unfold zlen. rewrite <- Hsl by (rewrite !length_app; lia). rewrite Hc. unfold slice.
  by rewrite drop_app_length, take_app_length.
Qed.

Lemma get_le16_put v l : is_u16 v → get_le16 (put_le16 v ++ l) = v.
Proof. intros. unfold put_le16. simpl. rewrite get_le16_app. by apply le16_roundtrip. Qed.
Lemma get_le32_put v l : is_u32 v → io_get_le32 (io_put_le32 v ++ l) = v.
Proof. intros. unfold io_put_le32. simpl. rewrite get_le32_app. by apply le32_roundtrip. Qed.

Lemma read_entry_head f a pre e post :
  0 ≤ a → a + zlen (pre ++ tlv_entry e ++ post) ≤ NOR_SIZE →
  cells f a (length (pre ++ tlv_entry e ++ post)) = pre ++ tlv_entry e ++ post →
  tlv_ok e →
  ∃ ent, iof_read (a + zlen pre) 4 f = Some ent ∧ get_le16 ent = e.1 ∧ get_le16 (drop 2 ent) = zlen e.2 ∧
         iof_read (a + zlen pre + 4) (zlen e.2) f = Some e.2.
Proof.
  intros Ha Hr Hc [Ht Hl]. exists (put_le16 e.1 ++ put_le16 (zlen e.2)).
  set (pad := replicate (Z.to_nat (4 * ((zlen e.2 + 3) / 4) - zlen e.2)) 0).
  assert (pre ++ tlv_entry e ++ post = pre ++ (put_le16 e.1 ++ put_le16 (zlen e.2)) ++ (e.2 ++ pad ++ post)) as E1
    by (unfold tlv_entry; fold pad; by rewrite <- !app_assoc).
  assert (pre ++ tlv_entry e ++ post = (pre ++ put_le16 e.1 ++ put_le16 (zlen e.2)) ++ e.2 ++ (pad ++ post)) as E2
    by (unfold tlv_entry; fold pad; by rewrite <- !app_assoc).
  split_and!.
  - rewrite E1 in Hc, Hr. by apply (read_known f a pre (put_le16 e.1 ++ put_le16 (zlen e.2)) (e.2 ++ pad ++ post)).
  - by apply get_le16_put.
  - change (drop 2 (put_le16 e.1 ++ put_le16 (zlen e.2))) with (put_le16 (zlen e.2)).
    by apply le16_roundtrip.
  - rewrite E2 in Hc, Hr. pose proof (read_known f a _ _ _ Ha Hr Hc) as Hk.
    rewrite !zlen_app in Hk. unfold zlen at 2 3 in Hk. simpl in Hk.
    by replace (a + zlen pre + 4) with (a + (zlen pre + (2 + 2))) by lia.
Qed.

(** the loop steps over other entries and stops at the first key hash *)
Lemma tlv_loop_found f es kh post pre fuel tlv_end :
  cells f SLOT1_OFFSET (length (pre ++ tlv_entries es ++ tlv_entry (1, kh) ++ post))
  = pre ++ tlv_entries es ++ tlv_entry (1, kh) ++ post →
  zlen (pre ++ tlv_entries es ++ tlv_entry (1, kh) ++ post) ≤ NOR_SIZE →
  zlen pre + zlen (tlv_entries es) + 4 ≤ tlv_end →
  zlen kh = FW_KEYHASH_LEN → Forall tlv_ok es →
  Forall (λ e, e.1 ≠ 1 ∨ zlen e.2 ≠ FW_KEYHASH_LEN) es → (length es < fuel)%nat →
  tlv_loop fuel (zlen pre) tlv_end f = Some kh.
Proof.
  intros Hc Hr He Hk Hok Hother Hfuel. revert pre fuel Hc Hr He Hfuel.
  induction Hok as [|e es Heok Hok IH]; intros pre fuel Hc Hr He Hfuel;
    (destruct fuel as [|fuel]; [simpl in Hfuel; lia|]); cbn [tlv_loop].
  - change (tlv_entries []) with (@nil Z) in *. rewrite app_nil_l in Hc, Hr.
    change (zlen (@nil Z)) with 0 in He.
    replace (zlen pre + 4 <=? tlv_end) with true by lia.
    destruct (read_entry_head f SLOT1_OFFSET pre (1, kh) post) as (ent & -> & -> & -> & Hv);
      [done|done|done|split; simpl; [ulia|rewrite Hk; unfold FW_KEYHASH_LEN; ulia]|].
    simpl in Hv. rewrite Hk in *. cbn [fst snd]. rewrite Hk. change ((1 =? 1) && (FW_KEYHASH_LEN =? FW_KEYHASH_LEN)) with true. exact Hv.
  - apply Forall_cons_iff in Hother as [Hne Hother].
    rewrite tlv_entries_cons, <- (app_assoc (tlv_entry e)) in Hc, Hr.
    rewrite tlv_entries_cons, zlen_app in He. simpl in Hfuel. pose proof (length_tlv_entry e) as Hle. pose proof (zlen_nonneg e.2).
    pose proof (zlen_nonneg (tlv_entries es)).
    assert (0 ≤ (zlen e.2 + 3) / 4) by (apply Z.div_pos; lia).
    replace (zlen pre + 4 <=? tlv_end) with true by lia.
    destruct (read_entry_head f SLOT1_OFFSET pre e (tlv_entries es ++ tlv_entry (1, kh) ++ post))
      as (ent & -> & -> & -> & _); [done|done|done|done|].
    replace ((e.1 =? 1) && (zlen e.2 =? FW_KEYHASH_LEN)) with false by lia.
    rewrite land_not3 by lia. rewrite <- Hle, <- zlen_app.
    rewrite (app_assoc pre) in Hc, Hr.
    apply IH; [done|done|done| |lia]. rewrite zlen_app. lia.
Qed.
End Tlv.

Section Image.
Context {F : Type} `{FlashLaws F}.

Lemma zlen_put_le16 v : zlen (put_le16 v) = 2. Proof. reflexivity. Qed.
Lemma zlen_put_le32 v : zlen (io_put_le32 v) = 4. Proof. reflexivity. Qed.

(** the 32 bytes the parser reads first *)
Lemma header_fields addr4 prot2 r16 n :
  zlen addr4 = 4 → zlen prot2 = 2 → is_u32 n →
  let hdr := io_put_le32 0x96F3B83D ++ addr4 ++ put_le16 IMG_HDR_SIZE ++ prot2 ++ io_put_le32 n ++ r16 in
  io_get_le32 hdr = 0x96F3B83D ∧ get_le16 (drop 8 hdr) = IMG_HDR_SIZE ∧ io_get_le32 (drop 12 hdr) = n.
Proof.
  intros Ha Hp Hn hdr. unfold zlen in *. split_and!.
  - apply get_le32_put. ulia.
  - unfold hdr. rewrite app_assoc, (drop_app_length' _ _ 8) by (rewrite length_app; simpl; lia).
    apply get_le16_put. unfold IMG_HDR_SIZE. ulia.
  - unfold hdr. rewrite !app_assoc.
    rewrite <- (app_assoc _ _ r16).
    rewrite (drop_app_length' _ _ 12) by (rewrite !length_app; simpl; lia).
    by apply get_le32_put.
Qed.

Lemma tlv_entries_count l : (length l ≤ Z.to_nat (zlen (tlv_entries l)))%nat.
Proof.
  induction l as [|e l IH]; [simpl; lia|]. rewrite tlv_entries_cons, zlen_app, length_tlv_entry.
  pose proof (zlen_nonneg e.2). pose proof (zlen_nonneg (tlv_entries l)).
  assert (0 ≤ (zlen e.2 + 3) / 4) by (apply Z.div_pos; lia). simpl. lia.
Qed.

(** an image in slot 1 *)
Context (f : F) (addr4 prot2 rest payload : list Z) (es : list (Z * list Z)).
Let img := mk_image addr4 prot2 rest payload es.
Let off := IMG_HDR_SIZE + zlen payload.
Let sz := 4 + zlen (tlv_entries es).
Hypothesis (Ha : zlen addr4 = 4) (Hp : zlen prot2 = 2) (Hrest : zlen rest = IMG_HDR_SIZE - 16).
Hypothesis (Hpl : zlen payload mod 4 = 0) (Hfit : zlen img ≤ SLOT1_SIZE) (Htl : sz < 65536).
Hypothesis (Hc : cells f SLOT1_OFFSET (length img) = img).

Lemma image_len : zlen img = off + sz.
Proof.
  unfold img, mk_image, tlv_area, off, sz.
  rewrite !zlen_app, !zlen_put_le16, !zlen_put_le32. unfold IMG_HDR_SIZE in *. lia.
Qed.

(** the image as header, middle and TLV area *)
Lemma image_split :
  ∃ hdr mid, img = hdr ++ mid ++ tlv_area es ∧ zlen hdr = 32 ∧ zlen (hdr ++ mid) = off ∧
    io_get_le32 hdr = 0x96F3B83D ∧ get_le16 (drop 8 hdr) = IMG_HDR_SIZE ∧
    io_get_le32 (drop 12 hdr) = zlen payload.
Proof.
  pose proof image_len as Hlen. pose proof (zlen_nonneg payload). pose proof (zlen_nonneg (tlv_entries es)).
  unfold off, sz, SLOT1_SIZE, IMG_HDR_SIZE in *.
  exists (io_put_le32 0x96F3B83D ++ addr4 ++ put_le16 IMG_HDR_SIZE ++ prot2 ++ io_put_le32 (zlen payload) ++ take 16 rest),
    (drop 16 rest ++ payload).
  assert (zlen (take 16 rest) = 16) as Hr16 by (unfold zlen in *; rewrite length_take; lia).
  assert (zlen (drop 16 rest) = 496 - 16) as Hr by (unfold zlen in *; rewrite length_drop; lia).
  split; [|split; [|split]].
  - unfold img, mk_image. rewrite <- !app_assoc. do 5 f_equal.
    rewrite <- (take_drop 16 rest) at 1. by rewrite <- app_assoc.
  - rewrite !zlen_app, zlen_put_le16, !zlen_put_le32. lia.
  - rewrite !zlen_app, zlen_put_le16, !zlen_put_le32. lia.
  - apply header_fields; [done|done|ulia].
Qed.

(** the parser reaches the entries *)
Lemma keyhash_get_loop :
  tlv_keyhash_get f = tlv_loop (S (Z.to_nat sz)) (off + 4) (off + sz) f.
Proof.
  destruct image_split as (hdr & mid & Himg & Hh & Hoff & F1 & F2 & F3).
  pose proof image_len as Hlen. pose proof (zlen_nonneg payload). pose proof (zlen_nonneg (tlv_entries es)).
  assert (off mod 4 = 0) as Hal
    by (unfold off, IMG_HDR_SIZE; rewrite Z.add_mod, Hpl by lia; done).
  assert (512 ≤ off ∧ 4 ≤ sz) as [Ho Hs] by (unfold off, sz, IMG_HDR_SIZE; lia).
  assert (512 + zlen payload = off) as Hofe by done.
  unfold SLOT1_SIZE in Hfit. unfold tlv_keyhash_get.
  pose proof (read_known f SLOT1_OFFSET [] hdr (mid ++ tlv_area es)) as R1.
  rewrite app_nil_l, <- Himg, Hh in R1. change (SLOT1_OFFSET + zlen (@nil Z)) with SLOT1_OFFSET in R1.
  rewrite R1 by (done || (unfold SLOT1_OFFSET, NOR_SIZE; lia)). rewrite F1, F2, F3.
  change (negb (0x96F3B83D =? 0x96F3B83D)) with false.
  change (negb (IMG_HDR_SIZE =? IMG_HDR_SIZE)) with false. cbv iota. fold off.
  pose proof (read_known f SLOT1_OFFSET (hdr ++ mid) (put_le16 0x6907 ++ put_le16 sz) (tlv_entries es)) as R2.
  assert ((hdr ++ mid) ++ (put_le16 0x6907 ++ put_le16 sz) ++ tlv_entries es = img) as Himg2
    by (rewrite Himg; unfold tlv_area; by rewrite <- !app_assoc).
  rewrite Himg2, Hoff, zlen_app, !zlen_put_le16 in R2. change (2 + 2) with 4 in R2.
  clearbody off sz. rewrite (u32_id off), (u32_id (off + 4)) by ulia.
  assert (Z.land off 3 = 0) as ->.
  { change 3 with (Z.ones 2). by rewrite Z.land_ones by lia. }
  unfold SLOT1_SIZE. replace ((458752 <? off + 4) || negb (0 =? 0)) with false by lia.
  rewrite R2 by (done || (unfold SLOT1_OFFSET, NOR_SIZE; lia)). rewrite get_le16_put by ulia.
  change (drop 2 (put_le16 0x6907 ++ put_le16 sz)) with (put_le16 sz).
  rewrite le16_roundtrip, (u32_id (off + sz)) by ulia.
  by replace (negb (0x6907 =? 0x6907) || (sz =? 0) || (458752 <? off + sz)) with false by lia.
Qed.

Lemma keyhash_in_image es1 kh es2 :
  es = es1 ++ (1, kh) :: es2 → Forall tlv_ok es → zlen kh = FW_KEYHASH_LEN →
  Forall (λ e, e.1 ≠ 1 ∨ zlen e.2 ≠ FW_KEYHASH_LEN) es1 →
  tlv_keyhash_get f = Some kh.
Proof.
  intros Hes Hok Hk Hother. rewrite keyhash_get_loop.
  destruct image_split as (hdr & mid & Himg & _ & Hoff & _). pose proof image_len as Hlen.
  assert (tlv_entries es = tlv_entries es1 ++ tlv_entry (1, kh) ++ tlv_entries es2) as Hte.
  { rewrite Hes. unfold tlv_entries. by rewrite fmap_app, concat_app. }
  pose proof (length_tlv_entry (1, kh)) as Hle. simpl in Hle. rewrite Hk in Hle.
  pose proof (tlv_entries_count es1). pose proof (zlen_nonneg (tlv_entries es1)).
  pose proof (zlen_nonneg (tlv_entries es2)).
  unfold FW_KEYHASH_LEN in Hle. change (4 + 4 * ((32 + 3) / 4)) with 36 in Hle.
  assert (sz = 40 + zlen (tlv_entries es1) + zlen (tlv_entries es2)) as Hsz
    by (unfold sz; rewrite Hte, !zlen_app, Hle; lia).
  set (pre := hdr ++ mid ++ put_le16 0x6907 ++ put_le16 sz).
  assert (zlen pre = off + 4) as Hpre
    by (unfold pre; rewrite app_assoc, zlen_app, Hoff, zlen_app, !zlen_put_le16; lia).
  assert (img = pre ++ tlv_entries es1 ++ tlv_entry (1, kh) ++ tlv_entries es2) as Himg3.
  { rewrite Himg. unfold pre, tlv_area. fold sz. by rewrite Hte, <- !app_assoc. }
  unfold SLOT1_SIZE in Hfit. rewrite <- Hpre.
  apply (tlv_loop_found f es1 kh (tlv_entries es2)); rewrite <- ?Himg3;
    [done|unfold NOR_SIZE; lia|rewrite Hpre, Hsz; lia|done| |done|lia].
  rewrite Hes in Hok. by apply Forall_app in Hok as [? _].
Qed.
End Image.

(** ** Properties *)

(** a whole upgrade: start, the chunks in order, finish; the three return codes,
    the slot and the session it leaves *)
Definition upgrade {F} `{IoFlash F} (fw_keyhash : list Z) (tot : Z) (kh : option (list Z))
    (chunks : list (list Z)) (crc : Z) (check : bool) (f : F) (s : upg) : Z * list Z * Z * F * upg :=
  let '(rc1, f, s) := fw_upg_start fw_keyhash tot kh f s in
  let '(rcs, f, s) := write_all_data chunks f s in
  let '(rc2, f, s) := fw_upg_finish_ex fw_keyhash crc check f s in
  (rc1, rcs, rc2, f, s).

Lemma upgrade_run {F} `{FlashLaws F} fw_keyhash tot kh chunks crc check (f : F) s :
  active s = false → 64 ≤ tot ≤ SLOT1_SIZE → (∀ k, kh = Some k → take 32 k = fw_keyhash) →
  bytes_ok (concat chunks) → zlen (concat chunks) = tot →
  ∃ f' s', upgrade fw_keyhash tot kh chunks crc check f s
           = (0, replicate (length chunks) 0,
              if (negb check || (crc16_ccitt 0 (concat chunks) =? crc)) &&
                 bool_decide (tlv_keyhash_get f' = Some fw_keyhash) then 0 else -1, f', s') ∧
    active s' = false ∧ cells f' SLOT1_OFFSET (length (concat chunks)) = concat chunks ∧
    ∀ x, SLOT1_OFFSET + tot ≤ x < SLOT1_OFFSET + SLOT1_SIZE → cell f' x = 255.
Proof.
  intros Ha Ht Hk Hb Hl. unfold upgrade.
  destruct (fw_upg_start_ok fw_keyhash tot kh f s Ha Ht Hk) as (f1 & s1 & -> & Hs1 & Ht1).
  destruct (write_all_data_ok chunks f1 s1 []) as (f2 & s2 & -> & Hs2 & Ht2);
    [done|done|rewrite Ht1, Hl; unfold zlen; simpl; lia|].
  destruct (fw_upg_finish_run fw_keyhash crc check f2 s2 _ Hs2) as (f3 & s3 & -> & Hact & Hc & He);
    [rewrite Ht2, Ht1; exact Hl|].
  exists f3, s3. split; [done|]. split; [done|]. split; [done|].
  intros x Hx. apply He. change ([] ++ concat chunks) with (concat chunks). by rewrite Hl.
Qed.

(** C14: a complete upgrade refines "store this image": however the image is cut
    into chunks, start and every write succeed, slot 1 then holds exactly the
    received bytes with erased flash behind them, the session is closed, and the
    final code says exactly whether the checksum (when asked for) and the key hash
    of the stored image are right. *)
Theorem upgrade_stores_image {F} `{FlashLaws F} fw_keyhash tot kh chunks crc check (f : F) s :
  active s = false → 64 ≤ tot ≤ SLOT1_SIZE → (∀ k, kh = Some k → take 32 k = fw_keyhash) →
  bytes_ok (concat chunks) → zlen (concat chunks) = tot →
  ∃ f' s', upgrade fw_keyhash tot kh chunks crc check f s
           = (0, replicate (length chunks) 0,
              if (negb check || (crc16_ccitt 0 (concat chunks) =? crc)) &&
                 bool_decide (tlv_keyhash_get f' = Some fw_keyhash) then 0 else -1, f', s') ∧
    active s' = false ∧ cells f' SLOT1_OFFSET (length (concat chunks)) = concat chunks ∧
    ∀ x, SLOT1_OFFSET + tot ≤ x < SLOT1_OFFSET + SLOT1_SIZE → cell f' x = 255.
Proof. apply upgrade_run. Qed.

(** The signed image the tool builds is accepted exactly when its key hash is
    the device's: header, code and a TLV area whose first key hash entry may come
    after any other entries, in any cut. *)
Theorem upgrade_accepts_image {F} `{FlashLaws F} fw_keyhash addr4 prot2 rest payload es1 kh es2 chunks (f : F) s :
  let img := mk_image addr4 prot2 rest payload (es1 ++ (1, kh) :: es2) in
  active s = false → zlen addr4 = 4 → zlen prot2 = 2 → zlen rest = IMG_HDR_SIZE - 16 →
  zlen payload mod 4 = 0 → zlen img ≤ SLOT1_SIZE → 4 + zlen (tlv_entries (es1 ++ (1, kh) :: es2)) < 65536 →
  bytes_ok img → Forall tlv_ok (es1 ++ (1, kh) :: es2) → zlen kh = FW_KEYHASH_LEN →
  Forall (λ e, e.1 ≠ 1 ∨ zlen e.2 ≠ FW_KEYHASH_LEN) es1 → concat chunks = img →
  ∃ f' s', upgrade fw_keyhash (zlen img) None chunks (crc16_ccitt 0 img) true f s
           = (0, replicate (length chunks) 0, if bool_decide (kh = fw_keyhash) then 0 else -1, f', s').
Proof.
  intros img Ha Ha4 Hp2 Hr Hpl Hfit Htl Hb Hok Hk Hother Hcat.
  pose proof (image_len addr4 prot2 rest payload (es1 ++ (1, kh) :: es2) Ha4 Hp2 Hr) as Hlen. fold img in Hlen.
  pose proof (zlen_nonneg payload). pose proof (zlen_nonneg (tlv_entries (es1 ++ (1, kh) :: es2))).
  unfold IMG_HDR_SIZE in *.
  destruct (upgrade_run fw_keyhash (zlen img) None chunks (crc16_ccitt 0 img) true f s)
    as (f' & s' & Hrun & _ & Hc & _); [done|lia|done|by rewrite Hcat|by rewrite Hcat|].
  exists f', s'. rewrite Hrun. rewrite Hcat in *. rewrite Z.eqb_refl. cbn [negb orb andb].
  rewrite (keyhash_in_image f' addr4 prot2 rest payload _ Ha4 Hp2 Hr Hpl Hfit Htl Hc es1 kh es2 eq_refl Hok Hk Hother).
  do 4 f_equal. by repeat case_bool_decide; simplify_eq.
Qed.

(** Corruption on the way is caught: if the image that arrives differs from
    the one the checksum was computed for in a run of at most two bytes, finishing
    fails, whatever its key hash says. *)
Theorem upgrade_detects_burst {F} `{FlashLaws F} fw_keyhash tot kh chunks pre a b suf (f : F) s :
  active s = false → 64 ≤ tot ≤ SLOT1_SIZE → (∀ k, kh = Some k → take 32 k = fw_keyhash) →
  bytes_ok pre → bytes_ok a → bytes_ok b → bytes_ok suf → length a = length b → (length a ≤ 2)%nat → a ≠ b →
  concat chunks = pre ++ b ++ suf → zlen (concat chunks) = tot →
  ∃ f' s', upgrade fw_keyhash tot kh chunks (crc16_ccitt 0 (pre ++ a ++ suf)) true f s
           = (0, replicate (length chunks) 0, -1, f', s') ∧ active s' = false.
Proof.
  intros Ha Ht Hk Hpre Hba Hbb Hsuf Hlen H2 Hne Hcat Hl.
  assert (bytes_ok (concat chunks)) as Hb by (rewrite Hcat, !Forall_app; done).
  destruct (upgrade_run fw_keyhash tot kh chunks (crc16_ccitt 0 (pre ++ a ++ suf)) true f s)
    as (f' & s' & Hrun & Hact & _); [done..|].
  exists f', s'. split; [|done]. rewrite Hrun. do 4 f_equal.
  assert ((crc16_ccitt 0 (concat chunks) =? crc16_ccitt 0 (pre ++ a ++ suf)) = false) as ->; [|done].
  apply Z.eqb_neq. rewrite Hcat, !crc16_ccitt_crc by (ulia || (rewrite !Forall_app; done)).
  intros Hcrc. apply Hne.
  apply (crc_fold_burst 0x8408 16 pre a b suf 0); first [done|ulia|unfold zlen; lia].
Qed.

(** the guards of the session: a second start is refused with -3, a bad size
    with -1 and a foreign key hash with -2, all without touching flash; data
    beyond the announced size fails, changes no flash, and the session accepts
    nothing more and cannot be finished; without a session, writing and finishing
    fail. *)
Theorem upgrade_guards {F} `{IoFlash F} fw_keyhash tot kh data crc check (f : F) s :
  (active s = true → fw_upg_start fw_keyhash tot kh f s = (-3, f, s)) ∧
  (active s = false → tot < 64 ∨ SLOT1_SIZE < tot → fw_upg_start fw_keyhash tot kh f s = (-1, f, s)) ∧
  (active s = false → 64 ≤ tot ≤ SLOT1_SIZE → ∀ k, take 32 k ≠ fw_keyhash →
   fw_upg_start fw_keyhash tot (Some k) f s = (-2, f, s)) ∧
  (active s = true → failed s = false → total s < u32 (written s + zlen (page s) + zlen data) →
   ∃ s', fw_upg_write data f s = (-1, f, s') ∧ fw_upg_failed s' = true ∧
         (∀ more, fw_upg_write more f s' = (-1, f, s')) ∧
         (fw_upg_finish_ex fw_keyhash crc check f s').1 = (-1, f)) ∧
  (active s = false → fw_upg_write data f s = (-1, f, s) ∧
                      fw_upg_finish_ex fw_keyhash crc check f s = (-1, f, s)).
Proof.
  unfold fw_upg_start, fw_upg_write, fw_upg_finish_ex. split_and!.
  - by intros ->.
  - intros -> Ht. by replace ((tot <? 64) || (SLOT1_SIZE <? tot)) with true by lia.
  - intros -> Ht k Hk. replace ((tot <? 64) || (SLOT1_SIZE <? tot)) with false by lia.
    by rewrite bool_decide_false.
  - intros Ha Hfail Hov. rewrite Ha, Hfail. cbn [negb].
    replace (total s <? u32 (written s + zlen (page s) + zlen data)) with true by lia.
    by eexists.
  - by intros ->.
Qed.

(** ** Witnesses *)

(** a 0x200-byte header, four bytes of code and a TLV area with a digest entry
    before the key hash *)
Definition kh_example : list Z := replicate 32 7.
Definition img_example : list Z :=
  mk_image [0; 0; 0; 0] [0; 0] (replicate 496 0) [1; 2; 3; 4] [(0x10, [9; 9; 9]); (1, kh_example)].

Lemma img_example_ok :
  zlen img_example = 564 ∧ bytes_ok img_example ∧ crc16_ccitt 0 img_example = 0xBA61 ∧
  concat [take 100 img_example; drop 100 img_example] = img_example.
Proof.
  split_and!; [vm_compute; reflexivity| | |vm_compute; reflexivity].
  - apply (bool_decide_eq_true_1 (bytes_ok img_example)). vm_compute. reflexivity.
  - vm_compute. reflexivity.
Defined.

Lemma upgrade_stores_image_witness :
  ∃ f' s', upgrade kh_example 564 (Some kh_example) [take 100 img_example; drop 100 img_example] 0xBA61 true
             Nor.fake_flash_reset upg_boot
           = (0, [0; 0],
              if (negb true || (crc16_ccitt 0 (concat [take 100 img_example; drop 100 img_example]) =? 0xBA61)) &&
                 bool_decide (tlv_keyhash_get f' = Some kh_example) then 0 else -1, f', s') ∧
    active s' = false ∧
    cells f' SLOT1_OFFSET (length (concat [take 100 img_example; drop 100 img_example]))
    = concat [take 100 img_example; drop 100 img_example] ∧
    ∀ x, SLOT1_OFFSET + 564 ≤ x < SLOT1_OFFSET + SLOT1_SIZE → cell f' x = 255.
Proof.
  destruct img_example_ok as (Hl & Hb & Hcrc & Hcat).
  apply (upgrade_stores_image kh_example 564 (Some kh_example) [take 100 img_example; drop 100 img_example]
           0xBA61 true Nor.fake_flash_reset upg_boot).
  - reflexivity.
  - unfold SLOT1_SIZE. lia.
  - intros k Hk. injection Hk as <-. reflexivity.
  - rewrite Hcat. exact Hb.
  - rewrite Hcat. exact Hl.
Defined.

Lemma upgrade_accepts_image_witness :
  ∃ f' s', upgrade kh_example (zlen img_example) None [take 100 img_example; drop 100 img_example]
             (crc16_ccitt 0 img_example) true Nor.fake_flash_reset upg_boot
           = (0, [0; 0], 0, f', s').
Proof.
  destruct img_example_ok as (Hl & Hb & Hcrc & Hcat).
  assert (bool_decide (kh_example = kh_example) = true) as Hkh by (by apply bool_decide_eq_true_2).
  destruct (upgrade_accepts_image kh_example [0; 0; 0; 0] [0; 0] (replicate 496 0) [1; 2; 3; 4]
    [(0x10, [9; 9; 9])] kh_example [] [take 100 img_example; drop 100 img_example]
    Nor.fake_flash_reset upg_boot) as (f' & s' & Hrun).
  - reflexivity.
  - reflexivity.
  - reflexivity.
  - reflexivity.
  - reflexivity.
  - change (zlen img_example ≤ SLOT1_SIZE). rewrite Hl. unfold SLOT1_SIZE. lia.
  - vm_compute. reflexivity.
  - exact Hb.
  - apply Forall_cons_iff; split; [|apply Forall_cons_iff; split; [|constructor]]; split; vm_compute; split; congruence.
  - reflexivity.
  - constructor; [left; simpl; lia|constructor].
  - exact Hcat.
  - exists f', s'. rewrite Hkh in Hrun. exact Hrun.
Defined.

Lemma upgrade_detects_burst_witness :
  ∃ f' s', upgrade kh_example 64 None [replicate 60 0 ++ [1; 3] ++ [0; 0]]
             (crc16_ccitt 0 (replicate 60 0 ++ [1; 2] ++ [0; 0])) true Nor.fake_flash_reset upg_boot
           = (0, [0], -1, f', s') ∧ active s' = false.
Proof.
  assert (∀ l, forallb (λ b, (0 <=? b) && (b <? 256)) l = true → bytes_ok l) as Hby.
  { intros l Hl. apply Forall_forall. rewrite forallb_forall in Hl. intros x Hx. specialize (Hl x Hx). ulia. }
  apply (upgrade_detects_burst kh_example 64 None [replicate 60 0 ++ [1; 3] ++ [0; 0]] (replicate 60 0) [1; 2] [1; 3] [0; 0]);
    try reflexivity; try (apply Hby; reflexivity); [unfold SLOT1_SIZE; lia|congruence|congruence].
Defined.

(** a session of 64 bytes that is sent 65 *)
Definition upg_64 : upg := mk_upg true false 64 0 [].

Lemma upgrade_guards_witness :
  fw_upg_start kh_example 1000 None Nor.fake_flash_reset upg_64 = (-3, Nor.fake_flash_reset, upg_64) ∧
  ∃ s', fw_upg_write (replicate 65 0) Nor.fake_flash_reset upg_64 = (-1, Nor.fake_flash_reset, s') ∧
        fw_upg_failed s' = true ∧
        (∀ more, fw_upg_write more Nor.fake_flash_reset s' = (-1, Nor.fake_flash_reset, s')) ∧
        (fw_upg_finish_ex kh_example 0 true Nor.fake_flash_reset s').1 = (-1, Nor.fake_flash_reset).
Proof.
  destruct (upgrade_guards kh_example 1000 None (replicate 65 0) 0 true Nor.fake_flash_reset upg_64)
    as (H1 & _ & _ & H4 & _).
  split; [by apply H1|]. apply H4; [reflexivity|reflexivity|vm_compute; reflexivity].
Defined.
