(* ===== verification/FwUdp.v ===== *)
(** The UDP firmware upgrade channel: [src/fw/fw_udp.c].

    A datagram that carries a firmware command is copied into a message and
    queued by the lwIP thread ([fw_udp_cmd]); the worker task executes one message
    at a time against the upgrade session ([fw_task]) and posts the reply, held in
    a pool of two, back to the lwIP thread ([fw_send_reply_cb]).  The three
    activities interleave freely: [fu_step].

    [fw_udp_cmd] returns [None] where the source copies past the end of the
    message on its stack.  The boot loader's [boot_set_pending] is a parameter. *)

From stdpp Require Import relations.
From S2P Require Import Prelude IoBytes Flash FwUpg.

Definition FW_Q_DEPTH : Z := 8.
Definition FW_DATA_MAX : Z := 511.
Definition FW_V2_CHUNK : Z := 1400.
Definition FW_V2_MAX : Z := 4 + FW_V2_CHUNK.

Definition FW_CMD_START : Z := 0x01.
Definition FW_CMD_DATA : Z := 0x02.
Definition FW_CMD_END : Z := 0x03.
Definition FW_CMD_DATA_V2 : Z := 0x06.

(** [m_data] is [data[0 .. dlen)] *)
Record fw_msg := mk_msg { m_cmd : Z; m_addr : Z; m_port : Z; m_data : list Z }.

(** [r_buf] is [buf[0 .. len)] *)
Record fw_reply_t := mk_reply { r_addr : Z; r_port : Z; r_buf : list Z }.

Definition put_le16 (v : Z) : list Z := [u8 v; u8 (Z.shiftr v 8)].
Definition put_le32 (v : Z) : list Z :=
  [u8 v; u8 (Z.shiftr v 8); u8 (Z.shiftr v 16); u8 (Z.shiftr v 24)].
Definition get_le32 (p : list Z) : Z :=
  u32 (Z.lor (Z.lor (Z.lor (rd p 0) (Z.shiftl (rd p 1) 8)) (Z.shiftl (rd p 2) 16))
             (Z.shiftl (rd p 3) 24)).

Section FwUdp.
Context {F : Type} `{IoFlash F}.
Context (fw_keyhash : list Z).
(** [boot_set_pending(permanent)]: return code, and the trailer it writes *)
Context (boot_set_pending : bool → F → Z * F).

(** the file's statics, the session and flash behind them; [fu_q = None] before
    [fw_udp_start]; [fu_posted] are the callbacks the lwIP thread has yet to run
    (the pool slot each points at), [fu_sent] the datagrams sent so far *)
Record fu := mk_fu {
  fu_f : F; fu_u : upg; fu_q : option (list fw_msg);
  fu_replies : list fw_reply_t; fu_reply_idx : Z; fu_posted : list nat;
  fu_sent : list (Z * Z * list Z) }.

Definition fu_boot (f : F) : fu :=
  mk_fu f upg_boot None (replicate 2 (mk_reply 0 0 [])) 0 [] [].

Definition fw_udp_start (st : fu) : fu :=
  mk_fu (fu_f st) (fu_u st) (Some []) (fu_replies st) (fu_reply_idx st) (fu_posted st) (fu_sent st).

(** *** lwIP thread: the reply callback *)

(** [ok]: whether [pbuf_alloc] succeeds *)
Definition fw_send_reply_cb (ok : bool) (st : fu) : fu :=
  match fu_posted st with
  | [] => st
  | i :: rest =>
    let r := default (mk_reply 0 0 []) (fu_replies st !! i) in
    mk_fu (fu_f st) (fu_u st) (fu_q st) (fu_replies st) (fu_reply_idx st) rest
          (if ok then fu_sent st ++ [(r_addr r, r_port r, r_buf r)] else fu_sent st)
  end.

(** *** Worker task *)

(** [ok]: whether [tcpip_callback] takes the callback *)
Definition fw_reply (ok : bool) (m : fw_msg) (buf : list Z) (st : fu) : fu :=
  let i := Z.to_nat (Z.land (fu_reply_idx st) 1) in
  mk_fu (fu_f st) (fu_u st) (fu_q st)
        (<[i := mk_reply (m_addr m) (m_port m) buf]> (fu_replies st))
        (u8 (fu_reply_idx st + 1))
        (if ok then fu_posted st ++ [i] else fu_posted st) (fu_sent st).

(** the [switch] of the task: the reply, if any *)
Definition fw_exec (m : fw_msg) (f : F) (s : upg) : option (list Z) * F * upg :=
  if m_cmd m =? FW_CMD_START then
    let total := get_le32 (m_data m) in
    let kh := if 4 + 32 <=? zlen (m_data m) then Some (drop 4 (m_data m)) else None in
    let '(rc, f, s) := fw_upg_start fw_keyhash total kh f s in
    (Some ([FW_CMD_START; if rc =? 0 then 1 else if rc =? -2 then 2 else 0] ++ put_le16 FW_V2_CHUNK), f, s)
  else if m_cmd m =? FW_CMD_DATA then
    let '(_, f, s) := fw_upg_write (m_data m) f s in
    (Some ([FW_CMD_DATA] ++ put_le32 (fw_upg_received s)), f, s)
  else if m_cmd m =? FW_CMD_DATA_V2 then
    let '(f, s) :=
      if (5 <=? zlen (m_data m)) && (get_le32 (m_data m) =? fw_upg_received s)
      then let '(_, f, s) := fw_upg_write (drop 4 (m_data m)) f s in (f, s)
      else (f, s) in
    (Some ([FW_CMD_DATA_V2] ++ put_le32 (fw_upg_received s)), f, s)
  else if m_cmd m =? FW_CMD_END then
    let crc := u16 (Z.lor (rd (m_data m) 1) (u16 (Z.shiftl (rd (m_data m) 2) 8))) in
    let permanent := rd (m_data m) 0 =? 0 in
    let '(rc, f, s) := fw_upg_finish fw_keyhash crc f s in
    if rc =? 0 then
      let '(rp, f) := boot_set_pending permanent f in
      (Some [FW_CMD_END; if rp =? 0 then 1 else 0], f, s)
    else (Some [FW_CMD_END; 0], f, s)
  else (None, f, s).

(** one iteration of the task's loop; with an empty queue it blocks *)
Definition fw_task (ok : bool) (st : fu) : fu :=
  match fu_q st with
  | Some (m :: q) =>
    let '(rep, f, s) := fw_exec m (fu_f st) (fu_u st) in
    let st := mk_fu f s (Some q) (fu_replies st) (fu_reply_idx st) (fu_posted st) (fu_sent st) in
    match rep with
    | Some buf => fw_reply ok m buf st
    | None => st
    end
  | _ => st
  end.

(** *** lwIP thread: the entry *)

(** [memcpy(m.data, &rx[1], dlen)] into [data[FW_V2_MAX]] *)
Definition copy_data (rx : list Z) (dlen : Z) : option (list Z) :=
  if dlen <=? FW_V2_MAX then Some (take (Z.to_nat dlen) (drop 1 rx)) else None.

(** the guards of the [switch]: [None] is [return false], else the copy length *)
Definition cmd_dlen (cmd len : Z) : option Z :=
  if cmd =? FW_CMD_START then
    if len <? 5 then None else Some (if FW_V2_MAX <? len - 1 then FW_V2_MAX else len - 1)
  else if cmd =? FW_CMD_DATA then
    if (len <? 2) || (FW_DATA_MAX <? len - 1) then None else Some (len - 1)
  else if cmd =? FW_CMD_DATA_V2 then
    if (len <? 6) || (FW_V2_MAX <? len - 1) then None else Some (len - 1)
  else if cmd =? FW_CMD_END then
    if len <? 4 then None else Some (len - 1)
  else None.

Definition fw_udp_cmd (rx : list Z) (src port : Z) (st : fu) : option (bool * fu) :=
  let len := zlen rx in
  if len <? 1 then Some (false, st)
  else
    let cmd := rd rx 0 in
    match cmd_dlen cmd len with
    | None => Some (false, st)
    | Some dlen =>
      data ← copy_data rx dlen;
      let m := mk_msg cmd src port data in
      match fu_q st with
      | Some q =>
        if zlen q <? FW_Q_DEPTH
        then Some (true, mk_fu (fu_f st) (fu_u st) (Some (q ++ [m])) (fu_replies st)
                               (fu_reply_idx st) (fu_posted st) (fu_sent st))
        else Some (true, st)
      | None => Some (true, st)
      end
    end.

(** *** The three activities interleaved *)

(** [Rx]: the datagrams the network may deliver *)
Inductive fu_step (Rx : list Z → Prop) : fu → fu → Prop :=
| fu_recv rx src port b st st' :
    Rx rx → fw_udp_cmd rx src port st = Some (b, st') → fu_step Rx st st'
| fu_work ok st : fu_step Rx st (fw_task ok st)
| fu_send ok st : fu_step Rx st (fw_send_reply_cb ok st).

Definition fu_steps (Rx : list Z → Prop) : fu → fu → Prop := rtc (fu_step Rx).
End FwUdp.

(** ** Byte order *)

Lemma get_le32_io p : get_le32 p = io_get_le32 p.
Proof.
  unfold get_le32, io_get_le32. f_equal. apply Z.bits_inj'. intros i _.
  rewrite !Z.lor_spec.
  destruct (Z.testbit (rd p 0) i), (Z.testbit (Z.shiftl (rd p 1) 8) i),
    (Z.testbit (Z.shiftl (rd p 2) 16) i), (Z.testbit (Z.shiftl (rd p 3) 24) i); reflexivity.
Qed.

Lemma fu_get_le32_put v l : is_u32 v → get_le32 (put_le32 v ++ l) = v.
Proof.
  intros Hv. rewrite get_le32_io. unfold put_le32. cbn [app]. rewrite get_le32_app.
  by apply le32_roundtrip.
Qed.

(** ** Guards of the entry *)

Lemma cmd_dlen_bound cmd len d :
  cmd_dlen cmd len = Some d → 0 ≤ len → 1 ≤ d ≤ len - 1 ∧ (cmd = FW_CMD_END ∨ d ≤ FW_V2_MAX).
Proof.
  unfold cmd_dlen, FW_DATA_MAX, FW_V2_MAX, FW_V2_CHUNK, FW_CMD_END. intros Hd Hl.
  repeat case_match; simplify_eq; lia.
Qed.

Section Session.
Context {F : Type} `{FlashLaws F}.
Context (fw_keyhash : list Z) (boot_set_pending : bool → F → Z * F).
Context (img : list Z).

(** a message, and a datagram, that carries a piece of [img] *)
Definition piece_msg (off : nat) (m : fw_msg) : Prop :=
  m_cmd m = FW_CMD_DATA_V2 ∧
  ∃ n, (1 ≤ n)%nat ∧ (off + n ≤ length img)%nat ∧ m_data m = put_le32 (Z.of_nat off) ++ slice off n img.

(** what the host may send: pieces of [img] in any order and number, and anything
    that is no firmware command *)
Definition v2_stream (rx : list Z) : Prop :=
  rd rx 0 ∉ [FW_CMD_START; FW_CMD_DATA; FW_CMD_END; FW_CMD_DATA_V2] ∨
  ∃ off n, (1 ≤ n)%nat ∧ Z.of_nat n ≤ FW_V2_CHUNK ∧ (off + n ≤ length img)%nat ∧
           rx = FW_CMD_DATA_V2 :: put_le32 (Z.of_nat off) ++ slice off n img.

(** a reply that asks for a byte not beyond [n] *)
Definition asks (n : nat) (buf : list Z) : Prop :=
  ∃ k, (k ≤ n)%nat ∧ buf = FW_CMD_DATA_V2 :: put_le32 (Z.of_nat k).

(** the first [n] bytes of [img] have been received *)
Definition received_prefix (st : @fu F) (n : nat) : Prop :=
  (n ≤ length img)%nat ∧ session_ok (fu_f st) (fu_u st) (take n img) ∧ total (fu_u st) = zlen img.

(** what holds between the start and the end of a transfer; [sent0] is what had
    been sent before it *)
Definition transfer_inv (sent0 : list (Z * Z * list Z)) (st : @fu F) (n : nat) : Prop :=
  received_prefix st n ∧
  (∃ q, fu_q st = Some q ∧ Forall (λ m, ∃ off, piece_msg off m) q ∧ zlen q ≤ FW_Q_DEPTH) ∧
  length (fu_replies st) = 2%nat ∧
  Forall (λ i, ∃ r, fu_replies st !! i = Some r ∧ asks n (r_buf r)) (fu_posted st) ∧
  ∃ acks, fu_sent st = sent0 ++ acks ∧ Forall (λ p, asks n p.2) acks.

Lemma asks_mono n n' buf : (n ≤ n')%nat → asks n buf → asks n' buf.
Proof. intros Hn (k & Hk & ->). exists k. split; [lia|done]. Qed.

Lemma prefix_received f s n :
  (n ≤ length img)%nat → session_ok f s (take n img) → fw_upg_received s = Z.of_nat n.
Proof.
  intros Hn Hs. pose proof (session_len f s _ Hs) as Hl.
  unfold zlen in Hl at 1. rewrite length_take in Hl.
  destruct Hs as (_ & _ & Ht & Hz & _). unfold SLOT1_SIZE in Ht.
  unfold fw_upg_received. rewrite <- Hl. replace (n `min` length img)%nat with n by lia.
  apply u32_id. unfold zlen in Hz. rewrite length_take in Hz. ulia.
Qed.

(** executing a piece: stored when it is the next one, and answered by what is
    expected then *)
Lemma exec_piece m off f s n :
  bytes_ok img → zlen img ≤ SLOT1_SIZE → piece_msg off m →
  (n ≤ length img)%nat → session_ok f s (take n img) → total s = zlen img →
  ∃ f' s' n', fw_exec fw_keyhash boot_set_pending m f s
              = (Some (FW_CMD_DATA_V2 :: put_le32 (Z.of_nat n')), f', s') ∧
    n' = (if decide (off = n) then (n + (length (m_data m) - 4))%nat else n) ∧
    (n' ≤ length img)%nat ∧ session_ok f' s' (take n' img) ∧ total s' = zlen img.
Proof.
  intros Hb Hsz (Hcmd & k & Hk & Hok & Hd) Hn Hs Ht. unfold SLOT1_SIZE, zlen in Hsz.
  assert (length (slice off k img) = k) as Hlk by (apply length_slice; lia).
  assert (length (m_data m) = (4 + k)%nat) as Hlen by (rewrite Hd; simpl; by rewrite Hlk).
  assert (fw_exec fw_keyhash boot_set_pending m f s
          = let '(f, s) := if (5 <=? zlen (m_data m)) && (get_le32 (m_data m) =? fw_upg_received s)
                           then let '(_, f, s) := fw_upg_write (drop 4 (m_data m)) f s in (f, s)
                           else (f, s) in
            (Some (FW_CMD_DATA_V2 :: put_le32 (fw_upg_received s)), f, s)) as ->
    by (unfold fw_exec; rewrite Hcmd; reflexivity).
  rewrite (prefix_received f s n Hn Hs). assert (zlen (m_data m) = 4 + Z.of_nat k) as -> by (unfold zlen; lia).
  replace (5 <=? 4 + Z.of_nat k) with true by lia. cbn [andb].
  rewrite Hd, fu_get_le32_put by ulia. rewrite <- Hd, Hlen.
  destruct (decide (off = n)) as [->|Hne].
  - rewrite Z.eqb_refl. rewrite Hd. change (drop 4 (put_le32 (Z.of_nat n) ++ slice n k img)) with (slice n k img).
    destruct (fw_upg_write_ok (slice n k img) f s (take n img) Hs) as (f' & s' & -> & Hs' & Ht').
    { by apply bytes_ok_slice. }
    { unfold zlen in *. rewrite Hlk, Ht, length_take. lia. }
    assert (take n img ++ slice n k img = take (n + k) img) as Heq by (unfold slice; by rewrite take_take_drop).
    rewrite Heq in Hs'. exists f', s', (n + k)%nat.
    rewrite (prefix_received f' s' (n + k)) by (done || lia).
    split_and!; [done|lia|lia|done|congruence].
  - replace (Z.of_nat off =? Z.of_nat n) with false by lia.
    exists f, s, n. rewrite (prefix_received f s n) by done. by split_and!.
Qed.

(** a piece is queued while there is room and dropped otherwise *)
Lemma recv_piece off n src port (st : @fu F) :
  (1 ≤ n)%nat → Z.of_nat n ≤ FW_V2_CHUNK → (off + n ≤ length img)%nat →
  let m := mk_msg FW_CMD_DATA_V2 src port (put_le32 (Z.of_nat off) ++ slice off n img) in
  piece_msg off m ∧
  fw_udp_cmd (FW_CMD_DATA_V2 :: put_le32 (Z.of_nat off) ++ slice off n img) src port st
  = Some (true,
      match fu_q st with
      | Some q =>
        if zlen q <? FW_Q_DEPTH
        then mk_fu (fu_f st) (fu_u st) (Some (q ++ [m])) (fu_replies st) (fu_reply_idx st)
                   (fu_posted st) (fu_sent st)
        else st
      | None => st
      end).
Proof.
  intros Hn Hc Hok m. unfold FW_V2_CHUNK in Hc. split.
  { split; [done|]. by exists n. }
  assert (length (slice off n img) = n) as Hl by (apply length_slice; lia).
  set (p := put_le32 (Z.of_nat off) ++ slice off n img) in *.
  assert (zlen p = 4 + Z.of_nat n) as Hp by (unfold p, zlen; rewrite length_app, Hl; simpl; lia).
  assert (length p = (4 + n)%nat) as Hp' by (unfold zlen in Hp; lia).
  unfold fw_udp_cmd. change (rd (FW_CMD_DATA_V2 :: p) 0) with FW_CMD_DATA_V2.
  assert (zlen (FW_CMD_DATA_V2 :: p) = 5 + Z.of_nat n) as -> by (unfold zlen in *; simpl; lia).
  replace (5 + Z.of_nat n <? 1) with false by lia.
  change (cmd_dlen FW_CMD_DATA_V2 (5 + Z.of_nat n))
    with (if (5 + Z.of_nat n <? 6) || (FW_V2_MAX <? 5 + Z.of_nat n - 1) then None
          else Some (5 + Z.of_nat n - 1)).
  unfold FW_V2_MAX, FW_V2_CHUNK.
  replace ((5 + Z.of_nat n <? 6) || (4 + 1400 <? 5 + Z.of_nat n - 1)) with false by lia.
  unfold copy_data, FW_V2_MAX, FW_V2_CHUNK.
  replace (5 + Z.of_nat n - 1 <=? 4 + 1400) with true by lia.
  change (drop 1 (FW_CMD_DATA_V2 :: p)) with p. rewrite take_ge by lia.
  cbn [mbind option_bind]. fold m. destruct (fu_q st) as [q|]; [|done]. by destruct (zlen q <? FW_Q_DEPTH).
Qed.

Lemma recv_other rx src port (st : @fu F) :
  rd rx 0 ∉ [FW_CMD_START; FW_CMD_DATA; FW_CMD_END; FW_CMD_DATA_V2] →
  fw_udp_cmd rx src port st = Some (false, st).
Proof.
  intros Hrx. rewrite !not_elem_of_cons in Hrx. destruct Hrx as (Hn1 & Hn2 & Hn3 & Hn6 & _).
  unfold fw_udp_cmd. destruct (zlen rx <? 1); [done|]. unfold cmd_dlen.
  by rewrite (proj2 (Z.eqb_neq _ _) Hn1), (proj2 (Z.eqb_neq _ _) Hn2), (proj2 (Z.eqb_neq _ _) Hn6),
    (proj2 (Z.eqb_neq _ _) Hn3).
Qed.

(** a posted reply goes into one of the two slots *)
Lemma reply_slot i : (Z.to_nat (Z.land i 1) < 2)%nat.
Proof. rewrite land1. pose proof (Z.mod_pos_bound i 2). lia. Qed.

Lemma work_inv sent0 ok (st : @fu F) n :
  bytes_ok img → zlen img ≤ SLOT1_SIZE → transfer_inv sent0 st n →
  ∃ n', (n ≤ n')%nat ∧ transfer_inv sent0 (fw_task fw_keyhash boot_set_pending ok st) n'.
Proof.
  intros Hb Hsz Hinv. pose proof Hinv as ((Hn & Hs & Ht) & (q & Hq & Hall & Hlen) & Hr & Hpo & acks & Hse & Hac).
  unfold fw_task. rewrite Hq. destruct q as [|m q]; [by exists n|].
  apply Forall_cons_iff in Hall as [(off & Hm) Hall].
  destruct (exec_piece m off (fu_f st) (fu_u st) n) as (f' & s' & n' & -> & Hn' & Hle & Hs' & Ht'); [done..|].
  assert (n ≤ n')%nat as Hmono by (rewrite Hn'; destruct (decide (off = n)); lia).
  exists n'. split; [done|]. unfold fw_reply. cbn [fu_f fu_u fu_q fu_replies fu_reply_idx fu_posted fu_sent].
  set (r := mk_reply (m_addr m) (m_port m) (FW_CMD_DATA_V2 :: put_le32 (Z.of_nat n'))).
  pose proof (reply_slot (fu_reply_idx st)) as Hi. set (i := Z.to_nat (Z.land (fu_reply_idx st) 1)) in *.
  assert (asks n' (r_buf r)) as Hr' by (by exists n').
  assert (∀ j, (∃ r, fu_replies st !! j = Some r ∧ asks n (r_buf r)) →
               ∃ r0, <[i:=r]> (fu_replies st) !! j = Some r0 ∧ asks n' (r_buf r0)) as Hpool.
  { intros j (r0 & Hj & Ha). destruct (decide (i = j)) as [->|Hne].
    - exists r. by rewrite list_lookup_insert_eq by lia.
    - exists r0. rewrite list_lookup_insert_ne by done. split; [done|by apply (asks_mono n)]. }
  split_and!; cbn [fu_f fu_u fu_q fu_replies fu_reply_idx fu_posted fu_sent]; [done| | | |].
  - exists q. split_and!; [done|done|]. unfold zlen in *. simpl in Hlen. lia.
  - by rewrite length_insert.
  - assert (Forall (λ j, ∃ r0, <[i:=r]> (fu_replies st) !! j = Some r0 ∧ asks n' (r_buf r0)) (fu_posted st))
      as Hold by (eapply Forall_impl; [exact Hpool|exact Hpo]).
    destruct ok; [|done]. apply Forall_app. split; [done|]. constructor; [|constructor].
    exists r. by rewrite list_lookup_insert_eq by lia.
  - exists acks. split; [done|]. eapply Forall_impl; [|exact Hac]. intros p. by apply asks_mono.
Qed.

Lemma step_inv sent0 (st st' : @fu F) n :
  bytes_ok img → zlen img ≤ SLOT1_SIZE → transfer_inv sent0 st n →
  fu_step fw_keyhash boot_set_pending v2_stream st st' → ∃ n', (n ≤ n')%nat ∧ transfer_inv sent0 st' n'.
Proof.
  intros Hb Hsz Hinv Hstep. destruct Hstep as [rx src port b st st' Hrx Hcmd|ok st|ok st].
  - exists n. split; [done|]. destruct Hrx as [Hrx|(off & k & Hk & Hkc & Hok & ->)].
    + rewrite recv_other in Hcmd by done. by simplify_eq.
    + pose proof (recv_piece off k src port st Hk Hkc Hok) as [Hm Heq]. rewrite Heq in Hcmd.
      injection Hcmd as _ <-.
      destruct Hinv as (Hrp & (q & Hq & Hall & Hlen) & Hrest). rewrite Hq.
      destruct (zlen q <? FW_Q_DEPTH) eqn:Eq; [|split; [done|split; [by exists q|done]]].
      split; [done|]. split; [|done]. eexists. split; [done|]. split.
      * apply Forall_app. split; [done|]. constructor; [by exists off|constructor].
      * rewrite zlen_app. change (zlen [_]) with 1. lia.
  - by apply work_inv.
  - exists n. split; [done|]. unfold fw_send_reply_cb.
    destruct Hinv as (Hrp & Hq & Hr & Hpo & acks & Hse & Hac).
    destruct (fu_posted st) as [|i rest] eqn:Ep.
    { split_and!; try done; [by rewrite Ep|by exists acks]. }
    apply Forall_cons_iff in Hpo as [(r & Hi & Ha) Hpo].
    split_and!; cbn [fu_f fu_u fu_q fu_replies fu_reply_idx fu_posted fu_sent]; try done.
    rewrite Hi. simpl. destruct ok; [|by exists acks].
    exists (acks ++ [(r_addr r, r_port r, r_buf r)]). rewrite Hse, app_assoc. split; [done|].
    apply Forall_app. split; [done|]. by constructor.
Qed.

Lemma steps_inv sent0 (st st' : @fu F) n :
  bytes_ok img → zlen img ≤ SLOT1_SIZE → transfer_inv sent0 st n →
  fu_steps fw_keyhash boot_set_pending v2_stream st st' → ∃ n', (n ≤ n')%nat ∧ transfer_inv sent0 st' n'.
Proof.
  intros Hb Hsz Hinv Hsteps. revert n Hinv. induction Hsteps as [st|st st1 st2 Hstep _ IH]; intros n Hinv.
  - by exists n.
  - destruct (step_inv sent0 st st1 n Hb Hsz Hinv Hstep) as (n1 & Hn1 & Hinv1).
    destruct (IH n1 Hinv1) as (n2 & Hn2 & Hinv2). exists n2. split; [lia|done].
Qed.

(** the host's START for this image, with or without the key hash *)
Lemma start_run kh src port (st : @fu F) :
  bytes_ok img → 64 ≤ zlen img ≤ SLOT1_SIZE → zlen fw_keyhash = FW_KEYHASH_LEN →
  (kh = [] ∨ kh = fw_keyhash) → fu_q st = Some [] → active (fu_u st) = false →
  length (fu_replies st) = 2%nat → fu_posted st = [] →
  ∃ st1, fw_udp_cmd (FW_CMD_START :: put_le32 (zlen img) ++ kh) src port st = Some (true, st1) ∧
    let st1' := fw_send_reply_cb true (fw_task fw_keyhash boot_set_pending true st1) in
    fu_sent st1' = fu_sent st ++ [(src, port, [FW_CMD_START; 1; 0x78; 0x05])] ∧
    transfer_inv (fu_sent st1') st1' 0.
Proof.
  unfold FW_KEYHASH_LEN. intros Hb Hz Hkl Hkh Hq Ha Hr Hpo. pose proof Hz as Hz'. unfold SLOT1_SIZE in Hz'.
  set (p := put_le32 (zlen img) ++ kh).
  assert (zlen p = 4 ∧ kh = [] ∨ zlen p = 36 ∧ kh = fw_keyhash) as Hp.
  { unfold p. rewrite zlen_app. change (zlen (put_le32 (zlen img))) with 4.
    destruct Hkh as [-> | ->]; [by left|right; split; [lia|done]]. }
  set (m := mk_msg FW_CMD_START src port p).
  exists (mk_fu (fu_f st) (fu_u st) (Some [m]) (fu_replies st) (fu_reply_idx st) (fu_posted st) (fu_sent st)).
  split.
  { unfold fw_udp_cmd. change (rd (FW_CMD_START :: p) 0) with FW_CMD_START.
    assert (zlen (FW_CMD_START :: p) = 1 + zlen p) as -> by (unfold zlen; simpl; lia).
    replace (1 + zlen p <? 1) with false by lia.
    change (cmd_dlen FW_CMD_START (1 + zlen p))
      with (if 1 + zlen p <? 5 then None
            else Some (if FW_V2_MAX <? 1 + zlen p - 1 then FW_V2_MAX else 1 + zlen p - 1)).
    unfold FW_V2_MAX, FW_V2_CHUNK. replace (1 + zlen p <? 5) with false by lia.
    replace (4 + 1400 <? 1 + zlen p - 1) with false by lia.
    unfold copy_data, FW_V2_MAX, FW_V2_CHUNK. replace (1 + zlen p - 1 <=? 4 + 1400) with true by lia.
    change (drop 1 (FW_CMD_START :: p)) with p. rewrite take_ge by (unfold zlen; lia).
    cbn [mbind option_bind]. rewrite Hq. reflexivity. }
  unfold fw_task. cbn [fu_f fu_u fu_q fu_replies fu_reply_idx fu_posted fu_sent].
  assert (get_le32 p = zlen img) as Hg by (apply fu_get_le32_put; ulia).
  destruct (fw_upg_start_ok fw_keyhash (zlen img) (if 4 + 32 <=? zlen p then Some (drop 4 p) else None)
              (fu_f st) (fu_u st) Ha Hz) as (f' & s' & Hst & Hs & Ht).
  { intros k. destruct (4 + 32 <=? zlen p) eqn:E36; [|done]. intros [= <-].
    destruct Hp as [[Hp _]|[_ ->]]; [lia|]. change (drop 4 p) with fw_keyhash.
    apply take_ge. unfold zlen in Hkl. lia. }
  assert (fw_exec fw_keyhash boot_set_pending m (fu_f st) (fu_u st)
          = (Some [FW_CMD_START; 1; 0x78; 0x05], f', s')) as ->.
  { unfold fw_exec. cbn [m_cmd m_data m]. rewrite Hg.
    change (FW_CMD_START =? FW_CMD_START) with true. cbv iota. by rewrite Hst. }
  pose proof (reply_slot (fu_reply_idx st)) as Hi. set (i := Z.to_nat (Z.land (fu_reply_idx st) 1)) in *.
  unfold fw_reply, fw_send_reply_cb. fold i. cbn [fu_f fu_u fu_q fu_replies fu_reply_idx fu_posted fu_sent].
  rewrite Hpo. cbn [app fu_f fu_u fu_q fu_replies fu_reply_idx fu_posted fu_sent].
  rewrite list_lookup_insert_eq by lia. cbn [default from_option r_addr r_port r_buf m_addr m_port].
  split; [done|].
  split_and!; cbn [fu_f fu_u fu_q fu_replies fu_reply_idx fu_posted fu_sent].
  - split; cbn [fu_f fu_u]; [lia|]. by rewrite take_0.
  - exists []. split_and!; [done|constructor|unfold zlen, FW_Q_DEPTH; simpl; lia].
  - by rewrite length_insert.
  - constructor.
  - exists []. by rewrite app_nil_r.
Qed.

(** the host's END once everything has arrived *)
Lemma end_run test crc src port (st : @fu F) :
  received_prefix st (length img) → is_byte test → is_u16 crc →
  fu_q st = Some [] → length (fu_replies st) = 2%nat → fu_posted st = [] →
  ∃ st1 f', fw_udp_cmd (FW_CMD_END :: test :: put_le16 crc) src port st = Some (true, st1) ∧
    cells f' SLOT1_OFFSET (length img) = img ∧
    let st1' := fw_send_reply_cb true (fw_task fw_keyhash boot_set_pending true st1) in
    let ok := (crc16_ccitt 0 img =? crc) && bool_decide (tlv_keyhash_get f' = Some fw_keyhash) in
    active (fu_u st1') = false ∧
    (fu_f st1', fu_sent st1')
    = (if ok then (boot_set_pending (test =? 0) f').2 else f',
       fu_sent st ++ [(src, port, [FW_CMD_END;
         if ok && ((boot_set_pending (test =? 0) f').1 =? 0) then 1 else 0])]).
Proof.
  intros (_ & Hs & Ht) Htest Hcrc Hq Hr Hpo. rewrite take_ge in Hs by lia.
  destruct (fw_upg_finish_run fw_keyhash crc true (fu_f st) (fu_u st) img Hs) as (f' & s' & Hfin & Hact & Hc & _);
    [done|].
  set (m := mk_msg FW_CMD_END src port (test :: put_le16 crc)).
  exists (mk_fu (fu_f st) (fu_u st) (Some [m]) (fu_replies st) (fu_reply_idx st) (fu_posted st) (fu_sent st)), f'.
  split; [|split; [done|]].
  { unfold fw_udp_cmd, copy_data, put_le16.
    change (rd (FW_CMD_END :: test :: [u8 crc; u8 (Z.shiftr crc 8)]) 0) with FW_CMD_END.
    change (zlen (FW_CMD_END :: test :: [u8 crc; u8 (Z.shiftr crc 8)])) with 4.
    change (4 <? 1) with false. change (cmd_dlen FW_CMD_END 4) with (Some 3).
    change (3 <=? FW_V2_MAX) with true. cbn [mbind option_bind]. rewrite Hq. reflexivity. }
  unfold fw_task. cbn [fu_f fu_u fu_q fu_replies fu_reply_idx fu_posted fu_sent].
  assert (u16 (Z.lor (rd (m_data m) 1) (u16 (Z.shiftl (rd (m_data m) 2) 8))) = crc) as Hg.
  { change (rd (m_data m) 1) with (u8 crc). change (rd (m_data m) 2) with (u8 (Z.shiftr crc 8)).
    rewrite (u16_id (Z.shiftl _ 8)) by (rewrite Z.shiftl_mul_pow2 by lia; ulia).
    rewrite Z.lor_comm, lor_shiftl_add by (first [lia|apply u8_range]).
    rewrite shiftr_div by lia. ulia. }
  pose proof (reply_slot (fu_reply_idx st)) as Hi. set (i := Z.to_nat (Z.land (fu_reply_idx st) 1)) in *.
  set (ok := (crc16_ccitt 0 img =? crc) && bool_decide (tlv_keyhash_get f' = Some fw_keyhash)) in *.
  cbv zeta.
  assert (fw_exec fw_keyhash boot_set_pending m (fu_f st) (fu_u st)
          = (Some [FW_CMD_END; if ok && ((boot_set_pending (test =? 0) f').1 =? 0) then 1 else 0],
             if ok then (boot_set_pending (test =? 0) f').2 else f', s')) as ->.
  { unfold fw_exec, fw_upg_finish. rewrite Hg. cbn [m_cmd m].
    change (FW_CMD_END =? FW_CMD_START) with false. change (FW_CMD_END =? FW_CMD_DATA) with false.
    change (FW_CMD_END =? FW_CMD_DATA_V2) with false. change (FW_CMD_END =? FW_CMD_END) with true.
    change (rd (m_data m) 0) with test. cbv iota zeta. rewrite Hfin. cbn [negb orb]. fold ok.
    destruct ok; [|done]. change (0 =? 0) with true. cbn [andb].
    by destruct (boot_set_pending (test =? 0) f') as [rp f2]. }
  unfold fw_reply, fw_send_reply_cb. fold i. cbn [fu_f fu_u fu_q fu_replies fu_reply_idx fu_posted fu_sent].
  rewrite Hpo. cbn [app fu_f fu_u fu_q fu_replies fu_reply_idx fu_posted fu_sent].
  rewrite list_lookup_insert_eq by lia. by cbn [default from_option r_addr r_port r_buf m_addr m_port].
Qed.

Lemma put_le32_inj a b : is_u32 a → is_u32 b → put_le32 a = put_le32 b → a = b.
Proof.
  intros Ha Hb E. rewrite <- (fu_get_le32_put a []), <- (fu_get_le32_put b []) by done. by rewrite E.
Qed.
End Session.

(** ** Properties *)

(** C17: the UDP transfer is reliable over an unreliable network.  After a START for
    an image, let pieces of it arrive in any order, repeated or lost, mixed with
    other traffic, the worker and the lwIP thread running in any order and replies
    getting lost.  Then the session always holds exactly a prefix of the image;
    every acknowledgement sent names a position within it; the next missing piece
    is stored when it is delivered; and once the acknowledgement of the whole size
    has been sent, END answers success exactly when the checksum is right, the
    stored image carries the device's key hash and the boot loader takes it, with
    slot 1 holding the image. *)
Theorem udp_transfer {F} `{FlashLaws F} fw_keyhash (boot_set_pending : bool → F → Z * F) img kh src port (st : @fu F) :
  bytes_ok img → 64 ≤ zlen img ≤ SLOT1_SIZE → zlen fw_keyhash = FW_KEYHASH_LEN →
  (kh = [] ∨ kh = fw_keyhash) → fu_q st = Some [] → active (fu_u st) = false →
  length (fu_replies st) = 2%nat → fu_posted st = [] →
  ∃ st1, fw_udp_cmd (FW_CMD_START :: put_le32 (zlen img) ++ kh) src port st = Some (true, st1) ∧
  let st1 := fw_send_reply_cb true (fw_task fw_keyhash boot_set_pending true st1) in
  fu_sent st1 = fu_sent st ++ [(src, port, [FW_CMD_START; 1; 0x78; 0x05])] ∧
  ∀ st2, fu_steps fw_keyhash boot_set_pending (v2_stream img) st1 st2 →
  ∃ n acks,
    received_prefix img st2 n ∧
    fu_sent st2 = fu_sent st1 ++ acks ∧ Forall (λ p, asks n p.2) acks ∧
    (∀ k, fu_q st2 = Some [] → (1 ≤ k)%nat → Z.of_nat k ≤ FW_V2_CHUNK → (n + k ≤ length img)%nat →
     ∃ st3, fw_udp_cmd (FW_CMD_DATA_V2 :: put_le32 (Z.of_nat n) ++ slice n k img) src port st2 = Some (true, st3) ∧
            ∀ ok, received_prefix img (fw_task fw_keyhash boot_set_pending ok st3) (n + k)) ∧
    (∀ a p test crc, fu_q st2 = Some [] → fu_posted st2 = [] → is_byte test → is_u16 crc →
     (a, p, FW_CMD_DATA_V2 :: put_le32 (zlen img)) ∈ acks →
     ∃ st3 f', fw_udp_cmd (FW_CMD_END :: test :: put_le16 crc) src port st2 = Some (true, st3) ∧
       cells f' SLOT1_OFFSET (length img) = img ∧
       let st3 := fw_send_reply_cb true (fw_task fw_keyhash boot_set_pending true st3) in
       let ok := (crc16_ccitt 0 img =? crc) && bool_decide (tlv_keyhash_get f' = Some fw_keyhash) in
       active (fu_u st3) = false ∧
       (fu_f st3, fu_sent st3)
       = (if ok then (boot_set_pending (test =? 0) f').2 else f',
          fu_sent st2 ++ [(src, port, [FW_CMD_END;
            if ok && ((boot_set_pending (test =? 0) f').1 =? 0) then 1 else 0])])).
Proof.
  intros Hb Hz Hkl Hkh Hq Ha Hr Hpo.
  destruct (start_run fw_keyhash boot_set_pending img kh src port st) as (st1 & Hrun & Hsent & Hinv); [done..|].
  exists st1. split; [done|]. intros st1'. split; [done|]. intros st2 Hsteps.
  destruct (steps_inv fw_keyhash boot_set_pending img (fu_sent st1') st1' st2 0) as (n & _ & Hinv2);
    [done|lia|done|done|].
  destruct Hinv2 as (Hrp & Hqs & Hr2 & Hp2 & acks & Hse & Hac).
  exists n, acks. split; [done|]. split; [done|]. split; [done|]. split.
  - intros k Hq2 Hk Hkc Hle. destruct (recv_piece img n k src port st2 Hk Hkc Hle) as [Hm Hcmd].
    rewrite Hcmd, Hq2. change (zlen [] <? FW_Q_DEPTH) with true. eexists. split; [done|]. intros ok.
    destruct Hrp as (Hn & Hs & Ht).
    match type of Hm with piece_msg _ _ ?m => set (msg := m) in * end.
    destruct (exec_piece fw_keyhash boot_set_pending img msg n (fu_f st2) (fu_u st2) n)
      as (f' & s' & n' & He & Hn' & Hle' & Hs' & Ht'); [done|lia|done..|].
    rewrite decide_True in Hn' by done.
    assert (length (slice n k img) = k) as Hlk by (apply length_slice; lia).
    assert (n' = n + k)%nat as ->.
    { rewrite Hn'. unfold msg. cbn [m_data]. rewrite length_app, Hlk. simpl. lia. }
    unfold fw_task. cbn [fu_q app fu_f fu_u]. rewrite He. unfold fw_reply. by split.
  - intros a p test crc Hq2 Hp2' Htest Hcrc Hin.
    apply (end_run fw_keyhash boot_set_pending img test crc src port st2); try done.
    rewrite Forall_forall in Hac. apply list_elem_of_In, Hac in Hin as (k & Hk & Heq). apply (f_equal (drop 1)) in Heq.
    change (put_le32 (zlen img) = put_le32 (Z.of_nat k)) in Heq.
    unfold SLOT1_SIZE in Hz. destruct Hrp as (Hn & Hs & Ht).
    assert (zlen img = Z.of_nat k) as Hkk by (apply put_le32_inj; [unfold zlen in *; ulia..|exact Heq]).
    assert (n = length img) as -> by (unfold zlen in Hkk; lia). done.
Qed.

(** Every datagram is either left to the other commands, consumed and queued
    whole, or consumed and dropped because eight messages wait already; the copy
    into the message overruns it exactly for an END datagram of more than 1405
    bytes, which the 1408-byte receive buffer lets through. *)
Theorem udp_cmd_bounds {F} rx src port (st : @fu F) q :
  fu_q st = Some q → zlen rx <= 1408 →
  (fw_udp_cmd rx src port st = None ↔ rd rx 0 = FW_CMD_END ∧ 1405 < zlen rx) ∧
  (fw_udp_cmd rx src port st = Some (false, st) ∨ fw_udp_cmd rx src port st = None ∨
   ∃ data, fw_udp_cmd rx src port st
     = Some (true, if zlen q <? FW_Q_DEPTH
                   then mk_fu (fu_f st) (fu_u st) (Some (q ++ [mk_msg (rd rx 0) src port data]))
                              (fu_replies st) (fu_reply_idx st) (fu_posted st) (fu_sent st)
                   else st) ∧
     zlen data ≤ FW_V2_MAX ∧ (data = drop 1 rx ∨ rd rx 0 = FW_CMD_START ∧ data = take 1404 (drop 1 rx))).
Proof.
  intros Hq Hlen. unfold fw_udp_cmd. assert (0 ≤ zlen rx) by apply zlen_nonneg.
  assert (zlen (drop 1 rx) = Z.max 0 (zlen rx - 1)) as Hdrop by (unfold zlen; rewrite length_drop; lia).
  destruct (zlen rx <? 1) eqn:E0.
  { split; [|by left]. split; [done|]. lia. }
  assert (∀ d, cmd_dlen (rd rx 0) (zlen rx) = Some d → d = zlen rx - 1 ∨ rd rx 0 = FW_CMD_START ∧ d = 1404 ∧ 1404 < zlen rx - 1) as Hd.
  { intros d. unfold cmd_dlen, FW_V2_MAX, FW_V2_CHUNK, FW_DATA_MAX, FW_CMD_START, FW_CMD_DATA, FW_CMD_DATA_V2, FW_CMD_END.
    repeat case_match; intros ?; simplify_eq; lia. }
  destruct (cmd_dlen (rd rx 0) (zlen rx)) as [dlen|] eqn:Ed.
  2:{ split; [|by left]. split; [done|]. intros [Hend Hl]. revert Ed. unfold cmd_dlen. rewrite Hend.
      change (FW_CMD_END =? FW_CMD_START) with false. change (FW_CMD_END =? FW_CMD_DATA) with false.
      change (FW_CMD_END =? FW_CMD_DATA_V2) with false. change (FW_CMD_END =? FW_CMD_END) with true.
      cbv iota. by replace (zlen rx <? 4) with false by lia. }
  pose proof (cmd_dlen_bound _ _ _ Ed ltac:(lia)) as [Hb1 Hb2].
  specialize (Hd dlen eq_refl). unfold copy_data, FW_V2_MAX, FW_V2_CHUNK, FW_CMD_END, FW_CMD_START in *. rewrite Hq.
  destruct (dlen <=? 4 + 1400) eqn:Eb; cbn [mbind option_bind].
  - split.
    + split; [by destruct (zlen q <? FW_Q_DEPTH)|]. intros [? ?]. lia.
    + right. right. exists (take (Z.to_nat dlen) (drop 1 rx)). split; [by destruct (zlen q <? FW_Q_DEPTH)|].
      split; [unfold zlen; rewrite length_take, length_drop; lia|].
      destruct Hd as [Hd|(Hs & -> & _)]; [left|right; by split].
      apply take_ge. unfold zlen in *. lia.
  - split; [|by right; left]. split; [|done]. intros _. destruct Hb2 as [Hb2|Hb2]; lia.
Qed.

(** ** Witnesses *)

Definition pending_ok (permanent : bool) (f : Nor.nor) : Z * Nor.nor := (0, f).

Definition fu_idle : @fu Nor.nor := fw_udp_start (fu_boot Nor.fake_flash_reset).

(** the transfer starts, and the first piece delivered is stored *)
Lemma udp_transfer_witness :
  ∃ st1, fw_udp_cmd (FW_CMD_START :: put_le32 (zlen img_example) ++ kh_example) 5 6 fu_idle = Some (true, st1) ∧
  let st1 := fw_send_reply_cb true (fw_task kh_example pending_ok true st1) in
  fu_sent st1 = [(5, 6, [FW_CMD_START; 1; 0x78; 0x05])] ∧
  ∃ n acks, received_prefix img_example st1 n ∧ fu_sent st1 = fu_sent st1 ++ acks.
Proof.
  destruct img_example_ok as (Hl & Hb & _).
  destruct (udp_transfer kh_example pending_ok img_example kh_example 5 6 fu_idle) as (st1 & Hrun & Hsent & Hall).
  - exact Hb.
  - rewrite Hl. unfold SLOT1_SIZE. lia.
  - reflexivity.
  - by right.
  - reflexivity.
  - reflexivity.
  - reflexivity.
  - reflexivity.
  - exists st1. split; [exact Hrun|]. split; [exact Hsent|].
    destruct (Hall _ (rtc_refl _ _)) as (n & acks & Hrp & Hse & _). exists n, acks. by split.
Defined.

Lemma udp_cmd_bounds_witness :
  fw_udp_cmd (FW_CMD_END :: replicate 1406 0) 5 6 fu_idle = None.
Proof.
  apply (udp_cmd_bounds (FW_CMD_END :: replicate 1406 0) 5 6 fu_idle []); [reflexivity|by vm_compute|].
  split; reflexivity.
Defined.
