(* ===== verification/FwCan.v ===== *)
(** The CAN bus driver and the CAN firmware upgrade channel:
    [src/net/can.c] and [src/fw/fw_can.c].

    The receive interrupt copies frames into a queue of 32 ([fw_can_frame_isr]);
    the worker task takes one at a time and runs the command, data or key hash
    handler against the upgrade session; replies leave through [mod_can_send].
    The HAL is a parameter: [mailbox n] says whether the [n]-th transmission
    finds a mailbox within 100 ms and is accepted.  The version numbers and the
    key hash are generated by the build: parameters. *)

From S2P Require Import Prelude IoBytes Flash FwUpg.

(** ** The bus driver ([can.c]) *)

(** [can_timing_table]: kbps, prescaler, bit segment 1 and 2 in time quanta *)
Definition can_timing_table : list (Z * Z * Z * Z) :=
  [(50, 105, 6, 1); (100, 42, 8, 1); (125, 42, 6, 1); (250, 21, 6, 1); (500, 12, 5, 1); (1000, 6, 5, 1)].

Definition CAN_BAUDRATE_FALLBACK : Z := 250.

(** the table search of [can_start]: the rate that is reported, and the timing *)
Definition can_timing (kbps : Z) : Z * (Z * Z * Z) :=
  match list_find (λ e : Z * Z * Z * Z, e.1.1.1 = kbps) can_timing_table with
  | Some (_, (k, presc, bs1, bs2)) => (k, (presc, bs1, bs2))
  | None => (CAN_BAUDRATE_FALLBACK, (21, 6, 1))
  end.

(** the two identifier/mask pairs of the receive filter that [can_start] sets *)
Definition can_filter (reg_id : Z) : list (Z * Z) :=
  let id := Z.land reg_id 0x7FF in
  [(Z.shiftl id 5, Z.shiftl 0x7FF 5); (Z.shiftl 0x100 5, Z.shiftl 0x700 5)].

(** [started]; the frames given to the controller (identifier, [buf], length);
    and how many transmissions were tried *)
Record candrv := mk_candrv { started : bool; can_tx : list (Z * list Z * Z); can_tries : nat }.

Definition mod_can_send (mailbox : nat → bool) (id : Z) (data : list Z) (d : candrv) : Z * candrv :=
  if negb (started d) || (8 <? zlen data) then (-1, d)
  else
    let buf := data ++ replicate (8 - length data) 0 in
    let d' := mk_candrv (started d) (can_tx d) (S (can_tries d)) in
    if mailbox (can_tries d)
    then (0, mk_candrv (started d) (can_tx d ++ [(Z.land id 0x7FF, buf, zlen data)]) (S (can_tries d)))
    else (-1, d').

(** ** The upgrade protocol ([fw_can.c]) *)

Definition CAN_FW_PLATFORM_RX : Z := 0x101.
Definition CAN_FW_PLATFORM_TX : Z := 0x102.
Definition CAN_FW_FW_DATA_RX : Z := 0x103.
Definition CAN_FW_KEYHASH_RX : Z := 0x104.
Definition CAN_FW_VERSION_TX : Z := 0x105.

Definition FW_CMD_START_UPDATE : Z := 0.
Definition FW_CMD_CONFIRM : Z := 1.
Definition FW_CMD_VERSION : Z := 2.
Definition FW_CMD_REBOOT : Z := 3.

Definition FW_CODE_OFFSET : Z := 0.
Definition FW_CODE_UPDATE_SUCCESS : Z := 1.
Definition FW_CODE_VERSION : Z := 2.
Definition FW_CODE_CONFIRM : Z := 3.
Definition FW_CODE_FLASH_ERROR : Z := 4.
Definition FW_CODE_TRANSFER_ERROR : Z := 5.
Definition FW_CODE_KEYHASH_ERROR : Z := 6.

Definition FW_CODE_CONFIRM_MAGIC : Z := 0x55AA55AA.
Definition KEYHASH_CHUNK : Z := 7.
Definition KEYHASH_CHUNKS : Z := (FW_KEYHASH_LEN + KEYHASH_CHUNK - 1) / KEYHASH_CHUNK.
Definition KEYHASH_FULL_MASK : Z := Z.shiftl 1 KEYHASH_CHUNKS - 1.
Definition FW_Q_DEPTH : Z := 32.
Definition ACK_INTERVAL : Z := 512.

(** [data] is [data[0 .. dlc)] *)
Record can_fw_msg := mk_can_msg { c_id : Z; c_data : list Z }.

(** what the handlers ask of the system besides sending *)
Inductive sys_ev := LogFlush (ms : Z) | HistorySync.

Section FwCan.
Context {F : Type} `{IoFlash F}.
Context (fw_keyhash : list Z).
Context (boot_set_pending : bool → F → Z * F).
Context (mailbox : nat → bool).
(** [FW_VERSION_MAJOR], [FW_VERSION_MINOR], [FW_VERSION_PATCH], [FW_GIT_VERSION] *)
Context (ver_major ver_minor ver_patch : Z) (git_version : list Z).

Record fc := mk_fc {
  fc_f : F; fc_u : upg; fc_q : option (list can_fw_msg);
  rx_keybuf : list Z; key_chunk_mask : Z; fc_drv : candrv; fc_sys : list sys_ev }.

Definition fc_boot (f : F) (d : candrv) : fc :=
  mk_fc f upg_boot None (replicate 32 0) 0 d [].

Definition fw_can_start (st : fc) : fc :=
  mk_fc (fc_f st) (fc_u st) (Some []) (rx_keybuf st) (key_chunk_mask st) (fc_drv st) (fc_sys st).

Definition set_drv (d : candrv) (st : fc) : fc :=
  mk_fc (fc_f st) (fc_u st) (fc_q st) (rx_keybuf st) (key_chunk_mask st) d (fc_sys st).
Definition set_upg (f : F) (u : upg) (st : fc) : fc :=
  mk_fc f u (fc_q st) (rx_keybuf st) (key_chunk_mask st) (fc_drv st) (fc_sys st).
Definition set_q (q : option (list can_fw_msg)) (st : fc) : fc :=
  mk_fc (fc_f st) (fc_u st) q (rx_keybuf st) (key_chunk_mask st) (fc_drv st) (fc_sys st).
Definition set_keys (buf : list Z) (mask : Z) (st : fc) : fc :=
  mk_fc (fc_f st) (fc_u st) (fc_q st) buf mask (fc_drv st) (fc_sys st).
Definition add_sys (es : list sys_ev) (st : fc) : fc :=
  mk_fc (fc_f st) (fc_u st) (fc_q st) (rx_keybuf st) (key_chunk_mask st) (fc_drv st) (fc_sys st ++ es).

Definition can_send (id : Z) (data : list Z) (st : fc) : fc :=
  set_drv (mod_can_send mailbox id data (fc_drv st)).2 st.

Definition fw_reply (code arg : Z) (st : fc) : fc :=
  can_send CAN_FW_PLATFORM_TX
    [u8 code; u8 (Z.shiftr code 8); u8 (Z.shiftr code 16); u8 (Z.shiftr code 24);
     u8 arg; u8 (Z.shiftr arg 8); u8 (Z.shiftr arg 16); u8 (Z.shiftr arg 24)] st.

(** the [for] loop, [off] and [seq] bytes; at most 63 bytes are announced *)
Fixpoint fw_send_version_string (fuel : nat) (ver : list Z) (len off seq : Z) (st : fc) : fc :=
  match fuel with
  | O => st
  | S fuel =>
    if off <? len then
      let chunk := Z.min (u8 (len - off)) 7 in
      let st := can_send CAN_FW_VERSION_TX
                  (seq :: slice (Z.to_nat off) (Z.to_nat chunk) ver ++ replicate (Z.to_nat (7 - chunk)) 0) st in
      fw_send_version_string fuel ver len (u8 (off + 7)) (u8 (seq + 1)) st
    else st
  end.

(** [snprintf(ver, 24, "v%d.%d.%d_%s", ...)]: the length it returns, and [ver] *)
Definition version_text : list Z :=
  [118] ++ dec ver_major ++ [46] ++ dec ver_minor ++ [46] ++ dec ver_patch ++ [95] ++ git_version.
Definition snprintf_ver : Z * list Z := (zlen version_text, take 23 version_text ++ [0]).

Definition get_le32 (p : list Z) (i : nat) : Z :=
  u32 (Z.lor (Z.lor (Z.lor (rd p i) (Z.shiftl (rd p (1 + i)) 8)) (Z.shiftl (rd p (2 + i)) 16))
             (Z.shiftl (rd p (3 + i)) 24)).

(** [while (xQueueReceive(fw_q, &stale, 0) == pdTRUE) {}] *)
Definition drain_queue (st : fc) : fc := set_q ((λ _, []) <$> fc_q st) st.

Definition handle_start (arg : Z) (st : fc) : fc :=
  let st := set_upg (fc_f st) (fw_upg_abort (fc_u st)) st in
  let full := Z.land (key_chunk_mask st) KEYHASH_FULL_MASK =? KEYHASH_FULL_MASK in
  let st := if full then set_keys (rx_keybuf st) 0 st else st in
  let kh := if full then Some (rx_keybuf st) else None in
  let '(rc, f, u) := fw_upg_start fw_keyhash arg kh (fc_f st) (fc_u st) in
  let st := set_upg f u st in
  if rc =? -2 then fw_reply FW_CODE_KEYHASH_ERROR 0 st
  else if negb (rc =? 0) then fw_reply FW_CODE_FLASH_ERROR 0 st
  else fw_reply FW_CODE_OFFSET 0 (drain_queue st).

Definition handle_confirm (arg : Z) (st : fc) : fc :=
  if negb (fw_upg_active (fc_u st)) then fw_reply FW_CODE_TRANSFER_ERROR 0 st
  else
    let st := drain_queue st in
    let '(rc, f, u) := fw_upg_finish_ex fw_keyhash 0 false (fc_f st) (fc_u st) in
    let st := set_upg f u st in
    if negb (rc =? 0) then fw_reply FW_CODE_TRANSFER_ERROR 0 st
    else
      let '(rp, f) := boot_set_pending (negb (arg =? 0)) (fc_f st) in
      let st := set_upg f (fc_u st) st in
      if negb (rp =? 0) then fw_reply FW_CODE_TRANSFER_ERROR 0 st
      else fw_reply FW_CODE_CONFIRM FW_CODE_CONFIRM_MAGIC st.

Definition handle_version (st : fc) : fc :=
  let '(len, ver) := snprintf_ver in
  let len := if 63 <? len then 0 else len in
  fw_send_version_string (S (Z.to_nat len)) ver (u8 len) 0 0 (fw_reply FW_CODE_VERSION len st).

Definition handle_platform_rx (data : list Z) : M fc unit := λ st,
  if negb (zlen data =? 8) then (Done tt, fw_reply FW_CODE_FLASH_ERROR 0 st)
  else
    let cmd := get_le32 data 0 in
    let arg := get_le32 data 4 in
    if cmd =? FW_CMD_START_UPDATE then (Done tt, handle_start arg st)
    else if cmd =? FW_CMD_CONFIRM then (Done tt, handle_confirm arg st)
    else if cmd =? FW_CMD_VERSION then (Done tt, handle_version st)
    else if cmd =? FW_CMD_REBOOT then (Reset, add_sys [LogFlush 500; HistorySync] st)
    else (Done tt, st).

Definition handle_fw_data (data : list Z) (st : fc) : fc :=
  if negb (fw_upg_active (fc_u st)) then fw_reply FW_CODE_TRANSFER_ERROR 0 st
  else
    let '(rc, f, u) := fw_upg_write data (fc_f st) (fc_u st) in
    let st := set_upg f u st in
    if negb (rc =? 0) then fw_reply FW_CODE_FLASH_ERROR 0 st
    else
      let got := fw_upg_received u in
      if got =? fw_upg_total u then fw_reply FW_CODE_UPDATE_SUCCESS got st
      else if got mod ACK_INTERVAL =? 0 then fw_reply FW_CODE_OFFSET got st
      else st.

Definition handle_keyhash (data : list Z) (st : fc) : fc :=
  let seq := rd data 0 in
  let rem := u8 (FW_KEYHASH_LEN - seq * KEYHASH_CHUNK) in
  let chunk := if rem <? KEYHASH_CHUNK then rem else KEYHASH_CHUNK in
  if (KEYHASH_CHUNKS <=? seq) || (zlen data <? 1 + chunk) then st
  else set_keys (splice (Z.to_nat (seq * KEYHASH_CHUNK)) (slice 1 (Z.to_nat chunk) data) (rx_keybuf st))
                (Z.lor (key_chunk_mask st) (u8 (Z.shiftl 1 seq))) st.

(** one iteration of the task's loop; with an empty queue it blocks *)
Definition fw_task : M fc unit := λ st,
  match fc_q st with
  | Some (m :: q) =>
    let st := set_q (Some q) st in
    if c_id m =? CAN_FW_PLATFORM_RX then handle_platform_rx (c_data m) st
    else if c_id m =? CAN_FW_FW_DATA_RX then (Done tt, handle_fw_data (c_data m) st)
    else if c_id m =? CAN_FW_KEYHASH_RX then (Done tt, handle_keyhash (c_data m) st)
    else (Done tt, st)
  | _ => (Done tt, st)
  end.

Definition fw_can_frame_isr (id : Z) (data : list Z) (st : fc) : fc :=
  match fc_q st with
  | Some q =>
    if (zlen data <=? 8) && (zlen q <? FW_Q_DEPTH)
    then set_q (Some (q ++ [mk_can_msg id data])) st else st
  | None => st
  end.

(** frames that arrive one by one, each handled before the next *)
Fixpoint serve (frames : list (Z * list Z)) : M fc unit :=
  match frames with
  | [] => mret tt
  | (id, data) :: frames => modify (fw_can_frame_isr id data) ≫= λ _, fw_task ≫= λ _, serve frames
  end.
End FwCan.

(** ** Bit rates *)

(** every rate of the table is generated exactly from the 42 MHz bus clock, an
    unknown rate falls back to 250 kbit/s, and the filter passes exactly the
    configured identifier and the range 0x100 to 0x1FF. *)
Theorem can_rate_and_filter kbps reg_id id :
  is_u16 reg_id → 0 ≤ id < 2048 →
  (let '(k, (presc, bs1, bs2)) := can_timing kbps in
   k * (presc * (1 + bs1 + bs2)) = 42000 ∧
   (k = kbps ∨ k = CAN_BAUDRATE_FALLBACK ∧ kbps ∉ [50; 100; 125; 250; 500; 1000])) ∧
  (Exists (λ im, Z.land (Z.shiftl id 5) im.2 = im.1) (can_filter reg_id) ↔
   id = Z.land reg_id 0x7FF ∨ 0x100 ≤ id ≤ 0x1FF).
Proof.
  intros Hreg Hid. split.
  - unfold can_timing. destruct (list_find _ _) as [[i [[[k presc] bs1] bs2]]|] eqn:El.
    + apply list_find_Some in El as (Hl & Hk & _). simpl in Hk. subst k.
      apply list_elem_of_lookup_2 in Hl. unfold can_timing_table in Hl.
      rewrite !elem_of_cons in Hl. destruct Hl as [E|[E|[E|[E|[E|[E|E]]]]]];
        [injection E as -> -> -> ->; split; [done|by left]..|by apply not_elem_of_nil in E].
    + split; [done|]. right. split; [done|]. apply list_find_None in El.
      unfold can_timing_table in El. rewrite !Forall_cons_iff in El. simpl in El.
      destruct El as (E1 & E2 & E3 & E4 & E5 & E6 & _). rewrite !not_elem_of_cons.
      split_and!; [congruence..|apply not_elem_of_nil].
  - unfold can_filter. rewrite Exists_cons, Exists_cons, Exists_nil. cbn [fst snd].
    rewrite <- !Z.shiftl_land.
    assert (∀ a b, Z.shiftl a 5 = Z.shiftl b 5 ↔ a = b) as Hinj
      by (intros a b; rewrite !Z.shiftl_mul_pow2 by lia; lia).
    rewrite !Hinj. change 0x7FF with (Z.ones 11). rewrite Z.land_ones, Z.mod_small by lia.
    assert (Z.land id 0x700 = 256 * (id / 256)) as ->.
    { transitivity (Z.shiftl (Z.shiftr id 8) 8).
      2:{ rewrite Z.shiftr_div_pow2, Z.shiftl_mul_pow2 by lia. change (2 ^ 8) with 256. lia. }
      change 0x700 with (Z.shiftl (Z.ones 3) 8). apply Z.bits_inj'. intros i Hi.
      rewrite Z.land_spec, !Z.shiftl_spec by lia. destruct (decide (i < 8)) as [Hlt|Hge].
      - rewrite !(Z.testbit_neg_r _ (i - 8)) by lia. apply andb_false_r.
      - rewrite Z.shiftr_spec, Z.testbit_ones by lia. replace (i - 8 + 8) with i by lia.
        destruct (decide (i < 11)) as [Hs|Hs].
        + replace ((0 <=? i - 8) && (i - 8 <? 3)) with true by lia. apply andb_true_r.
        + by rewrite (testbit_high 11 id i) by (unfold is_u; lia). }
    split; (intros [He|He]; [by left|right]); [destruct He as [He|[]]|left];
      Z.div_mod_to_equations; lia.
Qed.

(** ** Running the channel *)

Section Run.
Context {F : Type} `{FlashLaws F}.
Context (fw_keyhash : list Z) (boot_set_pending : bool → F → Z * F) (mailbox : nat → bool).
Context (ver_major ver_minor ver_patch : Z) (git_version : list Z).
(** the bus works: every frame gets a mailbox *)
Hypothesis mailbox_free : ∀ n, mailbox n = true.

#[local] Abbreviation FC := (@fc F).
#[local] Abbreviation run_frames := (serve fw_keyhash boot_set_pending mailbox ver_major ver_minor ver_patch git_version).
#[local] Abbreviation on_platform :=
  (handle_platform_rx fw_keyhash boot_set_pending mailbox ver_major ver_minor ver_patch git_version).
#[local] Abbreviation on_data := (handle_fw_data mailbox).
#[local] Abbreviation on_start := (handle_start fw_keyhash mailbox).
#[local] Abbreviation on_confirm := (handle_confirm fw_keyhash boot_set_pending mailbox).

Definition reply_frame (code arg : Z) : Z * list Z * Z :=
  (CAN_FW_PLATFORM_TX, io_put_le32 code ++ io_put_le32 arg, 8).

(** an idle task with a working bus *)
Definition ready (st : FC) : Prop := fc_q st = Some [] ∧ started (fc_drv st) = true.

Definition sent (st : FC) : list (Z * list Z * Z) := can_tx (fc_drv st).

Lemma fw_reply_spec code arg (st : FC) :
  started (fc_drv st) = true →
  fw_reply mailbox code arg st
  = set_drv (mk_candrv true (sent st ++ [reply_frame code arg]) (S (can_tries (fc_drv st)))) st.
Proof.
  intros Hs. unfold fw_reply, can_send, mod_can_send. rewrite Hs.
  change (8 <? zlen _) with false. cbn [negb orb]. by rewrite mailbox_free.
Qed.

(** one frame served by an idle task *)
Lemma serve_cons id data frames (st : FC) :
  ready st → zlen data ≤ 8 →
  run_frames ((id, data) :: frames) st
  = ((if id =? CAN_FW_PLATFORM_RX then on_platform data
      else modify (if id =? CAN_FW_FW_DATA_RX then on_data data
                   else if id =? CAN_FW_KEYHASH_RX then handle_keyhash data else λ st, st))
     ≫= λ _, run_frames frames) st.
Proof.
  intros [Hq _] Hd. destruct st as [f u q kb km d sy]. simpl in Hq. subst q.
  cbn [serve]. unfold mbind, M_bind, modify at 1, fw_can_frame_isr at 1. cbn [fc_q].
  replace (zlen data <=? 8) with true by lia. change (zlen [] <? FW_Q_DEPTH) with true.
  unfold fw_task, set_q, modify. cbn [andb app fc_q fc_f fc_u rx_keybuf key_chunk_mask fc_drv fc_sys c_id c_data].
  destruct (id =? CAN_FW_PLATFORM_RX); [done|]. destruct (id =? CAN_FW_FW_DATA_RX); [done|].
  by destruct (id =? CAN_FW_KEYHASH_RX).
Qed.

(** *** Key hash *)

Definition kh_frame (kh : list Z) (i : nat) : Z * list Z :=
  (CAN_FW_KEYHASH_RX, Z.of_nat i :: slice (7 * i) 7 kh).

(** the chunks flagged in the mask are those of [kh] *)
Definition keys_ok (kh : list Z) (st : FC) : Prop :=
  length (rx_keybuf st) = 32%nat ∧ 0 ≤ key_chunk_mask st ∧
  ∀ i, (i < 5)%nat → Z.testbit (key_chunk_mask st) (Z.of_nat i) = true →
       slice (7 * i) 7 (rx_keybuf st) = slice (7 * i) 7 kh.

Lemma kh_chunk_length kh i :
  zlen kh = FW_KEYHASH_LEN → (i < 5)%nat → length (slice (7 * i) 7 kh) = (7 `min` (32 - 7 * i))%nat.
Proof. unfold FW_KEYHASH_LEN, zlen. intros. unfold slice. rewrite length_take, length_drop. lia. Qed.

(** five chunks make the hash *)
Lemma chunks_eq (a b : list Z) :
  length a = 32%nat → length b = 32%nat →
  (∀ i, (i < 5)%nat → slice (7 * i) 7 a = slice (7 * i) 7 b) → a = b.
Proof.
  intros Ha Hb Hi. apply list_eq. intros j. destruct (decide (j < 32)%nat) as [Hj|Hj].
  - assert (∀ l : list Z, l !! j = slice (7 * (j `div` 7)%nat) 7 l !! (j `mod` 7)%nat) as Hl.
    { intros l. unfold slice. pose proof (Nat.mod_upper_bound j 7 ltac:(lia)).
      rewrite lookup_take_lt, lookup_drop by lia. f_equal. pose proof (Nat.div_mod_eq j 7). lia. }
    rewrite (Hl a), (Hl b), Hi; [done|]. apply Nat.Div0.div_lt_upper_bound. lia.
  - rewrite !lookup_ge_None_2 by lia. done.
Qed.

Lemma slice_splice off src (buf : list Z) o n :
  (off + length src ≤ length buf)%nat → (o + n ≤ off ∨ off + length src ≤ o)%nat →
  slice o n (splice off src buf) = slice o n buf.
Proof.
  intros Hl Hd. unfold slice, splice. apply list_eq. intros j.
  destruct (decide (j < n)%nat) as [Hj|Hj]; [|by rewrite !lookup_ge_None_2 by (rewrite length_take; lia)].
  rewrite !lookup_take_lt, !lookup_drop by done. destruct Hd as [Hd|Hd].
  - rewrite lookup_app_l by (rewrite length_take; lia). by rewrite lookup_take_lt by lia.
  - rewrite lookup_app_r by (rewrite length_take; lia). rewrite length_take.
    rewrite lookup_app_r by lia. rewrite lookup_drop. f_equal. lia.
Qed.

Lemma slice_splice_same off src (buf : list Z) n :
  (off + length src ≤ length buf)%nat → (length src = n ∨ off + length src = length buf ∧ length src ≤ n)%nat →
  slice off n (splice off src buf) = src.
Proof.
  intros Hl Hn. unfold slice, splice. rewrite drop_app_length' by (rewrite length_take; lia).
  destruct Hn as [<-|[He Hn]]; [apply take_app_length|].
  rewrite drop_ge by lia. rewrite app_nil_r. by apply take_ge.
Qed.

Lemma handle_keyhash_ok kh i (st : FC) :
  zlen kh = FW_KEYHASH_LEN → (i < 5)%nat → keys_ok kh st →
  ∃ buf, handle_keyhash (kh_frame kh i).2 st
         = set_keys buf (Z.lor (key_chunk_mask st) (2 ^ Z.of_nat i)) st ∧
         keys_ok kh (handle_keyhash (kh_frame kh i).2 st).
Proof.
  intros Hk Hi (Hl & Hm & Hc). pose proof (kh_chunk_length kh i Hk Hi) as Hcl.
  set (c := slice (7 * i) 7 kh) in *.
  assert (handle_keyhash (kh_frame kh i).2 st
          = set_keys (splice (7 * i) c (rx_keybuf st)) (Z.lor (key_chunk_mask st) (2 ^ Z.of_nat i)) st) as E.
  { unfold handle_keyhash, kh_frame. cbn [snd]. rewrite rd_cons_0. fold c.
    unfold FW_KEYHASH_LEN, KEYHASH_CHUNK. change KEYHASH_CHUNKS with 5.
    replace (5 <=? Z.of_nat i) with false by lia.
    assert ((if u8 (32 - Z.of_nat i * 7) <? 7 then u8 (32 - Z.of_nat i * 7) else 7) = Z.of_nat (length c)) as ->.
    { rewrite u8_id by ulia. rewrite Hcl. destruct (32 - Z.of_nat i * 7 <? 7) eqn:E7; lia. }
    assert (zlen (Z.of_nat i :: c) = 1 + Z.of_nat (length c)) as -> by (unfold zlen; simpl; lia).
    replace (1 + Z.of_nat (length c) <? 1 + Z.of_nat (length c)) with false by lia. cbn [orb].
    rewrite Nat2Z.id. change (slice 1 (length c) (Z.of_nat i :: c)) with (take (length c) c).
    rewrite take_ge by lia. replace (Z.to_nat (Z.of_nat i * 7)) with (7 * i)%nat by lia.
    do 2 f_equal. rewrite Z.shiftl_1_l. apply u8_id.
    unfold is_u. split; [apply Z.pow_nonneg; lia|]. apply Z.pow_lt_mono_r; lia. }
  eexists. split; [exact E|]. rewrite E. unfold keys_ok, set_keys. cbn [rx_keybuf key_chunk_mask].
  split; [by rewrite length_splice by lia|]. split; [apply Z.lor_nonneg; split; [done|apply Z.pow_nonneg; lia]|].
  intros j Hj Hbit. rewrite Z.lor_spec, Z.pow2_bits_eqb in Hbit by lia.
  destruct (decide (j = i)) as [->|Hne].
  - rewrite slice_splice_same by lia. done.
  - replace (Z.of_nat i =? Z.of_nat j) with false in Hbit by lia. rewrite orb_false_r in Hbit.
    rewrite slice_splice by lia. by apply Hc.
Qed.

Lemma serve_keyhash kh ks (st : FC) :
  zlen kh = FW_KEYHASH_LEN → Forall (λ i, i < 5)%nat ks → ready st → keys_ok kh st →
  ∃ buf mask, run_frames (kh_frame kh <$> ks) st = (Done tt, set_keys buf mask st) ∧
    keys_ok kh (set_keys buf mask st) ∧
    ∀ i, i ∈ ks ∨ Z.testbit (key_chunk_mask st) (Z.of_nat i) = true → Z.testbit mask (Z.of_nat i) = true.
Proof.
  intros Hk Hall. revert st. induction Hall as [|i ks Hi Hall IH]; intros st Hr Hok.
  - exists (rx_keybuf st), (key_chunk_mask st). assert (set_keys (rx_keybuf st) (key_chunk_mask st) st = st) as ->
      by by destruct st.
    split; [done|]. split; [done|]. intros i [Hin|Hb]; [by apply not_elem_of_nil in Hin|done].
  - destruct (handle_keyhash_ok kh i st Hk Hi Hok) as (buf & Hh & Hok').
    cbn [fmap list_fmap]. unfold kh_frame at 1. rewrite serve_cons; [|done|].
    2:{ pose proof (kh_chunk_length kh i Hk Hi). unfold zlen. cbn [length]. lia. }
    change (CAN_FW_KEYHASH_RX =? CAN_FW_PLATFORM_RX) with false.
    change (CAN_FW_KEYHASH_RX =? CAN_FW_FW_DATA_RX) with false.
    change (CAN_FW_KEYHASH_RX =? CAN_FW_KEYHASH_RX) with true.
    cbv iota. rewrite (bind_done _ _ st tt (handle_keyhash (kh_frame kh i).2 st)) by done.
    rewrite Hh in *.
    destruct (IH (set_keys buf (Z.lor (key_chunk_mask st) (2 ^ Z.of_nat i)) st)) as (buf2 & mask & Hs & Hok2 & Hm);
      [by destruct Hr|done|].
    exists buf2, mask. rewrite Hs. split; [done|]. split; [done|].
    intros j Hj. apply Hm. cbn [key_chunk_mask set_keys]. rewrite Z.lor_spec, Z.pow2_bits_eqb by lia.
    destruct (decide (j = i)) as [->|Hne]; [right; rewrite Z.eqb_refl; apply orb_true_r|].
    destruct Hj as [Hj|Hj]; [left|right; by rewrite Hj].
    by apply elem_of_cons in Hj as [?|?].
Qed.

(** *** The transfer *)

(** what is sent while the chunks arrive, [pos] bytes being there already *)
Fixpoint can_acks (tot pos : Z) (chunks : list (list Z)) : list (Z * list Z * Z) :=
  match chunks with
  | [] => []
  | d :: chunks =>
    let got := pos + zlen d in
    (if got =? tot then [reply_frame FW_CODE_UPDATE_SUCCESS got]
     else if got mod 512 =? 0 then [reply_frame FW_CODE_OFFSET got] else []) ++ can_acks tot got chunks
  end.

Definition data_frame (d : list Z) : Z * list Z := (CAN_FW_FW_DATA_RX, d).

(** the fields a handler of the transfer leaves alone *)
Definition same_keys (st st' : FC) : Prop :=
  rx_keybuf st' = rx_keybuf st ∧ key_chunk_mask st' = key_chunk_mask st ∧ fc_sys st' = fc_sys st.

Lemma handle_fw_data_ok d (st : FC) img :
  ready st → session_ok (fc_f st) (fc_u st) img → bytes_ok d → zlen img + zlen d ≤ total (fc_u st) →
  let st' := on_data d st in
  ready st' ∧ session_ok (fc_f st') (fc_u st') (img ++ d) ∧ total (fc_u st') = total (fc_u st) ∧
  sent st' = sent st ++ can_acks (total (fc_u st)) (zlen img) [d] ∧ same_keys st st'.
Proof.
  intros [Hq Hd] Hs Hb Hl st'. subst st'. unfold handle_fw_data, fw_upg_active.
  destruct (fw_upg_write_ok d (fc_f st) (fc_u st) img Hs Hb Hl) as (f' & u' & -> & Hs' & Ht').
  pose proof (session_len f' u' _ Hs') as Hlen. pose proof Hs as (Ha & _). pose proof Hs' as (Ha' & _ & Htot & Hz & _).
  rewrite Ha. cbn [negb]. change (0 =? 0) with true. cbn [negb].
  assert (fw_upg_received u' = zlen img + zlen d) as ->.
  { unfold fw_upg_received. rewrite <- Hlen, zlen_app in *. unfold SLOT1_SIZE in Htot.
    apply u32_id. pose proof (zlen_nonneg img). pose proof (zlen_nonneg d). ulia. }
  unfold fw_upg_total, can_acks, ACK_INTERVAL. rewrite Ha', Ht', app_nil_r. cbv zeta.
  destruct (zlen img + zlen d =? total (fc_u st)); [|destruct ((zlen img + zlen d) mod 512 =? 0)];
    rewrite ?fw_reply_spec by done; unfold ready, same_keys, sent, set_drv, set_upg; simpl; rewrite ?app_nil_r;
    by split_and!.
Qed.

Lemma serve_data chunks (st : FC) img :
  ready st → session_ok (fc_f st) (fc_u st) img → bytes_ok (concat chunks) →
  Forall (λ d, zlen d ≤ 8) chunks → zlen img + zlen (concat chunks) ≤ total (fc_u st) →
  ∃ st', (∀ frames, run_frames ((data_frame <$> chunks) ++ frames) st = run_frames frames st') ∧
  ready st' ∧ session_ok (fc_f st') (fc_u st') (img ++ concat chunks) ∧ total (fc_u st') = total (fc_u st) ∧
  sent st' = sent st ++ can_acks (total (fc_u st)) (zlen img) chunks ∧ same_keys st st'.
Proof.
  revert st img. induction chunks as [|d chunks IH]; intros st img Hr Hs Hb H8 Hl.
  - exists st. cbn [concat can_acks]. rewrite !app_nil_r. by split_and!.
  - cbn [concat] in *. apply Forall_app in Hb as [Hbd Hb]. apply Forall_cons_iff in H8 as [Hd8 H8].
    rewrite zlen_app in Hl. pose proof (zlen_nonneg (concat chunks)).
    destruct (handle_fw_data_ok d st img Hr Hs Hbd ltac:(lia)) as (Hr1 & Hs1 & Ht1 & Hse1 & Hk1 & Hm1 & Hy1).
    set (st1 := on_data d st) in *.
    destruct (IH st1 (img ++ d) Hr1 Hs1 Hb H8) as (st' & Hrun & Hr' & Hs' & Ht' & Hse' & Hk' & Hm' & Hy').
    { rewrite zlen_app. lia. }
    exists st'. split; [|split_and!; [done| |congruence| |]].
    + intros frames. cbn [fmap list_fmap app]. unfold data_frame at 1. rewrite serve_cons by done.
      change (CAN_FW_FW_DATA_RX =? CAN_FW_PLATFORM_RX) with false.
      change (CAN_FW_FW_DATA_RX =? CAN_FW_FW_DATA_RX) with true.
      cbv iota. rewrite (bind_done _ _ st tt st1) by done. apply Hrun.
    + by rewrite app_assoc.
    + rewrite Hse', Hse1, Ht1, zlen_app, <- app_assoc. cbn [can_acks]. by rewrite app_nil_r.
    + split_and!; congruence.
Qed.

(** a command frame *)
Definition cmd_frame (cmd arg : Z) : Z * list Z := (CAN_FW_PLATFORM_RX, io_put_le32 cmd ++ io_put_le32 arg).

Lemma get_le32_parts cmd arg :
  is_u32 cmd → is_u32 arg →
  get_le32 (io_put_le32 cmd ++ io_put_le32 arg) 0 = cmd ∧ get_le32 (io_put_le32 cmd ++ io_put_le32 arg) 4 = arg.
Proof.
  intros Hc Ha.
  assert (∀ p i, get_le32 p i = io_get_le32 [rd p i; rd p (1 + i); rd p (2 + i); rd p (3 + i)]) as Hg.
  { intros p i. unfold get_le32, io_get_le32.
    f_equal. apply Z.bits_inj'. intros k _. rewrite !Z.lor_spec.
    change (rd [rd p i; rd p (1 + i); rd p (2 + i); rd p (3 + i)] 0) with (rd p i).
    change (rd [rd p i; rd p (1 + i); rd p (2 + i); rd p (3 + i)] 1) with (rd p (1 + i)).
    change (rd [rd p i; rd p (1 + i); rd p (2 + i); rd p (3 + i)] 2) with (rd p (2 + i)).
    change (rd [rd p i; rd p (1 + i); rd p (2 + i); rd p (3 + i)] 3) with (rd p (3 + i)).
    destruct (Z.testbit (rd p i) k), (Z.testbit (Z.shiftl (rd p (1 + i)) 8) k),
      (Z.testbit (Z.shiftl (rd p (2 + i)) 16) k), (Z.testbit (Z.shiftl (rd p (3 + i)) 24) k); reflexivity. }
  rewrite !Hg. split; [exact (le32_roundtrip cmd Hc)|exact (le32_roundtrip arg Ha)].
Qed.

Lemma serve_cmd cmd arg frames (st : FC) :
  ready st → is_u32 cmd → is_u32 arg →
  run_frames (cmd_frame cmd arg :: frames) st
  = ((if cmd =? FW_CMD_START_UPDATE then modify (on_start arg)
      else if cmd =? FW_CMD_CONFIRM then modify (on_confirm arg)
      else on_platform (cmd_frame cmd arg).2) ≫= λ _, run_frames frames) st.
Proof.
  intros Hr Hc Ha. unfold cmd_frame at 1. rewrite serve_cons by done.
  change (CAN_FW_PLATFORM_RX =? CAN_FW_PLATFORM_RX) with true. cbv iota.
  destruct (get_le32_parts cmd arg Hc Ha) as [Eg Ea].
  unfold mbind, M_bind, modify, handle_platform_rx, cmd_frame. cbn [snd].
  change (zlen (io_put_le32 cmd ++ io_put_le32 arg) =? 8) with true. cbn [negb]. rewrite Eg, Ea.
  by destruct (cmd =? FW_CMD_START_UPDATE), (cmd =? FW_CMD_CONFIRM).
Qed.

(** START: any session left over is dropped, a complete key hash decides *)
Lemma handle_start_ok tot (st : FC) :
  ready st → 64 ≤ tot ≤ SLOT1_SIZE →
  (Z.land (key_chunk_mask st) KEYHASH_FULL_MASK = KEYHASH_FULL_MASK → take 32 (rx_keybuf st) = fw_keyhash) →
  let st' := on_start tot st in
  ready st' ∧ session_ok (fc_f st') (fc_u st') [] ∧ total (fc_u st') = tot ∧
  sent st' = sent st ++ [reply_frame FW_CODE_OFFSET 0] ∧ fc_sys st' = fc_sys st.
Proof.
  intros [Hq Hd] Ht Hk st'. subst st'. unfold handle_start. cbn [fc_f fc_u key_chunk_mask set_upg].
  set (full := Z.land (key_chunk_mask st) KEYHASH_FULL_MASK =? KEYHASH_FULL_MASK).
  destruct (fw_upg_start_ok fw_keyhash tot (if full then Some (rx_keybuf st) else None) (fc_f st)
              (fw_upg_abort (fc_u st)) eq_refl Ht) as (f' & u' & Hst & Hs & Htot).
  { intros k Hfk. destruct full eqn:Ef; [|done]. injection Hfk as <-. apply Hk, Z.eqb_eq. exact Ef. }
  unfold drain_queue, set_upg, set_keys. destruct full;
    cbn [rx_keybuf key_chunk_mask fc_f fc_u fc_q fc_drv fc_sys]; rewrite Hst;
      change (0 =? -2) with false; change (negb (0 =? 0)) with false; cbv iota;
      rewrite fw_reply_spec by done; unfold ready, sent, set_drv, set_upg, set_keys, set_q; simpl; rewrite Hq;
      by split_and!.
Qed.

Lemma handle_confirm_ok perm (st : FC) img :
  ready st → session_ok (fc_f st) (fc_u st) img → zlen img = total (fc_u st) →
  let st' := on_confirm perm st in
  ready st' ∧ active (fc_u st') = false ∧
  ∃ f', cells f' SLOT1_OFFSET (length img) = img ∧
    let keyed := bool_decide (tlv_keyhash_get f' = Some fw_keyhash) in
    let pending := boot_set_pending (negb (perm =? 0)) f' in
    fc_f st' = (if keyed then pending.2 else f') ∧
    sent st' = sent st ++ [if keyed && (pending.1 =? 0) then reply_frame FW_CODE_CONFIRM FW_CODE_CONFIRM_MAGIC
                           else reply_frame FW_CODE_TRANSFER_ERROR 0] ∧ fc_sys st' = fc_sys st.
Proof.
  intros [Hq Hd] Hs Hfull st'. subst st'. unfold handle_confirm, fw_upg_active. pose proof Hs as (Ha & _).
  rewrite Ha. cbn [negb fc_f fc_u drain_queue set_q].
  destruct (fw_upg_finish_run fw_keyhash 0 false (fc_f st) (fc_u st) img Hs Hfull) as (f' & u' & Hfin & Hact & Hc & _).
  unfold drain_queue. cbn [fc_f fc_u set_q]. rewrite Hfin. cbn [negb orb andb].
  destruct (bool_decide (tlv_keyhash_get f' = Some fw_keyhash)) eqn:Ek.
  - change (0 =? 0) with true. cbn [negb fc_f fc_u set_upg].
    destruct (boot_set_pending (negb (perm =? 0)) f') as [rp f2] eqn:Ep.
    destruct (rp =? 0) eqn:Erp; cbn [negb]; rewrite fw_reply_spec by done;
      unfold ready, sent, set_drv, set_upg, set_q; simpl; rewrite Hq; (split; [done|]; split; [done|]);
      exists f'; rewrite Ek, Ep; cbn [fst snd andb]; rewrite ?Erp; by split_and!.
  - change (-1 =? 0) with false. cbn [negb]. rewrite fw_reply_spec by done.
    unfold ready, sent, set_drv, set_upg, set_q; simpl; rewrite Hq. split; [done|]. split; [done|].
    exists f'. rewrite Ek. by split_and!.
Qed.
End Run.

(** ** Properties *)


(** The key hash sent in five chunks, in any order and with repetitions, is
    reassembled exactly, touches neither flash nor session and is answered by
    nothing; the next START is refused with its own code, flash untouched and no
    session open, when the hash is not the device's, accepted when it is, and
    consumes the chunks either way. *)
Theorem can_keyhash_check {F} `{FlashLaws F} fw_keyhash (boot_set_pending : bool → F → Z * F) mailbox
    ver_major ver_minor ver_patch git_version kh order tot (st : @fc F) :
  (∀ n, mailbox n = true) → fc_q st = Some [] → started (fc_drv st) = true →
  length (rx_keybuf st) = 32%nat → key_chunk_mask st = 0 →
  zlen kh = FW_KEYHASH_LEN → Forall (λ i, i < 5)%nat order → (∀ i, (i < 5)%nat → i ∈ order) →
  64 ≤ tot ≤ SLOT1_SIZE →
  ∃ mask st',
    serve fw_keyhash boot_set_pending mailbox ver_major ver_minor ver_patch git_version
      (kh_frame kh <$> order) st = (Done tt, set_keys kh mask st) ∧
    serve fw_keyhash boot_set_pending mailbox ver_major ver_minor ver_patch git_version
      [cmd_frame FW_CMD_START_UPDATE tot] (set_keys kh mask st) = (Done tt, st') ∧
    key_chunk_mask st' = 0 ∧
    (kh ≠ fw_keyhash → fc_f st' = fc_f st ∧ active (fc_u st') = false ∧
       can_tx (fc_drv st') = can_tx (fc_drv st) ++ [reply_frame FW_CODE_KEYHASH_ERROR 0]) ∧
    (kh = fw_keyhash → session_ok (fc_f st') (fc_u st') [] ∧ total (fc_u st') = tot ∧
       can_tx (fc_drv st') = can_tx (fc_drv st) ++ [reply_frame FW_CODE_OFFSET 0]).
Proof.
  intros Hmb Hq Hd Hlb Hm Hkl Hall Hcov Ht.
  destruct (serve_keyhash fw_keyhash boot_set_pending mailbox ver_major ver_minor ver_patch git_version kh order st)
    as (buf & mask & Hrun & (Hlen & Hmn & Hch) & Hbits); [done|done|done| |].
  { split_and!; [done|lia|]. intros i Hi. rewrite Hm, Z.bits_0. done. }
  cbn [rx_keybuf key_chunk_mask set_keys] in *.
  assert (buf = kh) as ->.
  { apply chunks_eq; [done|unfold zlen, FW_KEYHASH_LEN in Hkl; lia|]. intros i Hi. apply Hch; [done|].
    apply Hbits. left. by apply Hcov. }
  assert (Z.land mask KEYHASH_FULL_MASK = KEYHASH_FULL_MASK) as Hfull.
  { change KEYHASH_FULL_MASK with (Z.ones 5). apply Z.bits_inj'. intros i Hi.
    rewrite Z.land_spec, Z.testbit_ones by lia. destruct (decide (i < 5)) as [Hi5|Hi5].
    - rewrite <- (Z2Nat.id i), Hbits by (done || (left; apply Hcov; lia)).
      by replace ((0 <=? Z.of_nat (Z.to_nat i)) && (Z.of_nat (Z.to_nat i) <? 5)) with true by lia.
    - replace ((0 <=? i) && (i <? 5)) with false by lia. apply andb_false_r. }
  assert (take 32 kh = kh) as Htk by (apply take_ge; unfold zlen, FW_KEYHASH_LEN in Hkl; lia).
  exists mask. set (st1 := set_keys kh mask st) in *.
  assert (is_u32 tot) as Htu by (unfold SLOT1_SIZE in Ht; ulia).
  assert (key_chunk_mask (handle_start fw_keyhash mailbox tot st1) = 0) as Hmask.
  { unfold handle_start. cbn [key_chunk_mask set_upg st1 set_keys]. rewrite Hfull, Z.eqb_refl.
    destruct (fw_upg_start _ _ _ _ _) as [[rc f] u]. by destruct (rc =? -2), (rc =? 0). }
  exists (handle_start fw_keyhash mailbox tot st1). split; [exact Hrun|]. split.
  { rewrite serve_cmd by (done || (unfold FW_CMD_START_UPDATE; ulia)).
    by change (FW_CMD_START_UPDATE =? FW_CMD_START_UPDATE) with true. }
  split; [done|]. split.
  - intros Hne. unfold handle_start, st1, set_upg, set_keys.
    cbn [key_chunk_mask rx_keybuf fc_f fc_u fc_q fc_drv fc_sys]. rewrite Hfull, Z.eqb_refl.
    unfold fw_upg_start, fw_upg_abort. cbn [active key_chunk_mask rx_keybuf fc_f fc_u fc_q fc_drv fc_sys].
    replace ((tot <? 64) || (SLOT1_SIZE <? tot)) with false by lia. rewrite Htk, bool_decide_false by done.
    cbn [negb]. change (-2 =? -2) with true. cbv iota. by rewrite fw_reply_spec.
  - intros ->. destruct (handle_start_ok fw_keyhash mailbox Hmb tot st1) as (_ & Hs & Htot & Hse & _); [done..|].
    by split_and!.
Qed.

(** ** Witnesses *)

Definition fc_idle : @fc Nor.nor := fw_can_start (fc_boot Nor.fake_flash_reset (mk_candrv true [] 0)).
Definition pending_ok (permanent : bool) (f : Nor.nor) : Z * Nor.nor := (0, f).
Definition bus_free (n : nat) : bool := true.
Definition chunks_example : list (list Z) := replicate 9 [1; 2; 3; 4; 5; 6; 7; 8].

Lemma can_rate_and_filter_witness :
  Exists (λ im, Z.land (Z.shiftl 0x103 5) im.2 = im.1) (can_filter 0x0111).
Proof. apply (can_rate_and_filter 250 0x0111 0x103); [ulia|lia|right; lia]. Defined.


Lemma can_keyhash_check_witness :
  ∃ mask st',
    serve kh_example pending_ok bus_free 1 0 0 [] (kh_frame (replicate 32 8) <$> [4; 0; 1; 1; 3; 2]%nat) fc_idle
    = (Done tt, set_keys (replicate 32 8) mask fc_idle) ∧
    serve kh_example pending_ok bus_free 1 0 0 [] [cmd_frame FW_CMD_START_UPDATE 100]
      (set_keys (replicate 32 8) mask fc_idle) = (Done tt, st') ∧
    can_tx (fc_drv st') = [reply_frame FW_CODE_KEYHASH_ERROR 0].
Proof.
  destruct (can_keyhash_check kh_example pending_ok bus_free 1 0 0 [] (replicate 32 8) [4; 0; 1; 1; 3; 2]%nat 100 fc_idle)
    as (mask & st' & Hrun & Hst & _ & Hbad & _).
  - done.
  - reflexivity.
  - reflexivity.
  - reflexivity.
  - reflexivity.
  - reflexivity.
  - repeat constructor.
  - intros i Hi. apply (bool_decide_eq_true_1 (i ∈ [4; 0; 1; 1; 3; 2]%nat)).
    do 5 (destruct i as [|i]; [reflexivity|]). lia.
  - unfold SLOT1_SIZE. lia.
  - exists mask, st'. split; [exact Hrun|]. split; [exact Hst|]. apply Hbad. intros E. vm_compute in E. discriminate E.
Defined.
