(* ===== verification/UdpCfg.v ===== *)
(** The UDP configuration service: [src/net/udp_cfg.c] (commands) and
    [src/net/udp_task.c] (transport).

    The command layer works on the register model of [Regmap.v] and keeps the
    state of the two-step factory reset and the reboot requests.  The transport
    filters by subnet, hands firmware commands to the upgrade channel
    ([FwUdp.v]), sends the reply, and only then reboots.  [UdpHooks] is what the
    command layer calls beyond [IoHooks].  lwIP is reduced to what the callback
    sees: the payload, the sender, and whether [pbuf_alloc] succeeds. *)

From S2P Require Import Prelude IoBytes Flash ConfigStore Regmap FwUdp.

Definition UDP_CMD_GET_VERSION : Z := 0x04.
Definition UDP_CMD_REBOOT : Z := 0x05.
Definition UDP_CMD_SET_IP : Z := 0x10.
Definition UDP_CMD_GET_IP : Z := 0x11.
Definition UDP_CMD_SET_MODBUS : Z := 0x12.
Definition UDP_CMD_GET_MODBUS : Z := 0x13.
Definition UDP_CMD_SET_TIME : Z := 0x14.
Definition UDP_CMD_FACTORY_RESET : Z := 0x19.
Definition UDP_CFG_PORT : Z := 8600.
Definition UDP_CFG_BCAST_PORT : Z := UDP_CFG_PORT + 1.

Class UdpHooks (E : Type) : Type := {
  hook_config_erase_all : E → E;   (* config_store_erase_all *)
  hook_now_ms : E → Z * E;         (* *udp_now_ms *)
}.

(** the registers, and the statics of the command layer *)
Record ucfg (E : Type) := mk_ucfg {
  uc_regs : regs E; factory_reset_pending_ms : Z; factory_reset_confirmed : bool;
  factory_reset_reboot_pending : bool; reboot_reboot_pending : bool }.
Arguments mk_ucfg {E} _ _ _ _ _.
Arguments uc_regs {E} _.
Arguments factory_reset_pending_ms {E} _.
Arguments factory_reset_confirmed {E} _.
Arguments factory_reset_reboot_pending {E} _.
Arguments reboot_reboot_pending {E} _.

Section Commands.
Context {E : Type} `{IoHooks E} `{UdpHooks E}.
Context (ver_major ver_minor ver_patch : Z) (git_version : list Z).

Abbreviation MU := (M (ucfg E)).

Definition on_uregs {A} (m : M (regs E) A) : MU A :=
  zoom uc_regs (λ r s, mk_ucfg r (factory_reset_pending_ms s) (factory_reset_confirmed s)
                         (factory_reset_reboot_pending s) (reboot_reboot_pending s)) m.

Definition set_fr (ms : Z) (confirmed pending : bool) : MU unit :=
  modify (λ s, mk_ucfg (uc_regs s) ms confirmed pending (reboot_reboot_pending s)).

(** a reply is the bytes written and counted; [[]] stands for length 0, silence *)
Definition reply_ok (cap cmd ok : Z) : list Z := if cap <? 2 then [] else [cmd; ok].

Definition udp_cfg_reset_pending : MU unit :=
  modify (λ s, mk_ucfg (uc_regs s) 0 false false false).

Definition udp_cfg_reboot_pending (s : ucfg E) : bool :=
  factory_reset_reboot_pending s || reboot_reboot_pending s.

(** the confirm step *)
Definition factory_reset_now (cap cmd : Z) : MU (list Z) :=
  on_uregs (call hook_config_erase_all);;
  modify (λ s, mk_ucfg (uc_regs s) (factory_reset_pending_ms s) false true (reboot_reboot_pending s));;
  mret (reply_ok cap cmd 1).

Definition udp_factory_reset (cap cmd : Z) : MU (list Z) :=
  confirmed ← gets factory_reset_confirmed;
  if negb confirmed then
    now ← on_uregs (call_ret hook_now_ms);
    pending ← gets factory_reset_pending_ms;
    if 5000 <? u32 (now - pending) then
      modify (λ s, mk_ucfg (uc_regs s) now (factory_reset_confirmed s)
                     (factory_reset_reboot_pending s) (reboot_reboot_pending s));;
      mret (reply_ok cap cmd 0)
    else
      modify (λ s, mk_ucfg (uc_regs s) (factory_reset_pending_ms s) true
                     (factory_reset_reboot_pending s) (reboot_reboot_pending s));;
      factory_reset_now cap cmd
  else factory_reset_now cap cmd.

Definition set_ip (data : list Z) : MU unit :=
  _ ← on_uregs (update_holding_reg HOLDING_IP_OCTET1_IDX (rd data 0));
  _ ← on_uregs (update_holding_reg HOLDING_IP_OCTET2_IDX (rd data 1));
  _ ← on_uregs (update_holding_reg HOLDING_IP_OCTET3_IDX (rd data 2));
  _ ← on_uregs (update_holding_reg HOLDING_IP_OCTET4_IDX (rd data 3));
  on_uregs holding_reg_save.

Definition set_modbus (data : list Z) : MU unit :=
  _ ← on_uregs (update_holding_reg HOLDING_SLAVE_ID_IDX (rd data 0));
  _ ← on_uregs (update_holding_reg HOLDING_RS485_BAUDRATE_IDX (io_get_be16 (drop 1 data)));
  on_uregs holding_reg_save.

(** the room left is compared in 16 bits, each test covering the next byte only *)
Definition get_version (cap cmd : Z) : list Z :=
  let git_ver := take 7 (git_version ++ replicate 7 0) in
  if cap <? 2 then []
  else if u16 (cap - 2) <? 1 then []
  else if u16 (cap - 4) <? 1 then []
  else if u16 (cap - 6) <? 1 then []
  else if u16 (cap - 8) <? 6 then []
  else [cmd; 118; u8 (48 + ver_major); 46; u8 (48 + ver_minor); 46; u8 (48 + ver_patch); 95] ++ take 6 git_ver.

Definition udp_app_cmd (cmd : Z) (data : list Z) (cap : Z) : MU (list Z) :=
  let len := zlen data in
  if cmd =? UDP_CMD_SET_IP then
    if (4 <=? len) && ip_addr_valid (rd data 0) (rd data 1) (rd data 2) (rd data 3)
    then set_ip data;; mret (reply_ok cap cmd 1)
    else mret (reply_ok cap cmd 0)
  else if cmd =? UDP_CMD_GET_IP then
    if cap <? 5 then mret []
    else
      a ← on_uregs (get_holding_reg HOLDING_IP_OCTET1_IDX);
      b ← on_uregs (get_holding_reg HOLDING_IP_OCTET2_IDX);
      c ← on_uregs (get_holding_reg HOLDING_IP_OCTET3_IDX);
      d ← on_uregs (get_holding_reg HOLDING_IP_OCTET4_IDX);
      mret [cmd; u8 a; u8 b; u8 c; u8 d]
  else if cmd =? UDP_CMD_SET_MODBUS then
    if 3 <=? len then set_modbus data;; mret (reply_ok cap cmd 1)
    else mret (reply_ok cap cmd 0)
  else if cmd =? UDP_CMD_GET_MODBUS then
    if cap <? 4 then mret []
    else
      sid ← on_uregs (get_holding_reg HOLDING_SLAVE_ID_IDX);
      baud ← on_uregs (get_holding_reg HOLDING_RS485_BAUDRATE_IDX);
      mret ([cmd; u8 sid] ++ io_put_be16 baud)
  else if cmd =? UDP_CMD_SET_TIME then
    if 4 <=? len then
      ok ← on_uregs (call_ret (hook_set_timestamp (io_get_be32 data)));
      mret (reply_ok cap cmd (if ok : bool then 1 else 0))
    else mret (reply_ok cap cmd 0)
  else if cmd =? UDP_CMD_GET_VERSION then mret (get_version cap cmd)
  else if cmd =? UDP_CMD_REBOOT then
    modify (λ s, mk_ucfg (uc_regs s) (factory_reset_pending_ms s) (factory_reset_confirmed s)
                   (factory_reset_reboot_pending s) true);;
    mret (reply_ok cap cmd 1)
  else if cmd =? UDP_CMD_FACTORY_RESET then udp_factory_reset cap cmd
  else mret [].

Definition udp_cmd_bcast_allowed (cmd : Z) : bool := cmd =? UDP_CMD_GET_IP.
End Commands.

(** ** Transport *)

Section Transport.
Context {E F : Type} `{IoHooks E} `{UdpHooks E}.
Context (ver_major ver_minor ver_patch : Z) (git_version : list Z).

(** the two probe counters, the command layer, the upgrade channel, and the
    datagrams sent: destination, port, payload *)
Record ut := mk_ut {
  udp_recv_calls : Z; udp_recv_bytes : Z; ut_cfg : ucfg E; ut_fw : @fu F;
  ut_sent : list (Z * Z * list Z) }.

Definition IP_BROADCAST : Z := 0xFFFFFFFF.

(** [addr] is the address as lwIP holds it: first octet lowest *)
Definition same_subnet24 (addr : Z) (s : regs E) : bool :=
  let local := Z.lor (Z.lor (hread s HOLDING_IP_OCTET1_IDX)
                            (u32 (Z.shiftl (hread s HOLDING_IP_OCTET2_IDX) 8)))
                     (u32 (Z.shiftl (hread s HOLDING_IP_OCTET3_IDX) 16)) in
  Z.land addr 0x00FFFFFF =? Z.land local 0x00FFFFFF.

(** the reply is sent, then a pending reboot is carried out *)
Definition udp_answer (same : bool) (src port : Z) (alloc : bool) (reply : list Z) : M ut unit := λ st,
  match reply with
  | [] => (Done tt, st)
  | _ =>
    if negb alloc then (Done tt, st)
    else
      let dst := if same then (src, port) else (IP_BROADCAST, UDP_CFG_BCAST_PORT) in
      let st := mk_ut (udp_recv_calls st) (udp_recv_bytes st) (ut_cfg st) (ut_fw st)
                      (ut_sent st ++ [(dst.1, dst.2, reply)]) in
      if udp_cfg_reboot_pending (ut_cfg st)
      then let '(_, cfg) := on_uregs (call hook_history_sync;; call hook_reboot_cold) (ut_cfg st) in
           (Reset, mk_ut (udp_recv_calls st) (udp_recv_bytes st) cfg (ut_fw st) (ut_sent st))
      else (Done tt, st)
  end.

(** [None]: the overrun of [fw_udp_cmd].  [payload] is the chain's content. *)
Definition udp_cfg_recv (payload : option (list Z)) (src port : Z) (alloc : bool) (st : ut)
    : option (outcome unit * ut) :=
  let st := mk_ut (u32 (udp_recv_calls st + 1)) (udp_recv_bytes st) (ut_cfg st) (ut_fw st) (ut_sent st) in
  match payload with
  | None | Some [] => Some (Done tt, st)
  | Some ((cmd :: _) as p) =>
    let st := mk_ut (udp_recv_calls st) (u32 (udp_recv_bytes st + zlen p)) (ut_cfg st) (ut_fw st) (ut_sent st) in
    let same := same_subnet24 src (uc_regs (ut_cfg st)) in
    if negb same && negb (udp_cmd_bcast_allowed cmd) then Some (Done tt, st)
    else
      let rx := take 1408 p in
      '(taken, fw) ← fw_udp_cmd rx src port (ut_fw st);
      let st := mk_ut (udp_recv_calls st) (udp_recv_bytes st) (ut_cfg st) fw (ut_sent st) in
      if taken : bool then Some (Done tt, st)
      else
        let '(r, cfg) := udp_app_cmd ver_major ver_minor ver_patch git_version (rd rx 0) (drop 1 rx) 64 (ut_cfg st) in
        let st := mk_ut (udp_recv_calls st) (udp_recv_bytes st) cfg (ut_fw st) (ut_sent st) in
        Some (match r with
              | Done reply => udp_answer same src port alloc reply st
              | Reset => (Reset, st)
              end)
  end.
End Transport.

(** ** Running the commands *)

Section Run.
Context {E : Type} `{IoHooksLaws E} `{UdpHooks E}.
Context (ver_major ver_minor ver_patch : Z) (git_version : list Z).

#[local] Abbreviation app_cmd := (udp_app_cmd ver_major ver_minor ver_patch git_version).

Definition with_uregs (r : regs E) (s : ucfg E) : ucfg E :=
  mk_ucfg r (factory_reset_pending_ms s) (factory_reset_confirmed s)
    (factory_reset_reboot_pending s) (reboot_reboot_pending s).

Lemma on_uregs_run {A} (m : M (regs E) A) (s : ucfg E) a r :
  m (uc_regs s) = (Done a, r) → on_uregs m s = (Done a, with_uregs r s).
Proof. intros Hm. unfold on_uregs, zoom. by rewrite Hm. Qed.

(** the registers after the four octets, or the slave id and rate, are stored *)
Definition ip_stored (data : list Z) (r : regs E) : regs E :=
  mk_regs (<[13%nat := rd data 3]> (<[12%nat := rd data 2]> (<[11%nat := rd data 1]>
            (<[10%nat := rd data 0]> (holding_reg r))))) (input_reg r) (env r).
Definition modbus_stored (data : list Z) (r : regs E) : regs E :=
  mk_regs (<[8%nat := io_get_be16 (drop 1 data)]> (<[9%nat := rd data 0]> (holding_reg r)))
          (input_reg r) (env r).

Lemma set_ip_run data (s : ucfg E) :
  set_ip data s = (Done tt, with_uregs (holding_reg_save (ip_stored data (uc_regs s))).2 s).
Proof.
  transitivity (on_uregs holding_reg_save (with_uregs (ip_stored data (uc_regs s)) s)); [by destruct s|].
  erewrite on_uregs_run by apply holding_reg_save_run. by rewrite holding_reg_save_run.
Qed.

Lemma set_modbus_run data (s : ucfg E) :
  set_modbus data s = (Done tt, with_uregs (holding_reg_save (modbus_stored data (uc_regs s))).2 s).
Proof.
  transitivity (on_uregs holding_reg_save (with_uregs (modbus_stored data (uc_regs s)) s)); [by destruct s|].
  erewrite on_uregs_run by apply holding_reg_save_run. by rewrite holding_reg_save_run.
Qed.

Lemma ip_stored_ok data r : regs_ok r → bytes_ok data → regs_ok (ip_stored data r).
Proof.
  intros (Hh & Hi & Fh & Fi) Hd. unfold regs_ok, ip_stored; simpl. rewrite !length_insert.
  pose proof (rd_byte data) as Hb. split_and!; try done.
  repeat (apply Forall_insert; [|by apply byte_u16, Hb]). done.
Qed.
Lemma modbus_stored_ok data r : regs_ok r → bytes_ok data → regs_ok (modbus_stored data r).
Proof.
  intros (Hh & Hi & Fh & Fi) Hd. unfold regs_ok, modbus_stored; simpl. rewrite !length_insert.
  split_and!; try done. repeat apply Forall_insert; [done|by apply byte_u16, rd_byte|apply get_be16_u16].
Qed.

(** what GET_IP and GET_MODBUS say of the registers *)
Definition ip_reply (r : regs E) : list Z :=
  [UDP_CMD_GET_IP; u8 (hread r HOLDING_IP_OCTET1_IDX); u8 (hread r HOLDING_IP_OCTET2_IDX);
   u8 (hread r HOLDING_IP_OCTET3_IDX); u8 (hread r HOLDING_IP_OCTET4_IDX)].
Definition modbus_reply (r : regs E) : list Z :=
  [UDP_CMD_GET_MODBUS; u8 (hread r HOLDING_SLAVE_ID_IDX)] ++ io_put_be16 (hread r HOLDING_RS485_BAUDRATE_IDX).

Lemma get_ip_run data (s : ucfg E) :
  app_cmd UDP_CMD_GET_IP data 64 s = (Done (ip_reply (uc_regs s)), s).
Proof. by destruct s. Qed.
Lemma get_modbus_run data (s : ucfg E) :
  app_cmd UDP_CMD_GET_MODBUS data 64 s = (Done (modbus_reply (uc_regs s)), s).
Proof. by destruct s. Qed.

Lemma hread_saved (r : regs E) i : hread (holding_reg_save r).2 i = hread r i.
Proof. by rewrite holding_reg_save_run. Qed.

Lemma list_at_most4 (data : list Z) : 4 ≤ zlen data → ∃ a b c d l, data = a :: b :: c :: d :: l.
Proof. intros Hl. do 4 (destruct data as [|? data]; [unfold zlen in Hl; simpl in Hl; lia|]). by eauto 10. Qed.

(** the value of a stored register *)
Lemma hread_ip_stored data r :
  regs_ok r →
  hread (ip_stored data r) HOLDING_IP_OCTET1_IDX = rd data 0 ∧
  hread (ip_stored data r) HOLDING_IP_OCTET2_IDX = rd data 1 ∧
  hread (ip_stored data r) HOLDING_IP_OCTET3_IDX = rd data 2 ∧
  hread (ip_stored data r) HOLDING_IP_OCTET4_IDX = rd data 3.
Proof.
  intros (Hl & _). destruct r as [h i e]; simpl in *.
  destruct (list18 h Hl) as (?&?&?&?&?&?&?&?&?&?&?&?&?&?&?&?&?&?&->). by split_and!.
Qed.
Lemma hread_modbus_stored data r :
  regs_ok r →
  hread (modbus_stored data r) HOLDING_SLAVE_ID_IDX = rd data 0 ∧
  hread (modbus_stored data r) HOLDING_RS485_BAUDRATE_IDX = io_get_be16 (drop 1 data).
Proof.
  intros (Hl & _). destruct r as [h i e]; simpl in *.
  destruct (list18 h Hl) as (?&?&?&?&?&?&?&?&?&?&?&?&?&?&?&?&?&?&->). by split.
Qed.

(** registers that agree with the stored ones are reported as the bytes sent *)
Lemma ip_reply_stored data (r r' : regs E) :
  regs_ok r → bytes_ok data → 4 ≤ zlen data →
  (∀ i, HOLDING_IP_OCTET1_IDX ≤ i ≤ HOLDING_IP_OCTET4_IDX → hread r' i = hread (ip_stored data r) i) →
  ip_reply r' = UDP_CMD_GET_IP :: take 4 data.
Proof.
  intros Hs Hd Hl Hr. destruct (hread_ip_stored data r Hs) as (E1 & E2 & E3 & E4).
  destruct (list_at_most4 data Hl) as (a & b & c & d & l & Hdata).
  unfold ip_reply, HOLDING_IP_OCTET1_IDX, HOLDING_IP_OCTET2_IDX, HOLDING_IP_OCTET3_IDX, HOLDING_IP_OCTET4_IDX in *.
  rewrite !Hr by lia. rewrite E1, E2, E3, E4, !u8_id by (by apply rd_byte). by rewrite Hdata.
Qed.

Lemma modbus_reply_stored data (r r' : regs E) :
  regs_ok r → bytes_ok data → 3 ≤ zlen data →
  (∀ i, HOLDING_DI_ENABLE_IDX ≤ i ≤ HOLDING_SLAVE_ID_IDX → hread r' i = hread (modbus_stored data r) i) →
  modbus_reply r' = UDP_CMD_GET_MODBUS :: take 3 data.
Proof.
  intros Hs Hd Hl Hr. destruct (hread_modbus_stored data r Hs) as (E1 & E2).
  unfold modbus_reply, HOLDING_DI_ENABLE_IDX, HOLDING_SLAVE_ID_IDX, HOLDING_RS485_BAUDRATE_IDX in *.
  rewrite !Hr by lia. rewrite E1, E2, u8_id by (by apply rd_byte).
  destruct data as [|a [|b [|c l]]]; try (unfold zlen in Hl; simpl in Hl; lia).
  rewrite !Forall_cons_iff in Hd. destruct Hd as (Ha & Hb & Hc & _).
  change (drop 1 (a :: b :: c :: l)) with (b :: c :: l). rewrite get_be16_app.
  change (rd (a :: b :: c :: l) 0) with a. cbn [take app]. f_equal. f_equal.
  unfold io_get_be16. change (rd [b; c] 0) with b. change (rd [b; c] 1) with c.
  rewrite lor_shiftl_add by (lia || done). unfold io_put_be16. rewrite shiftr_div by lia.
  f_equal; [|f_equal]; ulia.
Qed.

Lemma set_ip_cmd data (s : ucfg E) :
  app_cmd UDP_CMD_SET_IP data 64 s
  = if (4 <=? zlen data) && ip_addr_valid (rd data 0) (rd data 1) (rd data 2) (rd data 3)
    then (Done [UDP_CMD_SET_IP; 1], with_uregs (holding_reg_save (ip_stored data (uc_regs s))).2 s)
    else (Done [UDP_CMD_SET_IP; 0], s).
Proof.
  unfold udp_app_cmd. change (UDP_CMD_SET_IP =? UDP_CMD_SET_IP) with true. cbv iota.
  destruct (_ && _); [|done]. by rewrite (bind_done _ _ _ _ _ (set_ip_run data s)).
Qed.

Lemma set_modbus_cmd data (s : ucfg E) :
  app_cmd UDP_CMD_SET_MODBUS data 64 s
  = if 3 <=? zlen data
    then (Done [UDP_CMD_SET_MODBUS; 1], with_uregs (holding_reg_save (modbus_stored data (uc_regs s))).2 s)
    else (Done [UDP_CMD_SET_MODBUS; 0], s).
Proof.
  unfold udp_app_cmd. change (UDP_CMD_SET_MODBUS =? UDP_CMD_SET_IP) with false.
  change (UDP_CMD_SET_MODBUS =? UDP_CMD_GET_IP) with false.
  change (UDP_CMD_SET_MODBUS =? UDP_CMD_SET_MODBUS) with true. cbv iota.
  destruct (3 <=? zlen data); [|done]. by rewrite (bind_done _ _ _ _ _ (set_modbus_run data s)).
Qed.

Lemma reboot_cmd data (s : ucfg E) :
  app_cmd UDP_CMD_REBOOT data 64 s
  = (Done [UDP_CMD_REBOOT; 1],
     mk_ucfg (uc_regs s) (factory_reset_pending_ms s) (factory_reset_confirmed s) (factory_reset_reboot_pending s) true).
Proof. reflexivity. Qed.

(** the registers with another environment *)
Definition with_env (e : E) (r : regs E) : regs E := mk_regs (holding_reg r) (input_reg r) e.

Lemma factory_reset_cmd data (s : ucfg E) now e :
  factory_reset_confirmed s = false → hook_now_ms (env (uc_regs s)) = (now, e) →
  app_cmd UDP_CMD_FACTORY_RESET data 64 s
  = if 5000 <? u32 (now - factory_reset_pending_ms s)
    then (Done [UDP_CMD_FACTORY_RESET; 0],
          mk_ucfg (with_env e (uc_regs s)) now false (factory_reset_reboot_pending s) (reboot_reboot_pending s))
    else (Done [UDP_CMD_FACTORY_RESET; 1],
          mk_ucfg (with_env (hook_config_erase_all e) (uc_regs s)) (factory_reset_pending_ms s) false true
                  (reboot_reboot_pending s)).
Proof.
  intros Hc Hn. destruct s as [r ms conf pend rb]. cbn in Hc, Hn. subst conf.
  change (app_cmd UDP_CMD_FACTORY_RESET data 64) with (udp_factory_reset 64 UDP_CMD_FACTORY_RESET).
  unfold udp_factory_reset, factory_reset_now, mbind, M_bind, gets, on_uregs, zoom, call_ret, call, modify.
  cbn. rewrite Hn. cbn. by destruct (5000 <? u32 (now - ms)).
Qed.
End Run.

(** ** Properties *)

(** C15: the settings survive: a valid SET_IP or a complete SET_MODBUS is answered
    with 1, the matching GET answers exactly the bytes sent, and after a restart
    that loads the saved configuration it still does; anything else is answered
    with 0 and changes nothing. *)
Theorem udp_config_persists {E} `{IoHooksLaws E} `{UdpHooks E} vmaj vmin vpat git (s : ucfg E) data :
  regs_ok (uc_regs s) → bytes_ok data →
  let cmd c d := udp_app_cmd vmaj vmin vpat git c d 64 in
  let saves (r : regs E) := (hook_config_save (cfg_export (hook_config_get (env r)) r) (hook_lock (env r))).1 = true in
  let restart (s' : ucfg E) (c : Z) (reply : list Z) :=
    ∀ s2, regs_ok (uc_regs s2) → env (uc_regs s2) = env (uc_regs s') →
    ∃ s3, on_uregs holding_reg_load s2 = (Done tt, s3) ∧ cmd c [] s3 = (Done reply, s3) in
  (4 ≤ zlen data → ip_addr_valid (rd data 0) (rd data 1) (rd data 2) (rd data 3) = true →
   ∃ s', cmd UDP_CMD_SET_IP data s = (Done [UDP_CMD_SET_IP; 1], s') ∧
     cmd UDP_CMD_GET_IP [] s' = (Done (UDP_CMD_GET_IP :: take 4 data), s') ∧
     (saves (ip_stored data (uc_regs s)) → restart s' UDP_CMD_GET_IP (UDP_CMD_GET_IP :: take 4 data))) ∧
  (zlen data < 4 ∨ ip_addr_valid (rd data 0) (rd data 1) (rd data 2) (rd data 3) = false →
   cmd UDP_CMD_SET_IP data s = (Done [UDP_CMD_SET_IP; 0], s)) ∧
  (3 ≤ zlen data →
   ∃ s', cmd UDP_CMD_SET_MODBUS data s = (Done [UDP_CMD_SET_MODBUS; 1], s') ∧
     cmd UDP_CMD_GET_MODBUS [] s' = (Done (UDP_CMD_GET_MODBUS :: take 3 data), s') ∧
     (saves (modbus_stored data (uc_regs s)) → restart s' UDP_CMD_GET_MODBUS (UDP_CMD_GET_MODBUS :: take 3 data))) ∧
  (zlen data < 3 → cmd UDP_CMD_SET_MODBUS data s = (Done [UDP_CMD_SET_MODBUS; 0], s)).
Proof.
  intros Hs Hd cmd saves restart. unfold cmd. rewrite set_ip_cmd, set_modbus_cmd. split_and!.
  - intros Hl Hv. rewrite Hv. replace (4 <=? zlen data) with true by lia. eexists. split; [done|].
    rewrite get_ip_run. cbn [uc_regs with_uregs].
    rewrite (ip_reply_stored data (uc_regs s)) by (intros; rewrite ?hread_saved; done). split; [done|].
    intros Hsv s2 Hs2 He. set (r := ip_stored data (uc_regs s)) in *.
    destruct (holding_reg_save_load r (uc_regs s2)) as (r3 & Hload & _ & Hip);
      [by apply ip_stored_ok|done|exact Hsv|by rewrite He|].
    eexists. split; [by apply on_uregs_run|]. unfold cmd. rewrite get_ip_run. cbn [uc_regs with_uregs].
    rewrite (ip_reply_stored data (uc_regs s)); [done..|]. apply Hip. unfold ip_is_valid_for_export.
    destruct (hread_ip_stored data (uc_regs s) Hs) as (E1 & E2 & E3 & E4). unfold r.
    by rewrite E1, E2, E3, E4, !u8_id by (by apply rd_byte).
  - intros Hbad. destruct (4 <=? zlen data) eqn:E4; [|done]. destruct Hbad as [Hbad| ->]; [lia|done].
  - intros Hl. replace (3 <=? zlen data) with true by lia. eexists. split; [done|].
    rewrite get_modbus_run. cbn [uc_regs with_uregs].
    rewrite (modbus_reply_stored data (uc_regs s)) by (intros; rewrite ?hread_saved; done). split; [done|].
    intros Hsv s2 Hs2 He. set (r := modbus_stored data (uc_regs s)) in *.
    destruct (holding_reg_save_load r (uc_regs s2)) as (r3 & Hload & Hreg & _);
      [by apply modbus_stored_ok|done|exact Hsv|by rewrite He|].
    eexists. split; [by apply on_uregs_run|]. unfold cmd. rewrite get_modbus_run. cbn [uc_regs with_uregs].
    by rewrite (modbus_reply_stored data (uc_regs s)).
  - intros Hl. by replace (3 <=? zlen data) with false by lia.
Qed.

(** The transport's order and filter.  A command from another /24 changes
    nothing and is not answered, GET_IP excepted, which is answered by broadcast
    on the next port.  A reboot command is answered first, then the history is
    flushed and the processor reset.  A factory reset that comes more than five
    seconds after the last one only asks for confirmation; repeated within five
    seconds it erases the configuration, and the reset follows the answer. *)
Theorem udp_recv_order {E F} `{IoHooks E} `{UdpHooks E} `{IoFlash F} vmaj vmin vpat git (st : @ut E F) cmd rest src port :
  let recv p := udp_cfg_recv vmaj vmin vpat git (Some p) src port true in
  let counted n (s : @ut E F) := mk_ut (u32 (udp_recv_calls s + 1)) (u32 (udp_recv_bytes s + n)) (ut_cfg s) (ut_fw s) (ut_sent s) in
  let same (s : @ut E F) := same_subnet24 src (uc_regs (ut_cfg s)) in
  let halted (e : E) := hook_reboot_cold (hook_history_sync e) in
  (same st = false → cmd ≠ UDP_CMD_GET_IP → recv (cmd :: rest) st = Some (Done tt, counted (zlen (cmd :: rest)) st)) ∧
  (same st = false → udp_cfg_reboot_pending (ut_cfg st) = false →
   ∃ st', recv [UDP_CMD_GET_IP] st = Some (Done tt, st') ∧ ut_cfg st' = ut_cfg st ∧
     ut_sent st' = ut_sent st ++ [(IP_BROADCAST, 8601, ip_reply (uc_regs (ut_cfg st)))]) ∧
  (same st = true →
   ∃ st', recv [UDP_CMD_REBOOT] st = Some (Reset, st') ∧ ut_sent st' = ut_sent st ++ [(src, port, [UDP_CMD_REBOOT; 1])] ∧
     env (uc_regs (ut_cfg st')) = halted (env (uc_regs (ut_cfg st)))) ∧
  (same st = true → factory_reset_confirmed (ut_cfg st) = false → udp_cfg_reboot_pending (ut_cfg st) = false →
   let '(now, e) := hook_now_ms (env (uc_regs (ut_cfg st))) in
   5000 < u32 (now - factory_reset_pending_ms (ut_cfg st)) →
   ∃ st', recv [UDP_CMD_FACTORY_RESET] st = Some (Done tt, st') ∧
     ut_sent st' = ut_sent st ++ [(src, port, [UDP_CMD_FACTORY_RESET; 0])] ∧
     factory_reset_pending_ms (ut_cfg st') = now ∧ factory_reset_confirmed (ut_cfg st') = false ∧
     env (uc_regs (ut_cfg st')) = e ∧ holding_reg (uc_regs (ut_cfg st')) = holding_reg (uc_regs (ut_cfg st))) ∧
  (same st = true → factory_reset_confirmed (ut_cfg st) = false →
   let '(now, e) := hook_now_ms (env (uc_regs (ut_cfg st))) in
   u32 (now - factory_reset_pending_ms (ut_cfg st)) ≤ 5000 →
   ∃ st', recv [UDP_CMD_FACTORY_RESET] st = Some (Reset, st') ∧
     ut_sent st' = ut_sent st ++ [(src, port, [UDP_CMD_FACTORY_RESET; 1])] ∧
     env (uc_regs (ut_cfg st')) = halted (hook_config_erase_all e)).
Proof.
  assert (∀ c (fw : @fu F), c ∉ [FW_CMD_START; FW_CMD_DATA; FW_CMD_END; FW_CMD_DATA_V2] →
            fw_udp_cmd (take 1408 [c]) src port fw = Some (false, fw)) as Hother
    by (intros c fw Hc; by apply recv_other).
  assert (Hn : ∀ c, c ∈ [UDP_CMD_GET_IP; UDP_CMD_REBOOT; UDP_CMD_FACTORY_RESET] →
            c ∉ [FW_CMD_START; FW_CMD_DATA; FW_CMD_END; FW_CMD_DATA_V2]).
  { intros c Hc. rewrite !elem_of_cons in Hc. rewrite !not_elem_of_cons.
    unfold FW_CMD_START, FW_CMD_DATA, FW_CMD_END, FW_CMD_DATA_V2, UDP_CMD_GET_IP, UDP_CMD_REBOOT, UDP_CMD_FACTORY_RESET in *.
    destruct Hc as [->|[->|[->|Hc]]]; [..|by apply not_elem_of_nil in Hc]; split_and!; (lia || apply not_elem_of_nil). }
  intros recv counted same halted. unfold same. unfold recv, udp_cfg_recv. destruct st as [calls bytes [r ms conf pend rb] fw sent].
  cbn [ut_cfg uc_regs ut_fw ut_sent udp_recv_calls udp_recv_bytes]. split_and!.
  - intros -> Hc. unfold udp_cmd_bcast_allowed. by replace (cmd =? UDP_CMD_GET_IP) with false by lia.
  - intros -> Hp. unfold udp_cfg_reboot_pending in Hp. cbn in Hp. rewrite Hother by (apply Hn; rewrite !elem_of_cons; tauto).
    cbn [negb andb mbind option_bind]. change (udp_cmd_bcast_allowed UDP_CMD_GET_IP) with true. cbn [negb andb].
    change (rd (take 1408 [UDP_CMD_GET_IP]) 0) with UDP_CMD_GET_IP. rewrite get_ip_run.
    unfold udp_answer, udp_cfg_reboot_pending. cbn. rewrite Hp. by eexists.
  - intros ->. rewrite Hother by (apply Hn; rewrite !elem_of_cons; tauto).
    change (rd (take 1408 [UDP_CMD_REBOOT]) 0) with UDP_CMD_REBOOT.
    cbn [negb andb mbind option_bind]. rewrite reboot_cmd.
    unfold udp_answer, udp_cfg_reboot_pending. cbn. rewrite orb_true_r. by eexists.
  - intros -> Hconf Hp. destruct (hook_now_ms (env r)) as [now e] eqn:En. intros Hms.
    rewrite Hother by (apply Hn; rewrite !elem_of_cons; tauto).
    change (rd (take 1408 [UDP_CMD_FACTORY_RESET]) 0) with UDP_CMD_FACTORY_RESET.
    cbn [negb andb mbind option_bind]. cbn in Hconf, Hms. rewrite (factory_reset_cmd _ _ _ _ _ _ now e) by done.
    cbn [factory_reset_pending_ms]. replace (5000 <? u32 (now - ms)) with true by lia.
    unfold udp_answer, udp_cfg_reboot_pending in *. cbn in *. rewrite Hp. by eexists.
  - intros -> Hconf. destruct (hook_now_ms (env r)) as [now e] eqn:En. intros Hms.
    rewrite Hother by (apply Hn; rewrite !elem_of_cons; tauto).
    change (rd (take 1408 [UDP_CMD_FACTORY_RESET]) 0) with UDP_CMD_FACTORY_RESET.
    cbn [negb andb mbind option_bind]. cbn in Hconf, Hms. rewrite (factory_reset_cmd _ _ _ _ _ _ now e) by done.
    cbn [factory_reset_pending_ms]. replace (5000 <? u32 (now - ms)) with false by lia.
    unfold udp_answer, udp_cfg_reboot_pending. cbn. by eexists.
Qed.

(** ** Witnesses *)

(** the test double of [Regmap.v] with a configuration to erase and a clock *)
#[export] Instance trace_udp : UdpHooks Trace.trace := {
  hook_config_erase_all t := Trace.mk_trace (Trace.log t) (Trace.now t) config_store_get_defaults;
  hook_now_ms t := (u32 (Trace.now t), t);
}.

Definition ucfg_boot (now : Z) : ucfg Trace.trace := mk_ucfg (regs_boot now) 0 false false false.
Definition ut_boot (now : Z) : @ut Trace.trace Nor.nor := mk_ut 0 0 (ucfg_boot now) fu_idle [].

(** an address of the default subnet 192.168.12.x, and one outside *)
Definition ip_inside : Z := 192 + 168 * 256 + 12 * 65536 + 7 * 16777216.
Definition ip_outside : Z := 10 + 7 * 16777216.

Lemma udp_config_persists_witness :
  ∃ s', udp_app_cmd 1 0 0 [] UDP_CMD_SET_IP [10; 0; 0; 5] 64 (ucfg_boot 0) = (Done [UDP_CMD_SET_IP; 1], s') ∧
    udp_app_cmd 1 0 0 [] UDP_CMD_GET_IP [] 64 s' = (Done [UDP_CMD_GET_IP; 10; 0; 0; 5], s').
Proof.
  destruct (udp_config_persists 1 0 0 [] (ucfg_boot 0) [10; 0; 0; 5]) as (Hset & _).
  - apply (regs_boot_ok 0).
  - apply (bool_decide_eq_true_1 (bytes_ok [10; 0; 0; 5])). reflexivity.
  - destruct Hset as (s' & Hrun & Hget & _); [by vm_compute|reflexivity|]. exists s'. split; [exact Hrun|exact Hget].
Defined.

Lemma udp_recv_order_witness :
  (∃ st', udp_cfg_recv 1 0 0 [] (Some [UDP_CMD_FACTORY_RESET]) ip_inside 9 true (ut_boot 6000) = Some (Done tt, st') ∧
     ut_sent st' = [(ip_inside, 9, [UDP_CMD_FACTORY_RESET; 0])]) ∧
  udp_cfg_recv 1 0 0 [] (Some [UDP_CMD_REBOOT]) ip_outside 9 true (ut_boot 6000)
  = Some (Done tt, mk_ut 1 1 (ucfg_boot 6000) fu_idle []).
Proof.
  split.
  - destruct (udp_recv_order 1 0 0 [] (ut_boot 6000) 0 [] ip_inside 9) as (_ & _ & _ & Hfr & _).
    destruct Hfr as (st' & Hrun & Hsent & _); [reflexivity|reflexivity|reflexivity|by vm_compute|].
    exists st'. split; [exact Hrun|exact Hsent].
  - destruct (udp_recv_order 1 0 0 [] (ut_boot 6000) UDP_CMD_REBOOT [] ip_outside 9) as (Hdrop & _).
    exact (Hdrop eq_refl ltac:(unfold UDP_CMD_REBOOT, UDP_CMD_GET_IP; lia)).
Defined.
