(* ===== verification/Calendar.v ===== *)
(** The calendar functions of the C library that the firmware uses: [gmtime_r]
    and [mktime] (the target has no time zone, so both are UTC), on the proleptic
    Gregorian calendar.  The two closed formulas are justified against the rule
    of the calendar ([next_day]) for every day from 1970 to 2105, which is every
    day a 32-bit time reaches before [UINT32_MAX] (2106). *)

From S2P Require Import Prelude.

Record tm := mk_tm {
  tm_sec : Z; tm_min : Z; tm_hour : Z; tm_mday : Z; tm_mon : Z; tm_year : Z; tm_wday : Z }.

(** days since 1970-01-01; the year is counted from March *)
Definition days_from_civil (y m d : Z) : Z :=
  let y := if m <=? 2 then y - 1 else y in
  let era := y / 400 in
  let yoe := y - era * 400 in
  let doy := (153 * (if 2 <? m then m - 3 else m + 9) + 2) / 5 + d - 1 in
  let doe := yoe * 365 + yoe / 4 - yoe / 100 + doy in
  era * 146097 + doe - 719468.

(** year, month 1-12, day of month *)
Definition civil_from_days (n : Z) : Z * Z * Z :=
  let z := n + 719468 in
  let era := z / 146097 in
  let doe := z - era * 146097 in
  let yoe := (doe - doe / 1460 + doe / 36524 - doe / 146096) / 365 in
  let doy := doe - (365 * yoe + yoe / 4 - yoe / 100) in
  let mp := (5 * doy + 2) / 153 in
  let d := doy - (153 * mp + 2) / 5 + 1 in
  let m := if mp <? 10 then mp + 3 else mp - 9 in
  let y := yoe + era * 400 in
  ((if m <=? 2 then y + 1 else y), m, d).

(** the fields of a time; [None] would be a year out of [int] *)
Definition gmtime_r (t : Z) : option tm :=
  let days := t / 86400 in
  let r := t mod 86400 in
  let '(y, m, d) := civil_from_days days in
  if (-2147481748 <=? y) && (y <=? 2147485547)
  then Some (mk_tm (r mod 60) (r / 60 mod 60) (r / 3600) d (m - 1) (y - 1900) ((days + 4) mod 7))
  else None.

(** months outside 0-11 carry into the year, everything else is linear *)
Definition mktime (x : tm) : Z :=
  let y := tm_year x + 1900 + tm_mon x / 12 in
  let m := tm_mon x mod 12 + 1 in
  (days_from_civil y m 1 + tm_mday x - 1) * 86400 + tm_hour x * 3600 + tm_min x * 60 + tm_sec x.

(** ** The rule of the calendar *)

Definition leap (y : Z) : bool := (y mod 4 =? 0) && (negb (y mod 100 =? 0) || (y mod 400 =? 0)).

Definition month_days (y m : Z) : Z :=
  if m =? 2 then if leap y then 29 else 28
  else if (m =? 4) || (m =? 6) || (m =? 9) || (m =? 11) then 30 else 31.

Definition next_day (x : Z * Z * Z) : Z * Z * Z :=
  let '(y, m, d) := x in
  if d <? month_days y m then (y, m, d + 1) else if m <? 12 then (y, m + 1, 1) else (y + 1, 1, 1).

Definition civil_eqb (x y : Z * Z * Z) : bool :=
  (x.1.1 =? y.1.1) && (x.1.2 =? y.1.2) && (x.2 =? y.2).

(** one pass over [k] consecutive days: the formulas follow the rule and invert
    each other, and the fields are in range *)
Fixpoint days_check (k : nat) (n : Z) (x : Z * Z * Z) : bool :=
  match k with
  | O => true
  | S k =>
    civil_eqb (civil_from_days n) x && (days_from_civil x.1.1 x.1.2 1 + x.2 - 1 =? n) &&
    (1970 <=? x.1.1) && (x.1.1 <=? 2106) && (1 <=? x.1.2) && (x.1.2 <=? 12) && (1 <=? x.2) &&
    (x.2 <=? month_days x.1.1 x.1.2) && days_check k (n + 1) (next_day x)
  end.

(** the last day of a 32-bit time is 49710 *)
Lemma days_check_all : days_check (Z.to_nat 49711) 0 (1970, 1, 1) = true.
Proof. vm_compute. reflexivity. Qed.

Lemma days_check_iter k n x i :
  days_check k n x = true → (i < k)%nat →
  let c := civil_from_days (n + Z.of_nat i) in
  c = Nat.iter i next_day x ∧ days_from_civil c.1.1 c.1.2 1 + c.2 - 1 = n + Z.of_nat i ∧
  1970 ≤ c.1.1 ≤ 2106 ∧ 1 ≤ c.1.2 ≤ 12 ∧ 1 ≤ c.2 ≤ month_days c.1.1 c.1.2.
Proof.
  revert n x i. induction k as [|k IH]; intros n x i Hc Hi; [lia|].
  cbn [days_check] in Hc. rewrite !andb_true_iff in Hc.
  destruct Hc as [[[[[[[[Hx Hd] Hy1] Hy2] Hm1] Hm2] Hd1] Hd2] Hrest].
  destruct i as [|i].
  - rewrite Z.add_0_r. assert (civil_from_days n = x) as ->; [|split_and!; [done|lia..]].
    unfold civil_eqb in Hx. destruct (civil_from_days n) as [[? ?] ?], x as [[? ?] ?]. simpl in Hx.
    f_equal; [f_equal|]; lia.
  - replace (n + Z.of_nat (S i)) with (n + 1 + Z.of_nat i) by lia.
    destruct (IH (n + 1) (next_day x) i Hrest ltac:(lia)) as (Hit & Hrest').
    cbv zeta. rewrite Hit in *. rewrite Nat.iter_succ_r. split; [done|exact Hrest'].
Qed.

(** the formulas follow the calendar day by day from 1970-01-01 *)
Lemma civil_ok n :
  0 ≤ n < 49711 →
  civil_from_days n = Nat.iter (Z.to_nat n) next_day (1970, 1, 1) ∧
  let '(y, m, d) := civil_from_days n in
  days_from_civil y m 1 + d - 1 = n ∧ 1970 ≤ y ≤ 2106 ∧ 1 ≤ m ≤ 12 ∧ 1 ≤ d ≤ month_days y m.
Proof.
  intros Hn. pose proof (days_check_iter (Z.to_nat 49711) 0 (1970, 1, 1) (Z.to_nat n) days_check_all ltac:(lia)) as Hi.
  rewrite Z.add_0_l, Z2Nat.id in Hi by lia. destruct Hi as (Hit & Hi). split; [done|].
  by destruct (civil_from_days n) as [[y m] d].
Qed.

Lemma month_days_max y m : month_days y m ≤ 31.
Proof. unfold month_days. repeat case_match; lia. Qed.

(** splitting a 32-bit time into fields and joining them is the identity *)
Lemma gmtime_ok t :
  is_u32 t →
  ∃ x, gmtime_r t = Some x ∧ mktime x = t ∧
    0 ≤ tm_sec x < 60 ∧ 0 ≤ tm_min x < 60 ∧ 0 ≤ tm_hour x < 24 ∧ 1 ≤ tm_mday x ≤ 31 ∧ 0 ≤ tm_mon x < 12 ∧
    70 ≤ tm_year x ≤ 206 ∧ 0 ≤ tm_wday x < 7.
Proof.
  intros Ht. assert (0 ≤ t / 86400 < 49711) as Hn by (unfold_u; split; [apply Z.div_pos; lia|apply Z.div_lt_upper_bound; lia]).
  destruct (civil_ok (t / 86400) Hn) as [_ Hc]. unfold gmtime_r.
  destruct (civil_from_days (t / 86400)) as [[y m] d]. destruct Hc as (Hd & Hy & Hm & Hdd).
  pose proof (month_days_max y m).
  replace ((-2147481748 <=? y) && (y <=? 2147485547)) with true by lia.
  eexists. split; [done|].
  unfold mktime. cbn [tm_sec tm_min tm_hour tm_mday tm_mon tm_year tm_wday].
  assert ((m - 1) / 12 = 0) as -> by (apply Z.div_small; lia).
  assert ((m - 1) mod 12 = m - 1) as -> by (apply Z.mod_small; lia).
  replace (y - 1900 + 1900 + 0) with y by lia. replace (m - 1 + 1) with m by lia. rewrite Hd.
  pose proof (Z.mod_pos_bound t 86400 ltac:(lia)). pose proof (Z.mod_pos_bound (t / 86400 + 4) 7 ltac:(lia)).
  pose proof (Z.div_mod t 86400 ltac:(lia)).
  split; [Z.div_mod_to_equations; lia|]. split_and!; Z.div_mod_to_equations; lia.
Qed.

(** a time within the two-digit years of a 2000-based clock *)
Lemma gmtime_year t x :
  is_u32 t → gmtime_r t = Some x → 946684800 ≤ t < 4102444800 → 100 ≤ tm_year x < 200.
Proof.
  intros Ht Hx Hr. destruct (gmtime_ok t Ht) as (x' & Hx' & Hmk & Hs & Hmi & Hh & Hd & Hmo & Hy & _).
  rewrite Hx in Hx'. injection Hx' as <-. clear Hx.
  unfold mktime in Hmk. rewrite (Z.div_small (tm_mon x)), (Z.mod_small (tm_mon x)) in Hmk by lia.
  revert Hmk. unfold days_from_civil. rewrite Z.add_0_r.
  destruct (tm_mon x + 1 <=? 2) eqn:E2; destruct (2 <? tm_mon x + 1) eqn:E3; try lia;
    intros Hmk; Z.div_mod_to_equations; lia.
Qed.
