(* ===== verification/Clock.v ===== *)
(** The clock: [src/sys/time.c].

    The running time is a 32-bit epoch counter that a one-second timer advances;
    the battery-backed RTC holds it across restarts and is written only when the
    time is set.  The vendor HAL is the class [RtcHal]; [RtcLaws] is what a
    healthy peripheral with a battery guarantees: the calendar keeps what was
    written, also through the bring-up calls.  The instance [rtc_regs] is a
    calendar that stands still, enough to run the definitions. *)

From S2P Require Import Prelude Calendar.

Definition TS_MIN : Z := 946684800.
Definition TS_MAX : Z := 4102444800.

Definition ts_in_range (t : Z) : bool := (TS_MIN <=? t) && (t <? TS_MAX).

Definition RTC_BKP_MAGIC : Z := 0x54494D45.
Definition configTICK_RATE_HZ : Z := 1000.

(** the fields of [RTC_TimeTypeDef] and [RTC_DateTypeDef] that are used *)
Record rtc_time := mk_rtc_time { Hours : Z; Minutes : Z; Seconds : Z }.
Record rtc_date := mk_rtc_date { WeekDay : Z; Month : Z; Date : Z; Year : Z }.

Class RtcHal (R : Type) : Type := {
  HAL_RTC_SetTime : rtc_time → R → bool * R;
  HAL_RTC_SetDate : rtc_date → R → bool * R;
  HAL_RTC_GetTime : R → option rtc_time * R;
  HAL_RTC_GetDate : R → option rtc_date * R;
  rtc_source_is_lse : R → bool;
  backup_reset : R → R;
  HAL_RCC_OscConfig : R → bool * R;     (* start the LSE and select it *)
  HAL_RTC_Init : R → bool * R;          (* keeps a calendar already running *)
  HAL_RTCEx_BKUPRead : R → Z;
  HAL_RTCEx_BKUPWrite : Z → R → R;
}.

(** [cal]: the calendar registers.  [kept]: a configured clock with the flag of
    this firmware, as the battery keeps it. *)
Class RtcLaws (R : Type) `{RtcHal R} : Type := {
  cal : R → rtc_time * rtc_date;
  kept : R → Prop;
  set_time_law t r : kept r → ∃ r', HAL_RTC_SetTime t r = (true, r') ∧ cal r' = (t, (cal r).2) ∧ kept r';
  set_date_law d r : kept r → ∃ r', HAL_RTC_SetDate d r = (true, r') ∧ cal r' = ((cal r).1, d) ∧ kept r';
  get_time_law r : kept r → ∃ r', HAL_RTC_GetTime r = (Some (cal r).1, r') ∧ cal r' = cal r ∧ kept r';
  get_date_law r : kept r → ∃ r', HAL_RTC_GetDate r = (Some (cal r).2, r') ∧ cal r' = cal r ∧ kept r';
  source_law r : kept r → rtc_source_is_lse r = true;
  osc_law r : kept r → ∃ r', HAL_RCC_OscConfig r = (true, r') ∧ cal r' = cal r ∧ kept r';
  init_law r : kept r → ∃ r', HAL_RTC_Init r = (true, r') ∧ cal r' = cal r ∧ kept r';
  magic_law r : kept r → HAL_RTCEx_BKUPRead r = RTC_BKP_MAGIC;
}.

Section Clock.
Context {R : Type} `{RtcHal R}.

Record clk := mk_clk { hrtc : R; rtc_ready : bool; epoch_cache : Z; second_tick : Z }.

Definition clk_boot (r : R) : clk := mk_clk r false 0 0.

(** the tick count is an argument of the functions that read it *)
Definition time_tick_cb (tick : Z) (c : clk) : clk :=
  mk_clk (hrtc c) (rtc_ready c) (u32 (epoch_cache c + 1)) tick.

Definition io_now_epoch (c : clk) : Z := epoch_cache c.

Definition io_now_ms (tick : Z) (c : clk) : Z :=
  (u32 (u32 (tick - second_tick c) * 1000) / configTICK_RATE_HZ) mod 1000.

Definition set_timestamp (tick t : Z) (c : clk) : bool * clk :=
  if negb (rtc_ready c) then (false, c)
  else if negb (ts_in_range t) then (false, c)
  else
    match gmtime_r t with
    | None => (false, c)
    | Some x =>
      let rtc_t := mk_rtc_time (u8 (tm_hour x)) (u8 (tm_min x)) (u8 (tm_sec x)) in
      let rtc_d := mk_rtc_date (u8 (if tm_wday x =? 0 then 7 else tm_wday x)) (u8 (tm_mon x + 1))
                               (u8 (tm_mday x)) (u8 (tm_year x - 100)) in
      let '(ok1, r) := HAL_RTC_SetTime rtc_t (hrtc c) in
      let '(ok, r) := if ok1 : bool then HAL_RTC_SetDate rtc_d r else (false, r) in
      if ok : bool then (true, mk_clk r (rtc_ready c) (u32 t) tick)
      else (false, mk_clk r (rtc_ready c) (epoch_cache c) (second_tick c))
    end.

Definition rtc_read_epoch (r : R) : option Z * R :=
  let '(t, r) := HAL_RTC_GetTime r in
  match t with
  | None => (None, r)
  | Some rtc_t =>
    let '(d, r) := HAL_RTC_GetDate r in
    match d with
    | None => (None, r)
    | Some rtc_d =>
      let t := mktime (mk_tm (Seconds rtc_t) (Minutes rtc_t) (Hours rtc_t) (Date rtc_d) (Month rtc_d - 1)
                             (Year rtc_d + 100) 0) in
      if (t =? -1) || negb (ts_in_range t) then (None, r) else (Some (u32 t), r)
    end
  end.

(** 2020-01-01 00:00:00, a Wednesday, into an empty backup domain *)
Definition rtc_default (r : R) : R :=
  let '(ok1, r) := HAL_RTC_SetTime (mk_rtc_time 0 0 0) r in
  let '(ok, r) := if ok1 : bool then HAL_RTC_SetDate (mk_rtc_date 3 1 1 20) r else (false, r) in
  if ok : bool then HAL_RTCEx_BKUPWrite RTC_BKP_MAGIC r else r.

(** [None]: [return false]; else [*out] *)
Definition rtc_bringup (r : R) : option Z * R :=
  let r := if rtc_source_is_lse r then r else backup_reset r in
  let '(ok, r) := HAL_RCC_OscConfig r in
  if negb ok then (None, r)
  else
    let '(ok, r) := HAL_RTC_Init r in
    if negb ok then (None, r)
    else
      let r := if HAL_RTCEx_BKUPRead r =? RTC_BKP_MAGIC then r else rtc_default r in
      let '(e, r) := rtc_read_epoch r in
      (Some (default 0 e), r).

Definition io_time_init (tick : Z) (c : clk) : clk :=
  let '(e, r) := rtc_bringup (hrtc c) in
  mk_clk r (match e with Some _ => true | None => rtc_ready c end) (default 0 e) tick.
End Clock.

(** ** The time survives in the RTC *)

Section Laws.
Context {R : Type} `{RtcLaws R}.

(** the calendar fields of a time, as they are stored *)
Definition cal_of (x : tm) : rtc_time * rtc_date :=
  (mk_rtc_time (tm_hour x) (tm_min x) (tm_sec x),
   mk_rtc_date (if tm_wday x =? 0 then 7 else tm_wday x) (tm_mon x + 1) (tm_mday x) (tm_year x - 100)).

Lemma set_timestamp_run tick t (c : clk) :
  rtc_ready c = true → kept (hrtc c) → TS_MIN ≤ t < TS_MAX →
  ∃ r x, set_timestamp tick t c = (true, mk_clk r true t tick) ∧ kept r ∧
    gmtime_r t = Some x ∧ cal r = cal_of x.
Proof.
  intros Hr Hk Ht. unfold TS_MIN, TS_MAX in Ht.
  assert (is_u32 t) as Htu by ulia.
  destruct (gmtime_ok t Htu) as (x & Hx & _ & Hs & Hmi & Hh & Hd & Hmo & _ & Hw).
  pose proof (gmtime_year t x Htu Hx Ht) as Hy.
  unfold set_timestamp, ts_in_range, TS_MIN, TS_MAX. rewrite Hr, Hx. cbn [negb].
  replace ((946684800 <=? t) && (t <? 4102444800)) with true by lia. cbn [negb].
  rewrite !u8_id by (destruct (tm_wday x =? 0); ulia).
  destruct (set_time_law (mk_rtc_time (tm_hour x) (tm_min x) (tm_sec x)) (hrtc c) Hk) as (r1 & -> & Hc1 & Hk1).
  destruct (set_date_law (cal_of x).2 r1 Hk1) as (r2 & E2 & Hc2 & Hk2). cbn [cal_of snd] in E2. rewrite E2.
  exists r2, x. rewrite u32_id by done. split; [done|]. split; [done|]. split; [done|]. by rewrite Hc2, Hc1.
Qed.

Lemma rtc_read_run r t x :
  kept r → TS_MIN ≤ t < TS_MAX → gmtime_r t = Some x → cal r = cal_of x →
  ∃ r', rtc_read_epoch r = (Some t, r') ∧ cal r' = cal r ∧ kept r'.
Proof.
  intros Hk Ht Hx Hc. unfold TS_MIN, TS_MAX in Ht. assert (is_u32 t) as Htu by ulia.
  destruct (gmtime_ok t Htu) as (x' & Hx' & Hmk & _). rewrite Hx in Hx'. injection Hx' as <-.
  unfold rtc_read_epoch. destruct (get_time_law r Hk) as (r1 & -> & Hc1 & Hk1).
  destruct (get_date_law r1 Hk1) as (r2 & -> & Hc2 & Hk2). exists r2. rewrite Hc1, Hc. cbn [cal_of fst snd].
  cbn [Seconds Minutes Hours Date Month Year].
  replace (tm_mon x + 1 - 1) with (tm_mon x) by lia. replace (tm_year x - 100 + 100) with (tm_year x) by lia.
  assert (mktime (mk_tm (tm_sec x) (tm_min x) (tm_hour x) (tm_mday x) (tm_mon x) (tm_year x) 0) = t) as -> by exact Hmk.
  unfold ts_in_range, TS_MIN, TS_MAX.
  replace ((t =? -1) || negb ((946684800 <=? t) && (t <? 4102444800))) with false by lia.
  rewrite u32_id by done. split; [done|]. split; [congruence|done].
Qed.

Lemma rtc_bringup_run r t x :
  kept r → TS_MIN ≤ t < TS_MAX → gmtime_r t = Some x → cal r = cal_of x →
  ∃ r', rtc_bringup r = (Some t, r') ∧ cal r' = cal r ∧ kept r'.
Proof.
  intros Hk Ht Hx Hc. unfold rtc_bringup. rewrite source_law by done.
  destruct (osc_law r Hk) as (r1 & -> & Hc1 & Hk1). cbn [negb].
  destruct (init_law r1 Hk1) as (r2 & -> & Hc2 & Hk2). cbn [negb].
  rewrite magic_law by done. rewrite Z.eqb_refl.
  destruct (rtc_read_run r2 t x) as (r3 & -> & Hc3 & Hk3); [done|done|done|congruence|].
  exists r3. split; [done|]. split; [congruence|done].
Qed.

Lemma ticks_run (ts : list Z) (c : clk) :
  is_u32 (epoch_cache c) →
  epoch_cache (fold_left (λ (c : @clk R) tick, time_tick_cb tick c) ts c) = u32 (epoch_cache c + zlen ts).
Proof.
  intros Hc. revert c Hc. induction ts as [|tk ts IH]; intros c Hc.
  - unfold zlen. cbn. rewrite u32_id; ulia.
  - cbn [fold_left]. rewrite IH by apply u32_range. unfold time_tick_cb. cbn [epoch_cache].
    unfold zlen. cbn [length]. ulia.
Qed.
End Laws.

(** ** Properties *)

(** C16: setting the clock: accepted exactly for times from 2000 up to but without
    2100 once the RTC is up; a refused time changes nothing; an accepted one is
    what the clock then reads, in phase, advances by one with every second, and is
    restored by a restart that keeps the RTC, whatever the RAM held. *)
Theorem clock_set_and_restore {R} `{RtcLaws R} tick t (c : @clk R) :
  (rtc_ready c = false ∨ ¬ TS_MIN ≤ t < TS_MAX → set_timestamp tick t c = (false, c)) ∧
  (rtc_ready c = true → kept (hrtc c) → TS_MIN ≤ t < TS_MAX →
   ∃ c', set_timestamp tick t c = (true, c') ∧ io_now_epoch c' = t ∧ io_now_ms tick c' = 0 ∧
     (∀ ticks, io_now_epoch (fold_left (λ (c : @clk R) tick, time_tick_cb tick c) ticks c') = u32 (t + zlen ticks)) ∧
     ∀ boot_tick ready cache tk, let c2 := io_time_init boot_tick (mk_clk (hrtc c') ready cache tk) in
       rtc_ready c2 = true ∧ io_now_epoch c2 = t).
Proof.
  split.
  - unfold set_timestamp, ts_in_range. intros [-> | Ht]; [done|]. destruct (rtc_ready c); [|done]. cbn [negb].
    by replace ((TS_MIN <=? t) && (t <? TS_MAX)) with false by lia.
  - intros Hr Hk Ht. destruct (set_timestamp_run tick t c Hr Hk Ht) as (r & x & Hset & Hkr & Hx & Hcal).
    assert (is_u32 t) as Htu by (unfold TS_MIN, TS_MAX in Ht; ulia).
    exists (mk_clk r true t tick). split; [done|]. split; [done|]. split; [|split].
    + unfold io_now_ms. cbn [second_tick]. by rewrite Z.sub_diag.
    + intros ticks. unfold io_now_epoch. by rewrite ticks_run.
    + intros bt ready cache tk. unfold io_time_init. cbn [hrtc].
      destruct (rtc_bringup_run r t x) as (r' & -> & _); [done..|]. by split.
Qed.

(** ** A calendar in RAM *)

Record rtc_regs := mk_rtc_regs { rr_time : rtc_time; rr_date : rtc_date; rr_lse : bool; rr_bkp : Z }.

#[export] Instance rtc_regs_hal : RtcHal rtc_regs := {
  HAL_RTC_SetTime t r := (true, mk_rtc_regs t (rr_date r) (rr_lse r) (rr_bkp r));
  HAL_RTC_SetDate d r := (true, mk_rtc_regs (rr_time r) d (rr_lse r) (rr_bkp r));
  HAL_RTC_GetTime r := (Some (rr_time r), r);
  HAL_RTC_GetDate r := (Some (rr_date r), r);
  rtc_source_is_lse := rr_lse;
  backup_reset r := mk_rtc_regs (mk_rtc_time 0 0 0) (mk_rtc_date 1 1 1 0) false 0;
  HAL_RCC_OscConfig r := (true, mk_rtc_regs (rr_time r) (rr_date r) true (rr_bkp r));
  HAL_RTC_Init r := (true, r);
  HAL_RTCEx_BKUPRead := rr_bkp;
  HAL_RTCEx_BKUPWrite v r := mk_rtc_regs (rr_time r) (rr_date r) (rr_lse r) v;
}.

#[export] Instance rtc_regs_laws : RtcLaws rtc_regs.
Proof.
  refine {| cal := λ r, (rr_time r, rr_date r); kept := λ r, rr_lse r = true ∧ rr_bkp r = RTC_BKP_MAGIC |};
    intros; destruct_and?; try done; (eexists; split; [reflexivity|]; by split_and!).
Defined.

(** first power-up of an empty backup domain *)
Definition clk_new : @clk rtc_regs :=
  io_time_init 0 (clk_boot (mk_rtc_regs (mk_rtc_time 0 0 0) (mk_rtc_date 1 1 1 0) false 0)).

Lemma clk_new_default : rtc_ready clk_new = true ∧ io_now_epoch clk_new = 1577836800.
Proof. split; reflexivity. Qed.

Lemma clock_set_and_restore_witness :
  ∃ c', set_timestamp 77 1767225600 clk_new = (true, c') ∧ io_now_epoch c' = 1767225600 ∧
    io_now_epoch (io_time_init 0 (mk_clk (hrtc c') false 12 34)) = 1767225600.
Proof.
  destruct (clock_set_and_restore 77 1767225600 clk_new) as (_ & Hset).
  destruct Hset as (c' & Hrun & He & _ & _ & Hboot); [reflexivity|split; reflexivity|unfold TS_MIN, TS_MAX; lia|].
  exists c'. split; [exact Hrun|]. split; [exact He|]. apply (Hboot 0 false 12 34).
Defined.
