(* ===== verification/IntFlash.v ===== *)
(** The on-chip flash driver: [src/storage/intflash.c].

    The HAL is the class [HalFlash]; [HalFlashLaws] is the documented behaviour
    of a healthy array: erasing a sector sets it to 0xFF, programming erased
    cells stores the value, nothing else changes.  [watchdog_feed] has no state
    here.  [IntArray] is an array in RAM that runs the definitions. *)

From stdpp Require Import sets.
From S2P Require Import Prelude IoBytes Flash.

(** address, size, sector number *)
Definition f4_sector_tab : list (Z * Z * Z) :=
  [(0x08000000, 0x4000, 0); (0x08004000, 0x4000, 1); (0x08008000, 0x4000, 2); (0x0800C000, 0x4000, 3);
   (0x08010000, 0x10000, 4); (0x08020000, 0x20000, 5); (0x08040000, 0x20000, 6); (0x08060000, 0x20000, 7)].

Definition INTFLASH_END : Z := 0x08080000.

Class HalFlash (H : Type) : Type := {
  HAL_FLASH_Unlock : H → bool * H;
  HAL_FLASH_Lock : H → bool * H;
  HAL_FLASHEx_Erase : Z → H → bool * H;          (* one sector *)
  HAL_FLASH_Program_WORD : Z → Z → H → bool * H;
  HAL_FLASH_Program_BYTE : Z → Z → H → bool * H;
}.

Class HalFlashLaws (H : Type) `{HalFlash H} : Type := {
  icell : H → Z → Z;
  unlock_law h : ∃ h', HAL_FLASH_Unlock h = (true, h') ∧ ∀ x, icell h' x = icell h x;
  lock_law h : ∃ h', HAL_FLASH_Lock h = (true, h') ∧ ∀ x, icell h' x = icell h x;
  erase_sector_law a n i h :
    (a, n, i) ∈ f4_sector_tab →
    ∃ h', HAL_FLASHEx_Erase i h = (true, h') ∧
          (∀ x, a ≤ x < a + n → icell h' x = 255) ∧ (∀ x, ¬ (a ≤ x < a + n) → icell h' x = icell h x);
  program_byte_law a b h :
    0x08000000 ≤ a < INTFLASH_END → is_byte b → icell h a = 255 →
    ∃ h', HAL_FLASH_Program_BYTE a b h = (true, h') ∧ icell h' a = b ∧ (∀ x, x ≠ a → icell h' x = icell h x);
  program_word_law a w h :
    0x08000000 ≤ a → a + 4 ≤ INTFLASH_END → a mod 4 = 0 → is_u32 w →
    (∀ x, a ≤ x < a + 4 → icell h x = 255) →
    ∃ h', HAL_FLASH_Program_WORD a w h = (true, h') ∧
          (∀ k, (k < 4)%nat → icell h' (a + Z.of_nat k) = rd (io_put_le32 w) k) ∧
          (∀ x, ¬ (a ≤ x < a + 4) → icell h' x = icell h x);
}.

Section IntFlash.
Context {H : Type} `{HalFlash H}.

(** the [for] loop over the sector table; [false] leaves through the lock *)
Fixpoint ie_loop (tab : list (Z * Z * Z)) (addr fin : Z) (h : H) : bool * H :=
  match tab with
  | [] => HAL_FLASH_Lock h
  | (s_addr, size, sector) :: tab =>
    if (s_addr + size <=? addr) || (fin <=? s_addr) then ie_loop tab addr fin h
    else
      let '(ok, h) := HAL_FLASHEx_Erase sector h in
      if ok : bool then ie_loop tab addr fin h else (false, (HAL_FLASH_Lock h).2)
  end.

Definition intflash_erase (addr len : Z) (h : H) : bool * H :=
  if len =? 0 then (true, h)
  else
    let len := Z.land (u32 (len + 0xFFF)) (Z.lnot 0xFFF) in
    let fin := u32 (addr + len) in
    if (addr <? 0x08000000) || (INTFLASH_END <? fin) then (false, h)
    else
      let '(ok, h) := HAL_FLASH_Unlock h in
      if negb ok then (false, h) else ie_loop f4_sector_tab addr fin h.

(** the [for] loop: [buf] is what is left from [off] on *)
Fixpoint iw_loop (fuel : nat) (addr off : Z) (buf : list Z) (h : H) : bool * H :=
  match fuel, buf with
  | _, [] => HAL_FLASH_Lock h
  | O, _ => HAL_FLASH_Lock h
  | S fuel, _ =>
    let word := (Z.land (u32 (addr + off)) 3 =? 0) && (4 <=? zlen buf) in
    let '(ok, h) :=
      if word then HAL_FLASH_Program_WORD (u32 (addr + off)) (io_get_le32 buf) h
      else HAL_FLASH_Program_BYTE (u32 (addr + off)) (rd buf 0) h in
    let n := if word then 4 else 1 in
    if negb ok then (false, (HAL_FLASH_Lock h).2)
    else iw_loop fuel addr (off + n) (drop (Z.to_nat n) buf) h
  end.

Definition intflash_write (addr : Z) (buf : list Z) (h : H) : bool * H :=
  let '(ok, h) := HAL_FLASH_Unlock h in
  if negb ok then (false, h) else iw_loop (length buf) addr 0 buf h.
End IntFlash.

Section Laws.
Context {H : Type} `{HalFlashLaws H}.

(** [n] consecutive cells *)
Definition icells (h : H) (a : Z) (n : nat) : list Z := bytes_at (icell h) a n.

Lemma icells_app h a n m : icells h a (n + m) = icells h a n ++ icells h (a + Z.of_nat n) m.
Proof. apply bytes_at_app. Qed.

Lemma icells_ext h h' a n :
  (∀ x, a ≤ x < a + Z.of_nat n → icell h x = icell h' x) → icells h a n = icells h' a n.
Proof. apply bytes_at_ext. Qed.

(** storing a byte string in erased cells *)
Lemma iw_loop_ok fuel addr off buf h :
  (length buf ≤ fuel)%nat → bytes_ok buf → 0 ≤ off → 0x08000000 ≤ addr → addr + off + zlen buf ≤ INTFLASH_END →
  (∀ x, addr + off ≤ x < addr + off + zlen buf → icell h x = 255) →
  ∃ h', iw_loop fuel addr off buf h = (true, h') ∧ icells h' (addr + off) (length buf) = buf ∧
        ∀ x, ¬ (addr + off ≤ x < addr + off + zlen buf) → icell h' x = icell h x.
Proof.
  revert off buf h. induction fuel as [|fuel IH]; intros off buf h Hf Hb Ho Ha Hend He.
  { destruct buf; [|simpl in Hf; lia]. destruct (lock_law h) as (h' & Hl & Hc). exists h'. by split_and!. }
  destruct buf as [|b buf].
  { destruct (lock_law h) as (h' & Hl & Hc). exists h'. by split_and!. }
  unfold INTFLASH_END in Hend.
  assert (zlen (b :: buf) = 1 + zlen buf) as Hz by (unfold zlen; simpl; lia).
  assert (0 ≤ zlen buf) by (unfold zlen; lia).
  cbn [iw_loop]. rewrite u32_id by ulia.
  assert (∃ n h1, (n = 1 ∨ n = 4) ∧ n ≤ zlen (b :: buf) ∧
            (let word := (Z.land (addr + off) 3 =? 0) && (4 <=? zlen (b :: buf)) in
             (if word then HAL_FLASH_Program_WORD (addr + off) (io_get_le32 (b :: buf)) h
              else HAL_FLASH_Program_BYTE (addr + off) (rd (b :: buf) 0) h) = (true, h1) ∧
             (if word then 4 else 1) = n) ∧
            icells h1 (addr + off) (Z.to_nat n) = take (Z.to_nat n) (b :: buf) ∧
            ∀ x, ¬ (addr + off ≤ x < addr + off + n) → icell h1 x = icell h x)
    as (n & h1 & Hn & Hle & [Hop Hnn] & Hc1 & Hfr1).
  { destruct ((Z.land (addr + off) 3 =? 0) && (4 <=? zlen (b :: buf))) eqn:Ew.
    - apply andb_true_iff in Ew as [Ea El].
      destruct buf as [|b1 [|b2 [|b3 buf]]]; try (unfold zlen in El; simpl in El; lia).
      rewrite !Forall_cons_iff in Hb. destruct Hb as (Hb0 & Hb1 & Hb2 & Hb3 & _).
      assert (Z.land (addr + off) 3 = (addr + off) mod 4) as Hm by (change 3 with (Z.ones 2); by rewrite Z.land_ones by lia).
      destruct (program_word_law (addr + off) (io_get_le32 (b :: b1 :: b2 :: b3 :: buf)) h)
        as (h1 & Hp & Hc & Hfr); [lia|unfold INTFLASH_END; lia|lia|apply get_le32_u32|intros; apply He; lia|].
      exists 4, h1. split; [by right|]. split; [lia|]. split; [by split|]. split; [|exact Hfr].
      change (Z.to_nat 4) with 4%nat. cbn [take].
      rewrite get_le32_app in Hc. unfold icells, bytes_at. cbn [seq fmap list_fmap].
      rewrite !Hc by lia.
      assert (io_put_le32 (io_get_le32 [b; b1; b2; b3]) = [b; b1; b2; b3]) as -> by (by apply le32_bytes).
      reflexivity.
    - apply Forall_cons_iff in Hb as [Hb0 _]. change (rd (b :: buf) 0) with b.
      destruct (program_byte_law (addr + off) b h) as (h1 & Hp & Hc & Hfr);
        [unfold INTFLASH_END; lia|done|apply He; lia|].
      exists 1, h1. split; [by left|]. split; [lia|]. split; [by split|]. split; [|intros x Hx; apply Hfr; lia].
      change (Z.to_nat 1) with 1%nat. unfold icells, bytes_at. cbn. rewrite Z.add_0_r. by rewrite Hc. }
  cbv zeta in Hop, Hnn |- *. rewrite Hop, Hnn. cbn [negb].
  assert (length (drop (Z.to_nat n) (b :: buf)) = length (b :: buf) - Z.to_nat n)%nat as Hld by apply length_drop.
  assert (zlen (drop (Z.to_nat n) (b :: buf)) = zlen (b :: buf) - n) as Hzd by (unfold zlen in *; lia).
  destruct (IH (off + n) (drop (Z.to_nat n) (b :: buf)) h1) as (h2 & Hr & Hc2 & Hfr2).
  { simpl in Hf, Hld. lia. }
  { by apply Forall_drop. }
  { lia. }
  { done. }
  { unfold INTFLASH_END. lia. }
  { intros x Hx. rewrite Hfr1 by lia. apply He. lia. }
  exists h2. split; [exact Hr|]. split.
  - replace (length (b :: buf)) with (Z.to_nat n + length (drop (Z.to_nat n) (b :: buf)))%nat
      by (unfold zlen in Hle; lia).
    rewrite icells_app. replace (addr + off + Z.of_nat (Z.to_nat n)) with (addr + (off + n)) by lia.
    rewrite Hc2. transitivity (take (Z.to_nat n) (b :: buf) ++ drop (Z.to_nat n) (b :: buf)); [|apply take_drop].
    f_equal. rewrite <- Hc1.
    apply icells_ext. intros x Hx. apply Hfr2. lia.
  - intros x Hx. rewrite Hfr2, Hfr1 by lia. done.
Qed.

(** the cells of the sectors of [tab] that meet [addr, fin) *)
Definition covered (tab : list (Z * Z * Z)) (addr fin x : Z) : Prop :=
  ∃ e, e ∈ tab ∧ addr < e.1.1 + e.1.2 ∧ e.1.1 < fin ∧ e.1.1 ≤ x < e.1.1 + e.1.2.

Lemma covered_cons e tab addr fin x :
  covered (e :: tab) addr fin x ↔
  (addr < e.1.1 + e.1.2 ∧ e.1.1 < fin ∧ e.1.1 ≤ x < e.1.1 + e.1.2) ∨ covered tab addr fin x.
Proof.
  split.
  - intros (e' & [->|Hin]%elem_of_cons & Hc); [by left|right; by exists e'].
  - intros [Hc|(e' & Hin & Hc)]; [exists e|exists e']; by rewrite elem_of_cons; auto.
Qed.

Lemma ie_loop_ok tab addr fin h :
  (∀ e, e ∈ tab → e ∈ f4_sector_tab) →
  ∃ h', ie_loop tab addr fin h = (true, h') ∧
    (∀ x, covered tab addr fin x → icell h' x = 255) ∧
    (∀ x, ¬ covered tab addr fin x → icell h' x = icell h x).
Proof.
  revert h. induction tab as [|[[a n] i] tab IH]; intros h Htab.
  - destruct (lock_law h) as (h' & Hl & Hc). exists h'. split; [done|]. split; [|by intros].
    intros x (e & He & _). by apply not_elem_of_nil in He.
  - assert (∀ e, e ∈ tab → e ∈ f4_sector_tab) as Htab' by (intros e He; apply Htab; by right).
    cbn [ie_loop]. destruct ((a + n <=? addr) || (fin <=? a)) eqn:Eo.
    + destruct (IH h Htab') as (h' & Hr & Hc & Hf). exists h'. split; [done|].
      assert (∀ x, covered ((a, n, i) :: tab) addr fin x ↔ covered tab addr fin x) as Hcov.
      { intros x. rewrite covered_cons. simpl. split; [|by right]. intros [?|?]; [lia|done]. }
      split; intros x Hx; [by apply Hc, Hcov|by apply Hf; rewrite <- Hcov].
    + destruct (erase_sector_law a n i h) as (h1 & -> & Hc1 & Hf1); [apply Htab; by left|].
      destruct (IH h1 Htab') as (h' & Hr & Hc & Hf). exists h'. split; [done|]. split; intros x Hx.
      * apply covered_cons in Hx as [Hx|Hx]; [|by apply Hc]. simpl in Hx.
        destruct (decide (Exists (λ e, addr < e.1.1 + e.1.2 ∧ e.1.1 < fin ∧ e.1.1 ≤ x < e.1.1 + e.1.2) tab)) as [He|He].
        -- apply Hc. apply Exists_exists in He as (e & He%list_elem_of_In & ?). by exists e.
        -- rewrite Hf; [apply Hc1; lia|]. intros (e & Hin%list_elem_of_In & Hp). apply He, Exists_exists. by exists e.
      * rewrite covered_cons in Hx. simpl in Hx. rewrite Hf by tauto. apply Hf1. intros ?. apply Hx. left. lia.
Qed.

(** the table covers the array without gaps *)
Lemma table_covers addr fin x :
  0x08000000 ≤ x < INTFLASH_END → addr ≤ x < fin → covered f4_sector_tab addr fin x.
Proof.
  unfold INTFLASH_END. intros Hx Ha.
  assert (∃ e, e ∈ f4_sector_tab ∧ e.1.1 ≤ x < e.1.1 + e.1.2) as (e & He & Hr).
  { unfold f4_sector_tab.
    destruct (decide (x < 0x08004000)); [exists (0x08000000, 0x4000, 0); set_unfold; simpl; split; [tauto|lia]|].
    destruct (decide (x < 0x08008000)); [exists (0x08004000, 0x4000, 1); set_unfold; simpl; split; [tauto|lia]|].
    destruct (decide (x < 0x0800C000)); [exists (0x08008000, 0x4000, 2); set_unfold; simpl; split; [tauto|lia]|].
    destruct (decide (x < 0x08010000)); [exists (0x0800C000, 0x4000, 3); set_unfold; simpl; split; [tauto|lia]|].
    destruct (decide (x < 0x08020000)); [exists (0x08010000, 0x10000, 4); set_unfold; simpl; split; [tauto|lia]|].
    destruct (decide (x < 0x08040000)); [exists (0x08020000, 0x20000, 5); set_unfold; simpl; split; [tauto|lia]|].
    destruct (decide (x < 0x08060000)); [exists (0x08040000, 0x20000, 6); set_unfold; simpl; split; [tauto|lia]|].
    exists (0x08060000, 0x20000, 7); set_unfold; simpl; split; [tauto|lia]. }
  exists e. split; [done|]. lia.
Qed.

Lemma land_page n : 0 ≤ n → Z.land n (Z.lnot 0xFFF) = 4096 * (n / 4096).
Proof.
  intros Hn. change (Z.land n (Z.lnot 0xFFF)) with (Z.land n (Z.lnot (Z.ones 12))).
  rewrite <- Z.ldiff_land, Z.ldiff_ones_r by lia.
  rewrite Z.shiftr_div_pow2, Z.shiftl_mul_pow2 by lia. change (2 ^ 12) with 4096. lia.
Qed.

(** erasing clears every sector that meets the range rounded up to 4 KiB, and
    no other cell *)
Lemma intflash_erase_ok addr len h :
  0x08000000 ≤ addr → 0 < len → addr + 4096 * ((len + 4095) / 4096) ≤ INTFLASH_END →
  ∃ h', intflash_erase addr len h = (true, h') ∧
    (∀ x, addr ≤ x < addr + len → icell h' x = 255) ∧
    (∀ x, ¬ covered f4_sector_tab addr (addr + 4096 * ((len + 4095) / 4096)) x → icell h' x = icell h x).
Proof.
  intros Ha Hl Hend. pose proof Hend as Hend'. unfold INTFLASH_END in Hend'. unfold intflash_erase.
  replace (len =? 0) with false by lia.
  assert (0 ≤ (len + 4095) / 4096) by (apply Z.div_pos; lia).
  assert (len ≤ 4096 * ((len + 4095) / 4096)) by (Z.div_mod_to_equations; lia).
  change 0xFFF with 4095 at 1. rewrite (u32_id (len + 4095)) by ulia. rewrite land_page by lia. rewrite u32_id by ulia.
  replace ((addr <? 0x08000000) || (INTFLASH_END <? addr + 4096 * ((len + 4095) / 4096))) with false by lia.
  destruct (unlock_law h) as (h1 & -> & Hc1). cbn [negb].
  destruct (ie_loop_ok f4_sector_tab addr (addr + 4096 * ((len + 4095) / 4096)) h1) as (h' & Hr & Hc & Hf); [done|].
  exists h'. split; [done|]. split.
  - intros x Hx. apply Hc, table_covers; lia.
  - intros x Hx. rewrite Hf by done. apply Hc1.
Qed.

Lemma intflash_write_ok addr buf h :
  0x08000000 ≤ addr → addr + zlen buf ≤ INTFLASH_END → bytes_ok buf →
  (∀ x, addr ≤ x < addr + zlen buf → icell h x = 255) →
  ∃ h', intflash_write addr buf h = (true, h') ∧ icells h' addr (length buf) = buf ∧
        ∀ x, ¬ (addr ≤ x < addr + zlen buf) → icell h' x = icell h x.
Proof.
  intros Ha Hend Hb He. unfold intflash_write. destruct (unlock_law h) as (h1 & -> & Hc1). cbn [negb].
  destruct (iw_loop_ok (length buf) addr 0 buf h1) as (h' & Hr & Hc & Hf); rewrite ?Z.add_0_r in *; try done.
  { intros x Hx. rewrite Hc1. by apply He. }
  exists h'. split; [done|]. split; [done|]. intros x Hx. rewrite Hf by done. apply Hc1.
Qed.
End Laws.

(** ** An array in RAM *)

Module IntArray.
Record arr := mk_arr { amem : Z → Z }.

Definition aset (a : Z) (v : Z) (h : arr) : arr := mk_arr (λ x, if x =? a then v else amem h x).
Definition aerase (i : Z) (h : arr) : arr :=
  mk_arr (λ x, if existsb (λ e : Z * Z * Z, (e.2 =? i) && (e.1.1 <=? x) && (x <? e.1.1 + e.1.2)) f4_sector_tab
               then 255 else amem h x).

#[export] Instance arr_hal : HalFlash arr := {
  HAL_FLASH_Unlock h := (true, h);
  HAL_FLASH_Lock h := (true, h);
  HAL_FLASHEx_Erase i h := (true, aerase i h);
  HAL_FLASH_Program_WORD a w h :=
    (true, aset (a + 3) (rd (io_put_le32 w) 3) (aset (a + 2) (rd (io_put_le32 w) 2)
             (aset (a + 1) (rd (io_put_le32 w) 1) (aset a (rd (io_put_le32 w) 0) h))));
  HAL_FLASH_Program_BYTE a b h := (true, aset a b h);
}.

Lemma aerase_cell a n i h x :
  (a, n, i) ∈ f4_sector_tab →
  amem (aerase i h) x = if (a <=? x) && (x <? a + n) then 255 else amem h x.
Proof.
  intros Hin. unfold aerase. cbn [amem]. unfold f4_sector_tab in Hin |- *. rewrite !elem_of_cons in Hin.
  destruct Hin as [E|[E|[E|[E|[E|[E|[E|[E|E]]]]]]]];
    [injection E as -> -> ->; cbn [existsb fst snd Z.eqb Pos.eqb andb orb]; rewrite ?orb_false_r; reflexivity..|
     by apply not_elem_of_nil in E].
Qed.

#[export] Instance arr_laws : HalFlashLaws arr.
Proof.
  refine {| icell := amem |}.
  - intros h. by exists h.
  - intros h. by exists h.
  - intros a n i h Hin. eexists. split; [reflexivity|]. split; intros x Hx; rewrite (aerase_cell a n) by done.
    + by replace ((a <=? x) && (x <? a + n)) with true by lia.
    + by replace ((a <=? x) && (x <? a + n)) with false by lia.
  - intros a b h _ _ _. eexists. split; [reflexivity|]. unfold aset. cbn [amem]. rewrite Z.eqb_refl.
    split; [done|]. intros x Hx. by replace (x =? a) with false by lia.
  - intros a w h _ _ _ _ _. eexists. split; [reflexivity|]. unfold aset. cbn [amem]. split.
    + intros k Hk. destruct k as [|[|[|[|k]]]]; [| | | |lia];
        repeat (first [rewrite (proj2 (Z.eqb_eq _ _)) by lia; reflexivity|rewrite (proj2 (Z.eqb_neq _ _)) by lia]).
    + intros x Hx. by rewrite !(proj2 (Z.eqb_neq _ _)) by lia.
Defined.

Definition blank : arr := mk_arr (λ _, 0).
End IntArray.
