(* ===== verification/BootCan.v ===== *)
(** The CAN rescue session of the boot loader: [src/boot/boot_can.c].

    The bxCAN controller is the receive FIFO and the mailboxes written; the
    status register read before a transmission is the parameter [tsr].  A wait
    for the one-shot transmission to end is bounded in the source and has no
    effect here.  The flash behind the session is the driver of [IntFlash.v].

    [boot_can_wait] polls in two loops.  Each iteration takes one [poll]: the
    clock at its start, the clock after a frame was handled, and the frames that
    arrived in between; the loops are functions of the list of polls, and [None]
    means they are still running when the list ends. *)

From S2P Require Import Prelude IoBytes Flash FwUpg IntFlash.

Definition CAN_ID_CMD : Z := 0x101.
Definition CAN_ID_REPLY : Z := 0x102.
Definition CAN_ID_DATA : Z := 0x103.
Definition CAN_ID_KEYHASH : Z := 0x104.
Definition CAN_ID_VERSION : Z := 0x105.
Definition CAN_ID_PROBE : Z := 0x106.
Definition CAN_ID_ACK : Z := 0x107.
Definition CAN_ID_TRACE : Z := 0x108.

Definition FW_CMD_START : Z := 0.
Definition FW_CMD_CONFIRM : Z := 1.
Definition FW_CMD_VERSION : Z := 2.
Definition FW_CMD_REBOOT : Z := 3.

Definition FW_CODE_OFFSET : Z := 0.
Definition FW_CODE_UPDATE_SUCCESS : Z := 1.
Definition FW_CODE_VERSION : Z := 2.
Definition FW_CODE_CONFIRM : Z := 3.
Definition FW_CODE_FLASH_ERROR : Z := 4.
Definition FW_CODE_TRANSFER_ERROR : Z := 5.
Definition FW_CODE_KEYHASH_ERROR : Z := 6.

Definition FW_CONFIRM_MAGIC : Z := 0x55AA55AA.
Definition PROBE_MAGIC : Z := 0x42544F31.

Definition TRACE_HOOK_ENTER : Z := 2.
Definition TRACE_HOST_ACK : Z := 3.
Definition TRACE_CONFIRMED : Z := 4.
Definition TRACE_PROCEED : Z := 5.
Definition TRACE_FW_START : Z := 6.

Definition KEYHASH_CHUNK : Z := 7.
Definition KEYHASH_CHUNKS : Z := (FW_KEYHASH_LEN + KEYHASH_CHUNK - 1) / KEYHASH_CHUNK.
Definition KEYHASH_FULL_MASK : Z := Z.shiftl 1 KEYHASH_CHUNKS - 1.
Definition PROBE_TIMEOUT_MS : Z := 500.
Definition PROBE_INTERVAL_MS : Z := 200.
Definition IDLE_TIMEOUT_MS : Z := 15000.
Definition ACK_INTERVAL : Z := 512.

(** *** Controller registers: the bits used, from the device header *)

Definition CAN_TSR_TME0 : Z := Z.shiftl 1 26.
Definition CAN_TSR_TME1 : Z := Z.shiftl 1 27.
Definition CAN_TSR_TME2 : Z := Z.shiftl 1 28.
Definition CAN_RI0R_IDE : Z := 4.
Definition CAN_RI0R_STID : Z := Z.shiftl 0x7FF 21.

(** one entry of the receive FIFO: RIR, RDTR, RDLR, RDHR *)
Record rx_entry := mk_rx { rir : Z; rdtr : Z; rdlr : Z; rdhr : Z }.
(** one transmission: the mailbox and what is written to it *)
Record tx_entry := mk_tx { tx_box : Z; tdlr : Z; tdhr : Z; tdtr : Z; tir : Z }.

(** [(int32_t)x] *)
Definition i32 (x : Z) : Z := if u32 x <? 2147483648 then u32 x else u32 x - 4294967296.

Section BootCan.
Context {H : Type} `{HalFlash H}.
Context (fw_keyhash : list Z) (ver_major ver_minor ver_patch : Z) (git_version : list Z).
(** [CAN1->TSR] when the [n]-th transmission starts *)
Context (tsr : nat → Z).

(** the session struct [s], the controller, and the flash *)
Record bs := mk_bs {
  s_active : bool; s_total : Z; s_written : Z; s_confirmed : bool; s_installed : bool;
  s_last_activity : Z; s_keybuf : list Z; s_key_mask : Z;
  b_rx : list rx_entry; b_tx : list tx_entry; b_sends : nat; b_flash : H }.

(** [memset(&s, 0, sizeof(s))] *)
Definition bs_clear (s : bs) : bs :=
  mk_bs false 0 0 false false 0 (replicate 32 0) 0 (b_rx s) (b_tx s) (b_sends s) (b_flash s).

Definition set_session (active : bool) (total written : Z) (s : bs) : bs :=
  mk_bs active total written (s_confirmed s) (s_installed s) (s_last_activity s) (s_keybuf s) (s_key_mask s)
        (b_rx s) (b_tx s) (b_sends s) (b_flash s).
Definition set_end (confirmed installed : bool) (s : bs) : bs :=
  mk_bs (s_active s) (s_total s) (s_written s) confirmed installed (s_last_activity s) (s_keybuf s) (s_key_mask s)
        (b_rx s) (b_tx s) (b_sends s) (b_flash s).
Definition set_last (t : Z) (s : bs) : bs :=
  mk_bs (s_active s) (s_total s) (s_written s) (s_confirmed s) (s_installed s) t (s_keybuf s) (s_key_mask s)
        (b_rx s) (b_tx s) (b_sends s) (b_flash s).
Definition set_bkeys (buf : list Z) (mask : Z) (s : bs) : bs :=
  mk_bs (s_active s) (s_total s) (s_written s) (s_confirmed s) (s_installed s) (s_last_activity s) buf mask
        (b_rx s) (b_tx s) (b_sends s) (b_flash s).
Definition set_rx (rx : list rx_entry) (s : bs) : bs :=
  mk_bs (s_active s) (s_total s) (s_written s) (s_confirmed s) (s_installed s) (s_last_activity s) (s_keybuf s)
        (s_key_mask s) rx (b_tx s) (b_sends s) (b_flash s).
Definition set_tx (tx : list tx_entry) (s : bs) : bs :=
  mk_bs (s_active s) (s_total s) (s_written s) (s_confirmed s) (s_installed s) (s_last_activity s) (s_keybuf s)
        (s_key_mask s) (b_rx s) tx (S (b_sends s)) (b_flash s).
Definition set_flash (f : H) (s : bs) : bs :=
  mk_bs (s_active s) (s_total s) (s_written s) (s_confirmed s) (s_installed s) (s_last_activity s) (s_keybuf s)
        (s_key_mask s) (b_rx s) (b_tx s) (b_sends s) f.

(** *** Driver *)

(** the [for] loop that packs the bytes into the two data words *)
Fixpoint pack_words (i : Z) (data : list Z) (dl dh : Z) : Z * Z :=
  match data with
  | [] => (dl, dh)
  | b :: data =>
    if i <? 4 then pack_words (i + 1) data (Z.lor dl (u32 (Z.shiftl b (8 * i)))) dh
    else pack_words (i + 1) data dl (Z.lor dh (u32 (Z.shiftl b (8 * (i - 4)))))
  end.

Definition free_box (t : Z) : option Z :=
  if negb (Z.land t CAN_TSR_TME0 =? 0) then Some 0
  else if negb (Z.land t CAN_TSR_TME1 =? 0) then Some 1
  else if negb (Z.land t CAN_TSR_TME2 =? 0) then Some 2
  else None.

Definition can_send (id : Z) (data : list Z) (s : bs) : bs :=
  if 8 <? zlen data then s
  else
    match free_box (tsr (b_sends s)) with
    | None => set_tx (b_tx s) s
    | Some box =>
      let '(dl, dh) := pack_words 0 data 0 0 in
      set_tx (b_tx s ++ [mk_tx box dl dh (zlen data) (Z.lor (u32 (Z.shiftl (Z.land id 0x7FF) 21)) 1)]) s
    end.

(** the returned length, [*id], [data[8]]; 0 is no frame, 0xFF an extended one *)
Definition can_recv (id : Z) (data : list Z) (s : bs) : Z * Z * list Z * bs :=
  match b_rx s with
  | [] => (0, id, data, s)
  | e :: rx =>
    let s := set_rx rx s in
    if negb (Z.land (rir e) CAN_RI0R_IDE =? 0) then (0xFF, id, data, s)
    else
      let id := Z.shiftr (Z.land (rir e) CAN_RI0R_STID) 21 in
      let len := Z.min (u8 (Z.land (rdtr e) 0xF)) 8 in
      let bytes := (λ i : nat,
        u8 (Z.shiftr (if Z.of_nat i <? 4 then rdlr e else rdhr e) (Z.land (Z.of_nat i) 3 * 8)))
        <$> seq 0 (Z.to_nat len) in
      (len, id, bytes ++ drop (Z.to_nat len) data, s)
  end.

(** [while (can_recv(...) != 0u) {}]: a frame without data also ends it *)
Fixpoint drain_rx (fuel : nat) (id : Z) (data : list Z) (s : bs) : Z * list Z * bs :=
  match fuel with
  | O => (id, data, s)
  | S fuel =>
    let '(dlc, id, data, s) := can_recv id data s in
    if dlc =? 0 then (id, data, s) else drain_rx fuel id data s
  end.

(** *** Replies *)

Definition fw_reply (code arg : Z) (s : bs) : bs :=
  can_send CAN_ID_REPLY
    [u8 code; u8 (Z.shiftr code 8); u8 (Z.shiftr code 16); u8 (Z.shiftr code 24);
     u8 arg; u8 (Z.shiftr arg 8); u8 (Z.shiftr arg 16); u8 (Z.shiftr arg 24)] s.

Definition send_probe (s : bs) : bs :=
  can_send CAN_ID_PROBE
    [u8 PROBE_MAGIC; u8 (Z.shiftr PROBE_MAGIC 8); u8 (Z.shiftr PROBE_MAGIC 16); u8 (Z.shiftr PROBE_MAGIC 24);
     u8 ver_major; u8 ver_minor; u8 ver_patch; 0] s.

Definition send_trace (phase : Z) (s : bs) : bs := can_send CAN_ID_TRACE [phase] s.

Fixpoint send_version_string (fuel : nat) (ver : list Z) (len off seq : Z) (s : bs) : bs :=
  match fuel with
  | O => s
  | S fuel =>
    if off <? len then
      let chunk := Z.min (u8 (len - off)) 7 in
      send_version_string fuel ver len (u8 (off + 7)) (u8 (seq + 1))
        (can_send CAN_ID_VERSION
           (seq :: slice (Z.to_nat off) (Z.to_nat chunk) ver ++ replicate (Z.to_nat (7 - chunk)) 0) s)
    else s
  end.

Definition put_u8 (v : Z) : list Z :=
  (if 100 <=? v then [u8 (48 + v / 100)] else []) ++
  (if 10 <=? v then [u8 (48 + v / 10 mod 10)] else []) ++ [u8 (48 + v mod 10)].

(** at most [max - 1] bytes, the git text being cut *)
Definition build_version (max : Z) : list Z :=
  let pre := [118] ++ put_u8 ver_major ++ [46] ++ put_u8 ver_minor ++ [46] ++ put_u8 ver_patch ++ [95] in
  pre ++ take (Z.to_nat (max - 1 - zlen pre)) git_version.

(** *** Frames *)

Definition get_le32 (p : list Z) (i : nat) : Z :=
  u32 (Z.lor (Z.lor (Z.lor (rd p i) (Z.shiftl (rd p (1 + i)) 8)) (Z.shiftl (rd p (2 + i)) 16))
             (Z.shiftl (rd p (3 + i)) 24)).

Definition handle_keyhash (data : list Z) (dlc : Z) (s : bs) : bs :=
  let seq := rd data 0 in
  let rem := u8 (FW_KEYHASH_LEN - seq * KEYHASH_CHUNK) in
  let chunk := if rem <? KEYHASH_CHUNK then rem else KEYHASH_CHUNK in
  if (KEYHASH_CHUNKS <=? seq) || (dlc <? 1 + chunk) then s
  else set_bkeys (splice (Z.to_nat (seq * KEYHASH_CHUNK)) (slice 1 (Z.to_nat chunk) data) (s_keybuf s))
                 (Z.lor (s_key_mask s) (u8 (Z.shiftl 1 seq))) s.

Definition cmd_start (arg : Z) (s : bs) : bs :=
  let s := send_trace TRACE_FW_START s in
  let full := Z.land (s_key_mask s) KEYHASH_FULL_MASK =? KEYHASH_FULL_MASK in
  let s := if full then set_bkeys (s_keybuf s) 0 s else s in
  if full && negb (bool_decide (take 32 (s_keybuf s) = fw_keyhash)) then fw_reply FW_CODE_KEYHASH_ERROR 0 s
  else if (arg <? 64) || (SLOT0_SIZE <? arg) then fw_reply FW_CODE_FLASH_ERROR 0 s
  else
    let erase_len := Z.land (u32 (arg + 0xFFF)) (Z.lnot 0xFFF) in
    let '(ok, f) := intflash_erase SLOT0_ADDR erase_len (b_flash s) in
    let s := set_flash f s in
    if negb ok then fw_reply FW_CODE_FLASH_ERROR 0 s
    else fw_reply FW_CODE_OFFSET 0 (set_session true arg 0 s).

Definition cmd_confirm (s : bs) : bs :=
  if negb (s_active s) then fw_reply FW_CODE_TRANSFER_ERROR 0 s
  else
    let '(_, _, s) := drain_rx (S (length (b_rx s))) 0 (replicate 8 0) s in
    let s := set_session false (s_total s) (s_written s) s in
    if negb (s_written s =? s_total s) then fw_reply FW_CODE_TRANSFER_ERROR 0 s
    else set_end true true (fw_reply FW_CODE_CONFIRM FW_CONFIRM_MAGIC s).

Definition cmd_version (s : bs) : bs :=
  let ver := build_version 24 in
  let len := zlen ver in
  send_version_string (S (Z.to_nat len)) ver (u8 len) 0 0 (fw_reply FW_CODE_VERSION len s).

Definition handle_cmd (data : list Z) (dlc : Z) (s : bs) : bs :=
  let cmd := get_le32 data 0 in
  let arg := get_le32 data 4 in
  if negb (dlc =? 8) then fw_reply FW_CODE_FLASH_ERROR 0 s
  else if cmd =? FW_CMD_START then cmd_start arg s
  else if cmd =? FW_CMD_CONFIRM then cmd_confirm s
  else if cmd =? FW_CMD_VERSION then cmd_version s
  else if cmd =? FW_CMD_REBOOT then set_end true (s_installed s) s
  else s.

Definition handle_data (data : list Z) (dlc : Z) (s : bs) : bs :=
  if negb (s_active s) then fw_reply FW_CODE_TRANSFER_ERROR 0 s
  else if (dlc =? 0) || (s_total s <? u32 (s_written s + dlc))
  then fw_reply FW_CODE_TRANSFER_ERROR 0 (set_session false (s_total s) (s_written s) s)
  else
    let '(ok, f) := intflash_write (u32 (SLOT0_ADDR + s_written s)) (take (Z.to_nat dlc) data) (b_flash s) in
    let s := set_flash f s in
    if negb ok then fw_reply FW_CODE_FLASH_ERROR 0 (set_session false (s_total s) (s_written s) s)
    else
      let s := set_session (s_active s) (s_total s) (u32 (s_written s + dlc)) s in
      if s_written s =? s_total s then fw_reply FW_CODE_UPDATE_SUCCESS (s_total s) s
      else if s_written s mod ACK_INTERVAL =? 0 then fw_reply FW_CODE_OFFSET (s_written s) s
      else s.

Definition handle_frame (id : Z) (data : list Z) (dlc : Z) (s : bs) : bool * bs :=
  if dlc =? 0xFF then (true, s)
  else if id =? CAN_ID_CMD then (true, if 4 <=? dlc then handle_cmd data dlc s else s)
  else if id =? CAN_ID_DATA then (true, handle_data data dlc s)
  else if id =? CAN_ID_KEYHASH then (true, if 1 <=? dlc then handle_keyhash data dlc s else s)
  else (false, s).

(** *** The wait loops *)

Record poll := mk_poll { p_now : Z; p_after : Z; p_rx : list rx_entry }.

(** [while (!acked)]: the outcome, the polls left, and [id], [data] *)
Fixpoint probe_loop (forever : bool) (deadline next_probe : Z) (polls : list poll) (id : Z) (data : list Z) (s : bs)
    : option (bool * list poll * Z * list Z * bs) :=
  match polls with
  | [] => None
  | p :: polls =>
    let now := p_now p in
    if negb forever && (0 <=? i32 (now - deadline)) then Some (false, polls, id, data, s)
    else
      let probe := 0 <=? i32 (now - next_probe) in
      let s := if probe then send_probe s else s in
      let next_probe := if probe then u32 (now + PROBE_INTERVAL_MS) else next_probe in
      let '(dlc, id, data, s) := can_recv id data (set_rx (b_rx s ++ p_rx p) s) in
      if negb (dlc =? 0) && (id =? CAN_ID_ACK) then Some (true, polls, id, data, s)
      else probe_loop forever deadline next_probe polls id data s
  end.

(** [while (!s.confirmed)] *)
Fixpoint session_loop (polls : list poll) (id : Z) (data : list Z) (s : bs) : option bs :=
  if s_confirmed s then Some s
  else
    match polls with
    | [] => None
    | p :: polls =>
      let '(dlc, id, data, s) := can_recv id data (set_rx (b_rx s ++ p_rx p) s) in
      let s :=
        if negb (dlc =? 0) then
          let '(ours, s) := handle_frame id data dlc s in
          if ours then set_last (p_after p) s
          else if id =? CAN_ID_ACK then set_last (p_after p) s else s
        else s in
      if IDLE_TIMEOUT_MS <=? i32 (p_now p - s_last_activity s) then Some s
      else session_loop polls id data s
    end.

(** [id0], [data0]: the uninitialised locals; [start]: the clock on entry *)
Definition boot_can_wait (forever init_ok : bool) (start session_start id0 : Z) (data0 : list Z)
    (polls : list poll) (s : bs) : option bs :=
  let s := bs_clear s in
  if negb init_ok then Some s
  else
    let s := send_trace TRACE_HOOK_ENTER s in
    '(acked, polls, id, data, s) ← probe_loop forever (u32 (start + PROBE_TIMEOUT_MS)) 0 polls id0 data0 s;
    if negb acked then Some (send_trace TRACE_PROCEED s)
    else
      let s := send_trace TRACE_HOST_ACK s in
      let '(id, data, s) := drain_rx (S (length (b_rx s))) id data s in
      s ← session_loop polls id data (set_last session_start s);
      let s := if s_confirmed s then send_trace TRACE_CONFIRMED s else s in
      Some (send_trace TRACE_PROCEED s).

Definition boot_rescue_done (s : bs) : bool := s_installed s.
End BootCan.

(** ** What a mailbox carries is what the other side receives *)

Lemma pack_zeros i data n dl dh :
  pack_words i (data ++ replicate n 0) dl dh = pack_words i data dl dh.
Proof.
  revert i dl dh. induction data as [|b data IH]; intros i dl dh; cbn [app pack_words].
  - revert i. induction n as [|n IH]; intros i; [done|]. cbn [replicate pack_words].
    rewrite !Z.shiftl_0_l, !Z.lor_0_r. destruct (i <? 4); apply IH.
  - destruct (i <? 4); apply IH.
Qed.

Lemma lor4_le a b c d :
  is_byte a → is_byte b → is_byte c → is_byte d →
  Z.lor (Z.lor (Z.lor (Z.lor 0 (u32 (Z.shiftl a 0))) (u32 (Z.shiftl b 8))) (u32 (Z.shiftl c 16))) (u32 (Z.shiftl d 24))
  = io_get_le32 [a; b; c; d].
Proof.
  intros Ha Hb Hc Hd.
  rewrite !u32_id by (rewrite Z.shiftl_mul_pow2 by lia; ulia). rewrite Z.shiftl_0_r, Z.lor_0_l.
  unfold io_get_le32. change (rd [a; b; c; d] 0) with a. change (rd [a; b; c; d] 1) with b.
  change (rd [a; b; c; d] 2) with c. change (rd [a; b; c; d] 3) with d.
  assert (Z.lor (Z.lor (Z.lor a (Z.shiftl b 8)) (Z.shiftl c 16)) (Z.shiftl d 24)
          = Z.lor (Z.lor (Z.lor (Z.shiftl d 24) (Z.shiftl c 16)) (Z.shiftl b 8)) a) as E.
  { apply Z.bits_inj'. intros k _. rewrite !Z.lor_spec.
    destruct (Z.testbit a k), (Z.testbit (Z.shiftl b 8) k), (Z.testbit (Z.shiftl c 16) k),
      (Z.testbit (Z.shiftl d 24) k); reflexivity. }
  rewrite <- E. symmetry. rewrite E, lor4_arith by done. apply u32_id. ulia.
Qed.

Lemma pack_eight a b c d e f g h :
  bytes_ok [a; b; c; d; e; f; g; h] →
  pack_words 0 [a; b; c; d; e; f; g; h] 0 0 = (io_get_le32 [a; b; c; d], io_get_le32 [e; f; g; h]).
Proof.
  rewrite !Forall_cons_iff. intros (Ha & Hb & Hc & Hd & He & Hf & Hg & Hh & _).
  rewrite <- (lor4_le a b c d), <- (lor4_le e f g h) by done. reflexivity.
Qed.

(** the bytes of a received entry, and the frame it stands for *)
Definition rx_bytes (e : rx_entry) : list Z :=
  (λ i : nat, u8 (Z.shiftr (if Z.of_nat i <? 4 then rdlr e else rdhr e) (Z.land (Z.of_nat i) 3 * 8)))
  <$> seq 0 (Z.to_nat (Z.min (u8 (Z.land (rdtr e) 0xF)) 8)).
Definition rx_id (e : rx_entry) : Z := Z.shiftr (Z.land (rir e) CAN_RI0R_STID) 21.

(** what a node on the bus receives of a transmission *)
Definition on_bus (e : tx_entry) : rx_entry := mk_rx (Z.land (tir e) (Z.lnot 1)) (tdtr e) (tdlr e) (tdhr e).
Definition frame_of (e : tx_entry) : Z * list Z := (rx_id (on_bus e), rx_bytes (on_bus e)).

(** the mailbox contents for a frame *)
Definition tx_of (box id : Z) (data : list Z) : tx_entry :=
  let '(dl, dh) := pack_words 0 data 0 0 in
  mk_tx box dl dh (zlen data) (Z.lor (u32 (Z.shiftl (Z.land id 0x7FF) 21)) 1).

Lemma tir_fields id :
  0 ≤ id < 2048 →
  let t := Z.lor (u32 (Z.shiftl (Z.land id 0x7FF) 21)) 1 in
  Z.land (Z.land t (Z.lnot 1)) CAN_RI0R_IDE = 0 ∧ Z.shiftr (Z.land (Z.land t (Z.lnot 1)) CAN_RI0R_STID) 21 = id.
Proof.
  intros Hid. change 0x7FF with (Z.ones 11). rewrite Z.land_ones, Z.mod_small by lia.
  rewrite u32_id by (rewrite Z.shiftl_mul_pow2 by lia; ulia). cbv zeta.
  assert (Z.land (Z.lor (Z.shiftl id 21) 1) (Z.lnot 1) = Z.shiftl id 21) as ->.
  { apply Z.bits_inj'. intros i Hi. rewrite Z.land_spec, Z.lor_spec, Z.lnot_spec, Z.shiftl_spec by lia.
    destruct (decide (i = 0)) as [->|Hne].
    - rewrite (Z.testbit_neg_r id) by lia. done.
    - assert (Z.testbit 1 i = false) as -> by (apply (testbit_high 1); unfold is_u; lia).
      by rewrite orb_false_r, andb_true_r. }
  split.
  - apply Z.bits_inj'. intros i Hi. rewrite Z.land_spec, Z.shiftl_spec, Z.bits_0 by lia.
    destruct (decide (i < 21)) as [Hlt|Hge]; [by rewrite (Z.testbit_neg_r id) by lia|].
    rewrite (testbit_high 3 CAN_RI0R_IDE) by (unfold CAN_RI0R_IDE, is_u; lia). apply andb_false_r.
  - unfold CAN_RI0R_STID. rewrite <- Z.shiftl_land, Z.shiftr_shiftl_l by lia. rewrite Z.shiftl_0_r.
    change 0x7FF with (Z.ones 11). rewrite Z.land_ones, Z.mod_small by lia. done.
Qed.

(** a frame survives the mailbox registers and the FIFO registers *)
Lemma frame_of_tx box id data :
  0 ≤ id < 2048 → bytes_ok data → zlen data ≤ 8 → frame_of (tx_of box id data) = (id, data).
Proof.
  intros Hid Hb Hl. unfold frame_of, tx_of. set (k := (8 - length data)%nat).
  assert (length (data ++ replicate k 0) = 8%nat) as Hk
    by (unfold zlen in Hl; rewrite length_app, length_replicate; lia).
  assert (bytes_ok (data ++ replicate k 0)) as Hb8.
  { apply Forall_app. split; [done|]. apply Forall_replicate. ulia. }
  rewrite <- (pack_zeros 0 data k).
  assert (take (length data) (data ++ replicate k 0) = data) as Htk by apply take_app_length.
  destruct (data ++ replicate k 0) as [|a [|b [|c [|d [|e [|f [|g [|h [|]]]]]]]]]; try discriminate Hk.
  rewrite pack_eight by done. unfold on_bus. cbn [tir tdtr tdlr tdhr].
  destruct (tir_fields id Hid) as [_ Hrid]. unfold rx_id. cbn [rir]. rewrite Hrid. f_equal.
  unfold rx_bytes. cbn [rdtr rdlr rdhr].
  assert (0 ≤ zlen data) by (unfold zlen; lia).
  assert (Z.min (u8 (Z.land (zlen data) 0xF)) 8 = zlen data) as ->.
  { change 0xF with (Z.ones 4). rewrite Z.land_ones by lia. change (2 ^ 4) with 16. ulia. }
  rewrite !Forall_cons_iff in Hb8. destruct Hb8 as (Ha & Hbb & Hc & Hd & He & Hf & Hg & Hh & _).
  set (dl := io_get_le32 [a; b; c; d]). set (dh := io_get_le32 [e; f; g; h]).
  set (fn := λ i : nat, u8 (Z.shiftr (if Z.of_nat i <? 4 then dl else dh) (Z.land (Z.of_nat i) 3 * 8))).
  assert (fn <$> seq 0 8 = [a; b; c; d; e; f; g; h]) as Hfn.
  { transitivity (io_put_le32 dl ++ io_put_le32 dh).
    - unfold fn, io_put_le32. cbn -[u8 Z.shiftr dl dh]. rewrite !Z.shiftr_0_r. reflexivity.
    - unfold dl, dh. by rewrite !le32_bytes. }
  unfold zlen in *. rewrite Nat2Z.id. transitivity (take (length data) (fn <$> seq 0 8)); [|by rewrite Hfn, Htk].
  rewrite <- fmap_take, take_seq. by replace (length data `min` 8)%nat with (length data) by lia.
Qed.

(** ** The session *)

Section Run.
Context {H : Type} `{HalFlashLaws H}.
Context (fw_keyhash : list Z) (ver_major ver_minor ver_patch : Z) (git_version : list Z) (tsr : nat → Z).
(** one-shot transmission: a mailbox is free whenever a frame is sent *)
Hypothesis box_free : ∀ n, free_box (tsr n) ≠ None.

#[local] Abbreviation on_session :=
  (session_loop fw_keyhash ver_major ver_minor ver_patch git_version tsr).
#[local] Abbreviation on_frame := (handle_frame fw_keyhash ver_major ver_minor ver_patch git_version tsr).
#[local] Abbreviation on_data := (handle_data tsr).

(** the frames sent so far, as the bus sees them *)
Definition sent (s : @bs H) : list (Z * list Z) := frame_of <$> b_tx s.

Definition reply_frame (code arg : Z) : Z * list Z := (CAN_ID_REPLY, io_put_le32 code ++ io_put_le32 arg).

(** [s] with another transmission log *)
Definition same_but_tx (s s' : @bs H) : Prop := ∃ tx n,
  s' = mk_bs (s_active s) (s_total s) (s_written s) (s_confirmed s) (s_installed s) (s_last_activity s) (s_keybuf s)
             (s_key_mask s) (b_rx s) tx n (b_flash s).

Lemma can_send_spec id data (s : @bs H) :
  0 ≤ id < 2048 → bytes_ok data → zlen data ≤ 8 →
  same_but_tx s (can_send tsr id data s) ∧ sent (can_send tsr id data s) = sent s ++ [(id, data)].
Proof.
  intros Hid Hb Hl. unfold can_send. replace (8 <? zlen data) with false by lia.
  pose proof (box_free (b_sends s)) as Hf. destruct (free_box (tsr (b_sends s))) as [box|]; [|done].
  pose proof (frame_of_tx box id data Hid Hb Hl) as Hfr. unfold tx_of in Hfr.
  destruct (pack_words 0 data 0 0) as [dl dh]. split; [by eexists _, _|].
  unfold sent, set_tx. cbn [b_tx]. by rewrite fmap_app, fmap_cons, Hfr.
Qed.

Lemma fw_reply_run code arg (s : @bs H) :
  same_but_tx s (fw_reply tsr code arg s) ∧ sent (fw_reply tsr code arg s) = sent s ++ [reply_frame code arg].
Proof.
  apply (can_send_spec CAN_ID_REPLY (io_put_le32 code ++ io_put_le32 arg)); [unfold CAN_ID_REPLY; lia| |].
  - apply Forall_app. split; apply put_le32_bytes.
  - unfold zlen. simpl. lia.
Qed.

Lemma send_trace_run phase (s : @bs H) :
  is_byte phase → same_but_tx s (send_trace tsr phase s) ∧ sent (send_trace tsr phase s) = sent s ++ [(CAN_ID_TRACE, [phase])].
Proof.
  intros Hp. apply can_send_spec; [unfold CAN_ID_TRACE; lia|by constructor|unfold zlen; simpl; lia].
Qed.

(** a frame from the host, as one poll delivers it *)
Definition host_poll (t : Z) (fr : Z * list Z) : poll := mk_poll t t [on_bus (tx_of 0 fr.1 fr.2)].

Definition host_frame (fr : Z * list Z) : Prop :=
  fr.1 ∈ [CAN_ID_CMD; CAN_ID_DATA; CAN_ID_KEYHASH] ∧ bytes_ok fr.2 ∧ 1 ≤ zlen fr.2 ≤ 8.

Definition can_frame (fr : Z * list Z) : Prop := 0 ≤ fr.1 < 2048 ∧ bytes_ok fr.2 ∧ 1 ≤ zlen fr.2 ≤ 8.

Lemma host_can_frame fr : host_frame fr → can_frame fr.
Proof.
  intros (Hid & Hb & Hl). split; [|done].
  unfold CAN_ID_CMD, CAN_ID_DATA, CAN_ID_KEYHASH in Hid. rewrite !elem_of_cons in Hid.
  destruct Hid as [E|[E|[E|E]]]; [lia..|by apply not_elem_of_nil in E].
Qed.

Lemma recv_frame fr id0 data0 (s : @bs H) :
  can_frame fr → b_rx s = [] →
  can_recv id0 data0 (set_rx (b_rx s ++ [on_bus (tx_of 0 fr.1 fr.2)]) s)
  = (zlen fr.2, fr.1, fr.2 ++ drop (length fr.2) data0, s).
Proof.
  intros (Hr & Hb & Hl) Hrx.
  pose proof (frame_of_tx 0 fr.1 fr.2 Hr Hb ltac:(lia)) as Hfr.
  unfold can_recv. rewrite Hrx. cbn [app b_rx set_rx].
  set (e := on_bus (tx_of 0 fr.1 fr.2)) in *. unfold frame_of in Hfr. fold e in Hfr.
  assert (Z.land (rir e) CAN_RI0R_IDE = 0) as ->.
  { unfold e, on_bus, tx_of. destruct (pack_words 0 fr.2 0 0) as [dl dh]. cbn [rir tir]. apply (tir_fields fr.1 Hr). }
  change (negb (0 =? 0)) with false. cbv iota.
  assert (u8 (Z.land (rdtr e) 0xF) = zlen fr.2) as Hdtr.
  { unfold e, on_bus, tx_of. destruct (pack_words 0 fr.2 0 0) as [dl dh]. cbn [rdtr tdtr].
    change 0xF with (Z.ones 4). rewrite Z.land_ones by lia. change (2 ^ 4) with 16. ulia. }
  injection Hfr as Hri Hrb. unfold rx_id in Hri. unfold rx_bytes in Hrb. rewrite Hdtr in *.
  replace (Z.min (zlen fr.2) 8) with (zlen fr.2) in * by lia.
  rewrite Hri, Hrb. unfold zlen. rewrite Nat2Z.id. destruct s; cbn in Hrx; subst; done.
Qed.

(** one poll of the session loop with a frame of the protocol *)
Lemma session_host t fr polls id0 data0 (s : @bs H) :
  host_frame fr → b_rx s = [] → s_confirmed s = false →
  ∃ tail, on_session (host_poll t fr :: polls) id0 data0 s
          = on_session polls fr.1 (fr.2 ++ tail) (set_last t (on_frame fr.1 (fr.2 ++ tail) (zlen fr.2) s).2).
Proof.
  intros Hfr Hrx Hc. exists (drop (length fr.2) data0). cbn [session_loop]. rewrite Hc. cbn [p_rx host_poll].
  rewrite (recv_frame fr id0 data0 s (host_can_frame fr Hfr) Hrx). destruct Hfr as (Hid & Hb & Hl).
  replace (zlen fr.2 =? 0) with false by lia. cbn [negb].
  assert ((on_frame fr.1 (fr.2 ++ drop (length fr.2) data0) (zlen fr.2) s).1 = true) as Ho.
  { unfold handle_frame. replace (zlen fr.2 =? 0xFF) with false by lia.
    unfold CAN_ID_CMD, CAN_ID_DATA, CAN_ID_KEYHASH in *. rewrite !elem_of_cons in Hid.
    destruct Hid as [->|[->|[->|E]]]; [done..|by apply not_elem_of_nil in E]. }
  destruct (on_frame fr.1 _ _ _) as [ours s1]. cbn [fst] in Ho. subst ours. cbn [snd set_last s_last_activity p_after p_now].
  rewrite Z.sub_diag. by replace (IDLE_TIMEOUT_MS <=? i32 0) with false by done.
Qed.

(** *** Data *)

(** [img] has been stored, the rest of the announced size is erased, and nothing
    below the slot has changed from [f0] *)
Definition storing (f0 : H) (s : @bs H) (img : list Z) : Prop :=
  s_active s = true ∧ s_confirmed s = false ∧ b_rx s = [] ∧ s_written s = zlen img ∧ zlen img ≤ s_total s ≤ SLOT0_SIZE ∧
  icells (b_flash s) SLOT0_ADDR (length img) = img ∧
  (∀ x, SLOT0_ADDR + zlen img ≤ x < SLOT0_ADDR + s_total s → icell (b_flash s) x = 255) ∧
  (∀ x, x < SLOT0_ADDR → icell (b_flash s) x = icell f0 x).

Fixpoint acks (tot pos : Z) (chunks : list (list Z)) : list (Z * list Z) :=
  match chunks with
  | [] => []
  | d :: chunks =>
    let got := pos + zlen d in
    (if got =? tot then [reply_frame FW_CODE_UPDATE_SUCCESS tot]
     else if got mod 512 =? 0 then [reply_frame FW_CODE_OFFSET got] else []) ++ acks tot got chunks
  end.

Lemma storing_tx f0 s s' img : storing f0 s img → same_but_tx s s' → storing f0 s' img.
Proof. intros Hs (tx & n & ->). exact Hs. Qed.
Lemma storing_last f0 s t img : storing f0 s img → storing f0 (set_last t s) img.
Proof. by destruct s. Qed.

Lemma handle_data_ok f0 d tail (s : @bs H) img :
  storing f0 s img → bytes_ok d → 1 ≤ zlen d ≤ 8 → zlen img + zlen d ≤ s_total s →
  let s' := on_data (d ++ tail) (zlen d) s in
  storing f0 s' (img ++ d) ∧ s_total s' = s_total s ∧ sent s' = sent s ++ acks (s_total s) (zlen img) [d].
Proof.
  intros (Ha & Hcf & Hrx & Hw & Ht & Hc & He & Hf) Hb Hd Hl s'. subst s'. unfold handle_data. rewrite Ha, Hw. cbn [negb].
  unfold SLOT0_SIZE in Ht. assert (0 ≤ zlen img) by (unfold zlen; lia).
  rewrite (u32_id (zlen img + zlen d)) by ulia.
  replace ((zlen d =? 0) || (s_total s <? zlen img + zlen d)) with false by lia.
  assert (take (Z.to_nat (zlen d)) (d ++ tail) = d) as -> by (unfold zlen; rewrite Nat2Z.id; apply take_app_length).
  change SLOT0_ADDR with 0x08010000 in *. rewrite u32_id by ulia.
  destruct (intflash_write_ok (0x08010000 + zlen img) d (b_flash s)) as (f & -> & Hcd & Hfr);
    [lia|unfold INTFLASH_END; lia|done|intros x Hx; apply He; lia|]. cbn [negb].
  set (s1 := set_session (s_active s) (s_total s) (zlen img + zlen d) (set_flash f s)).
  assert (storing f0 s1 (img ++ d)) as Hs1.
  { unfold s1, storing. cbn [s_active s_confirmed b_rx s_written s_total b_flash set_session set_flash].
    rewrite zlen_app. split_and!; try done; try (unfold SLOT0_SIZE; lia).
    - rewrite length_app, icells_app. change SLOT0_ADDR with 0x08010000. f_equal; [|exact Hcd].
      rewrite <- Hc at 2. apply icells_ext. intros x Hx. apply Hfr. unfold zlen. lia.
    - intros x Hx. change SLOT0_ADDR with 0x08010000 in Hx. rewrite Hfr by lia. apply He. lia.
    - intros x Hx. change SLOT0_ADDR with 0x08010000 in Hx. rewrite Hfr by lia. by apply Hf. }
  assert (∀ code arg, storing f0 (fw_reply tsr code arg s1) (img ++ d) ∧ s_total (fw_reply tsr code arg s1) = s_total s ∧
            sent (fw_reply tsr code arg s1) = sent s ++ [reply_frame code arg]) as Hrep.
  { intros code arg. destruct (fw_reply_run code arg s1) as [Hsame Hsent]. split; [by apply (storing_tx f0 s1)|].
    split; [by destruct Hsame as (tx & n & ->)|exact Hsent]. }
  cbn [s_active s_total s_written set_flash set_session]. rewrite Hw, (u32_id (zlen img + zlen d)) by ulia. fold s1.
  unfold ACK_INTERVAL. cbn [acks]. rewrite app_nil_r.
  destruct (zlen img + zlen d =? s_total s); [apply Hrep|].
  destruct ((zlen img + zlen d) mod 512 =? 0); [apply Hrep|]. rewrite app_nil_r. by split_and!.
Qed.

Definition data_frame (d : list Z) : Z * list Z := (CAN_ID_DATA, d).

Lemma session_data f0 chunks ts polls id0 data0 (s : @bs H) img :
  storing f0 s img → bytes_ok (concat chunks) → Forall (λ d, 1 ≤ zlen d ≤ 8) chunks →
  zlen img + zlen (concat chunks) ≤ s_total s → length ts = length chunks →
  ∃ id data s', on_session (zip_with host_poll ts (data_frame <$> chunks) ++ polls) id0 data0 s = on_session polls id data s' ∧
    storing f0 s' (img ++ concat chunks) ∧ s_total s' = s_total s ∧
    sent s' = sent s ++ acks (s_total s) (zlen img) chunks.
Proof.
  revert ts id0 data0 s img. induction chunks as [|d chunks IH]; intros ts id0 data0 s img Hs Hb Hd Hl Hts.
  - destruct ts; [|done]. exists id0, data0, s. cbn. by rewrite !app_nil_r.
  - destruct ts as [|t ts]; [done|]. cbn [concat] in *. apply Forall_app in Hb as [Hbd Hb].
    apply Forall_cons_iff in Hd as [Hd1 Hd]. rewrite zlen_app in Hl. pose proof (zlen_nonneg (concat chunks)).
    cbn [fmap list_fmap zip_with app]. pose proof Hs as (Ha & Hcf & Hrx & _).
    assert (host_frame (data_frame d)) as Hhf by (split; [rewrite !elem_of_cons; tauto|by split]).
    destruct (session_host t (data_frame d) (zip_with host_poll ts (data_frame <$> chunks) ++ polls) id0 data0 s Hhf Hrx Hcf)
      as (tail & ->).
    unfold handle_frame at 1. cbn [data_frame fst snd]. replace (zlen d =? 0xFF) with false by lia.
    change (CAN_ID_DATA =? CAN_ID_CMD) with false. change (CAN_ID_DATA =? CAN_ID_DATA) with true. cbn [snd].
    destruct (handle_data_ok f0 d tail s img Hs Hbd Hd1 ltac:(lia)) as (Hs1 & Ht1 & Hse1).
    set (s1 := on_data (d ++ tail) (zlen d) s) in *.
    destruct (IH ts CAN_ID_DATA (d ++ tail) (set_last t s1) (img ++ d)) as (id & data & s' & Hrun & Hs' & Ht' & Hse').
    + by apply storing_last.
    + done.
    + done.
    + change (s_total (set_last t s1)) with (s_total s1). rewrite Ht1, zlen_app. lia.
    + simpl in Hts. lia.
    + exists id, data, s'. split; [exact Hrun|]. split; [by rewrite app_assoc|].
      change (s_total (set_last t s1)) with (s_total s1) in *. change (sent (set_last t s1)) with (sent s1) in Hse'.
      split; [congruence|]. rewrite Hse', Hse1, Ht1, zlen_app, <- app_assoc. cbn [acks]. by rewrite app_nil_r.
Qed.

(** *** Commands *)

Definition cmd_frame (cmd arg : Z) : Z * list Z := (CAN_ID_CMD, io_put_le32 cmd ++ io_put_le32 arg).

Lemma cmd_frame_host cmd arg : host_frame (cmd_frame cmd arg).
Proof.
  split; [rewrite !elem_of_cons; tauto|]. split; [|unfold zlen; simpl; lia].
  apply Forall_app. split; apply put_le32_bytes.
Qed.

Lemma get_le32_fields cmd arg tail :
  is_u32 cmd → is_u32 arg →
  get_le32 ((io_put_le32 cmd ++ io_put_le32 arg) ++ tail) 0 = cmd ∧
  get_le32 ((io_put_le32 cmd ++ io_put_le32 arg) ++ tail) 4 = arg.
Proof.
  intros Hc Ha.
  assert (∀ a b c d : Z, is_byte a → is_byte b → is_byte c → is_byte d →
    u32 (Z.lor (Z.lor (Z.lor a (Z.shiftl b 8)) (Z.shiftl c 16)) (Z.shiftl d 24)) = io_get_le32 [a; b; c; d]) as Hg.
  { intros a b c d Hba Hbb Hbc Hbd. rewrite <- lor4_le by done. rewrite Z.lor_0_l, Z.shiftl_0_r.
    rewrite (u32_id a), (u32_id (Z.shiftl b 8)), (u32_id (Z.shiftl c 16)), (u32_id (Z.shiftl d 24))
      by (rewrite ?Z.shiftl_mul_pow2 by lia; ulia).
    apply u32_id. apply lor_range; [lia| |rewrite Z.shiftl_mul_pow2 by lia; ulia].
    apply lor_range; [lia| |rewrite Z.shiftl_mul_pow2 by lia; ulia].
    apply lor_range; [lia|ulia|rewrite Z.shiftl_mul_pow2 by lia; ulia]. }
  split.
  - etransitivity; [apply (Hg (u8 cmd) (u8 (Z.shiftr cmd 8)) (u8 (Z.shiftr cmd 16)) (u8 (Z.shiftr cmd 24)));
      apply u8_range|]. exact (le32_roundtrip cmd Hc).
  - etransitivity; [apply (Hg (u8 arg) (u8 (Z.shiftr arg 8)) (u8 (Z.shiftr arg 16)) (u8 (Z.shiftr arg 24)));
      apply u8_range|]. exact (le32_roundtrip arg Ha).
Qed.

#[local] Abbreviation on_cmd := (handle_cmd fw_keyhash ver_major ver_minor ver_patch git_version tsr).
#[local] Abbreviation on_start := (cmd_start fw_keyhash tsr).

Lemma session_cmd t cmd arg polls id0 data0 (s : @bs H) :
  b_rx s = [] → s_confirmed s = false → is_u32 cmd → is_u32 arg →
  ∃ id data, on_session (host_poll t (cmd_frame cmd arg) :: polls) id0 data0 s
    = on_session polls id data (set_last t
        (if cmd =? FW_CMD_START then on_start arg s
         else if cmd =? FW_CMD_CONFIRM then cmd_confirm tsr s
         else if cmd =? FW_CMD_VERSION then cmd_version ver_major ver_minor ver_patch git_version tsr s
         else if cmd =? FW_CMD_REBOOT then set_end true (s_installed s) s else s)).
Proof.
  intros Hrx Hc Hcmd Harg.
  destruct (session_host t (cmd_frame cmd arg) polls id0 data0 s (cmd_frame_host cmd arg) Hrx Hc) as (tail & ->).
  eexists _, _. f_equal. f_equal. unfold handle_frame. cbn [cmd_frame fst snd].
  change (zlen (io_put_le32 cmd ++ io_put_le32 arg)) with 8.
  change (8 =? 0xFF) with false. change (CAN_ID_CMD =? CAN_ID_CMD) with true. change (4 <=? 8) with true. cbn [snd].
  unfold handle_cmd. change (negb (8 =? 8)) with false. cbv iota.
  by destruct (get_le32_fields cmd arg tail Hcmd Harg) as [-> ->].
Qed.

Lemma cmd_start_ok tot (s : @bs H) :
  b_rx s = [] → s_confirmed s = false → 64 ≤ tot ≤ SLOT0_SIZE →
  (Z.land (s_key_mask s) KEYHASH_FULL_MASK = KEYHASH_FULL_MASK → take 32 (s_keybuf s) = fw_keyhash) →
  let s' := on_start tot s in
  storing (b_flash s) s' [] ∧ s_total s' = tot ∧
  sent s' = sent s ++ [(CAN_ID_TRACE, [TRACE_FW_START]); reply_frame FW_CODE_OFFSET 0].
Proof.
  intros Hrx Hc Ht Hk s'. subst s'. unfold cmd_start.
  destruct (send_trace_run TRACE_FW_START s) as [(tx & n & Hs1) Hse1]; [unfold TRACE_FW_START; ulia|].
  set (s1 := send_trace tsr TRACE_FW_START s) in *.
  assert (s_key_mask s1 = s_key_mask s ∧ s_keybuf s1 = s_keybuf s) as [-> ->] by by rewrite Hs1.
  set (full := Z.land (s_key_mask s) KEYHASH_FULL_MASK =? KEYHASH_FULL_MASK).
  set (s2 := if full then set_bkeys (s_keybuf s) 0 s1 else s1).
  assert (s_keybuf s2 = s_keybuf s ∧ sent s2 = sent s1 ∧ b_rx s2 = [] ∧ s_confirmed s2 = false ∧ b_flash s2 = b_flash s)
    as (-> & Hse2 & Hrx2 & Hc2 & Hf2) by (unfold s2; destruct full; rewrite ?Hs1; by split_and!).
  assert (full && negb (bool_decide (take 32 (s_keybuf s) = fw_keyhash)) = false) as ->.
  { unfold full. destruct (Z.eqb_spec (Z.land (s_key_mask s) KEYHASH_FULL_MASK) KEYHASH_FULL_MASK) as [Hfull|]; [|done].
    by rewrite bool_decide_true by (by apply Hk). }
  unfold SLOT0_SIZE in *. replace ((tot <? 64) || (458752 <? tot)) with false by lia.
  change SLOT0_ADDR with 0x08010000. rewrite u32_id by ulia. change 0xFFF with 4095 at 1. rewrite land_page by lia.
  assert (0 ≤ (tot + 4095) / 4096 ≤ 112) by (Z.div_mod_to_equations; lia).
  assert (4096 * ((4096 * ((tot + 4095) / 4096) + 4095) / 4096) = 4096 * ((tot + 4095) / 4096)) as Hround
    by (Z.div_mod_to_equations; lia).
  destruct (intflash_erase_ok 0x08010000 (4096 * ((tot + 4095) / 4096)) (b_flash s2)) as (f & -> & He & Hfr);
    [lia|Z.div_mod_to_equations; lia|rewrite Hround; unfold INTFLASH_END; lia|].
  cbn [negb]. rewrite Hround in Hfr.
  set (s3 := set_session true tot 0 (set_flash f s2)).
  destruct (fw_reply_run FW_CODE_OFFSET 0 s3) as [Hs4 Hse4].
  assert (storing (b_flash s) s3 []) as Hst.
  { unfold s3, storing. cbn [s_active s_confirmed b_rx s_written s_total b_flash set_session set_flash].
    change SLOT0_ADDR with 0x08010000. unfold SLOT0_SIZE, zlen. cbn [length].
    split_and!; try done; try lia.
    - intros x Hx. apply He. Z.div_mod_to_equations. lia.
    - intros x Hx. rewrite <- Hf2. apply Hfr. intros (e & Hin & Hp). unfold f4_sector_tab in Hin.
      rewrite !elem_of_cons in Hin.
      destruct Hin as [->|[->|[->|[->|[->|[->|[->|[->|E]]]]]]]]; [simpl in Hp; lia..|by apply not_elem_of_nil in E]. }
  split; [by apply (storing_tx _ s3)|]. split; [by destruct Hs4 as (tx4 & n4 & ->)|].
  rewrite Hse4. change (sent s3) with (sent s2). rewrite Hse2, Hse1, <- app_assoc. done.
Qed.

Lemma cmd_confirm_ok f0 (s : @bs H) img :
  storing f0 s img → zlen img = s_total s →
  let s' := cmd_confirm tsr s in
  s_confirmed s' = true ∧ s_installed s' = true ∧ b_flash s' = b_flash s ∧
  sent s' = sent s ++ [reply_frame FW_CODE_CONFIRM FW_CONFIRM_MAGIC].
Proof.
  intros (Ha & Hc & Hrx & Hw & _) Hfull s'. subst s'. unfold cmd_confirm. rewrite Ha, Hrx. cbn [negb length drain_rx].
  unfold can_recv. rewrite Hrx. change (0 =? 0) with true. cbv iota.
  cbn [s_written s_total set_session]. replace (s_written s =? s_total s) with true by lia. cbn [negb].
  destruct (fw_reply_run FW_CODE_CONFIRM FW_CONFIRM_MAGIC (set_session false (s_total s) (s_written s) s)) as [Hs Hse].
  set (s1 := fw_reply tsr FW_CODE_CONFIRM FW_CONFIRM_MAGIC (set_session false (s_total s) (s_written s) s)) in *.
  split; [done|]. split; [done|]. split; [by destruct Hs as (tx & n & ->)|]. exact Hse.
Qed.
(** *** Key hash *)

(** chunk [i] of the key hash [k] *)
Definition key_frame (k : list Z) (i : nat) : Z * list Z :=
  (CAN_ID_KEYHASH, Z.of_nat i :: slice (7 * i) 7 k).

Lemma session_key t k i polls id0 data0 (s : @bs H) :
  (i < 5)%nat → length k = 32%nat → bytes_ok k → b_rx s = [] → s_confirmed s = false →
  ∃ id data, on_session (host_poll t (key_frame k i) :: polls) id0 data0 s
    = on_session polls id data (set_last t (set_bkeys (splice (7 * i) (slice (7 * i) 7 k) (s_keybuf s))
                                                      (Z.lor (s_key_mask s) (Z.shiftl 1 (Z.of_nat i))) s)).
Proof.
  intros Hi Hk Hb Hrx Hc.
  assert (length (slice (7 * i) 7 k) = Nat.min 7 (32 - 7 * i)) as Hsl
    by (unfold slice; rewrite length_take, length_drop, Hk; done).
  assert (zlen (key_frame k i).2 = 1 + Z.min 7 (32 - 7 * Z.of_nat i)) as Hz
    by (unfold zlen; cbn [key_frame snd length]; lia).
  assert (host_frame (key_frame k i)) as Hf.
  { split; [rewrite !elem_of_cons; tauto|]. rewrite Hz. split; [|lia]. cbn [key_frame snd].
    constructor; [ulia|]. apply Forall_take, Forall_drop, Hb. }
  destruct (session_host t (key_frame k i) polls id0 data0 s Hf Hrx Hc) as (tail & ->).
  eexists _, _. f_equal. f_equal. rewrite Hz. cbn [key_frame fst snd app]. unfold handle_frame.
  replace (1 + Z.min 7 (32 - 7 * Z.of_nat i) =? 0xFF) with false by lia.
  change (CAN_ID_KEYHASH =? CAN_ID_CMD) with false. change (CAN_ID_KEYHASH =? CAN_ID_DATA) with false.
  change (CAN_ID_KEYHASH =? CAN_ID_KEYHASH) with true.
  replace (1 <=? 1 + Z.min 7 (32 - 7 * Z.of_nat i)) with true by lia. cbn [snd].
  unfold handle_keyhash. rewrite rd_cons_0. change FW_KEYHASH_LEN with 32. change KEYHASH_CHUNKS with 5.
  unfold KEYHASH_CHUNK. rewrite u8_id by ulia.
  set (chunk := if 32 - Z.of_nat i * 7 <? 7 then 32 - Z.of_nat i * 7 else 7).
  assert (chunk = Z.min 7 (32 - 7 * Z.of_nat i)) as -> by (unfold chunk; destruct (Z.ltb_spec (32 - Z.of_nat i * 7) 7); lia).
  replace ((5 <=? Z.of_nat i) || _) with false by lia.
  f_equal.
  - f_equal; [lia|]. unfold slice at 1. cbn [drop].
    replace (Z.to_nat (Z.min 7 (32 - 7 * Z.of_nat i))) with (length (slice (7 * i) 7 k)) by lia. apply take_app_length.
  - f_equal. apply u8_id. destruct i as [|[|[|[|[|]]]]]; cycle 5; [lia|..]; by apply (bool_decide_unpack (is_byte _)).
Qed.

(** the five chunks, in order *)
Lemma session_keys k t0 t1 t2 t3 t4 polls id0 data0 (s : @bs H) :
  length k = 32%nat → bytes_ok k → b_rx s = [] → s_confirmed s = false →
  s_keybuf s = replicate 32 0 → s_key_mask s = 0 →
  ∃ id data, on_session (zip_with host_poll [t0; t1; t2; t3; t4] (key_frame k <$> seq 0 5) ++ polls) id0 data0 s
    = on_session polls id data (set_last t4 (set_bkeys k 31 s)).
Proof.
  intros Hk Hb Hrx Hc Hkb Hm. cbn [seq fmap list_fmap zip_with app].
  assert (∀ i t buf mask polls id0 data0 t', (i < 5)%nat →
    ∃ id data, on_session (host_poll t (key_frame k i) :: polls) id0 data0 (set_last t' (set_bkeys buf mask s))
      = on_session polls id data (set_last t (set_bkeys (splice (7 * i) (slice (7 * i) 7 k) buf)
                                              (Z.lor mask (Z.shiftl 1 (Z.of_nat i))) s))) as Hstep.
  { intros i t buf mask polls' id1 data1 t' Hi.
    exact (session_key t k i polls' id1 data1 (set_last t' (set_bkeys buf mask s)) Hi Hk Hb Hrx Hc). }
  assert (s = set_last (s_last_activity s) (set_bkeys (replicate 32 0) 0 s)) as -> by (rewrite <- Hkb, <- Hm; by destruct s).
  do 5 (edestruct Hstep as (? & ? & ->); [lia|]).
  eexists _, _. f_equal. clear Hstep.
  do 32 (destruct k as [|? k]; [discriminate Hk|]). destruct k; [|discriminate Hk]. reflexivity.
Qed.

(** *** The whole download *)

Definition probe_frame : Z * list Z := (CAN_ID_PROBE, io_put_le32 PROBE_MAGIC ++ [u8 ver_major; u8 ver_minor; u8 ver_patch; 0]).

Lemma send_probe_run (s : @bs H) :
  same_but_tx s (send_probe ver_major ver_minor ver_patch tsr s) ∧
  sent (send_probe ver_major ver_minor ver_patch tsr s) = sent s ++ [probe_frame].
Proof.
  apply (can_send_spec CAN_ID_PROBE (probe_frame.2)); [unfold CAN_ID_PROBE; lia| |by compute].
  apply Forall_app. split; [apply put_le32_bytes|]. by repeat (constructor; [first [apply u8_range|ulia]|]).
Qed.

Definition trace_frame (phase : Z) : Z * list Z := (CAN_ID_TRACE, [phase]).
Definition ack_frame : Z * list Z := (CAN_ID_ACK, [1]).

#[local] Abbreviation on_wait := (boot_can_wait fw_keyhash ver_major ver_minor ver_patch git_version tsr).
(** the frames of a download of [concat chunks] under the key hash [k] *)
Definition download (k : list Z) (chunks : list (list Z)) : list (Z * list Z) :=
  (key_frame k <$> seq 0 5) ++ [cmd_frame FW_CMD_START (zlen (concat chunks))] ++
  (data_frame <$> chunks) ++ [cmd_frame FW_CMD_CONFIRM 0].

(** one probe, answered at once: what [boot_can_wait] does before its session loop *)
Lemma wait_acked forever start ta tb polls id0 data0 (s : @bs H) :
  b_rx s = [] → forever = true ∨ i32 (ta - u32 (start + PROBE_TIMEOUT_MS)) < 0 →
  ∃ id data s1, on_wait forever true start tb id0 data0 (host_poll ta ack_frame :: polls) s
    = (s' ← on_session polls id data (set_last tb s1);
       Some (send_trace tsr TRACE_PROCEED (if s_confirmed s' then send_trace tsr TRACE_CONFIRMED s' else s'))) ∧
    same_but_tx (bs_clear s) s1 ∧
    sent s1 = sent s ++ [trace_frame TRACE_HOOK_ENTER] ++ (if 0 <=? i32 (ta - 0) then [probe_frame] else []) ++
              [trace_frame TRACE_HOST_ACK].
Proof.
  intros Hrx Hw. unfold boot_can_wait. cbn [negb].
  destruct (send_trace_run TRACE_HOOK_ENTER (bs_clear s)) as [(tx1 & n1 & E1) Hse1]; [by compute|].
  set (s1 := send_trace tsr TRACE_HOOK_ENTER (bs_clear s)) in *.
  cbn [probe_loop p_now host_poll]. change (u32 (start + PROBE_TIMEOUT_MS)) with (u32 (start + PROBE_TIMEOUT_MS)).
  assert (negb forever && (0 <=? i32 (ta - u32 (start + PROBE_TIMEOUT_MS))) = false) as ->.
  { destruct Hw as [->|Hw]; [done|]. destruct forever; [done|]. lia. }
  set (s2 := if 0 <=? i32 (ta - 0) then send_probe ver_major ver_minor ver_patch tsr s1 else s1).
  assert (same_but_tx s1 s2 ∧ sent s2 = sent s1 ++ (if 0 <=? i32 (ta - 0) then [probe_frame] else [])) as [(tx2 & n2 & E2) Hse2].
  { unfold s2. destruct (0 <=? i32 (ta - 0)); [apply send_probe_run|]. rewrite app_nil_r. split; [|done].
    exists (b_tx s1), (b_sends s1). by destruct s1. }
  assert (b_rx s2 = []) as Hrx2 by by rewrite E2, E1.
  assert (can_frame ack_frame) as Hack by (split; [by compute|]; split; [by repeat constructor|by compute]).
  cbn [p_rx host_poll]. rewrite (recv_frame ack_frame id0 data0 s2 Hack Hrx2).
  change (negb (zlen ack_frame.2 =? 0) && (ack_frame.1 =? CAN_ID_ACK)) with true. cbv iota.
  cbn [mbind option_bind negb].
  destruct (send_trace_run TRACE_HOST_ACK s2) as [(tx3 & n3 & E3) Hse3]; [by compute|].
  set (s3 := send_trace tsr TRACE_HOST_ACK s2) in *.
  assert (b_rx s3 = []) as Hrx3 by by rewrite E3. rewrite Hrx3. cbn [length drain_rx]. unfold can_recv. rewrite Hrx3.
  change (0 =? 0) with true. cbv iota.
  eexists _, _, s3. split; [reflexivity|]. split.
  - exists tx3, n3. rewrite E3, E2, E1. done.
  - rewrite Hse3, Hse2, Hse1. unfold trace_frame. rewrite <- !app_assoc. done.
Qed.

Lemma session_confirmed polls id data (s : @bs H) : s_confirmed s = true → on_session polls id data s = Some s.
Proof. intros E. destruct polls; cbn [session_loop]; by rewrite E. Qed.

(** up to START: the key hash chunks, then the START handler on the session [s2] *)
Lemma wait_started forever start ta tb t0 t1 t2 t3 t4 t5 k tot rest id0 data0 (s : @bs H) :
  b_rx s = [] → forever = true ∨ i32 (ta - u32 (start + PROBE_TIMEOUT_MS)) < 0 →
  length k = 32%nat → bytes_ok k → is_u32 tot →
  ∃ id data s2, on_wait forever true start tb id0 data0
      (host_poll ta ack_frame :: zip_with host_poll [t0; t1; t2; t3; t4] (key_frame k <$> seq 0 5) ++
       host_poll t5 (cmd_frame FW_CMD_START tot) :: rest) s
    = (s' ← on_session rest id data (set_last t5 (on_start tot s2));
       Some (send_trace tsr TRACE_PROCEED (if s_confirmed s' then send_trace tsr TRACE_CONFIRMED s' else s'))) ∧
    b_rx s2 = [] ∧ s_active s2 = false ∧ s_confirmed s2 = false ∧ s_keybuf s2 = k ∧ s_key_mask s2 = 31 ∧ b_flash s2 = b_flash s ∧
    sent s2 = sent s ++ [trace_frame TRACE_HOOK_ENTER] ++ (if 0 <=? i32 (ta - 0) then [probe_frame] else []) ++
              [trace_frame TRACE_HOST_ACK].
Proof.
  intros Hrx Hw Hk Hb Ht.
  destruct (wait_acked forever start ta tb
    (zip_with host_poll [t0; t1; t2; t3; t4] (key_frame k <$> seq 0 5) ++
     host_poll t5 (cmd_frame FW_CMD_START tot) :: rest) id0 data0 s Hrx Hw) as (id & data & s1 & -> & (tx & n & E1) & Hse).
  destruct (session_keys k t0 t1 t2 t3 t4 (host_poll t5 (cmd_frame FW_CMD_START tot) :: rest) id data (set_last tb s1))
    as (id2 & data2 & ->); [done|done|by rewrite E1..|].
  set (s2 := set_last t4 (set_bkeys k 31 (set_last tb s1))).
  destruct (session_cmd t5 FW_CMD_START tot rest id2 data2 s2) as (id3 & data3 & ->);
    [unfold s2; by rewrite E1|unfold s2; by rewrite E1|by compute|done|].
  change (FW_CMD_START =? FW_CMD_START) with true. cbv iota.
  exists id3, data3, s2. split; [done|]. unfold s2. rewrite E1. split_and!; try done.
  rewrite <- Hse. by rewrite E1.
Qed.

Lemma cmd_start_refused tot (s : @bs H) :
  s_key_mask s = 31 → take 32 (s_keybuf s) ≠ fw_keyhash →
  let s' := on_start tot s in
  s_active s' = s_active s ∧ s_confirmed s' = s_confirmed s ∧ b_flash s' = b_flash s ∧
  sent s' = sent s ++ [trace_frame TRACE_FW_START; reply_frame FW_CODE_KEYHASH_ERROR 0].
Proof.
  intros Hm Hk. unfold cmd_start.
  destruct (send_trace_run TRACE_FW_START s) as [(tx & n & E) Hse]; [by compute|].
  set (s1 := send_trace tsr TRACE_FW_START s) in *.
  assert (s_key_mask s1 = 31 ∧ s_keybuf s1 = s_keybuf s) as [-> ->] by (by rewrite E).
  change (Z.land 31 KEYHASH_FULL_MASK =? KEYHASH_FULL_MASK) with true. cbv zeta iota.
  assert (s_keybuf (set_bkeys (s_keybuf s) 0 s1) = s_keybuf s) as -> by done.
  rewrite bool_decide_false by done. cbn [andb negb].
  destruct (fw_reply_run FW_CODE_KEYHASH_ERROR 0 (set_bkeys (s_keybuf s) 0 s1)) as [(tx2 & n2 & E2) Hse2].
  set (s2 := fw_reply tsr FW_CODE_KEYHASH_ERROR 0 (set_bkeys (s_keybuf s) 0 s1)) in *.
  split_and!; [by rewrite E2, E..|]. rewrite Hse2. change (sent (set_bkeys (s_keybuf s) 0 s1)) with (sent s1).
  by rewrite Hse, <- app_assoc.
Qed.

(** C19: A whole CAN rescue download: the host answers the probe, sends the five key hash chunks, START, the image in
    data frames of 1 to 8 bytes (whatever their sizes), and CONFIRM.  With the device's own key hash the boot loader
    installs it: the flash slot holds exactly the image, nothing below the slot has changed, the caller is told to
    restart, and the host sees exactly the answers of the protocol.  With any other key hash START is refused, the
    flash is untouched and no transfer is active. *)
Theorem boot_can_install forever start ta tb ts k chunks id0 data0 (s : @bs H) :
  let img := concat chunks in
  b_rx s = [] → forever = true ∨ i32 (ta - u32 (start + PROBE_TIMEOUT_MS)) < 0 →
  length k = 32%nat → bytes_ok k → bytes_ok img → 64 ≤ zlen img ≤ SLOT0_SIZE → Forall (λ d, 1 ≤ zlen d ≤ 8) chunks →
  length ts = length (download k chunks) →
  let hello := [trace_frame TRACE_HOOK_ENTER] ++ (if 0 <=? i32 (ta - 0) then [probe_frame] else []) ++
               [trace_frame TRACE_HOST_ACK; trace_frame TRACE_FW_START] in
  (k = fw_keyhash →
    ∃ s', on_wait forever true start tb id0 data0
            (host_poll ta ack_frame :: zip_with host_poll ts (download k chunks)) s = Some s' ∧
      boot_rescue_done s' = true ∧ icells (b_flash s') SLOT0_ADDR (length img) = img ∧
      (∀ x, x < SLOT0_ADDR → icell (b_flash s') x = icell (b_flash s) x) ∧
      sent s' = sent s ++ hello ++ [reply_frame FW_CODE_OFFSET 0] ++ acks (zlen img) 0 chunks ++
                [reply_frame FW_CODE_CONFIRM FW_CONFIRM_MAGIC; trace_frame TRACE_CONFIRMED; trace_frame TRACE_PROCEED]) ∧
  (k ≠ fw_keyhash →
    ∀ rest, ∃ id data s1, on_wait forever true start tb id0 data0
            (host_poll ta ack_frame :: take 6 (zip_with host_poll ts (download k chunks)) ++ rest) s
        = (s' ← on_session rest id data s1;
           Some (send_trace tsr TRACE_PROCEED (if s_confirmed s' then send_trace tsr TRACE_CONFIRMED s' else s'))) ∧
      s_active s1 = false ∧ s_confirmed s1 = false ∧ b_flash s1 = b_flash s ∧
      sent s1 = sent s ++ hello ++ [reply_frame FW_CODE_KEYHASH_ERROR 0]).
Proof.
  intros img Hrx Hw Hk Hb Hbi Hlen Hd Hts hello.
  assert (is_u32 (zlen img)) as Htot by (unfold SLOT0_SIZE in Hlen; ulia).
  unfold download in *. rewrite !length_app, !length_fmap, length_seq in Hts.
  destruct ts as [|t0 [|t1 [|t2 [|t3 [|t4 [|t5 ts]]]]]]; try discriminate Hts. cbn [length] in Hts.
  change (zip_with host_poll (?a :: ?b :: ?c :: ?d :: ?e :: ?f :: ts) _)
    with (zip_with host_poll [a; b; c; d; e] (key_frame k <$> seq 0 5) ++
          host_poll f (cmd_frame FW_CMD_START (zlen img)) ::
          zip_with host_poll ts ((data_frame <$> chunks) ++ [cmd_frame FW_CMD_CONFIRM 0])).
  split.
  - intros Hkey.
    edestruct (wait_started forever start ta tb) as (id & data & s2 & -> & Hrx2 & _ & Hc2 & Hkb & Hkm & Hf2 & Hse2); [done..|].
    destruct (cmd_start_ok (zlen img) s2) as (Hs3 & Ht3 & Hse3); [done|done|done| |].
    { intros _. rewrite Hkb, <- Hk, firstn_all. done. }
    set (s3 := on_start (zlen img) s2) in *.
    rewrite <- (take_drop (length chunks) ts). rewrite zip_with_app by (rewrite length_fmap, length_take; lia).
    destruct (session_data (b_flash s2) chunks (take (length chunks) ts)
                (zip_with host_poll (drop (length chunks) ts) [cmd_frame FW_CMD_CONFIRM 0]) id data (set_last t5 s3) [])
      as (id4 & data4 & s4 & -> & Hs4 & Ht4 & Hse4); [by apply storing_last|done|done| |rewrite length_take; lia|].
    { change (s_total (set_last t5 s3)) with (s_total s3). rewrite Ht3. fold img. unfold zlen at 1. simpl. lia. }
    change (s_total (set_last t5 s3)) with (s_total s3) in *. rewrite Ht3 in *. cbn [app] in Hs4. fold img in Hs4.
    pose proof (length_drop ts (length chunks)) as Hdr.
    destruct (drop (length chunks) ts) as [|tc [|]]; cbn [length] in Hdr; try lia. cbn [zip_with].
    pose proof Hs4 as (_ & Hc4 & Hrx4 & _).
    destruct (session_cmd tc FW_CMD_CONFIRM 0 [] id4 data4 s4) as (id5 & data5 & ->); [done|done|by compute|by compute|].
    change (FW_CMD_CONFIRM =? FW_CMD_START) with false. change (FW_CMD_CONFIRM =? FW_CMD_CONFIRM) with true. cbv iota.
    destruct (cmd_confirm_ok (b_flash s2) s4 img Hs4) as (Hc5 & Hi5 & Hf5 & Hse5); [by rewrite Ht4|].
    set (s5 := set_last tc (cmd_confirm tsr s4)). rewrite session_confirmed by exact Hc5. cbn [mbind option_bind].
    assert (s_confirmed s5 = true) as -> by exact Hc5.
    destruct (send_trace_run TRACE_CONFIRMED s5) as [(tx6 & n6 & E6) Hse6]; [by compute|].
    set (s6 := send_trace tsr TRACE_CONFIRMED s5) in *.
    destruct (send_trace_run TRACE_PROCEED s6) as [(tx7 & n7 & E7) Hse7]; [by compute|].
    set (s7 := send_trace tsr TRACE_PROCEED s6) in *.
    destruct Hs4 as (_ & _ & _ & _ & _ & Himg & _ & Hbelow).
    assert (b_flash s7 = b_flash s4) as Hf7 by (rewrite E7, E6; exact Hf5).
    exists s7. split; [done|]. split; [rewrite E7, E6; exact Hi5|]. rewrite Hf7. split; [exact Himg|].
    split; [intros x Hx; rewrite Hbelow by done; by rewrite Hf2|].
    rewrite Hse7, Hse6. change (sent s5) with (sent (cmd_confirm tsr s4)). rewrite Hse5, Hse4.
    change (sent (set_last t5 s3)) with (sent s3). rewrite Hse3, Hse2. unfold hello, trace_frame.
    change (zlen []) with 0. rewrite <- !app_assoc. reflexivity.
  - intros Hkey rest.
    destruct (wait_started forever start ta tb t0 t1 t2 t3 t4 t5 k (zlen img) rest id0 data0 s) as (id & data & s2 & Hrun & Hrx2 & Ha2 & Hc2 & Hkb & Hkm & Hf2 & Hse2);
      [done..|].
    destruct (cmd_start_refused (zlen img) s2) as (Ha3 & Hc3 & Hf3 & Hse3); [done| |].
    { rewrite Hkb, <- Hk, firstn_all. done. }
    exists id, data, (set_last t5 (on_start (zlen img) s2)). split; [exact Hrun|split_and!].
    + change (s_active (on_start (zlen img) s2) = false). congruence.
    + change (s_confirmed (on_start (zlen img) s2) = false). congruence.
    + change (b_flash (on_start (zlen img) s2) = b_flash s). congruence.
    + change (sent (on_start (zlen img) s2) = sent s ++ hello ++ [reply_frame FW_CODE_KEYHASH_ERROR 0]).
      rewrite Hse3, Hse2. unfold hello. rewrite <- !app_assoc. done.
Qed.

(** *** Nobody answers *)

(** a frame that is not the host's answer to a probe *)
Definition not_ack (e : rx_entry) : Prop := Z.land (rir e) CAN_RI0R_IDE ≠ 0 ∨ rx_id e ≠ CAN_ID_ACK.

Lemma recv_not_ack id0 data0 (s : @bs H) :
  id0 ≠ CAN_ID_ACK → Forall not_ack (b_rx s) →
  ∃ dlc id data rx, can_recv id0 data0 s = (dlc, id, data, set_rx rx s) ∧ id ≠ CAN_ID_ACK ∧ Forall not_ack rx.
Proof.
  intros Hid Hrx. unfold can_recv. destruct (b_rx s) as [|e rx] eqn:E.
  - exists 0, id0, data0, []. split; [|done]. f_equal. destruct s. cbn in E. by subst.
  - apply Forall_cons_iff in Hrx as [He Hrx].
    destruct (Z.eqb_spec (Z.land (rir e) CAN_RI0R_IDE) 0) as [E0|E0]; cbn [negb].
    + eexists _, _, _, rx. split; [reflexivity|]. split; [|done]. destruct He as [He|He]; [done|exact He].
    + by eexists _, _, _, rx.
Qed.

Lemma probe_quiet deadline next polls id0 data0 (s : @bs H) :
  id0 ≠ CAN_ID_ACK → Forall not_ack (b_rx s) → Forall (λ p, Forall not_ack (p_rx p)) polls →
  Exists (λ p, 0 ≤ i32 (p_now p - deadline)) polls →
  ∃ n rest id data s', probe_loop ver_major ver_minor ver_patch tsr false deadline next polls id0 data0 s
      = Some (false, rest, id, data, s') ∧
    (n < length polls)%nat ∧ sent s' = sent s ++ replicate n probe_frame ∧
    b_flash s' = b_flash s ∧ s_installed s' = s_installed s.
Proof.
  intros Hid Hrx Hp He. revert next id0 data0 s Hid Hrx. induction polls as [|p polls IH]; intros next id0 data0 s Hid Hrx.
  { by apply Exists_nil in He. }
  apply Forall_cons_iff in Hp as [Hp Hps]. apply Exists_cons in He. cbn [probe_loop negb andb].
  destruct (Z.leb_spec 0 (i32 (p_now p - deadline))) as [Hd|Hd].
  { exists 0%nat, polls, id0, data0, s. rewrite app_nil_r. cbn [length]. split_and!; [done|lia|done..]. }
  destruct He as [He|He]; [lia|].
  set (s1 := if 0 <=? i32 (p_now p - next) then _ else s).
  assert (∃ n, (n ≤ 1)%nat ∧ sent s1 = sent s ++ replicate n probe_frame ∧ b_rx s1 = b_rx s ∧ b_flash s1 = b_flash s ∧
               s_installed s1 = s_installed s) as (n1 & Hn1 & Hse1 & Hrx1 & Hf1 & Hi1).
  { unfold s1. destruct (0 <=? i32 (p_now p - next)).
    - destruct (send_probe_run s) as [(tx & n & E) Hse]. exists 1%nat. rewrite Hse, E. by split_and!.
    - exists 0%nat. rewrite app_nil_r. split_and!; [lia|done..]. }
  destruct (recv_not_ack id0 data0 (set_rx (b_rx s1 ++ p_rx p) s1)) as (dlc & id & data & rx & -> & Hid2 & Hrx2);
    [done|cbn [b_rx set_rx]; rewrite Hrx1; by apply Forall_app|].
  replace (negb (dlc =? 0) && (id =? CAN_ID_ACK)) with false by lia.
  edestruct (IH Hps He (if 0 <=? i32 (p_now p - next) then u32 (p_now p + PROBE_INTERVAL_MS) else next) id data (set_rx rx (set_rx (b_rx s1 ++ p_rx p) s1))) as (n & rest & id3 & data3 & s3 & -> & Hn & Hse & Hf & Hi);
    [done|done|].
  exists (n1 + n)%nat, rest, id3, data3, s3. rewrite Hse, Hf, Hi, replicate_add, app_assoc, <- Hse1.
  cbn [length]. split_and!; [done|lia|done..].
Qed.

Lemma session_quiet polls id0 data0 (s : @bs H) :
  b_rx s = [] → s_confirmed s = false → Forall (λ p, p_rx p = []) polls →
  Exists (λ p, IDLE_TIMEOUT_MS ≤ i32 (p_now p - s_last_activity s)) polls →
  on_session polls id0 data0 s = Some s.
Proof.
  intros Hrx Hc Hp He. induction polls as [|p polls IH]; [by apply Exists_nil in He|].
  apply Forall_cons_iff in Hp as [Hp Hps]. apply Exists_cons in He.
  cbn [session_loop]. rewrite Hc, Hp, Hrx. cbn [app]. assert (set_rx [] s = s) as -> by (destruct s; cbn in Hrx; by subst).
  unfold can_recv. rewrite Hrx. change (negb (0 =? 0)) with false. cbv iota.
  destruct (Z.leb_spec IDLE_TIMEOUT_MS (i32 (p_now p - s_last_activity s))); [done|].
  destruct He as [He|He]; [lia|by apply IH].
Qed.

End Run.

(** ** Concrete runs *)

Import IntArray.

Definition free_tsr : nat → Z := λ _, CAN_TSR_TME0.
Definition blank_session : @bs IntArray.arr := mk_bs false 0 0 false false 0 [] 0 [] [] 0 IntArray.blank.
Definition demo_key : list Z := Z.of_nat <$> seq 1 32.
Definition demo_chunks : list (list Z) := replicate 8 [1; 2; 3; 4; 5; 6; 7] ++ [[8; 9]; replicate 8 0xA5].

Lemma boot_can_install_witness :
  ∃ s', boot_can_wait demo_key 1 2 3 [103] free_tsr false true 1000 1300 0 []
          (host_poll 1200 ack_frame :: zip_with host_poll (Z.of_nat <$> seq 1301 17) (download demo_key demo_chunks))
          blank_session = Some s' ∧
    icells (b_flash s') SLOT0_ADDR 66 = concat demo_chunks.
Proof.
  destruct (boot_can_install demo_key 1 2 3 [103] free_tsr) with
    (forever := false) (start := 1000) (ta := 1200) (tb := 1300) (ts := Z.of_nat <$> seq 1301 17) (k := demo_key)
    (chunks := demo_chunks) (id0 := 0) (data0 := @nil Z) (s := blank_session)
    as [(s' & Hrun & _ & Hc & _) _]; try reflexivity.
  - discriminate.
  - right. reflexivity.
  - apply (bool_decide_unpack _). vm_compute. exact I.
  - apply (bool_decide_unpack _). vm_compute. exact I.
  - split; [discriminate|discriminate].
  - apply (bool_decide_unpack _). vm_compute. exact I.
  - exists s'. split; [exact Hrun|exact Hc].
Defined.

