(* ===== verification/W25q.v ===== *)
(** The SPI NOR flash driver: [src/storage/w25qxx.c].

    The SPI peripheral, the chip-select pin and the delay are the class [SpiBus]
    over the chip's state; [SpiNorLaws] is what the W25Q128 data sheet says of
    each transaction.  The driver state adds the injected bus lock and the log
    of lock and chip-select events.  [watchdog_feed] has no state here.
    [Chip] is a chip in RAM that runs the definitions. *)

From S2P Require Import Prelude Flash.

Definition W25Q_CMD_JEDEC_ID : Z := 0x9F.
Definition W25Q_CMD_WRITE_EN : Z := 0x06.
Definition W25Q_CMD_PAGE_PROG : Z := 0x02.
Definition W25Q_CMD_READ_DATA : Z := 0x03.
Definition W25Q_CMD_READ_SR1 : Z := 0x05.
Definition W25Q_CMD_SECTOR_ER : Z := 0x20.
Definition W25Q_CMD_BLOCK_ER32 : Z := 0x52.
Definition W25Q_CMD_BLOCK_ER64 : Z := 0xD8.
Definition W25Q_SR1_BUSY : Z := 0x01.
Definition W25Q_CHIP_SIZE : Z := 0x1000000.
Definition W25Q_PAGE_SIZE : Z := 256.
Definition W25Q_SECTOR_SIZE : Z := 4096.
Definition W25Q_JEDEC_ID : Z := 0xEF4018.
Definition W25Q_TMO_4K : Z := 2000.
Definition W25Q_TMO_32K : Z := 8000.
Definition W25Q_TMO_64K : Z := 16000.
Definition W25Q_TMO_PROG : Z := 50.

Class SpiBus (C : Type) : Type := {
  HAL_CS : bool → C → C;                       (* [true]: PA4 low, the chip is selected *)
  HAL_SPI_Transmit : list Z → C → bool * C;
  HAL_SPI_Receive : Z → C → bool * list Z * C;
  HAL_Delay : Z → C → C;
}.

Inductive bus_event := EvLock | EvUnlock | EvSelect | EvDeselect.

(** the 24-bit big-endian address *)
Definition addr24 (a : Z) : list Z := [u8 (Z.shiftr a 16); u8 (Z.shiftr a 8); u8 a].

Section W25q.
Context {C : Type} `{SpiBus C}.

Record w25 := mk_w25 { chip : C; bus_lock : bool; bus_unlock : bool; events : list bus_event }.

Abbreviation MW := (M w25).

Definition on_chip (f : C → C) : MW unit :=
  modify (λ s, mk_w25 (f (chip s)) (bus_lock s) (bus_unlock s) (events s)).
Definition event (e : bus_event) : MW unit :=
  modify (λ s, mk_w25 (chip s) (bus_lock s) (bus_unlock s) (events s ++ [e])).

Definition cs_low : MW unit := event EvSelect;; on_chip (HAL_CS true).
Definition cs_high : MW unit := event EvDeselect;; on_chip (HAL_CS false).

Definition w25qxx_set_bus_lock (lock unlock : bool) : MW unit :=
  modify (λ s, mk_w25 (chip s) lock unlock (events s)).

Definition bus_take : MW unit := l ← gets bus_lock; if l : bool then event EvLock else mret tt.
Definition bus_give : MW unit := u ← gets bus_unlock; if u : bool then event EvUnlock else mret tt.

(** [true] is 0, [false] is -1 *)
Definition spi_tx (d : list Z) : MW bool :=
  λ s, let '(ok, c) := HAL_SPI_Transmit d (chip s) in (Done ok, mk_w25 c (bus_lock s) (bus_unlock s) (events s)).
(** [None] is -1 *)
Definition spi_rx (n : Z) : MW (option (list Z)) :=
  λ s, let '(ok, d, c) := HAL_SPI_Receive n (chip s) in
       (Done (if ok : bool then Some d else None), mk_w25 c (bus_lock s) (bus_unlock s) (events s)).

Definition spi_cmd_addr (cmd addr : Z) : MW bool := spi_tx (cmd :: addr24 addr).

Definition wren : MW bool := cs_low;; r ← spi_tx [W25Q_CMD_WRITE_EN]; cs_high;; mret r.

(** the [for] loop, [n] polls left *)
Fixpoint poll_busy (n : nat) : MW bool :=
  match n with
  | O => mret false
  | S n =>
    cs_low;;
    ok ← spi_tx [W25Q_CMD_READ_SR1];
    if ok : bool then
      r ← spi_rx 1;
      match r with
      | None => cs_high;; mret false
      | Some sr =>
        cs_high;;
        if Z.land (rd sr 0) W25Q_SR1_BUSY =? 0 then mret true
        else on_chip (HAL_Delay 1);; poll_busy n
      end
    else cs_high;; mret false
  end.

Definition wait_not_busy (timeout_ms : Z) : MW bool := poll_busy (Z.to_nat (timeout_ms + 1)).

(** the [while] loop of [w25_read], which gives the bus back on both exits *)
Fixpoint read_loop (fuel : nat) (addr len : Z) : MW (option (list Z)) :=
  match fuel with
  | O => bus_give;; mret (Some [])
  | S fuel =>
    if 0 <? len then
      let chunk := if 0xFFFF <? len then 0xFFFF else len in
      cs_low;;
      ok ← spi_cmd_addr W25Q_CMD_READ_DATA addr;
      if ok : bool then
        r ← spi_rx (u16 chunk);
        match r with
        | None => cs_high;; bus_give;; mret None
        | Some d =>
          cs_high;;
          rest ← read_loop fuel (u32 (addr + chunk)) (len - chunk);
          mret (app d <$> rest)
        end
      else cs_high;; bus_give;; mret None
    else bus_give;; mret (Some [])
  end.

Definition w25_read (addr len : Z) : MW (option (list Z)) :=
  if len =? 0 then mret (Some [])
  else if (W25Q_CHIP_SIZE <=? addr) || (W25Q_CHIP_SIZE - addr <? len) then mret None
  else bus_take;; read_loop (Z.to_nat len) addr len.

Definition w25_write (addr : Z) (buf : list Z) : MW bool :=
  let len := zlen buf in
  if len =? 0 then mret true
  else if W25Q_PAGE_SIZE <? len then mret false
  else if W25Q_PAGE_SIZE <? addr mod W25Q_PAGE_SIZE + len then mret false
  else if (W25Q_CHIP_SIZE <=? addr) || (W25Q_CHIP_SIZE - addr <? len) then mret false
  else
    bus_take;;
    w ← wren;
    if w : bool then
      cs_low;;
      ok ← spi_cmd_addr W25Q_CMD_PAGE_PROG addr;
      ok ← (if ok : bool then spi_tx buf else mret false);
      if ok : bool then
        cs_high;;
        rc ← wait_not_busy W25Q_TMO_PROG;
        bus_give;;
        mret rc
      else cs_high;; bus_give;; mret false
    else bus_give;; mret false.

Definition erase_one (addr cmd timeout_ms : Z) : MW bool :=
  w ← wren;
  if w : bool then
    cs_low;;
    ok ← spi_cmd_addr cmd addr;
    if ok : bool then cs_high;; wait_not_busy timeout_ms
    else cs_high;; mret false
  else mret false.

(** the erase command for the rest of the range: size, command, time-out *)
Definition erase_chunk (addr len : Z) : Z * Z * Z :=
  if (addr mod 0x10000 =? 0) && (0x10000 <=? len) then (0x10000, W25Q_CMD_BLOCK_ER64, W25Q_TMO_64K)
  else if (addr mod 0x8000 =? 0) && (0x8000 <=? len) then (0x8000, W25Q_CMD_BLOCK_ER32, W25Q_TMO_32K)
  else (0x1000, W25Q_CMD_SECTOR_ER, W25Q_TMO_4K).

Fixpoint erase_loop (fuel : nat) (addr len : Z) : MW bool :=
  match fuel with
  | O => bus_give;; mret true
  | S fuel =>
    if 0 <? len then
      let '(chunk, cmd, tmo) := erase_chunk addr len in
      ok ← erase_one addr cmd tmo;
      if ok : bool then erase_loop fuel (u32 (addr + chunk)) (u32 (len - chunk))
      else bus_give;; mret false
    else bus_give;; mret true
  end.

Definition w25_erase (addr len : Z) : MW bool :=
  if (len =? 0) || negb (addr mod W25Q_SECTOR_SIZE =? 0) || negb (len mod W25Q_SECTOR_SIZE =? 0) then mret false
  else if (W25Q_CHIP_SIZE <=? addr) || (W25Q_CHIP_SIZE - addr <? len) then mret false
  else bus_take;; erase_loop (Z.to_nat len) addr len.

Definition w25qxx_init : MW bool :=
  cs_low;;
  ok ← spi_tx [W25Q_CMD_JEDEC_ID];
  if ok : bool then
    r ← spi_rx 3;
    match r with
    | None => cs_high;; mret false
    | Some id =>
      cs_high;;
      mret (Z.lor (Z.lor (Z.shiftl (rd id 0) 16) (Z.shiftl (rd id 1) 8)) (rd id 2) =? W25Q_JEDEC_ID)
    end
  else cs_high;; mret false.
End W25q.

(** ** The bus discipline, whatever the chip answers *)

(** who holds the bus, and whether the chip is selected *)
Definition bus_step (p : option (bool * bool)) (e : bus_event) : option (bool * bool) :=
  match p with
  | None => None
  | Some (taken, sel) =>
    match e with
    | EvLock => if taken then None else Some (true, sel)
    | EvUnlock => if taken && negb sel then Some (false, sel) else None
    | EvSelect => if taken && negb sel then Some (taken, true) else None
    | EvDeselect => if sel then Some (taken, false) else None
    end
  end.

(** [None] once the discipline is broken *)
Definition bus_state (l : list bus_event) : option (bool * bool) := foldl bus_step (Some (false, false)) l.

Section Bus.
Context {C : Type} `{SpiBus C}.

Definition bus_is (p : bool * bool) (s : @w25 C) : Prop :=
  bus_state (events s) = Some p ∧ bus_lock s = true ∧ bus_unlock s = true.

(** [m] takes the bus from [p] to [q] *)
Definition moves {A} (p q : bool * bool) (m : M (@w25 C) A) : Prop := runs (bus_is p) m (λ _, bus_is q).

Lemma moves_ret {A} p (a : A) : moves p p (mret a : M (@w25 C) A).
Proof. by apply runs_ret. Qed.
Lemma moves_bind {A B} p q r (m : M (@w25 C) A) (f : A → M (@w25 C) B) :
  moves p q m → (∀ a, moves q r (f a)) → moves p r (m ≫= f).
Proof. intros Hm Hf. eapply runs_bind; [exact Hm|exact Hf]. Qed.
Lemma moves_chip p (f : C → C) : moves p p (@on_chip C f).
Proof. by apply runs_modify. Qed.
Lemma moves_event p q e : bus_step (Some p) e = Some q → moves p q (@event C e).
Proof.
  intros He. apply runs_modify. intros s (Hs & Hl). split; [|exact Hl].
  unfold bus_state in *. cbn [events]. by rewrite foldl_app, Hs.
Qed.
Lemma moves_select : moves (true, false) (true, true) (@cs_low C _).
Proof. eapply moves_bind; [by apply moves_event|intros; apply moves_chip]. Qed.
Lemma moves_deselect : moves (true, true) (true, false) (@cs_high C _).
Proof. eapply moves_bind; [by apply moves_event|intros; apply moves_chip]. Qed.
Lemma moves_take : moves (false, false) (true, false) (@bus_take C).
Proof.
  intros s Hs. destruct (moves_event (false, false) (true, false) EvLock eq_refl s Hs) as (a & s' & E & Hq).
  exists a, s'. unfold bus_take. destruct Hs as (_ & Hl & _). rewrite (bind_done _ _ s (bus_lock s) s) by done.
  by rewrite Hl.
Qed.
Lemma moves_give : moves (true, false) (false, false) (@bus_give C).
Proof.
  intros s Hs. destruct (moves_event (true, false) (false, false) EvUnlock eq_refl s Hs) as (a & s' & E & Hq).
  exists a, s'. unfold bus_give. destruct Hs as (_ & _ & Hu). rewrite (bind_done _ _ s (bus_unlock s) s) by done.
  by rewrite Hu.
Qed.
Lemma moves_tx p d : moves p p (spi_tx d).
Proof. intros s Hs. unfold spi_tx. destruct (HAL_SPI_Transmit d (chip s)) as [ok c]. by eexists _, _. Qed.
Lemma moves_rx p n : moves p p (spi_rx n).
Proof. intros s Hs. unfold spi_rx. destruct (HAL_SPI_Receive n (chip s)) as [[ok d] c]. by eexists _, _. Qed.
End Bus.
Create HintDb bus.
#[export] Hint Resolve moves_ret moves_chip moves_select moves_deselect moves_take moves_give moves_tx moves_rx : bus.

(** Walk through a driver body: the leaves fix the intermediate bus states. *)
Ltac solve_moves :=
  repeat first
    [ progress intros
    | solve [eauto with bus]
    | eapply moves_bind; [solve [eauto with bus]|]
    | eapply moves_bind; [case_match; solve [eauto with bus]|]
    | case_match ].

Section Discipline.
Context {C : Type} `{SpiBus C}.

Lemma moves_wren : moves (true, false) (true, false) (@wren C _).
Proof. unfold wren. solve_moves. Qed.
Lemma moves_poll n : moves (true, false) (true, false) (@poll_busy C _ n).
Proof. induction n as [|n IH]; cbn [poll_busy]; solve_moves. Qed.
Lemma moves_cmd p c a : moves p p (@spi_cmd_addr C _ c a).
Proof. apply moves_tx. Qed.
End Discipline.
#[export] Hint Resolve moves_wren moves_poll moves_cmd : bus.

Section Discipline2.
Context {C : Type} `{SpiBus C}.

Lemma moves_read_loop fuel a n : moves (true, false) (false, false) (@read_loop C _ fuel a n).
Proof. revert a n. induction fuel as [|fuel IH]; intros a n; cbn [read_loop]; solve_moves. Qed.
Lemma moves_erase_one a c t : moves (true, false) (true, false) (@erase_one C _ a c t).
Proof. unfold erase_one, wait_not_busy. solve_moves. Qed.
Lemma moves_erase_loop fuel a n : moves (true, false) (false, false) (@erase_loop C _ fuel a n).
Proof.
  revert a n. induction fuel as [|fuel IH]; intros a n; cbn [erase_loop]; [solve_moves|].
  pose proof moves_erase_one. solve_moves.
Qed.
End Discipline2.
#[export] Hint Resolve moves_read_loop moves_erase_one moves_erase_loop : bus.

(** With the lock injected, every call of the driver takes the bus at most once, keeps the chip deselected whenever
    it does not own the bus, and returns with the chip deselected and the bus given back - on every path, whatever
    the SPI peripheral and the chip answer, also when every transfer fails or the chip stays busy for ever. *)
Theorem w25_bus_discipline {C} `{SpiBus C} (a n : Z) (buf : list Z) :
  moves (false, false) (false, false) (w25_read a n) ∧
  moves (false, false) (false, false) (w25_write a buf) ∧
  moves (false, false) (false, false) (w25_erase a n).
Proof.
  split; [|split].
  - unfold w25_read. solve_moves.
  - unfold w25_write, wait_not_busy. solve_moves.
  - unfold w25_erase. solve_moves.
Qed.

(** ** The data sheet *)

(** command, size and maximum time in ms of the erase operations *)
Definition erase_table : list (Z * Z * nat) :=
  [(W25Q_CMD_SECTOR_ER, 0x1000, 400%nat); (W25Q_CMD_BLOCK_ER32, 0x8000, 1600%nat);
   (W25Q_CMD_BLOCK_ER64, 0x10000, 2000%nat)].

Class SpiNorLaws (C : Type) `{SpiBus C} : Type := {
  ncell : C → Z → Z;
  ready : C → Prop;             (* deselected, nothing in progress *)
  enabled : C → Prop;           (* the same, after a write enable *)
  working : nat → C → Prop;     (* deselected, busy for that many milliseconds *)
  wren_law c :
    ready c → ∃ c1, HAL_SPI_Transmit [0x06] (HAL_CS true c) = (true, c1) ∧
      enabled (HAL_CS false c1) ∧ (∀ x, ncell (HAL_CS false c1) x = ncell c x);
  read_data_law c a n :
    ready c → 0 ≤ a → 0 < n ≤ 0xFFFF → a + n ≤ NOR_SIZE →
    ∃ c1 c2, HAL_SPI_Transmit (0x03 :: addr24 a) (HAL_CS true c) = (true, c1) ∧
      HAL_SPI_Receive n c1 = (true, bytes_at (ncell c) a (Z.to_nat n), c2) ∧
      ready (HAL_CS false c2) ∧ (∀ x, ncell (HAL_CS false c2) x = ncell c x);
  program_law c a bs :
    enabled c → 0 ≤ a → 0 < zlen bs → a mod 256 + zlen bs ≤ 256 → a + zlen bs ≤ NOR_SIZE → bytes_ok bs →
    (∀ x, a ≤ x < a + zlen bs → ncell c x = 255) →
    ∃ c1 c2 k, HAL_SPI_Transmit (0x02 :: addr24 a) (HAL_CS true c) = (true, c1) ∧
      HAL_SPI_Transmit bs c1 = (true, c2) ∧ (k ≤ 3)%nat ∧ working k (HAL_CS false c2) ∧
      bytes_at (ncell (HAL_CS false c2)) a (length bs) = bs ∧
      (∀ x, ¬ (a ≤ x < a + zlen bs) → ncell (HAL_CS false c2) x = ncell c x);
  erase_cmd_law c cmd size tmax a :
    (cmd, size, tmax) ∈ erase_table → enabled c → 0 ≤ a → a mod size = 0 → a + size ≤ NOR_SIZE →
    ∃ c1 k, HAL_SPI_Transmit (cmd :: addr24 a) (HAL_CS true c) = (true, c1) ∧
      (k ≤ tmax)%nat ∧ working k (HAL_CS false c1) ∧
      (∀ x, a ≤ x < a + size → ncell (HAL_CS false c1) x = 255) ∧
      (∀ x, ¬ (a ≤ x < a + size) → ncell (HAL_CS false c1) x = ncell c x);
  status_law c k :
    working k c → ∃ c1 c2 sr, HAL_SPI_Transmit [0x05] (HAL_CS true c) = (true, c1) ∧
      HAL_SPI_Receive 1 c1 = (true, [sr], c2) ∧
      match k with
      | O => Z.land sr 1 = 0 ∧ ready (HAL_CS false c2) ∧ (∀ x, ncell (HAL_CS false c2) x = ncell c x)
      | S k => Z.land sr 1 ≠ 0 ∧ working k (HAL_Delay 1 (HAL_CS false c2)) ∧
               (∀ x, ncell (HAL_Delay 1 (HAL_CS false c2)) x = ncell c x)
      end;
  jedec_law c :
    ready c → ∃ c1 c2, HAL_SPI_Transmit [0x9F] (HAL_CS true c) = (true, c1) ∧
      HAL_SPI_Receive 3 c1 = (true, [0xEF; 0x40; 0x18], c2) ∧
      ready (HAL_CS false c2) ∧ (∀ x, ncell (HAL_CS false c2) x = ncell c x);
}.

(** run the first statement with a lemma that says what it does *)
Ltac mstep L := erewrite bind_done; [|first [eapply L; eassumption|apply L]]; cbv beta iota.

Section Laws.
Context {C : Type} `{SpiNorLaws C}.

(** the driver between two calls; [mem] is what the chip holds *)
Definition st_is (P : C → Prop) (mem : Z → Z) (s : @w25 C) : Prop :=
  P (chip s) ∧ ∀ x, ncell (chip s) x = mem x.

Lemma st_is_ext P m m' s : (∀ x, m x = m' x) → st_is P m s → st_is P m' s.
Proof. intros Hx [Hp Hm]. split; [done|]. intros x. by rewrite Hm. Qed.

Lemma runs_take P m : runs (st_is P m) (@bus_take C) (λ _, st_is P m).
Proof.
  apply (runs_bind _ _ _ (λ _, st_is P m)); [by apply runs_gets|]. intros l.
  destruct l; [by apply runs_modify|by apply runs_ret].
Qed.
Lemma runs_give P m : runs (st_is P m) (@bus_give C) (λ _, st_is P m).
Proof.
  apply (runs_bind _ _ _ (λ _, st_is P m)); [by apply runs_gets|]. intros l.
  destruct l; [by apply runs_modify|by apply runs_ret].
Qed.

(** give the bus back and return *)
Lemma runs_give_ret {A} P m (a : A) (Q : A → w25 → Prop) :
  (∀ s, st_is P m s → Q a s) → runs (st_is P m) (bus_give;; mret a) Q.
Proof. intros HQ. eapply runs_bind; [apply runs_give|]. intros ?. by apply runs_ret. Qed.

(** *** Running the pieces of a transaction *)

Definition with_chip (c : C) (e : list bus_event) (s : @w25 C) : w25 := mk_w25 c (bus_lock s) (bus_unlock s) (events s ++ e).

Lemma cs_low_run s : cs_low s = (Done tt, with_chip (HAL_CS true (chip s)) [EvSelect] s).
Proof. done. Qed.
Lemma cs_high_run s : cs_high s = (Done tt, with_chip (HAL_CS false (chip s)) [EvDeselect] s).
Proof. done. Qed.
Lemma spi_tx_run d s ok c : HAL_SPI_Transmit d (chip s) = (ok, c) → spi_tx d s = (Done ok, with_chip c [] s).
Proof. intros E. unfold spi_tx, with_chip. by rewrite E, app_nil_r. Qed.
Lemma spi_rx_run n s d c : HAL_SPI_Receive n (chip s) = (true, d, c) → spi_rx n s = (Done (Some d), with_chip c [] s).
Proof. intros E. unfold spi_rx, with_chip. by rewrite E, app_nil_r. Qed.
Lemma delay_run n s : on_chip (HAL_Delay n) s = (Done tt, with_chip (HAL_Delay n (chip s)) [] s).
Proof. unfold with_chip. by rewrite app_nil_r. Qed.

Lemma st_is_chip (P : C → Prop) m (s : @w25 C) : P (chip s) → (∀ x, ncell (chip s) x = m x) → st_is P m s.
Proof. by split. Qed.

Lemma wren_runs m : runs (st_is ready m) (@wren C _) (λ ok s, ok = true ∧ st_is enabled m s).
Proof.
  intros s [Hr Hm]. destruct (wren_law (chip s) Hr) as (c1 & Htx & He & Hc). unfold wren.
  mstep cs_low_run. mstep spi_tx_run. mstep cs_high_run.
  eexists _, _. split; [reflexivity|]. split; [done|]. apply st_is_chip; [exact He|]. intros x. cbn. by rewrite Hc.
Qed.

Lemma poll_runs m n k : (k < n)%nat → runs (st_is (working k) m) (@poll_busy C _ n) (λ ok s, ok = true ∧ st_is ready m s).
Proof.
  revert k. induction n as [|n IH]; intros k Hk; [lia|]. intros s [Hw Hm].
  destruct (status_law (chip s) k Hw) as (c1 & c2 & sr & Htx & Hrx & Hk').
  cbn [poll_busy]. mstep cs_low_run. mstep spi_tx_run. mstep spi_rx_run. mstep cs_high_run.
  change (rd [sr] 0) with sr. unfold W25Q_SR1_BUSY. destruct k as [|k].
  - destruct Hk' as (-> & Hr & Hc). eexists _, _. split; [reflexivity|]. split; [done|].
    apply st_is_chip; [exact Hr|]. intros x. cbn. by rewrite Hc.
  - destruct Hk' as (Hs & Hw' & Hc). replace (Z.land sr 1 =? 0) with false by lia. mstep delay_run.
    apply (IH k); [lia|]. apply st_is_chip; [exact Hw'|]. intros x. cbn. by rewrite Hc.
Qed.

Lemma read_loop_runs fuel m a n :
  (Z.to_nat n ≤ fuel)%nat → 0 ≤ a → 0 ≤ n → a + n ≤ NOR_SIZE →
  runs (st_is ready m) (@read_loop C _ fuel a n) (λ r s, r = Some (bytes_at m a (Z.to_nat n)) ∧ st_is ready m s).
Proof.
  unfold NOR_SIZE. revert a n. induction fuel as [|fuel IH]; intros a n Hf Ha Hn Hend.
  { cbn [read_loop]. apply runs_give_ret. intros s Hs. by replace (Z.to_nat n) with 0%nat by lia. }
  cbn [read_loop]. destruct (Z.ltb_spec 0 n) as [Hpos|]; cycle 1.
  { apply runs_give_ret. intros s Hs. by replace (Z.to_nat n) with 0%nat by lia. }
  set (chunk := if 0xFFFF <? n then 0xFFFF else n).
  assert (0 < chunk ≤ n ∧ chunk ≤ 0xFFFF) as Hc by (unfold chunk; destruct (Z.ltb_spec 0xFFFF n); lia).
  intros s [Hr Hm].
  destruct (read_data_law (chip s) a chunk Hr) as (c1 & c2 & Htx & Hrx & Hr2 & Hm2); [lia..|unfold NOR_SIZE; lia|].
  mstep cs_low_run. mstep spi_tx_run. rewrite u16_id by ulia. mstep spi_rx_run. mstep cs_high_run.
  rewrite u32_id by ulia.
  match goal with |- context [(read_loop fuel _ _ ≫= _) ?s2] =>
    destruct (IH (a + chunk) (n - chunk) ltac:(lia) ltac:(lia) ltac:(lia) ltac:(lia) s2) as (r & s3 & E & -> & Hs3) end.
  { apply st_is_chip; [exact Hr2|]. intros x. cbn. by rewrite Hm2. }
  mstep E.
  eexists _, _. split; [reflexivity|]. split; [|exact Hs3]. cbn. f_equal.
  replace (Z.to_nat n) with (Z.to_nat chunk + Z.to_nat (n - chunk))%nat by lia. rewrite bytes_at_app. f_equal.
  - apply bytes_at_ext. intros x _. apply Hm.
  - f_equal. lia.
Qed.

(** *** Erasing *)

Definition erased (m : Z → Z) (a n : Z) (x : Z) : Z := if (a <=? x) && (x <? a + n) then 255 else m x.

Lemma erase_chunk_spec a n chunk cmd tmo :
  a mod 4096 = 0 → n mod 4096 = 0 → 0 < n → erase_chunk a n = (chunk, cmd, tmo) →
  0 < chunk ≤ n ∧ a mod chunk = 0 ∧ (a + chunk) mod 4096 = 0 ∧ (n - chunk) mod 4096 = 0 ∧ 0 ≤ tmo ∧
  ∃ tmax, (cmd, chunk, tmax) ∈ erase_table ∧ (tmax < Z.to_nat (tmo + 1))%nat.
Proof.
  intros Ha Hn Hpos. unfold erase_chunk, erase_table, W25Q_TMO_64K, W25Q_TMO_32K, W25Q_TMO_4K.
  destruct ((a mod 0x10000 =? 0) && (0x10000 <=? n)) eqn:E1; [|destruct ((a mod 0x8000 =? 0) && (0x8000 <=? n)) eqn:E2];
    intros [= <- <- <-]; (split; [Z.div_mod_to_equations; lia|]); (split; [Z.div_mod_to_equations; lia|]);
    (split; [Z.div_mod_to_equations; lia|]); (split; [Z.div_mod_to_equations; lia|]); (split; [lia|]).
  - exists 2000%nat. rewrite !elem_of_cons. split; [tauto|lia].
  - exists 1600%nat. rewrite !elem_of_cons. split; [tauto|lia].
  - exists 400%nat. rewrite !elem_of_cons. split; [tauto|lia].
Qed.

Lemma erase_one_runs m a cmd size tmax tmo :
  (cmd, size, tmax) ∈ erase_table → (tmax < Z.to_nat (tmo + 1))%nat → 0 ≤ a → a mod size = 0 → a + size ≤ NOR_SIZE →
  runs (st_is ready m) (@erase_one C _ a cmd tmo) (λ ok s, ok = true ∧ st_is ready (erased m a size) s).
Proof.
  intros Hin Htm Ha Hal Hend s Hs. unfold erase_one. destruct (wren_runs m s Hs) as (w & s1 & E & -> & [He Hm1]).
  mstep E. mstep cs_low_run.
  destruct (erase_cmd_law (chip s1) cmd size tmax a Hin He Ha Hal Hend) as (c1 & k & Htx & Hk & Hw & Hin1 & Hout1).
  unfold spi_cmd_addr. mstep spi_tx_run. mstep cs_high_run. unfold wait_not_busy. eapply poll_runs; [|].
  - eapply Nat.le_lt_trans; [exact Hk|exact Htm].
  - apply st_is_chip; [exact Hw|]. intros x. cbn. unfold erased.
    destruct (Z.leb_spec a x), (Z.ltb_spec x (a + size)); cbn [andb];
      [by apply Hin1|rewrite Hout1 by lia; apply Hm1..].
Qed.

Lemma erase_loop_runs fuel m a n :
  (Z.to_nat n ≤ fuel)%nat → 0 ≤ a → 0 ≤ n → a + n ≤ NOR_SIZE → a mod 4096 = 0 → n mod 4096 = 0 →
  runs (st_is ready m) (@erase_loop C _ fuel a n) (λ ok s, ok = true ∧ st_is ready (erased m a n) s).
Proof.
  assert (∀ m a n s, n ≤ 0 → st_is ready m s → st_is ready (erased m a n) s) as Hnil.
  { intros m' a' n' s Hn. apply st_is_ext. intros x. unfold erased.
    by replace ((a' <=? x) && (x <? a' + n')) with false by lia. }
  revert m a n. induction fuel as [|fuel IH]; intros m a n Hf Ha Hn Hend Hal Hnl.
  { cbn [erase_loop]. apply runs_give_ret. intros s Hs. split; [done|]. apply Hnil; [lia|done]. }
  cbn [erase_loop]. destruct (Z.ltb_spec 0 n) as [Hpos|]; cycle 1.
  { apply runs_give_ret. intros s Hs. split; [done|]. by apply Hnil. }
  destruct (erase_chunk a n) as [[chunk cmd] tmo] eqn:Ec.
  destruct (erase_chunk_spec a n chunk cmd tmo Hal Hnl Hpos Ec) as (Hc & Hca & Hac & Hnc & Ht & tmax & Hin & Htm).
  unfold NOR_SIZE in Hend. rewrite !u32_id by ulia.
  eapply runs_bind; [apply erase_one_runs with (tmax := tmax); [done|done|done|done|unfold NOR_SIZE; lia]|].
  intros ok s [-> Hs]. destruct (IH (erased m a chunk) (a + chunk) (n - chunk)) with (s := s) as (ok & s' & E & -> & Hs');
    [lia..|unfold NOR_SIZE; lia|done|done|done|].
  exists true, s'. split; [exact E|]. split; [done|]. eapply st_is_ext; [|exact Hs']. intros x. unfold erased.
  destruct (Z.leb_spec a x), (Z.ltb_spec x (a + n)), (Z.leb_spec (a + chunk) x), (Z.ltb_spec x (a + chunk + (n - chunk))),
    (Z.ltb_spec x (a + chunk)); cbn [andb]; first [done|lia].
Qed.

(** *** Programming *)

Definition stored (m : Z → Z) (a : Z) (bs : list Z) (x : Z) : Z :=
  if (a <=? x) && (x <? a + zlen bs) then rd bs (Z.to_nat (x - a)) else m x.

Lemma w25_write_runs m a bs :
  0 ≤ a → 0 < zlen bs → a mod 256 + zlen bs ≤ 256 → a + zlen bs ≤ NOR_SIZE → bytes_ok bs →
  (∀ x, a ≤ x < a + zlen bs → m x = 255) →
  runs (st_is ready m) (@w25_write C _ a bs) (λ ok s, ok = true ∧ st_is ready (stored m a bs) s).
Proof.
  intros Ha Hl Hpg Hend Hb He. unfold w25_write, W25Q_PAGE_SIZE, W25Q_CHIP_SIZE. pose proof Hend as Hend'.
  unfold NOR_SIZE in Hend'. replace (zlen bs =? 0) with false by lia.
  assert (0 ≤ a mod 256) by (apply Z.mod_pos_bound; lia).
  replace (256 <? zlen bs) with false by lia. replace (256 <? a mod 256 + zlen bs) with false by lia.
  replace ((0x1000000 <=? a) || (0x1000000 - a <? zlen bs)) with false by lia.
  eapply runs_bind; [apply runs_take|]. intros ?. eapply runs_bind; [apply wren_runs|].
  intros w s [-> [Hen Hm]]. mstep cs_low_run.
  destruct (program_law (chip s) a bs Hen Ha Hl Hpg Hend Hb) as (c1 & c2 & k & Htx1 & Htx2 & Hk & Hw & Hst & Hout).
  { intros x Hx. rewrite Hm. by apply He. }
  unfold spi_cmd_addr. mstep spi_tx_run. mstep spi_tx_run. mstep cs_high_run. unfold wait_not_busy, W25Q_TMO_PROG.
  change (Z.to_nat (50 + 1)) with 51%nat.
  match goal with |- context [(poll_busy 51 ≫= _) ?s2] =>
    destruct (poll_runs (stored m a bs) 51 k ltac:(lia) s2) as (ok & s3 & E & -> & Hs3) end.
  { apply st_is_chip; [exact Hw|]. intros x. cbn. unfold stored.
    destruct (Z.leb_spec a x), (Z.ltb_spec x (a + zlen bs)); cbn [andb]; [|rewrite Hout by lia; apply Hm..].
    unfold zlen in *. transitivity (rd (bytes_at (ncell (HAL_CS false c2)) a (length bs)) (Z.to_nat (x - a)));
      [|by rewrite Hst]. unfold rd. rewrite lookup_bytes_at by lia. cbn. f_equal. lia. }
  mstep E. destruct (runs_give_ret ready (stored m a bs) true (λ ok s, ok = true ∧ st_is ready (stored m a bs) s)
                       ltac:(done) s3 Hs3) as (r & s4 & E4 & Hr). by exists r, s4.
Qed.
End Laws.

(** C21: On a chip that behaves as its data sheet says, the driver is the flash device the rest of the firmware relies
    on: it finds the chip; any range reads as stored, however the transfer is split; an aligned erase sets exactly the
    range to 0xFF with the largest erase command that fits at each step and finishes inside its time-out; a page program
    stores exactly the bytes; and a request outside the contract is refused without a bus transaction. *)
Theorem w25_flash_contract {C} `{SpiNorLaws C} (m : Z → Z) (a n : Z) (bs : list Z) :
  runs (st_is ready m) w25qxx_init (λ ok s, ok = true ∧ st_is ready m s) ∧
  (0 ≤ a → 0 < n → a + n ≤ NOR_SIZE →
   runs (st_is ready m) (w25_read a n) (λ r s, r = Some (bytes_at m a (Z.to_nat n)) ∧ st_is ready m s)) ∧
  (0 ≤ a → 0 < n → a + n ≤ NOR_SIZE → a mod 4096 = 0 → n mod 4096 = 0 →
   runs (st_is ready m) (w25_erase a n) (λ ok s, ok = true ∧ st_is ready (erased m a n) s)) ∧
  (0 ≤ a → 0 < zlen bs → a mod 256 + zlen bs ≤ 256 → a + zlen bs ≤ NOR_SIZE → bytes_ok bs →
   (∀ x, a ≤ x < a + zlen bs → m x = 255) →
   runs (st_is ready m) (w25_write a bs) (λ ok s, ok = true ∧ st_is ready (stored m a bs) s)) ∧
  (0 ≤ a → 0 < n → NOR_SIZE < a + n → ∀ s : @w25 C, w25_read a n s = (Done None, s) ∧ w25_erase a n s = (Done false, s)) ∧
  (0 < zlen bs → 256 < a mod 256 + zlen bs ∨ NOR_SIZE < a + zlen bs →
   ∀ s : @w25 C, w25_write a bs s = (Done false, s)) ∧
  (a mod 4096 ≠ 0 ∨ n mod 4096 ≠ 0 → ∀ s : @w25 C, w25_erase a n s = (Done false, s)).
Proof.
  split; [|split; [|split; [|split; [|split; [|split]]]]].
  - intros s [Hr Hm]. destruct (jedec_law (chip s) Hr) as (c1 & c2 & Htx & Hrx & Hr2 & Hc). unfold w25qxx_init.
    mstep cs_low_run. mstep spi_tx_run. mstep spi_rx_run. mstep cs_high_run.
    eexists _, _. split; [reflexivity|]. split; [reflexivity|]. apply st_is_chip; [exact Hr2|]. intros x. cbn. by rewrite Hc.
  - intros Ha Hn Hend. pose proof Hend as Hend'. unfold NOR_SIZE in Hend'. unfold w25_read, W25Q_CHIP_SIZE.
    replace (n =? 0) with false by lia. replace ((0x1000000 <=? a) || (0x1000000 - a <? n)) with false by lia.
    eapply runs_bind; [apply runs_take|]. intros ?. apply read_loop_runs; lia.
  - intros Ha Hn Hend Hal Hnl. pose proof Hend as Hend'. unfold NOR_SIZE in Hend'.
    unfold w25_erase, W25Q_SECTOR_SIZE, W25Q_CHIP_SIZE.
    replace ((n =? 0) || negb (a mod 4096 =? 0) || negb (n mod 4096 =? 0)) with false by lia.
    replace ((0x1000000 <=? a) || (0x1000000 - a <? n)) with false by lia.
    eapply runs_bind; [apply runs_take|]. intros ?. apply erase_loop_runs; first [done|lia].
  - apply w25_write_runs.
  - unfold NOR_SIZE. intros Ha Hn Hend s. unfold w25_read, w25_erase, W25Q_CHIP_SIZE.
    replace (n =? 0) with false by lia. replace ((0x1000000 <=? a) || (0x1000000 - a <? n)) with true by lia.
    split; [done|]. by destruct (_ || _).
  - unfold NOR_SIZE. intros Hl Hbad s. unfold w25_write, W25Q_PAGE_SIZE, W25Q_CHIP_SIZE.
    replace (zlen bs =? 0) with false by lia. destruct (Z.ltb_spec 256 (zlen bs)); [done|].
    destruct (Z.ltb_spec 256 (a mod 256 + zlen bs)); [done|].
    by replace ((0x1000000 <=? a) || (0x1000000 - a <? zlen bs)) with true by lia.
  - intros Hbad s. unfold w25_erase, W25Q_SECTOR_SIZE.
    by replace ((n =? 0) || negb (a mod 4096 =? 0) || negb (n mod 4096 =? 0)) with true by lia.
Qed.

(** ** A chip in RAM *)

Module Chip.
(** [cin]: the bytes received since the chip was selected *)
Record chip := mk_chip { cmem : Z → Z; cwel : bool; cbusy : nat; csel : bool; cin : list Z }.

Definition addr_of (a2 a1 a0 : Z) : Z := a2 * 65536 + a1 * 256 + a0.

Lemma addr_of_addr24 a : 0 ≤ a < 0x1000000 → addr_of (u8 (Z.shiftr a 16)) (u8 (Z.shiftr a 8)) (u8 a) = a.
Proof.
  intros Ha. unfold addr_of, u8. rewrite !Z.shiftr_div_pow2 by lia. change (2 ^ 16) with 65536. change (2 ^ 8) with 256.
  rewrite (Z.mod_small (a / 65536)) by (Z.div_mod_to_equations; lia). Z.div_mod_to_equations. lia.
Qed.

(** the command is executed when the chip is deselected *)
Definition execute (c : chip) : chip :=
  let idle := mk_chip (cmem c) (cwel c) (cbusy c) false [] in
  match cbusy c with
  | S _ => idle
  | O =>
    match cin c with
    | [0x06] => mk_chip (cmem c) true 0 false []
    | 0x02 :: a2 :: a1 :: a0 :: data =>
      if cwel c then mk_chip (stored (cmem c) (addr_of a2 a1 a0) data) false 3 false [] else idle
    | [cmd; a2; a1; a0] =>
      if cwel c then
        if cmd =? 0x20 then mk_chip (erased (cmem c) (addr_of a2 a1 a0) 0x1000) false 400 false []
        else if cmd =? 0x52 then mk_chip (erased (cmem c) (addr_of a2 a1 a0) 0x8000) false 1600 false []
        else if cmd =? 0xD8 then mk_chip (erased (cmem c) (addr_of a2 a1 a0) 0x10000) false 2000 false []
        else idle
      else idle
    | _ => idle
    end
  end.

Definition answer (n : Z) (c : chip) : list Z :=
  match cin c with
  | [0x05] => [match cbusy c with O => 0 | S _ => 1 end]
  | [0x9F] => [0xEF; 0x40; 0x18]
  | [0x03; a2; a1; a0] => bytes_at (cmem c) (addr_of a2 a1 a0) (Z.to_nat n)
  | _ => []
  end.

#[export] Instance chip_bus : SpiBus chip := {
  HAL_CS sel c := if sel : bool then mk_chip (cmem c) (cwel c) (cbusy c) true []
                  else if csel c then execute c else c;
  HAL_SPI_Transmit d c := (true, mk_chip (cmem c) (cwel c) (cbusy c) (csel c) (cin c ++ d));
  HAL_SPI_Receive n c := (true, answer n c, c);
  HAL_Delay n c := mk_chip (cmem c) (cwel c) (cbusy c - Z.to_nat n) (csel c) (cin c);
}.

#[export] Instance chip_laws : SpiNorLaws chip.
Proof.
  refine {| ncell := cmem; ready c := csel c = false ∧ cbusy c = 0%nat;
            enabled c := csel c = false ∧ cbusy c = 0%nat ∧ cwel c = true;
            working k c := csel c = false ∧ cbusy c = k |}.
  - intros c [Hs Hb]. eexists. split; [reflexivity|]. cbn. unfold execute. cbn. rewrite Hb. by split_and!.
  - intros c a n [Hs Hb] Ha Hn Hend. unfold NOR_SIZE in Hend.
    eexists _, _. split; [reflexivity|]. split.
    + cbn. unfold answer. cbn. by rewrite addr_of_addr24 by lia.
    + cbn. unfold execute. cbn. rewrite Hb. destruct (cwel c); by split_and!.
  - intros c a bs (Hs & Hb & Hw) Ha Hl Hpg Hend Hby He. unfold NOR_SIZE in Hend.
    eexists _, _, 3%nat. split; [reflexivity|]. split; [reflexivity|]. split; [lia|]. cbn. unfold execute. cbn. rewrite Hb, Hw.
    rewrite addr_of_addr24 by lia. cbn. split; [done|]. split.
    + apply bytes_at_eq. intros i Hi. unfold stored, zlen.
      replace ((a <=? a + Z.of_nat i) && (a + Z.of_nat i <? a + Z.of_nat (length bs))) with true by lia.
      f_equal. lia.
    + intros x Hx. unfold stored. by replace ((a <=? x) && (x <? a + zlen bs)) with false by lia.
  - intros c cmd size tmax a Hin (Hs & Hb & Hw) Ha Hal Hend. unfold NOR_SIZE in Hend.
    unfold erase_table in Hin. rewrite !elem_of_cons in Hin.
    destruct Hin as [[= -> -> ->]|[[= -> -> ->]|[[= -> -> ->]|Hin]]]; [| | |by apply not_elem_of_nil in Hin];
      (eexists _, _; split; [reflexivity|]; split; [reflexivity|]; cbn; unfold execute; cbn; rewrite Hb, Hw;
       rewrite addr_of_addr24 by lia; cbn; split; [done|]; split; intros x Hx; unfold erased;
       [by replace ((a <=? x) && (x <? a + _)) with true by lia|
        by replace ((a <=? x) && (x <? a + _)) with false by lia]).
  - intros c k [Hs Hb]. eexists _, _, _. split; [reflexivity|]. split; [reflexivity|]. cbn. unfold execute. cbn. rewrite Hb.
    destruct k; cbn; rewrite ?Hb; [by split_and!|]. split; [done|]. split; [|done]. split; [done|]. lia.
  - intros c [Hs Hb]. eexists _, _. split; [reflexivity|]. split; [reflexivity|]. cbn. unfold execute. cbn. rewrite Hb.
    by split_and!.
Defined.

Definition fresh : chip := mk_chip (λ x, x mod 256) false 0 false [].
Definition driver : @w25 chip := mk_w25 fresh true true [].
End Chip.

Import Chip.

Lemma w25_flash_contract_witness :
  runs (st_is ready (λ x, x mod 256)) (w25_erase 0x7000 0x12000)
    (λ ok s, ok = true ∧ st_is ready (erased (λ x, x mod 256) 0x7000 0x12000) s) ∧
  st_is ready (λ x, x mod 256) driver.
Proof.
  split; [|by split].
  destruct (w25_flash_contract (C := chip) (λ x, x mod 256) 0x7000 0x12000 []) as (_ & _ & He & _).
  apply He; by vm_compute.
Defined.

(** the erase commands chosen for a range that starts in the middle of a block *)
Example erase_chunks :
  (erase_chunk 0x7000 0x12000, erase_chunk 0x8000 0x11000, erase_chunk 0x10000 0x9000, erase_chunk 0x18000 0x1000)
  = (0x1000, 0x20, 2000, (0x8000, 0x52, 8000), (0x8000, 0x52, 8000), (0x1000, 0x20, 2000)).
Proof. reflexivity. Qed.
