(* ===== verification/FlashMap.v ===== *)
(** The flash areas MCUboot works on: [src/boot/mcuboot/flash_map_backend.c], and
    the block device of littlefs, [src/storage/lfs_port.c].

    Both split a write at the 256-byte pages of the NOR flash.  Device 0 is the
    on-chip flash of [IntFlash.v], read as memory; device 1 is the NOR flash,
    used through its interface [IoFlash]. *)

From S2P Require Import Prelude Flash IntFlash.


Definition PRIMARY_ID : Z := 0.
Definition SECONDARY_ID : Z := 1.
Definition SCRATCH_ID : Z := 2.

Record flash_area := mk_area { fa_id : Z; fa_device_id : Z; fa_off : Z; fa_size : Z }.

Definition areas : list flash_area :=
  [mk_area PRIMARY_ID 0 SLOT0_ADDR SLOT0_SIZE; mk_area SECONDARY_ID 1 SLOT1_OFFSET SLOT1_SIZE;
   mk_area SCRATCH_ID 1 SCRATCH_OFFSET SCRATCH_SIZE].

Record flash_sector := mk_sector { fs_off : Z; fs_size : Z }.

Definition flash_area_open (id : Z) : option flash_area :=
  if Z.of_nat (length areas) <=? id then None else areas !! Z.to_nat id.

Definition flash_area_align (fap : flash_area) : Z := 1.
Definition flash_area_erased_val (fap : flash_area) : Z := 0xFF.

(** the two [for] loops of [flash_area_get_sectors] *)
Fixpoint int_sectors (off : Z) (sz : list Z) : list flash_sector :=
  match sz with
  | [] => []
  | n :: sz => mk_sector off n :: int_sectors (off + n) sz
  end.
Definition nor_sectors (n : Z) : list flash_sector :=
  (λ i, mk_sector (i * 4096) 4096) <$> seqZ 0 n.

(** the filled array; its length is [*count] *)
Definition flash_area_get_sectors (id : Z) : option (list flash_sector) :=
  if (id <? 0) || (Z.of_nat (length areas) <=? id) then None
  else if id =? PRIMARY_ID then Some (int_sectors 0 [0x10000; 0x20000; 0x20000; 0x20000])
  else a ← areas !! Z.to_nat id; Some (nor_sectors (fa_size a / 4096)).

Definition flash_area_id_from_image_slot (slot : Z) : Z := if slot =? 0 then PRIMARY_ID else SECONDARY_ID.
Definition flash_area_id_from_multi_image_slot (image_index slot : Z) : Z := flash_area_id_from_image_slot slot.
Definition flash_area_id_to_multi_image_slot (image_index area_id : Z) : Z :=
  if area_id =? PRIMARY_ID then 0 else if area_id =? SECONDARY_ID then 1 else -1.

(** ** Page-split writes *)

Section Pages.
Context {F : Type} `{IoFlash F}.

(** [while (len > 0)]: a chunk ends at the next page boundary *)
Fixpoint page_loop (fuel : nat) (addr : Z) (p : list Z) (f : F) : bool * F :=
  match fuel with
  | O => (true, f)
  | S fuel =>
    if 0 <? zlen p then
      let chunk := 256 - addr mod 256 in
      let chunk := if zlen p <? chunk then zlen p else chunk in
      let '(ok, f) := iof_write addr (take (Z.to_nat chunk) p) f in
      if ok : bool then page_loop fuel (u32 (addr + chunk)) (drop (Z.to_nat chunk) p) f else (false, f)
    else (true, f)
  end.
End Pages.

(** ** littlefs on the NOR flash *)

Definition PORT_BLOCK_SIZE : Z := 4096.
Definition PORT_BLOCKS : Z := LFS_SIZE / PORT_BLOCK_SIZE.

Section LfsPort.
Context {F : Type} `{IoFlash F}.

Definition block_addr (block off : Z) : Z := u32 (LFS_OFFSET + block * PORT_BLOCK_SIZE + off).

Definition lf_out (block off size : Z) : bool :=
  (PORT_BLOCKS <=? block) || (PORT_BLOCK_SIZE <? off) || (PORT_BLOCK_SIZE - off <? size).

(** [true] is 0, [false] is [LFS_ERR_IO] *)
Definition lf_prog (block off : Z) (buffer : list Z) (f : F) : bool * F :=
  if lf_out block off (zlen buffer) then (false, f)
  else page_loop (length buffer) (block_addr block off) buffer f.

Definition lf_read (block off size : Z) (f : F) : option (list Z) :=
  if lf_out block off size then None else iof_read (block_addr block off) size f.

Definition lf_erase (block : Z) (f : F) : bool * F :=
  if PORT_BLOCKS <=? block then (false, f) else iof_erase (block_addr block 0) PORT_BLOCK_SIZE f.

Definition lf_sync (f : F) : bool * F := (true, f).

(** [lfs_mount] and [lfs_format] of the library *)
Definition lfs_port_mount (mount format : F → bool * F) (f : F) : bool * F :=
  let '(ok, f) := mount f in
  if ok : bool then (true, f)
  else
    let '(ok, f) := format f in
    if ok : bool then mount f else (false, f).
End LfsPort.

(** ** The areas *)

(** memory-mapped reads of the on-chip flash *)
Class MemRead (H : Type) := { mem_byte : H → Z → Z }.

Section Areas.
Context {H F : Type} `{HalFlash H} `{!MemRead H} `{IoFlash F}.

Record devs := mk_devs { int_flash : H; nor_flash : F }.

Definition flash_area_read (fap : flash_area) (off len : Z) (s : devs) : option (list Z) :=
  if fa_size fap <? u32 (off + len) then None
  else if fa_device_id fap =? 0
  then Some (bytes_at (mem_byte (int_flash s)) (fa_off fap + off) (Z.to_nat len))
  else iof_read (u32 (fa_off fap + off)) len (nor_flash s).

Definition flash_area_write (fap : flash_area) (off : Z) (src : list Z) (s : devs) : bool * devs :=
  if fa_size fap <? u32 (off + zlen src) then (false, s)
  else
    let addr := u32 (fa_off fap + off) in
    if fa_device_id fap =? 0
    then let '(ok, h) := intflash_write addr src (int_flash s) in (ok, mk_devs h (nor_flash s))
    else let '(ok, f) := page_loop (length src) addr src (nor_flash s) in (ok, mk_devs (int_flash s) f).

Definition flash_area_erase (fap : flash_area) (off len : Z) (s : devs) : bool * devs :=
  if fa_size fap <? u32 (off + len) then (false, s)
  else if fa_device_id fap =? 0
  then let '(ok, h) := intflash_erase (u32 (fa_off fap + off)) len (int_flash s) in (ok, mk_devs h (nor_flash s))
  else let '(ok, f) := iof_erase (u32 (fa_off fap + off)) len (nor_flash s) in (ok, mk_devs (int_flash s) f).
End Areas.

(** ** The page loop stores the buffer *)

Section PageLaws.
Context {F : Type} `{FlashLaws F}.

Lemma page_loop_ok fuel addr p f :
  (length p ≤ fuel)%nat → 0 ≤ addr → addr + zlen p ≤ NOR_SIZE → bytes_ok p →
  (∀ x, addr ≤ x < addr + zlen p → cell f x = 255) →
  ∃ f', page_loop fuel addr p f = (true, f') ∧ cells f' addr (length p) = p ∧
        ∀ x, ¬ (addr ≤ x < addr + zlen p) → cell f' x = cell f x.
Proof.
  revert addr p f. induction fuel as [|fuel IH]; intros addr p f Hf Ha Hend Hb He.
  { destruct p; [|simpl in Hf; lia]. exists f. by split_and!. }
  cbn [page_loop]. destruct (Z.ltb_spec 0 (zlen p)) as [Hpos|Hz]; cycle 1.
  { destruct p; [|unfold zlen in Hz; simpl in Hz; lia]. exists f. by split_and!. }
  unfold NOR_SIZE in Hend. pose proof (Z.mod_pos_bound addr 256 ltac:(lia)) as Hm.
  set (chunk := if zlen p <? 256 - addr mod 256 then zlen p else 256 - addr mod 256).
  assert (0 < chunk ≤ zlen p ∧ addr mod 256 + chunk ≤ 256) as [Hc Hpg].
  { unfold chunk. destruct (Z.ltb_spec (zlen p) (256 - addr mod 256)); lia. }
  set (d := take (Z.to_nat chunk) p). set (r := drop (Z.to_nat chunk) p).
  assert (zlen d = chunk) as Hd by (unfold d, zlen in *; rewrite length_take; lia).
  assert (zlen r = zlen p - chunk) as Hr by (unfold r, zlen in *; rewrite length_drop; lia).
  destruct (write_law addr d f) as [Hok Hcd]; [done|lia|unfold NOR_SIZE; lia|lia|by apply Forall_take|intros; apply He; lia|].
  pose proof (write_frame addr d f) as Hfr. destruct (iof_write addr d f) as [ok f1]. cbn in Hok, Hcd, Hfr. subst ok.
  rewrite u32_id by ulia.
  destruct (IH (addr + chunk) r f1) as (f2 & -> & Hcr & Hfr2);
    [unfold zlen in *; lia|lia|unfold NOR_SIZE; lia|by apply Forall_drop| |].
  { intros x Hx. rewrite Hfr by lia. apply He. lia. }
  exists f2. split; [done|]. split.
  - transitivity (d ++ r); [|apply take_drop].
    replace (length p) with (length d + length r)%nat by (unfold zlen in *; lia). rewrite cells_app. f_equal.
    + rewrite <- Hcd at 2. apply cells_ext. intros x Hx. apply Hfr2. unfold zlen in *. lia.
    + replace (addr + Z.of_nat (length d)) with (addr + chunk) by (unfold zlen in Hd; lia). exact Hcr.
  - intros x Hx. rewrite Hfr2, Hfr by lia. done.
Qed.
End PageLaws.

(** ** littlefs sees its own partition, and only that *)

Section LfsLaws.
Context {F : Type} `{FlashLaws F}.

(** where byte [off] of [block] is stored *)
Definition lfs_pos (block off : Z) : Z := LFS_OFFSET + block * PORT_BLOCK_SIZE + off.

Lemma lfs_pos_range block off :
  0 ≤ block < PORT_BLOCKS → 0 ≤ off ≤ PORT_BLOCK_SIZE →
  block_addr block off = lfs_pos block off ∧ LFS_OFFSET ≤ lfs_pos block off ≤ NOR_SIZE.
Proof.
  change PORT_BLOCKS with 3856. unfold block_addr, lfs_pos, PORT_BLOCK_SIZE, LFS_OFFSET, NOR_SIZE.
  intros Hb Ho. split; [apply u32_id; ulia|lia].
Qed.

(** The littlefs block device: programming erased bytes of a block makes them read back, whatever the sizes and
    page boundaries, and changes no other byte of the NOR flash; erasing a block sets exactly that block to 0xFF;
    blocks do not overlap and all lie in the littlefs partition, so the slots and the configuration are out of reach;
    a request beyond the block or the partition is an error that changes nothing. *)
Theorem lfs_port_contract (f : F) (block off : Z) (buffer : list Z) :
  0 ≤ block → 0 ≤ off →
  (block < PORT_BLOCKS → off + zlen buffer ≤ PORT_BLOCK_SIZE → bytes_ok buffer →
   (∀ x, lfs_pos block off ≤ x < lfs_pos block (off + zlen buffer) → cell f x = 255) →
   ∃ f', lf_prog block off buffer f = (true, f') ∧ lf_read block off (zlen buffer) f' = Some buffer ∧
     LFS_OFFSET ≤ lfs_pos block off ∧ lfs_pos block (off + zlen buffer) ≤ NOR_SIZE ∧
     ∀ x, ¬ (lfs_pos block off ≤ x < lfs_pos block (off + zlen buffer)) → cell f' x = cell f x) ∧
  (block < PORT_BLOCKS →
   ∃ f', lf_erase block f = (true, f') ∧
     (∀ x, lfs_pos block 0 ≤ x < lfs_pos (block + 1) 0 → cell f' x = 255) ∧
     ∀ x, ¬ (lfs_pos block 0 ≤ x < lfs_pos (block + 1) 0) → cell f' x = cell f x) ∧
  (PORT_BLOCKS ≤ block ∨ PORT_BLOCK_SIZE < off + zlen buffer →
   lf_prog block off buffer f = (false, f) ∧ lf_read block off (zlen buffer) f = None) ∧
  (PORT_BLOCKS ≤ block → lf_erase block f = (false, f)).
Proof.
  intros Hb Ho. pose proof (zlen_nonneg buffer) as Hl. split; [|split; [|split]].
  - intros Hblk Hend Hby He. unfold lf_prog, lf_read, lf_out.
    destruct (lfs_pos_range block off) as [Hpos Hr]; [lia|lia|].
    destruct (lfs_pos_range block (off + zlen buffer)) as [_ Hr2]; [lia|lia|].
    assert (lfs_pos block (off + zlen buffer) = lfs_pos block off + zlen buffer) as Heq by (unfold lfs_pos; lia).
    rewrite Heq in *.
    replace ((PORT_BLOCKS <=? block) || (PORT_BLOCK_SIZE <? off) || (PORT_BLOCK_SIZE - off <? zlen buffer)) with false by lia.
    rewrite Hpos. change LFS_OFFSET with 0xF0000 in *.
    destruct (page_loop_ok (length buffer) (lfs_pos block off) buffer f) as (f' & Hw & Hc & Hfr); [done|lia|lia|done|done|].
    exists f'. split; [done|]. split; [|split; [lia|split; [lia|exact Hfr]]].
    rewrite read_law by lia. unfold zlen. by rewrite Nat2Z.id, Hc.
  - intros Hblk. destruct (lfs_pos_range block 0) as [Hpos Hr]; [lia|unfold PORT_BLOCK_SIZE; lia|].
    unfold lf_erase. replace (PORT_BLOCKS <=? block) with false by lia. rewrite Hpos.
    assert (lfs_pos (block + 1) 0 = lfs_pos block 0 + 4096) as -> by (unfold lfs_pos, PORT_BLOCK_SIZE; lia).
    change PORT_BLOCKS with 3856 in Hblk. unfold lfs_pos, PORT_BLOCK_SIZE in *. change LFS_OFFSET with 0xF0000 in *.
    set (a := 0xF0000 + block * 4096 + 0) in *.
    assert (a mod 4096 = 0) as Ha by (unfold a; Z.div_mod_to_equations; lia).
    destruct (erase_law a 4096 f) as [Hok Hc]; [lia|lia|unfold NOR_SIZE; lia|done|done|].
    pose proof (erase_frame a 4096 f) as Hfr. destruct (iof_erase a 4096 f) as [ok f']. cbn in Hok, Hc, Hfr. subst ok.
    exists f'. by split_and!.
  - intros Hbad. unfold lf_prog, lf_read, lf_out.
    by replace ((PORT_BLOCKS <=? block) || (PORT_BLOCK_SIZE <? off) || (PORT_BLOCK_SIZE - off <? zlen buffer)) with true by lia.
  - intros Hbad. unfold lf_erase. by replace (PORT_BLOCKS <=? block) with true by lia.
Qed.
End LfsLaws.

(** ** The areas are separate, and the sectors are what an erase clears *)

Class MemLaws (H : Type) `{HalFlashLaws H} `{!MemRead H} : Prop := {
  mem_read_law h x : 0x08000000 ≤ x < INTFLASH_END → mem_byte h x = icell h x;
}.

Section AreaLaws.
Context {H F : Type} `{HalFlashLaws H} `{!MemRead H} `{!MemLaws H} `{FlashLaws F}.

(** what byte [x] of the area is *)
Definition acell (fap : flash_area) (s : @devs H F) (x : Z) : Z :=
  if fa_device_id fap =? 0 then icell (int_flash s) (fa_off fap + x) else cell (nor_flash s) (fa_off fap + x).

(** nothing but [lo, hi) of the area differs, on either device *)
Definition only_changes (fap : flash_area) (lo hi : Z) (s s' : @devs H F) : Prop :=
  (∀ x, ¬ (fa_device_id fap = 0 ∧ fa_off fap + lo ≤ x < fa_off fap + hi) → icell (int_flash s') x = icell (int_flash s) x) ∧
  (∀ x, ¬ (fa_device_id fap ≠ 0 ∧ fa_off fap + lo ≤ x < fa_off fap + hi) → cell (nor_flash s') x = cell (nor_flash s) x).

(** the bounds of each area, by device *)
Lemma area_range fap :
  fap ∈ areas → fa_size fap = 0x70000 ∧
  ((fa_device_id fap = 0 ∧ fa_off fap = 0x08010000) ∨ (fa_device_id fap = 1 ∧ (fa_off fap = 0 ∨ fa_off fap = 0x70000))).
Proof.
  unfold areas. rewrite !elem_of_cons. intros [->|[->|[->|E]]]; [| | |by apply not_elem_of_nil in E]; cbn; tauto.
Qed.

(** MCUboot's flash areas: bytes written to erased cells of an area read back unchanged, through the on-chip
    driver or split into NOR pages, and nothing outside them changes on either device; a request that ends behind the
    area (without wrapping around 32 bits) is refused and changes nothing. *)
Theorem flash_area_contract (fap : flash_area) (off len : Z) (src : list Z) (s : @devs H F) :
  fap ∈ areas → 0 ≤ off → 0 ≤ len →
  (off + zlen src ≤ fa_size fap → bytes_ok src → (∀ x, off ≤ x < off + zlen src → acell fap s x = 255) →
   ∃ s', flash_area_write fap off src s = (true, s') ∧ flash_area_read fap off (zlen src) s' = Some src ∧
     only_changes fap off (off + zlen src) s s') ∧
  (fa_size fap < off + len < 2 ^ 32 →
   flash_area_read fap off len s = None ∧ flash_area_erase fap off len s = (false, s)) ∧
  (fa_size fap < off + zlen src < 2 ^ 32 → flash_area_write fap off src s = (false, s)).
Proof.
  intros Hin Ho Hln. destruct (area_range fap Hin) as [Hsz Hdev]. pose proof (zlen_nonneg src) as Hl.
  split; [|split].
  - intros Hend Hb He. unfold flash_area_write, flash_area_read. rewrite Hsz in *. rewrite !u32_id by ulia.
    replace (0x70000 <? off + zlen src) with false by lia. unfold acell in He.
    destruct Hdev as [[Hd Hoff]|[Hd Hoff]]; rewrite Hd in *; cbn [Z.eqb] in *.
    + destruct (intflash_write_ok (fa_off fap + off) src (int_flash s)) as (h & -> & Hc & Hfr);
        [lia|unfold INTFLASH_END; lia|done|intros x Hx; replace x with (fa_off fap + (x - fa_off fap)) by lia; apply He; lia|].
      eexists. split; [reflexivity|]. cbn [int_flash nor_flash]. split.
      * f_equal. rewrite <- Hc at 2. unfold zlen. rewrite Nat2Z.id. apply bytes_at_ext.
        intros x Hx. apply mem_read_law. unfold INTFLASH_END, zlen in *. lia.
      * split; intros x Hx; cbn [int_flash nor_flash]; [apply Hfr; lia|done].
    + destruct (page_loop_ok (length src) (fa_off fap + off) src (nor_flash s)) as (f & -> & Hc & Hfr);
        [done|lia|unfold NOR_SIZE; lia|done|intros x Hx; replace x with (fa_off fap + (x - fa_off fap)) by lia; apply He; lia|].
      eexists. split; [reflexivity|]. cbn [int_flash nor_flash]. split.
      * rewrite read_law by (unfold NOR_SIZE; lia). unfold zlen. by rewrite Nat2Z.id, Hc.
      * split; intros x Hx; cbn [int_flash nor_flash]; [done|apply Hfr; lia].
  - intros Hbad. unfold flash_area_read, flash_area_erase. rewrite u32_id by ulia.
    by replace (fa_size fap <? off + len) with true by lia.
  - intros Hbad. unfold flash_area_write. rewrite u32_id by ulia. by replace (fa_size fap <? off + zlen src) with true by lia.
Qed.

(** the sectors follow each other from [lo] to [hi] *)
Fixpoint tiles (lo hi : Z) (secs : list flash_sector) : Prop :=
  match secs with
  | [] => lo = hi
  | e :: secs => fs_off e = lo ∧ 0 < fs_size e ∧ tiles (lo + fs_size e) hi secs
  end.

Lemma nor_tiles n lo : tiles (lo * 4096) ((lo + Z.of_nat n) * 4096) ((λ i, mk_sector (i * 4096) 4096) <$> seqZ lo (Z.of_nat n)).
Proof.
  revert lo. induction n as [|n IH]; intros lo.
  - rewrite seqZ_nil by lia. cbn. lia.
  - rewrite seqZ_cons by lia. cbn [fmap list_fmap tiles fs_off fs_size]. split; [done|]. split; [lia|].
    replace (lo * 4096 + 4096) with (Z.succ lo * 4096) by lia.
    replace ((lo + Z.of_nat (S n)) * 4096) with ((Z.succ lo + Z.of_nat n) * 4096) by lia.
    replace (Z.pred (Z.of_nat (S n))) with (Z.of_nat n) by lia. apply IH.
Qed.

Lemma int_sector_exact x e :
  e ∈ int_sectors 0 [0x10000; 0x20000; 0x20000; 0x20000] →
  fs_size e mod 4096 = 0 ∧ 0 ≤ fs_off e ∧ fs_off e + fs_size e ≤ 0x70000 ∧ 0 < fs_size e ∧
  (covered f4_sector_tab (0x08010000 + fs_off e) (0x08010000 + fs_off e + fs_size e) x →
   0x08010000 + fs_off e ≤ x < 0x08010000 + fs_off e + fs_size e).
Proof.
  cbn [int_sectors]. rewrite !elem_of_cons. intros [->|[->|[->|[->|E]]]]; [..|by apply not_elem_of_nil in E];
    cbn [fs_off fs_size]; (split; [done|]); (split; [lia|]); (split; [lia|]); (split; [lia|]);
    intros (t & Hin & Ht); unfold f4_sector_tab in Hin; rewrite !elem_of_cons in Hin;
    destruct Hin as [->|[->|[->|[->|[->|[->|[->|[->|E]]]]]]]]; try (by apply not_elem_of_nil in E); cbn [fst snd] in Ht; lia.
Qed.

(** The sectors reported to MCUboot tile each area from 0 to its size, and each is erased as a unit: erasing a
    reported sector sets exactly its bytes to 0xFF - on the on-chip flash it is one physical sector - and changes
    nothing else on either device. *)
Theorem sector_erase_exact (id : Z) (fap : flash_area) (secs : list flash_sector) (s : @devs H F) :
  flash_area_open id = Some fap → 0 ≤ id → flash_area_get_sectors id = Some secs →
  tiles 0 (fa_size fap) secs ∧
  ∀ e, e ∈ secs → ∃ s', flash_area_erase fap (fs_off e) (fs_size e) s = (true, s') ∧
    (∀ x, fs_off e ≤ x < fs_off e + fs_size e → acell fap s' x = flash_area_erased_val fap) ∧
    only_changes fap (fs_off e) (fs_off e + fs_size e) s s'.
Proof.
  unfold flash_area_open, flash_area_get_sectors. change (Z.of_nat (length areas)) with 3. intros Hopen Hid Hsec.
  destruct (Z.leb_spec 3 id); [done|]. replace ((id <? 0) || false) with false in Hsec by lia.
  destruct (decide (id = 0)) as [->|Hne].
  - change (0 =? PRIMARY_ID) with true in Hsec. injection Hsec as <-. injection Hopen as <-.
    split; [by repeat split|]. intros e He.
    destruct (int_sector_exact 0 e He) as (Hm & Hlo & Hhi & Hpos & _).
    unfold flash_area_erase, acell, only_changes. cbn [fa_size fa_off fa_device_id]. change SLOT0_SIZE with 0x70000.
    change SLOT0_ADDR with 0x08010000. rewrite !u32_id by ulia. replace (0x70000 <? fs_off e + fs_size e) with false by lia.
    cbn [Z.eqb].
    assert (4096 * ((fs_size e + 4095) / 4096) = fs_size e) as Hround by (Z.div_mod_to_equations; lia).
    destruct (intflash_erase_ok (0x08010000 + fs_off e) (fs_size e) (int_flash s)) as (h & -> & Hc & Hfr);
      [lia|lia|rewrite Hround; unfold INTFLASH_END; lia|]. rewrite Hround in Hfr.
    eexists. split; [reflexivity|]. cbn [int_flash nor_flash]. split; [intros x Hx; apply Hc; lia|].
    split; [|done]. intros x Hx. apply Hfr. intros Hcov. apply Hx. split; [done|].
    destruct (int_sector_exact x e He) as (_ & _ & _ & _ & Hin). specialize (Hin Hcov). lia.
  - replace (id =? PRIMARY_ID) with false in Hsec by (unfold PRIMARY_ID; lia). rewrite Hopen in Hsec. cbn in Hsec.
    injection Hsec as <-.
    assert (fap ∈ areas) as Hin by (apply list_elem_of_lookup; eauto).
    assert (fa_size fap = 0x70000 ∧ fa_device_id fap = 1 ∧ (fa_off fap = 0 ∨ fa_off fap = 0x70000)) as (Hsz & Hd & Hoff).
    { assert (id = 1 ∨ id = 2) as [->| ->] by lia; injection Hopen as <-; cbn; tauto. }
    rewrite Hsz. change (0x70000 / 4096) with (Z.of_nat 112). split; [apply (nor_tiles 112 0)|].
    intros e He. unfold nor_sectors in He. apply list_elem_of_fmap in He as (i & -> & Hi). apply elem_of_seqZ in Hi.
    unfold flash_area_erase, acell, only_changes. cbn [fs_off fs_size]. rewrite Hsz, Hd. rewrite !u32_id by ulia.
    replace (0x70000 <? i * 4096 + 4096) with false by lia. cbn [Z.eqb].
    assert ((fa_off fap + i * 4096) mod 4096 = 0) by (Z.div_mod_to_equations; lia).
    destruct (erase_law (fa_off fap + i * 4096) 4096 (nor_flash s)) as [Hok Hc]; [lia|lia|unfold NOR_SIZE; lia|done|done|].
    pose proof (erase_frame (fa_off fap + i * 4096) 4096 (nor_flash s)) as Hfr.
    destruct (iof_erase (fa_off fap + i * 4096) 4096 (nor_flash s)) as [ok f]. cbn in Hok, Hc, Hfr. subst ok.
    eexists. split; [reflexivity|]. cbn [int_flash nor_flash]. split; [intros x Hx; apply Hc; lia|].
    split; [done|]. intros x Hx. apply Hfr. lia.
Qed.
End AreaLaws.

(** ** Concrete runs *)

Import IntArray.

#[export] Instance arr_read : MemRead IntArray.arr := { mem_byte h x := IntArray.amem h x }.
#[export] Instance arr_mem : MemLaws IntArray.arr.
Proof. by split. Qed.

Definition blank_devs : @devs IntArray.arr Nor.nor := mk_devs (IntArray.mk_arr (λ _, 255)) Nor.fake_flash_reset.

(** a write across a page boundary of the scratch area *)
Lemma flash_area_contract_witness :
  ∃ s', flash_area_write (mk_area 2 1 0x70000 0x70000) 254 [1; 2; 3; 4] blank_devs = (true, s') ∧
    flash_area_read (mk_area 2 1 0x70000 0x70000) 254 4 s' = Some [1; 2; 3; 4].
Proof.
  destruct (flash_area_contract (mk_area 2 1 0x70000 0x70000) 254 0 [1; 2; 3; 4] blank_devs) as (Hw & _).
  - unfold areas. rewrite !elem_of_cons. tauto.
  - lia.
  - lia.
  - destruct Hw as (s' & Hrun & Hread & _).
    + vm_compute. discriminate.
    + apply (bool_decide_unpack _). vm_compute. exact I.
    + intros x _. reflexivity.
    + exists s'. by split.
Defined.

Lemma sector_erase_exact_witness :
  ∃ s', flash_area_erase (mk_area 0 0 SLOT0_ADDR SLOT0_SIZE) 0x10000 0x20000 blank_devs = (true, s').
Proof.
  destruct (sector_erase_exact 0 (mk_area 0 0 SLOT0_ADDR SLOT0_SIZE) (int_sectors 0 [0x10000; 0x20000; 0x20000; 0x20000])
              blank_devs) as [_ He]; [reflexivity|lia|reflexivity|].
  destruct (He (mk_sector 0x10000 0x20000)) as (s' & Hrun & _); [|by exists s'].
  cbn. rewrite !elem_of_cons. tauto.
Defined.

Lemma lfs_port_contract_witness :
  ∃ f', lf_prog 3855 4080 (replicate 16 7) Nor.fake_flash_reset = (true, f') ∧ lf_read 3855 4080 16 f' = Some (replicate 16 7).
Proof.
  destruct (lfs_port_contract Nor.fake_flash_reset 3855 4080 (replicate 16 7)) as (Hp & _); [lia|lia|].
  destruct Hp as (f' & Hrun & Hread & _).
  - reflexivity.
  - vm_compute. discriminate.
  - apply (bool_decide_unpack _). vm_compute. exact I.
  - intros x _. reflexivity.
  - exists f'. by split.
Defined.

(** the end of a request wraps around 32 bits and the check lets it through *)
Example flash_area_wrap :
  (flash_area_erase (mk_area 2 1 0x70000 0x70000) 0xFFFFF000 0x2000 blank_devs).1 = true ∧
  u32 (0x70000 + 0xFFFFF000) = 0x6F000.
Proof. by vm_compute. Qed.
