(* ===== verification/Lfs.v ===== *)
(** The file system interface: littlefs as [history_file.c] and [history.c] use it.

    littlefs is not part of the repository: [Lfs] lists the calls, [LfsLaws] is
    the documented behaviour of a mounted file system with room left - what is
    written to an open file reaches the directory entry when the file is synced
    or closed.  [RamFs] is a file system in RAM that runs the definitions.  A
    name is the list of its bytes without the terminator. *)

From stdpp Require Import gmap.
From S2P Require Import Prelude.

(** the static handles of the firmware *)
Inductive lfs_file := HisFp | WebFp.
#[export] Instance lfs_file_eq : EqDecision lfs_file.
Proof. solve_decision. Defined.

Record lfs_info := mk_info { info_reg : bool; info_name : list Z; info_size : Z }.

Inductive lfs_flags := RdOnly | WrAppend | WrAppendCreat.

Class Lfs (L : Type) : Type := {
  lfs_dir : L → option (list lfs_info);      (* open "/", read to the end, close *)
  lfs_file_open : lfs_file → list Z → lfs_flags → L → bool * L;
  lfs_file_size : lfs_file → L → Z;
  lfs_file_write : lfs_file → list Z → L → Z * L;
  lfs_file_read : lfs_file → Z → L → Z * list Z * L;
  lfs_file_sync : lfs_file → L → Z * L;
  lfs_file_close : lfs_file → L → Z * L;
  lfs_remove : list Z → L → Z * L;
  lfs_fs_usage : L → option (Z * Z * Z);     (* block count, block size, blocks used *)
}.

(** [strcmp(a, b) < 0] *)
Fixpoint strcmp_lt (a b : list Z) : bool :=
  match a, b with
  | [], [] => false
  | [], _ => true
  | _, [] => false
  | x :: a, y :: b => if x <? y then true else if y <? x then false else strcmp_lt a b
  end.

Lemma strcmp_irrefl a : strcmp_lt a a = false.
Proof. induction a as [|x a IH]; [done|]. cbn. by rewrite Z.ltb_irrefl. Qed.

Lemma strcmp_trans a b c : strcmp_lt a b = true → strcmp_lt b c = true → strcmp_lt a c = true.
Proof.
  revert b c. induction a as [|x a IH]; intros [|y b] [|z c]; cbn; try done.
  destruct (Z.ltb_spec x y), (Z.ltb_spec y x), (Z.ltb_spec y z), (Z.ltb_spec z y), (Z.ltb_spec x z), (Z.ltb_spec z x);
    try done; try lia; eauto.
Qed.

Lemma strcmp_total a b : strcmp_lt a b = false → strcmp_lt b a = false → a = b.
Proof.
  revert b. induction a as [|x a IH]; intros [|y b]; cbn; try done.
  destruct (Z.ltb_spec x y), (Z.ltb_spec y x); try done; try lia. intros. f_equal; [lia|by apply IH].
Qed.

Lemma strcmp_nlt_trans a b c : strcmp_lt b a = false → strcmp_lt c b = false → strcmp_lt c a = false.
Proof.
  intros Hba Hcb. destruct (strcmp_lt c a) eqn:E; [|done].
  destruct (strcmp_lt a b) eqn:Eab; [by rewrite (strcmp_trans c a b) in Hcb|].
  assert (a = b) as -> by by apply strcmp_total. congruence.
Qed.

Class LfsLaws (L : Type) `{Lfs L} : Type := {
  files : L → gmap (list Z) (list Z);                          (* the directory entries *)
  opened : L → lfs_file → option (list Z * list Z);            (* name and contents behind a handle *)
  dir_law l : ∃ es, lfs_dir l = Some es ∧ NoDup (info_name <$> filter (λ e, info_reg e = true) es) ∧
    ∀ n, n ∈ info_name <$> filter (λ e, info_reg e = true) es ↔ is_Some (files l !! n);
  open_law fp n fl l :
    opened l fp = None → (files l !! n = None → fl = WrAppendCreat) →
    let c := default [] (files l !! n) in
    ∃ l', lfs_file_open fp n fl l = (true, l') ∧ files l' = <[n := c]> (files l) ∧
          opened l' fp = Some (n, c) ∧ ∀ fp', fp' ≠ fp → opened l' fp' = opened l fp';
  open_miss_law fp n fl l :
    opened l fp = None → files l !! n = None → fl ≠ WrAppendCreat →
    ∃ l', lfs_file_open fp n fl l = (false, l') ∧ files l' = files l ∧ ∀ fp', opened l' fp' = opened l fp';
  size_law fp n c l : opened l fp = Some (n, c) → lfs_file_size fp l = zlen c;
  write_law fp n c bs l :
    opened l fp = Some (n, c) →
    ∃ l', lfs_file_write fp bs l = (zlen bs, l') ∧ files l' = files l ∧ opened l' fp = Some (n, c ++ bs) ∧
          ∀ fp', fp' ≠ fp → opened l' fp' = opened l fp';
  sync_law fp n c l :
    opened l fp = Some (n, c) →
    ∃ l', lfs_file_sync fp l = (0, l') ∧ files l' = <[n := c]> (files l) ∧ ∀ fp', opened l' fp' = opened l fp';
  close_law fp n c l :
    opened l fp = Some (n, c) →
    ∃ r l', lfs_file_close fp l = (r, l') ∧ files l' = <[n := c]> (files l) ∧ opened l' fp = None ∧
          ∀ fp', fp' ≠ fp → opened l' fp' = opened l fp';
  remove_law n l :
    is_Some (files l !! n) → (∀ fp c, opened l fp ≠ Some (n, c)) →
    ∃ l', lfs_remove n l = (0, l') ∧ files l' = delete n (files l) ∧ ∀ fp', opened l' fp' = opened l fp';
}.

(** ** A file system in RAM *)

Module RamFs.
Record ramfs := mk_ramfs { entries : gmap (list Z) (list Z); his : option (list Z * list Z); web : option (list Z * list Z) }.

Definition handle (fp : lfs_file) (l : ramfs) : option (list Z * list Z) :=
  match fp with HisFp => his l | WebFp => web l end.
Definition set_handle (fp : lfs_file) (h : option (list Z * list Z)) (l : ramfs) : ramfs :=
  match fp with HisFp => mk_ramfs (entries l) h (web l) | WebFp => mk_ramfs (entries l) (his l) h end.
Definition set_entries (e : gmap (list Z) (list Z)) (l : ramfs) : ramfs := mk_ramfs e (his l) (web l).

Definition ram_open (fp : lfs_file) (n : list Z) (fl : lfs_flags) (l : ramfs) : bool * ramfs :=
  match entries l !! n, fl with
  | Some c, _ => (true, set_handle fp (Some (n, c)) l)
  | None, WrAppendCreat => (true, set_handle fp (Some (n, [])) (set_entries (<[n := []]> (entries l)) l))
  | None, _ => (false, l)
  end.
Definition ram_size (fp : lfs_file) (l : ramfs) : Z := match handle fp l with Some (_, c) => zlen c | None => -9 end.
Definition ram_write (fp : lfs_file) (bs : list Z) (l : ramfs) : Z * ramfs :=
  match handle fp l with
  | Some (n, c) => (zlen bs, set_handle fp (Some (n, c ++ bs)) l)
  | None => (-9, l)
  end.
Definition ram_commit (fp : lfs_file) (l : ramfs) : ramfs :=
  match handle fp l with Some (n, c) => set_entries (<[n := c]> (entries l)) l | None => l end.

#[export] Instance ram_lfs : Lfs ramfs := {
  lfs_dir l := Some (mk_info false [46] 0 :: (map_to_list (entries l)).*1 ≫= λ n, [mk_info true n (zlen (default [] (entries l !! n)))]);
  lfs_file_open := ram_open;
  lfs_file_size := ram_size;
  lfs_file_write := ram_write;
  lfs_file_read fp n l := match handle fp l with Some (_, c) => (Z.min n (zlen c), take (Z.to_nat n) c, l) | None => (-9, [], l) end;
  lfs_file_sync fp l := (0, ram_commit fp l);
  lfs_file_close fp l := (0, set_handle fp None (ram_commit fp l));
  lfs_remove n l := (match entries l !! n with Some _ => 0 | None => -2 end, set_entries (delete n (entries l)) l);
  lfs_fs_usage l := Some (3856, 4096, Z.of_nat (size (entries l)));
}.

Lemma handle_set_eq fp h l : handle fp (set_handle fp h l) = h.
Proof. by destruct fp. Qed.
Lemma handle_set_ne fp fp' h l : fp' ≠ fp → handle fp' (set_handle fp h l) = handle fp' l.
Proof. by destruct fp, fp'. Qed.
Lemma entries_set fp h l : entries (set_handle fp h l) = entries l.
Proof. by destruct fp. Qed.
Lemma handle_entries fp e l : handle fp (set_entries e l) = handle fp l.
Proof. by destruct fp. Qed.

Lemma reg_names (g : list Z → Z) (ns : list (list Z)) :
  info_name <$> filter (λ e, info_reg e = true) (ns ≫= λ n, [mk_info true n (g n)]) = ns.
Proof. induction ns as [|n ns IH]; [done|]. cbn. rewrite decide_True by done. cbn. by f_equal. Qed.

#[export] Instance ram_laws : LfsLaws ramfs.
Proof.
  refine {| files := entries; opened l fp := handle fp l |}.
  - intros l. eexists. split; [reflexivity|]. cbn [filter list_filter info_reg]. rewrite decide_False by done. rewrite reg_names.
    split; [apply NoDup_fst_map_to_list|]. intros n. rewrite list_elem_of_fmap. split.
    + intros ([n' c] & -> & Hin). cbn. apply elem_of_map_to_list in Hin. eauto.
    + intros [c Hc]. exists (n, c). split; [done|]. by apply elem_of_map_to_list.
  - intros fp n fl l Ho Hc. cbn. unfold ram_open. destruct (entries l !! n) as [c|] eqn:En.
    + eexists. split; [reflexivity|]. rewrite entries_set, handle_set_eq. cbn. split; [by rewrite insert_id|].
      split; [done|]. intros fp' Hne. by apply handle_set_ne.
    + rewrite (Hc eq_refl). eexists. split; [reflexivity|]. rewrite entries_set, handle_set_eq. cbn. split; [done|].
      split; [done|]. intros fp' Hne. by rewrite handle_set_ne, handle_entries.
  - intros fp n fl l Ho En Hfl. exists l. cbn. unfold ram_open. rewrite En. by destruct fl.
  - intros fp n c l Ho. cbn. unfold ram_size. by rewrite Ho.
  - intros fp n c bs l Ho. cbn. unfold ram_write. rewrite Ho. eexists. split; [reflexivity|].
    rewrite entries_set, handle_set_eq. split; [done|]. split; [done|]. intros fp' Hne. by apply handle_set_ne.
  - intros fp n c l Ho. cbn. unfold ram_commit. rewrite Ho. eexists. split; [reflexivity|]. split; [done|].
    intros fp'. by rewrite handle_entries.
  - intros fp n c l Ho. cbn. unfold ram_commit. rewrite Ho. eexists _, _. split; [reflexivity|].
    rewrite entries_set, handle_set_eq. split; [done|]. split; [done|]. intros fp' Hne. by rewrite handle_set_ne, handle_entries.
  - intros n l [c Hc] Ho. cbn. rewrite Hc. eexists. split; [reflexivity|]. split; [done|]. intros fp'. by rewrite handle_entries.
Defined.

Definition empty_fs : ramfs := mk_ramfs ∅ None None.
End RamFs.
