(* ===== verification/HistoryFile.v ===== *)
(** The history files: [src/history/history_file.c].

    Samples are appended to [data_MMDD_HHMMSS.raw] files, one at a time: the
    file in use is resumed, rotated when it is full, and the oldest files are
    removed.  The file system is the class [Lfs] of [Lfs.v]; the injected clock
    is the argument [clk] of the operations that name a file. *)

From stdpp Require Import gmap.
From S2P Require Import Prelude IoBytes Calendar Lfs.

Definition DI_TYPE : Z := 1.
Definition AI_TYPE : Z := 2.

(** [struct his_data] with the member of the union that its type selects *)
Record his_data := mk_his { h_type : Z; h_time : Z; h_en : Z; h_vals : list Z }.

(** the packed struct in memory, little-endian *)
Definition his_memory (d : his_data) : list Z :=
  put_le16 (h_type d) ++ io_put_le32 (h_time d) ++ put_le16 (h_en d) ++ concat (put_le16 <$> h_vals d).

Definition HIST_MAX_FILES : Z := 10.
Definition HIST_FILE_MAX : Z := 1024 * 1024.

Definition CLAMP (v lo hi : Z) : Z := if v <? lo then lo else if hi <? v then hi else v.

(** ["data_"] *)
Definition data_prefix : list Z := [100; 97; 116; 97; 95].
(** [strncmp(name, "data_", 5) == 0] *)
Definition has_prefix (name : list Z) : bool := bool_decide (take 5 name = data_prefix).

(** the copy into a [char[24]] *)
Definition short_name (name : list Z) : list Z := take 23 name.

Definition is_history (e : lfs_info) : bool := info_reg e && has_prefix (info_name e).

(** [%02d] of a value below 100 *)
Definition two_digits (v : Z) : list Z := [48 + v / 10; 48 + v mod 10].

Definition make_hist_name (clk : Z) : list Z :=
  let t := clk + 8 * 3600 in
  let '(mon, mday, hour, min, sec) :=
    match gmtime_r t with
    | None => (1, 1, 0, 0, 0)
    | Some lt => (CLAMP (tm_mon lt + 1) 1 12, CLAMP (tm_mday lt) 1 31, CLAMP (tm_hour lt) 0 23,
                  CLAMP (tm_min lt) 0 59, CLAMP (tm_sec lt) 0 59)
    end in
  data_prefix ++ two_digits mon ++ two_digits mday ++ [95] ++
  two_digits hour ++ two_digits min ++ two_digits sec ++ [46; 114; 97; 119].

Section HistoryFile.
Context {L : Type} `{Lfs L}.

(** [his_lfs] (set or NULL) and the file system behind it, and the static state *)
Record hist := mk_hist {
  his_set : bool; his_fs : L; his_fp_open : bool; his_cur_size : Z; his_cur_name : list Z }.

Definition set_fs (l : L) (s : hist) : hist := mk_hist (his_set s) l (his_fp_open s) (his_cur_size s) (his_cur_name s).
Definition set_open (o : bool) (s : hist) : hist := mk_hist (his_set s) (his_fs s) o (his_cur_size s) (his_cur_name s).
Definition set_size (n : Z) (s : hist) : hist := mk_hist (his_set s) (his_fs s) (his_fp_open s) n (his_cur_name s).
Definition set_name (n : list Z) (s : hist) : hist := mk_hist (his_set s) (his_fs s) (his_fp_open s) (his_cur_size s) n.

(** the [for] loop that finds the first smallest name *)
Fixpoint find_min (names : list (list Z)) (i min_i : nat) (rest : list (list Z)) : nat :=
  match rest with
  | [] => min_i
  | nm :: rest =>
    find_min names (S i) (if strcmp_lt nm (default [] (names !! min_i)) then i else min_i) rest
  end.

(** [while (n > HIST_MAX_FILES)]; [names] is the array up to [n] *)
Fixpoint cleanup_loop (fuel : nat) (names : list (list Z)) (l : L) : L :=
  match fuel with
  | O => l
  | S fuel =>
    if HIST_MAX_FILES <? zlen names then
      let min_i := find_min names 1 0 (drop 1 names) in
      let l := (lfs_remove (default [] (names !! min_i)) l).2 in
      let n := length names in
      let names := if decide (min_i = (n - 1)%nat) then names
                   else <[min_i := default [] (names !! (n - 1)%nat)]> names in
      cleanup_loop fuel (take (n - 1) names) l
    else l
  end.

Definition cleanup_old_files (l : L) : L :=
  match lfs_dir l with
  | None => l
  | Some es =>
    let names := take (Z.to_nat (HIST_MAX_FILES + 2)) (short_name ∘ info_name <$> filter is_history es) in
    cleanup_loop (length names) names l
  end.

Definition open_append (name : list Z) (create : bool) (s : hist) : bool * hist :=
  let '(ok, l) := lfs_file_open HisFp name (if create then WrAppendCreat else WrAppend) (his_fs s) in
  let s := set_fs l s in
  if negb ok then (false, s)
  else
    let size := lfs_file_size HisFp (his_fs s) in
    if size <? 0 then (false, set_fs (lfs_file_close HisFp (his_fs s)).2 s)
    else (true, set_open true (set_size (u32 size) s)).

Definition close_cur_file (s : hist) : hist :=
  if his_fp_open s then set_open false (set_fs (lfs_file_close HisFp (his_fs s)).2 s) else s.

(** the scan for the largest history name *)
Fixpoint latest_name (es : list lfs_info) (latest : list Z) : list Z :=
  match es with
  | [] => latest
  | e :: es =>
    latest_name es (if is_history e && strcmp_lt latest (info_name e) then short_name (info_name e) else latest)
  end.

(** the new file at the end of [ensure_file] *)
Definition new_file (clk : Z) (s : hist) : bool * hist :=
  let name := make_hist_name clk in
  let '(ok, s) := open_append name true s in
  if negb ok then (false, s)
  else
    let s := set_name name s in
    (true, if his_cur_size s =? 0 then set_fs (cleanup_old_files (his_fs s)) s else s).

(** the scan of the directory, when there is no current name *)
Definition resume_latest (clk : Z) (s : hist) : bool * hist :=
  let latest := match lfs_dir (his_fs s) with None => [] | Some es => latest_name es [] end in
  if bool_decide (latest = []) then new_file clk s
  else
    let '(ok, s) := open_append latest false s in
    if ok && (his_cur_size s <? HIST_FILE_MAX) then (true, set_name latest s)
    else new_file clk (close_cur_file s).

Definition ensure_file (clk : Z) (s : hist) : bool * hist :=
  if his_fp_open s && (his_cur_size s <? HIST_FILE_MAX) then (true, s)
  else
    let s := close_cur_file s in
    if negb (bool_decide (his_cur_name s = [])) && (his_cur_size s <? HIST_FILE_MAX) then
      let '(ok, s) := open_append (his_cur_name s) false s in
      if ok && (his_cur_size s <? HIST_FILE_MAX) then (true, s)
      else resume_latest clk (set_name [] (close_cur_file s))
    else if bool_decide (his_cur_name s = []) then resume_latest clk s
    else new_file clk s.

Definition his_len (d : his_data) : Z := if h_type d =? DI_TYPE then 10 else 16.
Definition his_record (d : his_data) : list Z := take (Z.to_nat (his_len d)) (his_memory d).

(** [true] is 0, [false] is -1 *)
Definition hist_file_write (clk : Z) (d : his_data) (s : hist) : bool * hist :=
  if negb (his_set s) then (false, s)
  else
    let '(ok, s) := ensure_file clk s in
    if negb ok then (false, s)
    else
      let '(wr, l) := lfs_file_write HisFp (his_record d) (his_fs s) in
      let s := set_fs l s in
      if wr =? his_len d then (true, set_size (u32 (his_cur_size s + his_len d)) s)
      else (false, set_size HIST_FILE_MAX s).

Definition hist_file_sync (s : hist) : Z * hist :=
  if his_fp_open s then let '(r, l) := lfs_file_sync HisFp (his_fs s) in (r, set_fs l s) else (0, s).

Definition hist_file_close (s : hist) : hist := close_cur_file s.

Definition hist_file_init (lfs_set : bool) (lfs : L) : hist := mk_hist lfs_set lfs false 0 [].
End HistoryFile.

(** ** Choosing the smallest and the largest name *)

Lemma find_min_spec pre rest min_i :
  (min_i < length pre)%nat →
  (∀ nm, nm ∈ pre → strcmp_lt nm (default [] ((pre ++ rest) !! min_i)) = false) →
  let r := find_min (pre ++ rest) (length pre) min_i rest in
  (r < length (pre ++ rest))%nat ∧ ∀ nm, nm ∈ pre ++ rest → strcmp_lt nm (default [] ((pre ++ rest) !! r)) = false.
Proof.
  revert pre min_i. induction rest as [|nm rest IH]; intros pre min_i Hm Hmin; cbn [find_min].
  { rewrite app_nil_r in *. done. }
  set (m := if strcmp_lt nm (default [] ((pre ++ nm :: rest) !! min_i)) then length pre else min_i).
  assert ((pre ++ nm :: rest) !! length pre = Some nm) as Hnm by by apply list_lookup_middle.
  specialize (IH (pre ++ [nm]) m). rewrite <- app_assoc, length_app in IH. cbn [app length] in IH.
  replace (length pre + 1)%nat with (S (length pre)) in IH by lia. apply IH.
  - unfold m. destruct (strcmp_lt _ _); lia.
  - intros x Hx. apply elem_of_app in Hx as [Hx|Hx%list_elem_of_singleton].
    + unfold m. destruct (strcmp_lt nm _) eqn:E; [|by apply Hmin]. rewrite Hnm. cbn.
      destruct (strcmp_lt x nm) eqn:Ex; [|done].
      specialize (Hmin x Hx). by rewrite (strcmp_trans _ _ _ Ex E) in Hmin.
    + subst x. unfold m. destruct (strcmp_lt nm _) eqn:E; [|done]. rewrite Hnm. apply strcmp_irrefl.
Qed.

(** the smallest name of the array leaves it, the others stay *)
Lemma drop_min names :
  names ≠ [] →
  let i := find_min names 1 0 (drop 1 names) in
  let n := length names in
  let nm := default [] (names !! i) in
  let names' := take (n - 1) (if decide (i = (n - 1)%nat) then names
                              else <[i := default [] (names !! (n - 1)%nat)]> names) in
  names ≡ₚ nm :: names' ∧ ∀ x, x ∈ names → strcmp_lt x nm = false.
Proof.
  intros Hne i n nm names'. destruct names as [|n0 rest]; [done|].
  pose proof (find_min_spec [n0] rest 0) as Hspec. cbn [app length] in Hspec.
  destruct Hspec as [Hi Hmin]; [lia|intros x Hx%list_elem_of_singleton; subst; apply strcmp_irrefl|].
  change (find_min (n0 :: rest) 1 0 rest) with i in Hi, Hmin. split; [|exact Hmin].
  set (l := n0 :: rest) in *. change (S (length rest)) with n in Hi.
  assert (0 < n)%nat as Hn by (unfold n, l; cbn; lia).
  destruct (lookup_lt_is_Some_2 l i Hi) as [x Hx]. destruct (lookup_lt_is_Some_2 l (n - 1)) as [y Hy]; [unfold n in *; lia|].
  unfold nm, names'. rewrite Hx, Hy. cbn [default].
  assert (l = take (n - 1) l ++ [y]) as Hl.
  { rewrite <- (take_drop (n - 1) l) at 1. f_equal. rewrite (drop_S _ y) by done.
    rewrite drop_ge; [done|unfold n in *; lia]. }
  destruct (decide (i = (n - 1)%nat)) as [->|Hne'].
  - rewrite Hx in Hy. injection Hy as ->. rewrite Hl at 1. by rewrite Permutation_app_comm.
  - assert (i < n - 1)%nat as Hlt by lia. rewrite take_insert_lt by lia.
    assert (take (n - 1) l !! i = Some x) as Hti by (by rewrite lookup_take_lt).
    rewrite Hl at 1. rewrite (Permutation_app_comm _ [y]). cbn [app].
    rewrite <- (take_drop_middle _ i x Hti) at 1. rewrite insert_take_drop by (apply lookup_lt_Some in Hti; done).
    rewrite <- (Permutation_middle _ _ x), <- (Permutation_middle _ _ y). apply perm_swap.
Qed.

Section Laws.
Context {L : Type} `{LfsLaws L}.

Definition delete_all (ns : list (list Z)) (m : gmap (list Z) (list Z)) : gmap (list Z) (list Z) := foldl (λ m n, delete n m) m ns.

Lemma delete_all_lookup ns m n : delete_all ns m !! n = if decide (n ∈ ns) then None else m !! n.
Proof.
  revert m. induction ns as [|x ns IH]; intros m; cbn [delete_all foldl].
  { by rewrite decide_False by apply not_elem_of_nil. }
  change (foldl (λ m n, delete n m) (delete x m) ns) with (delete_all ns (delete x m)). rewrite IH.
  destruct (decide (n ∈ ns)) as [Hin|Hin]; [by rewrite decide_True by (by right)|].
  destruct (decide (n = x)) as [->|Hne].
  - rewrite decide_True by (by left). by rewrite lookup_delete_eq.
  - rewrite decide_False; [by rewrite lookup_delete_ne|]. intros [?|?]%elem_of_cons; contradiction.
Qed.

(** the loop removes the smallest names, and keeps ten *)
Lemma cleanup_loop_spec fuel names l :
  (length names ≤ fuel)%nat → NoDup names → (∀ n, n ∈ names → is_Some (files l !! n)) →
  ((10 < length names)%nat → ∀ fp n c, opened l fp = Some (n, c) → ∀ m, m ∈ names → m = n ∨ strcmp_lt m n = true) →
  ∃ removed kept, names ≡ₚ removed ++ kept ∧ length removed = (length names - 10)%nat ∧
    (∀ r k, r ∈ removed → k ∈ kept → strcmp_lt r k = true) ∧ (∀ r fp c, r ∈ removed → opened l fp ≠ Some (r, c)) ∧
    files (cleanup_loop fuel names l) = delete_all removed (files l) ∧
    ∀ fp, opened (cleanup_loop fuel names l) fp = opened l fp.
Proof.
  revert names l. induction fuel as [|fuel IH]; intros names l Hf Hnd Hex Hop.
  { exists [], names. destruct names; [|simpl in Hf; lia]. cbn. split_and!; try done; intros * Hr; by apply not_elem_of_nil in Hr. }
  cbn [cleanup_loop]. unfold HIST_MAX_FILES. destruct (Z.ltb_spec 10 (zlen names)) as [Hlt|Hge]; cycle 1.
  { exists [], names. cbn. split_and!; try done; [unfold zlen in Hge; lia|..]; intros * Hr; by apply not_elem_of_nil in Hr. }
  assert (names ≠ []) as Hne by (intros ->; unfold zlen in Hlt; simpl in Hlt; lia).
  destruct (drop_min names Hne) as [Hperm Hmin]. cbv zeta in Hperm, Hmin |- *.
  set (nm := default [] (names !! find_min names 1 0 (drop 1 names))) in *.
  set (names' := take (length names - 1) _) in *.
  assert (length names = S (length names')) as Hlen by (by rewrite Hperm).
  rewrite Hperm in Hnd. pose proof (NoDup_cons_1_1 _ _ Hnd) as Hnin. apply NoDup_cons_1_2 in Hnd.
  assert (nm ∈ names) as Hnm by (rewrite Hperm; by left).
  assert (∀ x, x ∈ names' → strcmp_lt nm x = true) as Hless.
  { intros x Hx. destruct (strcmp_lt nm x) eqn:E; [done|]. exfalso. apply Hnin.
    assert (x ∈ names) as Hxn by (rewrite Hperm; by right).
    specialize (Hmin x Hxn). by rewrite (strcmp_total nm x). }
  assert (∀ fp c, opened l fp ≠ Some (nm, c)) as Hnop.
  { intros fp c Hfp. destruct names' as [|x xs] eqn:En; [unfold zlen in Hlt; simpl in Hlen; lia|].
    assert (x ∈ x :: xs) as Hx by by left.
    assert (x ∈ names) as Hxn by (rewrite Hperm; by right).
    destruct (Hop ltac:(unfold zlen in Hlt; lia) fp nm c Hfp x Hxn) as [->|Hc]; [done|]. specialize (Hmin x Hxn). congruence. }
  destruct (remove_law nm l (Hex nm Hnm) Hnop) as (l1 & Hrm & Hfl & Hopl).
  rewrite Hrm. cbn [snd].
  destruct (IH names' l1) as (removed & kept & Hp & Hl & Hrk & Hno & Hfiles & Hops).
  - lia.
  - done.
  - intros n Hn. rewrite Hfl, lookup_delete_ne by (intros ->; contradiction). apply Hex. rewrite Hperm. by right.
  - intros Hl' fp n c Ho m Hm. rewrite Hopl in Ho. apply (Hop ltac:(lia) fp n c Ho). rewrite Hperm. by right.
  - exists (nm :: removed), kept. split; [by rewrite Hperm, Hp|]. split; [simpl; unfold zlen in Hlt; lia|]. split; [|split; [|split]].
    + intros r k [->|Hr]%elem_of_cons Hk; [|by apply Hrk]. apply Hless. rewrite Hp. apply elem_of_app. by right.
    + intros r fp c [->|Hr]%elem_of_cons; [by apply Hnop|]. rewrite <- Hopl. by apply Hno.
    + rewrite Hfiles, Hfl. done.
    + intros fp. by rewrite Hops, Hopl.
Qed.

(** *** The directory *)

(** the number of history files *)
Definition hcount (m : gmap (list Z) (list Z)) : nat := size (filter (λ nc, has_prefix nc.1 = true) m).

Lemma dir_history l :
  ∃ es, lfs_dir l = Some es ∧ NoDup (info_name <$> filter is_history es) ∧
    (∀ n, n ∈ info_name <$> filter is_history es ↔ is_Some (files l !! n) ∧ has_prefix n = true) ∧
    length (info_name <$> filter is_history es) = hcount (files l).
Proof.
  destruct (dir_law l) as (es & Hd & Hnd & Hin). exists es. split; [done|].
  assert (∀ n, n ∈ info_name <$> filter is_history es ↔ is_Some (files l !! n) ∧ has_prefix n = true) as Hmem.
  { intros n. rewrite <- Hin, !list_elem_of_fmap. split.
    - intros (e & -> & [Hh He]%list_elem_of_filter). unfold is_history in Hh. apply andb_prop_elim in Hh as [Hr Hp].
      split; [|by apply Is_true_true]. exists e. split; [done|]. apply list_elem_of_filter. split; [by apply Is_true_true|done].
    - intros [(e & -> & [Hr He]%list_elem_of_filter) Hp]. exists e. split; [done|]. apply list_elem_of_filter.
      split; [|done]. unfold is_history. by rewrite Hr, Hp. }
  assert (NoDup (info_name <$> filter is_history es)) as Hnd'.
  { clear Hd Hin Hmem. induction es as [|e es IH]; [constructor|]. cbn [filter list_filter] in *.
    destruct (decide (info_reg e = true)) as [Hr|Hr].
    - cbn [fmap list_fmap] in Hnd. pose proof (NoDup_cons_1_1 _ _ Hnd) as Hn1. apply NoDup_cons_1_2 in Hnd.
      case_decide; [|by apply IH]. cbn [fmap list_fmap]. constructor; [|by apply IH].
      intros Hin. apply Hn1. apply list_elem_of_fmap in Hin as (e' & -> & [Hh He]%list_elem_of_filter).
      apply list_elem_of_fmap. exists e'. split; [done|]. apply list_elem_of_filter. split; [|done].
      unfold is_history in Hh. apply andb_prop_elim in Hh as [Hr' _]. by apply Is_true_true.
    - case_decide as Hh; [|by apply IH]. unfold is_history in Hh. apply andb_prop_elim in Hh as [Hr' _].
      exfalso. apply Hr. by apply Is_true_true. }
  split; [done|]. split; [done|]. unfold hcount. rewrite <- length_map_to_list, <- (length_fmap fst (map_to_list _)).
  apply Permutation_length, NoDup_Permutation; [done|apply NoDup_fst_map_to_list|]. intros n. rewrite Hmem, list_elem_of_fmap. split.
  - intros [[c Hc] Hp]. exists (n, c). split; [done|]. apply elem_of_map_to_list. by apply map_lookup_filter_Some.
  - intros ([n' c] & -> & Hc). apply elem_of_map_to_list, map_lookup_filter_Some in Hc as [Hc Hp]. eauto.
Qed.

Definition short_names (m : gmap (list Z) (list Z)) : Prop :=
  ∀ n, is_Some (m !! n) → has_prefix n = true → (length n ≤ 23)%nat.

Lemma short_name_id n : (length n ≤ 23)%nat → short_name n = n.
Proof. apply take_ge. Qed.

Lemma cleanup_spec l :
  short_names (files l) → (hcount (files l) ≤ 12)%nat →
  ((10 < hcount (files l))%nat → ∀ fp n c, opened l fp = Some (n, c) →
     ∀ m, is_Some (files l !! m) → has_prefix m = true → m = n ∨ strcmp_lt m n = true) →
  ∃ removed, length removed = (hcount (files l) - 10)%nat ∧
    (∀ r, r ∈ removed → is_Some (files l !! r) ∧ has_prefix r = true) ∧
    (∀ r k, r ∈ removed → k ∉ removed → is_Some (files l !! k) → has_prefix k = true → strcmp_lt r k = true) ∧
    (∀ r fp c, r ∈ removed → opened l fp ≠ Some (r, c)) ∧
    files (cleanup_old_files l) = delete_all removed (files l) ∧
    ∀ fp, opened (cleanup_old_files l) fp = opened l fp.
Proof.
  intros Hsh Hcnt Hop. destruct (dir_history l) as (es & Hd & Hnd & Hmem & Hlen). unfold cleanup_old_files. rewrite Hd.
  assert (short_name ∘ info_name <$> filter is_history es = info_name <$> filter is_history es) as Heq.
  { rewrite list_fmap_compose. transitivity (id <$> (info_name <$> filter is_history es)); [|by rewrite list_fmap_id].
    apply list_fmap_ext. intros i n Hi. apply short_name_id. apply list_elem_of_lookup_2 in Hi.
    apply Hmem in Hi as [? ?]. by apply Hsh. }
  cbv zeta. rewrite Heq. set (hs := info_name <$> filter is_history es) in *.
  rewrite take_ge by (rewrite Hlen; change (Z.to_nat (HIST_MAX_FILES + 2)) with 12%nat; lia).
  destruct (cleanup_loop_spec (length hs) hs l) as (removed & kept & Hp & Hl & Hrk & Hno & Hfiles & Hops).
  - done.
  - done.
  - intros n Hn. by apply Hmem.
  - intros Hgt fp n c Ho m [Hm1 Hm2]%Hmem. apply (Hop ltac:(lia) fp n c Ho m Hm1 Hm2).
  - exists removed. split; [by rewrite Hl, Hlen|]. split; [|split; [|by split_and!]].
    + intros r Hr. apply Hmem. rewrite Hp. apply elem_of_app. by left.
    + intros r k Hr Hk Hke Hkp. apply Hrk; [done|]. assert (k ∈ hs) as Hin by by apply Hmem.
      rewrite Hp in Hin. apply elem_of_app in Hin as [?|?]; done.
Qed.
Lemma latest_name_spec es acc :
  (∀ n, n ∈ info_name <$> filter is_history es → (length n ≤ 23)%nat) →
  let r := latest_name es acc in
  (r = acc ∨ r ∈ info_name <$> filter is_history es) ∧ strcmp_lt r acc = false ∧
  ∀ n, n ∈ info_name <$> filter is_history es → strcmp_lt r n = false.
Proof.
  revert acc. induction es as [|e es IH]; intros acc Hsh; cbn [latest_name].
  { split; [by left|]. split; [apply strcmp_irrefl|]. intros n Hn. by apply not_elem_of_nil in Hn. }
  cbn [filter list_filter] in *. destruct (is_history e) eqn:Eh; cbn [andb].
  - rewrite decide_True in * by exact I. cbn [fmap list_fmap] in *.
    assert ((length (info_name e) ≤ 23)%nat) as Hse by (apply Hsh; by left). rewrite (short_name_id _ Hse).
    destruct (IH (if strcmp_lt acc (info_name e) then info_name e else acc)) as (Hr & Hacc & Hall).
    { intros n Hn. apply Hsh. by right. }
    set (r := latest_name es _) in *.
    assert (strcmp_lt r acc = false ∧ strcmp_lt r (info_name e) = false) as [Ha He].
    { destruct (strcmp_lt acc (info_name e)) eqn:E.
      - split; [|done]. destruct (strcmp_lt r acc) eqn:E2; [|done]. by rewrite (strcmp_trans _ _ _ E2 E) in Hacc.
      - split; [done|]. by apply (strcmp_nlt_trans _ acc). }
    split; [|split; [done|]].
    + destruct Hr as [->|Hr]; [|right; by right]. destruct (strcmp_lt acc (info_name e)); [right; by left|by left].
    + intros n [->|Hn]%elem_of_cons; [done|by apply Hall].
  - rewrite decide_False in * by (intros []). by apply IH.
Qed.

(** the newest history file by name *)
Definition newest (m : gmap (list Z) (list Z)) (n : list Z) : Prop :=
  is_Some (m !! n) ∧ has_prefix n = true ∧
  ∀ n', is_Some (m !! n') → has_prefix n' = true → strcmp_lt n n' = false.

Lemma latest_newest l :
  short_names (files l) →
  let r := match lfs_dir l with None => [] | Some es => latest_name es [] end in
  (r = [] ∧ (∀ n, ¬ newest (files l) n)) ∨ (r ≠ [] ∧ newest (files l) r ∧ ∀ n, newest (files l) n → n = r).
Proof.
  intros Hsh r. subst r. destruct (dir_history l) as (es & -> & _ & Hmem & _).
  destruct (latest_name_spec es []) as (Hr & _ & Hall).
  { intros n Hn. apply Hmem in Hn as [? ?]. by apply Hsh. }
  destruct (decide (latest_name es [] = [])) as [E|E].
  - left. split; [done|]. intros n (Hs & Hp & _).
    specialize (Hall n (proj2 (Hmem n) (conj Hs Hp))). rewrite E in Hall. destruct n; [|done].
    unfold has_prefix in Hp. by rewrite bool_decide_eq_true in Hp.
  - right. split; [done|]. destruct Hr as [Hr|Hr]; [done|]. apply Hmem in Hr as [Hs Hp].
    split; [|intros n (Hs' & Hp' & Hmax); apply strcmp_total; [by apply Hmax|by apply Hall, Hmem]].
    split; [done|]. split; [done|]. intros n' Hs' Hp'. by apply Hall, Hmem.
Qed.
End Laws.

(** ** Writing a record *)

Section Write.
Context {L : Type} `{LfsLaws L}.

(** the directory as it will be once the open history file is closed *)
Definition logical (l : L) : gmap (list Z) (list Z) :=
  match opened l HisFp with Some (n, c) => <[n := c]> (files l) | None => files l end.

Definition hist_ok (s : @hist L) : Prop :=
  his_set s = true ∧ opened (his_fs s) WebFp = None ∧
  if his_fp_open s
  then ∃ c, opened (his_fs s) HisFp = Some (his_cur_name s, c) ∧ his_cur_size s = zlen c
  else opened (his_fs s) HisFp = None.

(** the file sizes littlefs can have, and room for one record *)
Definition sane (m : gmap (list Z) (list Z)) : Prop := ∀ n c, m !! n = Some c → zlen c < 2 ^ 31 - 16.

Lemma close_ok (s : @hist L) :
  hist_ok s →
  let s' := close_cur_file s in
  hist_ok s' ∧ his_fp_open s' = false ∧ files (his_fs s') = logical (his_fs s) ∧ logical (his_fs s') = logical (his_fs s) ∧
  his_cur_size s' = his_cur_size s ∧ his_cur_name s' = his_cur_name s.
Proof.
  intros (Hset & Hweb & Hop). unfold close_cur_file, logical, hist_ok. destruct (his_fp_open s) eqn:Eo.
  - destruct Hop as (c & Ho & Hsz). destruct (close_law HisFp _ _ _ Ho) as (r & l' & -> & Hf & Hn & Hfr).
    cbn. rewrite Hn, Ho, Hf, Hfr by done. by split_and!.
  - rewrite Eo, Hop. by split_and!.
Qed.

Lemma open_append_ok name create (s : @hist L) :
  hist_ok s → his_fp_open s = false → (files (his_fs s) !! name = None → create = true) → sane (files (his_fs s)) →
  let c := default [] (files (his_fs s) !! name) in
  ∃ l', open_append name create s = (true, mk_hist true l' true (zlen c) (his_cur_name s)) ∧
    files l' = <[name := c]> (files (his_fs s)) ∧ opened l' HisFp = Some (name, c) ∧ opened l' WebFp = None.
Proof.
  intros (Hset & Hweb & Hop) Ho Hex Hsane c. rewrite Ho in Hop. unfold open_append.
  destruct (open_law HisFp name (if create then WrAppendCreat else WrAppend) (his_fs s) Hop) as (l' & -> & Hf & Hopn & Hfr).
  { intros Hn. by rewrite (Hex Hn). }
  cbn [negb]. cbn [his_fs set_fs]. rewrite (size_law HisFp name _ l' Hopn). fold c in Hf, Hopn |- *.
  assert (0 ≤ zlen c < 2 ^ 31) as Hc.
  { split; [apply zlen_nonneg|]. unfold c. destruct (files (his_fs s) !! name) eqn:E; cbn; [specialize (Hsane _ _ E); lia|change (zlen (@nil Z)) with 0; lia]. }
  replace (zlen c <? 0) with false by lia. rewrite u32_id by ulia.
  exists l'. split; [|split; [done|split; [done|]]]; [|by rewrite Hfr].
  unfold set_open, set_size, set_fs. cbn. by rewrite Hset.
Qed.

Lemma open_append_miss name (s : @hist L) :
  hist_ok s → his_fp_open s = false → files (his_fs s) !! name = None →
  ∃ l', open_append name false s = (false, set_fs l' s) ∧ files l' = files (his_fs s) ∧ hist_ok (set_fs l' s).
Proof.
  intros (Hset & Hweb & Hop) Ho Hn. rewrite Ho in Hop. unfold open_append.
  destruct (open_miss_law HisFp name WrAppend (his_fs s) Hop Hn) as (l' & -> & Hf & Hfr); [done|].
  exists l'. split; [done|]. split; [done|]. unfold hist_ok. cbn. rewrite Ho, !Hfr. by split_and!.
Qed.

(** *** Naming a new file *)

Lemma make_hist_name_shape clk : length (make_hist_name clk) = 20%nat ∧ has_prefix (make_hist_name clk) = true.
Proof.
  unfold make_hist_name. destruct (gmtime_r (clk + 8 * 3600)); (split; [done|]); unfold has_prefix; by rewrite bool_decide_true.
Qed.

Lemma hcount_insert n c m : (hcount m ≤ hcount (<[n := c]> m) ≤ S (hcount m))%nat.
Proof.
  unfold hcount. destruct (has_prefix n) eqn:Ep.
  - rewrite map_filter_insert_True by done. rewrite map_size_insert. destruct (filter _ m !! n) eqn:E; cbn; lia.
  - rewrite map_filter_insert_False by (cbn; congruence). rewrite map_filter_delete.
    assert (filter (λ nc : list Z * list Z, has_prefix nc.1 = true) m !! n = None) as E.
    { apply map_lookup_filter_None. right. intros x _. cbn. congruence. }
    rewrite delete_id by done. lia.
Qed.

(** what the retention rule removes when the file [name] with contents [c] is new *)
Definition retention (removed : list (list Z)) (m : gmap (list Z) (list Z)) (c : list Z) : Prop :=
  if decide (c = []) then
    length removed = (hcount m - 10)%nat ∧ (∀ r, r ∈ removed → is_Some (m !! r) ∧ has_prefix r = true) ∧
    (∀ r k, r ∈ removed → k ∉ removed → is_Some (m !! k) → has_prefix k = true → strcmp_lt r k = true)
  else removed = [].

(** the directory is one the retention rule was made for: short names, at most
    eleven files, and the new name is the newest when there are ten *)
Definition retainable (clk : Z) (m : gmap (list Z) (list Z)) : Prop :=
  short_names m ∧ (hcount m ≤ 11)%nat ∧
  ((10 ≤ hcount m)%nat → ∀ k, is_Some (m !! k) → has_prefix k = true →
     (k = make_hist_name clk ∨ strcmp_lt k (make_hist_name clk) = true)).

(** the state in which a record can be appended to [name], whose contents are [c] *)
Definition appending (s : @hist L) (name c : list Z) : Prop :=
  his_set s = true ∧ his_fp_open s = true ∧ opened (his_fs s) HisFp = Some (name, c) ∧ his_cur_name s = name ∧
  his_cur_size s = zlen c ∧ opened (his_fs s) WebFp = None.

Definition prepared (clk : Z) (m : gmap (list Z) (list Z)) (s' : @hist L) (name : list Z) (removed : list (list Z)) : Prop :=
  let c := default [] (m !! name) in
  appending s' name c ∧ logical (his_fs s') = delete_all removed (<[name := c]> m) ∧ (name ∉ removed) ∧
  ((removed = [] ∧ m !! name = Some c ∧ zlen c < HIST_FILE_MAX) ∨
   (name = make_hist_name clk ∧ retention removed (<[name := c]> m) c)).

Lemma logical_open l name c removed m :
  opened l HisFp = Some (name, c) → files l = delete_all removed (<[name := c]> m) → name ∉ removed →
  logical l = delete_all removed (<[name := c]> m).
Proof.
  intros Ho Hf Hn. unfold logical. rewrite Ho, Hf. apply insert_id.
  rewrite delete_all_lookup, decide_False by done. by rewrite lookup_insert_eq.
Qed.

Lemma new_file_ok clk (s : @hist L) :
  hist_ok s → his_fp_open s = false → sane (files (his_fs s)) → retainable clk (files (his_fs s)) →
  ∃ s' removed, new_file clk s = (true, s') ∧ prepared clk (files (his_fs s)) s' (make_hist_name clk) removed.
Proof.
  intros Hok Ho Hsane (Hsh & Hcnt & Hnew). set (m := files (his_fs s)) in *. set (name := make_hist_name clk) in *.
  destruct (make_hist_name_shape clk) as [Hlen Hpre]. fold name in Hlen, Hpre.
  destruct (open_append_ok name true s Hok Ho ltac:(done) Hsane) as (l' & Hrun & Hf & Hop & Hweb).
  fold m in Hrun, Hf, Hop. set (c := default [] (m !! name)) in *. unfold new_file. fold name. rewrite Hrun.
  cbn [negb set_name his_cur_size his_fs]. pose proof (hcount_insert name c m) as Hhc.
  assert (short_names (files l')) as Hsh'.
  { intros n Hs Hp. rewrite Hf in Hs. destruct (decide (n = name)) as [->|Hne]; [lia|].
    rewrite lookup_insert_ne in Hs by done. by apply Hsh. }
  assert (∀ removed l'', files l'' = delete_all removed (<[name := c]> m) → opened l'' HisFp = Some (name, c) →
            opened l'' WebFp = None → name ∉ removed → retention removed (<[name := c]> m) c →
            prepared clk m (mk_hist true l'' true (zlen c) name) name removed) as Hprep.
  { intros removed l'' Hf' Hop' Hweb' Hn Hret. unfold prepared. fold c. split; [by split_and!|].
    split; [by apply logical_open|]. split; [done|]. right. by split. }
  destruct (Z.eqb_spec (zlen c) 0) as [Hz|Hz].
  - assert (c = []) as Hc by (destruct c; [done|unfold zlen in Hz; simpl in Hz; lia]).
    destruct (cleanup_spec l') as (removed & Hl & Hin & Hmin & Hno & Hf2 & Hop2); [done|rewrite Hf; lia| |].
    { intros Hgt fp n cc Hfp k Hk Hkp. destruct fp; [|by rewrite Hweb in Hfp]. rewrite Hop in Hfp. injection Hfp as <- _.
      destruct (decide (k = name)) as [->|Hne]; [by left|]. rewrite Hf in Hk, Hgt. rewrite lookup_insert_ne in Hk by done.
      apply Hnew; [lia|done|done]. }
    rewrite Hf in Hl, Hin, Hmin, Hf2. exists (mk_hist true (cleanup_old_files l') true (zlen c) name), removed.
    split; [done|]. apply Hprep; [done|by rewrite Hop2|by rewrite Hop2| |].
    + intros Hr. by apply (Hno name HisFp c Hr).
    + unfold retention. rewrite decide_True by done. by split_and!.
  - exists (mk_hist true l' true (zlen c) name), []. split; [done|]. apply Hprep; [done|done|done|by apply not_elem_of_nil|].
    unfold retention. rewrite decide_False; [done|]. by intros ->.
Qed.

(** *** Choosing the file *)

Lemma prepared_resumed clk m l' name c :
  m !! name = Some c → zlen c < HIST_FILE_MAX → files l' = m → opened l' HisFp = Some (name, c) → opened l' WebFp = None →
  prepared clk m (mk_hist true l' true (zlen c) name) name [].
Proof.
  intros Hc Hlt Hf Hop Hweb. unfold prepared. rewrite Hc. cbn. split; [by split_and!|].
  split; [|split; [apply not_elem_of_nil|left; by split_and!]].
  rewrite insert_id by done. unfold logical. rewrite Hop, Hf. by apply insert_id.
Qed.

Lemma resume_latest_ok clk (s : @hist L) :
  hist_ok s → his_fp_open s = false → sane (files (his_fs s)) → retainable clk (files (his_fs s)) →
  ∃ s' name removed, resume_latest clk s = (true, s') ∧ prepared clk (files (his_fs s)) s' name removed ∧
    (∀ n c, newest (files (his_fs s)) n → files (his_fs s) !! n = Some c → zlen c < HIST_FILE_MAX → name = n).
Proof.
  intros Hok Ho Hsane Hret. pose proof Hret as (Hsh & _). unfold resume_latest.
  pose proof (latest_newest (his_fs s) Hsh) as Hl. cbv zeta in Hl.
  set (latest := match lfs_dir (his_fs s) with None => [] | Some es => latest_name es [] end) in *.
  set (m := files (his_fs s)) in *.
  destruct Hl as [[El Hnone]|(El & Hnew & Hmax)].
  - rewrite El, bool_decide_true by done. destruct (new_file_ok clk s Hok Ho Hsane Hret) as (s' & removed & Hrun & Hp).
    exists s', (make_hist_name clk), removed. split; [done|]. split; [done|]. intros n c Hn. by apply Hnone in Hn.
  - rewrite bool_decide_false by done. destruct Hnew as ([c Hc] & Hp & _).
    destruct (open_append_ok latest false s Hok Ho) as (l' & Hrun & Hf & Hop & Hweb); [|done|].
    { fold m. by rewrite Hc. }
    fold m in Hrun, Hf, Hop. rewrite Hc in Hrun, Hf, Hop. cbn [from_option id] in *. rewrite insert_id in Hf by done.
    rewrite Hrun. cbn [his_cur_size]. unfold HIST_FILE_MAX at 1. cbn [andb].
    destruct (Z.ltb_spec (zlen c) (1024 * 1024)) as [Hlt|Hge].
    + exists (mk_hist true l' true (zlen c) latest), latest, []. split; [done|].
      split; [by apply prepared_resumed|]. intros n c' Hn _ _. symmetry. by apply Hmax.
    + assert (opened l' HisFp = Some (latest, c)) as Hop' by exact Hop.
      destruct (close_law HisFp latest c l' Hop') as (r & l2 & Hcl & Hf2 & Hn2 & Hfr2).
      unfold close_cur_file. cbn [his_fp_open set_fs set_open his_fs]. rewrite Hcl. cbn [snd].
      set (s2 := set_open false (set_fs l2 (mk_hist true l' true (zlen c) (his_cur_name s)))).
      assert (files (his_fs s2) = m) as Hm2 by (cbn; rewrite Hf2, Hf; by apply insert_id).
      destruct (new_file_ok clk s2) as (s' & removed & Hrun2 & Hp2).
      * unfold hist_ok, s2. cbn. by rewrite Hfr2.
      * done.
      * by rewrite Hm2.
      * by rewrite Hm2.
      * rewrite Hm2 in Hp2. exists s', (make_hist_name clk), removed. split; [exact Hrun2|]. split; [done|].
        intros n c' Hn Hc' Hlt. rewrite (Hmax n Hn) in Hc'. unfold HIST_FILE_MAX in Hlt. rewrite Hc in Hc'. injection Hc' as <-. lia.
Qed.

(** what [ensure_file] chooses, with [m] the logical directory *)
Definition choice (clk : Z) (s : @hist L) (name : list Z) : Prop :=
  let m := logical (his_fs s) in
  (his_cur_name s ≠ [] → his_cur_size s < HIST_FILE_MAX →
   ∀ c, m !! his_cur_name s = Some c → zlen c < HIST_FILE_MAX → name = his_cur_name s) ∧
  (his_cur_name s = [] → his_fp_open s = false →
   ∀ n c, newest m n → m !! n = Some c → zlen c < HIST_FILE_MAX → name = n) ∧
  (his_cur_name s ≠ [] → HIST_FILE_MAX ≤ his_cur_size s → name = make_hist_name clk).

Lemma hist_ok_name n (s : @hist L) : his_fp_open s = false → hist_ok s → hist_ok (set_name n s).
Proof. unfold hist_ok. cbn. intros ->. done. Qed.

Lemma ensure_file_ok clk (s : @hist L) :
  hist_ok s → sane (logical (his_fs s)) → retainable clk (logical (his_fs s)) →
  ∃ s' name removed, ensure_file clk s = (true, s') ∧ prepared clk (logical (his_fs s)) s' name removed ∧ choice clk s name.
Proof.
  intros Hok Hsane Hret. unfold ensure_file.
  destruct (his_fp_open s && (his_cur_size s <? HIST_FILE_MAX)) eqn:Eb.
  - apply andb_prop in Eb as [Eo Es]. pose proof Hok as (Hset & Hweb & Hop). rewrite Eo in Hop.
    destruct Hop as (c & Hop & Hsz). exists s, (his_cur_name s), [].
    assert (logical (his_fs s) !! his_cur_name s = Some c) as Hc by (unfold logical; rewrite Hop; apply lookup_insert_eq).
    split; [done|]. split.
    + unfold prepared. rewrite Hc. cbn. split; [by split_and!|]. split; [by rewrite insert_id|].
      split; [apply not_elem_of_nil|]. left. split_and!; [done|done|lia].
    + split; [done|]. split; [intros ?; congruence|lia].
  - destruct (close_ok s Hok) as (Hok1 & Ho1 & Hf1 & Hl1 & Hsz1 & Hnm1). set (s1 := close_cur_file s) in *.
    set (m := logical (his_fs s)) in *. rewrite Hsz1, Hnm1.
    destruct (decide (his_cur_name s = [])) as [En|En].
    + rewrite !bool_decide_true by done. cbn [negb andb].
      destruct (resume_latest_ok clk s1 Hok1 Ho1) as (s' & name & removed & Hrun & Hp & Hch); [by rewrite Hf1|by rewrite Hf1|].
      rewrite Hf1 in Hp, Hch. exists s', name, removed. split; [done|]. split; [done|].
      split; [done|]. split; [intros _ _; exact Hch|done].
    + rewrite !bool_decide_false by done. cbn [negb andb].
      destruct (Z.ltb_spec (his_cur_size s) HIST_FILE_MAX) as [Hlt|Hge]; cycle 1.
      { destruct (new_file_ok clk s1 Hok1 Ho1) as (s' & removed & Hrun & Hp); [by rewrite Hf1|by rewrite Hf1|].
        rewrite Hf1 in Hp. exists s', (make_hist_name clk), removed. split; [done|]. split; [done|].
        split; [lia|]. split; [done|done]. }
      destruct (m !! his_cur_name s) as [c|] eqn:Hc; cycle 1.
      { destruct (open_append_miss (his_cur_name s) s1 Hok1 Ho1) as (l' & -> & Hf & Hok'); [by rewrite Hf1|].
        cbn [andb]. assert (close_cur_file (set_fs l' s1) = set_fs l' s1) as ->
          by (unfold close_cur_file; change (his_fp_open (set_fs l' s1)) with (his_fp_open s1); by rewrite Ho1).
        destruct (resume_latest_ok clk (set_name [] (set_fs l' s1))) as (s' & name & removed & Hrun & Hp & Hch);
          [by apply hist_ok_name|exact Ho1|cbn; by rewrite Hf, Hf1|cbn; by rewrite Hf, Hf1|].
        cbn [his_fs set_fs set_name] in Hp, Hch. rewrite Hf, Hf1 in Hp, Hch.
        exists s', name, removed. split; [exact Hrun|]. split; [done|]. split; [intros _ _ c Hc'; fold m in Hc'; congruence|].
        split; [done|lia]. }
      destruct (open_append_ok (his_cur_name s) false s1 Hok1 Ho1) as (l' & Hrun & Hf & Hop & Hweb);
        [rewrite Hf1, Hc; done|by rewrite Hf1|].
      rewrite Hf1 in Hrun, Hf, Hop. rewrite Hc in Hrun, Hf, Hop. cbn [from_option id] in *. rewrite insert_id in Hf by done.
      rewrite Hrun. cbn [his_cur_size andb].
      destruct (Z.ltb_spec (zlen c) HIST_FILE_MAX) as [Hlt2|Hge2].
      * exists (mk_hist true l' true (zlen c) (his_cur_name s)), (his_cur_name s), []. rewrite Hnm1. split; [done|].
        split; [by apply prepared_resumed|]. split; [done|]. split; [done|lia].
      * destruct (close_law HisFp _ c l' Hop) as (r & l2 & Hcl & Hf2 & Hn2 & Hfr2).
        unfold close_cur_file at 1. cbn [his_fp_open set_fs set_open his_fs]. rewrite Hcl. cbn [snd].
        set (s2 := set_name [] (set_open false (set_fs l2 (mk_hist true l' true (zlen c) (his_cur_name s1))))).
        assert (files (his_fs s2) = m) as Hm2 by (cbn; rewrite Hf2, Hf; by apply insert_id).
        destruct (resume_latest_ok clk s2) as (s' & name & removed & Hrun2 & Hp2 & Hch);
          [unfold hist_ok, s2; cbn; by rewrite Hfr2|done|by rewrite Hm2|by rewrite Hm2|].
        rewrite Hm2 in Hp2, Hch. exists s', name, removed. split; [exact Hrun2|]. split; [done|].
        split; [intros _ _ c' Hc' Hlt'; fold m in Hc'; rewrite Hc in Hc'; injection Hc' as <-; lia|]. split; [done|lia].
Qed.

Definition record_ok (d : his_data) : Prop :=
  (h_type d = DI_TYPE ∧ length (h_vals d) = 1%nat) ∨ (h_type d = AI_TYPE ∧ length (h_vals d) = 4%nat).

Lemma record_len d : record_ok d → zlen (his_record d) = his_len d.
Proof.
  assert (∀ vs, length (concat (put_le16 <$> vs)) = (2 * length vs)%nat) as Hv.
  { intros vs. induction vs as [|v vs IH]; [done|]. cbn [fmap list_fmap concat]. rewrite length_app, IH. simpl. lia. }
  intros Hd. unfold his_record, zlen. rewrite length_take. unfold his_memory. rewrite !length_app, Hv.
  change (length (put_le16 (h_type d))) with 2%nat. change (length (io_put_le32 (h_time d))) with 4%nat.
  change (length (put_le16 (h_en d))) with 2%nat. unfold his_len, DI_TYPE, AI_TYPE in *.
  destruct Hd as [[-> ->]|[-> ->]]; reflexivity.
Qed.
End Write.

(** Recording a sample: on a file system with room, [hist_file_write] succeeds and appends exactly the packed
    record - 10 bytes for DI, 16 for AI - to one file, whatever state the recorder is in.  The file is the one in use
    while it is below the limit; after a boot it is the newest existing file if that is below the limit; when the file
    in use is full, or there is none to resume, it is a new one named after the clock.  Every other file keeps its
    contents, except that a brand-new file beyond ten makes room: then the smallest names go, and only as many as
    needed. *)
Theorem hist_write_appends {L} `{LfsLaws L} (clk : Z) (d : his_data) (s : @hist L) :
  hist_ok s → record_ok d → sane (logical (his_fs s)) → retainable clk (logical (his_fs s)) →
  ∃ s' name removed, let old := default [] (logical (his_fs s) !! name) in
    hist_file_write clk d s = (true, s') ∧ hist_ok s' ∧ his_cur_name s' = name ∧ choice clk s name ∧ (name ∉ removed) ∧
    logical (his_fs s') = delete_all removed (<[name := old ++ his_record d]> (logical (his_fs s))) ∧
    ((removed = [] ∧ zlen old < HIST_FILE_MAX) ∨
     (name = make_hist_name clk ∧ retention removed (<[name := old]> (logical (his_fs s))) old)).
Proof.
  intros Hok Hd Hsane Hret. destruct (ensure_file_ok clk s Hok Hsane Hret) as (s1 & name & removed & Hrun & Hp & Hch).
  destruct Hp as ((Hset & Ho & Hop & Hnm & Hsz & Hweb) & Hlog & Hnin & Hcase).
  set (old := default [] (logical (his_fs s) !! name)) in *. pose proof Hok as (Hset0 & _).
  destruct (write_law HisFp name old (his_record d) (his_fs s1) Hop) as (l' & Hw & Hf & Hop' & Hfr).
  pose proof (record_len d Hd) as Hlen.
  assert (0 ≤ zlen old < 2 ^ 31 - 16) as Hold.
  { split; [apply zlen_nonneg|]. unfold old. destruct (logical (his_fs s) !! name) eqn:E; cbn [from_option id].
    - by apply (Hsane name).
    - by change (zlen (@nil Z)) with 0. }
  assert (his_len d = 10 ∨ his_len d = 16) as Hl by (unfold his_len; destruct (h_type d =? DI_TYPE); tauto).
  exists (set_size (u32 (his_cur_size s1 + his_len d)) (set_fs l' s1)), name, removed. cbv zeta. fold old.
  split; [|split; [|split; [done|split; [done|split; [done|split]]]]].
  - unfold hist_file_write. rewrite Hset0, Hrun. cbn [negb]. rewrite Hw, Hlen, Z.eqb_refl. done.
  - unfold hist_ok. cbn. rewrite Ho, Hset. split; [done|]. split; [by rewrite Hfr|].
    exists (old ++ his_record d). split; [by rewrite Hnm|]. rewrite Hsz, zlen_app, Hlen. apply u32_id. ulia.
  - cbn. unfold logical at 1. rewrite Hop', Hf. unfold logical in Hlog at 1. rewrite Hop in Hlog.
    apply map_eq. intros n. rewrite delete_all_lookup. destruct (decide (n = name)) as [->|Hne].
    + rewrite lookup_insert_eq, decide_False by done. by rewrite lookup_insert_eq.
    + rewrite !lookup_insert_ne by done. assert (<[name := old]> (files (his_fs s1)) !! n = delete_all removed (<[name := old]> (logical (his_fs s))) !! n) as E by by rewrite Hlog.
      rewrite delete_all_lookup, !lookup_insert_ne in E by done. rewrite E.
      done.
  - destruct Hcase as [(-> & _ & Hlt)|Hcase]; [left; by split|by right].
Qed.

(** What is recorded reaches the disk: a sync, or closing the recording, puts every byte appended so far into the
    directory entry, and a recorder restarted on that directory (a reboot) sees the same files. *)
Theorem hist_sync_persists {L} `{LfsLaws L} (s : @hist L) :
  hist_ok s →
  (∃ s', hist_file_sync s = (0, s') ∧ hist_ok s' ∧ files (his_fs s') = logical (his_fs s) ∧
     logical (his_fs s') = logical (his_fs s)) ∧
  (let s' := hist_file_close s in
   hist_ok s' ∧ files (his_fs s') = logical (his_fs s) ∧ his_cur_name s' = his_cur_name s ∧
   hist_ok (hist_file_init true (his_fs s')) ∧ logical (his_fs (hist_file_init true (his_fs s'))) = logical (his_fs s)).
Proof.
  intros Hok. split.
  - unfold hist_file_sync, hist_ok, logical in *. destruct Hok as (Hset & Hweb & Hop). destruct (his_fp_open s) eqn:Eo.
    + destruct Hop as (c & Ho & Hsz). destruct (sync_law HisFp _ _ _ Ho) as (l' & -> & Hf & Hfr).
      eexists. split; [reflexivity|]. cbn. rewrite Eo, !Hfr, Ho, Hf. split; [split_and!; [done|done|by exists c]|].
      split; [done|]. by rewrite insert_insert_eq.
    + exists s. rewrite Eo, Hop. by split_and!.
  - destruct (close_ok s Hok) as (Hok1 & Ho1 & Hf1 & Hl1 & Hsz1 & Hnm1). unfold hist_file_close.
    split; [done|]. split; [done|]. split; [done|]. destruct Hok1 as (_ & Hweb1 & Hop1). rewrite Ho1 in Hop1.
    split; [by split_and!|]. exact Hl1.
Qed.

(** ** Concrete runs *)

Import RamFs.

Definition di_sample (t v : Z) : his_data := mk_his DI_TYPE t 0xFFFF [v].
Definition boot_hist : @hist ramfs := hist_file_init true empty_fs.

(** 2026-01-01 19:04:05 UTC *)
Example name_of_clock :
  make_hist_name 1767294245 = [100; 97; 116; 97; 95; 48; 49; 48; 50; 95; 48; 51; 48; 52; 48; 53; 46; 114; 97; 119].
Proof. by vm_compute. Qed.

Lemma boot_hist_empty : logical (his_fs boot_hist) = ∅.
Proof. done. Qed.

Lemma hist_write_appends_witness :
  ∃ s', hist_file_write 1767294245 (di_sample 0x11223344 0xCC33) boot_hist = (true, s') ∧ hist_ok s' ∧
    logical (his_fs s') = {[make_hist_name 1767294245 := [1; 0; 0x44; 0x33; 0x22; 0x11; 0xFF; 0xFF; 0x33; 0xCC]]}.
Proof.
  destruct (hist_write_appends 1767294245 (di_sample 0x11223344 0xCC33) boot_hist)
    as (s' & name & removed & Hrun & Hok & Hname & Hch & Hnin & Hlog & Hcase).
  - by split_and!.
  - left. by split.
  - intros n c Hn. by rewrite boot_hist_empty, lookup_empty in Hn.
  - split; [intros n [c Hn]; by rewrite boot_hist_empty, lookup_empty in Hn|]. split; [vm_compute; lia|]. vm_compute. lia.
  - exists s'. split; [exact Hrun|]. split; [exact Hok|]. rewrite Hlog.
    assert (name = make_hist_name 1767294245) as ->.
    { assert (his_cur_name (hist_file_write 1767294245 (di_sample 0x11223344 0xCC33) boot_hist).2 = make_hist_name 1767294245)
        as E by (vm_compute; reflexivity).
      rewrite Hrun in E. cbn [snd] in E. congruence. }
    rewrite boot_hist_empty, lookup_empty. cbn [from_option id app].
    destruct removed as [|r removed]; [reflexivity|].
    destruct Hcase as [[E _]|[_ Hret]]; [discriminate E|]. exfalso. revert Hret.
    rewrite boot_hist_empty, lookup_empty. cbn [from_option id].
    unfold retention. rewrite decide_True by reflexivity. intros (Hl & _).
    assert (hcount (<[make_hist_name 1767294245 := []]> ∅) = 1%nat) as E1 by (vm_compute; reflexivity).
    rewrite E1 in Hl. discriminate Hl.
Defined.

Lemma hist_sync_persists_witness :
  ∃ s', hist_file_sync (hist_file_write 1767294245 (di_sample 7 1) boot_hist).2 = (0, s') ∧
    files (his_fs s') = {[make_hist_name 1767294245 := [1; 0; 7; 0; 0; 0; 0xFF; 0xFF; 1; 0]]}.
Proof.
  destruct (hist_sync_persists (hist_file_write 1767294245 (di_sample 7 1) boot_hist).2) as [(s' & Hrun & _ & Hf & _) _].
  - split; [vm_compute; reflexivity|]. split; [vm_compute; reflexivity|].
    assert (his_fp_open (hist_file_write 1767294245 (di_sample 7 1) boot_hist).2 = true) as -> by (vm_compute; reflexivity).
    exists [1; 0; 7; 0; 0; 0; 0xFF; 0xFF; 1; 0]. split; vm_compute; reflexivity.
  - exists s'. split; [exact Hrun|]. rewrite Hf. vm_compute. reflexivity.
Defined.

(** the file names carry no year: a file opened on New Year's Day sorts before
    December's, and with ten files there the rule removes the new file itself *)
Definition december : gmap (list Z) (list Z) :=
  list_to_map ((λ i, (make_hist_name (1798646400 + i * 3600), [0])) <$> seqZ 0 10).
Definition rotated : @hist ramfs := mk_hist true (mk_ramfs december None None) false HIST_FILE_MAX (make_hist_name 1798646400).

Example new_year :
  let name := make_hist_name 1798732801 in
  let s' := (hist_file_write 1798732801 (di_sample 1 1) rotated).2 in
  his_cur_name s' = name ∧ files (his_fs s') !! name = None.
Proof. by vm_compute. Qed.
