(* ===== verification/History.v ===== *)
(** The history task and the web access to the files: [src/history/history.c].

    Samples go through a queue to a task of their own; all calls on the file
    system are made under one lock.  The producers, the task and the readers run
    concurrently: [hist_step] is the relation of their atomic steps, with the
    samples accepted and the write attempts as its events. *)

From stdpp Require Import gmap relations.
From S2P Require Import Prelude IoBytes Lfs HistoryFile.

Definition HIST_QUEUE_DEPTH : Z := 16.

(** where the task is: waiting for a sample; holding one, outside and inside the
    lock; after the last write of a batch; after the file was closed; about to
    close for a request *)
Inductive phase := Waiting | Got (d : his_data) | Writing (d : his_data) | Finish | Clear | Closing.

Inductive hist_event := Accepted (d : his_data) | Attempt (d : his_data) (ok : bool).

Section History.
Context {L : Type} `{Lfs L}.

Record hsys := mk_hsys {
  history_enabled : bool; hist_close_req : bool; hist_ready : bool;    (* [hist_lfs != NULL] *)
  hist_queue : list his_data; hist_lock : bool; hist_phase : phase; hist_core : @hist L;
  drop_cnt : Z; web_fp_open : bool }.

Definition set_core (c : @hist L) (s : hsys) : hsys :=
  mk_hsys (history_enabled s) (hist_close_req s) (hist_ready s) (hist_queue s) (hist_lock s) (hist_phase s) c
          (drop_cnt s) (web_fp_open s).
Definition set_task (q : list his_data) (lock : bool) (p : phase) (s : hsys) : hsys :=
  mk_hsys (history_enabled s) (hist_close_req s) (hist_ready s) q lock p (hist_core s) (drop_cnt s) (web_fp_open s).
Definition set_req (r : bool) (s : hsys) : hsys :=
  mk_hsys (history_enabled s) r (hist_ready s) (hist_queue s) (hist_lock s) (hist_phase s) (hist_core s)
          (drop_cnt s) (web_fp_open s).
Definition set_web (w : bool) (s : hsys) : hsys :=
  mk_hsys (history_enabled s) (hist_close_req s) (hist_ready s) (hist_queue s) (hist_lock s) (hist_phase s) (hist_core s)
          (drop_cnt s) w.

Definition history_init (lfs_set : bool) (lfs : L) : hsys :=
  mk_hsys false false lfs_set [] false Waiting (hist_file_init lfs_set lfs) 0 false.

Definition send_history_data (d : his_data) (s : hsys) : bool * hsys :=
  if negb (history_enabled s) || negb (hist_ready s) then (false, s)
  else if zlen (hist_queue s) <? HIST_QUEUE_DEPTH
  then (true, set_task (hist_queue s ++ [d]) (hist_lock s) (hist_phase s) s)
  else (false, mk_hsys (history_enabled s) (hist_close_req s) (hist_ready s) (hist_queue s) (hist_lock s) (hist_phase s)
                       (hist_core s) (u32 (drop_cnt s + 1)) (web_fp_open s)).

Definition history_enable_write (en : bool) (s : hsys) : hsys :=
  mk_hsys en (if en then hist_close_req s else true) (hist_ready s) (hist_queue s) (hist_lock s) (hist_phase s) (hist_core s)
          (drop_cnt s) (web_fp_open s).

Definition history_sync (s : hsys) : hsys :=
  if negb (hist_ready s) then s else set_core (hist_file_sync (hist_core s)).2 s.

(** the task after a write: the next sample of the batch, or the end of it *)
Definition after_write (ok : bool) (s : hsys) : hsys :=
  if ok then
    match hist_queue s with
    | d :: q => set_task q (hist_lock s) (Writing d) s
    | [] => set_task [] (hist_lock s) Finish s
    end
  else set_task (hist_queue s) (hist_lock s) Finish s.

(** one step of [hist_task]; [clk] is the clock if the step writes *)
Inductive task_step (clk : Z) : hsys → list hist_event → hsys → Prop :=
  | step_receive s d q :
      hist_phase s = Waiting → hist_queue s = d :: q → task_step clk s [] (set_task q (hist_lock s) (Got d) s)
  | step_take s d :
      hist_phase s = Got d → hist_lock s = false → task_step clk s [] (set_task (hist_queue s) true (Writing d) s)
  | step_write s d ok core :
      hist_phase s = Writing d → hist_file_write clk d (hist_core s) = (ok, core) →
      task_step clk s [Attempt d ok] (after_write ok (set_core core s))
  | step_finish_enabled s :
      hist_phase s = Finish → history_enabled s = true → task_step clk s [] (set_task (hist_queue s) false Waiting s)
  | step_finish_disabled s :
      hist_phase s = Finish → history_enabled s = false →
      task_step clk s [] (set_task (hist_queue s) true Clear (set_core (hist_file_close (hist_core s)) s))
  | step_clear s :
      hist_phase s = Clear → task_step clk s [] (set_task (hist_queue s) false Waiting (set_req false s))
  | step_timeout s :
      hist_phase s = Waiting → hist_queue s = [] → hist_close_req s = true →
      task_step clk s [] (set_task [] (hist_lock s) Closing s)
  | step_close s :
      hist_phase s = Closing → hist_lock s = false →
      task_step clk s [] (set_task (hist_queue s) true Clear (set_core (hist_file_close (hist_core s)) s)).

(** ** Web access *)

(** letters, digits, underscore, dot and dash *)
Definition name_char (c : Z) : bool :=
  ((48 <=? c) && (c <=? 57)) || ((97 <=? c) && (c <=? 122)) || ((65 <=? c) && (c <=? 90)) ||
  (c =? 95) || (c =? 46) || (c =? 45).

Definition history_web_name_valid (name : list Z) : bool :=
  has_prefix name && forallb name_char name && (5 <? zlen name) && (zlen name <? 32).

(** [n += snprintf(buf + n, bufsz - n, text)]: [n] and the bytes stored; [None]
    once the room [bufsz - n] has wrapped around *)
Definition snprintf_at (bufsz : Z) (text : list Z) (st : Z * list Z) : option (Z * list Z) :=
  let '(n, out) := st in
  if n <=? bufsz then Some (n + zlen text, out ++ take (Z.to_nat (bufsz - n - 1)) text) else None.

(** the fixed pieces of the text, as ASCII codes *)
Definition json_open : list Z := [123; 34; 102; 105; 108; 101; 115; 34; 58; 91].
Definition json_name : list Z := [123; 34; 110; 97; 109; 101; 34; 58; 34].
Definition json_size : list Z := [34; 44; 34; 115; 105; 122; 101; 34; 58].
Definition json_close : list Z := [93; 125].

Definition json_entry (first : bool) (e : lfs_info) : list Z :=
  (if first then [] else [44]) ++ json_name ++ info_name e ++ json_size ++ dec (info_size e) ++ [125].

(** the [while] loop over the directory *)
Fixpoint list_loop (bufsz : Z) (es : list lfs_info) (first : bool) (st : Z * list Z) : option (Z * list Z) :=
  match es with
  | [] => Some st
  | e :: es =>
    if negb (info_reg e) || negb (history_web_name_valid (info_name e)) then list_loop bufsz es first st
    else
      st ← snprintf_at bufsz (json_entry first e) st;
      if bufsz - 64 <=? st.1 then Some st else list_loop bufsz es false st
  end.

(** the result and the text stored; [None]: a size wrapped around *)
Definition history_web_list_json (bufsz : Z) (s : hsys) : option (Z * list Z * hsys) :=
  if negb (hist_ready s) then Some (-1, [], s)
  else
    let s := set_core (hist_file_sync (hist_core s)).2 s in
    st ← snprintf_at bufsz json_open (0, []);
    st ← (match lfs_dir (his_fs (hist_core s)) with None => Some st | Some es => list_loop bufsz es true st end);
    st ← snprintf_at bufsz json_close st;
    Some (if bufsz <? st.1 then bufsz else st.1, st.2, s).

Definition on_lfs {A} (f : L → A * L) (s : hsys) : A * hsys :=
  let '(a, l) := f (his_fs (hist_core s)) in (a, set_core (set_fs l (hist_core s)) s).

Definition history_web_open (name : list Z) (s : hsys) : Z * hsys :=
  if negb (hist_ready s) || negb (history_web_name_valid name) then (-1, s)
  else
    let s := set_core (hist_file_sync (hist_core s)).2 s in
    if web_fp_open s then (-1, s)
    else
      let '(ok, s) := on_lfs (lfs_file_open WebFp name RdOnly) s in
      if negb ok then (-1, s)
      else
        let size := lfs_file_size WebFp (his_fs (hist_core s)) in
        if 0 <=? size then (size, set_web true s)
        else (-1, (on_lfs (lfs_file_close WebFp) s).2).

Definition history_web_read (len : Z) (s : hsys) : Z * list Z * hsys :=
  if negb (web_fp_open s) then (-1, [], s)
  else
    let '(n, bs, l) := lfs_file_read WebFp len (his_fs (hist_core s)) in
    (n, bs, set_core (set_fs l (hist_core s)) s).

Definition history_web_close (s : hsys) : hsys :=
  if negb (web_fp_open s) then s else set_web false (on_lfs (lfs_file_close WebFp) s).2.

Definition history_web_remove (name : list Z) (s : hsys) : Z * hsys :=
  if negb (hist_ready s) || negb (history_web_name_valid name) then (-1, s)
  else on_lfs (lfs_remove name) s.

(** free and total bytes *)
Definition history_web_usage (s : hsys) : Z * Z :=
  if negb (hist_ready s) then (0, 0)
  else
    match lfs_fs_usage (his_fs (hist_core s)) with
    | None => (0, 0)
    | Some (count, bsize, used) =>
      let total := count * bsize in
      if used <? 0 then (0, total)
      else let used_b := used * bsize in ((if used_b <? total then total - used_b else 0), total)
    end.

(** what the FTP server does between [history_fs_lock] and [history_fs_unlock]:
    anything to the file system *)
Definition history_fs_section (l : L) (s : hsys) : hsys := set_core (set_fs l (hist_core s)) s.

(** any step: of the task, of a producer, of the control register, of a reader
    in its own locked section *)
Inductive hist_step : hsys → list hist_event → hsys → Prop :=
  | step_task clk s ev s' : task_step clk s ev s' → hist_step s ev s'
  | step_send s d ok s' :
      send_history_data d s = (ok, s') → hist_step s (if ok : bool then [Accepted d] else []) s'
  | step_enable s en : hist_step s [] (history_enable_write en s)
  | step_sync s : hist_lock s = false → hist_step s [] (history_sync s)
  | step_fs s l : hist_lock s = false → hist_step s [] (history_fs_section l s)
  | step_web_open s name : hist_lock s = false → hist_step s [] (history_web_open name s).2
  | step_web_read s n : hist_lock s = false → hist_step s [] (history_web_read n s).2
  | step_web_close s : hist_lock s = false → hist_step s [] (history_web_close s)
  | step_web_remove s name : hist_lock s = false → hist_step s [] (history_web_remove name s).2.

(** a run, with its events in order *)
Inductive hist_run : hsys → list hist_event → hsys → Prop :=
  | run_nil s : hist_run s [] s
  | run_step s1 ev1 s2 ev2 s3 : hist_run s1 ev1 s2 → hist_step s2 ev2 s3 → hist_run s1 (ev1 ++ ev2) s3.
End History.

(** ** Ordering, the lock, and the close request *)

Section Order.
Context {L : Type} `{Lfs L}.

Definition accepted (evs : list hist_event) : list his_data :=
  evs ≫= λ e, match e with Accepted d => [d] | _ => [] end.
Definition attempted (evs : list hist_event) : list his_data :=
  evs ≫= λ e, match e with Attempt d _ => [d] | _ => [] end.

(** the sample the task holds *)
Definition in_hand (p : phase) : list his_data := match p with Got d | Writing d => [d] | _ => [] end.

Definition locked (p : phase) : bool := match p with Writing _ | Finish | Clear => true | _ => false end.

Record task_ok (s : @hsys L) : Prop := {
  tk_queue : zlen (hist_queue s) ≤ HIST_QUEUE_DEPTH;
  tk_lock : hist_lock s = locked (hist_phase s);
  tk_clear : hist_phase s = Clear → his_fp_open (hist_core s) = false;
  tk_closed : hist_phase s = Waiting → history_enabled s = false →
              hist_close_req s = true ∨ his_fp_open (hist_core s) = false;
}.

Lemma sync_open (c : @hist L) : his_fp_open (hist_file_sync c).2 = his_fp_open c.
Proof. unfold hist_file_sync. destruct (his_fp_open c) eqn:E; [|done]. by destruct (lfs_file_sync HisFp (his_fs c)). Qed.
Lemma close_open (c : @hist L) : his_fp_open (hist_file_close c) = false.
Proof. unfold hist_file_close, close_cur_file. destruct (his_fp_open c) eqn:E; done. Qed.

(** a step that leaves the task, the queue and the flags alone *)
Definition same_task (s s' : @hsys L) : Prop :=
  hist_queue s' = hist_queue s ∧ hist_lock s' = hist_lock s ∧ hist_phase s' = hist_phase s ∧
  history_enabled s' = history_enabled s ∧ hist_close_req s' = hist_close_req s ∧
  his_fp_open (hist_core s') = his_fp_open (hist_core s).

Lemma same_task_ok s s' : same_task s s' → task_ok s → task_ok s'.
Proof.
  intros (Hq & Hl & Hp & He & Hr & Ho) [Kq Kl Kc Kd]. constructor; rewrite ?Hq, ?Hl, ?Hp, ?He, ?Hr, ?Ho; done.
Qed.

Lemma web_open_same s name : same_task s (history_web_open name s).2.
Proof.
  unfold history_web_open, on_lfs. destruct (_ || _); [by split_and!|]. cbn [web_fp_open set_core].
  destruct (web_fp_open s). { split_and!; try done. apply sync_open. }
  cbn [hist_core set_core]. destruct (lfs_file_open _ _ _ _) as [ok l]. destruct ok; cbn [negb].
  - destruct (0 <=? _); [split_and!; try done; cbn; apply sync_open|].
    destruct (lfs_file_close _ _) as [r l2]. split_and!; try done. cbn. apply sync_open.
  - split_and!; try done. cbn. apply sync_open.
Qed.

Lemma others_same (s s' : @hsys L) :
  s' = history_sync s ∨ (∃ n, s' = (history_web_read n s).2) ∨ s' = history_web_close s ∨ (∃ n, s' = (history_web_remove n s).2) →
  same_task s s'.
Proof.
  intros [->|[[n ->]|[->|[n ->]]]].
  - unfold history_sync. destruct (negb _); [by split_and!|]. split_and!; try done. apply sync_open.
  - unfold history_web_read. destruct (negb _); [by split_and!|]. destruct (lfs_file_read _ _ _) as [[r bs] l]. by split_and!.
  - unfold history_web_close, on_lfs. destruct (negb _); [by split_and!|]. destruct (lfs_file_close _ _). by split_and!.
  - unfold history_web_remove, on_lfs. destruct (_ || _); [by split_and!|]. destruct (lfs_remove _ _). by split_and!.
Qed.

(** one step keeps the invariant and the order of the samples *)
Definition ordered (s : @hsys L) (ev : list hist_event) (s' : @hsys L) : Prop :=
  in_hand (hist_phase s) ++ hist_queue s ++ accepted ev = attempted ev ++ in_hand (hist_phase s') ++ hist_queue s'.

Lemma task_step_ok clk s ev s' : task_step clk s ev s' → task_ok s → task_ok s' ∧ ordered s ev s'.
Proof.
  unfold ordered. intros Hst [Kq Kl Kc Kd]. destruct Hst as
    [s d q Hp Hq|s d Hp Hl|s d ok core Hp Hw|s Hp He|s Hp He|s Hp|s Hp Hq Hr|s Hp Hl]; rewrite Hp in *; cbn [locked] in *.
  - split; [|cbn; by rewrite Hq, app_nil_r]. constructor; cbn; [|done|done|done]. rewrite Hq in Kq. unfold zlen in *. simpl in Kq. lia.
  - split; [|cbn; by rewrite app_nil_r]. by constructor.
  - unfold after_write. destruct ok; [cbn [hist_queue set_core]; destruct (hist_queue s) as [|d' q] eqn:Eq|].
    + split; [|done]. by constructor.
    + split; [|cbn; by rewrite app_nil_r]. constructor; cbn; [|done|done|done]. unfold zlen in *. simpl in Kq. lia.
    + split; [|cbn; by rewrite app_nil_r]. by constructor.
  - split; [|cbn; by rewrite app_nil_r]. constructor; cbn; [done|done|done|congruence].
  - split; [|cbn; by rewrite app_nil_r]. constructor; cbn; [done|done|intros _; apply close_open|done].
  - split; [|cbn; by rewrite app_nil_r]. constructor; cbn; [done|done|done|intros _ _; right; by apply Kc].
  - split; [|cbn; by rewrite Hq]. constructor; cbn; [done|done|done|done].
  - split; [|cbn; by rewrite app_nil_r]. constructor; cbn; [done|done|intros _; apply close_open|done].
Qed.

Lemma hist_step_ok s ev s' : hist_step s ev s' → task_ok s → task_ok s' ∧ ordered s ev s'.
Proof.
  intros Hst Hok.
  assert (∀ s', same_task s s' → task_ok s' ∧ ordered s [] s') as Hsame.
  { intros s2 Hs. split; [by apply (same_task_ok s)|]. destruct Hs as (Hq & _ & Hp & _). unfold ordered.
    by rewrite Hq, Hp, app_nil_r. }
  destruct Hst as [clk s ev s' Ht|s d ok s' Hs|s en|s Hl|s l Hl|s name Hl|s n Hl|s Hl|s name Hl].
  - by apply (task_step_ok clk).
  - unfold send_history_data in Hs. destruct (negb (history_enabled s) || negb (hist_ready s)).
    { injection Hs as <- <-. apply Hsame. by split_and!. }
    destruct (Z.ltb_spec (zlen (hist_queue s)) HIST_QUEUE_DEPTH).
    + injection Hs as <- <-. destruct Hok as [Kq Kl Kc Kd]. split; [|by unfold ordered].
      constructor; cbn; [|done|done|done]. rewrite zlen_app. change (zlen [d]) with 1. lia.
    + injection Hs as <- <-. apply Hsame. by split_and!.
  - destruct Hok as [Kq Kl Kc Kd]. split; [|unfold ordered; cbn; by rewrite app_nil_r].
    constructor; cbn; [done|done|done|]. intros _ ->. by left.
  - apply Hsame, others_same. by left.
  - apply Hsame. by split_and!.
  - apply Hsame, web_open_same.
  - apply Hsame, others_same. right; left; eauto.
  - apply Hsame, others_same. right; right; by left.
  - apply Hsame, others_same. right; right; right; eauto.
Qed.
End Order.

(** Whatever the interleaving of samples, enabling and disabling, syncs, downloads and the task, from start-up on:
    the samples given to the files are exactly the accepted ones, in order, none lost or repeated - an accepted sample
    was attempted, is in the task's hands, or waits in the queue; the queue holds at most 16; the task touches the files
    only under the lock; and when recording is disabled and the task is idle, the file is closed or a close is
    requested. *)
Theorem history_order {L} `{Lfs L} (lfs_set : bool) (lfs : L) evs (s : @hsys L) :
  hist_run (history_init lfs_set lfs) evs s →
  accepted evs = attempted evs ++ in_hand (hist_phase s) ++ hist_queue s ∧
  zlen (hist_queue s) ≤ HIST_QUEUE_DEPTH ∧
  hist_lock s = locked (hist_phase s) ∧
  (hist_phase s = Waiting → history_enabled s = false → hist_close_req s = true ∨ his_fp_open (hist_core s) = false).
Proof.
  intros Hrun. assert (task_ok s ∧ accepted evs = attempted evs ++ in_hand (hist_phase s) ++ hist_queue s) as [[Kq Kl _ Kd] Ho];
    [|by split_and!].
  remember (history_init lfs_set lfs) as s0 eqn:E0. induction Hrun as [s|s1 ev1 s2 ev2 s3 Hrun IH Hst].
  - subst s. split; [|done]. constructor; cbn; [done|done|done|by right].
  - destruct (IH E0) as [Hok Hacc]. destruct (hist_step_ok s2 ev2 s3 Hst Hok) as [Hok3 Hord]. split; [done|].
    unfold ordered in Hord. unfold accepted, attempted in *. rewrite !bind_app, Hacc, <- !app_assoc. by f_equal.
Qed.

(** ** The listing fits *)

Section Listing.
Context {L : Type} `{Lfs L}.

(** what is listed *)
Definition listed (es : list lfs_info) : list lfs_info :=
  filter (λ e, info_reg e && history_web_name_valid (info_name e)) es.

Fixpoint entries_text (first : bool) (es : list lfs_info) : list Z :=
  match es with [] => [] | e :: es => json_entry first e ++ entries_text false es end.

Lemma dec_digits_len fuel n acc k :
  (0 < k)%nat → n < 10 ^ Z.of_nat k → (length (dec_digits fuel n acc) ≤ k + length acc)%nat.
Proof.
  revert n acc k. induction fuel as [|fuel IH]; intros n acc k Hk Hn; cbn [dec_digits]; [lia|].
  destruct (Z.ltb_spec n 10); [simpl; lia|]. destruct k as [|[|k]]; [lia|simpl in Hn; lia|].
  specialize (IH (n / 10) (48 + n mod 10 :: acc) (S k) ltac:(lia)). simpl length in IH. etransitivity; [apply IH|lia].
  replace (Z.of_nat (S (S k))) with (Z.of_nat (S k) + 1) in Hn by lia. rewrite Z.pow_add_r in Hn by lia.
  apply Z.div_lt_upper_bound; lia.
Qed.

Lemma dec_u32_len n : is_u32 n → zlen (dec n) ≤ 10.
Proof.
  intros Hn. unfold dec, zlen. pose proof (dec_digits_len 20 n [] 10 ltac:(lia)) as Hd.
  change (10 ^ Z.of_nat 10) with 10000000000 in Hd. cbn [length] in Hd. assert (n < 10000000000) as Hlt by ulia.
  specialize (Hd Hlt). lia.
Qed.

Lemma entry_len first e :
  history_web_name_valid (info_name e) = true → is_u32 (info_size e) → zlen (json_entry first e) ≤ 61.
Proof.
  intros Hv Hs. unfold history_web_name_valid in Hv. apply andb_prop in Hv as [_ Hn].
  pose proof (dec_u32_len _ Hs). unfold json_entry. rewrite !zlen_app.
  change (zlen json_name) with 9. change (zlen json_size) with 9. change (zlen [125]) with 1.
  destruct first; [change (zlen []) with 0|change (zlen [44]) with 1]; lia.
Qed.

Lemma snprintf_fits bufsz text n out :
  zlen out = n → n + zlen text < bufsz → snprintf_at bufsz text (n, out) = Some (n + zlen text, out ++ text).
Proof.
  intros Hn Hb. unfold snprintf_at. pose proof (zlen_nonneg text). replace (n <=? bufsz) with true by lia.
  do 2 f_equal. f_equal. apply take_ge. unfold zlen in *. lia.
Qed.

Lemma list_loop_ok bufsz es first n out :
  Forall (λ e, is_u32 (info_size e)) es → zlen out = n → n + 64 < bufsz →
  ∃ k out', list_loop bufsz es first (n, out) = Some (zlen out', out') ∧
    out' = out ++ entries_text first (take k (listed es)) ∧ zlen out' < bufsz - 3 ∧
    ((k < length (listed es))%nat → bufsz - 64 ≤ zlen out').
Proof.
  intros Hsz. revert first n out. induction Hsz as [|e es Hs Hsz IH]; intros first n out Hn Hb; cbn [list_loop].
  { exists 0%nat, out. subst n. split; [done|]. cbn. rewrite app_nil_r. split; [done|]. split; lia. }
  unfold listed. cbn [filter list_filter].
  destruct (info_reg e && history_web_name_valid (info_name e)) eqn:Ev.
  - rewrite decide_True by exact I. apply andb_prop in Ev as [Er Ev]. rewrite Er, Ev. cbn [negb orb].
    pose proof (entry_len first e Ev Hs) as Hel. rewrite (snprintf_fits bufsz _ n out Hn) by lia. cbn [mbind option_bind fst].
    destruct (Z.leb_spec (bufsz - 64) (n + zlen (json_entry first e))) as [Hge|Hlt].
    + exists 1%nat, (out ++ json_entry first e). cbn [take entries_text]. rewrite zlen_app, Hn.
      split; [done|]. split; [by rewrite take_0, app_nil_r|]. split; [lia|intros _; lia].
    + destruct (IH false (n + zlen (json_entry first e)) (out ++ json_entry first e)) as (k & out' & Hrun & Hout & Hl & Hm);
        [by rewrite zlen_app, Hn|lia|].
      exists (S k), out'. split; [done|]. split; [by rewrite Hout, <- app_assoc|]. split; [lia|].
      intros Hk. apply Hm. exact (proj2 (Nat.succ_lt_mono _ _) Hk).
  - rewrite decide_False by (intros []). assert (negb (info_reg e) || negb (history_web_name_valid (info_name e)) = true) as ->
      by (destruct (info_reg e), (history_web_name_valid (info_name e)); done).
    by apply IH.
Qed.
End Listing.

(** The directory listing never overruns or truncates its buffer: with a buffer of at least 75 bytes no size in the
    formatting wraps around, the text is complete and shorter than the buffer, and it is the JSON object of a prefix of
    the downloadable files - all of them when there is room for one more entry. *)
Theorem web_list_fits {L} `{Lfs L} (bufsz : Z) (s : @hsys L) es :
  75 ≤ bufsz → hist_ready s = true → lfs_dir (his_fs (hist_file_sync (hist_core s)).2) = Some es →
  Forall (λ e, is_u32 (info_size e)) es →
  ∃ k text s', history_web_list_json bufsz s = Some (zlen text, text, s') ∧
    text = json_open ++ entries_text true (take k (listed es)) ++ json_close ∧ zlen text < bufsz ∧
    ((k < length (listed es))%nat → bufsz - 64 ≤ zlen text).
Proof.
  intros Hb Hr Hd Hs. unfold history_web_list_json. rewrite Hr. cbn [negb].
  rewrite (snprintf_fits bufsz json_open 0 []) by (change (zlen json_open) with 10; try done; lia). cbn [mbind option_bind app].
  cbn [hist_core set_core]. rewrite Hd. change (0 + zlen json_open) with 10.
  destruct (list_loop_ok bufsz es true 10 json_open Hs) as (k & out' & -> & Hout & Hl & Hm); [done|lia|].
  cbn [mbind option_bind]. rewrite (snprintf_fits bufsz json_close _ out') by (change (zlen json_close) with 2; try done; lia).
  cbn [mbind option_bind fst snd]. change (zlen json_close) with 2. replace (bufsz <? zlen out' + 2) with false by lia.
  exists k, (out' ++ json_close). eexists. rewrite zlen_app. change (zlen json_close) with 2.
  split; [done|]. split; [by rewrite Hout, <- app_assoc|]. split; [lia|]. intros Hk. specialize (Hm Hk). lia.
Qed.

(** ** Concrete runs *)

Import RamFs.

(** enabled, one sample sent and taken, another queued *)
Definition demo_sys : @hsys ramfs :=
  mk_hsys true false true [di_sample 2 2] true (Writing (di_sample 1 1)) (hist_file_init true empty_fs) 0 false.

Lemma history_order_witness :
  accepted [Accepted (di_sample 1 1); Accepted (di_sample 2 2)] = in_hand (hist_phase demo_sys) ++ hist_queue demo_sys.
Proof.
  pose proof (history_order true empty_fs [Accepted (di_sample 1 1); Accepted (di_sample 2 2)] demo_sys) as Ho.
  apply Ho.
  apply (run_step _ [Accepted (di_sample 1 1); Accepted (di_sample 2 2)]
           (mk_hsys true false true [di_sample 2 2] false (Got (di_sample 1 1)) (hist_file_init true empty_fs) 0 false) []);
    [|apply (step_task 0); exact (step_take 0
       (mk_hsys true false true [di_sample 2 2] false (Got (di_sample 1 1)) (hist_file_init true empty_fs) 0 false) (di_sample 1 1)
       eq_refl eq_refl)].
  apply (run_step _ [Accepted (di_sample 1 1)]
           (mk_hsys true false true [] false (Got (di_sample 1 1)) (hist_file_init true empty_fs) 0 false) [Accepted (di_sample 2 2)]);
    [|by apply (step_send _ (di_sample 2 2) true)].
  apply (run_step _ [Accepted (di_sample 1 1)]
           (mk_hsys true false true [di_sample 1 1] false Waiting (hist_file_init true empty_fs) 0 false) []);
    [|apply (step_task 0); exact (step_receive 0
       (mk_hsys true false true [di_sample 1 1] false Waiting (hist_file_init true empty_fs) 0 false) (di_sample 1 1) [] eq_refl eq_refl)].
  apply (run_step _ [] (mk_hsys true false true [] false Waiting (hist_file_init true empty_fs) 0 false) [Accepted (di_sample 1 1)]);
    [|by apply (step_send _ (di_sample 1 1) true)].
  apply (run_step _ [] (history_init true empty_fs) []); [apply run_nil|].
  exact (step_enable (history_init true empty_fs) true).
Defined.

Definition web_sys : @hsys ramfs :=
  history_init true (mk_ramfs (list_to_map [(make_hist_name 0, [1; 2; 3])]) None None).

Lemma web_list_fits_witness :
  ∃ k text s', history_web_list_json 75 web_sys = Some (zlen text, text, s') ∧ zlen text < 75 ∧ (k ≤ 1)%nat.
Proof.
  destruct (web_list_fits 75 web_sys [mk_info false [46] 0; mk_info true (make_hist_name 0) 3]) as (k & text & s' & Hrun & Htext & Hl & _).
  - lia.
  - reflexivity.
  - vm_compute. reflexivity.
  - apply (bool_decide_unpack _). vm_compute. exact I.
  - exists (Nat.min k 1), text, s'. split; [exact Hrun|]. split; [exact Hl|lia].
Defined.
