(* ===== verification/Io.v ===== *)
(** Digital and analog I/O: [src/io/dio.c] and [src/io/adc.c].

    The output pins are a map from port and pin to level; a pin read and a
    conversion are parameters of the iteration that performs them.  One turn of
    each sampling task is a computation on the registers; [send_history_data]
    is an operation on what lies behind them. *)

From stdpp Require Import gmap.
From S2P Require Import Prelude IoBytes Regmap HistoryFile.

Definition SAMPLE_INTERVAL_MAX : Z := 5000.

Inductive gpio_port := GPIOB | GPIOD | GPIOE.
#[export] Instance gpio_port_eq : EqDecision gpio_port.
Proof. solve_decision. Defined.

Definition dio_pin : Type := gpio_port * Z.

Definition di_pins : list dio_pin :=
  [(GPIOD, 3); (GPIOD, 4); (GPIOD, 5); (GPIOD, 6); (GPIOB, 5); (GPIOB, 6); (GPIOB, 7); (GPIOB, 8); (GPIOB, 9);
   (GPIOB, 10); (GPIOB, 11); (GPIOD, 2); (GPIOB, 0); (GPIOB, 1); (GPIOB, 3); (GPIOB, 4)].
Definition do_pins : list dio_pin :=
  [(GPIOD, 7); (GPIOD, 8); (GPIOD, 9); (GPIOD, 10); (GPIOD, 11); (GPIOD, 12); (GPIOD, 13); (GPIOD, 14)].
Definition led_pins : list dio_pin :=
  [(GPIOE, 8); (GPIOE, 9); (GPIOE, 10); (GPIOE, 11); (GPIOE, 12); (GPIOE, 13); (GPIOE, 14); (GPIOE, 15)].

(** the level of every output pin *)
Definition pins : Type := dio_pin → bool.

Definition HAL_GPIO_WritePin (p : dio_pin) (on : bool) (g : pins) : pins := λ q, if decide (q = p) then on else g q.

(** [val & (1u << i)] *)
Definition bit_set (val i : Z) : bool := negb (Z.land val (Z.shiftl 1 i) =? 0).

(** the loop over the pin tables, from channel [i] on *)
Fixpoint set_do_loop (val i : Z) (dos leds : list dio_pin) (g : pins) : pins :=
  match dos, leds with
  | d :: dos, l :: leds =>
    let on := bit_set val i in
    set_do_loop val (i + 1) dos leds (HAL_GPIO_WritePin l on (HAL_GPIO_WritePin d on g))
  | _, _ => g
  end.

Definition mb_set_do (val : Z) (g : pins) : pins := set_do_loop val 0 do_pins led_pins g.

(** [dio_start]: all outputs low *)
Definition dio_start (g : pins) : pins :=
  foldl (λ g dl, HAL_GPIO_WritePin dl.2 false (HAL_GPIO_WritePin dl.1 false g)) g (zip do_pins led_pins).

(** the clamp of both sampling tasks *)
Definition sample_ms (si : Z) : Z := if si <? 10 then 10 else if SAMPLE_INTERVAL_MAX <? si then SAMPLE_INTERVAL_MAX else si.

(** the loop over the inputs; [read] is [HAL_GPIO_ReadPin] in this turn *)
Fixpoint di_loop (read : dio_pin → bool) (en i : Z) (ps : list dio_pin) (val : Z) : Z :=
  match ps with
  | [] => val
  | p :: ps =>
    di_loop read en (i + 1) ps (if bit_set en i && read p then u16 (Z.lor val (Z.shiftl 1 i)) else val)
  end.

Definition ai_coeff : list Z := [7414; 7414; 3704; 3704].

(** [int32_t] division truncates *)
Definition ai_convert (ch raw : Z) : Z :=
  let voltage_mv := Z.quot (raw * 3300) 4096 in
  let val := u32 (rd ai_coeff (Z.to_nat ch) * u32 voltage_mv / 10000) in
  u16 val.

Section Tasks.
Context {E : Type} `{IoHooks E}.
(** [send_history_data] behind the registers *)
Context (send_history : his_data → E → E).

Abbreviation MR := (M (regs E)).

(** one turn of [di_task]: the delay to the next one *)
Definition di_task_turn (read : dio_pin → bool) : MR Z :=
  si ← get_holding_reg HOLDING_DI_SAMPLE_MS_IDX;
  en ← get_holding_reg HOLDING_DI_ENABLE_IDX;
  let val := di_loop read en 0 di_pins 0 in
  _ ← update_input_reg INPUT_DI_IDX val;
  if negb (en =? 0) then
    t ← call_ret hook_now_epoch;
    call (send_history (mk_his DI_TYPE t en [val]));;
    mret (sample_ms si)
  else mret (sample_ms si).

(** the channels [i], ..., 3; [conv i] is the conversion result, [None] when the
    converter could not be set up, started or did not finish *)
Fixpoint ai_loop (n : nat) (conv : Z → option Z) (en i : Z) : MR unit :=
  match n with
  | O => mret tt
  | S n =>
    if negb (bit_set en i) then ai_loop n conv en (i + 1)
    else
      match conv i with
      | None => ai_loop n conv en (i + 1)
      | Some raw => _ ← update_input_reg (INPUT_AI0_IDX + i) (ai_convert i raw); ai_loop n conv en (i + 1)
      end
  end.

Definition adc_task_turn (conv : Z → option Z) : MR Z :=
  si ← get_holding_reg HOLDING_AI_SAMPLE_MS_IDX;
  en ← get_holding_reg HOLDING_AI_ENABLE_IDX;
  ai_loop (Z.to_nat AI_NUM) conv en 0;;
  if negb (Z.land en 0x000F =? 0) then
    t ← call_ret hook_now_epoch;
    v0 ← get_input_reg (INPUT_AI0_IDX + 0);
    v1 ← get_input_reg (INPUT_AI0_IDX + 1);
    v2 ← get_input_reg (INPUT_AI0_IDX + 2);
    v3 ← get_input_reg (INPUT_AI0_IDX + 3);
    call (send_history (mk_his AI_TYPE t (Z.land en 0x000F) [v0; v1; v2; v3]));;
    mret (sample_ms si)
  else mret (sample_ms si).
End Tasks.

(** ** Outputs *)

Lemma bit_set_testbit v i : 0 ≤ i → bit_set v i = Z.testbit v i.
Proof.
  intros Hi. unfold bit_set. destruct (Z.testbit v i) eqn:E.
  - destruct (Z.eqb_spec (Z.land v (Z.shiftl 1 i)) 0) as [Hz|]; [|done].
    assert (Z.testbit (Z.land v (Z.shiftl 1 i)) i = false) as Hb by (rewrite Hz; apply Z.bits_0).
    rewrite Z.land_spec, E, Z.shiftl_spec, Z.sub_diag in Hb by lia. done.
  - replace (Z.land v (Z.shiftl 1 i)) with 0; [done|]. symmetry. apply Z.bits_inj'. intros k Hk.
    rewrite Z.land_spec, Z.bits_0, Z.shiftl_1_l. destruct (decide (k = i)) as [->|Hne]; [by rewrite E|].
    rewrite Z.pow2_bits_false by lia. apply andb_false_r.
Qed.

Lemma write_pin_eq p on g : HAL_GPIO_WritePin p on g p = on.
Proof. unfold HAL_GPIO_WritePin. by rewrite decide_True. Qed.
Lemma write_pin_ne p q on g : q ≠ p → HAL_GPIO_WritePin p on g q = g q.
Proof. intros. unfold HAL_GPIO_WritePin. by rewrite decide_False. Qed.

Lemma set_do_loop_spec val i dos leds g :
  0 ≤ i → length dos = length leds → NoDup (dos ++ leds) →
  (∀ k d, dos !! k = Some d → set_do_loop val i dos leds g d = Z.testbit val (i + Z.of_nat k)) ∧
  (∀ k l, leds !! k = Some l → set_do_loop val i dos leds g l = Z.testbit val (i + Z.of_nat k)) ∧
  (∀ q, q ∉ dos ++ leds → set_do_loop val i dos leds g q = g q).
Proof.
  revert i leds g. induction dos as [|d dos IH]; intros i leds g Hi Hlen Hnd; destruct leds as [|l leds]; try discriminate Hlen.
  { split_and!; done. }
  cbn [app] in Hnd. pose proof (NoDup_cons_1_1 _ _ Hnd) as Hd. apply NoDup_cons_1_2 in Hnd.
  assert ((d ∉ dos ++ leds) ∧ d ≠ l) as [Hd1 Hdl].
  { split; [|intros ->]; [intros Hin|]; apply Hd; set_solver. }
  rewrite <- Permutation_middle in Hnd. pose proof (NoDup_cons_1_1 _ _ Hnd) as Hl. apply NoDup_cons_1_2 in Hnd.
  cbn [set_do_loop]. rewrite bit_set_testbit by done.
  destruct (IH (i + 1) leds (HAL_GPIO_WritePin l (Z.testbit val i) (HAL_GPIO_WritePin d (Z.testbit val i) g)))
    as (H1 & H2 & H3); [lia|cbn in Hlen; lia|done|].
  split; [|split].
  - intros [|k] x; cbn [lookup list_lookup].
    + intros [= <-]. rewrite Z.add_0_r, H3, write_pin_ne, write_pin_eq by done. done.
    + intros Hk. rewrite (H1 k x Hk). f_equal. lia.
  - intros [|k] x; cbn [lookup list_lookup].
    + intros [= <-]. rewrite Z.add_0_r, H3, write_pin_eq by done. done.
    + intros Hk. rewrite (H2 k x Hk). f_equal. lia.
  - intros q Hq. rewrite H3, !write_pin_ne; [done|..]; intros Hin; apply Hq; rewrite ?elem_of_app, ?elem_of_cons in *; naive_solver.
Qed.

Lemma output_pins_distinct : NoDup (do_pins ++ led_pins).
Proof. apply (bool_decide_unpack _). vm_compute. exact I. Qed.

(** output and LED [i] show bit [i] *)
Lemma mb_set_do_pins v g i d l :
  do_pins !! i = Some d → led_pins !! i = Some l →
  mb_set_do v g d = Z.testbit v (Z.of_nat i) ∧ mb_set_do v g l = Z.testbit v (Z.of_nat i).
Proof.
  intros Hd Hl. destruct (set_do_loop_spec v 0 do_pins led_pins g) as (H1 & H2 & _); [lia|done|apply output_pins_distinct|].
  rewrite <- (Z.add_0_l (Z.of_nat i)). split; [by apply H1|by apply H2].
Qed.

Lemma dio_start_low g i d l :
  do_pins !! i = Some d → led_pins !! i = Some l → dio_start g d = false ∧ dio_start g l = false.
Proof.
  intros Hd Hl. assert (i < 8)%nat as Hi by (apply lookup_lt_Some in Hd; exact Hd).
  do 8 (destruct i as [|i]; [injection Hd as <-; injection Hl as <-; by split|]). lia.
Qed.

(** ** Inputs *)

Lemma di_loop_spec read en i ps val :
  0 ≤ i → i + Z.of_nat (length ps) ≤ 16 → is_u16 val → (∀ k, i ≤ k → Z.testbit val k = false) →
  is_u16 (di_loop read en i ps val) ∧
  ∀ k, 0 ≤ k → Z.testbit (di_loop read en i ps val) k =
    if decide (k < i) then Z.testbit val k
    else match ps !! Z.to_nat (k - i) with Some p => Z.testbit en k && read p | None => false end.
Proof.
  revert i val. induction ps as [|p ps IH]; intros i val Hi Hlen Hv Hhi; cbn [di_loop].
  { split; [done|]. intros k Hk. destruct (decide (k < i)); [done|]. rewrite Hhi by lia. done. }
  cbn [length] in Hlen. set (b := bit_set en i && read p).
  set (val' := if b then u16 (Z.lor val (Z.shiftl 1 i)) else val).
  assert (is_u16 val' ∧ ∀ k, 0 ≤ k → Z.testbit val' k = if decide (k = i) then b else Z.testbit val k) as [Hv' Hb'].
  { unfold val'. destruct b eqn:Eb.
    - assert (is_u16 (Z.lor val (Z.shiftl 1 i))) as Hr.
      { apply is_u16_iff. change 65536 with (2 ^ 16). apply lor_range; [lia|ulia|]. rewrite Z.shiftl_1_l.
        split; [apply Z.pow_nonneg; lia|]. apply Z.pow_lt_mono_r; lia. }
      rewrite u16_id by done. split; [done|]. intros k Hk. rewrite Z.lor_spec, Z.shiftl_1_l.
      destruct (decide (k = i)) as [->|Hne]; [by rewrite Z.pow2_bits_true, orb_true_r by lia|].
      rewrite Z.pow2_bits_false by lia. apply orb_false_r.
    - split; [done|]. intros k Hk. destruct (decide (k = i)) as [->|]; [|done]. by apply Hhi. }
  destruct (IH (i + 1) val') as [Hu Ht]; [lia|lia|done| |].
  { intros k Hk. rewrite Hb', decide_False by lia. apply Hhi. lia. }
  split; [done|]. intros k Hk. rewrite Ht by done. destruct (decide (k = i)) as [->|Hne].
  - rewrite decide_True, Hb', decide_True by lia. rewrite decide_False by lia. rewrite Z.sub_diag. cbn.
    unfold b. by rewrite bit_set_testbit.
  - rewrite Hb', (decide_False (P := k = i)) by lia. destruct (decide (k < i)).
    + by rewrite decide_True by lia.
    + rewrite decide_False by lia. replace (Z.to_nat (k - i)) with (S (Z.to_nat (k - (i + 1)))) by lia. done.
Qed.

Lemma sample_ms_range si : 10 ≤ sample_ms si ≤ 5000.
Proof. unfold sample_ms, SAMPLE_INTERVAL_MAX. destruct (Z.ltb_spec si 10); [lia|]. destruct (Z.ltb_spec 5000 si); lia. Qed.

(** the registers with input register [i] replaced *)
Definition with_input {E} (i v : Z) (s : regs E) : regs E :=
  mk_regs (holding_reg s) (<[Z.to_nat i := v]> (input_reg s)) (env s).
Definition with_env {E} (e : E) (s : regs E) : regs E := mk_regs (holding_reg s) (input_reg s) e.

Lemma ai_convert_value ch raw :
  0 ≤ ch < 4 → 0 ≤ raw < 4096 →
  ai_convert ch raw = rd ai_coeff (Z.to_nat ch) * (raw * 3300 / 4096) / 10000 ∧ 0 ≤ ai_convert ch raw ≤ 2445.
Proof.
  intros Hc Hr. unfold ai_convert. rewrite Z.quot_div_nonneg by lia.
  assert (0 ≤ raw * 3300 / 4096 ≤ 3299) as Hv by (Z.div_mod_to_equations; lia).
  assert (rd ai_coeff (Z.to_nat ch) = 7414 ∨ rd ai_coeff (Z.to_nat ch) = 3704) as Hco.
  { assert (ch = 0 ∨ ch = 1 ∨ ch = 2 ∨ ch = 3) as [->|[->|[->| ->]]] by lia; [left|left|right|right]; done. }
  rewrite (u32_id (raw * 3300 / 4096)) by ulia. set (v := raw * 3300 / 4096) in *. set (co := rd ai_coeff (Z.to_nat ch)) in *.
  assert (0 ≤ co * v / 10000 ≤ 2445) as Hb by (destruct Hco as [-> | ->]; Z.div_mod_to_equations; lia).
  rewrite u32_id, u16_id by ulia. done.
Qed.

Lemma ai_convert_accuracy ch raw :
  0 ≤ ch < 4 → 0 ≤ raw < 4096 →
  let exact := rd ai_coeff (Z.to_nat ch) * 3300 * raw in
  let lsb := 10000 * 4096 in
  lsb * ai_convert ch raw ≤ exact < lsb * (ai_convert ch raw + 1) + rd ai_coeff (Z.to_nat ch) * 4096.
Proof.
  intros Hc Hr exact lsb. destruct (ai_convert_value ch raw Hc Hr) as [-> _]. unfold exact, lsb.
  assert (0 < rd ai_coeff (Z.to_nat ch) ≤ 7414) as Hco.
  { assert (ch = 0 ∨ ch = 1 ∨ ch = 2 ∨ ch = 3) as [->|[->|[->| ->]]] by lia; vm_compute; split; (done || discriminate). }
  set (co := rd ai_coeff (Z.to_nat ch)) in *. set (v := raw * 3300 / 4096).
  assert (4096 * v ≤ raw * 3300 < 4096 * v + 4096) as Hv by (unfold v; Z.div_mod_to_equations; lia).
  assert (10000 * (co * v / 10000) ≤ co * v < 10000 * (co * v / 10000) + 10000) as Hw by (Z.div_mod_to_equations; lia).
  nia.
Qed.

Section TaskProofs.
Context {E : Type} `{IoHooks E} (send_history : his_data → E → E).

Lemma get_holding_run (s : regs E) i : 0 ≤ i < 18 → get_holding_reg i s = (Done (hread s i), s).
Proof. intros Hi. unfold get_holding_reg, gets, MODBUS_HOLDING_REGISTER_NUMBERS. by replace (18 <=? i) with false by lia. Qed.
Lemma get_input_run (s : regs E) i : 0 ≤ i < 6 → get_input_reg i s = (Done (iread s i), s).
Proof. intros Hi. unfold get_input_reg, gets, MODBUS_INPUT_REGISTER_NUMBERS. by replace (6 <=? i) with false by lia. Qed.
Lemma update_input_run (s : regs E) i v : 0 ≤ i < 6 → update_input_reg i v s = (Done true, with_input i v s).
Proof. intros Hi. unfold update_input_reg, MODBUS_INPUT_REGISTER_NUMBERS. by replace (6 <=? i) with false by lia. Qed.

(** what a task hands to the history: the time, and the sample *)
Definition send_sample (d : Z → his_data) (s : regs E) : regs E :=
  let '(t, e) := hook_now_epoch (env s) in with_env (send_history (d t) e) s.

Lemma send_run (d : Z → his_data) (r : Z) (s : regs E) :
  (t ← call_ret hook_now_epoch; call (send_history (d t));; mret r) s = (Done r, send_sample d s).
Proof. unfold call_ret, send_sample, mbind, M_bind. by destruct (hook_now_epoch (env s)) as [t e]. Qed.

(** one turn of the input task *)
Lemma di_turn_result (read : dio_pin → bool) (s : regs E) :
  regs_ok s →
  let en := hread s HOLDING_DI_ENABLE_IDX in
  ∃ s', di_task_turn send_history read s = (Done (sample_ms (hread s HOLDING_DI_SAMPLE_MS_IDX)), s') ∧
  ∃ val, (∀ i p, di_pins !! i = Some p → Z.testbit val (Z.of_nat i) = Z.testbit en (Z.of_nat i) && read p) ∧ is_u16 val ∧
    s' = (if decide (en = 0) then with_input INPUT_DI_IDX val s
          else send_sample (λ t, mk_his DI_TYPE t en [val]) (with_input INPUT_DI_IDX val s)).
Proof.
  intros Hs en. pose proof (di_loop_spec read en 0 di_pins 0) as Hdi. destruct Hdi as [Hu Ht]; [lia|cbn; lia|ulia|intros; apply Z.bits_0|].
  set (val := di_loop read en 0 di_pins 0) in *. eexists. split; [|exists val; split; [|split; [done|reflexivity]]].
  - unfold di_task_turn.
    erewrite bind_done by (apply get_holding_run; unfold HOLDING_DI_SAMPLE_MS_IDX; lia).
    erewrite bind_done by (apply get_holding_run; unfold HOLDING_DI_ENABLE_IDX; lia). fold en. fold val. cbv zeta.
    erewrite bind_done by (apply update_input_run; unfold INPUT_DI_IDX; lia).
    destruct (Z.eqb_spec en 0) as [E0|E0]; cbn [negb].
    + by rewrite decide_True.
    + rewrite decide_False by done. apply (send_run (λ t, mk_his DI_TYPE t en [val])).
  - intros i p Hp. rewrite Ht by lia. rewrite decide_False by lia. rewrite Z.sub_0_r, Nat2Z.id, Hp. done.
Qed.

(** input register [j] after the channels [i], ..., [i + n - 1] *)
Definition converted (conv : Z → option Z) (en i n : Z) (s : regs E) (j : Z) : Z :=
  let k := j - INPUT_AI0_IDX in
  if (i <=? k) && (k <? i + n) && bit_set en k
  then match conv k with Some raw => ai_convert k raw | None => iread s j end
  else iread s j.

Lemma ai_loop_run n conv en i (s : regs E) :
  0 ≤ i → i + Z.of_nat n ≤ 4 → length (input_reg s) = 6%nat →
  ∃ s', ai_loop n conv en i s = (Done tt, s') ∧ holding_reg s' = holding_reg s ∧ env s' = env s ∧
    length (input_reg s') = 6%nat ∧ ∀ j, 0 ≤ j < 6 → iread s' j = converted conv en i (Z.of_nat n) s j.
Proof.
  revert i s. induction n as [|n IH]; intros i s Hi Hn Hl; cbn [ai_loop].
  { exists s. split_and!; try done. intros j Hj. unfold converted. replace ((i <=? j - INPUT_AI0_IDX) && _) with false by lia.
    done. }
  assert (∀ s1, length (input_reg s1) = 6%nat → holding_reg s1 = holding_reg s → env s1 = env s →
    (∀ j, 0 ≤ j < 6 → iread s1 j = converted conv en i 1 s j) →
    ∃ s', ai_loop n conv en (i + 1) s1 = (Done tt, s') ∧ holding_reg s' = holding_reg s ∧ env s' = env s ∧
      length (input_reg s') = 6%nat ∧ ∀ j, 0 ≤ j < 6 → iread s' j = converted conv en i (Z.of_nat (S n)) s j) as Hrest.
  { intros s1 Hl1 Hh1 He1 Hc1. destruct (IH (i + 1) s1) as (s' & Hrun & Hh & He & Hl' & Hc); [lia|lia|done|].
    exists s'. split; [done|]. split; [congruence|]. split; [congruence|]. split; [done|]. intros j Hj. rewrite Hc by done.
    specialize (Hc1 j Hj). unfold converted, INPUT_AI0_IDX in *.
    destruct (Z.leb_spec (i + 1) (j - 1)), (Z.leb_spec i (j - 1)), (Z.ltb_spec (j - 1) (i + 1)), (Z.ltb_spec (j - 1) (i + 1 + Z.of_nat n)),
      (Z.ltb_spec (j - 1) (i + Z.of_nat (S n))); try lia; cbn [andb] in *; try done; by rewrite Hc1. }
  destruct (bit_set en i) eqn:Eb; cbn [negb].
  - destruct (conv i) as [raw|] eqn:Ec.
    + erewrite bind_done by (apply update_input_run; unfold INPUT_AI0_IDX; lia). apply Hrest; try done.
      { cbn. by rewrite length_insert. }
      intros j Hj. unfold converted, INPUT_AI0_IDX, iread, with_input. cbn [input_reg].
      destruct (decide (j = 1 + i)) as [->|Hne].
      * rewrite rd_insert_eq by lia. replace (1 + i - 1) with i by lia.
        replace ((i <=? i) && (i <? i + 1)) with true by lia. cbn [andb]. by rewrite Eb, Ec.
      * rewrite rd_insert_ne by lia. by replace ((i <=? j - 1) && (j - 1 <? i + 1)) with false by lia.
    + apply Hrest; try done. intros j Hj. unfold converted, INPUT_AI0_IDX.
      destruct ((i <=? j - 1) && (j - 1 <? i + 1)) eqn:E1; [|done]. assert (j - 1 = i) as -> by lia. cbn [andb]. by rewrite Eb, Ec.
  - apply Hrest; try done. intros j Hj. unfold converted, INPUT_AI0_IDX.
    destruct ((i <=? j - 1) && (j - 1 <? i + 1)) eqn:E1; [|done]. assert (j - 1 = i) as -> by lia. cbn [andb]. by rewrite Eb.
Qed.
End TaskProofs.

(** Digital I/O: driving the outputs with a value sets output and LED i to bit i of it for all eight channels and
    touches no other pin, and start-up sets them all low.  One turn of the input task stores, for every channel, the
    level of its pin if the channel is enabled and 0 otherwise, changes no other register, hands exactly that sample
    with its time to the history when any channel is enabled, and waits 10 to 5000 ms. *)
Theorem digital_io {E} `{IoHooks E} (send : his_data → E → E) (read : dio_pin → bool) (v : Z) (g : pins) (s : regs E) :
  regs_ok s →
  (∀ i d l, do_pins !! i = Some d → led_pins !! i = Some l →
     mb_set_do v g d = Z.testbit v (Z.of_nat i) ∧ mb_set_do v g l = Z.testbit v (Z.of_nat i) ∧
     dio_start g d = false ∧ dio_start g l = false) ∧
  (∀ q, q ∉ do_pins ++ led_pins → mb_set_do v g q = g q) ∧
  let en := hread s HOLDING_DI_ENABLE_IDX in
  ∃ val s', di_task_turn send read s = (Done (sample_ms (hread s HOLDING_DI_SAMPLE_MS_IDX)), s') ∧
    (∀ i p, di_pins !! i = Some p → Z.testbit val (Z.of_nat i) = Z.testbit en (Z.of_nat i) && read p) ∧ is_u16 val ∧
    s' = (if decide (en = 0) then with_input INPUT_DI_IDX val s
          else send_sample send (λ t, mk_his DI_TYPE t en [val]) (with_input INPUT_DI_IDX val s)) ∧
    10 ≤ sample_ms (hread s HOLDING_DI_SAMPLE_MS_IDX) ≤ 5000.
Proof.
  intros Hs. split; [|split].
  - intros i d l Hd Hl. destruct (mb_set_do_pins v g i d l Hd Hl). by destruct (dio_start_low g i d l Hd Hl).
  - apply (set_do_loop_spec v 0 do_pins led_pins g); [lia|done|apply output_pins_distinct].
  - intros en. destruct (di_turn_result send read s Hs) as (s' & Hrun & val & Hval & Hu & Hs').
    exists val, s'. split; [exact Hrun|]. split; [exact Hval|]. split; [exact Hu|]. split; [exact Hs'|apply sample_ms_range].
Qed.

(** Analog inputs: one turn of the task stores, for each enabled channel whose conversion succeeded, the converted
    value, and keeps the old one otherwise; no other register changes; when a channel is enabled the sample with its
    time and all four values goes to the history.  For a 12-bit reading the conversion fits 16 bits, never
    overflows on the way, and is the exact value rounded down by less than one unit plus one millivolt. *)
Theorem analog_inputs {E} `{IoHooks E} (send : his_data → E → E) (conv : Z → option Z) (s : regs E) :
  regs_ok s → (∀ i raw, 0 ≤ i < 4 → conv i = Some raw → 0 ≤ raw < 4096) →
  let en := hread s HOLDING_AI_ENABLE_IDX in
  (∃ s1, adc_task_turn send conv s = (Done (sample_ms (hread s HOLDING_AI_SAMPLE_MS_IDX)),
      if decide (Z.land en 0x000F = 0) then s1
      else send_sample send (λ t, mk_his AI_TYPE t (Z.land en 0x000F) [iread s1 1; iread s1 2; iread s1 3; iread s1 4]) s1) ∧
    holding_reg s1 = holding_reg s ∧ env s1 = env s ∧ iread s1 INPUT_VER_IDX = iread s INPUT_VER_IDX ∧
    iread s1 INPUT_DI_IDX = iread s INPUT_DI_IDX ∧
    ∀ i, 0 ≤ i < 4 → iread s1 (INPUT_AI0_IDX + i)
      = if Z.testbit en i then match conv i with Some raw => ai_convert i raw | None => iread s (INPUT_AI0_IDX + i) end
        else iread s (INPUT_AI0_IDX + i)) ∧
  (∀ i raw, 0 ≤ i < 4 → conv i = Some raw →
     let exact := rd ai_coeff (Z.to_nat i) * 3300 * raw in
     0 ≤ ai_convert i raw ≤ 2445 ∧ 40960000 * ai_convert i raw ≤ exact ∧
     exact < 40960000 * (ai_convert i raw + 1) + rd ai_coeff (Z.to_nat i) * 4096).
Proof.
  intros (Hlh & Hli & _) Hraw en. split.
  - destruct (ai_loop_run 4 conv en 0 s) as (s1 & Hrun & Hh & He & Hl1 & Hc); [lia|lia|done|].
    exists s1. split; [|split; [done|split; [done|]]].
    + unfold adc_task_turn. erewrite bind_done by (apply get_holding_run; unfold HOLDING_AI_SAMPLE_MS_IDX; lia).
      erewrite bind_done by (apply get_holding_run; unfold HOLDING_AI_ENABLE_IDX; lia). fold en.
      rewrite (bind_done _ _ _ _ _ Hrun). destruct (Z.eqb_spec (Z.land en 0x000F) 0) as [E0|E0]; cbn [negb].
      * by rewrite decide_True.
      * rewrite decide_False by done. unfold call_ret, send_sample, INPUT_AI0_IDX. unfold mbind at 1, M_bind at 1.
        destruct (hook_now_epoch (env s1)) as [t e].
        erewrite !bind_done by (apply get_input_run; lia). done.
    + assert (∀ i, 0 ≤ i < 4 → iread s1 (INPUT_AI0_IDX + i) = converted conv en 0 4 s (INPUT_AI0_IDX + i)) as Hi.
      { intros i Hi. apply Hc. unfold INPUT_AI0_IDX. lia. }
      split; [apply (Hc 0); lia|]. split; [apply (Hc 5); lia|].
      intros i Hi'. rewrite Hi by done. unfold converted. replace (INPUT_AI0_IDX + i - INPUT_AI0_IDX) with i by lia.
      replace ((0 <=? i) && (i <? 0 + 4)) with true by lia. cbn [andb]. by rewrite bit_set_testbit by lia.
  - intros i raw Hi Hc exact. specialize (Hraw i raw Hi Hc). split; [by apply ai_convert_value|].
    exact (ai_convert_accuracy i raw Hi Hraw).
Qed.

(** ** Witnesses *)

Import Trace.

Lemma digital_io_witness :
  regs_ok (regs_boot 0) ∧
  (∃ val s', di_task_turn (λ _ e, e) (λ _, true) (regs_boot 0)
      = (Done (sample_ms (hread (regs_boot 0) HOLDING_DI_SAMPLE_MS_IDX)), s') ∧ is_u16 val) ∧
  mb_set_do 5 (λ _, false) (GPIOE, 10) = true ∧ mb_set_do 5 (λ _, false) (GPIOE, 9) = false.
Proof.
  destruct (digital_io (λ _ e, e) (λ _, true) 5 (λ _, false) (regs_boot 0) (regs_boot_ok 0)) as (Hout & _ & val & s' & Hrun & _ & Hv & _).
  split; [apply regs_boot_ok|]. split; [exists val, s'; split; [exact Hrun|exact Hv]|].
  split; [exact (proj1 (proj2 (Hout 2%nat (GPIOD, 9) (GPIOE, 10) eq_refl eq_refl)))|].
  exact (proj1 (proj2 (Hout 1%nat (GPIOD, 8) (GPIOE, 9) eq_refl eq_refl))).
Defined.

Lemma analog_inputs_witness :
  ai_convert 0 4095 = 2445 ∧ 40960000 * 2445 ≤ 7414 * 3300 * 4095 < 40960000 * 2446 + 7414 * 4096.
Proof.
  destruct (analog_inputs (λ _ e, e) (λ _, Some 4095) (regs_boot 0) (regs_boot_ok 0)) as [_ Hc].
  - intros i raw _ [= <-]. lia.
  - destruct (Hc 0 4095) as (Hb & Hlo & Hhi); [lia|reflexivity|].
    split; [vm_compute; reflexivity|]. split; [exact Hlo|exact Hhi].
Defined.
