(* ===== verification/Device.v ===== *)
(** The device: the modules behind [src/include/io_hooks.h] put together, the
    start-up of [src/main.c] and the link monitor of [src/net/w5500.c].

    [device] is the state of the modules the register model calls: the output
    pins (Io.v), the configuration store on its flash (ConfigStore.v), the clock
    (Clock.v) and the history (History.v).  [device_hooks] links them to the
    register model the way the firmware does, so that what a Modbus request does
    can be followed from the request to the pins and to the flash.  Each entry
    point runs here as a whole: a task switch inside one is not modelled. *)

From stdpp Require Import gmap.
From S2P Require Import Prelude IoBytes Flash ConfigStore Regmap MbServer Calendar Clock Lfs HistoryFile History Io.

Section Device.
Context {F R L : Type} `{IoFlash F} `{RtcHal R} `{Lfs L}.

Record device := mk_device {
  dev_pins : pins; dev_nor : F; dev_store : store; dev_clk : @clk R; dev_tick : Z; dev_hist : @hsys L;
  io_mutex : bool;            (* taken *)
  dev_resets : Z }.           (* calls of [NVIC_SystemReset] *)

Definition set_pins (g : pins) (d : device) : device :=
  mk_device g (dev_nor d) (dev_store d) (dev_clk d) (dev_tick d) (dev_hist d) (io_mutex d) (dev_resets d).
Definition set_store (f : F) (s : store) (d : device) : device :=
  mk_device (dev_pins d) f s (dev_clk d) (dev_tick d) (dev_hist d) (io_mutex d) (dev_resets d).
Definition set_clk (c : @clk R) (d : device) : device :=
  mk_device (dev_pins d) (dev_nor d) (dev_store d) c (dev_tick d) (dev_hist d) (io_mutex d) (dev_resets d).
Definition set_hist (h : @hsys L) (d : device) : device :=
  mk_device (dev_pins d) (dev_nor d) (dev_store d) (dev_clk d) (dev_tick d) h (io_mutex d) (dev_resets d).
Definition set_mutex (b : bool) (d : device) : device :=
  mk_device (dev_pins d) (dev_nor d) (dev_store d) (dev_clk d) (dev_tick d) (dev_hist d) b (dev_resets d).

(** [cur] is a C struct of [uint16_t]: it is read back through its bytes *)
#[export] Instance device_hooks : IoHooks device := {
  hook_set_do v d := set_pins (mb_set_do v (dev_pins d)) d;
  hook_history_enable en d := set_hist (history_enable_write en (dev_hist d)) d;
  hook_history_sync d := set_hist (history_sync (dev_hist d)) d;
  hook_set_timestamp t d := let '(ok, c) := set_timestamp (dev_tick d) t (dev_clk d) in (ok, set_clk c d);
  hook_now_epoch d := (u32 (io_now_epoch (dev_clk d)), d);
  hook_reboot_cold d :=
    mk_device (dev_pins d) (dev_nor d) (dev_store d) (dev_clk d) (dev_tick d) (dev_hist d) (io_mutex d) (dev_resets d + 1);
  hook_lock := set_mutex true;
  hook_unlock := set_mutex false;
  hook_config_get d := cfg_of_bytes (cfg_bytes (config_store_get (dev_store d)));
  hook_config_save c d := let '(ok, f, s) := config_store_save c (dev_nor d) (dev_store d) in (ok, set_store f s d);
}.

#[export] Instance device_laws : IoHooksLaws device.
Proof.
  split; try done.
  - intros. apply cfg_of_bytes_ok.
  - intros c d Hc. cbn. destruct (config_store_save _ _ _) as [[ok f] s] eqn:E. cbn. intros Hok.
    rewrite (config_store_save_cur _ _ _ _ _ _ E Hok). by apply cfg_roundtrip.
  - intros. apply u32_range.
Qed.

Abbreviation MR := (M (regs device)).

(** ** Start-up *)

(** what a restart finds: the flash, the battery-backed clock, the file system
    and the pins survive, memory does not *)
Definition power_on (version : Z * Z * Z) (g : pins) (f : F) (r : R) (l : L) (tick : Z) : regs device :=
  mk_regs holding_reg_init (input_reg_init version.1.1 version.1.2 version.2)
    (mk_device g f store_boot (clk_boot r) tick (history_init false l) false 0).

(** [boot_task], up to the sampling tasks; [mounted]: [lfs_port_mount] succeeds,
    and [l] is the file system it mounted *)
Definition boot_task (mounted : bool) (l : L) : MR unit :=
  call (λ d, set_clk (io_time_init (dev_tick d) (dev_clk d)) d);;
  call (λ d, set_store (dev_nor d) (config_store_init (dev_nor d) (dev_store d)).2 d);;
  holding_reg_load;;
  now ← call_ret hook_now_epoch;
  _ ← update_holding_reg HOLDING_TIMESTAMP_HI_IDX (u16 (Z.shiftr now 16));
  _ ← update_holding_reg HOLDING_TIMESTAMP_LO_IDX (u16 now);
  call (set_hist (history_init mounted l));;
  en ← get_holding_reg HOLDING_HISTORY_ENABLE_IDX;
  call (hook_history_enable (negb (en =? 0)));;
  call (λ d, set_pins (dio_start (dev_pins d)) d).

(** the address and gateway of [net_setup] *)
Definition def_ip : list Z := [192; 168; 12; 101].
Definition net_addr (s : regs device) : list Z * list Z :=
  let ip := [u8 (hread s HOLDING_IP_OCTET1_IDX); u8 (hread s HOLDING_IP_OCTET2_IDX);
             u8 (hread s HOLDING_IP_OCTET3_IDX); u8 (hread s HOLDING_IP_OCTET4_IDX)] in
  let ip := if negb (ip_addr_valid (rd ip 0) (rd ip 1) (rd ip 2) (rd ip 3)) then def_ip else ip in
  (ip, [rd ip 0; rd ip 1; rd ip 2; 1]).

(** the MAC from the 12 bytes of the chip's unique id *)
Definition derive_mac_from_uid (uid : list Z) : list Z :=
  [0x00; 0x08; 0xDC] ++
  ((λ i, Z.lxor (Z.lxor (rd uid i) (rd uid (i + 3))) (Z.lxor (rd uid (i + 6)) (rd uid (i + 9)))) <$> [0; 1; 2]%nat).

(** ** The link monitor *)

(** one turn of [net_mon_task]: [up] is the link now, [prev_up] at the last turn *)
Definition net_mon_turn (up prev_up : bool) : MR bool :=
  if negb up && prev_up
  then _ ← update_holding_reg HOLDING_DO_IDX 0; call (hook_set_do 0);; mret up
  else mret up.

(** ** Everything that runs on the registers *)

Inductive dev_op :=
  | DevRequest (pdu : list Z)                    (* Modbus TCP and RTU *)
  | DevWrite (addr v : Z) | DevWriteBit (bit : Z) (st : bool)   (* web and shell *)
  | DevInputs (read : dio_pin → bool) | DevAnalog (conv : Z → option Z)
  | DevLink (up prev_up : bool) | DevSave | DevTick (tick : Z) | DevHistory (h : @hsys L).

(** what sampling hands to the history *)
Definition dev_send (x : his_data) (d : device) : device := set_hist (send_history_data x (dev_hist d)).2 d.

Definition run_dev_op (o : dev_op) : M (mb device) unit :=
  match o with
  | DevRequest pdu => _ ← mb_server_process pdu; mret tt
  | DevWrite addr v => _ ← on_regs (io_write_holding (u16 addr) (u16 v)); mret tt
  | DevWriteBit bit st => _ ← on_regs (io_write_do_bit bit st); mret tt
  | DevInputs read => _ ← on_regs (di_task_turn dev_send read); mret tt
  | DevAnalog conv => _ ← on_regs (adc_task_turn dev_send conv); mret tt
  | DevLink up prev_up => _ ← on_regs (net_mon_turn up prev_up); mret tt
  | DevSave => on_regs holding_reg_save
  | DevTick tick => on_regs (call (λ d, set_clk (time_tick_cb tick (dev_clk d)) d))
  | DevHistory h => on_regs (call (set_hist h))
  end.

Fixpoint run_dev_ops (os : list dev_op) : M (mb device) unit :=
  match os with
  | [] => mret tt
  | o :: os => run_dev_op o;; run_dev_ops os
  end.
End Device.
Arguments device : clear implicits.

(** ** The outputs follow the register *)

Section Outputs.
Context {F R L : Type} `{IoFlash F} `{RtcHal R} `{Lfs L}.

(** every output and LED shows its bit of the DO register *)
Definition outputs_follow (r : regs (device F R L)) : Prop :=
  ∀ i d l, do_pins !! i = Some d → led_pins !! i = Some l →
    dev_pins (env r) d = Z.testbit (hread r HOLDING_DO_IDX) (Z.of_nat i) ∧
    dev_pins (env r) l = Z.testbit (hread r HOLDING_DO_IDX) (Z.of_nat i).

Definition outputs_inv (r : regs (device F R L)) : Prop := length (holding_reg r) = 18%nat ∧ outputs_follow r.

Lemma set_holding_outputs i v : i ≠ 0 → 0 ≤ i → preserves outputs_inv (set_holding i v).
Proof.
  intros Hi Hi0 r [Hl Ho]. split; [cbn; by rewrite length_insert|].
  intros k d l Hd Hl'. cbn. rewrite hread_insert_ne by (unfold HOLDING_DO_IDX; lia). exact (Ho k d l Hd Hl').
Qed.
Lemma set_input_outputs i v : preserves outputs_inv (set_input i v).
Proof. intros r Hr. exact Hr. Qed.

(** a call that leaves the pins alone *)
Lemma call_outputs f : (∀ d, dev_pins (f d) = dev_pins d) → preserves outputs_inv (call f).
Proof. intros Hf r [Hl Ho]. split; [done|]. intros k d l Hd Hl'. cbn. rewrite Hf. exact (Ho k d l Hd Hl'). Qed.
Lemma call_ret_outputs {A} (f : device F R L → A * device F R L) :
  (∀ d, dev_pins (f d).2 = dev_pins d) → preserves outputs_inv (call_ret f).
Proof.
  intros Hf r [Hl Ho]. unfold call_ret. specialize (Hf (env r)). destruct (f (env r)) as [a e]. cbn in *.
  split; [done|]. intros k d l Hd Hl'. cbn. rewrite Hf. exact (Ho k d l Hd Hl').
Qed.

(** storing a register value and driving the pins with it *)
Lemma drive_outputs (r : regs (device F R L)) v v' e :
  length (holding_reg r) = 18%nat → (∀ i, 0 ≤ i < 8 → Z.testbit v' i = Z.testbit v i) → (∃ g, dev_pins e = mb_set_do v' g) →
  outputs_inv (mk_regs (<[Z.to_nat HOLDING_DO_IDX := v]> (holding_reg r)) (input_reg r) e).
Proof.
  intros Hl Hv [g Hg]. split; [cbn; by rewrite length_insert|]. intros i d l Hd Hl'. cbn [env]. rewrite Hg.
  assert (i < 8)%nat as Hi by (apply lookup_lt_Some in Hd; exact Hd).
  destruct (mb_set_do_pins v' g i d l Hd Hl') as [-> ->]. rewrite Hv by lia.
  unfold hread. cbn [holding_reg]. by rewrite rd_insert_eq by (unfold HOLDING_DO_IDX; lia).
Qed.
#[local] Hint Resolve set_input_outputs : effects.
#[local] Hint Extern 2 (preserves outputs_inv (set_holding _ _)) => (apply set_holding_outputs; [by vm_compute|by vm_compute]) : effects.

(** the hooks other than the outputs leave the pins alone *)
Lemma hook_calls_outputs :
  preserves outputs_inv (call hook_lock) ∧ preserves outputs_inv (call hook_unlock) ∧
  (∀ en, preserves outputs_inv (call (hook_history_enable en))) ∧ preserves outputs_inv (call hook_history_sync) ∧
  preserves outputs_inv (call hook_reboot_cold) ∧ preserves outputs_inv (call_ret hook_now_epoch) ∧
  (∀ t, preserves outputs_inv (call_ret (hook_set_timestamp t))) ∧
  (∀ c, preserves outputs_inv (call_ret (hook_config_save c))).
Proof.
  split_and!; intros; first [apply call_outputs|apply call_ret_outputs]; intros d; try done.
  - cbn. by destruct (set_timestamp _ _ _).
  - cbn. by destruct (config_store_save _ _ _) as [[ok f] s].
Qed.

Lemma holding_reg_save_outputs : preserves outputs_inv holding_reg_save.
Proof. destruct hook_calls_outputs as (? & ? & ? & ? & ? & ? & ? & ?). unfold holding_reg_save. solve_preserves. Qed.

Lemma io_write_holding_outputs addr v : is_u16 addr → is_u16 v → preserves outputs_inv (io_write_holding addr v).
Proof.
  intros Ha Hv. unfold io_write_holding. destruct (MODBUS_HOLDING_REGISTER_NUMBERS <=? addr); [apply preserves_ret|].
  destruct (decide (addr = HOLDING_DO_IDX)) as [->|Hne].
  - intros r Hr. unfold gets, mbind, M_bind. destruct (hread r HOLDING_DO_IDX =? v); [exact Hr|].
    unfold write_effect, set_holding, call, modify. cbn -[mb_set_do Z.land].
    apply (drive_outputs r v (Z.land v 0xFF)); [apply Hr|intros; by apply land255_testbit|by eexists].
  - destruct hook_calls_outputs as (? & ? & ? & ? & ? & ? & ? & ?). pose proof holding_reg_save_outputs.
    apply preserves_bind; [apply preserves_gets|]. intros cur. destruct (cur =? v); [apply preserves_ret|].
    apply preserves_bind; [apply set_holding_outputs; [exact Hne|ulia]|]. intros _.
    apply preserves_bind; [|intros; apply preserves_ret]. unfold write_effect.
    destruct (Z.eqb_spec addr HOLDING_DO_IDX); [done|]. unfold HOLDING_CONFIG_SAVE_IDX, HOLDING_REBOOT_IDX.
    repeat match goal with |- context [if addr =? ?k then _ else _] => destruct (Z.eqb_spec addr k) as [->|] end; solve_preserves.
Qed.

Lemma io_write_do_bit_outputs bit st : preserves outputs_inv (io_write_do_bit bit st).
Proof.
  intros r Hr. destruct (Z.ltb_spec bit DO_NUM) as [Hb|Hb].
  - rewrite io_write_do_bit_eq by done. apply (drive_outputs r (do_after r bit st) (do_after r bit st)); [apply Hr|done|by eexists].
  - unfold io_write_do_bit. by replace (DO_NUM <=? bit) with true by lia.
Qed.

Lemma io_read_holding_outputs addr : preserves outputs_inv (io_read_holding addr).
Proof. destruct hook_calls_outputs as (? & ? & ? & ? & ? & ? & ? & ?). unfold io_read_holding, get_holding_reg. solve_preserves. Qed.

Lemma update_input_outputs i v : preserves outputs_inv (update_input_reg i v).
Proof. unfold update_input_reg. solve_preserves. Qed.

Lemma dev_send_outputs x : preserves outputs_inv (call (dev_send x)).
Proof. by apply call_outputs. Qed.

Lemma di_task_turn_outputs read : preserves outputs_inv (di_task_turn dev_send read).
Proof.
  destruct hook_calls_outputs as (? & ? & ? & ? & ? & ? & ? & ?). pose proof update_input_outputs. pose proof dev_send_outputs.
  unfold di_task_turn, get_holding_reg. solve_preserves.
Qed.

Lemma ai_loop_outputs n conv en i : preserves outputs_inv (ai_loop n conv en i).
Proof. pose proof update_input_outputs. revert i. induction n as [|n IH]; intros i; cbn [ai_loop]; solve_preserves. Qed.

Lemma adc_task_turn_outputs conv : preserves outputs_inv (adc_task_turn dev_send conv).
Proof.
  destruct hook_calls_outputs as (? & ? & ? & ? & ? & ? & ? & ?). pose proof ai_loop_outputs. pose proof dev_send_outputs.
  unfold adc_task_turn, get_holding_reg, get_input_reg. solve_preserves.
Qed.

Lemma net_mon_outputs up prev_up : preserves outputs_inv (net_mon_turn up prev_up).
Proof.
  unfold net_mon_turn. destruct (negb up && prev_up); [|apply preserves_ret]. intros r [Hl _].
  apply (drive_outputs r 0 0); [done|done|by eexists].
Qed.

(** no operation lets the outputs and the register part *)
Lemma run_dev_op_outputs o : preserves (mb_inv outputs_inv) (run_dev_op o).
Proof.
  destruct o; cbn [run_dev_op];
    repeat first [apply preserves_bind; [|intros; apply preserves_ret]|apply on_regs_inv]; auto using io_write_do_bit_outputs,
    di_task_turn_outputs, adc_task_turn_outputs, net_mon_outputs, holding_reg_save_outputs.
  - apply mb_server_process_inv; auto using io_write_holding_outputs, io_write_do_bit_outputs, io_read_holding_outputs.
  - apply io_write_holding_outputs; apply u16_range.
  - by apply call_outputs.
  - by apply call_outputs.
Qed.
End Outputs.

(** ** Start-up *)

Section Boot.
Context {F R L : Type} `{IoFlash F} `{RtcHal R} `{Lfs L}.

Lemma init_regs_ok {E} version (e : E) :
  regs_ok (mk_regs holding_reg_init (input_reg_init version.1.1 version.1.2 version.2) e).
Proof. split_and!; [done..| |]; cbn [holding_reg input_reg]; unfold holding_reg_init, input_reg_init; repeat constructor; ulia. Qed.

Lemma boot_task_ok mounted l : preserves regs_ok (boot_task mounted l : M (regs (device F R L)) unit).
Proof.
  pose proof (holding_reg_load_ok (E := device F R L)) as Hload.
  unfold boot_task, get_holding_reg. repeat first [exact Hload|progress intros|solve [auto with effects]|apply preserves_bind].
Qed.

(** the configuration the boot finds in the flash *)
Definition boot_config (f : F) : io_cfg :=
  cfg_of_bytes (cfg_bytes (config_store_get (config_store_init f store_boot).2)).

Lemma call_run {E} (f : E → E) (r : regs E) : call f r = (Done tt, mk_regs (holding_reg r) (input_reg r) (f (env r))).
Proof. done. Qed.
Lemma update_holding_run {E} i v (r : regs E) : i < 18 → update_holding_reg i v r = (Done true, stored_reg r i v (env r)).
Proof. intros Hi. unfold update_holding_reg, MODBUS_HOLDING_REGISTER_NUMBERS. by replace (18 <=? i) with false by lia. Qed.
Lemma now_run (r : regs (device F R L)) :
  call_ret hook_now_epoch r = (Done (u32 (io_now_epoch (dev_clk (env r)))), r).
Proof. by destruct r. Qed.

(** the start-up from the register load on *)
Lemma boot_load_run (r0 : regs (device F R L)) mounted l :
  regs_ok r0 →
  ∃ s, (holding_reg_load;;
        now ← call_ret hook_now_epoch;
        _ ← update_holding_reg HOLDING_TIMESTAMP_HI_IDX (u16 (Z.shiftr now 16));
        _ ← update_holding_reg HOLDING_TIMESTAMP_LO_IDX (u16 now);
        call (set_hist (history_init mounted l));;
        en ← get_holding_reg HOLDING_HISTORY_ENABLE_IDX;
        call (hook_history_enable (negb (en =? 0)));;
        call (λ d, set_pins (dio_start (dev_pins d)) d)) r0 = (Done tt, s) ∧
    env s = set_pins (dio_start (dev_pins (env r0)))
              (set_hist (history_enable_write (negb (hread s HOLDING_HISTORY_ENABLE_IDX =? 0)) (history_init mounted l)) (env r0)) ∧
    ∀ i, i ≤ 13 ∨ i = 16 ∨ i = 17 → 0 ≤ i → hread s i = rd (loaded (hook_config_get (env r0)) (holding_reg r0)) (Z.to_nat i).
Proof.
  intros Hr0. rewrite (bind_done _ _ _ _ _ (holding_reg_load_run r0 Hr0)).
  set (h1 := loaded (hook_config_get (env r0)) (holding_reg r0)).
  rewrite (bind_done _ _ _ _ _ (now_run _)). cbn [env].
  rewrite (bind_done _ _ _ _ _ (update_holding_run HOLDING_TIMESTAMP_HI_IDX _ _ eq_refl)).
  rewrite (bind_done _ _ _ _ _ (update_holding_run HOLDING_TIMESTAMP_LO_IDX _ _ eq_refl)).
  rewrite (bind_done _ _ _ _ _ (call_run _ _)).
  erewrite bind_done by (apply get_holding_run; unfold HOLDING_HISTORY_ENABLE_IDX; lia).
  rewrite (bind_done _ _ _ _ _ (call_run _ _)), call_run.
  eexists. split; [reflexivity|]. split; [done|].
  intros i Hi Hi0. unfold hread. cbn [holding_reg stored_reg]. unfold HOLDING_TIMESTAMP_HI_IDX, HOLDING_TIMESTAMP_LO_IDX.
  by rewrite !rd_insert_ne by lia.
Qed.

Lemma boot_task_run version g f r l tick mounted l' :
  ∃ s, boot_task mounted l' (power_on version g f r l tick : regs (device F R L)) = (Done tt, s) ∧
    dev_nor (env s) = f ∧ dev_store (env s) = (config_store_init f store_boot).2 ∧ dev_pins (env s) = dio_start g ∧
    history_enabled (dev_hist (env s)) = negb (hread s HOLDING_HISTORY_ENABLE_IDX =? 0) ∧
    ∀ i, i ≤ 13 ∨ i = 16 ∨ i = 17 → 0 ≤ i → hread s i = rd (loaded (boot_config f) holding_reg_init) (Z.to_nat i).
Proof.
  unfold boot_task, power_on. set (d0 := mk_device _ _ _ _ _ _ _ _).
  rewrite (bind_done _ _ _ _ _ (call_run _ _)), (bind_done _ _ _ _ _ (call_run _ _)). cbn [holding_reg input_reg env].
  set (e := set_store _ _ _).
  destruct (boot_load_run (mk_regs holding_reg_init (input_reg_init version.1.1 version.1.2 version.2) e) mounted l'
              (init_regs_ok version e)) as (s & Hrun & He & Hregs).
  exists s. split; [exact Hrun|].
  rewrite He. cbn [env holding_reg] in Hregs. assert (hook_config_get e = boot_config f) as Hc by reflexivity.
  rewrite Hc in Hregs. clear Hc Hrun He. split; [reflexivity|]. split; [reflexivity|]. split; [reflexivity|]. split; [|exact Hregs].
  cbn. by destruct (negb _).
Qed.

Lemma boot_task_regs_ok version g f r l tick mounted l' s :
  boot_task mounted l' (power_on version g f r l tick : regs (device F R L)) = (Done tt, s) → regs_ok s.
Proof. apply preserves_result; [apply boot_task_ok|apply init_regs_ok]. Qed.
End Boot.

(** ** Properties *)

Section Saved.
Context {F R L : Type} `{FlashLaws F} `{RtcHal R} `{Lfs L}.

(** a save through the hooks: the configuration a boot from that flash finds *)
Lemma hook_save_boot (c : io_cfg) (d : device F R L) :
  cfg_ok c → store_ok (dev_nor d) (dev_store d) → cur_gen (dev_store d) + 1 < 2 ^ 32 →
  ∃ f st, (hook_config_save c d).2 = set_store f st d ∧ store_ok f st ∧ boot_config f = c.
Proof.
  intros Hc Hst Hg. destruct (config_store_save_ok c (dev_nor d) (dev_store d) Hst Hc Hg) as (f & st & Hsave & Hok & Hcur & _).
  exists f, st. cbn. rewrite Hsave. split; [done|]. split; [done|].
  unfold boot_config. rewrite (config_store_init_of_ok f st store_boot Hok). cbn [snd].
  unfold config_store_get. destruct Hok as [-> _]. rewrite Hcur. by apply cfg_roundtrip.
Qed.
End Saved.

(** a read of output coils or discrete inputs that exist *)
Lemma read_coils_run {E} `{IoHooks E} (s : mb E) addr qty :
  0 ≤ addr → 0 < qty → addr + qty ≤ DO_NUM →
  ∃ data, mb_server_process (req_read MB_FC01_COIL_RD addr qty) s
          = (Done (Some (MB_FC01_COIL_RD :: ((qty - 1) / 8 + 1) :: data)), mb_tick s) ∧
    ∀ k, 0 ≤ k < qty → dbit data k = Z.testbit (hread (mb_regs s) HOLDING_DO_IDX) (addr + k).
Proof.
  intros Ha Hq Hb. unfold DO_NUM in Hb.
  destruct (read_bits_hit (@io_coil_rd E) MB_FC01_COIL_RD addr qty (λ k, Z.testbit (hread (mb_regs s) HOLDING_DO_IDX) (addr + k))
              (mb_tick s)) as (data & Hr & _ & _ & Hbit); [ulia|ulia|lia|lia| |].
  { intros k Hk. apply io_coil_rd_bit. unfold DO_NUM. lia. }
  exists data. split; [exact Hr|]. intros k Hk. rewrite Hbit by lia. by replace (k <? qty) with true by lia.
Qed.
Lemma read_inputs_run {E} `{IoHooks E} (s : mb E) addr qty :
  0 ≤ addr → 0 < qty → addr + qty ≤ DI_NUM →
  ∃ data, mb_server_process (req_read MB_FC02_DI_RD addr qty) s
          = (Done (Some (MB_FC02_DI_RD :: ((qty - 1) / 8 + 1) :: data)), mb_tick s) ∧
    ∀ k, 0 ≤ k < qty → dbit data k = Z.testbit (iread (mb_regs s) INPUT_DI_IDX) (addr + k).
Proof.
  intros Ha Hq Hb. unfold DI_NUM in Hb.
  destruct (read_bits_hit (@io_discrete_rd E) MB_FC02_DI_RD addr qty (λ k, Z.testbit (iread (mb_regs s) INPUT_DI_IDX) (addr + k))
              (mb_tick s)) as (data & Hr & _ & _ & Hbit); [ulia|ulia|lia|lia| |].
  { intros k Hk. apply io_discrete_rd_bit. unfold DI_NUM. lia. }
  exists data. split; [exact Hr|]. intros k Hk. rewrite Hbit by lia. by replace (k <? qty) with true by lia.
Qed.


(** What the field inputs show is what Modbus reports: after a turn of the input task, a read of any discrete
    inputs is answered, input by input, with the level its pin had in that turn if the input is enabled and 0 if not. *)
Theorem inputs_reported {F R L} `{IoFlash F} `{RtcHal R} `{Lfs L} (s : mb (device F R L)) (read : dio_pin → bool) (addr qty : Z) :
  mb_ok s → 0 ≤ addr → 0 < qty → addr + qty ≤ DI_NUM →
  ∃ s1 data, run_dev_op (DevInputs read) s = (Done tt, s1) ∧
    mb_server_process (req_read MB_FC02_DI_RD addr qty) s1
    = (Done (Some (MB_FC02_DI_RD :: ((qty - 1) / 8 + 1) :: data)), mb_tick s1) ∧
    ∀ k p, 0 ≤ k < qty → di_pins !! Z.to_nat (addr + k) = Some p →
      dbit data k = Z.testbit (hread (mb_regs s) HOLDING_DI_ENABLE_IDX) (addr + k) && read p.
Proof.
  intros Hs Ha Hq Hb. destruct (di_turn_result dev_send read (mb_regs s)) as (r1 & Hrun & val & Hv & _ & Hr1); [apply Hs|].
  assert (iread r1 INPUT_DI_IDX = val) as Hin.
  { rewrite Hr1. assert (length (input_reg (mb_regs s)) = 6%nat) as Hl by apply Hs.
    destruct (decide _); unfold send_sample; [|destruct (hook_now_epoch _)]; unfold iread; cbn [with_input with_env input_reg];
      (rewrite rd_insert_eq; [done|rewrite Hl; unfold INPUT_DI_IDX; lia]). }
  exists (mk_mb r1 (diag_ctr s)). destruct (read_inputs_run (mk_mb r1 (diag_ctr s)) addr qty Ha Hq Hb) as (data & Hr & Hbit).
  exists data. split; [|split; [exact Hr|]].
  - cbn [run_dev_op]. by rewrite (bind_done _ _ _ _ _ (on_regs_done _ _ _ _ Hrun)).
  - intros k p Hk Hp. rewrite Hbit by done. cbn [mb_regs]. rewrite Hin, <- (Z2Nat.id (addr + k)) by lia. by apply Hv.
Qed.

(** C4: The configuration survives a restart of the whole device: a Modbus write to the save register is echoed, and
    whenever the device then starts again from that flash - whatever the clock, the file system and the pins hold - it
    comes up with the parameter registers of the moment of the save, the same network address if that address was
    valid, the history switched as configured, all outputs and LEDs off, and a sound configuration store. *)
Theorem config_survives_reset {F R L} `{FlashLaws F} `{RtcHal R} `{Lfs L} (s : mb (device F R L)) (v : Z) :
  mb_ok s → is_u16 v → v ≠ 0 → hread (mb_regs s) HOLDING_CONFIG_SAVE_IDX = 0 →
  let d := env (mb_regs s) in
  store_ok (dev_nor d) (dev_store d) → cur_gen (dev_store d) + 1 < 2 ^ 32 →
  let body := io_put_be16 HOLDING_CONFIG_SAVE_IDX ++ io_put_be16 v in
  ∃ s1, mb_server_process (MB_FC06_HOLDING_REG_WR :: body) s = (Done (Some (MB_FC06_HOLDING_REG_WR :: body)), s1) ∧
    ∀ version g rt l tick mounted l',
    ∃ s2, boot_task mounted l' (power_on version g (dev_nor (env (mb_regs s1))) rt l tick : regs (device F R L)) = (Done tt, s2) ∧
      regs_ok s2 ∧ store_ok (dev_nor (env s2)) (dev_store (env s2)) ∧
      (∀ i, HOLDING_DI_ENABLE_IDX ≤ i ≤ HOLDING_SLAVE_ID_IDX → hread s2 i = hread (mb_regs s) i) ∧
      (ip_is_valid_for_export (mb_regs s) = true → net_addr s2 = net_addr (mb_regs s)) ∧
      history_enabled (dev_hist (env s2)) = negb (hread (mb_regs s) HOLDING_HISTORY_ENABLE_IDX =? 0) ∧
      hread s2 HOLDING_DO_IDX = 0 ∧
      (∀ i o l, do_pins !! i = Some o → led_pins !! i = Some l → dev_pins (env s2) o = false ∧ dev_pins (env s2) l = false).
Proof.
  intros Hs Hv Hv0 Hz d Hst Hgen body. set (r := mb_regs (mb_tick s)).
  destruct (io_write_holding_save r v) as (r1 & Hw & Hr1 & _ & He1); [apply Hs|done|done|].
  exists (mk_mb r1 (diag_ctr (mb_tick s))). split.
  { rewrite process_cons. unfold mb_dispatch. simpl (MB_FC06_HOLDING_REG_WR =? _). cbv iota. unfold fc06_hreg_write, body.
    rewrite be16_pair_len, get_be16_put, be16_pair_snd by (done || (unfold HOLDING_CONFIG_SAVE_IDX; ulia)).
    change (4 =? 4) with true. cbn [negb]. cbv zeta.
    erewrite bind_done by (apply on_regs_done; exact Hw). done. }
  intros version g rt l tick mounted l'. cbn [mb_regs]. rewrite He1. change (env r) with d.
  destruct (hook_save_boot (cfg_export (hook_config_get (hook_lock d)) r) (hook_lock d)) as (f & st & -> & Hok & Hboot);
    [apply cfg_export_ok; [apply config_get_ok|apply Hs]|done|done|].
  cbn [hook_unlock device_hooks set_mutex set_store dev_nor].
  destruct (boot_task_run version g f rt l tick mounted l') as (s2 & Hrun & Hf & Hs2 & Hp & Hh & Hregs).
  pose proof (boot_task_regs_ok _ _ _ _ _ _ _ _ _ Hrun) as Hok2.
  destruct (loaded_export (hook_config_get (hook_lock d)) r holding_reg_init) as (Hpar & Hip & Hrest); [apply Hs|done|].
  rewrite Hboot in Hregs. exists s2. split; [exact Hrun|]. split; [done|].
  split; [by rewrite Hf, Hs2, (config_store_init_of_ok f st store_boot Hok)|].
  assert (∀ i, HOLDING_DI_ENABLE_IDX ≤ i ≤ HOLDING_SLAVE_ID_IDX → hread s2 i = hread (mb_regs s) i) as Hparams.
  { intros i Hi. unfold HOLDING_DI_ENABLE_IDX, HOLDING_SLAVE_ID_IDX in Hi. rewrite Hregs by lia. by apply Hpar. }
  split; [done|]. split; [|split; [|split]].
  - intros Hvalid. unfold net_addr. specialize (Hip Hvalid).
    assert (∀ i, 10 ≤ i ≤ 13 → hread s2 i = hread (mb_regs s) i) as Hipr.
    { intros i Hi. rewrite Hregs by lia. by apply Hip. }
    by rewrite !(Hipr _) by (unfold HOLDING_IP_OCTET1_IDX, HOLDING_IP_OCTET2_IDX, HOLDING_IP_OCTET3_IDX, HOLDING_IP_OCTET4_IDX; lia).
  - rewrite Hh, Hparams; [done|]. unfold HOLDING_HISTORY_ENABLE_IDX, HOLDING_DI_ENABLE_IDX, HOLDING_SLAVE_ID_IDX. lia.
  - rewrite Hregs by (unfold HOLDING_DO_IDX; lia). by rewrite (Hrest HOLDING_DO_IDX) by (by left).
  - intros i o led Hd Hl. rewrite Hp. by apply (dio_start_low g i).
Qed.

(** ** Witnesses *)

Import RamFs.

Definition dev_new : mb (device Nor.nor rtc_regs RamFs.ramfs) :=
  mk_mb (mk_regs holding_reg_init (input_reg_init 0 3 0)
           (mk_device (λ _, false) boot_nor boot_store clk_new 0 (history_init true RamFs.empty_fs) false 0)) diag_init.

Lemma dev_new_ok : mb_ok dev_new.
Proof.
  split; [|split; [done|repeat constructor; ulia]].
  split_and!; [done..| |]; cbn [dev_new mb_regs holding_reg input_reg]; unfold holding_reg_init, input_reg_init; repeat constructor; ulia.
Qed.

Lemma config_survives_reset_witness :
  ∃ s1, mb_server_process [6; 0; 16; 0; 1] dev_new = (Done (Some [6; 0; 16; 0; 1]), s1) ∧
  ∃ s2, boot_task true RamFs.empty_fs
          (power_on (0, 3, 0) (λ _, true) (dev_nor (env (mb_regs s1))) (hrtc clk_new) RamFs.empty_fs 0
           : regs (device Nor.nor rtc_regs RamFs.ramfs)) = (Done tt, s2) ∧ hread s2 HOLDING_RS485_BAUDRATE_IDX = 9600.
Proof.
  destruct (config_survives_reset dev_new 1 dev_new_ok) as (s1 & Hrun & Hboot); [ulia|lia|reflexivity|exact boot_store_ok| |].
  - vm_compute. reflexivity.
  - exists s1. split; [exact Hrun|].
    destruct (Hboot (0, 3, 0) (λ _, true) (hrtc clk_new) RamFs.empty_fs 0 true RamFs.empty_fs) as (s2 & Hr & _ & _ & Hp & _).
    exists s2. split; [exact Hr|]. rewrite Hp by (unfold HOLDING_DI_ENABLE_IDX, HOLDING_RS485_BAUDRATE_IDX, HOLDING_SLAVE_ID_IDX; lia).
    reflexivity.
Defined.


Lemma inputs_reported_witness :
  ∃ s1 data, run_dev_op (DevInputs (λ p, bool_decide (p = (GPIOD, 5)))) dev_new = (Done tt, s1) ∧
    mb_server_process (req_read MB_FC02_DI_RD 2 1) s1 = (Done (Some (MB_FC02_DI_RD :: 1 :: data)), mb_tick s1) ∧ dbit data 0 = true.
Proof.
  destruct (inputs_reported dev_new (λ p, bool_decide (p = (GPIOD, 5))) 2 1 dev_new_ok) as (s1 & data & Hrun & Hread & Hbit);
    [lia|lia|unfold DI_NUM; lia|].
  exists s1, data. split; [exact Hrun|]. split; [exact Hread|].
  rewrite (Hbit 0 (GPIOD, 5)); [vm_compute; reflexivity|lia|reflexivity].
Defined.
