(* ===== verification/Log.v ===== *)
(** The asynchronous log: [src/sys/log.c].

    Lines go through a ring of 4096 bytes: any task appends a whole line under a
    lock, one task of its own sends.  [log_step] is the relation of the atomic
    steps of the appending task and the logger; what is sent is the sequence of
    [log_emit] calls, that is, the bytes handed to the UART driver.  The task
    notification only wakes the logger: here it may wake at any time. *)

From S2P Require Import Prelude IoBytes Calendar.

Definition LOG_LINE_MAX : Z := 160.
Definition LOG_RING_SIZE : Z := 4096.
Definition LOG_RING_MASK : Z := LOG_RING_SIZE - 1.

(** ** The line *)

(** [log_vline]: [text] is what the format expands to; [vsnprintf] stores what
    fits with its terminator and returns the full length *)
Definition log_vline (prefix : option (list Z)) (text : list Z) : list Z :=
  let pre := match prefix with Some p => p | None => [] end in
  let n := zlen pre in
  let buf := pre ++ take (Z.to_nat (LOG_LINE_MAX - n - 1)) text in
  let m := zlen text in
  let n := if 0 <? m then n + m else n in
  let n := if LOG_LINE_MAX - 3 <? n then LOG_LINE_MAX - 3 else n in
  take (Z.to_nat n) buf ++ [13; 10].

(** ["%02d"] and ["%03u"] *)
Definition pad2 (v : Z) : list Z := if v <? 10 then 48 :: dec v else dec v.
Definition pad3 (v : Z) : list Z := if v <? 10 then 48 :: 48 :: dec v else if v <? 100 then 48 :: dec v else dec v.

(** the prefix of [log_write]: "[HH:MM:SS.mmm][L] "; [None] if [gmtime_r] fails *)
Definition log_prefix (epoch ms level : Z) : option (list Z) :=
  let t := u32 (u32 epoch + 8 * 3600) mod 86400 in
  tm ← gmtime_r t;
  Some ([91] ++ pad2 (tm_hour tm) ++ [58] ++ pad2 (tm_min tm) ++ [58] ++ pad2 (tm_sec tm) ++ [46] ++ pad3 ms ++
        [93; 91] ++ [level] ++ [93; 32]).

Definition log_write (epoch ms level : Z) (text : list Z) : option (list Z) :=
  p ← log_prefix epoch ms level; Some (log_vline (Some p) text).

(** "[W] N log lines dropped" *)
Definition dropped_text (d : Z) : list Z :=
  [91; 87; 93; 32] ++ dec d ++
  [32; 108; 111; 103; 32; 108; 105; 110; 101; 115; 32; 100; 114; 111; 112; 112; 101; 100; 13; 10].

(** ** The ring *)

(** where [log_push] is: outside; before its two copies; before it moves the
    head; between the read and the write of the drop counter *)
Inductive push_phase :=
  | PushIdle | PushCopy (head : Z) (buf : list Z) | PushWrap (head : Z) (buf : list Z) | PushHead (head : Z) (buf : list Z)
  | PushDrop | PushCount (d : Z).

(** where the logger is *)
Inductive task_phase :=
  | LogWait | LogCheck | LogEmit (tail chunk : Z) | LogTail (tail chunk : Z) | LogDropped | LogClear (d : Z) | LogReport (d : Z).

Record log := mk_log {
  log_ring : list Z; ring_head : Z; ring_tail : Z; log_dropped : Z; log_push_at : push_phase; log_task_at : task_phase }.

Definition log_init : log := mk_log (replicate 4096 0) 0 0 0 PushIdle LogWait.

Definition at_push (p : push_phase) (s : log) : log :=
  mk_log (log_ring s) (ring_head s) (ring_tail s) (log_dropped s) p (log_task_at s).
Definition at_task (t : task_phase) (s : log) : log :=
  mk_log (log_ring s) (ring_head s) (ring_tail s) (log_dropped s) (log_push_at s) t.
Definition set_ring (r : list Z) (s : log) : log :=
  mk_log r (ring_head s) (ring_tail s) (log_dropped s) (log_push_at s) (log_task_at s).
Definition set_head (h : Z) (s : log) : log :=
  mk_log (log_ring s) h (ring_tail s) (log_dropped s) (log_push_at s) (log_task_at s).
Definition set_tail (t : Z) (s : log) : log :=
  mk_log (log_ring s) (ring_head s) t (log_dropped s) (log_push_at s) (log_task_at s).
Definition set_dropped (d : Z) (s : log) : log :=
  mk_log (log_ring s) (ring_head s) (ring_tail s) d (log_push_at s) (log_task_at s).

Inductive log_event :=
  | EvLine (buf : list Z)      (* a line became visible to the logger *)
  | EvRefused (buf : list Z)   (* a line was dropped *)
  | EvSent (bs : list Z)       (* [log_emit] of bytes of the ring *)
  | EvReport (d : Z).          (* [log_emit] of the drop report *)

Definition ring_off (x : Z) : Z := Z.land x LOG_RING_MASK.
Definition push_space (s : log) : Z := u32 (LOG_RING_SIZE - u32 (ring_head s - ring_tail s)).
(** the part of a line up to the end of the ring *)
Definition push_first (head len : Z) : Z :=
  let first := LOG_RING_SIZE - ring_off head in if len <? first then len else first.

(** [log_push], under its lock; an empty line returns at once *)
Inductive push_step : log → list log_event → log → Prop :=
  | push_refuse s buf :
      log_push_at s = PushIdle → 0 < zlen buf < 65536 → push_space s < zlen buf →
      push_step s [EvRefused buf] (at_push PushDrop s)
  | push_accept s buf :
      log_push_at s = PushIdle → 0 < zlen buf < 65536 → zlen buf ≤ push_space s →
      push_step s [] (at_push (PushCopy (ring_head s) buf) s)
  | push_copy s head buf :
      log_push_at s = PushCopy head buf →
      push_step s [] (at_push (PushWrap head buf)
        (set_ring (splice (Z.to_nat (ring_off head)) (take (Z.to_nat (push_first head (zlen buf))) buf) (log_ring s)) s))
  | push_wrap s head buf :
      log_push_at s = PushWrap head buf →
      push_step s [] (at_push (PushHead head buf)
        (if push_first head (zlen buf) <? zlen buf
         then set_ring (splice 0 (drop (Z.to_nat (push_first head (zlen buf))) buf) (log_ring s)) s else s))
  | push_publish s head buf :
      log_push_at s = PushHead head buf →
      push_step s [EvLine buf] (at_push PushIdle (set_head (u32 (head + zlen buf)) s))
  | push_count_read s : log_push_at s = PushDrop → push_step s [] (at_push (PushCount (log_dropped s)) s)
  | push_count_write s d : log_push_at s = PushCount d → push_step s [] (at_push PushIdle (set_dropped (u32 (d + 1)) s)).

(** [log_task_fn] *)
Inductive log_task_step : log → list log_event → log → Prop :=
  | task_notified s : log_task_at s = LogWait → log_task_step s [] (at_task LogCheck s)
  | task_empty s :
      log_task_at s = LogCheck → u32 (ring_head s - ring_tail s) = 0 → log_task_step s [] (at_task LogDropped s)
  | task_take s :
      log_task_at s = LogCheck → u32 (ring_head s - ring_tail s) ≠ 0 →
      let used := u32 (ring_head s - ring_tail s) in
      let room := LOG_RING_SIZE - ring_off (ring_tail s) in
      log_task_step s [] (at_task (LogEmit (ring_tail s) (if used <? room then used else room)) s)
  | task_emit s tail chunk :
      log_task_at s = LogEmit tail chunk →
      log_task_step s [EvSent (slice (Z.to_nat (ring_off tail)) (Z.to_nat (u16 chunk)) (log_ring s))] (at_task (LogTail tail chunk) s)
  | task_tail s tail chunk :
      log_task_at s = LogTail tail chunk → log_task_step s [] (at_task LogCheck (set_tail (u32 (tail + chunk)) s))
  | task_none s : log_task_at s = LogDropped → log_dropped s = 0 → log_task_step s [] (at_task LogWait s)
  | task_some s : log_task_at s = LogDropped → log_dropped s ≠ 0 → log_task_step s [] (at_task (LogClear (log_dropped s)) s)
  | task_clear s d : log_task_at s = LogClear d → log_task_step s [] (at_task (LogReport d) (set_dropped 0 s))
  | task_report s d : log_task_at s = LogReport d → log_task_step s [EvReport d] (at_task LogWait s).

Inductive log_step (s : log) (ev : list log_event) (s' : log) : Prop :=
  | step_push : push_step s ev s' → log_step s ev s'
  | step_task : log_task_step s ev s' → log_step s ev s'.

Inductive log_run : log → list log_event → log → Prop :=
  | log_run_nil s : log_run s [] s
  | log_run_step s1 ev1 s2 ev2 s3 : log_run s1 ev1 s2 → log_step s2 ev2 s3 → log_run s1 (ev1 ++ ev2) s3.

(** [log_flush]: the loop over the ticks it reads; [true] when it saw the queue
    empty, [false] at the deadline, [None] when the list ends first *)
Fixpoint log_flush_loop (deadline : Z) (polls : list (log * Z)) : option bool :=
  match polls with
  | [] => None
  | (s, now) :: polls =>
    if (ring_head s =? ring_tail s) && (log_dropped s =? 0) then Some true
    else if u32 (now - deadline) <? 2147483648 then Some false   (* as [int32_t], at least 0 *)
    else log_flush_loop deadline polls
  end.

Definition log_flush (now timeout : Z) (polls : list (log * Z)) : option bool :=
  log_flush_loop (u32 (now + timeout)) polls.

(** ** Lines *)

Lemma log_vline_spec prefix text :
  let pre := match prefix with Some p => p | None => [] end in
  zlen pre ≤ LOG_LINE_MAX - 3 →
  log_vline prefix text = take (Z.to_nat (LOG_LINE_MAX - 3)) (pre ++ text) ++ [13; 10].
Proof.
  intros pre Hp. unfold log_vline, LOG_LINE_MAX in *. fold pre. f_equal. unfold zlen in *.
  destruct (Z.ltb_spec 0 (Z.of_nat (length text))) as [Ht|Ht].
  - destruct (Z.ltb_spec (160 - 3) (Z.of_nat (length pre) + Z.of_nat (length text))).
    + rewrite !take_app. f_equal. rewrite take_take. f_equal. lia.
    + rewrite (take_ge text) by lia. rewrite !take_ge by (rewrite length_app; lia). done.
  - assert (text = []) as -> by (destruct text; [done|cbn in Ht; lia]). rewrite take_nil, app_nil_r.
    destruct (Z.ltb_spec (160 - 3) (Z.of_nat (length pre))); [lia|]. rewrite !take_ge by lia. done.
Qed.

(** ** The ring is a queue of bytes *)

Definition lines (evs : list log_event) : list (list Z) := omap (λ e, match e with EvLine b => Some b | _ => None end) evs.
Definition sent (evs : list log_event) : list Z := concat (omap (λ e, match e with EvSent b => Some b | _ => None end) evs).

Lemma lines_app e1 e2 : lines (e1 ++ e2) = lines e1 ++ lines e2.
Proof. apply omap_app. Qed.
Lemma sent_app e1 e2 : sent (e1 ++ e2) = sent e1 ++ sent e2.
Proof. unfold sent. by rewrite omap_app, concat_app. Qed.

Lemma ring_off_mod x : 0 ≤ x → ring_off (u32 x) = x mod 4096.
Proof.
  intros Hx. unfold ring_off, LOG_RING_MASK, LOG_RING_SIZE. change (4096 - 1) with (Z.ones 12). rewrite Z.land_ones by lia.
  change (2 ^ 12) with 4096. unfold u32. Z.div_mod_to_equations. lia.
Qed.

Lemma ring_used P adv : 0 ≤ adv ≤ P → P - adv ≤ 4096 → u32 (u32 P - u32 adv) = P - adv.
Proof. intros. ulia. Qed.

(** byte [k] of the stream is in its cell *)
Definition in_ring (ring : list Z) (pub : list Z) (k : Z) : Prop := rd ring (Z.to_nat (k mod 4096)) = rd pub (Z.to_nat k).

(** the appending task, [P] bytes being published and [adv] released *)
Definition push_inv (ring : list Z) (P adv : Z) (p : push_phase) : Prop :=
  match p with
  | PushCopy h b | PushWrap h b | PushHead h b =>
    h = u32 P ∧ 0 < zlen b ∧ P - adv + zlen b ≤ 4096 ∧
    ∀ i, 0 ≤ i < match p with PushCopy _ _ => 0 | PushWrap h b => push_first h (zlen b) | _ => zlen b end →
      rd ring (Z.to_nat ((P + i) mod 4096)) = rd b (Z.to_nat i)
  | _ => True
  end.

(** the logger: what it has sent *)
Definition task_inv (lns : list (list Z)) (snt : list Z) (adv : Z) (tail : Z) (t : task_phase) : Prop :=
  let pub := concat lns in
  match t with
  | LogEmit t c | LogTail t c =>
    t = tail ∧ 0 < c ≤ zlen pub - adv ∧ adv mod 4096 + c ≤ 4096
  | LogDropped | LogClear _ | LogReport _ => ∃ k, snt = concat (take k lns)
  | _ => True
  end ∧
  snt = take (Z.to_nat (match t with LogTail _ c => adv + c | _ => adv end)) pub.

Record log_inv (evs : list log_event) (s : log) (adv : Z) : Prop := mk_log_inv {
  inv_ring : length (log_ring s) = 4096%nat;
  inv_head : ring_head s = u32 (zlen (concat (lines evs)));
  inv_tail : ring_tail s = u32 adv;
  inv_adv : 0 ≤ adv ≤ zlen (concat (lines evs));
  inv_used : zlen (concat (lines evs)) - adv ≤ 4096;
  inv_data k : adv ≤ k < zlen (concat (lines evs)) → in_ring (log_ring s) (concat (lines evs)) k;
  inv_push : push_inv (log_ring s) (zlen (concat (lines evs))) adv (log_push_at s);
  inv_task : task_inv (lines evs) (sent evs) adv (ring_tail s) (log_task_at s) }.

(** writing [src] for the positions from [base] on *)
Lemma ring_write ring base src :
  length ring = 4096%nat → 0 ≤ base → base mod 4096 + zlen src ≤ 4096 →
  let ring' := splice (Z.to_nat (base mod 4096)) src ring in
  length ring' = 4096%nat ∧
  (∀ k, 0 ≤ k → base + zlen src - 4096 ≤ k < base → rd ring' (Z.to_nat (k mod 4096)) = rd ring (Z.to_nat (k mod 4096))) ∧
  ∀ i, 0 ≤ i < zlen src → rd ring' (Z.to_nat ((base + i) mod 4096)) = rd src (Z.to_nat i).
Proof.
  intros Hl Hb Hfit ring'. unfold zlen in *. pose proof (Z.mod_pos_bound base 4096 eq_refl) as Hm.
  assert (Z.to_nat (base mod 4096) + length src ≤ length ring)%nat as Hroom by lia.
  split; [by unfold ring'; rewrite length_splice|]. split.
  - intros k Hk Hw. unfold ring'. rewrite rd_splice by done. destruct (decide _) as [Hin|]; [|done]. exfalso.
    pose proof (Z.mod_pos_bound k 4096 eq_refl). Z.div_mod_to_equations. lia.
  - intros i Hi. unfold ring'. rewrite rd_splice by done.
    assert ((base + i) mod 4096 = base mod 4096 + i) as -> by (Z.div_mod_to_equations; lia).
    rewrite decide_True by lia. f_equal. lia.
Qed.

Lemma push_first_range P len : 0 ≤ P → 0 < len → push_first (u32 P) len = Z.min len (4096 - P mod 4096).
Proof.
  intros HP Hl. unfold push_first. rewrite ring_off_mod by done. unfold LOG_RING_SIZE.
  destruct (Z.ltb_spec len (4096 - P mod 4096)); lia.
Qed.

(** a line published behind the logger's back *)
Lemma task_inv_publish lns snt adv tail t buf :
  task_inv lns snt adv tail t → 0 ≤ adv ≤ zlen (concat lns) → task_inv (lns ++ [buf]) snt adv tail t.
Proof.
  intros [Hph Hsent] Ha.
  assert (concat (lns ++ [buf]) = concat lns ++ buf) as Ec by (rewrite concat_app; cbn; by rewrite app_nil_r).
  pose proof (zlen_nonneg buf) as Hb. unfold task_inv. rewrite Ec. split.
  - assert ((∃ k, snt = concat (take k lns)) → ∃ k, snt = concat (take k (lns ++ [buf]))) as Hk.
    { intros [k ->]. destruct (decide (k ≤ length lns)%nat).
      - exists k. by rewrite take_app_le.
      - exists (length lns). by rewrite take_app_length, take_ge by lia. }
    destruct t; cbn in *; try done; try (by apply Hk); rewrite zlen_app; (destruct Hph as (? & ? & ?); split_and!; [done|lia..]).
  - rewrite Hsent. rewrite take_app_le; [done|].
    destruct t; cbn in Hph; unfold zlen in *; lia.
Qed.

(** copying a piece of a line past the end of the stream leaves the stream alone *)
Lemma in_ring_write ring pub adv base src :
  length ring = 4096%nat → 0 ≤ adv → zlen pub ≤ base → base - adv + zlen src ≤ 4096 → base mod 4096 + zlen src ≤ 4096 →
  (∀ k, adv ≤ k < zlen pub → in_ring ring pub k) →
  ∀ k, adv ≤ k < zlen pub → in_ring (splice (Z.to_nat (base mod 4096)) src ring) pub k.
Proof.
  intros Hl Ha Hb Hroom Hfit Hd k Hk. unfold in_ring. pose proof (zlen_nonneg pub).
  destruct (ring_write ring base src) as (_ & Hkeep & _); [done|lia|done|]. rewrite Hkeep by lia. by apply Hd.
Qed.

Lemma quiet_events evs ev :
  lines ev = [] → sent ev = [] → lines (evs ++ ev) = lines evs ∧ sent (evs ++ ev) = sent evs.
Proof. intros E1 E2. by rewrite lines_app, sent_app, E1, E2, !app_nil_r. Qed.

Lemma lines_sent evs b : lines (evs ++ [EvSent b]) = lines evs.
Proof. rewrite lines_app. apply app_nil_r. Qed.

Lemma push_copy_inv evs s h buf adv :
  log_inv evs s adv → log_push_at s = PushCopy h buf →
  log_inv evs (at_push (PushWrap h buf)
        (set_ring (splice (Z.to_nat (ring_off h)) (take (Z.to_nat (push_first h (zlen buf))) buf) (log_ring s)) s)) adv.
Proof.
  intros [Hlen Hh Ht Ha Hu Hd Hp Htk] Hpi. set (P := zlen (concat (lines evs))) in *. rewrite Hpi in Hp. cbn in Hp.
  destruct Hp as (-> & Hb & Hroom & _).
  rewrite push_first_range, ring_off_mod by lia. set (fst := Z.min _ _).
  pose proof (Z.mod_pos_bound P 4096 eq_refl) as Hm.
  assert (zlen (take (Z.to_nat fst) buf) = fst) as Hf by (unfold zlen in *; rewrite length_take; unfold fst; lia).
  destruct (ring_write (log_ring s) P (take (Z.to_nat fst) buf)) as (Hl' & _ & Hi'); [done|lia|lia|].
  split; try done.
  - intros k Hk. cbn. apply (in_ring_write (log_ring s) _ adv); try done; fold P; lia.
  - cbn. fold P. rewrite push_first_range by lia. fold fst. split; [done|]. split; [done|]. split; [done|].
    intros i Hi. rewrite Hi' by lia. by rewrite rd_take by lia.
Qed.

Lemma push_wrap_inv evs s h buf adv :
  log_inv evs s adv → log_push_at s = PushWrap h buf →
  log_inv evs (at_push (PushHead h buf)
        (if push_first h (zlen buf) <? zlen buf
         then set_ring (splice 0 (drop (Z.to_nat (push_first h (zlen buf))) buf) (log_ring s)) s else s)) adv.
Proof.
  intros [Hlen Hh Ht Ha Hu Hd Hp Htk] Hpi. set (P := zlen (concat (lines evs))) in *. rewrite Hpi in Hp. cbn in Hp.
  destruct Hp as (-> & Hb & Hroom & Hc). rewrite push_first_range in * by lia. set (fst := Z.min _ _) in *.
  pose proof (Z.mod_pos_bound P 4096 eq_refl) as Hm.
  destruct (Z.ltb_spec fst (zlen buf)) as [Hlt|Hge].
  - assert (zlen (drop (Z.to_nat fst) buf) = zlen buf - fst) as Hf by (unfold zlen in *; rewrite length_drop; unfold fst; lia).
    assert ((P + fst) mod 4096 = 0) as Hz by (unfold fst in *; Z.div_mod_to_equations; lia).
    destruct (ring_write (log_ring s) (P + fst) (drop (Z.to_nat fst) buf)) as (Hl' & Hk' & Hi'); [done|lia|lia|].
    pose proof (in_ring_write (log_ring s) (concat (lines evs)) adv (P + fst) (drop (Z.to_nat fst) buf)) as Hkeep.
    rewrite Hz in *. change (Z.to_nat 0) with 0%nat in *. rewrite Hf in *. split; try done.
    + intros k Hk. cbn. apply Hkeep; try done; fold P; lia.
    + cbn. fold P. split; [done|]. split; [done|]. split; [done|]. intros i Hi. destruct (Z.ltb_spec i fst).
      { rewrite Hk' by lia. apply Hc. lia. }
      replace (P + i) with (P + fst + (i - fst)) by lia. rewrite Hi' by lia. rewrite rd_drop. f_equal. lia.
  - split; try done. cbn. fold P. split; [done|]. split; [done|]. split; [done|]. intros i Hi. apply Hc. lia.
Qed.

Lemma push_publish_inv evs s h buf adv :
  log_inv evs s adv → log_push_at s = PushHead h buf →
  log_inv (evs ++ [EvLine buf]) (at_push PushIdle (set_head (u32 (h + zlen buf)) s)) adv.
Proof.
  intros [Hlen Hh Ht Ha Hu Hd Hp Htk] Hpi. set (P := zlen (concat (lines evs))) in *. rewrite Hpi in Hp. cbn in Hp.
  destruct Hp as (-> & Hb & Hroom & Hc).
  assert (lines (evs ++ [EvLine buf]) = lines evs ++ [buf]) as El by (by rewrite lines_app).
  assert (sent (evs ++ [EvLine buf]) = sent evs) as Es by (rewrite sent_app; cbn; by rewrite app_nil_r).
  assert (concat (lines evs ++ [buf]) = concat (lines evs) ++ buf) as Ec by (rewrite concat_app; cbn; by rewrite app_nil_r).
  assert (zlen (concat (lines evs) ++ buf) = P + zlen buf) as EP by (by rewrite zlen_app).
  split; rewrite ?El, ?Es, ?Ec, ?EP; try done; try lia.
  - cbn. ulia.
  - intros k Hk. unfold in_ring. cbn. destruct (Z.ltb_spec k P).
    + rewrite (Hd k) by (fold P; lia). by rewrite rd_app_l by (unfold P, zlen in *; lia).
    + rewrite rd_app_r by (unfold P, zlen in *; lia). replace k with (P + (k - P)) at 1 by lia. rewrite Hc by lia.
      f_equal. unfold P, zlen. lia.
  - by apply task_inv_publish.
Qed.

Lemma push_step_inv evs s ev s' adv : log_inv evs s adv → push_step s ev s' → log_inv (evs ++ ev) s' adv.
Proof.
  intros Hinv Hs. pose proof (quiet_events evs) as Hq.
  destruct Hs as [s buf Hpi Hb Hsp|s buf Hpi Hb Hsp|s h buf Hpi|s h buf Hpi|s h buf Hpi|s Hpi|s d Hpi];
    try (rewrite app_nil_r); try (by apply push_copy_inv); try (by apply push_wrap_inv); try (by apply push_publish_inv);
    destruct Hinv as [Hlen Hh Ht Ha Hu Hd Hp Htk].
  - destruct (Hq [EvRefused buf] eq_refl eq_refl) as [El Es]. by split; rewrite ?El, ?Es.
  - split; try done. cbn. unfold push_space in Hsp. rewrite Hh, Ht in *. rewrite ring_used in Hsp by done.
    unfold LOG_RING_SIZE in Hsp. split; [done|]. split; [lia|]. split; [ulia|intros; lia].
  - by split.
  - by split.
Qed.

Lemma rd_list_eq (l1 l2 : list Z) : length l1 = length l2 → (∀ i, (i < length l1)%nat → rd l1 i = rd l2 i) → l1 = l2.
Proof.
  intros Hl Hr. apply list_eq_same_length with (length l2); [done|done|].
  intros i x y Hi Hx Hy. specialize (Hr i). unfold rd in Hr. rewrite Hx, Hy in Hr. apply Hr. lia.
Qed.

(** the bytes the logger takes are the next ones of the stream *)
Lemma ring_slice ring pub adv c :
  length ring = 4096%nat → 0 ≤ adv → 0 ≤ c → adv + c ≤ zlen pub → adv mod 4096 + c ≤ 4096 →
  (∀ k, adv ≤ k < adv + c → in_ring ring pub k) →
  slice (Z.to_nat (adv mod 4096)) (Z.to_nat c) ring = slice (Z.to_nat adv) (Z.to_nat c) pub.
Proof.
  intros Hl Ha Hc Hp Hfit Hin. pose proof (Z.mod_pos_bound adv 4096 eq_refl) as Hm. unfold zlen in Hp. apply rd_list_eq.
  - rewrite !length_slice by lia. done.
  - rewrite length_slice by lia. intros i Hi. rewrite !rd_slice by done.
    specialize (Hin (adv + Z.of_nat i)). unfold in_ring in Hin.
    replace (Z.to_nat (adv mod 4096) + i)%nat with (Z.to_nat ((adv + Z.of_nat i) mod 4096)); [|Z.div_mod_to_equations; lia].
    rewrite Hin by lia. f_equal. lia.
Qed.

Lemma push_inv_release ring P adv c p : 0 ≤ c → push_inv ring P adv p → push_inv ring P (adv + c) p.
Proof. intros Hc. destruct p; cbn; try done; intros (? & ? & ? & ?); split_and!; done || lia. Qed.

Lemma task_step_inv evs s ev s' adv :
  log_inv evs s adv → log_task_step s ev s' → ∃ adv', log_inv (evs ++ ev) s' adv' ∧ adv ≤ adv'.
Proof.
  intros [Hlen Hh Ht Ha Hu Hd Hp Htk] Hs. set (P := zlen (concat (lines evs))) in *.
  assert (∀ ev0, lines ev0 = [] → lines (evs ++ ev0) = lines evs) as Hl by (intros ev0 E; by rewrite lines_app, E, app_nil_r).
  destruct Hs as [s Hpi|s Hpi He|s Hpi He used room|s t c Hpi|s t c Hpi|s Hpi Hz|s Hpi Hz|s d Hpi|s d Hpi]; rewrite Hpi in Htk;
    rewrite ?app_nil_r; destruct Htk as [Hph Hsent].
  - exists adv. split; [by split|lia].
  - exists adv. split; [|lia]. split; try done. split; [|done]. exists (length (lines evs)).
    rewrite Hsent, (take_ge (lines evs)) by done. rewrite Hh, Ht, ring_used in He by done.
    rewrite take_ge; [done|]. unfold P, zlen in He. lia.
  - exists adv. split; [|lia]. split; try done. split; [|done]. unfold used, room in *.
    rewrite Hh, Ht, ring_used in * by done. rewrite ring_off_mod by lia. cbn. fold P.
    pose proof (Z.mod_pos_bound adv 4096 eq_refl). unfold LOG_RING_SIZE.
    destruct (Z.ltb_spec (P - adv) (4096 - adv mod 4096)); split_and!; (done || lia).
  - destruct Hph as (-> & Hc & Hfit). fold P in Hc. exists adv. split; [|lia]. split; rewrite ?Hl by done; try done.
    split; [exact (conj eq_refl (conj Hc Hfit))|]. rewrite sent_app, Hsent. cbn [log_task_at at_task sent omap list_omap concat].
    rewrite app_nil_r, Ht, ring_off_mod by lia. pose proof (Z.mod_pos_bound adv 4096 eq_refl).
    rewrite u16_id by ulia. rewrite (ring_slice _ (concat (lines evs))); [|done|lia|lia|fold P; lia|lia|intros; apply Hd; lia].
    unfold slice. rewrite take_take_drop. f_equal. lia.
  - destruct Hph as (-> & Hc & Hfit). fold P in Hc. exists (adv + c). split; [|lia]. split; try done; fold P; try lia.
    + cbn. rewrite Ht. ulia.
    + intros k Hk. apply Hd. lia.
    + apply push_inv_release; [lia|exact Hp].
  - exists adv. split; [by split|lia].
  - exists adv. split; [by split|lia].
  - exists adv. split; [by split|lia].
  - exists adv. split; [|lia]. destruct (quiet_events evs [EvReport d] eq_refl eq_refl) as [El Es]. by split; rewrite ?El, ?Es.
Qed.

Lemma log_init_inv : log_inv [] log_init 0.
Proof. split; try done; cbn; unfold zlen; cbn; try lia. Qed.

Lemma log_run_inv evs s : log_run log_init evs s → ∃ adv, log_inv evs s adv.
Proof.
  remember log_init as s0 eqn:E. induction 1 as [s|s1 ev1 s2 ev2 s3 Hrun IH Hstep]; [subst; exists 0; apply log_init_inv|].
  destruct (IH E) as [adv Hinv]. destruct Hstep as [Hp|Ht].
  - exists adv. by eapply push_step_inv.
  - destruct (task_step_inv _ _ _ _ _ Hinv Ht) as (adv' & ? & _). by exists adv'.
Qed.

(** ** The logger catches up *)

(** steps of the logger alone *)
Inductive log_task_run : log → list log_event → log → Prop :=
  | task_run_nil s : log_task_run s [] s
  | task_run_cons s1 ev1 s2 ev2 s3 : log_task_step s1 ev1 s2 → log_task_run s2 ev2 s3 → log_task_run s1 (ev1 ++ ev2) s3.

Lemma log_task_run_app s1 ev1 s2 ev2 s3 : log_task_run s1 ev1 s2 → log_task_run s2 ev2 s3 → log_task_run s1 (ev1 ++ ev2) s3.
Proof.
  induction 1 as [|s1 e1 s2' e2 s3' Hs Hr IH]; intros H2; [done|]. rewrite <- app_assoc. econstructor; [done|by apply IH].
Qed.

(** what a run of the logger leaves alone *)
Lemma task_run_facts evs s1 ev s2 adv :
  log_inv evs s1 adv → log_task_run s1 ev s2 →
  (∃ adv', log_inv (evs ++ ev) s2 adv') ∧ log_push_at s2 = log_push_at s1 ∧ lines ev = [].
Proof.
  intros Hinv Hr. revert evs adv Hinv. induction Hr as [s|s1 e1 s2 e2 s3 Hs Hr IH]; intros evs adv Hinv.
  { rewrite app_nil_r. split; [by exists adv|done]. }
  destruct (task_step_inv _ _ _ _ _ Hinv Hs) as (adv' & Hinv' & _). destruct (IH _ _ Hinv') as (Hi & Hp & Hl).
  split; [by rewrite app_assoc|]. split; [rewrite Hp; by destruct Hs|]. rewrite lines_app, Hl, app_nil_r. by destruct Hs.
Qed.

(** from everywhere the logger comes back to its check *)
Lemma task_to_check s : ∃ ev s', log_task_run s ev s' ∧ log_task_at s' = LogCheck.
Proof.
  assert (∀ s, log_task_at s = LogWait → ∃ ev s', log_task_run s ev s' ∧ log_task_at s' = LogCheck) as Hw.
  { intros s0 H0. eexists _, _. split; [eapply task_run_cons; [by apply task_notified|apply task_run_nil]|done]. }
  assert (∀ s d, log_task_at s = LogReport d → ∃ ev s', log_task_run s ev s' ∧ log_task_at s' = LogCheck) as Hr.
  { intros s0 d H0. destruct (Hw (at_task LogWait s0) eq_refl) as (ev & s' & Hrun & Hc).
    eexists _, s'. split; [eapply task_run_cons; [by apply (task_report _ d)|exact Hrun]|done]. }
  assert (∀ s d, log_task_at s = LogClear d → ∃ ev s', log_task_run s ev s' ∧ log_task_at s' = LogCheck) as Hcl.
  { intros s0 d H0. destruct (Hr (at_task (LogReport d) (set_dropped 0 s0)) d eq_refl) as (ev & s' & Hrun & Hc).
    eexists _, s'. split; [eapply task_run_cons; [by apply (task_clear _ d)|exact Hrun]|done]. }
  assert (∀ s t c, log_task_at s = LogTail t c → ∃ ev s', log_task_run s ev s' ∧ log_task_at s' = LogCheck) as Ht.
  { intros s0 t c H0. eexists _, _. split; [eapply task_run_cons; [by apply (task_tail _ t c)|apply task_run_nil]|done]. }
  destruct (log_task_at s) as [| |t c|t c| |d|d] eqn:E; eauto.
  - exists [], s. split; [apply task_run_nil|done].
  - destruct (Ht (at_task (LogTail t c) s) t c eq_refl) as (ev & s' & Hrun & Hc).
    eexists _, s'. split; [eapply task_run_cons; [by apply (task_emit _ t c)|exact Hrun]|done].
  - destruct (decide (log_dropped s = 0)) as [Hz|Hz].
    + destruct (Hw (at_task LogWait s) eq_refl) as (ev & s' & Hrun & Hc).
      eexists _, s'. split; [eapply task_run_cons; [by apply task_none|exact Hrun]|done].
    + destruct (Hcl (at_task (LogClear (log_dropped s)) s) _ eq_refl) as (ev & s' & Hrun & Hc).
      eexists _, s'. split; [eapply task_run_cons; [by apply task_some|exact Hrun]|done].
Qed.

(** the end of a round: nothing left in the ring, then the report *)
Definition caught_up (s : log) : Prop := log_task_at s = LogWait ∧ ring_head s = ring_tail s ∧ log_dropped s = 0.

Lemma task_finish s :
  log_task_at s = LogCheck → ring_head s = ring_tail s → ∃ ev s', log_task_run s ev s' ∧ caught_up s'.
Proof.
  intros Hc He. assert (u32 (ring_head s - ring_tail s) = 0) as Hu by (by rewrite He, Z.sub_diag).
  destruct (decide (log_dropped s = 0)) as [Hz|Hz].
  - eexists _, (at_task LogWait s). split; [|by split_and!].
    eapply task_run_cons; [by apply task_empty|]. eapply task_run_cons; [by apply task_none|apply task_run_nil].
  - eexists _, (at_task LogWait (set_dropped 0 s)). split; [|by split_and!].
    eapply task_run_cons; [by apply task_empty|]. eapply task_run_cons; [by apply task_some|].
    eapply task_run_cons; [by eapply task_clear|]. eapply task_run_cons; [by eapply task_report|]. apply task_run_nil.
Qed.

Lemma task_drain n evs s adv :
  log_inv evs s adv → log_task_at s = LogCheck → zlen (concat (lines evs)) - adv ≤ Z.of_nat n →
  ∃ ev s', log_task_run s ev s' ∧ caught_up s'.
Proof.
  revert evs s adv. induction n as [|n IH]; intros evs s adv Hinv Hc Hn; pose proof Hinv as [Hlen Hh Ht Ha Hu _ _ _];
    (destruct (decide (zlen (concat (lines evs)) = adv)) as [E|E]; [apply task_finish; [done|by rewrite Hh, Ht, E]|]); [lia|].
  assert (u32 (ring_head s - ring_tail s) ≠ 0) as Hne by (rewrite Hh, Ht, ring_used by done; lia).
  pose proof (task_take s Hc Hne) as Hstep. cbv zeta in Hstep. set (c := if _ <? _ then _ else _) in Hstep.
  destruct (task_step_inv _ _ _ _ _ Hinv Hstep) as (adv1 & Hinv1 & _).
  pose proof (task_emit (at_task (LogEmit (ring_tail s) c) s) (ring_tail s) c eq_refl) as Hemit.
  destruct (task_step_inv _ _ _ _ _ Hinv1 Hemit) as (adv2 & Hinv2 & _).
  pose proof (task_tail (at_task (LogTail (ring_tail s) c) s) (ring_tail s) c eq_refl) as Htail.
  assert (0 < c) as Hc0.
  { unfold c. rewrite Hh, Ht, ring_used, ring_off_mod by (done || lia). pose proof (Z.mod_pos_bound adv 4096 eq_refl).
    unfold LOG_RING_SIZE. destruct (Z.ltb_spec (zlen (concat (lines evs)) - adv) (4096 - adv mod 4096)); lia. }
  destruct (task_step_inv _ _ _ _ _ Hinv2 Htail) as (adv3 & Hinv3 & _).
  rewrite !app_nil_r in Hinv3.
  destruct (IH _ _ _ Hinv3 eq_refl) as (ev & s' & Hrun & Hcu).
  { pose proof Hinv3 as [_ Hh3 Ht3 Ha3 Hu3 _ _ _]. rewrite lines_sent in *. cbn in Ht3. rewrite Ht in Ht3.
    assert (c ≤ 4096) as Hc1.
    { unfold c. rewrite Hh, Ht, ring_used, ring_off_mod by (done || lia). pose proof (Z.mod_pos_bound adv 4096 eq_refl).
      unfold LOG_RING_SIZE. destruct (Z.ltb_spec (zlen (concat (lines evs)) - adv) (4096 - adv mod 4096)); lia. }
    unfold u32 in Ht3. Z.div_mod_to_equations. lia. }
  eexists _, s'. split; [|done].
  eapply task_run_cons; [exact Hstep|]. eapply task_run_cons; [exact Hemit|]. eapply task_run_cons; [exact Htail|exact Hrun].
Qed.

(** [log_flush] reports an empty queue only after seeing one, and gives up only at its deadline *)
Lemma log_flush_spec now timeout polls :
  match log_flush now timeout polls with
  | Some true => ∃ s t, (s, t) ∈ polls ∧ ring_head s = ring_tail s ∧ log_dropped s = 0
  | Some false => ∃ s t, (s, t) ∈ polls ∧ u32 (t - u32 (now + timeout)) < 2147483648
  | None => True
  end.
Proof.
  unfold log_flush. generalize (u32 (now + timeout)). intros dl. induction polls as [|[s t] polls IH]; cbn; [done|].
  destruct ((ring_head s =? ring_tail s) && (log_dropped s =? 0)) eqn:E1.
  { exists s, t. split; [apply elem_of_cons; by left|]. lia. }
  destruct (Z.ltb_spec (u32 (t - dl)) 2147483648).
  { exists s, t. split; [apply elem_of_cons; by left|done]. }
  destruct (log_flush_loop dl polls) as [[|]|]; [|..|done]; destruct IH as (s1 & t1 & Hin & Hp); exists s1, t1;
    (split; [apply elem_of_cons; by right|done]).
Qed.

(** ** Properties *)

(** C23: The log is a queue: however appending tasks and the logger interleave, and across every wrap of the ring and of
    its 32-bit counters, the bytes handed to the UART are a prefix of the accepted lines in the order they were
    accepted, at most 4096 bytes behind, nothing lost, repeated, torn or overwritten; a drop report is only ever sent
    between two lines; and when head and tail are equal, which is what [log_flush] waits for, every line has been sent. *)
Theorem log_fifo evs s :
  log_run log_init evs s →
  (∃ rest, concat (lines evs) = sent evs ++ rest ∧ zlen rest ≤ LOG_RING_SIZE) ∧
  (∀ d s', log_step s [EvReport d] s' → ∃ k, sent evs = concat (take k (lines evs))) ∧
  (ring_head s = ring_tail s → sent evs = concat (lines evs)).
Proof.
  intros Hrun. destruct (log_run_inv evs s Hrun) as [adv [_ Hh Ht Ha Hu _ _ [Hph Hsent]]]. split; [|split].
  - set (n := match log_task_at s with LogTail _ c => adv + c | _ => adv end) in Hsent.
    assert (adv ≤ n) as Hn by (unfold n; destruct (log_task_at s); lia).
    exists (drop (Z.to_nat n) (concat (lines evs))). rewrite Hsent, take_drop. split; [done|].
    unfold zlen, LOG_RING_SIZE in *. rewrite length_drop. lia.
  - intros d s' [Hp|Htk]; [by inversion Hp|]. inversion Htk as [| | | | | | | |s1 d1 Hat]; subst. rewrite Hat in Hph. exact Hph.
  - intros He. rewrite Hh, Ht in He. assert (adv = zlen (concat (lines evs))) as ->.
    { unfold u32 in He. Z.div_mod_to_equations. lia. }
    rewrite Hsent. destruct (log_task_at s); cbn in Hph; try lia; (rewrite take_ge; [done|unfold zlen; lia]).
Qed.


(** ** Witnesses *)

Example log_line : log_write 0 7 73 [104; 105] =
  Some ([91; 48; 56; 58; 48; 48; 58; 48; 48; 46; 48; 48; 55; 93; 91; 73; 93; 32; 104; 105; 13; 10]).
Proof. by vm_compute. Qed.

Definition one_line : list Z := [104; 105; 13; 10].

(** the states of appending it *)
Definition log_c : log := at_push (PushCopy 0 one_line) log_init.
Definition log_w : log :=
  at_push (PushWrap 0 one_line)
    (set_ring (splice (Z.to_nat (ring_off 0)) (take (Z.to_nat (push_first 0 (zlen one_line))) one_line) (log_ring log_c)) log_c).
Definition log_h : log :=
  at_push (PushHead 0 one_line)
    (if push_first 0 (zlen one_line) <? zlen one_line
     then set_ring (splice 0 (drop (Z.to_nat (push_first 0 (zlen one_line))) one_line) (log_ring log_w)) log_w else log_w).
Definition log1 : log := at_push PushIdle (set_head (u32 (0 + zlen one_line)) log_h).

Lemma log1_run : log_run log_init ([] ++ [] ++ [] ++ [EvLine one_line]) log1.
Proof.
  apply (log_run_step _ ([] ++ [] ++ []) log_h); [|exact (step_push _ _ _ (push_publish log_h 0 one_line eq_refl))].
  apply (log_run_step _ ([] ++ []) log_w); [|exact (step_push _ _ _ (push_wrap log_w 0 one_line eq_refl))].
  apply (log_run_step _ [] log_c); [|exact (step_push _ _ _ (push_copy log_c 0 one_line eq_refl))].
  apply (log_run_step _ [] log_init); [apply log_run_nil|]. apply step_push.
  apply (push_accept log_init one_line); [reflexivity|by vm_compute|by vm_compute].
Qed.

Lemma log_fifo_witness : ∃ rest, concat [one_line] = sent [EvLine one_line] ++ rest ∧ zlen rest ≤ LOG_RING_SIZE.
Proof. exact (proj1 (log_fifo _ _ log1_run)). Defined.

