(* ===== verification/WebJson.v ===== *)
(** The JSON and query helpers of the web server: [src/web/web_json.h], with the
    [strtol] and [strtoul] of the C library they call.

    A pointer into a buffer is the number of bytes up to the buffer's [len] and
    the memory from there on: a comparison or a number may read past [len], as
    in the source; memory past the modelled list reads 0. *)

From Stdlib Require Import String Ascii.
From S2P Require Import Prelude IoBytes.

Local Open Scope list_scope.
Local Open Scope Z_scope.

(** the bytes of a literal; an apostrophe stands for the double quote *)
Fixpoint js (s : string) : list Z :=
  match s with
  | EmptyString => []
  | String a s => (let c := Z.of_N (N_of_ascii a) in if c =? 39 then 34 else c) :: js s
  end.

Definition ptr : Type := nat * list Z.
Definition p_rest (p : ptr) : list Z := p.2.
(** [p < buf + len] *)
Definition in_buf (p : ptr) : bool := bool_decide (0 < p.1)%nat.
Definition p_next (p : ptr) : ptr := (pred p.1, drop 1 p.2).

(** ** The C library *)

Definition isspace (c : Z) : bool := (c =? 32) || ((9 <=? c) && (c <=? 13)).

(** the value of a digit, letters counting from 10 *)
Definition digit_val (c : Z) : option Z :=
  if (48 <=? c) && (c <=? 57) then Some (c - 48)
  else if (97 <=? c) && (c <=? 122) then Some (c - 87)
  else if (65 <=? c) && (c <=? 90) then Some (c - 55)
  else None.

Definition is_digit (base c : Z) : bool := match digit_val c with Some d => d <? base | None => false end.

(** the digits from the front, [any] tells whether there was one *)
Fixpoint scan_digits (base : Z) (s : list Z) (acc : Z) (any : bool) : Z * bool * list Z :=
  match s with
  | c :: s' =>
    match digit_val c with
    | Some d => if d <? base then scan_digits base s' (acc * base + d) true else (acc, any, s)
    | None => (acc, any, s)
    end
  | [] => (acc, any, [])
  end.

Fixpoint skip_spaces (s : list Z) : list Z :=
  match s with c :: s' => if isspace c then skip_spaces s' else s | [] => [] end.

Definition scan_sign (s : list Z) : bool * list Z :=
  match s with
  | c :: s' => if c =? 45 then (true, s') else if c =? 43 then (false, s') else (false, s)
  | [] => (false, [])
  end.

(** base 0: the prefix decides *)
Definition scan_base (s : list Z) : Z * list Z :=
  match s with
  | c :: x :: d :: s' =>
    if (c =? 48) && ((x =? 120) || (x =? 88)) && is_digit 16 d then (16, d :: s')
    else if c =? 48 then (8, s) else (10, s)
  | c :: _ => if c =? 48 then (8, s) else (10, s)
  | [] => (10, [])
  end.

(** sign, magnitude and rest; [None] when there is no number ([end == s]) *)
Definition scan_number (base : Z) (s : list Z) : option (bool * Z * list Z) :=
  let '(neg, s) := scan_sign (skip_spaces s) in
  let '(base, s) := if base =? 0 then scan_base s else (base, s) in
  let '(v, any, rest) := scan_digits base s 0 false in
  if any : bool then Some (neg, v, rest) else None.

(** [long] has 32 bits *)
Definition strtol (s : list Z) (base : Z) : option (Z * list Z) :=
  match scan_number base s with
  | Some (neg, v, rest) => Some (if neg : bool then Z.max (-2147483648) (- v) else Z.min 2147483647 v, rest)
  | None => None
  end.

Definition strtoul (s : list Z) (base : Z) : option (Z * list Z) :=
  match scan_number base s with
  | Some (neg, v, rest) => Some (if 4294967295 <? v then 4294967295 else if neg : bool then u32 (- v) else v, rest)
  | None => None
  end.

(** [strncmp(s, lit, |lit|) == 0] for a literal without NUL *)
Definition starts_with (lit s : list Z) : bool := bool_decide (take (length lit) s = lit).

(** ** JSON *)

Definition is_blank (c : Z) : bool := (c =? 32) || (c =? 9).

(** [while (j < len && blank) j++] *)
Fixpoint skip_blanks (n : nat) (s : list Z) : ptr :=
  match n with
  | O => (O, s)
  | S n' => if is_blank (rd s 0) then skip_blanks n' (drop 1 s) else (n, s)
  end.

(** the key in quotes here, and the pointer behind it *)
Definition key_at (key : list Z) (n : nat) (s : list Z) : option ptr :=
  if (rd s 0 =? 34) && bool_decide (slice 1 (length key) s = key) && (rd s (length key + 1) =? 34)
  then Some ((n - (length key + 2))%nat, drop (length key + 2) s) else None.

Fixpoint json_find_loop (key : list Z) (n : nat) (s : list Z) : option ptr :=
  match n with
  | O => None
  | S n' =>
    if (length key + 2 <=? n)%nat then
      match key_at key n s with
      | Some p =>
        let q := skip_blanks p.1 p.2 in
        if in_buf q && (rd q.2 0 =? 58) then Some (skip_blanks (pred q.1) (drop 1 q.2))
        else json_find_loop key n' (drop 1 s)
      | None => json_find_loop key n' (drop 1 s)
      end
    else None
  end.

Definition json_find_value (buf : list Z) (len : nat) (key : list Z) : option ptr := json_find_loop key len buf.

Definition lit_true : list Z := [116; 114; 117; 101].
Definition lit_false : list Z := [102; 97; 108; 115; 101].

Definition json_get_i32 (buf : list Z) (len : nat) (key : list Z) : option Z :=
  match json_find_value buf len key with
  | None => None
  | Some v =>
    if negb (in_buf v) then None
    else if starts_with lit_true (p_rest v) then Some 1
    else if starts_with lit_false (p_rest v) then Some 0
    else match strtol (p_rest v) 0 with Some (val, _) => Some val | None => None end
  end.

(** the string up to its quote; [None] when it does not end inside the buffer *)
Fixpoint str_body (n : nat) (s : list Z) : option (list Z) :=
  match n with
  | O => None
  | S n' =>
    let c := rd s 0 in
    if c =? 34 then Some [] else if c =? 0 then None
    else match str_body n' (drop 1 s) with Some r => Some (c :: r) | None => None end
  end.

(** the stored string, without its terminator *)
Definition json_get_str (buf : list Z) (len : nat) (key : list Z) (outsz : Z) : option (list Z) :=
  match json_find_value buf len key with
  | None => None
  | Some v =>
    if negb (in_buf v) || negb (rd (p_rest v) 0 =? 34) then None
    else match str_body (p_next v).1 (p_rest (p_next v)) with
         | Some r => Some (take (Z.to_nat (outsz - 1)) r)
         | None => None
         end
  end.

(** ** The query of a URL; the string is given without its terminator *)

Definition at_amp (s : list Z) : list Z := (fix go (s : list Z) := match s with c :: s' => if c =? 38 then s else go s' | [] => [] end) s.
Definition until_amp (s : list Z) : list Z := (fix go (s : list Z) := match s with c :: s' => if c =? 38 then [] else c :: go s' | [] => [] end) s.

Fixpoint query_loop (fuel : nat) (key p : list Z) : option (list Z) :=
  match fuel, p with
  | S fuel, c :: p' =>
    let q := if (c =? 63) || (c =? 38) then p' else p in
    if starts_with key q && (rd q (length key) =? 61)
    then Some (until_amp (drop (length key + 1) q))
    else query_loop fuel key (at_amp q)
  | _, _ => None
  end.

(** every turn moves the pointer on *)
Definition url_query_get (query key : list Z) (outsz : Z) : option (list Z) :=
  match query_loop (S (length query)) key query with
  | Some v => Some (take (Z.to_nat (outsz - 1)) v)
  | None => None
  end.

(** ** Numbers *)

Definition digits_val (ds : list Z) (acc : Z) : Z := foldl (λ a c, a * 10 + (c - 48)) acc ds.
Definition ten_digits (ds : list Z) : Prop := Forall (λ c, 48 ≤ c ≤ 57) ds.
(** what may follow a number in an object: a comma or the closing brace *)
Definition stops (t : list Z) : Prop := rd t 0 = 44 ∨ rd t 0 = 125.

Lemma digit_val_ten c : 48 ≤ c ≤ 57 → digit_val c = Some (c - 48).
Proof. intros. unfold digit_val. by replace ((48 <=? c) && (c <=? 57)) with true by lia. Qed.

Lemma scan_digits_stop base t acc any : stops t → scan_digits base t acc any = (acc, any, t).
Proof. destruct t as [|c t]; [done|]. intros [Hc|Hc]; cbn in Hc; subst c; done. Qed.

Lemma scan_digits_ten ds t acc any :
  ten_digits ds → stops t → scan_digits 10 (ds ++ t) acc any = (digits_val ds acc, any || negb (bool_decide (ds = [])), t).
Proof.
  intros Hd Ht. revert acc any. induction Hd as [|c ds Hc Hd IH]; intros acc any; cbn [app].
  - rewrite scan_digits_stop by done. cbn. by rewrite orb_false_r.
  - cbn [scan_digits]. rewrite digit_val_ten by done. replace (c - 48 <? 10) with true by lia. rewrite IH. cbn [digits_val foldl].
    rewrite (bool_decide_eq_false_2 (c :: ds = [])) by done. cbn [negb orb]. by rewrite orb_true_r.
Qed.

Lemma dec_digits_spec fuel n acc :
  0 ≤ n < 10 ^ Z.of_nat fuel → (0 < fuel)%nat →
  ∃ ds, dec_digits fuel n acc = ds ++ acc ∧ ten_digits ds ∧ digits_val ds 0 = n ∧ ds ≠ [] ∧ (0 < n → rd ds 0 ≠ 48).
Proof.
  revert n acc. induction fuel as [|fuel IH]; intros n acc Hn Hf; [lia|]. cbn [dec_digits].
  destruct (Z.ltb_spec n 10) as [Hlt|Hge].
  - exists [48 + n]. split; [done|]. split; [constructor; [lia|constructor]|]. split; [cbn; lia|]. split; [done|]. cbn. lia.
  - assert (0 < fuel)%nat as Hf' by (destruct fuel; [cbn in Hn; lia|lia]).
    rewrite Nat2Z.inj_succ, Z.pow_succ_r in Hn by lia.
    destruct (IH (n / 10) (48 + n mod 10 :: acc)) as (ds & -> & Hd & Hv & Hne & Hh); [Z.div_mod_to_equations; lia|done|].
    exists (ds ++ [48 + n mod 10]). split; [by rewrite <- app_assoc|]. split.
    { apply Forall_app. split; [done|]. constructor; [Z.div_mod_to_equations; lia|constructor]. }
    split; [unfold digits_val in *; rewrite foldl_app, Hv; cbn; Z.div_mod_to_equations; lia|]. split; [by destruct ds|].
    intros _. rewrite rd_app_l by (destruct ds; [done|cbn; lia]). apply Hh. Z.div_mod_to_equations. lia.
Qed.

Lemma dec_spec n :
  0 ≤ n < 2 ^ 32 → ∃ ds, dec n = ds ∧ ten_digits ds ∧ digits_val ds 0 = n ∧ ds ≠ [] ∧ (0 < n → rd ds 0 ≠ 48).
Proof.
  intros Hn. destruct (dec_digits_spec 20 n []) as (ds & E & H); [|lia|].
  - change (10 ^ Z.of_nat 20) with 100000000000000000000. lia.
  - exists ds. unfold dec. by rewrite E, app_nil_r.
Qed.

Definition sdec (z : Z) : list Z := if z <? 0 then 45 :: dec (- z) else dec z.

Lemma scan_number_dec n t : 0 ≤ n < 2 ^ 32 → stops t →
  scan_base (dec n ++ t) = (10, dec n ++ t) ∧ scan_digits 10 (dec n ++ t) 0 false = (n, true, t) ∨
  n = 0 ∧ scan_base (dec n ++ t) = (8, dec n ++ t) ∧ scan_digits 8 (dec n ++ t) 0 false = (n, true, t).
Proof.
  intros Hn Ht. destruct (decide (n = 0)) as [->|Hne].
  - right. split; [done|]. change (dec 0) with [48]. cbn [app]. split.
    + destruct t as [|c t]; [done|]. destruct Ht as [Hc|Hc]; cbn in Hc; subst c; destruct t; done.
    + cbn [scan_digits]. change (digit_val 48) with (Some 0). cbn. by apply scan_digits_stop.
  - left. destruct (dec_spec n Hn) as (ds & -> & Hd & Hv & Hnil & Hh). split.
    + destruct ds as [|c ds]; [done|]. specialize (Hh ltac:(lia)). cbn in Hh. cbn [app scan_base].
      destruct (ds ++ t) as [|x [|d u]]; cbn [andb]; replace (c =? 48) with false by lia; done.
    + rewrite scan_digits_ten by done. rewrite Hv. by rewrite bool_decide_eq_false_2.
Qed.

Lemma rd_dec n : 0 ≤ n < 2 ^ 32 → 48 ≤ rd (dec n) 0 ≤ 57 ∧ dec n ≠ [].
Proof.
  intros Hn. destruct (dec_spec n Hn) as (ds & -> & Hd & _ & Hnil & _). destruct Hd; [done|]. done.
Qed.

Lemma strtol_sdec z t : -2147483648 ≤ z ≤ 2147483647 → stops t → strtol (sdec z ++ t) 0 = Some (z, t).
Proof.
  intros Hz Ht. unfold strtol, scan_number, sdec.
  assert (∀ n, 0 ≤ n < 2 ^ 32 → ∀ u, skip_spaces (dec n ++ u) = dec n ++ u ∧ scan_sign (dec n ++ u) = (false, dec n ++ u)) as Hs.
  { intros n Hn u. destruct (rd_dec n Hn) as [Hr Hne]. destruct (dec n) as [|c ds]; [done|]. cbn in Hr. cbn [app skip_spaces scan_sign].
    unfold isspace. replace ((c =? 32) || ((9 <=? c) && (c <=? 13))) with false by lia.
    split; [done|]. by replace (c =? 45) with false by lia; replace (c =? 43) with false by lia. }
  destruct (Z.ltb_spec z 0) as [Hneg|Hpos].
  - cbn [app skip_spaces isspace scan_sign]. cbn -[dec scan_base scan_digits Z.max Z.min].
    destruct (scan_number_dec (- z) t ltac:(lia) Ht) as [[E1 E2]|(_ & E1 & E2)]; rewrite E1, E2; do 2 f_equal; lia.
  - destruct (Hs z ltac:(lia) t) as [-> ->]. cbn -[dec scan_base scan_digits Z.max Z.min].
    destruct (scan_number_dec z t ltac:(lia) Ht) as [[E1 E2]|(_ & E1 & E2)]; rewrite E1, E2; do 2 f_equal; lia.
Qed.

(** ** Objects *)

Inductive jval := JInt (z : Z) | JBool (b : bool) | JStr (s : list Z) | JArr (zs : list Z).

(** numbers separated by commas *)
Fixpoint items_text (zs : list Z) : list Z :=
  match zs with [] => [] | [z] => dec z | z :: zs => dec z ++ 44 :: items_text zs end.

Definition jval_text (v : jval) : list Z :=
  match v with JInt z => sdec z | JBool b => if b then lit_true else lit_false | JStr s => 34 :: s ++ [34]
  | JArr zs => 91 :: items_text zs ++ [93] end.
Definition field_text (f : list Z * jval) : list Z := 34 :: f.1 ++ [34; 58] ++ jval_text f.2.
Fixpoint fields_text (fs : list (list Z * jval)) : list Z :=
  match fs with [] => [] | [f] => field_text f | f :: fs => field_text f ++ 44 :: fields_text fs end.
Definition object_text (fs : list (list Z * jval)) : list Z := 123 :: fields_text fs ++ [125].

(** a key: letters, digits and underscores *)
Definition key_char (c : Z) : bool :=
  ((48 <=? c) && (c <=? 57)) || ((97 <=? c) && (c <=? 122)) || ((65 <=? c) && (c <=? 90)) || (c =? 95).
Definition key_ok (k : list Z) : bool := negb (bool_decide (k = [])) && forallb key_char k.
Definition jval_ok (v : jval) : bool :=
  match v with
  | JInt z => (-2147483648 <=? z) && (z <=? 2147483647)
  | JBool _ => true
  | JStr s => forallb (λ c, negb (c =? 34) && negb (c =? 0)) s
  | JArr zs => forallb (λ z, (0 <=? z) && (z <? 4294967296)) zs
  end.
Definition field_ok (f : list Z * jval) : bool := key_ok f.1 && jval_ok f.2.

Definition no_quote (s : list Z) : Prop := Forall (λ c, c ≠ 34) s.

Lemma key_ok_spec k : key_ok k = true → no_quote k ∧ ∃ c k', k = c :: k' ∧ key_char c = true.
Proof.
  unfold key_ok. intros [Hne Hk]%andb_prop. split.
  - apply Forall_forall. intros c Hc. rewrite forallb_forall in Hk. specialize (Hk c Hc).
    unfold key_char in Hk. lia.
  - destruct k as [|c k]; [done|]. cbn [forallb] in Hk. apply andb_prop in Hk as [Hc _]. by exists c, k.
Qed.

Lemma stops_char t : stops t → key_char (rd t 0) = false ∧ is_blank (rd t 0) = false ∧ rd t 0 ≠ 58.
Proof. by intros [->| ->]. Qed.

Lemma skip_blanks_stop n s : is_blank (rd s 0) = false → skip_blanks n s = (n, s).
Proof. intros Hb. destruct n; [done|]. cbn [skip_blanks]. by rewrite Hb. Qed.

Lemma jval_text_start v t : jval_ok v = true → is_blank (rd (jval_text v ++ t) 0) = false ∧ (0 < length (jval_text v))%nat.
Proof.
  destruct v as [z|[]|s|zs]; cbn [jval_ok jval_text]; intros Hz; [|split; [done|cbn; lia]..].
  assert (∀ n, 0 ≤ n < 2 ^ 32 → is_blank (rd (dec n ++ t) 0) = false ∧ (0 < length (dec n))%nat) as Hd.
  { intros n Hn. destruct (rd_dec n Hn) as [Hr Hne]. destruct (dec n) as [|c ds]; [done|]. cbn in *. unfold is_blank. lia. }
  unfold sdec. destruct (Z.ltb_spec z 0); [cbn; lia|]. apply Hd. lia.
Qed.

Lemma dec_no_quote n : 0 ≤ n < 2 ^ 32 → no_quote (dec n).
Proof.
  intros Hn. destruct (dec_spec n Hn) as (ds & -> & Hd & _). unfold no_quote, ten_digits in *. eapply Forall_impl; [|exact Hd]. intros c Hc. cbn in Hc. lia.
Qed.

Section Find.
Context (key : list Z) (Hkey : key_ok key = true).

Lemma find_short n s : (n < length key + 2)%nat → json_find_loop key n s = None.
Proof. intros Hn. destruct n as [|n]; [done|]. cbn [json_find_loop]. by replace (length key + 2 <=? S n)%nat with false by lia. Qed.

Lemma find_next n s : key_at key (S n) s = None → json_find_loop key (S n) s = json_find_loop key n (drop 1 s).
Proof.
  intros Hk. cbn [json_find_loop]. rewrite Hk. destruct (length key + 2 <=? S n)%nat eqn:E; [done|].
  symmetry. apply find_short. lia.
Qed.

(** text without quotes is passed over *)
Lemma find_block blk n s : no_quote blk → json_find_loop key (length blk + n) (blk ++ s) = json_find_loop key n s.
Proof.
  induction 1 as [|c blk Hc _ IH]; [done|]. cbn [length app Nat.add]. rewrite find_next; [exact IH|].
  unfold key_at. change (rd (c :: blk ++ s) 0) with c. by replace (c =? 34) with false by lia.
Qed.

(** a quote followed by a character no key starts with is passed over *)
Lemma find_quote n s : key_char (rd s 0) = false → json_find_loop key (S n) (34 :: s) = json_find_loop key n s.
Proof.
  intros Hc. rewrite find_next; [done|]. unfold key_at. destruct (key_ok_spec key Hkey) as (_ & c & k & E & Hk).
  destruct (bool_decide_reflect (slice 1 (length key) (34 :: s) = key)) as [Hs|]; [|by rewrite andb_false_r].
  exfalso. unfold slice in Hs. cbn [drop] in Hs. rewrite E in Hs. destruct s as [|x s]; [done|]. injection Hs as -> _. cbn in Hc. congruence.
Qed.

(** a quoted text is the key or is not *)
Lemma key_at_quoted a n t :
  no_quote a → key_at key n (34 :: a ++ 34 :: t) = if decide (a = key) then Some ((n - (length key + 2))%nat, t) else None.
Proof.
  intros Ha. destruct (key_ok_spec key Hkey) as (Hq & _). unfold key_at, slice. cbn [drop]. rewrite drop_0.
  change (rd (34 :: a ++ 34 :: t) 0 =? 34) with true. cbn [andb].
  replace (length key + 1)%nat with (S (length key)) by lia. rewrite rd_cons_S.
  destruct (decide (a = key)) as [->|Hne].
  - rewrite take_app_length, bool_decide_eq_true_2 by done. rewrite rd_app_r, Nat.sub_diag by lia. cbn [rd_cons_0].
    change (rd (34 :: t) 0 =? 34) with true. cbn [andb]. do 2 f_equal.
    replace (length key + 2)%nat with (S (length key + 1)) by lia. cbn [drop]. rewrite drop_app_ge by lia.
    by replace (length key + 1 - length key)%nat with 1%nat by lia.
  - destruct (bool_decide_reflect (take (length key) (a ++ 34 :: t) = key)) as [Ht|]; [|done]. cbn [andb].
    destruct (Nat.lt_trichotomy (length key) (length a)) as [Hl|[Hl|Hl]].
    + rewrite rd_app_l by done. replace (rd a (length key) =? 34) with false; [done|]. symmetry. apply Z.eqb_neq.
      unfold no_quote in Ha. unfold rd. destruct (a !! length key) as [c|] eqn:Ec; cbn; [|done].
      by apply (Forall_lookup_1 _ _ _ _ Ha Ec).
    + exfalso. apply Hne. rewrite take_app_le, take_ge in Ht by lia. done.
    + exfalso. assert (rd key (length a) = 34) as Hr.
      { rewrite <- Ht, rd_take, rd_app_r, Nat.sub_diag by lia. done. }
      unfold rd in Hr. destruct (key !! length a) as [c|] eqn:Ec; cbn in Hr; [|done]. subst c.
      by apply (Forall_lookup_1 _ _ _ _ Hq Ec).
Qed.

(** a string is passed over, also one that equals the key *)
Lemma find_string s t m :
  no_quote s → stops t → json_find_loop key (length s + (2 + m)) (34 :: s ++ 34 :: t) = json_find_loop key m t.
Proof.
  intros Hs Ht. destruct (stops_char t Ht) as (Hk & Hb & Hc).
  assert (json_find_loop key (length s + (1 + m)) (s ++ 34 :: t) = json_find_loop key m t) as Hrest.
  { rewrite find_block by done. by apply find_quote. }
  replace (length s + (2 + m))%nat with (S (length s + (1 + m))) by lia.
  cbn [json_find_loop]. destruct (length key + 2 <=? _)%nat eqn:E; [|symmetry; apply find_short; lia].
  rewrite key_at_quoted by done. destruct (decide (s = key)) as [->|]; [|exact Hrest].
  cbn [fst snd]. rewrite skip_blanks_stop by done. cbn [fst snd]. replace (rd t 0 =? 58) with false by lia.
  rewrite andb_false_r. exact Hrest.
Qed.

Lemma items_no_quote zs : forallb (λ z, (0 <=? z) && (z <? 4294967296)) zs = true → no_quote (items_text zs).
Proof.
  induction zs as [|z zs IH]; intros Hz; [constructor|]. cbn [forallb] in Hz. apply andb_prop in Hz as [Hz Hzs].
  assert (no_quote (dec z)) as Hd by (apply dec_no_quote; lia). destruct zs as [|z' zs]; [exact Hd|].
  apply Forall_app. split; [exact Hd|]. constructor; [lia|]. by apply IH.
Qed.

Lemma find_value v t m :
  jval_ok v = true → stops t → json_find_loop key (length (jval_text v) + m) (jval_text v ++ t) = json_find_loop key m t.
Proof.
  intros Hv Ht. destruct v as [z|b|s|zs]; cbn [jval_ok jval_text] in *.
  - apply find_block. unfold sdec. destruct (Z.ltb_spec z 0); [constructor; [lia|]|]; apply dec_no_quote; lia.
  - apply find_block. destruct b; repeat constructor; lia.
  - cbn [app length]. rewrite length_app, <- app_assoc. cbn [app length].
    replace (S (length s + 1) + m)%nat with (length s + (2 + m))%nat by lia. apply find_string; [|done].
    apply Forall_forall. intros c Hc. rewrite forallb_forall in Hv. specialize (Hv c Hc). lia.
  - apply find_block. constructor; [lia|]. apply Forall_app. split; [by apply items_no_quote|]. repeat constructor; lia.
Qed.

(** a field is found by its key and passed over otherwise *)
Lemma find_field k v t m :
  key_ok k = true → jval_ok v = true → stops t →
  json_find_loop key (length (field_text (k, v)) + m) (field_text (k, v) ++ t)
  = if decide (k = key) then Some ((length (jval_text v) + m)%nat, jval_text v ++ t) else json_find_loop key m t.
Proof.
  intros Hk Hv Ht. destruct (key_ok_spec k Hk) as (Hq & _). destruct (jval_text_start v t Hv) as [Hb Hl].
  unfold field_text. cbn [fst snd app length]. rewrite !length_app, <- app_assoc. cbn [app length].
  replace (S (length k + S (S (length (jval_text v)))) + m)%nat with (S (length k + (S (S (length (jval_text v) + m))))) by lia.
  cbn [json_find_loop]. rewrite key_at_quoted by done. destruct (decide (k = key)) as [->|Hne].
  - replace (length key + 2 <=? _)%nat with true by lia. cbn [fst snd].
    rewrite (skip_blanks_stop _ (58 :: _)) by done. cbn [fst snd].
    replace (S (length key + S (S (length (jval_text v) + m))) - (length key + 2))%nat with (S (length (jval_text v) + m)) by lia.
    change (in_buf (S (length (jval_text v) + m), 58 :: jval_text v ++ t)) with true. rewrite rd_cons_0. cbn [Z.eqb Pos.eqb andb pred drop].
    by rewrite drop_0, skip_blanks_stop by done.
  - assert (json_find_loop key (length k + S (S (length (jval_text v) + m))) (k ++ 34 :: 58 :: jval_text v ++ t)
            = json_find_loop key m t) as Hrest.
    { rewrite find_block by done. rewrite find_quote by done.
      etransitivity; [apply (find_block [58] (length (jval_text v) + m) (jval_text v ++ t)); repeat constructor; lia|].
      by apply find_value. }
    destruct (length key + 2 <=? _)%nat eqn:E; [exact Hrest|]. rewrite <- Hrest. symmetry. apply find_short. lia.
Qed.

(** the first field with the key, and what is left behind it *)
Fixpoint first_field (fs : list (list Z * jval)) : option (jval * list (list Z * jval)) :=
  match fs with [] => None | f :: fs => if decide (f.1 = key) then Some (f.2, fs) else first_field fs end.

Definition after_field (fs : list (list Z * jval)) : list Z := match fs with [] => [] | _ => 44 :: fields_text fs end ++ [125].

Lemma fields_text_cons f fs : fields_text (f :: fs) ++ [125] = field_text f ++ after_field fs.
Proof. unfold after_field. destruct fs; cbn [fields_text]; [done|]. by rewrite <- app_assoc. Qed.

Lemma find_fields fs tail :
  forallb field_ok fs = true →
  json_find_loop key (length (fields_text fs ++ [125])) ((fields_text fs ++ [125]) ++ tail)
  = match first_field fs with
    | Some (v, fs') => Some (length (jval_text v ++ after_field fs'), (jval_text v ++ after_field fs') ++ tail)
    | None => None
    end.
Proof.
  induction fs as [|[k v] fs IH]; intros Hok.
  { apply find_short. cbn. destruct (key_ok_spec key Hkey) as (_ & c & k & E & _). rewrite E. cbn. lia. }
  cbn [forallb] in Hok. apply andb_prop in Hok as [[Hk Hv]%andb_prop Hok]. rewrite fields_text_cons, <- app_assoc, length_app.
  rewrite find_field by (done || (destruct fs; [by right|by left])). cbn [first_field fst snd]. destruct (decide (k = key)).
  - by rewrite length_app, <- app_assoc.
  - rewrite <- IH by done. unfold after_field. destruct fs as [|f fs]; [done|].
    cbn [app length]. apply (find_block [44]). repeat constructor. lia.
Qed.

Lemma find_object fs tail :
  forallb field_ok fs = true →
  json_find_value (object_text fs ++ tail) (length (object_text fs)) key
  = match first_field fs with
    | Some (v, fs') => Some (length (jval_text v ++ after_field fs'), (jval_text v ++ after_field fs') ++ tail)
    | None => None
    end.
Proof.
  intros Hok. unfold json_find_value, object_text. cbn [app length]. rewrite <- (find_fields fs tail Hok).
  apply (find_block [123]). repeat constructor. lia.
Qed.
End Find.

Lemma after_field_stops fs tail : stops (after_field fs ++ tail).
Proof. unfold after_field. destruct fs; [by right|by left]. Qed.

Lemma starts_with_head c l s : rd s 0 ≠ c → starts_with (c :: l) s = false.
Proof.
  intros Hc. unfold starts_with. apply bool_decide_eq_false_2. destruct s as [|x s]; cbn [length take]; [done|].
  intros [= -> _]. by apply Hc.
Qed.

Lemma starts_with_app l s : starts_with l (l ++ s) = true.
Proof. unfold starts_with. rewrite take_app_length. by apply bool_decide_eq_true_2. Qed.

Lemma strtol_not c t : c = 34 ∨ c = 91 → strtol (c :: t) 0 = None.
Proof. intros [->| ->]; by destruct t as [|x [|d t]]. Qed.

Lemma rd_sdec z t : -2147483648 ≤ z ≤ 2147483647 → rd (sdec z ++ t) 0 = 45 ∨ 48 ≤ rd (sdec z ++ t) 0 ≤ 57.
Proof.
  intros Hz. unfold sdec. destruct (Z.ltb_spec z 0); [by left|]. right.
  destruct (rd_dec z ltac:(lia)) as [Hr Hne]. by destruct (dec z).
Qed.

Lemma str_body_run s t n :
  Forall (λ c, c ≠ 34 ∧ c ≠ 0) s → (length s < n)%nat → str_body n (s ++ 34 :: t) = Some s.
Proof.
  intros Hs. revert n. induction Hs as [|c s [H1 H2] _ IH]; intros n Hn; destruct n as [|n]; try (cbn in Hn; lia); [done|].
  cbn [str_body app]. rewrite rd_cons_0. replace (c =? 34) with false by lia. replace (c =? 0) with false by lia.
  cbn [drop]. rewrite drop_0, IH; [done|cbn in Hn; lia].
Qed.

(** what the two lookups make of the value they are led to *)
Lemma json_get_found (buf key : list Z) (len : nat) (fs : list (list Z * jval)) (tail : list Z) (outsz : Z) :
  forallb field_ok fs = true →
  json_find_value buf len key
    = match first_field key fs with
      | Some (v, fs') => Some (length (jval_text v ++ after_field fs'), (jval_text v ++ after_field fs') ++ tail)
      | None => None
      end →
  json_get_i32 buf len key
    = match first_field key fs with
      | Some (JInt z, _) => Some z | Some (JBool b, _) => Some (if b then 1 else 0) | _ => None end ∧
  json_get_str buf len key outsz
    = match first_field key fs with Some (JStr s, _) => Some (take (Z.to_nat (outsz - 1)) s) | _ => None end.
Proof.
  intros Hfs Hfind. unfold json_get_i32, json_get_str.
  rewrite Hfind. destruct (first_field key fs) as [[v fs']|] eqn:Ef; [|done].
  assert (jval_ok v = true) as Hv.
  { clear -Hfs Ef. induction fs as [|[k w] fs IH]; [done|]. cbn in Hfs, Ef. apply andb_prop in Hfs as [[_ Hw]%andb_prop Hfs].
    destruct (decide _); [by injection Ef as -> ->|by apply IH]. }
  destruct (jval_text_start v (after_field fs' ++ tail) Hv) as [_ Hl]. pose proof (after_field_stops fs' tail) as Hst.
  assert (in_buf (length (jval_text v ++ after_field fs'), (jval_text v ++ after_field fs') ++ tail) = true) as ->.
  { unfold in_buf. apply bool_decide_eq_true_2. cbn [fst]. rewrite length_app. lia. }
  cbn [negb orb p_rest p_next fst snd]. rewrite <- !app_assoc. destruct v as [z|b|s|zs]; cbn [jval_text jval_ok] in *.
  - assert (-2147483648 ≤ z ≤ 2147483647) as Hz by lia. pose proof (rd_sdec z (after_field fs' ++ tail) Hz) as Hr.
    unfold lit_true, lit_false. rewrite !starts_with_head by lia. rewrite strtol_sdec by done. split; [done|].
    by replace (rd (sdec z ++ after_field fs' ++ tail) 0 =? 34) with false by lia.
  - destruct b; [by rewrite starts_with_app|]. unfold lit_true. rewrite starts_with_head by discriminate. by rewrite starts_with_app.
  - cbn [app]. rewrite <- app_assoc. unfold lit_true, lit_false. rewrite !starts_with_head by done. split; [by rewrite strtol_not by (by left)|].
    rewrite rd_cons_0. cbn [Z.eqb Pos.eqb negb drop app]. rewrite drop_0, str_body_run; [done| |].
    + apply Forall_forall. intros c Hc. rewrite forallb_forall in Hv. specialize (Hv c Hc). lia.
    + cbn [app length pred]. rewrite !length_app. cbn. lia.
  - cbn [app]. unfold lit_true, lit_false. rewrite !starts_with_head by done. by rewrite strtol_not by (by right).
Qed.

(** looking up a field of an object *)
Lemma json_get_object (fs : list (list Z * jval)) (tail key : list Z) (outsz : Z) :
  forallb field_ok fs → key_ok key →
  let buf := object_text fs ++ tail in
  let len := length (object_text fs) in
  json_get_i32 buf len key
    = match first_field key fs with
      | Some (JInt z, _) => Some z | Some (JBool b, _) => Some (if b then 1 else 0) | _ => None end ∧
  json_get_str buf len key outsz
    = match first_field key fs with Some (JStr s, _) => Some (take (Z.to_nat (outsz - 1)) s) | _ => None end.
Proof.
  intros Hfs Hkey buf len. apply Is_true_true in Hfs, Hkey. apply (json_get_found _ _ _ _ tail); [done|by apply find_object].
Qed.

(** looking up a field behind the value of another *)
Lemma json_get_after (v : jval) (fs : list (list Z * jval)) (tail key : list Z) (outsz : Z) :
  jval_ok v → forallb field_ok fs → key_ok key →
  let buf := (jval_text v ++ after_field fs) ++ tail in
  let len := length (jval_text v ++ after_field fs) in
  json_get_i32 buf len key
    = match first_field key fs with
      | Some (JInt z, _) => Some z | Some (JBool b, _) => Some (if b then 1 else 0) | _ => None end ∧
  json_get_str buf len key outsz
    = match first_field key fs with Some (JStr s, _) => Some (take (Z.to_nat (outsz - 1)) s) | _ => None end.
Proof.
  intros Hv Hfs Hkey buf len. apply Is_true_true in Hv, Hfs, Hkey. apply (json_get_found _ _ _ _ tail); [done|].
  unfold json_find_value, buf, len. rewrite length_app, <- app_assoc.
  rewrite (find_value key Hkey) by (done || apply after_field_stops). rewrite <- (find_fields key Hkey fs tail) by done.
  unfold after_field. destruct fs as [|f fs]; [done|]. cbn [app length]. apply (find_block key Hkey [44]). repeat constructor. lia.
Qed.

(** ** Queries *)

Definition param_text (p : list Z * list Z) : list Z := p.1 ++ 61 :: p.2.
Fixpoint params_text (ps : list (list Z * list Z)) : list Z :=
  match ps with [] => [] | [p] => param_text p | p :: ps => param_text p ++ 38 :: params_text ps end.
(** neither part holds a separator; the value may hold [=] *)
Definition param_ok (p : list Z * list Z) : bool :=
  key_ok p.1 && forallb (λ c, negb (c =? 38)) p.2.
Fixpoint first_param (key : list Z) (ps : list (list Z * list Z)) : option (list Z) :=
  match ps with [] => None | p :: ps => if decide (p.1 = key) then Some p.2 else first_param key ps end.

Lemma at_amp_block s t : Forall (λ c, c ≠ 38) s → at_amp (s ++ t) = at_amp t.
Proof. induction 1 as [|c s Hc _ IH]; [done|]. cbn. replace (c =? 38) with false by lia. exact IH. Qed.
Lemma until_amp_block s t : Forall (λ c, c ≠ 38) s → until_amp (s ++ t) = s ++ until_amp t.
Proof. induction 1 as [|c s Hc _ IH]; [done|]. cbn. replace (c =? 38) with false by lia. f_equal. exact IH. Qed.

(** a key is found at its parameter only *)
Lemma param_match key k v t :
  key_ok key = true → key_ok k = true →
  starts_with key (k ++ 61 :: v ++ t) && (rd (k ++ 61 :: v ++ t) (length key) =? 61) = bool_decide (k = key).
Proof.
  intros Hkey Hk. assert (∀ l, key_ok l = true → Forall (λ c, c ≠ 61) l) as Hne.
  { intros l Hl. apply Forall_forall. intros c Hc. unfold key_ok in Hl. apply andb_prop in Hl as [_ Hl].
    rewrite forallb_forall in Hl. specialize (Hl c Hc). unfold key_char in Hl. lia. }
  destruct (bool_decide_reflect (k = key)) as [->|Hd].
  - rewrite starts_with_app, rd_app_r, Nat.sub_diag by lia. done.
  - unfold starts_with. destruct (bool_decide_reflect (take (length key) (k ++ 61 :: v ++ t) = key)) as [Ht|]; [|done]. cbn [andb].
    destruct (Nat.lt_trichotomy (length key) (length k)) as [Hl|[Hl|Hl]].
    + rewrite rd_app_l by done. apply Z.eqb_neq. unfold rd. destruct (k !! length key) as [c|] eqn:Ec; cbn; [|done].
      by apply (Forall_lookup_1 _ _ _ _ (Hne k Hk) Ec).
    + exfalso. apply Hd. by rewrite take_app_le, take_ge in Ht by lia.
    + exfalso. assert (rd key (length k) = 61) as Hr by (rewrite <- Ht, rd_take, rd_app_r, Nat.sub_diag by lia; done).
      unfold rd in Hr. destruct (key !! length k) as [c|] eqn:Ec; cbn in Hr; [|done]. subst c.
      by apply (Forall_lookup_1 _ _ _ _ (Hne key Hkey) Ec).
Qed.

Lemma query_params key ps fuel lead :
  key_ok key = true → forallb param_ok ps = true → (length ps < fuel)%nat → lead = [] ∨ lead = [63] ∨ lead = [38] →
  query_loop fuel key (lead ++ params_text ps) = first_param key ps.
Proof.
  intros Hkey. revert fuel lead. induction ps as [|[k v] ps IH]; intros fuel lead Hps Hfuel Hlead; (destruct fuel as [|fuel]; [cbn in Hfuel; lia|]).
  { destruct (key_ok_spec key Hkey) as (_ & c & k & -> & _).
    destruct Hlead as [->|[->| ->]]; [done|..]; (cbn; destruct fuel; done). }
  cbn [forallb] in Hps. apply andb_prop in Hps as [[Hk Hv]%andb_prop Hps]. cbn [fst snd] in *.
  set (t := match ps with [] => [] | _ => 38 :: params_text ps end).
  assert (params_text ((k, v) :: ps) = k ++ 61 :: v ++ t) as ->.
  { unfold t. destruct ps as [|p ps]; cbn [params_text]; unfold param_text; cbn [fst snd].
    - by rewrite app_nil_r.
    - rewrite <- app_assoc. done. }
  assert (Forall (λ c, c ≠ 38) v) as Hv'.
  { apply Forall_forall. intros c Hc. rewrite forallb_forall in Hv. specialize (Hv c Hc). lia. }
  assert (Forall (λ c, c ≠ 38) (k ++ 61 :: v)) as Hkv.
  { apply Forall_app. split; [|constructor; [lia|done]]. apply Forall_forall. intros c Hc. unfold key_ok in Hk.
    apply andb_prop in Hk as [_ Hk]. rewrite forallb_forall in Hk. specialize (Hk c Hc). unfold key_char in Hk. lia. }
  destruct (key_ok_spec k Hk) as (_ & c & k' & Ek & Hc).
  assert (query_loop (S fuel) key (lead ++ k ++ 61 :: v ++ t)
          = let q := k ++ 61 :: v ++ t in
            if starts_with key q && (rd q (length key) =? 61) then Some (until_amp (drop (length key + 1) q))
            else query_loop fuel key (at_amp q)) as ->.
  { unfold key_char in Hc. destruct Hlead as [->|[->| ->]]; [|done|done]. rewrite Ek. cbn [app query_loop].
    by replace ((c =? 63) || (c =? 38)) with false by lia. }
  cbv zeta. rewrite param_match by done. cbn [first_param fst snd].
  destruct (bool_decide_reflect (k = key)) as [->|Hne].
  - rewrite decide_True by done. rewrite drop_app_ge by lia. replace (length key + 1 - length key)%nat with 1%nat by lia.
    cbn [drop]. rewrite drop_0, until_amp_block by done. f_equal. unfold t. destruct ps; cbn; apply app_nil_r.
  - rewrite decide_False by done. rewrite (app_comm_cons v), app_assoc, at_amp_block by done.
    rewrite <- (IH fuel (match ps with [] => [] | _ => [38] end)); [|done|cbn in Hfuel; lia|destruct ps; [by left|by right; right]].
    f_equal. unfold t. by destruct ps.
Qed.

(** ** Properties *)


(** C0: Query parameters: for any list of named parameters, with or without the leading question mark, the lookup yields
    the value of the first parameter with exactly that name, cut to the buffer, and none when there is none. *)
Theorem query_roundtrip (ps : list (list Z * list Z)) (key : list Z) (outsz : Z) (mark : bool) :
  forallb param_ok ps → key_ok key →
  url_query_get ((if mark then [63] else []) ++ params_text ps) key outsz
  = take (Z.to_nat (outsz - 1)) <$> first_param key ps.
Proof.
  intros Hps Hkey. apply Is_true_true in Hps, Hkey. unfold url_query_get.
  assert (length ps ≤ length (params_text ps))%nat as Hl.
  { clear Hps. induction ps as [|p ps IH]; [done|]. destruct ps as [|p' ps].
    - cbn [params_text length]. unfold param_text. rewrite length_app. cbn. lia.
    - change (params_text (p :: p' :: ps)) with (param_text p ++ 38 :: params_text (p' :: ps)).
      rewrite length_app. cbn [length] in *. lia. }
  rewrite query_params; [by destruct (first_param key ps)|done|done|destruct mark; cbn [app length]; lia|destruct mark; [by right; left|by left]].
Qed.

(** ** Witnesses *)

Definition do_cmd : list (list Z * jval) :=
  [([99; 109; 100], JStr [100; 111]); ([105; 110; 100; 101; 120], JInt 3); ([118], JBool true); ([120], JInt (-5))].


Lemma query_roundtrip_witness :
  url_query_get [63; 97; 61; 49; 38; 110; 61; 120; 121; 122] [110] 3 = Some [120; 121].
Proof. exact (query_roundtrip [([97], [49]); ([110], [120; 121; 122])] [110] 3 true I I). Defined.
