(* ===== verification/WebCmds.v ===== *)
(** The web commands and the JSON they are answered with: [src/web/web_cmds.c].

    The builders produce the text of one JSON object with successive [snprintf]
    calls; the executors run the same register operations as Modbus.
    [set_reboot_status], which only raises the flag the heartbeat task polls, is
    an operation on what lies behind the registers. *)

From Stdlib Require Import String.
From S2P Require Import Prelude IoBytes Regmap Io WebJson.
From S2P Require History.

Local Open Scope list_scope.
Local Open Scope Z_scope.

(** successive [n += snprintf(buf + n, bufsz - n, piece)]: [None] once the room
    has wrapped around *)
Fixpoint emit_all (bufsz : Z) (pieces : list (list Z)) (st : Z * list Z) : option (Z * list Z) :=
  match pieces with
  | [] => Some st
  | p :: pieces => match History.snprintf_at bufsz p st with Some st => emit_all bufsz pieces st | None => None end
  end.

(** the return value and the text *)
Definition built (bufsz : Z) (st : option (Z * list Z)) : option (Z * list Z) :=
  match st with Some (n, out) => Some (if bufsz <? n then bufsz else n, out) | None => None end.

(** ["%s%u"] with a comma before all but the first *)
Definition num_item (i v : Z) : list Z := (if i =? 0 then [] else [44]) ++ dec v.

(** [(v >> i) & 1] for [i], ..., [i + n - 1] *)
Fixpoint bit_items (n : nat) (i v : Z) : list (list Z) :=
  match n with O => [] | S n => num_item i (Z.land (Z.shiftr v i) 1) :: bit_items n (i + 1) v end.

(** the build constants and the state outside the registers the info page shows *)
Record info := mk_info {
  FW_VERSION_MAJOR : Z; FW_VERSION_MINOR : Z; FW_VERSION_PATCH : Z; FW_GIT_VERSION : list Z; BUILD_TIME : list Z;
  info_mac : option (list Z); info_lfs_free : Z; info_lfs_total : Z; info_link_up : bool }.

(** ["%02x"] *)
Definition hex_digit (d : Z) : Z := if d <? 10 then 48 + d else 87 + d.
Definition hex2 (v : Z) : list Z := [hex_digit (v / 16); hex_digit (v mod 16)].
Definition mac_str (mac : option (list Z)) : list Z :=
  match mac with
  | Some m => hex2 (rd m 0) ++ [58] ++ hex2 (rd m 1) ++ [58] ++ hex2 (rd m 2) ++ [58] ++
              hex2 (rd m 3) ++ [58] ++ hex2 (rd m 4) ++ [58] ++ hex2 (rd m 5)
  | None => js "00:00:00:00:00:00"
  end.

Section Web.
Context {E : Type} `{IoHooks E}.
Abbreviation MR := (M (regs E)).

(** the values of a loop over [i], ..., [i + n - 1] *)
Fixpoint read_items (n : nat) (i : Z) (get : Z → MR Z) : MR (list (list Z)) :=
  match n with
  | O => mret []
  | S n => v ← get i; vs ← read_items n (i + 1) get; mret (num_item i v :: vs)
  end.

(** [ms]: the tick count in milliseconds *)
Definition web_build_io_json (bufsz ms : Z) : MR (option (Z * list Z)) :=
  di ← get_input_reg INPUT_DI_IDX;
  do_v ← get_holding_reg HOLDING_DO_IDX;
  di_en ← get_holding_reg HOLDING_DI_ENABLE_IDX;
  ai_en ← get_holding_reg HOLDING_AI_ENABLE_IDX;
  ai ← read_items (Z.to_nat AI_NUM) 0 (λ i, get_input_reg (INPUT_AI0_IDX + i));
  mret (built bufsz (emit_all bufsz
    ([js "{'t':'io','di':["] ++ bit_items (Z.to_nat DI_NUM) 0 di ++ [js "],'do':["] ++ bit_items (Z.to_nat DO_NUM) 0 do_v ++
     [js "],'ai':["] ++ ai ++
     [js "],'di_en':" ++ dec di_en ++ js ",'ai_en':" ++ dec ai_en ++ js ",'ms':" ++ dec (u32 ms) ++ js "}"]) (0, []))).

Definition web_build_regs_json (bufsz : Z) : MR (option (Z * list Z)) :=
  hs ← read_items (Z.to_nat MODBUS_HOLDING_REGISTER_NUMBERS) 0 io_read_holding;
  ins ← read_items (Z.to_nat MODBUS_INPUT_REGISTER_NUMBERS) 0 get_input_reg;
  mret (built bufsz (emit_all bufsz
    ([js "{'t':'regs','holding':["] ++ hs ++ [js "],'input':["] ++ ins ++ [js "]}"]) (0, []))).

Definition web_build_info_json (bufsz ms : Z) (x : info) : MR (option (Z * list Z)) :=
  ip1 ← get_holding_reg HOLDING_IP_OCTET1_IDX; ip2 ← get_holding_reg HOLDING_IP_OCTET2_IDX;
  ip3 ← get_holding_reg HOLDING_IP_OCTET3_IDX; ip4 ← get_holding_reg HOLDING_IP_OCTET4_IDX;
  sid ← get_holding_reg HOLDING_SLAVE_ID_IDX; rs ← get_holding_reg HOLDING_RS485_BAUDRATE_IDX;
  cid ← get_holding_reg HOLDING_CAN_ID_IDX; cb ← get_holding_reg HOLDING_CAN_BAUDRATE_IDX;
  now ← call_ret hook_now_epoch;
  his ← get_holding_reg HOLDING_HISTORY_ENABLE_IDX;
  di ← get_holding_reg HOLDING_DI_SAMPLE_MS_IDX; ai ← get_holding_reg HOLDING_AI_SAMPLE_MS_IDX;
  mret (built bufsz (emit_all bufsz
    [js "{'t':'info','version':'v" ++ dec (FW_VERSION_MAJOR x) ++ [46] ++ dec (FW_VERSION_MINOR x) ++ [46] ++
     dec (FW_VERSION_PATCH x) ++ [95] ++ FW_GIT_VERSION x ++ js "','build':'" ++ BUILD_TIME x ++
     js "','board':'io_edge_f407vet6','hclk_mhz':168,'flash_kb':512,'sram_kb':192,'mac':'" ++ mac_str (info_mac x) ++
     js "','ip':'" ++ dec ip1 ++ [46] ++ dec ip2 ++ [46] ++ dec ip3 ++ [46] ++ dec ip4 ++
     js "','slave_id':" ++ dec sid ++ js ",'rs485_baud':" ++ dec rs ++ js ",'can_id':" ++ dec cid ++
     js ",'can_baud':" ++ dec cb ++ js ",'uptime_ms':" ++ dec (u32 ms) ++ js ",'time':" ++ dec (u32 now) ++
     js ",'hist_en':" ++ dec (if his =? 0 then 0 else 1) ++ js ",'lfs_free':" ++ dec (u32 (info_lfs_free x)) ++
     js ",'lfs_total':" ++ dec (u32 (info_lfs_total x)) ++ js ",'net_up':" ++
     (if info_link_up x then lit_true else lit_false) ++ js ",'di_ms':" ++ dec di ++ js ",'ai_ms':" ++ dec ai ++ js "}"]
    (0, []))).

(** ** Commands; [true] is return value 0 *)

Context (set_reboot_status : bool → E → E).

Definition web_cmd_exec_do (index value : Z) : MR bool :=
  if (index <? 0) || (DO_NUM <=? index) then mret false
  else io_write_do_bit (u16 index) (negb (value =? 0)).

Definition web_cmd_exec_reg (addr value : Z) : MR bool :=
  if (addr <? 0) || (MODBUS_HOLDING_REGISTER_NUMBERS <=? addr) || (value <? 0) || (0xFFFF <? value) then mret false
  else if addr =? HOLDING_REBOOT_IDX
  then (if negb (value =? 0) then call (set_reboot_status true) else mret tt);; mret true
  else io_write_holding (u16 addr) (u16 value).

Inductive cfg_err := e_bad_ip | e_bad_rs | e_bad_sid | e_bad_can | e_bad_cid.

(** the four octets; [p] is the string from here, without its terminator *)
Fixpoint parse_octets (n : nat) (p : list Z) : option (list Z) :=
  match n with
  | O => Some []
  | S n' =>
    match strtoul p 10 with
    | None => None
    | Some (v, e) =>
      if (255 <? v) || (bool_decide (n' ≠ O) && negb (rd e 0 =? 46)) then None
      else match parse_octets n' (drop 1 e) with Some o => Some (v :: o) | None => None end
    end
  end.

(** one optional field: absent, refused, or written *)
Definition cfg_field (v : option Z) (ok : Z → bool) (addr : Z) (err : cfg_err) (k : MR (option cfg_err)) : MR (option cfg_err) :=
  match v with
  | None => k
  | Some v => if ok v then _ ← io_write_holding addr (u16 v); k else mret (Some err)
  end.

Definition rs_ok (v : Z) : bool := negb ((v <? 1200) || (115200 <? v)).
Definition sid_ok (v : Z) : bool := negb ((v <? 1) || (247 <? v)).
Definition can_ok (v : Z) : bool :=
  (v =? 50) || (v =? 100) || (v =? 125) || (v =? 250) || (v =? 500) || (v =? 800) || (v =? 1000).
Definition cid_ok (v : Z) : bool := negb ((v <? 1) || (0x7FF <? v)).

(** the fields after the address *)
Definition cfg_numbers (rs sid can cid : option Z) : MR (option cfg_err) :=
  cfg_field rs rs_ok HOLDING_RS485_BAUDRATE_IDX e_bad_rs
  (cfg_field sid sid_ok HOLDING_SLAVE_ID_IDX e_bad_sid
  (cfg_field can can_ok HOLDING_CAN_BAUDRATE_IDX e_bad_can
  (cfg_field cid cid_ok HOLDING_CAN_ID_IDX e_bad_cid (mret None)))).

(** [None] is return value 0, [Some e] is -1 with [*err = e] *)
Definition web_cmd_exec_cfg (json : list Z) (len : nat) : MR (option cfg_err) :=
  let numbers := cfg_numbers (json_get_i32 json len (js "rs485")) (json_get_i32 json len (js "sid"))
                   (json_get_i32 json len (js "can_bps")) (json_get_i32 json len (js "can_id")) in
  match json_get_str json len (js "ip") 16 with
  | None => numbers
  | Some ip_str =>
    match parse_octets 4 ip_str with
    | Some [a; b; c; d] =>
      if ip_addr_valid (u8 a) (u8 b) (u8 c) (u8 d)
      then _ ← io_write_holding HOLDING_IP_OCTET1_IDX (u16 a); _ ← io_write_holding HOLDING_IP_OCTET2_IDX (u16 b);
           _ ← io_write_holding HOLDING_IP_OCTET3_IDX (u16 c); _ ← io_write_holding HOLDING_IP_OCTET4_IDX (u16 d);
           numbers
      else mret (Some e_bad_ip)
    | _ => mret (Some e_bad_ip)
    end
  end.
End Web.

(** ** The text of the builders *)

(** the pieces of a list of numbers, the first at index [i] *)
Fixpoint num_items (i : Z) (zs : list Z) : list (list Z) :=
  match zs with [] => [] | z :: zs => num_item i z :: num_items (i + 1) zs end.

Fixpoint bits_of (n : nat) (i v : Z) : list Z :=
  match n with O => [] | S n => Z.land (Z.shiftr v i) 1 :: bits_of n (i + 1) v end.

Lemma bit_items_nums n i v : bit_items n i v = num_items i (bits_of n i v).
Proof. revert i. induction n as [|n IH]; intros i; cbn; [done|]. by rewrite IH. Qed.

Lemma items_text_cons z zs : items_text (z :: zs) = dec z ++ concat ((λ z, 44 :: dec z) <$> zs).
Proof.
  revert z. induction zs as [|z' zs IH]; intros z; [cbn; by rewrite app_nil_r|].
  change (items_text (z :: z' :: zs)) with (dec z ++ 44 :: items_text (z' :: zs)). by rewrite IH.
Qed.

Lemma num_items_pos i zs : 0 < i → num_items i zs = (λ z, 44 :: dec z) <$> zs.
Proof.
  revert i. induction zs as [|z zs IH]; intros i Hi; [done|]. cbn [num_items fmap list_fmap]. rewrite IH by lia.
  unfold num_item. by replace (i =? 0) with false by lia.
Qed.

Lemma concat_num_items zs : concat (num_items 0 zs) = items_text zs.
Proof. destruct zs as [|z zs]; [done|]. rewrite items_text_cons. cbn [num_items]. by rewrite num_items_pos by lia. Qed.

Lemma emit_all_fits bufsz ps n out :
  0 ≤ n → n + zlen (concat ps) < bufsz → emit_all bufsz ps (n, out) = Some (n + zlen (concat ps), out ++ concat ps).
Proof.
  revert n out. induction ps as [|p ps IH]; intros n out Hn Hfit; cbn [emit_all concat] in *.
  { by rewrite app_nil_r, Z.add_0_r. }
  rewrite zlen_app in Hfit. pose proof (zlen_nonneg (concat ps)). pose proof (zlen_nonneg p).
  unfold History.snprintf_at. replace (n <=? bufsz) with true by lia. rewrite take_ge by (unfold zlen in *; lia).
  rewrite IH by lia. rewrite zlen_app, <- app_assoc. do 2 f_equal. lia.
Qed.

Lemma built_fits bufsz ps :
  zlen (concat ps) < bufsz → built bufsz (emit_all bufsz ps (0, [])) = Some (zlen (concat ps), concat ps).
Proof.
  intros Hfit. rewrite emit_all_fits by lia. unfold built. rewrite Z.add_0_l.
  by replace (bufsz <? zlen (concat ps)) with false by lia.
Qed.

Lemma dec_digits_length fuel n acc k :
  0 ≤ n < 10 ^ Z.of_nat (S k) → zlen (dec_digits fuel n acc) ≤ Z.of_nat (S k) + zlen acc.
Proof.
  revert n acc k. induction fuel as [|fuel IH]; intros n acc k Hn; cbn [dec_digits]; [lia|].
  destruct (Z.ltb_spec n 10) as [Hl|Hg]; [unfold zlen; cbn [length]; lia|].
  destruct k as [|k]; [cbn in Hn; lia|].
  assert (0 ≤ n / 10 < 10 ^ Z.of_nat (S k)) as Hd.
  { rewrite (Nat2Z.inj_succ (S k)), Z.pow_succ_r in Hn by lia. generalize dependent (10 ^ Z.of_nat (S k)). intros p Hp. Z.div_mod_to_equations. lia. }
  specialize (IH (n / 10) (48 + n mod 10 :: acc) k Hd). unfold zlen in *. cbn [length] in IH. lia.
Qed.

Lemma dec_u16_length n : is_u16 n → zlen (dec n) ≤ 5.
Proof. intros Hn. apply (dec_digits_length 20 n [] 4). change (10 ^ Z.of_nat 5) with 100000. ulia. Qed.
Lemma dec_u32_length n : is_u32 n → zlen (dec n) ≤ 10.
Proof. intros Hn. apply (dec_digits_length 20 n [] 9). change (10 ^ Z.of_nat 10) with 10000000000. ulia. Qed.

Lemma items_length zs k : 0 ≤ k → Forall (λ z, zlen (dec z) ≤ k) zs → zlen (items_text zs) ≤ (k + 1) * zlen zs.
Proof.
  intros Hk. induction 1 as [|z zs Hz Hzs IH]; [unfold zlen; cbn; lia|]. destruct zs as [|z' zs].
  - cbn [items_text]. unfold zlen in *. cbn [length]. lia.
  - change (items_text (z :: z' :: zs)) with (dec z ++ 44 :: items_text (z' :: zs)). rewrite zlen_app.
    change (44 :: items_text (z' :: zs)) with ([44] ++ items_text (z' :: zs)). rewrite zlen_app.
    unfold zlen in *. cbn [length] in *. lia.
Qed.

Lemma bits_of_dec n i v : Forall (λ z, zlen (dec z) ≤ 1) (bits_of n i v) ∧ zlen (bits_of n i v) = Z.of_nat n.
Proof.
  revert i. induction n as [|n IH]; intros i; [done|]. destruct (IH (i + 1)) as [Hf Hl]. cbn [bits_of]. split.
  - constructor; [|done]. assert (Z.land (Z.shiftr v i) 1 = Z.shiftr v i mod 2) as -> by (apply (Z.land_ones _ 1); lia).
    assert (Z.shiftr v i mod 2 = 0 ∨ Z.shiftr v i mod 2 = 1) as [->| ->] by (Z.div_mod_to_equations; lia); by vm_compute.
  - unfold zlen in *. cbn [length]. lia.
Qed.

(** ** Dotted addresses *)

Definition dotted (a b c d : Z) : list Z := dec a ++ [46] ++ dec b ++ [46] ++ dec c ++ [46] ++ dec d.

Lemma scan_digits_end ds t acc any :
  ten_digits ds → is_digit 10 (rd t 0) = false →
  scan_digits 10 (ds ++ t) acc any = (digits_val ds acc, any || negb (bool_decide (ds = [])), t).
Proof.
  intros Hd Ht. revert acc any. induction Hd as [|c ds Hc Hd IH]; intros acc any; cbn [app].
  - rewrite (bool_decide_eq_true_2 ([] = [])) by done. cbn [negb]. rewrite orb_false_r.
    destruct t as [|c t]; [done|]. unfold is_digit in Ht. cbn in Ht. cbn [scan_digits digits_val foldl].
    destruct (digit_val c) as [d|]; [by rewrite Ht|done].
  - cbn [scan_digits]. rewrite digit_val_ten by done. replace (c - 48 <? 10) with true by lia. rewrite IH. cbn [digits_val foldl].
    rewrite (bool_decide_eq_false_2 (c :: ds = [])) by done. cbn [negb orb]. by rewrite orb_true_r.
Qed.

Lemma strtoul_dec n t : 0 ≤ n < 2 ^ 32 → is_digit 10 (rd t 0) = false → strtoul (dec n ++ t) 10 = Some (n, t).
Proof.
  intros Hn Ht. destruct (dec_spec n Hn) as (ds & -> & Hd & Hv & Hnil & _).
  unfold strtoul, scan_number.
  assert (skip_spaces (ds ++ t) = ds ++ t ∧ scan_sign (ds ++ t) = (false, ds ++ t)) as [-> ->].
  { destruct Hd as [|c ds Hc Hd]; [done|]. cbn [app skip_spaces scan_sign]. unfold isspace.
    replace ((c =? 32) || ((9 <=? c) && (c <=? 13))) with false by lia.
    by replace (c =? 45) with false by lia; replace (c =? 43) with false by lia. }
  change (10 =? 0) with false. cbv iota. rewrite scan_digits_end by done. rewrite bool_decide_eq_false_2 by done.
  cbn [orb negb]. rewrite Hv. by replace (4294967295 <? n) with false by lia.
Qed.

Lemma dec_byte_length n : is_byte n → zlen (dec n) ≤ 3.
Proof. intros Hn. apply (dec_digits_length 20 n [] 2). change (10 ^ Z.of_nat 3) with 1000. ulia. Qed.

Lemma parse_dotted a b c d :
  is_byte a → is_byte b → is_byte c → is_byte d → parse_octets 4 (take 15 (dotted a b c d)) = Some [a; b; c; d].
Proof.
  intros Ha Hb Hc Hd. rewrite take_ge.
  - unfold dotted. cbn [parse_octets]. cbn [app].
    rewrite strtoul_dec by (ulia || done). replace (255 <? a) with false by ulia. cbn -[parse_octets dec strtoul].
    cbn [parse_octets drop]. rewrite !drop_0.
    rewrite strtoul_dec by (ulia || done). replace (255 <? b) with false by ulia. cbn -[parse_octets dec strtoul].
    rewrite ?drop_0.
    rewrite strtoul_dec by (ulia || done). replace (255 <? c) with false by ulia. cbn -[parse_octets dec strtoul].
    rewrite ?drop_0. rewrite <- (app_nil_r (dec d)).
    rewrite strtoul_dec by (ulia || done). by replace (255 <? d) with false by ulia.
  - pose proof (dec_byte_length a Ha). pose proof (dec_byte_length b Hb). pose proof (dec_byte_length c Hc).
    pose proof (dec_byte_length d Hd). unfold dotted, zlen in *. rewrite !length_app. cbn [length]. lia.
Qed.

Section WebProofs.
Context {E : Type} `{IoHooks E}.

Lemma read_items_run n i get (s : regs E) (f : Z → Z) :
  (∀ j, i ≤ j < i + Z.of_nat n → get j s = (Done (f j), s)) →
  read_items n i get s = (Done (num_items i (f <$> seqZ i (Z.of_nat n))), s).
Proof.
  revert i. induction n as [|n IH]; intros i Hg; [done|]. cbn [read_items].
  erewrite bind_done by (apply Hg; lia). erewrite bind_done by (apply IH; intros j Hj; apply Hg; lia).
  rewrite (seqZ_cons i) by lia. cbn [fmap list_fmap num_items].
  replace (Z.succ i) with (i + 1) by lia. by replace (Z.pred (Z.of_nat (S n))) with (Z.of_nat n) by lia.
Qed.

(** the objects the two register pages stand for *)
Definition io_object (s : regs E) (ms : Z) : list (list Z * jval) :=
  [(js "t", JStr (js "io")); (js "di", JArr (bits_of 16 0 (iread s INPUT_DI_IDX)));
   (js "do", JArr (bits_of 8 0 (hread s HOLDING_DO_IDX)));
   (js "ai", JArr ((λ i, iread s (INPUT_AI0_IDX + i)) <$> seqZ 0 4));
   (js "di_en", JInt (hread s HOLDING_DI_ENABLE_IDX)); (js "ai_en", JInt (hread s HOLDING_AI_ENABLE_IDX));
   (js "ms", JInt (u32 ms))].

(** holding register [i] as a read shows it at time [now] *)
Definition shown (s : regs E) (now i : Z) : Z :=
  if i =? HOLDING_TIMESTAMP_HI_IDX then u16 (Z.shiftr (u32 now) 16)
  else if i =? HOLDING_TIMESTAMP_LO_IDX then u16 (u32 now) else hread s i.
Definition regs_object (s : regs E) (now : Z) : list (list Z * jval) :=
  [(js "t", JStr (js "regs")); (js "holding", JArr (shown s now <$> seqZ 0 18)); (js "input", JArr (iread s <$> seqZ 0 6))].

Lemma sdec_nonneg z : 0 ≤ z → sdec z = dec z.
Proof. intros Hz. unfold sdec. by replace (z <? 0) with false by lia. Qed.

Lemma zlen_seqZ_map {A} (f : Z → A) n : zlen (f <$> seqZ 0 n) = Z.max 0 n.
Proof. unfold zlen. rewrite length_fmap, length_seqZ. lia. Qed.

Lemma words_length (f : Z → Z) n :
  (∀ i, is_u16 (f i)) → zlen (items_text (f <$> seqZ 0 n)) ≤ 6 * Z.max 0 n.
Proof.
  intros Hf. etrans; [apply (items_length _ 5); [lia|]|rewrite zlen_seqZ_map; lia].
  apply Forall_fmap, Forall_forall. intros i _. by apply dec_u16_length.
Qed.

Lemma bits_length n v : zlen (items_text (bits_of n 0 v)) ≤ 2 * Z.of_nat n.
Proof. destruct (bits_of_dec n 0 v) as [Hf Hl]. etrans; [apply (items_length _ 1); [lia|done]|lia]. Qed.

Lemma io_pieces di dv ai den aen ms :
  0 ≤ den → 0 ≤ aen → 0 ≤ ms →
  concat ([js "{'t':'io','di':["] ++ num_items 0 di ++ [js "],'do':["] ++ num_items 0 dv ++ [js "],'ai':["] ++
    num_items 0 ai ++ [js "],'di_en':" ++ dec den ++ js ",'ai_en':" ++ dec aen ++ js ",'ms':" ++ dec ms ++ js "}"])
  = object_text [(js "t", JStr (js "io")); (js "di", JArr di); (js "do", JArr dv); (js "ai", JArr ai);
                 (js "di_en", JInt den); (js "ai_en", JInt aen); (js "ms", JInt ms)].
Proof.
  intros Hd Ha Hm. rewrite !concat_app, !concat_num_items. unfold object_text. cbn [fields_text]. unfold field_text. cbn [jval_text fst snd].
  rewrite !sdec_nonneg by done. generalize (items_text di) (items_text dv) (items_text ai) (dec den) (dec aen) (dec ms).
  intros. cbn -[app]. repeat (rewrite <- !app_assoc || cbn [app]). done.
Qed.

Lemma regs_pieces hs ins :
  concat ([js "{'t':'regs','holding':["] ++ num_items 0 hs ++ [js "],'input':["] ++ num_items 0 ins ++ [js "]}"])
  = object_text [(js "t", JStr (js "regs")); (js "holding", JArr hs); (js "input", JArr ins)].
Proof.
  rewrite !concat_app, !concat_num_items. unfold object_text. cbn [fields_text]. unfold field_text. cbn [jval_text fst snd].
  generalize (items_text hs) (items_text ins). intros. cbn -[app]. repeat (rewrite <- !app_assoc || cbn [app]). done.
Qed.

Lemma iread_run i (t : regs E) : i < 6 → get_input_reg i t = (Done (iread t i), t).
Proof.
  intros Hi. unfold get_input_reg, gets. by replace (MODBUS_INPUT_REGISTER_NUMBERS <=? i) with false
    by (unfold MODBUS_INPUT_REGISTER_NUMBERS; lia).
Qed.
Lemma hread_run i (t : regs E) : i < 18 → get_holding_reg i t = (Done (hread t i), t).
Proof.
  intros Hi. unfold get_holding_reg, gets. by replace (MODBUS_HOLDING_REGISTER_NUMBERS <=? i) with false
    by (unfold MODBUS_HOLDING_REGISTER_NUMBERS; lia).
Qed.

Lemma shown_run (s : regs E) now i :
  i < 18 → hook_now_epoch (env s) = (now, env s) → io_read_holding i s = (Done (shown s now i), s).
Proof.
  intros Hi Hn. unfold io_read_holding, shown. destruct s as [hs ins e]. cbn [env] in Hn.
  destruct (i =? HOLDING_TIMESTAMP_HI_IDX); [|destruct (i =? HOLDING_TIMESTAMP_LO_IDX); [|by apply hread_run]].
  all: unfold call_ret, mbind, M_bind; cbn [env]; by rewrite Hn.
Qed.

Lemma shown_u16 (s : regs E) now i : regs_ok s → is_u16 (shown s now i).
Proof. intros Hs. unfold shown. repeat case_match; [ulia|ulia|by apply hread_u16]. Qed.

Lemma web_io_run (s : regs E) bufsz ms :
  regs_ok s → 160 ≤ bufsz →
  let text := object_text (io_object s ms) in
  web_build_io_json bufsz ms s = (Done (Some (zlen text, text)), s) ∧ zlen text < bufsz.
Proof.
  intros Hs Hb text. unfold web_build_io_json.
  erewrite bind_done by (by apply iread_run). do 3 erewrite bind_done by (by apply hread_run).
  erewrite bind_done by (apply (read_items_run _ _ _ s (λ i, iread s (INPUT_AI0_IDX + i)));
    intros j Hj; apply iread_run; unfold INPUT_AI0_IDX, AI_NUM in *; lia).
  rewrite !bit_items_nums.
  pose proof (hread_u16 s HOLDING_DI_ENABLE_IDX Hs) as Hd. pose proof (hread_u16 s HOLDING_AI_ENABLE_IDX Hs) as Ha.
  assert (is_u32 (u32 ms)) as Hm by ulia.
  change (Z.of_nat (Z.to_nat AI_NUM)) with 4. change (Z.to_nat DI_NUM) with 16%nat. change (Z.to_nat DO_NUM) with 8%nat.
  assert (zlen text < bufsz) as Hlen.
  { unfold text, io_object. rewrite <- io_pieces by ulia. rewrite !concat_app, !concat_num_items, !zlen_app. cbn [concat].
    rewrite !app_nil_r, !zlen_app.
    pose proof (bits_length 16 (iread s INPUT_DI_IDX)). pose proof (bits_length 8 (hread s HOLDING_DO_IDX)).
    pose proof (words_length (λ i, iread s (INPUT_AI0_IDX + i)) 4 (λ i, iread_u16 s _ Hs)).
    pose proof (dec_u16_length _ Hd). pose proof (dec_u16_length _ Ha). pose proof (dec_u32_length _ Hm).
    repeat match goal with |- context [zlen (js ?x)] => let v := eval vm_compute in (zlen (js x)) in change (zlen (js x)) with v end.
    lia. }
  split; [|done]. rewrite built_fits by (rewrite io_pieces by ulia; exact Hlen). by rewrite io_pieces by ulia.
Qed.

Lemma web_regs_run (s : regs E) bufsz now :
  regs_ok s → 192 ≤ bufsz → hook_now_epoch (env s) = (now, env s) →
  let text := object_text (regs_object s now) in
  web_build_regs_json bufsz s = (Done (Some (zlen text, text)), s) ∧ zlen text < bufsz.
Proof.
  intros Hs Hb Hn text. unfold web_build_regs_json.
  erewrite bind_done by (apply (read_items_run _ _ _ s (shown s now)); intros j Hj; apply shown_run; [|done];
    unfold MODBUS_HOLDING_REGISTER_NUMBERS in *; lia).
  erewrite bind_done by (apply (read_items_run _ _ _ s (iread s)); intros j Hj; apply iread_run;
    unfold MODBUS_INPUT_REGISTER_NUMBERS in *; lia).
  change (Z.of_nat (Z.to_nat MODBUS_HOLDING_REGISTER_NUMBERS)) with 18.
  change (Z.of_nat (Z.to_nat MODBUS_INPUT_REGISTER_NUMBERS)) with 6.
  assert (zlen text < bufsz) as Hlen.
  { unfold text, regs_object. rewrite <- regs_pieces. rewrite !concat_app, !concat_num_items, !zlen_app. cbn [concat].
    rewrite !app_nil_r.
    pose proof (words_length (shown s now) 18 (λ i, shown_u16 s now i Hs)).
    pose proof (words_length (iread s) 6 (λ i, iread_u16 s i Hs)).
    repeat match goal with |- context [zlen (js ?x)] => let v := eval vm_compute in (zlen (js x)) in change (zlen (js x)) with v end.
    lia. }
  split; [|done]. rewrite built_fits by (rewrite regs_pieces; exact Hlen). by rewrite regs_pieces.
Qed.

(** *** Configuration requests *)

(** one setting: acceptable, the registers it writes, its error *)
Definition cfg_step : Type := bool * list (Z * Z) * cfg_err.

Definition num_step (ok : Z → bool) (addr : Z) (err : cfg_err) (v : option Z) : list cfg_step :=
  match v with None => [] | Some v => [(ok v, [(addr, u16 v)], err)] end.
Definition ip_step (t : option (list Z)) : list cfg_step :=
  match t with
  | None => []
  | Some t =>
    match parse_octets 4 t with
    | Some [a; b; c; d] =>
      [(ip_addr_valid (u8 a) (u8 b) (u8 c) (u8 d),
        [(HOLDING_IP_OCTET1_IDX, u16 a); (HOLDING_IP_OCTET2_IDX, u16 b);
         (HOLDING_IP_OCTET3_IDX, u16 c); (HOLDING_IP_OCTET4_IDX, u16 d)], e_bad_ip)]
    | _ => [(false, [], e_bad_ip)]
    end
  end.

(** what a request writes, and its answer: everything up to the first refused setting *)
Fixpoint run_steps (st : list cfg_step) : list (Z * Z) * option cfg_err :=
  match st with
  | [] => ([], None)
  | (ok, ws, err) :: st => if ok : bool then ((ws ++ (run_steps st).1), (run_steps st).2) else ([], Some err)
  end.

Definition put (s : regs E) (w : Z * Z) : regs E := stored_reg s w.1 w.2 (env s).
Definition put_all (ws : list (Z * Z)) (s : regs E) : regs E := foldl put s ws.

(** the settings of an object *)
Definition int_field (fs : list (list Z * jval)) (key : list Z) : option Z :=
  match first_field key fs with Some (JInt z, _) => Some z | Some (JBool b, _) => Some (if b then 1 else 0) | _ => None end.
Definition str_field (fs : list (list Z * jval)) (key : list Z) (outsz : Z) : option (list Z) :=
  match first_field key fs with Some (JStr s, _) => Some (take (Z.to_nat (outsz - 1)) s) | _ => None end.
Definition number_steps (rs sid can cid : option Z) : list cfg_step :=
  num_step rs_ok HOLDING_RS485_BAUDRATE_IDX e_bad_rs rs ++ num_step sid_ok HOLDING_SLAVE_ID_IDX e_bad_sid sid ++
  num_step can_ok HOLDING_CAN_BAUDRATE_IDX e_bad_can can ++ num_step cid_ok HOLDING_CAN_ID_IDX e_bad_cid cid.
Definition cfg_steps (fs : list (list Z * jval)) : list cfg_step :=
  ip_step (str_field fs (js "ip") 16) ++
  number_steps (int_field fs (js "rs485")) (int_field fs (js "sid")) (int_field fs (js "can_bps")) (int_field fs (js "can_id")).

Lemma put_run (s : regs E) a v : regs_ok s → 6 ≤ a < 14 → is_u16 v →
  io_write_holding a v s = (Done true, put s (a, v)) ∧ regs_ok (put s (a, v)).
Proof.
  intros Hs Ha Hv. split.
  - destruct (decide (hread s a = v)) as [Heq|Hne].
    + rewrite io_write_holding_same by (done || lia). unfold put, stored_reg. cbn [fst snd].
      rewrite list_insert_id; [by destruct s|]. subst v. unfold hread, rd. destruct Hs as (Hl & _).
      destruct (lookup_lt_is_Some_2 (holding_reg s) (Z.to_nat a)) as [x Hx]; [lia|]. by rewrite Hx.
    + rewrite io_write_holding_plain by (done || lia). unfold put, write_env. cbn [fst snd].
      unfold HOLDING_DO_IDX, HOLDING_HISTORY_ENABLE_IDX, HOLDING_TIMESTAMP_LO_IDX.
      by replace (a =? 0) with false by lia; replace (a =? 5) with false by lia; replace (a =? 15) with false by lia.
  - destruct Hs as (Hh & Hi & Fh & Fi). unfold regs_ok, put, stored_reg; cbn. rewrite length_insert. auto using Forall_insert.
Qed.

(** one numeric setting in front of the rest *)
Lemma cfg_field_run v ok addr err k st (s : regs E) :
  regs_ok s → 6 ≤ addr < 14 →
  (∀ t, regs_ok t → k t = (Done (run_steps st).2, put_all (run_steps st).1 t) ∧ regs_ok (put_all (run_steps st).1 t)) →
  let r := run_steps (num_step ok addr err v ++ st) in
  cfg_field v ok addr err k s = (Done r.2, put_all r.1 s) ∧ regs_ok (put_all r.1 s).
Proof.
  intros Hs Ha Hk. destruct v as [v|]; [|by apply Hk]. cbn [num_step app run_steps cfg_field].
  destruct (ok v); [|done]. destruct (put_run s addr (u16 v) Hs Ha) as [Hr Hok]; [ulia|].
  erewrite bind_done by exact Hr. cbn [fst snd app]. by apply Hk.
Qed.

Lemma cfg_numbers_run rs sid can cid (s : regs E) :
  regs_ok s →
  let r := run_steps (number_steps rs sid can cid) in
  cfg_numbers rs sid can cid s = (Done r.2, put_all r.1 s) ∧ regs_ok (put_all r.1 s).
Proof.
  intros Hs. unfold cfg_numbers, number_steps.
  apply cfg_field_run; [done|unfold HOLDING_RS485_BAUDRATE_IDX; lia|intros t1 Ht1].
  apply cfg_field_run; [done|unfold HOLDING_SLAVE_ID_IDX; lia|intros t2 Ht2].
  apply cfg_field_run; [done|unfold HOLDING_CAN_BAUDRATE_IDX; lia|intros t3 Ht3].
  rewrite <- (app_nil_r (num_step cid_ok _ _ _)).
  apply cfg_field_run; [done|unfold HOLDING_CAN_ID_IDX; lia|done].
Qed.

Lemma cfg_run fs tail (s : regs E) :
  forallb field_ok fs → regs_ok s →
  let r := run_steps (cfg_steps fs) in
  web_cmd_exec_cfg (object_text fs ++ tail) (length (object_text fs)) s = (Done r.2, put_all r.1 s) ∧
  regs_ok (put_all r.1 s).
Proof.
  intros Hfs Hs. unfold web_cmd_exec_cfg, cfg_steps.
  destruct (json_get_object fs tail (js "ip") 16 Hfs I) as [_ ->].
  destruct (json_get_object fs tail (js "rs485") 16 Hfs I) as [-> _].
  destruct (json_get_object fs tail (js "sid") 16 Hfs I) as [-> _].
  destruct (json_get_object fs tail (js "can_bps") 16 Hfs I) as [-> _].
  destruct (json_get_object fs tail (js "can_id") 16 Hfs I) as [-> _].
  fold (str_field fs (js "ip") 16). fold (int_field fs (js "rs485")). fold (int_field fs (js "sid")).
  fold (int_field fs (js "can_bps")). fold (int_field fs (js "can_id")).
  destruct (str_field fs (js "ip") 16) as [t|]; [|by apply cfg_numbers_run]. cbn [ip_step].
  destruct (parse_octets 4 t) as [[|a [|b [|c [|d [|? ?]]]]]|]; try done.
  cbn [app run_steps]. destruct (ip_addr_valid _ _ _ _); [|done]. cbn [fst snd].
  destruct (put_run s HOLDING_IP_OCTET1_IDX (u16 a) Hs) as [R1 Hs1]; [unfold HOLDING_IP_OCTET1_IDX; lia|ulia|].
  destruct (put_run _ HOLDING_IP_OCTET2_IDX (u16 b) Hs1) as [R2 Hs2]; [unfold HOLDING_IP_OCTET2_IDX; lia|ulia|].
  destruct (put_run _ HOLDING_IP_OCTET3_IDX (u16 c) Hs2) as [R3 Hs3]; [unfold HOLDING_IP_OCTET3_IDX; lia|ulia|].
  destruct (put_run _ HOLDING_IP_OCTET4_IDX (u16 d) Hs3) as [R4 Hs4]; [unfold HOLDING_IP_OCTET4_IDX; lia|ulia|].
  do 4 (erewrite bind_done by first [exact R1|exact R2|exact R3|exact R4]).
  by apply cfg_numbers_run.
Qed.

(** *** No command stops the device *)

Lemma write_returns addr v (s : regs E) :
  addr ≠ HOLDING_REBOOT_IDX → ∃ b s', io_write_holding addr v s = (Done b, s').
Proof.
  intros Hne. unfold io_write_holding. destruct (MODBUS_HOLDING_REGISTER_NUMBERS <=? addr); [by eexists _, _|].
  erewrite bind_done by reflexivity. destruct (hread s addr =? v); [by eexists _, _|].
  erewrite bind_done by reflexivity. unfold write_effect. repeat match goal with |- context [if addr =? ?k then _ else _] =>
    destruct (Z.eqb_spec addr k) as [->|]; [|] end; try done; try by eexists _, _.
  - unfold call_ret, gets, mbind, M_bind. cbn -[hread hook_set_timestamp]. destruct (hook_set_timestamp _ _). by eexists _, _.
  - eexists _, _. erewrite bind_done by (erewrite bind_done by reflexivity; apply holding_reg_save_run). reflexivity.
Qed.
End WebProofs.

(** ** Properties *)

(** The two register pages: for well-formed registers and the buffer sizes of the callers the builder returns the
    length of the text it wrote, the text is the JSON object that shows every input and output bit, every channel and
    every setting (the register dump: each register as a Modbus read at that moment would show it, the clock registers
    included), it ends before the end of the buffer, and building it changes nothing. *)
Theorem web_pages {E} `{IoHooks E} (s : regs E) (bufsz ms now : Z) :
  regs_ok s → 192 ≤ bufsz → hook_now_epoch (env s) = (now, env s) →
  let io := object_text (io_object s ms) in
  let dump := object_text (regs_object s now) in
  web_build_io_json bufsz ms s = (Done (Some (zlen io, io)), s) ∧ zlen io < bufsz ∧
  web_build_regs_json bufsz s = (Done (Some (zlen dump, dump)), s) ∧ zlen dump < bufsz ∧
  (∀ i, 0 ≤ i < MODBUS_HOLDING_REGISTER_NUMBERS → io_read_holding i s = (Done (shown s now i), s)).
Proof.
  intros Hs Hb Hn io dump. destruct (web_io_run s bufsz ms Hs) as [Hi Hil]; [lia|].
  destruct (web_regs_run s bufsz now Hs Hb Hn) as [Hr Hrl]. split_and!; [done..|].
  intros i Hi'. apply shown_run; [unfold MODBUS_HOLDING_REGISTER_NUMBERS in *; lia|done].
Qed.


(** No web command takes the device down before the answer: setting an output or a register and configuring always
    return.  An output or register number outside the map, or a value that does not fit, is refused with nothing
    changed; writing the reboot register only raises the request the heartbeat task looks at, and every other register
    write is the write a Modbus master would make. *)
Theorem web_commands_return {E} `{IoHooks E} (set_reboot_status : bool → E → E) (s : regs E) (a v : Z) :
  (∃ b s', web_cmd_exec_reg set_reboot_status a v s = (Done b, s')) ∧
  (∃ b s', web_cmd_exec_do a v s = (Done b, s')) ∧
  (¬ (0 ≤ a < MODBUS_HOLDING_REGISTER_NUMBERS ∧ is_u16 v) → web_cmd_exec_reg set_reboot_status a v s = (Done false, s)) ∧
  (¬ 0 ≤ a < DO_NUM → web_cmd_exec_do a v s = (Done false, s)) ∧
  (is_u16 v → v ≠ 0 → web_cmd_exec_reg set_reboot_status HOLDING_REBOOT_IDX v s
     = (Done true, mk_regs (holding_reg s) (input_reg s) (set_reboot_status true (env s)))) ∧
  (0 ≤ a < HOLDING_REBOOT_IDX → is_u16 v → web_cmd_exec_reg set_reboot_status a v s = io_write_holding a v s).
Proof.
  assert (∀ v, is_u16 v → ∀ a, 0 ≤ a < HOLDING_REBOOT_IDX →
    web_cmd_exec_reg set_reboot_status a v s = io_write_holding a v s) as Hin.
  { intros w Hw i Hi. unfold web_cmd_exec_reg, HOLDING_REBOOT_IDX, MODBUS_HOLDING_REGISTER_NUMBERS in *.
    replace ((i <? 0) || (18 <=? i) || (w <? 0) || (0xFFFF <? w)) with false by ulia.
    replace (i =? 17) with false by lia. by rewrite !u16_id by ulia. }
  assert (∀ w, is_u16 w → web_cmd_exec_reg set_reboot_status HOLDING_REBOOT_IDX w s
    = (Done true, if decide (w = 0) then s else mk_regs (holding_reg s) (input_reg s) (set_reboot_status true (env s)))) as Hrb.
  { intros w Hw. unfold web_cmd_exec_reg.
    replace ((HOLDING_REBOOT_IDX <? 0) || (MODBUS_HOLDING_REGISTER_NUMBERS <=? HOLDING_REBOOT_IDX) || (w <? 0) || (0xFFFF <? w))
      with false by (unfold HOLDING_REBOOT_IDX, MODBUS_HOLDING_REGISTER_NUMBERS; ulia).
    rewrite Z.eqb_refl. case_decide as Hw0; [subst w; done|]. by replace (w =? 0) with false by lia. }
  assert (¬ (0 ≤ a < MODBUS_HOLDING_REGISTER_NUMBERS ∧ is_u16 v) → web_cmd_exec_reg set_reboot_status a v s = (Done false, s)) as Hout.
  { intros Ho. unfold web_cmd_exec_reg. rewrite is_u16_iff in Ho.
    by replace ((a <? 0) || (MODBUS_HOLDING_REGISTER_NUMBERS <=? a) || (v <? 0) || (0xFFFF <? v)) with true by lia. }
  split_and!; [| |done| | |by auto].
  - destruct (decide (0 ≤ a < MODBUS_HOLDING_REGISTER_NUMBERS ∧ is_u16 v)) as [[Ha Hv]|Ho]; [|eexists _, _; by apply Hout].
    destruct (decide (a = HOLDING_REBOOT_IDX)) as [->|Hne]; [eexists _, _; by apply Hrb|].
    unfold MODBUS_HOLDING_REGISTER_NUMBERS, HOLDING_REBOOT_IDX in *.
    rewrite Hin by (done || unfold HOLDING_REBOOT_IDX; lia). by apply write_returns.
  - unfold web_cmd_exec_do. destruct ((a <? 0) || (DO_NUM <=? a)) eqn:Ea; [by eexists _, _|].
    eexists _, _. apply io_write_do_bit_eq. unfold DO_NUM in *. rewrite u16_id by ulia. lia.
  - intros Ha. unfold web_cmd_exec_do. by replace ((a <? 0) || (DO_NUM <=? a)) with true by lia.
  - intros Hv Hv0. rewrite Hrb by done. by rewrite decide_False.
Qed.

(** ** Witnesses *)

Definition cfg_request : list (list Z * jval) :=
  [(js "cmd", JStr (js "cfg")); (js "sid", JInt 7); (js "ip", JStr (js "10.0.0.42")); (js "can_bps", JInt 300); (js "can_id", JInt 5)].

Lemma web_pages_witness :
  web_build_io_json 1024 77 (regs_boot 0)
  = (Done (Some (zlen (object_text (io_object (regs_boot 0) 77)), object_text (io_object (regs_boot 0) 77))), regs_boot 0).
Proof. exact (proj1 (web_pages (regs_boot 0) 1024 77 0 (regs_boot_ok 0) ltac:(lia) eq_refl)). Defined.


Lemma web_commands_return_witness :
  web_cmd_exec_reg (λ _ e, Trace.emit Trace.EvReboot e) HOLDING_REBOOT_IDX 1 (regs_boot 0)
  = (Done true, mk_regs holding_reg_init (input_reg_init 0 3 0) (Trace.emit Trace.EvReboot (Trace.boot 0))).
Proof.
  destruct (web_commands_return (λ _ e, Trace.emit Trace.EvReboot e) (regs_boot 0) 0 1) as (_ & _ & _ & _ & Hr & _).
  apply Hr; [ulia|lia].
Defined.
