(* ===== verification/WsCrypto.v ===== *)
(** The WebSocket handshake: SHA-1, Base64 and [ws_handshake] of [src/web/ws.c],
    with SHA-1 as FIPS 180-4 states it for reference.

    A [sha1_ctx] holds the used part of its block buffer; words are [Z] in 32
    bits with the wrap-around of [uint32_t] written out. *)

From Stdlib Require Import String.
From S2P Require Import Prelude IoBytes WebJson.

Local Open Scope list_scope.
Local Open Scope Z_scope.

(** ** SHA-1 *)

Record sha1_ctx := mk_sha1 { sha_h : list Z; sha_total : Z; sha_buf : list Z }.

Definition u64 (z : Z) : Z := z mod 18446744073709551616.

Definition sha1_h0 : list Z := [0x67452301; 0xEFCDAB89; 0x98BADCFE; 0x10325476; 0xC3D2E1F0].
Definition sha1_init : sha1_ctx := mk_sha1 sha1_h0 0 [].

Definition SHA_ROL (v n : Z) : Z := Z.lor (u32 (Z.shiftl v n)) (Z.shiftr v (32 - n)).

(** [w[0..15]] *)
Definition block_word (p : list Z) (i : nat) : Z :=
  Z.lor (Z.lor (Z.lor (u32 (Z.shiftl (rd p (i * 4)) 24)) (Z.shiftl (rd p (i * 4 + 1)) 16)) (Z.shiftl (rd p (i * 4 + 2)) 8))
    (rd p (i * 4 + 3)).

(** [w[16..79]], [n] words from index [|w|] on *)
Fixpoint sha1_schedule (n : nat) (w : list Z) : list Z :=
  match n with
  | O => w
  | S n =>
    let i := length w in
    sha1_schedule n (w ++ [SHA_ROL (Z.lxor (Z.lxor (Z.lxor (rd w (i - 3)) (rd w (i - 8))) (rd w (i - 14))) (rd w (i - 16))) 1])
  end.

(** the working variables, in the order [a], [b], [cc], [d], [e] *)
Definition vars : Type := Z * Z * Z * Z * Z.

Definition sha1_round (w : list Z) (v : vars) (i : nat) : vars :=
  let '(a, b, cc, d, e) := v in
  let '(g, k) :=
    if (i <? 20)%nat then (Z.lor (Z.land b cc) (Z.land (u32 (Z.lnot b)) d), 0x5A827999)
    else if (i <? 40)%nat then (Z.lxor (Z.lxor b cc) d, 0x6ED9EBA1)
    else if (i <? 60)%nat then (Z.lor (Z.lor (Z.land b cc) (Z.land b d)) (Z.land cc d), 0x8F1BBCDC)
    else (Z.lxor (Z.lxor b cc) d, 0xCA62C1D6) in
  let t := u32 (SHA_ROL a 5 + g + e + k + rd w i) in
  (t, a, SHA_ROL b 30, cc, d).

Definition sha1_block (h p : list Z) : list Z :=
  let w := sha1_schedule 64 (block_word p <$> seq 0 16) in
  let '(a, b, cc, d, e) := foldl (sha1_round w) (rd h 0, rd h 1, rd h 2, rd h 3, rd h 4) (seq 0 80) in
  [u32 (rd h 0 + a); u32 (rd h 1 + b); u32 (rd h 2 + cc); u32 (rd h 3 + d); u32 (rd h 4 + e)].

(** the loop of [sha1_update] on the bytes left *)
Fixpoint update_loop (fuel : nat) (c : sha1_ctx) (p : list Z) : sha1_ctx :=
  match fuel with
  | O => c
  | S fuel =>
    match p with
    | [] => c
    | _ =>
      let n := Nat.min (64 - length (sha_buf c)) (length p) in
      let buf := sha_buf c ++ take n p in
      let c := if (length buf =? 64)%nat then mk_sha1 (sha1_block (sha_h c) buf) (sha_total c) []
               else mk_sha1 (sha_h c) (sha_total c) buf in
      update_loop fuel c (drop n p)
    end
  end.

Definition sha1_update (c : sha1_ctx) (p : list Z) : sha1_ctx :=
  update_loop (length p) (mk_sha1 (sha_h c) (u64 (sha_total c + zlen p)) (sha_buf c)) p.

(** [while (c->buf_len != 56u)] *)
Fixpoint pad_loop (fuel : nat) (c : sha1_ctx) : sha1_ctx :=
  match fuel with
  | O => c
  | S fuel => if (length (sha_buf c) =? 56)%nat then c else pad_loop fuel (sha1_update c [0])
  end.

Definition be_bytes (n : nat) (v : Z) : list Z := (λ i, u8 (Z.shiftr v (8 * Z.of_nat (n - 1 - i)))) <$> seq 0 n.

Definition sha1_final (c : sha1_ctx) : list Z :=
  let bits := u64 (Z.shiftl (sha_total c) 3) in
  let c := pad_loop 64 (sha1_update c [0x80]) in
  let c := sha1_update c (be_bytes 8 bits) in
  concat (be_bytes 4 <$> sha_h c).

(** ** Base64 *)

Definition b64_tab : list Z := js "ABCDEFGHIJKLMNOPQRSTUVWXYZabcdefghijklmnopqrstuvwxyz0123456789+/".
Definition b64_char (v : Z) : Z := rd b64_tab (Z.to_nat (Z.land v 0x3F)).

Fixpoint b64_encode (src : list Z) : list Z :=
  match src with
  | a :: b :: c :: src =>
    let v := Z.lor (Z.lor (Z.shiftl a 16) (Z.shiftl b 8)) c in
    b64_char (Z.shiftr v 18) :: b64_char (Z.shiftr v 12) :: b64_char (Z.shiftr v 6) :: b64_char v :: b64_encode src
  | [a; b] =>
    let v := Z.lor (Z.shiftl a 16) (Z.shiftl b 8) in
    [b64_char (Z.shiftr v 18); b64_char (Z.shiftr v 12); b64_char (Z.shiftr v 6); 61]
  | [a] => let v := Z.shiftl a 16 in [b64_char (Z.shiftr v 18); b64_char (Z.shiftr v 12); 61; 61]
  | [] => []
  end.

(** [None] is -1 *)
Definition b64_val (ch : Z) : option Z :=
  if (65 <=? ch) && (ch <=? 90) then Some (ch - 65)
  else if (97 <=? ch) && (ch <=? 122) then Some (ch - 97 + 26)
  else if (48 <=? ch) && (ch <=? 57) then Some (ch - 48 + 52)
  else if ch =? 43 then Some 62
  else if ch =? 47 then Some 63
  else None.

(** [dst]: the bytes written so far *)
Fixpoint b64_loop (src : list Z) (acc nbits dst_max : Z) (dst : list Z) : option (list Z) :=
  match src with
  | [] => Some dst
  | ch :: src =>
    match b64_val ch with
    | None => if (ch =? 61) || (ch =? 32) || (ch =? 13) || (ch =? 10) then b64_loop src acc nbits dst_max dst else None
    | Some v =>
      let acc := Z.lor (u32 (Z.shiftl acc 6)) v in
      let nbits := nbits + 6 in
      if 8 <=? nbits
      then if dst_max <=? zlen dst then None
           else b64_loop src acc (nbits - 8) dst_max (dst ++ [u8 (Z.shiftr acc (nbits - 8))])
      else b64_loop src acc nbits dst_max dst
    end
  end.

Definition b64_decode (src : list Z) (dst_max : Z) : option (list Z) := b64_loop src 0 0 dst_max [].

(** ** The handshake *)

Definition guid : list Z := js "258EAFA5-E914-47DA-95CA-C5AB0DC85B11".
Definition key_header : list Z := js "Sec-WebSocket-Key:".

Definition to_lower (c : Z) : Z := if (65 <=? c) && (c <=? 90) then c + 32 else c.
(** [strncasecmp(s, lit, |lit|) == 0] for a literal without NUL *)
Definition starts_with_case (lit s : list Z) : bool := bool_decide (to_lower <$> take (length lit) s = to_lower <$> lit).

Fixpoint skip_sp (s : list Z) : list Z := match s with c :: s' => if c =? 32 then skip_sp s' else s | [] => [] end.

(** [n]: the bytes of the header from here on *)
Fixpoint find_key (n : nat) (s : list Z) : option (list Z) :=
  match n with
  | O => None
  | S n' =>
    if (length key_header <? n)%nat
    then if starts_with_case key_header s then Some (skip_sp (drop (length key_header) s)) else find_key n' (drop 1 s)
    else None
  end.

Definition sha1 (pieces : list (list Z)) : list Z := sha1_final (foldl sha1_update sha1_init pieces).

(** [n] bytes of memory *)
Definition rd_n (p : list Z) (n : nat) : list Z := rd p <$> seq 0 n.

Definition accept_of (key : list Z) : list Z := b64_encode (sha1 [rd_n key 24; guid]).

Definition response_head : list Z :=
  js "HTTP/1.1 101 Switching Protocols" ++ [13; 10] ++ js "Upgrade: websocket" ++ [13; 10] ++
  js "Connection: Upgrade" ++ [13; 10] ++ js "Sec-WebSocket-Accept: ".

(** [None] is return value [false], [Some resp] the answer *)
Definition ws_handshake (req_hdr : list Z) (hdr_len : nat) (resp_max : Z) : option (list Z) :=
  match find_key hdr_len req_hdr with
  | None => None
  | Some key =>
    let accept := accept_of key in
    if negb (zlen accept =? 28) then None
    else
      let resp := response_head ++ accept ++ [13; 10; 13; 10] in
      if resp_max <=? zlen resp then None else Some resp
  end.

Example sha1_abc : sha1 [js "ab"; js "c"] = [0xa9;0x99;0x3e;0x36;0x47;0x06;0x81;0x6a;0xba;0x3e;0x25;0x71;0x78;0x50;0xc2;0x6c;0x9c;0xd0;0xd8;0x9d].
Proof. vm_compute. reflexivity. Qed.
Example rfc6455_key : accept_of (js "dGhlIHNhbXBsZSBub25jZQ==") = js "s3pPLMBiTxaQ9kYGzzhZRbK+xOo=".
Proof. vm_compute. reflexivity. Qed.

(** ** FIPS 180-4 *)

Section Fips.
Local Definition ROTL (n x : Z) : Z := Z.lor (u32 (Z.shiftl x n)) (Z.shiftr x (32 - n)).

Definition fips_f (t : nat) (x y z : Z) : Z :=
  if (t <? 20)%nat then Z.lxor (Z.land x y) (Z.land (u32 (Z.lnot x)) z)            (* Ch *)
  else if (t <? 40)%nat then Z.lxor (Z.lxor x y) z                                 (* Parity *)
  else if (t <? 60)%nat then Z.lxor (Z.lxor (Z.land x y) (Z.land x z)) (Z.land y z) (* Maj *)
  else Z.lxor (Z.lxor x y) z.
Definition fips_K (t : nat) : Z :=
  if (t <? 20)%nat then 0x5a827999 else if (t <? 40)%nat then 0x6ed9eba1
  else if (t <? 60)%nat then 0x8f1bbcdc else 0xca62c1d6.

(** the message word: four bytes, the most significant first *)
Definition fips_M (p : list Z) (t : nat) : Z :=
  rd p (4 * t) * 2 ^ 24 + rd p (4 * t + 1) * 2 ^ 16 + rd p (4 * t + 2) * 2 ^ 8 + rd p (4 * t + 3).
Definition fips_W (p : list Z) : list Z :=
  foldl (λ W t, W ++ [if (t <? 16)%nat then fips_M p t
                      else ROTL 1 (Z.lxor (Z.lxor (Z.lxor (rd W (t - 3)) (rd W (t - 8))) (rd W (t - 14))) (rd W (t - 16)))])
    [] (seq 0 80).
Definition fips_round (p : list Z) (v : vars) (t : nat) : vars :=
  let '(a, b, c, d, e) := v in
  let T := u32 (ROTL 5 a + fips_f t b c d + e + fips_K t + rd (fips_W p) t) in (T, a, ROTL 30 b, c, d).
Definition fips_block (h p : list Z) : list Z :=
  let '(a, b, c, d, e) := foldl (fips_round p) (rd h 0, rd h 1, rd h 2, rd h 3, rd h 4) (seq 0 80) in
  [u32 (a + rd h 0); u32 (b + rd h 1); u32 (c + rd h 2); u32 (d + rd h 3); u32 (e + rd h 4)].

(** a one bit, the fewest zero bits that leave 64 bits in the last block, the length in bits *)
Definition fips_pad (msg : list Z) : list Z :=
  msg ++ 0x80 :: replicate (Z.to_nat ((55 - zlen msg) mod 64)) 0 ++ be_bytes 8 (8 * zlen msg).

Definition fips_H (msg : list Z) (n : nat) : list Z :=
  foldl (λ h i, fips_block h (take 64 (drop (64 * i) msg))) sha1_h0 (seq 0 n).
Definition fips_sha1 (msg : list Z) : list Z :=
  concat (be_bytes 4 <$> fips_H (fips_pad msg) (length (fips_pad msg) / 64)).
End Fips.

(** ** One block *)

Lemma foldl_ext {A B} (f g : A → B → A) l a : (∀ a b, f a b = g a b) → foldl f a l = foldl g a l.
Proof. intros Hfg. revert a. induction l as [|b l IH]; intros a; cbn [foldl]; [done|]. by rewrite Hfg. Qed.

Lemma ch_or x y z : Z.lor (Z.land x y) (Z.land (u32 (Z.lnot x)) z) = Z.lxor (Z.land x y) (Z.land (u32 (Z.lnot x)) z).
Proof.
  apply Z.bits_inj'. intros i Hi. rewrite Z.lor_spec, Z.lxor_spec, !Z.land_spec. unfold u32.
  change 4294967296 with (2 ^ 32). destruct (Z.ltb_spec i 32).
  - rewrite Z.mod_pow2_bits_low, Z.lnot_spec by lia. by destruct (Z.testbit x i), (Z.testbit y i), (Z.testbit z i).
  - rewrite Z.mod_pow2_bits_high by lia. by destruct (Z.testbit x i), (Z.testbit y i).
Qed.

Lemma maj_or x y z :
  Z.lor (Z.lor (Z.land x y) (Z.land x z)) (Z.land y z) = Z.lxor (Z.lxor (Z.land x y) (Z.land x z)) (Z.land y z).
Proof.
  apply Z.bits_inj'. intros i Hi. rewrite !Z.lor_spec, !Z.lxor_spec, !Z.land_spec.
  by destruct (Z.testbit x i), (Z.testbit y i), (Z.testbit z i).
Qed.

Lemma block_word_fips p i : bytes_ok p → block_word p i = fips_M p i.
Proof.
  intros Hp. unfold block_word, fips_M. rewrite (Nat.mul_comm i 4).
  pose proof (rd_byte p (4 * i) Hp). pose proof (rd_byte p (4 * i + 1) Hp).
  pose proof (rd_byte p (4 * i + 2) Hp). pose proof (rd_byte p (4 * i + 3) Hp).
  rewrite u32_id by (rewrite Z.shiftl_mul_pow2 by lia; ulia). rewrite lor4_arith by done. lia.
Qed.

Lemma schedule_fips p n w :
  (16 ≤ length w)%nat →
  sha1_schedule n w = foldl (λ W t, W ++ [if (t <? 16)%nat then fips_M p t
    else ROTL 1 (Z.lxor (Z.lxor (Z.lxor (rd W (t - 3)) (rd W (t - 8))) (rd W (t - 14))) (rd W (t - 16)))])
    w (seq (length w) n).
Proof.
  revert w. induction n as [|n IH]; intros w Hw; [done|]. cbn [sha1_schedule seq foldl].
  replace (length w <? 16)%nat with false by lia. rewrite IH by (rewrite length_app; cbn; lia).
  rewrite length_app. cbn [length]. by rewrite Nat.add_1_r.
Qed.

Lemma schedule_start p n k w :
  (k + n ≤ 16)%nat →
  foldl (λ W t, W ++ [if (t <? 16)%nat then fips_M p t
    else ROTL 1 (Z.lxor (Z.lxor (Z.lxor (rd W (t - 3)) (rd W (t - 8))) (rd W (t - 14))) (rd W (t - 16)))])
    w (seq k n) = w ++ (fips_M p <$> seq k n).
Proof.
  revert k w. induction n as [|n IH]; intros k w Hk; cbn [seq foldl fmap list_fmap]; [by rewrite app_nil_r|].
  replace (k <? 16)%nat with true by lia. rewrite IH by lia. by rewrite <- app_assoc.
Qed.

Lemma sha1_block_fips h p : bytes_ok p → sha1_block h p = fips_block h p.
Proof.
  intros Hp. unfold sha1_block, fips_block.
  assert (sha1_schedule 64 (block_word p <$> seq 0 16) = fips_W p) as ->.
  { rewrite (schedule_fips p) by done. unfold fips_W. change (seq 0 80) with (seq 0 16 ++ seq 16 64).
    rewrite foldl_app, (schedule_start p 16 0 []) by lia. rewrite length_fmap, length_seq. f_equal.
    apply list_fmap_ext. intros _ i _. by apply block_word_fips. }
  assert (∀ v i, sha1_round (fips_W p) v i = fips_round p v i) as Hround.
  { intros [[[[a b] c] d] e] i. unfold sha1_round, fips_round, fips_f, fips_K, SHA_ROL, ROTL.
    destruct (i <? 20)%nat; [by rewrite ch_or|]. destruct (i <? 40)%nat; [done|]. destruct (i <? 60)%nat; [by rewrite maj_or|done]. }
  rewrite (foldl_ext _ _ _ _ Hround).
  destruct (foldl _ _ _) as [[[[a b] c] d] e]. by rewrite (Z.add_comm a), (Z.add_comm b), (Z.add_comm c), (Z.add_comm d), (Z.add_comm e).
Qed.

(** ** Feeding the context *)

#[local] Opaque sha1_block fips_block.

(** what a context has absorbed, and what one more byte makes of it *)
Definition absorbed (c : sha1_ctx) : list Z * list Z := (sha_h c, sha_buf c).
Lemma absorbed_h c : sha_h c = (absorbed c).1.
Proof. done. Qed.
Lemma absorbed_buf c : sha_buf c = (absorbed c).2.
Proof. done. Qed.

Definition absorb (st : list Z * list Z) (b : Z) : list Z * list Z :=
  let buf := st.2 ++ [b] in if (length buf =? 64)%nat then (sha1_block st.1 buf, []) else (st.1, buf).

Lemma absorb_short h buf q :
  (length buf + length q < 64)%nat → foldl absorb (h, buf) q = (h, buf ++ q).
Proof.
  revert buf. induction q as [|b q IH]; intros buf Hq; cbn [foldl]; [by rewrite app_nil_r|]. cbn [length] in Hq.
  unfold absorb at 2. cbn [fst snd]. rewrite length_app. cbn [length].
  replace (length buf + 1 =? 64)%nat with false by lia. rewrite IH by (rewrite length_app; cbn; lia). by rewrite <- app_assoc.
Qed.

Lemma absorb_full h buf q :
  (length buf + length q = 64)%nat → q ≠ [] → foldl absorb (h, buf) q = (sha1_block h (buf ++ q), []).
Proof.
  intros Hq Hne. destruct (exists_last Hne) as (q' & b & ->). rewrite length_app in Hq. cbn [length] in Hq.
  rewrite foldl_app, absorb_short by lia. cbn [foldl]. unfold absorb. cbn [fst snd].
  rewrite <- app_assoc, !length_app. cbn [length]. by replace (length buf + (length q' + 1) =? 64)%nat with true by lia.
Qed.

Lemma absorb_room st q : (length st.2 < 64)%nat → (length (foldl absorb st q).2 < 64)%nat.
Proof.
  revert st. induction q as [|b q IH]; intros [h buf] Hl; [done|]. cbn [foldl]. apply IH. unfold absorb.
  destruct (length _ =? 64)%nat eqn:E; cbn [fst snd length] in *; [lia|]. rewrite length_app in *. cbn [length] in *. lia.
Qed.

(** the bytes left in the buffer *)
Lemma absorb_count h buf q :
  (length buf < 64)%nat → length (foldl absorb (h, buf) q).2 = ((length buf + length q) mod 64)%nat.
Proof.
  revert h buf. induction q as [|b q IH]; intros h buf Hb; cbn [foldl length].
  { rewrite Nat.add_0_r, Nat.mod_small by lia. done. }
  unfold absorb at 2. cbn [fst snd]. rewrite length_app. cbn [length]. destruct (length buf + 1 =? 64)%nat eqn:E.
  - rewrite IH by (cbn; lia). cbn [length]. replace (length buf + S (length q))%nat with (length q + 1 * 64)%nat by lia.
    by rewrite Nat.Div0.mod_add.
  - rewrite IH by (rewrite length_app; cbn [length]; lia). rewrite length_app. cbn [length]. f_equal. lia.
Qed.

Lemma update_loop_absorb fuel c p :
  (length (sha_buf c) < 64)%nat → (length p ≤ fuel)%nat →
  absorbed (update_loop fuel c p) = foldl absorb (absorbed c) p ∧ sha_total (update_loop fuel c p) = sha_total c.
Proof.
  revert c p. induction fuel as [|fuel IH]; intros c p Hb Hp; [by destruct p; [|cbn in Hp; lia]|].
  cbn [update_loop]. destruct p as [|b p']; [done|]. set (p := b :: p') in *.
  set (n := Nat.min (64 - length (sha_buf c)) (length p)).
  assert (0 < length p)%nat by (cbn; lia). assert (length (take n p) = n) as Hn by (rewrite length_take; lia).
  assert (take n p ≠ []) as Hne by (intros E; rewrite E in Hn; cbn in Hn; lia).
  replace (foldl absorb (absorbed c) p) with (foldl absorb (foldl absorb (absorbed c) (take n p)) (drop n p))
    by (by rewrite <- foldl_app, take_drop).
  unfold absorbed at 2.
  destruct (length (sha_buf c ++ take n p) =? 64)%nat eqn:E; rewrite length_app, Hn in E.
  - rewrite absorb_full by (done || lia).
    apply (IH (mk_sha1 (sha1_block (sha_h c) (sha_buf c ++ take n p)) (sha_total c) [])); [cbn; lia|rewrite length_drop; lia].
  - rewrite absorb_short by lia.
    apply (IH (mk_sha1 (sha_h c) (sha_total c) (sha_buf c ++ take n p))); cbn [sha_buf]; rewrite ?length_app, ?length_drop; lia.
Qed.

Lemma update_absorb c p :
  (length (sha_buf c) < 64)%nat →
  absorbed (sha1_update c p) = foldl absorb (absorbed c) p ∧ sha_total (sha1_update c p) = u64 (sha_total c + zlen p) ∧
  (length (sha_buf (sha1_update c p)) < 64)%nat.
Proof.
  intros Hb. unfold sha1_update.
  destruct (update_loop_absorb (length p) (mk_sha1 (sha_h c) (u64 (sha_total c + zlen p)) (sha_buf c)) p Hb) as [Ha Ht]; [done|].
  split_and!; [exact Ha|exact Ht|]. rewrite absorbed_buf, Ha. by apply absorb_room.
Qed.

Lemma updates_absorb pieces c :
  (length (sha_buf c) < 64)%nat → 0 ≤ sha_total c → sha_total c + zlen (concat pieces) < 2 ^ 64 →
  let c' := foldl sha1_update c pieces in
  absorbed c' = foldl absorb (absorbed c) (concat pieces) ∧ sha_total c' = sha_total c + zlen (concat pieces) ∧
  (length (sha_buf c') < 64)%nat.
Proof.
  revert c. induction pieces as [|p ps IH]; intros c Hb H0 Ht; cbn [foldl concat] in *.
  { split_and!; [done| |done]. unfold zlen. cbn. lia. }
  rewrite zlen_app in *. pose proof (zlen_nonneg p). pose proof (zlen_nonneg (concat ps)).
  destruct (update_absorb c p Hb) as (Ha & Hs & Hr). change (2 ^ 64) with 18446744073709551616 in Ht.
  unfold u64 in Hs. rewrite Z.mod_small in Hs by lia.
  destruct (IH (sha1_update c p) Hr) as (Ha' & Hs' & Hr'); [lia|change (2 ^ 64) with 18446744073709551616; lia|].
  rewrite Ha', Ha, Hs', Hs, foldl_app. split_and!; [done|lia|done].
Qed.

(** the zeros [sha1_final] appends *)
Lemma pad_loop_absorb fuel c d :
  (length (sha_buf c) < 64)%nat → d = (if length (sha_buf c) <=? 56 then 56 - length (sha_buf c) else 120 - length (sha_buf c))%nat → (d ≤ fuel)%nat →
  absorbed (pad_loop fuel c) = foldl absorb (absorbed c) (replicate d 0) ∧ (length (sha_buf (pad_loop fuel c)) < 64)%nat.
Proof.
  revert c d. induction fuel as [|fuel IH]; intros c d Hb Hd Hf.
  { assert (d = 0%nat) as -> by lia. done. }
  cbn [pad_loop]. destruct (length (sha_buf c) =? 56)%nat eqn:E.
  { replace (length (sha_buf c)) with 56%nat in Hd by lia. by subst d. }
  destruct (update_absorb c [0] Hb) as (Ha & _ & Hr).
  assert (length (sha_buf (sha1_update c [0])) = if (length (sha_buf c) =? 63)%nat then 0%nat else S (length (sha_buf c))) as Hl.
  { rewrite absorbed_buf, Ha. cbn [foldl]. unfold absorb, absorbed. cbn [fst snd].
    rewrite length_app, Nat.add_1_r. destruct (length (sha_buf c) =? 63)%nat eqn:E'.
    - by replace (S (length (sha_buf c)) =? 64)%nat with true by lia.
    - replace (S (length (sha_buf c)) =? 64)%nat with false by lia. cbn [snd]. by rewrite length_app, Nat.add_1_r. }
  destruct d as [|d]; [exfalso; destruct (_ <=? _)%nat eqn:E'; lia|].
  destruct (IH (sha1_update c [0]) d Hr) as [Ha' Hr']; [|lia|].
  { rewrite Hl. clear -Hd Hb E. destruct (length (sha_buf c) =? 63)%nat eqn:E2; [change (0 <=? 56)%nat with true; cbv iota|].
    - replace (length (sha_buf c) <=? 56)%nat with false in Hd by lia. lia.
    - destruct (length (sha_buf c) <=? 56)%nat eqn:E1.
      + replace (S (length (sha_buf c)) <=? 56)%nat with true by lia. lia.
      + replace (S (length (sha_buf c)) <=? 56)%nat with false by lia. lia. }
  split; [|done]. rewrite Ha', Ha. by cbn [replicate foldl].
Qed.

(** ** The digest *)

Lemma absorb_blocks n h m :
  length m = (64 * n)%nat → bytes_ok m →
  foldl absorb (h, []) m = (foldl (λ h i, fips_block h (take 64 (drop (64 * i) m))) h (seq 0 n), []).
Proof.
  revert h m. induction n as [|n IH]; intros h m Hm Hok.
  { destruct m; [done|unfold zlen in *; cbn [length] in *; lia]. }
  replace (foldl absorb (h, []) m) with (foldl absorb (foldl absorb (h, []) (take 64 m)) (drop 64 m))
    by (by rewrite <- foldl_app, take_drop).
  assert (length (take 64 m) = 64%nat) as Hl by (rewrite length_take; lia).
  rewrite absorb_full by (first [cbn [length]; lia | by intros E; rewrite E in Hl]). cbn [app].
  rewrite sha1_block_fips by (by apply Forall_take). rewrite IH by (rewrite ?length_drop; first [lia | by apply Forall_drop]).
  change (seq 0 (S n)) with (0%nat :: seq 1 n). cbn [foldl]. change (64 * 0)%nat with 0%nat. rewrite drop_0.
  apply (f_equal (λ x, (x, []))). rewrite <- (fmap_S_seq 0 n), foldl_fmap. apply foldl_ext. intros h' i.
  rewrite drop_drop. by replace (64 + 64 * i)%nat with (64 * S i)%nat by lia.
Qed.

Lemma be_bytes_ok n v : bytes_ok (be_bytes n v) ∧ length (be_bytes n v) = n.
Proof.
  unfold be_bytes. rewrite length_fmap, length_seq. split; [|done]. apply Forall_fmap, Forall_forall. intros i _. apply u8_range.
Qed.

Lemma fips_pad_ok msg : bytes_ok msg → bytes_ok (fips_pad msg) ∧ ∃ n, length (fips_pad msg) = (64 * n)%nat.
Proof.
  intros Hm. unfold fips_pad. destruct (be_bytes_ok 8 (8 * zlen msg)) as [Hb Hl]. split.
  - apply Forall_app. split; [done|]. constructor; [ulia|]. apply Forall_app. split; [|done].
    apply Forall_replicate. ulia.
  - exists (Z.to_nat ((zlen msg + 9 + (55 - zlen msg) mod 64) / 64)). rewrite length_app. cbn [length].
    rewrite length_app, length_replicate, Hl. unfold zlen in *. Z.div_mod_to_equations. lia.
Qed.

Lemma sha1_fips pieces :
  bytes_ok (concat pieces) → zlen (concat pieces) < 2 ^ 61 → sha1 pieces = fips_sha1 (concat pieces).
Proof.
  set (msg := concat pieces). intros Hm Hlen. change (2 ^ 61) with 2305843009213693952 in Hlen. pose proof (zlen_nonneg msg).
  unfold sha1. destruct (updates_absorb pieces sha1_init) as (Ha & Ht & Hr).
  { cbn. lia. } { done. } { fold msg. change (2 ^ 64) with 18446744073709551616. cbn. lia. }
  fold msg in Ha, Ht. change (absorbed sha1_init) with (sha1_h0, @nil Z) in Ha. unfold sha1_final.
  set (c := foldl sha1_update sha1_init pieces) in *. clearbody c.
  destruct (update_absorb c [0x80] Hr) as (Ha1 & _ & Hr1). set (c1 := sha1_update c [0x80]) in *. clearbody c1.
  set (k := Z.to_nat ((55 - zlen msg) mod 64)).
  assert (k < 64)%nat as Hk by (unfold k; Z.div_mod_to_equations; lia).
  destruct (pad_loop_absorb 64 c1 k Hr1) as [Ha2 Hr2]; [|lia|].
  { rewrite absorbed_buf, Ha1, Ha, <- foldl_app, absorb_count by (cbn; lia).
    rewrite length_app. cbn [length]. unfold k, zlen. clear.
    cbn [length]. rewrite Nat.add_0_l.
    pose proof (Nat.div_mod_eq (length msg + 1) 64). pose proof (Nat.mod_upper_bound (length msg + 1) 64 ltac:(lia)).
    generalize dependent ((length msg + 1) mod 64)%nat. generalize dependent ((length msg + 1) / 64)%nat.
    intros q r Hq Hr. destruct (r <=? 56)%nat eqn:E; Z.div_mod_to_equations; lia. }
  destruct (update_absorb (pad_loop 64 c1) (be_bytes 8 (u64 (Z.shiftl (sha_total c) 3))) Hr2) as (Ha3 & _ & _).
  rewrite Ha2, Ha1, Ha, <- !foldl_app in Ha3.
  assert (u64 (Z.shiftl (sha_total c) 3) = 8 * zlen msg) as Hbits.
  { rewrite Ht, Z.shiftl_mul_pow2 by lia. cbn [sha1_init sha_total]. unfold u64. change (2 ^ 3) with 8. rewrite Z.mod_small; lia. }
  rewrite Hbits in Ha3 |- *. destruct (fips_pad_ok msg Hm) as [Hok [n Hn]].
  assert (absorbed (sha1_update (pad_loop 64 c1) (be_bytes 8 (8 * zlen msg)))
          = (fips_H (fips_pad msg) n, [])) as Hfin.
  { rewrite Ha3. unfold fips_H. rewrite <- absorb_blocks by done. unfold fips_pad. done. }
  rewrite absorbed_h, Hfin. unfold fips_sha1. rewrite Hn. cbn [fst].
  by replace (64 * n / 64)%nat with n by (rewrite Nat.mul_comm, Nat.div_mul; lia).
Qed.

(** ** Base64 there and back *)

Lemma b64_val_char v : 0 ≤ v < 64 → b64_val (rd b64_tab (Z.to_nat v)) = Some v.
Proof.
  intros Hv. assert (Forall (λ i, b64_val (rd b64_tab i) = Some (Z.of_nat i)) (seq 0 64)) as Hall.
  { repeat constructor. }
  rewrite Forall_forall in Hall. rewrite Hall; [f_equal; lia|]. apply in_seq. lia.
Qed.

(** one character of value [v] *)
Lemma b64_loop_char v src acc nbits m dst :
  0 ≤ v < 64 → 0 ≤ nbits →
  b64_loop (b64_char v :: src) acc nbits m dst
  = let a := u32 (acc * 64) + v in
    if nbits <? 2 then b64_loop src a (nbits + 6) m dst
    else if m <=? zlen dst then None else b64_loop src a (nbits - 2) m (dst ++ [u8 (a / 2 ^ (nbits - 2))]).
Proof.
  intros Hv Hn. cbn [b64_loop]. unfold b64_char. change 0x3F with (Z.ones 6). rewrite Z.land_ones by lia.
  change (2 ^ 6) with 64. rewrite Z.mod_small, b64_val_char by lia.
  assert (Z.lor (u32 (Z.shiftl acc 6)) v = u32 (acc * 64) + v) as ->.
  { rewrite Z.shiftl_mul_pow2 by lia. change (2 ^ 6) with 64.
    replace (u32 (acc * 64)) with (Z.shiftl (acc mod 67108864) 6).
    - rewrite lor_shiftl_add by lia. rewrite Z.shiftl_mul_pow2 by lia. done.
    - rewrite Z.shiftl_mul_pow2 by lia. change (2 ^ 6) with 64. unfold u32. Z.div_mod_to_equations. lia. }
  replace (nbits + 6 - 8) with (nbits - 2) by lia.
  destruct (Z.ltb_spec nbits 2).
  - by replace (8 <=? nbits + 6) with false by lia.
  - replace (8 <=? nbits + 6) with true by lia. by rewrite Z.shiftr_div_pow2 by lia.
Qed.

Lemma b64_char_mod v : b64_char v = b64_char (v mod 64).
Proof.
  unfold b64_char. change 0x3F with (Z.ones 6). rewrite !Z.land_ones by lia. change (2 ^ 6) with 64. by rewrite Z.mod_mod.
Qed.

Lemma b64_skip src acc nbits m dst : b64_loop (61 :: src) acc nbits m dst = b64_loop src acc nbits m dst.
Proof. done. Qed.

Lemma b64_codes a b c :
  is_byte a → is_byte b → is_byte c →
  let v := Z.lor (Z.lor (Z.shiftl a 16) (Z.shiftl b 8)) c in
  b64_char (Z.shiftr v 18) = b64_char (a / 4) ∧ b64_char (Z.shiftr v 12) = b64_char (a mod 4 * 16 + b / 16) ∧
  b64_char (Z.shiftr v 6) = b64_char (b mod 16 * 4 + c / 64) ∧ b64_char v = b64_char (c mod 64).
Proof.
  intros Ha Hb Hc v. assert (v = a * 65536 + b * 256 + c) as ->.
  { unfold v. pose proof (lor4_arith 0 a b c ltac:(ulia) Ha Hb Hc) as E. rewrite Z.shiftl_0_l, Z.lor_0_l in E. rewrite E. lia. }
  rewrite !Z.shiftr_div_pow2 by lia. change (2 ^ 18) with 262144. change (2 ^ 12) with 4096. change (2 ^ 6) with 64.
  split_and!; rewrite b64_char_mod; f_equal; ulia.
Qed.

Lemma b64_first v acc m dst src :
  0 ≤ v < 64 → b64_loop (b64_char v :: src) acc 0 m dst = b64_loop src (u32 (acc * 64) + v) 6 m dst.
Proof. intros. by rewrite b64_loop_char by lia. Qed.
Lemma b64_next v acc nbits k m dst src :
  0 ≤ v < 64 → nbits = k + 2 → 0 ≤ k → zlen dst < m →
  b64_loop (b64_char v :: src) acc nbits m dst
  = b64_loop src (u32 (acc * 64) + v) k m (dst ++ [u8 ((u32 (acc * 64) + v) / 2 ^ k)]).
Proof.
  intros Hv -> Hk Hm. rewrite b64_loop_char by lia. cbv zeta. replace (k + 2 <? 2) with false by lia.
  replace (m <=? zlen dst) with false by lia. by replace (k + 2 - 2) with k by lia.
Qed.

(** the bytes of a group, whatever is left in [acc] above the bits in use *)
Lemma b64_bytes acc a b c :
  is_byte a → is_byte b → is_byte c →
  let a1 := u32 (acc * 64) + a / 4 in
  let a2 := u32 (a1 * 64) + (a mod 4 * 16 + b / 16) in
  let a3 := u32 (a2 * 64) + (b mod 16 * 4 + c / 64) in
  let a4 := u32 (a3 * 64) + c mod 64 in
  u8 (a2 / 2 ^ 4) = a ∧ u8 (a3 / 2 ^ 2) = b ∧ u8 (a4 / 2 ^ 0) = c.
Proof.
  intros Ha Hb Hc a1 a2 a3 a4.
  assert (∀ x v k, 0 ≤ v < 64 → k = 1 ∨ k = 4 ∨ k = 16 →
    u8 ((u32 (x * 64) + v) / k) = u8 ((x mod 64 * 64 + v) / k) ∧ (u32 (x * 64) + v) mod 64 = v) as Hstep.
  { intros x v k Hv Hk. unfold u8, u32. destruct Hk as [-> | [-> | ->]]; split; Z.div_mod_to_equations; lia. }
  change (2 ^ 4) with 16. change (2 ^ 2) with 4. change (2 ^ 0) with 1.
  destruct (Hstep acc (a / 4) 1) as [_ E1]; [ulia|lia|]. fold a1 in E1.
  destruct (Hstep a1 (a mod 4 * 16 + b / 16) 16) as [F2 E2]; [ulia|lia|]. fold a2 in E2, F2. rewrite E1 in F2.
  destruct (Hstep a2 (b mod 16 * 4 + c / 64) 4) as [F3 E3]; [ulia|lia|]. fold a3 in E3, F3. rewrite E2 in F3.
  destruct (Hstep a3 (c mod 64) 1) as [F4 _]; [ulia|lia|]. fold a4 in F4. rewrite E3 in F4.
  rewrite F2, F3, F4. unfold_u. split_and!; Z.div_mod_to_equations; lia.
Qed.

Lemma b64_group a b c acc m dst src :
  is_byte a → is_byte b → is_byte c →
  let v := Z.lor (Z.lor (Z.shiftl a 16) (Z.shiftl b 8)) c in
  let code := [b64_char (Z.shiftr v 18); b64_char (Z.shiftr v 12); b64_char (Z.shiftr v 6); b64_char v] in
  (zlen dst + 1 ≤ m → ∃ acc', b64_loop (take 2 code ++ src) acc 0 m dst = b64_loop src acc' 4 m (dst ++ [a])) ∧
  (zlen dst + 2 ≤ m → ∃ acc', b64_loop (take 3 code ++ src) acc 0 m dst = b64_loop src acc' 2 m (dst ++ [a; b])) ∧
  (zlen dst + 3 ≤ m → ∃ acc', b64_loop (code ++ src) acc 0 m dst = b64_loop src acc' 0 m (dst ++ [a; b; c])).
Proof.
  intros Ha Hb Hc v code. destruct (b64_codes a b c Ha Hb Hc) as (E1 & E2 & E3 & E4). fold v in E1, E2, E3, E4.
  unfold code. rewrite E1, E2, E3, E4. clear E1 E2 E3 E4 code v. cbn [take app].
  destruct (b64_bytes acc a b c Ha Hb Hc) as (F1 & F2 & F3).
  assert (0 ≤ a / 4 < 64) by ulia. assert (0 ≤ a mod 4 * 16 + b / 16 < 64) by ulia.
  assert (0 ≤ b mod 16 * 4 + c / 64 < 64) by ulia. assert (0 ≤ c mod 64 < 64) by ulia.
  split_and!; intros Hm.
  - rewrite b64_first by lia. rewrite (b64_next _ _ 6 4) by lia. rewrite F1. by eexists.
  - rewrite b64_first by lia. rewrite (b64_next _ _ 6 4), (b64_next _ _ 4 2) by (rewrite ?zlen_app; unfold zlen in *; cbn [length] in *; lia).
    rewrite F1, F2, <- app_assoc. by eexists.
  - rewrite b64_first by lia.
    rewrite (b64_next _ _ 6 4), (b64_next _ _ 4 2), (b64_next _ _ 2 0) by (rewrite ?zlen_app; unfold zlen in *; cbn [length] in *; lia).
    rewrite F1, F2, F3, <- !app_assoc. by eexists.
Qed.

Lemma b64_loop_encode src : ∀ acc m dst,
  bytes_ok src → zlen dst + zlen src ≤ m → b64_loop (b64_encode src) acc 0 m dst = Some (dst ++ src).
Proof.
  induction src as [src IH] using (induction_ltof1 _ length). intros acc m dst Hok Hm.
  destruct src as [|a [|b [|c src]]].
  - cbn. by rewrite app_nil_r.
  - inversion_clear Hok as [|? ? Ha _]. cbn [b64_encode].
    destruct (b64_group a 0 0 acc m dst [61; 61]) as ((acc' & E) & _); [done|ulia|ulia|unfold zlen in *; cbn [length] in *; lia|].
    cbn [take app] in E. rewrite Z.shiftl_0_l, !Z.lor_0_r in E. by rewrite E.
  - inversion_clear Hok as [|? ? Ha Hok']. inversion_clear Hok' as [|? ? Hb _]. cbn [b64_encode].
    destruct (b64_group a b 0 acc m dst [61]) as (_ & (acc' & E) & _); [done|done|ulia|unfold zlen in *; cbn [length] in *; lia|].
    cbn [take app] in E. rewrite Z.lor_0_r in E. by rewrite E.
  - inversion_clear Hok as [|? ? Ha Hok1]. inversion_clear Hok1 as [|? ? Hb Hok2]. inversion_clear Hok2 as [|? ? Hc Hok].
    assert (zlen (a :: b :: c :: src) = 3 + zlen src) as Hz by (unfold zlen; cbn [length]; lia). pose proof (zlen_nonneg src).
    destruct (b64_group a b c acc m dst (b64_encode src)) as (_ & _ & (acc' & E)); [done|done|done|lia|].
    cbn [take app] in E. cbn [b64_encode]. rewrite E.
    rewrite IH; [by rewrite <- app_assoc|unfold ltof; cbn; lia|done|]. rewrite zlen_app. change (zlen [a; b; c]) with 3. lia.
Qed.

Lemma b64_encode_length src : zlen (b64_encode src) = 4 * ((zlen src + 2) / 3).
Proof.
  induction src as [src IH] using (induction_ltof1 _ length).
  destruct src as [|a [|b [|c src]]]; [done..|]. cbn [b64_encode].
  specialize (IH src ltac:(unfold ltof; cbn; lia)). unfold zlen in *. cbn [length]. Z.div_mod_to_equations. lia.
Qed.

(** ** The answer to an upgrade *)

Lemma find_key_first pre s n :
  (length key_header < n)%nat → starts_with_case key_header s = true →
  (∀ i, (i < length pre)%nat → starts_with_case key_header (drop i (pre ++ s)) = false) →
  find_key (length pre + n) (pre ++ s) = Some (skip_sp (drop (length key_header) s)).
Proof.
  intros Hn Hs. induction pre as [|c pre IH]; intros Hpre; cbn [length app].
  - destruct n as [|n]; [lia|]. cbn [Nat.add find_key]. by rewrite (proj2 (Nat.ltb_lt _ _) Hn), Hs.
  - cbn [Nat.add find_key]. replace (length key_header <? S (length pre + n))%nat with true by lia.
    specialize (Hpre 0%nat ltac:(cbn; lia)) as H0. cbn [app] in H0. rewrite drop_0 in H0. rewrite H0. cbn [drop]. rewrite drop_0.
    apply IH. intros i Hi. apply (Hpre (S i)). cbn. lia.
Qed.

Lemma find_key_none n s :
  (∀ i, starts_with_case key_header (drop i s) = false) → find_key n s = None.
Proof.
  revert s. induction n as [|n IH]; intros s Hs; [done|]. cbn [find_key]. destruct (_ <? _)%nat; [|done].
  specialize (Hs 0%nat) as H0. rewrite drop_0 in H0. rewrite H0. apply IH. intros i. rewrite drop_drop. apply Hs.
Qed.

Lemma starts_with_case_app h s :
  to_lower <$> h = to_lower <$> key_header → starts_with_case key_header (h ++ s) = true.
Proof.
  intros Hh. unfold starts_with_case. apply bool_decide_eq_true_2.
  assert (length h = length key_header) as Hl by (apply (f_equal length) in Hh; by rewrite !length_fmap in Hh).
  rewrite <- Hl, take_app_length. exact Hh.
Qed.

Lemma skip_sp_key k key rest :
  rd key 0 ≠ 32 → key ≠ [] → skip_sp (replicate k 32 ++ key ++ rest) = key ++ rest.
Proof.
  intros Hk Hne. induction k as [|k IH]; [|exact IH]. destruct key as [|c key]; [done|]. cbn in Hk. cbn [replicate app skip_sp].
  by replace (c =? 32) with false by lia.
Qed.

Lemma rd_n_app key rest : rd_n (key ++ rest) (length key) = key.
Proof.
  apply list_eq. intros i. unfold rd_n. rewrite list_lookup_fmap. destruct (decide (i < length key)%nat) as [Hi|Hi].
  - rewrite lookup_seq_lt by done. cbn. unfold rd. rewrite lookup_app_l by done. by destruct (lookup_lt_is_Some_2 _ _ Hi) as [x ->].
  - rewrite lookup_seq_ge by lia. cbn. by rewrite (lookup_ge_None_2 key) by lia.
Qed.

#[local] Transparent fips_block.
Lemma fips_block_length h p : length (fips_block h p) = 5%nat.
Proof. unfold fips_block. by destruct (foldl _ _ _) as [[[[a b] c] d] e]. Qed.
#[local] Opaque fips_block.

Lemma fips_sha1_length msg : length (fips_sha1 msg) = 20%nat ∧ bytes_ok (fips_sha1 msg).
Proof.
  unfold fips_sha1, fips_H. set (h := foldl _ _ _). assert (length h = 5%nat) as Hh.
  { unfold h. clear h. generalize (length (fips_pad msg) / 64)%nat as n. intros n. generalize (fips_pad msg) as m. intros m.
    assert (∀ l h0, length h0 = 5%nat → length (foldl (λ h i, fips_block h (take 64 (drop (64 * i) m))) h0 l) = 5%nat) as Hf.
    { induction l as [|i l IH]; intros h0 H0; cbn [foldl]; [done|]. apply IH, fips_block_length. }
    by apply Hf. }
  clearbody h. do 5 (destruct h as [|? h]; [done|]). destruct h; [|done]. split; [done|].
  apply Forall_concat. apply Forall_fmap, Forall_forall. intros w _. apply be_bytes_ok.
Qed.

(** ** Properties *)

(** C27: The SHA-1 of the handshake is the one of FIPS 180-4: whatever pieces a message is fed in, the digest is that of
    the standard on the whole message (padding, schedule, the three logical functions, the final additions). *)
Theorem sha1_is_fips (pieces : list (list Z)) :
  bytes_ok (concat pieces) → zlen (concat pieces) < 2 ^ 61 → sha1 pieces = fips_sha1 (concat pieces).
Proof. apply sha1_fips. Qed.

(** Base64 there and back: decoding what the encoder produces yields the bytes again when they fit the destination,
    and the code has four characters for every started group of three bytes. *)
Theorem base64_roundtrip (src : list Z) (dst_max : Z) :
  bytes_ok src → zlen src ≤ dst_max →
  b64_decode (b64_encode src) dst_max = Some src ∧ zlen (b64_encode src) = 4 * ((zlen src + 2) / 3).
Proof.
  intros Hok Hm. split; [|apply b64_encode_length]. unfold b64_decode. rewrite b64_loop_encode; [done|done|].
  change (zlen []) with 0. lia.
Qed.

(** The answer to an upgrade request is the one RFC 6455 asks for: when the first header named Sec-WebSocket-Key, in
    any spelling, carries the 24 characters [key], the answer is 101 with the Base64 of the SHA-1 of [key] and the
    protocol's identifier, provided the buffer holds it, and decoding that text yields the digest; without such a header
    there is no answer. *)
Theorem handshake_accepts (pre name key rest : list Z) (spaces hdr_len : nat) (resp_max : Z) :
  to_lower <$> name = to_lower <$> key_header → length key = 24%nat → bytes_ok key → rd key 0 ≠ 32 → 129 < resp_max →
  let req := pre ++ name ++ replicate spaces 32 ++ key ++ rest in
  (length pre + length name < hdr_len)%nat →
  (∀ i, (i < length pre)%nat → starts_with_case key_header (drop i req) = false) →
  let digest := fips_sha1 (key ++ guid) in
  ws_handshake req hdr_len resp_max = Some (response_head ++ b64_encode digest ++ [13; 10; 13; 10]) ∧
  b64_decode (b64_encode digest) 20 = Some digest ∧
  (∀ other, (∀ i, starts_with_case key_header (drop i other) = false) → ws_handshake other hdr_len resp_max = None).
Proof.
  intros Hname Hkl Hkb Hk0 Hmax req Hlen Hfirst digest. destruct (fips_sha1_length (key ++ guid)) as [Hdl Hdb].
  fold digest in Hdl, Hdb. assert (length name = length key_header) as Hnl.
  { apply (f_equal length) in Hname. by rewrite !length_fmap in Hname. }
  split_and!.
  - unfold ws_handshake. replace hdr_len with (length pre + (hdr_len - length pre))%nat by lia.
    unfold req. rewrite find_key_first; [|lia|by apply starts_with_case_app|done].
    assert (key ≠ []) as Hkne by (intros E; rewrite E in Hkl; discriminate Hkl).
    rewrite <- Hnl. rewrite drop_app_length. rewrite (skip_sp_key spaces key rest Hk0 Hkne).
    unfold accept_of.
    rewrite <- Hkl. rewrite rd_n_app. rewrite sha1_fips.
    + cbn [concat]. rewrite app_nil_r. fold digest. assert (zlen (b64_encode digest) = 28) as Hz.
      { rewrite b64_encode_length. unfold zlen. by rewrite Hdl. }
      rewrite !zlen_app, Hz. change (28 =? 28) with true. cbv iota beta delta [negb].
      change (zlen response_head) with 97. change (zlen [13; 10; 13; 10]) with 4.
      by replace (resp_max <=? 97 + (28 + 4)) with false by lia.
    + cbn [concat]. rewrite app_nil_r. apply Forall_app. split; [done|]. by vm_compute; repeat constructor.
    + cbn [concat]. rewrite app_nil_r, zlen_app. unfold zlen. rewrite Hkl. by vm_compute.
  - unfold b64_decode. rewrite b64_loop_encode; [done|done|]. unfold zlen. rewrite Hdl. cbn. lia.
  - intros other Ho. unfold ws_handshake. by rewrite find_key_none.
Qed.

(** ** Witnesses *)

Lemma sha1_is_fips_witness : sha1 [js "ab"; []; js "c"] = fips_sha1 (js "abc").
Proof. apply (sha1_is_fips [js "ab"; []; js "c"]); [by apply (bool_decide_unpack _); vm_compute|by vm_compute]. Defined.

Lemma base64_roundtrip_witness :
  b64_decode (b64_encode [255; 0; 128; 7]) 4 = Some [255; 0; 128; 7] ∧ b64_encode [255; 0; 128; 7] = js "/wCABw==".
Proof. split; [apply (base64_roundtrip [255; 0; 128; 7] 4); [by apply (bool_decide_unpack _); vm_compute|by vm_compute]|by vm_compute]. Defined.

Lemma handshake_accepts_witness :
  ws_handshake (js "GET / " ++ js "sec-websocket-KEY:" ++ replicate 1 32 ++ js "dGhlIHNhbXBsZSBub25jZQ==" ++ [13; 10; 13; 10]) 52 256
  = Some (response_head ++ b64_encode (fips_sha1 (js "dGhlIHNhbXBsZSBub25jZQ==" ++ guid)) ++ [13; 10; 13; 10]).
Proof.
  apply (handshake_accepts (js "GET / ") (js "sec-websocket-KEY:") (js "dGhlIHNhbXBsZSBub25jZQ==") [13; 10; 13; 10] 1 52 256);
    [reflexivity|reflexivity|by apply (bool_decide_unpack _); vm_compute|done|lia|cbn; lia|].
  intros i Hi. do 6 (destruct i as [|i]; [reflexivity|]). cbn in Hi. lia.
Defined.
