(* ===== verification/Ws.v ===== *)
(** The WebSocket session: [src/web/ws.c] without its handshake ([WsCrypto.v]).

    The receive state machine takes one byte at a time and ends in more input, a
    complete frame or a close; the session dispatches the frame.  Everything of
    the session runs in the lwIP thread; the worker task that erases and verifies
    firmware takes its orders from a queue of four and posts its answers back, so
    the steps of the two interleave ([ws_runs]).

    lwIP is the class [TcpStack] and the room in the send buffer [tcp_sndbuf];
    [http_close] is the callback of the web server, [set_reboot_status] raises
    the flag of the heartbeat task, [boot_set_pending] is MCUboot's, [web_info]
    are the values of the info page that are not registers.  [now] is the tick
    count in milliseconds. *)

From Stdlib Require Import String.
From S2P Require Import Prelude IoBytes Flash Regmap FwUpg MbTcp UdpCfg WebJson WebCmds WsCrypto.

Local Open Scope list_scope.
Local Open Scope Z_scope.

Definition WS_RX_MAX : Z := 10 * 1024 + 16.
Definition WS_TX_BUF : Z := 768.
Definition WS_PUSH_MS : Z := 1000.
Definition WS_INFO_MS : Z := 10000.

Definition ws_crc16_step (seed d : Z) : Z :=
  let e := u8 (Z.lxor seed d) in
  let f := u8 (Z.lxor e (Z.shiftl e 4)) in
  u16 (Z.lxor (Z.lxor (Z.lxor (Z.shiftr seed 8) (Z.shiftl f 8)) (Z.shiftl f 3)) (Z.shiftr f 4)).
Definition ws_crc16 (seed : Z) (src : list Z) : Z := fold_left ws_crc16_step src seed.

(** ** The receive state machine *)

Inductive ws_rx_state := WS_HDR | WS_LEN16 | WS_LEN64 | WS_MASK | WS_PAYLOAD.

Record parser := mk_parser {
  state : ws_rx_state; hdr : list Z; hdr_got : Z; op : Z; fin : bool; masked : bool;
  mask : list Z; plen : Z; got : Z; payload : list Z }.

Inductive verdict := RxMore | RxFrame | RxClose.

Definition set_state (st : ws_rx_state) (p : parser) : parser :=
  mk_parser st (hdr p) 0 (op p) (fin p) (masked p) (mask p) (plen p) (got p) (payload p).
(** [ws.hdr[ws.hdr_got++] = b] *)
Definition push_hdr (b : Z) (p : parser) : parser :=
  mk_parser (state p) (<[Z.to_nat (hdr_got p) := b]> (hdr p)) (u8 (hdr_got p + 1)) (op p) (fin p) (masked p)
    (mask p) (plen p) (got p) (payload p).
Definition set_plen (n : Z) (p : parser) : parser :=
  mk_parser (state p) (hdr p) (hdr_got p) (op p) (fin p) (masked p) (mask p) n (got p) (payload p).

(** [ws.state = ws.masked ? WS_MASK : WS_PAYLOAD], with [ws.hdr_got = 0] *)
Definition start_data (p : parser) : parser := set_state (if masked p then WS_MASK else WS_PAYLOAD) p.

(** the body of the [switch] in [ws_feed] *)
Definition rx_byte (b : Z) (p : parser) : parser * verdict :=
  match state p with
  | WS_HDR =>
    let p := push_hdr b p in
    if hdr_got p <? 2 then (p, RxMore)
    else
      let p := mk_parser (state p) (hdr p) 0 (Z.land (rd (hdr p) 0) 0x0F) (negb (Z.land (rd (hdr p) 0) 0x80 =? 0))
                 (negb (Z.land (rd (hdr p) 1) 0x80 =? 0)) (mask p) (Z.land (rd (hdr p) 1) 0x7F) 0 (payload p) in
      if plen p =? 126 then (set_state WS_LEN16 p, RxMore)
      else if plen p =? 127 then (set_state WS_LEN64 p, RxMore)
      else if WS_RX_MAX <? plen p then (p, RxClose)
      else (start_data p, RxMore)
  | WS_LEN16 =>
    let p := push_hdr b p in
    if hdr_got p =? 2
    then let p := set_plen (Z.lor (Z.shiftl (rd (hdr p) 0) 8) (rd (hdr p) 1)) p in
         if WS_RX_MAX <? plen p then (p, RxClose) else (start_data p, RxMore)
    else (p, RxMore)
  | WS_LEN64 =>
    let p := push_hdr b p in
    if hdr_got p =? 8
    then let v := foldl (λ v i, Z.lor (u64 (Z.shiftl v 8)) (rd (hdr p) i)) 0 (seq 0 8) in
         if WS_RX_MAX <? v then (p, RxClose) else (start_data (set_plen (u32 v) p), RxMore)
    else (p, RxMore)
  | WS_MASK =>
    let p := mk_parser (state p) (hdr p) (u8 (hdr_got p + 1)) (op p) (fin p) (masked p)
               (<[Z.to_nat (hdr_got p) := b]> (mask p)) (plen p) (got p) (payload p) in
    if hdr_got p =? 4 then (set_state WS_PAYLOAD p, RxMore) else (p, RxMore)
  | WS_PAYLOAD =>
    let idx := got p in
    if WS_RX_MAX <=? idx then (p, RxClose)
    else
      let v := if masked p then u8 (Z.lxor b (rd (mask p) (Z.to_nat (Z.land idx 3)))) else b in
      let p := mk_parser (state p) (hdr p) (hdr_got p) (op p) (fin p) (masked p) (mask p) (plen p) (idx + 1)
                 (<[Z.to_nat idx := v]> (payload p)) in
      (p, if got p =? plen p then RxFrame else RxMore)
  end.

Definition parser_boot : parser :=
  mk_parser WS_HDR (replicate 10 0) 0 0 false false (replicate 4 0) 0 0 (replicate (Z.to_nat WS_RX_MAX) 0).

(** ** The session *)

Record session := mk_session {
  active : bool; pcb : option Z; on_close : bool; rx : parser; fw_crc : Z; t_push : Z; t_info : Z }.
Definition session_boot : session := mk_session false None false parser_boot 0 0 0.

Definition set_rx (p : parser) (s : session) : session :=
  mk_session (active s) (pcb s) (on_close s) p (fw_crc s) (t_push s) (t_info s).

Inductive ws_fw_op := WS_FW_OP_START (total : Z) (kh : option (list Z)) | WS_FW_OP_END (crc : Z).

Class TcpSnd (W : Type) : Type := { tcp_sndbuf : Z → W → Z }.

(** the statics of the file, and what lies behind them: registers, upgrade
    session, flash, network.  [fw_posted] are the callbacks the lwIP thread has
    yet to run, [fw_swap] says the worker is in its delay before the reboot. *)
Record wsys (E F W : Type) := mk_wsys {
  ws : session; wregs : regs E; wfw : upg; wflash : F; wnet : W;
  fw_op_q : option (list ws_fw_op); fw_replies : list (list Z); fw_reply_idx : Z; fw_posted : list nat; fw_swap : bool }.
Arguments mk_wsys {E F W} _ _ _ _ _ _ _ _ _ _.
Arguments ws {E F W} _.
Arguments wregs {E F W} _.
Arguments wfw {E F W} _.
Arguments wflash {E F W} _.
Arguments wnet {E F W} _.
Arguments fw_op_q {E F W} _.
Arguments fw_replies {E F W} _.
Arguments fw_reply_idx {E F W} _.
Arguments fw_posted {E F W} _.
Arguments fw_swap {E F W} _.

Definition json_true : list Z := js "{'ok':true}".
Definition json_false : list Z := js "{'ok':false}".
Definition json_ok (b : bool) : list Z := if b then json_true else json_false.
Definition json_err (e : list Z) : list Z := js "{'ok':false,'err':'" ++ e ++ js "'}".
Definition cfg_err_text (e : cfg_err) : list Z :=
  match e with
  | e_bad_ip => js "invalid ip" | e_bad_rs => js "invalid rs485 baud" | e_bad_sid => js "invalid slave id"
  | e_bad_can => js "invalid can baud" | e_bad_cid => js "invalid can id"
  end.

(** the two or four byte header of a server frame, ten beyond 64 KiB *)
Definition send_hdr (opcode len : Z) : list Z :=
  u8 (Z.lor 0x80 opcode) ::
  (if len <? 126 then [u8 len]
   else if len <=? 0xFFFF then [126; u8 (Z.shiftr len 8); u8 len]
   else 127 :: be_bytes 8 len).

Section Session.
Context {E F W : Type} `{IoHooks E} `{UdpHooks E} `{IoFlash F} `{TcpStack W} `{TcpSnd W}.
Context (fw_keyhash : list Z) (boot_set_pending : bool → F → Z * F).
Context (set_reboot_status : bool → E → E) (web_info : E → info) (http_close : W → W).

Abbreviation MW := (M (wsys E F W)).

Definition upd_ws (g : session → session) : MW unit :=
  modify (λ s, mk_wsys (g (ws s)) (wregs s) (wfw s) (wflash s) (wnet s) (fw_op_q s) (fw_replies s) (fw_reply_idx s)
                 (fw_posted s) (fw_swap s)).
Definition upd_net (g : W → W) : MW unit :=
  modify (λ s, mk_wsys (ws s) (wregs s) (wfw s) (wflash s) (g (wnet s)) (fw_op_q s) (fw_replies s) (fw_reply_idx s)
                 (fw_posted s) (fw_swap s)).
Definition call_wnet {A} (g : W → A * W) : MW A :=
  λ s, let '(a, w) := g (wnet s) in
       (Done a, mk_wsys (ws s) (wregs s) (wfw s) (wflash s) w (fw_op_q s) (fw_replies s) (fw_reply_idx s)
                  (fw_posted s) (fw_swap s)).
Definition on_regs {A} (m : M (regs E) A) : MW A :=
  zoom wregs (λ r s, mk_wsys (ws s) r (wfw s) (wflash s) (wnet s) (fw_op_q s) (fw_replies s) (fw_reply_idx s)
                       (fw_posted s) (fw_swap s)) m.
(** a call of the upgrade session *)
Definition call_fw {A} (g : F → upg → A * F * upg) : MW A :=
  λ s, let '(a, f, u) := g (wflash s) (wfw s) in
       (Done a, mk_wsys (ws s) (wregs s) u f (wnet s) (fw_op_q s) (fw_replies s) (fw_reply_idx s)
                  (fw_posted s) (fw_swap s)).

(** *** Sending *)

Definition ws_send (opcode : Z) (data : list Z) : MW unit :=
  s ← gets ws;
  match pcb s with
  | Some p =>
    if negb (active s) then mret tt
    else
      let len := zlen data in
      let hl := zlen (send_hdr opcode len) in
      snd ← gets (λ s, tcp_sndbuf p (wnet s));
      if snd <? hl + len then mret tt
      else
        e ← call_wnet (tcp_write p (send_hdr opcode len));
        if negb (bool_decide (e = ERR_OK)) then mret tt
        else
          e ← (if len =? 0 then mret ERR_OK else call_wnet (tcp_write p (take (Z.to_nat (u16 len)) data)));
          if bool_decide (e = ERR_OK) then upd_net (tcp_output p) else mret tt
  | None => mret tt
  end.

Definition ws_send_json (json : list Z) : MW unit := ws_send 1 json.

(** [ws_send] of [n] bytes of [ws.tx] after a builder left its text there;
    [None] (the room wrapped around) does not happen in 768 bytes *)
Definition ws_send_built (r : option (Z * list Z)) : MW unit :=
  match r with Some (n, text) => ws_send 1 (rd_n text (Z.to_nat n)) | None => mret tt end.

Definition ws_close_session : MW unit :=
  s ← gets ws;
  if negb (active s) then mret tt
  else
    upd_ws (λ s, mk_session false None false (rx s) (fw_crc s) (t_push s) (t_info s));;
    if on_close s then upd_net http_close else mret tt.

(** *** Commands *)

Definition q_send (o : ws_fw_op) : MW bool :=
  λ s, match fw_op_q s with
       | Some q =>
         if (length q <? 4)%nat
         then (Done true, mk_wsys (ws s) (wregs s) (wfw s) (wflash s) (wnet s) (Some (q ++ [o])) (fw_replies s)
                            (fw_reply_idx s) (fw_posted s) (fw_swap s))
         else (Done false, s)
       | None => (Done false, s)
       end.

Definition both (a b : option Z) : option (Z * Z) :=
  match a, b with Some a, Some b => Some (a, b) | _, _ => None end.
Definition guarded {A} (b : bool) (x : option A) : option A := if b then x else None.

Definition cmd_fw_start (cmd : list Z) (len : nat) : MW unit :=
  let fw_size := default 0 (json_get_i32 cmd len (js "size")) in
  if fw_size <=? 0 then ws_send_json (json_err (js "bad size"))
  else
    let queue (kh : option (list Z)) : MW unit :=
      ok ← q_send (WS_FW_OP_START (u32 fw_size) kh);
      if ok : bool then mret tt else ws_send_json (json_err (js "busy")) in
    match json_get_str cmd len (js "keyhash") 64 with
    | Some b64 =>
      match b64_decode b64 FW_KEYHASH_LEN with
      | Some kh => if zlen kh =? FW_KEYHASH_LEN then queue (Some kh) else ws_send_json (json_err (js "keyhash mismatch"))
      | None => ws_send_json (json_err (js "keyhash mismatch"))
      end
    | None => queue None
    end.

Definition cmd_fw_end : MW unit :=
  u ← gets wfw;
  if negb (fw_upg_active u) then ws_send_json (json_err (js "not in progress"))
  else
    s ← gets ws;
    ok ← q_send (WS_FW_OP_END (fw_crc s));
    if ok : bool then mret tt else ws_send_json (json_err (js "busy")).

Definition ws_handle_cmd (now : Z) (cmd : list Z) (len : nat) : MW unit :=
  match guarded (starts_with (js "'do'") cmd) (both (json_get_i32 cmd len (js "index")) (json_get_i32 cmd len (js "value"))) with
  | Some (index, value) =>
    ok ← on_regs (web_cmd_exec_do index value);
    if ok : bool then r ← on_regs (web_build_io_json WS_TX_BUF now); ws_send_built r
    else ws_send_json (json_err (js "bad index"))
  | None =>
  match guarded (starts_with (js "'reg'") cmd) (both (json_get_i32 cmd len (js "addr")) (json_get_i32 cmd len (js "value"))) with
  | Some (addr, value) =>
    ok ← on_regs (web_cmd_exec_reg set_reboot_status addr value); ws_send_json (json_ok ok)
  | None =>
  match guarded (starts_with (js "'time'") cmd) (json_get_i32 cmd len (js "ts")) with
  | Some ts => ok ← on_regs (call_ret (hook_set_timestamp ts)); ws_send_json (json_ok ok)
  | None =>
  if starts_with (js "'cfg'") cmd then
    r ← on_regs (web_cmd_exec_cfg cmd len);
    match r with None => ws_send_json json_true | Some e => ws_send_json (json_err (cfg_err_text e)) end
  else if starts_with (js "'save'") cmd then on_regs holding_reg_save;; ws_send_json json_true
  else if starts_with (js "'factory_reset'") cmd then
    on_regs (call hook_config_erase_all);; ws_send_json json_true;; on_regs (call (set_reboot_status true))
  else if starts_with (js "'fw_start'") cmd then cmd_fw_start cmd len
  else if starts_with (js "'fw_end'") cmd then cmd_fw_end
  else ws_send_json (json_err (js "unknown cmd"))
  end end end.

(** *** A complete frame *)

Definition frame_data (p : parser) : list Z := take (Z.to_nat (got p)) (payload p).

Definition frame_text (now : Z) : MW unit :=
  p ← gets (λ s, rx (ws s));
  if got p <? WS_RX_MAX then
    let buf := <[Z.to_nat (got p) := 0]> (payload p) in
    upd_ws (set_rx (mk_parser (state p) (hdr p) (hdr_got p) (op p) (fin p) (masked p) (mask p) (plen p) (got p) buf));;
    match json_find_value buf (Z.to_nat (got p)) (js "cmd") with
    | Some (n, cmd) => ws_handle_cmd now cmd n
    | None => mret tt
    end
  else mret tt.

Definition frame_binary : MW unit :=
  u ← gets wfw;
  if fw_upg_active u then
    data ← gets (λ s, frame_data (rx (ws s)));
    rc ← call_fw (fw_upg_write data);
    if rc =? 0
    then upd_ws (λ s, mk_session (active s) (pcb s) (on_close s) (rx s) (ws_crc16 (fw_crc s) data) (t_push s) (t_info s))
    else mret tt
  else mret tt.

Definition ws_frame_done (now : Z) : MW unit :=
  p ← gets (λ s, rx (ws s));
  if negb (fin p) then ws_send 8 [];; ws_close_session
  else if op p =? 1 then frame_text now
  else if op p =? 2 then frame_binary
  else if op p =? 8 then ws_send 8 [];; ws_close_session
  else if op p =? 9 then ws_send 10 (frame_data p)
  else if op p =? 10 then mret tt
  else ws_close_session.

Fixpoint feed_loop (now : Z) (data : list Z) : MW unit :=
  match data with
  | [] => mret tt
  | b :: data =>
    p ← gets (λ s, rx (ws s));
    upd_ws (set_rx (rx_byte b p).1);;
    match (rx_byte b p).2 with
    | RxMore => feed_loop now data
    | RxClose => ws_close_session
    | RxFrame =>
      ws_frame_done now;;
      s ← gets ws;
      if negb (active s) then mret tt
      else upd_ws (λ s, set_rx (set_state WS_HDR (rx s)) s);; feed_loop now data
    end
  end.

Definition ws_feed (now : Z) (data : list Z) : MW unit :=
  s ← gets ws; if negb (active s) then mret tt else feed_loop now data.

(** *** Pushing, attaching *)

Definition ws_poll (now : Z) : MW unit :=
  s ← gets ws;
  if negb (active s) then mret tt
  else
    (if WS_PUSH_MS <=? u32 (now - t_push s) then
       r ← on_regs (web_build_io_json WS_TX_BUF now); ws_send_built r;;
       r ← on_regs (web_build_regs_json WS_TX_BUF); ws_send_built r;;
       upd_ws (λ s, mk_session (active s) (pcb s) (on_close s) (rx s) (fw_crc s) now (t_info s))
     else mret tt);;
    (if WS_INFO_MS <=? u32 (now - t_info s) then
       x ← on_regs (gets (λ r, web_info (env r)));
       r ← on_regs (web_build_info_json WS_TX_BUF now x); ws_send_built r;;
       upd_ws (λ s, mk_session (active s) (pcb s) (on_close s) (rx s) (fw_crc s) (t_push s) now)
     else mret tt).

Definition ws_detach : MW unit :=
  upd_ws (λ s, mk_session false None false (rx s) (fw_crc s) (t_push s) (t_info s)).

Definition ws_attach (now : Z) (p : Z) (pending : list Z) : MW unit :=
  s ← gets ws;
  if active s then mret tt
  else
    upd_ws (λ s, let q := rx s in
      mk_session true (Some p) true
        (mk_parser WS_HDR (hdr q) 0 (op q) (fin q) (masked q) (mask q) (plen q) 0 (payload q))
        0 (u32 (now - WS_PUSH_MS + 500)) (u32 (now - WS_INFO_MS + 500)));;
    if 0 <? zlen pending then ws_feed now pending else mret tt.

(** *** The worker task *)

Definition fw_reply_from_worker (json : list Z) (s : wsys E F W) : wsys E F W :=
  let i := Z.to_nat (Z.land (fw_reply_idx s) 1) in
  mk_wsys (ws s) (wregs s) (wfw s) (wflash s) (wnet s) (fw_op_q s) (<[i := take 79 json]> (fw_replies s))
    (u8 (fw_reply_idx s + 1)) (fw_posted s ++ [i]) (fw_swap s).

Definition start_reply (rc : Z) : list Z :=
  if rc =? 0 then json_true
  else if rc =? -2 then json_err (js "keyhash mismatch")
  else if rc =? -3 then json_err (js "already in progress")
  else json_err (js "erase/init").

(** the verification of a finished upload: the answer, and whether to reboot *)
Definition fw_verify (crc : Z) (f : F) (u : upg) : (list Z * bool) * F * upg :=
  let got := fw_upg_received u in
  if got =? 0 then (json_err (js "no data"), false, f, fw_upg_abort u)
  else if negb (got =? fw_upg_total u) then (json_err (js "size mismatch"), false, f, fw_upg_abort u)
  else
    let '(rc, f, u) := fw_upg_finish fw_keyhash crc f u in
    if negb (rc =? 0) then (json_err (js "crc mismatch"), false, f, u)
    else
      let '(rc, f) := boot_set_pending true f in
      if negb (rc =? 0) then (json_err (js "boot_request"), false, f, u) else (json_true, true, f, u).

(** one order: [ws_fw_task] up to its next wait *)
Definition fw_exec_op (o : ws_fw_op) : MW unit :=
  match o with
  | WS_FW_OP_START tot kh =>
    rc ← call_fw (λ f u, fw_upg_start fw_keyhash tot kh f u); modify (fw_reply_from_worker (start_reply rc))
  | WS_FW_OP_END crc =>
    r ← call_fw (fw_verify crc);
    modify (fw_reply_from_worker r.1);;
    if r.2 : bool
    then modify (λ s, mk_wsys (ws s) (wregs s) (wfw s) (wflash s) (wnet s) (fw_op_q s) (fw_replies s) (fw_reply_idx s)
                        (fw_posted s) true)
    else mret tt
  end.

Definition ws_fw_task : MW unit :=
  q ← gets fw_op_q;
  match q with
  | Some (o :: q) =>
    modify (λ s, mk_wsys (ws s) (wregs s) (wfw s) (wflash s) (wnet s) (Some q) (fw_replies s) (fw_reply_idx s)
                   (fw_posted s) (fw_swap s));;
    fw_exec_op o
  | _ => mret tt
  end.

(** after [vTaskDelay] *)
Definition ws_fw_reboot : MW unit :=
  on_regs (call (set_reboot_status true));;
  modify (λ s, mk_wsys (ws s) (wregs s) (wfw s) (wflash s) (wnet s) (fw_op_q s) (fw_replies s) (fw_reply_idx s)
                 (fw_posted s) false).

Definition ws_fw_reply_cb : MW unit :=
  posted ← gets fw_posted;
  match posted with
  | i :: posted =>
    modify (λ s, mk_wsys (ws s) (wregs s) (wfw s) (wflash s) (wnet s) (fw_op_q s) (fw_replies s) (fw_reply_idx s)
                   posted (fw_swap s));;
    r ← gets fw_replies;
    ws_send_json (default [] (r !! i))
  | [] => mret tt
  end.

Definition ws_init (s : wsys E F W) : wsys E F W :=
  mk_wsys (ws s) (wregs s) (wfw s) (wflash s) (wnet s) (Some []) (fw_replies s) (fw_reply_idx s) (fw_posted s) (fw_swap s).

(** the atomic steps of the lwIP thread and of the worker *)
Inductive ws_event :=
  | EvAttach (now p : Z) (pending : list Z) | EvFeed (now : Z) (data : list Z) | EvPoll (now : Z) | EvDetach
  | EvReply | EvWorker | EvReboot.

Definition ws_run (ev : ws_event) : MW unit :=
  match ev with
  | EvAttach now p pending => ws_attach now p pending
  | EvFeed now data => ws_feed now data
  | EvPoll now => ws_poll now
  | EvDetach => ws_detach
  | EvReply => ws_fw_reply_cb
  | EvWorker => w ← gets fw_swap; if w : bool then mret tt else ws_fw_task
  | EvReboot => w ← gets fw_swap; if w : bool then ws_fw_reboot else mret tt
  end.

Fixpoint ws_runs (evs : list ws_event) : MW unit :=
  match evs with [] => mret tt | ev :: evs => ws_run ev;; ws_runs evs end.
End Session.

(** ** The parser: bounds *)

Lemma rx_max_val : WS_RX_MAX = 10256.
Proof. done. Qed.
#[local] Opaque WS_RX_MAX.

(** the arrays keep their sizes *)
Definition parser_wf (p : parser) : Prop :=
  length (hdr p) = 10%nat ∧ length (mask p) = 4%nat ∧ Z.of_nat (length (payload p)) = WS_RX_MAX ∧
  bytes_ok (hdr p) ∧ bytes_ok (mask p) ∧ bytes_ok (payload p) ∧ 0 ≤ got p ≤ WS_RX_MAX.

(** every index in use is inside its array *)
Definition parser_ok (p : parser) : Prop :=
  parser_wf p ∧ 0 ≤ hdr_got p ∧
  match state p with
  | WS_HDR | WS_LEN16 => hdr_got p < 2 | WS_LEN64 => hdr_got p < 8 | WS_MASK => hdr_got p < 4
  | WS_PAYLOAD => True end.

Lemma push_hdr_wf b p : is_byte b → parser_wf p → parser_wf (push_hdr b p).
Proof.
  intros Hb (Hh & Hm & Hp & Fh & Fm & Fp & Hg). unfold parser_wf, push_hdr; cbn [hdr mask payload got].
  rewrite length_insert. split_and!; try done; try lia. by apply Forall_insert.
Qed.

Lemma rx_byte_ok b p :
  is_byte b → parser_ok p →
  parser_wf (rx_byte b p).1 ∧ ((rx_byte b p).2 ≠ RxClose → parser_ok (rx_byte b p).1) ∧
  ((rx_byte b p).2 = RxFrame → state (rx_byte b p).1 = WS_PAYLOAD).
Proof.
  intros Hb (Hwf & H0 & Hst). pose proof (push_hdr_wf b p Hb Hwf) as Hpw.
  assert (∀ q st, parser_wf q → parser_ok (set_state st q)) as Hset.
  { intros q st Hq. split; [exact Hq|]. cbn [hdr_got set_state state]. split; [lia|]. by destruct st. }
  assert (∀ q n, parser_wf q → parser_wf (set_plen n q)) as Hpl by (intros q n Hq; exact Hq).
  assert (0 ≤ hdr_got p < 8 → hdr_got (push_hdr b p) = hdr_got p + 1) as Hinc by (intros; cbn [push_hdr hdr_got]; ulia).
  unfold rx_byte. destruct (state p) eqn:E.
  - destruct (Z.ltb_spec (hdr_got (push_hdr b p)) 2) as [Hl|Hl]; cbn [fst snd].
    { split; [done|]. split; [|done]. intros _. split; [done|]. rewrite Hinc in * by lia. cbn [state push_hdr]. rewrite E. lia. }
    set (q := mk_parser _ _ _ _ _ _ _ _ _ _).
    assert (parser_wf q) as Hq.
    { destruct Hpw as (A1 & A2 & A3 & A4 & A5 & A6 & A7). rewrite rx_max_val in *. unfold q, parser_wf; cbn [hdr mask payload got].
      split_and!; try done; rewrite ?rx_max_val; lia. }
    repeat destruct (_ =? _); try destruct (_ <? _); cbn [fst snd]; split; try done; split; try done; intros; by apply Hset.
  - destruct (Z.eqb_spec (hdr_got (push_hdr b p)) 2) as [Hl|Hl]; cbn [fst snd].
    + destruct (_ <? _); cbn [fst snd]; split; try done; split; try done; intros. by apply Hset.
    + split; [done|]. split; [|done]. intros _. split; [done|]. rewrite Hinc in * by lia. cbn [state push_hdr]. rewrite E. lia.
  - destruct (Z.eqb_spec (hdr_got (push_hdr b p)) 8) as [Hl|Hl]; cbn [fst snd].
    + destruct (_ <? _); cbn [fst snd]; split; try done; split; try done; intros. by apply Hset.
    + split; [done|]. split; [|done]. intros _. split; [done|]. rewrite Hinc in * by lia. cbn [state push_hdr]. rewrite E. lia.
  - set (q := mk_parser _ _ _ _ _ _ _ _ _ _).
    assert (parser_wf q) as Hq.
    { destruct Hwf as (A1 & A2 & A3 & A4 & A5 & A6 & A7). unfold q, parser_wf; cbn [hdr mask payload got].
      rewrite length_insert. split_and!; try done; try lia. by apply Forall_insert. }
    assert (hdr_got q = hdr_got p + 1) as Hg by (cbn [q hdr_got]; ulia).
    destruct (Z.eqb_spec (hdr_got q) 4) as [Hl|Hl]; cbn [fst snd].
    + split; [done|]. split; [|done]. intros _. by apply Hset.
    + split; [done|]. split; [|done]. intros _. split; [done|]. rewrite Hg in *. cbn [q state]. lia.
  - destruct (Z.leb_spec WS_RX_MAX (got p)) as [Hl|Hl]; cbn [fst snd]; [done|].
    set (v := if masked p then _ else _). assert (is_byte v) as Hv by (unfold v; destruct (masked p); [apply u8_range|done]).
    destruct Hwf as (A1 & A2 & A3 & A4 & A5 & A6 & A7).
    assert (parser_wf (mk_parser WS_PAYLOAD (hdr p) (hdr_got p) (op p) (fin p) (masked p) (mask p) (plen p) (got p + 1)
                         (<[Z.to_nat (got p):=v]> (payload p)))) as Hq.
    { unfold parser_wf; cbn [hdr mask payload got]. rewrite length_insert. split_and!; try done; try lia. by apply Forall_insert. }
    split; [done|]. split; [|done]. intros _. split; [done|]. cbn [state]. done.
Qed.

(** ** Frames as RFC 6455 lays them out *)

Inductive len_form := Len7 | Len16 | Len64.
#[export] Instance len_form_eq_dec : EqDecision len_form.
Proof. solve_decision. Defined.

Definition form_ok (f : len_form) (n : Z) : Prop := match f with Len7 => n < 126 | Len16 => n < 65536 | Len64 => True end.
Definition form_code (f : len_form) (n : Z) : Z := match f with Len7 => n | Len16 => 126 | Len64 => 127 end.
Definition form_bytes (f : len_form) (n : Z) : list Z :=
  match f with Len7 => [] | Len16 => be_bytes 2 n | Len64 => be_bytes 8 n end.

Definition mask_data (key : list Z) (data : list Z) : list Z := imap (λ i b, Z.lxor b (rd key (i mod 4))) data.

Record frame := mk_frame { f_form : len_form; f_fin : bool; f_op : Z; f_key : option (list Z); f_data : list Z }.

Definition keyed (f : frame) : bool := match f_key f with Some _ => true | None => false end.

Definition frame_head (f : frame) : list Z :=
  [(if f_fin f then 128 else 0) + f_op f;
   (if keyed f then 128 else 0) + form_code (f_form f) (zlen (f_data f))] ++
  form_bytes (f_form f) (zlen (f_data f)).
Definition frame_body (f : frame) : list Z :=
  match f_key f with Some k => k ++ mask_data k (f_data f) | None => f_data f end.
Definition ws_encode (f : frame) : list Z := frame_head f ++ frame_body f.

(** a frame the server takes *)
Definition frame_ok (f : frame) : Prop :=
  form_ok (f_form f) (zlen (f_data f)) ∧ 0 ≤ f_op f < 16 ∧ 0 < zlen (f_data f) ≤ WS_RX_MAX ∧ bytes_ok (f_data f) ∧
  match f_key f with Some k => length k = 4%nat ∧ bytes_ok k | None => True end.

(** bytes after which the parser still wants more *)
Fixpoint takes (bs : list Z) (p : parser) : option parser :=
  match bs with
  | [] => Some p
  | b :: bs => match rx_byte b p with (p, RxMore) => takes bs p | _ => None end
  end.

Lemma takes_app a b p : takes (a ++ b) p = takes a p ≫= takes b.
Proof.
  revert p. induction a as [|x a IH]; intros p; [done|]. cbn [app takes].
  destruct (rx_byte x p) as [q []]; [apply IH|done..].
Qed.

Lemma head_bits (b : bool) (n : Z) :
  0 ≤ n < 128 →
  let x := (if b then 128 else 0) + n in
  Z.land x 0x7F = n ∧ negb (Z.land x 0x80 =? 0) = b ∧ (n < 16 → Z.land x 0x0F = n).
Proof.
  intros Hn x. assert (x = Z.lor (Z.shiftl (if b then 1 else 0) 7) n) as ->.
  { rewrite lor_shiftl_add by lia. unfold x. destruct b; lia. }
  assert (∀ m, Z.land (Z.lor (Z.shiftl (if b then 1 else 0) 7) n) (Z.ones m) = ((if b then 128 else 0) + n) mod 2 ^ m ∨ m < 0) as Hones.
  { intros m. destruct (Z.le_gt_cases 0 m); [left|by right]. rewrite Z.land_ones, lor_shiftl_add by lia. f_equal. destruct b; lia. }
  split_and!.
  - destruct (Hones 7) as [E|]; [|lia]. change (Z.ones 7) with 0x7F in E. rewrite E. change (2 ^ 7) with 128.
    destruct b; Z.div_mod_to_equations; lia.
  - assert (Z.land (Z.lor (Z.shiftl (if b then 1 else 0) 7) n) 0x80 = if b then 128 else 0) as ->; [|by destruct b].
    change 0x80 with (2 ^ 7). apply Z.bits_inj'. intros i Hi. rewrite Z.land_spec, Z.lor_spec, Z.shiftl_spec, Z.pow2_bits_eqb by lia.
    destruct (Z.eqb_spec 7 i) as [<-|Hne].
    + rewrite (testbit_high 7 n 7) by (unfold is_u; lia). by destruct b.
    + rewrite andb_false_r. symmetry. destruct b; [|apply Z.bits_0]. change 128 with (2 ^ 7). rewrite Z.pow2_bits_eqb by lia. lia.
  - intros Hs. destruct (Hones 4) as [E|]; [|lia]. change (Z.ones 4) with 0x0F in E. rewrite E. change (2 ^ 4) with 16.
    destruct b; Z.div_mod_to_equations; lia.
Qed.

(** the parser between two frames *)
Definition at_frame (p : parser) : Prop := parser_ok p ∧ state p = WS_HDR ∧ hdr_got p = 0.

(** the parser that has taken a header and waits for the mask or the data *)
Definition head_taken (f : frame) (p q : parser) : Prop :=
  parser_wf q ∧ state q = (if keyed f then WS_MASK else WS_PAYLOAD) ∧ hdr_got q = 0 ∧ op q = f_op f ∧ fin q = f_fin f ∧
  masked q = keyed f ∧ plen q = zlen (f_data f) ∧ got q = 0 ∧ payload q = payload p ∧ mask q = mask p.

Lemma be_bytes_2 n : 0 ≤ n < 65536 → be_bytes 2 n = [n / 256; n mod 256].
Proof.
  intros Hn. unfold be_bytes. cbn [fmap list_fmap seq]. change (8 * Z.of_nat (2 - 1 - 0)) with 8. change (8 * Z.of_nat (2 - 1 - 1)) with 0.
  rewrite !Z.shiftr_div_pow2 by lia. change (2 ^ 8) with 256. change (2 ^ 0) with 1. rewrite Z.div_1_r.
  unfold u8. by rewrite (Z.mod_small (n / 256)) by (Z.div_mod_to_equations; lia).
Qed.
Lemma be_bytes_8 n : 0 ≤ n < 65536 → be_bytes 8 n = [0; 0; 0; 0; 0; 0; n / 256; n mod 256].
Proof.
  intros Hn. unfold be_bytes. cbn [fmap list_fmap seq].
  rewrite !Z.shiftr_div_pow2 by lia. rewrite (Z.div_small n (2 ^ (8 * Z.of_nat (8 - 1 - 0)))) by (change (2 ^ _) with 72057594037927936; lia).
  rewrite (Z.div_small n (2 ^ (8 * Z.of_nat (8 - 1 - 1)))) by (change (2 ^ _) with 281474976710656; lia).
  rewrite (Z.div_small n (2 ^ (8 * Z.of_nat (8 - 1 - 2)))) by (change (2 ^ _) with 1099511627776; lia).
  rewrite (Z.div_small n (2 ^ (8 * Z.of_nat (8 - 1 - 3)))) by (change (2 ^ _) with 4294967296; lia).
  rewrite (Z.div_small n (2 ^ (8 * Z.of_nat (8 - 1 - 4)))) by (change (2 ^ _) with 16777216; change (2 ^ _) with 4294967296; lia).
  rewrite (Z.div_small n (2 ^ (8 * Z.of_nat (8 - 1 - 5)))) by (change (2 ^ _) with 65536; lia).
  change (2 ^ (8 * Z.of_nat (8 - 1 - 6))) with 256. change (2 ^ (8 * Z.of_nat (8 - 1 - 7))) with 1. rewrite Z.div_1_r.
  change (u8 0) with 0.
  unfold u8. by rewrite (Z.mod_small (n / 256)) by (Z.div_mod_to_equations; lia).
Qed.

Lemma list10 (l : list Z) : length l = 10%nat → ∃ a b c d e f g h i j, l = [a;b;c;d;e;f;g;h;i;j].
Proof. intros Hl. do 10 (destruct l as [|? l]; [done|]). destruct l; [|done]. by eauto 12. Qed.

Lemma takes_cons b bs p q : rx_byte b p = (q, RxMore) → takes (b :: bs) p = takes bs q.
Proof. intros Hb. cbn [takes]. by rewrite Hb. Qed.

Lemma rx_hdr0 b p : state p = WS_HDR → hdr_got p = 0 → rx_byte b p = (push_hdr b p, RxMore).
Proof. intros Hs Hg. unfold rx_byte. rewrite Hs. cbn [push_hdr hdr_got]. by rewrite Hg. Qed.

(** the second header byte, of a length that fits *)
Definition second (b0 b1 : Z) (p : parser) : parser :=
  mk_parser WS_HDR (hdr p) 0 (Z.land b0 0x0F) (negb (Z.land b0 0x80 =? 0)) (negb (Z.land b1 0x80 =? 0)) (mask p)
    (Z.land b1 0x7F) 0 (payload p).

Lemma push_got b p n : hdr_got p = n → 0 ≤ n < 255 → hdr_got (push_hdr b p) = n + 1.
Proof. intros Hg Hn. cbn [push_hdr hdr_got]. rewrite Hg. ulia. Qed.

Lemma rd_push b p n i :
  hdr_got p = Z.of_nat n → (n < length (hdr p))%nat → rd (hdr (push_hdr b p)) i = if decide (i = n) then b else rd (hdr p) i.
Proof.
  intros Hg Hn. cbn [push_hdr hdr]. rewrite Hg, Nat2Z.id. case_decide as Hi; [subst; by apply rd_insert_eq|by apply rd_insert_ne].
Qed.

Lemma rx_hdr1 b0 b1 p :
  parser_wf p → state p = WS_HDR → hdr_got p = 0 →
  let p1 := push_hdr b0 p in
  let q := second b0 b1 (push_hdr b1 p1) in
  rx_byte b1 p1 = if plen q =? 126 then (set_state WS_LEN16 q, RxMore)
                  else if plen q =? 127 then (set_state WS_LEN64 q, RxMore)
                  else if WS_RX_MAX <? plen q then (q, RxClose) else (start_data q, RxMore).
Proof.
  intros Hwf Hs Hg p1 q. unfold rx_byte. change (state p1) with (state p). rewrite Hs.
  destruct Hwf as (Hl & _).
  assert (hdr_got p1 = 1) as Hg1 by (by apply (push_got b0 p 0)).
  rewrite (push_got b1 p1 1) by (done || lia). change (1 + 1 <? 2) with false. cbv iota.
  assert (length (hdr p1) = 10%nat) as Hl1 by (unfold p1; cbn [push_hdr hdr]; by rewrite length_insert).
  assert (rd (hdr (push_hdr b1 p1)) 0 = b0 ∧ rd (hdr (push_hdr b1 p1)) 1 = b1) as [E0 E1].
  { rewrite !(rd_push b1 p1 1) by (lia || done). unfold p1. rewrite (rd_push b0 p 0) by (lia || done). done. }
  rewrite E0, E1. unfold q, second. change (state (push_hdr b1 p1)) with (state p). by rewrite Hs.
Qed.

(** a length field of [n] bytes pushed behind the header *)
Lemma rx_len_step b p :
  (state p = WS_LEN16 ∧ 0 ≤ hdr_got p ∧ hdr_got p + 1 ≠ 2 ∧ hdr_got p < 8) ∨
  (state p = WS_LEN64 ∧ 0 ≤ hdr_got p ∧ hdr_got p + 1 ≠ 8 ∧ hdr_got p < 8) →
  rx_byte b p = (push_hdr b p, RxMore) ∧ hdr_got (push_hdr b p) = hdr_got p + 1 ∧ state (push_hdr b p) = state p.
Proof.
  intros Hs. assert (hdr_got (push_hdr b p) = hdr_got p + 1) as Hg by (cbn [push_hdr hdr_got]; destruct Hs; ulia).
  split_and!; [|done|done]. unfold rx_byte.
  destruct Hs as [(-> & Hs)|(-> & Hs)]; rewrite Hg; [replace (hdr_got p + 1 =? 2) with false by lia|replace (hdr_got p + 1 =? 8) with false by lia]; done.
Qed.

Lemma rx_len16 b0 b1 p :
  state p = WS_LEN16 → hdr_got p = 0 → length (hdr p) = 10%nat → is_byte b0 → is_byte b1 → b0 * 256 + b1 ≤ WS_RX_MAX →
  takes [b0; b1] p = Some (start_data (set_plen (b0 * 256 + b1) (push_hdr b1 (push_hdr b0 p)))).
Proof.
  intros Hs Hg Hl Hb0 Hb1 Hn. destruct (rx_len_step b0 p) as (E & Eg & Es); [left; rewrite Hg; repeat split; try done; lia|].
  rewrite (takes_cons _ _ _ _ E). cbn [takes]. unfold rx_byte. rewrite Es, Hs.
  rewrite (push_got b1 (push_hdr b0 p) 1) by (lia || by rewrite Eg, Hg). change (1 + 1 =? 2) with true. cbv iota.
  assert (length (hdr (push_hdr b0 p)) = 10%nat) as Hl0 by (cbn [push_hdr hdr]; by rewrite length_insert).
  assert (rd (hdr (push_hdr b1 (push_hdr b0 p))) 0 = b0 ∧ rd (hdr (push_hdr b1 (push_hdr b0 p))) 1 = b1) as [-> ->].
  { rewrite !(rd_push b1 _ 1) by (lia || by rewrite Eg, Hg). rewrite (rd_push b0 _ 0) by (lia || done). done. }
  rewrite lor_shiftl_add by ulia. change (2 ^ 8) with 256. cbn [set_plen plen]. by replace (WS_RX_MAX <? b0 * 256 + b1) with false by lia.
Qed.

Definition pushes (bs : list Z) (p : parser) : parser := foldl (λ p b, push_hdr b p) p bs.

Lemma pushes_cons b bs p : pushes (b :: bs) p = pushes bs (push_hdr b p).
Proof. done. Qed.

Lemma pushes_got bs p n :
  hdr_got p = Z.of_nat n → (n + length bs < 200)%nat → hdr_got (pushes bs p) = Z.of_nat (n + length bs).
Proof.
  revert p n. induction bs as [|b bs IH]; intros p n Hg Hn; cbn [pushes foldl length] in *; [by rewrite Nat.add_0_r|].
  unfold pushes in IH. rewrite (IH _ (S n)); [f_equal; lia| |lia]. rewrite (push_got b p (Z.of_nat n)) by lia. lia.
Qed.

Lemma pushes_wf bs p : bytes_ok bs → parser_wf p → parser_wf (pushes bs p).
Proof.
  revert p. induction bs as [|b bs IH]; intros p Hb Hp; [done|]. inversion_clear Hb. rewrite pushes_cons.
  apply IH; [done|]. by apply push_hdr_wf.
Qed.

Lemma pushes_same bs p :
  state (pushes bs p) = state p ∧ length (hdr (pushes bs p)) = length (hdr p) ∧ op (pushes bs p) = op p ∧
  fin (pushes bs p) = fin p ∧ masked (pushes bs p) = masked p ∧ mask (pushes bs p) = mask p ∧
  plen (pushes bs p) = plen p ∧ got (pushes bs p) = got p ∧ payload (pushes bs p) = payload p.
Proof.
  revert p. induction bs as [|b bs IH]; intros p; [done|]. rewrite pushes_cons.
  destruct (IH (push_hdr b p)) as (-> & -> & -> & -> & -> & -> & -> & -> & ->). cbn [push_hdr hdr]. by rewrite length_insert.
Qed.

Lemma pushes_rd bs p n i :
  hdr_got p = Z.of_nat n → (n + length bs ≤ length (hdr p))%nat → (length (hdr p) < 200)%nat → (n ≤ i < n + length bs)%nat →
  rd (hdr (pushes bs p)) i = rd bs (i - n).
Proof.
  revert p n. induction bs as [|b bs IH]; intros p n Hg Hn Hl Hi; cbn [length] in *; [lia|]. rewrite pushes_cons.
  assert (length (hdr (push_hdr b p)) = length (hdr p)) as Hl' by (cbn [push_hdr hdr]; by rewrite length_insert).
  assert (hdr_got (push_hdr b p) = Z.of_nat (S n)) as Hg' by (rewrite (push_got b p (Z.of_nat n)); lia).
  destruct (decide (i = n)) as [->|Hne].
  - rewrite Nat.sub_diag, rd_cons_0. clear IH.
    assert (∀ bs q m, (n < m)%nat → hdr_got q = Z.of_nat m → (m + length bs ≤ length (hdr q))%nat → (length (hdr q) < 200)%nat →
      rd (hdr (pushes bs q)) n = rd (hdr q) n) as Hkeep.
    { clear. induction bs as [|b bs IH]; intros q m Hm Hg Hl Hl2; [done|]. cbn [length] in *. rewrite pushes_cons.
      rewrite (IH _ (S m)); [| |rewrite (push_got b q (Z.of_nat m)); lia|cbn [push_hdr hdr]; rewrite length_insert; lia..]; [|lia].
      rewrite (rd_push b q m) by lia. by rewrite decide_False by lia. }
    rewrite (Hkeep _ _ (S n)) by lia. rewrite (rd_push b p n) by lia. by rewrite decide_True.
  - rewrite (IH _ (S n)) by lia. replace (i - n)%nat with (S (i - S n)) by lia. by rewrite rd_cons_S.
Qed.

Lemma takes_pushes bs p n m :
  (state p = WS_LEN16 ∧ m = 2%nat) ∨ (state p = WS_LEN64 ∧ m = 8%nat) → hdr_got p = Z.of_nat n → (n + length bs < m)%nat →
  takes bs p = Some (pushes bs p).
Proof.
  revert p n. induction bs as [|b bs IH]; intros p n Hs Hg Hn; [done|]. cbn [length] in Hn.
  destruct (rx_len_step b p) as (E & Eg & Es); [destruct Hs as [[-> ->]|[-> ->]]; [left|right]; repeat split; lia|].
  rewrite (takes_cons _ _ _ _ E). rewrite pushes_cons. apply (IH _ (S n)); [by rewrite Es|lia|lia].
Qed.

(** the whole length field *)
Lemma rx_len form p n :
  parser_wf p → form ≠ Len7 → state p = (if decide (form = Len16) then WS_LEN16 else WS_LEN64) → hdr_got p = 0 →
  form_ok form n → 0 ≤ n ≤ WS_RX_MAX →
  takes (form_bytes form n) p = Some (start_data (set_plen n (pushes (form_bytes form n) p))).
Proof.
  intros Hwf Hf Hs Hg Hok Hn. rewrite rx_max_val in Hn. destruct Hwf as (Hl & _).
  destruct form; [done| |]; rewrite ?decide_True, ?decide_False in Hs by done; cbn [form_bytes].
  - rewrite be_bytes_2 by lia.
    rewrite (rx_len16 (n / 256) (n mod 256)) by first [done | ulia | rewrite rx_max_val; Z.div_mod_to_equations; lia].
    cbn [pushes foldl]. by replace (n / 256 * 256 + n mod 256) with n by (Z.div_mod_to_equations; lia).
  - rewrite be_bytes_8 by lia. change [0;0;0;0;0;0;n/256;n mod 256] with ([0;0;0;0;0;0;n/256] ++ [n mod 256]).
    rewrite takes_app, (takes_pushes _ _ 0 8) by (first [by right | done | cbn; lia]). cbn [mbind option_bind].
    set (q := pushes [0;0;0;0;0;0;n/256] p). assert (hdr_got q = 7) as Hq by (unfold q; rewrite (pushes_got _ p 0) by (done || cbn [length]; lia); done).
    destruct (pushes_same [0;0;0;0;0;0;n/256] p) as (Es & El & _). fold q in Es, El.
    cbn [takes]. unfold rx_byte. rewrite Es, Hs, (push_got _ q 7) by (done || lia). change (7 + 1 =? 8) with true. cbv iota.
    assert (pushes ([0;0;0;0;0;0;n/256] ++ [n mod 256]) p = push_hdr (n mod 256) q) as Hp by (unfold pushes; by rewrite foldl_app).
    rewrite <- Hp. set (r := pushes _ p). clearbody q.
    assert (∀ i, (i < 8)%nat → rd (hdr r) i = rd ([0;0;0;0;0;0;n/256] ++ [n mod 256]) i) as Hrd.
    { intros i Hi. unfold r. rewrite (pushes_rd _ p 0) by (cbn [length app]; lia). by rewrite Nat.sub_0_r. }
    assert (foldl (λ v i, Z.lor (u64 (Z.shiftl v 8)) (rd (hdr r) i)) 0 (seq 0 8) = n) as ->.
    { cbn [seq foldl]. rewrite !Hrd by lia. cbn [app]. repeat (rewrite rd_cons_S || rewrite rd_cons_0).
      change (u64 (Z.shiftl 0 8)) with 0. rewrite !Z.lor_0_l. repeat change (u64 (Z.shiftl 0 8)) with 0. rewrite ?Z.lor_0_l.
      assert (u64 (Z.shiftl (n / 256) 8) = Z.shiftl (n / 256) 8) as ->.
      { unfold u64. rewrite Z.mod_small; [done|]. rewrite Z.shiftl_mul_pow2 by lia. change (2 ^ 8) with 256. Z.div_mod_to_equations. lia. }
      rewrite lor_shiftl_add by (change (2 ^ 8) with 256; Z.div_mod_to_equations; lia). change (2 ^ 8) with 256. Z.div_mod_to_equations. lia. }
    replace (WS_RX_MAX <? n) with false by (rewrite rx_max_val; lia). by replace (u32 n) with n by ulia.
Qed.

Lemma zlen_pos_data (f : frame) : frame_ok f → 0 < zlen (f_data f) ≤ WS_RX_MAX.
Proof. by intros (_ & _ & Hd & _). Qed.

Lemma takes_head f p :
  at_frame p → frame_ok f → ∃ q, takes (frame_head f) p = Some q ∧ head_taken f p q.
Proof.
  intros ((Hwf & _ & _) & Hs & Hg) (Hform & Hop & Hlen & _ & _). set (n := zlen (f_data f)) in *.
  pose proof rx_max_val as Hmax.
  destruct (head_bits (f_fin f) (f_op f)) as (_ & Hb1 & Hb2); [lia|]. specialize (Hb2 ltac:(lia)).
  destruct (head_bits (keyed f) (form_code (f_form f) n)) as (Hc1 & Hc2 & _); [destruct (f_form f); cbn in *; lia|].
  unfold frame_head. fold n. set (b0 := (if f_fin f then 128 else 0) + f_op f) in *. set (b1 := (if keyed f then 128 else 0) + _) in *.
  assert (is_byte b0 ∧ is_byte b1) as [Hy0 Hy1].
  { unfold b0, b1. destruct (f_fin f), (keyed f), (f_form f); cbn in *; ulia. }
  rewrite takes_app. rewrite (takes_cons _ _ _ _ (rx_hdr0 b0 p Hs Hg)). cbn [takes].
  rewrite (rx_hdr1 b0 b1 p Hwf Hs Hg). set (q := second b0 b1 (push_hdr b1 (push_hdr b0 p))).
  assert (parser_wf q) as Hq.
  { destruct (push_hdr_wf b1 _ Hy1 (push_hdr_wf b0 _ Hy0 Hwf)) as (A1 & A2 & A3 & A4 & A5 & A6 & A7).
    unfold q, second, parser_wf; cbn [hdr mask payload got]. split_and!; try done; rewrite rx_max_val; lia. }
  assert (plen q = form_code (f_form f) n) as Hpl by exact Hc1. rewrite Hpl.
  assert (∀ r, parser_wf r → op r = op q → fin r = fin q → masked r = masked q → plen r = n → got r = 0 → payload r = payload p →
    mask r = mask p → head_taken f p (start_data r)) as Hdone.
  { intros r Hr E1 E2 E3 E4 E5 E6 E7. unfold head_taken, start_data. cbn [state set_state hdr_got op fin masked plen got payload mask].
    rewrite E1, E2, E3. change (op q) with (Z.land b0 0x0F). change (fin q) with (negb (Z.land b0 0x80 =? 0)).
    change (masked q) with (negb (Z.land b1 0x80 =? 0)). rewrite Hb1, Hb2, Hc2. by split_and!. }
  destruct (f_form f) eqn:Ef; cbn [form_code form_bytes form_ok] in *.
  - replace (n =? 126) with false by lia. replace (n =? 127) with false by lia. replace (WS_RX_MAX <? n) with false by lia.
    cbn [mbind option_bind takes]. eexists. split; [done|]. by apply Hdone.
  - change (126 =? 126) with true. cbv iota. cbn [mbind option_bind].
    pose proof (rx_len Len16 (set_state WS_LEN16 q) n Hq ltac:(done) eq_refl eq_refl Hform ltac:(lia)) as E. cbn [form_bytes] in E.
    rewrite E. eexists. split; [done|].
    destruct (pushes_same (be_bytes 2 n) (set_state WS_LEN16 q)) as (_ & _ & E1 & E2 & E3 & E4 & _ & E5 & E6).
    apply Hdone; cbn [set_plen op fin masked plen got payload mask]; rewrite ?E1, ?E2, ?E3, ?E4, ?E5, ?E6; try done.
    apply (pushes_wf (be_bytes 2 n) (set_state WS_LEN16 q)); [apply be_bytes_ok|exact Hq].
  - change (127 =? 126) with false. change (127 =? 127) with true. cbv iota. cbn [mbind option_bind].
    pose proof (rx_len Len64 (set_state WS_LEN64 q) n Hq ltac:(done) eq_refl eq_refl Hform ltac:(lia)) as E. cbn [form_bytes] in E.
    rewrite E. eexists. split; [done|].
    destruct (pushes_same (be_bytes 8 n) (set_state WS_LEN64 q)) as (_ & _ & E1 & E2 & E3 & E4 & _ & E5 & E6).
    apply Hdone; cbn [set_plen op fin masked plen got payload mask]; rewrite ?E1, ?E2, ?E3, ?E4, ?E5, ?E6; try done.
    clear - Hq. apply (pushes_wf (be_bytes 8 n) (set_state WS_LEN64 q)); [apply be_bytes_ok|exact Hq].
Qed.

(** *** The mask *)

(** the parser with the mask taken *)
Definition key_taken (f : frame) (p q : parser) : Prop :=
  parser_wf q ∧ state q = WS_PAYLOAD ∧ op q = f_op f ∧ fin q = f_fin f ∧ masked q = keyed f ∧
  plen q = zlen (f_data f) ∧ got q = 0 ∧ payload q = payload p ∧ match f_key f with Some k => mask q = k | None => True end.

Lemma takes_key f p q :
  frame_ok f → head_taken f p q →
  ∃ r, takes (default [] (f_key f)) q = Some r ∧ key_taken f p r.
Proof.
  intros (_ & _ & _ & _ & Hk) (Hwf & Hs & Hg & Ho & Hf & Hm & Hp & Hgo & Hpay & Hmask).
  destruct (f_key f) as [k|] eqn:Ek; cbn [default].
  - destruct Hk as [Hkl Hkb]. assert (∃ a b c d, k = [a; b; c; d]) as (a & b & c & d & ->).
    { do 4 (destruct k as [|? k]; [done|]). destruct k; [|done]. by eauto. }
    unfold keyed in *. rewrite Ek in *. destruct q as [st h hg o fi ma mk pl g pay]. cbn in Hs, Hg, Ho, Hf, Hm, Hp, Hgo, Hpay. subst.
    destruct Hwf as (A1 & A2 & A3 & A4 & A5 & A6 & A7). cbn in A1, A2, A3, A4, A5, A6, A7.
    assert (∃ w x y z, mk = [w; x; y; z]) as (w & x & y & z & ->).
    { do 4 (destruct mk as [|? mk]; [done|]). destruct mk; [|done]. by eauto. }
    exists (mk_parser WS_PAYLOAD h 0 (f_op f) (f_fin f) true [a; b; c; d] (zlen (f_data f)) 0 (payload p)).
    split; [reflexivity|]. unfold key_taken, keyed, parser_wf. rewrite Ek.
    cbn [state hdr op fin masked mask plen got payload]. by split_and!.
  - eexists. split; [reflexivity|]. unfold key_taken, keyed in *. rewrite Ek in *. by split_and!.
Qed.

(** *** The data *)

(** the parser with [d] of the frame's data taken *)
Definition data_taken (f : frame) (d : list Z) (q : parser) : Prop :=
  parser_wf q ∧ state q = WS_PAYLOAD ∧ op q = f_op f ∧ fin q = f_fin f ∧ masked q = keyed f ∧
  plen q = zlen (f_data f) ∧ got q = zlen d ∧ frame_data q = d ∧ match f_key f with Some k => mask q = k | None => True end.

(** byte [i] of the frame's data on the wire *)
Definition wire_byte (f : frame) (i : nat) (b : Z) : Z :=
  match f_key f with Some k => Z.lxor b (rd k (i mod 4)) | None => b end.

(** [bs] completes a frame: the last byte, and no byte before it *)
Definition completes (bs : list Z) (p p' : parser) : Prop :=
  ∃ init last q, bs = init ++ [last] ∧ takes init p = Some q ∧ rx_byte last q = (p', RxFrame).

Lemma completes_app a b p q p' : takes a p = Some q → completes b q p' → completes (a ++ b) p p'.
Proof.
  intros Ha (init & last & r & -> & Ht & Hr). exists (a ++ init), last, r. rewrite app_assoc, takes_app, Ha. done.
Qed.

Lemma frame_data_snoc q b :
  parser_wf q → got q < WS_RX_MAX →
  take (Z.to_nat (got q + 1)) (<[Z.to_nat (got q) := b]> (payload q)) = frame_data q ++ [b].
Proof.
  intros (_ & _ & Hp & _ & _ & _ & Hg) Hlt. unfold frame_data. replace (Z.to_nat (got q + 1)) with (S (Z.to_nat (got q))) by lia.
  rewrite (take_S_r _ _ b); [|apply list_lookup_insert_eq; lia]. by rewrite take_insert_ge by lia.
Qed.

Lemma rx_data_byte f d b q :
  frame_ok f → data_taken f d q → is_byte b → zlen d < zlen (f_data f) →
  ∃ q', rx_byte (wire_byte f (length d) b) q = (q', if zlen d + 1 =? zlen (f_data f) then RxFrame else RxMore) ∧
        data_taken f (d ++ [b]) q'.
Proof.
  intros (_ & _ & Hlen & _ & Hk) (Hwf & Hs & Ho & Hf & Hm & Hp & Hg & Hd & Hmask) Hb Hlt.
  unfold rx_byte. rewrite Hs, Hg. replace (WS_RX_MAX <=? zlen d) with false by lia. cbn [plen got]. rewrite Hp.
  assert ((if masked q then u8 (Z.lxor (wire_byte f (length d) b) (rd (mask q) (Z.to_nat (Z.land (zlen d) 3)))) else wire_byte f (length d) b) = b) as ->.
  { rewrite Hm. unfold keyed, wire_byte in *. destruct (f_key f) as [k|]; [|done]. rewrite Hmask.
    change 3 with (Z.ones 2). rewrite Z.land_ones by lia. change (2 ^ 2) with 4. unfold zlen.
    replace (Z.to_nat (Z.of_nat (length d) mod 4)) with (length d mod 4)%nat by (rewrite <- (Nat2Z.id (length d mod 4)); f_equal; by rewrite Nat2Z.inj_mod).
    rewrite Z.lxor_assoc, Z.lxor_nilpotent, Z.lxor_0_r. by apply u8_id. }
  eexists. split; [reflexivity|].
  pose proof Hwf as Hwf'. destruct Hwf as (A1 & A2 & A3 & A4 & A5 & A6 & A7).
  unfold data_taken; cbn [state op fin masked plen got mask]. rewrite zlen_app. change (zlen [b]) with 1. split_and!; try done.
  - unfold parser_wf; cbn [hdr mask payload got]. rewrite length_insert. split_and!; try done; try lia. by apply Forall_insert.
  - unfold frame_data at 1; cbn [got payload]. rewrite <- Hg. rewrite frame_data_snoc; [by rewrite Hd|done|lia].
Qed.

Lemma data_completes f rest : ∀ d q,
  frame_ok f → data_taken f d q → f_data f = d ++ rest → rest ≠ [] → bytes_ok rest →
  ∃ q', completes (imap (λ i b, wire_byte f (length d + i) b) rest) q q' ∧ data_taken f (f_data f) q'.
Proof.
  induction rest as [|b rest IH]; intros d q Hf Hd Hsplit Hne Hb; [done|]. inversion_clear Hb as [|? ? Hbb Hbr].
  assert (zlen (f_data f) = zlen d + 1 + zlen rest) as Hz by (rewrite Hsplit, zlen_app; unfold zlen; cbn [length]; lia).
  pose proof (zlen_nonneg rest). destruct (rx_data_byte f d b q Hf Hd Hbb) as (q' & Hq & Hd'); [lia|].
  rewrite imap_cons, Nat.add_0_r. destruct rest as [|b' rest].
  - rewrite Hz in Hq. change (zlen []) with 0 in Hq. replace (zlen d + 1 =? zlen d + 1 + 0) with true in Hq by lia.
    exists q'. split; [|by rewrite Hsplit]. exists [], (wire_byte f (length d) b), q. done.
  - replace (zlen d + 1 =? zlen (f_data f)) with false in Hq by (rewrite Hz; unfold zlen; cbn [length]; lia).
    destruct (IH (d ++ [b]) q' Hf Hd') as (q2 & Hc & Hdone); [by rewrite <- app_assoc|done|done|].
    exists q2. split; [|done]. apply (completes_app [_] _ q q'); [by rewrite (takes_cons _ _ _ _ Hq)|].
    erewrite imap_ext; [exact Hc|]. intros i x _. cbn. rewrite length_app. cbn [length]. f_equal. lia.
Qed.

Lemma frame_completes f p :
  at_frame p → frame_ok f → ∃ p', completes (ws_encode f) p p' ∧ data_taken f (f_data f) p'.
Proof.
  intros Hp Hf. destruct (takes_head f p Hp Hf) as (q & Hq & Hhead). destruct (takes_key f p q Hf Hhead) as (r & Hr & Hkey).
  destruct Hkey as (K1 & K2 & K3 & K4 & K5 & K6 & K7 & K8 & K9). pose proof Hf as (_ & _ & Hlen & Hb & _).
  destruct (data_completes f (f_data f) [] r Hf) as (p' & Hc & Hd); [|done| |done|].
  { unfold data_taken. split_and!; try done. unfold frame_data. by rewrite K7. }
  { intros E. rewrite E in Hlen. unfold zlen in Hlen. cbn in Hlen. lia. }
  exists p'. split; [|done]. unfold ws_encode. apply (completes_app _ _ _ _ _ Hq).
  assert (frame_body f = default [] (f_key f) ++ imap (λ i b, wire_byte f (length (A:=Z) [] + i) b) (f_data f)) as ->.
  { unfold frame_body, wire_byte, mask_data. destruct (f_key f); cbn [default]; [done|]. rewrite app_nil_l.
    symmetry. rewrite <- (list_fmap_id (f_data f)) at 2. rewrite <- imap_const. done. }
  by apply (completes_app _ _ _ _ _ Hr).
Qed.

(** ** Feeding the session *)

Section Feed.
Context {E F W : Type} `{IoHooks E} `{UdpHooks E} `{IoFlash F} `{TcpStack W} `{TcpSnd W}.
Context (fw_keyhash : list Z) (boot_set_pending : bool → F → Z * F).
Context (set_reboot_status : bool → E → E) (web_info : E → info) (http_close : W → W).

Abbreviation MW := (M (wsys E F W)).
Abbreviation feed := (feed_loop set_reboot_status http_close).
Abbreviation frame_done := (ws_frame_done set_reboot_status http_close).

Definition with_ws (x : session) (s : wsys E F W) : wsys E F W :=
  mk_wsys x (wregs s) (wfw s) (wflash s) (wnet s) (fw_op_q s) (fw_replies s) (fw_reply_idx s) (fw_posted s) (fw_swap s).
Definition with_rx (p : parser) (s : wsys E F W) : wsys E F W := with_ws (set_rx p (ws s)) s.

Lemma upd_ws_run (g : session → session) (s : wsys E F W) : upd_ws g s = (Done tt, with_ws (g (ws s)) s).
Proof. done. Qed.

(** what follows a complete frame *)
Definition frame_end (now : Z) (rest : list Z) : MW unit :=
  s ← gets ws;
  if negb (active s) then mret tt
  else upd_ws (λ s, set_rx (set_state WS_HDR (rx s)) s);; feed now rest.

Lemma with_rx_rx p q (s : wsys E F W) : with_rx p (with_rx q s) = with_rx p s.
Proof. done. Qed.
Lemma with_rx_self (s : wsys E F W) : with_rx (rx (ws s)) s = s.
Proof. by destruct s as [[] ? ? ? ? ? ? ? ? ?]. Qed.

Lemma feed_takes now bs rest (s : wsys E F W) q :
  takes bs (rx (ws s)) = Some q → feed now (bs ++ rest) s = feed now rest (with_rx q s).
Proof.
  revert s. induction bs as [|b bs IH]; intros s Ht; cbn [takes app] in *.
  { injection Ht as <-. by rewrite with_rx_self. }
  destruct (rx_byte b (rx (ws s))) as [p v] eqn:Er. destruct v; [|done..].
  cbn [feed_loop]. erewrite bind_done by reflexivity. rewrite Er. cbn [fst snd].
  erewrite bind_done by apply upd_ws_run. rewrite IH with (s := with_ws (set_rx p (ws s)) s); [done|exact Ht].
Qed.

Lemma feed_frame now bs rest (s : wsys E F W) p' :
  completes bs (rx (ws s)) p' →
  feed now (bs ++ rest) s = (frame_done now;; frame_end now rest) (with_rx p' s).
Proof.
  intros (init & last & q & -> & Ht & Hr). rewrite <- app_assoc, (feed_takes _ _ _ _ _ Ht). cbn [app feed_loop].
  erewrite bind_done by reflexivity. change (rx (ws (with_rx q s))) with q. rewrite Hr. cbn [fst snd].
  erewrite bind_done by apply upd_ws_run. done.
Qed.

Lemma ws_feed_active now data (s : wsys E F W) : active (ws s) = true → ws_feed set_reboot_status http_close now data s = feed now data s.
Proof. intros Ha. unfold ws_feed. erewrite bind_done by reflexivity. by rewrite Ha. Qed.

Lemma close_run (s : wsys E F W) :
  ∃ s', ws_close_session http_close s = (Done tt, s') ∧ active (ws s') = false ∧ rx (ws s') = rx (ws s) ∧
        wregs s' = wregs s ∧ wfw s' = wfw s ∧ wflash s' = wflash s ∧ fw_op_q s' = fw_op_q s.
Proof.
  unfold ws_close_session. erewrite bind_done by reflexivity. destruct (active (ws s)) eqn:Ha; cbn [negb].
  - erewrite bind_done by apply upd_ws_run. destruct (on_close (ws s)); eexists; split; try reflexivity; done.
  - eexists. split; [reflexivity|]. done.
Qed.

(** bytes may come in any pieces *)
Lemma feed_split now a b (s : wsys E F W) :
  active (ws s) = true →
  feed now (a ++ b) s = (feed now a;; ws_feed set_reboot_status http_close now b) s.
Proof.
  revert s. induction a as [|x a IH]; intros s Ha; cbn [app].
  { cbn [feed_loop]. erewrite bind_done by reflexivity. by rewrite ws_feed_active. }
  cbn [feed_loop]. unfold mbind, M_bind, gets, upd_ws, modify. destruct (rx_byte x (rx (ws s))) as [p v] eqn:Er. cbn [fst snd].
  set (s1 := mk_wsys _ _ _ _ _ _ _ _ _ _). destruct v.
  - rewrite IH by done. done.
  - destruct (frame_done now s1) as [[[]|] s2]; [|done]. destruct (active (ws s2)) eqn:Ha2; cbn [negb].
    + rewrite IH by done. done.
    + unfold mret, M_ret, ws_feed, mbind, M_bind, gets. by rewrite Ha2.
  - destruct (close_run s1) as (s2 & -> & Ha2 & _). unfold ws_feed, mbind, M_bind, gets. by rewrite Ha2.
Qed.

(** *** Uploading *)

Lemma ws_crc16_ccitt seed data : ws_crc16 seed data = crc16_ccitt seed data.
Proof.
  unfold ws_crc16, crc16_ccitt. revert seed. induction data as [|d data IH]; intros seed; cbn [fold_left]; [done|].
  rewrite IH. f_equal. unfold ws_crc16_step, crc16_ccitt_step.
  set (e := u8 (Z.lxor seed d)). set (f := u8 (Z.lxor e (Z.shiftl e 4))).
  assert (u16 (Z.shiftl f 8) = Z.shiftl f 8) as ->; [|done]. apply u16_id. rewrite Z.shiftl_mul_pow2 by lia.
  change (2 ^ 8) with 256. pose proof (u8_range (Z.lxor e (Z.shiftl e 4))). fold f in H4. ulia.
Qed.

(** a session in an upload: [crc], [u], [f] after some data *)
Definition uploaded (s : wsys E F W) (p : parser) (crc : Z) (u : upg) (f : F) : wsys E F W :=
  mk_wsys (mk_session (active (ws s)) (pcb (ws s)) (on_close (ws s)) p crc (t_push (ws s)) (t_info (ws s)))
    (wregs s) u f (wnet s) (fw_op_q s) (fw_replies s) (fw_reply_idx s) (fw_posted s) (fw_swap s).

Lemma data_taken_end f p : data_taken f (f_data f) p → at_frame (set_state WS_HDR p).
Proof. intros (Hwf & _). split; [|done]. split; [exact Hwf|]. cbn. lia. Qed.

Lemma feed_binary now f rest (s : wsys E F W) fl u :
  active (ws s) = true → at_frame (rx (ws s)) → frame_ok f → f_op f = 2 → f_fin f = true →
  FwUpg.active (wfw s) = true → fw_upg_write (f_data f) (wflash s) (wfw s) = (0, fl, u) →
  ∃ p, at_frame p ∧
    feed now (ws_encode f ++ rest) s = feed now rest (uploaded s p (ws_crc16 (fw_crc (ws s)) (f_data f)) u fl).
Proof.
  intros Ha Hp Hf Hop Hfin Hu Hw. destruct (frame_completes f (rx (ws s)) Hp Hf) as (p' & Hc & Hd).
  rewrite (feed_frame _ _ _ _ _ Hc). pose proof Hd as (_ & _ & Ho & Hfi & _ & _ & _ & Hdata & _).
  assert (frame_done now (with_rx p' s) = (Done tt, uploaded s p' (ws_crc16 (fw_crc (ws s)) (f_data f)) u fl)) as Hrun.
  { unfold ws_frame_done. erewrite bind_done by reflexivity. change (rx (ws (with_rx p' s))) with p'.
    rewrite Hfi, Hfin, Ho, Hop. change (2 =? 1) with false. change (2 =? 2) with true. cbv iota beta delta [negb].
    unfold frame_binary. erewrite bind_done by reflexivity. unfold fw_upg_active. change (wfw (with_rx p' s)) with (wfw s). rewrite Hu.
    erewrite bind_done by reflexivity. change (rx (ws (with_rx p' s))) with p'. rewrite Hdata.
    erewrite bind_done by (unfold call_fw; change (wflash (with_rx p' s)) with (wflash s); change (wfw (with_rx p' s)) with (wfw s);
      rewrite Hw; reflexivity).
    change (0 =? 0) with true. cbv iota. rewrite upd_ws_run. cbn. done. }
  erewrite bind_done by exact Hrun. unfold frame_end. erewrite bind_done by reflexivity.
  change (active (ws (uploaded s p' (ws_crc16 (fw_crc (ws s)) (f_data f)) u fl))) with (active (ws s)). rewrite Ha. cbv iota beta delta [negb].
  erewrite bind_done by apply upd_ws_run. exists (set_state WS_HDR p'). split; [by apply (data_taken_end f)|]. done.
Qed.

Definition binary_ok (f : frame) : Prop := frame_ok f ∧ f_op f = 2 ∧ f_fin f = true.

Lemma feed_pieces now pieces (s : wsys E F W) :
  ws_runs fw_keyhash boot_set_pending set_reboot_status web_info http_close (EvFeed now <$> pieces) s
  = ws_feed set_reboot_status http_close now (concat pieces) s.
Proof.
  revert s. induction pieces as [|a pieces IH]; intros s; cbn [fmap list_fmap ws_runs ws_run concat].
  { unfold ws_feed. erewrite bind_done by reflexivity. by destruct (negb (active (ws s))). }
  destruct (active (ws s)) eqn:Ha.
  - rewrite (ws_feed_active now (a ++ concat pieces)) by done. rewrite feed_split by done.
    unfold mbind, M_bind. rewrite ws_feed_active by done.
    destruct (feed now a s) as [[[]|] s1]; [apply IH|done].
  - assert (∀ d, ws_feed set_reboot_status http_close now d s = (Done tt, s)) as Hno.
    { intros d. unfold ws_feed. erewrite bind_done by reflexivity. by rewrite Ha. }
    rewrite (bind_done _ _ s tt s (Hno a)). by rewrite IH, !Hno.
Qed.
End Feed.

(** ** Commands in text frames *)

Definition cmd_text (c : list Z) (fs : list (list Z * jval)) : list Z := object_text ((js "cmd", JStr c) :: fs).

Section Commands.
Context {E F W : Type} `{IoHooks E} `{UdpHooks E} `{IoFlash F} `{TcpStack W} `{TcpSnd W}.
Context (set_reboot_status : bool → E → E) (http_close : W → W).

Abbreviation feed := (feed_loop set_reboot_status http_close).
Abbreviation handle := (ws_handle_cmd set_reboot_status).

(** the command as the handler sees it: the text from the name on, with the rest of the buffer behind *)
Definition cmd_at (c : list Z) (fs : list (list Z * jval)) (tail : list Z) : list Z :=
  (jval_text (JStr c) ++ after_field fs) ++ tail.
Definition cmd_len (c : list Z) (fs : list (list Z * jval)) : nat := length (jval_text (JStr c) ++ after_field fs).

Lemma frame_text_run now f c fs p (s : wsys E F W) :
  data_taken f (f_data f) p → f_data f = cmd_text c fs → f_op f = 1 → f_fin f = true → zlen (f_data f) < WS_RX_MAX →
  jval_ok (JStr c) → forallb field_ok fs →
  ∃ q tail, at_frame (set_state WS_HDR q) ∧
    ws_frame_done set_reboot_status http_close now (with_rx p s) = handle now (cmd_at c fs tail) (cmd_len c fs) (with_rx q s).
Proof.
  intros Hd Ht Hop Hfin Hlt Hc Hfs. pose proof Hd as (Hwf & Hst & Ho & Hf & _ & _ & Hg & Hdata & _).
  pose proof Hwf as (A1 & A2 & A3 & A4 & A5 & A6 & A7).
  set (buf := <[Z.to_nat (got p) := 0]> (payload p)).
  set (q := mk_parser (state p) (hdr p) (hdr_got p) (op p) (fin p) (masked p) (mask p) (plen p) (got p) buf).
  assert (Z.to_nat (got p) = length (cmd_text c fs)) as Hgl by (rewrite Hg, Ht; unfold zlen; lia).
  assert (∃ tail, buf = cmd_text c fs ++ tail) as [tail Htail].
  { exists (drop (Z.to_nat (got p)) buf). rewrite <- (take_drop (Z.to_nat (got p)) buf) at 1. f_equal. unfold buf.
    rewrite take_insert_ge by lia. unfold frame_data in Hdata. by rewrite Hdata. }
  exists q, tail. split.
  { split; [|done]. split; [|cbn; lia]. unfold parser_wf; cbn [hdr mask payload got set_state q].
    unfold buf. rewrite length_insert. split_and!; try done; try lia. apply Forall_insert; [done|ulia]. }
  unfold ws_frame_done. erewrite bind_done by reflexivity. change (rx (ws (with_rx p s))) with p.
  rewrite Hf, Hfin, Ho, Hop. change (1 =? 1) with true. cbv iota beta delta [negb].
  unfold frame_text. erewrite bind_done by reflexivity. change (rx (ws (with_rx p s))) with p.
  replace (got p <? WS_RX_MAX) with true by lia. cbv zeta. fold buf.
  erewrite bind_done by apply upd_ws_run. rewrite Htail, Hgl. apply Is_true_true in Hfs, Hc.
  unfold cmd_text at 1 2. assert (forallb field_ok ((js "cmd", JStr c) :: fs) = true) as Hall.
  { cbn [forallb]. rewrite Hfs. unfold field_ok. cbn [fst snd]. by rewrite Hc. }
  rewrite (find_object (js "cmd") eq_refl _ tail Hall).
  cbn [first_field fst snd]. rewrite decide_True by done. unfold cmd_at, cmd_len.
  rewrite <- Htail. done.
Qed.

Lemma handle_fw_start now fs tail (s : wsys E F W) :
  handle now (cmd_at (js "fw_start") fs tail) (cmd_len (js "fw_start") fs) s
  = cmd_fw_start (cmd_at (js "fw_start") fs tail) (cmd_len (js "fw_start") fs) s.
Proof.
  unfold ws_handle_cmd, cmd_at. rewrite <- app_assoc. set (t := after_field fs ++ tail). clearbody t.
  change (starts_with (js "'do'") (jval_text (JStr (js "fw_start")) ++ t)) with false.
  change (starts_with (js "'reg'") (jval_text (JStr (js "fw_start")) ++ t)) with false.
  change (starts_with (js "'time'") (jval_text (JStr (js "fw_start")) ++ t)) with false.
  change (starts_with (js "'cfg'") (jval_text (JStr (js "fw_start")) ++ t)) with false.
  change (starts_with (js "'save'") (jval_text (JStr (js "fw_start")) ++ t)) with false.
  change (starts_with (js "'factory_reset'") (jval_text (JStr (js "fw_start")) ++ t)) with false.
  change (starts_with (js "'fw_start'") (jval_text (JStr (js "fw_start")) ++ t)) with true.
  done.
Qed.

Lemma handle_fw_end now fs tail (s : wsys E F W) :
  handle now (cmd_at (js "fw_end") fs tail) (cmd_len (js "fw_end") fs) s = cmd_fw_end s.
Proof.
  unfold ws_handle_cmd, cmd_at. rewrite <- app_assoc. set (t := after_field fs ++ tail). clearbody t.
  change (starts_with (js "'do'") (jval_text (JStr (js "fw_end")) ++ t)) with false.
  change (starts_with (js "'reg'") (jval_text (JStr (js "fw_end")) ++ t)) with false.
  change (starts_with (js "'time'") (jval_text (JStr (js "fw_end")) ++ t)) with false.
  change (starts_with (js "'cfg'") (jval_text (JStr (js "fw_end")) ++ t)) with false.
  change (starts_with (js "'save'") (jval_text (JStr (js "fw_end")) ++ t)) with false.
  change (starts_with (js "'factory_reset'") (jval_text (JStr (js "fw_end")) ++ t)) with false.
  change (starts_with (js "'fw_start'") (jval_text (JStr (js "fw_end")) ++ t)) with false.
  change (starts_with (js "'fw_end'") (jval_text (JStr (js "fw_end")) ++ t)) with true.
  done.
Qed.
End Commands.

(** ** Uploading an image *)

Section Upload.
Context {E F W : Type} `{IoHooks E} `{UdpHooks E} `{FlashLaws F} `{TcpStack W} `{TcpSnd W}.
Context (fw_keyhash : list Z) (boot_set_pending : bool → F → Z * F).
Context (set_reboot_status : bool → E → E) (web_info : E → info) (http_close : W → W).

Abbreviation feed := (feed_loop set_reboot_status http_close).
Abbreviation frame_done := (ws_frame_done set_reboot_status http_close).

Lemma feed_binaries now fs rest : ∀ (s : wsys E F W) img,
  active (ws s) = true → at_frame (rx (ws s)) → Forall binary_ok fs → session_ok (wflash s) (wfw s) img →
  zlen img + zlen (concat (f_data <$> fs)) ≤ total (wfw s) →
  ∃ p u f, at_frame p ∧ session_ok f u (img ++ concat (f_data <$> fs)) ∧ total u = total (wfw s) ∧
    feed now (concat (ws_encode <$> fs) ++ rest) s
    = feed now rest (uploaded s p (ws_crc16 (fw_crc (ws s)) (concat (f_data <$> fs))) u f).
Proof.
  induction fs as [|f fs IH]; intros s img Ha Hp Hfs Hs Hsz; cbn [fmap list_fmap concat] in *.
  - exists (rx (ws s)), (wfw s), (wflash s). rewrite app_nil_r. split_and!; try done. by destruct s as [[] ? ? ? ? ? ? ? ? ?].
  - inversion Hfs as [|? ? (Hf & Hop & Hfin) Hfs']; subst; clear Hfs; rename Hfs' into Hfs. rewrite zlen_app in Hsz. pose proof (zlen_nonneg (concat (f_data <$> fs))).
    pose proof Hf as (_ & _ & _ & Hb & _).
    destruct (fw_upg_write_ok (f_data f) (wflash s) (wfw s) img Hs Hb) as (fl & u & Hw & Hs' & Ht'); [lia|].
    rewrite <- app_assoc. destruct (feed_binary set_reboot_status http_close now f (concat (ws_encode <$> fs) ++ rest) s fl u)
      as (p & Hp' & ->); try done; [apply Hs|].
    destruct (IH (uploaded s p (ws_crc16 (fw_crc (ws s)) (f_data f)) u fl) (img ++ f_data f)) as (p2 & u2 & f2 & Hp2 & Hs2 & Ht2 & Heq);
      try done; [cbn; rewrite zlen_app, Ht'; lia|].
    exists p2, u2, f2. rewrite Heq. split_and!; [done|by rewrite app_assoc|by rewrite Ht2|].
    unfold uploaded. cbn [ws fw_crc wregs wnet fw_op_q fw_replies fw_reply_idx fw_posted fw_swap active pcb on_close t_push t_info].
    do 3 f_equal. unfold ws_crc16. by rewrite <- fold_left_app.
Qed.

Definition with_q (q : list ws_fw_op) (s : wsys E F W) : wsys E F W :=
  mk_wsys (ws s) (wregs s) (wfw s) (wflash s) (wnet s) (Some q) (fw_replies s) (fw_reply_idx s) (fw_posted s) (fw_swap s).

(** what the page sends to start an upload *)
Definition start_fields (tot : Z) (kh : option (list Z)) : list (list Z * jval) :=
  (js "size", JInt tot) :: match kh with Some k => [(js "keyhash", JStr (b64_encode k))] | None => [] end.
Definition kh_ok (kh : option (list Z)) : Prop := match kh with Some k => zlen k = FW_KEYHASH_LEN ∧ bytes_ok k | None => True end.

Lemma b64_char_text v : let c := b64_char v in negb (c =? 34) && negb (c =? 0) = true.
Proof.
  assert (Forall (λ i, negb (rd b64_tab i =? 34) && negb (rd b64_tab i =? 0) = true) (seq 0 64)) as Hall by (repeat constructor).
  rewrite Forall_forall in Hall. apply Hall, in_seq. change 0x3F with (Z.ones 6). rewrite Z.land_ones by lia. change (2 ^ 6) with 64.
  Z.div_mod_to_equations. lia.
Qed.

Lemma b64_text_ok src : forallb (λ c, negb (c =? 34) && negb (c =? 0)) (b64_encode src) = true.
Proof.
  induction src as [src IH] using (induction_ltof1 _ length).
  destruct src as [|a [|b [|c src]]]; [done|..]; cbn [b64_encode forallb]; rewrite ?b64_char_text; try done.
  cbn [andb]. rewrite (IH src); [done|]. unfold ltof. cbn. lia.
Qed.

Lemma start_fields_ok tot kh : 0 < tot < 2 ^ 31 → forallb field_ok (start_fields tot kh) = true.
Proof.
  intros Ht. change (2 ^ 31) with 2147483648 in Ht. unfold start_fields. cbn [forallb].
  assert (field_ok (js "size", JInt tot) = true) as ->.
  { unfold field_ok. cbn [fst snd jval_ok]. change (key_ok (js "size")) with true. cbn [andb]. lia. }
  destruct kh as [k|]; [|done]. cbn [forallb andb]. unfold field_ok. cbn [fst snd jval_ok]. by rewrite b64_text_ok.
Qed.

Lemma cmd_fw_start_run tot kh tail (s : wsys E F W) q :
  0 < tot < 2 ^ 31 → kh_ok kh → fw_op_q s = Some q → (length q < 4)%nat →
  cmd_fw_start (cmd_at (js "fw_start") (start_fields tot kh) tail) (cmd_len (js "fw_start") (start_fields tot kh)) s
  = (Done tt, with_q (q ++ [WS_FW_OP_START tot kh]) s).
Proof.
  intros Ht Hk Hq Hl. pose proof (start_fields_ok tot kh Ht) as Hok. change (2 ^ 31) with 2147483648 in Ht.
  unfold cmd_fw_start, cmd_at, cmd_len.
  destruct (json_get_after (JStr (js "fw_start")) (start_fields tot kh) tail (js "size") 64 I) as [-> _]; [by rewrite Hok|done|].
  destruct (json_get_after (JStr (js "fw_start")) (start_fields tot kh) tail (js "keyhash") 64 I) as [_ ->]; [by rewrite Hok|done|].
  unfold start_fields. cbn [first_field fst snd]. rewrite decide_True by done. rewrite decide_False by done. change (default 0 (Some tot)) with tot.
  replace (tot <=? 0) with false by lia.
  assert (∀ o, (ok ← q_send o; if ok : bool then mret tt else ws_send_json (json_err (js "busy"))) s
    = (Done tt, with_q (q ++ [o]) s)) as Hsend.
  { intros o. rewrite (bind_done _ _ s true (with_q (q ++ [o]) s)); [done|]. unfold q_send. rewrite Hq.
    by replace (length q <? 4)%nat with true by lia. }
  replace (u32 tot) with tot by ulia. destruct kh as [k|]; cbn [first_field fst snd]; [|by rewrite Hsend].
  rewrite decide_True by done. destruct Hk as [Hkl Hkb]. unfold FW_KEYHASH_LEN in Hkl.
  rewrite take_ge; [|pose proof (b64_encode_length k) as El; rewrite Hkl in El; change (4 * ((32 + 2) / 3)) with 44 in El; unfold zlen in El; lia].
  unfold b64_decode. rewrite b64_loop_encode by (first [done | change (zlen []) with 0; rewrite Hkl; done]).
  cbn [app]. rewrite Hkl. change (32 =? FW_KEYHASH_LEN) with true. cbv iota. apply Hsend.
Qed.

Lemma feed_cmd now f c fs rest (s s' : wsys E F W) :
  active (ws s) = true → at_frame (rx (ws s)) → frame_ok f → f_op f = 1 → f_fin f = true → f_data f = cmd_text c fs →
  zlen (f_data f) < WS_RX_MAX → jval_ok (JStr c) → forallb field_ok fs →
  (∀ q tail, ws_handle_cmd set_reboot_status now (cmd_at c fs tail) (cmd_len c fs) (with_rx q s) = (Done tt, with_rx q s')) →
  active (ws s') = true →
  ∃ p, at_frame p ∧ feed now (ws_encode f ++ rest) s = feed now rest (with_rx p s').
Proof.
  intros Ha Hp Hf Hop Hfin Ht Hlt Hc Hfs Hh Ha'. destruct (frame_completes f (rx (ws s)) Hp Hf) as (p' & Hcp & Hd).
  rewrite (feed_frame _ _ _ _ _ _ _ Hcp).
  destruct (frame_text_run set_reboot_status http_close now f c fs p' s Hd Ht Hop Hfin Hlt Hc Hfs) as (q & tail & Hq & Hrun).
  rewrite Hh in Hrun. erewrite bind_done by exact Hrun. unfold frame_end. erewrite bind_done by reflexivity.
  change (active (ws (with_rx q s'))) with (active (ws s')). rewrite Ha'. cbv iota beta delta [negb].
  erewrite bind_done by apply upd_ws_run. exists (set_state WS_HDR q). split; [done|]. done.
Qed.

Lemma ws_runs_app evs1 evs2 (s : wsys E F W) :
  ws_runs fw_keyhash boot_set_pending set_reboot_status web_info http_close (evs1 ++ evs2) s
  = (ws_runs fw_keyhash boot_set_pending set_reboot_status web_info http_close evs1;;
     ws_runs fw_keyhash boot_set_pending set_reboot_status web_info http_close evs2) s.
Proof.
  revert s. induction evs1 as [|ev evs IH]; intros s; [done|]. cbn [app ws_runs]. unfold mbind, M_bind in *.
  destruct (ws_run _ _ _ _ _ ev s) as [[[]|] s1]; [|done]. rewrite IH. done.
Qed.

Abbreviation runs_of := (ws_runs fw_keyhash boot_set_pending set_reboot_status web_info http_close).

(** the state in which an upload can begin: a session between two frames, no order pending *)
Definition upload_idle (s : wsys E F W) : Prop :=
  active (ws s) = true ∧ at_frame (rx (ws s)) ∧ is_u16 (fw_crc (ws s)) ∧ fw_op_q s = Some [] ∧ fw_swap s = false ∧
  FwUpg.active (wfw s) = false ∧ length (fw_replies s) = 2%nat.

(** a text frame that carries a command *)
Definition text_frame (f : frame) (text : list Z) : Prop :=
  frame_ok f ∧ f_op f = 1 ∧ f_fin f = true ∧ f_data f = text ∧ zlen text < WS_RX_MAX.

Lemma worker_run (s : wsys E F W) o q :
  fw_op_q s = Some (o :: q) → fw_swap s = false →
  runs_of [EvWorker] s = fw_exec_op fw_keyhash boot_set_pending o (with_q q s).
Proof.
  intros Hq Hs. cbn [ws_runs ws_run]. unfold ws_fw_task, mbind, M_bind, gets, modify. rewrite Hs, Hq. fold (with_q q s).
  destruct (fw_exec_op _ _ o (with_q q s)) as [[[]|] s2]; done.
Qed.

Lemma upload_start now f p tot kh (s : wsys E F W) :
  upload_idle s → 64 ≤ tot ≤ SLOT1_SIZE → kh_ok kh → (∀ k, kh = Some k → take 32 k = fw_keyhash) →
  text_frame f (cmd_text (js "fw_start") (start_fields tot kh)) → concat p = ws_encode f →
  ∃ q u fl, at_frame q ∧ session_ok fl u [] ∧ total u = tot ∧
    runs_of ((EvFeed now <$> p) ++ [EvWorker]) s
    = (Done tt, fw_reply_from_worker json_true (with_q [] (uploaded s q (fw_crc (ws s)) u fl))).
Proof.
  intros (Ha & Hp & _ & Hq & Hsw & Hu & _) Htot Hkh Hk (Hf & Hop & Hfin & Hd & Hlt) Hpc. unfold SLOT1_SIZE in Htot.
  rewrite ws_runs_app. unfold mbind at 1, M_bind at 1. rewrite feed_pieces, Hpc, ws_feed_active by done.
  rewrite <- (app_nil_r (ws_encode f)).
  destruct (feed_cmd now f (js "fw_start") (start_fields tot kh) [] s (with_q [WS_FW_OP_START tot kh] s)) as (q & Hat & ->); try done.
  { by rewrite Hd. } { rewrite (start_fields_ok tot kh) by (change (2 ^ 31) with 2147483648; lia). done. }
  { intros q tail. rewrite handle_fw_start.
    rewrite (cmd_fw_start_run tot kh tail (with_rx q s) []) by (first [done | change (2 ^ 31) with 2147483648; lia | cbn; lia]). done. }
  cbn [feed_loop]. unfold mret at 1, M_ret at 1.
  destruct (fw_upg_start_ok fw_keyhash tot kh (wflash s) (wfw s) Hu) as (fl & u & Hst & Hs' & Ht'); [unfold SLOT1_SIZE; lia|done|].
  exists q, u, fl. split_and!; [done..|].
  set (s1 := with_rx q (with_q [WS_FW_OP_START tot kh] s)).
  rewrite (worker_run s1 (WS_FW_OP_START tot kh) []) by done. unfold fw_exec_op, call_fw, mbind, M_bind, modify.
  change (wflash (with_q [] s1)) with (wflash s). change (wfw (with_q [] s1)) with (wfw s). rewrite Hst. done.
Qed.

Lemma crc_seed_zero c img :
  is_u16 c → bytes_ok img → (crc16_ccitt 0 img =? ws_crc16 c img) = (c =? 0).
Proof.
  intros Hc Hb. rewrite ws_crc16_ccitt. rewrite !crc16_ccitt_crc by (done || ulia).
  destruct (Z.eqb_spec c 0) as [->|Hne]; [by rewrite Z.eqb_refl|]. apply Z.eqb_neq. intros Heq.
  apply Hne. symmetry. revert Heq. apply (crc_fold_inj 0x8408 16); first [done | lia | ulia].
Qed.

(** the verdict on an image the session holds in full *)
Lemma fw_verify_run c img f u :
  is_u16 c → session_ok f u img → zlen img = total u →
  ∃ f' u', FwUpg.active u' = false ∧ cells f' SLOT1_OFFSET (length img) = img ∧
    fw_verify fw_keyhash boot_set_pending (ws_crc16 c img) f u
    = if (c =? 0) && bool_decide (tlv_keyhash_get f' = Some fw_keyhash)
      then (if (boot_set_pending true f').1 =? 0 then (json_true, true) else (json_err (js "boot_request"), false),
            (boot_set_pending true f').2, u')
      else (json_err (js "crc mismatch"), false, f', u').
Proof.
  intros Hc Hs Hfull. pose proof (session_len f u img Hs) as Hlen.
  destruct (fw_upg_finish_run fw_keyhash (ws_crc16 c img) true f u img Hs Hfull) as (f' & u' & Hfin & Hact & Hcells & _).
  destruct Hs as (Ha & _ & Htot & _ & Hb & _ & Hw & _). unfold SLOT1_SIZE in Htot.
  exists f', u'. split; [done|]. split; [done|]. unfold fw_verify, fw_upg_received, fw_upg_total, fw_upg_finish.
  rewrite <- Hlen, u32_id by ulia. rewrite Ha, Hfull. replace (total u =? 0) with false by lia. rewrite Z.eqb_refl. cbn [negb].
  rewrite Hfin. rewrite crc_seed_zero by done. cbn [negb orb].
  destruct ((c =? 0) && _); [|done]. change (0 =? 0) with true. cbn [negb].
  destruct (boot_set_pending true f') as [rc f2]. cbn [fst snd]. by destruct (rc =? 0).
Qed.

Lemma upload_finish now fs f p (s : wsys E F W) :
  active (ws s) = true → at_frame (rx (ws s)) → is_u16 (fw_crc (ws s)) → fw_op_q s = Some [] → fw_swap s = false →
  session_ok (wflash s) (wfw s) [] → zlen (concat (f_data <$> fs)) = total (wfw s) → Forall binary_ok fs →
  text_frame f (cmd_text (js "fw_end") []) → concat p = concat (ws_encode <$> fs) ++ ws_encode f →
  let img := concat (f_data <$> fs) in
  ∃ q u fl, at_frame q ∧ FwUpg.active u = false ∧ cells fl SLOT1_OFFSET (length img) = img ∧
    let good := (fw_crc (ws s) =? 0) && bool_decide (tlv_keyhash_get fl = Some fw_keyhash) in
    let rc := (boot_set_pending true fl).1 in
    let fl2 := if good then (boot_set_pending true fl).2 else fl in
    let reply := if good then if rc =? 0 then json_true else json_err (js "boot_request") else json_err (js "crc mismatch") in
    let s1 := fw_reply_from_worker reply (with_q [] (uploaded s q (ws_crc16 (fw_crc (ws s)) img) u fl2)) in
    runs_of ((EvFeed now <$> p) ++ [EvWorker]) s
    = (Done tt, mk_wsys (ws s1) (wregs s1) (wfw s1) (wflash s1) (wnet s1) (fw_op_q s1) (fw_replies s1) (fw_reply_idx s1)
                  (fw_posted s1) (good && (rc =? 0))).
Proof.
  intros Ha Hp Hc Hq Hsw Hs Hsz Hfs (Hf & Hop & Hfin & Hd & Hlt) Hpc img.
  rewrite ws_runs_app. unfold mbind at 1, M_bind at 1. rewrite feed_pieces, Hpc, ws_feed_active by done.
  destruct (feed_binaries now fs (ws_encode f) s [] Ha Hp Hfs Hs) as (q & u & fl & Hat & Hs' & Ht' & ->).
  { rewrite Hsz. unfold zlen. cbn. lia. }
  fold img in Hs'. fold img. cbn [app] in Hs'. set (crc := ws_crc16 (fw_crc (ws s)) img). set (s2 := uploaded s q crc u fl).
  rewrite <- (app_nil_r (ws_encode f)).
  destruct (feed_cmd now f (js "fw_end") [] [] s2 (with_q [WS_FW_OP_END crc] s2)) as (q2 & Hat2 & ->); try done.
  { by rewrite Hd. }
  { intros q' tail. rewrite handle_fw_end. unfold cmd_fw_end. erewrite bind_done by reflexivity.
    unfold fw_upg_active. change (wfw (with_rx q' s2)) with u. destruct Hs' as (-> & _). cbn [negb].
    erewrite bind_done by reflexivity. change (fw_crc (ws (with_rx q' s2))) with crc.
    rewrite (bind_done _ _ _ true (with_rx q' (with_q [WS_FW_OP_END crc] s2))); [done|]. unfold q_send.
    change (fw_op_q (with_rx q' s2)) with (fw_op_q s). rewrite Hq. done. }
  cbn [feed_loop]. unfold mret at 1, M_ret at 1.
  set (s3 := with_rx q2 (with_q [WS_FW_OP_END crc] s2)).
  rewrite (worker_run s3 (WS_FW_OP_END crc) []) by done.
  destruct (fw_verify_run (fw_crc (ws s)) img fl u Hc Hs') as (f' & u' & Hact & Hcells & Hv); [rewrite Ht'; exact Hsz|].
  exists q2, u', f'. split_and!; [done..|]. cbv zeta.
  unfold fw_exec_op, call_fw, mbind, M_bind, modify. change (wflash (with_q [] s3)) with fl. change (wfw (with_q [] s3)) with u.
  fold crc in Hv. rewrite Hv.
  destruct ((fw_crc (ws s) =? 0) && _) eqn:Eg; [|cbn [andb fst snd]; rewrite <- Hsw; done].
  destruct ((boot_set_pending true f').1 =? 0) eqn:Erc; cbn [andb fst snd]; [done|]. rewrite <- Hsw. done.
Qed.
End Upload.

(** ** The session invariant *)

(** like [solve_preserves], but a step with a lemma of its own is not taken apart *)
Ltac walk := repeat first [progress intros | solve [auto with effects] | apply preserves_bind | case_match].

Section Bounds.
Context {E F W : Type} `{IoHooks E} `{UdpHooks E} `{IoFlash F} `{TcpStack W} `{TcpSnd W}.
Context (fw_keyhash : list Z) (boot_set_pending : bool → F → Z * F).
Context (set_reboot_status : bool → E → E) (web_info : E → info) (http_close : W → W).

(** the arrays keep their sizes; while a connection is attached every index is inside its array; the orders fit the queue *)
Definition ws_inv (s : wsys E F W) : Prop :=
  parser_wf (rx (ws s)) ∧ (active (ws s) = true → parser_ok (rx (ws s))) ∧
  (active (ws s) = false → pcb (ws s) = None) ∧ length (fw_replies s) = 2%nat ∧
  match fw_op_q s with Some q => (length q ≤ 4)%nat | None => True end ∧ Forall (λ i, (i < 2)%nat) (fw_posted s).

(** a step that leaves the parser and the session flags alone *)
Definition same_session (s s' : wsys E F W) : Prop :=
  rx (ws s') = rx (ws s) ∧ active (ws s') = active (ws s) ∧ pcb (ws s') = pcb (ws s) ∧
  fw_replies s' = fw_replies s ∧ fw_op_q s' = fw_op_q s ∧ fw_posted s' = fw_posted s.

Lemma same_inv s s' : same_session s s' → ws_inv s → ws_inv s'.
Proof. intros (E1 & E2 & E3 & E4 & E5 & E6) Hs. unfold ws_inv. rewrite E1, E2, E3, E4, E5, E6. exact Hs. Qed.

Lemma inv_upd_net g : preserves ws_inv (@upd_net E F W g).
Proof. intros s Hs. by apply (same_inv s). Qed.
Lemma inv_call_wnet {A} (g : W → A * W) : preserves ws_inv (@call_wnet E F W A g).
Proof. intros s Hs. unfold call_wnet. destruct (g (wnet s)). by apply (same_inv s). Qed.
Lemma inv_call_fw {A} (g : F → upg → A * F * upg) : preserves ws_inv (@call_fw E F W A g).
Proof. intros s Hs. unfold call_fw. destruct (g (wflash s) (wfw s)) as [[a f] u]. by apply (same_inv s). Qed.
Lemma inv_on_regs {A} (m : M (regs E) A) : preserves ws_inv (@on_regs E F W A m).
Proof. intros s Hs. unfold on_regs, zoom. destruct (m (wregs s)). by apply (same_inv s). Qed.
Lemma inv_session g : (∀ x, rx (g x) = rx x ∧ active (g x) = active x ∧ pcb (g x) = pcb x) → preserves ws_inv (@upd_ws E F W g).
Proof. intros Hg s Hs. apply (same_inv s); [|done]. destruct (Hg (ws s)) as (E1 & E2 & E3). by split_and!. Qed.
Lemma inv_q_send o : preserves ws_inv (@q_send E F W o).
Proof.
  intros s Hs. unfold q_send. destruct (fw_op_q s) as [q|] eqn:Eq; [|done]. destruct (length q <? 4)%nat eqn:El; [|done].
  destruct Hs as (H1' & H2' & H3' & H4' & _ & H6'). split_and!; try done. cbn. rewrite length_app. cbn. lia.
Qed.
Hint Resolve inv_upd_net inv_call_wnet inv_call_fw inv_on_regs inv_q_send : effects.

Lemma inv_ws_send opcode data : preserves ws_inv (@ws_send E F W _ _ opcode data).
Proof. unfold ws_send. walk. Qed.
Hint Resolve inv_ws_send : effects.
Lemma inv_ws_send_json json : preserves ws_inv (@ws_send_json E F W _ _ json).
Proof. apply inv_ws_send. Qed.
Lemma inv_ws_send_built r : preserves ws_inv (@ws_send_built E F W _ _ r).
Proof. unfold ws_send_built. walk. Qed.
Lemma inv_close : preserves ws_inv (@ws_close_session E F W http_close).
Proof.
  unfold ws_close_session. apply preserves_bind; [apply preserves_gets|]. intros x.
  destruct (negb (active x)); [apply preserves_ret|].
  apply preserves_bind; [|intros; destruct (on_close x); auto with effects].
  intros s (H1' & H2' & H3' & H4' & H5' & H6'). by split_and!.
Qed.
Hint Resolve inv_ws_send_json inv_ws_send_built inv_close : effects.

Lemma inv_handle_cmd now cmd len : preserves ws_inv (@ws_handle_cmd E F W _ _ _ _ set_reboot_status now cmd len).
Proof. unfold ws_handle_cmd, cmd_fw_start, cmd_fw_end. walk. Qed.
Hint Resolve inv_handle_cmd : effects.

(** a parser with the same sizes and indices in its place *)
Lemma with_rx_inv p (s : wsys E F W) :
  parser_wf p → (active (ws s) = true → parser_ok p) → ws_inv s → ws_inv (with_rx p s).
Proof. intros Hwf Hok (_ & _ & H3' & H4' & H5' & H6'). by split_and!. Qed.

Lemma inv_frame_text now : preserves ws_inv (@frame_text E F W _ _ _ _ set_reboot_status now).
Proof.
  intros s Hs. unfold frame_text. erewrite bind_done by reflexivity. destruct (got (rx (ws s)) <? WS_RX_MAX); [|done]. cbv zeta.
  erewrite bind_done by apply upd_ws_run. set (q := mk_parser _ _ _ _ _ _ _ _ _ _). fold (with_rx q s).
  assert (ws_inv (with_rx q s)) as Hq.
  { pose proof Hs as Hs0. destruct Hs as (Hwf & Hok & _). assert (parser_wf q) as Hqw.
    { destruct Hwf as (A1 & A2 & A3 & A4 & A5 & A6 & A7). unfold q, parser_wf; cbn [hdr mask payload got].
      rewrite length_insert. split_and!; try done; try lia. apply Forall_insert; [done|ulia]. }
    apply with_rx_inv; [done| |exact Hs0]. intros Ha. split; [done|]. apply (Hok Ha). }
  change (with_ws (set_rx q (ws s)) s) with (with_rx q s).
  destruct (json_find_value _ _ _) as [[n cmd]|]; [by apply inv_handle_cmd|done].
Qed.

Lemma inv_frame_done now : preserves ws_inv (@ws_frame_done E F W _ _ _ _ _ set_reboot_status http_close now).
Proof.
  pose proof inv_frame_text. unfold ws_frame_done, frame_binary.
  apply preserves_bind; [apply preserves_gets|]. intros p0. walk. by apply inv_session.
Qed.

Lemma inv_feed_loop now data : bytes_ok data →
  ∀ s, ws_inv s → active (ws s) = true → ws_inv (@feed_loop E F W _ _ _ _ _ set_reboot_status http_close now data s).2.
Proof.
  induction 1 as [|b data Hb _ IH]; intros s Hs Ha; [done|]. cbn [feed_loop]. erewrite bind_done by reflexivity.
  pose proof Hs as (_ & Hok & _). destruct (rx_byte_ok b (rx (ws s)) Hb (Hok Ha)) as (Hwf & Hok' & _).
  destruct (rx_byte b (rx (ws s))) as [p v] eqn:Er. cbn [fst snd] in *. erewrite bind_done by apply upd_ws_run. fold (with_rx p s).
  change (with_ws (set_rx p (ws s)) s) with (with_rx p s). destruct v.
  - apply IH; [|done]. apply with_rx_inv; [done|intros _; by apply Hok'|done].
  - assert (ws_inv (with_rx p s)) as Hp by (apply with_rx_inv; [done|intros _; by apply Hok'|done]).
    pose proof (inv_frame_done now _ Hp) as Hd. unfold mbind, M_bind, gets, upd_ws, modify.
    destruct (ws_frame_done set_reboot_status http_close now (with_rx p s)) as [[[]|] s2]; [|done]. cbn [snd] in Hd.
    destruct (active (ws s2)) eqn:Ha2; cbn [negb]; [|done]. apply IH; [|exact Ha2].
    destruct Hd as (Hwf2 & Hok2 & Hrest). split_and!; try apply Hrest; [exact Hwf2|]. intros _. split; [exact Hwf2|]. cbn. lia.
  - destruct (close_run http_close (with_rx p s)) as (s2 & E2 & Ha2 & Hrx & _). pose proof (inv_close) as Hclose.
    destruct Hs as (_ & _ & H3' & H4' & H5' & H6').
    unfold ws_close_session. erewrite bind_done by reflexivity. change (active (ws (with_rx p s))) with (active (ws s)). rewrite Ha. cbn [negb].
    erewrite bind_done by apply upd_ws_run. destruct (on_close _); by split_and!.
Qed.

Definition event_ok (ev : ws_event) : Prop :=
  match ev with EvAttach _ _ d | EvFeed _ d => bytes_ok d | _ => True end.

Lemma inv_feed now data : bytes_ok data → preserves ws_inv (@ws_feed E F W _ _ _ _ _ set_reboot_status http_close now data).
Proof.
  intros Hd s Hs. unfold ws_feed. erewrite bind_done by reflexivity. destruct (active (ws s)) eqn:Ha; cbn [negb]; [|done].
  by apply inv_feed_loop.
Qed.

Lemma inv_poll now : preserves ws_inv (@ws_poll E F W _ _ _ web_info now).
Proof.
  unfold ws_poll. apply preserves_bind; [apply preserves_gets|]. intros x. destruct (negb (active x)); [apply preserves_ret|].
  apply preserves_bind; [|intros _]; case_match; walk; by apply inv_session.
Qed.
Lemma inv_attach now p pending : bytes_ok pending → preserves ws_inv (@ws_attach E F W _ _ _ _ _ set_reboot_status http_close now p pending).
Proof.
  intros Hd s Hs. unfold ws_attach. erewrite bind_done by reflexivity. destruct (active (ws s)); [done|].
  erewrite bind_done by apply upd_ws_run. set (s1 := with_ws _ s). assert (ws_inv s1) as H1'.
  { destruct Hs as (Hwf & _ & _ & H4' & H5' & H6'). pose proof Hwf as (A1 & A2 & A3 & A4 & A5 & A6 & A7).
    assert (0 ≤ 0 ≤ WS_RX_MAX) by (rewrite rx_max_val; lia). split_and!; try done. }
  destruct (0 <? zlen pending); [by apply inv_feed|done].
Qed.

Lemma inv_worker o : preserves ws_inv (@fw_exec_op E F W _ fw_keyhash boot_set_pending o).
Proof.
  assert (∀ j, preserves ws_inv (modify (@fw_reply_from_worker E F W j))) as Hrep.
  { intros j s (H1' & H2' & H3' & H4' & H5' & H6'). split_and!; try done; cbn.
    - by rewrite length_insert.
    - apply Forall_app. split; [done|]. constructor; [|constructor]. change 1 with (Z.ones 1). rewrite Z.land_ones by lia.
      change (2 ^ 1) with 2. Z.div_mod_to_equations. lia. }
  unfold fw_exec_op. walk. intros s Hs. by apply (same_inv s).
Qed.

Lemma inv_step ev : event_ok ev → preserves ws_inv (@ws_run E F W _ _ _ _ _ fw_keyhash boot_set_pending set_reboot_status web_info http_close ev).
Proof.
  intros Hev. destruct ev; cbn [ws_run event_ok] in *; [by apply inv_attach|by apply inv_feed|apply inv_poll| | | |].
  - intros s (H1' & H2' & H3' & H4' & H5' & H6'). by split_and!.
  - intros s Hs. unfold ws_fw_reply_cb. erewrite bind_done by reflexivity. destruct (fw_posted s) as [|i l] eqn:El; [done|].
    erewrite bind_done by reflexivity. erewrite bind_done by reflexivity. apply inv_ws_send_json.
    destruct Hs as (H1' & H2' & H3' & H4' & H5' & H6'). rewrite El in H6'. inversion H6'. by split_and!.
  - apply preserves_bind; [apply preserves_gets|]. intros w. destruct w; [apply preserves_ret|].
    intros s Hs. unfold ws_fw_task. erewrite bind_done by reflexivity. destruct (fw_op_q s) as [[|o q]|] eqn:Eq; [done| |done].
    erewrite bind_done by reflexivity. apply inv_worker. destruct Hs as (H1' & H2' & H3' & H4' & H5' & H6').
    rewrite Eq in H5'. split_and!; try done. cbn in *. lia.
  - apply preserves_bind; [apply preserves_gets|]. intros w. destruct w; [|apply preserves_ret].
    unfold ws_fw_reboot. walk. intros s Hs. by apply (same_inv s).
Qed.

Lemma inv_runs evs : Forall event_ok evs →
  preserves ws_inv (@ws_runs E F W _ _ _ _ _ fw_keyhash boot_set_pending set_reboot_status web_info http_close evs).
Proof.
  induction 1 as [|ev evs Hev _ IH]; cbn [ws_runs]; [apply preserves_ret|]. apply preserves_bind; [by apply inv_step|done].
Qed.
End Bounds.

(** ** Properties *)

Lemma send_hdr_encode opcode data :
  0 ≤ opcode < 16 →
  ∃ form, form_ok form (zlen data) ∧
    send_hdr opcode (zlen data) ++ data = ws_encode (mk_frame form true opcode None data).
Proof.
  intros Hop. pose proof (zlen_nonneg data) as Hn.
  assert (u8 (Z.lor 0x80 opcode) = 128 + opcode) as Hb.
  { pose proof (lor_shiftl_add 7 1 opcode ltac:(lia) ltac:(lia)) as El. change (Z.shiftl 1 7) with 128 in El. rewrite El.
    change (2 ^ 7) with 128. ulia. }
  unfold send_hdr, ws_encode, frame_head, frame_body, keyed. cbn [f_fin f_op f_key f_form f_data]. rewrite Hb.
  destruct (Z.ltb_spec (zlen data) 126); [|destruct (Z.leb_spec (zlen data) 0xFFFF)].
  - exists Len7. split; [done|]. cbn [form_code form_bytes app]. by rewrite u8_id by ulia.
  - exists Len16. split; [cbn; lia|]. cbn [form_code form_bytes]. rewrite be_bytes_2 by lia.
    rewrite Z.shiftr_div_pow2 by lia. change (2 ^ 8) with 256. rewrite (u8_id (zlen data / 256)) by (unfold_u; Z.div_mod_to_equations; lia). done.
  - exists Len64. split; [done|]. done.
Qed.


(** the state at start-up *)
Definition ws_boot {E F W} (r : regs E) (u : upg) (f : F) (w : W) : wsys E F W :=
  mk_wsys session_boot r u f w (Some []) (replicate 2 []) 0 [] false.

(** The session never leaves its buffers: after any sequence of attaching, bytes from the network, polls, detaching,
    answers and worker steps from start-up, whatever the network sends, the header, mask and payload buffers have their
    sizes, and while a connection is attached the next byte is stored inside the array the parser stores it to; a
    session that is not attached holds no connection, and the orders fit their queue. *)
Theorem ws_stays_in_bounds {E F W} `{IoHooks E} `{UdpHooks E} `{IoFlash F} `{TcpStack W} `{TcpSnd W}
    (fw_keyhash : list Z) (bsp : bool → F → Z * F) (srs : bool → E → E) (web_info : E → info) (http_close : W → W)
    (evs : list ws_event) (r : regs E) (u : upg) (f : F) (w : W) :
  Forall event_ok evs →
  let s := (ws_runs fw_keyhash bsp srs web_info http_close evs (ws_boot r u f w)).2 in
  let p := rx (ws s) in
  length (hdr p) = 10%nat ∧ length (mask p) = 4%nat ∧ Z.of_nat (length (payload p)) = WS_RX_MAX ∧ 0 ≤ got p ≤ WS_RX_MAX ∧
  (active (ws s) = true →
    0 ≤ hdr_got p ∧ (state p ≠ WS_MASK → state p ≠ WS_PAYLOAD → hdr_got p < 8) ∧ (state p = WS_MASK → hdr_got p < 4)) ∧
  (active (ws s) = false → pcb (ws s) = None) ∧
  match fw_op_q s with Some q => (length q ≤ 4)%nat | None => True end.
Proof.
  intros Hev s p.
  assert (ws_inv (ws_boot (W:=W) r u f w)) as H0'.
  { assert (parser_wf parser_boot) as Hwf.
    { unfold parser_wf, parser_boot; cbn [hdr mask payload got]. rewrite !length_replicate, rx_max_val.
      split_and!; try done; try lia; apply Forall_replicate; done. }
    split_and!; try done; cbn; try lia; constructor. }
  destruct (inv_runs fw_keyhash bsp srs web_info http_close evs Hev _ H0') as ((A1 & A2 & A3 & _ & _ & _ & A7) & Hok & Hpcb & _ & Hq & _).
  fold s in A1, A2, A3, A7, Hok, Hpcb, Hq. fold p in A1, A2, A3, A7, Hok.
  do 4 (split; [assumption|]). split; [|by split]. intros Ha. destruct (Hok Ha) as (_ & Hg & Hst).
  split; [exact Hg|]. split; [intros Hs Hs'|intros Hs].
  - destruct (state p); try lia; done.
  - by rewrite Hs in Hst.
Qed.

(** C29: An upgrade over the WebSocket: however the stream is cut by the network and the image by the page, start command,
    data frames and end command with the worker's two turns leave exactly the image in the slot and the upgrade session
    closed; the swap is requested and the reboot ordered exactly when the stored image carries the device's key hash and
    the connection's running checksum was 0 at the start, that is, at the first upload of a connection. *)
Theorem ws_upgrade_stores_image {E F W} `{IoHooks E} `{UdpHooks E} `{FlashLaws F} `{TcpStack W} `{TcpSnd W}
    (fw_keyhash : list Z) (bsp : bool → F → Z * F) (srs : bool → E → E) (web_info : E → info) (http_close : W → W)
    (now : Z) (p1 p2 : list (list Z)) (f1 f2 : frame) (fs : list frame) (tot : Z) (kh : option (list Z)) (s : wsys E F W) :
  upload_idle s → 64 ≤ tot ≤ SLOT1_SIZE → kh_ok kh → (∀ k, kh = Some k → take 32 k = fw_keyhash) →
  text_frame f1 (cmd_text (js "fw_start") (start_fields tot kh)) → text_frame f2 (cmd_text (js "fw_end") []) →
  Forall binary_ok fs → zlen (concat (f_data <$> fs)) = tot →
  concat p1 = ws_encode f1 → concat p2 = concat (ws_encode <$> fs) ++ ws_encode f2 →
  let img := concat (f_data <$> fs) in
  ∃ s' fl, ws_runs fw_keyhash bsp srs web_info http_close
      ((EvFeed now <$> p1) ++ [EvWorker] ++ (EvFeed now <$> p2) ++ [EvWorker]) s = (Done tt, s') ∧
    cells fl SLOT1_OFFSET (length img) = img ∧ FwUpg.active (wfw s') = false ∧ at_frame (rx (ws s')) ∧ wregs s' = wregs s ∧
    let good := (fw_crc (ws s) =? 0) && bool_decide (tlv_keyhash_get fl = Some fw_keyhash) in
    wflash s' = (if good then (bsp true fl).2 else fl) ∧ fw_swap s' = good && ((bsp true fl).1 =? 0).
Proof.
  intros Hidle Htot Hkh Hk Hf1 Hf2 Hfs Hsz Hp1 Hp2 img.
  destruct (upload_start fw_keyhash bsp srs web_info http_close now f1 p1 tot kh s Hidle Htot Hkh Hk Hf1 Hp1)
    as (q1 & u1 & fl1 & Hq1 & Hs1 & Ht1 & Hrun1).
  destruct Hidle as (Ha & _ & Hc & _ & Hsw & _ & _).
  set (s1 := fw_reply_from_worker json_true (with_q [] (uploaded s q1 (fw_crc (ws s)) u1 fl1))) in *.
  destruct (upload_finish fw_keyhash bsp srs web_info http_close now fs f2 p2 s1) as (q & u & fl & Hq & Hu & Hcells & Hrun2);
    try done; try (change (wfw s1) with u1; by rewrite Ht1).
  fold img in Hcells, Hrun2. cbv zeta in Hrun2.
  eexists _, fl. rewrite app_assoc, ws_runs_app. rewrite (bind_done _ _ _ _ _ Hrun1). split; [exact Hrun2|].
  split_and!; try done.
Qed.

(** ** Witnesses *)

#[export] Instance wire_snd : TcpSnd (list Wire.sent) := { tcp_sndbuf _ _ := 5840 }.

Definition kh32 : list Z := replicate 32 7.
Definition no_swap (permanent : bool) (f : Nor.nor) : Z * Nor.nor := (0, f).
Definition demo_info (e : Trace.trace) : info := mk_info 1 2 3 (js "abc") (js "now") None 0 0 true.
Definition demo_reboot (b : bool) (e : Trace.trace) : Trace.trace := e.
Definition demo_close (w : list Wire.sent) : list Wire.sent := w ++ [Wire.Closed 7].

(** a session that has just been attached *)
Definition ws_demo : wsys Trace.trace Nor.nor (list Wire.sent) :=
  mk_wsys (mk_session true (Some 7) true parser_boot 0 0 0) (regs_boot 0) upg_boot Nor.fake_flash_reset [] (Some [])
    (replicate 2 []) 0 [] false.

Lemma parser_boot_at_frame : at_frame parser_boot.
Proof.
  split; [|by split]. split; [|split; cbn; lia]. unfold parser_wf, parser_boot; cbn [hdr mask payload got].
  rewrite !length_replicate, rx_max_val. split_and!; try done; try lia; by apply Forall_replicate.
Qed.

(** a ping without data is not handed over: the parser waits for a payload byte,
    and takes the first byte of the next frame for it (src/web/ws.c:690) *)
Example empty_frame_stalls :
  (λ q, (state q, plen q, got q)) <$> takes [137; 128; 1; 2; 3; 4; 136] parser_boot = Some (WS_PAYLOAD, 0, 1).
Proof. by vm_compute. Qed.

Definition demo_key : list Z := [1; 2; 3; 4].
Definition ping : frame := mk_frame Len7 true 9 (Some demo_key) [104; 105].

Lemma ping_ok : frame_ok ping.
Proof.
  unfold frame_ok, ping; cbn [f_form f_op f_data f_key]. rewrite rx_max_val. split_and!; try (by vm_compute); try done.
  - by apply (bool_decide_unpack _); vm_compute.
  - by apply (bool_decide_unpack _); vm_compute.
Qed.


Lemma ws_stays_in_bounds_witness :
  let s := (ws_runs kh32 no_swap demo_reboot demo_info demo_close [EvAttach 0 7 [129; 255; 255]; EvFeed 5 [255; 1]; EvPoll 2000]
              (ws_boot (regs_boot 0) upg_boot Nor.fake_flash_reset [])).2 in
  length (hdr (rx (ws s))) = 10%nat ∧ length (mask (rx (ws s))) = 4%nat.
Proof.
  destruct (ws_stays_in_bounds kh32 no_swap demo_reboot demo_info demo_close
    [EvAttach 0 7 [129; 255; 255]; EvFeed 5 [255; 1]; EvPoll 2000] (regs_boot 0) upg_boot Nor.fake_flash_reset []) as (H1' & H2' & _).
  - apply Forall_cons_2; [by apply (bool_decide_unpack _); vm_compute|].
    apply Forall_cons_2; [by apply (bool_decide_unpack _); vm_compute|]. apply Forall_cons_2; [done|apply Forall_nil_2].
  - exact (conj H1' H2').
Defined.

Definition text_of (t : list Z) : frame := mk_frame (if zlen t <? 126 then Len7 else Len16) true 1 (Some demo_key) t.
Definition start_frame : frame := text_of (cmd_text (js "fw_start") (start_fields 564 (Some kh32))).
Definition end_frame : frame := text_of (cmd_text (js "fw_end") []).
Definition data_frames : list frame :=
  [mk_frame Len16 true 2 (Some demo_key) (take 300 img_example); mk_frame Len16 true 2 (Some demo_key) (drop 300 img_example)].

Lemma text_of_ok t : bytes_ok t → 0 < zlen t < 10000 → text_frame (text_of t) t.
Proof.
  intros Hb Hl. unfold text_frame, frame_ok, text_of; cbn [f_form f_op f_data f_key f_fin]. rewrite rx_max_val.
  split_and!; try done; try lia.
  - destruct (Z.ltb_spec (zlen t) 126); cbn; lia.
  - by apply (bool_decide_unpack _); vm_compute.
Qed.

Lemma data_frames_ok : Forall binary_ok data_frames.
Proof.
  assert (∀ d, bytes_ok d → 0 < zlen d < 10000 → binary_ok (mk_frame Len16 true 2 (Some demo_key) d)) as Hone.
  { intros d Hb Hl. unfold binary_ok, frame_ok; cbn [f_form f_op f_data f_key f_fin]. rewrite rx_max_val.
    split_and!; try done; try lia; [cbn; lia|]. by apply (bool_decide_unpack _); vm_compute. }
  apply Forall_cons_2; [|apply Forall_cons_2; [|apply Forall_nil_2]]; apply Hone;
    first [by apply (bool_decide_unpack _); vm_compute | by vm_compute].
Qed.

Lemma ws_upgrade_stores_image_witness :
  ∃ (s' : wsys Trace.trace Nor.nor (list Wire.sent)) (fl : Nor.nor), ws_runs kh32 no_swap demo_reboot demo_info demo_close
      ((EvFeed 0 <$> [ws_encode start_frame]) ++ [EvWorker] ++
       (EvFeed 0 <$> [take 7 (concat (ws_encode <$> data_frames) ++ ws_encode end_frame);
                      drop 7 (concat (ws_encode <$> data_frames) ++ ws_encode end_frame)]) ++ [EvWorker]) ws_demo = (Done tt, s') ∧
    cells fl SLOT1_OFFSET 564 = img_example.
Proof.
  destruct (ws_upgrade_stores_image kh32 no_swap demo_reboot demo_info demo_close 0 [ws_encode start_frame]
    [take 7 (concat (ws_encode <$> data_frames) ++ ws_encode end_frame);
     drop 7 (concat (ws_encode <$> data_frames) ++ ws_encode end_frame)] start_frame end_frame data_frames 564 (Some kh32) ws_demo)
    as (s' & fl & Hr & Hc & _).
  - split; [reflexivity|]. split; [exact parser_boot_at_frame|]. split_and!; try done; ulia.
  - unfold SLOT1_SIZE. lia.
  - split; [reflexivity|]. by apply (bool_decide_unpack _); vm_compute.
  - intros k Hk. injection Hk as <-. reflexivity.
  - apply text_of_ok; [by apply (bool_decide_unpack _); vm_compute|by vm_compute].
  - apply text_of_ok; [by apply (bool_decide_unpack _); vm_compute|by vm_compute].
  - exact data_frames_ok.
  - by vm_compute.
  - cbn [concat]. apply app_nil_r.
  - cbn [concat]. rewrite app_nil_r. apply take_drop.
  - exists s', fl. split; [exact Hr|]. exact Hc.
Defined.
