(* ===== verification/Httpd.v ===== *)
(** The HTTP server: [src/web/httpd.c].

    Two connection slots, each with a receive buffer and one response in
    progress.  A response is a header and a body in memory, or a header and a
    history file read in pieces; the send pump pushes as much as lwIP takes and
    is run again by every acknowledgement.  A request for [/ws] turns its
    connection over to the session of [Ws.v], whose close callback comes back
    here ([ws_closed_cb]).  All callbacks run in the lwIP thread, one after the
    other ([http_event]).

    The server lives in the network component of the state of [Ws.v]: [hw] holds
    the slots, the history module ([History.v]) and lwIP.  Parameters are the
    classes [TcpStack], [TcpSnd] and [TcpRcv] for lwIP, and the generated page
    [index_html_gz].  [now] is the tick count in milliseconds. *)

From Stdlib Require Import String.
From stdpp Require Import gmap.
From S2P Require Import Prelude IoBytes Flash Regmap FwUpg MbTcp UdpCfg Lfs HistoryFile History WebJson WebCmds WsCrypto Ws.

Local Open Scope list_scope.
Local Open Scope Z_scope.

Definition HTTP_MAX_CONN : nat := 2.
Definition HTTP_RX_BUF : Z := 640.
Definition HTTP_HDR_MAX : Z := 256.
Definition HTTP_BODY_BUF : Z := 704.
Definition HTTP_DL_CHUNK : Z := 512.
Definition HTTP_RX_IDLE_MS : Z := 5000.
Definition HTTP_TX_STALL_MS : Z := 10000.
Definition HTTP_IDLE_MS : Z := 60000.

Definition JSON_NOT_FND : list Z := js "{'ok':false,'err':'not found'}".

(** ** Connections *)

Inductive resp_kind := RESP_NONE | RESP_MEM | RESP_FILE.
#[export] Instance resp_kind_eq_dec : EqDecision resp_kind.
Proof. solve_decision. Defined.

(** the receive side; [rx] is the whole buffer, stale bytes included *)
Record http_rx := mk_hrx {
  rx : list Z; rx_len : Z; hdr_done : bool; body_off : Z; content_len : Z; cli_close : bool }.

(** the response; [hdr] and [body] are the bytes of [hdr_len] and [body_len],
    and the body is never changed while it is being sent *)
Record http_rsp := mk_rsp {
  kind : resp_kind; keep_alive : bool; rsp_total : Z; written : Z; acked : Z;
  hdr : list Z; hdr_sent : Z; body : list Z; body_sent : Z }.

(** the download; [dl_chunk] are the [dl_chunk_len] bytes read last *)
Record http_dl := mk_dl { dl_size : Z; dl_sent : Z; dl_chunk : list Z; dl_chunk_off : Z }.

Record http_conn := mk_hconn {
  pcb : option Z; is_ws : bool; crx : http_rx; rsp : http_rsp; dl : http_dl; t_rx : Z; t_ack : Z; t_idle : Z }.

Definition rsp_boot : http_rsp := mk_rsp RESP_NONE false 0 0 0 [] 0 [] 0.
Definition conn_boot : http_conn :=
  mk_hconn None false (mk_hrx (replicate (Z.to_nat HTTP_RX_BUF) 0) 0 false 0 0 false) rsp_boot (mk_dl 0 0 [] 0) 0 0 0.

(** the statics of the file, the history module and lwIP *)
Record hw (L W : Type) := mk_hw { http_conns : list http_conn; ws_conn : option nat; hhist : @hsys L; hnet : W }.
Arguments mk_hw {L W} _ _ _ _.
Arguments http_conns {L W} _.
Arguments ws_conn {L W} _.
Arguments hhist {L W} _.
Arguments hnet {L W} _.

Class TcpRcv (W : Type) : Type := { tcp_mss : Z → W → Z; tcp_recved : Z → Z → W → W }.

Definition with_net {L W} (n : W) (w : hw L W) : hw L W := mk_hw (http_conns w) (ws_conn w) (hhist w) n.

#[export] Instance hw_stack {L W} `{TcpStack W} : TcpStack (hw L W) := {
  tcp_write p bs w := let '(e, n) := tcp_write p bs (hnet w) in (e, with_net n w);
  tcp_output p w := with_net (tcp_output p (hnet w)) w;
  tcp_close p w := with_net (tcp_close p (hnet w)) w;
  tcp_abort p w := with_net (tcp_abort p (hnet w)) w;
}.
#[export] Instance hw_snd {L W} `{TcpSnd W} : TcpSnd (hw L W) := { tcp_sndbuf p w := tcp_sndbuf p (hnet w) }.

(** field updates *)
Definition set_crx (x : http_rx) (c : http_conn) : http_conn := mk_hconn (pcb c) (is_ws c) x (rsp c) (dl c) (t_rx c) (t_ack c) (t_idle c).
Definition set_rsp (x : http_rsp) (c : http_conn) : http_conn := mk_hconn (pcb c) (is_ws c) (crx c) x (dl c) (t_rx c) (t_ack c) (t_idle c).
Definition set_dl (x : http_dl) (c : http_conn) : http_conn := mk_hconn (pcb c) (is_ws c) (crx c) (rsp c) x (t_rx c) (t_ack c) (t_idle c).
Definition set_kind (k : resp_kind) (r : http_rsp) : http_rsp :=
  mk_rsp k (keep_alive r) (rsp_total r) (written r) (acked r) (hdr r) (hdr_sent r) (body r) (body_sent r).
Definition set_keep (b : bool) (r : http_rsp) : http_rsp :=
  mk_rsp (kind r) b (rsp_total r) (written r) (acked r) (hdr r) (hdr_sent r) (body r) (body_sent r).
Definition set_hdr_done (b : bool) (x : http_rx) : http_rx := mk_hrx (rx x) (rx_len x) b (body_off x) (content_len x) (cli_close x).
Definition upd_rsp (g : http_rsp → http_rsp) (c : http_conn) : http_conn := set_rsp (g (rsp c)) c.
Definition upd_rx (g : http_rx → http_rx) (c : http_conn) : http_conn := set_crx (g (crx c)) c.

(** ** Parsing *)

Definition crlf : list Z := [13; 10].

(** the first [\r\n\r\n] among the first [n] bytes *)
Fixpoint hdr_end_loop (n : nat) (i : Z) (s : list Z) : option Z :=
  match n with
  | O => None
  | S n' => if (3 <? n)%nat && starts_with (crlf ++ crlf) s then Some i
            else if (3 <? n)%nat then hdr_end_loop n' (i + 1) (drop 1 s) else None
  end.
Definition find_hdr_end (x : http_rx) : option Z := hdr_end_loop (Z.to_nat (rx_len x)) 0 (rx x).

(** [for (i = 0; i + klen < n; i++)]: what follows the first match *)
Fixpoint hdr_find (n : nat) (s key : list Z) : option (list Z) :=
  match n with
  | O => None
  | S n' =>
    if (length key <? n)%nat
    then if starts_with_case key s then Some (drop (length key) s) else hdr_find n' (drop 1 s) key
    else None
  end.

Definition is_white (c : Z) : bool := (c =? 32) || (c =? 9) || (c =? 13) || (c =? 10).
Fixpoint skip_white (s : list Z) : list Z := match s with c :: s' => if is_white c then skip_white s' else s | [] => [] end.
(** a word, up to a blank or NUL, and what follows it *)
Fixpoint word (s : list Z) : list Z * list Z :=
  match s with
  | c :: s' => if (c =? 0) || is_white c then ([], s) else let '(w, r) := word s' in (c :: w, r)
  | [] => ([], [])
  end.

(** the number of words and their first [asz - 1] and [bsz - 1] bytes *)
Definition split_req_line (s : list Z) (asz bsz : Z) : Z * list Z * list Z :=
  let '(a, s) := word (skip_white s) in
  if bool_decide (a = []) then (0, [], [])
  else
    let '(b, _) := word (skip_white s) in
    (if bool_decide (b = []) then 1 else 2, take (Z.to_nat (asz - 1)) a, take (Z.to_nat (bsz - 1)) b).

(** [strchr(target, '?')]: the path and what follows the question mark *)
Fixpoint split_query (t : list Z) : list Z * option (list Z) :=
  match t with
  | c :: t' => if c =? 63 then ([], Some t') else let '(p, q) := split_query t' in (c :: p, q)
  | [] => ([], None)
  end.

(** [memmove(rx, rx + used, rx_len - used); rx_len -= used] *)
Definition consume (used : Z) (x : http_rx) : http_rx :=
  let n := Z.to_nat (rx_len x - used) in
  mk_hrx (take n (drop (Z.to_nat used) (rx x)) ++ drop n (rx x)) (u16 (rx_len x - used)) false
    (body_off x) (content_len x) (cli_close x).

(** ** Responses *)

Definition hdr_text (status ctype : list Z) (clen : Z) (keep : bool) (extra : list Z) : list Z :=
  js "HTTP/1.1 " ++ status ++ crlf ++ js "Content-Type: " ++ ctype ++ crlf ++
  js "Content-Length: " ++ dec clen ++ crlf ++
  js "Connection: " ++ (if keep then js "keep-alive" else js "close") ++ crlf ++ extra ++ crlf.

(** [None] is return value [false] *)
Definition rsp_begin (now : Z) (status ctype : list Z) (clen : Z) (keep : bool) (extra : list Z) (c : http_conn) : option http_conn :=
  let text := hdr_text status ctype clen keep extra in
  if HTTP_HDR_MAX <=? zlen text then None
  else
    Some (mk_hconn (pcb c) (is_ws c) (crx c)
            (mk_rsp (kind (rsp c)) (keep && negb (cli_close (crx c))) (u32 (zlen text + clen)) 0 0 text 0 (body (rsp c)) 0)
            (dl c) (t_rx c) now (t_idle c)).

Definition respond_mem (now : Z) (status ctype data : list Z) (extra : list Z) (c : http_conn) : http_conn :=
  match rsp_begin now status ctype (zlen data) true extra c with
  | None => upd_rsp (set_kind RESP_NONE) c
  | Some c => upd_rsp (λ r, mk_rsp RESP_MEM (keep_alive r) (rsp_total r) (written r) (acked r) (hdr r) (hdr_sent r) data (body_sent r)) c
  end.

Definition ctype_json : list Z := js "application/json".
Definition respond_json_ok (now : Z) : http_conn → http_conn := respond_mem now (js "200 OK") ctype_json json_true [].
Definition respond_json_err (now : Z) (status err : list Z) : http_conn → http_conn :=
  respond_mem now status ctype_json (json_err err) [].
Definition bad_request (now : Z) (err : string) : http_conn → http_conn := respond_json_err now (js "400 Bad Request") (js err).

Definition s32 (z : Z) : Z := if u32 z <? 2 ^ 31 then u32 z else u32 z - 2 ^ 32.

Definition known_paths : list (list Z) :=
  [js "/"; js "/api/info"; js "/api/io"; js "/api/regs"; js "/api/history"; js "/api/history/download"; js "/ws";
   js "/api/do"; js "/api/reg"; js "/api/time"; js "/api/cfg"; js "/api/save"; js "/api/reboot"; js "/api/history/delete"].

(** ** Closing: the part of [conn_close] outside the session of [Ws.v] *)

Section Close.
Context {L W : Type} `{Lfs L} `{TcpStack W}.

Definition closed (c : http_conn) : http_conn :=
  mk_hconn None false (mk_hrx (rx (crx c)) 0 false (body_off (crx c)) (content_len (crx c)) (cli_close (crx c)))
    (set_kind RESP_NONE (rsp c)) (dl c) (t_rx c) (t_ack c) (t_idle c).

Definition close_w (i : nat) (w : hw L W) : hw L W :=
  match http_conns w !! i with
  | None => w
  | Some c =>
    mk_hw (<[i := closed c]> (http_conns w))
      (if is_ws c && bool_decide (ws_conn w = Some i) then None else ws_conn w)
      (if bool_decide (kind (rsp c) = RESP_FILE) then history_web_close (hhist w) else hhist w)
      (match pcb c with Some p => tcp_close p (hnet w) | None => hnet w end)
  end.

(** called by [ws_close_session], which has done what [ws_detach] does *)
Definition ws_closed_cb (w : hw L W) : hw L W :=
  match ws_conn w with
  | Some i => close_w i (mk_hw (http_conns w) None (hhist w) (hnet w))
  | None => w
  end.
End Close.

(** ** The server *)

Section Server.
Context {E F L W : Type} `{IoHooks E} `{UdpHooks E} `{IoFlash F} `{Lfs L} `{TcpStack W} `{TcpSnd W} `{TcpRcv W}.
Context (fw_keyhash : list Z) (boot_set_pending : bool → F → Z * F).
Context (set_reboot_status : bool → E → E) (web_info : E → info) (index_html_gz : list Z).

Abbreviation MH := (M (wsys E F (hw L W))).

Definition conn_at (i : nat) : MH http_conn := gets (λ s, default conn_boot (http_conns (wnet s) !! i)).
Definition upd_conn (i : nat) (g : http_conn → http_conn) : MH unit :=
  upd_net (λ w, mk_hw (alter g i (http_conns w)) (ws_conn w) (hhist w) (hnet w)).
Definition set_ws_conn (x : option nat) : MH unit := upd_net (λ w, mk_hw (http_conns w) x (hhist w) (hnet w)).
Definition call_hist {A} (g : @hsys L → A * @hsys L) : MH A :=
  call_wnet (λ w, let '(a, h) := g (hhist w) in (a, mk_hw (http_conns w) (ws_conn w) h (hnet w))).
Definition upd_hist (g : @hsys L → @hsys L) : MH unit := call_hist (λ h, (tt, g h)).
Definition recved (p n : Z) : MH unit := upd_net (λ w, with_net (tcp_recved p n (hnet w)) w).
Definition mss (p : Z) : MH Z := gets (λ s, u16 (tcp_mss p (hnet (wnet s)))).
Definition sndbuf (p : Z) : MH Z := gets (λ s, u16 (tcp_sndbuf p (wnet s))).

Definition conn_close (i : nat) : MH unit :=
  c ← conn_at i;
  (if is_ws c then ws_detach else mret tt);;
  upd_net (close_w i).

Definition close_if_open (i : nat) : MH unit :=
  c ← conn_at i; if bool_decide (pcb c = None) then mret tt else conn_close i.

(** *** The send pump *)

Definition sent_hdr (n : Z) (r : http_rsp) : http_rsp :=
  mk_rsp (kind r) (keep_alive r) (rsp_total r) (u32 (written r + n)) (acked r) (hdr r) (u16 (hdr_sent r + n)) (body r) (body_sent r).
Definition sent_body (n : Z) (r : http_rsp) : http_rsp :=
  mk_rsp (kind r) (keep_alive r) (rsp_total r) (u32 (written r + n)) (acked r) (hdr r) (hdr_sent r) (body r) (u32 (body_sent r + n)).
Definition sent_chunk (n : Z) (c : http_conn) : http_conn :=
  let r := rsp c in
  set_dl (mk_dl (dl_size (dl c)) (dl_sent (dl c)) (dl_chunk (dl c)) (u16 (dl_chunk_off (dl c) + n)))
    (set_rsp (mk_rsp (kind r) (keep_alive r) (rsp_total r) (u32 (written r + n)) (acked r) (hdr r) (hdr_sent r) (body r) (body_sent r)) c).

(** [from] bytes on, at most [snd] *)
Definition piece (from snd : Z) (s : list Z) : list Z := take (Z.to_nat snd) (drop (Z.to_nat from) s).

(** [tcp_write] and what follows it in every loop of the pump: go on, stop for
    now, or close; [false]: the connection is closed *)
Definition push (i : nat) (p : Z) (bs : list Z) (done : http_conn → http_conn) (go : MH bool) : MH bool :=
  e ← call_wnet (tcp_write p bs);
  match e with
  | ERR_OK => upd_conn i done;; go
  | ERR_MEM => mret true
  | _ => conn_close i;; mret false
  end.

Fixpoint pump_hdr (n : nat) (i : nat) (p : Z) : MH bool :=
  match n with
  | O => mret true
  | S n =>
    c ← conn_at i;
    let r := rsp c in
    if hdr_sent r <? zlen (hdr r) then
      snd ← sndbuf p;
      if snd =? 0 then mret true
      else
        let bs := piece (hdr_sent r) snd (hdr r) in
        push i p bs (upd_rsp (sent_hdr (zlen bs))) (pump_hdr n i p)
    else mret true
  end.

Fixpoint pump_mem (n : nat) (i : nat) (p : Z) : MH bool :=
  match n with
  | O => mret true
  | S n =>
    c ← conn_at i;
    let r := rsp c in
    let in_hdr := hdr_sent r <? zlen (hdr r) in
    if in_hdr || (body_sent r <? zlen (body r)) then
      snd ← sndbuf p;
      if snd =? 0 then mret true
      else
        let bs := if in_hdr then piece (hdr_sent r) snd (hdr r) else piece (body_sent r) snd (body r) in
        push i p bs (upd_rsp ((if in_hdr then sent_hdr else sent_body) (zlen bs))) (pump_mem n i p)
    else mret true
  end.

(** the next chunk of the file: [None] is a read error, [false] the end *)
Definition next_chunk (i : nat) : MH (option bool) :=
  c ← conn_at i;
  let d := dl c in
  if negb (dl_chunk_off d =? zlen (dl_chunk d)) then mret (Some true)
  else if dl_size d <=? dl_sent d then mret (Some false)
  else
    r ← call_hist (history_web_read (Z.min (dl_size d - dl_sent d) HTTP_DL_CHUNK));
    if r.1 <? 0 then mret None
    else if r.1 =? 0 then
      upd_conn i (λ c, set_dl (mk_dl (dl_sent d) (dl_sent d) (dl_chunk d) (dl_chunk_off d))
        (upd_rsp (λ r, mk_rsp (kind r) (keep_alive r) (u32 (zlen (hdr r) + dl_sent d)) (written r) (acked r) (hdr r) (hdr_sent r) (body r) (body_sent r)) c));;
      mret (Some false)
    else
      upd_conn i (set_dl (mk_dl (dl_size d) (u32 (dl_sent d + r.1)) (take (Z.to_nat r.1) r.2) 0));;
      mret (Some true).

Fixpoint pump_data (n : nat) (i : nat) (p m : Z) : MH bool :=
  match n with
  | O => mret true
  | S n =>
    c ← conn_at i;
    if u32 (written (rsp c) - acked (rsp c)) <? 4 * m then
      k ← next_chunk i;
      match k with
      | None => conn_close i;; mret false
      | Some false => mret true
      | Some true =>
        snd ← sndbuf p;
        c ← conn_at i;
        if snd =? 0 then mret true
        else
          let bs := piece (dl_chunk_off (dl c)) snd (dl_chunk (dl c)) in
          push i p bs (sent_chunk (zlen bs)) (pump_data n i p m)
      end
    else mret true
  end.

(** [false]: the connection is closed *)
Definition pump_file (i : nat) (p : Z) : MH bool :=
  m ← mss p;
  c ← conn_at i;
  ok ← pump_hdr (S (length (hdr (rsp c)))) i p;
  if negb ok then mret false
  else
    c ← conn_at i;
    if hdr_sent (rsp c) <? zlen (hdr (rsp c)) then upd_net (tcp_output p);; mret true
    else
      ok ← pump_data (S (Z.to_nat (4 * m))) i p m;
      if negb ok then mret false else upd_net (tcp_output p);; mret true.

(** the end of [conn_pump]: everything is written and acknowledged *)
Definition pump_done (reenter : MH unit) (now : Z) (i : nat) : MH unit :=
  c ← conn_at i;
  let r := rsp c in
  if (rsp_total r <=? written r) && (rsp_total r <=? acked r) then
    (if bool_decide (kind r = RESP_FILE) then upd_hist history_web_close else mret tt);;
    upd_conn i (λ c, upd_rx (set_hdr_done false) (upd_rsp (set_kind RESP_NONE) c));;
    if negb (keep_alive r) then conn_close i
    else
      upd_conn i (λ c, mk_hconn (pcb c) (is_ws c) (crx c) (rsp c) (dl c) (t_rx c) (t_ack c) now);;
      if 0 <? rx_len (crx c) then reenter else mret tt
  else mret tt.

(** [reenter] is [http_process_rx], for a request that is already here *)
Definition conn_pump (reenter : MH unit) (now : Z) (i : nat) : MH unit :=
  c ← conn_at i;
  match pcb c with
  | None => mret tt
  | Some p =>
    match kind (rsp c) with
    | RESP_NONE => mret tt
    | RESP_FILE => ok ← pump_file i p; if ok : bool then pump_done reenter now i else mret tt
    | RESP_MEM =>
      ok ← pump_mem (S (length (hdr (rsp c) ++ body (rsp c)))) i p;
      if ok : bool then upd_net (tcp_output p);; pump_done reenter now i else mret tt
    end
  end.

(** *** Routing *)

(** the builder's text, or what the buffer holds of it *)
Definition respond_built (now : Z) (i : nat) (r : option (Z * list Z)) : MH unit :=
  match r with
  | Some (n, text) => upd_conn i (respond_mem now (js "200 OK") ctype_json (rd_n text (Z.to_nat n)) [])
  | None => mret tt
  end.

Definition list_files (h : @hsys L) : option (Z * list Z) * @hsys L :=
  match history_web_list_json HTTP_BODY_BUF h with Some (n, text, h) => (Some (n, text), h) | None => (None, h) end.

Definition answer (now : Z) (i : nat) (ok : bool) (err : string) : MH unit :=
  upd_conn i (if ok then respond_json_ok now else bad_request now err).

Definition disposition (name : list Z) : list Z :=
  take 95 (js "Content-Disposition: attachment; filename='" ++ name ++ js "'" ++ crlf).

Definition download (now : Z) (i : nat) (query : option (list Z)) : MH unit :=
  let fail := upd_hist history_web_close;; upd_conn i (bad_request now "invalid file name"%string) in
  match (match query with Some q => url_query_get q (js "name") 32 | None => None end) with
  | None => fail
  | Some name =>
    if negb (history_web_name_valid name) then fail
    else
      size ← call_hist (history_web_open name);
      let size := s32 size in
      if size <? 0 then fail
      else
        c ← conn_at i;
        match rsp_begin now (js "200 OK") (js "application/octet-stream") size false (disposition name) c with
        | Some c' => upd_conn i (λ _, set_dl (mk_dl size 0 [] 0) (upd_rsp (set_kind RESP_FILE) c'))
        | None =>
          upd_hist history_web_close;;
          upd_conn i (respond_json_err now (js "500 Internal Server Error") (js "server error"))
        end
  end.

Definition dispatch (now : Z) (i : nat) (method path : list Z) (query : option (list Z)) (body : list Z) (len : nat) : MH unit :=
  let get (p : string) := bool_decide (method = js "GET") && bool_decide (path = js p) in
  let post (p : string) := bool_decide (method = js "POST") && bool_decide (path = js p) in
  if get "/"%string then
    upd_conn i (respond_mem now (js "200 OK") (js "text/html") index_html_gz (js "Content-Encoding: gzip" ++ crlf))
  else if get "/api/info"%string then
    x ← on_regs (gets (λ r, web_info (env r)));
    r ← on_regs (web_build_info_json HTTP_BODY_BUF now x); respond_built now i r
  else if get "/api/io"%string then r ← on_regs (web_build_io_json HTTP_BODY_BUF now); respond_built now i r
  else if get "/api/regs"%string then r ← on_regs (web_build_regs_json HTTP_BODY_BUF); respond_built now i r
  else if get "/api/history"%string then
    r ← call_hist list_files;
    match r with
    | Some (n, text) =>
      if n <? 0 then upd_conn i (respond_mem now (js "200 OK") ctype_json (js "{'files':[]}") [])
      else respond_built now i (Some (n, text))
    | None => mret tt
    end
  else if get "/api/history/download"%string then download now i query
  else if post "/api/do"%string then
    match both (json_get_i32 body len (js "index")) (json_get_i32 body len (js "value")) with
    | Some (index, value) => ok ← on_regs (web_cmd_exec_do index value); answer now i ok "invalid index/value"%string
    | None => answer now i false "invalid index/value"%string
    end
  else if post "/api/reg"%string then
    match both (json_get_i32 body len (js "addr")) (json_get_i32 body len (js "value")) with
    | Some (addr, value) => ok ← on_regs (web_cmd_exec_reg set_reboot_status addr value); answer now i ok "invalid addr/value"%string
    | None => answer now i false "invalid addr/value"%string
    end
  else if post "/api/time"%string then
    match json_get_i32 body len (js "ts") with
    | Some ts => ok ← on_regs (call_ret (hook_set_timestamp ts)); answer now i ok "invalid timestamp"%string
    | None => answer now i false "invalid timestamp"%string
    end
  else if post "/api/save"%string then on_regs holding_reg_save;; upd_conn i (respond_json_ok now)
  else if post "/api/reboot"%string then on_regs (call (set_reboot_status true));; upd_conn i (respond_json_ok now)
  else if post "/api/cfg"%string then
    r ← on_regs (web_cmd_exec_cfg body len);
    match r with
    | None => upd_conn i (respond_json_ok now)
    | Some e => upd_conn i (respond_json_err now (js "400 Bad Request") (cfg_err_text e))
    end
  else if post "/api/history/delete"%string then
    match json_get_str body len (js "name") 32 with
    | Some name =>
      if history_web_name_valid name
      then r ← call_hist (history_web_remove name); answer now i (r =? 0) "delete failed"%string
      else answer now i false "delete failed"%string
    | None => answer now i false "delete failed"%string
    end
  else if bool_decide (path ∈ known_paths)
  then upd_conn i (respond_json_err now (js "405 Method Not Allowed") (js "method not allowed"))
  else upd_conn i (respond_mem now (js "404 Not Found") ctype_json JSON_NOT_FND []).

(** *** Requests *)

Definition when_idle (i : nat) (next : MH unit) : MH unit :=
  c ← conn_at i; if bool_decide (kind (rsp c) = RESP_NONE) then next else mret tt.

(** an answer after which the connection is closed *)
Definition refuse (pump : MH unit) (i : nat) (answer : http_conn → http_conn) : MH unit :=
  upd_conn i answer;; pump;; close_if_open i.

Definition found (n : nat) (x : http_rx) (key : string) : bool :=
  match hdr_find n (rx x) (js key) with Some _ => true | None => false end.

Definition content_length (n : nat) (x : http_rx) : Z :=
  match hdr_find n (rx x) (js "Content-Length:") with
  | Some cl => u16 (match strtoul cl 10 with Some (v, _) => v | None => 0 end)
  | None => 0
  end.

(** the answer 101 and the turn-over to [Ws.v] *)
Definition ws_upgrade (pump : MH unit) (now : Z) (i : nat) (resp : list Z) : MH unit :=
  upd_conn i (λ c,
    mk_hconn (pcb c) true (crx c)
      (mk_rsp RESP_MEM true (zlen resp) 0 0 resp 0 [] (body_sent (rsp c))) (dl c) (t_rx c) now (t_idle c));;
  set_ws_conn (Some i);;
  upd_conn i (λ c, upd_rx (λ x, set_hdr_done true (consume (body_off x) x)) c);;
  c ← conn_at i;
  match pcb c with
  | None => mret tt
  | Some p => ws_attach set_reboot_status ws_closed_cb now p (take (Z.to_nat (rx_len (crx c))) (rx (crx c)))
  end;;
  upd_conn i (upd_rx (λ x, mk_hrx (rx x) 0 false (body_off x) (content_len x) (cli_close x)));;
  pump.

Definition consume_and_pump (pump next : MH unit) (i : nat) (used : Z) : MH unit :=
  upd_conn i (upd_rx (consume used));; pump;; when_idle i next.

(** a request without a body: its header is complete *)
Definition process_get (pump next : MH unit) (now : Z) (i : nat) (hl : nat) (x : http_rx) (target : list Z) : MH unit :=
  let '(path, query) := split_query target in
  let used := u16 (Z.of_nat hl + 4) in
  if bool_decide (path = js "/ws") && found hl x "Upgrade: websocket"%string then
    s ← gets ws;
    match (if active s then None else ws_handshake (rx x) hl 160) with
    | None =>
      upd_conn i (respond_json_err now (js "503 Service Unavailable") (js "ws busy"));;
      consume_and_pump pump next i used
    | Some resp => ws_upgrade pump now i resp
    end
  else dispatch now i (js "GET") path query [] 0;; consume_and_pump pump next i used.

Definition process_head (pump next : MH unit) (now : Z) (i : nat) : MH unit :=
  c ← conn_at i;
  let x := crx c in
  match find_hdr_end x with
  | None =>
    if HTTP_RX_BUF - 1 <=? rx_len x
    then refuse pump i (λ c, upd_rsp (set_keep false) (bad_request now "header too large"%string c))
    else mret tt
  | Some he =>
    let hl := Z.to_nat he in
    let '(words, method, target) := split_req_line (rx x) 8 96 in
    if negb (words =? 2) then refuse pump i (bad_request now "bad request"%string)
    else
      upd_conn i (upd_rx (λ x, mk_hrx (rx x) (rx_len x) true (u16 (he + 4)) (content_length hl x) (found hl x "Connection: close"%string)));;
      if 128 <? content_length hl x then refuse pump i (bad_request now "body too large"%string)
      else if bool_decide (method = js "GET") then process_get pump next now i hl x target
      else next
  end.

Definition process_body (pump next : MH unit) (now : Z) (i : nat) : MH unit :=
  c ← conn_at i;
  let x := crx c in
  if content_len x <=? u16 (rx_len x - body_off x) then
    let '(_, method, target) := split_req_line (rx x) 8 96 in
    let '(path, query) := split_query target in
    dispatch now i method path query (drop (Z.to_nat (body_off x)) (rx x)) (Z.to_nat (content_len x));;
    consume_and_pump pump next i (u16 (body_off x + content_len x))
  else mret tt.

(** one turn of the loop; [next] is the following one *)
Definition http_turn (now : Z) (i : nat) (next : MH unit) : MH unit :=
  let pump := conn_pump next now i in
  c ← conn_at i;
  if negb (bool_decide (kind (rsp c) = RESP_NONE)) then mret tt
  else if negb (hdr_done (crx c)) then process_head pump next now i
  else process_body pump next now i.

Fixpoint http_process_rx (n : nat) (now : Z) (i : nat) : MH unit :=
  match n with O => mret tt | S n => http_turn now i (http_process_rx n now i) end.

(** every turn takes a header or at least four bytes *)
Definition HTTP_FUEL : nat := Z.to_nat (2 * HTTP_RX_BUF).
Definition process_rx (now : Z) (i : nat) : MH unit := http_process_rx HTTP_FUEL now i.
Definition pump (now : Z) (i : nat) : MH unit := conn_pump (process_rx now i) now i.

(** *** Callbacks *)

Fixpoint feed_chain (now : Z) (chain : list (list Z)) : MH unit :=
  match chain with [] => mret tt | q :: chain => ws_feed set_reboot_status ws_closed_cb now q;; feed_chain now chain end.

Definition received (now : Z) (bs : list Z) (c : http_conn) : http_conn :=
  let x := crx c in
  let len := u16 (rx_len x + zlen bs) in
  mk_hconn (pcb c) (is_ws c)
    (mk_hrx (<[Z.to_nat len := 0]> (splice (Z.to_nat (rx_len x)) bs (rx x))) len (hdr_done x) (body_off x) (content_len x) (cli_close x))
    (rsp c) (dl c) now (t_ack c) (t_idle c).

Definition http_recv_cb (now : Z) (i : nat) (p : option (list (list Z))) (err : err_t) : MH err_t :=
  match p with
  | None => conn_close i;; mret ERR_OK
  | Some chain =>
    c ← conn_at i;
    match pcb c with
    | None => mret err
    | Some q =>
      if negb (bool_decide (err = ERR_OK)) then mret err
      else
        let bs := concat chain in
        if is_ws c then recved q (zlen bs);; feed_chain now chain;; mret ERR_OK
        else if u16 (HTTP_RX_BUF - 1 - rx_len (crx c)) <? zlen bs then
          recved q (zlen bs);;
          refuse (pump now i) i (λ c, upd_rsp (set_keep false) (bad_request now "request too large"%string c));;
          mret ERR_OK
        else
          upd_conn i (received now bs);; recved q (zlen bs);; process_rx now i;; mret ERR_OK
    end
  end.

Definition http_sent_cb (now : Z) (i : nat) (len : Z) : MH err_t :=
  c ← conn_at i;
  if bool_decide (pcb c = None) then mret ERR_OK
  else
    upd_conn i (λ c,
      let r := rsp c in
      mk_hconn (pcb c) (is_ws c) (crx c)
        (mk_rsp (kind r) (keep_alive r) (rsp_total r) (written r) (u32 (acked r + len)) (hdr r) (hdr_sent r) (body r) (body_sent r))
        (dl c) (t_rx c) now (t_idle c));;
    (if is_ws c then mret tt else pump now i);; mret ERR_OK.

Definition http_poll_cb (now : Z) (i : nat) : MH err_t :=
  c ← conn_at i;
  if bool_decide (pcb c = None) then mret ERR_OK
  else
    (if is_ws c then ws_poll web_info now
     else if negb (bool_decide (kind (rsp c) = RESP_NONE)) then
       (if HTTP_TX_STALL_MS <? u32 (now - t_ack c) then conn_close i else mret tt)
     else if (0 <? rx_len (crx c)) || hdr_done (crx c) then
       (if HTTP_RX_IDLE_MS <? u32 (now - t_rx c) then conn_close i else mret tt)
     else if HTTP_IDLE_MS <? u32 (now - t_rx c) then conn_close i else mret tt);;
    mret ERR_OK.

(** lwIP has already freed the pcb *)
Definition http_err_cb (i : nat) : MH unit :=
  upd_conn i (λ c, mk_hconn None (is_ws c) (crx c) (rsp c) (dl c) (t_rx c) (t_ack c) (t_idle c));;
  conn_close i.

Definition free_slot (cs : list http_conn) : option nat :=
  match list_find (λ c, pcb c = None) cs with Some (i, _) => Some i | None => None end.

Definition accepted (now p : Z) (c : http_conn) : http_conn :=
  mk_hconn (Some p) false (mk_hrx (rx (crx c)) 0 false 0 0 false) (rsp c) (dl c) now now now.

Definition http_accept_cb (now : Z) (newpcb : option Z) (err : err_t) : MH err_t :=
  match newpcb with
  | None => mret ERR_OK
  | Some p =>
    if negb (bool_decide (err = ERR_OK)) then mret ERR_OK
    else
      cs ← gets (λ s, http_conns (wnet s));
      match free_slot cs with
      | None => upd_net (tcp_abort p);; mret ERR_ABRT
      | Some i => upd_conn i (accepted now p);; mret ERR_OK
      end
  end.

(** the callbacks of lwIP, and the other steps of [Ws.v] *)
Inductive http_event :=
  | HAccept (now : Z) (p : option Z) (err : err_t) | HRecv (now : Z) (i : nat) (p : option (list (list Z))) (err : err_t)
  | HSent (now : Z) (i : nat) (len : Z) | HPoll (now : Z) (i : nat) | HErr (i : nat) | HReply | HWorker | HReboot.

Definition http_run (ev : http_event) : MH unit :=
  match ev with
  | HAccept now p err => http_accept_cb now p err;; mret tt
  | HRecv now i p err => http_recv_cb now i p err;; mret tt
  | HSent now i len => http_sent_cb now i len;; mret tt
  | HPoll now i => http_poll_cb now i;; mret tt
  | HErr i => http_err_cb i
  | HReply => ws_fw_reply_cb
  | HWorker => w ← gets fw_swap; if w : bool then mret tt else ws_fw_task fw_keyhash boot_set_pending
  | HReboot => w ← gets fw_swap; if w : bool then ws_fw_reboot set_reboot_status else mret tt
  end.

Fixpoint http_runs (evs : list http_event) : MH unit :=
  match evs with [] => mret tt | ev :: evs => http_run ev;; http_runs evs end.
End Server.

(** [lfs_file_read] delivers no more than it is asked for *)
Definition reads_fit (L : Type) `{Lfs L} : Prop := ∀ n (l : L), 0 ≤ n → (lfs_file_read WebFp n l).1.1 ≤ n.

(** ** What a connection satisfies between two callbacks *)

(** the buffer holds a NUL behind its contents, so that no string function leaves it *)
Record rx_ok (x : http_rx) : Prop := {
  rx_size : zlen (rx x) = HTTP_RX_BUF;
  rx_room : 0 ≤ rx_len x < HTTP_RX_BUF;
  rx_nul : ∃ j, rx_len x ≤ Z.of_nat j < HTTP_RX_BUF ∧ rd (rx x) j = 0;
}.
Definition rx_at_body (x : http_rx) : Prop := hdr_done x = true → 4 ≤ body_off x ≤ rx_len x ∧ 0 ≤ content_len x < 65536.

Record rsp_ok (r : http_rsp) : Prop := {
  rsp_hdr : zlen (hdr r) < HTTP_HDR_MAX;
  rsp_hdr_sent : 0 ≤ hdr_sent r ≤ zlen (hdr r);
  rsp_body : 0 ≤ body_sent r ∧ (kind r = RESP_MEM → zlen (body r) < 2 ^ 31 ∧ (body_sent r ≤ zlen (body r) ∨ body r = []));
  rsp_some : kind r ≠ RESP_NONE → 0 < zlen (hdr r);
}.
Record dl_ok (d : http_dl) : Prop := {
  dl_total : 0 ≤ dl_sent d ≤ dl_size d ∧ dl_size d < 2 ^ 31;
  dl_buf : zlen (dl_chunk d) ≤ HTTP_DL_CHUNK;
  dl_off : 0 ≤ dl_chunk_off d ≤ zlen (dl_chunk d);
}.
Record conn_ok (c : http_conn) : Prop := {
  co_rx : rx_ok (crx c);
  co_body : is_ws c = false → rx_at_body (crx c);
  co_rsp : rsp_ok (rsp c);
  co_dl : dl_ok (dl c);
  co_free : pcb c = None → kind (rsp c) = RESP_NONE ∧ is_ws c = false ∧ rx_len (crx c) = 0 ∧ hdr_done (crx c) = false;
}.

Lemma conn_boot_ok : conn_ok conn_boot.
Proof.
  constructor; cbn.
  - constructor; [by vm_compute|done|]. exists 0%nat. split; [done|by vm_compute].
  - by intros _ ?.
  - by constructor.
  - by constructor.
  - done.
Qed.

Lemma closed_ok c : conn_ok c → conn_ok (closed c).
Proof.
  intros [[Hs Hr (j & Hj & H0)] _ [H1 H2 [H3 _] _] Hd _]. constructor; cbn; try done.
  constructor; cbn; [done|done|]. exists j. split; [lia|done].
Qed.

Lemma consume_rx used x : rx_ok x → 0 ≤ used ≤ rx_len x → rx_ok (consume used x) ∧ rx_len (consume used x) = rx_len x - used.
Proof.
  intros [Hs Hr (j & Hj & H0)] Hu. unfold consume, HTTP_RX_BUF, zlen in *. set (n := Z.to_nat (rx_len x - used)).
  assert (u16 (rx_len x - used) = rx_len x - used) as Hlen by (apply u16_id, is_u16_iff; lia).
  assert (length (take n (drop (Z.to_nat used) (rx x))) = n) as Hn by (rewrite length_take, length_drop; lia).
  split; [|done]. constructor; cbn [rx rx_len]; unfold HTTP_RX_BUF, zlen; rewrite ?Hlen.
  - rewrite length_app, Hn, length_drop. unfold n. lia.
  - lia.
  - exists j. split; [lia|]. rewrite rd_app_r by (rewrite Hn; unfold n; lia). rewrite Hn, rd_drop. replace (n + (j - n))%nat with j by (unfold n; lia). done.
Qed.

Lemma received_rx now bs c : rx_ok (crx c) → zlen bs ≤ HTTP_RX_BUF - 1 - rx_len (crx c) → rx_ok (crx (received now bs c)).
Proof.
  intros [Hs Hr _] Hb. unfold received, HTTP_RX_BUF, zlen in *. cbn [crx].
  assert (u16 (rx_len (crx c) + Z.of_nat (length bs)) = rx_len (crx c) + Z.of_nat (length bs)) as Hlen by (apply u16_id, is_u16_iff; lia).
  constructor; cbn [rx rx_len]; rewrite ?Hlen; unfold HTTP_RX_BUF, zlen.
  - rewrite length_insert, length_splice; lia.
  - lia.
  - eexists. split; [|apply rd_insert_eq; rewrite length_splice; lia]. lia.
Qed.

Lemma hdr_end_spec n i s he : hdr_end_loop n i s = Some he →
  ∃ k, he = i + Z.of_nat k ∧ (k + 4 ≤ n)%nat ∧ starts_with (crlf ++ crlf) (drop k s) = true.
Proof.
  revert i s. induction n as [|n IH]; intros i s; cbn [hdr_end_loop]; [done|].
  destruct (3 <? S n)%nat eqn:E3; [|done]. cbn [andb]. destruct (starts_with _ s) eqn:Es.
  - intros [= <-]. exists 0%nat. rewrite drop_0. split; [lia|]. split; [lia|done].
  - intros Hl. destruct (IH _ _ Hl) as (k & -> & Hk & Hst). exists (S k). rewrite drop_drop in Hst.
    split; [lia|]. split; [lia|]. by replace (S k) with (1 + k)%nat by lia.
Qed.

Lemma find_hdr_end_range x he : 0 ≤ rx_len x → find_hdr_end x = Some he → 0 ≤ he ∧ he + 4 ≤ rx_len x.
Proof. intros Hl Hf. destruct (hdr_end_spec _ _ _ _ Hf) as (k & -> & Hk & _). lia. Qed.

(** an answer is in place, or none could be built *)
Definition idle_or_fresh (c : http_conn) : Prop := kind (rsp c) = RESP_NONE ∨ (acked (rsp c) = 0 ∧ 0 < rsp_total (rsp c)).
Definition answered (c c' : http_conn) : Prop :=
  crx c' = crx c ∧ pcb c' = pcb c ∧ is_ws c' = is_ws c ∧ idle_or_fresh c'.

Lemma zlen_hdr_text status ctype clen keep extra : 0 < zlen (hdr_text status ctype clen keep extra).
Proof. unfold hdr_text. rewrite zlen_app. pose proof (zlen_nonneg (status ++ crlf ++ js "Content-Type: " ++ ctype ++ crlf ++ js "Content-Length: " ++ dec clen ++ crlf ++ js "Connection: " ++ (if keep then js "keep-alive" else js "close") ++ crlf ++ extra ++ crlf)). change (zlen (js "HTTP/1.1 ")) with 9. lia. Qed.

Lemma rsp_begin_ok now status ctype clen keep extra c c' :
  rsp_begin now status ctype clen keep extra c = Some c' → 0 ≤ clen < 2 ^ 31 →
  pcb c' = pcb c ∧ is_ws c' = is_ws c ∧ crx c' = crx c ∧ dl c' = dl c ∧ kind (rsp c') = kind (rsp c) ∧
  0 < zlen (hdr (rsp c')) < HTTP_HDR_MAX ∧ hdr_sent (rsp c') = 0 ∧ body_sent (rsp c') = 0 ∧ written (rsp c') = 0 ∧
  acked (rsp c') = 0 ∧ rsp_total (rsp c') = zlen (hdr (rsp c')) + clen.
Proof.
  unfold rsp_begin. pose proof (zlen_hdr_text status ctype clen keep extra) as Hpos.
  set (text := hdr_text _ _ _ _ _) in *. clearbody text. unfold HTTP_HDR_MAX.
  destruct (256 <=? _) eqn:Em; [done|]. intros [= <-] Hc. cbn. apply Z.leb_gt in Em. split_and!; try done.
  apply u32_id. ulia.
Qed.

Lemma respond_mem_ok now status ctype data extra c :
  conn_ok c → pcb c ≠ None → zlen data < 2 ^ 31 →
  conn_ok (respond_mem now status ctype data extra c) ∧ answered c (respond_mem now status ctype data extra c).
Proof.
  intros [Hrx Hb Hr Hd Hf] Hp Hl. unfold respond_mem, answered, idle_or_fresh. pose proof (zlen_nonneg data).
  destruct (rsp_begin _ _ _ _ _ _ _) as [c'|] eqn:Ec.
  - destruct (rsp_begin_ok _ _ _ _ _ _ _ _ Ec) as (E1 & E2 & E3 & E4 & E5 & E6 & E7 & E8 & E9 & E10 & E11); [lia|].
    split; [|cbn; split_and!; try done; right; split; [done|lia]]. constructor; cbn; rewrite ?E1, ?E2, ?E3, ?E4; try done.
    constructor; cbn; rewrite ?E7, ?E8; try lia.
  - split; [|cbn; split_and!; try done; by left]. destruct Hr as [R1 R2 [R3 _] R4]. by constructor.
Qed.

(** ** What holds of the server between two callbacks *)

(** at most one connection belongs to the session of [Ws.v], the two agree on
    it, and the session never holds a handle that is closed *)
Record link_ok (cs : list http_conn) (wc : option nat) (x : session) : Prop := {
  ln_len : length cs = HTTP_MAX_CONN;
  ln_conns : Forall conn_ok cs;
  ln_active : active x = true → on_close x = true ∧
              ∃ i c p, wc = Some i ∧ cs !! i = Some c ∧ is_ws c = true ∧ pcb c = Some p ∧ Ws.pcb x = Some p;
  ln_ws : ∀ i c, cs !! i = Some c → is_ws c = true → wc = Some i ∧ active x = true;
  ln_none : active x = false → wc = None ∧ Ws.pcb x = None;
}.

Definition detached (x : session) : session := mk_session false None false (Ws.rx x) (fw_crc x) (t_push x) (t_info x).

Lemma link_close cs wc x i c :
  link_ok cs wc x → cs !! i = Some c →
  link_ok (<[i := closed c]> cs) (if is_ws c && bool_decide (wc = Some i) then None else wc) (if is_ws c then detached x else x).
Proof.
  intros [K1 K2 K3 K4 K5] Hi. assert (conn_ok (closed c)) as Hc by (apply closed_ok; by eapply Forall_lookup_1).
  assert (is_ws c = true → wc = Some i) as Hw by (intros Ew; by apply (K4 i c)).
  constructor.
  - by rewrite length_insert.
  - by apply Forall_insert.
  - destruct (is_ws c) eqn:Ew; [done|]. intros Ha. destruct (K3 Ha) as (Ho & j & c' & p & E1 & E2 & E3 & E4 & E5).
    split; [done|]. exists j, c', p. split_and!; try done. rewrite list_lookup_insert_ne; [done|]. intros <-. congruence.
  - intros j c' Hj Hwj. destruct (decide (i = j)) as [<-|Hne].
    { rewrite list_lookup_insert_eq in Hj by (by eapply lookup_lt_Some). by injection Hj as <-. }
    rewrite list_lookup_insert_ne in Hj by done. destruct (K4 j c' Hj Hwj) as [Ewc Ha]. destruct (is_ws c); [|done].
    specialize (Hw eq_refl). congruence.
  - destruct (is_ws c) eqn:Ew; [|done]. intros _. rewrite (Hw eq_refl). by rewrite bool_decide_eq_true_2.
Qed.

Lemma link_update cs wc x i c c' :
  link_ok cs wc x → cs !! i = Some c → conn_ok c' → (is_ws c = true → pcb c' = pcb c) → is_ws c' = is_ws c → link_ok (<[i := c']> cs) wc x.
Proof.
  intros [K1 K2 K3 K4 K5] Hi Hc Hp Hw. pose proof (lookup_lt_Some _ _ _ Hi) as Hlt. constructor; [by rewrite length_insert|by apply Forall_insert| | |done].
  - intros Ha. destruct (K3 Ha) as (Ho & j & d & p & E1 & E2 & E3 & E4 & E5). split; [done|].
    destruct (decide (i = j)) as [<-|Hne].
    + exists i, c', p. rewrite list_lookup_insert_eq by done. rewrite Hi in E2. injection E2 as <-. by rewrite Hp, Hw by done.
    + exists j, d, p. by rewrite list_lookup_insert_ne.
  - intros j d Hj Hd. destruct (decide (i = j)) as [<-|Hne].
    + rewrite list_lookup_insert_eq in Hj by done. injection Hj as <-. apply (K4 i c); [done|by rewrite <- Hw].
    + rewrite list_lookup_insert_ne in Hj by done. by apply (K4 j d).
Qed.

Section Safety.
Context {E F L W : Type} `{IoHooks E} `{UdpHooks E} `{IoFlash F} `{Lfs L} `{TcpStack W} `{TcpSnd W} `{TcpRcv W}.
Context (fw_keyhash : list Z) (boot_set_pending : bool → F → Z * F).
Context (set_reboot_status : bool → E → E) (web_info : E → info) (index_html_gz : list Z).
Abbreviation SYS := (wsys E F (hw L W)).
Abbreviation MH := (M SYS).

Definition http_inv (s : SYS) : Prop := link_ok (http_conns (wnet s)) (ws_conn (wnet s)) (ws s).

Definition same_link (s s' : SYS) : Prop :=
  http_conns (wnet s') = http_conns (wnet s) ∧ ws_conn (wnet s') = ws_conn (wnet s) ∧
  active (ws s') = active (ws s) ∧ Ws.pcb (ws s') = Ws.pcb (ws s) ∧ on_close (ws s') = on_close (ws s).

(** a property of the connections and the flags of the session *)
Definition of_link (P : SYS → Prop) : Prop := ∀ s s', same_link s s' → P s → P s'.

Lemma inv_of_link : of_link http_inv.
Proof.
  intros s s' (E1 & E2 & E3 & E4 & E5) [K1 K2 K3 K4 K5]. unfold http_inv. rewrite E1, E2.
  constructor; rewrite ?E3, ?E4, ?E5; done.
Qed.

Section Frame.
Context (P : SYS → Prop) (HP : of_link P).

Lemma fr_regs {A} (m : M (regs E) A) : preserves P (@on_regs E F (hw L W) A m).
Proof. intros s Hs. unfold on_regs, zoom. destruct (m (wregs s)). by apply (HP s). Qed.
Lemma fr_hist {A} (g : @hsys L → A * @hsys L) : preserves P (@call_hist E F L W A g).
Proof. intros s Hs. unfold call_hist, call_wnet. destruct (g (hhist (wnet s))). by apply (HP s). Qed.
Lemma fr_upd_hist (g : @hsys L → @hsys L) : preserves P (@upd_hist E F L W g).
Proof. apply fr_hist. Qed.
Lemma fr_fw {A} (g : F → upg → A * F * upg) : preserves P (@call_fw E F (hw L W) A g).
Proof. intros s Hs. unfold call_fw. destruct (g (wflash s) (wfw s)) as [[a f] u]. by apply (HP s). Qed.
Lemma fr_q o : preserves P (@q_send E F (hw L W) o).
Proof. intros s Hs. unfold q_send. destruct (fw_op_q s) as [q|]; [|done]. destruct (length q <? 4)%nat; [|done]. by apply (HP s). Qed.
Lemma fr_write p bs : preserves P (@call_wnet E F (hw L W) err_t (tcp_write p bs)).
Proof. intros s Hs. unfold call_wnet. cbn. destruct (tcp_write p bs (hnet (wnet s))). by apply (HP s). Qed.
Lemma fr_output p : preserves P (@upd_net E F (hw L W) (tcp_output p)).
Proof. intros s Hs. by apply (HP s). Qed.
Lemma fr_recved p n : preserves P (@recved E F L W _ p n).
Proof. intros s Hs. by apply (HP s). Qed.
Lemma fr_abort p : preserves P (@upd_net E F (hw L W) (tcp_abort p)).
Proof. intros s Hs. by apply (HP s). Qed.
Lemma fr_reply j : preserves P (modify (@fw_reply_from_worker E F (hw L W) j)).
Proof. intros s Hs. by apply (HP s). Qed.
Lemma fr_session g :
  (∀ x, active (g x) = active x ∧ Ws.pcb (g x) = Ws.pcb x ∧ on_close (g x) = on_close x) → preserves P (@upd_ws E F (hw L W) g).
Proof. intros Hg s Hs. apply (HP s); [|done]. by destruct (Hg (ws s)) as (? & ? & ?). Qed.
End Frame.

(** the connection at [i], and the state with another one there *)
Definition cat (i : nat) (s : SYS) : http_conn := default conn_boot (http_conns (wnet s) !! i).
Definition put (i : nat) (c : http_conn) (s : SYS) : SYS :=
  mk_wsys (ws s) (wregs s) (wfw s) (wflash s) (mk_hw (<[i := c]> (http_conns (wnet s))) (ws_conn (wnet s)) (hhist (wnet s)) (hnet (wnet s)))
    (fw_op_q s) (fw_replies s) (fw_reply_idx s) (fw_posted s) (fw_swap s).

Lemma conn_at_run i (s : SYS) : conn_at i s = (Done (cat i s), s).
Proof. done. Qed.
Lemma upd_conn_run i g (s : SYS) : upd_conn i g s = (Done tt, put i (g (cat i s)) s).
Proof.
  unfold upd_conn, upd_net, modify, put, cat. do 2 f_equal. f_equal. apply list_eq. intros j.
  destruct (decide (i = j)) as [<-|Hne].
  - rewrite list_lookup_alter_eq. destruct (http_conns (wnet s) !! i) as [c|] eqn:Ei; cbn [fmap option_fmap option_map default id].
    + rewrite list_lookup_insert_eq; [done|]. by eapply lookup_lt_Some.
    + rewrite list_insert_ge; [done|]. by apply lookup_ge_None.
  - by rewrite list_lookup_alter_ne, list_lookup_insert_ne by done.
Qed.

Lemma inv_lookup i s : http_inv s → (i < HTTP_MAX_CONN)%nat → http_conns (wnet s) !! i = Some (cat i s).
Proof. intros Hs Hi. unfold cat. destruct (lookup_lt_is_Some_2 (http_conns (wnet s)) i) as [c ->]; [rewrite (ln_len _ _ _ Hs); exact Hi|done]. Qed.
Lemma inv_conn i s : http_inv s → conn_ok (cat i s).
Proof.
  intros Hs. unfold cat. destruct (http_conns (wnet s) !! i) eqn:Ei; [|apply conn_boot_ok].
  eapply Forall_lookup_1; [apply (ln_conns _ _ _ Hs)|done].
Qed.
Lemma cat_put i c s : (i < length (http_conns (wnet s)))%nat → cat i (put i c s) = c.
Proof. intros Hi. unfold cat, put; cbn. by rewrite list_lookup_insert_eq. Qed.

(** an open connection is one of the slots *)
Lemma open_slot i s : http_inv s → pcb (cat i s) ≠ None → http_conns (wnet s) !! i = Some (cat i s).
Proof. intros Hs. unfold cat. by destruct (http_conns (wnet s) !! i). Qed.

Lemma put_inv i c s : http_inv s → conn_ok c → (is_ws (cat i s) = true → pcb c = pcb (cat i s)) → is_ws c = is_ws (cat i s) → http_inv (put i c s).
Proof.
  intros Hs Hc Hp Hw. unfold http_inv, put; cbn. destruct (http_conns (wnet s) !! i) as [c0|] eqn:Ei.
  - unfold cat in Hp, Hw. rewrite Ei in Hp, Hw. by eapply link_update.
  - rewrite list_insert_ge; [done|]. by apply lookup_ge_None.
Qed.

Lemma conn_close_inv i : preserves http_inv (@conn_close E F L W _ _ i).
Proof.
  intros s Hs. unfold conn_close. rewrite (bind_done _ _ _ _ _ (conn_at_run i s)).
  destruct (http_conns (wnet s) !! i) as [c|] eqn:Ei.
  - unfold cat. rewrite Ei. cbn [default id]. pose proof (link_close _ _ _ _ _ Hs Ei) as Hl.
    destruct (is_ws c) eqn:Ew; (erewrite bind_done by reflexivity); unfold http_inv; cbn; unfold close_w; rewrite Ei, Ew; exact Hl.
  - unfold cat. rewrite Ei. cbn [default id is_ws conn_boot]. erewrite bind_done by reflexivity.
    unfold http_inv; cbn. unfold close_w. by rewrite Ei.
Qed.

Lemma ws_close_inv : preserves http_inv (@ws_close_session E F (hw L W) ws_closed_cb).
Proof.
  intros s Hs. unfold ws_close_session. erewrite bind_done by reflexivity. destruct (active (ws s)) eqn:Ha; cbn [negb]; [|done].
  destruct (ln_active _ _ _ Hs Ha) as (Ho & i & c & p & E1 & E2 & E3 & _).
  erewrite bind_done by reflexivity. rewrite Ho. pose proof (link_close _ _ _ _ _ Hs E2) as Hl. rewrite E3, E1 in Hl.
  rewrite bool_decide_eq_true_2 in Hl by done. unfold http_inv; cbn. unfold ws_closed_cb. rewrite E1. unfold close_w. cbn [http_conns].
  rewrite E2, E3. cbn [http_conns ws_conn]. exact Hl.
Qed.

Hint Resolve inv_of_link fr_regs fr_hist fr_upd_hist fr_fw fr_q fr_write fr_output fr_recved fr_reply conn_close_inv ws_close_inv : effects.

(** *** The session of [Ws.v] *)

Section Session.
Context (P : SYS → Prop) (HP : of_link P) (HC : preserves P (@ws_close_session E F (hw L W) ws_closed_cb)).
Hint Resolve HP HC : effects.

Lemma ws_send_inv opcode data : preserves P (@ws_send E F (hw L W) _ _ opcode data).
Proof. unfold ws_send. walk. Qed.
Hint Resolve ws_send_inv : effects.
Lemma ws_send_json_inv json : preserves P (@ws_send_json E F (hw L W) _ _ json).
Proof. apply ws_send_inv. Qed.
Lemma ws_send_built_inv r : preserves P (@ws_send_built E F (hw L W) _ _ r).
Proof. unfold ws_send_built. walk. Qed.
Hint Resolve ws_send_json_inv ws_send_built_inv : effects.
Lemma ws_cmd_inv now cmd len : preserves P (@ws_handle_cmd E F (hw L W) _ _ _ _ set_reboot_status now cmd len).
Proof. unfold ws_handle_cmd, cmd_fw_start, cmd_fw_end. walk. Qed.
Hint Resolve ws_cmd_inv : effects.
Lemma ws_session_inv g :
  (∀ x, active (g x) = active x ∧ Ws.pcb (g x) = Ws.pcb x ∧ on_close (g x) = on_close x) → preserves P (@upd_ws E F (hw L W) g).
Proof. by apply fr_session. Qed.
Lemma ws_frame_inv now : preserves P (@ws_frame_done E F (hw L W) _ _ _ _ _ set_reboot_status ws_closed_cb now).
Proof. unfold ws_frame_done, frame_text, frame_binary. walk; by apply ws_session_inv. Qed.
Hint Resolve ws_frame_inv : effects.
Lemma ws_feed_inv now data : preserves P (@ws_feed E F (hw L W) _ _ _ _ _ set_reboot_status ws_closed_cb now data).
Proof.
  unfold ws_feed. apply preserves_bind; [auto with effects|]. intros x. case_match; [auto with effects|].
  induction data as [|b data IH]; cbn [feed_loop]; [auto with effects|]. walk; by apply ws_session_inv.
Qed.
Lemma ws_poll_inv now : preserves P (@ws_poll E F (hw L W) _ _ _ web_info now).
Proof. unfold ws_poll. walk; by apply ws_session_inv. Qed.
Lemma ws_reply_inv : preserves P (@ws_fw_reply_cb E F (hw L W) _ _).
Proof. unfold ws_fw_reply_cb. walk. intros s Hs. by apply (HP s). Qed.
Lemma ws_task_inv : preserves P (@ws_fw_task E F (hw L W) _ fw_keyhash boot_set_pending).
Proof. unfold ws_fw_task, fw_exec_op. walk; intros s Hs; by apply (HP s). Qed.
Lemma ws_reboot_inv : preserves P (@ws_fw_reboot E F (hw L W) set_reboot_status).
Proof. unfold ws_fw_reboot. walk. intros s Hs; by apply (HP s). Qed.
Hint Resolve ws_feed_inv ws_poll_inv ws_reply_inv ws_task_inv ws_reboot_inv : effects.

Lemma feed_chain_inv now chain : preserves P (@feed_chain E F L W _ _ _ _ _ _ set_reboot_status now chain).
Proof. induction chain as [|q chain IH]; cbn [feed_chain]; walk. Qed.
Hint Resolve feed_chain_inv : effects.
End Session.
Hint Resolve ws_send_inv ws_feed_inv ws_poll_inv ws_reply_inv ws_task_inv ws_reboot_inv feed_chain_inv : effects.

(** *** The send pump *)

(** what a turn of the pump leaves alone *)
Definition pumped (c c' : http_conn) : Prop :=
  crx c' = crx c ∧ pcb c' = pcb c ∧ is_ws c' = is_ws c ∧ kind (rsp c') = kind (rsp c) ∧ keep_alive (rsp c') = keep_alive (rsp c) ∧
  acked (rsp c') = acked (rsp c) ∧ hdr (rsp c') = hdr (rsp c) ∧ (0 < rsp_total (rsp c) → 0 < rsp_total (rsp c')).

Lemma zlen_piece from snd s : 0 ≤ from ≤ zlen s → 0 ≤ snd → 0 ≤ zlen (piece from snd s) ≤ zlen s - from.
Proof. intros Hf Hs. unfold piece, zlen in *. rewrite length_take, length_drop. lia. Qed.

Lemma sent_hdr_ok n c : conn_ok c → 0 ≤ n ≤ zlen (hdr (rsp c)) - hdr_sent (rsp c) → conn_ok (upd_rsp (sent_hdr n) c) ∧ pumped c (upd_rsp (sent_hdr n) c).
Proof.
  intros [Hrx Hb [R1 R2 R3 R4] Hd Hf] Hn. split; [|by split_and!]. constructor; try done. unfold HTTP_HDR_MAX in *.
  constructor; cbn; try done. rewrite u16_id by (apply is_u16_iff; lia). lia.
Qed.

Lemma sent_body_ok n c :
  conn_ok c → kind (rsp c) = RESP_MEM → body_sent (rsp c) < zlen (body (rsp c)) → 0 ≤ n ≤ zlen (body (rsp c)) - body_sent (rsp c) →
  conn_ok (upd_rsp (sent_body n) c) ∧ pumped c (upd_rsp (sent_body n) c).
Proof.
  intros [Hrx Hb [R1 R2 R3 R4] Hd Hf] Hk Hl Hn. split; [|by split_and!]. destruct R3 as [B1 B]. destruct (B Hk) as (B2 & B3).
  constructor; try done. constructor; cbn; try done. rewrite u32_id by ulia. split; [lia|]. intros _. split; [done|left; lia].
Qed.

Lemma sent_chunk_ok n c : conn_ok c → 0 ≤ n ≤ zlen (dl_chunk (dl c)) - dl_chunk_off (dl c) → conn_ok (sent_chunk n c) ∧ pumped c (sent_chunk n c).
Proof.
  intros [Hrx Hb [R1 R2 R3 R4] [D1 D2 D3] Hf] Hn. split; [|by split_and!]. unfold HTTP_DL_CHUNK in *. constructor; try done.
  constructor; cbn; try done. rewrite u16_id by (apply is_u16_iff; lia). lia.
Qed.

Section Pump.
(** a property of the connection that the pump keeps while it is open *)
Context (i : nat) (Q : http_conn → Prop).
Context (HQ : ∀ c c', Q c → pumped c c' → Q c') (Hkind : ∀ c, Q c → kind (rsp c) ≠ RESP_NONE).
(** the file system returns at most what it was asked for *)
Context (Hread : reads_fit L).

Definition open_in (s : SYS) : Prop := http_inv s ∧ pcb (cat i s) ≠ None ∧ Q (cat i s).
Definition pump_inv (s : SYS) : Prop := http_inv s ∧ (pcb (cat i s) = None ∨ open_in s).

(** the outcome of a loop: open, or closed *)
Definition pump_ends (r : outcome bool * SYS) : Prop :=
  match r with (Done true, s) => open_in s | (Done false, s) => http_inv s ∧ pcb (cat i s) = None | (Reset, _) => False end.

Lemma open_same s s' : same_link s s' → open_in s → open_in s'.
Proof. intros Hl [Hi Hq]. split; [by apply (inv_of_link s)|]. destruct Hl as (E1 & _). unfold cat. rewrite E1. exact Hq. Qed.

Lemma open_put c' s : open_in s → conn_ok c' → pumped (cat i s) c' → open_in (put i c' s).
Proof.
  intros (Hi & Hp & Hq) Hc Hpu. pose proof Hpu as (_ & E2 & E3 & _). assert (cat i (put i c' s) = c') as Hcat.
  { apply cat_put. pose proof (open_slot _ _ Hi Hp) as Hl. by eapply lookup_lt_Some. }
  split; [by apply put_inv|]. rewrite Hcat, E2. split; [done|]. by eapply HQ.
Qed.

Lemma close_ends s : http_inv s → ∃ s', conn_close i s = (Done tt, s') ∧ http_inv s' ∧ pcb (cat i s') = None.
Proof.
  intros Hs. pose proof (conn_close_inv i s Hs) as Hi. destruct (conn_close i s) as [[[]|] s'] eqn:Es.
  - exists s'. split_and!; [done|done|]. unfold conn_close in Es. rewrite (bind_done _ _ _ _ _ (conn_at_run i s)) in Es.
    assert (∃ s1, (if is_ws (cat i s) then ws_detach else mret tt) s = (Done tt, s1) ∧ wnet s1 = wnet s) as (s1 & E1 & Ew).
    { destruct (is_ws (cat i s)); by eexists. }
    rewrite (bind_done _ _ _ _ _ E1) in Es. injection Es as <-. unfold cat; cbn. rewrite Ew. unfold close_w.
    destruct (http_conns (wnet s) !! i) as [c|] eqn:Ei; [|by rewrite Ei]. cbn. rewrite list_lookup_insert_eq; [done|]. by eapply lookup_lt_Some.
  - unfold conn_close in Es. rewrite (bind_done _ _ _ _ _ (conn_at_run i s)) in Es. by destruct (is_ws (cat i s)).
Qed.

Lemma push_ends p bs done go s :
  open_in s → (conn_ok (cat i s) → conn_ok (done (cat i s)) ∧ pumped (cat i s) (done (cat i s))) →
  (∀ s', open_in s' → dl (cat i s') = dl (done (cat i s)) → rsp (cat i s') = rsp (done (cat i s)) → pump_ends (go s')) →
  pump_ends (push i p bs done go s).
Proof.
  intros Hs Hd Hgo. unfold push. set (s1 := (call_wnet (tcp_write p bs) s).2).
  assert (∃ e, call_wnet (tcp_write p bs) s = (Done e, s1) ∧ same_link s s1) as (e & He & Hl).
  { unfold s1, call_wnet; cbn. destruct (tcp_write p bs (hnet (wnet s))). by eexists. }
  rewrite (bind_done _ _ _ _ _ He). pose proof (open_same _ _ Hl Hs) as Ho1. destruct (Hd (inv_conn _ _ (proj1 Hs))) as [Hc Hp].
  assert (cat i s1 = cat i s) as Ecat by (unfold cat; by rewrite (proj1 Hl)).
  destruct e; try exact Ho1.
  - rewrite (bind_done _ _ _ _ _ (upd_conn_run i done s1)). rewrite Ecat.
    pose proof (open_put (done (cat i s)) s1 Ho1 Hc ltac:(by rewrite Ecat)) as Hput.
    assert (cat i (put i (done (cat i s)) s1) = done (cat i s)) as E2.
    { apply cat_put. destruct Ho1 as (Hi1 & Hp1 & _). eapply lookup_lt_Some. by apply open_slot. }
    apply Hgo; [done|by rewrite E2..].
  - destruct (close_ends s1 (proj1 Ho1)) as (s2 & E2 & H2' & H2''). by rewrite (bind_done _ _ _ _ _ E2).
  - destruct (close_ends s1 (proj1 Ho1)) as (s2 & E2 & H2' & H2''). by rewrite (bind_done _ _ _ _ _ E2).
Qed.

Lemma sndbuf_run p (s : SYS) : sndbuf p s = (Done (u16 (tcp_sndbuf p (wnet s))), s).
Proof. done. Qed.

Lemma pump_hdr_ends n p s : open_in s → pump_ends (pump_hdr n i p s).
Proof.
  revert s. induction n as [|n IH]; intros s Hs; cbn [pump_hdr]; [exact Hs|]. rewrite (bind_done _ _ _ _ _ (conn_at_run i s)).
  cbv zeta. destruct (hdr_sent _ <? _); [|exact Hs]. rewrite (bind_done _ _ _ _ _ (sndbuf_run p s)).
  destruct (_ =? 0); [exact Hs|]. apply push_ends; [done| |intros s' Hs' _ _; by apply IH]. intros Hc.
  pose proof (u16_range (tcp_sndbuf p (wnet s))). apply sent_hdr_ok; [done|]. apply zlen_piece; [apply (rsp_hdr_sent _ (co_rsp _ Hc))|ulia].
Qed.

Lemma pump_mem_ends n p s : open_in s → kind (rsp (cat i s)) = RESP_MEM → pump_ends (pump_mem n i p s).
Proof.
  revert s. induction n as [|n IH]; intros s Hs Hk; cbn [pump_mem]; [exact Hs|]. rewrite (bind_done _ _ _ _ _ (conn_at_run i s)).
  cbv zeta. destruct (hdr_sent _ <? _) eqn:Eh; cbn [orb].
  - rewrite (bind_done _ _ _ _ _ (sndbuf_run p s)). destruct (_ =? 0); [exact Hs|]. pose proof (u16_range (tcp_sndbuf p (wnet s))).
    apply push_ends; [done| |].
    + intros Hc. apply sent_hdr_ok; [done|]. apply zlen_piece; [apply (rsp_hdr_sent _ (co_rsp _ Hc))|ulia].
    + intros s' Hs' _ Er. apply IH; [done|]. by rewrite Er.
  - destruct (body_sent _ <? _) eqn:Eb; [|exact Hs]. apply Z.ltb_lt in Eb.
    rewrite (bind_done _ _ _ _ _ (sndbuf_run p s)). destruct (_ =? 0); [exact Hs|]. pose proof (u16_range (tcp_sndbuf p (wnet s))).
    apply push_ends; [done| |].
    + intros Hc. apply sent_body_ok; [done|done|done|]. destruct (rsp_body _ (co_rsp _ Hc)) as (B1 & _). apply zlen_piece; [lia|ulia].
    + intros s' Hs' _ Er. apply IH; [done|]. by rewrite Er.
Qed.

(** the outcome of reading on: the connection is still open *)
Lemma next_chunk_ends s :
  open_in s → kind (rsp (cat i s)) = RESP_FILE →
  ∃ r s', next_chunk i s = (Done r, s') ∧ open_in s' ∧ kind (rsp (cat i s')) = RESP_FILE.
Proof.
  intros Hs Hk. unfold next_chunk. rewrite (bind_done _ _ _ _ _ (conn_at_run i s)). cbv zeta.
  destruct (negb _); [by eexists _, _|]. destruct (_ <=? _) eqn:El; [by eexists _, _|]. apply Z.leb_gt in El.
  set (want := Z.min _ _). set (s1 := (call_hist (history_web_read want) s).2).
  assert (∃ r, call_hist (history_web_read want) s = (Done r, s1) ∧ same_link s s1 ∧ (0 ≤ want → r.1 ≤ want)) as (r & Er & Hl & Hr).
  { unfold s1, call_hist, call_wnet; cbn. unfold history_web_read. destruct (negb _); cbn; [eexists; split_and!; [done|done|cbn; lia]|].
    pose proof (Hread want (his_fs (hist_core (hhist (wnet s))))) as Hw.
    destruct (lfs_file_read _ _ _) as [[r bs] l]. cbn in *. eexists. by split_and!. }
  rewrite (bind_done _ _ _ _ _ Er). pose proof (open_same _ _ Hl Hs) as Ho1.
  assert (cat i s1 = cat i s) as Ecat by (unfold cat; by rewrite (proj1 Hl)).
  destruct (inv_conn i s (proj1 Hs)) as [Crx Cb [R1 R2 R3 R4] [D1 D2 D3] Cf]. assert (0 ≤ want) as Hw by (unfold want, HTTP_DL_CHUNK; lia).
  specialize (Hr Hw). destruct (r.1 <? 0) eqn:E0; [eexists _, _; split; [done|]; by rewrite Ecat|].
  assert (∀ g, conn_ok (g (cat i s1)) → pumped (cat i s1) (g (cat i s1)) → ∀ b : bool,
    ∃ s', (upd_conn i g;; mret (Some b)) s1 = (Done (Some b), s') ∧ open_in s' ∧ kind (rsp (cat i s')) = RESP_FILE) as Hput.
  { intros g Hc Hp b. rewrite (bind_done _ _ _ _ _ (upd_conn_run i g s1)). eexists. split; [done|].
    pose proof (open_put _ _ Ho1 Hc Hp) as Hput. split; [done|]. rewrite cat_put; [|eapply lookup_lt_Some, open_slot; apply Ho1].
    destruct Hp as (_ & _ & _ & -> & _). by rewrite Ecat. }
  apply Z.ltb_ge in E0. destruct (r.1 =? 0) eqn:E1.
  - edestruct Hput as (s' & E' & Ho' & Hk'); [| |eexists _, _; split; [exact E'|done]]; rewrite Ecat.
    + constructor; try done. constructor; cbn; try done. lia.
    + split_and!; try done. cbn. intros _. specialize (R4 ltac:(by rewrite Hk)). unfold HTTP_HDR_MAX in R1. rewrite u32_id by ulia. lia.
  - apply Z.eqb_neq in E1. edestruct Hput as (s' & E' & Ho' & Hk'); [| |eexists _, _; split; [exact E'|done]]; rewrite Ecat; [|by split_and!].
    constructor; try done. assert (zlen (take (Z.to_nat r.1) r.2) ≤ r.1) as Hz by (unfold zlen; rewrite length_take; lia).
    pose proof (zlen_nonneg (take (Z.to_nat r.1) r.2)). unfold want, HTTP_DL_CHUNK in *.
    constructor; cbn; [|unfold HTTP_DL_CHUNK; lia|lia]. rewrite u32_id by ulia. lia.
Qed.

Lemma pump_data_ends n p m s : open_in s → kind (rsp (cat i s)) = RESP_FILE → pump_ends (pump_data n i p m s).
Proof.
  revert s. induction n as [|n IH]; intros s Hs Hk; cbn [pump_data]; [exact Hs|]. rewrite (bind_done _ _ _ _ _ (conn_at_run i s)).
  destruct (_ <? _); [|exact Hs]. destruct (next_chunk_ends s Hs Hk) as (r & s1 & E1 & Hs1 & Hk1). rewrite (bind_done _ _ _ _ _ E1).
  destruct r as [[|]|]; [|exact Hs1|].
  - rewrite (bind_done _ _ _ _ _ (sndbuf_run p s1)). rewrite (bind_done _ _ _ _ _ (conn_at_run i s1)).
    destruct (_ =? 0); [exact Hs1|]. pose proof (u16_range (tcp_sndbuf p (wnet s1))). apply push_ends; [done| |].
    + intros Hc. apply sent_chunk_ok; [done|]. apply zlen_piece; [apply (dl_off _ (co_dl _ Hc))|ulia].
    + intros s' Hs' _ Er. apply IH; [done|]. by rewrite Er.
  - destruct (close_ends s1 (proj1 Hs1)) as (s2 & E2 & H2' & H2''). by rewrite (bind_done _ _ _ _ _ E2).
Qed.

Lemma pump_bind (m : MH bool) (f : bool → MH bool) s :
  pump_ends (m s) → (∀ s', open_in s' → pump_ends (f true s')) → (∀ s', f false s' = (Done false, s')) →
  pump_ends ((m ≫= f) s).
Proof.
  intros Hm Ht Hf. unfold mbind, M_bind. destruct (m s) as [[[|]|] s'] eqn:Em; [by apply Ht| |done]. by rewrite Hf.
Qed.

Lemma output_ends p s : open_in s → pump_ends ((upd_net (tcp_output p);; mret true) s).
Proof. intros Hs. erewrite bind_done by reflexivity. apply (open_same s); [|done]. by split_and!. Qed.

Lemma pump_file_ends p s : open_in s → (∀ c, Q c → kind (rsp c) = RESP_FILE) → pump_ends (pump_file i p s).
Proof.
  intros Hs HF. unfold pump_file. erewrite bind_done by reflexivity. rewrite (bind_done _ _ _ _ _ (conn_at_run i s)).
  apply pump_bind; [by apply pump_hdr_ends| |done]. intros s1 Hs1. cbn [negb]. rewrite (bind_done _ _ _ _ _ (conn_at_run i s1)).
  destruct (_ <? _); [by apply output_ends|]. apply pump_bind; [|intros s2 Hs2; by apply output_ends|done].
  apply pump_data_ends; [done|]. apply HF, Hs1.
Qed.
End Pump.

(** *** The end of a response, and the whole pump *)

Section ConnPump.
Context (Hread : reads_fit L).

(** a connection in state [c], open *)
Definition serving (i : nat) (Q : http_conn → Prop) (s : SYS) : Prop := http_inv s ∧ pcb (cat i s) ≠ None ∧ Q (cat i s).

Lemma pump_ends_conseq i (Q Q' : http_conn → Prop) r : (∀ c, Q c → Q' c) → pump_ends i Q r → pump_ends i Q' r.
Proof. intros HQ. destruct r as [[[|]|] s]; cbn; [|done..]. intros (H1' & H2' & H3'). split_and!; auto. Qed.

(** what the pump leaves behind before it looks for the end of the response *)
Definition pump_send (i : nat) (p : Z) (c : http_conn) : MH bool :=
  match kind (rsp c) with
  | RESP_NONE => mret false
  | RESP_FILE => pump_file i p
  | RESP_MEM => ok ← pump_mem (S (length (hdr (rsp c) ++ body (rsp c)))) i p; if ok : bool then upd_net (tcp_output p);; mret true else mret false
  end.

Lemma pump_send_ends i Q p s :
  (∀ c c', Q c → pumped c c' → Q c') → serving i Q s → kind (rsp (cat i s)) ≠ RESP_NONE → pump_ends i Q (pump_send i p (cat i s) s).
Proof.
  intros HQ (Hi & Hp & Hq) Hk. unfold pump_send. destruct (kind (rsp (cat i s))) eqn:Ek; [done| |].
  - set (Q' c := Q c ∧ kind (rsp c) = RESP_MEM).
    assert (∀ c c', Q' c → pumped c c' → Q' c') as HQ'.
    { intros c c' [HQc Hkc] Hpu. split; [by eapply HQ|]. destruct Hpu as (_ & _ & _ & -> & _). done. }
    apply (pump_ends_conseq _ Q'); [by intros c []|].
    apply pump_bind; [|intros s' Hs'; by apply output_ends|done]. apply pump_mem_ends; [exact HQ'|by split_and!|done].
  - set (Q' c := Q c ∧ kind (rsp c) = RESP_FILE).
    assert (∀ c c', Q' c → pumped c c' → Q' c') as HQ'.
    { intros c c' [HQc Hkc] Hpu. split; [by eapply HQ|]. destruct Hpu as (_ & _ & _ & -> & _). done. }
    apply (pump_ends_conseq _ Q'); [by intros c []|].
    apply pump_file_ends; first [exact HQ'|exact Hread|by split_and!|by intros c []|by intros c [_ ->]].
Qed.

Lemma conn_pump_send reenter now i p (s : SYS) :
  pcb (cat i s) = Some p → kind (rsp (cat i s)) ≠ RESP_NONE →
  conn_pump reenter now i s = (ok ← pump_send i p (cat i s); if ok : bool then pump_done reenter now i else mret tt) s.
Proof.
  intros Hp Hk. unfold conn_pump. rewrite (bind_done _ _ _ _ _ (conn_at_run i s)). rewrite Hp. unfold pump_send.
  destruct (kind (rsp (cat i s))); [done| |done]. unfold mbind, M_bind. destruct (pump_mem _ i p s) as [[[|]|] s1]; done.
Qed.

Lemma conn_pump_none reenter now i (s : SYS) :
  pcb (cat i s) = None ∨ kind (rsp (cat i s)) = RESP_NONE → conn_pump reenter now i s = (Done tt, s).
Proof.
  intros Hn. unfold conn_pump. rewrite (bind_done _ _ _ _ _ (conn_at_run i s)). destruct (pcb (cat i s)); [|done].
  by destruct Hn as [?| ->].
Qed.

(** a fresh answer: no acknowledgement yet, so the response does not end here *)
Lemma conn_pump_fresh Q now i s :
  (∀ c c', Q c → pumped c c' → Q c') → (∀ c, Q c → idle_or_fresh c) → serving i Q s →
  ∃ s', (∀ reenter, conn_pump reenter now i s = (Done tt, s')) ∧ http_inv s' ∧ (pcb (cat i s') = None ∨ serving i Q s').
Proof.
  intros HQ Hf Hs. pose proof Hs as (Hi & Hp & Hq). destruct (pcb (cat i s)) as [p|] eqn:Ep; [|done].
  destruct (decide (kind (rsp (cat i s)) = RESP_NONE)) as [Hk|Hk].
  { exists s. split; [intros; by apply conn_pump_none; right|]. split; [done|by right]. }
  pose proof (pump_send_ends i Q p s HQ) as He. destruct (pump_send i p (cat i s) s) as [[[|]|] s1] eqn:Es.
  - destruct He as (H1' & H2' & H3'); [by split_and!; rewrite ?Ep|done|]. exists s1. split; [|split; [done|by right]].
    intros reenter. rewrite (conn_pump_send _ _ _ p) by done. rewrite (bind_done _ _ _ _ _ Es). unfold pump_done.
    rewrite (bind_done _ _ _ _ _ (conn_at_run i s1)). cbv zeta.
    pose proof (Hf _ H3') as Hfr. assert (kind (rsp (cat i s1)) ≠ RESP_NONE → acked (rsp (cat i s1)) = 0 ∧ 0 < rsp_total (rsp (cat i s1))) as Hfr'.
    { intros Hk1. by destruct Hfr. }
    destruct (decide (kind (rsp (cat i s1)) = RESP_NONE)) as [Hk1|Hk1].
    + exfalso. pose proof (pump_send_ends i (λ c, kind (rsp c) ≠ RESP_NONE) p s) as Hk2. rewrite Es in Hk2.
      destruct Hk2 as (_ & _ & Hk2); [|by split_and!; rewrite ?Ep|done|done]. intros c c' Hc (_ & _ & _ & -> & _). done.
    + destruct (Hfr' Hk1) as [Ha Ht]. rewrite Ha. replace (rsp_total (rsp (cat i s1)) <=? 0) with false by lia. by rewrite andb_false_r.
  - destruct He as (H1' & H2'); [by split_and!; rewrite ?Ep|done|]. exists s1. split; [|split; [done|by left]].
    intros reenter. rewrite (conn_pump_send _ _ _ p) by done. by rewrite (bind_done _ _ _ _ _ Es).
  - exfalso. apply He; [by split_and!; rewrite ?Ep|done].
Qed.
End ConnPump.

(** *** Answering a request *)

Section Answer.
Context (Hpage : zlen index_html_gz < 2 ^ 31).
Context (i : nat) (x : http_rx).

(** an open connection with this request, which is not answered yet or just now *)
Definition asked (c : http_conn) : Prop := is_ws c = false ∧ crx c = x ∧ idle_or_fresh c.
Abbreviation SV := (serving i asked).

Lemma serving_of_link : of_link SV.
Proof.
  intros s s' Hl (Hi & Hp & Hq). split; [by apply (inv_of_link s)|]. destruct Hl as (E1 & _). unfold cat. by rewrite E1.
Qed.

Lemma serving_put c s : SV s → conn_ok c → answered (cat i s) c → SV (put i c s).
Proof.
  intros (Hi & Hp & Hw & Hx & _) Hc (E1 & E2 & E3 & E4). split; [by apply put_inv|].
  rewrite cat_put by (eapply lookup_lt_Some; by apply open_slot). split; [by rewrite E2|]. split_and!; [by rewrite E3|by rewrite E1|done].
Qed.

Lemma serving_upd g :
  (∀ c, conn_ok c → pcb c ≠ None → conn_ok (g c) ∧ answered c (g c)) → preserves SV (@upd_conn E F L W i g).
Proof.
  intros Hg s Hs. rewrite upd_conn_run. pose proof Hs as (Hi & Hp & _). destruct (Hg (cat i s) (inv_conn _ _ Hi) Hp). by apply serving_put.
Qed.

Lemma serving_respond now status ctype data extra : zlen data < 2 ^ 31 → preserves SV (@upd_conn E F L W i (respond_mem now status ctype data extra)).
Proof. intros Hd. apply serving_upd. intros c Hc Hp. by apply respond_mem_ok. Qed.

Lemma json_err_short err : zlen err < 2 ^ 16 → zlen (json_err err) < 2 ^ 31.
Proof.
  intros He. unfold json_err. rewrite !zlen_app. assert (zlen (js "{'ok':false,'err':'") = 19 ∧ zlen (js "'}") = 2) as [-> ->] by (by vm_compute). lia.
Qed.
Lemma serving_err now status err : zlen err < 2 ^ 16 → preserves SV (@upd_conn E F L W i (respond_json_err now status err)).
Proof. intros He. unfold respond_json_err. apply serving_respond. exact (json_err_short err He). Qed.
Lemma serving_ok now : preserves SV (@upd_conn E F L W i (respond_json_ok now)).
Proof. unfold respond_json_ok. apply serving_respond. by vm_compute. Qed.
Lemma serving_answer now ok err : zlen (js err) < 2 ^ 16 → preserves SV (@answer E F L W now i ok err).
Proof.
  intros He. unfold answer, bad_request. destruct ok; [apply serving_ok|by apply serving_err].
Qed.

(** a builder never reports more than the buffer *)
Definition fits (r : option (Z * list Z)) : Prop := match r with Some (n, _) => n ≤ HTTP_BODY_BUF | None => True end.
Lemma serving_built now r : fits r → preserves SV (@respond_built E F L W now i r).
Proof.
  intros Hr. unfold respond_built. destruct r as [[n text]|]; [|apply preserves_ret]. apply serving_respond.
  unfold rd_n, zlen, fits, HTTP_BODY_BUF in *. rewrite length_fmap, length_seq. lia.
Qed.

Lemma built_page_fits st : fits (built HTTP_BODY_BUF st).
Proof. unfold built. destruct st as [[n out]|]; cbn; [|done]. destruct (HTTP_BODY_BUF <? n) eqn:El; lia. Qed.

(** the result of a computation on the registers *)
Definition yields {A} (m : M (regs E) A) (R : A → Prop) : Prop := triple (λ _, True) m (λ a _, R a).
Lemma yields_bind {A B} (m : M (regs E) A) (f : A → M (regs E) B) R : (∀ a, yields (f a) R) → yields (m ≫= f) R.
Proof. intros Hf. apply (triple_bind _ _ _ (λ _ _, True)); [|exact Hf]. intros r _. by destruct (m r) as [[]]. Qed.
Lemma yields_built st : yields (mret (built HTTP_BODY_BUF st)) fits.
Proof. intros r _. apply built_page_fits. Qed.

Lemma pages_fit now inf :
  yields (web_build_info_json HTTP_BODY_BUF now inf) fits ∧ yields (web_build_io_json HTTP_BODY_BUF now) fits ∧
  yields (web_build_regs_json HTTP_BODY_BUF) fits.
Proof.
  unfold web_build_info_json, web_build_io_json, web_build_regs_json.
  split_and!; repeat (apply yields_bind; intros); apply yields_built.
Qed.

Lemma regs_bind {A B} (m : M (regs E) A) (f : A → MH B) R : yields m R → (∀ a, R a → preserves SV (f a)) → preserves SV (on_regs m ≫= f).
Proof.
  intros Hm Hf s Hs. pose proof (fr_regs SV serving_of_link m s Hs) as Hp. specialize (Hm (wregs s) I).
  unfold mbind, M_bind, on_regs, zoom in *. destruct (m (wregs s)) as [[a|] r]; [|exact Hp]. by apply Hf.
Qed.

Lemma hist_bind {A B} (g : @hsys L → A * @hsys L) (f : A → MH B) (R : A → Prop) :
  (∀ h, R (g h).1) → (∀ a, R a → preserves SV (f a)) → preserves SV (call_hist g ≫= f).
Proof.
  intros Hg Hf s Hs. pose proof (fr_hist SV serving_of_link g s Hs) as Hp. specialize (Hg (hhist (wnet s))).
  unfold mbind, M_bind, call_hist, call_wnet in *. destruct (g (hhist (wnet s))) as [a h]. exact (Hf a Hg _ Hp).
Qed.

Lemma list_files_fit (h : @hsys L) : fits (list_files h).1.
Proof.
  unfold list_files. destruct (history_web_list_json _ h) as [[[n text] h']|] eqn:El; [|done]. cbn [fst fits].
  unfold history_web_list_json in El. destruct (negb _); [by injection El as <- _ _|]. cbv zeta in El.
  repeat (apply bind_Some in El as (? & _ & El)). injection El as <- _ _. destruct (HTTP_BODY_BUF <? _) eqn:Eb; lia.
Qed.

Lemma s32_range z : -2 ^ 31 ≤ s32 z < 2 ^ 31.
Proof. unfold s32. pose proof (u32_range z). destruct (u32 z <? 2 ^ 31) eqn:Eu; ulia. Qed.

Lemma serving_fail now : preserves SV (upd_hist history_web_close;; upd_conn i (bad_request now "invalid file name")).
Proof.
  apply preserves_bind; [apply fr_upd_hist, serving_of_link|]. intros _. unfold bad_request. apply serving_err. by vm_compute.
Qed.

Lemma serving_download now query : preserves SV (@download E F L W _ now i query).
Proof.
  pose proof (serving_fail now) as Hfail. unfold download. cbv zeta. destruct (match query with Some q => _ | None => None end) as [name|]; [|done].
  destruct (negb _); [done|]. apply (hist_bind _ _ (λ _, True)); [done|]. intros size0 _. set (size := s32 size0).
  destruct (size <? 0) eqn:E0; [done|]. intros s Hs. rewrite (bind_done _ _ _ _ _ (conn_at_run i s)).
  destruct (rsp_begin _ _ _ _ _ _ _) as [c'|] eqn:Ec.
  - pose proof (s32_range size0) as Hr. fold size in Hr.
    destruct (rsp_begin_ok _ _ _ _ _ _ _ _ Ec) as (E1 & E2 & E3 & E4 & E5 & E6 & E7 & E8 & E9 & E10 & E11); [lia|].
    rewrite upd_conn_run. pose proof Hs as (Hi & Hp & _). destruct (inv_conn i s Hi) as [Crx Cb Cr Cd Cf].
    apply serving_put; [done| |].
    + constructor; cbn; rewrite ?E1, ?E2, ?E3; try done; [|constructor; cbn; change (zlen (@nil Z)) with 0; unfold HTTP_DL_CHUNK; lia].
      constructor; cbn; rewrite ?E7, ?E8; try done; lia.
    + split_and!; try done. right. cbn. rewrite E10, E11. lia.
  - eapply preserves_bind; [apply fr_upd_hist, serving_of_link| |exact Hs]. intros _. apply serving_err. by vm_compute.
Qed.

Lemma cfg_err_short e : zlen (cfg_err_text e) < 2 ^ 16.
Proof. destruct e; by vm_compute. Qed.

Lemma serving_dispatch now method path query body len :
  preserves SV (@dispatch E F L W _ _ set_reboot_status web_info index_html_gz now i method path query body len).
Proof.
  pose proof serving_answer as Hans. pose proof cfg_err_short as Hcfg. pose proof (serving_download now query) as Hdl.
  assert (∀ (m : M (regs E) bool) err, zlen (js err) < 2 ^ 16 → preserves SV (ok ← on_regs m; answer now i ok err)) as Hcmd.
  { intros m err He. apply preserves_bind; [apply fr_regs, serving_of_link|]. intros ok. by apply Hans. }
  assert (∀ (m : M (regs E) unit), preserves SV (on_regs m;; upd_conn i (respond_json_ok now))) as Hok.
  { intros m. apply preserves_bind; [apply fr_regs, serving_of_link|]. intros _. apply serving_ok. }
  assert (∀ m : M (regs E) (option (Z * list Z)), yields m fits → preserves SV (r ← on_regs m; respond_built now i r)) as Hbuilt.
  { intros m Hm. apply (regs_bind _ _ fits Hm). intros r. apply serving_built. }
  unfold dispatch. cbv zeta.
  destruct (_ && _); [by apply serving_respond|].
  destruct (_ && _).
  { apply preserves_bind; [apply fr_regs, serving_of_link|]. intros inf. exact (Hbuilt _ (proj1 (pages_fit now inf))). }
  destruct (pages_fit now (mk_info 0 0 0 [] [] None 0 0 false)) as (_ & Hio & Hregs).
  destruct (_ && _); [exact (Hbuilt _ Hio)|]. destruct (_ && _); [exact (Hbuilt _ Hregs)|].
  destruct (_ && _); [apply (hist_bind _ _ fits); [apply list_files_fit|]; intros [[n text]|] Hn; [|apply preserves_ret];
    destruct (n <? 0); [apply serving_respond; by vm_compute|by apply serving_built]|].
  destruct (_ && _); [exact Hdl|].
  destruct (_ && _); [destruct (both _ _) as [[]|]; [apply Hcmd|apply Hans]; by vm_compute|].
  destruct (_ && _); [destruct (both _ _) as [[]|]; [apply Hcmd|apply Hans]; by vm_compute|].
  destruct (_ && _); [destruct (json_get_i32 _ _ _); [apply Hcmd|apply Hans]; by vm_compute|].
  destruct (_ && _); [apply Hok|]. destruct (_ && _); [apply Hok|].
  destruct (_ && _).
  { apply preserves_bind; [apply fr_regs, serving_of_link|]. intros [e|]; [apply serving_err, Hcfg|apply serving_ok]. }
  destruct (_ && _).
  { destruct (json_get_str _ _ _ _); [|apply Hans; by vm_compute]. destruct (history_web_name_valid _); [|apply Hans; by vm_compute].
    apply (hist_bind _ _ (λ _, True)); [done|]. intros r _. apply Hans. by vm_compute. }
  destruct (bool_decide _); [apply serving_err; by vm_compute|apply serving_respond; by vm_compute].
Qed.
End Answer.

(** *** One turn of the receive loop *)

Section Turn.
Context (Hpage : zlen index_html_gz < 2 ^ 31) (Hread : reads_fit L).
Context (now : Z) (i : nat).

Definition measure (c : http_conn) : nat := Z.to_nat (2 * rx_len (crx c)) + (if hdr_done (crx c) then 0 else 1).

(** the turn ends the loop, or goes on with less to read; the other turns do not matter for it *)
Definition turn_ends (s : SYS) (t : MH unit → MH unit) : Prop :=
  ∃ r s', (∀ next, t next s = (r, s')) ∧ http_inv s'.
Definition turn_goes_on (m : nat) (s : SYS) (t : MH unit → MH unit) : Prop :=
  ∃ s', (∀ next, t next s = next s') ∧ http_inv s' ∧ is_ws (cat i s') = false ∧ (measure (cat i s') < m)%nat.
Definition turn_spec (m : nat) (s : SYS) (t : MH unit → MH unit) : Prop := turn_ends s t ∨ turn_goes_on m s t.

Lemma turn_bind {A} (m : MH A) (f : (MH unit) → A → MH unit) k s :
  http_inv (m s).2 → (∀ a s', m s = (Done a, s') → turn_spec k s' (λ next, f next a)) → turn_spec k s (λ next, m ≫= f next).
Proof.
  intros Hi Hf. unfold mbind, M_bind. destruct (m s) as [[a|] s'] eqn:Em.
  - destruct (Hf a s' eq_refl) as [(r & s2 & Hr & H2')|(s2 & Hr & H2')].
    + left. exists r, s2. split; [|done]. intros next. cbn. rewrite Em. apply Hr.
    + right. exists s2. split; [|done]. intros next. cbn. rewrite Em. apply Hr.
  - left. exists Reset, s'. split; [|exact Hi]. intros next. cbn. by rewrite Em.
Qed.

Lemma turn_at (f : (MH unit) → http_conn → MH unit) k s :
  turn_spec k s (λ next, f next (cat i s)) → turn_spec k s (λ next, conn_at i ≫= f next).
Proof. done. Qed.

Lemma serving_weaken (Q Q' : http_conn → Prop) s : (∀ c, Q c → Q' c) → serving i Q s → serving i Q' s.
Proof. intros HQ (Hi & Hp & Hq). split_and!; auto. Qed.

(** an answer to an open connection puts a fresh response in place *)
Lemma answer_serving g s :
  http_inv s → pcb (cat i s) ≠ None → conn_ok (g (cat i s)) → answered (cat i s) (g (cat i s)) →
  ∃ s', upd_conn i g s = (Done tt, s') ∧ serving i (λ c, idle_or_fresh c ∧ crx c = crx (cat i s) ∧ is_ws c = is_ws (cat i s)) s'.
Proof.
  intros Hi Hp Hc (E1 & E2 & E3 & E4). eexists. split; [apply upd_conn_run|]. split; [by apply put_inv|].
  rewrite cat_put by (eapply lookup_lt_Some; by apply open_slot). split; [by rewrite E2|]. by split_and!.
Qed.

Lemma close_if_open_run s : http_inv s → ∃ s', close_if_open i s = (Done tt, s') ∧ http_inv s'.
Proof.
  intros Hi. unfold close_if_open. rewrite (bind_done _ _ _ _ _ (conn_at_run i s)). destruct (bool_decide _); [by exists s|].
  destruct (close_ends i s Hi) as (s' & E1 & E2 & _). by exists s'.
Qed.

Lemma pumped_fresh c c' : idle_or_fresh c → pumped c c' → idle_or_fresh c'.
Proof. intros Hf (_ & _ & _ & Ek & _ & Ea & _ & Et). unfold idle_or_fresh in *. rewrite Ek, Ea. destruct Hf as [?|[? ?]]; [by left|right; auto]. Qed.

Lemma refuse_ends g s :
  http_inv s → pcb (cat i s) ≠ None → conn_ok (g (cat i s)) → answered (cat i s) (g (cat i s)) →
  turn_ends s (λ next, refuse (conn_pump next now i) i g).
Proof.
  intros Hi Hp Hc Ha. destruct (answer_serving g s Hi Hp Hc Ha) as (s1 & E1 & Hs1).
  destruct (conn_pump_fresh Hread idle_or_fresh now i s1) as (s2 & E2 & Hi2 & _).
  - intros c c'. apply pumped_fresh.
  - done.
  - eapply serving_weaken; [|exact Hs1]. by intros c (? & _).
  - destruct (close_if_open_run s2 Hi2) as (s3 & E3 & Hi3). exists (Done tt), s3. split; [|done]. intros next. unfold refuse.
    rewrite (bind_done _ _ _ _ _ E1). by rewrite (bind_done _ _ _ _ _ (E2 next)).
Qed.

Lemma bad_request_ok err c : conn_ok c → pcb c ≠ None → zlen (js err) < 2 ^ 16 →
  conn_ok (bad_request now err c) ∧ answered c (bad_request now err c).
Proof. intros Hc Hp He. unfold bad_request, respond_json_err. apply respond_mem_ok; [done|done|]. by apply json_err_short. Qed.

Lemma set_keep_ok b c c' : conn_ok c' ∧ answered c c' → conn_ok (upd_rsp (set_keep b) c') ∧ answered c (upd_rsp (set_keep b) c').
Proof. intros [[A1 A2 [R1 R2 R3 R4] A4 A5] (B1 & B2 & B3 & B4)]. split; [|by split_and!]. by constructor. Qed.

Lemma consume_turn used x s :
  serving i (asked x) s → 4 ≤ used ≤ rx_len x →
  turn_spec (Z.to_nat (2 * rx_len x)) s (λ next, consume_and_pump (conn_pump next now i) next i used).
Proof.
  intros (Hi & Hp & Hw & Hx & Hf) Hu. pose proof (inv_conn i s Hi) as [Crx Cb Cr Cd Cf]. rewrite Hx in Crx.
  destruct (consume_rx used x Crx) as [Hcx Hcl]; [lia|]. set (c' := upd_rx (consume used) (cat i s)).
  assert (conn_ok c') as Hc'.
  { unfold c'. constructor; cbn; rewrite ?Hx; done. }
  assert (serving i (asked (consume used x)) (put i c' s)) as Hs1.
  { split; [by apply put_inv|]. rewrite cat_put by (eapply lookup_lt_Some; by apply open_slot). split; [done|].
    split_and!; [done| |done]. cbn. by rewrite Hx. }
  destruct (conn_pump_fresh Hread (asked (consume used x)) now i (put i c' s)) as (s2 & E2 & Hi2 & Hs2); [| |exact Hs1|].
  { intros c d (A1 & A2 & A3) Hpu. pose proof (pumped_fresh c d A3 Hpu). destruct Hpu as (B1 & _ & B3 & _). split_and!; by rewrite ?B1, ?B3. }
  { by intros c (_ & _ & ?). }
  assert (∀ next, consume_and_pump (conn_pump next now i) next i used s = when_idle i next s2) as Hrun.
  { intros next. unfold consume_and_pump. rewrite (bind_done _ _ _ _ _ (upd_conn_run i _ s)). fold c'. by rewrite (bind_done _ _ _ _ _ (E2 next)). }
  unfold when_idle in Hrun. destruct (bool_decide (kind (rsp (cat i s2)) = RESP_NONE)) eqn:Ek.
  - right. exists s2. split; [intros next; rewrite Hrun, (bind_done _ _ _ _ _ (conn_at_run i s2)); by rewrite Ek|]. split; [done|].
    destruct Hs2 as [Hnone|(_ & _ & Hw2 & Hx2 & _)].
    + destruct (co_free _ (inv_conn i s2 Hi2) Hnone) as (_ & Hw2 & Hl2 & Hh2). split; [done|]. unfold measure. rewrite Hl2, Hh2. lia.
    + split; [done|]. unfold measure. rewrite Hx2, Hcl. cbn [hdr_done consume]. lia.
  - left. exists (Done tt), s2. split; [|done]. intros next. rewrite Hrun, (bind_done _ _ _ _ _ (conn_at_run i s2)). by rewrite Ek.
Qed.

Lemma request_turn x used method path query body len s :
  serving i (asked x) s → 4 ≤ used ≤ rx_len x →
  turn_spec (Z.to_nat (2 * rx_len x)) s (λ next,
    dispatch set_reboot_status web_info index_html_gz now i method path query body len;;
    consume_and_pump (conn_pump next now i) next i used).
Proof.
  intros Hs Hu. pose proof (serving_dispatch Hpage i x now method path query body len s Hs) as Hd.
  apply turn_bind; [apply Hd|]. intros [] s' Es. rewrite Es in Hd. by apply consume_turn.
Qed.

(** *** The turn-over to the session *)

(** the response 101 stays in place, or the connection is closed *)
Definition upgraded (r : http_rsp) (s : SYS) : Prop := http_inv s ∧ (pcb (cat i s) = None ∨ serving i (λ c, rsp c = r) s).

Lemma upgraded_of_link r : of_link (upgraded r).
Proof.
  intros s s' Hl (Hi & Hr). split; [by apply (inv_of_link s)|]. pose proof (inv_of_link _ _ Hl Hi).
  unfold serving, cat in *. destruct Hl as (-> & _). destruct Hr as [?|(_ & ? & ?)]; [by left|right; by split_and!].
Qed.

Lemma upgraded_close r : preserves (upgraded r) (@ws_close_session E F (hw L W) ws_closed_cb).
Proof.
  intros s (Hi & Hr). pose proof (ws_close_inv s Hi) as Hi'. split; [done|]. revert Hi'.
  unfold ws_close_session. erewrite bind_done by reflexivity. destruct (active (ws s)) eqn:Ha; cbn [negb]; [|done].
  destruct (ln_active _ _ _ Hi Ha) as (Ho & j & c & p & E1 & E2 & E3 & _). erewrite bind_done by reflexivity. rewrite Ho. cbn.
  unfold ws_closed_cb; cbn. rewrite E1. unfold close_w; cbn. rewrite E2. intros Hi'.
  unfold serving, cat in *; cbn in *. destruct (decide (j = i)) as [->|Hne].
  - left. by rewrite list_lookup_insert_eq by (by eapply lookup_lt_Some).
  - rewrite list_lookup_insert_ne by done. destruct Hr as [?|(_ & ? & ?)]; [by left|right; by split_and!].
Qed.

Lemma cleared_ok c : conn_ok c → conn_ok (upd_rx (λ x, mk_hrx (rx x) 0 false (body_off x) (content_len x) (cli_close x)) c).
Proof.
  intros [[A1 A2 (j & Hj & A3)] _ B C D]. constructor; cbn; try done; [|intros Hp; by destruct (D Hp) as (? & ? & _)].
  constructor; cbn; [done|done|]. exists j. split; [lia|done].
Qed.

(** the attached session and the connection that carries it *)
Lemma link_attach cs wc y z c p j :
  link_ok cs wc y → active y = false → cs !! j = Some c →
  ∀ c', conn_ok c' → is_ws c' = true → pcb c' = Some p → active z = true → on_close z = true → Ws.pcb z = Some p →
  link_ok (<[j := c']> cs) (Some j) z.
Proof.
  intros [K1 K2 K3 K4 K5] Ha Hi c' Hc Hw Hp Az Oz Pz. pose proof (lookup_lt_Some _ _ _ Hi) as Hlt.
  constructor; [by rewrite length_insert|by apply Forall_insert| | |by rewrite Az].
  - intros _. split; [done|]. exists j, c', p. by rewrite list_lookup_insert_eq.
  - intros k d Hk Hd. destruct (decide (j = k)) as [<-|Hne]; [done|]. rewrite list_lookup_insert_ne in Hk by done.
    destruct (K4 k d Hk Hd). congruence.
Qed.

(** the connection handed over, and the last steps *)
Lemma upgrade_ends r s :
  upgraded r s → acked r = 0 → 0 < rsp_total r →
  turn_ends s (λ next, upd_conn i (upd_rx (λ x, mk_hrx (rx x) 0 false (body_off x) (content_len x) (cli_close x)));; conn_pump next now i).
Proof.
  intros (Hi & Hr) Ha Ht. pose proof (cleared_ok _ (inv_conn i s Hi)) as Hc. set (c' := upd_rx _ (cat i s)) in *.
  assert (http_inv (put i c' s)) as Hi1 by (by apply put_inv).
  destruct (decide (pcb (cat i (put i c' s)) = None)) as [Hn|Hn].
  - exists (Done tt), (put i c' s). split; [|done]. intros next. rewrite (bind_done _ _ _ _ _ (upd_conn_run i _ s)). apply conn_pump_none. by left.
  - assert (cat i (put i c' s) = c') as Hcat.
    { apply cat_put. pose proof (open_slot _ _ Hi1 Hn) as Hl. apply lookup_lt_Some in Hl. cbn in Hl. by rewrite length_insert in Hl. }
    assert (serving i idle_or_fresh (put i c' s)) as Hs1.
    { split; [done|]. split; [done|]. rewrite Hcat in *. destruct Hr as [Hn0|(_ & _ & Hr)]; [by destruct Hn|].
      right. cbn. by rewrite Hr. }
    destruct (conn_pump_fresh Hread idle_or_fresh now i (put i c' s)) as (s2 & E2 & Hi2 & _); [apply pumped_fresh|done|done|].
    exists (Done tt), s2. split; [|done]. intros next. by rewrite (bind_done _ _ _ _ _ (upd_conn_run i _ s)).
Qed.

Lemma upgrade_turn x resp s :
  serving i (asked x) s → 0 ≤ body_off x ≤ rx_len x → 0 < zlen resp < 160 → active (ws s) = false →
  turn_ends s (λ next, ws_upgrade set_reboot_status (conn_pump next now i) now i resp).
Proof.
  intros (Hi & Hp & Hw & Hx & _) Hb Hresp Ha. pose proof (open_slot i s Hi Hp) as Hslot. pose proof (lookup_lt_Some _ _ _ Hslot) as Hlt.
  pose proof (inv_conn i s Hi) as [Crx Cb [R1 R2 R3 R4] Cd Cf]. destruct (cat i s) as [pc iw cx rs d t1 t2 t3] eqn:Ec.
  cbn in *. subst cx iw. destruct pc as [p|]; [|done]. destruct (consume_rx (body_off x) x Crx) as [Hcx Hcl]; [lia|].
  set (r := mk_rsp RESP_MEM true (zlen resp) 0 0 resp 0 [] (body_sent rs)).
  set (c3 := mk_hconn (Some p) true (set_hdr_done true (consume (body_off x) x)) r d t1 now t3).
  assert (conn_ok c3) as Hc3.
  { constructor; cbn; try done; [by destruct Hcx|]. constructor; cbn; try done; unfold HTTP_HDR_MAX; try lia.
    split; [apply R3|]. intros _. split; [by vm_compute|by right]. }
  set (y := mk_session true (Some p) true
              (mk_parser WS_HDR (Ws.hdr (Ws.rx (ws s))) 0 (op (Ws.rx (ws s))) (fin (Ws.rx (ws s))) (masked (Ws.rx (ws s))) (mask (Ws.rx (ws s)))
                 (plen (Ws.rx (ws s))) 0 (payload (Ws.rx (ws s)))) 0 (u32 (now - WS_PUSH_MS + 500)) (u32 (now - WS_INFO_MS + 500))).
  set (s4 := mk_wsys y (wregs s) (wfw s) (wflash s) (mk_hw (<[i := c3]> (http_conns (wnet s))) (Some i) (hhist (wnet s)) (hnet (wnet s)))
               (fw_op_q s) (fw_replies s) (fw_reply_idx s) (fw_posted s) (fw_swap s)).
  assert (upgraded r s4) as Hup.
  { assert (http_inv s4) as Hi4 by (by eapply link_attach). split; [done|]. right. unfold serving, cat; cbn.
    rewrite list_lookup_insert_eq by done. by split_and!. }
  set (pending := take (Z.to_nat (rx_len (consume (body_off x) x))) (rx (consume (body_off x) x))).
  set (feed := if 0 <? zlen pending then ws_feed set_reboot_status ws_closed_cb now pending else mret tt).
  assert (∀ k : MH unit, ws_upgrade set_reboot_status k now i resp s =
    (feed;; upd_conn i (upd_rx (λ x, mk_hrx (rx x) 0 false (body_off x) (content_len x) (cli_close x)));; k) s4) as Hrun.
  { intros k. unfold ws_upgrade. rewrite (bind_done _ _ _ _ _ (upd_conn_run i _ s)). rewrite Ec. cbn [pcb is_ws crx rsp dl t_rx t_ack t_idle body_sent].
    set (c1 := mk_hconn _ _ _ _ _ _ _ _). erewrite (bind_done (set_ws_conn _)) by reflexivity.
    set (sA := mk_wsys _ _ _ _ _ _ _ _ _ _). assert (cat i sA = c1) as EA by (unfold cat; cbn; by rewrite list_lookup_insert_eq).
    rewrite (bind_done _ _ _ _ _ (upd_conn_run i _ sA)). rewrite EA. change (upd_rx _ c1) with c3.
    set (sB := put i c3 sA). assert (cat i sB = c3) as EB by (apply cat_put; cbn; by rewrite length_insert).
    rewrite (bind_done _ _ _ _ _ (conn_at_run i sB)). rewrite EB. cbn [pcb c3 crx].
    assert (ws_attach set_reboot_status ws_closed_cb now p pending sB = feed s4) as Hat.
    { unfold ws_attach. erewrite bind_done by reflexivity. cbn [ws sB put sA]. rewrite Ha. erewrite bind_done by reflexivity.
      fold feed. f_equal. unfold s4. f_equal. cbn. by rewrite list_insert_insert_eq. }
    unfold mbind, M_bind. cbn [set_hdr_done rx rx_len]. fold pending. by rewrite Hat. }
  assert (preserves (upgraded r) feed) as Hfeed.
  { unfold feed. destruct (0 <? zlen pending); [|apply preserves_ret]. apply ws_feed_inv; [apply upgraded_of_link|apply upgraded_close]. }
  specialize (Hfeed s4 Hup). destruct (feed s4) as [[[]|] s5] eqn:Ef.
  - destruct (upgrade_ends r s5) as (o & s6 & H6 & Hi6); [done|done|cbn; lia|].
    exists o, s6. split; [|done]. intros next. rewrite Hrun. rewrite (bind_done _ _ _ _ _ Ef). apply H6.
  - exists Reset, s5. split; [|apply Hfeed]. intros next. rewrite Hrun. by apply bind_reset.
Qed.

Lemma handshake_short req hl resp : ws_handshake req hl 160 = Some resp → 0 < zlen resp < 160.
Proof.
  unfold ws_handshake. destruct (find_key hl req) as [key|]; [|done]. cbv zeta. destruct (negb _); [done|].
  set (t := response_head ++ _). destruct (160 <=? zlen t) eqn:El; [done|]. intros [= <-]. apply Z.leb_gt in El.
  split; [|done]. unfold t. rewrite zlen_app. pose proof (zlen_nonneg (accept_of key ++ [13; 10; 13; 10])).
  assert (zlen response_head = 97) as -> by (by vm_compute). lia.
Qed.

Lemma get_turn hl y target x s :
  serving i (asked x) s → 4 ≤ u16 (Z.of_nat hl + 4) ≤ rx_len x → body_off x = u16 (Z.of_nat hl + 4) →
  turn_spec (Z.to_nat (2 * rx_len x)) s (λ next,
    process_get set_reboot_status web_info index_html_gz (conn_pump next now i) next now i hl y target).
Proof.
  intros Hs Hu Hoff. unfold process_get. destruct (split_query target) as [path query]. cbv zeta.
  destruct (_ && _); [|by apply request_turn].
  apply (turn_bind (gets ws)); [apply Hs|]. intros se s' [= <- <-].
  destruct (if active (ws s) then None else ws_handshake (rx y) hl 160) as [resp|] eqn:Eh.
  - left. destruct (active (ws s)) eqn:Ha; [done|]. apply handshake_short in Eh.
    apply (upgrade_turn x); [done|rewrite Hoff; lia|done|done].
  - pose proof (serving_err i x now (js "503 Service Unavailable") (js "ws busy") ltac:(by vm_compute) s Hs) as Hp.
    apply turn_bind; [apply Hp|]. intros [] s' Es. apply consume_turn; [|done]. by rewrite Es in Hp.
Qed.

Lemma content_length_range hl x : 0 ≤ content_length hl x < 65536.
Proof.
  unfold content_length. destruct (hdr_find _ _ _); [|lia]. pose proof (u16_range (match strtoul l 10 with Some (v, _) => v | None => 0 end)). ulia.
Qed.

Lemma head_turn s :
  http_inv s → is_ws (cat i s) = false → kind (rsp (cat i s)) = RESP_NONE → hdr_done (crx (cat i s)) = false →
  turn_spec (measure (cat i s)) s (λ next,
    process_head set_reboot_status web_info index_html_gz (conn_pump next now i) next now i).
Proof.
  intros Hi Hw Hk Hh. pose proof (inv_conn i s Hi) as Hc. set (x := crx (cat i s)) in *.
  assert (0 < rx_len x → pcb (cat i s) ≠ None) as Hopen.
  { intros Hl Hn. destruct (co_free _ Hc Hn) as (_ & _ & Hz & _). fold x in Hz. lia. }
  pose proof (rx_room _ (co_rx _ Hc)) as Hroom. fold x in Hroom.
  unfold process_head. apply turn_at. fold x. cbv zeta.
  destruct (find_hdr_end x) as [he|] eqn:Ef.
  2:{ left. destruct (HTTP_RX_BUF - 1 <=? rx_len x) eqn:Eb; [|exists (Done tt), s; split; [intros next; reflexivity|exact Hi]].
      assert (pcb (cat i s) ≠ None) as Hp by (apply Hopen; unfold HTTP_RX_BUF in *; lia).
      destruct (set_keep_ok false (cat i s) _ (bad_request_ok "header too large" _ Hc Hp ltac:(by vm_compute))) as [A1 A2].
      by apply refuse_ends. }
  destruct (find_hdr_end_range x he) as [He0 He]; [lia|done|]. assert (pcb (cat i s) ≠ None) as Hp by (apply Hopen; lia).
  destruct (split_req_line (rx x) 8 96) as [[words method] target]. destruct (negb (words =? 2)).
  { left. destruct (bad_request_ok "bad request" _ Hc Hp ltac:(by vm_compute)) as [A1 A2]. by apply refuse_ends. }
  set (hl := Z.to_nat he). set (y := mk_hrx (rx x) (rx_len x) true (u16 (he + 4)) (content_length hl x) (found hl x "Connection: close")).
  set (c1 := set_crx y (cat i s)).
  assert (u16 (he + 4) = he + 4) as Hoff by (apply u16_id, is_u16_iff; unfold HTTP_RX_BUF in *; lia).
  pose proof (content_length_range hl x) as Hcl.
  assert (conn_ok c1) as Hc1.
  { destruct Hc as [[B1 B2 B3] Cb Cr Cd Cf]. unfold c1. constructor; cbn; try done. intros _ _. cbn. rewrite Hoff. lia. }
  assert (serving i (asked y) (put i c1 s)) as Hs1.
  { split; [by apply put_inv|]. rewrite cat_put by (eapply lookup_lt_Some; by apply open_slot). split; [done|].
    split_and!; [done|done|by left]. }
  assert (cat i (put i c1 s) = c1) as Ecat by (apply cat_put; eapply lookup_lt_Some; by apply open_slot).
  apply turn_bind; [rewrite upd_conn_run; apply Hs1|]. intros [] s' Es. rewrite upd_conn_run in Es.
  assert (s' = put i c1 s) as -> by (by injection Es as <-). clear Es.
  destruct (128 <? content_length hl x).
  { left. destruct (bad_request_ok "body too large" c1 Hc1 Hp ltac:(by vm_compute)) as [A1 A2].
    destruct Hs1 as (Hi1 & _). apply refuse_ends; by rewrite ?Ecat. }
  assert (measure (cat i s) = S (Z.to_nat (2 * rx_len x))) as Hm by (unfold measure; fold x; rewrite Hh; lia).
  destruct (bool_decide (method = js "GET")).
  - destruct (get_turn hl x target y (put i c1 s) Hs1) as [Hl|Hr]; [| |by left|].
    + unfold hl. rewrite Z2Nat.id by lia. rewrite Hoff. cbn. lia.
    + cbn. f_equal. unfold hl. lia.
    + right. destruct Hr as (s2 & R1 & R2 & R3 & R4). exists s2. split_and!; try done. rewrite Hm. cbn in R4. lia.
  - right. exists (put i c1 s). split_and!; [done|apply Hs1|by rewrite Ecat|]. rewrite Ecat, Hm. unfold measure. cbn. lia.
Qed.

Lemma body_turn s :
  http_inv s → is_ws (cat i s) = false → kind (rsp (cat i s)) = RESP_NONE → hdr_done (crx (cat i s)) = true →
  turn_spec (measure (cat i s)) s (λ next,
    process_body set_reboot_status web_info index_html_gz (conn_pump next now i) next now i).
Proof.
  intros Hi Hw Hk Hh. pose proof (inv_conn i s Hi) as Hc. set (x := crx (cat i s)) in *.
  assert (pcb (cat i s) ≠ None) as Hp by (intros Hn; destruct (co_free _ Hc Hn) as (_ & _ & _ & Hd); fold x in Hd; congruence).
  destruct (co_body _ Hc Hw Hh) as [Hb Hcl]. fold x in Hb, Hcl. pose proof (rx_room _ (co_rx _ Hc)) as Hroom. fold x in Hroom.
  assert (serving i (asked x) s) as Hs by (split; [done|]; split; [done|]; split_and!; [done|done|by left]).
  unfold process_body. apply turn_at. fold x. cbv zeta.
  assert (u16 (rx_len x - body_off x) = rx_len x - body_off x) as -> by (apply u16_id, is_u16_iff; unfold HTTP_RX_BUF in *; lia).
  destruct (content_len x <=? rx_len x - body_off x) eqn:El; [|left; by exists (Done tt), s]. apply Z.leb_le in El.
  destruct (split_req_line (rx x) 8 96) as [[words method] target]. destruct (split_query target) as [path query].
  assert (u16 (body_off x + content_len x) = body_off x + content_len x) as Hu by (apply u16_id, is_u16_iff; unfold HTTP_RX_BUF in *; lia).
  replace (measure (cat i s)) with (Z.to_nat (2 * rx_len x)) by (unfold measure; fold x; rewrite Hh; lia).
  apply request_turn; [done|]. rewrite Hu. lia.
Qed.

Lemma turn_ok s : http_inv s → is_ws (cat i s) = false → turn_spec (measure (cat i s)) s (http_turn set_reboot_status web_info index_html_gz now i).
Proof.
  intros Hi Hw. unfold http_turn. cbv zeta. apply turn_at.
  destruct (bool_decide (kind (rsp (cat i s)) = RESP_NONE)) eqn:Ek; cbn [negb]; [|left; by exists (Done tt), s].
  apply bool_decide_eq_true in Ek. destruct (hdr_done (crx (cat i s))) eqn:Eh; cbn [negb]; [by apply body_turn|by apply head_turn].
Qed.

Abbreviation process := (http_process_rx set_reboot_status web_info index_html_gz).

(** the loop keeps the server well-formed whatever its fuel, and more fuel than
    the bytes received changes nothing *)
Lemma process_inv n s : http_inv s → is_ws (cat i s) = false → http_inv (process n now i s).2.
Proof.
  revert s. induction n as [|n IH]; intros s Hi Hw; cbn [http_process_rx]; [done|].
  destruct (turn_ok s Hi Hw) as [(r & s' & Hr & Hi')|(s' & Hr & Hi' & Hw' & _)]; rewrite Hr; [done|by apply IH].
Qed.

Lemma process_fuel n m s :
  http_inv s → is_ws (cat i s) = false → (measure (cat i s) < n)%nat → (n ≤ m)%nat → process m now i s = process n now i s.
Proof.
  revert m s. induction n as [|n IH]; intros m s Hi Hw Hm Hn; [lia|]. destruct m as [|m]; [lia|]. cbn [http_process_rx].
  destruct (turn_ok s Hi Hw) as [(r & s' & Hr & Hi')|(s' & Hr & Hi' & Hw' & Hm')]; rewrite !Hr; [done|]. apply IH; [done|done|lia|lia].
Qed.

Lemma measure_bound s : http_inv s → (measure (cat i s) < HTTP_FUEL)%nat.
Proof.
  intros Hi. pose proof (rx_room _ (co_rx _ (inv_conn i s Hi))). unfold measure, HTTP_FUEL, HTTP_RX_BUF in *.
  destruct (hdr_done _); lia.
Qed.
End Turn.

(** *** The callbacks *)

Section Callbacks.
Context (Hpage : zlen index_html_gz < 2 ^ 31) (Hread : reads_fit L).
Context (now : Z) (i : nat).

Lemma done_inv reenter s :
  http_inv s → pcb (cat i s) ≠ None → is_ws (cat i s) = false →
  (∀ s', http_inv s' → is_ws (cat i s') = false → http_inv (reenter s').2) → http_inv (pump_done reenter now i s).2.
Proof.
  intros Hi Hp Hw Hre. unfold pump_done. rewrite (bind_done _ _ _ _ _ (conn_at_run i s)). cbv zeta.
  destruct (_ && _); [|done].
  assert (∃ s1, (if bool_decide (kind (rsp (cat i s)) = RESP_FILE) then upd_hist history_web_close else mret tt) s = (Done tt, s1) ∧ same_link s s1) as (s1 & E1 & Hl).
  { destruct (bool_decide _); eexists; split; try reflexivity; by split_and!. }
  rewrite (bind_done _ _ _ _ _ E1). rewrite (bind_done _ _ _ _ _ (upd_conn_run i _ s1)).
  assert (cat i s1 = cat i s) as -> by (unfold cat; by rewrite (proj1 Hl)). set (c1 := upd_rx _ _).
  pose proof (inv_of_link _ _ Hl Hi) as Hi1. assert (cat i s1 = cat i s) as Ecat by (unfold cat; by rewrite (proj1 Hl)).
  pose proof (inv_conn i s Hi) as [[B1 B2 B3] Cb [R1 R2 [R3 _] R4] Cd Cf].
  assert (conn_ok c1) as Hc1 by (by constructor).
  assert (http_inv (put i c1 s1)) as Hi2 by (apply put_inv; rewrite ?Ecat; done).
  destruct (negb _); [by apply conn_close_inv|]. rewrite (bind_done _ _ _ _ _ (upd_conn_run i _ _)).
  assert (i < length (http_conns (wnet s1)))%nat as Hlt by (eapply lookup_lt_Some, (open_slot i s1); [done|by rewrite Ecat]).
  rewrite cat_put by done. set (c2 := mk_hconn _ _ _ _ _ _ _ _).
  assert (http_inv (put i c2 (put i c1 s1))) as Hi3 by (apply put_inv; rewrite ?cat_put; try done; by constructor).
  destruct (0 <? _); [|done]. apply Hre; [done|]. rewrite cat_put; [done|]. cbn. by rewrite length_insert.
Qed.

Lemma pump_any_inv reenter s :
  http_inv s → is_ws (cat i s) = false →
  (∀ s', http_inv s' → is_ws (cat i s') = false → http_inv (reenter s').2) → http_inv (conn_pump reenter now i s).2.
Proof.
  intros Hi Hw Hre. destruct (pcb (cat i s)) as [p|] eqn:Ep; [|by rewrite conn_pump_none by (by left)].
  destruct (decide (kind (rsp (cat i s)) = RESP_NONE)) as [Hk|Hk]; [by rewrite conn_pump_none by (by right)|].
  rewrite (conn_pump_send _ _ _ p) by done.
  pose proof (pump_send_ends Hread i (λ c, is_ws c = false) p s) as He.
  destruct (pump_send i p (cat i s) s) as [[[|]|] s1] eqn:Es.
  - rewrite (bind_done _ _ _ _ _ Es). destruct He as (H1' & H2' & H3'); [|by split_and!; rewrite ?Ep|done|by apply done_inv].
    intros c c' Hc (_ & _ & -> & _). done.
  - rewrite (bind_done _ _ _ _ _ Es). apply He; [|by split_and!; rewrite ?Ep|done]. intros c c' Hc (_ & _ & -> & _). done.
  - exfalso. apply He; [|by split_and!; rewrite ?Ep|done]. intros c c' Hc (_ & _ & -> & _). done.
Qed.

Lemma server_pump_inv s : http_inv s → is_ws (cat i s) = false → http_inv (pump set_reboot_status web_info index_html_gz now i s).2.
Proof. intros Hi Hw. unfold pump. apply pump_any_inv; [done|done|]. intros s' Hi' Hw'. unfold process_rx. by apply process_inv. Qed.

Lemma received_ok bs c :
  conn_ok c → is_ws c = false → pcb c ≠ None → zlen bs ≤ HTTP_RX_BUF - 1 - rx_len (crx c) → conn_ok (received now bs c).
Proof.
  intros Hc Ew Ep Hb. pose proof (rx_room _ (co_rx _ Hc)) as Hroom. unfold HTTP_RX_BUF in Hroom.
  pose proof (received_rx now bs c (co_rx _ Hc) Hb) as Hrx. destruct Hc as [Crx Cb Cr Cd Cf]. constructor; try done.
  intros _ Hd. destruct (Cb Ew Hd) as [D1 D2]. pose proof (zlen_nonneg bs). cbn. unfold HTTP_RX_BUF in *.
  rewrite u16_id by (apply is_u16_iff; lia). split; [lia|done].
Qed.

Lemma recv_inv p err : preserves http_inv (@http_recv_cb E F L W _ _ _ _ _ _ _ set_reboot_status web_info index_html_gz now i p err).
Proof.
  intros s Hi. unfold http_recv_cb. destruct p as [chain|].
  2:{ revert s Hi. apply preserves_bind; [apply conn_close_inv|intros; apply preserves_ret]. }
  rewrite (bind_done _ _ _ _ _ (conn_at_run i s)). destruct (pcb (cat i s)) as [q|] eqn:Ep; [|done]. destruct (negb _); [done|]. cbv zeta.
  destruct (is_ws (cat i s)) eqn:Ew.
  { revert s Hi Ep Ew. intros s Hi _ _. revert s Hi. walk. }
  pose proof (inv_conn i s Hi) as Hc. pose proof (rx_room _ (co_rx _ Hc)) as Hroom. unfold HTTP_RX_BUF in Hroom.
  set (bs := concat chain). assert (i < length (http_conns (wnet s)))%nat as Hlt by (eapply lookup_lt_Some, (open_slot i s); [done|by rewrite Ep]).
  destruct (_ <? zlen bs) eqn:El.
  - erewrite bind_done by reflexivity. set (s1 := mk_wsys _ _ _ _ _ _ _ _ _ _).
    assert (same_link s s1) as Hl by (by split_and!). pose proof (inv_of_link _ _ Hl Hi) as Hi1.
    assert (cat i s1 = cat i s) as Ecat by (unfold cat; by rewrite (proj1 Hl)).
    destruct (set_keep_ok false (cat i s) _ (bad_request_ok now "request too large" _ Hc ltac:(by rewrite Ep) ltac:(by vm_compute))) as [A1 A2].
    assert (http_inv (refuse (pump set_reboot_status web_info index_html_gz now i) i
              (λ c, upd_rsp (set_keep false) (bad_request now "request too large" c)) s1).2) as Hr.
    { unfold refuse. rewrite (bind_done _ _ _ _ _ (upd_conn_run i _ s1)). rewrite Ecat. set (c1 := upd_rsp _ _) in *.
      destruct A2 as (B1 & B2 & B3 & B4).
      assert (http_inv (put i c1 s1)) as Hi2 by (apply put_inv; rewrite ?Ecat; done).
      pose proof (server_pump_inv (put i c1 s1) Hi2) as Hp. unfold mbind, M_bind.
      rewrite cat_put in Hp by done. specialize (Hp ltac:(by rewrite B3)).
      destruct (pump _ _ _ now i (put i c1 s1)) as [[[]|] s2]; [|exact Hp]. destruct (close_if_open_run i s2 Hp) as (s3 & -> & Hi3). exact Hi3. }
    unfold mbind, M_bind. destruct (refuse _ _ _ s1) as [[[]|] s2]; exact Hr.
  - apply Z.ltb_ge in El. assert (zlen bs ≤ HTTP_RX_BUF - 1 - rx_len (crx (cat i s))) as Hb.
    { rewrite u16_id in El by (apply is_u16_iff; unfold HTTP_RX_BUF; lia). exact El. }
    rewrite (bind_done _ _ _ _ _ (upd_conn_run i _ s)). set (c1 := received now bs (cat i s)).
    assert (conn_ok c1) as Hc1 by (apply received_ok; try done; by rewrite Ep).
    assert (http_inv (put i c1 s)) as Hi1 by (by apply put_inv). erewrite bind_done by reflexivity. set (s2 := mk_wsys _ _ _ _ _ _ _ _ _ _).
    assert (same_link (put i c1 s) s2) as Hl by (by split_and!). pose proof (inv_of_link _ _ Hl Hi1) as Hi2.
    pose proof (process_inv Hpage Hread now i HTTP_FUEL s2 Hi2) as Hp.
    assert (cat i s2 = c1) as Ecat by (transitivity (cat i (put i c1 s)); [unfold cat; by rewrite (proj1 Hl)|by apply cat_put]).
    specialize (Hp ltac:(by rewrite Ecat)). unfold process_rx, mbind, M_bind. destruct (http_process_rx _ _ _ HTTP_FUEL now i s2) as [[[]|] s3]; exact Hp.
Qed.

Lemma sent_inv len : preserves http_inv (@http_sent_cb E F L W _ _ _ _ _ _ _ set_reboot_status web_info index_html_gz now i len).
Proof.
  intros s Hi. unfold http_sent_cb. rewrite (bind_done _ _ _ _ _ (conn_at_run i s)). destruct (bool_decide _) eqn:Eb; [done|].
  apply bool_decide_eq_false in Eb. assert (i < length (http_conns (wnet s)))%nat as Hlt by (eapply lookup_lt_Some; by apply open_slot).
  rewrite (bind_done _ _ _ _ _ (upd_conn_run i _ s)). cbv zeta. set (c1 := mk_hconn _ _ _ _ _ _ _ _).
  pose proof (inv_conn i s Hi) as [Crx Cb [R1 R2 R3 R4] Cd Cf]. assert (conn_ok c1) as Hc1 by (by constructor).
  assert (http_inv (put i c1 s)) as Hi1 by (by apply put_inv).
  destruct (is_ws (cat i s)) eqn:Ew; [exact Hi1|]. pose proof (server_pump_inv (put i c1 s) Hi1) as Hp. rewrite cat_put in Hp by done.
  specialize (Hp eq_refl). unfold mbind, M_bind. destruct (pump _ _ _ now i (put i c1 s)) as [[[]|] s2]; exact Hp.
Qed.

Lemma poll_inv : preserves http_inv (@http_poll_cb E F L W _ _ _ _ web_info now i).
Proof.
  unfold http_poll_cb. apply preserves_bind; [intros s Hs; exact Hs|]. intros c. destruct (bool_decide _); [apply preserves_ret|].
  apply preserves_bind; [|intros; apply preserves_ret]. walk.
Qed.

Lemma err_inv : preserves http_inv (@http_err_cb E F L W _ _ i).
Proof.
  intros s Hi. unfold http_err_cb. rewrite (bind_done _ _ _ _ _ (upd_conn_run i _ s)). set (c1 := mk_hconn _ _ _ _ _ _ _ _).
  unfold conn_close. rewrite (bind_done _ _ _ _ _ (conn_at_run i _)).
  destruct (http_conns (wnet s) !! i) as [c|] eqn:Ei.
  - assert (cat i s = c) as Ec by (unfold cat; by rewrite Ei). rewrite cat_put by (by eapply lookup_lt_Some).
    pose proof (link_close _ _ _ _ _ Hi Ei) as Hl. cbn [is_ws c1]. rewrite Ec.
    assert (closed c1 = closed c) as Ecl by (unfold c1; by rewrite Ec).
    destruct (is_ws c) eqn:Ew; (erewrite bind_done by reflexivity); unfold http_inv; cbn; unfold close_w; cbn;
      rewrite list_lookup_insert_eq by (by eapply lookup_lt_Some); cbn; rewrite Ecl, list_insert_insert_eq, Ec, Ew; exact Hl.
  - assert (cat i s = conn_boot) as Ec by (unfold cat; by rewrite Ei). assert (http_inv (put i c1 s)) as Hi1.
    { unfold http_inv, put; cbn. rewrite list_insert_ge; [exact Hi|by apply lookup_ge_None]. }
    exact (conn_close_inv i _ Hi1).
Qed.

Lemma accept_inv p err : preserves http_inv (@http_accept_cb E F L W _ now p err).
Proof.
  intros s Hi. unfold http_accept_cb. destruct p as [p|]; [|done]. destruct (negb _); [done|]. erewrite bind_done by reflexivity.
  unfold free_slot. destruct (list_find _ _) as [[j c]|] eqn:Ef; [|exact Hi].
  apply list_find_Some in Ef as (Ej & Hn & _). assert (cat j s = c) as Ec by (unfold cat; by rewrite Ej).
  rewrite (bind_done _ _ _ _ _ (upd_conn_run j _ s)). rewrite Ec. pose proof (inv_conn j s Hi) as Hc. rewrite Ec in Hc.
  destruct (co_free _ Hc Hn) as (Hk & Hw & Hl & _). destruct Hc as [[B1 B2 (k & Hk' & B3)] Cb [R1 R2 R3 R4] Cd Cf].
  apply put_inv; [done| |by rewrite Ec, Hw|by rewrite Ec, Hw]. constructor; cbn; try done.
  constructor; cbn; [done|done|]. exists k. split; [lia|done].
Qed.
End Callbacks.

Lemma run_inv ev : zlen index_html_gz < 2 ^ 31 → reads_fit L →
  preserves http_inv (@http_run E F L W _ _ _ _ _ _ _ fw_keyhash boot_set_pending set_reboot_status web_info index_html_gz ev).
Proof.
  intros Hpage Hread. destruct ev; cbn [http_run]; try (apply preserves_bind; [|intros; apply preserves_ret]).
  - apply accept_inv.
  - by apply recv_inv.
  - by apply sent_inv.
  - apply poll_inv.
  - apply err_inv.
  - auto with effects.
  - walk.
  - walk.
Qed.
End Safety.

(** the server after start-up *)
Definition http_boot {E F L W} (r : regs E) (u : upg) (f : F) (h : @hsys L) (w : W) : wsys E F (hw L W) :=
  ws_init (ws_boot r u f (mk_hw (replicate HTTP_MAX_CONN conn_boot) None h w)).

Lemma http_boot_inv {E F L W} (r : regs E) u (f : F) (h : @hsys L) (w : W) : http_inv (http_boot r u f h w).
Proof.
  constructor; cbn; try done.
  - do 2 (apply Forall_cons_2; [exact conn_boot_ok|]). apply Forall_nil_2.
  - intros i c Hc Hw. assert (is_ws c = false) as Hf; [|congruence].
    apply (Forall_lookup_1 (λ c, is_ws c = false) (replicate HTTP_MAX_CONN conn_boot) i); [by apply Forall_replicate|exact Hc].
Qed.

(** ** A request as a client writes it *)

Record request := mk_request {
  q_method : list Z; q_path : list Z; q_query : option (list Z); q_lines : list (list Z); q_body : list Z }.

Definition target (q : request) : list Z := q_path q ++ match q_query q with Some s => 63 :: s | None => [] end.
Definition first_line (q : request) : list Z := q_method q ++ 32 :: target q ++ 32 :: js "HTTP/1.1".
Definition length_line (q : request) : list Z := js "Content-Length: " ++ dec (zlen (q_body q)).
(** a request with a body says how long it is *)
Definition head_lines (q : request) : list (list Z) :=
  first_line q :: (if bool_decide (q_body q = []) then [] else [length_line q]) ++ q_lines q.
Definition lines_text (ls : list (list Z)) : list Z := concat ((λ l, l ++ crlf) <$> ls).
Definition request_text (q : request) : list Z := lines_text (head_lines q) ++ crlf ++ q_body q.

Definition word_ok (w : list Z) : Prop := w ≠ [] ∧ Forall (λ c, c ≠ 0 ∧ is_white c = false) w.
Definition line_ok (l : list Z) : Prop := l ≠ [] ∧ Forall (λ c, c ≠ 13 ∧ c ≠ 10) l.
Definition free_of (key l : list Z) : Prop := ∀ k, starts_with_case key (drop k l) = false.
Definition cl_key : list Z := js "Content-Length:".

Definition request_ok (q : request) : Prop :=
  word_ok (q_method q) ∧ zlen (q_method q) ≤ 7 ∧ word_ok (target q) ∧ zlen (target q) ≤ 95 ∧ (63 ∉ q_path q) ∧
  Forall line_ok (q_lines q) ∧ free_of cl_key (first_line q) ∧ Forall (free_of cl_key) (q_lines q) ∧
  zlen (q_body q) ≤ 128 ∧ zlen (request_text q) < HTTP_RX_BUF ∧ (q_method q = js "GET" → q_body q = [] ∧ q_path q ≠ js "/ws").

(** *** Finding the end of the header *)

Lemma starts_with_take lit s t n k :
  take n s = take n t → (k + length lit ≤ n)%nat → starts_with lit (drop k s) = starts_with lit (drop k t).
Proof.
  intros Ht Hk. unfold starts_with. assert (take (length lit) (drop k s) = take (length lit) (drop k t)) as ->; [|done].
  assert (∀ u : list Z, take (k + length lit) (take n u) = take (k + length lit) u) as Hu by (intros u; rewrite take_take, Nat.min_l by lia; done).
  rewrite !take_drop_commute. f_equal. by rewrite <- (Hu s), <- (Hu t), Ht.
Qed.

Lemma hdr_end_none n i s : (∀ k, (k + 4 ≤ n)%nat → starts_with (crlf ++ crlf) (drop k s) = false) → hdr_end_loop n i s = None.
Proof.
  revert i s. induction n as [|n IH]; intros i s Hs; [done|]. cbn [hdr_end_loop]. destruct (3 <? S n)%nat eqn:E3; [|done]. cbn [andb].
  specialize (Hs 0%nat) as H0. rewrite drop_0 in H0. rewrite H0 by (apply Nat.ltb_lt in E3; lia). apply IH. intros k Hk.
  rewrite drop_drop. apply Hs. lia.
Qed.

Lemma hdr_end_first n i s m :
  (∀ k, (k < m)%nat → starts_with (crlf ++ crlf) (drop k s) = false) → starts_with (crlf ++ crlf) (drop m s) = true → (m + 4 ≤ n)%nat →
  hdr_end_loop n i s = Some (i + Z.of_nat m).
Proof.
  revert n i s. induction m as [|m IH]; intros n i s Hs Hm Hn; (destruct n as [|n]; [lia|]); cbn [hdr_end_loop];
    replace (3 <? S n)%nat with true by (symmetry; apply Nat.ltb_lt; lia); cbn [andb].
  - rewrite drop_0 in Hm. rewrite Hm. f_equal. lia.
  - specialize (Hs 0%nat) as H0. rewrite drop_0 in H0. rewrite H0 by lia. rewrite (IH n (i + 1)); [f_equal; lia| | |lia].
    + intros k Hk. rewrite drop_drop. apply Hs. lia.
    + rewrite drop_drop. exact Hm.
Qed.

(** the first empty line is the one behind the header lines *)
Lemma lines_end ls rest :
  ls ≠ [] → Forall line_ok ls →
  (∀ k, (k < length (lines_text ls) - 2)%nat → starts_with (crlf ++ crlf) (drop k (lines_text ls ++ crlf ++ rest)) = false) ∧
  starts_with (crlf ++ crlf) (drop (length (lines_text ls) - 2) (lines_text ls ++ crlf ++ rest)) = true ∧ (2 ≤ length (lines_text ls))%nat.
Proof.
  intros Hne Hls. induction Hls as [|l ls [Hl0 Hl] Hls IH]; [done|].
  assert (∀ k t, (k < length l)%nat → starts_with (crlf ++ crlf) (drop k (l ++ t)) = false) as Hin.
  { intros k t Hk. rewrite drop_app_le by lia. destruct (drop k l) as [|c l'] eqn:Ed.
    { apply (f_equal length) in Ed. rewrite length_drop in Ed. cbn in Ed. lia. }
    assert (c ≠ 13) as Hc. { eapply (Forall_lookup_1 _ _ k c Hl). rewrite <- (Nat.add_0_r k), <- lookup_drop. by rewrite Ed. }
    unfold starts_with. apply bool_decide_eq_false. cbn. congruence. }
  change (lines_text (l :: ls)) with ((l ++ crlf) ++ lines_text ls). rewrite length_app, length_app. change (length crlf) with 2%nat.
  destruct ls as [|l2 ls].
  - change (lines_text []) with (@nil Z). rewrite app_nil_r. cbn [length]. replace (length l + 2 + 0 - 2)%nat with (length l) by lia.
    rewrite <- !app_assoc. split_and!; [intros k; apply Hin| |lia]. rewrite drop_app_length. done.
  - destruct (IH ltac:(done)) as (I1 & I2 & I3). set (T := lines_text (l2 :: ls) ++ crlf ++ rest) in *.
    rewrite <- !app_assoc. fold T. inversion Hls as [|? ? [Hl20 Hl2] _]; subst.
    assert (∃ c T', T = c :: T' ∧ c ≠ 13) as (c & T' & ET & Hc).
    { destruct l2 as [|c l2]; [done|]. inversion Hl2 as [|? ? [Hc _] _]; subst. by eexists c, _. }
    split_and!; [| |lia].
    + intros k Hk. destruct (decide (k < length l)%nat); [by apply Hin|].
      rewrite drop_app_ge by lia. destruct (k - length l)%nat as [|[|k']] eqn:Ek.
      * rewrite ET. unfold starts_with. apply bool_decide_eq_false. unfold crlf. cbn [app drop take length]. intros [= E]. by destruct Hc.
      * unfold starts_with. apply bool_decide_eq_false. unfold crlf. by cbn [app drop take length].
      * cbn [crlf app drop]. change (drop k' T) with (drop k' T). apply I1. lia.
    + rewrite drop_app_ge by lia. replace (length l + 2 + length (lines_text (l2 :: ls)) - 2 - length l)%nat
        with (S (S (length (lines_text (l2 :: ls)) - 2))) by lia. exact I2.
Qed.

(** *** Finding a header field *)

Lemma hdr_find_none n s key : (∀ k, (k + length key < n)%nat → starts_with_case key (drop k s) = false) → hdr_find n s key = None.
Proof.
  revert s. induction n as [|n IH]; intros s Hs; [done|]. cbn [hdr_find]. destruct (length key <? S n)%nat eqn:El; [|done].
  apply Nat.ltb_lt in El. specialize (Hs 0%nat) as H0. rewrite drop_0 in H0. rewrite H0 by lia. apply IH. intros k Hk.
  rewrite drop_drop. apply Hs. lia.
Qed.

Lemma hdr_find_first n s key m :
  (∀ k, (k < m)%nat → starts_with_case key (drop k s) = false) → starts_with_case key (drop m s) = true → (m + length key < n)%nat →
  hdr_find n s key = Some (drop (m + length key) s).
Proof.
  revert n s. induction m as [|m IH]; intros n s Hs Hm Hn; (destruct n as [|n]; [lia|]); cbn [hdr_find];
    replace (length key <? S n)%nat with true by (symmetry; apply Nat.ltb_lt; lia).
  - rewrite drop_0 in Hm. by rewrite Hm.
  - specialize (Hs 0%nat) as H0. rewrite drop_0 in H0. rewrite H0 by lia. rewrite IH; [by rewrite drop_drop| | |lia].
    + intros k Hk. rewrite drop_drop. apply Hs. lia.
    + rewrite drop_drop. exact Hm.
Qed.

Lemma starts_case_take key s t n k :
  take n s = take n t → (k + length key ≤ n)%nat → starts_with_case key (drop k s) = starts_with_case key (drop k t).
Proof.
  intros Ht Hk. unfold starts_with_case. assert (take (length key) (drop k s) = take (length key) (drop k t)) as ->; [|done].
  assert (∀ u : list Z, take (k + length key) (take n u) = take (k + length key) u) as Hu by (intros u; rewrite take_take, Nat.min_l by lia; done).
  rewrite !take_drop_commute. f_equal. by rewrite <- (Hu s), <- (Hu t), Ht.
Qed.

(** a field name has no line end in it *)
Definition plain_key (key : list Z) : Prop := (13 ∉ (to_lower <$> key)) ∧ (10 ∉ (to_lower <$> key)) ∧ key ≠ [].

Lemma case_head key c t : starts_with_case key (c :: t) = true → key ≠ [] → to_lower c ∈ to_lower <$> key.
Proof.
  intros Hs Hk. apply bool_decide_eq_true in Hs. destruct key as [|d key]; [done|]. cbn in Hs |- *. injection Hs as <- _. apply elem_of_cons. by left.
Qed.

Lemma free_line key l t k : plain_key key → free_of key l → (k < length (l ++ crlf))%nat → starts_with_case key (drop k (l ++ crlf ++ t)) = false.
Proof.
  intros (H13 & H10 & Hne) Hf Hk. rewrite length_app in Hk. change (length crlf) with 2%nat in Hk. apply not_true_iff_false. intros Hs.
  destruct (decide (k ≤ length l)%nat) as [Hle|Hgt].
  - destruct (decide (k + length key ≤ length l)%nat) as [Hin|Hout].
    + rewrite (starts_case_take key _ l (length l)) in Hs; [by rewrite Hf in Hs| |done]. by rewrite take_app_length, take_ge.
    + apply bool_decide_eq_true in Hs. apply H13. rewrite <- Hs. apply (list_elem_of_lookup_2 _ (length l - k)).
      rewrite list_lookup_fmap, lookup_take_lt by lia. rewrite lookup_drop. replace (k + (length l - k))%nat with (length l) by lia.
      rewrite lookup_app_r by lia. by rewrite Nat.sub_diag.
  - assert (k = S (length l)) as -> by lia. rewrite drop_app_ge in Hs by lia. replace (S (length l) - length l)%nat with 1%nat in Hs by lia.
    unfold crlf in Hs. cbn [drop app] in Hs. apply case_head in Hs; [|done]. by apply H10.
Qed.

Lemma free_lines key ls t k :
  plain_key key → Forall (free_of key) ls → (k < length (lines_text ls))%nat → starts_with_case key (drop k (lines_text ls ++ t)) = false.
Proof.
  intros Hp Hf. revert k. induction Hf as [|l ls Hl Hf IH]; intros k Hk; [by cbn in Hk; lia|].
  change (lines_text (l :: ls)) with ((l ++ crlf) ++ lines_text ls) in *. rewrite <- !app_assoc.
  rewrite length_app in Hk. destruct (decide (k < length (l ++ crlf))%nat) as [Hlt|Hge]; [by apply free_line|].
  rewrite app_assoc, drop_app_ge by lia. apply IH. lia.
Qed.

Lemma cl_key_plain : plain_key cl_key.
Proof. split_and!; by apply (bool_decide_unpack _); vm_compute. Qed.

(** the length the server reads is the length of the body *)
Lemma content_length_spec q x n :
  request_ok q → take n (rx x) = take n (request_text q) → (length (lines_text (head_lines q)) ≤ n)%nat →
  content_length (length (lines_text (head_lines q)) - 2) x = zlen (q_body q).
Proof.
  intros (_ & _ & _ & _ & _ & _ & Hf1 & Hfl & Hb & Ht & _) Hx Hn. unfold content_length. fold cl_key. pose proof cl_key_plain as Hp.
  set (H := length (lines_text (head_lines q))) in *.
  assert (∀ k, (k + length cl_key ≤ n)%nat → starts_with_case cl_key (drop k (rx x)) = starts_with_case cl_key (drop k (request_text q))) as Heq.
  { intros k. by apply starts_case_take. }
  unfold request_text in *. unfold head_lines in *. destruct (bool_decide (q_body q = [])) eqn:Eb.
  - apply bool_decide_eq_true in Eb. cbn [app] in *. rewrite Eb. change (zlen (@nil Z)) with 0. rewrite hdr_find_none; [done|]. intros k Hk.
    rewrite Heq by lia. apply free_lines; [done|by constructor|]. fold H. lia.
  - apply bool_decide_eq_false in Eb. set (m := length (lines_text [first_line q])).
    assert (lines_text (first_line q :: [length_line q] ++ q_lines q) = lines_text [first_line q] ++ cl_key ++ 32 :: dec (zlen (q_body q)) ++ crlf ++ lines_text (q_lines q)) as Hsplit.
    { unfold lines_text. cbn [fmap list_fmap concat app]. unfold length_line. rewrite app_nil_r. rewrite <- !app_assoc. do 3 f_equal. }
    assert (m + length cl_key + 3 ≤ H)%nat as HH.
    { unfold H, m. rewrite Hsplit, !length_app. cbn [length]. rewrite !length_app. change (length crlf) with 2%nat. lia. }
    rewrite Hsplit in *.
    rewrite (hdr_find_first _ _ _ m).
    + assert (take H (rx x) = lines_text [first_line q] ++ cl_key ++ 32 :: dec (zlen (q_body q)) ++ crlf ++ lines_text (q_lines q)) as HT.
      { assert (∀ u : list Z, take H (take n u) = take H u) as Hu by (intros u; rewrite take_take, Nat.min_l by lia; done).
        rewrite <- Hu, Hx, Hu. unfold H. rewrite Hsplit. apply take_app_length. }
      rewrite <- (take_drop H (rx x)), HT. rewrite <- !app_assoc. cbn [app]. rewrite <- !app_assoc.
      rewrite drop_app_add' by done. rewrite drop_app_length.
      match goal with |- context [strtoul (32 :: ?t) 10] => change (strtoul (32 :: t) 10) with (strtoul t 10) end.
      pose proof (zlen_nonneg (q_body q)). rewrite strtoul_dec; [apply u16_id, is_u16_iff; lia|lia|done].
    + intros k Hk. rewrite Heq by lia. rewrite <- !app_assoc. apply free_lines; [done|by repeat constructor|done].
    + rewrite Heq by lia. rewrite <- !app_assoc. unfold m. rewrite drop_app_length. unfold starts_with_case. rewrite take_app_length. by apply bool_decide_eq_true_2.
    + lia.
Qed.

(** *** The request line *)

Lemma skip_white_word w t : word_ok w → skip_white (w ++ t) = w ++ t.
Proof. intros [Hne Hw]. destruct Hw as [|c w [_ Hc] Hw]; [done|]. cbn [app skip_white]. by rewrite Hc. Qed.

Lemma word_run w t : word_ok w → word (w ++ 32 :: t) = (w, 32 :: t).
Proof.
  intros [_ Hw]. induction Hw as [|c w [Hc0 Hc] Hw IH]; [done|]. cbn [app word]. rewrite Hc. replace (c =? 0) with false by lia.
  cbn [orb]. by rewrite IH.
Qed.

Lemma split_line_spec m t r :
  word_ok m → zlen m ≤ 7 → word_ok t → zlen t ≤ 95 → split_req_line (m ++ 32 :: t ++ 32 :: r) 8 96 = (2, m, t).
Proof.
  intros Hm Hml Ht Htl. unfold split_req_line. rewrite skip_white_word, word_run by done.
  rewrite bool_decide_eq_false_2 by apply Hm. change (skip_white (32 :: t ++ 32 :: r)) with (skip_white (t ++ 32 :: r)).
  rewrite skip_white_word, word_run by done. rewrite bool_decide_eq_false_2 by apply Ht. unfold zlen in *.
  rewrite !take_ge by lia. done.
Qed.

Lemma split_query_spec p q : (63 ∉ p) → split_query (p ++ match q with Some s => 63 :: s | None => [] end) = (p, q).
Proof.
  induction p as [|c p IH]; intros Hp; cbn [app].
  - by destruct q.
  - apply not_elem_of_cons in Hp as [Hc Hp]. cbn [split_query]. replace (c =? 63) with false by lia. by rewrite IH.
Qed.

Definition head_size (q : request) : nat := length (lines_text (head_lines q)) + 2.

Lemma head_lines_ok q : request_ok q → Forall line_ok (head_lines q).
Proof.
  intros (Hm & _ & Ht & _ & _ & Hl & _ & _ & Hb & _). unfold head_lines.
  assert (∀ w, word_ok w → Forall (λ c, c ≠ 13 ∧ c ≠ 10) w) as Hword.
  { intros w [_ Hw]. eapply Forall_impl; [|exact Hw]. cbn. unfold is_white. intros c [_ Hc]. lia. }
  constructor; [|apply Forall_app; split; [|exact Hl]].
  - split; [unfold first_line; destruct (q_method q); [by destruct Hm|done]|]. unfold first_line. apply Forall_app; split; [by apply Hword|].
    constructor; [done|]. apply Forall_app; split; [by apply Hword|]. by apply (bool_decide_unpack _); vm_compute.
  - destruct (bool_decide _); [constructor|]. constructor; [|constructor]. split; [done|]. unfold length_line. apply Forall_app; split.
    { by apply (bool_decide_unpack _); vm_compute. }
    pose proof (zlen_nonneg (q_body q)). destruct (dec_spec (zlen (q_body q)) ltac:(lia)) as (ds & -> & Hd & _).
    eapply Forall_impl; [|exact Hd]. cbn. intros c. lia.
Qed.

Lemma request_head q : ∃ r, request_text q = q_method q ++ 32 :: target q ++ 32 :: r ∧ (length (first_line q) ≤ head_size q)%nat.
Proof.
  unfold request_text, head_size, head_lines, lines_text. cbn [fmap list_fmap concat]. rewrite !length_app. unfold first_line at 1.
  rewrite <- !app_assoc. cbn [app]. rewrite <- !app_assoc. cbn [app]. eexists. split; [reflexivity|lia].
Qed.

(** what the server parses from any buffer that starts with the header *)
Lemma request_parse q x n :
  request_ok q → take n (rx x) = take n (request_text q) → (head_size q ≤ n)%nat →
  hdr_end_loop n 0 (rx x) = Some (Z.of_nat (head_size q - 4)) ∧ (4 ≤ head_size q)%nat ∧
  split_req_line (rx x) 8 96 = (2, q_method q, target q) ∧ content_length (head_size q - 4) x = zlen (q_body q).
Proof.
  intros Hq Hx Hn. pose proof (lines_end (head_lines q) (q_body q) ltac:(done) (head_lines_ok q Hq)) as (L1 & L2 & L3).
  fold (request_text q) in L1, L2. unfold head_size in *. set (H := length (lines_text (head_lines q))) in *.
  replace (H + 2 - 4)%nat with (H - 2)%nat by lia. split_and!.
  - rewrite (hdr_end_first _ _ _ (H - 2)); [f_equal; lia| | |lia].
    + intros k Hk. rewrite (starts_with_take _ _ (request_text q) n) by (done || (change (length (crlf ++ crlf)) with 4%nat; lia)). by apply L1.
    + rewrite (starts_with_take _ _ (request_text q) n) by (done || (change (length (crlf ++ crlf)) with 4%nat; lia)). exact L2.
  - lia.
  - destruct (request_head q) as (r & Er & Hl). pose proof Hq as (Hm & Hml & Ht & Htl & _).
    assert (∃ r', rx x = q_method q ++ 32 :: target q ++ 32 :: r') as [r' ->]; [|by apply split_line_spec].
    rewrite <- (take_drop n (rx x)), Hx, Er. set (k := length (q_method q ++ 32 :: target q ++ [32])).
    assert (k ≤ n)%nat as Hk.
    { unfold k. unfold head_size in Hl. fold H in Hl. unfold first_line in Hl. rewrite !length_app in *. cbn [length] in *. rewrite !length_app in *. cbn [length] in *. lia. }
    replace (q_method q ++ 32 :: target q ++ 32 :: r) with ((q_method q ++ 32 :: target q ++ [32]) ++ r) by (rewrite <- !app_assoc; cbn; by rewrite <- !app_assoc).
    rewrite take_app_ge by exact Hk. eexists. rewrite <- !app_assoc. cbn. rewrite <- !app_assoc. reflexivity.
  - apply (content_length_spec q x n); [done|done|fold H; lia].
Qed.

Lemma request_pending q x n :
  request_ok q → take n (rx x) = take n (request_text q) → (n < head_size q)%nat → hdr_end_loop n 0 (rx x) = None.
Proof.
  intros Hq Hx Hn. pose proof (lines_end (head_lines q) (q_body q) ltac:(done) (head_lines_ok q Hq)) as (L1 & _ & L3).
  fold (request_text q) in L1. unfold head_size in *. apply hdr_end_none. intros k Hk.
  rewrite (starts_with_take _ _ (request_text q) n) by (done || (change (length (crlf ++ crlf)) with 4%nat; lia)). apply L1. lia.
Qed.

Lemma request_size q : length (request_text q) = (head_size q + length (q_body q))%nat.
Proof. unfold request_text, head_size. rewrite !length_app. change (length crlf) with 2%nat. lia. Qed.

(** ** Receiving it *)

Section Arrival.
Context {E F L W : Type} `{IoHooks E} `{UdpHooks E} `{IoFlash F} `{Lfs L} `{TcpStack W} `{TcpSnd W} `{TcpRcv W}.
Context (fw_keyhash : list Z) (boot_set_pending : bool → F → Z * F).
Context (set_reboot_status : bool → E → E) (web_info : E → info) (index_html_gz : list Z).
Context (Hpage : zlen index_html_gz < 2 ^ 31) (Hread : reads_fit L).
Context (now : Z) (i : nat) (p : Z) (q : request) (Hq : request_ok q).
Abbreviation SYS := (wsys E F (hw L W)).
Abbreviation MH := (M SYS).
Abbreviation process := (http_process_rx set_reboot_status web_info index_html_gz).
Abbreviation recv := (http_recv_cb set_reboot_status web_info index_html_gz).
Abbreviation serve := (dispatch set_reboot_status web_info index_html_gz).

(** [s] with another connection at [i] and another state of lwIP *)
Definition stored (c : http_conn) (w : W) (s : SYS) : SYS :=
  mk_wsys (ws s) (wregs s) (wfw s) (wflash s) (mk_hw (<[i := c]> (http_conns (wnet s))) (ws_conn (wnet s)) (hhist (wnet s)) w)
    (fw_op_q s) (fw_replies s) (fw_reply_idx s) (fw_posted s) (fw_swap s).

Lemma stored_stored c w c' w' (s : SYS) : stored c w (stored c' w' s) = stored c w s.
Proof. unfold stored; cbn. by rewrite list_insert_insert_eq. Qed.
Lemma cat_stored c w (s : SYS) : (i < length (http_conns (wnet s)))%nat → cat i (stored c w s) = c.
Proof. intros Hi. unfold cat, stored; cbn. by rewrite list_lookup_insert_eq. Qed.
Lemma upd_stored g c w (s : SYS) : (i < length (http_conns (wnet s)))%nat → upd_conn i g (stored c w s) = (Done tt, stored (g c) w s).
Proof. intros Hi. rewrite upd_conn_run, cat_stored by done. f_equal. apply (stored_stored (g c) w c w s). Qed.

(** an open, idle connection that has received the first [n] bytes of the request *)
Definition has_bytes (n : nat) (c : http_conn) : Prop :=
  pcb c = Some p ∧ is_ws c = false ∧ kind (rsp c) = RESP_NONE ∧ rx_len (crx c) = Z.of_nat n ∧ take n (rx (crx c)) = take n (request_text q).
Definition in_head (n : nat) (c : http_conn) : Prop := has_bytes n c ∧ hdr_done (crx c) = false.
Definition in_body (n : nat) (c : http_conn) : Prop :=
  has_bytes n c ∧ hdr_done (crx c) = true ∧ body_off (crx c) = Z.of_nat (head_size q) ∧ content_len (crx c) = zlen (q_body q) ∧ q_method q ≠ js "GET".
Definition waiting (n : nat) (c : http_conn) : Prop := (in_head n c ∧ (n < head_size q)%nat) ∨ (in_body n c ∧ (head_size q ≤ n)%nat).

Lemma text_small : (length (request_text q) < 640)%nat ∧ (head_size q < 640)%nat ∧ (4 ≤ head_size q)%nat.
Proof.
  pose proof (request_size q). pose proof Hq as (_ & _ & _ & _ & _ & _ & _ & _ & _ & Hl & _). unfold HTTP_RX_BUF, zlen in Hl.
  pose proof (lines_end (head_lines q) [] ltac:(done) (head_lines_ok q Hq)) as (_ & _ & L3). unfold head_size in *. lia.
Qed.

Lemma received_bytes n b c :
  has_bytes n c → rx_ok (crx c) → b = take (length b) (drop n (request_text q)) → (n + length b ≤ length (request_text q))%nat →
  has_bytes (n + length b) (received now b c) ∧ hdr_done (crx (received now b c)) = hdr_done (crx c) ∧
  body_off (crx (received now b c)) = body_off (crx c) ∧ content_len (crx (received now b c)) = content_len (crx c).
Proof.
  intros (Hp & Hw & Hk & Hl & Ht) [Hs Hr _] Hb Hn. pose proof text_small as (Hsm & _). unfold has_bytes, received. cbv zeta. cbn [pcb is_ws rsp crx rx rx_len hdr_done body_off content_len].
  rewrite Hl. unfold HTTP_RX_BUF, zlen in *.
  assert (u16 (Z.of_nat n + Z.of_nat (length b)) = Z.of_nat (n + length b)) as -> by (rewrite u16_id by (apply is_u16_iff; lia); lia).
  rewrite !Nat2Z.id. split_and!; try done. rewrite take_insert_ge by lia. rewrite take_splice by lia. rewrite Ht.
  rewrite <- (take_take_drop (request_text q) n (length b)). by rewrite <- Hb.
Qed.

Lemma step_recv n b chain c w (s : SYS) :
  (i < length (http_conns (wnet s)))%nat → has_bytes n c → b = concat chain → (n + length b ≤ length (request_text q))%nat →
  recv now i (Some chain) ERR_OK (stored c w s)
  = (process HTTP_FUEL now i;; mret ERR_OK) (stored (received now b c) (tcp_recved p (zlen b) w) s).
Proof.
  intros Hi (Hp & Hw & Hk & Hl & Ht) -> Hn. pose proof text_small as (Hsm & _). unfold http_recv_cb. rewrite (bind_done _ _ _ _ _ (conn_at_run i _)). rewrite cat_stored by done.
  rewrite Hp, Hw. cbn [bool_decide decide_rel]. rewrite bool_decide_eq_true_2 by done. cbn [negb]. cbv zeta. rewrite Hl.
  assert ((u16 (HTTP_RX_BUF - 1 - Z.of_nat n) <? zlen (concat chain)) = false) as ->.
  { unfold HTTP_RX_BUF, zlen. rewrite u16_id by (apply is_u16_iff; lia). lia. }
  rewrite (bind_done _ _ _ _ _ (upd_stored _ _ _ _ Hi)). unfold process_rx. erewrite bind_done by reflexivity. reflexivity.
Qed.

Section Turns.
Context (c : http_conn) (w : W) (s : SYS) (n : nat) (next : MH unit).
Context (Hi : (i < length (http_conns (wnet s)))%nat) (Hn : (n ≤ length (request_text q))%nat).
Abbreviation turn := (http_turn set_reboot_status web_info index_html_gz now i next).

Lemma head_pending : in_head n c → (n < head_size q)%nat → turn (stored c w s) = (Done tt, stored c w s).
Proof.
  intros [(Hp & Hw & Hk & Hl & Ht) Hh] Hs. pose proof text_small as (Hsm & Hhs & _). unfold http_turn. cbv zeta.
  rewrite (bind_done _ _ _ _ _ (conn_at_run i _)), cat_stored by done. rewrite bool_decide_eq_true_2 by done. rewrite Hh. cbn [negb].
  unfold process_head. rewrite (bind_done _ _ _ _ _ (conn_at_run i _)), cat_stored by done. cbv zeta. unfold find_hdr_end. rewrite Hl, Nat2Z.id.
  rewrite (request_pending q) by done. unfold HTTP_RX_BUF. by replace (640 - 1 <=? Z.of_nat n) with false by lia.
Qed.

(** the connection once the header is parsed *)
Definition parsed : http_conn :=
  set_crx (mk_hrx (rx (crx c)) (rx_len (crx c)) true (Z.of_nat (head_size q)) (zlen (q_body q))
             (found (head_size q - 4) (crx c) "Connection: close")) c.

Lemma head_parsed :
  in_head n c → (head_size q ≤ n)%nat →
  turn (stored c w s) =
    (if bool_decide (q_method q = js "GET")
     then process_get set_reboot_status web_info index_html_gz (conn_pump next now i) next now i (head_size q - 4) (crx c) (target q)
     else next) (stored parsed w s).
Proof.
  intros [(Hp & Hw & Hk & Hl & Ht) Hh] Hs. pose proof text_small as (Hsm & Hhs & Hh4). unfold http_turn. cbv zeta.
  rewrite (bind_done _ _ _ _ _ (conn_at_run i _)), cat_stored by done. rewrite bool_decide_eq_true_2 by done. rewrite Hh. cbn [negb].
  unfold process_head. rewrite (bind_done _ _ _ _ _ (conn_at_run i _)), cat_stored by done. cbv zeta. unfold find_hdr_end. rewrite Hl, Nat2Z.id.
  destruct (request_parse q (crx c) n Hq Ht Hs) as (-> & _ & -> & Ecl). cbn [negb Z.eqb Pos.eqb]. rewrite !Nat2Z.id, Ecl.
  rewrite (bind_done _ _ _ _ _ (upd_stored _ _ _ _ Hi)).
  pose proof Hq as (_ & _ & _ & _ & _ & _ & _ & _ & Hb & _). replace (128 <? zlen (q_body q)) with false by lia.
  assert (u16 (Z.of_nat (head_size q - 4) + 4) = Z.of_nat (head_size q)) as -> by (rewrite u16_id by (apply is_u16_iff; lia); lia).
  unfold upd_rx. cbn beta. rewrite Ecl. reflexivity.
Qed.

Lemma parsed_body : in_head n c → q_method q ≠ js "GET" → in_body n parsed.
Proof. intros [(Hp & Hw & Hk & Hl & Ht) Hh] Hm. by split_and!. Qed.

Lemma body_pending : in_body n c → (head_size q ≤ n)%nat → (n < length (request_text q))%nat → turn (stored c w s) = (Done tt, stored c w s).
Proof.
  intros ((Hp & Hw & Hk & Hl & Ht) & Hh & Ho & Hc & _) Hs Hlt. pose proof text_small as (Hsm & Hhs & Hh4). pose proof (request_size q) as Hsz.
  unfold http_turn. cbv zeta.
  rewrite (bind_done _ _ _ _ _ (conn_at_run i _)), cat_stored by done. rewrite bool_decide_eq_true_2 by done. rewrite Hh. cbn [negb].
  unfold process_body. rewrite (bind_done _ _ _ _ _ (conn_at_run i _)), cat_stored by done. cbv zeta. rewrite Hl, Ho, Hc. unfold zlen.
  rewrite u16_id by (apply is_u16_iff; lia). by replace (Z.of_nat (length (q_body q)) <=? _) with false by lia.
Qed.

Lemma body_complete :
  in_body n c → n = length (request_text q) →
  turn (stored c w s) =
    (serve now i (q_method q) (q_path q) (q_query q) (drop (head_size q) (rx (crx c))) (length (q_body q));;
     consume_and_pump (conn_pump next now i) next i (zlen (request_text q))) (stored c w s).
Proof.
  intros ((Hp & Hw & Hk & Hl & Ht) & Hh & Ho & Hc & _) Hlt. pose proof text_small as (Hsm & Hhs & Hh4). pose proof (request_size q) as Hsz.
  unfold http_turn. cbv zeta.
  rewrite (bind_done _ _ _ _ _ (conn_at_run i _)), cat_stored by done. rewrite bool_decide_eq_true_2 by done. rewrite Hh. cbn [negb].
  unfold process_body. rewrite (bind_done _ _ _ _ _ (conn_at_run i _)), cat_stored by done. cbv zeta. rewrite Hl, Ho, Hc. unfold zlen.
  rewrite !u16_id by (apply is_u16_iff; lia). replace (Z.of_nat (length (q_body q)) <=? _) with true by lia.
  destruct (request_parse q (crx c) n Hq Ht ltac:(lia)) as (_ & _ & -> & _). pose proof Hq as (_ & _ & _ & _ & H63 & _).
  unfold target. rewrite split_query_spec by done. rewrite !Nat2Z.id. rewrite Hsz. by rewrite Nat2Z.inj_add.
Qed.

Lemma get_complete :
  in_head n c → n = length (request_text q) → q_method q = js "GET" →
  turn (stored c w s) =
    (serve now i (q_method q) (q_path q) (q_query q) [] 0;;
     consume_and_pump (conn_pump next now i) next i (zlen (request_text q))) (stored parsed w s).
Proof.
  intros Hc Hlt Hm. pose proof text_small as (Hsm & Hhs & Hh4). pose proof (request_size q) as Hsz.
  pose proof Hq as (_ & _ & _ & _ & H63 & _ & _ & _ & _ & _ & Hget). destruct (Hget Hm) as [Hb Hws].
  rewrite head_parsed by (done || lia). rewrite bool_decide_eq_true_2 by done. unfold process_get, target. rewrite split_query_spec by done.
  cbv zeta. rewrite bool_decide_eq_false_2 by done. cbn [andb]. rewrite Hm. assert (length (q_body q) = 0%nat) as Hb0 by (by rewrite Hb).
  assert (u16 (Z.of_nat (head_size q - 4) + 4) = zlen (request_text q)) as ->; [|done].
  unfold zlen. clear - Hb0 Hsz Hsm Hhs Hh4. rewrite u16_id by (apply is_u16_iff; lia). lia.
Qed.
End Turns.

Lemma stored_inv c w (s : SYS) :
  http_inv s → conn_ok c → is_ws (cat i s) = false → is_ws c = false → http_inv (stored c w s).
Proof.
  intros Hs Hc Hw1 Hw2. apply (inv_of_link (put i c s)); [by split_and!|]. apply put_inv; [done|done|by rewrite Hw1|by rewrite Hw1, Hw2].
Qed.

Lemma parsed_ok n c : in_head n c → (head_size q ≤ n)%nat → conn_ok c → conn_ok (parsed c).
Proof.
  intros [(Hp & Hw & Hk & Hl & Ht) Hh] Hs [[B1 B2 B3] Cb Cr Cd Cf]. pose proof text_small as (_ & _ & Hh4).
  pose proof Hq as (_ & _ & _ & _ & _ & _ & _ & _ & Hb & _). pose proof (zlen_nonneg (q_body q)).
  constructor; try done; [|cbn; by rewrite Hp]. intros _ _. unfold parsed. cbn [set_crx crx body_off rx_len content_len]. lia.
Qed.

Lemma bind_ext {A B} (m : MH A) (f g : A → MH B) (s : SYS) : (∀ a s', m s = (Done a, s') → f a s' = g a s') → (m ≫= f) s = (m ≫= g) s.
Proof. intros Hfg. unfold mbind, M_bind. destruct (m s) as [[a|] s'] eqn:Em; [by apply Hfg|done]. Qed.

(** nothing is left to read *)
Lemma process_nothing m (s : SYS) : rx_len (crx (cat i s)) = 0 → hdr_done (crx (cat i s)) = false → process m now i s = (Done tt, s).
Proof.
  intros Hl Hh. destruct m as [|m]; [done|]. cbn [http_process_rx]. unfold http_turn. cbv zeta.
  rewrite (bind_done _ _ _ _ _ (conn_at_run i s)). destruct (negb _); [done|]. rewrite Hh. cbn [negb].
  unfold process_head. rewrite (bind_done _ _ _ _ _ (conn_at_run i s)). cbv zeta. unfold find_hdr_end. by rewrite Hl.
Qed.

(** after the answer the loop ends *)
Lemma answer_tail method path query ptr len m used x (s : SYS) :
  serving i (asked x) s → used = rx_len x → 4 ≤ used →
  (serve now i method path query ptr len;; consume_and_pump (conn_pump (process m now i) now i) (process m now i) i used) s
  = (serve now i method path query ptr len;; upd_conn i (upd_rx (consume used));; pump set_reboot_status web_info index_html_gz now i) s.
Proof.
  intros Hs Hu H4'. pose proof (serving_dispatch set_reboot_status web_info index_html_gz Hpage i x now method path query ptr len s Hs) as Hd.
  apply bind_ext. intros [] s' Es. rewrite Es in Hd. cbn [snd] in Hd.
  destruct Hd as (Hi & Hp & Hw & Hx & Hf). pose proof (inv_conn i s' Hi) as [Crx Cb Cr Cd Cf]. rewrite Hx in Crx.
  destruct (consume_rx used x Crx) as [Hcx Hcl]; [lia|]. unfold consume_and_pump. rewrite !(bind_done _ _ _ _ _ (upd_conn_run i _ s')).
  set (c' := upd_rx (consume used) (cat i s')).
  assert (conn_ok c') as Hc' by (unfold c'; constructor; cbn; rewrite ?Hx; done).
  assert (serving i (asked (consume used x)) (put i c' s')) as Hs1.
  { split; [by apply put_inv|]. rewrite cat_put by (eapply lookup_lt_Some; by apply open_slot). split; [done|].
    split_and!; [done| |done]. cbn. by rewrite Hx. }
  destruct (conn_pump_fresh Hread (asked (consume used x)) now i (put i c' s')) as (s2 & E2 & Hi2 & Hs2); [| |exact Hs1|].
  { intros d e (A1 & A2 & A3) Hpu. pose proof (pumped_fresh d e A3 Hpu). destruct Hpu as (B1 & _ & B3 & _). split_and!; by rewrite ?B1, ?B3. }
  { by intros d (_ & _ & ?). }
  rewrite (bind_done _ _ _ _ _ (E2 _)). unfold pump. rewrite E2. unfold when_idle. rewrite (bind_done _ _ _ _ _ (conn_at_run i s2)).
  destruct (bool_decide _); [|done]. destruct Hs2 as [Hnone|(_ & _ & _ & Hx2 & _)].
  - destruct (co_free _ (inv_conn i s2 Hi2) Hnone) as (_ & _ & Hl2 & Hh2). by apply process_nothing.
  - apply process_nothing; rewrite Hx2; [|done]. rewrite Hcl. lia.
Qed.

(** the answer to the whole request, with its bytes in the buffer *)
Definition answered_with (ptr : list Z) : MH unit :=
  serve now i (q_method q) (q_path q) (q_query q) ptr (length (q_body q));;
  upd_conn i (upd_rx (consume (zlen (request_text q))));;
  pump set_reboot_status web_info index_html_gz now i.

Lemma asked_stored x c w (s : SYS) :
  http_inv (stored c w s) → (i < length (http_conns (wnet s)))%nat → pcb c = Some p → is_ws c = false → kind (rsp c) = RESP_NONE → crx c = x →
  serving i (asked x) (stored c w s).
Proof. intros Hs Hi Hp Hw Hk Hx. split; [done|]. rewrite cat_stored by done. rewrite Hp. split; [done|]. by split_and!; try left. Qed.

Lemma body_bytes c : has_bytes (length (request_text q)) c → take (length (q_body q)) (drop (head_size q) (rx (crx c))) = q_body q.
Proof.
  intros (_ & _ & _ & _ & Ht). pose proof (request_size q) as Hsz. rewrite take_drop_commute. rewrite <- Hsz, Ht.
  rewrite take_ge by done. unfold request_text, head_size. rewrite app_assoc. rewrite drop_app_length'; [done|].
  rewrite length_app. done.
Qed.

(** the last piece *)
Lemma complete_run m c w (s : SYS) :
  let n := length (request_text q) in
  http_inv s → (i < length (http_conns (wnet s)))%nat → is_ws (cat i s) = false → conn_ok c → in_head n c ∨ in_body n c →
  ∃ c1 ptr, process (S (S m)) now i (stored c w s) = answered_with ptr (stored c1 w s) ∧
    take (length (q_body q)) ptr = q_body q ∧ pcb c1 = Some p ∧ rsp c1 = rsp c ∧ dl c1 = dl c.
Proof.
  intros n Hs Hi Hw0 Hc Hb. pose proof text_small as (Hsm & Hhs & Hh4). pose proof (request_size q) as Hsz.
  assert (∀ c' m, in_body n c' → conn_ok c' →
    process (S m) now i (stored c' w s) = answered_with (drop (head_size q) (rx (crx c'))) (stored c' w s)) as Hbody.
  { intros c' m' Hc' Hok. change (process (S m') now i) with (http_turn set_reboot_status web_info index_html_gz now i (process m' now i)). pose proof Hc' as ((Hp & Hw & Hk & Hl & Ht) & _).
    rewrite (body_complete c' w s n (process m' now i)) by done. apply (answer_tail _ _ _ _ _ _ _ (crx c')).
    - apply asked_stored; try done. by apply stored_inv.
    - rewrite Hl. unfold n, zlen. done.
    - unfold zlen. lia. }
  destruct Hb as [Hhead|Hbody0].
  - pose proof Hhead as ((Hp & Hw & Hk & Hl & Ht) & Hh). pose proof (parsed_ok n c Hhead ltac:(unfold n; lia) Hc) as Hpok.
    destruct (decide (q_method q = js "GET")) as [Hget|Hpost].
    + exists (parsed c), []. pose proof Hq as (_ & _ & _ & _ & _ & _ & _ & _ & _ & _ & Hg). destruct (Hg Hget) as [Hbe _].
      split_and!; [|by rewrite Hbe|done|done|done].
      change (process (S (S m)) now i) with (http_turn set_reboot_status web_info index_html_gz now i (process (S m) now i)).
      rewrite (get_complete c w s n (process (S m) now i)) by done. unfold answered_with. rewrite Hbe. cbn [length].
      apply (answer_tail _ _ _ _ _ _ _ (crx (parsed c))).
      * apply asked_stored; try done. by apply stored_inv.
      * cbn. rewrite Hl. unfold n, zlen. done.
      * unfold zlen. lia.
    + exists (parsed c), (drop (head_size q) (rx (crx (parsed c)))). pose proof (parsed_body c n Hhead Hpost) as Hin.
      split_and!; [|apply body_bytes, Hin|done|done|done]. change (process (S (S m)) now i) with (http_turn set_reboot_status web_info index_html_gz now i (process (S m) now i)).
      rewrite (head_parsed c w s n (process (S m) now i)) by (done || (unfold n; lia)). rewrite bool_decide_eq_false_2 by done. by apply Hbody.
  - exists c, (drop (head_size q) (rx (crx c))). pose proof Hbody0 as ((Hp & _) & _). split_and!; [by apply Hbody|apply body_bytes, Hbody0|done|done|done].
Qed.

(** a piece before the last *)
Lemma partial_run m n c w (s : SYS) :
  (i < length (http_conns (wnet s)))%nat → conn_ok c → in_head n c ∨ (in_body n c ∧ (head_size q ≤ n)%nat) → (n < length (request_text q))%nat →
  ∃ c1, process (S (S m)) now i (stored c w s) = (Done tt, stored c1 w s) ∧ conn_ok c1 ∧ waiting n c1 ∧ rsp c1 = rsp c ∧ dl c1 = dl c.
Proof.
  intros Hi Hc Hb Hn. pose proof (request_size q) as Hsz. destruct Hb as [Hhead|[Hbody Hge]].
  - destruct (decide (n < head_size q)%nat) as [Hlt|Hge].
    + exists c. split_and!; [|done|by left|done|done]. change (process (S (S m)) now i) with (http_turn set_reboot_status web_info index_html_gz now i (process (S m) now i)).
      apply (head_pending c w s n); done || lia.
    + assert (q_method q ≠ js "GET") as Hpost.
      { intros Hget. pose proof Hq as (_ & _ & _ & _ & _ & _ & _ & _ & _ & _ & Hg). destruct (Hg Hget) as [Hbe _]. assert (length (q_body q) = 0%nat) by (by rewrite Hbe). lia. }
      exists (parsed c). pose proof (parsed_body c n Hhead Hpost) as Hin. split_and!; [|apply (parsed_ok n); done || lia|right; split; [done|lia]|done|done].
      change (process (S (S m)) now i) with (http_turn set_reboot_status web_info index_html_gz now i (process (S m) now i)).
      rewrite (head_parsed c w s n (process (S m) now i)) by (done || lia). rewrite bool_decide_eq_false_2 by done.
      change (process (S m) now i) with (http_turn set_reboot_status web_info index_html_gz now i (process m now i)).
      apply (body_pending _ w s n); done || lia.
  - exists c. split_and!; [|done|by right|done|done]. change (process (S (S m)) now i) with (http_turn set_reboot_status web_info index_html_gz now i (process (S m) now i)).
    apply (body_pending c w s n); done || lia.
Qed.

(** lwIP after the pieces have been acknowledged to it *)
Definition acked_pieces (chains : list (list (list Z))) (w : W) : W := foldl (λ w ch, tcp_recved p (zlen (concat ch)) w) w chains.

Lemma recv_event ch (s : SYS) :
  http_run fw_keyhash boot_set_pending set_reboot_status web_info index_html_gz (HRecv now i (Some ch) ERR_OK) s = (recv now i (Some ch) ERR_OK;; mret tt) s.
Proof. done. Qed.

Lemma run_pieces chains : ∀ n c w (s : SYS),
  http_inv s → (i < length (http_conns (wnet s)))%nat → is_ws (cat i s) = false → conn_ok c → waiting n c →
  Forall (λ ch, concat ch ≠ []) chains → chains ≠ [] → concat (@concat Z <$> chains) = drop n (request_text q) →
  ∃ c1 ptr,
    http_runs fw_keyhash boot_set_pending set_reboot_status web_info index_html_gz ((λ ch, HRecv now i (Some ch) ERR_OK) <$> chains) (stored c w s)
    = answered_with ptr (stored c1 (acked_pieces chains w) s) ∧
    take (length (q_body q)) ptr = q_body q ∧ pcb c1 = Some p ∧ rsp c1 = rsp c ∧ dl c1 = dl c.
Proof.
  induction chains as [|ch chains IH]; intros n c w s Hs Hi Hw0 Hc Hwait Hne Hnil Hall; [done|].
  inversion Hne as [|? ? Hch Hne']; subst. cbn [fmap list_fmap concat] in Hall. set (b := concat ch) in *.
  pose proof text_small as (Hsm & Hhs & Hh4). pose proof (request_size q) as Hsz.
  assert (length b + length (concat (@concat Z <$> chains)) = length (request_text q) - n)%nat as Hlen.
  { rewrite <- length_app, Hall, length_drop. done. }
  assert (∀ l : list Z, l ≠ [] → (0 < length l)%nat) as Hpos by (intros [|? l] ?; [done|cbn; lia]). pose proof (Hpos b Hch) as Hbpos.
  assert (b = take (length b) (drop n (request_text q))) as Hb by (by rewrite <- Hall, take_app_length).
  assert (has_bytes n c ∧ (n ≤ length (request_text q))%nat) as [Hhb Hnle].
  { destruct Hwait as [[[Hh _] ?]|[[Hh _] ?]]; (split; [exact Hh|]); lia. }
  assert (n + length b ≤ length (request_text q))%nat as Hnb by lia.
  destruct (received_bytes n b c Hhb (co_rx _ Hc) Hb Hnb) as (Hhb' & Eh & Eo & Ec). set (c' := received now b c) in *.
  assert (conn_ok c') as Hc'.
  { destruct Hhb as (Hp & Hw & _ & Hl & _). apply received_ok; [done|done|by rewrite Hp|]. rewrite Hl. unfold HTTP_RX_BUF, zlen. lia. }
  assert (in_head (n + length b) c' ∨ (in_body (n + length b) c' ∧ (head_size q ≤ n + length b)%nat)) as Hst.
  { destruct Hwait as [[[_ Hh] _]|[(_ & Hh & Ho & Hcl & Hm) Hge]].
    - left. split; [done|by rewrite Eh].
    - right. split; [|lia]. split_and!; by rewrite ?Eh, ?Eo, ?Ec. }
  assert (∃ m, HTTP_FUEL = S (S m)) as [m Hm] by (by eexists).
  cbn [fmap list_fmap http_runs]. set (w' := tcp_recved p (zlen b) w).
  pose proof (step_recv n b ch c w s Hi Hhb eq_refl Hnb) as Hstep. rewrite Hm in Hstep. fold c' w' in Hstep.
  destruct chains as [|ch2 chains].
  - change (length (concat (@concat Z <$> []))) with 0%nat in Hlen.
    assert (n + length b = length (request_text q))%nat as En by lia. rewrite En in *.
    destruct (complete_run m c' w' s Hs Hi Hw0 Hc') as (c1 & ptr & Hrun & Hptr & Hp1 & Hr1 & Hd1); [destruct Hst as [?|[? _]]; auto|].
    exists c1, ptr. split_and!; try done. cbn [fmap list_fmap http_runs]. unfold acked_pieces; cbn [foldl]. fold b w'. rewrite <- Hrun.
    unfold http_run. unfold mbind, M_bind in *. rewrite Hstep. destruct (process (S (S m)) now i (stored c' w' s)) as [[[]|] s']; done.
  - inversion Hne' as [|? ? Hch2 _]; subst.
    assert (n + length b < length (request_text q))%nat as Hlt.
    { cbn [fmap list_fmap concat] in Hlen. rewrite length_app in Hlen. pose proof (Hpos _ Hch2). lia. }
    destruct (partial_run m (n + length b) c' w' s Hi Hc' Hst Hlt) as (c1 & Hrun & Hc1 & Hw1 & Hr1 & Hd1).
    destruct (IH (n + length b)%nat c1 w' s Hs Hi Hw0 Hc1 Hw1 Hne' ltac:(done)) as (c2 & ptr & Hrun2 & Hptr & Hp2 & Hr2 & Hd2).
    { rewrite <- drop_drop, <- Hall. by rewrite drop_app_length. }
    exists c2, ptr. rewrite Hr2, Hd2, Hr1, Hd1. split_and!; try done. change (acked_pieces (ch :: ch2 :: chains) w) with (acked_pieces (ch2 :: chains) w').
    rewrite <- Hrun2. rewrite (bind_done _ _ _ tt (stored c1 w' s)); [done|]. unfold http_run.
    rewrite (bind_done _ _ _ ERR_OK (stored c1 w' s)); [done|]. rewrite Hstep. by rewrite (bind_done _ _ _ _ _ Hrun).
Qed.
End Arrival.

(** ** What the client gets *)

(** lwIP with a record of the bytes it accepted, for whatever it answers *)
Section Stream.
Context {W : Type} `{TcpStack W} `{TcpSnd W} `{TcpRcv W}.

Definition wire : Type := W * list (Z * list Z).
#[export] Instance wire_log_stack : TcpStack wire := {
  tcp_write p bs w := let '(e, n) := tcp_write p bs w.1 in (e, (n, if bool_decide (e = ERR_OK) then w.2 ++ [(p, bs)] else w.2));
  tcp_output p w := (tcp_output p w.1, w.2);
  tcp_close p w := (tcp_close p w.1, w.2);
  tcp_abort p w := (tcp_abort p w.1, w.2);
}.
#[export] Instance wire_log_snd : TcpSnd wire := { tcp_sndbuf p w := tcp_sndbuf p w.1 }.
#[export] Instance wire_log_rcv : TcpRcv wire := { tcp_mss p w := tcp_mss p w.1; tcp_recved p n w := (tcp_recved p n w.1, w.2) }.

(** the bytes accepted for one handle *)
Definition stream_of (p : Z) (log : list (Z * list Z)) : list Z := concat ((λ x, if x.1 =? p then x.2 else []) <$> log).
Arguments stream_of : simpl never.

Lemma stream_snoc p log q bs : stream_of p (log ++ [(q, bs)]) = stream_of p log ++ (if q =? p then bs else []).
Proof. unfold stream_of. rewrite fmap_app, concat_app. cbn. by rewrite app_nil_r. Qed.

Context {E F L : Type} `{IoHooks E} `{UdpHooks E} `{IoFlash F} `{Lfs L}.
Context (fw_keyhash : list Z) (boot_set_pending : bool → F → Z * F) (set_reboot_status : bool → E → E) (web_info : E → info) (index_html_gz : list Z).
Abbreviation SYS := (wsys E F (hw L wire)).
Abbreviation MH := (M SYS).
Context (i : nat) (p : Z) (h b before : list Z) (Hsize : zlen (h ++ b) < 2 ^ 31) (Hh : zlen h < HTTP_HDR_MAX).

Definition accepted_bytes (s : SYS) : list Z := stream_of p (hnet (wnet s)).2.
Definition sent_to (k : Z) (s : SYS) : Prop := accepted_bytes s = before ++ take (Z.to_nat k) (h ++ b).

(** the response is being sent, [k] bytes of it so far *)
Definition sending (k : Z) (s : SYS) : Prop :=
  let c := cat i s in let r := rsp c in
  (i < length (http_conns (wnet s)))%nat ∧ pcb c = Some p ∧ is_ws c = false ∧ rx_len (crx c) = 0 ∧
  kind r = RESP_MEM ∧ hdr r = h ∧ body r = b ∧ rsp_total r = zlen (h ++ b) ∧ written r = k ∧
  0 ≤ hdr_sent r ≤ zlen h ∧ 0 ≤ body_sent r ≤ zlen b ∧ k = hdr_sent r + body_sent r ∧ (hdr_sent r = zlen h ∨ body_sent r = 0) ∧ sent_to k s.
(** the connection is closed, or free for the next request after the whole response *)
Definition over (s : SYS) : Prop :=
  (i < length (http_conns (wnet s)))%nat ∧ kind (rsp (cat i s)) = RESP_NONE ∧ is_ws (cat i s) = false ∧
  ((pcb (cat i s) = None ∧ ∃ k, 0 ≤ k ≤ zlen (h ++ b) ∧ sent_to k s) ∨ (pcb (cat i s) = Some p ∧ sent_to (zlen (h ++ b)) s)).

Lemma sending_bound k s : sending k s → 0 ≤ k ≤ zlen (h ++ b).
Proof. intros (_ & _ & _ & _ & _ & _ & _ & _ & _ & Ha & Hb & -> & _). rewrite zlen_app. lia. Qed.

Lemma close_over k s :
  (i < length (http_conns (wnet s)))%nat → is_ws (cat i s) = false → 0 ≤ k ≤ zlen (h ++ b) → sent_to k s →
  ∃ s', conn_close i s = (Done tt, s') ∧ over s'.
Proof.
  intros Hi Hw Hk Ht. unfold conn_close. rewrite (bind_done _ _ _ _ _ (conn_at_run i s)). rewrite Hw. erewrite bind_done by reflexivity. eexists. split; [reflexivity|].
  destruct (lookup_lt_is_Some_2 _ _ Hi) as [c Ec]. assert (cat i s = c) as Ecat by (unfold cat; by rewrite Ec). rewrite Ecat in *.
  unfold over, sent_to, accepted_bytes, cat; cbn. unfold close_w. rewrite Ec. cbn. rewrite length_insert, list_lookup_insert_eq by done.
  split_and!; [done|done|done|]. left. split; [done|]. exists k. split; [done|]. destruct (pcb c); exact Ht.
Qed.

Lemma sending_close k s : sending k s → ∃ s', conn_close i s = (Done tt, s') ∧ over s'.
Proof.
  intros Hs. pose proof (sending_bound k s Hs) as Hk. destruct Hs as (Hi & _ & Hw & _ & _ & _ & _ & _ & _ & _ & _ & _ & _ & Ht).
  by apply (close_over k).
Qed.

(** the next piece of the response, accepted *)
Lemma sending_more (k n : Z) (in_hdr : bool) e w s :
  sending k s →
  let r := rsp (cat i s) in
  (if in_hdr then hdr_sent r < zlen h else hdr_sent r = zlen h) → 0 ≤ n →
  let bs := if in_hdr then piece (hdr_sent r) n h else piece (body_sent r) n b in
  tcp_write p bs (hnet (wnet s)).1 = (e, w) → e = ERR_OK →
  ∃ s', call_wnet (tcp_write p bs) s = (Done ERR_OK, s') ∧
    sending (k + zlen bs) (put i (upd_rsp ((if in_hdr then sent_hdr else sent_body) (zlen bs)) (cat i s)) s').
Proof.
  intros Hs r Hin Hn bs Hwr ->. pose proof (sending_bound k s Hs) as Hk.
  destruct Hs as (Hi & Hp & Hw & Hrx & Hkd & Ehd & Ebd & Etot & Ewr & Ha & Hb & Hpos & Hph & Ht). fold r in Hkd, Ehd, Ebd, Etot, Ewr, Ha, Hb, Hpos, Hph.
  assert (zlen bs = Z.min n (if in_hdr then zlen h - hdr_sent r else zlen b - body_sent r)) as Hbs.
  { unfold bs, piece, zlen in *. destruct in_hdr; rewrite length_take, length_drop; lia. }
  assert (take (Z.to_nat (k + zlen bs)) (h ++ b) = take (Z.to_nat k) (h ++ b) ++ bs) as Htake.
  { rewrite zlen_app in Hk. unfold zlen in *. rewrite Z2Nat.inj_add, Nat2Z.id by lia. rewrite <- take_take_drop. f_equal. destruct in_hdr.
    - assert (body_sent r = 0) as Hb0 by lia. replace (Z.to_nat k) with (Z.to_nat (hdr_sent r)) by lia.
      rewrite drop_app_le by lia. rewrite take_app_le by (rewrite length_drop; lia). unfold bs, piece. rewrite length_take.
      rewrite length_drop. rewrite <- (take_ge (drop (Z.to_nat (hdr_sent r)) h) (length h - Z.to_nat (hdr_sent r))) at 2 by (rewrite length_drop; lia).
      by rewrite take_take.
    - rewrite drop_app_ge by lia. replace (Z.to_nat k - length h)%nat with (Z.to_nat (body_sent r)) by lia. unfold bs, piece.
      rewrite length_take, length_drop. rewrite <- (take_ge (drop (Z.to_nat (body_sent r)) b) (length b - Z.to_nat (body_sent r))) at 2 by (rewrite length_drop; lia).
      by rewrite take_take. }
  set (s1 := (call_wnet (tcp_write p bs) s).2).
  assert (call_wnet (tcp_write p bs) s = (Done ERR_OK, s1) ∧ http_conns (wnet s1) = http_conns (wnet s) ∧ sent_to (k + zlen bs) s1) as (Hc & Econ & Hs1).
  { unfold s1, call_wnet; cbn. rewrite Hwr. cbn. split_and!; try done. unfold sent_to, accepted_bytes in *; cbn.
    rewrite bool_decide_eq_true_2 by done. rewrite stream_snoc, Z.eqb_refl, Ht, Htake. by rewrite app_assoc. }
  exists s1. split; [done|]. assert (cat i s1 = cat i s) as Ecat by (unfold cat; by rewrite Econ).
  unfold sending. cbv zeta. rewrite cat_put by (by rewrite Econ). rewrite zlen_app in *. unfold HTTP_HDR_MAX in Hh.
  split; [cbn; by rewrite length_insert, Econ|].
  destruct in_hdr; cbn [upd_rsp set_rsp sent_hdr sent_body pcb is_ws crx rsp kind hdr body rsp_total written hdr_sent body_sent]; fold r;
    rewrite ?(u16_id (hdr_sent r + zlen bs)) by (apply is_u16_iff; lia); rewrite ?u32_id by ulia; split_and!; try done; try lia; try exact Hs1.
Qed.
Lemma sending_keeps k c' s (s' : SYS) :
  sending k s → http_conns (wnet s') = http_conns (wnet s) → accepted_bytes s' = accepted_bytes s →
  pcb c' = pcb (cat i s) → is_ws c' = is_ws (cat i s) → crx c' = crx (cat i s) →
  (∃ a, rsp c' = let r := rsp (cat i s) in mk_rsp (kind r) (keep_alive r) (rsp_total r) (written r) a (hdr r) (hdr_sent r) (body r) (body_sent r)) →
  sending k (put i c' s').
Proof.
  intros Hs Econ Ea Ep Ew Ex [a Er]. pose proof Hs as (Hi & _). unfold sending in *. cbv zeta in *. rewrite cat_put by (by rewrite Econ).
  cbn [wnet put http_conns]. rewrite length_insert, Econ, Ep, Ew, Ex, Er. cbn. unfold sent_to in *.
  change (accepted_bytes (put i c' s')) with (accepted_bytes s'). rewrite Ea. tauto.
Qed.

Lemma sending_still k s (s' : SYS) :
  sending k s → http_conns (wnet s') = http_conns (wnet s) → accepted_bytes s' = accepted_bytes s → sending k s'.
Proof.
  intros Hs Econ Ea. assert (cat i s' = cat i s) as Ec by (unfold cat; by rewrite Econ). unfold sending, sent_to in *. by rewrite Ec, Econ, Ea.
Qed.

(** a send loop ends on an open connection or has closed it *)
Definition streamed (r : outcome bool * SYS) : Prop :=
  ∃ ok s', r = (Done ok, s') ∧ if ok : bool then ∃ k, sending k s' else over s'.

Lemma push_stream k n (in_hdr : bool) go s :
  sending k s → (if in_hdr then hdr_sent (rsp (cat i s)) < zlen h else hdr_sent (rsp (cat i s)) = zlen h) → 0 ≤ n →
  (∀ k' s', sending k' s' → streamed (go s')) →
  let bs := if in_hdr then piece (hdr_sent (rsp (cat i s))) n h else piece (body_sent (rsp (cat i s))) n b in
  streamed (push i p bs (upd_rsp ((if in_hdr then sent_hdr else sent_body) (zlen bs))) go s).
Proof.
  intros Hs Hin Hn Hgo bs. unfold push. destruct (tcp_write p bs (hnet (wnet s)).1) as [e w] eqn:Hwr.
  set (s1 := (call_wnet (tcp_write p bs) s).2).
  assert (call_wnet (tcp_write p bs) s = (Done e, s1)) as Hc by (unfold s1, call_wnet; cbn; by rewrite Hwr). rewrite (bind_done _ _ _ _ _ Hc).
  assert (e ≠ ERR_OK → sending k s1) as Hstill.
  { intros He. apply (sending_still k s); [done|unfold s1, call_wnet; cbn; by rewrite Hwr|].
    unfold s1, call_wnet, accepted_bytes; cbn. rewrite Hwr. cbn. by rewrite bool_decide_eq_false_2. }
  assert (∀ k s, sending k s → streamed ((conn_close i;; mret false) s)) as Hclose.
  { intros k' s' Hs'. destruct (sending_close k' s' Hs') as (s2 & E2 & Ho). rewrite (bind_done _ _ _ _ _ E2). by exists false, s2. }
  destruct (decide (e = ERR_OK)) as [->|He].
  - destruct (sending_more k n in_hdr ERR_OK w s Hs Hin Hn Hwr eq_refl) as (s1' & E1 & Hm). fold bs in E1, Hm. rewrite Hc in E1. injection E1 as E1. subst s1'.
    rewrite (bind_done _ _ _ _ _ (upd_conn_run i _ s1)).
    assert (cat i s1 = cat i s) as -> by (unfold cat, s1, call_wnet; cbn; by rewrite Hwr). by eapply Hgo.
  - specialize (Hstill He). destruct e; try (by eapply Hclose); try done. exists true, s1. split; [done|]. by exists k.
Qed.

Lemma pump_mem_stream n : ∀ k s, sending k s → streamed (pump_mem n i p s).
Proof.
  induction n as [|n IH]; intros k s Hs; cbn [pump_mem]; [exists true, s; split; [done|by exists k]|].
  rewrite (bind_done _ _ _ _ _ (conn_at_run i s)). cbv zeta.
  pose proof Hs as (_ & _ & _ & _ & _ & Eh & Eb & _ & _ & Hh1 & Hb1 & _). rewrite Eh, Eb.
  assert (streamed (mret (M := M SYS) true s)) as Hstop by (exists true, s; split; [done|by exists k]).
  assert (0 ≤ u16 (tcp_sndbuf p (wnet s))) as Hsnd by ulia.
  destruct (hdr_sent _ <? zlen h) eqn:El; cbn [orb].
  - rewrite (bind_done _ _ _ _ _ (sndbuf_run p s)). destruct (_ =? 0); [exact Hstop|]. apply Z.ltb_lt in El.
    apply (push_stream k _ true); done.
  - destruct (body_sent _ <? zlen b); [|exact Hstop]. apply Z.ltb_ge in El.
    rewrite (bind_done _ _ _ _ _ (sndbuf_run p s)). destruct (_ =? 0); [exact Hstop|]. apply (push_stream k _ false); try done. lia.
Qed.
Lemma done_stream reenter now k s :
  sending k s → ∃ s', pump_done reenter now i s = (Done tt, s') ∧ ((∃ k, sending k s') ∨ over s').
Proof.
  intros Hs. unfold pump_done. rewrite (bind_done _ _ _ _ _ (conn_at_run i s)). cbv zeta. pose proof (sending_bound k s Hs) as Hk.
  pose proof Hs as (Hi & Hp & Hw & Hrx & Hkd & _ & _ & Etot & Ewr & _ & _ & _ & _ & Ht). rewrite Etot, Ewr, Hkd, Hrx.
  destruct (zlen (h ++ b) <=? k) eqn:Ek; cbn [andb]; [|exists s; eauto]. destruct (_ <=? acked _); [|exists s; eauto].
  apply Z.leb_le in Ek. assert (k = zlen (h ++ b)) as Ewhole by lia. rewrite bool_decide_eq_false_2 by done.
  rewrite (bind_done _ _ _ tt s) by done. rewrite (bind_done _ _ _ _ _ (upd_conn_run i _ s)).
  set (c1 := upd_rx _ _). set (s1 := put i c1 s). assert (cat i s1 = c1) as Ec1 by (by apply cat_put).
  assert (sent_to k s1) as Ht1 by exact Ht. assert (i < length (http_conns (wnet s1)))%nat as Hi1 by (cbn; by rewrite length_insert).
  destruct (keep_alive _); cbn [negb].
  - rewrite (bind_done _ _ _ _ _ (upd_conn_run i _ s1)). rewrite Ec1. change (0 <? 0) with false. eexists. split; [reflexivity|]. right.
    unfold over. rewrite cat_put by done. cbn [wnet put http_conns]. rewrite length_insert. split_and!; [done|done|done|]. right.
    split; [done|]. rewrite <- Ewhole. exact Ht1.
  - destruct (close_over k s1) as (s2 & E2 & Ho); [done|by rewrite Ec1|done|done|]. exists s2. by eauto.
Qed.

Lemma conn_pump_stream reenter now k s :
  sending k s → ∃ s', conn_pump reenter now i s = (Done tt, s') ∧ ((∃ k, sending k s') ∨ over s').
Proof.
  intros Hs. unfold conn_pump. rewrite (bind_done _ _ _ _ _ (conn_at_run i s)). pose proof Hs as (_ & -> & _ & _ & -> & _).
  destruct (pump_mem_stream (S (length (hdr (rsp (cat i s)) ++ body (rsp (cat i s))))) k s Hs) as (ok & s1 & E1 & Hr).
  rewrite (bind_done _ _ _ _ _ E1). destruct ok; [|exists s1; by eauto]. destruct Hr as [k1 Hk1].
  erewrite bind_done by reflexivity. eapply done_stream. by apply (sending_still k1 s1).
Qed.

(** what lwIP may report about connection [i] while a response is under way *)
Definition reports (ev : http_event) : Prop :=
  match ev with HSent _ j _ | HPoll _ j | HErr j => j = i | _ => False end.
Definition in_response (s : SYS) : Prop := (∃ k, sending k s) ∨ over s.

Abbreviation run := (http_run fw_keyhash boot_set_pending set_reboot_status web_info index_html_gz).

Lemma in_response_close s : in_response s → ∃ s', conn_close i s = (Done tt, s') ∧ in_response s'.
Proof.
  intros [[k Hs]|(Hi & Hk & Hw & Hr)].
  - destruct (sending_close k s Hs) as (s1 & E1 & Ho). exists s1. split; [done|by right].
  - assert (∃ k, 0 ≤ k ≤ zlen (h ++ b) ∧ sent_to k s) as (k & Hb & Ht).
    { destruct Hr as [[_ Hr]|[_ Hr]]; [done|]. exists (zlen (h ++ b)). split; [unfold zlen; lia|done]. }
    destruct (close_over k s) as (s1 & E1 & Ho); try done. exists s1. split; [done|by right].
Qed.

Lemma over_keeps c' s : over s → pcb c' = pcb (cat i s) → is_ws c' = false → kind (rsp c') = RESP_NONE → over (put i c' s).
Proof.
  intros (Hi & Hk & Hw & Hr) Ep Ew Ek. unfold over. rewrite cat_put by done. cbn [wnet put http_conns]. rewrite length_insert, Ep. split_and!; done.
Qed.

Lemma sent_stream now len s : in_response s → ∃ s', run (HSent now i len) s = (Done tt, s') ∧ in_response s'.
Proof.
  intros Hs. unfold http_run, http_sent_cb. rewrite bind_assoc, (bind_done _ _ _ _ _ (conn_at_run i s)).
  destruct Hs as [[k Hs]|Ho].
  - pose proof Hs as (Hi & Hp & Hw & _). rewrite bool_decide_eq_false_2 by (by rewrite Hp).
    rewrite bind_assoc, (bind_done _ _ _ _ _ (upd_conn_run i _ s)). rewrite Hw. rewrite bind_assoc.
    set (c1 := mk_hconn _ _ _ _ _ _ _ _). assert (sending k (put i c1 s)) as Hs1 by (apply (sending_keeps k c1 s s); try done; by eexists).
    destruct (conn_pump_stream (process_rx set_reboot_status web_info index_html_gz now i) now k _ Hs1) as (s2 & E2 & H2').
    unfold pump. rewrite (bind_done _ _ _ _ _ E2). by exists s2.
  - pose proof Ho as (Hi & Hk & Hw & _). destruct (bool_decide _); [exists s; split; [done|by right]|].
    rewrite bind_assoc, (bind_done _ _ _ _ _ (upd_conn_run i _ s)). rewrite Hw, bind_assoc. set (c1 := mk_hconn _ _ _ _ _ _ _ _).
    assert (over (put i c1 s)) as Ho1 by (by apply over_keeps).
    unfold pump. rewrite (bind_done _ _ _ tt (put i c1 s)); [exists (put i c1 s); split; [done|by right]|].
    apply conn_pump_none. right. by rewrite cat_put.
Qed.

Lemma poll_stream now s : in_response s → ∃ s', run (HPoll now i) s = (Done tt, s') ∧ in_response s'.
Proof.
  intros Hs. unfold http_run, http_poll_cb. rewrite bind_assoc, (bind_done _ _ _ _ _ (conn_at_run i s)).
  destruct (bool_decide (pcb (cat i s) = None)); [by exists s|]. rewrite bind_assoc.
  assert (is_ws (cat i s) = false) as ->.
  { destruct Hs as [[k (_ & _ & Hw & _)]|(_ & _ & Hw & _)]; done. }
  destruct (in_response_close s Hs) as (s1 & E1 & H1').
  assert (∀ x : bool, ∃ s', ((if x then conn_close i else mret tt);; mret ERR_OK;; mret tt) s = (Done tt, s') ∧ in_response s') as Hcase.
  { intros [|]; [rewrite (bind_done _ _ _ _ _ E1); by exists s1|by exists s]. }
  destruct (negb _); [apply Hcase|]. destruct (_ || _); apply Hcase.
Qed.

Lemma err_stream s : in_response s → ∃ s', run (HErr i) s = (Done tt, s') ∧ in_response s'.
Proof.
  intros Hs. unfold http_run, http_err_cb. rewrite (bind_done _ _ _ _ _ (upd_conn_run i _ s)). set (c1 := mk_hconn _ _ _ _ _ _ _ _).
  assert ((i < length (http_conns (wnet s)))%nat ∧ is_ws (cat i s) = false ∧ ∃ k, 0 ≤ k ≤ zlen (h ++ b) ∧ sent_to k s) as (Hi & Hw & k & Hk & Ht).
  { destruct Hs as [[k Hs]|(Hi & _ & Hw & Hr)].
    - pose proof (sending_bound k s Hs). destruct Hs as (Hi & _ & Hw & _ & _ & _ & _ & _ & _ & _ & _ & _ & _ & Ht). by eauto.
    - split_and!; try done. destruct Hr as [[_ Hr]|[_ Hr]]; [done|]. exists (zlen (h ++ b)). split; [unfold zlen; lia|done]. }
  destruct (close_over k (put i c1 s)) as (s2 & E2 & Ho); [cbn; by rewrite length_insert|by rewrite cat_put|done|done|].
  exists s2. split; [done|by right].
Qed.

Lemma reports_stream evs : ∀ s, Forall reports evs → in_response s →
  ∃ s', http_runs fw_keyhash boot_set_pending set_reboot_status web_info index_html_gz evs s = (Done tt, s') ∧ in_response s'.
Proof.
  induction evs as [|ev evs IH]; intros s Hev Hs; cbn [http_runs]; [by exists s|]. inversion Hev as [|? ? Hr Hevs]; subst.
  assert (∃ s', run ev s = (Done tt, s') ∧ in_response s') as (s1 & E1 & Hs1).
  { destruct ev; try done; cbn in Hr; subst; [by apply sent_stream|by apply poll_stream|by apply err_stream]. }
  rewrite (bind_done _ _ _ _ _ E1). by apply IH.
Qed.
End Stream.

(** ** Properties *)

(** C30: A request of any path, query, header lines and body that fits the receive buffer, arriving in any number of
    pieces of any size, each piece in any number of buffers: nothing is answered before its last byte is here; then it is
    routed exactly once, with its method, path, query and the bytes of its body, its bytes are removed from the buffer,
    and the answer is sent. Every byte is acknowledged to lwIP, and nothing else of the system has changed before. *)
Theorem http_request_routed {E F L W} `{IoHooks E} `{UdpHooks E} `{IoFlash F} `{Lfs L} `{TcpStack W} `{TcpSnd W} `{TcpRcv W}
    (fw_keyhash : list Z) (bsp : bool → F → Z * F) (srs : bool → E → E) (web_info : E → info) (page : list Z)
    (now : Z) (i : nat) (p : Z) (c : http_conn) (q : request) (chains : list (list (list Z))) (s : wsys E F (hw L W)) :
  zlen page < 2 ^ 31 → reads_fit L → http_inv s → http_conns (wnet s) !! i = Some c →
  pcb c = Some p → is_ws c = false → kind (rsp c) = RESP_NONE → rx_len (crx c) = 0 → hdr_done (crx c) = false →
  request_ok q → Forall (λ ch, concat ch ≠ []) chains → concat (@concat Z <$> chains) = request_text q →
  ∃ c1 ptr,
    http_runs fw_keyhash bsp srs web_info page ((λ ch, HRecv now i (Some ch) ERR_OK) <$> chains) s
    = (dispatch srs web_info page now i (q_method q) (q_path q) (q_query q) ptr (length (q_body q));;
       upd_conn i (upd_rx (consume (zlen (request_text q))));;
       pump srs web_info page now i) (stored i c1 (acked_pieces p chains (hnet (wnet s))) s) ∧
    take (length (q_body q)) ptr = q_body q ∧ pcb c1 = Some p ∧ rsp c1 = rsp c ∧ dl c1 = dl c.
Proof.
  intros Hpage Hread Hs Hc Hp Hw Hk Hl Hh Hq Hne Hall. pose proof (lookup_lt_Some _ _ _ Hc) as Hi.
  assert (cat i s = c) as Ec by (unfold cat; by rewrite Hc).
  assert (stored i c (hnet (wnet s)) s = s) as Es.
  { unfold stored. rewrite list_insert_id by done. by destruct s as [? ? ? ? []]. }
  pose proof (text_small q Hq) as (_ & _ & Hhs). pose proof (request_size q) as Hsz.
  pose proof (run_pieces fw_keyhash bsp srs web_info page Hpage Hread now i p q Hq chains 0 c (hnet (wnet s)) s Hs Hi) as Hrun.
  rewrite Es in Hrun. apply Hrun; try done.
  - by rewrite Ec.
  - rewrite <- Ec. by apply inv_conn.
  - left. split; [|lia]. by split_and!.
  - intros ->. assert (length (request_text q) = 0%nat) by (by rewrite <- Hall). lia.
Qed.

(** C31: The client of a response from memory receives it whole and in order. Whatever lwIP answers to each write and
    reports afterwards (acknowledgements of any sizes, polls, the loss of the connection, in any order): what it has
    accepted is always a prefix of the header and body of [respond_mem], after what it had accepted before, and when
    the connection is free for the next request, all of it has been accepted. *)
Theorem http_response_stream {E F L W} `{IoHooks E} `{UdpHooks E} `{IoFlash F} `{Lfs L} `{TcpStack W} `{TcpSnd W} `{TcpRcv W}
    (fw_keyhash : list Z) (bsp : bool → F → Z * F) (srs : bool → E → E) (web_info : E → info) (page : list Z)
    (now : Z) (i : nat) (p : Z) (c : http_conn) (status ctype data extra : list Z) (evs : list http_event) (s : wsys E F (hw L (@wire W))) :
  let text := hdr_text status ctype (zlen data) true extra in
  http_conns (wnet s) !! i = Some c → pcb c = Some p → is_ws c = false → rx_len (crx c) = 0 →
  zlen text < HTTP_HDR_MAX → zlen data < 2 ^ 31 - HTTP_HDR_MAX → Forall (reports i) evs →
  ∃ s' k,
    (upd_conn i (respond_mem now status ctype data extra);; pump srs web_info page now i;;
     http_runs fw_keyhash bsp srs web_info page evs) s = (Done tt, s') ∧
    0 ≤ k ≤ zlen (text ++ data) ∧ accepted_bytes p s' = accepted_bytes p s ++ take (Z.to_nat k) (text ++ data) ∧
    (pcb (cat i s') ≠ None → kind (rsp (cat i s')) = RESP_NONE → k = zlen (text ++ data)).
Proof.
  intros text Hc Hp Hw Hrx Ht Hd Hev. pose proof (lookup_lt_Some _ _ _ Hc) as Hi.
  assert (cat i s = c) as Ec by (unfold cat; by rewrite Hc).
  assert (zlen (text ++ data) < 2 ^ 31) as Hsize by (rewrite zlen_app; unfold HTTP_HDR_MAX in *; lia).
  rewrite (bind_done _ _ _ _ _ (upd_conn_run i _ s)). rewrite Ec. set (c1 := respond_mem now status ctype data extra c).
  assert (sending i p text data (accepted_bytes p s) 0 (put i c1 s)) as Hs1.
  { unfold sending. cbv zeta. rewrite cat_put by done. unfold c1, respond_mem, rsp_begin. fold text.
    destruct (HTTP_HDR_MAX <=? zlen text) eqn:El; [by apply Z.leb_le in El; lia|]. clear El.
    cbn [wnet put http_conns upd_rsp set_rsp pcb is_ws crx rsp kind hdr body rsp_total written hdr_sent body_sent].
    pose proof (zlen_nonneg text). pose proof (zlen_nonneg data). rewrite length_insert, zlen_app.
    split_and!; try done; [apply u32_id; rewrite zlen_app in Hsize; ulia|by right|]. unfold sent_to. by rewrite app_nil_r. }
  destruct (conn_pump_stream i p text data (accepted_bytes p s) Hsize Ht (process_rx srs web_info page now i) now 0 _ Hs1) as (s2 & E2 & H2').
  unfold pump. rewrite (bind_done _ _ _ _ _ E2).
  destruct (reports_stream fw_keyhash bsp srs web_info page i p text data (accepted_bytes p s) Hsize Ht evs s2 Hev H2') as (s3 & E3 & H3').
  rewrite E3. exists s3. destruct H3' as [[k Hk]|(_ & Hk & _ & Hr)].
  - exists k. pose proof (sending_bound _ _ _ _ _ _ _ Hk) as Hb. destruct Hk as (_ & _ & _ & _ & Hkd & _ & _ & _ & _ & _ & _ & _ & _ & Hst).
    split_and!; try done; try lia. by rewrite Hkd.
  - destruct Hr as [[Hn (k & Hb & Hst)]|[_ Hst]]; [exists k; split_and!; try done; lia|].
    eexists. split_and!; [done| |done|exact Hst|done]. unfold zlen. lia.
Qed.

(** C32: Whatever clients, lwIP and the other tasks do, in any order, and also if the processor is reset in between: every
    connection's buffers keep their sizes and every index in use lies inside its buffer, the received text is followed by
    a NUL inside the buffer, a free slot holds no request and no response, at most one connection belongs to the
    WebSocket session, and as long as that session is attached its handle is the open handle of that connection. *)
Theorem http_stays_safe {E F L W} `{IoHooks E} `{UdpHooks E} `{IoFlash F} `{Lfs L} `{TcpStack W} `{TcpSnd W} `{TcpRcv W}
    (fw_keyhash : list Z) (bsp : bool → F → Z * F) (srs : bool → E → E) (web_info : E → info) (page : list Z)
    (evs : list http_event) (r : regs E) (u : upg) (f : F) (h : @hsys L) (w : W) :
  zlen page < 2 ^ 31 → reads_fit L →
  let s := (http_runs fw_keyhash bsp srs web_info page evs (http_boot r u f h w)).2 in
  length (http_conns (wnet s)) = HTTP_MAX_CONN ∧ Forall conn_ok (http_conns (wnet s)) ∧
  (active (ws s) = true → ∃ i c p, ws_conn (wnet s) = Some i ∧ http_conns (wnet s) !! i = Some c ∧ is_ws c = true ∧
                                   pcb c = Some p ∧ Ws.pcb (ws s) = Some p) ∧
  (active (ws s) = false → Ws.pcb (ws s) = None ∧ ws_conn (wnet s) = None) ∧
  (∀ i c, http_conns (wnet s) !! i = Some c → is_ws c = true → ws_conn (wnet s) = Some i ∧ active (ws s) = true).
Proof.
  intros Hpage Hread s. assert (http_inv s) as [K1 K2 K3 K4 K5].
  { assert (∀ evs, preserves http_inv (http_runs fw_keyhash bsp srs web_info page evs)) as Hruns.
    { intros l. induction l as [|ev l IH]; cbn [http_runs]; [apply preserves_ret|]. apply preserves_bind; [by apply run_inv|done]. }
    apply Hruns, http_boot_inv. }
  split_and!; [done|done|intros Ha; by apply K3|intros Ha; by destruct (K5 Ha)|exact K4].
Qed.

(** ** Witnesses *)

Import RamFs.

#[export] Instance sent_rcv : TcpRcv (list Wire.sent) := { tcp_mss _ _ := 1460; tcp_recved _ _ w := w }.

Definition demo_page : list Z := [31; 139; 8].
(** one recorded file *)
Definition demo_file : list Z := make_hist_name 0.
Definition http_demo : wsys Trace.trace Nor.nor (hw ramfs (list Wire.sent)) :=
  http_boot (regs_boot 0) upg_boot Nor.fake_flash_reset (history_init true (mk_ramfs (fin_maps.list_to_map [(demo_file, [1; 2; 3])]) None None)) [].
Definition demo_runs : list http_event → M (wsys Trace.trace Nor.nor (hw ramfs (list Wire.sent))) unit :=
  http_runs kh32 no_swap demo_reboot demo_info demo_page.

Lemma ram_reads_fit : reads_fit ramfs.
Proof. intros n l Hn. cbn. destruct (web l) as [[? ?]|]; cbn; lia. Qed.

Lemma demo_inv evs : http_inv (demo_runs evs http_demo).2.
Proof.
  assert (∀ evs, preserves http_inv (demo_runs evs)) as Hruns; [|apply Hruns, http_boot_inv].
  intros l. induction l as [|ev l IH]; [apply preserves_ret|]. apply preserves_bind; [|done]. apply run_inv; [done|exact ram_reads_fit].
Qed.

(** what a client sees *)
Definition replies (p : Z) (w : list Wire.sent) : list Z :=
  concat ((λ x, match x with Wire.Sent q bs => if q =? p then bs else [] | _ => [] end) <$> w).
Definition status_line (t : list Z) : list Z := take 12 t.
Definition after (evs : list http_event) : wsys Trace.trace Nor.nor (hw ramfs (list Wire.sent)) := (demo_runs evs http_demo).2.
Definition ask (i : nat) (t : list Z) : http_event := HRecv 5 i (Some [t]) ERR_OK.
Definition get_text (target : string) (lines : list (list Z)) : list Z :=
  js "GET " ++ js target ++ js " HTTP/1.1" ++ crlf ++ lines_text lines ++ crlf.
Definition download_text : list Z := js "GET /api/history/download?name=" ++ demo_file ++ js " HTTP/1.1" ++ crlf ++ crlf.

(** a field on the last line of the header is not found ([httpd.c:541]): the
    same field on any other line is *)
Example last_line_missed :
  (λ c, cli_close (crx c)) <$> http_conns (wnet (after [HAccept 0 (Some 7) ERR_OK; ask 0 (get_text "/"%string [js "Connection: close"])])) = [false; false] ∧
  (λ c, cli_close (crx c)) <$> http_conns (wnet (after [HAccept 0 (Some 7) ERR_OK; ask 0 (get_text "/"%string [js "Connection: close"; js "A: b"])])) = [true; false].
Proof. by vm_compute. Qed.

(** a request that fails to open a file closes the one another connection is
    downloading ([httpd.c:409]) *)
Example download_aborted :
  let s := wnet (after [HAccept 0 (Some 7) ERR_OK; HAccept 0 (Some 8) ERR_OK; ask 0 download_text;
                        ask 1 (get_text "/api/history/download"%string [])]) in
  kind (rsp (default conn_boot (http_conns s !! 0%nat))) = RESP_FILE ∧ web_fp_open (hhist s) = false.
Proof. by vm_compute. Qed.

(** a request that overflows the buffer while a file is being sent leaves the
    file open: the refusal has replaced the response that [conn_close] looks at
    ([httpd.c:771]) *)
Example download_left_open :
  let s := wnet (after [HAccept 0 (Some 7) ERR_OK; ask 0 download_text; ask 0 (replicate 640 65)]) in
  pcb <$> http_conns s = [None; None] ∧ web_fp_open (hhist s) = true.
Proof. by vm_compute. Qed.

(** frames behind the upgrade request are answered before the 101 response is
    ([httpd.c:680]) *)
Example pong_before_upgrade :
  hnet (wnet (after [HAccept 0 (Some 7) ERR_OK;
     ask 0 (get_text "/ws"%string [js "Upgrade: websocket"; js "Sec-WebSocket-Key: dGhlIHNhbXBsZSBub25jZQ=="] ++ ws_encode ping)]))
  = [Wire.Sent 7 [138; 2]; Wire.Sent 7 [104; 105];
     Wire.Sent 7 (js "HTTP/1.1 101 Switching Protocols" ++ crlf ++ js "Upgrade: websocket" ++ crlf ++ js "Connection: Upgrade" ++ crlf ++
                  js "Sec-WebSocket-Accept: s3pPLMBiTxaQ9kYGzzhZRbK+xOo=" ++ crlf ++ crlf)].
Proof. by vm_compute. Qed.

(** an empty line pair before a request makes it answered twice ([httpd.c:556]):
    the first time by the words after it, the second time by the text itself *)
Example answered_twice :
  let q := crlf ++ crlf ++ js "POST /api/save HTTP/1.1" ++ crlf ++ crlf in
  let s := after [HAccept 0 (Some 7) ERR_OK; ask 0 q] in
  let n := zlen (replies 7 (hnet (wnet s))) in
  replies 7 (hnet (wnet (after [HAccept 0 (Some 7) ERR_OK; ask 0 q; HSent 6 0 n])))
  = replies 7 (hnet (wnet s)) ++ replies 7 (hnet (wnet s)).
Proof. by vm_compute. Qed.

Lemma free_of_bounded key l :
  key ≠ [] → forallb (λ k, negb (starts_with_case key (drop k l))) (seq 0 (length l)) = true → free_of key l.
Proof.
  intros Hk Hall k. destruct (decide (k < length l)%nat) as [Hlt|Hge].
  - rewrite forallb_forall in Hall. apply negb_true_iff, Hall, in_seq. lia.
  - rewrite drop_ge by lia. by destruct key.
Qed.

(** [POST /api/do], asking for output 1 *)
Definition demo_request : request :=
  mk_request (js "POST") (js "/api/do") None [js "Host: x"] (js "{'index':1,'value':1}").
Lemma demo_request_ok : request_ok demo_request.
Proof.
  split_and!; try (by apply (bool_decide_unpack _); vm_compute); try done.
  - by apply free_of_bounded; vm_compute.
  - apply Forall_singleton. by apply free_of_bounded; vm_compute.
Qed.

Definition demo_pieces : list (list (list Z)) :=
  [[take 9 (request_text demo_request)]; [take 40 (drop 9 (request_text demo_request)); drop 49 (request_text demo_request)]].
Definition demo_open : wsys Trace.trace Nor.nor (hw ramfs (list Wire.sent)) := after [HAccept 0 (Some 7) ERR_OK].

Lemma http_request_routed_witness :
  ∃ c1 ptr,
    demo_runs ((λ ch, HRecv 5 0 (Some ch) ERR_OK) <$> demo_pieces) demo_open
    = (dispatch demo_reboot demo_info demo_page 5 0 (js "POST") (js "/api/do") None ptr (length (q_body demo_request));;
       upd_conn 0 (upd_rx (consume (zlen (request_text demo_request))));;
       pump demo_reboot demo_info demo_page 5 0) (stored 0 c1 (acked_pieces 7 demo_pieces (hnet (wnet demo_open))) demo_open) ∧
    take (length (q_body demo_request)) ptr = js "{'index':1,'value':1}".
Proof.
  destruct (http_request_routed kh32 no_swap demo_reboot demo_info demo_page 5 0 7 (accepted 0 7 conn_boot) demo_request demo_pieces demo_open)
    as (c1 & ptr & Hrun & Hbody & _);
    [done|exact ram_reads_fit|apply demo_inv|by vm_compute|done|done|done|done|done|exact demo_request_ok| |by vm_compute|].
  - apply Forall_cons_2; [by apply (bool_decide_unpack _); vm_compute|]. apply Forall_singleton. by apply (bool_decide_unpack _); vm_compute.
  - exists c1, ptr. exact (conj Hrun Hbody).
Defined.

(** lwIP takes 20 bytes at a time *)
#[local] Instance slow_snd : TcpSnd (list Wire.sent) := { tcp_sndbuf _ _ := 20 }.
Definition slow_demo : wsys Trace.trace Nor.nor (hw ramfs (@wire (list Wire.sent))) :=
  mk_wsys session_boot (regs_boot 0) upg_boot Nor.fake_flash_reset
    (mk_hw [accepted 0 7 conn_boot; conn_boot] None (history_init true empty_fs) ([], [])) (Some []) [[]; []] 0 [] false.

Lemma http_response_stream_witness :
  ∃ s' k,
    (upd_conn 0 (respond_mem 0 (js "200 OK") ctype_json json_true []);; pump demo_reboot demo_info demo_page 0 0;;
     http_runs kh32 no_swap demo_reboot demo_info demo_page [HSent 1 0 20; HPoll 2 0; HSent 3 0 80]) slow_demo = (Done tt, s') ∧
    accepted_bytes 7 s' = [] ++ take (Z.to_nat k) (hdr_text (js "200 OK") ctype_json (zlen json_true) true [] ++ json_true).
Proof.
  destruct (http_response_stream kh32 no_swap demo_reboot demo_info demo_page 0 0 7 (accepted 0 7 conn_boot) (js "200 OK") ctype_json json_true []
              [HSent 1 0 20; HPoll 2 0; HSent 3 0 80] slow_demo) as (s' & k & Hrun & _ & Hst & _);
    [done|done|done|done|by vm_compute|by vm_compute|by repeat constructor|].
  exists s', k. exact (conj Hrun Hst).
Defined.

Lemma http_stays_safe_witness :
  let s := (demo_runs [HAccept 0 (Some 7) ERR_OK; ask 0 (replicate 700 65); HErr 0; HReboot] http_demo).2 in
  length (http_conns (wnet s)) = 2%nat ∧ Forall conn_ok (http_conns (wnet s)).
Proof.
  destruct (http_stays_safe kh32 no_swap demo_reboot demo_info demo_page
    [HAccept 0 (Some 7) ERR_OK; ask 0 (replicate 700 65); HErr 0; HReboot] (regs_boot 0) upg_boot Nor.fake_flash_reset
    (history_init true (mk_ramfs (fin_maps.list_to_map [(demo_file, [1; 2; 3])]) None None)) ([] : list Wire.sent)) as (H1' & H2' & _);
    [done|exact ram_reads_fit|]. exact (conj H1' H2').
Defined.
