(* ===== verification/FtpText.v ===== *)
(** The text side of the FTP server: the pure functions of [src/net/ftpd.c].

    Client paths are resolved to absolute ones, text files change their line
    ends on the way, and the times of a listing are taken from the names the
    history module gives its files ([make_hist_name] of [HistoryFile.v]).  A C
    string is the list of its bytes without the terminator. *)

From Stdlib Require Import String.
From stdpp Require Import gmap.
From S2P Require Import Prelude IoBytes Calendar HistoryFile WebJson WebCmds.

Local Open Scope list_scope.
Local Open Scope Z_scope.

Definition FTP_BUF_SIZE : Z := 512.
Definition CWD_SIZE : Z := 64.

(** ** Paths *)

Definition slash : Z := 47.
Definition dot : list Z := [46].
Definition dotdot : list Z := [46; 46].

(** the pieces between slashes *)
Fixpoint split_on (c : Z) (s : list Z) : list (list Z) :=
  match s with
  | [] => [[]]
  | x :: s' =>
    if x =? c then [] :: split_on c s'
    else match split_on c s' with h :: t => (x :: h) :: t | [] => [[x]] end
  end.
Definition components (s : list Z) : list (list Z) := filter (λ c, c ≠ []) (split_on slash s).

(** one round of the loop: [parts] is [parts[0 .. n-1]] *)
Definition push_part (parts : list (list Z)) (c : list Z) : list (list Z) :=
  if bool_decide (c = dot) then parts
  else if bool_decide (c = dotdot) then removelast parts
  else if (length parts <? 16)%nat then parts ++ [take 47 c] else parts.

(** the parts while they fit into [outlen] bytes, each with a slash behind it;
    [out] has [pos] bytes *)
Fixpoint put_parts (outlen : Z) (parts : list (list Z)) (out : list Z) : list Z :=
  match parts with
  | [] => out
  | p :: parts =>
    if negb (zlen out <? outlen - 1) || (outlen <=? zlen out + zlen p + 1) then out
    else put_parts outlen parts (out ++ p ++ [slash])
  end.

Definition norm_path (outlen : Z) (cwd input : list Z) : list Z :=
  let base := if rd input 0 =? slash then [] else cwd in
  let tmp := take 159 (base ++ slash :: input) in
  let out := put_parts outlen (foldl push_part [] (components tmp)) (if 0 <? outlen - 1 then [slash] else []) in
  if (1 <? zlen out) && (rd out (length out - 1) =? slash) then removelast out else out.

Definition fs_path (cwd client_path : list Z) : list Z := norm_path FTP_BUF_SIZE cwd client_path.

(** ** Text files *)

Definition CR : Z := 13.
Definition LF : Z := 10.

Fixpoint ascii_crlf (s : list Z) : list Z :=
  match s with [] => [] | c :: s => if c =? LF then CR :: LF :: ascii_crlf s else c :: ascii_crlf s end.

(** the second loop: a CR in front of an LF is skipped *)
Fixpoint drop_cr (s : list Z) : list Z :=
  match s with
  | [] => []
  | c :: s' => if (c =? CR) && (match s' with d :: _ => d =? LF | [] => false end) then drop_cr s' else c :: drop_cr s'
  end.

(** the bytes left in the buffer, and [*pending_cr] *)
Definition ascii_strip_cr (buf : list Z) (pending_cr : bool) : list Z * bool :=
  let s := if pending_cr && (match buf with c :: _ => c =? LF | [] => false end) then drop 1 buf else buf in
  let o := drop_cr s in
  if (0 <? zlen s) && (rd s (length s - 1) =? CR) then (removelast o, true) else (o, false).

(** ** Times *)

Definition ftp_months : list (list Z) :=
  [js "Jan"; js "Feb"; js "Mar"; js "Apr"; js "May"; js "Jun"; js "Jul"; js "Aug"; js "Sep"; js "Oct"; js "Nov"; js "Dec"].
Definition month_name (i : Z) : list Z := default [] (ftp_months !! Z.to_nat i).

Definition isdigit (c : Z) : bool := (48 <=? c) && (c <=? 57).

Fixpoint skip_char (c : Z) (s : list Z) : list Z :=
  match s with x :: s' => if x =? c then skip_char c s' else s | [] => [] end.

(** [for (i = 0; i < 4; i++)]: [n] rounds are left *)
Fixpoint hist_fields (n : nat) (s : list Z) : option (list Z) :=
  match n with
  | O => Some []
  | S n' =>
    let s := if (n =? 2)%nat then skip_char 95 s else s in
    if negb (isdigit (rd s 0)) || negb (isdigit (rd s 1)) then None
    else
      let x := match strtoul s 10 with Some (v, _) => v | None => 0 end in
      match hist_fields n' (drop 2 s) with Some v => Some (x :: v) | None => None end
  end.

(** month, day, hour, minute *)
Definition parse_hist_time (name : list Z) : option (Z * Z * Z * Z) :=
  if negb (has_prefix name) then None
  else
    match hist_fields 4 (drop 5 name) with
    | Some [v0; v1; v2; v3] =>
      if (v0 <? 1) || (12 <? v0) || (v1 <? 1) || (31 <? v1) || (23 <? v2) || (59 <? v3) then None else Some (v0, v1, v2, v3)
    | _ => None
    end.

(** ["%s %2d %02d:%02d"] *)
Definition ls_time (mon day hour minute : Z) : list Z :=
  month_name mon ++ [32] ++ (if day <? 10 then [32; 48 + day] else two_digits day) ++ [32] ++
  two_digits hour ++ [58] ++ two_digits minute.

(** [epoch] is [io_now_epoch()] *)
Definition format_ls_time (epoch : Z) (name : list Z) : list Z :=
  match parse_hist_time name with
  | Some (mon, day, hour, minute) => ls_time (mon - 1) day hour minute
  | None =>
    match gmtime_r epoch with
    | None => ls_time 0 1 0 0
    | Some lt => ls_time (tm_mon lt) (tm_mday lt) (tm_hour lt) (tm_min lt)
    end
  end.

(** ** What a path resolves to *)

(** one component, as a client means it *)
Definition step (dir : list (list Z)) (c : list Z) : list (list Z) :=
  if bool_decide (c = dot) then dir else if bool_decide (c = dotdot) then removelast dir else dir ++ [c].
Definition walk (dir cs : list (list Z)) : list (list Z) := foldl step dir cs.

Definition name_ok (c : list Z) : Prop := c ≠ [] ∧ (slash ∉ c) ∧ c ≠ dot ∧ c ≠ dotdot.
(** the absolute path of a directory *)
Definition path_text (dir : list (list Z)) : list Z :=
  match dir with [] => [slash] | _ => concat ((λ c, slash :: c) <$> dir) end.
Definition canonical (s : list Z) : Prop := ∃ dir, s = path_text dir ∧ Forall name_ok dir ∧ Forall (λ c, zlen c ≤ 47) dir ∧ (length dir ≤ 16)%nat.

Lemma split_slash_free c s : Forall (λ p, (c ∉ p)) (split_on c s).
Proof.
  induction s as [|x s IH]; cbn; [apply Forall_singleton, not_elem_of_nil|].
  destruct (x =? c) eqn:E; [constructor; [apply not_elem_of_nil|done]|]. apply Z.eqb_neq in E.
  destruct (split_on c s) as [|h t]; [apply Forall_singleton, not_elem_of_cons; split; [auto|apply not_elem_of_nil]|].
  inversion IH; subst. constructor; [by apply not_elem_of_cons|done].
Qed.

Lemma split_nonempty c s : split_on c s ≠ [].
Proof. destruct s as [|x s]; cbn; [done|]. destruct (x =? c); [done|]. by destruct (split_on c s). Qed.

Lemma split_free c w : c ∉ w → split_on c w = [w].
Proof.
  induction w as [|x w IH]; cbn; [done|]. intros [Hx Hw]%not_elem_of_cons.
  apply not_eq_sym, Z.eqb_neq in Hx. by rewrite Hx, IH.
Qed.

Lemma split_app c w s : c ∉ w → split_on c (w ++ c :: s) = w :: split_on c s.
Proof.
  induction w as [|x w IH]; cbn; [by rewrite Z.eqb_refl|]. intros [Hx Hw]%not_elem_of_cons.
  apply not_eq_sym, Z.eqb_neq in Hx. by rewrite Hx, IH.
Qed.

Lemma components_ok s : Forall (λ c, c ≠ [] ∧ (slash ∉ c)) (components s).
Proof.
  unfold components. pose proof (split_slash_free slash s) as Hf. induction Hf as [|c l Hc _ IH]; [constructor|].
  cbn. destruct (decide (c ≠ [])); [|done]. by constructor.
Qed.

Lemma components_slash s : components (slash :: s) = components s.
Proof. unfold components. cbn [split_on]. rewrite Z.eqb_refl. cbn [filter list_filter]. by rewrite decide_False by auto. Qed.
Lemma components_word w s : w ≠ [] → (slash ∉ w) → components (w ++ slash :: s) = w :: components s.
Proof. intros Hne Hw. unfold components. rewrite split_app by done. cbn [filter list_filter]. by rewrite decide_True. Qed.

(** the components of a canonical path with something behind it *)
Lemma components_path dir s : Forall name_ok dir → components (path_text dir ++ slash :: s) = dir ++ components s.
Proof.
  intros Hd. assert (components (concat ((λ c, slash :: c) <$> dir) ++ slash :: s) = dir ++ components s) as Hc.
  { induction Hd as [|c dir (Hne & Hs & _) _ IH]; cbn [fmap list_fmap concat app]; [apply components_slash|].
    rewrite components_slash, <- app_assoc. destruct dir as [|d dir]; cbn [fmap list_fmap concat app] in *; [by apply components_word|].
    rewrite components_word by done. f_equal. rewrite <- IH. symmetry. apply components_slash. }
  destruct dir as [|d dir]; [|by apply Hc]. cbn [path_text app]. by rewrite !components_slash.
Qed.

Definition part_ok (c : list Z) : Prop := name_ok c ∧ zlen c ≤ 47.
Definition parts_ok (ps : list (list Z)) : Prop := Forall part_ok ps ∧ (length ps ≤ 16)%nat.

Lemma Forall_removelast {A} (P : A → Prop) l : Forall P l → Forall P (removelast l).
Proof. induction 1 as [|x l Hx Hl IH]; [done|]. destruct l; cbn in *; [done|]. by constructor. Qed.
Lemma length_removelast {A} (l : list A) : length (removelast l) = pred (length l).
Proof. induction l as [|x l IH]; [done|]. destruct l; [done|]. cbn in *. lia. Qed.

Lemma push_ok ps c : parts_ok ps → c ≠ [] ∧ (slash ∉ c) → parts_ok (push_part ps c).
Proof.
  intros [Hp Hl] [Hne Hs]. unfold push_part. case_bool_decide as E1; [done|]. case_bool_decide as E2.
  { split; [by apply Forall_removelast|]. rewrite length_removelast. lia. }
  destruct (_ <? _)%nat eqn:E; [|done]. apply Nat.ltb_lt in E. split; [|rewrite length_app; cbn; lia].
  apply Forall_app. split; [done|]. apply Forall_singleton. split; [|unfold zlen; rewrite length_take; lia]. split_and!.
  - destruct c; [done|]. by intros [=].
  - intros Hin. apply Hs. rewrite <- (take_drop 47 c). apply elem_of_app. by left.
  - intros Ht. apply E1. destruct (decide (length c ≤ 47)%nat) as [Hle|Hgt]; [by rewrite take_ge in Ht|].
    apply (f_equal length) in Ht. rewrite length_take in Ht. change (length dot) with 1%nat in Ht. lia.
  - intros Ht. apply E2. destruct (decide (length c ≤ 47)%nat) as [Hle|Hgt]; [by rewrite take_ge in Ht|].
    apply (f_equal length) in Ht. rewrite length_take in Ht. change (length dotdot) with 2%nat in Ht. lia.
Qed.

Lemma push_all_ok cs : ∀ ps, parts_ok ps → Forall (λ c, c ≠ [] ∧ (slash ∉ c)) cs → parts_ok (foldl push_part ps cs).
Proof. induction cs as [|c cs IH]; intros ps Hp Hc; [done|]. inversion Hc; subst. apply IH; [by apply push_ok|done]. Qed.

(** the loop writes a prefix of the parts *)
Lemma put_parts_prefix outlen ps : ∀ out,
  zlen out < outlen → ∃ k, put_parts outlen ps out = out ++ concat ((λ p, p ++ [slash]) <$> take k ps) ∧
    zlen (put_parts outlen ps out) < outlen ∧ (zlen out + zlen (concat ((λ p, p ++ [slash]) <$> ps)) < outlen → take k ps = ps).
Proof.
  induction ps as [|p ps IH]; intros out Ho; cbn [put_parts].
  - exists 0%nat. by rewrite app_nil_r.
  - cbn [fmap list_fmap concat]. rewrite !zlen_app. change (zlen [slash]) with 1. pose proof (zlen_nonneg p). pose proof (zlen_nonneg (concat ((λ p, p ++ [slash]) <$> ps))).
    destruct (negb (zlen out <? outlen - 1) || (outlen <=? zlen out + zlen p + 1)) eqn:E.
    + exists 0%nat. cbn. rewrite app_nil_r. split_and!; try done. intros Hfit. apply orb_true_iff in E as [E|E]; lia.
    + apply orb_false_iff in E as [_ E]. apply Z.leb_gt in E. destruct (IH (out ++ p ++ [slash])) as (k & E1 & E2 & E3).
      { rewrite !zlen_app. change (zlen [slash]) with 1. lia. }
      exists (S k). cbn [take fmap list_fmap concat]. rewrite <- !app_assoc in E1. rewrite !zlen_app in E3. change (zlen [slash]) with 1 in E3.
      rewrite <- app_assoc. split_and!; [by rewrite E1|done|]. intros Hfit. f_equal. apply E3. lia.
Qed.

Lemma strip_last_slash ps :
  let out := slash :: concat ((λ p, p ++ [slash]) <$> ps) in
  Forall name_ok ps →
  (if (1 <? zlen out) && (rd out (length out - 1) =? slash) then removelast out else out) = path_text ps.
Proof.
  intros out Hps. assert (ps ≠ [] → out = concat ((λ c, slash :: c) <$> ps) ++ [slash]) as Hout.
  { intros _. unfold out. clear. induction ps as [|p ps IH]; [done|]. cbn [fmap list_fmap concat app] in *. f_equal.
    rewrite <- !app_assoc. f_equal. cbn [app]. rewrite IH. done. }
  destruct ps as [|p ps]; [done|]. rewrite Hout by done. set (t := concat _).
  assert (0 < zlen t) as Ht by (unfold t, zlen; cbn [fmap list_fmap concat app length]; lia).
  rewrite zlen_app. change (zlen [slash]) with 1. destruct (1 <? zlen t + 1) eqn:E; [|lia]. cbn [andb].
  unfold rd. rewrite length_app. cbn [length]. rewrite lookup_app_r by lia. replace (length t + 1 - 1 - length t)%nat with 0%nat by lia.
  change (default 0 ([slash] !! 0%nat)) with slash. rewrite Z.eqb_refl. apply removelast_last.
Qed.

Lemma norm_path_text outlen cwd input :
  1 < outlen → let tmp := take 159 ((if rd input 0 =? slash then [] else cwd) ++ slash :: input) in
  let ps := foldl push_part [] (components tmp) in
  ∃ k, norm_path outlen cwd input = path_text (take k ps) ∧ zlen (norm_path outlen cwd input) < outlen ∧
       (1 + zlen (concat ((λ p, p ++ [slash]) <$> ps)) < outlen → take k ps = ps).
Proof.
  intros Ho tmp ps. assert (parts_ok ps) as [Hps _].
  { apply push_all_ok; [by split; [constructor|cbn; lia]|apply components_ok]. }
  destruct (put_parts_prefix outlen ps [slash]) as (k & E1 & E2 & E3); [by change (zlen [slash]) with 1|]. exists k. unfold norm_path. cbv zeta. fold tmp. fold ps.
  destruct (0 <? outlen - 1) eqn:E; [|lia]. cbn [app] in E1. rewrite E1 in E2 |- *. rewrite strip_last_slash.
  - split_and!; [done| |exact E3].
    destruct (take k ps) as [|p qs]; [done|]. cbn [path_text]. eapply Z.le_lt_trans; [|exact E2].
    clear. generalize (p :: qs). intros l. unfold zlen. cbn [length]. induction l as [|q l IH]; [done|].
    cbn [fmap list_fmap concat app length]. rewrite !length_app. cbn [length]. cbn in IH. lia.
  - apply Forall_take. eapply Forall_impl; [|exact Hps]. by intros c [? _].
Qed.

(** the path of a client is the walk of its components, when nothing is too long *)
Lemma push_walk cs : ∀ ps,
  Forall (λ c, zlen c ≤ 47) cs → (length ps + length cs ≤ 16)%nat → foldl push_part ps cs = walk ps cs.
Proof.
  induction cs as [|c cs IH]; intros ps Hc Hl; [done|]. inversion Hc as [|? ? Hz Hcs]; subst. cbn [foldl walk length] in *.
  assert (push_part ps c = step ps c) as ->.
  { unfold push_part, step. case_bool_decide; [done|]. case_bool_decide; [done|]. destruct (_ <? _)%nat eqn:E; [|apply Nat.ltb_ge in E; lia].
    unfold zlen in Hz. by rewrite take_ge by lia. }
  apply IH; [done|]. assert (length (step ps c) ≤ S (length ps))%nat; [|lia]. unfold step.
  case_bool_decide; [lia|]. case_bool_decide; [rewrite length_removelast; lia|rewrite length_app; cbn; lia].
Qed.

#[local] Abbreviation last := list_basics.list.last.

Lemma norm_path_canonical outlen cwd input : 1 < outlen → canonical (norm_path outlen cwd input) ∧ zlen (norm_path outlen cwd input) < outlen.
Proof.
  intros Ho. destruct (norm_path_text outlen cwd input Ho) as (k & E & Hlen & _). split; [|done].
  set (ps := foldl push_part [] _) in *.
  assert (parts_ok ps) as [Hps Hl16] by (apply push_all_ok; [by split; [constructor|cbn; lia]|apply components_ok]).
  exists (take k ps). split_and!; [done| | |rewrite length_take; lia]; apply Forall_take; (eapply Forall_impl; [|exact Hps]); by intros c [].
Qed.

(** ** Line ends *)

(** what STOR writes for the pieces of a text, one after the other *)
Fixpoint strip_chunks (pending_cr : bool) (chunks : list (list Z)) : list Z :=
  match chunks with
  | [] => []
  | c :: chunks => let '(o, pending_cr) := ascii_strip_cr c pending_cr in o ++ strip_chunks pending_cr chunks
  end.

Lemma drop_cr_app a b : last a ≠ Some CR → drop_cr (a ++ b) = drop_cr a ++ drop_cr b.
Proof.
  induction a as [|c a IH]; [done|]. intros Hl. cbn [app drop_cr]. destruct a as [|d a].
  - cbn in Hl. assert (c ≠ CR) as Hc by congruence. apply Z.eqb_neq in Hc. rewrite Hc. by rewrite IH.
  - change (last (c :: d :: a)) with (last (d :: a)) in Hl. cbn [app] in *. rewrite IH by done. by destruct ((c =? CR) && (d =? LF)).
Qed.

Lemma drop_cr_crlf x : drop_cr (ascii_crlf x) = x.
Proof.
  induction x as [|c x IH]; [done|]. cbn [ascii_crlf]. destruct (c =? LF) eqn:E.
  - apply Z.eqb_eq in E. subst. cbn [drop_cr]. change (CR =? CR) with true. change (LF =? LF) with true. change (LF =? CR) with false.
    cbn [andb]. by rewrite IH.
  - cbn [drop_cr]. rewrite IH. destruct (c =? CR) eqn:Ec; [|done]. cbn [andb].
    destruct x as [|d x]; [done|]. cbn [ascii_crlf]. destruct (d =? LF) eqn:Ed; [done|]. by rewrite Ed.
Qed.

Lemma last_rd s c : last s = Some c ↔ 0 < zlen s ∧ rd s (length s - 1) = c.
Proof.
  rewrite last_lookup. unfold rd, zlen. replace (pred (length s)) with (length s - 1)%nat by lia. split.
  - intros Hl. rewrite Hl. split; [|done]. apply lookup_lt_Some in Hl. lia.
  - intros [Hp Hr]. destruct (lookup_lt_is_Some_2 s (length s - 1)) as [x Hx]; [lia|]. rewrite Hx in *. cbn in Hr. by subst.
Qed.

Lemma strip_whole c : last c ≠ Some CR → ascii_strip_cr c false = (drop_cr c, false).
Proof.
  intros Hl. unfold ascii_strip_cr. cbn [andb]. destruct ((0 <? zlen c) && (rd c (length c - 1) =? CR)) eqn:E; [|done].
  apply andb_true_iff in E as [E1 E2]. destruct Hl. apply last_rd. lia.
Qed.

(** pieces that do not end between CR and LF are stripped like the whole text *)
Lemma strip_chunks_whole cs : Forall (λ c, last c ≠ Some CR) cs → strip_chunks false cs = drop_cr (concat cs).
Proof.
  induction 1 as [|c cs Hc _ IH]; [done|]. cbn [strip_chunks concat]. rewrite strip_whole by done. by rewrite IH, drop_cr_app.
Qed.

Lemma ascii_crlf_app a b : ascii_crlf (a ++ b) = ascii_crlf a ++ ascii_crlf b.
Proof. induction a as [|c a IH]; [done|]. cbn. destruct (c =? LF); cbn; by rewrite IH. Qed.
Lemma ascii_crlf_concat xs : ascii_crlf (concat xs) = concat (ascii_crlf <$> xs).
Proof. induction xs as [|x xs IH]; [done|]. cbn. by rewrite ascii_crlf_app, IH. Qed.
Lemma ascii_crlf_size s : zlen (ascii_crlf s) ≤ 2 * zlen s.
Proof. unfold zlen. induction s as [|c s IH]; [done|]. cbn [ascii_crlf length]. destruct (c =? LF); cbn [length]; lia. Qed.
Lemma drop_cr_size s : zlen (drop_cr s) ≤ zlen s.
Proof.
  unfold zlen. induction s as [|c s IH]; [done|]. cbn [drop_cr length]. destruct ((c =? CR) && _); cbn [length]; lia.
Qed.
Lemma ascii_strip_size s b : zlen (ascii_strip_cr s b).1 ≤ zlen s.
Proof.
  unfold ascii_strip_cr. set (t := if b && _ then _ else _).
  assert (zlen t ≤ zlen s) by (unfold t, zlen; destruct (b && _); rewrite ?length_drop; lia). pose proof (drop_cr_size t).
  destruct ((0 <? zlen t) && _); cbn [fst]; [|lia]. unfold zlen in *. rewrite length_removelast. lia.
Qed.

(** a text that goes out and comes back is the same, also with a CR of its own in
    it, unless a piece ends in a CR *)
Lemma ascii_there_and_back x cs : concat cs = ascii_crlf x → Forall (λ c, last c ≠ Some CR) cs → strip_chunks false cs = x.
Proof. intros Hc Hl. by rewrite strip_chunks_whole, Hc, drop_cr_crlf. Qed.

(** cut between CR and LF, the line end is lost ([ftpd.c:231]); without an LF in
    the next piece, or with none, the CR is ([ftpd.c:241]) *)
Example line_end_lost : strip_chunks false [[97; CR]; [LF; 98]] = [97; 98] ∧ strip_chunks false [[97; CR; LF; 98]] = [97; LF; 98].
Proof. done. Qed.
Example cr_lost : strip_chunks false [[97; CR]; [98]] = [97; 98] ∧ strip_chunks false [[97; CR; 98]] = [97; CR; 98].
Proof. done. Qed.

(** ** Listing times *)

(** two digits each, read as one number *)
Lemma four_digits a b tail :
  0 ≤ a ≤ 99 → 0 ≤ b ≤ 99 → rd tail 0 = 95 → strtoul (two_digits a ++ two_digits b ++ tail) 10 = Some (a * 100 + b, tail).
Proof.
  intros Ha Hb Ht. assert (∀ v, 0 ≤ v ≤ 99 → 0 ≤ v / 10 ≤ 9 ∧ 0 ≤ v mod 10 ≤ 9 ∧ v = v / 10 * 10 + v mod 10) as Hdig by (intros v Hv; pose proof (Z.div_mod v 10); pose proof (Z.mod_pos_bound v 10); lia).
  destruct (Hdig a Ha) as (A1 & A2 & A3), (Hdig b Hb) as (B1 & B2 & B3). clear Hdig.
  unfold two_digits. cbn [app]. set (a1 := a / 10) in *. set (a2 := a mod 10) in *. set (b1 := b / 10) in *. set (b2 := b mod 10) in *.
  clearbody a1 a2 b1 b2. unfold strtoul, scan_number. cbn [skip_spaces]. unfold isspace.
  replace ((48 + a1 =? 32) || ((9 <=? 48 + a1) && (48 + a1 <=? 13))) with false by lia. cbn [scan_sign].
  replace (48 + a1 =? 45) with false by lia. replace (48 + a1 =? 43) with false by lia. change (10 =? 0) with false. cbv iota zeta beta.
  assert (∀ x s acc any, 0 ≤ x ≤ 9 → scan_digits 10 (48 + x :: s) acc any = scan_digits 10 s (acc * 10 + x) true) as Hx.
  { intros x s acc any Hx. cbn [scan_digits]. unfold digit_val. replace ((48 <=? 48 + x) && (48 + x <=? 57)) with true by lia.
    replace (48 + x - 48) with x by lia. by replace (x <? 10) with true by lia. }
  rewrite !Hx by lia. destruct tail as [|t tail]; [done|]. cbn in Ht. subst t. cbn [scan_digits]. change (digit_val 95) with (@None Z). cbv iota beta.
  replace (4294967295 <? _) with false by lia. f_equal. f_equal. lia.
Qed.

Lemma CLAMP_range v lo hi : lo ≤ hi → lo ≤ CLAMP v lo hi ≤ hi.
Proof. intros Hl. unfold CLAMP. destruct (v <? lo) eqn:?; [lia|]. destruct (hi <? v) eqn:?; lia. Qed.

(** the names of the history files are never understood ([ftpd.c:279]): the
    number at the month is read on through the day *)
Lemma hist_time_never clk : parse_hist_time (make_hist_name clk) = None.
Proof.
  assert (∀ mon mday tail, 1 ≤ mon ≤ 12 → 1 ≤ mday ≤ 31 → rd tail 0 = 95 → parse_hist_time (data_prefix ++ two_digits mon ++ two_digits mday ++ tail) = None) as Hname.
  { intros mon mday tail Hm Hd Ht. unfold parse_hist_time. destruct (negb _); [done|].
    change (drop 5 (data_prefix ++ ?l)) with l. cbn [hist_fields]. change (4 =? 2)%nat with false. cbv iota zeta beta.
    rewrite four_digits by (done || lia). destruct (negb _ || negb _); [done|]. destruct (if negb _ || negb _ then _ else _) as [l|]; [|done].
    destruct l as [|v1 [|v2 [|v3 [|? ?]]]]; try done. replace (12 <? mon * 100 + mday) with true by lia.
    by rewrite orb_true_r. }
  unfold make_hist_name. destruct (gmtime_r _) as [lt|]; apply Hname; try done; try lia; by apply CLAMP_range.
Qed.

(** so a listing shows the current time for each of them *)
Lemma hist_file_listed_now epoch clk lt :
  gmtime_r epoch = Some lt → format_ls_time epoch (make_hist_name clk) = ls_time (tm_mon lt) (tm_mday lt) (tm_hour lt) (tm_min lt).
Proof. intros Hg. unfold format_ls_time. by rewrite hist_time_never, Hg. Qed.

(** ** Properties *)

(** C37: Whatever a client writes as a path, the server resolves it to a canonical absolute path inside its buffer: no
    empty component, none that is [.] or [..], so nothing above the root is ever named.  When nothing is too long for
    the fixed buffers, it is exactly the path the client means: the walk of its components from the working directory,
    or from the root when it starts with a slash. *)
Theorem ftp_path_resolved outlen cwd input :
  1 < outlen →
  canonical (norm_path outlen cwd input) ∧ zlen (norm_path outlen cwd input) < outlen ∧
  (∀ dir, let base := if rd input 0 =? slash then [] else dir in
    cwd = path_text dir → Forall name_ok dir → zlen cwd + 1 + zlen input ≤ 159 →
    Forall (λ c, zlen c ≤ 47) (dir ++ components input) → (length dir + length (components input) ≤ 16)%nat →
    zlen (path_text (walk base (components input))) + 1 < outlen →
    norm_path outlen cwd input = path_text (walk base (components input))).
Proof.
  intros Ho. destruct (norm_path_text outlen cwd input Ho) as (k & E & Hlen & Hfit).
  set (tmp := take 159 _) in *. set (ps := foldl push_part [] _) in *.
  assert (parts_ok ps) as [Hps Hl16] by (apply push_all_ok; [by split; [constructor|cbn; lia]|apply components_ok]).
  split_and!; [by apply norm_path_canonical|done|].
  intros dir base Hcwd Hdir Hsz Hcs Hd16 Hout. apply Forall_app in Hcs as [Hdc Hic].
  assert (ps = walk base (components input)) as Hw.
  { assert (tmp = (if rd input 0 =? slash then [] else cwd) ++ slash :: input) as Etmp.
    { unfold tmp. apply take_ge. rewrite length_app. cbn [length]. unfold zlen in Hsz. destruct (_ =? _); cbn [length]; lia. }
    unfold ps, base. rewrite Etmp. destruct (_ =? slash).
    - cbn [app]. rewrite components_slash. apply push_walk; [done|cbn [length]; lia].
    - rewrite Hcwd, components_path by done. rewrite foldl_app. rewrite (push_walk dir []) by (done || (cbn [length]; lia)).
      assert (∀ ds pre, Forall name_ok ds → walk pre ds = pre ++ ds) as Hid.
      { clear. induction ds as [|d ds IH]; intros pre Hds; [by rewrite app_nil_r|]. inversion Hds as [|? ? (_ & _ & H1 & H2) Hds']; subst.
        cbn [walk foldl]. unfold step at 2. rewrite !bool_decide_eq_false_2 by done. fold (walk (pre ++ [d]) ds). rewrite IH by done. by rewrite <- app_assoc. }
      rewrite Hid by done. cbn [app]. apply push_walk; [done|lia]. }
  rewrite E, Hfit, Hw; [done|]. rewrite Hw. revert Hout. generalize (walk base (components input)). intros [|p qs]; [unfold zlen; cbn [path_text fmap list_fmap concat length]; lia|].
  cbn [path_text]. generalize (p :: qs). intros l Hout. eapply Z.le_lt_trans; [|exact Hout]. clear. unfold zlen.
  induction l as [|q l IH]; [done|]. cbn [fmap list_fmap concat app length]. rewrite !length_app. cbn [length]. cbn in IH. lia.
Qed.

(** ** Witnesses *)

Definition demo_dir : list (list Z) := [js "logs"; js "2026"].

Lemma ftp_path_resolved_witness :
  norm_path 512 (js "/logs/2026") (js "../old/./a.txt") = js "/logs/old/a.txt" ∧
  canonical (norm_path 64 (js "/logs/2026") (js "../../../../etc")).
Proof.
  destruct (ftp_path_resolved 512 (js "/logs/2026") (js "../old/./a.txt")) as (_ & _ & Hr); [done|].
  destruct (ftp_path_resolved 64 (js "/logs/2026") (js "../../../../etc")) as (Hc & _); [done|].
  split; [|exact Hc]. rewrite (Hr demo_dir); [by vm_compute|by vm_compute| |by vm_compute|by apply (bool_decide_unpack _); vm_compute|by vm_compute; lia|by vm_compute].
  repeat apply Forall_cons_2; try apply Forall_nil_2; (split_and!; by apply (bool_decide_unpack _); vm_compute).
Defined.
