(* ===== verification/Ftpd.v ===== *)
(** The FTP server: [src/net/ftpd.c].

    One task serves up to three control connections; a transfer keeps the task
    for itself.  A turn of its loop ([ftp_turn]) waits for sockets, accepts a
    client, executes one line of every client that sent one and closes idle
    sessions.  The sessions, the history module ([History.v], whose lock is
    taken around every call of littlefs) and the socket layer are the state.

    Parameters are the classes [FtpNet] for lwIP's sockets, the tick count and
    the clock, and [FtpLfs] for the calls of littlefs with the task's own file
    handle; [FtpNetLaws] and [FtpLfsLaws] are their documented behaviour.
    [beyond] are the bytes in memory behind a session's buffer, and [fuel] bounds
    the transfer loops; the theorems on transfers say how much is enough. *)

From Stdlib Require Import String.
From stdpp Require Import gmap.
From S2P Require Import Prelude IoBytes Lfs HistoryFile History WebJson WebCmds FtpText.

Local Open Scope list_scope.
Local Open Scope Z_scope.

Definition FTP_MAX_CLIENTS : nat := 3.
Definition FTP_SESSION_TIMEOUT_MS : Z := 120 * 1000.
Definition FTP_CTRL_TIMEOUT_MS : Z := 10000.
Definition FTP_DATA_TIMEOUT_MS : Z := 15000.
Definition FTP_CTRL_PORT : Z := 21.
Definition FTP_PASS : list Z := js "admin".

(** ** The socket layer *)

(** [n > 0]; [n = 0]; [n < 0] with [errno = EWOULDBLOCK]; other errors *)
Inductive recv_res := RData (bs : list Z) | RClosed | RTimeout | RError.

(** a handle below 0 is a failure; ports are in host order *)
Class FtpNet (W : Type) : Type := {
  lwip_socket : W → Z * W;
  lwip_bind : Z → Z → W → bool * W;
  lwip_listen : Z → Z → W → bool * W;
  lwip_getsockname : Z → W → Z * W;           (* the local port *)
  lwip_connect : Z → list Z → Z → W → bool * W;
  lwip_select : list Z → Z → W → list Z * W;  (* those ready in so many ms; none: time-out or error *)
  lwip_accept : Z → W → Z * W;
  lwip_close : Z → W → W;
  lwip_send : Z → list Z → W → Z * W;
  lwip_recv : Z → Z → W → recv_res * W;
  set_sock_timeout : Z → Z → W → W;
  now_ms : W → Z;
  io_now_epoch : W → Z;
  netif_ip : W → list Z;
  ip4addr_aton : list Z → option (list Z);
}.

(** ** littlefs with the file handle of the task *)

(** [RDONLY]; [WRONLY | CREAT] with [TRUNC], alone, with [APPEND] *)
Inductive ftp_flags := FRead | FTrunc | FCreat | FAppend.
Inductive whence := SeekSet | SeekEnd.

Class FtpLfs (L : Type) : Type := {
  lfs_stat : list Z → L → option lfs_info;
  lfs_list : list Z → L → option (list lfs_info);       (* open, read to the end, close *)
  lfs_fopen : list Z → ftp_flags → L → bool * L;
  lfs_fsize : L → Z;
  lfs_fseek : Z → whence → L → Z * L;
  lfs_fread : Z → L → Z * list Z * L;
  lfs_fwrite : list Z → L → Z * L;
  lfs_fclose : L → L;
  lfs_mkdir : list Z → L → Z * L;
  lfs_rename : list Z → list Z → L → Z * L;
}.

(** ** Sessions *)

Record ftp_session := mk_sess {
  ctrl : Z; authed : bool; anon : bool; data_listen : Z; data_is_port : bool; port_addr : list Z * Z; cwd : list Z;
  type_ascii : bool; rest : Z; rename_from : list Z; rename_pending : bool; pending_cr : bool; last_activity : Z }.

(** all bytes zero *)
Definition sess_zero : ftp_session := mk_sess 0 false false 0 false ([], 0) [] false 0 [] false false 0.

Definition set_ctrl (k : Z) (s : ftp_session) : ftp_session :=
  mk_sess k (authed s) (anon s) (data_listen s) (data_is_port s) (port_addr s) (cwd s) (type_ascii s) (rest s) (rename_from s) (rename_pending s) (pending_cr s) (last_activity s).
Definition set_authed (b : bool) (s : ftp_session) : ftp_session :=
  mk_sess (ctrl s) b (anon s) (data_listen s) (data_is_port s) (port_addr s) (cwd s) (type_ascii s) (rest s) (rename_from s) (rename_pending s) (pending_cr s) (last_activity s).
Definition set_user (a : bool) (s : ftp_session) : ftp_session :=
  mk_sess (ctrl s) (authed s) a (data_listen s) (data_is_port s) (port_addr s) (cwd s) (type_ascii s) (rest s) (rename_from s) false (pending_cr s) (last_activity s).
Definition set_listen (k : Z) (s : ftp_session) : ftp_session :=
  mk_sess (ctrl s) (authed s) (anon s) k (data_is_port s) (port_addr s) (cwd s) (type_ascii s) (rest s) (rename_from s) (rename_pending s) (pending_cr s) (last_activity s).
Definition set_is_port (b : bool) (s : ftp_session) : ftp_session :=
  mk_sess (ctrl s) (authed s) (anon s) (data_listen s) b (port_addr s) (cwd s) (type_ascii s) (rest s) (rename_from s) (rename_pending s) (pending_cr s) (last_activity s).
Definition set_port_addr (a : list Z * Z) (s : ftp_session) : ftp_session :=
  mk_sess (ctrl s) (authed s) (anon s) (data_listen s) true a (cwd s) (type_ascii s) (rest s) (rename_from s) (rename_pending s) (pending_cr s) (last_activity s).
Definition set_cwd (d : list Z) (s : ftp_session) : ftp_session :=
  mk_sess (ctrl s) (authed s) (anon s) (data_listen s) (data_is_port s) (port_addr s) d (type_ascii s) (rest s) (rename_from s) (rename_pending s) (pending_cr s) (last_activity s).
Definition set_ascii (b : bool) (s : ftp_session) : ftp_session :=
  mk_sess (ctrl s) (authed s) (anon s) (data_listen s) (data_is_port s) (port_addr s) (cwd s) b (rest s) (rename_from s) (rename_pending s) (pending_cr s) (last_activity s).
Definition set_rest (n : Z) (s : ftp_session) : ftp_session :=
  mk_sess (ctrl s) (authed s) (anon s) (data_listen s) (data_is_port s) (port_addr s) (cwd s) (type_ascii s) n (rename_from s) (rename_pending s) (pending_cr s) (last_activity s).
Definition set_rename (f : list Z) (b : bool) (s : ftp_session) : ftp_session :=
  mk_sess (ctrl s) (authed s) (anon s) (data_listen s) (data_is_port s) (port_addr s) (cwd s) (type_ascii s) (rest s) f b (pending_cr s) (last_activity s).
Definition set_pending_cr (b : bool) (s : ftp_session) : ftp_session :=
  mk_sess (ctrl s) (authed s) (anon s) (data_listen s) (data_is_port s) (port_addr s) (cwd s) (type_ascii s) (rest s) (rename_from s) (rename_pending s) b (last_activity s).
Definition set_activity (t : Z) (s : ftp_session) : ftp_session :=
  mk_sess (ctrl s) (authed s) (anon s) (data_listen s) (data_is_port s) (port_addr s) (cwd s) (type_ascii s) (rest s) (rename_from s) (rename_pending s) (pending_cr s) t.

Definition sess_free : ftp_session := set_cwd (js "/") (set_listen (-1) (set_ctrl (-1) sess_zero)).

(** ** Strings *)

(** up to the first NUL *)
Fixpoint cstr (s : list Z) : list Z := match s with c :: s' => if c =? 0 then [] else c :: cstr s' | [] => [] end.
(** [strchr], [strrchr]: from the character on *)
Fixpoint strchr (c : Z) (s : list Z) : option (list Z) :=
  match s with x :: s' => if x =? c then Some s else strchr c s' | [] => None end.
Fixpoint strrchr (c : Z) (s : list Z) : option (list Z) :=
  match s with
  | x :: s' => match strrchr c s' with Some t => Some t | None => if x =? c then Some s else None end
  | [] => None
  end.
Definition upper (c : Z) : Z := if (97 <=? c) && (c <=? 122) then c - 32 else c.
Definition ulong (s : list Z) : Z := match strtoul s 10 with Some (v, _) => v | None => 0 end.
Definition eol : list Z := [13; 10].

(** the command word, at most seven characters, and what follows the blank *)
Definition split_command (line : list Z) : list Z * list Z :=
  match strchr 32 line with
  | Some sp => (upper <$> take 7 (take (length line - length sp) line), drop 1 sp)
  | None => (upper <$> take 7 line, [])
  end.

(** [h1,h2,h3,h4,p1,p2]: [n] numbers are left *)
Fixpoint port_numbers (n : nat) (arg : list Z) : option (list Z) :=
  match n with
  | O => Some []
  | S n' =>
    match strtoul arg 10 with
    | None => None
    | Some (v, e) =>
      if (255 <? v) || ((0 <? n')%nat && negb (rd e 0 =? 44)) then None
      else match port_numbers n' (drop 1 e) with Some l => Some (v :: l) | None => None end
    end
  end.

(** [|1|a.b.c.d|port|]: the address text and the port *)
Definition eprt_fields (arg : list Z) : option (list Z * Z) :=
  if negb (rd arg 0 =? 124) then None
  else
    match strchr 124 (drop 1 arg) with
    | None => None
    | Some p1 =>
      match strchr 124 (drop 1 p1) with
      | None => None
      | Some p2 =>
        let port := ulong (drop 1 p2) in
        let n := (length p1 - length p2 - 1)%nat in
        if negb (ulong (drop 1 arg) =? 1) || (port =? 0) || (65535 <? port) || (n =? 0)%nat || (32 <=? n)%nat then None
        else Some (take n (drop 1 p1), port)
      end
    end.

(** [(lfs_soff_t)] *)
Definition soff (z : Z) : Z := if u32 z <? 2 ^ 31 then u32 z else u32 z - 2 ^ 32.

(** ["%10u"] *)
Definition ten (n : Z) : list Z := let d := dec n in replicate (10 - length d) 32 ++ d.

Definition list_line (long_fmt reg : bool) (size : Z) (tbuf name : list Z) : list Z :=
  if long_fmt
  then (if reg then js "-rw-r--r--" else js "drwxr-xr-x") ++ js " 1 owner group " ++ ten (u32 size) ++ [32] ++ tbuf ++ [32] ++ name ++ eol
  else name ++ eol.

(** ** The task *)

Section Task.
Context {L W : Type} `{Lfs L} `{FtpLfs L} `{FtpNet W}.
Context (beyond : list Z) (fuel : nat).

Record ftp_sys := mk_fsys { sessions : list ftp_session; fhist : @hsys L; fnet : W }.

Definition sess (i : nat) : M ftp_sys ftp_session := gets (λ s, default sess_free (sessions s !! i)).
Definition upd_sess (i : nat) (g : ftp_session → ftp_session) : M ftp_sys unit :=
  modify (λ s, mk_fsys (alter g i (sessions s)) (fhist s) (fnet s)).
Definition net {A} (g : W → A * W) : M ftp_sys A :=
  λ s, let '(a, w) := g (fnet s) in (Done a, mk_fsys (sessions s) (fhist s) w).
Definition net_do (g : W → W) : M ftp_sys unit := net (λ w, (tt, g w)).
Definition net_get {A} (g : W → A) : M ftp_sys A := gets (λ s, g (fnet s)).

(** a call of littlefs under the lock, or [d] when nothing is mounted *)
Definition fs {A} (d : A) (g : L → A * L) : M ftp_sys A :=
  λ s, if hist_ready (fhist s)
       then let '(a, l) := g (his_fs (hist_core (fhist s))) in (Done a, mk_fsys (sessions s) (history_fs_section l (fhist s)) (fnet s))
       else (Done d, s).
Definition fs_do (g : L → L) : M ftp_sys unit := fs tt (λ l, (tt, g l)).

(** *** Output *)

Definition ftp_send (k : Z) (msg : list Z) : M ftp_sys unit := net (lwip_send k (msg ++ eol));; mret tt.
(** [text] is what [vsnprintf] would write without a limit *)
Definition ftp_sendf (k : Z) (text : list Z) : M ftp_sys unit :=
  net (lwip_send k ((if FTP_BUF_SIZE <=? zlen text + 2 then take (Z.to_nat (FTP_BUF_SIZE - 3)) text else text) ++ eol));; mret tt.
Definition say (k : Z) (msg : string) : M ftp_sys unit := ftp_send k (js msg).

Fixpoint send_all_loop (n : nat) (k : Z) (bs : list Z) : M ftp_sys bool :=
  match n with
  | O => mret false
  | S n =>
    if bool_decide (bs = []) then mret true
    else r ← net (lwip_send k bs); if r <=? 0 then mret false else send_all_loop n k (drop (Z.to_nat r) bs)
  end.
(** every round sends a byte; [true] is return value 0 *)
Definition send_all (k : Z) (bs : list Z) : M ftp_sys bool := send_all_loop (S (length bs)) k bs.

(** [snprintf] into the buffer of the session, and its return value sent: a text
    of 512 bytes or more is sent with its NUL and what lies behind the buffer *)
Definition buf_sent (text : list Z) : list Z :=
  if zlen text <? FTP_BUF_SIZE then text
  else take (length text) (take (Z.to_nat (FTP_BUF_SIZE - 1)) text ++ 0 :: beyond).

(** *** Data connections *)

(** 0 and the port, -1 or -2 *)
Definition data_listen_open (i : nat) : M ftp_sys (Z * Z) :=
  s ← sess i;
  (if 0 <=? data_listen s then net_do (lwip_close (data_listen s)) else mret tt);;
  upd_sess i (set_is_port false);;
  k ← net lwip_socket;
  upd_sess i (set_listen k);;
  if k <? 0 then mret (-1, 0)
  else
    b ← net (lwip_bind k 0);
    l ← (if b : bool then net (lwip_listen k 1) else mret false);
    if l : bool then port ← net (lwip_getsockname k); mret (0, u16 port)
    else net_do (lwip_close k);; upd_sess i (set_listen (-1));; mret (-2, 0).

Definition passive_failed (k : Z) (rc : Z) : M ftp_sys unit :=
  say k (if rc =? -2 then "425 Passive bind failed" else "425 Cannot open passive connection").

Definition cmd_pasv (i : nat) : M ftp_sys unit :=
  r ← data_listen_open i;
  s ← sess i;
  if negb (r.1 =? 0) then passive_failed (ctrl s) r.1
  else
    ip ← net_get netif_ip;
    let c := js "," in
    ftp_sendf (ctrl s) (js "227 Entering Passive Mode (" ++ dec (rd ip 0) ++ c ++ dec (rd ip 1) ++ c ++ dec (rd ip 2) ++ c ++ dec (rd ip 3) ++
                        c ++ dec (Z.land (Z.shiftr r.2 8) 255) ++ c ++ dec (Z.land r.2 255) ++ js ")").

Definition cmd_epsv (i : nat) : M ftp_sys unit :=
  r ← data_listen_open i;
  s ← sess i;
  if negb (r.1 =? 0) then passive_failed (ctrl s) r.1
  else ftp_sendf (ctrl s) (js "229 Entering Extended Passive Mode (|||" ++ dec r.2 ++ js "|)").

Definition close_listen (i : nat) : M ftp_sys unit :=
  s ← sess i;
  if 0 <=? data_listen s then net_do (lwip_close (data_listen s));; upd_sess i (set_listen (-1)) else mret tt.

Definition drop_data_listen (i : nat) : M ftp_sys unit := close_listen i;; upd_sess i (set_is_port false).

Definition cmd_port (i : nat) (arg : list Z) : M ftp_sys unit :=
  s ← sess i;
  match port_numbers 6 arg with
  | Some [a; b; c; d; p1; p2] =>
    close_listen i;;
    upd_sess i (set_port_addr ([a; b; c; d], u16 (Z.lor (Z.shiftl p1 8) p2)));;
    say (ctrl s) "200 PORT command successful"
  | _ => say (ctrl s) "501 Syntax error in parameters"
  end.

Definition cmd_eprt (i : nat) (arg : list Z) : M ftp_sys unit :=
  s ← sess i;
  match eprt_fields arg with
  | None => say (ctrl s) "522 Network protocol not supported, use (1)"
  | Some (ipstr, port) =>
    match ip4addr_aton ipstr with
    | None => say (ctrl s) "501 Bad address"
    | Some ip => close_listen i;; upd_sess i (set_port_addr (ip, u16 port));; say (ctrl s) "200 EPRT command successful"
    end
  end.

(** the data socket, or below 0 *)
Definition open_data (i : nat) : M ftp_sys Z :=
  s ← sess i;
  if data_is_port s then
    upd_sess i (set_is_port false);;
    d ← net lwip_socket;
    if d <? 0 then mret (-1)
    else
      ok ← net (lwip_connect d (port_addr s).1 (port_addr s).2);
      if ok : bool then net_do (set_sock_timeout d FTP_DATA_TIMEOUT_MS);; mret d
      else net_do (lwip_close d);; mret (-1)
  else
    let k := data_listen s in
    if k <? 0 then mret (-1)
    else
      ready ← net (lwip_select [k] FTP_DATA_TIMEOUT_MS);
      if bool_decide (k ∈ ready) then
        d ← net (lwip_accept k);
        net_do (lwip_close k);; upd_sess i (set_listen (-1));;
        (if 0 <=? d then net_do (set_sock_timeout d FTP_DATA_TIMEOUT_MS) else mret tt);; mret d
      else net_do (lwip_close k);; upd_sess i (set_listen (-1));; mret (-1).

(** *** Listings and transfers *)

Definition ls_time_of (name : list Z) : M ftp_sys (list Z) := epoch ← net_get io_now_epoch; mret (format_ls_time epoch name).

(** the loop over the directory: [.] and [..] are skipped, a failed send ends it *)
Fixpoint list_entries (data : Z) (long_fmt : bool) (es : list lfs_info) : M ftp_sys unit :=
  match es with
  | [] => mret tt
  | e :: es =>
    if bool_decide (info_name e = dot) || bool_decide (info_name e = dotdot) then list_entries data long_fmt es
    else
      tbuf ← ls_time_of (info_name e);
      ok ← send_all data (buf_sent (list_line long_fmt (info_reg e) (info_size e) tbuf (info_name e)));
      if ok : bool then list_entries data long_fmt es else mret tt
  end.

Definition cmd_list (i : nat) (path : list Z) (long_fmt : bool) : M ftp_sys unit :=
  s ← sess i;
  let fspath := fs_path (cwd s) path in
  st ← fs None (λ l, (lfs_stat fspath l, l));
  match st with
  | None => say (ctrl s) "550 No such file or directory";; drop_data_listen i
  | Some st =>
    data ← open_data i;
    if data <? 0 then say (ctrl s) "425 No data connection"
    else if info_reg st then
      let base := match strrchr slash path with Some t => drop 1 t | None => path end in
      say (ctrl s) "150 Here comes the file listing";;
      tbuf ← ls_time_of base;
      send_all data (buf_sent (list_line long_fmt true (info_size st) tbuf base));;
      net_do (lwip_close data);;
      say (ctrl s) "226 Transfer complete"
    else
      say (ctrl s) "150 Here comes the directory listing";;
      es ← fs None (λ l, (lfs_list fspath l, l));
      match es with Some es => list_entries data long_fmt es | None => mret tt end;;
      net_do (lwip_close data);;
      say (ctrl s) "226 Directory send OK"
  end.

(** [for (;;)] of RETR: read, convert, send *)
Fixpoint retr_loop (n : nat) (ascii : bool) (data : Z) : M ftp_sys unit :=
  match n with
  | O => mret tt
  | S n =>
    r ← fs (-1, []) (λ l, let '(r, bs, l) := lfs_fread (FTP_BUF_SIZE / 2) l in (r, bs, l));
    if r.1 <=? 0 then mret tt
    else
      let chunk := take (Z.to_nat r.1) r.2 in
      ok ← send_all data (if ascii then ascii_crlf chunk else chunk);
      if ok : bool then retr_loop n ascii data else mret tt
  end.

(** the file, opened and at the restart position, under one lock *)
Definition retr_open (fspath : list Z) (pos : Z) (l : L) : bool * L :=
  let '(opened, l) := lfs_fopen fspath FRead l in
  if negb opened then (false, l)
  else if lfs_fsize l <? 0 then (false, lfs_fclose l)
  else if 0 <? pos then let '(r, l) := lfs_fseek (soff pos) SeekSet l in if r <? 0 then (false, lfs_fclose l) else (true, l)
  else (true, l).

Definition cmd_retr (i : nat) (path : list Z) : M ftp_sys unit :=
  s ← sess i;
  if negb (authed s) then say (ctrl s) "530 Not logged in";; drop_data_listen i
  else
    opened ← fs false (retr_open (fs_path (cwd s) path) (rest s));
    if negb opened then say (ctrl s) "550 Failed to open file";; upd_sess i (set_rest 0);; drop_data_listen i
    else
      say (ctrl s) "150 Opening data connection";;
      data ← open_data i;
      if data <? 0 then
        fs_do lfs_fclose;; say (ctrl s) "425 No data connection";; upd_sess i (set_rest 0)
      else
        retr_loop fuel (type_ascii s) data;;
        fs_do lfs_fclose;; net_do (lwip_close data);; upd_sess i (set_rest 0);; say (ctrl s) "226 Transfer complete".

Definition stor_open (fspath : list Z) (is_appe : bool) (pos : Z) (l : L) : bool * L :=
  let '(opened, l) := lfs_fopen fspath (if is_appe then FAppend else if pos =? 0 then FTrunc else FCreat) l in
  if negb opened then (false, l)
  else if is_appe then (true, (lfs_fseek 0 SeekEnd l).2)
  else if 0 <? pos then (true, (lfs_fseek (soff pos) SeekSet l).2)
  else (true, l).

(** [for (;;)] of STOR: receive, convert, write *)
Fixpoint stor_loop (n : nat) (i : nat) (data : Z) : M ftp_sys unit :=
  match n with
  | O => mret tt
  | S n =>
    r ← net (lwip_recv data FTP_BUF_SIZE);
    match r with
    | RData bs =>
      s ← sess i;
      let '(out, cr) := if type_ascii s then ascii_strip_cr bs (pending_cr s) else (bs, pending_cr s) in
      upd_sess i (set_pending_cr cr);;
      if bool_decide (out = []) then stor_loop n i data
      else
        wr ← fs (-1) (lfs_fwrite out);
        if wr =? zlen out then stor_loop n i data else mret tt
    | _ => mret tt
    end
  end.

Definition cmd_stor (i : nat) (path : list Z) (is_appe : bool) : M ftp_sys unit :=
  s ← sess i;
  if negb (authed s) || anon s then say (ctrl s) "530 Permission denied";; drop_data_listen i
  else
    opened ← fs false (stor_open (fs_path (cwd s) path) is_appe (rest s));
    if negb opened then say (ctrl s) "550 Failed to open file";; drop_data_listen i
    else
      say (ctrl s) "150 Ok to send data";;
      data ← open_data i;
      if data <? 0 then
        fs_do lfs_fclose;; say (ctrl s) "425 No data connection";; upd_sess i (set_rest 0)
      else
        upd_sess i (set_pending_cr false);;
        stor_loop fuel i data;;
        fs_do lfs_fclose;; net_do (lwip_close data);; upd_sess i (set_rest 0);; say (ctrl s) "226 Transfer complete".

(** *** Commands *)

(** an operation only a logged-in user who is not anonymous may do *)
Definition admin_only (i : nat) (g : L → Z * L) : M ftp_sys Z :=
  s ← sess i; if authed s && negb (anon s) then fs (-1) g else mret (-1).

Definition feat_text : list Z :=
  js "211-Features:" ++ eol ++ js " SIZE" ++ eol ++ js " PASV" ++ eol ++ js " EPSV" ++ eol ++ js " PORT" ++ eol ++ js " EPRT" ++ eol ++
  js " REST STREAM" ++ eol ++ js " TYPE A;I" ++ eol ++ js " NLST" ++ eol ++ js " MKD" ++ eol ++ js " RMD" ++ eol ++ js "211 END".

Definition cmd_user (i : nat) (arg : list Z) : M ftp_sys unit :=
  s ← sess i;
  upd_sess i (set_user (bool_decide (arg = js "anonymous") || bool_decide (arg = js "ftp")));;
  say (ctrl s) "331 Please specify the password".

Definition cmd_pass (i : nat) (arg : list Z) : M ftp_sys unit :=
  s ← sess i;
  if anon s || bool_decide (arg = FTP_PASS) then upd_sess i (set_authed true);; say (ctrl s) "230 Login successful"
  else upd_sess i (set_authed false);; say (ctrl s) "530 Login incorrect".

Definition cmd_cwd (i : nat) (arg : list Z) : M ftp_sys unit :=
  s ← sess i;
  upd_sess i (set_cwd (norm_path CWD_SIZE (cwd s) arg));;
  say (ctrl s) "250 Directory successfully changed".

Definition cmd_remove (i : nat) (arg : list Z) (good bad : string) : M ftp_sys unit :=
  s ← sess i;
  rc ← admin_only i (lfs_remove (fs_path (cwd s) arg));
  say (ctrl s) (if rc =? 0 then good else bad).

Definition cmd_mkd (i : nat) (arg : list Z) : M ftp_sys unit :=
  s ← sess i;
  rc ← admin_only i (lfs_mkdir (fs_path (cwd s) arg));
  if rc =? 0 then ftp_sendf (ctrl s) (js "257 '" ++ arg ++ js "' created") else say (ctrl s) "550 Cannot create directory".

Definition cmd_size (i : nat) (arg : list Z) : M ftp_sys unit :=
  s ← sess i;
  st ← fs None (λ l, (lfs_stat (fs_path (cwd s) arg) l, l));
  match st with
  | Some st => if info_reg st then ftp_sendf (ctrl s) (js "213 " ++ dec (u32 (info_size st))) else say (ctrl s) "550 Not found"
  | None => say (ctrl s) "550 Not found"
  end.

Definition cmd_rest (i : nat) (arg : list Z) : M ftp_sys unit :=
  s ← sess i;
  let n := u32 (ulong arg) in
  upd_sess i (set_rest n);;
  ftp_sendf (ctrl s) (js "350 Restart position accepted (" ++ dec n ++ js ")").

Definition cmd_rnfr (i : nat) (arg : list Z) : M ftp_sys unit :=
  s ← sess i;
  let fspath := fs_path (cwd s) arg in
  st ← (if authed s && negb (anon s) then fs None (λ l, (lfs_stat fspath l, l)) else mret None);
  match st with
  | None => say (ctrl s) "550 No such file"
  | Some _ => upd_sess i (set_rename (take 127 fspath) true);; say (ctrl s) "350 Ready for RNTO"
  end.

Definition cmd_rnto (i : nat) (arg : list Z) : M ftp_sys unit :=
  s ← sess i;
  rc ← (if rename_pending s then admin_only i (lfs_rename (rename_from s) (fs_path (cwd s) arg)) else mret (-1));
  upd_sess i (set_rename (rename_from s) false);;
  say (ctrl s) (if rc =? 0 then "250 Rename successful" else "550 Rename failed").

Definition cmd_quit (i : nat) : M ftp_sys unit :=
  s ← sess i;
  say (ctrl s) "221 Goodbye";; net_do (lwip_close (ctrl s));; upd_sess i (set_ctrl (-1)).

Definition sync_files : M ftp_sys unit := modify (λ s, mk_fsys (sessions s) (history_sync (fhist s)) (fnet s)).

Definition handle_command (i : nat) (line : list Z) : M ftp_sys unit :=
  let '(cmd, arg) := split_command (cstr line) in
  let word (c : string) := bool_decide (cmd = js c) in
  t ← net_get now_ms;
  upd_sess i (set_activity (u32 t));;
  s ← sess i;
  if word "USER"%string then cmd_user i arg
  else if word "PASS"%string then cmd_pass i arg
  else if word "SYST"%string then say (ctrl s) "215 UNIX Type: L8"
  else if word "FEAT"%string then ftp_send (ctrl s) feat_text
  else if word "TYPE"%string then upd_sess i (set_ascii ((rd arg 0 =? 65) || (rd arg 0 =? 97)));; say (ctrl s) "200 Type set"
  else if word "PWD"%string then ftp_sendf (ctrl s) (js "257 '" ++ cwd s ++ js "' is the current directory")
  else if word "CWD"%string then cmd_cwd i arg
  else if word "CDUP"%string then cmd_cwd i dotdot
  else if word "PASV"%string then cmd_pasv i
  else if word "EPSV"%string then cmd_epsv i
  else if word "PORT"%string then cmd_port i arg
  else if word "EPRT"%string then cmd_eprt i arg
  else if word "LIST"%string || word "NLST"%string then sync_files;; cmd_list i arg (word "LIST"%string)
  else if word "RETR"%string then sync_files;; cmd_retr i arg
  else if word "STOR"%string || word "APPE"%string then cmd_stor i arg (word "APPE"%string)
  else if word "DELE"%string then cmd_remove i arg "250 Delete OK" "550 Delete failed"
  else if word "MKD"%string || word "XMKD"%string then cmd_mkd i arg
  else if word "RMD"%string || word "XRMD"%string then cmd_remove i arg "250 Remove OK" "550 Cannot remove"
  else if word "SIZE"%string then cmd_size i arg
  else if word "REST"%string then cmd_rest i arg
  else if word "RNFR"%string then cmd_rnfr i arg
  else if word "RNTO"%string then cmd_rnto i arg
  else if word "QUIT"%string then cmd_quit i
  else if word "NOOP"%string || word "ALLO"%string then say (ctrl s) "200 OK"
  else say (ctrl s) "502 Command not implemented".

(** *** The loop of the task *)

(** trailing CR and LF are cut off *)
Fixpoint strip_eol (s : list Z) : list Z :=
  match s with
  | [] => []
  | c :: s' => match strip_eol s' with [] => if (c =? 13) || (c =? 10) then [] else [c] | t => c :: t end
  end.

(** return value and line; [n] bytes have room *)
Fixpoint recv_line (n : nat) (k : Z) (buf : list Z) : M ftp_sys (Z * list Z) :=
  let line := strip_eol buf in
  match n with
  | O => mret (zlen line, line)
  | S n =>
    r ← net (lwip_recv k 1);
    match r with
    | RData (b :: _) => if b =? 10 then mret (zlen line, line) else recv_line n k (buf ++ [b])
    | RTimeout => mret (-1, [])
    | _ => mret (0, [])
    end
  end.

Definition close_session (i : nat) : M ftp_sys unit :=
  s ← sess i;
  (if 0 <=? ctrl s then net_do (lwip_close (ctrl s)) else mret tt);;
  (if 0 <=? data_listen s then net_do (lwip_close (data_listen s)) else mret tt);;
  upd_sess i (λ _, sess_free).

Definition free_session (ss : list ftp_session) : option nat :=
  match list_find (λ s, ctrl s < 0) ss with Some (i, _) => Some i | None => None end.

Definition accept_client (serv : Z) : M ftp_sys unit :=
  c ← net (lwip_accept serv);
  if c <? 0 then mret tt
  else
    ss ← gets sessions;
    match free_session ss with
    | None => net (lwip_send c (js "421 Too many users" ++ eol));; net_do (lwip_close c)
    | Some i =>
      t ← net_get now_ms;
      upd_sess i (λ _, set_cwd (js "/") (set_activity (u32 t) (set_listen (-1) (set_ctrl c sess_zero))));;
      net_do (set_sock_timeout c FTP_CTRL_TIMEOUT_MS);;
      say c "220 io-edge-hub FTP service ready"
    end.

Definition serve_client (ready : list Z) (i : nat) : M ftp_sys unit :=
  s ← sess i;
  if (0 <=? ctrl s) && bool_decide (ctrl s ∈ ready) then
    r ← recv_line (Z.to_nat (FTP_BUF_SIZE - 1)) (ctrl s) [];
    if 0 <? r.1 then handle_command i r.2 else if r.1 =? 0 then close_session i else mret tt
  else mret tt.

Definition idle_check (now : Z) (i : nat) : M ftp_sys unit :=
  s ← sess i;
  if (0 <=? ctrl s) && (FTP_SESSION_TIMEOUT_MS <? u32 (now - last_activity s)) then close_session i else mret tt.

Fixpoint each (f : nat → M ftp_sys unit) (ks : list nat) : M ftp_sys unit :=
  match ks with [] => mret tt | i :: ks => f i;; each f ks end.

Definition all_clients : list nat := seq 0 FTP_MAX_CLIENTS.

(** one turn of [for (;;)] *)
Definition ftp_turn (serv : Z) : M ftp_sys unit :=
  ss ← gets sessions;
  ready ← net (lwip_select (serv :: filter (λ k, 0 ≤ k) (ctrl <$> ss)) 1000);
  (if bool_decide (ready = []) then mret tt
   else (if bool_decide (serv ∈ ready) then accept_client serv else mret tt);; each (serve_client ready) all_clients);;
  t ← net_get now_ms;
  each (idle_check (u32 t)) all_clients.

(** the socket of the server, or below 0 when the task ends *)
Definition ftp_start : M ftp_sys Z :=
  modify (λ s, mk_fsys (replicate FTP_MAX_CLIENTS sess_free) (fhist s) (fnet s));;
  serv ← net lwip_socket;
  if serv <? 0 then mret (-1)
  else
    b ← net (lwip_bind serv FTP_CTRL_PORT);
    l ← (if b : bool then net (lwip_listen serv (Z.of_nat FTP_MAX_CLIENTS)) else mret false);
    mret (if l : bool then serv else -1).

Fixpoint ftp_turns (n : nat) (serv : Z) : M ftp_sys unit :=
  match n with O => mret tt | S n => ftp_turn serv;; ftp_turns n serv end.

(** the task: [n] turns of its endless loop *)
Definition ftp_task (n : nat) : M ftp_sys unit := serv ← ftp_start; if serv <? 0 then mret tt else ftp_turns n serv.
End Task.

(** ** What the parameters promise *)

(** [open_socks] are the handles in use *)
Class FtpNetLaws (W : Type) `{FtpNet W} : Type := {
  open_socks : W → gset Z;
  socket_law w : let '(k, w') := lwip_socket w in
    if 0 <=? k then (k ∉ open_socks w) ∧ open_socks w' = {[k]} ∪ open_socks w else open_socks w' = open_socks w;
  accept_law l w : let '(k, w') := lwip_accept l w in
    if 0 <=? k then (k ∉ open_socks w) ∧ open_socks w' = {[k]} ∪ open_socks w else open_socks w' = open_socks w;
  close_law k w : open_socks (lwip_close k w) = open_socks w ∖ {[k]};
  bind_law k port w : open_socks (lwip_bind k port w).2 = open_socks w;
  listen_law k n w : open_socks (lwip_listen k n w).2 = open_socks w;
  getsockname_law k w : open_socks (lwip_getsockname k w).2 = open_socks w;
  connect_law k ip port w : open_socks (lwip_connect k ip port w).2 = open_socks w;
  select_law ks t w : open_socks (lwip_select ks t w).2 = open_socks w;
  send_law k bs w : open_socks (lwip_send k bs w).2 = open_socks w;
  recv_law k n w : open_socks (lwip_recv k n w).2 = open_socks w;
  timeout_law k t w : open_socks (set_sock_timeout k t w) = open_socks w;
}.

(** ** Sockets and strings of the sessions *)

Definition socks (s : ftp_session) : list Z := filter (λ k, 0 ≤ k) [ctrl s; data_listen s].

(** the strings of a session fit, and only one way to connect is set up *)
Record sess_ok (s : ftp_session) : Prop := {
  so_cwd : canonical (cwd s) ∧ zlen (cwd s) < CWD_SIZE;
  so_rename : zlen (rename_from s) < 128;
  so_port : data_is_port s = true → data_listen s < 0;
}.

(** the fields an answer or a transfer leaves alone *)
Definition same_socks (s s' : ftp_session) : Prop :=
  ctrl s' = ctrl s ∧ data_listen s' = data_listen s ∧ data_is_port s' = data_is_port s ∧ cwd s' = cwd s ∧ rename_from s' = rename_from s.

#[export] Instance same_socks_preorder : PreOrder same_socks.
Proof. split; [by intros ?|]. intros a b c (A1 & A2 & A3 & A4 & A5) (B1 & B2 & B3 & B4 & B5). split_and!; congruence. Qed.

Lemma same_socks_ok s s' : same_socks s s' → sess_ok s → sess_ok s'.
Proof. intros (_ & E1 & E2 & E3 & E4) [H1 H2 H3]. constructor; by rewrite ?E1, ?E2, ?E3, ?E4. Qed.
Lemma same_socks_socks s s' : same_socks s s' → socks s' = socks s.
Proof. intros (E1 & E2 & _). unfold socks. by rewrite E1, E2. Qed.

Lemma free_ok : sess_ok sess_free.
Proof. constructor; [|done|done]. split; [|by vm_compute]. exists []. split_and!; [by vm_compute|constructor|constructor|cbn; lia]. Qed.

Section Safety.
Context {L W : Type} `{Lfs L} `{FtpLfs L} `{FtpNetLaws W}.
Context (beyond : list Z) (fuel : nat).
Abbreviation SYS := (@ftp_sys L W).

Definition owned (ss : list ftp_session) : list Z := concat (socks <$> ss).

(** [held]: the handles that belong to no session: the server's, a data
    connection's, lost ones *)
Record ftp_inv (held : list Z) (st : SYS) : Prop := {
  fi_len : length (sessions st) = FTP_MAX_CLIENTS;
  fi_ok : Forall sess_ok (sessions st);
  fi_nodup : NoDup (held ++ owned (sessions st));
  fi_open : open_socks (fnet st) = list_to_set (held ++ owned (sessions st));
}.

Lemma inv_perm held held' st : held ≡ₚ held' → ftp_inv held st → ftp_inv held' st.
Proof. intros Hp [A B C D]. constructor; [done|done| |]; by rewrite <- Hp. Qed.

(** *** Steps that leave the sockets alone *)

Definition stays (st st' : SYS) : Prop :=
  open_socks (fnet st') = open_socks (fnet st) ∧ Forall2 same_socks (sessions st) (sessions st').

Lemma owned_same ss ss' : Forall2 same_socks ss ss' → owned ss' = owned ss.
Proof. induction 1 as [|s s' ss ss' Hs _ IH]; [done|]. unfold owned in *. cbn [fmap list_fmap concat]. by rewrite IH, (same_socks_socks s s'). Qed.

Lemma inv_stays held st st' : stays st st' → ftp_inv held st → ftp_inv held st'.
Proof.
  intros [Ho Hs] [A B C D]. pose proof (owned_same _ _ Hs) as Eo. constructor; rewrite ?Eo, ?Ho; try done.
  - by rewrite <- (Forall2_length Hs).
  - clear -Hs B. induction Hs as [|s s' ss ss' Hss _ IH]; [constructor|]. inversion B; subst. constructor; [by eapply same_socks_ok|by apply IH].
Qed.

Lemma stays_refl st : stays st st.
Proof. split; [done|]. by apply reflexivity. Qed.
Lemma stays_trans a b c : stays a b → stays b c → stays a c.
Proof. intros [A1 A2] [B1 B2]. split; [congruence|]. by etrans. Qed.

Definition quiet {A} (m : M SYS A) : Prop := ∀ st, ∃ a st', m st = (Done a, st') ∧ stays st st'.

Lemma quiet_ret {A} (a : A) : quiet (mret a).
Proof. intros st. exists a, st. split; [done|apply stays_refl]. Qed.
Lemma quiet_bind {A B} (m : M SYS A) (f : A → M SYS B) : quiet m → (∀ a, quiet (f a)) → quiet (m ≫= f).
Proof.
  intros Hm Hf st. destruct (Hm st) as (a & s1 & E1 & S1). destruct (Hf a s1) as (b & s2 & E2 & S2).
  exists b, s2. rewrite (bind_done _ _ _ _ _ E1). split; [done|by eapply stays_trans].
Qed.
Lemma quiet_gets {A} (f : SYS → A) : quiet (gets f).
Proof. intros st. exists (f st), st. split; [done|apply stays_refl]. Qed.
Lemma quiet_net {A} (g : W → A * W) : (∀ w, open_socks (g w).2 = open_socks w) → quiet (net g).
Proof.
  intros Hg st. specialize (Hg (fnet st)). unfold net. destruct (g (fnet st)) as [a w] eqn:E. exists a. eexists. split; [reflexivity|].
  split; [done|]. cbn. by apply reflexivity.
Qed.
Lemma quiet_fs {A} (d : A) g : quiet (fs d g).
Proof.
  intros st. unfold fs. destruct (hist_ready _); [|exists d, st; split; [done|apply stays_refl]].
  destruct (g _) as [a l]. exists a. eexists. split; [reflexivity|]. split; [done|]. cbn. by apply reflexivity.
Qed.
Lemma quiet_sync : quiet sync_files.
Proof. intros st. exists tt. eexists. split; [reflexivity|]. split; [done|]. cbn. by apply reflexivity. Qed.

Lemma upd_run i g (st : SYS) s : sessions st !! i = Some s → upd_sess i g st = (Done tt, mk_fsys (<[i := g s]> (sessions st)) (fhist st) (fnet st)).
Proof.
  intros Hs. unfold upd_sess, modify. do 2 f_equal. apply list_eq. intros j. destruct (decide (i = j)) as [<-|Hne].
  - rewrite list_lookup_alter_eq, Hs, list_lookup_insert_eq; [done|by eapply lookup_lt_Some].
  - by rewrite list_lookup_alter_ne, list_lookup_insert_ne.
Qed.
Lemma upd_none i g (st : SYS) : sessions st !! i = None → upd_sess i g st = (Done tt, st).
Proof.
  intros Hs. unfold upd_sess, modify. destruct st as [ss hi w]. cbn in *. do 2 f_equal. apply list_eq. intros j. destruct (decide (i = j)) as [<-|Hne].
  - by rewrite list_lookup_alter_eq, Hs.
  - by rewrite list_lookup_alter_ne.
Qed.
Lemma quiet_upd i g : (∀ s, same_socks s (g s)) → quiet (@upd_sess L W i g).
Proof.
  intros Hg st. destruct (sessions st !! i) as [s|] eqn:E.
  - eexists _, _. split; [by apply upd_run|]. split; [done|]. cbn. rewrite insert_take_drop by (by eapply lookup_lt_Some).
    rewrite <- (take_drop_middle _ _ _ E) at 1. apply Forall2_app; [by apply reflexivity|]. constructor; [apply Hg|by apply reflexivity].
  - exists tt, st. split; [by apply upd_none|apply stays_refl].
Qed.

Ltac quiet := repeat first
  [ apply quiet_ret | apply quiet_gets | apply quiet_fs | apply quiet_sync | done
  | apply quiet_net; intros; first [apply select_law | apply send_law | apply recv_law | apply bind_law | apply listen_law | apply getsockname_law
                                  | apply connect_law | cbn; apply timeout_law]
  | apply quiet_upd; intros ?; by split_and!
  | apply quiet_bind; [|intros]
  | match goal with |- context [if ?b then _ else _] => destruct b | |- context [match ?x with _ => _ end] => destruct x end ].

Lemma quiet_say k msg : quiet (say k msg : M SYS _).
Proof. unfold say, ftp_send. quiet. Qed.
Lemma quiet_send k msg : quiet (ftp_send k msg : M SYS _).
Proof. unfold ftp_send. quiet. Qed.
Lemma quiet_sendf k msg : quiet (ftp_sendf k msg : M SYS _).
Proof. unfold ftp_sendf. quiet. Qed.
Lemma quiet_send_all k bs : quiet (send_all k bs : M SYS _).
Proof.
  unfold send_all. generalize (S (length bs)). intros n. revert bs. induction n as [|n IH]; intros bs; cbn [send_all_loop]; [quiet|].
  destruct (bool_decide _); [quiet|]. apply quiet_bind; [quiet|]. intros r. destruct (_ <=? _); [quiet|apply IH].
Qed.
Lemma quiet_entries data long es : quiet (list_entries beyond data long es : M SYS unit).
Proof.
  induction es as [|e es IH]; cbn [list_entries]; [quiet|]. destruct (_ || _); [done|]. apply quiet_bind; [unfold ls_time_of, net_get; quiet|].
  intros t. apply quiet_bind; [apply quiet_send_all|]. intros [|]; [done|quiet].
Qed.
Lemma quiet_retr n ascii data : quiet (retr_loop n ascii data : M SYS unit).
Proof.
  induction n as [|n IH]; cbn [retr_loop]; [quiet|]. apply quiet_bind; [quiet|]. intros r. destruct (_ <=? _); [quiet|].
  apply quiet_bind; [apply quiet_send_all|]. intros [|]; [done|quiet].
Qed.
Lemma quiet_stor n i data : quiet (stor_loop n i data : M SYS unit).
Proof.
  induction n as [|n IH]; cbn [stor_loop]; [quiet|]. apply quiet_bind; [quiet|]. intros [bs| | |]; [|quiet..].
  apply quiet_bind; [quiet|]. intros s. destruct (if type_ascii s then _ else _) as [out cr]. apply quiet_bind; [quiet|]. intros _.
  destruct (bool_decide _); [done|]. apply quiet_bind; [quiet|]. intros wr. destruct (_ =? _); [done|quiet].
Qed.
Lemma quiet_recv_line n k : ∀ buf, quiet (recv_line n k buf : M SYS _).
Proof.
  induction n as [|n IH]; intros buf; cbn [recv_line]; [quiet|]. apply quiet_bind; [quiet|]. intros [[|b bs]| | |]; quiet.
Qed.

(** *** Steps that open and close *)

(** from a state with [held] and session [i] being [s], the computation ends in [Q] *)
Definition at_ (held : list Z) (i : nat) (s : ftp_session) (st : SYS) : Prop := ftp_inv held st ∧ sessions st !! i = Some s.
Definition goes {A} (m : M SYS A) (st : SYS) (Q : A → SYS → Prop) : Prop := ∃ a st', m st = (Done a, st') ∧ Q a st'.

Lemma goes_ret {A} (a : A) st (Q : A → SYS → Prop) : Q a st → goes (mret a) st Q.
Proof. intros HQ. by exists a, st. Qed.
Lemma goes_bind {A B} (m : M SYS A) (f : A → M SYS B) st R Q :
  goes m st R → (∀ a st', R a st' → goes (f a) st' Q) → goes (m ≫= f) st Q.
Proof.
  intros (a & s1 & E1 & HR) Hf. destruct (Hf a s1 HR) as (b & s2 & E2 & HQ). exists b, s2. by rewrite (bind_done _ _ _ _ _ E1).
Qed.
Lemma goes_weaken {A} (m : M SYS A) st (R Q : A → SYS → Prop) : goes m st R → (∀ a st', R a st' → Q a st') → goes m st Q.
Proof. intros (a & s1 & E1 & HR) Hw. exists a, s1. auto. Qed.

(** a quiet step keeps the session up to [same_socks] *)
Lemma goes_quiet {A} (m : M SYS A) held i s st :
  quiet m → at_ held i s st → goes m st (λ _ st', ∃ s', at_ held i s' st' ∧ same_socks s s').
Proof.
  intros Hm [Hi Hs]. destruct (Hm st) as (a & st' & E & S). exists a, st'. split; [done|].
  destruct (Forall2_lookup_l _ _ _ _ _ (proj2 S) Hs) as (s' & Hs' & Hss). exists s'. split; [|done]. split; [by eapply inv_stays|done].
Qed.
Lemma inv_quiet {A} (m : M SYS A) held st : quiet m → ftp_inv held st → goes m st (λ _ st', ftp_inv held st').
Proof. intros Hm Hi. destruct (Hm st) as (a & st' & E & S). exists a, st'. split; [done|by eapply inv_stays]. Qed.

Lemma goes_sess {A} i (f : ftp_session → M SYS A) held s st Q : at_ held i s st → goes (f s) st Q → goes (sess i ≫= f) st Q.
Proof. intros [_ Hs] (a & st' & E & HQ). exists a, st'. split; [|done]. rewrite (bind_done _ _ _ s st); [done|]. unfold sess, gets. by rewrite Hs. Qed.

Lemma owned_insert ss i s s' : ss !! i = Some s → ∃ r, owned ss ≡ₚ socks s ++ r ∧ owned (<[i := s']> ss) ≡ₚ socks s' ++ r.
Proof.
  intros Hs. exists (owned (take i ss) ++ owned (drop (S i) ss)).
  assert (∀ x a b, owned (a ++ x :: b) ≡ₚ socks x ++ owned a ++ owned b) as Ho.
  { intros x a b. unfold owned. rewrite fmap_app, concat_app. cbn [fmap list_fmap concat]. rewrite !app_assoc. apply Permutation_app_tail, Permutation_app_comm. }
  rewrite insert_take_drop by (by eapply lookup_lt_Some). rewrite Ho. split; [|done].
  rewrite <- (take_drop_middle _ _ _ Hs) at 1. apply Ho.
Qed.

(** a session is changed: its sockets and the held ones together stay the same *)
Lemma goes_upd g held held' i s st :
  at_ held i s st → sess_ok (g s) → socks (g s) ++ held' ≡ₚ socks s ++ held →
  goes (upd_sess i g) st (λ _ st', at_ held' i (g s) st').
Proof.
  intros [[A B C D] Hs] Hok Hp. eexists _, _. split; [by apply upd_run|].
  destruct (owned_insert (sessions st) i s (g s) Hs) as (r & P1 & P2).
  assert (held' ++ owned (<[i:=g s]> (sessions st)) ≡ₚ held ++ owned (sessions st)) as Hperm.
  { rewrite P1, P2. rewrite !(app_assoc _ _ r). apply Permutation_app_tail. rewrite (Permutation_app_comm held'), (Permutation_app_comm held). exact Hp. }
  split; [|cbn; rewrite list_lookup_insert_eq; [done|by eapply lookup_lt_Some]].
  constructor; cbn; [by rewrite length_insert|by apply Forall_insert|by rewrite Hperm|by rewrite Hperm].
Qed.

(** a new handle is not in use *)
Lemma goes_new (g : W → Z * W) held i s st :
  (∀ w, let '(k, w') := g w in if 0 <=? k then (k ∉ open_socks w) ∧ open_socks w' = {[k]} ∪ open_socks w else open_socks w' = open_socks w) →
  at_ held i s st → goes (net g) st (λ k st', at_ (if 0 <=? k then k :: held else held) i s st').
Proof.
  intros Hg [[A B C D] Hs]. unfold goes, net. specialize (Hg (fnet st)). destruct (g (fnet st)) as [k w] eqn:E.
  eexists k, _. split; [reflexivity|]. split; [|done]. destruct (0 <=? k).
  - destruct Hg as [Hk Ho]. constructor; try done; cbn [app sessions fnet].
    + constructor; [|done]. intros Hin. apply Hk. rewrite D. by apply elem_of_list_to_set.
    + rewrite Ho, D. done.
  - constructor; cbn; try done. by rewrite Hg.
Qed.

Lemma goes_close k held i s st : at_ (k :: held) i s st → goes (net_do (lwip_close k)) st (λ _ st', at_ held i s st').
Proof.
  intros [[A B C D] Hs]. eexists tt, _. split; [reflexivity|]. split; [|done]. cbn [app] in C. inversion C as [|? ? Hk HC]; subst.
  constructor; try done. cbn. rewrite close_law, D. cbn. assert (k ∉@{gset Z} list_to_set (held ++ owned (sessions st))) by (by rewrite elem_of_list_to_set).
  apply set_eq. intros x. rewrite elem_of_difference, elem_of_union, elem_of_singleton. split; [tauto|]. intros Hx. split; [by right|by intros ->].
Qed.

Lemma at_ok held i s st : at_ held i s st → sess_ok s.
Proof. intros [[_ Hok _ _] Hs]. by eapply Forall_lookup_1. Qed.

Lemma goes_some {A} (m : M SYS A) held i s st : goes m st (λ _ st', at_ held i s st') → goes m st (λ _ st', ∃ s', at_ held i s' st').
Proof. intros Hm. eapply goes_weaken; [exact Hm|]. intros a st' Ha. by exists s. Qed.

Definition keeps {A} (i : nat) (m : M SYS A) : Prop :=
  ∀ held s st, at_ held i s st → goes m st (λ _ st', ∃ s', at_ held i s' st').

Lemma keeps_quiet {A} i (m : M SYS A) : quiet m → keeps i m.
Proof. intros Hm held s st Ha. eapply goes_weaken; [by apply goes_quiet|]. intros ? st' (s' & H1' & _). by exists s'. Qed.
Lemma keeps_bind {A B} i (m : M SYS A) (f : A → M SYS B) : keeps i m → (∀ a, keeps i (f a)) → keeps i (m ≫= f).
Proof. intros Hm Hf held s st Ha. eapply goes_bind; [by eapply Hm|]. intros a st' [s' Hs']. by eapply Hf. Qed.
Lemma keeps_upd i g : (∀ s, sess_ok s → sess_ok (g s)) → (∀ s, socks (g s) = socks s) → keeps i (@upd_sess L W i g).
Proof.
  intros Hok Hg held s st Ha. eapply goes_some, goes_upd; [exact Ha|eapply Hok, at_ok, Ha|by rewrite Hg].
Qed.
(** the value of a session is the one it has *)
Lemma keeps_sess {A} i (f : ftp_session → M SYS A) :
  (∀ held s st, at_ held i s st → goes (f s) st (λ _ st', ∃ s', at_ held i s' st')) → keeps i (sess i ≫= f).
Proof. intros Hf held s st Ha. eapply goes_sess; [exact Ha|by apply Hf]. Qed.
Lemma keeps_if {A} i (b : bool) (m n : M SYS A) : keeps i m → keeps i n → keeps i (if b then m else n).
Proof. by destruct b. Qed.

(** closing a socket of the session and forgetting it *)
Lemma goes_forget k g held i s st :
  at_ held i s st → sess_ok (g s) → socks s ≡ₚ k :: socks (g s) →
  goes (net_do (lwip_close k);; upd_sess i g) st (λ _ st', at_ held i (g s) st').
Proof.
  intros Ha Hok Hp. assert ((net_do (lwip_close k);; upd_sess i g) st = (upd_sess i g;; net_do (lwip_close k)) st) as E by reflexivity.
  unfold goes. rewrite E. eapply goes_bind; [eapply (goes_upd g held (k :: held)); [exact Ha|done|]|].
  - rewrite Hp. symmetry. apply Permutation_middle.
  - intros ? st' Ha'. by apply goes_close.
Qed.

Lemma socks_no_listen s : socks (set_listen (-1) s) = filter (λ k, 0 ≤ k) [ctrl s].
Proof. unfold socks. cbn. by repeat destruct (decide _). Qed.
Lemma socks_listen s : 0 ≤ data_listen s → socks s ≡ₚ data_listen s :: socks (set_listen (-1) s).
Proof.
  intros Hl. rewrite socks_no_listen. unfold socks. cbn. rewrite (decide_True (P := 0 ≤ data_listen s)) by done.
  destruct (decide _); [apply perm_swap|done].
Qed.
Lemma no_listen_ok s : sess_ok s → sess_ok (set_listen (-1) s).
Proof. intros [H1' H2' H3']. by constructor. Qed.

Lemma close_listen_goes held i s st : at_ held i s st → goes (close_listen i) st (λ _ st', ∃ s', at_ held i s' st' ∧ data_listen s' < 0).
Proof.
  intros Ha. unfold close_listen. eapply goes_sess; [exact Ha|]. destruct (0 <=? data_listen s) eqn:E.
  - eapply goes_weaken; [eapply goes_forget; [exact Ha|by eapply no_listen_ok, at_ok|apply socks_listen; lia]|]. intros ? st' Ha'. by exists (set_listen (-1) s).
  - apply goes_ret. exists s. split; [done|lia].
Qed.

Lemma not_port_ok s : sess_ok s → sess_ok (set_is_port false s).
Proof. intros [H1' H2' H3']. by constructor. Qed.
Lemma keeps_not_port i : keeps i (@upd_sess L W i (set_is_port false)).
Proof. apply keeps_upd; [apply not_port_ok|done]. Qed.

Lemma keeps_close_listen i : keeps i (close_listen i : M SYS unit).
Proof. intros held s st Ha. eapply goes_weaken; [by eapply close_listen_goes|]. intros ? st' (s' & H1' & _). by exists s'. Qed.
Lemma keeps_drop i : keeps i (drop_data_listen i : M SYS unit).
Proof. unfold drop_data_listen. apply keeps_bind; [apply keeps_close_listen|intros; apply keeps_not_port]. Qed.

Lemma keeps_set_port i a msg k : keeps i (close_listen i;; upd_sess i (set_port_addr a);; say k msg : M SYS unit).
Proof.
  intros held s st Ha. eapply goes_bind; [by eapply close_listen_goes|]. intros ? st1 (s1 & Ha1 & Hl).
  eapply goes_bind; [eapply goes_upd; [exact Ha1| |by unfold socks; cbn]|].
  - destruct (at_ok _ _ _ _ Ha1) as [H1' H2' H3']. by constructor.
  - intros ? st2 Ha2. eapply keeps_quiet; [apply quiet_say|exact Ha2].
Qed.

Lemma keeps_port i arg : keeps i (cmd_port i arg : M SYS unit).
Proof.
  unfold cmd_port. apply keeps_sess. intros held s st Ha. revert Ha.
  assert (∀ m : M SYS unit, keeps i m → at_ held i s st → goes m st (λ _ st', ∃ s', at_ held i s' st')) as Hk by (intros m Hm; apply Hm).
  destruct (port_numbers 6 arg) as [[|a [|b [|c [|d [|p1 [|p2 [|]]]]]]]|]; apply Hk; try (apply keeps_quiet, quiet_say). apply keeps_set_port.
Qed.
Lemma keeps_eprt i arg : keeps i (cmd_eprt i arg : M SYS unit).
Proof.
  unfold cmd_eprt. apply keeps_sess. intros held s st Ha. destruct (eprt_fields arg) as [[ipstr port]|]; [|eapply keeps_quiet; [apply quiet_say|exact Ha]].
  destruct (ip4addr_aton ipstr) as [ip|]; [eapply keeps_set_port; exact Ha|eapply keeps_quiet; [apply quiet_say|exact Ha]].
Qed.

Ltac quietly := apply keeps_quiet;
  first [apply quiet_say | apply quiet_send | apply quiet_sendf | apply quiet_sync | apply quiet_fs | apply quiet_gets | apply quiet_ret
        | apply quiet_send_all | apply quiet_entries | apply quiet_retr | apply quiet_stor
        | apply quiet_net; intros; first [apply select_law | apply send_law | apply recv_law | cbn; apply timeout_law]
        | apply quiet_upd; intros ?; by split_and!].
(** the simple commands: one quiet step after the other *)
Ltac keeping := repeat first
  [ progress quietly | apply keeps_close_listen | apply keeps_drop | apply keeps_not_port | apply keeps_bind; [|intros]
  | match goal with |- keeps _ (if ?b then _ else _) => destruct b | |- keeps _ (match ?x with _ => _ end) => destruct x end ].

Lemma goes_eq {A} (m : M SYS A) (m' : M SYS A) st st' (Q : A → SYS → Prop) : m st = m' st' → goes m' st' Q → goes m st Q.
Proof. intros E. unfold goes. by rewrite E. Qed.

(** the first half of [data_listen_open]: the old socket is gone, a new one is there *)
Lemma new_listen_goes held i s st :
  at_ held i s st →
  goes ((if 0 <=? data_listen s then net_do (lwip_close (data_listen s)) else mret tt);; upd_sess i (set_is_port false);;
        k ← net lwip_socket; upd_sess i (set_listen k);; mret k) st
    (λ k st', ∃ s', at_ held i s' st' ∧ data_listen s' = k).
Proof.
  intros Ha.
  assert (∀ st s, at_ held i s st → data_listen s < 0 →
    goes (upd_sess i (set_is_port false);; k ← net lwip_socket; upd_sess i (set_listen k);; mret k) st (λ k st', ∃ s', at_ held i s' st' ∧ data_listen s' = k)) as Hnew.
  { clear s st Ha. intros st s Ha Hl. eapply goes_bind; [eapply goes_upd; [exact Ha|eapply not_port_ok, at_ok, Ha|done]|]. intros ? st1 Ha1.
    eapply goes_bind; [eapply goes_new; [apply socket_law|exact Ha1]|]. intros k st2 Ha2. cbn beta in Ha2.
    eapply goes_bind; [eapply (goes_upd _ _ held); [exact Ha2| |]|intros ? st3 Ha3; apply goes_ret; by exists (set_listen k (set_is_port false s))].
    - destruct (at_ok _ _ _ _ Ha2) as [H1' H2' H3']. by constructor.
    - unfold socks. cbn. rewrite (decide_False (P := 0 ≤ data_listen s)) by lia.
      destruct (0 <=? k) eqn:Ek.
      + rewrite (decide_True (P := 0 ≤ k)) by lia. by destruct (decide _).
      + rewrite (decide_False (P := 0 ≤ k)) by lia. by destruct (decide _). }
  destruct (0 <=? data_listen s) eqn:E; [|apply (Hnew st s Ha); lia].
  set (again := (upd_sess i (set_is_port false);; k ← net lwip_socket; upd_sess i (set_listen k);; mret k) : M SYS Z) in *.
  assert ((net_do (lwip_close (data_listen s));; again) st = ((net_do (lwip_close (data_listen s));; upd_sess i (set_listen (-1)));; again) st) as E2.
  { unfold again, mbind, M_bind, upd_sess, modify, net_do, net. cbn. destruct (lwip_socket _) as [k w]. cbn. do 2 f_equal.
    apply list_eq. intros j. destruct (decide (i = j)) as [<-|Hne]; [|by rewrite !list_lookup_alter_ne].
    rewrite !list_lookup_alter_eq. by destruct (sessions st !! i). }
  eapply goes_eq; [exact E2|]. eapply goes_bind; [eapply goes_forget; [exact Ha|by eapply no_listen_ok, at_ok|apply socks_listen; lia]|].
  intros ? st1 Ha1. by apply (Hnew st1 (set_listen (-1) s)).
Qed.

Lemma keeps_listen_open i : keeps i (data_listen_open i : M SYS _).
Proof.
  unfold data_listen_open. apply keeps_sess. intros held s st Ha.
  destruct (new_listen_goes held i s st Ha) as (k & st1 & E1 & s1 & Ha1 & Hk).
  assert (∀ B (f : Z → M SYS B), ((if 0 <=? data_listen s then net_do (lwip_close (data_listen s)) else mret tt);; upd_sess i (set_is_port false);;
        k ← net lwip_socket; upd_sess i (set_listen k);; f k) st = f k st1) as Ef.
  { intros B f. revert E1. unfold mbind, M_bind, upd_sess, modify, net_do, net. destruct (0 <=? data_listen s); cbn;
      (destruct (lwip_socket _) as [k' w]; cbn; by intros [= -> ->]). }
  eapply goes_eq; [apply Ef|]. clear E1 Ef. destruct (k <? 0) eqn:Ek; [apply goes_ret; by exists s1|].
  eapply goes_bind; [eapply goes_quiet; [apply quiet_net, bind_law|exact Ha1]|]. intros b st2 (s2 & Ha2 & S2).
  eapply goes_bind; [eapply (goes_quiet (if b then _ else _)); [destruct b; [apply quiet_net, listen_law|apply quiet_ret]|exact Ha2]|].
  intros l st3 (s3 & Ha3 & S3). assert (data_listen s3 = k) as Hk3.
  { destruct S2 as (_ & E2 & _), S3 as (_ & E3 & _). congruence. }
  destruct l.
  - eapply goes_bind; [eapply goes_quiet; [apply quiet_net, getsockname_law|exact Ha3]|]. intros port st4 (s4 & Ha4 & _).
    apply goes_ret. by exists s4.
  - eapply goes_eq; [symmetry; apply bind_assoc|]. eapply goes_bind; [eapply (goes_forget k (set_listen (-1))); [exact Ha3|by eapply no_listen_ok, at_ok|]|].
    + rewrite <- Hk3. apply socks_listen. lia.
    + intros ? st4 Ha4. apply goes_ret. by exists (set_listen (-1) s3).
Qed.

Lemma keeps_pasv i : keeps i (cmd_pasv i : M SYS unit).
Proof.
  unfold cmd_pasv. apply keeps_bind; [apply keeps_listen_open|]. intros r. apply keeps_sess. intros held s st Ha.
  destruct (negb _); [eapply keeps_quiet; [apply quiet_say|exact Ha]|]. eapply (keeps_bind i); [|intros|exact Ha]; quietly.
Qed.
Lemma keeps_epsv i : keeps i (cmd_epsv i : M SYS unit).
Proof.
  unfold cmd_epsv. apply keeps_bind; [apply keeps_listen_open|]. intros r. apply keeps_sess. intros held s st Ha.
  destruct (negb _); (eapply keeps_quiet; [|exact Ha]); [apply quiet_say|apply quiet_sendf].
Qed.

(** the data connection is held until it is closed *)
Lemma open_data_goes held i s st :
  at_ held i s st → goes (open_data i) st (λ d st', ∃ s', at_ (if 0 <=? d then d :: held else held) i s' st').
Proof.
  intros Ha. unfold open_data. eapply goes_sess; [exact Ha|]. destruct (data_is_port s) eqn:Ep.
  - eapply goes_bind; [eapply goes_upd; [exact Ha|eapply not_port_ok, at_ok, Ha|done]|]. intros ? st1 Ha1.
    eapply goes_bind; [eapply goes_new; [apply socket_law|exact Ha1]|]. intros d st2 Ha2. cbn beta in Ha2.
    destruct (d <? 0) eqn:Ed; [apply goes_ret; eexists; replace (0 <=? d) with false in Ha2 by lia; exact Ha2|].
    replace (0 <=? d) with true in Ha2 by lia.
    eapply goes_bind; [eapply goes_quiet; [apply quiet_net, connect_law|exact Ha2]|]. intros ok st3 (s3 & Ha3 & _). destruct ok.
    + eapply goes_bind; [eapply goes_quiet; [apply quiet_net; intros; apply timeout_law|exact Ha3]|]. intros ? st4 (s4 & Ha4 & _).
      apply goes_ret. exists s4. by replace (0 <=? d) with true by lia.
    + eapply goes_bind; [eapply goes_close, Ha3|]. intros ? st4 Ha4. apply goes_ret. by exists s3.
  - destruct (data_listen s <? 0) eqn:El; [apply goes_ret; by exists s|].
    eapply goes_bind; [eapply goes_quiet; [apply quiet_net; intros; apply select_law|exact Ha]|]. intros ready st1 (s1 & Ha1 & _ & E1 & _).
    assert (∀ held st2, at_ held i s1 st2 → goes (net_do (lwip_close (data_listen s));; upd_sess i (set_listen (-1))) st2 (λ _ st', at_ held i (set_listen (-1) s1) st')) as Hforget.
    { intros held' st2 Ha2. eapply goes_forget; [exact Ha2|eapply no_listen_ok, at_ok, Ha2|]. rewrite <- E1. apply socks_listen. lia. }
    case_bool_decide.
    + eapply goes_bind; [eapply goes_new; [apply accept_law|exact Ha1]|]. intros d st2 Ha2. cbn beta in Ha2.
      eapply goes_eq; [symmetry; apply bind_assoc|]. eapply goes_bind; [eapply Hforget, Ha2|]. intros ? st3 Ha3.
      eapply goes_bind; [eapply (goes_quiet (if 0 <=? d then _ else _)); [|exact Ha3]|].
      * destruct (0 <=? d); [apply quiet_net; intros; apply timeout_law|apply quiet_ret].
      * intros ? st4 (s4 & Ha4 & _). apply goes_ret. by exists s4.
    + eapply goes_eq; [symmetry; apply bind_assoc|]. eapply goes_bind; [eapply Hforget, Ha1|]. intros ? st3 Ha3. apply goes_ret. by exists (set_listen (-1) s1).
Qed.

Lemma keeps_any {A} i (f : ftp_session → M SYS A) : (∀ s, keeps i (f s)) → keeps i (sess i ≫= f).
Proof. intros Hf. apply keeps_sess. intros held s st Ha. eapply Hf, Ha. Qed.

(** a data connection is used, then closed *)
Definition spends {A} (i : nat) (d : Z) (m : M SYS A) : Prop :=
  ∀ held s st, at_ (d :: held) i s st → goes m st (λ _ st', ∃ s', at_ held i s' st').

Lemma spends_bind {A B} i d (m : M SYS A) (f : A → M SYS B) : keeps i m → (∀ a, spends i d (f a)) → spends i d (m ≫= f).
Proof. intros Hm Hf held s st Ha. eapply goes_bind; [eapply Hm, Ha|]. intros a st' [s' Hs']. eapply Hf, Hs'. Qed.
Lemma spends_close {A} i d (m : M SYS A) : keeps i m → spends i d (net_do (lwip_close d);; m).
Proof. intros Hm held s st Ha. eapply goes_bind; [eapply goes_close, Ha|]. intros ? st' Hs'. eapply Hm, Hs'. Qed.

Lemma keeps_data i (fail : M SYS unit) (work : Z → M SYS unit) :
  keeps i fail → (∀ d, spends i d (work d)) → keeps i (d ← open_data i; if d <? 0 then fail else work d).
Proof.
  intros Hfail Hwork held s st Ha. eapply goes_bind; [eapply open_data_goes, Ha|]. intros d st1 (s1 & Ha1).
  destruct (d <? 0) eqn:Ed; [replace (0 <=? d) with false in Ha1 by lia; eapply Hfail, Ha1|]. replace (0 <=? d) with true in Ha1 by lia.
  eapply Hwork, Ha1.
Qed.

Ltac spending := repeat first [apply spends_close; keeping | apply spends_bind; [keeping|intros]].

Lemma keeps_list i path long : keeps i (cmd_list beyond i path long : M SYS unit).
Proof.
  unfold cmd_list. apply keeps_any. intros s. apply keeps_bind; [quietly|]. intros [st|]; [|keeping].
  apply keeps_data; [keeping|]. intros d. destruct (info_reg st); spending.
Qed.

Lemma keeps_retr i path : keeps i (cmd_retr fuel i path : M SYS unit).
Proof.
  unfold cmd_retr. apply keeps_any. intros s. destruct (negb _); [keeping|]. apply keeps_bind; [quietly|]. intros opened.
  destruct (negb _); [keeping|]. apply keeps_bind; [quietly|]. intros _. apply keeps_data; [keeping|]. intros d. spending.
Qed.

Lemma keeps_stor i path appe : keeps i (cmd_stor fuel i path appe : M SYS unit).
Proof.
  unfold cmd_stor. apply keeps_any. intros s. destruct (_ || _); [keeping|]. apply keeps_bind; [quietly|]. intros opened.
  destruct (negb _); [keeping|]. apply keeps_bind; [quietly|]. intros _. apply keeps_data; [keeping|]. intros d. spending.
Qed.

Lemma cwd_ok d arg s : sess_ok s → sess_ok (set_cwd (norm_path CWD_SIZE d arg) s).
Proof.
  intros [H1' H2' H3']. constructor; try done. cbn. destruct (norm_path_canonical CWD_SIZE d arg) as [Hc Hl]; [done|]. by split.
Qed.
Lemma keeps_cwd i arg : keeps i (cmd_cwd i arg : M SYS unit).
Proof. unfold cmd_cwd. apply keeps_any. intros s. apply keeps_bind; [|intros; quietly]. apply keeps_upd; [intros; by apply cwd_ok|done]. Qed.

Lemma rename_ok f b s : sess_ok s → zlen f < 128 → sess_ok (set_rename f b s).
Proof. intros [H1' H2' H3'] Hf. by constructor. Qed.
Lemma keeps_rnfr i arg : keeps i (cmd_rnfr i arg : M SYS unit).
Proof.
  unfold cmd_rnfr. apply keeps_any. intros s. apply keeps_bind; [keeping|]. intros [st|]; [|quietly]. apply keeps_bind; [|intros; quietly].
  apply keeps_upd; [|done]. intros s' Hs'. apply rename_ok; [done|]. unfold zlen. rewrite length_take. lia.
Qed.
Lemma keeps_admin i g : keeps i (admin_only i g : M SYS Z).
Proof. unfold admin_only. apply keeps_any. intros s. keeping. Qed.
Lemma keeps_rnto i arg : keeps i (cmd_rnto i arg : M SYS unit).
Proof.
  unfold cmd_rnto. apply keeps_sess. intros held s st Ha.
  eapply goes_bind; [eapply (goes_quiet (if rename_pending s then _ else _)); [|exact Ha]|].
  - destruct (rename_pending s); [|apply quiet_ret]. unfold admin_only, sess. apply quiet_bind; [apply quiet_gets|]. intros s'.
    destruct (_ && _); [apply quiet_fs|apply quiet_ret].
  - intros rc st1 (s1 & Ha1 & _ & _ & _ & _ & Er). eapply goes_bind; [eapply (goes_upd _ held held); [exact Ha1| |done]|].
    + apply rename_ok; [by eapply at_ok|]. rewrite <- Er. by eapply so_rename, at_ok.
    + intros ? st2 Ha2. eapply keeps_quiet; [apply quiet_say|exact Ha2].
Qed.

Lemma socks_ctrl s : 0 ≤ ctrl s → socks s ≡ₚ ctrl s :: socks (set_ctrl (-1) s).
Proof.
  intros Hl. unfold socks. cbn. rewrite (decide_True (P := 0 ≤ ctrl s)) by done. by destruct (decide _).
Qed.

Lemma quit_goes held i s st : at_ held i s st → 0 ≤ ctrl s → goes (cmd_quit i) st (λ _ st', ∃ s', at_ held i s' st').
Proof.
  intros Ha Hc. unfold cmd_quit. eapply goes_sess; [exact Ha|]. eapply goes_bind; [eapply goes_quiet; [apply quiet_say|exact Ha]|].
  intros ? st1 (s1 & Ha1 & E1 & _). eapply goes_some, goes_forget; [exact Ha1| |].
  - destruct (at_ok _ _ _ _ Ha1) as [H1' H2' H3']. by constructor.
  - rewrite <- E1. apply socks_ctrl. lia.
Qed.

Lemma keeps_remove i arg good bad : keeps i (cmd_remove i arg good bad : M SYS unit).
Proof. unfold cmd_remove. apply keeps_any. intros s. apply keeps_bind; [apply keeps_admin|]. intros rc. destruct (rc =? 0); quietly. Qed.
Lemma keeps_mkd i arg : keeps i (cmd_mkd i arg : M SYS unit).
Proof. unfold cmd_mkd. apply keeps_any. intros s. apply keeps_bind; [apply keeps_admin|]. intros rc. destruct (rc =? 0); quietly. Qed.
Lemma keeps_size i arg : keeps i (cmd_size i arg : M SYS unit).
Proof. unfold cmd_size. apply keeps_any. intros s. keeping. Qed.
Lemma keeps_rest i arg : keeps i (cmd_rest i arg : M SYS unit).
Proof. unfold cmd_rest. apply keeps_any. intros s. keeping. Qed.
Lemma keeps_login i arg : keeps i (cmd_user i arg : M SYS unit) ∧ keeps i (cmd_pass i arg : M SYS unit).
Proof. split; [unfold cmd_user|unfold cmd_pass]; apply keeps_any; intros s; keeping. Qed.

Lemma command_goes held i s line st :
  at_ held i s st → 0 ≤ ctrl s → goes (handle_command beyond fuel i line) st (λ _ st', ∃ s', at_ held i s' st').
Proof.
  intros Ha Hc. unfold handle_command. destruct (split_command (cstr line)) as [cmd arg].
  eapply goes_bind; [eapply goes_quiet; [apply quiet_gets|exact Ha]|]. intros t st1 (s1 & Ha1 & E1 & _).
  eapply goes_bind; [eapply goes_quiet; [apply (quiet_upd i (set_activity (u32 t))); intros ?; by split_and!|exact Ha1]|].
  intros ? st2 (s2 & Ha2 & E2 & _). eapply goes_sess; [exact Ha2|].
  assert (∀ m : M SYS unit, keeps i m → goes m st2 (λ _ st', ∃ s', at_ held i s' st')) as Hk by (intros m Hm; eapply Hm, Ha2).
  destruct (keeps_login i arg) as [Hu Hp].
  repeat first
    [ match goal with |- goes (if _ then cmd_quit _ else _) _ _ => destruct (bool_decide _); [eapply quit_goes; [exact Ha2|lia]|] end
    | match goal with |- goes (if ?b then _ else _) _ _ => destruct b; [apply Hk|] end ];
  first [ done | apply keeps_cwd | apply keeps_pasv | apply keeps_epsv | apply keeps_port | apply keeps_eprt
        | apply keeps_bind; [quietly|intros; first [apply keeps_list | apply keeps_retr | quietly]] | apply keeps_stor
        | apply keeps_remove | apply keeps_mkd | apply keeps_size | apply keeps_rest | apply keeps_rnfr | apply keeps_rnto
        | quietly | apply Hk; quietly ].
Qed.

(** *** The loop *)

(** the sockets of a session that ends *)
Lemma close_session_goes held i s st : at_ held i s st → goes (close_session i) st (λ _ st', ftp_inv held st').
Proof.
  intros Ha. unfold close_session. eapply goes_sess; [exact Ha|].
  set (close (k : Z) := (if 0 <=? k then net_do (lwip_close k) else mret tt) : M SYS unit).
  change (goes (close (ctrl s);; close (data_listen s);; upd_sess i (λ _, sess_free)) st (λ _ st', ftp_inv held st')).
  assert (∀ k k' st, (close k;; close k';; upd_sess i (λ _, sess_free)) st = (upd_sess i (λ _, sess_free);; close k;; close k') st) as Hswap.
  { intros k k' st'. unfold close. by destruct (0 <=? k), (0 <=? k'). }
  eapply goes_eq; [apply Hswap|]. eapply goes_bind; [eapply (goes_upd _ held (socks s ++ held)); [exact Ha|apply free_ok|done]|].
  intros ? st1 Ha1. cbn beta in Ha1.
  assert (∀ k held s st, at_ ((if 0 <=? k then [k] else []) ++ held) i s st → goes (close k) st (λ _ st', at_ held i s st')) as Hclose.
  { intros k h' s' st' Ha'. unfold close. destruct (0 <=? k); [by apply goes_close|by apply goes_ret]. }
  eapply goes_bind; [eapply (Hclose _ ((if 0 <=? data_listen s then [data_listen s] else []) ++ held))|].
  - destruct Ha1 as [Hi Hs]. split; [|exact Hs]. eapply inv_perm; [|exact Hi]. unfold socks. cbn.
    destruct (decide (0 ≤ ctrl s)), (decide (0 ≤ data_listen s)), (0 <=? ctrl s) eqn:?, (0 <=? data_listen s) eqn:?; try lia; done.
  - intros ? st2 Ha2. eapply goes_weaken; [eapply Hclose, Ha2|]. by intros ? st3 [? _].
Qed.

(** the server's socket stays held; a new client may push a lost one there *)
Definition running (serv : Z) (st : SYS) : Prop := ∃ held, serv ∈ held ∧ ftp_inv held st.
Definition runs_on (serv : Z) {A} (m : M SYS A) : Prop := ∀ st, running serv st → goes m st (λ _ st', running serv st').

Lemma run_quiet serv {A} (m : M SYS A) : quiet m → runs_on serv m.
Proof. intros Hm st (held & Hin & Hi). eapply goes_weaken; [eapply inv_quiet; [exact Hm|exact Hi]|]. intros ? st' Hi'. by exists held. Qed.
Lemma run_bind serv {A B} (m : M SYS A) (f : A → M SYS B) : runs_on serv m → (∀ a, runs_on serv (f a)) → runs_on serv (m ≫= f).
Proof. intros Hm Hf st Hs. eapply goes_bind; [by apply Hm|]. intros a st' Hs'. by apply Hf. Qed.

Lemma client_at held i st : ftp_inv held st → (i < FTP_MAX_CLIENTS)%nat → ∃ s, at_ held i s st.
Proof. intros Hi Hlt. destruct (lookup_lt_is_Some_2 (sessions st) i) as [s Hs]; [by rewrite (fi_len _ _ Hi)|]. by exists s. Qed.

Lemma run_serve serv ready i : (i < FTP_MAX_CLIENTS)%nat → runs_on serv (serve_client beyond fuel ready i : M SYS unit).
Proof.
  intros Hlt st (held & Hin & Hi). destruct (client_at held i st Hi Hlt) as [s Ha]. unfold serve_client.
  assert (∀ Q : SYS → Prop, (∀ st', ftp_inv held st' → Q st') → ∀ m : M SYS unit, goes m st (λ _ st', ftp_inv held st') → goes m st (λ _ st', Q st')) as Hw.
  { intros Q HQ m Hm. eapply goes_weaken; [exact Hm|]. intros ? st' ?. by apply HQ. }
  apply (Hw (running serv)); [intros st' ?; by exists held|]. eapply goes_sess; [exact Ha|].
  destruct ((0 <=? ctrl s) && _) eqn:E; [|by apply goes_ret]. apply andb_true_iff in E as [E _].
  eapply goes_bind; [eapply goes_quiet; [apply quiet_recv_line|exact Ha]|]. intros r st1 (s1 & Ha1 & E1 & _).
  destruct (0 <? r.1).
  - eapply goes_weaken; [eapply command_goes; [exact Ha1|lia]|]. by intros ? st2 (s2 & ? & _).
  - destruct (r.1 =? 0); [by eapply close_session_goes|]. apply goes_ret. apply Ha1.
Qed.

Lemma run_idle serv now i : (i < FTP_MAX_CLIENTS)%nat → runs_on serv (idle_check now i : M SYS unit).
Proof.
  intros Hlt st (held & Hin & Hi). destruct (client_at held i st Hi Hlt) as [s Ha]. unfold idle_check. eapply goes_sess; [exact Ha|].
  destruct (_ && _); [|apply goes_ret; by exists held]. eapply goes_weaken; [eapply close_session_goes, Ha|]. intros ? st' ?. by exists held.
Qed.

Lemma run_each serv f ks : Forall (λ i, runs_on serv (f i : M SYS unit)) ks → runs_on serv (each f ks).
Proof. induction 1 as [|i ks Hi _ IH]; cbn [each]; [apply run_quiet, quiet_ret|by apply run_bind]. Qed.

Lemma client_ok t c : sess_ok (set_cwd (js "/") (set_activity t (set_listen (-1) (set_ctrl c sess_zero)))).
Proof. destruct free_ok as [H1' H2' H3']. by constructor. Qed.

Lemma client_socks t c : 0 ≤ c → socks (set_cwd (js "/") (set_activity t (set_listen (-1) (set_ctrl c sess_zero)))) = [c].
Proof. intros Hc. unfold socks. cbn. by rewrite (decide_True (P := 0 ≤ c)). Qed.

Lemma run_accept serv : runs_on serv (accept_client serv : M SYS unit).
Proof.
  intros st (held & Hin & Hi). destruct (client_at held 0 st Hi) as [s0 Ha0]; [unfold FTP_MAX_CLIENTS; lia|]. unfold accept_client.
  eapply goes_bind; [eapply goes_new; [apply accept_law|exact Ha0]|]. intros c st1 Ha1. cbn beta in Ha1.
  destruct (c <? 0) eqn:Ec; [apply goes_ret; exists held; split; [done|]; replace (0 <=? c) with false in Ha1 by lia; apply Ha1|].
  replace (0 <=? c) with true in Ha1 by lia.
  eapply (goes_bind _ _ _ (λ ss st2, ss = sessions st1 ∧ st2 = st1)); [by exists (sessions st1), st1|]. intros ss st2 [-> ->].
  destruct (free_session (sessions st1)) as [i|] eqn:Ef.
  - unfold free_session in Ef. destruct (list_find _ _) as [[j s]|] eqn:El; [|done]. injection Ef as ->.
    apply list_find_Some in El as (Hs & Hc & _). assert (at_ (c :: held) i s st1) as Ha2 by (split; [apply Ha1|done]).
    eapply goes_bind; [eapply goes_quiet; [apply quiet_gets|exact Ha2]|]. intros t st3 (s3 & Ha3 & S3).
    eapply goes_bind; [eapply (goes_upd _ _ (socks s3 ++ held)); [exact Ha3|apply client_ok|]|].
    + rewrite client_socks by lia. apply (Permutation_middle (socks s3) held c).
    + intros ? st4 Ha4. eapply (goes_weaken _ _ (λ _ st', ∃ s', at_ (socks s3 ++ held) i s' st')); [eapply (keeps_bind i); [quietly|intros; quietly|exact Ha4]|].
      intros ? st5 (s5 & Hi5 & _). exists (socks s3 ++ held). split; [apply elem_of_app; by right|done].
  - eapply (goes_weaken _ _ (λ _ st', ∃ s', at_ held 0 s' st')).
    + eapply (spends_bind 0); [quietly| |exact Ha1]. intros _ h s st' Ha'. eapply goes_some, goes_close, Ha'.
    + intros ? st3 (s3 & Hi3 & _). by exists held.
Qed.

Lemma run_turn serv : runs_on serv (ftp_turn beyond fuel serv : M SYS unit).
Proof.
  assert (∀ f, (∀ i, (i < FTP_MAX_CLIENTS)%nat → runs_on serv (f i : M SYS unit)) → runs_on serv (each f all_clients)) as Heach.
  { intros f Hf. apply run_each. unfold all_clients, FTP_MAX_CLIENTS in *. repeat constructor; apply Hf; lia. }
  unfold ftp_turn. apply run_bind; [apply run_quiet, quiet_gets|]. intros ss.
  apply run_bind; [apply run_quiet, quiet_net; intros; apply select_law|]. intros ready. apply run_bind.
  - destruct (bool_decide (ready = [])); [apply run_quiet, quiet_ret|]. apply run_bind; [destruct (bool_decide _); [apply run_accept|apply run_quiet, quiet_ret]|].
    intros _. apply Heach. intros i. apply run_serve.
  - intros _. apply run_bind; [apply run_quiet, quiet_gets|]. intros t. apply Heach. intros i. apply run_idle.
Qed.

Lemma run_turns serv n : runs_on serv (ftp_turns beyond fuel n serv : M SYS unit).
Proof. induction n as [|n IH]; cbn [ftp_turns]; [apply run_quiet, quiet_ret|]. apply run_bind; [apply run_turn|done]. Qed.

(** a task that could not get its socket ends with nothing *)
Lemma start_goes st : open_socks (fnet st) = ∅ → goes ftp_start st (λ serv st', ∃ held, (0 ≤ serv → serv ∈ held) ∧ ftp_inv held st').
Proof.
  intros Ho. unfold ftp_start. set (st0 := mk_fsys (replicate FTP_MAX_CLIENTS sess_free) (fhist st) (fnet st)).
  eapply (goes_bind _ _ _ (λ _ st1, st1 = st0)); [by exists tt, st0|]. intros ? st1 ->.
  assert (at_ [] 0 sess_free st0) as Ha0.
  { split; [|done]. constructor; [done| |by vm_compute; constructor|exact Ho]. apply Forall_replicate, free_ok. }
  eapply goes_bind; [eapply goes_new; [apply socket_law|exact Ha0]|]. intros serv st2 Ha2. cbn beta in Ha2.
  destruct (serv <? 0) eqn:Es; [apply goes_ret; eexists; split; [lia|apply Ha2]|]. replace (0 <=? serv) with true in Ha2 by lia.
  eapply goes_bind; [eapply goes_quiet; [apply quiet_net, bind_law|exact Ha2]|]. intros b st3 (s3 & Ha3 & _).
  eapply goes_bind; [eapply (goes_quiet (if b then _ else _)); [destruct b; [apply quiet_net, listen_law|apply quiet_ret]|exact Ha3]|].
  intros l st4 (s4 & [Hi4 _] & _). apply goes_ret. exists [serv]. split; [|done]. destruct l; [by left|lia].
Qed.
End Safety.

(** ** Files *)

(** bytes written at a position, with zeros up to it *)
Definition overwrite (pos : nat) (bs c : list Z) : list Z :=
  take pos (c ++ replicate (pos - length c) 0) ++ bs ++ drop (pos + length bs) c.

(** a mounted file system with room left: [f_tree] are the files, [f_cur] path,
    contents and position behind the handle of the task *)
Class FtpLfsLaws (L : Type) `{Lfs L} `{FtpLfs L} : Type := {
  f_tree : L → gmap (list Z) (list Z);
  f_cur : L → option (list Z * list Z * nat);
  fopen_law p fl l : f_cur l = None → let '(ok, l') := lfs_fopen p fl l in
    if ok : bool
    then let c := match fl with FTrunc => [] | _ => default [] (f_tree l !! p) end in
         f_cur l' = Some (p, c, 0%nat) ∧ (∀ q, q ≠ p → f_tree l' !! q = f_tree l !! q) ∧
         (fl = FRead → f_tree l' = f_tree l ∧ f_tree l !! p = Some c)
    else f_cur l' = None ∧ f_tree l' = f_tree l;
  fsize_law p c pos l : f_cur l = Some (p, c, pos) → lfs_fsize l = zlen c;
  fseek_law p c pos n wh l : f_cur l = Some (p, c, pos) → let '(r, l') := lfs_fseek n wh l in
    f_tree l' = f_tree l ∧
    f_cur l' = Some (p, c, if r <? 0 then pos else match wh with SeekSet => Z.to_nat n | SeekEnd => length c end) ∧
    (wh = SeekEnd → n = 0 → 0 ≤ r);
  fread_law p c pos n l : f_cur l = Some (p, c, pos) → 0 ≤ n → let '(r, bs, l') := lfs_fread n l in
    let got := take (Z.to_nat n) (drop pos c) in
    r = zlen got ∧ take (Z.to_nat r) bs = got ∧ f_tree l' = f_tree l ∧ f_cur l' = Some (p, c, (pos + length got)%nat);
  fwrite_law p c pos bs l : f_cur l = Some (p, c, pos) → let '(r, l') := lfs_fwrite bs l in
    r = zlen bs ∧ f_tree l' = f_tree l ∧ f_cur l' = Some (p, overwrite pos bs c, (pos + length bs)%nat);
  fclose_law p c pos l : f_cur l = Some (p, c, pos) → f_cur (lfs_fclose l) = None ∧ f_tree (lfs_fclose l) = <[p := c]> (f_tree l);
  fsync_law l : f_cur (lfs_file_sync HisFp l).2 = f_cur l;
}.

Section Files.
Context {L W : Type} `{FtpLfsLaws L} `{FtpNet W}.
Context (beyond : list Z) (fuel : nat).
Abbreviation SYS := (@ftp_sys L W).

Definition fsl (st : SYS) : L := his_fs (hist_core (fhist st)).
Definition admin (i : nat) (st : SYS) : bool := let s := default sess_free (sessions st !! i) in authed s && negb (anon s).

(** steps that leave the file system alone, and who is logged in *)
Definition apart (i : nat) (st st' : SYS) : Prop := fhist st' = fhist st ∧ admin i st' = admin i st.
Definition away {A} (i : nat) (m : M SYS A) : Prop := ∀ st, ∃ a st', m st = (Done a, st') ∧ apart i st st'.

Lemma away_ret {A} i (a : A) : away i (mret a).
Proof. intros st. by exists a, st. Qed.
Lemma away_bind {A B} i (m : M SYS A) (f : A → M SYS B) : away i m → (∀ a, away i (f a)) → away i (m ≫= f).
Proof.
  intros Hm Hf st. destruct (Hm st) as (a & s1 & E1 & A1 & A2). destruct (Hf a s1) as (b & s2 & E2 & B1 & B2).
  exists b, s2. rewrite (bind_done _ _ _ _ _ E1). split; [done|]. split; congruence.
Qed.
Lemma away_gets {A} i (f : SYS → A) : away i (gets f).
Proof. intros st. by exists (f st), st. Qed.
Lemma away_net {A} i (g : W → A * W) : away i (net g).
Proof. intros st. unfold net. destruct (g _) as [a w]. by eexists _, _. Qed.
Lemma away_upd i j g : (∀ s, authed (g s) = authed s ∧ anon (g s) = anon s) → away i (@upd_sess L W j g).
Proof.
  intros Hg st. eexists _, _. split; [reflexivity|]. split; [done|]. unfold admin. cbn. destruct (decide (i = j)) as [<-|Hne].
  - rewrite list_lookup_alter_eq. destruct (sessions st !! i) as [s|]; [|done]. cbn. by destruct (Hg s) as [-> ->].
  - by rewrite list_lookup_alter_ne.
Qed.

Ltac away := repeat first
  [ apply away_ret | apply away_gets | apply away_net | apply away_upd; intros ?; done | done | apply away_bind; [|intros]
  | match goal with |- away _ (if ?b then _ else _) => destruct b | |- away _ (match ?x with _ => _ end) => destruct x end ].

Lemma away_say i k msg : away i (say k msg : M SYS unit).
Proof. unfold say, ftp_send. away. Qed.
Lemma away_send i k msg : away i (ftp_send k msg : M SYS unit).
Proof. unfold ftp_send. away. Qed.
Lemma away_sendf i k msg : away i (ftp_sendf k msg : M SYS unit).
Proof. unfold ftp_sendf. away. Qed.
Lemma away_send_all i k bs : away i (send_all k bs : M SYS bool).
Proof.
  unfold send_all. generalize (S (length bs)). intros n. revert bs. induction n as [|n IH]; intros bs; cbn [send_all_loop]; [away|].
  destruct (bool_decide _); [away|]. apply away_bind; [away|]. intros r. destruct (_ <=? _); [away|apply IH].
Qed.
Lemma away_entries i data long es : away i (list_entries beyond data long es : M SYS unit).
Proof.
  induction es as [|e es IH]; cbn [list_entries]; [away|]. destruct (_ || _); [done|]. unfold ls_time_of, net_get.
  apply away_bind; [away|]. intros t. apply away_bind; [apply away_send_all|]. intros [|]; [done|away].
Qed.
Lemma away_close_listen i j : away i (close_listen j : M SYS unit).
Proof. unfold close_listen, sess, net_do. away. Qed.
Lemma away_drop i j : away i (drop_data_listen j : M SYS unit).
Proof. unfold drop_data_listen. apply away_bind; [apply away_close_listen|intros; away]. Qed.
Lemma away_open_data i j : away i (open_data j : M SYS Z).
Proof. unfold open_data, sess, net_do. away. Qed.
Lemma away_listen_open i j : away i (data_listen_open j : M SYS _).
Proof. unfold data_listen_open, sess, net_do. away. Qed.
Lemma away_pasv i j : away i (cmd_pasv j : M SYS unit) ∧ away i (cmd_epsv j : M SYS unit).
Proof.
  split; [unfold cmd_pasv|unfold cmd_epsv]; apply away_bind; [apply away_listen_open| |apply away_listen_open|]; intros r; unfold sess, net_get, passive_failed;
    (apply away_bind; [away|]); intros s; destruct (negb _); [apply away_say| |apply away_say|apply away_sendf]; (apply away_bind; [away|]); intros; apply away_sendf.
Qed.
Lemma away_port i j arg : away i (cmd_port j arg : M SYS unit) ∧ away i (cmd_eprt j arg : M SYS unit).
Proof.
  assert (∀ a k msg, away i (close_listen j;; upd_sess j (set_port_addr a);; say k msg : M SYS unit)) as Hset.
  { intros a k msg. apply away_bind; [apply away_close_listen|]. intros _. apply away_bind; [away|]. intros _. apply away_say. }
  split; [unfold cmd_port|unfold cmd_eprt]; apply away_bind; try apply away_gets; intros s.
  - destruct (port_numbers 6 arg) as [[|? [|? [|? [|? [|? [|? [|]]]]]]]|]; first [apply away_say|apply Hset].
  - destruct (eprt_fields arg) as [[ipstr port]|]; [|apply away_say]. destruct (ip4addr_aton ipstr); [apply Hset|apply away_say].
Qed.

(** *** Who may change files *)

(** nothing is open, the files are [t], and the user of session [i] may not change them *)
Definition guest (t : gmap (list Z) (list Z)) (i : nat) (st : SYS) : Prop :=
  f_tree (fsl st) = t ∧ f_cur (fsl st) = None ∧ admin i st = false.
(** a file is open for reading *)
Definition reading (t : gmap (list Z) (list Z)) (i : nat) (st : SYS) : Prop :=
  hist_ready (fhist st) = true ∧ f_tree (fsl st) = t ∧ (∃ p c pos, f_cur (fsl st) = Some (p, c, pos) ∧ t !! p = Some c) ∧ admin i st = false.

Definition total {A} (P : SYS → Prop) (m : M SYS A) (Q : SYS → Prop) : Prop := ∀ st, P st → goes m st (λ _ st', Q st').
Lemma total_bind {A B} P R Q (m : M SYS A) (f : A → M SYS B) : total P m R → (∀ a, total R (f a) Q) → total P (m ≫= f) Q.
Proof. intros Hm Hf st Hs. eapply goes_bind; [by apply Hm|]. intros a st' Hr. by apply Hf. Qed.
Lemma guest_away {A} t i (m : M SYS A) : away i m → total (guest t i) m (guest t i).
Proof. intros Hm st (H1' & H2' & H3'). destruct (Hm st) as (a & st' & E & E1 & E2). exists a, st'. split; [done|]. unfold guest, fsl in *. by rewrite E1, E2. Qed.
Lemma reading_away {A} t i (m : M SYS A) : away i m → total (reading t i) m (reading t i).
Proof. intros Hm st (H1' & H2' & H3' & H4'). destruct (Hm st) as (a & st' & E & E1 & E2). exists a, st'. split; [done|]. unfold reading, fsl in *. by rewrite E1, E2. Qed.

Lemma guest_sess {A} t i (f : ftp_session → M SYS A) :
  (∀ s, authed s && negb (anon s) = false → total (guest t i) (f s) (guest t i)) → total (guest t i) (sess i ≫= f) (guest t i).
Proof.
  intros Hf st Hs. eapply (goes_bind _ _ _ (λ s st', st' = st ∧ authed s && negb (anon s) = false)).
  - eexists _, _. split; [reflexivity|]. split; [done|apply Hs].
  - intros s st' [-> Hadm]. by apply Hf.
Qed.

(** a call of littlefs that reads directory entries only *)
Lemma guest_look {A} t i (d : A) (g : L → A) : total (guest t i) (fs d (λ l, (g l, l))) (guest t i).
Proof. intros st Hs. unfold goes, fs. destruct (hist_ready _); eexists _, _; (split; [reflexivity|exact Hs]). Qed.

Lemma retr_open_spec p pos l :
  f_cur l = None → let '(ok, l') := retr_open p pos l in
  f_tree l' = f_tree l ∧
  (if ok : bool then ∃ c, f_tree l !! p = Some c ∧ f_cur l' = Some (p, c, if 0 <? pos then Z.to_nat (soff pos) else 0%nat) else f_cur l' = None).
Proof.
  intros Hn. unfold retr_open. pose proof (fopen_law p FRead l Hn) as Ho. destruct (lfs_fopen p FRead l) as [[|] l1]; cbn [negb]; [|tauto].
  cbv zeta in Ho. destruct Ho as (Hc & _ & Ht). destruct (Ht eq_refl) as [Et Ep]. set (c := default [] _) in *.
  assert (f_cur (lfs_fclose l1) = None ∧ f_tree (lfs_fclose l1) = f_tree l) as [Hcl Htl].
  { destruct (fclose_law _ _ _ _ Hc) as [E1 E2]. split; [done|]. rewrite E2, Et. by apply insert_id. }
  destruct (_ <? 0); [done|]. destruct (0 <? pos); [|split; [done|by exists c]].
  pose proof (fseek_law _ _ _ (soff pos) SeekSet _ Hc) as Hs. destruct (lfs_fseek _ _ _) as [r l2]. destruct Hs as (Hs1 & Hs2 & _).
  destruct (r <? 0) eqn:Er.
  - destruct (fclose_law _ _ _ _ Hs2) as [E1 E2]. split; [|done]. rewrite E2, Hs1, Et. by apply insert_id.
  - split; [congruence|]. exists c. by split.
Qed.

Lemma reading_close t i : total (reading t i) (fs_do lfs_fclose) (guest t i).
Proof.
  intros st (Hr & Ht & (p & c & pos & Hc & Hp) & Ha). destruct (fclose_law _ _ _ _ Hc) as [E1 E2]. unfold goes, fs_do, fs. rewrite Hr.
  eexists _, _. split; [reflexivity|]. unfold guest, fsl in *. cbn. rewrite E1, E2, Ht. split_and!; [by apply insert_id|done|done].
Qed.

Lemma reading_loop t i n ascii d : total (reading t i) (retr_loop n ascii d) (reading t i).
Proof.
  induction n as [|n IH]; cbn [retr_loop]; [apply reading_away, away_ret|]. apply (total_bind _ (reading t i)).
  - intros st (Hr & Ht & (p & c & pos & Hc & Hp) & Ha). pose proof (fread_law p c pos (FTP_BUF_SIZE / 2) _ Hc ltac:(done)) as Hread.
    unfold goes, fs. unfold fsl in *. destruct (lfs_fread _ _) as [[r bs] l]. destruct Hread as (_ & _ & E1 & E2). rewrite Hr. eexists _, _. split; [reflexivity|].
    unfold reading, fsl; cbn. split_and!; [done|congruence| |done]. by eauto.
  - intros r. destruct (_ <=? _); [apply reading_away, away_ret|]. apply (total_bind _ (reading t i)); [apply reading_away, away_send_all|].
    intros [|]; [done|apply reading_away, away_ret].
Qed.

Lemma guest_retr t i path : total (guest t i) (cmd_retr fuel i path) (guest t i).
Proof.
  unfold cmd_retr. apply guest_sess. intros s _. destruct (negb _).
  { apply guest_away, away_bind; [apply away_say|intros; apply away_drop]. }
  intros st Hs.
  eapply (goes_bind _ _ _ (λ ok st', if ok : bool then reading t i st' else guest t i st')).
  - destruct Hs as (Ht & Hn & Ha). unfold goes, fs. destruct (hist_ready (fhist st)) eqn:Er; [|by exists false, st].
    pose proof (retr_open_spec (fs_path (cwd s) path) (rest s) _ Hn) as Ho. unfold fsl in *. destruct (retr_open _ _ _) as [ok l].
    eexists _, _. split; [reflexivity|]. destruct Ho as [E1 E2]. destruct ok.
    + destruct E2 as (c & Hp & Hc). unfold reading, fsl; cbn. split_and!; [done|congruence| |done]. eexists _, c, _. split; [done|congruence].
    + unfold guest, fsl; cbn. split_and!; [congruence|done|done].
  - intros [|] st1 Hs1; cbn [negb].
    + apply (total_bind (reading t i) (reading t i) (guest t i)); [apply reading_away, away_say| |exact Hs1]. intros _.
      apply (total_bind _ (reading t i)); [apply reading_away, away_open_data|]. intros d. destruct (d <? 0).
      * apply (total_bind _ (guest t i)); [apply reading_close|]. intros _. apply guest_away, away_bind; [apply away_say|intros; by apply away_upd].
      * apply (total_bind _ (reading t i)); [apply reading_loop|]. intros _. apply (total_bind _ (guest t i)); [apply reading_close|]. intros _.
        apply guest_away. apply away_bind; [apply away_net|]. intros _. apply away_bind; [by apply away_upd|]. intros _. apply away_say.
    + apply (guest_away t i _); [|exact Hs1]. apply away_bind; [apply away_say|]. intros _. apply away_bind; [by apply away_upd|]. intros _. apply away_drop.
Qed.

Lemma guest_bind {A B} t i (m : M SYS A) (f : A → M SYS B) : total (guest t i) m (guest t i) → (∀ a, total (guest t i) (f a) (guest t i)) → total (guest t i) (m ≫= f) (guest t i).
Proof. apply total_bind. Qed.

Lemma guest_list t i path long : total (guest t i) (cmd_list beyond i path long) (guest t i).
Proof.
  unfold cmd_list. apply guest_sess. intros s _. apply guest_bind; [apply guest_look|]. intros [e|].
  - apply guest_bind; [apply guest_away, away_open_data|]. intros d. destruct (d <? 0); [apply guest_away, away_say|]. destruct (info_reg e).
    + apply guest_away. apply away_bind; [apply away_say|]. intros _. apply away_bind; [unfold ls_time_of, net_get; away|]. intros tb.
      apply away_bind; [apply away_send_all|]. intros _. apply away_bind; [apply away_net|]. intros _. apply away_say.
    + apply guest_bind; [apply guest_away, away_say|]. intros _. apply guest_bind; [apply guest_look|]. intros es. apply guest_away.
      apply away_bind; [destruct es; [apply away_entries|apply away_ret]|]. intros _. apply away_bind; [apply away_net|]. intros _. apply away_say.
  - apply guest_away, away_bind; [apply away_say|intros; apply away_drop].
Qed.

Lemma guest_stor t i path appe : total (guest t i) (cmd_stor fuel i path appe) (guest t i).
Proof.
  unfold cmd_stor. apply guest_sess. intros s Hs. replace (negb (authed s) || anon s) with true by (by destruct (authed s), (anon s)).
  apply guest_away, away_bind; [apply away_say|intros; apply away_drop].
Qed.

Lemma guest_admin t i g : total (guest t i) (admin_only i g) (guest t i).
Proof. unfold admin_only. apply guest_sess. intros s ->. apply guest_away, away_ret. Qed.

Lemma guest_file_command t i arg :
  (∀ good bad, total (guest t i) (cmd_remove i arg good bad) (guest t i)) ∧ total (guest t i) (cmd_mkd i arg) (guest t i) ∧
  total (guest t i) (cmd_rnfr i arg) (guest t i) ∧ total (guest t i) (cmd_rnto i arg) (guest t i) ∧ total (guest t i) (cmd_size i arg) (guest t i).
Proof.
  split_and!; [intros good bad; unfold cmd_remove|unfold cmd_mkd|unfold cmd_rnfr|unfold cmd_rnto|unfold cmd_size]; apply guest_sess; intros s Hs.
  - apply guest_bind; [apply guest_admin|]. intros rc. destruct (rc =? 0); apply guest_away, away_say.
  - apply guest_bind; [apply guest_admin|]. intros rc. destruct (rc =? 0); apply guest_away; [apply away_sendf|apply away_say].
  - rewrite Hs. apply guest_bind; [apply guest_away, away_ret|]. intros [e|]; apply guest_away; [|apply away_say]. apply away_bind; [by apply away_upd|intros; apply away_say].
  - apply guest_bind; [destruct (rename_pending s); [apply guest_admin|apply guest_away, away_ret]|]. intros rc. apply guest_away.
    apply away_bind; [by apply away_upd|]. intros _. destruct (rc =? 0); apply away_say.
  - apply guest_bind; [apply guest_look|]. intros [e|]; [destruct (info_reg e)|]; apply guest_away; first [apply away_sendf|apply away_say].
Qed.

(** the history file is brought up to date, nothing else *)
Definition synced (st : SYS) : gmap (list Z) (list Z) := f_tree (his_fs (hist_core (history_sync (fhist st)))).
Lemma guest_sync t i st : guest t i st → ∃ st', sync_files st = (Done tt, st') ∧ guest (synced st) i st'.
Proof.
  intros (Ht & Hn & Ha). eexists. split; [reflexivity|]. split_and!; [done| |done]. unfold fsl in *; cbn. unfold history_sync.
  destruct (negb _); [done|]. unfold hist_file_sync. destruct (his_fp_open _); [|done].
  pose proof (fsync_law (his_fs (hist_core (fhist st)))) as Hs. destruct (lfs_file_sync _ _) as [r l]. cbn in *. congruence.
Qed.

(** no file is open, and the files are [t] *)
Definition at_rest (t : gmap (list Z) (list Z)) (st : SYS) : Prop := f_tree (fsl st) = t ∧ f_cur (fsl st) = None.

Lemma guest_login t i arg : total (guest t i) (cmd_user i arg) (at_rest t) ∧ total (guest t i) (cmd_pass i arg) (at_rest t).
Proof.
  assert (∀ st st' : SYS, fhist st' = fhist st → guest t i st → at_rest t st') as Hr.
  { intros st st' E (Ht & Hn & _). unfold at_rest, fsl. by rewrite E. }
  assert (∀ g k msg st, guest t i st → goes (upd_sess i g;; say k msg) st (λ _ st', at_rest t st')) as Hsay.
  { intros g k msg st Hs. destruct (away_say i k msg (upd_sess i g st).2) as (a & st' & E & E1 & _). exists a, st'. split; [exact E|].
    apply (Hr st); [|done]. by rewrite E1. }
  split; [unfold cmd_user|unfold cmd_pass]; intros st Hs; (eapply (goes_bind _ _ _ (λ _ st', st' = st)); [eexists _, _; by split|]); intros s st' ->;
    [|destruct (anon s || _)]; by apply Hsay.
Qed.

Lemma guest_command i line st :
  admin i st = false → f_cur (fsl st) = None →
  goes (handle_command beyond fuel i line) st (λ _ st', at_rest (f_tree (fsl st)) st' ∨ at_rest (synced st) st').
Proof.
  intros Ha Hn. unfold handle_command. destruct (split_command (cstr line)) as [cmd arg]. set (t := f_tree (fsl st)).
  assert (guest t i st) as Hg by done.
  eapply (goes_bind _ _ _ (λ _ st', st' = st)); [eexists _, _; by split|]. intros now ? ->.
  set (st1 := (upd_sess i (set_activity (u32 now)) st).2). assert (guest t i st1 ∧ fhist st1 = fhist st) as [Hg1 Eh].
  { split; [|done]. destruct (away_upd i i (set_activity (u32 now)) ltac:(done) st) as (a & st' & E & E1 & E2). unfold st1. rewrite E. unfold guest, fsl in *. cbn. by rewrite E1, E2. }
  eapply (goes_bind _ _ _ (λ _ st', st' = st1)); [by exists tt, st1|]. intros _ ? ->.
  eapply (goes_bind _ _ _ (λ _ st', st' = st1)); [eexists _, _; by split|]. intros s ? ->.
  assert (∀ m : M SYS unit, total (guest t i) m (at_rest t) → goes m st1 (λ _ st', at_rest t st' ∨ at_rest (synced st) st')) as Hrest.
  { intros m Hm. eapply goes_weaken; [by apply Hm|]. intros ? st' ?. by left. }
  assert (∀ m : M SYS unit, (∀ t, total (guest t i) m (guest t i)) → goes m st1 (λ _ st', at_rest t st' ∨ at_rest (synced st) st')) as Hk.
  { intros m Hm. apply Hrest. intros st' Hs. eapply goes_weaken; [by apply (Hm t)|]. by intros ? st'' (? & ? & _). }
  assert (∀ m : M SYS unit, (∀ t, total (guest t i) m (guest t i)) → goes (sync_files;; m) st1 (λ _ st', at_rest t st' ∨ at_rest (synced st) st')) as Hsync.
  { intros m Hm. destruct (guest_sync t i st1 Hg1) as (st2 & E2 & Hg2). assert (synced st1 = synced st) as Es by (unfold synced; by rewrite Eh). rewrite Es in Hg2.
    unfold goes. rewrite (bind_done _ _ _ _ _ E2). eapply goes_weaken; [by apply (Hm (synced st))|]. intros ? st3 (? & ? & _). right. by split. }
  destruct (guest_login t i arg) as [Hu Hp].
  repeat match goal with
    | |- goes (if ?b then sync_files;; _ else _) _ _ => destruct b; [apply Hsync; intros|]
    | |- goes (if ?b then cmd_user _ _ else _) _ _ => destruct b; [by apply Hrest|]
    | |- goes (if ?b then cmd_pass _ _ else _) _ _ => destruct b; [by apply Hrest|]
    | |- goes (if ?b then _ else _) _ _ => destruct b; [apply Hk; intros|] end;
  first [ apply guest_list | apply guest_retr | apply guest_stor | apply guest_file_command
        | apply guest_away; first [ apply away_say | apply away_send | apply away_sendf | apply away_pasv | apply away_port
            | unfold cmd_cwd, cmd_rest, cmd_quit, sess; repeat (apply away_bind; [first [apply away_say|away]|intros]); first [apply away_say|apply away_sendf|away] ]
        | apply Hk; intros; apply guest_away, away_say ].
Qed.

(** *** Uploads *)

(** the data connection delivers these pieces, then ends or fails *)
Inductive delivers (d : Z) : W → list (list Z) → Prop :=
  | delivers_end w : (∀ bs, (lwip_recv d FTP_BUF_SIZE w).1 ≠ RData bs) → delivers d w []
  | delivers_more w bs w' cs : lwip_recv d FTP_BUF_SIZE w = (RData bs, w') → delivers d w' cs → delivers d w (bs :: cs).

(** what is stored of them *)
Definition stored_bytes (ascii pending : bool) (cs : list (list Z)) : list Z := if ascii then strip_chunks pending cs else concat cs.

(** the task is writing at the end of a file *)
Definition writing (t : gmap (list Z) (list Z)) (p c : list Z) (st : SYS) : Prop :=
  hist_ready (fhist st) = true ∧ f_tree (fsl st) = t ∧ f_cur (fsl st) = Some (p, c, length c).

Lemma overwrite_end c bs : overwrite (length c) bs c = c ++ bs.
Proof.
  unfold overwrite. rewrite Nat.sub_diag. cbn [replicate]. rewrite app_nil_r, take_ge by lia. rewrite drop_ge by lia. by rewrite app_nil_r.
Qed.

Lemma stor_loop_goes i d cs : ∀ n t p c s st,
  delivers d (fnet st) cs → (length cs < n)%nat → sessions st !! i = Some s → writing t p c st →
  goes (stor_loop n i d) st (λ _ st', writing t p (c ++ stored_bytes (type_ascii s) (pending_cr s) cs) st').
Proof.
  induction cs as [|b cs IH]; intros n t p c s st Hd Hn Hs Hw; (destruct n as [|n]; [cbn in Hn; lia|]); cbn [stor_loop]; inversion Hd as [w Hend|w b' w' cs' Hrecv Hd']; subst.
  - unfold goes, mbind, M_bind, net. destruct (lwip_recv d FTP_BUF_SIZE (fnet st)) as [r w] eqn:E.
    assert (∀ bs, r ≠ RData bs) as Hr by (intros bs ->; specialize (Hend bs); rewrite ?E in Hend; by apply Hend).
    exists tt. eexists. split; [destruct r; [by destruct (Hr bs)|reflexivity..]|]. unfold stored_bytes. destruct (type_ascii s); cbn; rewrite app_nil_r; exact Hw.
  - set (st1 := mk_fsys (sessions st) (fhist st) w'). eapply (goes_bind _ _ _ (λ r st', r = RData b ∧ st' = st1)).
    { unfold goes, net. rewrite Hrecv. by eexists _, _. }
    intros ? ? [-> ->]. eapply (goes_bind _ _ _ (λ a st', a = s ∧ st' = st1)).
    { eexists _, _. split; [reflexivity|]. cbn. by rewrite Hs. }
    intros ? ? [-> ->].
    assert (∃ out cr, (if type_ascii s then ascii_strip_cr b (pending_cr s) else (b, pending_cr s)) = (out, cr) ∧
      stored_bytes (type_ascii s) (pending_cr s) (b :: cs) = out ++ stored_bytes (type_ascii s) cr cs) as (out & cr & Eout & Estored).
    { unfold stored_bytes. destruct (type_ascii s); [|by eexists _, _]. cbn [strip_chunks]. destruct (ascii_strip_cr b (pending_cr s)) as [o cr]. by eexists _, _. }
    rewrite Eout, Estored. set (st2 := mk_fsys (<[i := set_pending_cr cr s]> (sessions st)) (fhist st) w').
    eapply (goes_bind _ _ _ (λ _ st', st' = st2)); [eexists _, _; split; [by apply (upd_run i _ st1)|done]|]. intros _ ? ->.
    assert (sessions st2 !! i = Some (set_pending_cr cr s)) as Hs2 by (cbn; rewrite list_lookup_insert_eq; [done|by eapply lookup_lt_Some]).
    assert ((length cs < n)%nat) as Hn' by (cbn in Hn; lia). rewrite app_assoc.
    case_bool_decide as Eo.
    + subst out. rewrite app_nil_r. by apply (IH n t p c (set_pending_cr cr s) st2).
    + destruct Hw as (Hr & Ht & Hc). pose proof (fwrite_law p c (length c) out _ Hc) as Hwr.
      unfold goes, fs, mbind, M_bind. cbn [fhist st2]. rewrite Hr. unfold fsl in *. destruct (lfs_fwrite out (his_fs (hist_core (fhist st)))) as [wr l] eqn:El.
      destruct Hwr as (-> & Et & Ec). rewrite Z.eqb_refl. rewrite overwrite_end in Ec.
      apply (IH n t p (c ++ out) (set_pending_cr cr s) (mk_fsys (sessions st2) (history_fs_section l (fhist st)) w')); try done.
      unfold writing, fsl. cbn. split_and!; [done|congruence|]. by rewrite length_app.
Qed.

Lemma stor_open_spec p appe pos l l' :
  f_cur l = None → (appe = true ∨ pos = 0) → stor_open p appe pos l = (true, l') →
  let c := if appe then default [] (f_tree l !! p) else [] in
  f_cur l' = Some (p, c, length c) ∧ (∀ q, q ≠ p → f_tree l' !! q = f_tree l !! q).
Proof.
  intros Hn Hap. unfold stor_open. set (fl := if appe then _ else _). pose proof (fopen_law p fl l Hn) as Ho.
  destruct (lfs_fopen p fl l) as [[|] l1]; cbn [negb]; [|done]. cbv zeta in Ho. destruct Ho as (Hc & Ht & _). destruct appe.
  - unfold fl in Hc. pose proof (fseek_law _ _ _ 0 SeekEnd _ Hc) as Hs. destruct (lfs_fseek 0 SeekEnd l1) as [r l2]. intros [= <-].
    destruct Hs as (Et & Ec & Hr). specialize (Hr eq_refl eq_refl). cbn. replace (r <? 0) with false in Ec by lia. split; [done|].
    intros q Hq. rewrite Et. by apply Ht.
  - destruct Hap as [?| ->]; [done|]. cbn in fl. unfold fl in Hc. intros [= <-]. by split.
Qed.

(** the file is opened and the connection made *)
Definition opened_as (l : L) (st : SYS) : SYS := mk_fsys (sessions st) (history_fs_section l (fhist st)) (fnet st).

Lemma upload_goes i path appe st s st1 s1 l d cs :
  sessions st !! i = Some s → authed s = true → anon s = false → hist_ready (fhist st) = true → f_cur (fsl st) = None → (appe = true ∨ rest s = 0) →
  let p := fs_path (cwd s) path in
  stor_open p appe (rest s) (fsl st) = (true, l) →
  (say (ctrl s) "150 Ok to send data";; open_data i) (opened_as l st) = (Done d, st1) → 0 ≤ d → sessions st1 !! i = Some s1 →
  delivers d (fnet st1) cs → (length cs < fuel)%nat →
  goes (cmd_stor fuel i path appe) st (λ _ st',
    at_rest (<[p := (if appe then default [] (f_tree (fsl st) !! p) else []) ++ stored_bytes (type_ascii s1) false cs]> (f_tree (fsl st))) st').
Proof.
  intros Hs Ha Hn Hr Hc Hap p Hopen Hdata Hd Hs1 Hcs Hf. destruct (stor_open_spec p appe (rest s) (fsl st) l Hc Hap Hopen) as [Hcur Htree].
  set (c := if appe then _ else _) in *. unfold cmd_stor.
  eapply (goes_bind _ _ _ (λ a st', a = s ∧ st' = st)); [eexists _, _; split; [reflexivity|]; cbn; by rewrite Hs|]. intros ? ? [-> ->].
  rewrite Ha, Hn. cbn [negb orb]. eapply (goes_bind _ _ _ (λ ok st', ok = true ∧ st' = opened_as l st)).
  { unfold goes, fs. rewrite Hr. fold p. unfold fsl in Hopen. rewrite Hopen. by eexists _, _. }
  intros ? ? [-> ->]. cbn [negb].
  assert (fhist st1 = history_fs_section l (fhist st)) as Eh1.
  { destruct (away_bind i (say (ctrl s) "150 Ok to send data") (λ _, open_data i) (away_say _ _ _) (λ _, away_open_data _ _) (opened_as l st)) as (a & st' & E & E1 & _).
    rewrite Hdata in E. injection E as _ <-. exact E1. }
  eapply goes_eq; [symmetry; apply bind_assoc|].
  eapply (goes_bind _ _ _ (λ a st', a = d ∧ st' = st1)); [eexists _, _; by split|]. intros ? ? [-> ->]. destruct (d <? 0) eqn:Ed; [lia|]. clear Ed.
  set (st2 := mk_fsys (<[i := set_pending_cr false s1]> (sessions st1)) (fhist st1) (fnet st1)).
  eapply (goes_bind _ _ _ (λ _ st', st' = st2)); [eexists _, _; split; [by apply upd_run|done]|]. intros _ ? ->.
  eapply goes_bind; [eapply (stor_loop_goes i d cs fuel (f_tree l) p c (set_pending_cr false s1) st2); try done|].
  - cbn. rewrite list_lookup_insert_eq; [done|by eapply lookup_lt_Some].
  - unfold writing, fsl. cbn [fhist st2]. rewrite Eh1. by split_and!.
  - intros ? st3 (Hr3 & Ht3 & Hc3). destruct (fclose_law _ _ _ _ Hc3) as [F1 F2].
    eapply (goes_bind _ _ _ (λ _ st', at_rest (<[p := c ++ stored_bytes (type_ascii s1) false cs]> (f_tree (fsl st))) st')).
    { unfold goes, fs_do, fs. rewrite Hr3. eexists _, _. split; [reflexivity|]. unfold at_rest, fsl in *. cbn. split; [|done].
      rewrite F2, Ht3. apply map_eq. intros q. destruct (decide (q = p)) as [->|Hq]; [by rewrite !lookup_insert_eq|].
      rewrite !lookup_insert_ne by done. by apply Htree. }
    assert (away i (net_do (lwip_close d);; upd_sess i (set_rest 0);; say (ctrl s) "226 Transfer complete" : M SYS unit)) as Htail.
    { apply away_bind; [apply away_net|]. intros _. apply away_bind; [by apply away_upd|]. intros _. apply away_say. }
    intros ? st4 Hst4. destruct (Htail st4) as (u5 & st5 & E5 & E51 & _). exists u5, st5. split; [exact E5|]. unfold at_rest, fsl in *. by rewrite E51.
Qed.
End Files.

(** *** Downloads *)

(** lwIP with a record of the bytes it accepted *)
Section Log.
Context {W : Type} `{FtpNet W}.
Definition logged : Type := W * list (Z * list Z).
Definition unlogged {A} (g : W → A * W) (w : logged) : A * logged := let '(a, w') := g w.1 in (a, (w', w.2)).
#[export] Instance log_net : FtpNet logged := {
  lwip_socket := unlogged lwip_socket;
  lwip_bind k port := unlogged (lwip_bind k port);
  lwip_listen k n := unlogged (lwip_listen k n);
  lwip_getsockname k := unlogged (lwip_getsockname k);
  lwip_connect k ip port := unlogged (lwip_connect k ip port);
  lwip_select ks t := unlogged (lwip_select ks t);
  lwip_accept k := unlogged (lwip_accept k);
  lwip_close k w := (lwip_close k w.1, w.2);
  lwip_send k bs w := let '(r, w') := lwip_send k bs w.1 in (r, (w', w.2 ++ [(k, take (Z.to_nat r) bs)]));
  lwip_recv k n := unlogged (lwip_recv k n);
  set_sock_timeout k t w := (set_sock_timeout k t w.1, w.2);
  now_ms w := now_ms w.1;
  io_now_epoch w := io_now_epoch w.1;
  netif_ip w := netif_ip w.1;
  ip4addr_aton := ip4addr_aton;
}.
Definition bytes_to (k : Z) (log : list (Z * list Z)) : list Z := concat ((λ x, if x.1 =? k then x.2 else []) <$> log).
Lemma bytes_snoc k log q bs : bytes_to k (log ++ [(q, bs)]) = bytes_to k log ++ (if q =? k then bs else []).
Proof. unfold bytes_to. rewrite fmap_app, concat_app. cbn. by rewrite app_nil_r. Qed.

(** every send takes something *)
Definition sends_go : Prop := ∀ k bs (w : W), bs ≠ [] → 0 < (lwip_send k bs w).1.
End Log.
#[global] Arguments bytes_to : simpl never.

Section Download.
Context {L W : Type} `{FtpLfsLaws L} `{FtpNet W}.
Context (fuel : nat).
Abbreviation SYS := (@ftp_sys L (@logged W)).
Definition got (d : Z) (st : SYS) : list Z := bytes_to d (fnet st).2.

(** a prefix of [bs] is accepted, all of it when every send takes something *)
Definition pours (d : Z) (bs : list Z) (st : SYS) (ok : bool) (st' : SYS) : Prop :=
  sessions st' = sessions st ∧ fhist st' = fhist st ∧ (∃ k, got d st' = got d st ++ take k bs ∧ (ok = true → take k bs = bs)) ∧ (sends_go (W := W) → ok = true).

Lemma send_all_pours d n : ∀ bs (st : SYS), (length bs < n)%nat → ∃ ok st', send_all_loop n d bs st = (Done ok, st') ∧ pours d bs st ok st'.
Proof.
  induction n as [|n IH]; intros bs st Hn; [lia|]. cbn [send_all_loop]. case_bool_decide as Eb.
  { subst bs. exists true, st. split; [done|]. split_and!; try done. exists 0%nat. cbn. by rewrite app_nil_r. }
  destruct (lwip_send d bs (fnet st).1) as [r w] eqn:Es. set (st1 := mk_fsys (sessions st) (fhist st) (w, (fnet st).2 ++ [(d, take (Z.to_nat r) bs)])).
  rewrite (bind_done _ _ _ r st1) by (unfold net; cbn; by rewrite Es).
  assert (got d st1 = got d st ++ take (Z.to_nat r) bs) as Eg by (unfold got; cbn; by rewrite bytes_snoc, Z.eqb_refl).
  destruct (r <=? 0) eqn:Er.
  - exists false, st1. split; [done|]. split_and!; try done; [|intros Hgo; specialize (Hgo d bs (fnet st).1 Eb); rewrite Es in Hgo; cbn in Hgo; lia].
    exists (Z.to_nat r). split; [exact Eg|done].
  - assert (0 < length bs)%nat by (destruct bs; [done|cbn; lia]).
    destruct (IH (drop (Z.to_nat r) bs) st1) as (ok & st' & E & S1 & S2 & (k & Ek & Hk) & Hgo); [rewrite length_drop; lia|].
    exists ok, st'. split; [done|]. split_and!; try done. exists (Z.to_nat r + k)%nat. rewrite Ek, Eg, <- app_assoc, take_take_drop. split; [done|].
    intros Hok. rewrite <- take_take_drop, Hk by done. apply take_drop.
Qed.

(** the bytes on the wire for the bytes of a file *)
Definition wire_bytes (ascii : bool) (x : list Z) : list Z := if ascii then ascii_crlf x else x.
Lemma wire_bytes_app ascii a b : wire_bytes ascii (a ++ b) = wire_bytes ascii a ++ wire_bytes ascii b.
Proof. destruct ascii; [apply ascii_crlf_app|done]. Qed.

Lemma retr_loop_goes d ascii n : ∀ p c pos t (st : SYS),
  hist_ready (fhist st) = true → f_tree (fsl st) = t → f_cur (fsl st) = Some (p, c, pos) → (length c - pos < n)%nat →
  goes (retr_loop n ascii d) st (λ _ st',
    hist_ready (fhist st') = true ∧ f_tree (fsl st') = t ∧ (∃ pos', f_cur (fsl st') = Some (p, c, pos')) ∧
    ∃ k, got d st' = got d st ++ take k (wire_bytes ascii (drop pos c)) ∧ (sends_go (W := W) → take k (wire_bytes ascii (drop pos c)) = wire_bytes ascii (drop pos c))).
Proof.
  induction n as [|n IH]; intros p c pos t st Hr Ht Hc Hn; [lia|]. cbn [retr_loop].
  pose proof (fread_law p c pos (FTP_BUF_SIZE / 2) _ Hc ltac:(done)) as Hread. set (want := FTP_BUF_SIZE / 2) in *.
  destruct (lfs_fread want (fsl st)) as [[r bs] l] eqn:El. destruct Hread as (Er & Eb & Et & Ec). set (chunk := take (Z.to_nat want) (drop pos c)) in *.
  set (st1 := opened_as l st).
  eapply (goes_bind _ _ _ (λ a st', a = (r, bs) ∧ st' = st1)).
  { unfold goes, fs. rewrite Hr. unfold fsl in El. rewrite El. by eexists _, _. }
  intros ? ? [-> ->]. cbn [fst snd]. rewrite Eb.
  assert (drop pos c = chunk ++ drop (pos + length chunk) c) as Esplit.
  { rewrite <- (take_drop (Z.to_nat want) (drop pos c)) at 1. unfold chunk. f_equal. rewrite length_take, length_drop.
    destruct (decide (Z.to_nat want ≤ length c - pos)%nat); [rewrite drop_drop; f_equal; lia|]. rewrite !drop_ge; rewrite ?length_drop; [done|lia..]. }
  destruct (r <=? 0) eqn:E0.
  - assert (length chunk = 0%nat) as E00 by (unfold zlen in Er; lia). apply nil_length_inv in E00.
    assert (drop pos c = []) as Ed.
    { unfold chunk in E00. apply (f_equal length) in E00. rewrite length_take in E00. destruct (drop pos c); [done|]. change (Z.to_nat want) with 256%nat in E00. cbn [length] in E00. lia. }
    apply goes_ret. rewrite Ed. split_and!; [done|by unfold fsl in *; cbn; congruence|by eexists|]. exists 0%nat. split; [cbn; by rewrite app_nil_r|by destruct ascii].
  - destruct (send_all_pours d (S (length (wire_bytes ascii chunk))) (wire_bytes ascii chunk) st1) as (ok & st2 & E2 & S1 & S2 & (k & Ek & Hk) & Hgo); [lia|].
    change (if ascii then ascii_crlf chunk else chunk) with (wire_bytes ascii chunk).
    eapply (goes_bind _ _ _ (λ a st', a = ok ∧ st' = st2)); [by exists ok, st2|]. intros ? ? [-> ->].
    assert (hist_ready (fhist st2) = true ∧ f_tree (fsl st2) = t ∧ f_cur (fsl st2) = Some (p, c, (pos + length chunk)%nat)) as (Hr2 & Ht2 & Hc2).
    { unfold fsl in *. rewrite S2. cbn. split_and!; [done|congruence|done]. }
    assert (got d st1 = got d st) as Eg by done. rewrite Eg in Ek. rewrite Esplit, wire_bytes_app. destruct ok.
    + assert (length chunk ≤ length c - pos)%nat by (unfold chunk; rewrite length_take, length_drop; lia).
      eapply goes_weaken; [apply (IH p c (pos + length chunk)%nat t st2); try done; unfold zlen in Er; lia|].
      intros ? st3 (R1 & R2 & R3 & k3 & Ek3 & Hk3). split_and!; try done. specialize (Hk eq_refl).
      exists (length (wire_bytes ascii chunk) + k3)%nat. rewrite Ek3, Ek, Hk, <- app_assoc. rewrite take_app_add. split; [done|]. intros Hg. by rewrite Hk3.
    + apply goes_ret. split_and!; try done; [by eexists|]. exists (k `min` length (wire_bytes ascii chunk))%nat. rewrite take_app_le by lia.
      split; [|intros Hg; by specialize (Hgo Hg)]. rewrite Ek. f_equal. destruct (decide (k ≤ length (wire_bytes ascii chunk))%nat); [by rewrite Nat.min_l by lia|].
      rewrite Nat.min_r by lia. by rewrite !take_ge by lia.
Qed.

Lemma download_goes i path (st st1 : SYS) s l d :
  sessions st !! i = Some s → authed s = true → hist_ready (fhist st) = true → f_cur (fsl st) = None →
  retr_open (fs_path (cwd s) path) (rest s) (fsl st) = (true, l) →
  (say (ctrl s) "150 Opening data connection";; open_data i) (opened_as l st) = (Done d, st1) → 0 ≤ d → d ≠ ctrl s →
  ∃ c, f_tree (fsl st) !! fs_path (cwd s) path = Some c ∧ ((length c < fuel)%nat →
    let text := wire_bytes (type_ascii s) (drop (if 0 <? rest s then Z.to_nat (soff (rest s)) else 0%nat) c) in
    goes (cmd_retr fuel i path) st (λ _ st', at_rest (f_tree (fsl st)) st' ∧
      ∃ k, got d st' = got d st1 ++ take k text ∧ (sends_go (W := W) → take k text = text))).
Proof.
  intros Hs Ha Hr Hc Hopen Hdata Hd Hdc. pose proof (retr_open_spec (fs_path (cwd s) path) (rest s) (fsl st) Hc) as Ho. rewrite Hopen in Ho.
  destruct Ho as (Et & c & Hp & Hcur). set (pos := if 0 <? rest s then _ else _) in *. exists c. split; [done|]. intros Hf text. unfold cmd_retr.
  eapply (goes_bind _ _ _ (λ a st', a = s ∧ st' = st)); [eexists _, _; split; [reflexivity|]; cbn; by rewrite Hs|]. intros ? ? [-> ->].
  rewrite Ha. cbn [negb]. eapply (goes_bind _ _ _ (λ ok st', ok = true ∧ st' = opened_as l st)).
  { unfold goes, fs. rewrite Hr. unfold fsl in Hopen. rewrite Hopen. by eexists _, _. }
  intros ? ? [-> ->]. cbn [negb].
  assert (fhist st1 = history_fs_section l (fhist st)) as Eh1.
  { destruct (away_bind i (say (ctrl s) "150 Opening data connection") (λ _, open_data i) (away_say _ _ _) (λ _, away_open_data _ _) (opened_as l st)) as (a & st' & E & E1 & _).
    rewrite Hdata in E. injection E as _ <-. exact E1. }
  eapply goes_eq; [symmetry; apply bind_assoc|].
  eapply (goes_bind _ _ _ (λ a st', a = d ∧ st' = st1)); [eexists _, _; by split|]. intros ? ? [-> ->]. destruct (d <? 0) eqn:Ed; [lia|]. clear Ed.
  eapply goes_bind; [eapply (retr_loop_goes d (type_ascii s) fuel _ c pos (f_tree (fsl st)) st1); unfold fsl in *; rewrite ?Eh1; cbn; try done; lia|].
  intros ? st2 (R1 & R2 & (pos' & R3) & k & Ek & Hk). fold text in Ek, Hk. destruct (fclose_law _ _ _ _ R3) as [F1 F2].
  eapply (goes_bind _ _ _ (λ _ st', at_rest (f_tree (fsl st)) st' ∧ got d st' = got d st2)).
  { unfold goes, fs_do, fs. rewrite R1. eexists _, _. split; [reflexivity|]. split; [|done]. unfold at_rest, fsl in *. cbn. split; [|done].
    rewrite F2, R2. by apply insert_id. }
  intros ? st3 (Hrest & Eg). eapply (goes_bind _ _ _ (λ _ st', fhist st' = fhist st3 ∧ got d st' = got d st3)); [by eexists _, _|].
  intros ? st4 (Eh4 & Eg4). eapply (goes_bind _ _ _ (λ _ st', fhist st' = fhist st3 ∧ got d st' = got d st3)); [eexists _, _; split; [reflexivity|]; by split|].
  intros ? st5 (Eh5 & Eg5). unfold say, ftp_send, goes, mbind, M_bind, net. cbn. destruct (lwip_send _ _ (fnet st5).1) as [r w]. eexists _, _. split; [reflexivity|].
  split; [unfold at_rest, fsl in *; cbn; by rewrite Eh5|]. exists k. split; [|done]. unfold got at 1. cbn. rewrite bytes_snoc.
  replace (ctrl s =? d) with false by lia. rewrite app_nil_r. fold (got d st5). congruence.
Qed.
End Download.

(** ** Properties *)


(** C34: A download sends exactly the file from the restart position on, with its line ends converted in ASCII mode:
    what the data connection accepts is always a prefix of that, all of it when every send takes something, and no file
    is changed or stays open. *)
Theorem ftp_download_sends {L W} `{FtpLfsLaws L} `{FtpNet W} (fuel i : nat) (path : list Z) (st st1 : @ftp_sys L (@logged W))
    (s : ftp_session) (l : L) (d : Z) (c : list Z) :
  let p := fs_path (cwd s) path in
  sessions st !! i = Some s → authed s = true → hist_ready (fhist st) = true → f_cur (fsl st) = None →
  f_tree (fsl st) !! p = Some c → retr_open p (rest s) (fsl st) = (true, l) →
  (say (ctrl s) "150 Opening data connection";; open_data i) (opened_as l st) = (Done d, st1) → 0 ≤ d → d ≠ ctrl s → (length c < fuel)%nat →
  let from := drop (if 0 <? rest s then Z.to_nat (soff (rest s)) else 0%nat) c in
  let text := if type_ascii s then ascii_crlf from else from in
  ∃ st' k, cmd_retr fuel i path st = (Done tt, st') ∧ f_tree (fsl st') = f_tree (fsl st) ∧ f_cur (fsl st') = None ∧
    got d st' = got d st1 ++ take k text ∧ (sends_go (W := W) → got d st' = got d st1 ++ text).
Proof.
  intros p Hs Ha Hr Hc Hp Hopen Hdata Hd Hdc Hf from text.
  destruct (download_goes fuel i path st st1 s l d Hs Ha Hr Hc Hopen Hdata Hd Hdc) as (c' & Hp' & Hrun).
  assert (c' = c) as -> by (unfold p in Hp; congruence). destruct (Hrun Hf) as ([] & st' & E & (E1 & E2) & k & Ek & Hk).
  exists st', k. split_and!; try done. intros Hgo. rewrite Ek. f_equal. by apply Hk.
Qed.

(** C35: No command line whatsoever, in any state, lets a session that is not logged in, or is logged in as anonymous,
    change a file: afterwards the files are what they were, or what flushing the running history file makes of them,
    and the task has no file open. *)
Theorem ftp_guest_reads_only {L W} `{FtpLfsLaws L} `{FtpNet W} (beyond : list Z) (fuel i : nat) (line : list Z) (st : @ftp_sys L W) :
  admin i st = false → f_cur (fsl st) = None →
  ∃ st', handle_command beyond fuel i line st = (Done tt, st') ∧ f_cur (fsl st') = None ∧
    (f_tree (fsl st') = f_tree (fsl st) ∨ f_tree (fsl st') = f_tree (his_fs (hist_core (history_sync (fhist st))))).
Proof.
  intros Ha Hc. destruct (guest_command beyond fuel i line st Ha Hc) as ([] & st' & E & [[E1 E2]|[E1 E2]]); exists st'; split_and!; auto.
Qed.

(** C36: Whatever clients send and the socket layer answers, for any number of turns of the loop: the task never stops,
    every session's strings fit their buffers, the working directories are canonical paths, and every socket that a
    session holds is open and held by it alone, so none is closed twice or used by two. *)
Theorem ftp_sessions_safe {L W} `{Lfs L} `{FtpLfs L} `{FtpNetLaws W} (beyond : list Z) (fuel n : nat) (st : @ftp_sys L W) :
  open_socks (fnet st) = ∅ →
  ∃ st', ftp_task beyond fuel n st = (Done tt, st') ∧ length (sessions st') = FTP_MAX_CLIENTS ∧ Forall sess_ok (sessions st') ∧
    NoDup (owned (sessions st')) ∧ ∀ k, k ∈ owned (sessions st') → k ∈ open_socks (fnet st').
Proof.
  intros Ho. unfold ftp_task. destruct (start_goes st Ho) as (serv & st1 & E1 & held & Hin & Hi). rewrite (bind_done _ _ _ _ _ E1).
  assert (∀ held (st : @ftp_sys L W), ftp_inv held st → length (sessions st) = FTP_MAX_CLIENTS ∧ Forall sess_ok (sessions st) ∧
    NoDup (owned (sessions st)) ∧ ∀ k, k ∈ owned (sessions st) → k ∈ open_socks (fnet st)) as Hsafe.
  { clear. intros held st [A B C D]. split_and!; try done.
    - clear -C. induction held as [|k held IH]; [done|]. inversion C; subst. by apply IH.
    - intros k Hk. rewrite D. apply elem_of_list_to_set, elem_of_app. by right. }
  destruct (serv <? 0) eqn:Es; [exists st1; split; [done|by eapply Hsafe]|].
  destruct (run_turns beyond fuel serv n st1) as ([] & st2 & E2 & held2 & _ & Hi2); [exists held; split; [apply Hin; lia|done]|].
  exists st2. split; [done|by eapply Hsafe].
Qed.

(** ** Witnesses *)

Module Sim.
(** files in RAM, one handle *)
Record fsys := mk_fs { tree : gmap (list Z) (list Z); cur : option (list Z * list Z * nat) }.

#[export] Instance sim_lfs : Lfs fsys := {
  lfs_dir l := Some [];
  lfs_file_open _ _ _ l := (false, l);
  lfs_file_size _ _ := 0;
  lfs_file_write _ _ l := (-1, l);
  lfs_file_read _ _ l := (-1, [], l);
  lfs_file_sync _ l := (0, l);
  lfs_file_close _ l := (0, l);
  lfs_remove p l := (match tree l !! p with Some _ => 0 | None => -2 end, mk_fs (delete p (tree l)) (cur l));
  lfs_fs_usage l := None;
}.

Definition sim_open (p : list Z) (fl : ftp_flags) (l : fsys) : bool * fsys :=
  match fl, tree l !! p with
  | FRead, None => (false, l)
  | FTrunc, _ => (true, mk_fs (tree l) (Some (p, [], 0%nat)))
  | _, c => (true, mk_fs (tree l) (Some (p, default [] c, 0%nat)))
  end.
Definition sim_seek (n : Z) (wh : whence) (l : fsys) : Z * fsys :=
  match cur l with
  | Some (p, c, pos) =>
    match wh with
    | SeekEnd => (zlen c, mk_fs (tree l) (Some (p, c, length c)))
    | SeekSet => if n <? 0 then (-22, l) else (n, mk_fs (tree l) (Some (p, c, Z.to_nat n)))
    end
  | None => (-9, l)
  end.

#[export] Instance sim_ftp : FtpLfs fsys := {
  lfs_stat p l := match tree l !! p with Some c => Some (Lfs.mk_info true p (zlen c)) | None => if bool_decide (p = [slash]) then Some (Lfs.mk_info false p 0) else None end;
  lfs_list p l := Some [];
  lfs_fopen := sim_open;
  lfs_fsize l := match cur l with Some (_, c, _) => zlen c | None => -9 end;
  lfs_fseek := sim_seek;
  lfs_fread n l := match cur l with
                   | Some (p, c, pos) => let got := take (Z.to_nat n) (drop pos c) in (zlen got, got, mk_fs (tree l) (Some (p, c, (pos + length got)%nat)))
                   | None => (-9, [], l)
                   end;
  lfs_fwrite bs l := match cur l with
                     | Some (p, c, pos) => (zlen bs, mk_fs (tree l) (Some (p, overwrite pos bs c, (pos + length bs)%nat)))
                     | None => (-9, l)
                     end;
  lfs_fclose l := match cur l with Some (p, c, _) => mk_fs (<[p := c]> (tree l)) None | None => l end;
  lfs_mkdir _ l := (-1, l);
  lfs_rename p q l := (-1, l);
}.

#[export] Instance sim_fs_laws : FtpLfsLaws fsys.
Proof.
  refine {| f_tree := tree; f_cur := cur |}.
  - intros p fl l Hc. cbn. unfold sim_open. destruct fl, (tree l !! p) as [c|] eqn:E; cbn; rewrite ?E; split_and!; done.
  - intros p c pos l Hc. cbn. by rewrite Hc.
  - intros p c pos n wh l Hc. cbn. unfold sim_seek. rewrite Hc. destruct wh; [destruct (n <? 0) eqn:E; cbn; rewrite ?E; by split_and!|].
    cbn. replace (zlen c <? 0) with false by (unfold zlen; lia). split_and!; try done. intros _ _. unfold zlen. lia.
  - intros p c pos n l Hc Hn. cbn. rewrite Hc. split_and!; try done. apply take_ge. unfold zlen. lia.
  - intros p c pos bs l Hc. cbn. rewrite Hc. by split_and!.
  - intros p c pos l Hc. cbn. by rewrite Hc.
  - done.
Defined.

(** sockets: those in use, the clients that wait, the bytes typed on the control
    connection ([None] is a pause longer than the time-out) and the pieces on the
    data connection *)
Record net := mk_net { used : gset Z; waiting : nat; typed : list (option Z); pieces : list (list Z) }.

Definition take_socket (w : net) : Z * net :=
  match list_find (λ k, 0 ≤ k ∧ (k ∉ used w)) (seqZ 1 8) with
  | Some (_, k) => (k, mk_net ({[k]} ∪ used w) (waiting w) (typed w) (pieces w))
  | None => (-1, w)
  end.

#[export] Instance sim_net : FtpNet net := {
  lwip_socket := take_socket;
  lwip_bind _ _ w := (true, w);
  lwip_listen _ _ w := (true, w);
  lwip_getsockname _ w := (50000, w);
  lwip_connect _ _ _ w := (true, w);
  lwip_select ks _ w := (if (0 <? waiting w)%nat || negb (bool_decide (typed w = [])) then ks else [], w);
  lwip_accept _ w := match waiting w with O => (-1, w) | S n => take_socket (mk_net (used w) n (typed w) (pieces w)) end;
  lwip_close k w := mk_net (used w ∖ {[k]}) (waiting w) (typed w) (pieces w);
  lwip_send _ bs w := (zlen bs, w);
  lwip_recv _ n w :=
    if n =? 1 then
      match typed w with
      | Some b :: t => (RData [b], mk_net (used w) (waiting w) t (pieces w))
      | None :: t => (RTimeout, mk_net (used w) (waiting w) t (pieces w))
      | [] => (RTimeout, w)
      end
    else match pieces w with c :: cs => (RData c, mk_net (used w) (waiting w) (typed w) cs) | [] => (RClosed, w) end;
  set_sock_timeout _ _ w := w;
  now_ms _ := 0;
  io_now_epoch _ := 0;
  netif_ip _ := [10; 0; 0; 2];
  ip4addr_aton _ := None;
}.

Lemma take_socket_law w : let '(k, w') := take_socket w in
  if 0 <=? k then (k ∉ used w) ∧ used w' = {[k]} ∪ used w else used w' = used w.
Proof.
  unfold take_socket. destruct (list_find _ _) as [[j k]|] eqn:E; [|done]. apply list_find_Some in E as (_ & [Hk Hn] & _).
  rewrite (Zle_imp_le_bool 0 k Hk). by split.
Qed.

#[export] Instance sim_net_laws : FtpNetLaws net.
Proof.
  refine {| open_socks := used |}; try done.
  - apply take_socket_law.
  - intros l w. cbn. destruct (waiting w) as [|n]; [done|]. apply (take_socket_law (mk_net (used w) n (typed w) (pieces w))).
  - intros k n w. cbn. destruct (n =? 1); [destruct (typed w) as [|[b|] t]|destruct (pieces w)]; done.
Defined.

Definition no_history (l : fsys) : @hsys fsys := history_init true l.
Definition boot (files : list (list Z * list Z)) (clients : nat) (text : list (option Z)) (data : list (list Z)) : @ftp_sys fsys net :=
  mk_fsys [] (no_history (mk_fs (list_to_map files) None)) (mk_net ∅ clients text data).
Definition lines (ls : list (list Z)) : list (option Z) := Some <$> concat ((λ l, l ++ eol) <$> ls).
Definition run (n : nat) (st : @ftp_sys fsys net) : @ftp_sys fsys net := (ftp_task [] 100 n st).2.
Definition files_of (st : @ftp_sys fsys net) : gmap (list Z) (list Z) := tree (fsl st).
End Sim.

Import Sim.

(** an anonymous user who names another user afterwards is taken for that user
    without a password ([ftpd.c:826]): the file is gone *)
Example login_bypassed :
  files_of (run 5 (boot [(js "/a", [1])] 1 (lines [js "USER anonymous"; js "PASS x"; js "USER admin"; js "DELE /a"]) [])) = ∅ ∧
  files_of (run 4 (boot [(js "/a", [1])] 1 (lines [js "USER anonymous"; js "PASS x"; js "DELE /a"]) [])) = {[js "/a" := [1]]}.
Proof. split; apply (bool_decide_unpack _); by vm_compute. Qed.

(** an empty line ends the session ([ftpd.c:1128]), like the end of the
    connection does *)
Example empty_line_closes : ctrl <$> sessions (run 2 (boot [] 1 (lines [[]]) [])) = [-1; -1; -1].
Proof. by vm_compute. Qed.

(** a pause within a line loses what came before it ([ftpd.c:992]) *)
Example pause_cuts_line :
  rest <$> sessions (run 3 (boot [] 1 ((Some <$> js "NO") ++ [None] ++ lines [js "REST 7"]) [])) = [7; 0; 0] ∧
  rest <$> sessions (run 3 (boot [] 1 ((Some <$> js "RE") ++ [None] ++ lines [js "ST 7"]) [])) = [0; 0; 0].
Proof. by vm_compute. Qed.

(** the passive socket of a client that quits stays open when its slot is used
    again ([ftpd.c:973]): it is in use, and belongs to nobody *)
Example listener_lost :
  let st := run 4 (boot [] 4 (lines [js "PASV"; js "QUIT"]) []) in
  (bool_decide (4 ∈ used (fnet st)), (λ s, (ctrl s, data_listen s)) <$> sessions st) = (true, [(2, -1); (3, -1); (5, -1)]).
Proof. by vm_compute. Qed.

(** a listing line longer than the buffer is sent with what lies behind it
    ([ftpd.c:570]); the name comes from the command line, so a client can ask
    for one *)
Example listing_leaks : buf_sent [1; 2; 3] (replicate 513 65) = replicate 511 65 ++ [0; 1].
Proof. by vm_compute. Qed.

(** a session that is logged in and has named an address to connect to *)
Definition demo_sess : ftp_session :=
  mk_sess 2 true false (-1) true ([10; 0; 0; 9], 2000) (js "/") false 0 [] false false 0.
Definition demo_st (files : list (list Z * list Z)) (data : list (list Z)) : @ftp_sys fsys net :=
  mk_fsys [demo_sess; sess_free; sess_free] (no_history (mk_fs (list_to_map files) None)) (mk_net {[1; 2]} 0 [] data).


Definition demo_down : @ftp_sys fsys (@logged net) :=
  mk_fsys [set_ascii true demo_sess; sess_free; sess_free] (no_history (mk_fs {[js "/t" := [65; 10]]} None)) (mk_net {[1; 2]} 0 [] [], []).

Lemma ftp_download_sends_witness :
  ∃ (st' : @ftp_sys fsys (@logged net)) k, cmd_retr 10 0 (js "t") demo_down = (Done tt, st') ∧ got 3 st' = take k [65; 13; 10].
Proof.
  destruct (ftp_download_sends 10 0 (js "t") demo_down
    ((say 2 "150 Opening data connection";; open_data 0) (opened_as (mk_fs {[js "/t" := [65; 10]]} (Some (js "/t", [65; 10], 0%nat))) demo_down)).2
    (set_ascii true demo_sess) (mk_fs {[js "/t" := [65; 10]]} (Some (js "/t", [65; 10], 0%nat))) 3 [65; 10]) as (st' & k & E & _ & _ & Eg & _).
  - reflexivity.
  - reflexivity.
  - reflexivity.
  - reflexivity.
  - by vm_compute.
  - by vm_compute.
  - by vm_compute.
  - lia.
  - done.
  - cbn. lia.
  - exists st', k. split; [exact E|exact Eg].
Defined.

Lemma ftp_guest_reads_only_witness :
  let st := mk_fsys [set_user true demo_sess] (no_history (mk_fs {[js "/a" := [1]]} None)) (mk_net {[2]} 0 [] []) : @ftp_sys fsys net in
  ∃ st', handle_command [] 10 0 (js "DELE /a") st = (Done tt, st') ∧ files_of st' = {[js "/a" := [1]]}.
Proof.
  intros st. destruct (ftp_guest_reads_only [] 10 0 (js "DELE /a") st) as (st' & E & _ & [Ht|Ht]); [done|done| |]; exists st'; exact (conj E Ht).
Defined.

Lemma ftp_sessions_safe_witness :
  ∃ st', ftp_task [] 100 4 (boot [] 4 (lines [js "PASV"; js "QUIT"]) []) = (Done tt, st') ∧ NoDup (owned (sessions st')).
Proof.
  destruct (ftp_sessions_safe [] 100 4 (boot [] 4 (lines [js "PASV"; js "QUIT"]) [])) as (st' & E & _ & _ & Hn & _); [done|].
  exists st'. exact (conj E Hn).
Defined.
