(* ===== verification/ShellEdit.v ===== *)
(** The line editor of the shell: the receive ring, the history and the Tab
    completion of [src/sys/shell.c].

    Characters come from the USART interrupt through a ring of 128 bytes
    ([ring_step]: one constructor per atomic step of the interrupt and of the
    shell task).  [sh_edit] is what [sh_task_fn] does with one character.  The line
    is the C buffer itself, with what is left behind its terminator; a write outside a
    buffer, which C leaves undefined, sets [wild].  [con] is the text handed to the
    log, one entry per call. *)

From Stdlib Require Import String Ascii.
From stdpp Require Import sets.
From S2P Require Import Prelude IoBytes WebJson WebCmds.
From S2P Require Log.

Local Open Scope list_scope.
Local Open Scope Z_scope.

Definition SH_RING_MAX : Z := 128.
Definition SH_LINE_MAX : Z := 96.
Definition SH_HIST_MAX : Z := 8.

(** ** The receive ring *)

Inductive getchar_at := GetIdle | GetRead (c : Z).

Record ring := mk_ring { sh_ring : list Z; sh_head : Z; sh_tail : Z; sh_at : getchar_at }.

Definition ring_init : ring := mk_ring (replicate 128 0) 0 0 GetIdle.

Inductive ring_event := EvIn (c : Z) | EvLost (c : Z) | EvOut (c : Z).

Definition SR_ERRORS : Z := 0x0F.   (* ORE | NE | FE | PE *)
Definition SR_RXNE : Z := 0x20.

Definition isr_full (r : ring) : bool := u8 ((sh_head r + 1) mod SH_RING_MAX) =? sh_tail r.

Definition isr_push (c : Z) (r : ring) : ring :=
  mk_ring (<[Z.to_nat (sh_head r) := c]> (sh_ring r)) (u8 ((sh_head r + 1) mod SH_RING_MAX)) (sh_tail r) (sh_at r).

(** [sr], [sr2]: the status register before and after an erroneous byte was
    thrown away; [dr]: the data register *)
Definition USART1_IRQHandler (sr sr2 dr : Z) (r : ring) : ring * list ring_event :=
  let sr := if negb (Z.land sr SR_ERRORS =? 0) then sr2 else sr in
  if negb (Z.land sr SR_RXNE =? 0)
  then if negb (isr_full r) then (isr_push (u8 dr) r, [EvIn (u8 dr)]) else (r, [EvLost (u8 dr)])
  else (r, []).

(** the interrupt, and [sh_getchar] in its two accesses to the shared ring: read
    the byte, move the tail.  It waits while the ring is empty. *)
Inductive ring_step : ring → list ring_event → ring → Prop :=
  | step_isr r sr sr2 dr : ring_step r (USART1_IRQHandler sr sr2 dr r).2 (USART1_IRQHandler sr sr2 dr r).1
  | step_read r :
    sh_at r = GetIdle → sh_tail r ≠ sh_head r →
    ring_step r [] (mk_ring (sh_ring r) (sh_head r) (sh_tail r) (GetRead (rd (sh_ring r) (Z.to_nat (sh_tail r)))))
  | step_take r c :
    sh_at r = GetRead c →
    ring_step r [EvOut c] (mk_ring (sh_ring r) (sh_head r) (u8 ((sh_tail r + 1) mod SH_RING_MAX)) GetIdle).

Inductive ring_run : list ring_event → ring → Prop :=
  | run_init : ring_run [] ring_init
  | run_step evs r ev r' : ring_run evs r → ring_step r ev r' → ring_run (evs ++ ev) r'.

(** ** C strings in fixed buffers *)

Definition txt (s : string) : list Z := map (λ a, Z.of_N (N_of_ascii a)) (list_ascii_of_string s).
Definition esc_seq (s : string) : list Z := 27 :: txt s.

(** up to the terminator *)
Fixpoint cstr (s : list Z) : list Z := match s with c :: s' => if c =? 0 then [] else c :: cstr s' | [] => [] end.

(** ** State *)

Record ed := mk_ed {
  line : list Z; draft : list Z;   (* [char line[96]], [char draft[96]] *)
  ed_n : Z; ed_pos : Z;            (* bytes in the line, cursor *)
  esc : Z; nav : Z; prev_cr : bool;
  sh_hist : list (list Z); sh_hist_len : Z; sh_hist_newest : Z;
  con : list (list Z);             (* what was handed to the log, call by call *)
  wild : bool }.                   (* memory outside a buffer was written *)

Definition set_line (x : list Z) (e : ed) : ed :=
  mk_ed x (draft e) (ed_n e) (ed_pos e) (esc e) (nav e) (prev_cr e) (sh_hist e) (sh_hist_len e) (sh_hist_newest e) (con e) (wild e).
Definition set_draft (x : list Z) (e : ed) : ed :=
  mk_ed (line e) x (ed_n e) (ed_pos e) (esc e) (nav e) (prev_cr e) (sh_hist e) (sh_hist_len e) (sh_hist_newest e) (con e) (wild e).
Definition set_ed_n (x : Z) (e : ed) : ed :=
  mk_ed (line e) (draft e) x (ed_pos e) (esc e) (nav e) (prev_cr e) (sh_hist e) (sh_hist_len e) (sh_hist_newest e) (con e) (wild e).
Definition set_ed_pos (x : Z) (e : ed) : ed :=
  mk_ed (line e) (draft e) (ed_n e) x (esc e) (nav e) (prev_cr e) (sh_hist e) (sh_hist_len e) (sh_hist_newest e) (con e) (wild e).
Definition set_esc (x : Z) (e : ed) : ed :=
  mk_ed (line e) (draft e) (ed_n e) (ed_pos e) x (nav e) (prev_cr e) (sh_hist e) (sh_hist_len e) (sh_hist_newest e) (con e) (wild e).
Definition set_nav (x : Z) (e : ed) : ed :=
  mk_ed (line e) (draft e) (ed_n e) (ed_pos e) (esc e) x (prev_cr e) (sh_hist e) (sh_hist_len e) (sh_hist_newest e) (con e) (wild e).
Definition set_prev_cr (x : bool) (e : ed) : ed :=
  mk_ed (line e) (draft e) (ed_n e) (ed_pos e) (esc e) (nav e) x (sh_hist e) (sh_hist_len e) (sh_hist_newest e) (con e) (wild e).
Definition set_sh_hist (x : list (list Z)) (e : ed) : ed :=
  mk_ed (line e) (draft e) (ed_n e) (ed_pos e) (esc e) (nav e) (prev_cr e) x (sh_hist_len e) (sh_hist_newest e) (con e) (wild e).
Definition set_sh_hist_len (x : Z) (e : ed) : ed :=
  mk_ed (line e) (draft e) (ed_n e) (ed_pos e) (esc e) (nav e) (prev_cr e) (sh_hist e) x (sh_hist_newest e) (con e) (wild e).
Definition set_sh_hist_newest (x : Z) (e : ed) : ed :=
  mk_ed (line e) (draft e) (ed_n e) (ed_pos e) (esc e) (nav e) (prev_cr e) (sh_hist e) (sh_hist_len e) x (con e) (wild e).
Definition set_con (x : list (list Z)) (e : ed) : ed :=
  mk_ed (line e) (draft e) (ed_n e) (ed_pos e) (esc e) (nav e) (prev_cr e) (sh_hist e) (sh_hist_len e) (sh_hist_newest e) x (wild e).
Definition set_wild (x : bool) (e : ed) : ed :=
  mk_ed (line e) (draft e) (ed_n e) (ed_pos e) (esc e) (nav e) (prev_cr e) (sh_hist e) (sh_hist_len e) (sh_hist_newest e) (con e) x.

Definition hist0 : list (list Z) := replicate 8 (replicate 96 0).

(** [junk]: what was on the stack *)
Definition ed_init (junk junk2 : list Z) : ed := mk_ed (<[0%nat := 0]> junk) junk2 0 0 0 (-1) false hist0 0 0 [] false.

Abbreviation ME := (M ed).

(** *** Memory: a write outside the buffer is noted and does nothing else *)

Definition line_poke (i v : Z) (e : ed) : ed :=
  if (0 <=? i) && (i <? zlen (line e)) then set_line (<[Z.to_nat i := v]> (line e)) e else set_wild true e.

(** [strcpy(line, s)] and [strcpy(draft, line)] *)
Definition line_strcpy (s : list Z) (e : ed) : ed :=
  let s := cstr s ++ [0] in
  if zlen s <=? zlen (line e) then set_line (splice 0 s (line e)) e else set_wild true e.
Definition draft_strcpy (e : ed) : ed :=
  let s := cstr (line e) ++ [0] in
  if zlen s <=? zlen (draft e) then set_draft (splice 0 s (draft e)) e else set_wild true e.

(** [memmove(&line[dst], &line[src], k)] *)
Definition line_move (dst src k : Z) (e : ed) : ed :=
  if (0 <=? dst) && (0 <=? src) && (0 <=? k) && (dst + k <=? zlen (line e)) && (src + k <=? zlen (line e))
  then set_line (splice (Z.to_nat dst) (slice (Z.to_nat src) (Z.to_nat k) (line e)) (line e)) e
  else set_wild true e.

(** *** Output *)

Definition log_raw (s : list Z) : ME unit := modify (λ e, set_con (con e ++ [s]) e).
Definition log_line (s : list Z) : ME unit := log_raw (Log.log_vline None s).

(** [n] bytes of a buffer that [snprintf] filled: [None], or more bytes than it
    stored, would send what lies behind them *)
Definition log_built (b : option (Z * list Z)) : ME unit :=
  match b with
  | Some (m, out) => if m <=? zlen out then log_raw (take (Z.to_nat m) out) else modify (set_wild true)
  | None => modify (set_wild true)
  end.

Definition sh_prompt : ME unit := log_raw (txt "io> ").

(** ** History *)

(** [Z.to_nat] of an index below [SH_HIST_MAX] *)
Definition hist_slot (e : ed) (i : Z) : list Z := default [] (sh_hist e !! Z.to_nat i).

Definition hist_store (e : ed) : ed :=
  let s := cstr (line e) in
  if negb (sh_hist_len e =? 0) && bool_decide (cstr (hist_slot e (sh_hist_newest e)) = s) then e
  else
    let i := u8 ((sh_hist_newest e + 1) mod SH_HIST_MAX) in
    let e := set_sh_hist_newest i e in
    let e := if zlen s + 1 <=? zlen (hist_slot e i)
             then set_sh_hist (<[Z.to_nat i := splice 0 (s ++ [0]) (hist_slot e i)]> (sh_hist e)) e
             else set_wild true e in
    if sh_hist_len e <? SH_HIST_MAX then set_sh_hist_len (u8 (sh_hist_len e + 1)) e else e.

Definition hist_get (e : ed) (nav : Z) : option (list Z) :=
  if sh_hist_len e <=? nav then None
  else Some (hist_slot e (u8 ((sh_hist_newest e + SH_HIST_MAX - nav) mod SH_HIST_MAX))).

(** ** Redrawing *)

Definition csi_num (k : Z) (c : string) : list Z := 27 :: 91 :: dec k ++ txt c.

Definition sh_redraw : ME unit :=
  e ← gets (λ e, e);
  log_built (emit_all (SH_LINE_MAX + 16)
    ([13 :: txt "io> " ++ take (Z.to_nat (ed_n e)) (cstr (line e)) ++ esc_seq "[K"] ++
     (if ed_pos e <? ed_n e then [csi_num (ed_n e - ed_pos e) "D"] else [])) (0, [])).

(** ** Completion *)

#[local] Set Warnings "-register-all".

Inductive sh_cmd := Cmd (name : list Z) (sub : option (list sh_cmd)).
Definition cmd_name (c : sh_cmd) : list Z := let '(Cmd n _) := c in n.
Definition cmd_sub (c : sh_cmd) : option (list sh_cmd) := let '(Cmd _ s) := c in s.
Definition leaf (s : string) : sh_cmd := Cmd (txt s) None.

Definition io_do_cmds : list sh_cmd := [leaf "set"].
Definition io_rs485_cmds : list sh_cmd := [leaf "baud"; leaf "sid"].
Definition io_can_cmds : list sh_cmd := [leaf "id"; leaf "bps"].
Definition io_cmds : list sh_cmd :=
  [leaf "help"; leaf "info"; leaf "di"; Cmd (txt "do") (Some io_do_cmds); leaf "ai";
   Cmd (txt "rs485") (Some io_rs485_cmds); Cmd (txt "can") (Some io_can_cmds); leaf "ip"; leaf "reg";
   leaf "save"; leaf "factory"].
Definition root_cmds : list sh_cmd := [leaf "help"; leaf "tasks"; leaf "ps"; leaf "reboot"; Cmd (txt "io") (Some io_cmds)].

(** blanks and words at the front of a C string *)
Fixpoint blanks (s : list Z) : nat := match s with c :: s' => if is_blank c then S (blanks s') else O | [] => O end.
Fixpoint word (s : list Z) : list Z :=
  match s with c :: s' => if is_blank c || (c =? 0) then [] else c :: word s' | [] => [] end.

(** a complete word: one level down, or into the arguments *)
Definition descend (tbl : option (list sh_cmd)) (w : list Z) : option (list sh_cmd) :=
  match tbl with
  | Some cs => match List.find (λ c, bool_decide (cmd_name c = w)) cs with Some c => cmd_sub c | None => None end
  | None => None
  end.

(** the candidates for the word at the end of the line, and that word; every
    round passes at least one byte, or is the last *)
Fixpoint level_loop (fuel : nat) (tbl : option (list sh_cmd)) (s : list Z) : option (list sh_cmd) * list Z :=
  match fuel with
  | O => (tbl, [])
  | S fuel =>
    let s := drop (blanks s) s in
    match s with
    | [] => (tbl, [])
    | _ =>
      let w := word s in
      match drop (length w) s with
      | [] => (tbl, w)
      | s' => level_loop fuel (descend tbl w) s'
      end
    end
  end.
Definition complete_level (s : list Z) : option (list sh_cmd) * list Z := level_loop (S (length s)) (Some root_cmds) s.

(** append while more than [room] bytes of the line are free *)
Fixpoint put_chars (room : Z) (s : list Z) : ME unit :=
  match s with
  | [] => mret tt
  | c :: s =>
    e ← gets (λ e, e);
    if ed_n e + room <? SH_LINE_MAX
    then modify (line_poke (ed_n e) c);; modify (set_ed_n (u16 (ed_n e + 1)));; put_chars room s
    else mret tt
  end.

(** the length of the common beginning *)
Fixpoint common (a b : list Z) : nat :=
  match a, b with x :: a, y :: b => if x =? y then S (common a b) else O | _, _ => O end.
Definition lcp (cs : list (list Z)) : list Z :=
  match cs with c0 :: cs => foldl (λ p c, take (common p c) p) c0 cs | [] => [] end.

Fixpoint joined (cs : list (list Z)) (first : bool) : list (list Z) :=
  match cs with [] => [] | c :: cs => ((if first then [] else [32; 32]) ++ c) :: joined cs false end.

Definition matching (cs : list sh_cmd) (w : list Z) : list (list Z) :=
  take 16 (filter (λ name, starts_with w name) (cmd_name <$> cs)).

Definition sh_complete : ME unit :=
  e ← gets (λ e, e);
  let '(tbl, last) := complete_level (cstr (line e)) in
  match tbl with
  | None => mret tt
  | Some cs =>
    match matching cs last with
    | [] => mret tt
    | [c] =>
      put_chars 2 (drop (length last) c);;
      n ← gets ed_n;
      modify (line_poke n 32);;
      modify (set_ed_n (u16 (n + 1)));;
      n ← gets ed_n;
      modify (line_poke n 0);;
      e' ← gets (λ e, e);
      log_raw (slice (Z.to_nat (ed_n e)) (Z.to_nat (ed_n e' - ed_n e)) (line e'))
    | cands =>
      put_chars 1 (drop (length last) (lcp cands));;
      n ← gets ed_n;
      modify (line_poke n 0);;
      log_raw [13; 10];;
      match emit_all 128 (joined cands true) (0, []) with
      | Some (_, row) => log_line row
      | None => modify (set_wild true)
      end;;
      sh_prompt;;
      e' ← gets (λ e, e);
      log_raw (take (Z.to_nat (ed_n e')) (line e'))
    end
  end.

(** ** One character *)

(** show a line of the history, or the draft; [None] when there is none *)
Definition recall (h : option (list Z)) : ME unit :=
  match h with
  | None => mret tt
  | Some h =>
    modify (line_strcpy h);;
    modify (λ e, set_ed_pos (zlen (cstr h)) (set_ed_n (zlen (cstr h)) e));;
    sh_redraw
  end.

Definition sh_arrow (c : Z) : ME unit :=
  e ← gets (λ e, e);
  if c =? 67 then
    if ed_pos e <? ed_n e then modify (set_ed_pos (ed_pos e + 1));; log_raw (esc_seq "[C") else mret tt
  else if c =? 68 then
    if 0 <? ed_pos e then modify (set_ed_pos (ed_pos e - 1));; log_raw (esc_seq "[D") else mret tt
  else if c =? 65 then
    (if nav e <? 0 then modify draft_strcpy;; modify (set_nav 0)
     else if nav e + 1 <? sh_hist_len e then modify (set_nav (nav e + 1)) else mret tt);;
    h ← gets (λ e, hist_get e (u8 (nav e)));
    recall h
  else if nav e <? 0 then mret tt
  else
    modify (set_nav (nav e - 1));;
    h ← gets (λ e, if nav e <? 0 then Some (draft e) else hist_get e (u8 (nav e)));
    recall h.

Definition sh_backspace : ME unit :=
  e ← gets (λ e, e);
  if 0 <? ed_pos e then
    modify (line_move (ed_pos e - 1) (ed_pos e) (ed_n e - ed_pos e));;
    modify (λ e, set_ed_pos (ed_pos e - 1) (set_ed_n (ed_n e - 1) e));;
    modify (λ e, line_poke (ed_n e) 0 e);;
    e ← gets (λ e, e);
    if ed_pos e =? ed_n e then log_raw [8; 32; 8] else sh_redraw
  else mret tt.

Definition sh_tab : ME unit :=
  e ← gets (λ e, e);
  (if ed_pos e <? ed_n e
   then log_built (emit_all 8 [csi_num (ed_n e - ed_pos e) "C"] (0, []));; modify (set_ed_pos (ed_n e))
   else mret tt);;
  sh_complete;;
  modify (λ e, set_ed_pos (ed_n e) e).

Definition sh_insert (c : Z) : ME unit :=
  e ← gets (λ e, e);
  if ed_n e + 2 <? SH_LINE_MAX then
    if ed_pos e =? ed_n e then
      modify (line_poke (ed_n e) c);;
      modify (set_ed_n (u16 (ed_n e + 1)));;
      modify (λ e, set_ed_pos (ed_n e) e);;
      modify (λ e, line_poke (ed_n e) 0 e);;
      log_raw [c]
    else
      modify (line_move (ed_pos e + 1) (ed_pos e) (ed_n e - ed_pos e));;
      modify (line_poke (ed_pos e) c);;
      modify (λ e, set_ed_n (u16 (ed_n e + 1)) (set_ed_pos (u16 (ed_pos e + 1)) e));;
      modify (λ e, line_poke (ed_n e) 0 e);;
      sh_redraw
  else mret tt.

(** Return: [exec] is [sh_dispatch], run on the line once it is in the history *)
Definition sh_return {S} (on_ed : ∀ A, ME A → M S A) (exec : M S unit) (c : Z) : M S unit :=
  on_ed _ (modify (set_prev_cr (c =? 13)));;
  on_ed _ (log_raw [13; 10]);;
  n ← on_ed _ (gets ed_n);
  (if negb (n =? 0)
   then on_ed _ (modify (λ e, set_nav (-1) (hist_store e)));;
        exec;;
        on_ed _ (modify (λ e, line_poke 0 0 (set_ed_pos 0 (set_ed_n 0 e))))
   else mret tt);;
  on_ed _ sh_prompt.

(** [true]: the character is taken care of; [false]: it is Return *)
Definition sh_edit (c : Z) : ME bool :=
  e ← gets (λ e, e);
  if negb (esc e =? 0) then
    if (esc e =? 1) && ((c =? 91) || (c =? 79)) then modify (set_esc 2);; mret true
    else if (esc e =? 2) && (((48 <=? c) && (c <=? 57)) || (c =? 59)) then mret true
    else
      modify (set_esc 0);;
      (if (65 <=? c) && (c <=? 68) then sh_arrow c else mret tt);;
      mret true
  else if c =? 27 then modify (set_esc 1);; mret true
  else if (c =? 10) && prev_cr e then modify (set_prev_cr false);; mret true
  else if (c =? 13) || (c =? 10) then modify (set_prev_cr false);; mret false
  else
    modify (set_prev_cr false);;
    (if (c =? 8) || (c =? 127) then sh_backspace
     else if c =? 9 then sh_tab
     else if (32 <=? c) && (c <? 127) then sh_insert c
     else mret tt);;
    mret true.

(** ** Abstract specification

    What the editor promises, without buffers: the text left and right of the
    cursor, the last commands, newest first, and the line put aside while they are
    looked through. *)

Record aed := mk_aed {
  a_left : list Z; a_right : list Z; a_hist : list (list Z); a_nav : Z; a_draft : list Z; a_esc : Z; a_cr : bool }.

Definition a_text (a : aed) : list Z := a_left a ++ a_right a.

Definition a_put (l r : list Z) (a : aed) : aed := mk_aed l r (a_hist a) (a_nav a) (a_draft a) (a_esc a) (a_cr a).
Definition a_look (nav : Z) (d : list Z) (a : aed) : aed :=
  mk_aed (a_left a) (a_right a) (a_hist a) nav d (a_esc a) (a_cr a).
Definition a_keys (esc : Z) (cr : bool) (a : aed) : aed :=
  mk_aed (a_left a) (a_right a) (a_hist a) (a_nav a) (a_draft a) esc cr.

(** the keys, after escape sequences and line ends are recognised *)
Inductive key := KText (c : Z) | KBack | KTab | KLeft | KRight | KUp | KDown | KReturn | KNone.

#[export] Instance key_eq_dec : EqDecision key.
Proof. solve_decision. Defined.

Definition arrow_key (c : Z) : key :=
  if c =? 67 then KRight else if c =? 68 then KLeft else if c =? 65 then KUp else if c =? 66 then KDown else KNone.

(** the key a byte completes, and the new [esc] and [prev_cr] *)
Definition decode (esc : Z) (cr : bool) (c : Z) : key * Z * bool :=
  if esc =? 0 then
    if c =? 27 then (KNone, 1, cr)
    else if (c =? 10) && cr then (KNone, 0, false)
    else if (c =? 13) || (c =? 10) then (KReturn, 0, false)
    else if (c =? 8) || (c =? 127) then (KBack, 0, false)
    else if c =? 9 then (KTab, 0, false)
    else if (32 <=? c) && (c <? 127) then (KText c, 0, false)
    else (KNone, 0, false)
  else if (esc =? 1) && ((c =? 91) || (c =? 79)) then (KNone, 2, cr)
  else if (esc =? 2) && (((48 <=? c) && (c <=? 57)) || (c =? 59)) then (KNone, 2, cr)
  else (arrow_key c, 0, cr).

Definition a_recall (h : option (list Z)) (a : aed) : aed := match h with Some h => a_put h [] a | None => a end.

Definition a_up (a : aed) : aed :=
  let a := if a_nav a <? 0 then a_look 0 (a_text a) a
           else if a_nav a + 1 <? zlen (a_hist a) then a_look (a_nav a + 1) (a_draft a) a else a in
  a_recall (a_hist a !! Z.to_nat (a_nav a)) a.

Definition a_down (a : aed) : aed :=
  if a_nav a <? 0 then a
  else
    let a := a_look (a_nav a - 1) (a_draft a) a in
    a_recall (if a_nav a <? 0 then Some (a_draft a) else a_hist a !! Z.to_nat (a_nav a)) a.

(** the words a command line has *)
Fixpoint words (s w : list Z) : list (list Z) :=
  match s with
  | [] => if decide (w = []) then [] else [w]
  | c :: s => if is_blank c then (if decide (w = []) then [] else [w]) ++ words s [] else words s (w ++ [c])
  end.
(** the text behind the last blank *)
Fixpoint last_word (s w : list Z) : list Z :=
  match s with [] => w | c :: s => if is_blank c then last_word s [] else last_word s (w ++ [c]) end.

(** the candidates for the last word: the table its predecessors lead to *)
Definition candidates (t : list Z) : list (list Z) :=
  let w := last_word t [] in
  match foldl descend (Some root_cmds) (words (take (length t - length w) t) []) with
  | Some cs => matching cs w
  | None => []
  end.

(** what Tab appends *)
Definition a_ext (t : list Z) : list Z :=
  match candidates t with
  | [] => []
  | [c] => take (94 - length t) (drop (length (last_word t [])) c) ++ [32]
  | cs => take (95 - length t) (drop (length (last_word t [])) (lcp cs))
  end.

Definition a_key (k : key) (a : aed) : aed :=
  match k with
  | KText c => if zlen (a_text a) + 2 <? SH_LINE_MAX then a_put (a_left a ++ [c]) (a_right a) a else a
  | KBack => a_put (removelast (a_left a)) (a_right a) a
  | KLeft => match list.last (a_left a) with Some c => a_put (removelast (a_left a)) (c :: a_right a) a | None => a end
  | KRight => match a_right a with c :: r => a_put (a_left a ++ [c]) r a | [] => a end
  | KUp => a_up a
  | KDown => a_down a
  | KTab => a_put (a_text a ++ a_ext (a_text a)) [] a
  | KReturn | KNone => a
  end.

Definition a_edit (c : Z) (a : aed) : aed :=
  let '(k, esc, cr) := decode (a_esc a) (a_cr a) c in a_key k (a_keys esc cr a).

Definition a_store (t : list Z) (h : list (list Z)) : list (list Z) :=
  if bool_decide (head h = Some t) then h else take 8 (t :: h).

(** after Return: the line is the newest of the history, and empty *)
Definition a_return (c : Z) (a : aed) : aed :=
  let a := a_keys (a_esc a) (c =? 13) a in
  if bool_decide (a_text a = []) then a
  else mk_aed [] [] (a_store (a_text a) (a_hist a)) (-1) (a_draft a) (a_esc a) (a_cr a).

Definition printable : list Z → Prop := Forall (λ c, 32 ≤ c < 127).

(** ** Refinement relation *)

Record hist_rel (hs : list (list Z)) (len newest : Z) (h : list (list Z)) : Prop := mk_hist_rel {
  hr_slots : length hs = 8%nat;
  hr_size : Forall (λ m, zlen m = SH_LINE_MAX) hs;
  hr_len : len = zlen h ∧ len ≤ SH_HIST_MAX;
  hr_newest : 0 ≤ newest < SH_HIST_MAX;
  hr_text : Forall printable h;
  hr_lines : ∀ i t, h !! i = Some t →
    ∃ junk, hs !! Z.to_nat ((newest + SH_HIST_MAX - Z.of_nat i) mod SH_HIST_MAX) = Some (t ++ 0 :: junk) }.

Record ed_rel (e : ed) (a : aed) : Prop := mk_ed_rel {
  r_line : ∃ junk, line e = a_text a ++ 0 :: junk;
  r_size : zlen (line e) = SH_LINE_MAX;
  r_n : ed_n e = zlen (a_text a);
  r_pos : ed_pos e = zlen (a_left a);
  r_text : printable (a_text a);
  r_dsize : zlen (draft e) = SH_LINE_MAX;
  r_dtext : printable (a_draft a);
  r_draft : 0 ≤ nav e → ∃ junk, draft e = a_draft a ++ 0 :: junk;
  r_nav : nav e = a_nav a ∧ -1 ≤ nav e < SH_HIST_MAX;
  r_esc : esc e = a_esc a;
  r_cr : prev_cr e = a_cr a;
  r_hist : hist_rel (sh_hist e) (sh_hist_len e) (sh_hist_newest e) (a_hist a);
  r_wild : wild e = false }.

(** ** Buffers *)

(** lengths *)
Ltac zl := unfold zlen, SH_LINE_MAX, SH_HIST_MAX in *; do 3 (rewrite ?length_app in *; cbn [length] in * ); lia.

Lemma printable_no_nul t : printable t → Forall (λ c, c ≠ 0) t.
Proof. apply Forall_impl. simpl. lia. Qed.

Lemma cstr_text t junk : printable t → cstr (t ++ 0 :: junk) = t.
Proof.
  induction 1 as [|c t Hc _ IH]; [done|]. cbn [cstr app]. replace (c =? 0) with false by lia. by rewrite IH.
Qed.

Lemma insert_middle (l : list Z) x c r i : i = length l → <[i := c]> (l ++ x :: r) = l ++ c :: r.
Proof. intros ->. by induction l as [|y l IH]; [|cbn; f_equal]. Qed.

Lemma poke_ok e l x r c : line e = l ++ x :: r → line_poke (zlen l) c e = set_line (l ++ c :: r) e.
Proof.
  intros Hl. unfold line_poke. rewrite Hl, zlen_app. pose proof (zlen_nonneg l).
  assert (0 < zlen (x :: r)) by (unfold zlen; cbn [length]; lia).
  replace (_ && _) with true by lia.
  f_equal. apply insert_middle. unfold zlen. lia.
Qed.

(** a block of the line moved by one place *)
Lemma move_ok e l src l1 k r1 r0 dst :
  line e = l1 ++ k ++ r1 → dst = zlen l → src = zlen l1 → l ++ r0 = l1 ++ k ++ r1 → (length k <= length r0)%nat →
  line_move dst src (zlen k) e = set_line (l ++ k ++ drop (length k) r0) e.
Proof.
  intros Hl -> -> Hr Hk. unfold line_move. rewrite Hl.
  assert (zlen (l1 ++ k ++ r1) = zlen l1 + zlen k + zlen r1) as Hz by (rewrite !zlen_app; lia).
  assert (zlen l + zlen k <= zlen (l1 ++ k ++ r1)) by (rewrite <- Hr, zlen_app; unfold zlen; lia).
  pose proof (zlen_nonneg l). pose proof (zlen_nonneg l1). pose proof (zlen_nonneg k). pose proof (zlen_nonneg r1).
  replace (_ && _) with true by lia. f_equal.
  assert (slice (Z.to_nat (zlen l1)) (Z.to_nat (zlen k)) (l1 ++ k ++ r1) = k) as ->.
  { unfold slice, zlen. rewrite !Nat2Z.id, drop_app_length. apply take_app_length. }
  unfold splice, zlen. rewrite Nat2Z.id, <- Hr, take_app_length. do 2 f_equal. 
  rewrite drop_app_ge by lia. f_equal. lia.
Qed.

Lemma strcpy_ok e t j : printable t → zlen t < zlen (line e) → line_strcpy (t ++ 0 :: j) e = set_line (t ++ 0 :: drop (length t + 1) (line e)) e.
Proof.
  intros Ht Hl. unfold line_strcpy. rewrite cstr_text by done. rewrite zlen_app. change (zlen [0]) with 1.
  replace (_ <=? _) with true by lia. f_equal. unfold splice. rewrite length_app. cbn [length take app].
  by rewrite <- app_assoc.
Qed.

Lemma draft_strcpy_ok e t j : printable t → line e = t ++ 0 :: j → zlen t < zlen (draft e) →
  draft_strcpy e = set_draft (t ++ 0 :: drop (length t + 1) (draft e)) e.
Proof.
  intros Ht Hl Hd. unfold draft_strcpy. rewrite Hl, cstr_text by done. rewrite zlen_app. change (zlen [0]) with 1.
  replace (_ <=? _) with true by lia. f_equal. unfold splice. rewrite length_app. cbn [length take app].
  by rewrite <- app_assoc.
Qed.

(** ** Output *)

Definition same_but_con (e e' : ed) : Prop := ∃ x, e' = set_con x e.

Lemma rel_con e e' a : ed_rel e a → same_but_con e e' → ed_rel e' a.
Proof. intros [] [x ->]. by split. Qed.

Lemma dec_len k : 0 ≤ k < 100 → 1 ≤ zlen (dec k) ≤ 2.
Proof.
  intros Hk. unfold dec. cbn [dec_digits]. destruct (k <? 10) eqn:E; [by cbn|].
  rewrite (proj2 (Z.ltb_lt (k / 10) 10)) by (apply Z.div_lt_upper_bound; lia). by cbn.
Qed.

Lemma log_built_ok size ps e : zlen (concat ps) < size →
  log_built (emit_all size ps (0, [])) e = (Done tt, set_con (con e ++ [concat ps]) e).
Proof.
  intros Hs. rewrite emit_all_fits by lia. unfold log_built. cbn [app]. rewrite Z.add_0_l, Z.leb_refl.
  unfold zlen. rewrite Nat2Z.id, firstn_all. done.
Qed.

(** what a redraw shows: prompt, line, and the cursor moved back *)
Definition shown (a : aed) : list Z :=
  13 :: txt "io> " ++ a_text a ++ esc_seq "[K" ++ (if bool_decide (a_right a = []) then [] else csi_num (zlen (a_right a)) "D").

Lemma sh_redraw_ok e a : ed_rel e a → sh_redraw e = (Done tt, set_con (con e ++ [shown a]) e).
Proof.
  intros R. destruct (r_line _ _ R) as [j Hj]. pose proof (r_size _ _ R) as Hs.
  unfold sh_redraw, mbind, M_bind, gets. cbv beta iota.
  rewrite Hj, cstr_text by apply R. rewrite (r_n _ _ R), (r_pos _ _ R).
  assert (zlen (a_text a) < 96) as Hn.
  { rewrite Hj, zlen_app in Hs. unfold zlen in *. cbn [length] in Hs. unfold SH_LINE_MAX in *. lia. }
  rewrite (take_ge (a_text a)) by (unfold zlen; lia).
  assert (zlen (a_text a) - zlen (a_left a) = zlen (a_right a)) as Hr by (unfold a_text; rewrite zlen_app; lia).
  assert (0 ≤ zlen (a_left a)) as Hl by apply zlen_nonneg.
  match goal with |- log_built (emit_all _ ?p _) _ = _ => assert (concat p = shown a) as Hc end.
  { unfold shown. cbn [concat app]. f_equal. rewrite <- !app_assoc. do 3 f_equal.
    destruct (a_right a) as [|c r] eqn:E.
    - replace (_ <? _) with false by zl. done.
    - replace (_ <? _) with true by zl. cbn [concat bool_decide].
      rewrite app_nil_r, Hr. done. }
  rewrite log_built_ok, Hc; [done|]. rewrite Hc. unfold shown, SH_LINE_MAX.
  assert (length (if bool_decide (a_right a = []) then [] else csi_num (zlen (a_right a)) "D") ≤ 5)%nat as Ht.
  { destruct (bool_decide _); [cbn; lia|]. unfold csi_num. cbn [length]. rewrite length_app.
    change (length (txt "D")) with 1%nat. pose proof (dec_len (zlen (a_right a))). zl. }
  unfold zlen in *. cbn [length]. rewrite !length_app in *.
  change (length (txt "io> ")) with 4%nat. change (length (esc_seq "[K")) with 3%nat. lia.
Qed.

(** ** The operations implement the specification *)

Lemma redraw_after e a : ed_rel e a → ∃ e', sh_redraw e = (Done tt, e') ∧ ed_rel e' a.
Proof. intros R. eexists. split; [by apply sh_redraw_ok|]. eapply rel_con; [done|by eexists]. Qed.

Lemma text_lt e a : ed_rel e a → zlen (a_text a) < SH_LINE_MAX.
Proof. intros R. destruct (r_line _ _ R) as [j Hj]. pose proof (r_size _ _ R) as Hs. rewrite Hj in Hs. zl. Qed.

(** all but the line and what is printed *)
Definition same_rest (e e' : ed) : Prop :=
  draft e' = draft e ∧ esc e' = esc e ∧ nav e' = nav e ∧ prev_cr e' = prev_cr e ∧ sh_hist e' = sh_hist e ∧
  sh_hist_len e' = sh_hist_len e ∧ sh_hist_newest e' = sh_hist_newest e ∧ wild e' = wild e.

Lemma rel_put e e' a l r j :
  ed_rel e a → line e' = (l ++ r) ++ 0 :: j → zlen (line e') = SH_LINE_MAX → ed_n e' = zlen (l ++ r) →
  ed_pos e' = zlen l → printable (l ++ r) →
  same_rest e e' →
  ed_rel e' (a_put l r a).
Proof.
  intros [] Hl Hs Hn Hp Ht Hsame. destruct e, e'. unfold same_rest in Hsame. simpl in *. destruct Hsame as (-> & -> & -> & -> & -> & -> & -> & ->).
  split; simpl; eauto.
Qed.

Lemma text_spare e a k : ed_rel e a → zlen (a_text a) + Z.of_nat k < SH_LINE_MAX →
  ∃ spare junk, length spare = k ∧ line e = a_text a ++ 0 :: spare ++ junk.
Proof.
  intros R Hk. destruct (r_line _ _ R) as [j Hj]. pose proof (r_size _ _ R) as Hs. rewrite Hj in Hs |- *.
  exists (take k j), (drop k j). rewrite take_drop, length_take. split; [|done]. zl.
Qed.

Lemma insert_ok e a c : ed_rel e a → 32 ≤ c < 127 →
  ∃ e', sh_insert c e = (Done tt, e') ∧ ed_rel e' (a_key (KText c) a).
Proof.
  intros R Hc. unfold sh_insert, a_key, mbind, M_bind, gets, modify. cbv beta iota.
  rewrite (r_n _ _ R), (r_pos _ _ R). destruct (zlen (a_text a) + 2 <? SH_LINE_MAX) eqn:E; [|by eexists].
  destruct (text_spare e a 1 R) as ([|x [|]] & j & Hk & Hj); [lia|done| |done]. cbn [app] in Hj.
  pose proof (zlen_nonneg (a_text a)). pose proof (r_size _ _ R) as Hs. pose proof (r_text _ _ R) as Hp.
  destruct (a_right a) as [|h r] eqn:Er.
  - unfold a_text in *. rewrite Er, app_nil_r in *. rewrite Z.eqb_refl.
    rewrite (poke_ok e (a_left a) 0 (x :: j)) by done. cbn -[line_poke u16 zlen].
    rewrite (u16_id (_ + 1)) by (unfold SH_LINE_MAX in *; ulia). rewrite <- (zlen_app _ [c]).
    rewrite (poke_ok _ (a_left a ++ [c]) x j) by (cbn; by rewrite <- app_assoc). eexists. split; [reflexivity|].
    eapply (rel_put e _ _ (a_left a ++ [c]) [] j R); rewrite ?app_nil_r; try done.
    + cbn. rewrite Hj in Hs. zl.
    + apply Forall_app; split; [done|by apply Forall_singleton].
  - unfold a_text in *. rewrite Er in *. rewrite !zlen_app in *.
    replace (zlen (a_left a) =? zlen (a_left a) + zlen (h :: r)) with false by zl.
    replace (zlen (a_left a) + zlen (h :: r) - zlen (a_left a)) with (zlen (h :: r)) by lia.
    rewrite (move_ok e (a_left a ++ [h]) _ (a_left a) (h :: r) (0 :: x :: j) (r ++ 0 :: x :: j));
      [|rewrite Hj, <- app_assoc; done|rewrite zlen_app; done|done|by rewrite <- !app_assoc|zl].
    cbn -[line_poke u16 zlen]. rewrite <- (app_assoc (a_left a) [h]). cbn [app].
    rewrite (poke_ok _ (a_left a) h _ c) by done. cbn -[line_poke u16 zlen].
    rewrite (r_n _ _ R), (r_pos _ _ R). unfold a_text. rewrite Er, zlen_app.
    rewrite !u16_id by (unfold SH_LINE_MAX in *; pose proof (zlen_nonneg (a_left a)); pose proof (zlen_nonneg (h :: r)); ulia).
    replace (drop (S (length r)) (r ++ 0 :: x :: j)) with (x :: j) by (rewrite drop_app_ge by lia; by replace (S (length r) - length r)%nat with 1%nat by lia).
    replace (zlen (a_left a) + zlen (h :: r) + 1) with (zlen (a_left a ++ c :: h :: r)) by zl.
    rewrite (poke_ok _ (a_left a ++ c :: h :: r) x j 0) by (cbn; by rewrite <- app_assoc).
    apply redraw_after. eapply (rel_put e _ _ (a_left a ++ [c]) (h :: r) j R); rewrite <- ?app_assoc; try done.
    + cbn. rewrite Hj in Hs. zl.
    + cbn. zl.
    + apply Forall_app in Hp as [Hl Hr]. apply Forall_app; split; [done|by constructor].
Qed.

Lemma drop_shift (k : list Z) c m : ∃ y, drop (length k) (c :: k ++ m) = y :: m.
Proof. revert c. induction k as [|d k IH]; intros c; [by exists c|]. apply IH. Qed.

Lemma back_ok e a : ed_rel e a → ∃ e', sh_backspace e = (Done tt, e') ∧ ed_rel e' (a_key KBack a).
Proof.
  intros R. unfold sh_backspace, a_key, mbind, M_bind, gets, modify. cbv beta iota.
  rewrite (r_pos _ _ R). destruct (r_line _ _ R) as [j Hj].
  pose proof (r_size _ _ R) as Hs. pose proof (r_text _ _ R) as Hp. pose proof (r_n _ _ R) as Hn. unfold a_text in *.
  induction (a_left a) as [|c l _] eqn:El using rev_ind.
  { eexists. split; [reflexivity|]. destruct a; simpl in *. by subst. }
  rewrite removelast_last, Hn. replace (0 <? zlen (l ++ [c])) with true by zl.
  destruct (drop_shift (a_right a) c (0 :: j)) as [y Hy].
  replace (zlen ((l ++ [c]) ++ a_right a) - zlen (l ++ [c])) with (zlen (a_right a)) by zl.
  rewrite (move_ok e l _ (l ++ [c]) (a_right a) (0 :: j) (c :: a_right a ++ 0 :: j));
    [|rewrite Hj, <- app_assoc; done|zl|done|by rewrite <- app_assoc|zl].
  rewrite Hy. cbn -[line_poke u16 zlen]. rewrite Hn, (r_pos _ _ R), El.
  replace (zlen ((l ++ [c]) ++ a_right a) - 1) with (zlen (l ++ a_right a)) by zl.
  rewrite (poke_ok _ (l ++ a_right a) y (0 :: j) 0) by (by rewrite <- app_assoc).
  cbn -[line_poke u16 zlen]. replace (zlen (l ++ [c]) - 1) with (zlen l) by zl.
  match goal with |- context[sh_redraw] => idtac end.
  assert (∀ e', line e' = (l ++ a_right a) ++ 0 :: 0 :: j → ed_n e' = zlen (l ++ a_right a) → ed_pos e' = zlen l →
                same_rest e e' → ed_rel e' (a_put l (a_right a) a)) as HR.
  { intros e' E1 E2 E3 E4. eapply (rel_put e _ _ _ _ (0 :: j) R); try done.
    - rewrite E1. rewrite Hj in Hs. zl.
    - apply Forall_app in Hp as [[Hp1 _]%Forall_app Hp2]. by apply Forall_app. }
  destruct (zlen l =? _); [|by apply redraw_after, HR]. eexists. split; [reflexivity|]. by apply HR.
Qed.

Lemma left_ok e a : ed_rel e a → ∃ e', sh_arrow 68 e = (Done tt, e') ∧ ed_rel e' (a_key KLeft a).
Proof.
  intros R. unfold sh_arrow, a_key, mbind, M_bind, gets, modify. cbn -[zlen]. rewrite (r_pos _ _ R).
  pose proof (r_line _ _ R) as [j Hj]. pose proof (r_text _ _ R) as Hp. pose proof (r_n _ _ R) as Hn. unfold a_text in *.
  induction (a_left a) as [|c l _] eqn:El using rev_ind; [by eexists|].
  rewrite last_snoc, removelast_last. replace (0 <? zlen (l ++ [c])) with true by zl.
  eexists. split; [reflexivity|]. rewrite <- app_assoc in Hp, Hn.
  eapply (rel_put e _ _ _ _ j R); try done; cbn; [by rewrite Hj, <- !app_assoc|apply R|zl].
Qed.

Lemma right_ok e a : ed_rel e a → ∃ e', sh_arrow 67 e = (Done tt, e') ∧ ed_rel e' (a_key KRight a).
Proof.
  intros R. unfold sh_arrow, a_key, mbind, M_bind, gets, modify. cbn -[zlen]. rewrite (r_pos _ _ R), (r_n _ _ R).
  pose proof (r_line _ _ R) as [j Hj]. pose proof (r_text _ _ R) as Hp. pose proof (r_n _ _ R) as Hn. unfold a_text in *.
  destruct (a_right a) as [|c r] eqn:Er.
  { rewrite app_nil_r, Z.ltb_irrefl. by eexists. }
  replace (_ <? _) with true by zl. eexists. split; [reflexivity|].
  replace (a_left a ++ c :: r) with ((a_left a ++ [c]) ++ r) in * by (by rewrite <- app_assoc).
  eapply (rel_put e _ _ _ _ j R); try done; cbn; [apply R|zl].
Qed.

(** *** History *)

Lemma hist_get_ok e a k : ed_rel e a → 0 ≤ k < SH_HIST_MAX →
  match a_hist a !! Z.to_nat k with
  | Some t => printable t ∧ zlen t < SH_LINE_MAX ∧ ∃ junk, hist_get e k = Some (t ++ 0 :: junk)
  | None => hist_get e k = None
  end.
Proof.
  intros R Hk. destruct (r_hist _ _ R) as [Hsl Hsz [Hlen Hmax] Hnew Htext Hlines]. unfold hist_get.
  destruct (a_hist a !! Z.to_nat k) as [t|] eqn:Et.
  - split; [by eapply Forall_lookup_1 in Htext|]. destruct (Hlines _ _ Et) as [j Hj]. apply lookup_lt_Some in Et.
    rewrite Z2Nat.id in Hj by lia. split.
    + eapply Forall_lookup_1 in Hsz; [|exact Hj]. simpl in Hsz. zl.
    + exists j. replace (sh_hist_len e <=? k) with false by zl.
      unfold hist_slot. rewrite u8_id by (pose proof (Z.mod_pos_bound (sh_hist_newest e + SH_HIST_MAX - k) SH_HIST_MAX); unfold SH_HIST_MAX in *; ulia).
      by rewrite Hj.
  - apply lookup_ge_None_1 in Et. by replace (sh_hist_len e <=? k) with true by zl.
Qed.

Lemma recall_ok e a t j : ed_rel e a → printable t → zlen t < SH_LINE_MAX →
  ∃ e', recall (Some (t ++ 0 :: j)) e = (Done tt, e') ∧ ed_rel e' (a_put t [] a).
Proof.
  intros R Ht Hl. unfold recall, mbind, M_bind, modify. cbv beta iota. rewrite cstr_text by done.
  pose proof (r_size _ _ R) as Hs. rewrite strcpy_ok by (done || zl). apply redraw_after.
  eapply (rel_put e _ _ t []); try done; cbn; rewrite ?app_nil_r; try done.
  unfold zlen. rewrite length_app. cbn [length]. rewrite length_drop. zl.
Qed.

Lemma recall_hist_ok e a k : ed_rel e a → 0 ≤ k < SH_HIST_MAX →
  ∃ e', recall (hist_get e k) e = (Done tt, e') ∧ ed_rel e' (a_recall (a_hist a !! Z.to_nat k) a).
Proof.
  intros R Hk. pose proof (hist_get_ok e a k R Hk) as Hg. destruct (a_hist a !! Z.to_nat k) as [t|].
  - destruct Hg as (Ht & Hl & j & ->). by apply recall_ok.
  - rewrite Hg. by eexists.
Qed.

Lemma rel_look e e' a nv d : ed_rel e a → e' = set_nav nv (set_draft (draft e') e) → -1 ≤ nv < SH_HIST_MAX →
  zlen (draft e') = SH_LINE_MAX → printable d → (0 ≤ nv → ∃ junk, draft e' = d ++ 0 :: junk) →
  ed_rel e' (a_look nv d a).
Proof. intros [] -> Hn Hs Hp Hd. by split. Qed.

Lemma up_ok e a : ed_rel e a → ∃ e', sh_arrow 65 e = (Done tt, e') ∧ ed_rel e' (a_key KUp a).
Proof.
  intros R. unfold sh_arrow, a_key, a_up, mbind, M_bind, gets, modify. cbn -[zlen draft_strcpy].
  destruct (r_nav _ _ R) as [En Hn]. rewrite <- En. pose proof (r_hist _ _ R) as [_ _ [Hlen Hmax] _ _ _].
  assert (∀ e1 a1, ed_rel e1 a1 → 0 ≤ a_nav a1 →
    ∃ e', recall (hist_get e1 (u8 (nav e1))) e1 = (Done (), e') ∧ ed_rel e' (a_recall (a_hist a1 !! Z.to_nat (a_nav a1)) a1)) as Hr.
  { intros e1 a1 R1 H1. destruct (r_nav _ _ R1) as [E1 Hb]. rewrite <- E1 in *. rewrite u8_id by (unfold SH_HIST_MAX in *; ulia).
    apply recall_hist_ok; [done|lia]. }
  destruct (nav e <? 0) eqn:E0.
  - destruct (r_line _ _ R) as [j Hj]. pose proof (text_lt _ _ R). pose proof (r_dsize _ _ R) as Hd.
    rewrite (draft_strcpy_ok e (a_text a) j) by (apply R || done || zl).
    apply (Hr _ (a_look 0 (a_text a) a)); [|done].
    eapply rel_look; [exact R|done|done| |apply R|by eexists]. cbn -[zlen].
    unfold zlen. rewrite length_app. cbn [length]. rewrite length_drop. zl.
  - rewrite <- Hlen. destruct (nav e + 1 <? sh_hist_len e) eqn:E1.
    + apply (Hr _ (a_look (nav e + 1) (a_draft a) a)); [|cbn; lia].
      eapply rel_look; [exact R|destruct e; done|lia|apply R..|intros _; apply R; lia].
    + apply Hr; [done|lia].
Qed.

Lemma down_ok e a : ed_rel e a → ∃ e', sh_arrow 66 e = (Done tt, e') ∧ ed_rel e' (a_key KDown a).
Proof.
  intros R. unfold sh_arrow, a_key, a_down, mbind, M_bind, gets, modify. cbn -[zlen].
  destruct (r_nav _ _ R) as [En Hn]. rewrite <- En. destruct (nav e <? 0) eqn:E0; [by eexists|].
  assert (ed_rel (set_nav (nav e - 1) e) (a_look (nav e - 1) (a_draft a) a)) as R1.
  { eapply rel_look; [exact R|destruct e; done|lia|apply R..|intros _; apply R; lia]. }
  cbn -[zlen]. destruct (nav e - 1 <? 0) eqn:E1.
  - destruct (r_draft _ _ R) as [j Hj]; [lia|]. rewrite Hj. apply recall_ok; [done|apply R|].
    pose proof (r_dsize _ _ R) as Hd. rewrite Hj in Hd. zl.
  - rewrite u8_id by (unfold SH_HIST_MAX in *; ulia). apply recall_hist_ok with (a := a_look (nav e - 1) (a_draft a) a); [done|lia].
Qed.

(** *** Completion: the table and the word it works on *)

Definition all_blank : list Z → Prop := Forall (λ c, is_blank c = true).
Definition no_blank : list Z → Prop := Forall (λ c, is_blank c = false).
Definition stops_word (s : list Z) : Prop := match s with [] => True | c :: _ => is_blank c = true end.

Lemma blanks_spec s : ∃ b s1, s = b ++ s1 ∧ all_blank b ∧ blanks s = length b ∧
  match s1 with [] => True | c :: _ => is_blank c = false end.
Proof.
  induction s as [|c s (b & s1 & -> & Hb & Hl & H1)]; [exists [], []; split_and!; by try constructor|]. cbn [blanks].
  destruct (is_blank c) eqn:E; [|exists [], (c :: b ++ s1); split_and!; by try constructor].
  exists (c :: b), s1. split_and!; [done|by constructor|cbn; by rewrite Hl|done].
Qed.

Lemma word_spec s : Forall (λ c, c ≠ 0) s → ∃ s2, s = word s ++ s2 ∧ no_blank (word s) ∧ stops_word s2.
Proof.
  induction 1 as [|c s Hc _ (s2 & Es & Hw & H2)]; [exists []; split_and!; by try constructor|]. cbn [word].
  replace (c =? 0) with false by lia. rewrite orb_false_r. destruct (is_blank c) eqn:E.
  - exists (c :: s). split_and!; by try constructor.
  - exists s2. cbn. rewrite <- Es. split_and!; [done|by constructor|done].
Qed.

Lemma words_blank b x : all_blank b → words (b ++ x) [] = words x [].
Proof. induction 1 as [|c b Hc _ IH]; [done|]. cbn. by rewrite Hc. Qed.

Lemma words_word w c x acc : no_blank w → is_blank c = true → acc ++ w ≠ [] →
  words (w ++ c :: x) acc = (acc ++ w) :: words (c :: x) [].
Proof.
  intros Hw Hc. revert acc. induction Hw as [|d w Hd _ IH]; intros acc Ha.
  - rewrite app_nil_r in *. cbn. rewrite Hc. by rewrite decide_False.
  - cbn [words app]. rewrite Hd, IH; rewrite <- ?app_assoc; done.
Qed.

Lemma last_word_blank p c x acc : is_blank c = true → last_word (p ++ c :: x) acc = last_word x [].
Proof. intros Hc. revert acc. induction p as [|d p IH]; intros acc; cbn; [by rewrite Hc|]. by case_match. Qed.

Lemma last_word_word w acc : no_blank w → last_word w acc = acc ++ w.
Proof. intros H. revert acc. induction H as [|c w Hc _ IH]; intros acc; cbn; [by rewrite app_nil_r|]. by rewrite Hc, IH, <- app_assoc. Qed.

Lemma last_word_all_blank b : all_blank b → last_word b [] = [].
Proof. induction 1 as [|c b Hc _ IH]; [done|]. cbn. by rewrite Hc. Qed.

Lemma last_word_suffix s acc : no_blank acc → ∃ p, acc ++ s = p ++ last_word s acc ∧ no_blank (last_word s acc).
Proof.
  revert acc. induction s as [|c s IH]; intros acc Ha; [exists []; by rewrite app_nil_r|].
  cbn [last_word]. destruct (is_blank c) eqn:E.
  - destruct (IH [] (Forall_nil _)) as (p & Hp & Hn). exists (acc ++ c :: p). rewrite <- app_assoc. cbn in *. by rewrite <- Hp.
  - destruct (IH (acc ++ [c])) as (p & Hp & Hn); [apply Forall_app; split; [done|by apply Forall_singleton]|].
    exists p. rewrite <- Hp, <- app_assoc. done.
Qed.

(** the loop finds the text behind the last blank, and the table the words
    before it lead to *)
Lemma level_loop_spec fuel tbl s : Forall (λ c, c ≠ 0) s → (length s < fuel)%nat →
  level_loop fuel tbl s =
  (foldl descend tbl (words (take (length s - length (last_word s [])) s) []), last_word s []).
Proof.
  revert tbl s. induction fuel as [|fuel IH]; intros tbl s Hs Hf; [lia|]. cbn [level_loop].
  destruct (blanks_spec s) as (b & s1 & -> & Hb & Hlb & Hnb). rewrite Hlb, drop_app_length.
  apply Forall_app in Hs as [_ Hs]. destruct (word_spec s1 Hs) as (s2 & E1 & Hw & Hst).
  destruct s1 as [|c s1].
  { rewrite app_nil_r, last_word_all_blank by done. cbn [length]. rewrite Nat.sub_0_r, firstn_all.
    pose proof (words_blank b [] Hb) as Hwb. rewrite app_nil_r in Hwb. by rewrite Hwb. }
  remember (c :: s1) as s0 eqn:Es0. set (w := word s0) in *.
  assert (w ≠ []) as Hne.
  { unfold w. rewrite Es0. cbn. rewrite Hnb. rewrite Es0 in Hs. apply list.Forall_cons in Hs as [Hc _].
    by replace (c =? 0) with false by lia. }
  replace (drop (length w) s0) with s2 by (by rewrite E1, drop_app_length).
  assert (∃ c1 s1', s0 = c1 :: s1') as (c1 & s1' & Ec) by eauto. rewrite Ec, <- Ec. clear Ec c1 s1'.
  destruct s2 as [|d s2].
  - rewrite app_nil_r in E1. assert (last_word (b ++ s0) [] = s0) as ->.
    { clear - Hb Hw E1. rewrite <- E1 in Hw. induction Hb as [|x b Hx _ IH]; [by apply last_word_word|]. cbn. by rewrite Hx. }
    rewrite length_app, Nat.add_sub, take_app_length. pose proof (words_blank b [] Hb) as Hwb. rewrite app_nil_r in Hwb.
    rewrite Hwb. by rewrite <- E1.
  - cbn in Hst. assert (Forall (λ c, c ≠ 0) (d :: s2)) as Hs2 by (rewrite E1 in Hs; by apply Forall_app in Hs as [_ Hs]).
    rewrite IH; [|done|rewrite E1, !length_app in Hf; destruct w; [done|cbn [length] in *; lia]].
    rewrite E1. rewrite app_assoc, !last_word_blank by done. rewrite <- app_assoc.
    replace (last_word (d :: s2) []) with (last_word s2 []) by (cbn; by rewrite Hst).
    f_equal. destruct (last_word_suffix s2 [] (Forall_nil _)) as (p & Hp & _). cbn [app] in Hp.
    set (lw := last_word s2 []) in *. 
    assert (∀ q, take (length (q ++ d :: s2) - length lw) (q ++ d :: s2) = q ++ d :: p) as Ht.
    { intros q. rewrite Hp. replace (q ++ d :: p ++ lw) with ((q ++ d :: p) ++ lw) by (by rewrite <- app_assoc).
      rewrite length_app, Nat.add_sub. apply take_app_length. }
    pose proof (Ht (b ++ w)) as Ht1. rewrite <- app_assoc in Ht1. rewrite Ht1. pose proof (Ht []) as Ht2. cbn [app] in Ht2. rewrite Ht2.
    rewrite <- app_assoc, words_blank, words_word by done. done.
Qed.

Lemma complete_level_spec t : printable t →
  complete_level t = (foldl descend (Some root_cmds) (words (take (length t - length (last_word t [])) t) []), last_word t []).
Proof. intros Ht. apply level_loop_spec; [by apply printable_no_nul|lia]. Qed.

(** *** Completion: what is appended *)

(** the tables the words of a line can lead to *)
Definition tables : list (list sh_cmd) := [root_cmds; io_cmds; io_do_cmds; io_rs485_cmds; io_can_cmds].
Definition is_table (tbl : option (list sh_cmd)) : Prop := match tbl with Some cs => cs ∈ tables | None => True end.

Lemma descend_table tbl w : is_table tbl → is_table (descend tbl w).
Proof.
  destruct tbl as [cs|]; [|done]. unfold is_table at 1, tables. rewrite !elem_of_cons, elem_of_nil.
  intros H. unfold descend. destruct (List.find _ cs) as [c|] eqn:E; [|done]. apply List.find_some in E as [Hc _].
  destruct_or!; subst cs; cbn in Hc; destruct_or!; subst; cbn; unfold tables; set_solver.
Qed.

Lemma foldl_table tbl ws : is_table tbl → is_table (foldl descend tbl ws).
Proof. revert tbl. induction ws as [|w ws IH]; intros tbl H; [done|]. by apply IH, descend_table. Qed.

Lemma names_ok cs : cs ∈ tables → Forall printable (cmd_name <$> cs) ∧ (length cs ≤ 11)%nat ∧ zlen (concat (cmd_name <$> cs)) ≤ 38.
Proof.
  unfold tables. rewrite !elem_of_cons, elem_of_nil. intros. destruct_or!; try done; subst;
  (split_and!; [|cbn; lia|by vm_compute]); unfold printable; repeat constructor; cbn; lia.
Qed.

Lemma zlen_concat_filter (P : list Z → Prop) `{!∀ x, Decision (P x)} (l : list (list Z)) : zlen (concat (filter P l)) ≤ zlen (concat l).
Proof. induction l as [|x l IH]; [done|]. rewrite filter_cons. case_decide; cbn [concat]; rewrite ?zlen_app; pose proof (zlen_nonneg x); lia. Qed.

Lemma zlen_concat_take k (l : list (list Z)) : zlen (concat (take k l)) ≤ zlen (concat l).
Proof. rewrite <- (take_drop k l) at 2. rewrite concat_app, zlen_app. pose proof (zlen_nonneg (concat (drop k l))). lia. Qed.

Lemma joined_len cs first : zlen (concat (joined cs first)) ≤ zlen (concat cs) + 2 * zlen cs.
Proof.
  revert first. induction cs as [|c cs IH]; intros first; [done|]. cbn [joined concat]. rewrite !zlen_app. specialize (IH false).
  assert (zlen (if first then [] else [32; 32]) ≤ 2) by (by destruct first). unfold zlen in *. cbn [length]. lia.
Qed.

(** the candidates are names of commands that begin with the word *)
Lemma matching_ok cs w : cs ∈ tables →
  Forall (λ c, printable c ∧ take (length w) c = w) (matching cs w) ∧ zlen (concat (joined (matching cs w) true)) < 128.
Proof.
  intros Hcs. destruct (names_ok cs Hcs) as (Hp & Hl & Hz). unfold matching. split.
  - apply Forall_take, list.Forall_forall. intros c [Hw Hc]%list_elem_of_filter. split.
    + by eapply list.Forall_forall in Hp.
    + unfold starts_with in Hw. by apply bool_decide_unpack in Hw.
  - pose proof (joined_len (take 16 (filter (λ name, starts_with w name) (cmd_name <$> cs))) true) as Hj.
    pose proof (zlen_concat_take 16 (filter (λ name, starts_with w name) (cmd_name <$> cs))).
    pose proof (zlen_concat_filter (λ name, starts_with w name) (cmd_name <$> cs)).
    assert (zlen (take 16 (filter (λ name, starts_with w name) (cmd_name <$> cs))) ≤ 11).
    { unfold zlen. rewrite length_take. pose proof (length_filter (λ name, starts_with w name) (cmd_name <$> cs)) as Hf.
      rewrite length_fmap in Hf. lia. }
    lia.
Qed.

Lemma common_prefix a b : take (common a b) a `prefix_of` a ∧ take (common a b) a `prefix_of` b.
Proof.
  split; [exists (drop (common a b) a); by rewrite take_drop|]. revert b.
  induction a as [|x a IH]; intros [|y b]; cbn; try apply prefix_nil.
  destruct (x =? y) eqn:E; [|apply prefix_nil]. apply Z.eqb_eq in E as ->. cbn. by apply prefix_cons.
Qed.

Lemma common_longest p a b : p `prefix_of` a → p `prefix_of` b → p `prefix_of` take (common a b) a.
Proof.
  intros [a' ->] [b' ->]. induction p as [|x p IH]; [apply prefix_nil|]. cbn. rewrite Z.eqb_refl. cbn. by apply prefix_cons.
Qed.

(** the longest text all candidates begin with *)
Lemma lcp_spec cs : cs ≠ [] →
  (∀ c, c ∈ cs → lcp cs `prefix_of` c) ∧ (∀ p, (∀ c, c ∈ cs → p `prefix_of` c) → p `prefix_of` lcp cs).
Proof.
  destruct cs as [|c0 cs]; [done|]. intros _. cbn [lcp]. revert c0.
  induction cs as [|c cs IH]; intros c0; cbn [foldl].
  - split; [by intros c ->%list_elem_of_singleton|]. intros p Hp. apply Hp. by left.
  - destruct (IH (take (common c0 c) c0)) as [H1 H2]. destruct (common_prefix c0 c) as [Hc0 Hc].
    assert (foldl (λ p c, take (common p c) p) (take (common c0 c) c0) cs `prefix_of` take (common c0 c) c0) as Hf by (apply H1; by left).
    split.
    + intros d. rewrite !elem_of_cons. intros [->|[->|Hd]]; [by etrans|by etrans|]. apply H1. by right.
    + intros p Hp. apply H2. intros d. rewrite elem_of_cons. intros [->|Hd]; [|apply Hp; do 2 right; done].
      apply common_longest; apply Hp; [by left|right; by left].
Qed.

Lemma put_chars_ok room s e t j : line e = t ++ j → zlen (line e) = SH_LINE_MAX → ed_n e = zlen t → 1 ≤ room ≤ 96 →
  ∃ e' j', put_chars room s e = (Done tt, e') ∧ line e' = (t ++ take (Z.to_nat (96 - room) - length t) s) ++ j' ∧
    zlen (line e') = SH_LINE_MAX ∧ ed_n e' = zlen (t ++ take (Z.to_nat (96 - room) - length t) s) ∧
    ed_pos e' = ed_pos e ∧ same_rest e e'.
Proof.
  revert e t j. induction s as [|c s IH]; intros e t j Hl Hz Hn Hr; cbn [put_chars].
  { exists e, j. by rewrite take_nil, app_nil_r. }
  unfold mbind at 1, M_bind at 1, gets, modify. cbv beta iota. rewrite Hn.
  destruct (zlen t + room <? SH_LINE_MAX) eqn:E.
  - destruct j as [|x j]; [rewrite app_nil_r in Hl; rewrite Hl in Hz; zl|].
    unfold mbind at 1, M_bind at 1. rewrite (poke_ok e t x j) by done. unfold mbind at 1, M_bind at 1.
    rewrite u16_id by (unfold SH_LINE_MAX in *; pose proof (zlen_nonneg t); ulia).
    destruct (IH (set_ed_n (zlen t + 1) (set_line (t ++ c :: j) e)) (t ++ [c]) j) as (e' & j' & H1 & H2 & H3 & H4 & H5 & H6).
    + cbn. by rewrite <- app_assoc.
    + cbn. rewrite Hl in Hz. zl.
    + cbn. zl.
    + done.
    + exists e', j'. rewrite H1. split; [done|].
      replace (take (Z.to_nat (96 - room) - length t) (c :: s)) with (c :: take (Z.to_nat (96 - room) - length (t ++ [c])) s)
        by (rewrite length_app; cbn [length]; replace (Z.to_nat (96 - room) - length t)%nat with (S (Z.to_nat (96 - room) - (length t + 1))) by zl; done).
      rewrite <- !app_assoc in *. cbn [app] in *. by split_and!.
  - replace (Z.to_nat (96 - room) - length t)%nat with O by zl. rewrite take_0, app_nil_r. exists e, j. by split_and!.
Qed.

(** room for the space behind a completed word *)
Definition tab_fits (t : list Z) : Prop := zlen t < SH_LINE_MAX - 1 ∨ length (candidates t) ≠ 1%nat.

Lemma candidates_ok t :
  Forall (λ c, printable c ∧ take (length (last_word t [])) c = last_word t []) (candidates t) ∧
  zlen (concat (joined (candidates t) true)) < 128.
Proof.
  unfold candidates. pose proof (foldl_table (Some root_cmds) (words (take (length t - length (last_word t [])) t) [])) as Ht.
  destruct (foldl _ _ _) as [cs|]; [|by split]. apply matching_ok, Ht. by left.
Qed.

Lemma lcp_printable cs : Forall printable cs → printable (lcp cs).
Proof.
  destruct cs as [|c cs]; [by constructor|]. intros [Hc _]%list.Forall_cons.
  destruct (lcp_spec (c :: cs)) as [H _]; [done|]. destruct (H c) as [q Hq]; [by left|]. rewrite Hq in Hc. by apply Forall_app in Hc as [? _].
Qed.

Lemma a_ext_printable t : printable (a_ext t).
Proof.
  destruct (candidates_ok t) as [Hc _]. unfold a_ext. destruct (candidates t) as [|c [|d cs]]; [by constructor| |].
  - apply list.Forall_cons in Hc as [[Hc _] _]. apply Forall_app; split; [by apply Forall_take, Forall_drop|by apply Forall_singleton].
  - apply Forall_take, Forall_drop, lcp_printable. revert Hc. apply Forall_impl. by intros ? [].
Qed.

Lemma log_line_run s e : log_line s e = (Done tt, set_con (con e ++ [Log.log_vline None s]) e).
Proof. done. Qed.

Lemma complete_ok e t j : line e = t ++ 0 :: j → zlen (line e) = SH_LINE_MAX → ed_n e = zlen t → printable t → tab_fits t →
  ∃ e' j', sh_complete e = (Done tt, e') ∧ line e' = (t ++ a_ext t) ++ 0 :: j' ∧ zlen (line e') = SH_LINE_MAX ∧
    ed_n e' = zlen (t ++ a_ext t) ∧ same_rest e e'.
Proof.
  intros Hl Hz Hn Ht Hfit. unfold sh_complete. unfold mbind at 1, M_bind at 1, gets at 1. cbv beta iota.
  rewrite Hl, cstr_text, complete_level_spec by done.
  destruct (candidates_ok t) as [Hc Hj]. unfold tab_fits, a_ext in *. unfold candidates in Hc, Hj, Hfit |- *.
  destruct (foldl _ _ _) as [cs|]; [|exists e, j; by rewrite app_nil_r].
  destruct (matching cs _) as [|c [|d ds]] eqn:Em.
  - exists e, j. by rewrite app_nil_r.
  - cbn [length] in Hfit. assert (zlen t < 95) by (unfold SH_LINE_MAX in *; lia).
    destruct (put_chars_ok 2 (drop (length (last_word t [])) c) e t (0 :: j)) as (e1 & j1 & E & H1 & H2 & H3 & H4 & H5); [done..|lia|].
    unfold mbind at 1, M_bind at 1. rewrite E. set (t1 := t ++ take _ _) in *.
    assert (zlen t1 ≤ 94) as Ht1 by (unfold t1; rewrite zlen_app; unfold zlen; rewrite length_take; zl).
    destruct j1 as [|x [|y j1]]; [rewrite H1 in H2; zl..|].
    unfold mbind, M_bind, gets, modify. cbv beta iota. rewrite !H3.
    rewrite (poke_ok e1 t1 x (y :: j1)) by done. rewrite u16_id by (pose proof (zlen_nonneg t1); ulia).
    cbn -[line_poke log_raw zlen]. replace (zlen t1 + 1) with (zlen (t1 ++ [32])) by zl.
    rewrite (poke_ok _ (t1 ++ [32]) y j1) by (cbn; by rewrite <- app_assoc).
    eexists _, j1. split; [reflexivity|]. cbn. unfold t1 in *. rewrite <- !app_assoc in *. cbn in *. rewrite H1 in H2.
    split_and!; try done. zl.
  - destruct (put_chars_ok 1 (drop (length (last_word t [])) (lcp (c :: d :: ds))) e t (0 :: j)) as (e1 & j1 & E & H1 & H2 & H3 & H4 & H5); [done..|lia|].
    unfold mbind at 1, M_bind at 1. rewrite E. set (t1 := t ++ take _ _) in *.
    assert (zlen t1 ≤ 95) as Ht1 by (unfold t1; rewrite zlen_app; unfold zlen; rewrite length_take; rewrite Hl in Hz; zl).
    destruct j1 as [|x j1]; [rewrite H1 in H2; zl|].
    unfold mbind, M_bind, gets, modify, sh_prompt. cbv beta iota. rewrite !H3, (poke_ok e1 t1 x j1) by done.
    rewrite emit_all_fits by lia. eexists _, j1. split; [reflexivity|]. cbn. rewrite H1 in H2. split_and!; try done. zl.
Qed.

Lemma tab_ok e a : ed_rel e a → tab_fits (a_text a) → ∃ e', sh_tab e = (Done tt, e') ∧ ed_rel e' (a_key KTab a).
Proof.
  intros R Hfit. unfold sh_tab. unfold mbind at 1, M_bind at 1, gets at 1. cbv beta iota.
  assert (∃ e1, (if ed_pos e <? ed_n e then log_built (emit_all 8 [csi_num (ed_n e - ed_pos e) "C"] (0, []));; modify (set_ed_pos (ed_n e))
                 else mret tt) e = (Done tt, e1) ∧ line e1 = line e ∧ ed_n e1 = ed_n e ∧ same_rest e e1) as (e1 & E1 & Hl1 & Hn1 & S1).
  { destruct (_ <? _) eqn:E; [|by eexists]. unfold mbind, M_bind. rewrite log_built_ok; [by eexists|].
    unfold csi_num. cbn [concat]. rewrite app_nil_r. pose proof (dec_len (ed_n e - ed_pos e)) as Hd.
    pose proof (text_lt _ _ R). rewrite (r_n _ _ R), (r_pos _ _ R) in *. pose proof (zlen_nonneg (a_left a)).
    unfold zlen at 1. cbn [length]. rewrite length_app. change (length (txt "C")) with 1%nat. zl. }
  rewrite (bind_done _ _ _ _ _ E1). destruct (r_line _ _ R) as [j Hj].
  destruct (complete_ok e1 (a_text a) j) as (e2 & j2 & E2 & H1 & H2 & H3 & H4); [congruence|rewrite Hl1; apply R|rewrite Hn1; apply R|apply R|done|].
  rewrite (bind_done _ _ _ _ _ E2). eexists. split; [reflexivity|].
  eapply (rel_put e _ _ _ [] j2 R); rewrite ?app_nil_r; try done.
  - apply Forall_app; split; [apply R|apply a_ext_printable].
  - unfold same_rest in *. cbn. destruct_and!. split_and!; congruence.
Qed.

(** *** Any byte *)

Lemma rel_esc e a x : ed_rel e a → ed_rel (set_esc x e) (a_keys x (a_cr a) a).
Proof. intros []. by split. Qed.

Lemma rel_cr e a x : ed_rel e a → ed_rel (set_prev_cr x e) (a_keys (a_esc a) x a).
Proof. intros []. by split. Qed.

Lemma then_true (m : ME unit) e a : (∃ e', m e = (Done tt, e') ∧ ed_rel e' a) →
  ∃ e', (m;; mret true) e = (Done true, e') ∧ ed_rel e' a.
Proof. intros (e' & E & R). exists e'. by rewrite (bind_done _ _ _ _ _ E). Qed.

Lemma arrow_ok e a c : ed_rel e a →
  ∃ e', (if (65 <=? c) && (c <=? 68) then sh_arrow c else mret tt) e = (Done tt, e') ∧ ed_rel e' (a_key (arrow_key c) a).
Proof.
  intros R. unfold arrow_key. destruct (Z.eqb_spec c 67) as [->|]; [by apply right_ok|].
  destruct (Z.eqb_spec c 68) as [->|]; [by apply left_ok|]. destruct (Z.eqb_spec c 65) as [->|]; [by apply up_ok|].
  destruct (Z.eqb_spec c 66) as [->|]; [by apply down_ok|].
  replace (_ && _) with false by lia. by eexists.
Qed.

Lemma edit_ok e a c : ed_rel e a → ((decode (a_esc a) (a_cr a) c).1.1 = KTab → tab_fits (a_text a)) →
  ∃ e', sh_edit c e = (Done (bool_decide ((decode (a_esc a) (a_cr a) c).1.1 ≠ KReturn)), e') ∧ ed_rel e' (a_edit c a).
Proof.
  intros R Hfit. unfold sh_edit, a_edit, decode in *. unfold mbind at 1, M_bind at 1, gets at 1. cbv beta iota.
  rewrite (r_esc _ _ R), (r_cr _ _ R). destruct (a_esc a =? 0) eqn:E0; cbn [negb] in *.
  - pose proof (rel_cr _ _ false R) as Rc. apply Z.eqb_eq in E0. rewrite E0 in Rc.
    destruct (c =? 27); [eexists; split; [reflexivity|]; by apply rel_esc|].
    destruct ((c =? 10) && a_cr a); [eexists; by split|].
    destruct ((c =? 13) || (c =? 10)); [eexists; by split|].
    unfold mbind at 1, M_bind at 1, modify at 1. cbv beta iota.
    destruct ((c =? 8) || (c =? 127)); [by apply then_true, back_ok|].
    destruct (c =? 9); [by apply then_true, tab_ok, Hfit|].
    destruct ((32 <=? c) && (c <? 127)) eqn:Et; [apply then_true, insert_ok; [done|lia]|]. eexists; by split.
  - assert (∀ a', a_esc a' = a_esc a → a_cr a' = a_cr a → ed_rel e a' → ed_rel e (a_keys (a_esc a) (a_cr a) a')) as Hk.
    { intros a' H1 H2 []. by split; rewrite ?H1, ?H2 in *. }
    destruct ((a_esc a =? 1) && _); [eexists; split; [reflexivity|]; by apply rel_esc|].
    destruct (_ && _) eqn:E2; [eexists; split; [by rewrite bool_decide_eq_true_2|]|].
    + apply andb_true_iff in E2 as [E2%Z.eqb_eq _]. rewrite <- E2 at 1. by apply Hk.
    + unfold mbind at 1, M_bind at 1, modify at 1. cbv beta iota. cbn [fst].
      rewrite bool_decide_eq_true_2 by (unfold arrow_key; by repeat case_match).
      apply then_true, arrow_ok. by apply rel_esc.
Qed.

(** *** Return *)

Lemma hist_push hs len newest h t slot i :
  hist_rel hs len newest h → printable t → (∃ junk, slot = t ++ 0 :: junk) → zlen slot = SH_LINE_MAX →
  i = (newest + 1) mod 8 →
  hist_rel (<[Z.to_nat i := slot]> hs) (if len <? SH_HIST_MAX then len + 1 else len) i (take 8 (t :: h)).
Proof.
  intros [Hsl Hsz [Hlen Hmax] Hnew Htext Hlines] Ht [j Hj] Hz Hi.
  assert (0 ≤ i < 8) as Hi8 by (rewrite Hi; apply Z.mod_pos_bound; lia).
  assert (zlen (take 8 (t :: h)) = Z.min 8 (len + 1)) as Hn by (unfold zlen; rewrite length_take; zl).
  split; [by rewrite length_insert|by apply Forall_insert| |done|by apply Forall_take, list.Forall_cons|].
  - rewrite Hn. unfold SH_HIST_MAX in *. destruct (len <? 8) eqn:E; lia.
  - intros k t' Hk. assert (k < 8)%nat by (apply lookup_lt_Some in Hk; rewrite length_take in Hk; lia).
    rewrite lookup_take_lt in Hk by lia. unfold SH_HIST_MAX in *. destruct k as [|k].
    + injection Hk as <-. exists j. replace ((i + 8 - Z.of_nat 0) mod 8) with i by (Z.div_mod_to_equations; lia).
      rewrite list_lookup_insert_eq by lia. by rewrite Hj.
    + cbn in Hk. destruct (Hlines _ _ Hk) as [j' Hj']. exists j'.
      replace ((i + 8 - Z.of_nat (S k)) mod 8) with ((newest + 8 - Z.of_nat k) mod 8) by (Z.div_mod_to_equations; lia).
      rewrite list_lookup_insert_ne; [done|]. rewrite Hi. Z.div_mod_to_equations. lia.
Qed.

Lemma store_ok e a : ed_rel e a → a_text a ≠ [] →
  ed_rel (set_nav (-1) (hist_store e))
    (mk_aed (a_left a) (a_right a) (a_store (a_text a) (a_hist a)) (-1) (a_draft a) (a_esc a) (a_cr a)).
Proof.
  intros R Hne. destruct (r_hist _ _ R) as [Hsl Hsz [Hlen Hmax] Hnew Htext Hlines]. destruct (r_line _ _ R) as [j Hj].
  pose proof (text_lt _ _ R) as Hlt. pose proof (r_text _ _ R) as Ht. 
  set (e2 := hist_store e). 
  assert (hist_rel (sh_hist e2) (sh_hist_len e2) (sh_hist_newest e2) (a_store (a_text a) (a_hist a)) ∧
          wild e2 = false ∧ line e2 = line e ∧ ed_n e2 = ed_n e ∧ ed_pos e2 = ed_pos e ∧ draft e2 = draft e ∧ esc e2 = esc e ∧ prev_cr e2 = prev_cr e) as Hh.
  2: { destruct Hh as (H1 & H2 & H3 & H4 & H5 & H6 & H7 & H8).
       split; cbn; rewrite ?H2, ?H3, ?H4, ?H5, ?H6, ?H7, ?H8; try apply R; try done. }
  unfold e2, hist_store. rewrite Hj, cstr_text by done.
  assert (bool_decide (head (a_hist a) = Some (a_text a)) =
          negb (sh_hist_len e =? 0) && bool_decide (cstr (hist_slot e (sh_hist_newest e)) = a_text a)) as Hsame.
  { destruct (a_hist a) as [|t h] eqn:Eh.
    - cbn in Hlen. by rewrite Hlen.
    - replace (sh_hist_len e =? 0) with false by zl. destruct (Hlines O t) as [j' Hj']; [done|].
      rewrite Z.sub_0_r in Hj'. replace ((sh_hist_newest e + SH_HIST_MAX) mod SH_HIST_MAX) with (sh_hist_newest e) in Hj'
        by (unfold SH_HIST_MAX in *; Z.div_mod_to_equations; lia).
      unfold hist_slot. rewrite Hj'. cbn [from_option id]. rewrite cstr_text by (by apply list.Forall_cons in Htext as [? _]).
      cbn. apply bool_decide_ext. split; [by intros [=]|by intros ->]. }
  rewrite <- Hsame. unfold a_store. destruct (bool_decide (head _ = _)) eqn:Eb.
  { split_and!; try done; apply R. }
  clear e2 Hsame. cbn [sh_hist_newest set_sh_hist_newest]. set (i := u8 _).
  assert (i = (sh_hist_newest e + 1) mod 8) as Hi.
  { unfold i, SH_HIST_MAX. apply u8_id. pose proof (Z.mod_pos_bound (sh_hist_newest e + 1) 8). ulia. }
  assert (0 ≤ i < 8) as Hi8 by (rewrite Hi; apply Z.mod_pos_bound; lia).
  destruct (lookup_lt_is_Some_2 (sh_hist e) (Z.to_nat i)) as [slot Hslot]; [lia|].
  assert (zlen slot = SH_LINE_MAX) as Hzs by (eapply Forall_lookup_1 in Hsz; [|exact Hslot]; done).
  unfold hist_slot. cbn [sh_hist set_sh_hist_newest]. rewrite Hslot. cbn [from_option id].
  replace (zlen (a_text a) + 1 <=? zlen slot) with true by zl.
  set (slot' := splice 0 (a_text a ++ [0]) slot).
  assert (∃ junk, slot' = a_text a ++ 0 :: junk) as Hj'.
  { eexists. unfold slot', splice. cbn [take app]. by rewrite <- app_assoc. }
  assert (zlen slot' = SH_LINE_MAX) as Hzs' by (unfold slot', zlen; rewrite length_splice; zl).
  cbn [sh_hist_len set_sh_hist set_sh_hist_newest]. rewrite u8_id by (unfold SH_HIST_MAX in *; pose proof (zlen_nonneg (a_hist a)); ulia).
  assert (hist_rel (<[Z.to_nat i:=slot']> (sh_hist e)) (if sh_hist_len e <? SH_HIST_MAX then sh_hist_len e + 1 else sh_hist_len e) i
            (take 8 (a_text a :: a_hist a))) as Hr.
  { apply (hist_push (sh_hist e) (sh_hist_len e) (sh_hist_newest e)); done. }
  by destruct (_ <? _); split_and!; try apply R.
Qed.

(** *** The ring *)

Definition ins (evs : list ring_event) : list Z := omap (λ e, match e with EvIn c => Some c | _ => None end) evs.
Definition outs (evs : list ring_event) : list Z := omap (λ e, match e with EvOut c => Some c | _ => None end) evs.

Record ring_inv (evs : list ring_event) (r : ring) (pend : list Z) : Prop := mk_ring_inv {
  ri_fifo : ins evs = outs evs ++ pend;
  ri_room : (length pend ≤ 127)%nat;
  ri_size : length (sh_ring r) = 128%nat;
  ri_tail : 0 ≤ sh_tail r < SH_RING_MAX;
  ri_head : sh_head r = (sh_tail r + zlen pend) mod SH_RING_MAX;
  ri_bytes : ∀ k c, pend !! k = Some c → sh_ring r !! Z.to_nat ((sh_tail r + Z.of_nat k) mod SH_RING_MAX) = Some c;
  ri_at : match sh_at r with GetRead c => head pend = Some c | GetIdle => True end }.

Lemma ins_app e1 e2 : ins (e1 ++ e2) = ins e1 ++ ins e2.
Proof. apply omap_app. Qed.
Lemma outs_app e1 e2 : outs (e1 ++ e2) = outs e1 ++ outs e2.
Proof. apply omap_app. Qed.

Lemma full_iff evs r pend : ring_inv evs r pend → isr_full r = bool_decide (length pend = 127%nat).
Proof.
  intros [_ Hr _ Ht Hh _ _]. unfold isr_full, SH_RING_MAX, zlen in *.
  rewrite u8_id by (pose proof (Z.mod_pos_bound (sh_head r + 1) 128); ulia).
  apply eq_bool_prop_intro. rewrite bool_decide_spec. rewrite Is_true_true, Z.eqb_eq. rewrite Hh.
  Z.div_mod_to_equations. lia.
Qed.

Lemma isr_inv evs r pend sr sr2 dr : ring_inv evs r pend →
  ∃ pend', ring_inv (evs ++ (USART1_IRQHandler sr sr2 dr r).2) (USART1_IRQHandler sr sr2 dr r).1 pend'.
Proof.
  intros Hi. unfold USART1_IRQHandler. destruct (negb _); [|exists pend; by rewrite app_nil_r].
  rewrite (full_iff _ _ _ Hi). destruct (bool_decide _) eqn:Ef.
  { exists pend. destruct Hi. split; try done. by rewrite ins_app, outs_app, !app_nil_r. }
  apply bool_decide_eq_false_1 in Ef. destruct Hi as [Hf Hr Hs Ht Hh Hb Ha]. set (c := u8 dr). exists (pend ++ [c]).
  cbn [negb fst snd]. unfold isr_push, SH_RING_MAX, zlen in *.
  assert (0 ≤ sh_head r < 128) as Hh2 by (rewrite Hh; apply Z.mod_pos_bound; lia).
  split; cbn.
  - rewrite ins_app, outs_app, Hf. cbn. by rewrite app_nil_r, app_assoc.
  - rewrite length_app. cbn. lia.
  - by rewrite length_insert.
  - done.
  - rewrite u8_id by (pose proof (Z.mod_pos_bound (sh_head r + 1) 128); ulia).
    unfold zlen. rewrite length_app, Hh. cbn [length]. unfold SH_RING_MAX. Z.div_mod_to_equations. lia.
  - intros k d Hk. destruct (decide (k = length pend)) as [->|Hne].
    + rewrite lookup_app_r, Nat.sub_diag in Hk by lia. injection Hk as <-.
      unfold SH_RING_MAX. rewrite <- Hh. apply list_lookup_insert_eq. lia.
    + assert (k < length pend)%nat as Hlt by (apply lookup_lt_Some in Hk; rewrite length_app in Hk; cbn in Hk; lia).
      rewrite lookup_app_l in Hk by done. rewrite list_lookup_insert_ne; [by apply Hb|].
      rewrite Hh. unfold SH_RING_MAX. Z.div_mod_to_equations. lia.
  - destruct (sh_at r); [done|]. by destruct pend.
Qed.

Lemma ring_run_inv evs r : ring_run evs r → ∃ pend, ring_inv evs r pend.
Proof.
  induction 1 as [|evs r ev r' _ [pend Hi] Hstep]; [exists []; split; try done; cbn; lia|].
  destruct Hstep as [r sr sr2 dr|r Hat Hne|r c Hat]; [by eapply isr_inv| |].
  - exists pend. destruct Hi as [Hf Hr Hs Ht Hh Hb Ha]. rewrite app_nil_r. split; try done. cbn.
    destruct pend as [|c pend].
    { exfalso. apply Hne. rewrite Hh. unfold SH_RING_MAX in *. cbn. rewrite Z.add_0_r, Z.mod_small; done. }
    specialize (Hb O c eq_refl). unfold SH_RING_MAX in *. rewrite Z.add_0_r, Z.mod_small in Hb by done.
    unfold rd. by rewrite Hb.
  - destruct Hi as [Hf Hr Hs Ht Hh Hb Ha]. rewrite Hat in Ha. destruct pend as [|d pend]; [done|]. injection Ha as ->.
    exists pend. unfold SH_RING_MAX in *.
    assert (u8 ((sh_tail r + 1) mod 128) = (sh_tail r + 1) mod 128) as Hu by (apply u8_id; pose proof (Z.mod_pos_bound (sh_tail r + 1) 128); ulia).
    split; cbn; rewrite ?Hu; unfold SH_RING_MAX.
    + rewrite ins_app, outs_app, Hf. cbn. by rewrite app_nil_r, <- app_assoc.
    + cbn in Hr. lia.
    + done.
    + apply Z.mod_pos_bound. lia.
    + rewrite Hh. unfold zlen. cbn [length]. Z.div_mod_to_equations. lia.
    + intros k x Hk. specialize (Hb (S k) x Hk).
      replace (((sh_tail r + 1) mod 128 + Z.of_nat k) mod 128) with ((sh_tail r + Z.of_nat (S k)) mod 128); [done|].
      rewrite Z.add_mod_idemp_l by lia. f_equal. lia.
    + done.
Qed.

Lemma a_ext_prefix t c : c ∈ candidates t → (2 ≤ length (candidates t))%nat → (last_word t [] ++ a_ext t) `prefix_of` c.
Proof.
  intros Hc Hl. destruct (candidates_ok t) as [Hall _].
  assert (∀ d, d ∈ candidates t → last_word t [] `prefix_of` d) as Hw.
  { intros d Hd. eapply list.Forall_forall in Hall as [_ Hd2]; [|exact Hd]. exists (drop (length (last_word t [])) d).
    rewrite <- Hd2 at 1. by rewrite take_drop. }
  unfold a_ext. destruct (candidates t) as [|c1 [|c2 cs]] eqn:Ec; [cbn in Hl; lia..|].
  destruct (lcp_spec (c1 :: c2 :: cs)) as [H1 H2]; [done|]. specialize (H2 _ Hw) as [x Hx].
  etrans; [|by apply H1]. rewrite Hx, drop_app_length. apply prefix_app. exists (drop (95 - length t) x). by rewrite take_drop.
Qed.

Lemma elem_candidates t c : c ∈ candidates t ↔
  ∃ cs, foldl descend (Some root_cmds) (words (take (length t - length (last_word t [])) t) []) = Some cs ∧
        c ∈ cmd_name <$> cs ∧ last_word t [] `prefix_of` c.
Proof.
  unfold candidates. pose proof (foldl_table (Some root_cmds) (words (take (length t - length (last_word t [])) t) [])) as Ht.
  destruct (foldl _ _ _) as [cs|]; [|split; [by intros ?%not_elem_of_nil|by intros (? & [=] & _)]]. destruct (names_ok cs) as (_ & Hl & _); [apply Ht; by left|].
  unfold matching. rewrite take_ge.
  2: { pose proof (length_filter (λ name, starts_with (last_word t []) name) (cmd_name <$> cs)) as Hf. rewrite length_fmap in Hf. lia. }
  rewrite list_elem_of_filter. unfold starts_with. rewrite bool_decide_spec. split.
  - intros [Hw Hc]. exists cs. split_and!; [done..|]. exists (drop (length (last_word t [])) c). rewrite <- Hw at 1. by rewrite take_drop.
  - intros (cs' & [= <-] & Hc & [x ->]). split; [apply take_app_length|done].
Qed.

(** ** Properties *)


(** C0: the receive ring is a queue: at every moment, however the interrupt falls
    between the steps of the shell task, the bytes handed out followed by those
    still in the ring are exactly the bytes taken in, in order; a byte is lost only
    when 127 are waiting, and the byte being read is the oldest. *)
Theorem shell_ring_fifo evs r :
  ring_run evs r →
  ∃ pend, ins evs = outs evs ++ pend ∧ (length pend ≤ 127)%nat ∧ (isr_full r = true ↔ length pend = 127%nat) ∧
    (∀ sr sr2 dr c, (USART1_IRQHandler sr sr2 dr r).2 = [EvLost c] → length pend = 127%nat) ∧
    (∀ c, sh_at r = GetRead c → head pend = Some c) ∧
    (sh_tail r = sh_head r ↔ pend = []).
Proof.
  intros Hr. destruct (ring_run_inv _ _ Hr) as [pend Hi]. exists pend. pose proof (full_iff _ _ _ Hi) as Hfull.
  assert (isr_full r = true ↔ length pend = 127%nat) as Hf by (rewrite Hfull; apply bool_decide_eq_true).
  split; [apply Hi|]. split; [apply Hi|]. split; [exact Hf|]. split; [|split].
  - intros sr sr2 dr c. unfold USART1_IRQHandler. destruct (negb _); [|done]. destruct (isr_full r); [by intros _; apply Hf|done].
  - intros c Hc. pose proof (ri_at _ _ _ Hi) as Ha. by rewrite Hc in Ha.
  - pose proof (ri_tail _ _ _ Hi) as Ht. rewrite (ri_head _ _ _ Hi). pose proof (ri_room _ _ _ Hi). unfold SH_RING_MAX in *. split.
    + intros Heq. destruct pend as [|x pend]; [done|]. exfalso. revert Heq. unfold zlen. cbn [length] in *. Z.div_mod_to_equations. lia.
    + intros ->. unfold zlen. cbn [length]. by rewrite Z.add_0_r, Z.mod_small.
Qed.

(** ** Witnesses and examples *)

Definition stack_fill : list Z := replicate 96 0xA5.
Definition ed_boot : ed := ed_init stack_fill stack_fill.
Definition a_boot : aed := mk_aed [] [] [] (-1) [] 0 false.

Lemma ed_boot_ok : ed_rel ed_boot a_boot.
Proof.
  split; try done; try by constructor.
  - eexists. reflexivity.
  - split; try done; by repeat constructor.
Defined.

Fixpoint edits (cs : list Z) (e : ed) : ed := match cs with [] => e | c :: cs => edits cs (sh_edit c e).2 end.
Definition typed (e : ed) : list Z := take (Z.to_nat (ed_n e)) (line e).

Definition ed_io : ed := edits (txt "io fa") ed_boot.
Definition a_io : aed := mk_aed (txt "io fa") [] [] (-1) [] 0 false.

Lemma ed_io_ok : ed_rel ed_io a_io.
Proof.
  split; try done; try by constructor.
  - eexists. vm_compute. reflexivity.
  - repeat constructor; vm_compute; done.
  - split; try done; by repeat constructor.
Defined.


Definition SR_RX : Z := 0x20.
Definition ring_a : ring := (USART1_IRQHandler SR_RX 0 97 ring_init).1.

Lemma shell_ring_fifo_witness : ∃ pend, ins [EvIn 97] = outs [EvIn 97] ++ pend ∧ length pend = 1%nat.
Proof.
  destruct (shell_ring_fifo ([] ++ [EvIn 97]) ring_a) as (pend & H & _).
  - apply (run_step [] ring_init [EvIn 97] ring_a); [constructor|apply (step_isr ring_init SR_RX 0 97)].
  - exists pend. split; [exact H|]. cbn in H. by rewrite <- H.
Defined.

(** the history: Up, Up, Down; a repeated line is kept once *)
Example history_recalled :
  let e := set_nav (-1) (hist_store (set_line (txt "io di" ++ replicate 91 0) (set_nav (-1)
             (hist_store (set_line (txt "io ai" ++ replicate 91 0) ed_boot))))) in
  let e := set_ed_n 0 (set_line (replicate 96 0) e) in
  typed (edits [27; 91; 65] e) = txt "io di" ∧ typed (edits [27; 91; 65; 27; 91; 65] e) = txt "io ai" ∧
  typed (edits [27; 91; 65; 27; 91; 65; 27; 91; 66] e) = txt "io di".
Proof. by vm_compute. Qed.

(** two Tabs on a line that ends in ["io do"] at its last place write behind the
    buffer: the first puts the space at [line[94]], the second a space at
    [line[95]] and the terminator at [line[96]] *)
Example tab_overruns_line :
  wild (edits (replicate 89 32 ++ txt "io do" ++ [9]) ed_boot) = false ∧
  wild (edits (replicate 89 32 ++ txt "io do" ++ [9; 9]) ed_boot) = true.
Proof. by vm_compute. Qed.

(** with an empty history Up enters the browsing state all the same: what is typed
    after it is replaced by the old draft at the next Down *)
Example down_discards_typing : typed (edits ([27; 91; 65] ++ txt "io di" ++ [27; 91; 66]) ed_boot) = [].
Proof. by vm_compute. Qed.
