(* ===== verification/Shell.v ===== *)
(** The commands of the shell: the rest of [src/sys/shell.c].

    A line is split into words in place and interpreted.  The commands that write
    run the register operations of [Regmap.v], like Modbus and the web pages.
    [sh_turn] is one round of the task's loop: one character through the editor of
    [ShellEdit.v], and the command when it is Return.  FreeRTOS's task list, the
    tick count and the build constants are parameters, like [set_reboot_status],
    which raises the flag the heartbeat task polls, and the erasure of the
    configuration. *)

From Stdlib Require Import String.
From S2P Require Import Prelude IoBytes Flash ConfigStore Regmap Calendar Clock Lfs HistoryFile WebJson WebCmds Device ShellEdit.
From S2P Require Log History.

Local Open Scope list_scope.
Local Open Scope Z_scope.

Definition SH_ARG_MAX : nat := 6.

(** ** Words and numbers *)

Definition zap (s : list Z) : list Z := match s with [] => [] | _ :: s => 0 :: s end.

(** the words, and the memory afterwards: blanks before a word and the byte at
    which the loop stops become NUL; [room] words are left *)
Fixpoint split_loop (room : nat) (s : list Z) : list (list Z) * list Z :=
  match room with
  | O => ([], zap s)
  | S room =>
    if rd s 0 =? 0 then ([], zap s)
    else
      let k := blanks s in
      let s1 := drop k s in
      if rd s1 0 =? 0 then ([], replicate k 0 ++ zap s1)
      else
        let w := word s1 in
        let '(ws, s2) := split_loop room (drop (length w) s1) in
        (w :: ws, replicate k 0 ++ w ++ s2)
  end.
Definition sh_split (line : list Z) : list (list Z) * list Z := split_loop SH_ARG_MAX line.

Definition parse_ul (s : list Z) : option Z :=
  match s with
  | [] => None
  | _ =>
    match strtoul s 0 with
    | Some (v, rest) => if rd rest 0 =? 0 then Some v else None
    | None => None
    end
  end.

(** [n] octets to go *)
Fixpoint parse_ip_loop (n : nat) (p : list Z) : option (list Z) :=
  match n with
  | O => Some []
  | S n =>
    match strtoul p 10 with
    | Some (v, rest) =>
      if (255 <? v) || negb (rd rest 0 =? match n with O => 0 | _ => 46 end) then None
      else match parse_ip_loop n (drop 1 rest) with Some vs => Some (v :: vs) | None => None end
    | None => None
    end
  end.
Definition parse_ip (s : list Z) : option (list Z) := parse_ip_loop 4 s.

(** ** Formats *)

Fixpoint hex_digits (fuel : nat) (n : Z) (acc : list Z) : list Z :=
  match fuel with
  | O => acc
  | S fuel => if n <? 16 then hex_digit n :: acc else hex_digits fuel (n / 16) (hex_digit (n mod 16) :: acc)
  end.
(** ["%0<w>x"] of a 32-bit value; ["%-<w>s"]; ["%<w>u"] *)
Definition hexw (w : nat) (n : Z) : list Z := let d := hex_digits 8 n [] in replicate (w - length d) 48 ++ d.
Definition padr (w : nat) (s : list Z) : list Z := s ++ replicate (w - length s) 32.
Definition padl (w : nat) (s : list Z) : list Z := replicate (w - length s) 32 ++ s.

Definition date_text (x : tm) : list Z :=
  dec (tm_year x + 1900) ++ [45] ++ Log.pad2 (tm_mon x + 1) ++ [45] ++ Log.pad2 (tm_mday x) ++ [32] ++
  Log.pad2 (tm_hour x) ++ [58] ++ Log.pad2 (tm_min x) ++ [58] ++ Log.pad2 (tm_sec x).

(** ["DI%-2d-%-2d : %u %u %u %u %u %u %u %u"] for the eight bits from [row] *)
Definition bits_row (name : string) (v row : Z) : list Z :=
  txt name ++ padr 2 (dec (row + 1)) ++ [45] ++ padr 2 (dec (row + 8)) ++ txt " :" ++
  concat ((λ i, 32 :: dec (Z.land (Z.shiftr v (row + i)) 1)) <$> [0; 1; 2; 3; 4; 5; 6; 7]).

(** ** State *)

Record sh (E : Type) := mk_sh { s_ed : ed; s_regs : regs E }.
Arguments mk_sh {E} _ _.
Arguments s_ed {E} _.
Arguments s_regs {E} _.

(** FreeRTOS's [TaskStatus_t] *)
Record task_status := mk_task {
  pcTaskName : list Z; eCurrentState : Z; uxCurrentPriority : Z; usStackHighWaterMark : Z; xTaskNumber : Z }.

Section Commands.
Context {E : Type} `{IoHooks E}.
Context (set_reboot_status : bool → E → E) (config_erase_all : E → E).
(** build constants, unique id and link; tick count; the tasks, [None] when there is no memory for the list *)
Context (sh_info : E → info) (uid : E → list Z) (tick : E → Z) (tasks : E → option (list task_status)).

Abbreviation MS := (M (sh E)).

Definition on_ed {A} (m : M ed A) : MS A := zoom s_ed (λ e s, mk_sh e (s_regs s)) m.
Definition on_regs {A} (m : M (regs E) A) : MS A := zoom s_regs (λ r s, mk_sh (s_ed s) r) m.
Definition say (s : list Z) : MS unit := on_ed (log_line s).
Definition ask {A} (f : E → A) : MS A := gets (λ s, f (env (s_regs s))).

Definition hold (i : Z) : MS Z := on_regs (io_read_holding i).
Definition input (i : Z) : MS Z := on_regs (get_input_reg i).

Fixpoint say_all (ls : list (list Z)) : MS unit := match ls with [] => mret tt | l :: ls => say l;; say_all ls end.

(** ** [help], [tasks], [reboot] *)

Definition cmd_help : MS unit :=
  say_all [txt "commands:"; txt "  help    this help"; txt "  tasks   task list (state / priority / min stack)";
           txt "  reboot  graceful reboot (history sync + ~3s)"; txt "  io      io-edge-hub debug commands ('io help')"].

Definition task_state_char (s : Z) : Z :=
  if s =? 0 then 88 else if s =? 1 then 82 else if s =? 2 then 66 else if s =? 3 then 83 else if s =? 4 then 68 else 63.

Definition task_row (t : task_status) : list Z :=
  padr 16 (pcTaskName t) ++ [32; task_state_char (eCurrentState t); 32; 32; 32] ++ padr 4 (dec (uxCurrentPriority t)) ++
  [32; 32] ++ padr 5 (dec (usStackHighWaterMark t)) ++ [32; 32] ++ dec (xTaskNumber t).

Definition cmd_tasks : MS unit :=
  st ← ask tasks;
  match st with
  | None => say (txt "tasks: out of memory")
  | Some st =>
    say (padr 16 (txt "task") ++ txt " st  prio  stack  num");;
    say_all (task_row <$> st);;
    say (txt "st: X=running R=ready B=blocked S=suspended; stack = min free (words)")
  end.

Definition cmd_reboot : MS unit :=
  say (txt "rebooting (history sync + ~3s)...");; on_regs (call (set_reboot_status true)).

(** ** The [io] commands that show *)

Definition cmd_io_info : MS unit :=
  x ← ask sh_info;
  id ← ask uid;
  say (txt "version : v" ++ dec (FW_VERSION_MAJOR x) ++ [46] ++ dec (FW_VERSION_MINOR x) ++ [46] ++
       dec (FW_VERSION_PATCH x) ++ [95] ++ FW_GIT_VERSION x);;
  say (txt "build   : " ++ BUILD_TIME x);;
  say (txt "board   : io_edge_f407vet6");;
  say (txt "mac     : " ++ mac_str (Some (Device.derive_mac_from_uid id)));;
  a ← hold HOLDING_IP_OCTET1_IDX; b ← hold HOLDING_IP_OCTET2_IDX;
  c ← hold HOLDING_IP_OCTET3_IDX; d ← hold HOLDING_IP_OCTET4_IDX;
  say (txt "ip      : " ++ dotted a b c d ++ txt "/24");;
  say (txt "link    : " ++ (if info_link_up x then txt "up" else txt "down"));;
  bps ← hold HOLDING_RS485_BAUDRATE_IDX; sid ← hold HOLDING_SLAVE_ID_IDX;
  say (txt "rs485   : " ++ dec bps ++ txt " bps, slave id " ++ dec sid ++ txt " (8N1)");;
  cid ← hold HOLDING_CAN_ID_IDX; cb ← hold HOLDING_CAN_BAUDRATE_IDX;
  say (txt "can     : id 0x" ++ hexw 3 cid ++ txt ", " ++ dec cb ++ txt " kbit/s");;
  t ← ask tick;
  say (txt "uptime  : " ++ dec (u32 t / 1000) ++ txt " s");;
  lt ← on_regs (call_ret hook_now_epoch);
  let time_str := match gmtime_r (u32 lt + 8 * 3600) with
                  | Some x => if 2020 <=? tm_year x + 1900 then date_text x else txt "1970-01-01 00:00:00"
                  | None => txt "1970-01-01 00:00:00"
                  end in
  now ← on_regs (call_ret hook_now_epoch);
  say (txt "time    : " ++ time_str ++ txt " (" ++ dec (u32 now) ++ txt ")").

Definition cmd_io_di : MS unit :=
  di ← input INPUT_DI_IDX;
  en ← on_regs (get_holding_reg HOLDING_DI_ENABLE_IDX);
  say (txt "DI: 0x" ++ hexw 4 di ++ txt " (enable: 0x" ++ hexw 4 en ++ txt ")");;
  say_all (bits_row "DI" di <$> [0; 8]).

Definition cmd_io_do : MS unit :=
  v ← on_regs (get_holding_reg HOLDING_DO_IDX);
  say (txt "DO: 0x" ++ hexw 2 (Z.land v 0xFF));;
  say_all (bits_row "DO" v <$> [0]).

Definition ai_row (i raw : Z) (unit : string) : list Z :=
  txt "AI" ++ dec (i + 1) ++ txt ": " ++ padl 5 (dec (raw / 100)) ++ [46] ++ Log.pad2 (raw mod 100) ++ [32] ++ txt unit ++
  txt " (raw " ++ dec raw ++ txt ")".

Fixpoint ai_rows (i : Z) (units : list string) : MS unit :=
  match units with
  | [] => mret tt
  | u :: units => raw ← input (INPUT_AI0_IDX + i); say (ai_row i raw u);; ai_rows (i + 1) units
  end.

Definition cmd_io_ai : MS unit :=
  en ← on_regs (get_holding_reg HOLDING_AI_ENABLE_IDX);
  say (txt "AI enable: 0x" ++ hexw 1 (Z.land en 0x0F));;
  ai_rows 0 ["mA"; "mA"; "V"; "V"]%string.

(** ["%s0x%02x=%u"] for the registers of one row, [k] of them from [j] *)
Fixpoint reg_items (k : nat) (j : Z) (get : Z → MS Z) : MS (list (list Z)) :=
  match k with
  | O => mret []
  | S k =>
    v ← get j;
    vs ← reg_items k (j + 1) get;
    mret (((if negb (j mod 6 =? 0) then [32] else []) ++ txt "0x" ++ hexw 2 j ++ [61] ++ dec v) :: vs)
  end.

(** [rows] rows of six registers from [i] *)
Fixpoint reg_rows (rows : nat) (i : Z) (get : Z → MS Z) : MS unit :=
  match rows with
  | O => mret tt
  | S rows =>
    items ← reg_items 6 i get;
    match emit_all 96 items (0, []) with
    | Some (_, row) => say row
    | None => on_ed (modify (set_wild true))
    end;;
    reg_rows rows (i + 6) get
  end.

(** ** The [io] commands that write *)

Definition argv (ws : list (list Z)) (i : nat) : list Z := default [] (ws !! i).

Definition cmd_io_do_set (ch_s val_s : list Z) : MS unit :=
  let bad_ch := say (txt "invalid channel: " ++ ch_s ++ txt " (1-" ++ dec DO_NUM ++ txt ")") in
  match parse_ul ch_s with
  | None => bad_ch
  | Some ch =>
    if (ch <? 1) || (DO_NUM <? ch) then bad_ch
    else
      let bad_val := say (txt "invalid value: " ++ val_s ++ txt " (0/1)") in
      match parse_ul val_s with
      | None => bad_val
      | Some val =>
        if 1 <? val then bad_val
        else
          ok ← on_regs (io_write_do_bit (u16 (ch - 1)) (negb (val =? 0)));
          if negb ok then say (txt "write failed")
          else
            v ← on_regs (get_holding_reg HOLDING_DO_IDX);
            say (txt "DO" ++ dec ch ++ txt " = " ++ dec val ++ txt " (DO: 0x" ++ hexw 2 (Z.land v 0xFF) ++ txt ")")
      end
  end.

Definition cmd_io_reg (args : list (list Z)) : MS unit :=
  match args with
  | [] =>
    say (txt "holding registers (" ++ dec MODBUS_HOLDING_REGISTER_NUMBERS ++ txt "):");;
    reg_rows 3 0 hold;;
    say (txt "input registers (" ++ dec MODBUS_INPUT_REGISTER_NUMBERS ++ txt "):");;
    reg_rows 1 0 input
  | a :: rest =>
    let bad := say (txt "invalid addr: " ++ a) in
    match parse_ul a with
    | None => bad
    | Some addr =>
      if MODBUS_HOLDING_REGISTER_NUMBERS <=? addr then bad
      else
        let shown := v ← hold (u16 addr); say (txt "holding[0x" ++ hexw 2 addr ++ txt "] = " ++ dec v) in
        match rest with
        | [] => shown
        | v_s :: _ =>
          let bad_val := say (txt "invalid value: " ++ v_s ++ txt " (0-65535)") in
          match parse_ul v_s with
          | None => bad_val
          | Some val =>
            if 0xFFFF <? val then bad_val
            else
              ok ← on_regs (io_write_holding (u16 addr) (u16 val));
              if negb ok then say (txt "write failed") else shown
          end
        end
    end
  end.

Definition cmd_io_help : MS unit :=
  say_all [txt "io                     IO/config overview"; txt "io info                version / mac / ip / link / uptime";
           txt "io di                  DI1-16 status"; txt "io do [set ch 0|1]     DO1-8 status / control";
           txt "io ai                  AI1-4 values (mA / V)"; txt "io rs485 [baud n|sid n]"; txt "io can [id n|bps n]";
           txt "io ip a.b.c.d          static ip (saved)"; txt "io reg [addr [value]]  register dump / read / write";
           txt "io save                persist parameters"; txt "io factory             factory reset + reboot"].

(** the number [io <cmd> <name> n] carries, if it is one and passes the check *)
Definition num_arg (args : list (list Z)) (name : string) (ok : Z → bool) : option Z :=
  if (3 <=? length args)%nat && bool_decide (argv args 1 = txt name) then
    match parse_ul (argv args 2) with Some v => if ok v then Some v else None | None => None end
  else None.

Definition can_bps_ok (v : Z) : bool :=
  (v =? 50) || (v =? 100) || (v =? 125) || (v =? 250) || (v =? 500) || (v =? 800) || (v =? 1000).

Definition cmd_io_rs485 (args : list (list Z)) : MS unit :=
  match num_arg args "baud" (λ v, (1200 <=? v) && (v <=? 115200)) with
  | Some v =>
    _ ← on_regs (io_write_holding HOLDING_RS485_BAUDRATE_IDX (u16 v));
    bps ← hold HOLDING_RS485_BAUDRATE_IDX;
    say (txt "rs485 baud -> " ++ dec bps ++ txt " (reboot to apply, 'io save' to persist)")
  | None =>
    match num_arg args "sid" (λ v, (1 <=? v) && (v <=? 247)) with
    | Some v =>
      _ ← on_regs (io_write_holding HOLDING_SLAVE_ID_IDX (u16 v));
      sid ← hold HOLDING_SLAVE_ID_IDX;
      say (txt "slave id -> " ++ dec sid ++ txt " (reboot to apply, 'io save' to persist)")
    | None =>
      bps ← hold HOLDING_RS485_BAUDRATE_IDX;
      sid ← hold HOLDING_SLAVE_ID_IDX;
      say (txt "rs485: " ++ dec bps ++ txt " bps, slave id " ++ dec sid ++ txt " (8N1)");;
      say (txt "(changes take effect after reboot)")
    end
  end.

Definition cmd_io_can (args : list (list Z)) : MS unit :=
  match num_arg args "id" (λ v, (1 <=? v) && (v <=? 0x7FF)) with
  | Some v =>
    _ ← on_regs (io_write_holding HOLDING_CAN_ID_IDX (u16 v));
    id ← hold HOLDING_CAN_ID_IDX;
    say (txt "can id -> 0x" ++ hexw 3 id ++ txt " (reboot to apply, 'io save' to persist)")
  | None =>
    match num_arg args "bps" can_bps_ok with
    | Some v =>
      _ ← on_regs (io_write_holding HOLDING_CAN_BAUDRATE_IDX (u16 v));
      bps ← hold HOLDING_CAN_BAUDRATE_IDX;
      say (txt "can bps -> " ++ dec bps ++ txt " kbit/s (reboot to apply, 'io save' to persist)")
    | None =>
      id ← hold HOLDING_CAN_ID_IDX;
      bps ← hold HOLDING_CAN_BAUDRATE_IDX;
      say (txt "can: id 0x" ++ hexw 3 id ++ txt ", " ++ dec bps ++ txt " kbit/s");;
      say (txt "(changes take effect after reboot)")
    end
  end.

Definition cmd_io_ip (args : list (list Z)) : MS unit :=
  let bad := say (txt "invalid ip: " ++ argv args 1) in
  if (length args <? 2)%nat then bad
  else
    match parse_ip (argv args 1) with
    | None => bad
    | Some ip =>
      if negb (ip_addr_valid (rd ip 0) (rd ip 1) (rd ip 2) (rd ip 3)) then bad
      else
        _ ← on_regs (io_write_holding HOLDING_IP_OCTET1_IDX (rd ip 0));
        _ ← on_regs (io_write_holding HOLDING_IP_OCTET2_IDX (rd ip 1));
        _ ← on_regs (io_write_holding HOLDING_IP_OCTET3_IDX (rd ip 2));
        _ ← on_regs (io_write_holding HOLDING_IP_OCTET4_IDX (rd ip 3));
        on_regs holding_reg_save;;
        say (txt "ip -> " ++ dotted (rd ip 0) (rd ip 1) (rd ip 2) (rd ip 3) ++ txt " (saved, reboot to apply)")
    end.

Definition cmd_io_overview : MS unit :=
  di ← input INPUT_DI_IDX;
  v ← on_regs (get_holding_reg HOLDING_DO_IDX);
  a0 ← input INPUT_AI0_IDX; a1 ← input (INPUT_AI0_IDX + 1); a2 ← input (INPUT_AI0_IDX + 2); a3 ← input (INPUT_AI0_IDX + 3);
  say (txt "DI: 0x" ++ hexw 4 di ++ txt "  DO: 0x" ++ hexw 2 (Z.land v 0xFF) ++ txt "  AI: " ++ dec a0 ++ [32] ++ dec a1 ++
       [32] ++ dec a2 ++ [32] ++ dec a3);;
  bps ← on_regs (get_holding_reg HOLDING_RS485_BAUDRATE_IDX);
  sid ← on_regs (get_holding_reg HOLDING_SLAVE_ID_IDX);
  id ← on_regs (get_holding_reg HOLDING_CAN_ID_IDX);
  cb ← on_regs (get_holding_reg HOLDING_CAN_BAUDRATE_IDX);
  say (txt "rs485: " ++ dec bps ++ txt " bps sid " ++ dec sid ++ txt " | can: 0x" ++ hexw 3 id ++ [32] ++ dec cb ++ txt " kbit/s");;
  say (txt "('io help' for subcommands)").

Definition io_dispatch (args : list (list Z)) : MS unit :=
  match args with
  | [] => cmd_io_overview
  | cmd :: rest =>
    let eqs s := bool_decide (cmd = txt s) in
    if eqs "help"%string then cmd_io_help
    else if eqs "info"%string then cmd_io_info
    else if eqs "di"%string then cmd_io_di
    else if eqs "do"%string then
      if (4 <=? length args)%nat && bool_decide (argv args 1 = txt "set") then cmd_io_do_set (argv args 2) (argv args 3)
      else cmd_io_do
    else if eqs "ai"%string then cmd_io_ai
    else if eqs "rs485"%string then cmd_io_rs485 args
    else if eqs "can"%string then cmd_io_can args
    else if eqs "ip"%string then cmd_io_ip args
    else if eqs "reg"%string then cmd_io_reg rest
    else if eqs "save"%string then on_regs holding_reg_save;; say (txt "parameters saved")
    else if eqs "factory"%string then
      on_regs (call config_erase_all);;
      on_regs (call (set_reboot_status true));;
      say (txt "factory reset done, rebooting (defaults after reboot)")
    else say (txt "unknown io command: " ++ cmd ++ txt " ('io help')")
  end.

(** the words of a line *)
Definition exec_words (ws : list (list Z)) : MS unit :=
  match ws with
  | [] => mret tt
  | cmd :: args =>
    let eqs s := bool_decide (cmd = txt s) in
    if eqs "help"%string then cmd_help
    else if eqs "tasks"%string || eqs "ps"%string then cmd_tasks
    else if eqs "reboot"%string then cmd_reboot
    else if eqs "io"%string then io_dispatch args
    else say (txt "unknown command: " ++ cmd ++ txt " (help)")
  end.

Definition sh_dispatch : MS unit :=
  mem ← on_ed (gets line);
  let '(ws, mem) := sh_split mem in
  on_ed (modify (set_line mem));;
  exec_words ws.

(** ** The task *)

(** before the loop *)
Definition sh_start : MS unit :=
  on_ed (log_line []);; on_ed (log_line (txt "shell ready (help for commands)"));; on_ed sh_prompt.

(** one round of the loop of [sh_task_fn], for one character *)
Definition sh_turn (c : Z) : MS unit :=
  fin ← on_ed (sh_edit c);
  if fin : bool then mret tt else sh_return (@on_ed) sh_dispatch c.

Fixpoint sh_turns (cs : list Z) : MS unit := match cs with [] => mret tt | c :: cs => sh_turn c;; sh_turns cs end.
End Commands.

(** ** Abstract specification: what a line asks for *)

Inductive action :=
  | AShow                                          (* reads and prints *)
  | ADo (bit : Z) (st : bool)
  | ARegs (ws : list (Z * Z)) (save : bool)        (* register writes, then perhaps a save *)
  | AFactory | AReboot.

Section Spec.
Context {E : Type} `{IoHooks E}.
Context (set_reboot_status : bool → E → E) (config_erase_all : E → E).

(** the writes, and what comes after them *)
Fixpoint write_all (ws : list (Z * Z)) (k : M (regs E) unit) : M (regs E) unit :=
  match ws with [] => k | (a, v) :: ws => _ ← io_write_holding a v; write_all ws k end.

Definition run_action (a : action) : M (regs E) unit :=
  match a with
  | AShow => mret tt
  | ADo bit st => _ ← io_write_do_bit bit st; mret tt
  | ARegs ws save => write_all ws (if save : bool then holding_reg_save else mret tt)
  | AFactory => call config_erase_all;; call (set_reboot_status true)
  | AReboot => call (set_reboot_status true)
  end.
End Spec.

(** a number in a range *)
Definition number (s : list Z) (lo hi : Z) : option Z :=
  match parse_ul s with Some v => if (lo <=? v) && (v <=? hi) then Some v else None | None => None end.

Definition write_if (reg : Z) (v : option Z) (otherwise : action) : action :=
  match v with Some v => ARegs [(reg, v)] false | None => otherwise end.

Definition io_action (ws : list (list Z)) : action :=
  match ws with
  | [] => AShow
  | cmd :: args =>
    let eqs s := bool_decide (cmd = txt s) in
    let sub s := bool_decide (head args = Some (txt s)) && (2 <=? length args)%nat in
    if eqs "do"%string then
      if sub "set"%string && (3 <=? length args)%nat then
        match number (argv args 1) 1 8, number (argv args 2) 0 1 with
        | Some ch, Some v => ADo (ch - 1) (v =? 1)
        | _, _ => AShow
        end
      else AShow
    else if eqs "rs485"%string then
      if sub "baud"%string then write_if HOLDING_RS485_BAUDRATE_IDX (u16 <$> number (argv args 1) 1200 115200) AShow
      else if sub "sid"%string then write_if HOLDING_SLAVE_ID_IDX (number (argv args 1) 1 247) AShow
      else AShow
    else if eqs "can"%string then
      if sub "id"%string then write_if HOLDING_CAN_ID_IDX (number (argv args 1) 1 0x7FF) AShow
      else if sub "bps"%string then
        match number (argv args 1) 50 1000 with
        | Some v => if bool_decide (v ∈ [50; 100; 125; 250; 500; 800; 1000]) then ARegs [(HOLDING_CAN_BAUDRATE_IDX, v)] false else AShow
        | None => AShow
        end
      else AShow
    else if eqs "ip"%string then
      match parse_ip (argv args 0) with
      | Some ip =>
        if ip_addr_valid (rd ip 0) (rd ip 1) (rd ip 2) (rd ip 3)
        then ARegs [(HOLDING_IP_OCTET1_IDX, rd ip 0); (HOLDING_IP_OCTET2_IDX, rd ip 1);
                    (HOLDING_IP_OCTET3_IDX, rd ip 2); (HOLDING_IP_OCTET4_IDX, rd ip 3)] true
        else AShow
      | None => AShow
      end
    else if eqs "reg"%string then
      match args with
      | a :: v :: _ =>
        match number a 0 17, number v 0 0xFFFF with Some a, Some v => ARegs [(a, v)] false | _, _ => AShow end
      | _ => AShow
      end
    else if eqs "save"%string then ARegs [] true
    else if eqs "factory"%string then AFactory
    else AShow
  end.

Definition action_of (ws : list (list Z)) : action :=
  match ws with
  | [] => AShow
  | cmd :: args =>
    if bool_decide (cmd = txt "reboot") then AReboot
    else if bool_decide (cmd = txt "io") then io_action args
    else AShow
  end.

(** [s'] is [s] but for reads of the clock *)
Inductive reads {E} `{IoHooks E} (s : regs E) : regs E → Prop :=
  | reads_refl : reads s s
  | reads_now s' e : reads s s' → e = (hook_now_epoch (env s')).2 → reads s (mk_regs (holding_reg s') (input_reg s') e).

(** a turn of the editor, Return included *)
Definition a_turn (c : Z) (a : aed) : aed :=
  if bool_decide ((decode (a_esc a) (a_cr a) c).1.1 = KReturn) then a_return c (a_edit c a) else a_edit c a.

(** what the registers are asked for in that turn *)
Definition turn_action (c : Z) (a : aed) : action :=
  if bool_decide ((decode (a_esc a) (a_cr a) c).1.1 = KReturn) then action_of (take SH_ARG_MAX (words (a_text a) [])) else AShow.

(** ** Splitting *)

Lemma word_end s : no_blank s → Forall (λ c, c ≠ 0) s → word s = s.
Proof.
  induction 1 as [|c s Hc _ IH]; [done|]. intros [Hz Hs]%list.Forall_cons. cbn. rewrite Hc. replace (c =? 0) with false by lia.
  cbn. by rewrite IH.
Qed.

Lemma word_app w s : no_blank w → Forall (λ c, c ≠ 0) w → match s with [] => True | c :: _ => is_blank c || (c =? 0) = true end →
  word (w ++ s) = w.
Proof.
  intros Hw Hz Hs. induction Hw as [|c w Hc _ IH]; [by destruct s as [|d s]; cbn; rewrite ?Hs|].
  apply list.Forall_cons in Hz as [Hc0 Hz]. cbn. rewrite Hc. replace (c =? 0) with false by lia. cbn. by rewrite IH.
Qed.

Lemma blanks_app b s : all_blank b → match s with [] => True | c :: _ => is_blank c = false end → blanks (b ++ s) = length b.
Proof. induction 1 as [|c b Hc _ IH]; intros Hs; cbn; [by destruct s as [|d s]; cbn; rewrite ?Hs|]. by rewrite Hc, IH. Qed.

Lemma words_last w acc : no_blank w → acc ++ w ≠ [] → words w acc = [acc ++ w].
Proof.
  intros Hw. revert acc. induction Hw as [|c w Hc _ IH]; intros acc Ha; cbn.
  - rewrite app_nil_r in *. by rewrite decide_False.
  - rewrite Hc, IH; rewrite <- app_assoc; done.
Qed.

Lemma length_zap s : length (zap s) = length s.
Proof. by destruct s. Qed.

(** the words are those of the line, at most [room] of them *)
Lemma split_loop_spec room t j : Forall (λ c, c ≠ 0) t →
  (split_loop room (t ++ 0 :: j)).1 = take room (words t []) ∧
  length (split_loop room (t ++ 0 :: j)).2 = length (t ++ 0 :: j).
Proof.
  revert t. induction room as [|room IH]; intros t Ht; cbn [split_loop]; [split; [done|apply length_zap]|].
  destruct (blanks_spec t) as (b & s1 & -> & Hb & _ & Hnb). apply Forall_app in Ht as [Hbz Hs1].
  destruct (decide (b ++ s1 = [])) as [[-> ->]%app_eq_nil|Hne]; [done|].
  replace (rd ((b ++ s1) ++ 0 :: j) 0 =? 0) with false.
  2: { destruct b as [|x b]; [destruct s1 as [|x s1]; [done|]|]; cbn; symmetry; apply Z.eqb_neq.
       - by apply list.Forall_cons in Hs1 as [? _].
       - by apply list.Forall_cons in Hbz as [? _]. }
  rewrite <- app_assoc, blanks_app, drop_app_length by (done || by destruct s1). rewrite words_blank by done.
  destruct s1 as [|c s1]; [change (rd ([] ++ 0 :: j) 0 =? 0) with true; cbv iota; split; [done|]; cbn [snd]; by rewrite !length_app, length_replicate, length_zap|].
  replace (rd ((c :: s1) ++ 0 :: j) 0 =? 0) with false by (apply list.Forall_cons in Hs1 as [? _]; cbn; lia).
  destruct (word_spec (c :: s1)) as (s2 & E1 & Hw & Hst); [done|]. set (w := word (c :: s1)) in *.
  assert (w ≠ []) as Hwne.
  { unfold w. cbn. rewrite Hnb. apply list.Forall_cons in Hs1 as [? _]. by replace (c =? 0) with false by lia. }
  clearbody w. rewrite E1 in Hs1 |- *. apply Forall_app in Hs1 as [Hwz Hs2].
  rewrite <- app_assoc, word_app, drop_app_length by (done || by destruct s2 as [|d s2]; cbn in *; rewrite ?Hst).
  specialize (IH s2 Hs2). destruct (split_loop room (s2 ++ 0 :: j)) as [ws mem]. cbn in IH |- *. destruct IH as [IH1 IH2]. split.
  - rewrite IH1. destruct s2 as [|d s2]; [rewrite app_nil_r, (words_last w []) by done; by destruct room|].
    cbn in Hst. by rewrite (words_word w) by done.
  - by rewrite !length_app, length_replicate, IH2, !length_app.
Qed.

(** ** Numbers *)

Lemma scan_digits_nonneg base s acc any : 0 ≤ base → 0 ≤ acc → 0 ≤ (scan_digits base s acc any).1.1.
Proof.
  revert acc any. induction s as [|c s IH]; intros acc any Hb Ha; cbn; [done|].
  destruct (digit_val c) as [d|] eqn:Ed; [|done]. destruct (d <? base); [|done]. apply IH; [done|].
  assert (0 ≤ d); [|nia]. unfold digit_val in Ed. repeat case_match; simplify_eq; lia.
Qed.

Lemma strtoul_range s base v rest : 0 ≤ base → strtoul s base = Some (v, rest) → is_u32 v.
Proof.
  unfold strtoul, scan_number. intros Hb. destruct (scan_sign _) as [neg s1].
  assert (0 ≤ (if base =? 0 then scan_base s1 else (base, s1)).1) as Hb2.
  { destruct (base =? 0); [|done]. unfold scan_base. by repeat case_match. }
  destruct (if base =? 0 then scan_base s1 else (base, s1)) as [b s2]. cbn in Hb2.
  pose proof (scan_digits_nonneg b s2 0 false Hb2 (Z.le_refl 0)) as Hn.
  destruct (scan_digits b s2 0 false) as [[n any] r]. cbn in Hn. destruct any; [|done].
  intros [= <- _]. destruct (4294967295 <? n) eqn:E; [ulia|]. destruct neg; ulia.
Qed.

Lemma parse_ul_range s v : parse_ul s = Some v → is_u32 v.
Proof.
  unfold parse_ul. destruct s as [|c s]; [done|]. destruct (strtoul _ 0) as [[n r]|] eqn:E; [|done].
  destruct (_ =? 0); [|done]. intros [= <-]. by eapply strtoul_range in E.
Qed.

Lemma parse_ip_range n p vs : parse_ip_loop n p = Some vs → length vs = n ∧ bytes_ok vs.
Proof.
  revert p vs. induction n as [|n IH]; intros p vs; cbn; [by intros [= <-]|].
  destruct (strtoul p 10) as [[v r]|] eqn:E; [|done]. apply strtoul_range in E; [|done].
  destruct ((255 <? v) || _) eqn:E1; [done|]. destruct (parse_ip_loop n _) as [ws|] eqn:E2; [|done].
  intros [= <-]. apply IH in E2 as [Hl Hb]. cbn. rewrite Hl. split; [done|]. apply list.Forall_cons. split; [|done].
  apply orb_false_iff in E1 as [E1 _]. ulia.
Qed.

(** ** What the commands do to the registers *)

Section Acts.
Context {E : Type} `{IoHooks E}.
Context (set_reboot_status : bool → E → E) (config_erase_all : E → E).
Context (sh_info : E → info) (uid : E → list Z) (tick : E → Z) (tasks : E → option (list task_status)).
Abbreviation MS := (M (sh E)).

(** nothing happened but printing and reads of the clock *)
Definition calm (s s' : sh E) : Prop := reads (s_regs s) (s_regs s') ∧ same_but_con (s_ed s) (s_ed s').
Definition shows {A} (m : MS A) : Prop :=
  ∀ s, regs_ok (s_regs s) → ∃ a s', m s = (Done a, s') ∧ calm s s'.

Lemma reads_trans (r1 r2 r3 : regs E) : reads r1 r2 → reads r2 r3 → reads r1 r3.
Proof. intros H1 H2. induction H2 as [|r e H2 IH ->]; [done|]. by eapply reads_now. Qed.

Lemma reads_regs (r r' : regs E) : reads r r' → holding_reg r' = holding_reg r ∧ input_reg r' = input_reg r.
Proof. induction 1 as [|r' e _ IH _]; [done|]. exact IH. Qed.

Lemma reads_ok (r r' : regs E) : reads r r' → regs_ok r → regs_ok r'.
Proof. intros [H1 H2]%reads_regs. unfold regs_ok. by rewrite H1, H2. Qed.

Lemma con_refl e : same_but_con e e.
Proof. exists (con e). by destruct e. Qed.
Lemma con_trans e1 e2 e3 : same_but_con e1 e2 → same_but_con e2 e3 → same_but_con e1 e3.
Proof. intros [x ->] [y ->]. by exists y. Qed.

Lemma calm_refl s : calm s s.
Proof. split; [constructor|apply con_refl]. Qed.
Lemma calm_trans s1 s2 s3 : calm s1 s2 → calm s2 s3 → calm s1 s3.
Proof. intros [H1 H2] [H3 H4]. split; [by eapply reads_trans|by eapply con_trans]. Qed.

Lemma shows_ret {A} (a : A) : shows (mret a).
Proof. intros s _. exists a, s. split; [done|apply calm_refl]. Qed.

Lemma shows_bind {A B} (m : MS A) (f : A → MS B) : shows m → (∀ a, shows (f a)) → shows (m ≫= f).
Proof.
  intros Hm Hf s Hs. destruct (Hm s Hs) as (a & s1 & E1 & C1). rewrite (bind_done _ _ _ _ _ E1).
  destruct (Hf a s1) as (b & s2 & E2 & C2); [by eapply reads_ok; [apply C1|]|].
  exists b, s2. split; [done|by eapply calm_trans].
Qed.

Lemma shows_say t : shows (say t).
Proof. intros s _. eexists _, _. split; [reflexivity|]. split; [constructor|by eexists]. Qed.

Lemma shows_ask {A} (f : E → A) : shows (ask f).
Proof. intros s _. eexists _, _. split; [reflexivity|apply calm_refl]. Qed.

Lemma calm_regs s r : reads (s_regs s) r → calm s (mk_sh (s_ed s) r).
Proof. split; [done|apply con_refl]. Qed.

Lemma shows_now : shows (on_regs (call_ret hook_now_epoch)).
Proof.
  intros s _. unfold on_regs, zoom, call_ret. destruct (hook_now_epoch _) as [v e] eqn:Ev. eexists _, _. split; [reflexivity|].
  apply calm_regs. eapply reads_now; [constructor|]. by rewrite Ev.
Qed.

Lemma shows_gets {A} (f : regs E → A) : shows (on_regs (gets f)).
Proof. intros s _. eexists _, _. split; [reflexivity|]. apply calm_regs. constructor. Qed.

Lemma on_regs_bind {A B} (m : M (regs E) A) (f : A → M (regs E) B) s :
  on_regs (m ≫= f) s = (on_regs m ≫= λ a, on_regs (f a)) s.
Proof. unfold on_regs, zoom, mbind, M_bind. by destruct (m (s_regs s)) as [[a|] r]. Qed.

(** reading a register: a word *)
Lemma hold_run i s : regs_ok (s_regs s) → ∃ v s', hold i s = (Done v, s') ∧ is_u16 v ∧ calm s s'.
Proof.
  intros Hs. unfold hold, io_read_holding. destruct (i =? HOLDING_TIMESTAMP_HI_IDX).
  { rewrite on_regs_bind. destruct (shows_now s Hs) as (v & s1 & E1 & C1). rewrite (bind_done _ _ _ _ _ E1).
    eexists _, _. split; [reflexivity|]. split; [apply u16_range|]. by destruct s1. }
  destruct (i =? HOLDING_TIMESTAMP_LO_IDX).
  { rewrite on_regs_bind. destruct (shows_now s Hs) as (v & s1 & E1 & C1). rewrite (bind_done _ _ _ _ _ E1).
    eexists _, _. split; [reflexivity|]. split; [apply u16_range|]. by destruct s1. }
  eexists _, _. split; [reflexivity|]. split; [|apply calm_regs; constructor].
  case_match; [ulia|by apply hread_u16].
Qed.

Lemma shows_hold i : shows (hold i).
Proof. intros s Hs. destruct (hold_run i s Hs) as (v & s' & E' & _ & C). eauto. Qed.

Lemma input_run i s : regs_ok (s_regs s) → ∃ v s', input i s = (Done v, s') ∧ is_u16 v ∧ calm s s'.
Proof.
  intros Hs. eexists _, _. split; [reflexivity|]. split; [|apply calm_regs; constructor].
  case_match; [ulia|by apply iread_u16].
Qed.

Lemma shows_input i : shows (input i).
Proof. apply shows_gets. Qed.
Lemma shows_get_holding i : shows (on_regs (get_holding_reg i)).
Proof. apply shows_gets. Qed.

Lemma shows_say_all ls : shows (say_all ls).
Proof. induction ls; [apply shows_ret|]. apply shows_bind; [apply shows_say|done]. Qed.

Lemma dec_u16_len v : is_u16 v → (length (dec v) ≤ 5)%nat.
Proof.
  intros Hv. unfold dec. do 5 (cbn [dec_digits]; case_match; [cbn; lia|]). exfalso. ulia.
Qed.

(** six registers of a row, from [j] on *)
Lemma reg_items_run k j get s :
  (∀ i s, regs_ok (s_regs s) → ∃ v s', get i s = (Done v, s') ∧ is_u16 v ∧ calm s s') → regs_ok (s_regs s) →
  0 ≤ j → j + Z.of_nat k ≤ 18 →
  ∃ vs s', reg_items k j get s = (Done vs, s') ∧ zlen (concat vs) ≤ 11 * Z.of_nat k ∧ calm s s'.
Proof.
  intros Hget. revert j s. induction k as [|k IH]; intros j s Hs Hj Hk; cbn [reg_items].
  { exists [], s. split_and!; [done|done|apply calm_refl]. }
  destruct (Hget j s Hs) as (v & s1 & E1 & Hv & C1). rewrite (bind_done _ _ _ _ _ E1).
  destruct (IH (j + 1) s1) as (vs & s2 & E2 & Hl & C2); [by eapply reads_ok; [apply C1|]|lia|lia|].
  rewrite (bind_done _ _ _ _ _ E2). eexists _, s2. split; [reflexivity|]. split; [|by eapply calm_trans].
  cbn [concat]. rewrite zlen_app. apply dec_u16_len in Hv.
  assert (length (hexw 2 j) = 2%nat) as Hh.
  { assert (forallb (λ n, length (hexw 2 (Z.of_nat n)) =? 2)%nat (seq 0 18) = true) as Hall by (by vm_compute).
    rewrite List.forallb_forall in Hall. specialize (Hall (Z.to_nat j)). rewrite Z2Nat.id in Hall by done.
    apply Nat.eqb_eq, Hall, in_seq. lia. }
  assert (zlen (if negb (j mod 6 =? 0) then [32] else []) ≤ 1) by (case_match; done).
  unfold zlen in *. rewrite !length_app. cbn [length]. change (length (txt "0x")) with 2%nat. lia.
Qed.

Lemma shows_reg_rows rows i get :
  (∀ i s, regs_ok (s_regs s) → ∃ v s', get i s = (Done v, s') ∧ is_u16 v ∧ calm s s') →
  0 ≤ i → i + 6 * Z.of_nat rows ≤ 18 → shows (reg_rows rows i get).
Proof.
  intros Hget. revert i. induction rows as [|rows IH]; intros i Hi Hr; cbn [reg_rows]; [apply shows_ret|].
  intros s Hs. destruct (reg_items_run 6 i get s Hget Hs) as (vs & s1 & E1 & Hl & C1); [lia..|].
  rewrite (bind_done _ _ _ _ _ E1). rewrite emit_all_fits by lia.
  destruct (shows_bind (say ([] ++ concat vs)) (λ _, reg_rows rows (i + 6) get)) with (s := s1) as (a & s2 & E2 & C2);
    [apply shows_say|intros _; apply IH; lia|by eapply reads_ok; [apply C1|]|].
  exists a, s2. split; [exact E2|by eapply calm_trans].
Qed.

(** [act] is what [m] does to the registers; the clock may be read afterwards *)
Definition acts {A} (m : MS A) (act : M (regs E) unit) : Prop :=
  ∀ s, regs_ok (s_regs s) →
  match act (s_regs s) with
  | (Done _, r) => ∃ a s', m s = (Done a, s') ∧ regs_ok r ∧ reads r (s_regs s') ∧ same_but_con (s_ed s) (s_ed s')
  | (Reset, r) => ∃ s', m s = (Reset, s') ∧ s_regs s' = r
  end.

Lemma acts_shows {A} (m : MS A) : shows m → acts m (mret tt).
Proof. intros Hm s Hs. destruct (Hm s Hs) as (a & s' & E' & C). exists a, s'. by split_and!; try apply C. Qed.

Lemma acts_step {A B} (w : M (regs E) A) (f : A → MS B) (act : A → M (regs E) unit) :
  preserves regs_ok w → (∀ a, acts (f a) (act a)) → acts (on_regs w ≫= f) (w ≫= act).
Proof.
  intros Hw Hf s Hs. specialize (Hw (s_regs s) Hs). unfold mbind, M_bind, on_regs, zoom.
  destruct (w (s_regs s)) as [[a|] r]; [|by eexists]. exact (Hf a (mk_sh (s_ed s) r) Hw).
Qed.

Lemma acts_after {A B} (m : MS A) (f : A → MS B) act : acts m act → (∀ a, shows (f a)) → acts (m ≫= f) act.
Proof.
  intros Hm Hf s Hs. specialize (Hm s Hs). destruct (act (s_regs s)) as [[u|] r].
  - destruct Hm as (a & s1 & E1 & Hr & R1 & K1). rewrite (bind_done _ _ _ _ _ E1).
    destruct (Hf a s1) as (b & s2 & E2 & R2 & K2); [by eapply reads_ok|].
    exists b, s2. split_and!; [done|done|by eapply reads_trans|by eapply con_trans].
  - destruct Hm as (s1 & E1 & Hr). exists s1. by rewrite (bind_reset _ _ _ _ E1).
Qed.

Lemma acts_before {A B} (m : MS A) (f : A → MS B) act :
  (∀ s, ∃ a e, m s = (Done a, mk_sh e (s_regs s)) ∧ same_but_con (s_ed s) e) → (∀ a, acts (f a) act) → acts (m ≫= f) act.
Proof.
  intros Hm Hf s Hs. destruct (Hm s) as (a & e & E1 & K1). rewrite (bind_done _ _ _ _ _ E1).
  specialize (Hf a (mk_sh e (s_regs s)) Hs). cbn in Hf. destruct (act (s_regs s)) as [[u|] r]; [|done].
  destruct Hf as (b & s2 & E2 & Hr & R2 & K2). exists b, s2. split_and!; [done..|by eapply con_trans].
Qed.
End Acts.

Create HintDb shows.
#[export] Hint Resolve shows_ret shows_say shows_ask shows_now shows_gets shows_hold shows_input shows_get_holding shows_say_all : shows.

(** walk through a command that only prints *)
Ltac solve_shows := repeat first [progress intros | solve [auto with shows] | apply shows_bind | case_match].

(** ** Every line does what it asks for *)

Section Dispatch.
Context {E : Type} `{IoHooksLaws E}.
Context (set_reboot_status : bool → E → E) (config_erase_all : E → E).
Context (sh_info : E → info) (uid : E → list Z) (tick : E → Z) (tasks : E → option (list task_status)).
Abbreviation MS := (M (sh E)).
Abbreviation run := (run_action set_reboot_status config_erase_all).

Lemma ai_rows_shows i units : shows (E := E) (ai_rows i units).
Proof.
  revert i. induction units as [|u units IH]; intros i; [apply shows_ret|]. cbn [ai_rows].
  apply shows_bind; [apply shows_gets|]. intros raw. apply shows_bind; [apply shows_say|]. intros _. apply IH.
Qed.

Lemma run_show {A} (m : MS A) : shows m → acts m (run AShow).
Proof. apply acts_shows. Qed.

Lemma number_ok s lo hi : number s lo hi = match parse_ul s with Some v => if (v <? lo) || (hi <? v) then None else Some v | None => None end.
Proof. unfold number. destruct (parse_ul s) as [v|]; [|done]. repeat case_match; try done; lia. Qed.

Lemma act_write a v (f : bool → MS unit) : is_u16 v → (∀ b, shows (f b)) →
  acts (on_regs (io_write_holding a v) ≫= f) (run (ARegs [(a, v)] false)).
Proof. intros Hv Hf. apply acts_step; [by apply io_write_holding_ok|]. intros b. by apply acts_shows. Qed.

Lemma do_set_acts ch_s val_s :
  acts (cmd_io_do_set ch_s val_s)
    (run match number ch_s 1 8, number val_s 0 1 with Some ch, Some v => ADo (ch - 1) (v =? 1) | _, _ => AShow end).
Proof.
  unfold cmd_io_do_set. rewrite !number_ok. unfold DO_NUM. destruct (parse_ul ch_s) as [ch|]; [|apply run_show; solve_shows].
  destruct ((ch <? 1) || (8 <? ch)) eqn:Ec; [apply run_show; solve_shows|].
  destruct (parse_ul val_s) as [v|] eqn:Ev; [|apply run_show; solve_shows]. apply parse_ul_range in Ev.
  destruct (1 <? v) eqn:E1.
  { replace ((v <? 0) || true) with true by lia. apply run_show. solve_shows. }
  replace ((v <? 0) || false) with false by ulia.
  rewrite u16_id by ulia. replace (negb (v =? 0)) with (v =? 1) by ulia.
  apply acts_step; [apply io_write_do_bit_ok|]. intros b. apply acts_shows. solve_shows.
Qed.

(** a number behind its name, as the code and as the specification take it *)
Lemma num_arg_spec cmd args name ok lo hi :
  (∀ v, ok v = (lo <=? v) && (v <=? hi)) →
  num_arg (cmd :: args) name ok =
  if bool_decide (head args = Some (txt name)) && (2 <=? length args)%nat then number (argv args 1) lo hi else None.
Proof.
  intros Hok. unfold num_arg, number, argv. destruct args as [|a [|b args]]; cbn [length]; [done| |].
  - rewrite andb_false_r. done.
  - cbn. rewrite andb_true_r. rewrite (bool_decide_ext (Some a = Some (txt name)) (a = txt name)) by (split; [by intros [=]|by intros ->]).
    destruct (bool_decide _); [|done]. destruct (parse_ul b); [|done]. by rewrite Hok.
Qed.

Lemma number_range s lo hi v : number s lo hi = Some v → lo ≤ v ≤ hi.
Proof. unfold number. destruct (parse_ul s) as [n|]; [|done]. case_match; [|done]. intros [= <-]. lia. Qed.

Lemma rs485_acts cmd args :
  acts (cmd_io_rs485 (cmd :: args)) (run (
    let sub s := bool_decide (head args = Some (txt s)) && (2 <=? length args)%nat in
    if sub "baud"%string then write_if HOLDING_RS485_BAUDRATE_IDX (u16 <$> number (argv args 1) 1200 115200) AShow
    else if sub "sid"%string then write_if HOLDING_SLAVE_ID_IDX (number (argv args 1) 1 247) AShow
    else AShow)).
Proof.
  unfold cmd_io_rs485. rewrite (num_arg_spec _ _ _ _ 1200 115200), (num_arg_spec _ _ _ _ 1 247) by done.
  set (b1 := _ && (2 <=? length args)%nat). set (b2 := _ && (2 <=? length args)%nat). cbv zeta.
  assert (b1 = true → b2 = false) as Hex.
  { unfold b1, b2. destruct args as [|a args]; [done|]. cbn. intros [Ha%bool_decide_eq_true_1 _]%andb_true_iff.
    injection Ha as ->. done. }
  destruct b1.
  - rewrite Hex by done. destruct (number _ _ _) as [v|] eqn:En; [|apply run_show; solve_shows].
    apply act_write; [apply u16_range|]. solve_shows.
  - destruct b2; [|apply run_show; solve_shows]. destruct (number _ _ _) as [v|] eqn:En; [|apply run_show; solve_shows].
    apply number_range in En. rewrite u16_id by ulia. apply act_write; [ulia|]. solve_shows.
Qed.

(** the rates are checked one by one *)
Lemma can_bps_spec cmd args :
  num_arg (cmd :: args) "bps" can_bps_ok =
  if bool_decide (head args = Some (txt "bps")) && (2 <=? length args)%nat then
    match number (argv args 1) 50 1000 with
    | Some v => if bool_decide (v ∈ [50; 100; 125; 250; 500; 800; 1000]) then Some v else None
    | None => None
    end
  else None.
Proof.
  assert (∀ v, can_bps_ok v = bool_decide (v ∈ [50; 100; 125; 250; 500; 800; 1000])) as Hb.
  { intros v. apply eq_bool_prop_intro. rewrite bool_decide_spec, Is_true_true. unfold can_bps_ok.
    rewrite !elem_of_cons, elem_of_nil. lia. }
  unfold num_arg, number, argv. destruct args as [|a [|b args]]; cbn [length]; [done| |].
  - rewrite andb_false_r. done.
  - cbn. rewrite andb_true_r. rewrite (bool_decide_ext (Some a = Some (txt "bps")) (a = txt "bps")) by (split; [by intros [=]|by intros ->]).
    destruct (bool_decide (a = _)); [|done]. destruct (parse_ul b) as [v|]; [|done]. rewrite Hb.
    destruct ((50 <=? v) && (v <=? 1000)) eqn:Er; [done|]. rewrite bool_decide_eq_false_2; [done|].
    rewrite !elem_of_cons, elem_of_nil. lia.
Qed.

Lemma can_acts cmd args :
  acts (cmd_io_can (cmd :: args)) (run (
    let sub s := bool_decide (head args = Some (txt s)) && (2 <=? length args)%nat in
    if sub "id"%string then write_if HOLDING_CAN_ID_IDX (number (argv args 1) 1 0x7FF) AShow
    else if sub "bps"%string then
      match number (argv args 1) 50 1000 with
      | Some v => if bool_decide (v ∈ [50; 100; 125; 250; 500; 800; 1000]) then ARegs [(HOLDING_CAN_BAUDRATE_IDX, v)] false else AShow
      | None => AShow
      end
    else AShow)).
Proof.
  unfold cmd_io_can. rewrite (num_arg_spec _ _ _ _ 1 0x7FF), can_bps_spec by done.
  set (b1 := _ && (2 <=? length args)%nat). set (b2 := _ && (2 <=? length args)%nat). cbv zeta.
  assert (b1 = true → b2 = false) as Hex.
  { unfold b1, b2. destruct args as [|a args]; [done|]. cbn. intros [Ha%bool_decide_eq_true_1 _]%andb_true_iff.
    injection Ha as ->. done. }
  destruct b1.
  - rewrite Hex by done. destruct (number _ _ _) as [v|] eqn:En; [|apply run_show; solve_shows].
    apply number_range in En. rewrite u16_id by ulia. apply act_write; [ulia|]. solve_shows.
  - destruct b2; [|apply run_show; solve_shows]. destruct (number _ _ _) as [v|] eqn:En; [|apply run_show; solve_shows].
    apply number_range in En. destruct (bool_decide _); [|apply run_show; solve_shows].
    rewrite u16_id by ulia. apply act_write; [ulia|]. solve_shows.
Qed.

Lemma ip_acts cmd args :
  acts (cmd_io_ip (cmd :: args)) (run
    match parse_ip (argv args 0) with
    | Some ip =>
      if ip_addr_valid (rd ip 0) (rd ip 1) (rd ip 2) (rd ip 3)
      then ARegs [(HOLDING_IP_OCTET1_IDX, rd ip 0); (HOLDING_IP_OCTET2_IDX, rd ip 1);
                  (HOLDING_IP_OCTET3_IDX, rd ip 2); (HOLDING_IP_OCTET4_IDX, rd ip 3)] true
      else AShow
    | None => AShow
    end).
Proof.
  unfold cmd_io_ip. change (argv (cmd :: args) 1) with (argv args 0).
  destruct (Nat.ltb_spec (length (cmd :: args)) 2) as [Hl|_].
  { destruct args; [|cbn in Hl; lia]. apply run_show. solve_shows. }
  destruct (parse_ip (argv args 0)) as [ip|] eqn:Ei; [|apply run_show; solve_shows].
  apply parse_ip_range in Ei as [_ Hb]. destruct (ip_addr_valid _ _ _ _); cbn [negb]; [|apply run_show; solve_shows].
  assert (∀ i, is_u16 (rd ip i)) as Hr by (intros i; apply byte_u16; by apply rd_byte).
  unfold run_action. cbn [write_all]. do 4 (apply acts_step; [by apply io_write_holding_ok|intros _]).
  apply acts_after with (f := λ _, say _); [|intros _; apply shows_say].
  intros s Hs. cbn. pose proof (holding_reg_save_ok (s_regs s) Hs) as Hk. unfold on_regs, zoom.
  destruct (holding_reg_save (s_regs s)) as [[u|] r] eqn:Er; [|by eexists].
  eexists _, _. split_and!; [reflexivity|exact Hk|constructor|apply con_refl].
Qed.

Lemma shown_shows addr t : shows (E := E) (v ← hold addr; say (t ++ dec v)).
Proof. solve_shows. Qed.

Lemma reg_acts args :
  acts (cmd_io_reg args) (run
    match args with
    | a :: v :: _ => match number a 0 17, number v 0 0xFFFF with Some a, Some v => ARegs [(a, v)] false | _, _ => AShow end
    | _ => AShow
    end).
Proof.
  destruct args as [|a rest]; cbn [cmd_io_reg].
  { apply run_show. apply shows_bind; [apply shows_say|intros _]. apply shows_bind; [|intros _].
    - apply shows_reg_rows; [intros; by apply hold_run|lia..].
    - apply shows_bind; [apply shows_say|intros _]. apply shows_reg_rows; [intros; by apply input_run|lia..]. }
  rewrite !number_ok. destruct (parse_ul a) as [addr|] eqn:Ea.
  2: { destruct rest; apply run_show; solve_shows. }
  apply parse_ul_range in Ea. unfold MODBUS_HOLDING_REGISTER_NUMBERS.
  destruct (18 <=? addr) eqn:E18.
  { replace ((addr <? 0) || (17 <? addr)) with true by lia. destruct rest; apply run_show; solve_shows. }
  replace ((addr <? 0) || (17 <? addr)) with false by ulia.
  destruct rest as [|v_s rest]; [apply run_show; solve_shows|]. rewrite number_ok.
  destruct (parse_ul v_s) as [v|] eqn:Ev; [|apply run_show; solve_shows]. apply parse_ul_range in Ev.
  destruct (0xFFFF <? v) eqn:E1.
  { replace ((v <? 0) || true) with true by lia. apply run_show. solve_shows. }
  replace ((v <? 0) || false) with false by ulia. rewrite !u16_id by ulia. apply act_write; [ulia|]. solve_shows.
Qed.

Lemma on_regs_call_acts (f : E → E) (k : MS unit) : shows k → acts (on_regs (call f);; k) (call f).
Proof.
  intros Hk s Hs. cbn. destruct (Hk (mk_sh (s_ed s) (mk_regs (holding_reg (s_regs s)) (input_reg (s_regs s)) (f (env (s_regs s))))) Hs)
    as (a & s' & E' & C1 & C2). exists a, s'. by split_and!.
Qed.

Lemma save_acts : acts (on_regs holding_reg_save;; say (txt "parameters saved")) (run (ARegs [] true)).
Proof.
  apply acts_after; [|solve_shows]. intros s Hs. cbn. pose proof (holding_reg_save_ok (s_regs s) Hs) as Hk. unfold on_regs, zoom.
  destruct (holding_reg_save (s_regs s)) as [[u|] r] eqn:Er; [|by eexists].
  eexists _, _. split_and!; [reflexivity|exact Hk|constructor|apply con_refl].
Qed.

Lemma io_acts args :
  acts (io_dispatch set_reboot_status config_erase_all sh_info uid tick args) (run (io_action args)).
Proof.
  destruct args as [|cmd args]; cbn [io_dispatch io_action]; [apply run_show; unfold cmd_io_overview; solve_shows|]. cbv zeta.
  destruct (bool_decide (cmd = txt "help")) eqn:E1.
  { apply bool_decide_eq_true_1 in E1 as ->. apply run_show. solve_shows. }
  destruct (bool_decide (cmd = txt "info")) eqn:E2.
  { apply bool_decide_eq_true_1 in E2 as ->. apply run_show. unfold cmd_io_info. solve_shows. }
  destruct (bool_decide (cmd = txt "di")) eqn:E3.
  { apply bool_decide_eq_true_1 in E3 as ->. apply run_show. unfold cmd_io_di. solve_shows. }
  destruct (bool_decide (cmd = txt "do")).
  { destruct args as [|a [|ch [|v args]]]; cbn [length Nat.leb andb].
    1-3: rewrite ?andb_false_r; apply run_show; unfold cmd_io_do; solve_shows.
    change (argv (cmd :: a :: ch :: v :: args) 1) with a. change (argv (cmd :: a :: ch :: v :: args) 2) with ch.
    change (argv (cmd :: a :: ch :: v :: args) 3) with v. change (argv (a :: ch :: v :: args) 1) with ch.
    change (argv (a :: ch :: v :: args) 2) with v. change (head (a :: ch :: v :: args)) with (Some a).
    rewrite !andb_true_r. rewrite (bool_decide_ext (Some a = Some (txt "set")) (a = txt "set")) by (split; [by intros [=]|by intros ->]).
    destruct (bool_decide (a = txt "set")); [apply do_set_acts|]. apply run_show; unfold cmd_io_do; solve_shows. }
  destruct (bool_decide (cmd = txt "ai")) eqn:E4.
  { apply bool_decide_eq_true_1 in E4 as ->. apply run_show. unfold cmd_io_ai. apply shows_bind; [auto with shows|].
    intros en. apply shows_bind; [auto with shows|]. intros _. apply ai_rows_shows. }
  destruct (bool_decide (cmd = txt "rs485")); [apply rs485_acts|].
  destruct (bool_decide (cmd = txt "can")); [apply can_acts|].
  destruct (bool_decide (cmd = txt "ip")); [apply ip_acts|].
  destruct (bool_decide (cmd = txt "reg")); [apply reg_acts|].
  destruct (bool_decide (cmd = txt "save")); [apply save_acts|].
  destruct (bool_decide (cmd = txt "factory")); [|apply run_show; solve_shows].
  unfold run_action. apply acts_step; [apply call_ok|]. intros _. apply on_regs_call_acts, shows_say.
Qed.

Lemma words_acts ws :
  acts (exec_words set_reboot_status config_erase_all sh_info uid tick tasks ws) (run (action_of ws)).
Proof.
  destruct ws as [|cmd args]; cbn [exec_words action_of]; [by apply run_show, shows_ret|]. cbv zeta.
  destruct (bool_decide (cmd = txt "help")) eqn:E1.
  { apply bool_decide_eq_true_1 in E1 as ->. apply run_show. unfold cmd_help. solve_shows. }
  destruct (bool_decide (cmd = txt "tasks") || _) eqn:E2.
  { apply orb_true_iff in E2 as [E2|E2]; apply bool_decide_eq_true_1 in E2 as ->; apply run_show; unfold cmd_tasks; solve_shows. }
  destruct (bool_decide (cmd = txt "reboot")).
  { apply (acts_before (say _)); [|intros _].
    - intros s. eexists _, _. split; [reflexivity|by eexists].
    - intros s Hs. eexists _, _. split_and!; [reflexivity|exact Hs|constructor|apply con_refl]. }
  destruct (bool_decide (cmd = txt "io")); [apply io_acts|]. apply run_show. solve_shows.
Qed.

(** *** A turn *)

Lemma on_ed_run {A} (m : M ed A) (s : sh E) a e : m (s_ed s) = (Done a, e) → on_ed m s = (Done a, mk_sh e (s_regs s)).
Proof. intros Em. unfold on_ed, zoom. by rewrite Em. Qed.

Lemma on_ed_modify f (s : sh E) : on_ed (modify f) s = (Done tt, mk_sh (f (s_ed s)) (s_regs s)).
Proof. done. Qed.
Lemma on_ed_raw t (s : sh E) : on_ed (log_raw t) s = (Done tt, mk_sh (set_con (con (s_ed s) ++ [t]) (s_ed s)) (s_regs s)).
Proof. done. Qed.
Lemma on_ed_gets {A} (f : ed → A) (s : sh E) : on_ed (gets f) s = (Done (f (s_ed s)), s).
Proof. by destruct s. Qed.

Lemma dispatch_ok (s : sh E) a : ed_rel (s_ed s) a → regs_ok (s_regs s) →
  match run (action_of (take SH_ARG_MAX (words (a_text a) []))) (s_regs s) with
  | (Done _, r) => ∃ s' mem con', sh_dispatch set_reboot_status config_erase_all sh_info uid tick tasks s = (Done tt, s') ∧
      regs_ok r ∧ reads r (s_regs s') ∧ zlen mem = SH_LINE_MAX ∧ s_ed s' = set_con con' (set_line mem (s_ed s))
  | (Reset, r) => ∃ s', sh_dispatch set_reboot_status config_erase_all sh_info uid tick tasks s = (Reset, s') ∧ s_regs s' = r
  end.
Proof.
  intros R Hs. unfold sh_dispatch. rewrite (bind_done _ _ s (line (s_ed s)) s) by (by destruct s).
  destruct (r_line _ _ R) as [j Hj]. pose proof (r_size _ _ R) as Hz.
  destruct (split_loop_spec SH_ARG_MAX (a_text a) j) as [Hw Hm]; [apply printable_no_nul, R|]. rewrite <- Hj in Hw, Hm.
  unfold sh_split. destruct (split_loop _ (line (s_ed s))) as [ws mem]. cbn [fst snd] in Hw, Hm. rewrite <- Hw.
  rewrite (bind_done _ _ _ _ _ (on_ed_modify _ _)).
  pose proof (words_acts ws (mk_sh (set_line mem (s_ed s)) (s_regs s)) Hs) as Hx. cbn [s_regs s_ed] in Hx.
  destruct (run (action_of ws) (s_regs s)) as [[u|] r]; [|done].
  destruct Hx as ([] & s' & E' & Hr & Rd & [x Hx]). exists s', mem, x. split_and!; [done..| |done]. unfold zlen in *. by rewrite Hm.
Qed.

Lemma rel_fresh e a x mem : ed_rel e a → zlen mem = SH_LINE_MAX →
  ed_rel (line_poke 0 0 (set_ed_pos 0 (set_ed_n 0 (set_con x (set_line mem e))))) (mk_aed [] [] (a_hist a) (a_nav a) (a_draft a) (a_esc a) (a_cr a)).
Proof.
  intros R Hz. destruct mem as [|c mem]; [done|].
  pose proof (poke_ok (set_ed_pos 0 (set_ed_n 0 (set_con x (set_line (c :: mem) e)))) [] c mem 0 eq_refl) as Hp.
  change (zlen []) with 0 in Hp. rewrite Hp. destruct R. split; cbn; try done; [by exists mem|by constructor].
Qed.

Lemma sh_turn_ok (s : sh E) a c : ed_rel (s_ed s) a → regs_ok (s_regs s) →
  ((decode (a_esc a) (a_cr a) c).1.1 = KTab → tab_fits (a_text a)) →
  match run (turn_action c a) (s_regs s) with
  | (Done _, r) => ∃ s', sh_turn set_reboot_status config_erase_all sh_info uid tick tasks c s = (Done tt, s') ∧
      ed_rel (s_ed s') (a_turn c a) ∧ regs_ok r ∧ reads r (s_regs s')
  | (Reset, r) => ∃ s', sh_turn set_reboot_status config_erase_all sh_info uid tick tasks c s = (Reset, s') ∧ s_regs s' = r
  end.
Proof.
  intros R Hs Hfit. destruct (edit_ok _ _ c R Hfit) as (e1 & E1 & R1). unfold sh_turn.
  rewrite (bind_done _ _ _ _ _ (on_ed_run _ _ _ _ E1)). unfold turn_action, a_turn.
  destruct (decide ((decode (a_esc a) (a_cr a) c).1.1 = KReturn)) as [Hk|Hk].
  2: { rewrite (bool_decide_eq_true_2 (_ ≠ _)), bool_decide_eq_false_2 by done. cbn. eexists. split_and!; [reflexivity|exact R1|exact Hs|constructor]. }
  rewrite (bool_decide_eq_false_2 (_ ≠ _)) by (by intros ?). rewrite bool_decide_eq_true_2 by done.
  assert (a_text (a_edit c a) = a_text a) as Htx.
  { unfold a_edit. destruct (decode _ _ c) as [[k es] cr]. cbn in Hk. by subst. }
  unfold sh_return. rewrite (bind_done _ _ _ _ _ (on_ed_modify _ _)), (bind_done _ _ _ _ _ (on_ed_raw _ _)), (bind_done _ _ _ _ _ (on_ed_gets _ _)).
  cbn [s_ed s_regs]. set (e2 := set_con _ (set_prev_cr (c =? 13) e1)). set (a2 := a_keys (a_esc (a_edit c a)) (c =? 13) (a_edit c a)).
  assert (ed_rel e2 a2) as R2 by (eapply rel_con; [by apply rel_cr|by eexists]).
  assert (a_text a2 = a_text a) as Htx2 by (by rewrite <- Htx).
  change (ed_n e2) with (ed_n e1). rewrite (r_n _ _ R1), Htx. unfold a_return. fold a2. rewrite Htx2.
  destruct (decide (a_text a = [])) as [Hnil|Hnil].
  - rewrite Hnil, bool_decide_eq_true_2 by done. cbn. eexists. split_and!; [reflexivity| |exact Hs|constructor].
    eapply rel_con; [exact R2|by eexists].
  - rewrite (bool_decide_eq_false_2 (a_text a = [])) by done. replace (negb (zlen (a_text a) =? 0)) with true.
    2: { destruct (a_text a); [done|]. symmetry. apply negb_true_iff, Z.eqb_neq. zl. }
    rewrite <- Htx2 in Hnil |- *. pose proof (store_ok _ _ R2 Hnil) as R3. set (e3 := set_nav (-1) (hist_store e2)) in *.
    rewrite bind_assoc, (bind_done _ _ _ _ _ (on_ed_modify _ _)). cbn [s_ed s_regs]. fold e3.
    pose proof (dispatch_ok (mk_sh e3 (s_regs s)) _ R3 Hs) as Hd. change (a_text (mk_aed _ _ _ _ _ _ _)) with (a_text a2) in Hd.
    cbn [s_regs] in Hd. destruct (run _ (s_regs s)) as [[u|] r].
    + destruct Hd as (s4 & mem & x & E4 & Hr & Rd & Hm & He). rewrite bind_assoc, (bind_done _ _ _ _ _ E4).
      rewrite (bind_done _ _ _ _ _ (on_ed_modify _ _)). eexists. split_and!; [reflexivity| |exact Hr|exact Rd].
      eapply rel_con; [|by eexists]. cbn [s_ed]. rewrite He. apply (rel_fresh _ _ x mem R3 Hm).
    + destruct Hd as (s4 & E4 & Hr). exists s4. split; [|done]. rewrite bind_assoc. by rewrite (bind_reset _ _ _ _ E4).
Qed.
End Dispatch.

(** ** Typing a line *)

Section Typing.
Context {E : Type} `{IoHooksLaws E}.
Context (set_reboot_status : bool → E → E) (config_erase_all : E → E).
Context (sh_info : E → info) (uid : E → list Z) (tick : E → Z) (tasks : E → option (list task_status)).
Abbreviation turns := (sh_turns set_reboot_status config_erase_all sh_info uid tick tasks).

(** an empty prompt, and the editor with [t] typed at it *)
Definition at_prompt (a : aed) : Prop := a_text a = [] ∧ a_esc a = 0.
Definition typed_in (t : list Z) (cr : bool) (a : aed) : aed := mk_aed t [] (a_hist a) (a_nav a) (a_draft a) 0 cr.

Lemma type_char (s : sh E) t c cr a : ed_rel (s_ed s) (typed_in t cr a) → 32 ≤ c < 127 → zlen t < 94 →
  ∃ e', sh_turn set_reboot_status config_erase_all sh_info uid tick tasks c s = (Done tt, mk_sh e' (s_regs s)) ∧
    ed_rel e' (typed_in (t ++ [c]) false a).
Proof.
  intros R Hc Ht.
  assert (decode (a_esc (typed_in t cr a)) (a_cr (typed_in t cr a)) c = (KText c, 0, false)) as Hd.
  { unfold decode. cbn [a_esc a_cr typed_in Z.eqb]. replace (c =? 27) with false by lia. replace ((c =? 10) && cr) with false by lia.
    replace ((c =? 13) || (c =? 10)) with false by lia. replace ((c =? 8) || (c =? 127)) with false by lia.
    replace (c =? 9) with false by lia. by replace ((32 <=? c) && (c <? 127)) with true by lia. }
  destruct (edit_ok _ _ c R) as (e' & E' & R'); [by rewrite Hd|]. rewrite Hd in E'.
  exists e'. unfold sh_turn. rewrite (bind_done _ _ _ _ _ (on_ed_run _ _ _ _ E')). split; [done|].
  unfold a_edit in R'. rewrite Hd in R'. cbn -[zlen] in R'. unfold a_text in R'. cbn -[zlen] in R'.
  rewrite app_nil_r in R'. by replace (zlen t + 2 <? SH_LINE_MAX) with true in R' by zl.
Qed.

Lemma type_text (s : sh E) u t cr a : ed_rel (s_ed s) (typed_in u cr a) → printable t → zlen u + zlen t ≤ 94 →
  ∃ e', turns t s = (Done tt, mk_sh e' (s_regs s)) ∧ ed_rel e' (typed_in (u ++ t) (if bool_decide (t = []) then cr else false) a).
Proof.
  revert s u cr. induction t as [|c t IH]; intros s u cr R Hp Hl.
  { exists (s_ed s). rewrite app_nil_r. by destruct s. }
  apply list.Forall_cons in Hp as [Hc Hp]. cbn [sh_turns].
  destruct (type_char s u c cr a R Hc) as (e1 & E1 & R1); [pose proof (zlen_nonneg t); zl|]. rewrite (bind_done _ _ _ _ _ E1).
  destruct (IH (mk_sh e1 (s_regs s)) (u ++ [c]) false R1 Hp) as (e2 & E2 & R2); [zl|]. exists e2. split; [exact E2|].
  rewrite <- app_assoc in R2. by destruct (bool_decide (t = [])).
Qed.

Lemma turns_app t1 t2 s : turns (t1 ++ t2) s = (turns t1;; turns t2) s.
Proof.
  revert s. induction t1 as [|c t1 IH]; intros s; [done|]. cbn [app sh_turns]. rewrite bind_assoc.
  unfold mbind, M_bind. destruct (sh_turn _ _ _ _ _ _ c s) as [[u|] s1]; [|done]. apply IH.
Qed.
Lemma line_executed (s : sh E) a t :
  ed_rel (s_ed s) a → regs_ok (s_regs s) → at_prompt a → printable t → 0 < zlen t ≤ 94 →
  match run_action set_reboot_status config_erase_all (action_of (take SH_ARG_MAX (words t []))) (s_regs s) with
  | (Done _, r) => ∃ s' a', sh_turns set_reboot_status config_erase_all sh_info uid tick tasks (t ++ [13]) s = (Done tt, s') ∧
      reads r (s_regs s') ∧ regs_ok (s_regs s') ∧ ed_rel (s_ed s') a' ∧ at_prompt a' ∧ head (a_hist a') = Some t
  | (Reset, r) => ∃ s', sh_turns set_reboot_status config_erase_all sh_info uid tick tasks (t ++ [13]) s = (Reset, s') ∧ s_regs s' = r
  end.
Proof.
  intros R Hs [Htx He] Hp Hl.
  assert (ed_rel (s_ed s) (typed_in [] (a_cr a) a)) as R0.
  { unfold a_text in Htx. apply app_eq_nil in Htx as [E1 E2]. unfold typed_in. destruct a; cbn in *. by subst. }
  destruct (type_text s [] t _ a R0 Hp) as (e1 & E1 & R1); [zl|].
  cbn [app] in R1. rewrite bool_decide_eq_false_2 in R1 by (by intros ->; destruct Hl).
  rewrite turns_app, (bind_done _ _ _ _ _ E1). cbn [sh_turns].
  pose proof (sh_turn_ok set_reboot_status config_erase_all sh_info uid tick tasks (mk_sh e1 (s_regs s)) _ 13 R1 Hs) as Ht.
  cbn [s_regs] in Ht. change (turn_action 13 (typed_in t false a)) with (action_of (take SH_ARG_MAX (words (a_text (typed_in t false a)) []))) in Ht.
  assert (a_text (typed_in t false a) = t) as Ett by apply app_nil_r. rewrite Ett in Ht.
  destruct (run_action _ _ _ (s_regs s)) as [[u|] r].
  - destruct Ht as (s' & E' & R' & Hr & Rd); [done|]. rewrite (bind_done _ _ _ _ _ E'). eexists _, _.
    split; [reflexivity|]. split; [exact Rd|]. split; [by eapply reads_ok|]. split; [exact R'|].
    change (a_turn 13 (typed_in t false a)) with (a_return 13 (typed_in t false a)). unfold a_return.
    change (a_text (a_keys (a_esc (typed_in t false a)) (13 =? 13) (typed_in t false a))) with (a_text (typed_in t false a)).
    rewrite Ett, bool_decide_eq_false_2 by (by intros ->; destruct Hl). split; [done|].
    cbn [a_hist a_keys]. unfold a_store. by case_bool_decide.
  - destruct Ht as (s' & E' & Hr); [done|]. exists s'. by rewrite (bind_reset _ _ _ _ E').
Qed.

End Typing.

(** ** [io factory] and the next start *)

Section Factory.
Context {F R L : Type} `{FlashLaws F} `{RtcHal R} `{Lfs L}.

(** [config_store_erase_all] on the device *)
Definition dev_config_erase (d : device F R L) : device F R L :=
  let '(f, st) := config_store_erase_all (dev_nor d) (dev_store d) in set_store f st d.

Lemma erased_slot (f : F) t : t = CFG_SLOT_A ∨ t = CFG_SLOT_B → (∀ x, t ≤ x < t + CFG_SLOT_SIZE → cell f x = 255) → slot_read t f = SlotBad.
Proof.
  intros Ht Hx. rewrite slot_read_total by done.
  assert (cells f t CFG_REC_LEN = replicate CFG_REC_LEN 255) as ->; [|by vm_compute].
  apply list_eq_same_length with CFG_REC_LEN; [by rewrite length_replicate|by rewrite length_cells|].
  intros i x y Hi. rewrite lookup_cells, lookup_replicate_2 by done. intros [= <-] [= <-]. apply Hx.
  unfold CFG_REC_LEN, CFG_SLOT_SIZE, CFG_CRC_OFF, CFG_HDR_LEN, CFG_SIZE in *. lia.
Qed.

(** after the erasure a start finds the factory settings *)
Lemma erased_boot (d : device F R L) : inited (dev_store d) = true →
  boot_config (dev_nor (dev_config_erase d)) = config_store_get_defaults.
Proof.
  intros Hi. unfold dev_config_erase, config_store_erase_all. rewrite Hi. cbn [dev_nor set_store].
  set (fA := (iof_erase CFG_SLOT_A CFG_SLOT_SIZE (dev_nor d)).2). set (f := (iof_erase CFG_SLOT_B CFG_SLOT_SIZE fA).2).
  assert (slot_read CFG_SLOT_B f = SlotBad) as HB.
  { apply erased_slot; [by right|]. by apply erase_law. }
  assert (slot_read CFG_SLOT_A f = SlotBad) as HA.
  { apply erased_slot; [by left|]. intros x Hx. unfold f.
    rewrite erase_frame by (unfold CFG_SLOT_A, CFG_SLOT_B, CFG_SLOT_SIZE, STORAGE_OFFSET in *; lia).
    revert x Hx. by apply erase_law. }
  unfold boot_config, config_store_init. rewrite HA, HB. by vm_compute.
Qed.

Lemma reads_env (r r' : regs (device F R L)) : reads r r' → env r' = env r.
Proof. induction 1 as [|r' e _ IH ->]; [done|exact IH]. Qed.
End Factory.

(** ** Properties *)


(** C0: a line typed at an empty prompt and ended with Return is executed: the
    registers are left as its action leaves them, and the shell is back at an empty
    prompt with the line the newest of its history. *)
Theorem shell_executes_line {E} `{IoHooksLaws E} set_reboot_status config_erase_all sh_info uid tick tasks (s : sh E) a t :
  ed_rel (s_ed s) a → regs_ok (s_regs s) → at_prompt a → printable t → 0 < zlen t ≤ 94 →
  match run_action set_reboot_status config_erase_all (action_of (take SH_ARG_MAX (words t []))) (s_regs s) with
  | (Done _, r) => ∃ s' a', sh_turns set_reboot_status config_erase_all sh_info uid tick tasks (t ++ [13]) s = (Done tt, s') ∧
      reads r (s_regs s') ∧ regs_ok (s_regs s') ∧ ed_rel (s_ed s') a' ∧ at_prompt a' ∧ head (a_hist a') = Some t
  | (Reset, r) => ∃ s', sh_turns set_reboot_status config_erase_all sh_info uid tick tasks (t ++ [13]) s = (Reset, s') ∧ s_regs s' = r
  end.
Proof. apply line_executed. Qed.

(** C39: [io factory] typed at the prompt erases the stored settings: a start from
    the flash it leaves comes up with the factory settings, every output, parameter
    and address register at its initial value. *)
Theorem shell_factory_restores {F R L} `{FlashLaws F} `{RtcHal R} `{Lfs L} set_reboot_status sh_info uid tick tasks
    (s : sh (device F R L)) a :
  ed_rel (s_ed s) a → regs_ok (s_regs s) → at_prompt a → inited (dev_store (env (s_regs s))) = true →
  (∀ b d, dev_nor (set_reboot_status b d) = dev_nor d) →
  ∃ s', sh_turns set_reboot_status dev_config_erase sh_info uid tick tasks (txt "io factory" ++ [13]) s = (Done tt, s') ∧
  ∀ version g rt l t mounted l', ∃ s2,
    boot_task mounted l' (power_on version g (dev_nor (env (s_regs s'))) rt l t : regs (device F R L)) = (Done tt, s2) ∧
    ∀ i, 0 ≤ i ≤ 13 → hread s2 i = rd holding_reg_init (Z.to_nat i).
Proof.
  intros R0 Hs Ha Hin Hset.
  pose proof (line_executed set_reboot_status dev_config_erase sh_info uid tick tasks s a (txt "io factory") R0 Hs Ha) as Ht.
  destruct Ht as (s' & a' & E' & Rd & _); [unfold printable; repeat constructor; vm_compute; done|by vm_compute|].
  exists s'. split; [exact E'|]. intros version g rt l t mounted l'. rewrite (reads_env _ _ Rd). cbn [env]. rewrite Hset.
  destruct (boot_task_run version g (dev_nor (dev_config_erase (env (s_regs s)))) rt l t mounted l') as (s2 & Hrun & _ & _ & _ & _ & Hregs).
  exists s2. split; [exact Hrun|]. intros i Hi. rewrite Hregs by lia. rewrite erased_boot by done.
  by vm_compute.
Qed.

(** ** Witnesses and examples *)

Import RamFs.

Definition info0 : info := mk_info 0 3 0 [] [] None 0 0 false.
Definition trace_erase (t : Trace.trace) : Trace.trace := Trace.mk_trace (Trace.log t) (Trace.now t) ConfigStore.config_store_get_defaults.
Definition demo_turns : list Z → M (sh Trace.trace) unit := sh_turns (λ _ e, e) trace_erase (λ _, info0) (λ _, replicate 12 0) Trace.now (λ _, Some []).
Definition sh_boot : sh Trace.trace := mk_sh ed_boot (regs_boot 0).


(** output 3 is switched on, and driven once *)
Lemma shell_executes_line_witness :
  ∃ s', demo_turns (txt "io do set 3 1" ++ [13]) sh_boot = (Done tt, s') ∧ hread (s_regs s') HOLDING_DO_IDX = 4 ∧ wild (s_ed s') = false.
Proof.
  pose proof (shell_executes_line (λ _ e, e) trace_erase (λ _, info0) (λ _, replicate 12 0) Trace.now (λ _, Some []) sh_boot a_boot
    (txt "io do set 3 1") ed_boot_ok (regs_boot_ok 0)) as Ht.
  destruct Ht as (s' & a' & H1 & H2 & _ & H4 & _); [done| |by vm_compute|].
  - repeat constructor; vm_compute; done.
  - exists s'. split; [exact H1|]. apply reads_regs in H2 as [H2 _]. split; [|apply H4].
    unfold hread. rewrite H2. by vm_compute.
Defined.

(** a device with settings of its own, back to 9600 baud *)
Definition dev_set : regs (device Nor.nor rtc_regs RamFs.ramfs) :=
  mk_regs holding_reg_init (input_reg_init 0 3 0)
    (mk_device (λ _, false) nor1 store1 clk_new 0 (History.history_init true RamFs.empty_fs) false 0).

Lemma shell_factory_restores_witness :
  ∃ s', sh_turns (λ _ d, d) dev_config_erase (λ _, info0) (λ _, replicate 12 0) dev_tick (λ _, None) (txt "io factory" ++ [13])
          (mk_sh ed_boot dev_set) = (Done tt, s') ∧
  ∃ s2, boot_task true RamFs.empty_fs (power_on (0, 3, 0) (λ _, true) (dev_nor (env (s_regs s'))) (hrtc clk_new) RamFs.empty_fs 0
          : regs (device Nor.nor rtc_regs RamFs.ramfs)) = (Done tt, s2) ∧ hread s2 HOLDING_RS485_BAUDRATE_IDX = 9600.
Proof.
  destruct (shell_factory_restores (λ _ d, d) (λ _, info0) (λ _, replicate 12 0) dev_tick (λ _, None) (mk_sh ed_boot dev_set) a_boot)
    as (s' & H1 & Hb); [exact ed_boot_ok|exact (proj1 dev_new_ok)|done|vm_compute; reflexivity|done|].
  exists s'. split; [exact H1|].
  destruct (Hb (0, 3, 0) (λ _, true) (hrtc clk_new) RamFs.empty_fs 0 true RamFs.empty_fs) as (s2 & Hr & Hregs).
  exists s2. split; [exact Hr|]. rewrite Hregs by (unfold HOLDING_RS485_BAUDRATE_IDX; lia). reflexivity.
Defined.

(** a baud rate the check lets pass does not fit the register *)
Example baud_wraps : action_of (words (txt "io rs485 baud 115200") []) = ARegs [(HOLDING_RS485_BAUDRATE_IDX, 49664)] false.
Proof. by vm_compute. Qed.

(** a leading zero means octal, and a minus sign wraps around *)
Example octal_address :
  action_of (words (txt "io reg 010 1") []) = ARegs [(HOLDING_RS485_BAUDRATE_IDX, 1)] false ∧
  action_of (words (txt "io reg 08 1") []) = AShow ∧
  action_of (words (txt "io do set -4294967295 1") []) = ADo 0 true.
Proof. by vm_compute. Qed.

(** the reboot register, written through the shell, resets at once *)
Example reg_reboot : (demo_turns (txt "io reg 17 1" ++ [13]) sh_boot).1 = Reset.
Proof. by vm_compute. Qed.

(** a request out of range is answered and does nothing *)
Example bad_channel :
  bool_decide ((txt "invalid channel: 9 (1-8)" ++ [13; 10]) ∈ con (s_ed (demo_turns (txt "io do set 9 1" ++ [13]) sh_boot).2)) = true ∧
  s_regs (demo_turns (txt "io do set 9 1" ++ [13]) sh_boot).2 = regs_boot 0.
Proof. by vm_compute. Qed.
