(* ===== verification/Macraw.v ===== *)
(** The Ethernet driver: [src/net/w5500_macraw.c], with the socket pool of
    [src/net/w5500.c].

    Frames come from the W5500's socket 0 as one byte stream, each behind a length
    of two bytes; the receive task cuts it into frames and hands them to lwIP.  The
    chip (through ioLibrary) and lwIP are classes: [W5500] with the register and
    buffer accesses the driver makes, [LwIP] with its buffers and [netif->input].
    [W5500Laws] is the data sheet: reading advances a pointer, RECV makes the chip
    take notice, the command register clears after some polls. *)

From S2P Require Import Prelude.

(** ** The chip and lwIP *)

Class W5500 (C : Type) : Type := {
  get_rx_rsr : C → Z * C; get_cr : C → Z * C; get_sr : C → Z * C; get_mr : C → Z * C; get_ir : C → Z * C;
  set_cr : Z → C → C; set_ir : Z → C → C; set_imr : Z → C → C; set_simr : Z → C → C;
  sock_close : C → C; sock_open : Z → Z → C → C;  (* close(0), socket(0, mode, 0, flags) *)
  wiz_recv_data : Z → C → list Z * C;
  wiz_recv_ignore : Z → C → C;
  wiz_send_data : list Z → C → C;
  get_phycfgr : C → Z * C;
  tick_count : C → Z * C;             (* xTaskGetTickCount *)
  task_delay : C → C;                 (* vTaskDelay(1) *)
}.

Class LwIP (N : Type) : Type := {
  pbuf_alloc : Z → N → option (list Z) * N;   (* the sizes of the chain *)
  pbuf_free : N → N;
  netif_input : list (list Z) → N → bool * N; (* ERR_OK *)
  netif_add : Z → Z → Z → N → bool * N;       (* address, mask, gateway *)
}.

Definition Sn_CR_SEND : Z := 0x20.
Definition Sn_CR_RECV : Z := 0x40.
Definition Sn_IR_SENDOK : Z := 0x10.
Definition Sn_IR_TIMEOUT : Z := 0x08.
Definition Sn_IR_RECV : Z := 0x04.
Definition SOCK_MACRAW : Z := 0x42.
Definition Sn_MR_MACRAW : Z := 0x04.
Definition SF_ETHER_OWN : Z := 0x80.
Definition SF_MULTI_BLOCK : Z := 0x20.
Definition PHYCFGR_LNK_ON : Z := 1.

(** [unread]: the bytes behind the read pointer; [seen]: those the size register
    still counts; [busy]: the polls until the command register clears; [sent]: what
    was put into the transmit buffer; [now]: the ticks since start *)
Class W5500Laws (C : Type) `{W5500 C} : Type := {
  unread : C → list Z; seen : C → Z; busy : C → nat; sent : C → list Z; now : C → Z; CR_POLLS : nat;
  rsr_law c : (get_rx_rsr c).1 = seen c ∧ unread (get_rx_rsr c).2 = unread c ∧ seen (get_rx_rsr c).2 = seen c;
  recv_law n c : 0 ≤ n ≤ zlen (unread c) →
    (wiz_recv_data n c).1 = take (Z.to_nat n) (unread c) ∧ unread (wiz_recv_data n c).2 = drop (Z.to_nat n) (unread c);
  ignore_law n c : 0 ≤ n ≤ zlen (unread c) → unread (wiz_recv_ignore n c) = drop (Z.to_nat n) (unread c);
  cr_recv_law c : unread (set_cr Sn_CR_RECV c) = unread c ∧ seen (set_cr Sn_CR_RECV c) = zlen (unread c) ∧
    (busy (set_cr Sn_CR_RECV c) ≤ CR_POLLS)%nat;
  cr_busy_law c : ((get_cr c).1 = 0 ↔ busy c = O) ∧ busy (get_cr c).2 = pred (busy c) ∧
    unread (get_cr c).2 = unread c ∧ seen (get_cr c).2 = seen c ∧ sent (get_cr c).2 = sent c;
  set_ir_law v c : unread (set_ir v c) = unread c ∧ seen (set_ir v c) = seen c ∧ sent (set_ir v c) = sent c;
  set_imr_law v c : unread (set_imr v c) = unread c ∧ seen (set_imr v c) = seen c;
  sock_open_law m f c : unread (sock_open m f c) = [] ∧ seen (sock_open m f c) = 0;
  send_law b c : sent (wiz_send_data b c) = sent c ++ b;
  cr_send_law c : sent (set_cr Sn_CR_SEND c) = sent c ∧ (busy (set_cr Sn_CR_SEND c) ≤ CR_POLLS)%nat;
  tick_law c : (tick_count c).1 = u32 (now c) ∧ now (tick_count c).2 = now c ∧ sent (tick_count c).2 = sent c ∧
    busy (tick_count c).2 = busy c;
  delay_law c : now c < now (task_delay c) ≤ now c + 1000 ∧ sent (task_delay c) = sent c;
  sr_law c : now c ≤ now (get_sr c).2 ≤ now c + 1000 ∧ sent (get_sr c).2 = sent c;
  ir_law c : sent (get_ir c).2 = sent c;
}.

Class LwIPLaws (N : Type) `{LwIP N} : Type := {
  alloc_law len n segs : (pbuf_alloc len n).1 = Some segs → foldr Z.add 0 segs = len ∧ Forall (λ k, 0 < k) segs;
}.

(** ** State *)

Record counters := mk_counters { rx_total : Z; rx_ipv4 : Z; rx_arp : Z; rx_other : Z; rx_badhdr : Z; rx_nobuf : Z }.

(** [w5500_netif] and [netif_added] *)
Record netif := mk_netif { nif_added : bool; nif_up : bool; nif_link : bool; hwaddr : list Z; nif_ip : Z; nif_mask : Z; nif_gw : Z }.

Record drv (C N : Type) := mk_drv {
  nif : netif;
  chip : C; lwip : N; cnt : counters;
  rx_sem : Z;                  (* counting semaphore *)
  locked : bool }.             (* [spi_lock] is taken *)
Arguments mk_drv {C N} _ _ _ _ _ _.
Arguments nif {C N} _.
Arguments chip {C N} _.
Arguments lwip {C N} _.
Arguments cnt {C N} _.
Arguments rx_sem {C N} _.
Arguments locked {C N} _.

Definition MACRAW_MAX_FRAME : Z := 1514.
Definition MACRAW_RX_BURST : nat := 32.
Definition TX_TMO : Z := 100.

Inductive tx_result := ERR_OK | ERR_IF | ERR_TIMEOUT.

#[export] Instance tx_result_eq_dec : EqDecision tx_result.
Proof. solve_decision. Defined.

(** a poll loop whose [fuel] ran out would go on polling *)
Section Driver.
Context {C N : Type} `{W5500 C} `{LwIP N}.
Abbreviation MD := (M (drv C N)).

Definition on_chip {A} (f : C → A * C) : MD A :=
  λ s, let '(a, c) := f (chip s) in (Done a, mk_drv (nif s) c (lwip s) (cnt s) (rx_sem s) (locked s)).
Definition on_lwip {A} (f : N → A * N) : MD A :=
  λ s, let '(a, n) := f (lwip s) in (Done a, mk_drv (nif s) (chip s) n (cnt s) (rx_sem s) (locked s)).
Definition chip_do (f : C → C) : MD unit := on_chip (λ c, (tt, f c)).
Definition set_lock (b : bool) : MD unit := modify (λ s, mk_drv (nif s) (chip s) (lwip s) (cnt s) (rx_sem s) b).
Definition count (f : counters → counters) : MD unit :=
  modify (λ s, mk_drv (nif s) (chip s) (lwip s) (f (cnt s)) (rx_sem s) (locked s)).
Definition sem_give : MD unit :=
  modify (λ s, mk_drv (nif s) (chip s) (lwip s) (cnt s) (if rx_sem s <? 0xFFFF then rx_sem s + 1 else rx_sem s) (locked s)).

Definition macraw_lock : MD unit := set_lock true.
Definition macraw_unlock : MD unit := set_lock false.

(** [while (getSn_CR(MACRAW_SN) != 0) {}]; [false]: [fuel] polls were not enough *)
Fixpoint wait_cr (fuel : nat) : MD bool :=
  match fuel with
  | O => mret false
  | S fuel => b ← on_chip get_cr; if negb (b =? 0) then wait_cr fuel else mret true
  end.

Context (fuel : nat).

Definition macraw_recv_commit : MD bool := chip_do (set_cr Sn_CR_RECV);; wait_cr fuel.

Definition macraw_open_socket : MD unit :=
  chip_do sock_close;;
  chip_do (sock_open Sn_MR_MACRAW (Z.lor SF_ETHER_OWN SF_MULTI_BLOCK));;
  chip_do (set_ir 0x1F);;
  chip_do (set_imr Sn_IR_RECV).

(** [wiz_recv_data] into each buffer of a chain *)
Fixpoint recv_pbufs (segs : list Z) : MD (list (list Z)) :=
  match segs with
  | [] => mret []
  | k :: segs => b ← on_chip (wiz_recv_data k); bs ← recv_pbufs segs; mret (b :: bs)
  end.

Definition bump (f : Z → counters → counters) (g : counters → Z) (c : counters) : counters := f (u32 (g c + 1)) c.
Definition inc_total := bump (λ x c, mk_counters x (rx_ipv4 c) (rx_arp c) (rx_other c) (rx_badhdr c) (rx_nobuf c)) rx_total.
Definition inc_ipv4 := bump (λ x c, mk_counters (rx_total c) x (rx_arp c) (rx_other c) (rx_badhdr c) (rx_nobuf c)) rx_ipv4.
Definition inc_arp := bump (λ x c, mk_counters (rx_total c) (rx_ipv4 c) x (rx_other c) (rx_badhdr c) (rx_nobuf c)) rx_arp.
Definition inc_other := bump (λ x c, mk_counters (rx_total c) (rx_ipv4 c) (rx_arp c) x (rx_badhdr c) (rx_nobuf c)) rx_other.
Definition inc_badhdr := bump (λ x c, mk_counters (rx_total c) (rx_ipv4 c) (rx_arp c) (rx_other c) x (rx_nobuf c)) rx_badhdr.
Definition inc_nobuf := bump (λ x c, mk_counters (rx_total c) (rx_ipv4 c) (rx_arp c) (rx_other c) (rx_badhdr c) x) rx_nobuf.

(** which counter a frame goes to; [first]: the first buffer of the chain, which lwIP
    makes longer than an Ethernet header *)
Definition count_type (first : list Z) (len : Z) (c : counters) : counters :=
  let c := inc_total c in
  if 14 <=? len then
    let ethertype := u16 (Z.lor (Z.shiftl (rd first 12) 8) (rd first 13)) in
    if ethertype =? 0x0800 then inc_ipv4 c else if ethertype =? 0x0806 then inc_arp c else inc_other c
  else c.

Definition low_level_input : MD (option (list (list Z))) :=
  rsr ← on_chip get_rx_rsr;
  if rsr <? 2 then mret None
  else
    macraw_lock;;
    hdr_buf ← on_chip (wiz_recv_data 2);
    _ ← macraw_recv_commit;
    let hdr := u16 (Z.lor (Z.shiftl (rd hdr_buf 0) 8) (rd hdr_buf 1)) in
    let framelen := u16 (hdr - 2) in
    if (framelen =? 0) || (MACRAW_MAX_FRAME <? framelen) then
      count inc_badhdr;; macraw_open_socket;; macraw_unlock;; mret None
    else
      p ← on_lwip (pbuf_alloc framelen);
      match p with
      | None =>
        count inc_nobuf;; chip_do (wiz_recv_ignore framelen);; _ ← macraw_recv_commit; macraw_unlock;; mret None
      | Some segs =>
        bufs ← recv_pbufs segs;
        _ ← macraw_recv_commit;
        macraw_unlock;;
        count (count_type (default [] (head bufs)) framelen);;
        mret (Some bufs)
      end.

(** [while (budget-- > 0)] *)
Fixpoint rx_burst (budget : nat) : MD unit :=
  match budget with
  | O => mret tt
  | S budget =>
    p ← low_level_input;
    match p with
    | None => mret tt
    | Some bufs =>
      ok ← on_lwip (netif_input bufs);
      (if negb ok then on_lwip (λ n, (tt, pbuf_free n)) else mret tt);;
      rx_burst budget
    end
  end.

(** one round of the loop, after [xSemaphoreTake] returned *)
Definition macraw_rx_turn : MD unit :=
  rsr ← on_chip get_rx_rsr;
  if rsr =? 0 then mret tt
  else
    rx_burst MACRAW_RX_BURST;;
    macraw_lock;;
    chip_do (set_ir Sn_IR_RECV);;
    rsr ← on_chip get_rx_rsr;
    (if negb (rsr =? 0) then sem_give else mret tt);;
    macraw_unlock.

(** [xSemaphoreTake] with its time limit: taken, or the 10 ms are over *)
Definition sem_take : MD unit :=
  modify (λ s, mk_drv (nif s) (chip s) (lwip s) (cnt s) (Z.max 0 (rx_sem s - 1)) (locked s)).

Fixpoint macraw_rx_task (rounds : nat) : MD unit :=
  match rounds with O => mret tt | S rounds => sem_take;; macraw_rx_turn;; macraw_rx_task rounds end.

(** [pending]: the line of the W5500 raised it *)
Definition EXTI1_IRQHandler (pending : bool) : MD unit := if pending then sem_give else mret tt.

(** wait for the socket: [None]: [polls] rounds were not enough *)
Fixpoint tx_ready (polls : nat) (t0 : Z) : MD (option bool) :=
  match polls with
  | O => mret None
  | S polls =>
    sr ← on_chip get_sr;
    if sr =? SOCK_MACRAW then mret (Some true)
    else
      t ← on_chip tick_count;
      if TX_TMO <? u32 (t - t0) then macraw_unlock;; mret (Some false)
      else macraw_unlock;; chip_do task_delay;; macraw_lock;; tx_ready polls t0
  end.

Fixpoint tx_wait (polls : nat) (t1 : Z) : MD (option bool) :=
  match polls with
  | O => mret None
  | S polls =>
    b ← on_chip get_cr;
    if negb (b =? 0) then
      t ← on_chip tick_count;
      if TX_TMO <? u32 (t - t1) then macraw_unlock;; mret (Some false) else tx_wait polls t1
    else mret (Some true)
  end.

Fixpoint send_chain (bufs : list (list Z)) : MD unit :=
  match bufs with [] => mret tt | b :: bufs => chip_do (wiz_send_data b);; send_chain bufs end.

Definition low_level_output (polls : nat) (p : list (list Z)) : MD (option tx_result) :=
  macraw_lock;;
  t0 ← on_chip tick_count;
  r ← tx_ready polls t0;
  match r with
  | None => mret None
  | Some false => mret (Some ERR_IF)
  | Some true =>
    send_chain p;;
    chip_do (set_cr Sn_CR_SEND);;
    t1 ← on_chip tick_count;
    r ← tx_wait polls t1;
    match r with
    | None => mret None
    | Some false => mret (Some ERR_TIMEOUT)
    | Some true =>
      ir ← on_chip get_ir;
      if negb (Z.land ir Sn_IR_SENDOK =? 0) then chip_do (set_ir Sn_IR_SENDOK);; macraw_unlock;; mret (Some ERR_OK)
      else if negb (Z.land ir Sn_IR_TIMEOUT =? 0) then chip_do (set_ir Sn_IR_TIMEOUT);; macraw_unlock;; mret (Some ERR_TIMEOUT)
      else macraw_unlock;; mret (Some ERR_OK)
    end
  end.

(** the two registers it returns are only logged *)
Definition low_level_init : MD (Z * Z) :=
  macraw_lock;;
  macraw_open_socket;;
  chip_do (set_simr 1);;
  sr ← on_chip get_sr;
  mr ← on_chip get_mr;
  macraw_unlock;;
  mret (sr, mr).

(** [IP4_ADDR]: network order in a little-endian word *)
Definition ip4_addr (a b c d : Z) : Z := Z.lor (Z.lor (Z.lor a (Z.shiftl b 8)) (Z.shiftl c 16)) (Z.shiftl d 24).

(** the gateway of the interface: .1 of the same network *)
Definition gw_of (ip32 : Z) : Z := Z.lor (Z.land ip32 0x00FFFFFF) (Z.shiftl 1 24).

Definition set_nif (f : netif → netif) : MD unit :=
  modify (λ s, mk_drv (f (nif s)) (chip s) (lwip s) (cnt s) (rx_sem s) (locked s)).

(** [o1] to [o4]: the address registers *)
Definition w5500_macraw_init (mac : list Z) (o1 o2 o3 o4 : Z) : MD bool :=
  modify (λ s, mk_drv (nif s) (chip s) (lwip s) (cnt s) 0 false);;
  let ip := ip4_addr (u8 o1) (u8 o2) (u8 o3) (u8 o4) in
  let gw := gw_of ip in
  let netmask := ip4_addr 255 255 255 0 in
  set_nif (λ i, mk_netif (nif_added i) (nif_up i) (nif_link i) mac (nif_ip i) (nif_mask i) (nif_gw i));;
  _ ← low_level_init;
  phy ← on_chip get_phycfgr;
  let link_now := negb (Z.land phy PHYCFGR_LNK_ON =? 0) in
  ok ← on_lwip (netif_add ip netmask gw);
  if ok : bool then
    set_nif (λ i, mk_netif true true link_now (hwaddr i) ip netmask gw);; mret true
  else mret false.

Definition w5500_macraw_link_up : MD bool := gets (λ s, nif_link (nif s)).

Definition w5500_macraw_get_mac : MD (option (list Z)) :=
  gets (λ s, if nif_added (nif s) then Some (hwaddr (nif s)) else None).

Definition set_link_flag (up : bool) (i : netif) : netif :=
  mk_netif (nif_added i) (nif_up i) up (hwaddr i) (nif_ip i) (nif_mask i) (nif_gw i).

Definition macraw_set_link_cb (up : bool) : MD unit :=
  cur ← w5500_macraw_link_up;
  if up && negb cur then set_nif (set_link_flag true)
  else if negb up && cur then set_nif (set_link_flag false)
  else mret tt.

Definition w5500_macraw_set_link (up : bool) : MD unit :=
  added ← gets (λ s, nif_added (nif s));
  if added : bool then macraw_set_link_cb up else mret tt.
End Driver.

(** ** The socket pool *)

Definition SN_POOL_BASE : Z := 4.
Definition WIZCHIP_SOCK_NUM : Z := 8.

(** [u8 (~((1 << SN_POOL_BASE) - 1))] *)
Definition sn_free_init : Z := u8 (Z.lnot (Z.shiftl 1 SN_POOL_BASE - 1)).

Fixpoint sn_scan (k : nat) (i : Z) (map : Z) : option Z :=
  match k with
  | O => None
  | S k => if negb (Z.land map (u8 (Z.shiftl 1 i)) =? 0) then Some i else sn_scan k (i + 1) map
  end.

(** [None] is -1 *)
Definition sn_alloc (map : Z) : option Z * Z :=
  match sn_scan 4 SN_POOL_BASE map with
  | Some i => (Some i, Z.land map (u8 (Z.lnot (u8 (Z.shiftl 1 i)))))
  | None => (None, map)
  end.

Definition sn_free (sn : Z) (map : Z) : Z :=
  if (sn <? SN_POOL_BASE) || (WIZCHIP_SOCK_NUM <=? sn) then map else Z.lor map (u8 (Z.shiftl 1 sn)).

(** ** Reference: frames, and where they go *)

(** a frame as the chip stores it *)
Definition enc (f : list Z) : list Z := [(zlen f + 2) / 256; (zlen f + 2) mod 256] ++ f.
Definition frame_ok (f : list Z) : Prop := 1 ≤ zlen f ≤ MACRAW_MAX_FRAME.

Fixpoint cut (segs : list Z) (f : list Z) : list (list Z) :=
  match segs with [] => [] | k :: segs => take (Z.to_nat k) f :: cut segs (drop (Z.to_nat k) f) end.

(** at most [k] frames handed up; a frame without buffer is lost and ends the
    round.  The frames left, lwIP, and how many were handed up and lost *)
Fixpoint hand_up {N} `{LwIP N} (k : nat) (fs : list (list Z)) (n : N) : list (list Z) * N * Z * Z :=
  match k, fs with
  | S k, f :: fs =>
    match pbuf_alloc (zlen f) n with
    | (None, n) => (fs, n, 0, 1)
    | (Some segs, n) =>
      let '(ok, n) := netif_input (cut segs f) n in
      let '(fs, n, up, lost) := hand_up k fs (if ok : bool then n else pbuf_free n) in
      (fs, n, up + 1, lost)
    end
  | _, _ => (fs, n, 0, 0)
  end.

Definition stream (fs : list (list Z)) : list Z := concat (enc <$> fs).

Section Rx.
Context {C N : Type} `{W5500Laws C} `{LwIPLaws N}.
Abbreviation MD := (M (drv C N)).
Abbreviation fuel := (S CR_POLLS).

Lemma enc_len f : zlen (enc f) = zlen f + 2.
Proof. unfold enc. rewrite zlen_app. unfold zlen. cbn [length]. lia. Qed.

Lemma stream_cons f fs : stream (f :: fs) = enc f ++ stream fs.
Proof. done. Qed.

Lemma wait_cr_ok n (s : drv C N) : (busy (chip s) < n)%nat →
  ∃ c, wait_cr n s = (Done true, mk_drv (nif s) c (lwip s) (cnt s) (rx_sem s) (locked s)) ∧
    unread c = unread (chip s) ∧ seen c = seen (chip s).
Proof.
  revert s. induction n as [|n IH]; intros s Hb; [lia|]. cbn [wait_cr]. unfold mbind, M_bind, on_chip at 1.
  destruct (cr_busy_law (chip s)) as (Hv & Hp & Hu & Hs & _). destruct (get_cr (chip s)) as [b c]. cbn in *.
  destruct (Z.eqb_spec b 0) as [Hb0|Hb0]; cbn [negb]; [exists c; by split_and!|].
  assert (busy (chip s) ≠ O) by (intros Hz; apply Hb0; by apply Hv).
  destruct (IH (mk_drv (nif s) c (lwip s) (cnt s) (rx_sem s) (locked s))) as (c' & E & E1 & E2); [cbn; lia|].
  exists c'. cbn in *. rewrite E. split_and!; [done|congruence|congruence].
Qed.

Lemma commit_ok (s : drv C N) :
  ∃ c, macraw_recv_commit fuel s = (Done true, mk_drv (nif s) c (lwip s) (cnt s) (rx_sem s) (locked s)) ∧
    unread c = unread (chip s) ∧ seen c = zlen (unread (chip s)).
Proof.
  destruct (cr_recv_law (chip s)) as (Hu & Hs & Hb). unfold macraw_recv_commit, chip_do, on_chip, mbind, M_bind.
  destruct (wait_cr_ok fuel (mk_drv (nif s) (set_cr Sn_CR_RECV (chip s)) (lwip s) (cnt s) (rx_sem s) (locked s))) as (c & E & E1 & E2); [cbn; lia|].
  exists c. cbn in *. rewrite E. split_and!; [done|congruence|congruence].
Qed.

Lemma open_ok (s : drv C N) :
  ∃ c, macraw_open_socket s = (Done tt, mk_drv (nif s) c (lwip s) (cnt s) (rx_sem s) (locked s)) ∧ unread c = [] ∧ seen c = 0.
Proof.
  eexists. split; [reflexivity|]. cbn [nif chip lwip cnt rx_sem locked].
  destruct (set_imr_law Sn_IR_RECV (set_ir 0x1F (sock_open Sn_MR_MACRAW (Z.lor SF_ETHER_OWN SF_MULTI_BLOCK) (sock_close (chip s))))) as [-> ->].
  destruct (set_ir_law 0x1F (sock_open Sn_MR_MACRAW (Z.lor SF_ETHER_OWN SF_MULTI_BLOCK) (sock_close (chip s)))) as (-> & -> & _).
  apply sock_open_law.
Qed.

Lemma recv_pbufs_ok segs (s : drv C N) f rest :
  unread (chip s) = f ++ rest → Forall (λ k, 0 < k) segs → foldr Z.add 0 segs = zlen f →
  ∃ c, recv_pbufs segs s = (Done (cut segs f), mk_drv (nif s) c (lwip s) (cnt s) (rx_sem s) (locked s)) ∧ unread c = rest.
Proof.
  revert s f. induction segs as [|k segs IH]; intros s f Hu Hp Hsum; cbn [recv_pbufs cut foldr] in *.
  { exists (chip s). assert (f = []) as -> by (destruct f; [done|unfold zlen in Hsum; cbn in Hsum; lia]). by destruct s. }
  apply list.Forall_cons in Hp as [Hk Hp].
  assert (0 ≤ foldr Z.add 0 segs) as Hnn by (clear - Hp; induction Hp; cbn; lia).
  assert ((Z.to_nat k <= length f)%nat) as Hkl by (unfold zlen in Hsum; lia).
  destruct (recv_law k (chip s)) as [E1 E2]; [rewrite Hu, zlen_app; pose proof (zlen_nonneg rest); lia|].
  rewrite Hu in E1, E2. rewrite take_app_le in E1 by done. rewrite drop_app_le in E2 by done.
  unfold mbind at 1, M_bind at 1, on_chip at 1. destruct (wiz_recv_data k (chip s)) as [b c]. cbn in E1, E2. subst b.
  destruct (IH (mk_drv (nif s) c (lwip s) (cnt s) (rx_sem s) (locked s)) (drop (Z.to_nat k) f)) as (c' & E & Hc'); [done|done| |].
  { unfold zlen in *. rewrite length_drop. lia. }
  exists c'. rewrite (bind_done _ _ _ _ _ E). by split.
Qed.

(** the length the header carries *)
Lemma enc_hdr f rest : frame_ok f →
  take 2 (enc f ++ rest) = [(zlen f + 2) / 256; (zlen f + 2) mod 256] ∧ drop 2 (enc f ++ rest) = f ++ rest ∧
  u16 (u16 (Z.lor (Z.shiftl ((zlen f + 2) / 256) 8) ((zlen f + 2) mod 256)) - 2) = zlen f.
Proof.
  unfold frame_ok, MACRAW_MAX_FRAME. intros Hf. split; [done|]. split; [done|].
  rewrite lor_shiftl_add by (try done; apply Z.mod_pos_bound; done). change (2 ^ 8) with 256.
  replace ((zlen f + 2) / 256 * 256 + (zlen f + 2) mod 256) with (zlen f + 2) by (pose proof (Z.div_mod (zlen f + 2) 256); lia).
  rewrite (u16_id (zlen f + 2)) by ulia. rewrite u16_id by ulia. lia.
Qed.

Definition same_but (s s' : drv C N) : Prop := rx_sem s' = rx_sem s ∧ locked s' = false ∧ rx_badhdr (cnt s') = rx_badhdr (cnt s).

Lemma count_type_total first len c : rx_total (count_type first len c) = u32 (rx_total c + 1) ∧
  rx_badhdr (count_type first len c) = rx_badhdr c ∧ rx_nobuf (count_type first len c) = rx_nobuf c.
Proof. unfold count_type. by repeat case_match. Qed.

(** one whole frame *)
Lemma input_ok (s : drv C N) f fs : frame_ok f → unread (chip s) = stream (f :: fs) → seen (chip s) = zlen (stream (f :: fs)) →
  ∃ s', low_level_input fuel s = (Done ((λ segs, cut segs f) <$> (pbuf_alloc (zlen f) (lwip s)).1), s') ∧
    unread (chip s') = stream fs ∧ seen (chip s') = zlen (stream fs) ∧ lwip s' = (pbuf_alloc (zlen f) (lwip s)).2 ∧ same_but s s' ∧
    rx_total (cnt s') = match (pbuf_alloc (zlen f) (lwip s)).1 with Some _ => u32 (rx_total (cnt s) + 1) | None => rx_total (cnt s) end ∧
    rx_nobuf (cnt s') = match (pbuf_alloc (zlen f) (lwip s)).1 with Some _ => rx_nobuf (cnt s) | None => u32 (rx_nobuf (cnt s) + 1) end.
Proof.
  intros Hf Hu Hs. unfold low_level_input. rewrite stream_cons in Hu, Hs. destruct (enc_hdr f (stream fs) Hf) as (Ht & Hd & Hlen).
  destruct (rsr_law (chip s)) as (Hr & Hu1 & Hs1). unfold mbind at 1, M_bind at 1, on_chip at 1.
  destruct (get_rx_rsr (chip s)) as [rsr c1]. cbn [fst snd] in Hr, Hu1, Hs1. subst rsr.
  assert (zlen (enc f ++ stream fs) = zlen f + 2 + zlen (stream fs)) as Hz by (by rewrite zlen_app, enc_len).
  pose proof (zlen_nonneg (stream fs)) as Hnn. unfold frame_ok in Hf.
  replace (seen (chip s) <? 2) with false by lia.
  unfold mbind at 1, M_bind at 1, macraw_lock at 1, set_lock at 1, modify at 1.
  unfold mbind at 1, M_bind at 1, on_chip at 1. cbn [nif chip lwip cnt rx_sem locked].
  destruct (recv_law 2 c1) as [E1 E2]; [rewrite Hu1, Hu; lia|]. rewrite Hu1, Hu in E1, E2.
  destruct (wiz_recv_data 2 c1) as [hb c2]. cbn [fst snd] in E1, E2. change (Z.to_nat 2) with 2%nat in *. rewrite Ht in E1. rewrite Hd in E2. subst hb.
  destruct (commit_ok (mk_drv (nif s) c2 (lwip s) (cnt s) (rx_sem s) true)) as (c3 & E & E3 & E4). rewrite (bind_done _ _ _ _ _ E).
  cbn [nif chip lwip cnt rx_sem locked] in E3, E4 |- *. rewrite E2 in E3, E4.
  change (rd [(zlen f + 2) / 256; (zlen f + 2) mod 256] 0) with ((zlen f + 2) / 256).
  change (rd [(zlen f + 2) / 256; (zlen f + 2) mod 256] 1) with ((zlen f + 2) mod 256).
  cbv zeta. rewrite Hlen. unfold MACRAW_MAX_FRAME in *. replace ((zlen f =? 0) || (1514 <? zlen f)) with false by lia.
  unfold mbind at 1, M_bind at 1, on_lwip at 1. cbn [nif chip lwip cnt rx_sem locked].
  pose proof (alloc_law (zlen f) (lwip s)) as Ha. destruct (pbuf_alloc (zlen f) (lwip s)) as [[segs|] n]; cbn [fst snd] in *.
  - destruct (Ha segs eq_refl) as [Hsum Hpos].
    destruct (recv_pbufs_ok segs (mk_drv (nif s) c3 n (cnt s) (rx_sem s) true) f (stream fs)) as (c4 & E5 & E6); [exact E3|done|done|].
    rewrite (bind_done _ _ _ _ _ E5). cbn [lwip cnt rx_sem locked].
    destruct (commit_ok (mk_drv (nif s) c4 n (cnt s) (rx_sem s) true)) as (c5 & E7 & E8 & E9). rewrite (bind_done _ _ _ _ _ E7).
    cbn [nif chip lwip cnt rx_sem locked] in E8, E9 |- *. rewrite E6 in E8, E9. eexists. split; [reflexivity|]. cbn [nif chip lwip cnt rx_sem locked].
    destruct (count_type_total (default [] (head (cut segs f))) (zlen f) (cnt s)) as (T1 & T2 & T3). by split_and!.
  - unfold count, chip_do, on_chip, modify. unfold mbind at 1 2, M_bind at 1 2. cbn [nif chip lwip cnt rx_sem locked].
    destruct (commit_ok (mk_drv (nif s) (wiz_recv_ignore (zlen f) c3) n (inc_nobuf (cnt s)) (rx_sem s) true)) as (c5 & E7 & E8 & E9).
    rewrite (bind_done _ _ _ _ _ E7). cbn [nif chip lwip cnt rx_sem locked] in E8, E9 |- *.
    rewrite ignore_law, E3 in E8, E9 by (rewrite E3, zlen_app; lia). unfold zlen in E8, E9. rewrite Nat2Z.id, drop_app_length in E8, E9.
    eexists. split; [reflexivity|]. by split_and!.
Qed.

(** the round, frame by frame *)
Lemma burst_ok k (s : drv C N) fs : Forall frame_ok fs → unread (chip s) = stream fs → seen (chip s) = zlen (stream fs) →
  ∃ s', rx_burst fuel k s = (Done tt, s') ∧
    let '(fs', n', up, lost) := hand_up k fs (lwip s) in
    unread (chip s') = stream fs' ∧ seen (chip s') = zlen (stream fs') ∧ lwip s' = n' ∧
    u32 (rx_total (cnt s')) = u32 (rx_total (cnt s) + up) ∧ u32 (rx_nobuf (cnt s')) = u32 (rx_nobuf (cnt s) + lost) ∧
    rx_sem s' = rx_sem s ∧ rx_badhdr (cnt s') = rx_badhdr (cnt s) ∧ (locked s = false → locked s' = false).
Proof.
  revert s fs. induction k as [|k IH]; intros s fs Hf Hu Hs; cbn [rx_burst hand_up].
  { exists s. rewrite !Z.add_0_r. by split_and!. }
  destruct fs as [|f fs].
  { unfold low_level_input. rewrite bind_assoc. destruct (rsr_law (chip s)) as (Hr & Hu1 & Hs1).
    unfold mbind at 1, M_bind at 1, on_chip at 1. destruct (get_rx_rsr (chip s)) as [rsr c1]. cbn [fst snd] in *. rewrite Hr, Hs.
    eexists. split; [reflexivity|]. cbn. rewrite Hu1, Hs1, Hs, Hu, !Z.add_0_r. by split_and!. }
  apply list.Forall_cons in Hf as [Hf Hfs]. destruct (input_ok s f fs Hf Hu Hs) as (s1 & E1 & U1 & S1 & L1 & (P1 & P2 & P3) & T1 & T2).
  rewrite (bind_done _ _ _ _ _ E1). destruct (pbuf_alloc (zlen f) (lwip s)) as [[segs|] n1]; cbn [fst snd fmap option_fmap option_map] in *.
  - unfold mbind at 1, M_bind at 1, on_lwip at 1. rewrite L1. destruct (netif_input (cut segs f) n1) as [ok n2].
    set (s2 := mk_drv (nif s1) (chip s1) (if ok then n2 else pbuf_free n2) (cnt s1) (rx_sem s1) (locked s1)).
    destruct (IH s2 fs Hfs U1 S1) as (s3 & E3 & Hx). exists s3. split.
    { rewrite <- E3. unfold s2. by destruct ok. }
    cbn [s2 lwip] in Hx. destruct (hand_up k fs (if ok then n2 else pbuf_free n2)) as [[[fs' n'] up] lost].
    destruct Hx as (X1 & X2 & X3 & X4 & X5 & X6 & X7 & X8). cbn [s2 cnt rx_sem locked] in X4, X5, X6, X7, X8.
    split_and!; try done; try congruence.
    + rewrite X4, T1. unfold u32. rewrite Zplus_mod_idemp_l. f_equal. lia.
    + intros _. by apply X8.
  - exists s1. split; [done|]. split_and!; try done.
    + by rewrite T1, Z.add_0_r.
    + rewrite T2. unfold u32. by rewrite Zmod_mod.
Qed.

Lemma stream_nil fs : Forall frame_ok fs → (zlen (stream fs) =? 0) = bool_decide (fs = []).
Proof.
  intros Hf. destruct fs as [|f fs]; [done|]. rewrite bool_decide_eq_false_2 by done. rewrite stream_cons, zlen_app, enc_len.
  pose proof (zlen_nonneg f). pose proof (zlen_nonneg (stream fs)). lia.
Qed.

Lemma hand_up_suffix (P : list Z → Prop) k fs (n : N) : Forall P fs →
  let '(fs', _, _, _) := hand_up k fs n in Forall P fs'.
Proof.
  revert fs n. induction k as [|k IH]; intros fs n Hf; [by destruct fs|]. destruct fs as [|f fs]; [done|]. cbn [hand_up].
  apply list.Forall_cons in Hf as [_ Hf]. destruct (pbuf_alloc _ n) as [[segs|] n1]; [|done].
  destruct (netif_input _ n1) as [ok n2]. specialize (IH fs (if ok then n2 else pbuf_free n2) Hf).
  by destruct (hand_up k fs _) as [[[fs' n'] up] lost].
Qed.
End Rx.

(** *** Sending *)

Section Tx.
Context {C N : Type} `{W5500Laws C} `{LwIP N}.

(** [k] rounds left of 103; every round that waits takes at least a tick *)
Lemma tx_ready_ends k (s : drv C N) t0 : (k ≤ 103)%nat → 103 - Z.of_nat k ≤ now (chip s) - t0 ≤ 2000 * (103 - Z.of_nat k) →
  (1 ≤ k)%nat → ∀ extra, ∃ r s', tx_ready (k + extra) (u32 t0) s = (Done (Some r), s') ∧ sent (chip s') = sent (chip s) ∧
    lwip s' = lwip s ∧ cnt s' = cnt s ∧ rx_sem s' = rx_sem s ∧ (r = true → locked s' = locked s ∨ locked s' = true) ∧ (r = false → locked s' = false).
Proof.
  revert s. induction k as [|k IH]; intros s Hk Hd Hk1 extra; [lia|]. cbn [tx_ready Nat.add].
  destruct (sr_law (chip s)) as [Hsr Hss]. unfold mbind at 1, M_bind at 1, on_chip at 1. destruct (get_sr (chip s)) as [sr c1].
  cbn [fst snd] in Hsr, Hss. destruct (sr =? SOCK_MACRAW).
  { eexists true, _. split; [reflexivity|]. cbn. split_and!; try done. by left. }
  destruct (tick_law c1) as (Ht & Hn & Hst & _). unfold mbind at 1, M_bind at 1, on_chip at 1. cbn [nif chip lwip cnt rx_sem locked].
  destruct (tick_count c1) as [t c2]. cbn [fst snd] in Ht, Hn, Hst. subst t.
  assert (u32 (u32 (now c1) - u32 t0) = now c1 - t0) as Hdiff.
  { unfold u32. rewrite <- Zminus_mod. apply Z.mod_small. lia. }
  rewrite Hdiff. unfold TX_TMO. destruct (100 <? now c1 - t0) eqn:E.
  { eexists false, _. split; [reflexivity|]. cbn. split_and!; try done. congruence. }
  destruct (delay_law c2) as [Hdl Hds].
  unfold macraw_unlock, macraw_lock, set_lock, chip_do, on_chip, modify, mbind, M_bind. cbn [nif chip lwip cnt rx_sem locked].
  destruct (IH (mk_drv (nif s) (task_delay c2) (lwip s) (cnt s) (rx_sem s) true)) with (extra := extra) as (r & s' & E' & X1 & X2 & X3 & X4 & X5 & X6);
    [lia|cbn; lia|lia|].
  exists r, s'. split; [exact E'|]. cbn in X1, X2, X3, X4, X5. split_and!; try done; try congruence.
  intros Hr. destruct (X5 Hr); by right.
Qed.

Lemma tx_wait_ends n (s : drv C N) t1 : (busy (chip s) < n)%nat →
  ∃ r s', tx_wait n t1 s = (Done (Some r), s') ∧ sent (chip s') = sent (chip s) ∧ (r = true → locked s' = locked s) ∧ (r = false → locked s' = false).
Proof.
  revert s. induction n as [|n IH]; intros s Hb; [lia|]. cbn [tx_wait]. unfold mbind at 1, M_bind at 1, on_chip at 1.
  destruct (cr_busy_law (chip s)) as (Hv & Hp & _ & _ & Hs). destruct (get_cr (chip s)) as [b c]. cbn [fst snd] in *.
  destruct (Z.eqb_spec b 0) as [Hb0|Hb0]; cbn [negb]; [eexists true, _; by split_and!|].
  assert (busy (chip s) ≠ O) by (intros Hz; apply Hb0; by apply Hv).
  destruct (tick_law c) as (Ht & Hn & Hst & Hbt). unfold mbind at 1, M_bind at 1, on_chip at 1. cbn [nif chip lwip cnt rx_sem locked].
  destruct (tick_count c) as [t c2]. cbn [fst snd] in *. destruct (TX_TMO <? _).
  { eexists false, _. split; [reflexivity|]. cbn. split_and!; try done. congruence. }
  destruct (IH (mk_drv (nif s) c2 (lwip s) (cnt s) (rx_sem s) (locked s))) as (r & s' & E' & X1 & X2 & X3); [cbn; lia|].
  exists r, s'. split; [exact E'|]. cbn in X1, X2. split_and!; try done. congruence.
Qed.

Lemma send_chain_ok p (s : drv C N) : ∃ c, send_chain p s = (Done tt, mk_drv (nif s) c (lwip s) (cnt s) (rx_sem s) (locked s)) ∧
  sent c = sent (chip s) ++ concat p.
Proof.
  revert s. induction p as [|b p IH]; intros s; cbn [send_chain concat].
  { exists (chip s). rewrite app_nil_r. by destruct s. }
  unfold chip_do, on_chip, mbind, M_bind.
  destruct (IH (mk_drv (nif s) (wiz_send_data b (chip s)) (lwip s) (cnt s) (rx_sem s) (locked s))) as (c & E & Hc).
  exists c. cbn in E, Hc. rewrite E. split; [done|]. by rewrite Hc, send_law, <- app_assoc.
Qed.
End Tx.

(** ** A chip that follows the data sheet *)

(** a command takes two polls *)
Record sim_chip := mk_sim {
  ch_unread : list Z; ch_seen : Z; ch_busy : nat; ch_sent : list Z; ch_now : Z; ch_sr : Z; ch_ir : Z; ch_imr : Z }.

#[export] Instance sim_w5500 : W5500 sim_chip := {
  get_rx_rsr c := (ch_seen c, c);
  get_cr c := (match ch_busy c with O => 0 | _ => 1 end,
    mk_sim (ch_unread c) (ch_seen c) (pred (ch_busy c)) (ch_sent c) (ch_now c) (ch_sr c) (ch_ir c) (ch_imr c));
  get_sr c := (ch_sr c, c);
  get_mr c := (0xA4, c);
  get_ir c := (ch_ir c, c);
  set_cr v c := mk_sim (ch_unread c) (if v =? Sn_CR_RECV then zlen (ch_unread c) else ch_seen c) 2 (ch_sent c) (ch_now c) (ch_sr c)
    (if v =? Sn_CR_SEND then Z.lor (ch_ir c) Sn_IR_SENDOK else ch_ir c) (ch_imr c);
  set_ir v c := mk_sim (ch_unread c) (ch_seen c) (ch_busy c) (ch_sent c) (ch_now c) (ch_sr c) (Z.land (ch_ir c) (u8 (Z.lnot v))) (ch_imr c);
  set_imr v c := mk_sim (ch_unread c) (ch_seen c) (ch_busy c) (ch_sent c) (ch_now c) (ch_sr c) (ch_ir c) v;
  set_simr v c := c;
  sock_close c := mk_sim (ch_unread c) (ch_seen c) (ch_busy c) (ch_sent c) (ch_now c) 0 (ch_ir c) (ch_imr c);
  sock_open m f c := mk_sim [] 0 (ch_busy c) (ch_sent c) (ch_now c) SOCK_MACRAW (ch_ir c) (ch_imr c);
  wiz_recv_data n c := (take (Z.to_nat n) (ch_unread c),
    mk_sim (drop (Z.to_nat n) (ch_unread c)) (ch_seen c) (ch_busy c) (ch_sent c) (ch_now c) (ch_sr c) (ch_ir c) (ch_imr c));
  wiz_recv_ignore n c :=
    mk_sim (drop (Z.to_nat n) (ch_unread c)) (ch_seen c) (ch_busy c) (ch_sent c) (ch_now c) (ch_sr c) (ch_ir c) (ch_imr c);
  wiz_send_data b c := mk_sim (ch_unread c) (ch_seen c) (ch_busy c) (ch_sent c ++ b) (ch_now c) (ch_sr c) (ch_ir c) (ch_imr c);
  get_phycfgr c := (PHYCFGR_LNK_ON, c);
  tick_count c := (u32 (ch_now c), c);
  task_delay c := mk_sim (ch_unread c) (ch_seen c) (ch_busy c) (ch_sent c) (ch_now c + 1) (ch_sr c) (ch_ir c) (ch_imr c);
}.

#[export] Instance sim_w5500_laws : W5500Laws sim_chip.
Proof.
  apply (@Build_W5500Laws sim_chip sim_w5500 ch_unread ch_seen ch_busy ch_sent ch_now 2).
  all: intros; cbn; split_and?; try done; try lia.
  by destruct (ch_busy c).
Defined.

(** lwIP with [bufs] buffers of 4 bytes, which keeps what it is handed *)
Record sim_lwip := mk_lwip { lw_free : Z; lw_got : list (list (list Z)) }.

Definition sim_segs (len : Z) : list Z := if 4 <? len then [4; len - 4] else if 0 <? len then [len] else [].

#[export] Instance sim_lwip_ops : LwIP sim_lwip := {
  pbuf_alloc len n := if (0 <? lw_free n) && (0 <? len) then (Some (sim_segs len), mk_lwip (lw_free n - 1) (lw_got n)) else (None, n);
  pbuf_free n := mk_lwip (lw_free n + 1) (lw_got n);
  netif_input b n := (true, mk_lwip (lw_free n) (lw_got n ++ [b]));
  netif_add _ _ _ n := (true, n);
}.

#[export] Instance sim_lwip_laws : LwIPLaws sim_lwip.
Proof.
  split. intros len n segs. cbn. destruct (0 <? len) eqn:El; rewrite ?andb_true_r, ?andb_false_r; [|done].
  destruct (0 <? lw_free n); [|done]. cbn. intros [= <-]. unfold sim_segs. rewrite El.
  destruct (4 <? len) eqn:E4; cbn; (split; [lia|repeat apply list.Forall_cons_2; try apply list.Forall_nil_2; lia]).
Qed.

Definition sim_start (fs : list (list Z)) (bufs : Z) : drv sim_chip sim_lwip :=
  mk_drv (mk_netif true true true [] 0 0 0) (mk_sim (stream fs) (zlen (stream fs)) 0 [] 0 SOCK_MACRAW 0 0) (mk_lwip bufs [])
    (mk_counters 0 0 0 0 0 0) 0 false.

(** ** Properties *)

(** C22: one round of the receive task, when the chip holds whole frames: they are
    cut exactly where they were joined and handed to lwIP in order, each in a chain of
    buffers that together hold its bytes, at most 32 of them; a frame for which there
    is no buffer is counted and skipped and ends the round. What is left stays in the
    chip, and the task then wakes itself again; the lock is free and no byte is taken
    for a bad header. *)
Theorem macraw_frames_in_order {C N} `{W5500Laws C} `{LwIPLaws N} (s : drv C N) fs :
  Forall frame_ok fs → unread (chip s) = stream fs → seen (chip s) = zlen (stream fs) → locked s = false →
  ∃ s', macraw_rx_turn (S CR_POLLS) s = (Done tt, s') ∧
    let '(fs', n', up, lost) := hand_up MACRAW_RX_BURST fs (lwip s) in
    lwip s' = n' ∧ unread (chip s') = stream fs' ∧ locked s' = false ∧
    u32 (rx_total (cnt s')) = u32 (rx_total (cnt s) + up) ∧ u32 (rx_nobuf (cnt s')) = u32 (rx_nobuf (cnt s) + lost) ∧
    rx_badhdr (cnt s') = rx_badhdr (cnt s) ∧
    rx_sem s' = (if bool_decide (fs' = []) then rx_sem s else Z.min (rx_sem s + 1) (Z.max (rx_sem s) 0xFFFF)).
Proof.
  intros Hf Hu Hs Hl. unfold macraw_rx_turn.
  destruct (rsr_law (chip s)) as (Hr & Hu1 & Hs1). unfold mbind at 1, M_bind at 1, on_chip at 1.
  destruct (get_rx_rsr (chip s)) as [rsr c1]. cbn [fst snd] in *. subst rsr.
  replace (seen (chip s) =? 0) with (bool_decide (fs = [])) by (rewrite Hs; symmetry; by apply stream_nil).
  destruct (decide (fs = [])) as [->|Hne].
  { rewrite bool_decide_eq_true_2 by done. eexists. split; [reflexivity|]. cbn. rewrite Hu1, Hu, !Z.add_0_r. by split_and!. }
  rewrite bool_decide_eq_false_2 by done.
  destruct (burst_ok MACRAW_RX_BURST (mk_drv (nif s) c1 (lwip s) (cnt s) (rx_sem s) (locked s)) fs Hf) as (s2 & E2 & Hx);
    [cbn; congruence|cbn; congruence|].
  pose proof (hand_up_suffix frame_ok MACRAW_RX_BURST fs (lwip s) Hf) as Hsuf.
  rewrite (bind_done _ _ _ _ _ E2). cbn [lwip cnt rx_sem locked] in Hx.
  destruct (hand_up MACRAW_RX_BURST fs (lwip s)) as [[[fs' n'] up] lost]. destruct Hx as (X1 & X2 & X3 & X4 & X5 & X6 & X7 & X8).
  unfold macraw_lock, set_lock, chip_do, on_chip, modify, sem_give, macraw_unlock, mbind, M_bind. cbn [nif chip lwip cnt rx_sem locked].
  destruct (set_ir_law Sn_IR_RECV (chip s2)) as (K1 & K2 & _). destruct (rsr_law (set_ir Sn_IR_RECV (chip s2))) as (R1 & R2 & R3).
  destruct (get_rx_rsr (set_ir Sn_IR_RECV (chip s2))) as [rsr2 c3]. cbn [fst snd] in *. subst rsr2. rewrite K2, X2, stream_nil by done.
  destruct (bool_decide (fs' = [])); cbn [negb]; (eexists; split; [reflexivity|]); cbn [nif chip lwip cnt rx_sem locked];
    split_and!; try done; try congruence.
  rewrite X6. destruct (rx_sem s <? 0xFFFF) eqn:El; lia.
Qed.

(** A length the chip cannot have stored, 0, 1, 2 or more than 1516, means that
    the pointers no longer agree: the header is counted, the socket is opened again,
    which empties it, nothing is handed up, and the lock is free again. *)
Theorem macraw_resyncs {C N} `{W5500Laws C} `{LwIPLaws N} (s : drv C N) h0 h1 rest :
  unread (chip s) = h0 :: h1 :: rest → seen (chip s) = zlen (unread (chip s)) → is_byte h0 → is_byte h1 →
  256 * h0 + h1 ≤ 2 ∨ 1516 < 256 * h0 + h1 →
  ∃ s', low_level_input (S CR_POLLS) s = (Done None, s') ∧ unread (chip s') = [] ∧ seen (chip s') = 0 ∧ lwip s' = lwip s ∧
    rx_badhdr (cnt s') = u32 (rx_badhdr (cnt s) + 1) ∧ rx_total (cnt s') = rx_total (cnt s) ∧ locked s' = false.
Proof.
  intros Hu Hs B0 B1 Hbad. unfold low_level_input.
  destruct (rsr_law (chip s)) as (Hr & Hu1 & Hs1). unfold mbind at 1, M_bind at 1, on_chip at 1.
  destruct (get_rx_rsr (chip s)) as [rsr c1]. cbn [fst snd] in Hr, Hu1, Hs1. subst rsr. rewrite Hs, Hu.
  replace (zlen (h0 :: h1 :: rest) <? 2) with false by (unfold zlen; cbn [length]; lia).
  unfold mbind at 1, M_bind at 1, macraw_lock at 1, set_lock at 1, modify at 1.
  unfold mbind at 1, M_bind at 1, on_chip at 1. cbn [nif chip lwip cnt rx_sem locked].
  destruct (recv_law 2 c1) as [E1 E2]; [rewrite Hu1, Hu; unfold zlen; cbn [length]; lia|]. rewrite Hu1, Hu in E1, E2.
  destruct (wiz_recv_data 2 c1) as [hb c2]. cbn [fst snd] in E1, E2. change (take (Z.to_nat 2) (h0 :: h1 :: rest)) with [h0; h1] in E1. subst hb.
  destruct (commit_ok (mk_drv (nif s) c2 (lwip s) (cnt s) (rx_sem s) true)) as (c3 & E & E3 & E4). rewrite (bind_done _ _ _ _ _ E).
  change (rd [h0; h1] 0) with h0. change (rd [h0; h1] 1) with h1. cbv zeta.
  rewrite lor_shiftl_add by (try done; ulia). change (2 ^ 8) with 256. rewrite (u16_id (h0 * 256 + h1)) by ulia.
  replace ((u16 (h0 * 256 + h1 - 2) =? 0) || (MACRAW_MAX_FRAME <? u16 (h0 * 256 + h1 - 2))) with true
    by (symmetry; unfold MACRAW_MAX_FRAME; unfold_u; Z.div_mod_to_equations; lia).
  rewrite (bind_done (count inc_badhdr) _ _ _ _ eq_refl).
  destruct (open_ok (mk_drv (nif s) c3 (lwip s) (inc_badhdr (cnt s)) (rx_sem s) true)) as (c4 & E5 & R1 & R2).
  cbn [nif chip lwip cnt rx_sem locked] in E5 |- *. rewrite (bind_done _ _ _ _ _ E5). eexists. split; [reflexivity|]. by split_and!.
Qed.

(** Sending ends, whatever the chip answers about its socket and its
    interrupts, with the lock free; the transmit buffer got exactly the bytes of the chain, in order, or
    nothing when the socket was not there. *)
Theorem macraw_send_ends {C N} `{W5500Laws C} `{LwIP N} (s : drv C N) p :
  ∃ r s', low_level_output (103 + CR_POLLS) p s = (Done (Some r), s') ∧ locked s' = false ∧
    sent (chip s') = sent (chip s) ++ (if bool_decide (r = ERR_IF) then [] else concat p).
Proof.
  unfold low_level_output. unfold mbind at 1, M_bind at 1, macraw_lock at 1, set_lock at 1, modify at 1.
  unfold mbind at 1, M_bind at 1, on_chip at 1. cbn [nif chip lwip cnt rx_sem locked].
  destruct (tick_law (chip s)) as (Ht & Hn & Hst & _). destruct (tick_count (chip s)) as [t c1]. cbn [fst snd] in *. subst t.
  destruct (tx_ready_ends 103 (mk_drv (nif s) c1 (lwip s) (cnt s) (rx_sem s) true) (now (chip s))) with (extra := CR_POLLS)
    as (r & s1 & E1 & X1 & _ & _ & _ & X5 & X6); [lia|cbn; lia|lia|].
  rewrite (bind_done _ _ _ _ _ E1). cbn [chip locked] in X1, X5. destruct r.
  2: { exists ERR_IF, s1. split; [done|]. split; [by apply X6|]. rewrite bool_decide_eq_true_2, app_nil_r by done. congruence. }
  assert (locked s1 = true) as Hl by (by destruct (X5 eq_refl)).
  destruct (send_chain_ok p s1) as (c2 & E2 & Hc2). rewrite (bind_done _ _ _ _ _ E2).
  rewrite (bind_done (chip_do (set_cr Sn_CR_SEND)) _ _ _ _ eq_refl). cbn [nif chip lwip cnt rx_sem locked].
  unfold mbind at 1, M_bind at 1, on_chip at 1. cbn [nif chip lwip cnt rx_sem locked].
  destruct (cr_send_law c2) as [Hcs Hcb]. destruct (tick_law (set_cr Sn_CR_SEND c2)) as (_ & _ & Hst2 & Hbt2).
  destruct (tick_count (set_cr Sn_CR_SEND c2)) as [t1 c3]. cbn [fst snd] in *.
  destruct (tx_wait_ends (103 + CR_POLLS) (mk_drv (nif s1) c3 (lwip s1) (cnt s1) (rx_sem s1) (locked s1)) t1) as (r & s2 & E3 & Y1 & Y2 & Y3);
    [cbn; lia|].
  rewrite (bind_done _ _ _ _ _ E3). cbn [chip locked] in Y1, Y2.
  assert (sent (chip s2) = sent (chip s) ++ concat p) as Hsent by congruence.
  destruct r.
  2: { exists ERR_TIMEOUT, s2. split; [done|]. split; [by apply Y3|]. by rewrite bool_decide_eq_false_2 by done. }
  unfold mbind at 1, M_bind at 1, on_chip at 1. pose proof (ir_law (chip s2)) as I1.
  destruct (get_ir (chip s2)) as [ir c4]. cbn [fst snd] in I1. destruct (set_ir_law Sn_IR_SENDOK c4) as (_ & _ & I2).
  destruct (set_ir_law Sn_IR_TIMEOUT c4) as (_ & _ & I3). destruct (negb _); [|destruct (negb _)]; (eexists _, _; split; [reflexivity|]); cbn [chip locked];
    (split; [done|]); rewrite bool_decide_eq_false_2 by done; congruence.
Qed.

(** Three frames arrive and there are two buffers: two are handed up, in pieces of
    four bytes, the third is counted as lost. *)
Lemma macraw_frames_in_order_witness :
  ∃ s', macraw_rx_turn 3 (sim_start [[1;2;3;4;5;6]; [7]; [8;9]] 2) = (Done tt, s') ∧
    lw_got (lwip s') = [[[1;2;3;4];[5;6]]; [[7]]] ∧ unread (chip s') = [] ∧ rx_total (cnt s') = 2 ∧ rx_nobuf (cnt s') = 1.
Proof.
  destruct (macraw_frames_in_order (sim_start [[1;2;3;4;5;6]; [7]; [8;9]] 2) [[1;2;3;4;5;6]; [7]; [8;9]]) as (s' & E & H).
  - repeat apply list.Forall_cons_2; [split; vm_compute; congruence..|apply list.Forall_nil_2].
  - reflexivity.
  - reflexivity.
  - reflexivity.
  - exists s'. split; [exact E|]. vm_compute in E. injection E as <-. by vm_compute.
Defined.

(** The header of a frame of 2000 bytes, which no Ethernet frame has. *)
Lemma macraw_resyncs_witness :
  ∃ s', low_level_input 3 (mk_drv (mk_netif true true true [] 0 0 0) (mk_sim [7; 210; 1] 3 0 [] 0 SOCK_MACRAW 0 0) (mk_lwip 2 [])
    (mk_counters 0 0 0 0 0 0) 0 false) = (Done None, s') ∧ unread (chip s') = [] ∧ rx_badhdr (cnt s') = 1.
Proof.
  edestruct (macraw_resyncs (mk_drv (mk_netif true true true [] 0 0 0) (mk_sim [7; 210; 1] 3 0 [] 0 SOCK_MACRAW 0 0) (mk_lwip 2 [])
    (mk_counters 0 0 0 0 0 0) 0 false) 7 210 [1]) as (s' & E & U & _ & _ & B & _); [reflexivity|reflexivity|ulia|ulia|lia|].
  exists s'. split; [exact E|]. split; [exact U|]. exact B.
Defined.

(** The gateway is host 1 of the interface's network. *)
Lemma macraw_gateway a b c d : is_byte a → is_byte b → is_byte c → is_byte d →
  gw_of (ip4_addr a b c d) = ip4_addr a b c 1.
Proof.
  intros Ha Hb Hc Hd. unfold gw_of, ip4_addr. rewrite (Z.land_lor_distr_l _ (Z.shiftl d 24)).
  assert (Z.land (Z.shiftl d 24) 0x00FFFFFF = 0) as ->.
  { change 0x00FFFFFF with (Z.ones 24). rewrite Z.land_ones by done. rewrite Z.shiftl_mul_pow2 by done. by apply Z_mod_mult. }
  rewrite Z.lor_0_r. f_equal. change 0x00FFFFFF with (Z.ones 24). rewrite Z.land_ones by done. apply Z.mod_small.
  rewrite (Z.lor_comm _ (Z.shiftl c 16)), (Z.lor_comm a).
  unfold is_byte in *. rewrite (lor_shiftl_add 8 b a) by lia. rewrite (lor_shiftl_add 16 c) by lia. lia.
Qed.

(** The interface after start-up: the link is what the monitor last reported, and the
    hardware address the one the chip filters on. *)
Lemma macraw_link_follows {C N} `{W5500 C} `{LwIP N} (s s1 : drv C N) mac o1 o2 o3 o4 ups up :
  w5500_macraw_init mac o1 o2 o3 o4 s = (Done true, s1) →
  let set_all := foldr (λ u (k : M (drv C N) unit), w5500_macraw_set_link u;; k) (mret tt) (ups ++ [up]) in
  ∃ s2, set_all s1 = (Done tt, s2) ∧ w5500_macraw_link_up s2 = (Done up, s2) ∧ w5500_macraw_get_mac s2 = (Done (Some mac), s2).
Proof.
  intros Hi.
  assert (nif_added (nif s1) = true ∧ hwaddr (nif s1) = mac) as Hs1.
  { revert Hi. unfold w5500_macraw_init, low_level_init, macraw_open_socket, macraw_lock, macraw_unlock, set_lock, set_nif, chip_do, on_chip,
      on_lwip, modify, mret, M_ret, mbind, M_bind. cbn [nif chip lwip cnt rx_sem locked].
    match goal with |- context [get_sr ?c] => destruct (get_sr c) end; cbn [nif chip lwip cnt rx_sem locked].
    match goal with |- context [get_mr ?c] => destruct (get_mr c) end; cbn [nif chip lwip cnt rx_sem locked].
    match goal with |- context [get_phycfgr ?c] => destruct (get_phycfgr c) end; cbn [nif chip lwip cnt rx_sem locked].
    match goal with |- context [netif_add ?a ?b ?c ?n] => destruct (netif_add a b c n) as [[|] ?] end;
      cbn [nif chip lwip cnt rx_sem locked hwaddr]; intros [= <-]; by split. }
  clear Hi. revert s1 Hs1. induction ups as [|u ups IH]; intros s1 [Ha Hm]; cbn [app foldr].
  - unfold w5500_macraw_set_link, macraw_set_link_cb, w5500_macraw_link_up, w5500_macraw_get_mac, set_nif, gets, modify, mret, M_ret, mbind, M_bind.
    rewrite Ha. destruct up, (nif_link (nif s1)) eqn:El; cbn; eexists; (split; [reflexivity|]); cbn; rewrite ?Ha, ?Hm, ?El; done.
  - destruct (w5500_macraw_set_link u s1) as [o s'] eqn:E.
    assert (o = Done tt ∧ nif_added (nif s') = true ∧ hwaddr (nif s') = mac) as (-> & Hs').
    { revert E. unfold w5500_macraw_set_link, macraw_set_link_cb, w5500_macraw_link_up, set_nif, gets, modify, mret, M_ret, mbind, M_bind.
      rewrite Ha. destruct u, (nif_link (nif s1)); cbn; intros [= <- <-]; by split_and!. }
    rewrite (bind_done _ _ _ _ _ E). by apply IH.
Qed.

(** The socket pool over the free map, of which the lower half is never set. *)
Definition pool_ok (map : Z) : Prop := Z.land map 0x0F = 0 ∧ is_byte map.

(** An allocation returns the first free socket of the pool and takes it out; freeing
    it gives the same pool back. There is none exactly when all four are taken. *)
Lemma sn_pool_roundtrip map : pool_ok map →
  match sn_alloc map with
  | (Some sn, map') => SN_POOL_BASE ≤ sn < WIZCHIP_SOCK_NUM ∧ Z.testbit map sn = true ∧ Z.testbit map' sn = false ∧
      (∀ i, i ≠ sn → Z.testbit map' i = Z.testbit map i) ∧ pool_ok map' ∧ sn_free sn map' = map
  | (None, map') => map = 0 ∧ map' = 0
  end.
Proof.
  intros [Hl Hb].
  assert (map ∈ Z.mul 16 <$> seqZ 0 16) as Hin.
  { apply list_elem_of_fmap. exists (map / 16). split.
    - change 0x0F with (Z.ones 4) in Hl. rewrite Z.land_ones in Hl by done. change (2 ^ 4) with 16 in Hl. pose proof (Z.div_mod map 16). lia.
    - apply elem_of_seqZ. unfold is_byte in Hb. Z.div_mod_to_equations. lia. }
  clear Hl Hb. revert map Hin.
  assert (Forall (λ map, match sn_alloc map with
    | (Some sn, map') => SN_POOL_BASE ≤ sn < WIZCHIP_SOCK_NUM ∧ Z.testbit map sn = true ∧ map' = Z.clearbit map sn ∧
        (Z.land map' 0x0F = 0 ∧ 0 ≤ map' < 256) ∧ sn_free sn map' = map
    | (None, map') => map = 0 ∧ map' = 0 end) (Z.mul 16 <$> seqZ 0 16)) as Hall.
  { vm_compute. repeat apply list.Forall_cons_2; try apply list.Forall_nil_2; repeat split; try done; intros [=]. }
  intros map Hin. eapply list.Forall_forall in Hall; [|exact Hin]. destruct (sn_alloc map) as [[sn|] map']; [|done].
  destruct Hall as (H1 & H2 & -> & H4 & H5). split_and!; try done; try lia.
  - apply Z.clearbit_eq.
  - intros i Hi. by apply Z.clearbit_neq.
Qed.
